(* ===== verification/_CoqProject ===== *)
-Q . S2P
Prelude.v
CalendarTime.v
Charset.v
Multibyte.v
Iconv.v
AvlTree.v
HashTable.v
MessageQueue.v
Sort.v
StrToInt.v
Printf.v
PrintfFormat.v
Memory.v
StringScan.v
StringCopy.v
StringTok.v
TwoWay.v
LockAbi.v
RwLock.v
Once.v
Semaphore.v
Inet.v
WideTables.v
WideClass.v
Strftime.v
Strptime.v
Stdio.v
StdioRefine.v
TimeZone.v
TzData.v
SingleByte.v
Gb2312.v
ThreadKeys.v
Barrier.v
VersionCompare.v
Services.v
ServiceTable.v
AddrInfo.v
CtypeNames.v
Locale.v
LocaleLife.v
