(* ===== verification/Prelude.v ===== *)
(** * cloudlibc: a verification development

    cloudlibc is the C library of the CloudABI operating environment.  This
    library models the parts of it that have logic of their own, above the
    system calls and beside the tables and the third-party code, and proves
    that they do what their interfaces promise.  All paths below are inside
    the repository.

    ** The program and its model

    The C library has no central loop: it is a set of components that call
    each other.  Each file models one component, and a file requires those
    whose functions its component calls.

    - [Prelude]: integers at their C width ([u8] to [u64], [s32], [s64]), the
      tactics and hints, sums over finite maps, and generic list lemmas.
    - [CalendarTime]: src/common/time.h, src/libc/time/localtime_utc.c,
      mktime_utc.c, mktime.c, localtime_r.c and their callers.  A [tm] is the
      C structure, month and year arithmetic is the C arithmetic.
    - [Charset]: src/common/mbstate.h and the UTF-8 and US-ASCII codecs of
      src/libc/locale/ctype.  [lc_ctype] is the structure of function pointers
      by which a locale selects its character set, and the class [CtypeLaws]
      what the functions behind the pointers promise; both codecs are
      instances.
    - [SingleByte], [Gb2312]: the other character sets of that directory, with
      their tables: 16 supersets of ASCII, IBM037, ISO-8859-1 and ISO-8859-15,
      and GB2312.
    - [Multibyte]: the restartable and string conversions of src/libc/wchar,
      uchar and stdlib, proved for any lawful character set.
    - [Iconv]: src/libc/iconv/iconv.c, between any two lawful character sets.
    - [AvlTree]: tsearch, tdelete, tfind, twalk and tdestroy of
      src/libc/search, with the bit path of search_impl.h in its machine words.
    - [HashTable]: hcreate_r and hsearch_r of src/libc/search.
    - [MessageQueue]: src/libc/mqueue, its doubly linked heap of messages and
      the threads that wait on it as a step relation.
    - [Sort]: the inline qsort_r, bsearch, lfind and lsearch of
      src/include/stdlib.h and search.h.
    - [StrToInt]: the integer parser of src/common/parser_strtoint.h and its
      instances strtol to wcstoumax.  The class [ByteWise] states what its loop
      over white space needs of a character set, to be decoded a byte at a time;
      UTF-8 and the sets of [SingleByte] are instances.
    - [Printf], [PrintfFormat]: vsnprintf, from src/common/vprintf.h and
      vprintf_body.h; it prints numbers that [StrToInt] reads back.  The second
      file has the meaning of a format: its pieces, the arguments that fit them
      and what they print.
    - [Memory], [StringScan], [StringCopy], [StringTok]: the functions of
      src/libc/string on a byte-addressed memory, with the loops over aligned
      long words, and the byte sets of src/common/byteset.h.
    - [LockAbi], [RwLock], [Once], [Semaphore], [Barrier]: the locks of
      src/libc/pthread, pthread_once, src/libc/semaphore and the barriers.  The lock word is shared with the
      kernel; [LockAbi] states the layout of the word and what the kernel does
      to it.
    - [ThreadKeys]: thread-specific data and its destructors, from pthread_key_create.c
      and its neighbours in src/libc/pthread.
    - [VersionCompare]: strverscmp and wcsverscmp, from src/common/strverscmp.h.
    - [TwoWay]: memmem and strstr, from src/common/twoway.h: the two-way search
      of Crochemore and Perrin, with the combinatorics of words behind it.
    - [WideTables], [WideClass]: src/libc/wctype, src/libc/ctype and wcwidth of
      src/libc/wchar; the first file has the tables of the code.
    - [Strftime], [Strptime]: src/common/strftime.h and strptime.h, which print
      and read the dates of [CalendarTime] in any time locale.
    - [TimeZone], [TzData]: localtime_l and mktime_l with the rules for daylight
      saving time, from src/libc/time and time_impl.h there; the second file is
      the database of src/libc/locale/timezone/tzdata.h.
    - [Stdio], [StdioRefine]: the streams of src/common/stdio.h and src/libc/stdio
      over the three providers that keep their data in memory (fmemopen,
      open_memstream, tmpfile); the second file has the class [Provider], which
      is what the stream functions need of a provider, and the refinement.
    - [Inet]: inet_pton, inet_ntop and inet_aton of src/libc/arpa/inet, which
      print with [Printf].
    - [Services], [ServiceTable], [AddrInfo]: src/libc/netdb and strcasecmp_l; the
      second file has the tables of port and protocol numbers, the third getaddrinfo
      and getnameinfo, on top of [Inet] and the tables.
    - [CtypeNames], [Locale], [LocaleLife]: src/libc/locale without its constant
      data; the names of character sets, which newlocale and iconv_open look up, the
      objects that newlocale makes from names and other objects, and their lifetime
      with the strings that are converted on demand by concurrent calls.

    ** Conventions

    A definition has the name of the C function, and the name of the function
    with a suffix when it is one of its loops.  Pure functions are Rocq
    functions; stateful ones take and return the state.  Undefined behaviour
    (an access outside memory, a null dereference, a signed overflow that is
    tracked) is [None] in the option monad, so that a theorem which says that
    a function returns [Some] says that it has none.  Errors are values: errno,
    a null pointer, a negative return value.  Unsigned arithmetic wraps at the
    width of the C type; long and pointers have 64 bits, and words are little
    endian, as on the targets of the library.

    Concurrent components are step relations.  One step of a thread ends at
    its next access to shared state (an atomic instruction, a system call, a
    critical section), and steps of all threads, of the kernel and of the
    callers interleave in every order.  Atomics are sequentially consistent:
    the memory orders of the code are not modelled.

    Code that is not in the repository is a parameter: the comparison function
    of a tree or an array, whether malloc succeeds and where the memory lies,
    the layout of the lock word ([LockAbi]), the kernel ([Kernel]) and its
    part of condition variables ([Condvar]).  The laws of the classes are the
    documented behaviour, and each class has an instance, so that the theorems
    proved against it are not vacuous.

    ** Fuel

    Loops whose end is not visible in the structure of their data take fuel,
    and out of fuel is [None].  No theorem assumes that the fuel suffices:
    each shows that the definitions return for the fuel their callers give
    them, or for any fuel above a stated bound.

    - Loops over strings and memory: the number of bytes up to the terminator
      or the limit, plus one; long word loops take fewer turns than that.
    - [vprintf_body]: the length of the format plus one, as every turn reads a
      character.  [mbstoc32s_count] and [iconv_loop]: the length of the input
      plus one, as every character has a byte; likewise [skip_whitespace] and
      [peek_char].
    - [hsearch_probe] and [hsearch_lookup_free]: the size of the table, as
      triangular probing visits every slot of a table of a power of two once.
    - [qsort_r], [partition], [scan_up], [scan_down]: the length of the array
      (plus one); [bsearch_loop]: the logarithm of it.
    - [pton6_loop] takes 9 for the at most 8 groups of an address, [ntop6_loop]
      9 for the 8 groups, [aton_loop] 5 for the at most 4 parts.
    - [maximal_suffix_loop] of the two-way search: seven times the length of the needle,
      from a measure of its three indices; the search itself turns at most once
      for every byte of the haystack.
    - Binary searches: 64 for the tables of character classes, 13 for GB2312
      and 7 for the other character sets, the logarithms of their sizes;
      [grow_loop] of tmpfile 64, as the buffer doubles.
    - [strftime] and [strptime]: the length of the format and of the composite
      formats it can expand to.
    - The loops over the port numbers: the length of the table in bytes, as every
      entry has at least four; [strcasecmp_loop] and [strncasecmp_loop]: the length
      of the first string plus one; [exit_loop]: the 64 iterations of the code.
    - [month_loop]: 13 for the at most 12 months; [mq_send_insert] and
      [mq_destroy_loop]: the number of messages in the heap plus one.

    Bounds the theorems do assume: trees have at most as many nodes as the
    address space holds, the readers and sleepers of a lock can be counted in
    its word ([fits] in [RwLock], a similar one in [Once]), the sizes given to
    memory functions do not wrap around the address space, a key is created and
    deleted fewer than 2^64 times (C33), a barrier has fewer than 2^32 rounds (C35),
    and fewer than 2^32 - 1 references to locales are held at a time (C40).

    Where the theorems say less than the code does, or the code does less than it
    means to: C8, C37 and C38 are about calls whose allocations succeed.  C13 and C14
    leave out what is undefined in the code, the most negative 64-bit integer with %d
    and the precision INT_MIN, and C13 the conversions that are not modelled (floating
    point, %m), those that are wrong (%lc, %C, %ls with a precision) and numbered
    arguments.  C28 and C29 are about instants whose local time has a year that fits an
    int.  C39 has two halves: in C the search for a language reads out of bounds and
    newlocale is undefined for every listed language; on an implementation where that
    read reaches null padding it finds them all.  C40 is about the wide strings of a
    locale, and the text is that of a lawful character set.

    ** What the theorems show

    - Time (C1, C2): conversion between seconds and Gregorian dates is exact in
      both directions for every representable year, and mktime normalises any
      fields without overflow.
    - Characters (C3 to C6): UTF-8 is decoded and encoded exactly as Unicode
      defines it, incrementally too; string conversions round trip; iconv
      converts what it consumes and reports the rest correctly.
    - Containers (C7 to C10): the tree refines a sorted set and stays balanced,
      the hash table refines a finite map, the message queue refines a stable
      priority queue under every interleaving and loses no wake-up.
    - Arrays and numbers (C11 to C14): sorting; exact or saturated parsing of
      every string, whatever bytes it holds; that snprintf is defined for every
      typed call, prints what the format means and keeps to its buffer; and the
      exact text of the integer conversions.
    - Strings (C15, C16, C23, C36): copies are fresh and fail exactly when malloc does;
      tokenisers terminate and yield exactly the tokens; the two-way search finds
      what the naive search finds; strverscmp is a total order that compares
      numbers by value.  The theorems on the word-at-a-time scans, on comparisons,
      moves and fills are in the files without a number.
    - Threads (C17 to C21, C33 to C35): mutual exclusion, absence of failed
      assertions and of lost wake-ups for locks, once objects, semaphores and
      barriers; the value of a semaphore counts the calls that returned 0;
      thread-specific data refines a map.
    - Addresses (C22): printing and parsing are inverse.
    - Character classes (C24): the search decides membership in the tables, wctype
      knows the twelve classes, and these stand in the relations the standards
      require.
    - Dates as text (C25, C26): strftime computes the weeks of ISO 8601, and
      strptime reads back what it prints.
    - Streams (C27): every sequence of calls on a stream in memory gives what it
      gives on a file, a list of bytes with a position.
    - Time zones (C28 to C30): local times denote the instants they were computed
      from, with the offset of the era that has not ended and the rule that took
      effect last; mktime_l finds the instants again, and the database satisfies
      what that relies on.
    - Tables of character sets (C31, C32): the single-byte sets are lawful, so
      that C3, C6 and C12 hold for them too; GB2312 round trips outside one row.
    - Name services (C37, C38): getaddrinfo reads back what getnameinfo prints, and
      services are found with their aliases.  That getaddrinfo stays in its arrays
      and that threads share the objects for services is shown without a number.
    - Locales (C39, C40): newlocale makes the locale that a name and a mask ask for,
      and under every interleaving of its users a locale object lives as long as
      there are references to it, and takes its memory with it.  iconv_open finds
      the character sets, as is shown without a number.

    Besides, lemmas such as [MessageQueue.mq_send_wakeup_lost],
    [Printf.wide_precision_exceeded], [Printf.grouping_precision_padding],
    [StdioRefine.fmemopen_update_empty], [Services.strcasecmp_not_ascii],
    [SingleByte.iso_8859_15_out_of_bounds], [Gb2312.gb2312_out_of_bounds] and
    [Printf.integer_conversion_undefined] show inputs on which the code does not do
    what it means to.

    ** Not modelled

    - System calls and thin layers over them: files, sockets, directories,
      processes, clocks, sleeping, streams over file descriptors, thread
      creation and exit, program start; they have little logic besides the call.
    - The tables of messages, money and dates of the locales other than POSIX, and
      what only copies from them: localeconv, nl_langinfo, strerror.  Regular
      expressions, which are stubs in the source.
    - Third-party code under src/contrib: jemalloc, double-conversion, argdata
      and the mathematics of musl; with them floating point parsing, printing
      (%a, %e, %f and %g) and math.h.
    - In modelled components: numbered arguments and %m of printf; the wide
      character variants of shared code; the memory orders of atomics;
      process-shared attributes, which only tell the kernel how to find a lock;
      the null pointer to a root that tsearch refuses; failing allocations of
      getservbyname; the narrow strings of locales; the range of the recursion count
      of a stream lock.

    ** Plan

    What is left with logic of its own: scanf on top of [StrToInt]; strfmon;
    a64l and the 48-bit generator of drand48; the path functions of libgen; and
    the wide character copies of the string functions. *)

From stdpp Require Export base list option gmap numbers.
From Stdlib Require Export ZArith Lia.

#[local] Open Scope Z_scope.

(** ** Notation and automation

    [clib] collects the bounds lemmas that close the side conditions of the
    components' arithmetic. *)

Create HintDb clib.

(** Case analysis on the boolean comparisons the translated code branches
    on: each comparison becomes the proposition it decides. *)
Ltac zcase1 :=
  match goal with
  | |- context [Z.ltb ?a ?b] => destruct (Z.ltb_spec a b)
  | |- context [Z.leb ?a ?b] => destruct (Z.leb_spec a b)
  | |- context [Z.eqb ?a ?b] => destruct (Z.eqb_spec a b)
  | |- context [Z.gtb ?a ?b] => rewrite (Z.gtb_ltb a b)
  | |- context [Z.geb ?a ?b] => rewrite (Z.geb_leb a b)
  end.

Ltac zcases := repeat (zcase1; simpl; try lia).

(** The same on a hypothesis. *)
Ltac zcase1_in H :=
  match type of H with
  | context [Z.ltb ?a ?b] => destruct (Z.ltb_spec a b)
  | context [Z.leb ?a ?b] => destruct (Z.leb_spec a b)
  | context [Z.eqb ?a ?b] => destruct (Z.eqb_spec a b)
  | context [Z.gtb ?a ?b] => rewrite (Z.gtb_ltb a b) in H
  | context [Z.geb ?a ?b] => rewrite (Z.geb_leb a b) in H
  end.

(** Boolean hypotheses to propositions. *)
Ltac zprop :=
  repeat match goal with
  | H : Z.ltb _ _ = true |- _ => apply Z.ltb_lt in H
  | H : Z.ltb _ _ = false |- _ => apply Z.ltb_ge in H
  | H : Z.leb _ _ = true |- _ => apply Z.leb_le in H
  | H : Z.leb _ _ = false |- _ => apply Z.leb_gt in H
  | H : Z.eqb _ _ = true |- _ => apply Z.eqb_eq in H
  | H : Z.eqb _ _ = false |- _ => apply Z.eqb_neq in H
  | H : (_ && _) = true |- _ => apply andb_true_iff in H; destruct H
  | H : (_ || _) = false |- _ => apply orb_false_iff in H; destruct H
  | H : negb _ = true |- _ => apply negb_true_iff in H
  | H : negb _ = false |- _ => apply negb_false_iff in H
  end.

(** Equal applications: descend until [lia] closes an argument. *)
Ltac eq_args := solve [repeat first [done | lia | f_equal]].

(** ** C integers

    A value of a C integer type is the integer it denotes.  An unsigned
    conversion wraps; signed overflow is never wrapped (the theorems state
    that it does not happen, or the definition returns [None]). *)

Definition uN (w z : Z) : Z := z mod 2 ^ w.
Definition sN (w z : Z) : Z := (z + 2 ^ (w - 1)) mod 2 ^ w - 2 ^ (w - 1).

Abbreviation u8 := (uN 8).
Abbreviation u16 := (uN 16).
Abbreviation u32 := (uN 32).
Abbreviation u64 := (uN 64).
Abbreviation s8 := (sN 8).
Abbreviation s16 := (sN 16).
Abbreviation s32 := (sN 32).
Abbreviation s64 := (sN 64).

Definition INT_MIN : Z := -2147483648.
Definition INT_MAX : Z := 2147483647.
Definition UINT_MAX : Z := 4294967295.
Definition LONG_MIN : Z := -9223372036854775808.
Definition LONG_MAX : Z := 9223372036854775807.
Definition ULONG_MAX : Z := 18446744073709551615.

Definition in_unsigned (w z : Z) : Prop := 0 <= z < 2 ^ w.
Definition in_signed (w z : Z) : Prop := - 2 ^ (w - 1) <= z < 2 ^ (w - 1).

(** Bytes: the values of an [unsigned char]. *)
Definition byte (b : Z) : Prop := 0 <= b < 256.

#[global] Instance byte_dec b : Decision (byte b).
Proof. unfold byte. apply _. Defined.

Lemma uN_small w z : in_unsigned w z -> uN w z = z.
Proof. apply Z.mod_small. Qed.

Lemma uN_range w z : 0 <= w -> in_unsigned w (uN w z).
Proof. intros. apply Z.mod_pos_bound, Z.pow_pos_nonneg; lia. Qed.

Lemma uN_idem w z : uN w (uN w z) = uN w z.
Proof. unfold uN. apply Zmod_mod. Qed.

Lemma sN_small w z : 0 < w -> in_signed w z -> sN w z = z.
Proof.
  intros Hw [H1 H2]. unfold sN. rewrite Z.mod_small; [lia|].
  replace (2 ^ w) with (2 * 2 ^ (w - 1)); [lia|].
  rewrite <- Z.pow_succ_r by lia. f_equal. lia.
Qed.

Lemma sN_range w z : 0 < w -> in_signed w (sN w z).
Proof.
  intros Hw. unfold sN, in_signed.
  assert (2 ^ w = 2 * 2 ^ (w - 1)) as E
    by (rewrite <- Z.pow_succ_r by lia; f_equal; lia).
  pose proof (Z.mod_pos_bound (z + 2 ^ (w - 1)) (2 ^ w)) as B.
  assert (0 < 2 ^ w) by (apply Z.pow_pos_nonneg; lia). lia.
Qed.

#[export] Hint Resolve uN_range : clib.

(** C's truncating division and remainder, in terms of Euclidean division. *)
Lemma quot_rem_floor a b :
  0 < b ->
  (if Z.rem a b <? 0 then (Z.quot a b - 1, Z.rem a b + b) else (Z.quot a b, Z.rem a b))
  = (a / b, a mod b).
Proof.
  intros Hb.
  pose proof (Z.quot_rem' a b) as E.
  destruct (Z.ltb_spec (Z.rem a b) 0).
  - assert (a < 0).
    { destruct (Z.lt_trichotomy a 0) as [?|[->|?]]; [done| |].
      - rewrite Z.rem_0_l in H by lia. lia.
      - pose proof (Z.rem_nonneg a b). lia. }
    pose proof (Z.rem_bound_abs a b). f_equal.
    + apply Z.div_unique with (r := Z.rem a b + b); lia.
    + apply Z.mod_unique with (q := Z.quot a b - 1); lia.
  - pose proof (Z.rem_bound_abs a b). f_equal.
    + apply Z.div_unique with (r := Z.rem a b); lia.
    + apply Z.mod_unique with (q := Z.quot a b); lia.
Qed.

(** ** Bit operations as arithmetic *)

(** Bits and ranges of unsigned words. *)
Lemma uN_testbit n x i : 0 <= n -> 0 <= i -> Z.testbit (uN n x) i = (i <? n) && Z.testbit x i.
Proof.
  intros Hn Hi. unfold uN. destruct (Z.ltb_spec i n); simpl.
  - apply Z.mod_pow2_bits_low; lia.
  - apply Z.mod_pow2_bits_high; lia.
Qed.

Lemma range_bits n x : 0 <= n -> 0 <= x < 2 ^ n <->
  0 <= x /\ forall i, n <= i -> Z.testbit x i = false.
Proof.
  intros Hn. split.
  - intros [H0 H]. split; [done|]. by apply Z.bounded_iff_bits_nonneg.
  - intros [H0 H]. split; [done|]. by apply Z.bounded_iff_bits_nonneg.
Qed.

Lemma testbit_high n x i : 0 <= x < 2 ^ n -> 0 <= n <= i -> Z.testbit x i = false.
Proof. intros Hx Hi. apply (range_bits n x) in Hx; [|lia]. apply Hx. lia. Qed.

Lemma lor_range n x y : 0 <= n -> 0 <= x < 2 ^ n -> 0 <= y < 2 ^ n -> 0 <= Z.lor x y < 2 ^ n.
Proof.
  intros Hn [? Hx]%range_bits [? Hy]%range_bits; [|done..].
  apply range_bits; [done|]. split; [apply Z.lor_nonneg; lia|].
  intros i Hi. by rewrite Z.lor_spec, Hx, Hy.
Qed.

Lemma land_range n x y : 0 <= n -> 0 <= x < 2 ^ n -> 0 <= Z.land x y < 2 ^ n.
Proof.
  intros Hn [? Hx]%range_bits; [|done..].
  apply range_bits; [done|]. split; [apply Z.land_nonneg; lia|].
  intros i Hi. by rewrite Z.land_spec, Hx.
Qed.

Lemma lxor_range n x y : 0 <= n -> 0 <= x < 2 ^ n -> 0 <= y < 2 ^ n -> 0 <= Z.lxor x y < 2 ^ n.
Proof.
  intros Hn [? Hx]%range_bits [? Hy]%range_bits; [|done..].
  apply range_bits; [done|]. split; [apply Z.lxor_nonneg; lia|].
  intros i Hi. by rewrite Z.lxor_spec, Hx, Hy.
Qed.

Lemma shiftr_range n x k : 0 <= n -> 0 <= k -> 0 <= x < 2 ^ n -> 0 <= Z.shiftr x k < 2 ^ n.
Proof.
  intros Hn Hk [? Hx]%range_bits; [|done].
  apply range_bits; [done|]. split; [apply Z.shiftr_nonneg; lia|].
  intros i Hi. rewrite Z.shiftr_spec by lia. apply Hx. lia.
Qed.

#[export] Hint Resolve lor_range land_range lxor_range shiftr_range : clib.


Lemma lor_disjoint a b : Z.land a b = 0 -> Z.lor a b = a + b.
Proof.
  intros H. rewrite <- Z.lxor_lor by done. symmetry. by apply Z.add_nocarry_lxor.
Qed.

Lemma land_shifted_low a x k :
  0 <= k -> 0 <= x < 2 ^ k -> Z.land (a * 2 ^ k) x = 0.
Proof.
  intros Hk Hx. apply Z.bits_inj'. intros i Hi. rewrite Z.land_spec, Z.bits_0.
  destruct (Z.lt_ge_cases i k).
  - by rewrite Z.mul_pow2_bits_low by lia.
  - rewrite <- (Z.mod_small x (2 ^ k)) by done.
    rewrite Z.mod_pow2_bits_high by lia. apply andb_false_r.
Qed.

(** [(a << k) | x] when [x] fits in the [k] low bits. *)
Lemma lor_shifted_low a x k :
  0 <= k -> 0 <= x < 2 ^ k -> Z.lor (Z.shiftl a k) x = a * 2 ^ k + x.
Proof.
  intros. rewrite Z.shiftl_mul_pow2 by lia. by apply lor_disjoint, land_shifted_low.
Qed.

Lemma land_low a k : 0 <= k -> Z.land a (Z.ones k) = a mod 2 ^ k.
Proof. apply Z.land_ones. Qed.

(** ** Error numbers ([src/include/errno.h]) *)

Definition E2BIG : Z := 1.
Definition EAFNOSUPPORT : Z := 5.
Definition EAGAIN : Z := 6.
Definition EBUSY : Z := 10.
Definition EILSEQ : Z := 25.
Definition EINVAL : Z := 28.
Definition EMSGSIZE : Z := 35.
Definition ENOMEM : Z := 48.
Definition ENOSPC : Z := 51.
Definition EOVERFLOW : Z := 61.
Definition ERANGE : Z := 68.
Definition ESRCH : Z := 71.
Definition ETIMEDOUT : Z := 73.

(** ** Exhaustive checks over integer ranges

    [Zforall n f] runs the executable predicate [f] on [0 .. n-1]. *)

Definition Zforall_step (f : Z -> bool) (st : Z * bool) : Z * bool :=
  let '(i, b) := st in (i + 1, if b then f i else false).

Definition Zforall (n : Z) (f : Z -> bool) : bool :=
  snd (Z.iter n (Zforall_step f) (0, true)).

Lemma Ziter_succ {A} (g : A -> A) (x : A) m :
  0 <= m -> Z.iter (Z.succ m) g x = g (Z.iter m g x).
Proof.
  intros. destruct m as [|p|p]; [done| |lia].
  rewrite <- Pos2Z.inj_succ. simpl. apply Pos.iter_succ.
Qed.

Lemma Zforall_aux f m :
  0 <= m ->
  fst (Z.iter m (Zforall_step f) (0, true)) = m /\
  (snd (Z.iter m (Zforall_step f) (0, true)) = true ->
   forall i, 0 <= i < m -> f i = true).
Proof.
  intros Hm. pattern m. apply natlike_ind; [split; [done|lia]| |done].
  clear m Hm. intros m Hm IH. rewrite Ziter_succ by done.
  destruct (Z.iter m _ _) as [j b]. simpl in *.
  destruct IH as [-> IH]. split; [lia|]. destruct b; [|done].
  intros Hf k Hk. destruct (decide (k = m)) as [->|]; [done|].
  apply IH; [done|lia].
Qed.

Lemma Zforall_spec n f : Zforall n f = true -> forall i, 0 <= i < n -> f i = true.
Proof. intros H i Hi. apply (Zforall_aux f n); [lia|exact H|done]. Qed.

(** ** Comparison functions

    What tsearch, qsort and bsearch ask of the caller's comparison function:
    a total order on the keys up to those it identifies. *)
Class ComparOrder {K} (compar : K -> K -> Z) : Prop := {
  compar_anti x y : Z.sgn (compar y x) = - Z.sgn (compar x y);
  compar_trans x y z : compar x y < 0 -> compar y z < 0 -> compar x z < 0;
  compar_eq x y z : compar x y = 0 -> Z.sgn (compar x z) = Z.sgn (compar y z)
}.

#[export] Instance Zsub_compar : ComparOrder (fun x y => x - y).
Proof. split; intros; lia. Qed.

Section ComparLaws.
  Context {K : Type} (compar : K -> K -> Z) `{!ComparOrder compar}.

Lemma compar_refl x : compar x x = 0.
Proof. pose proof (compar_anti x x). lia. Qed.

Lemma compar_le_trans x y z : compar x y <= 0 -> compar y z <= 0 -> compar x z <= 0.
Proof.
  intros H1 H2.
  destruct (Z.eq_dec (compar x y) 0) as [E|].
  - pose proof (compar_eq x y z E). lia.
  - destruct (Z.eq_dec (compar y z) 0) as [E|].
    + pose proof (compar_eq y z x E). pose proof (compar_anti x y). pose proof (compar_anti x z). lia.
    + assert (compar x z < 0) by (apply (compar_trans x y z); lia). lia.
Qed.
End ComparLaws.

(** ** Sums over finite maps *)

Section Total.
  Context {A : Type}.
  Implicit Types (f : A -> nat) (m : gmap Z A).

Definition total f m : nat := map_fold (fun _ x n => f x + n)%nat 0%nat m.

Lemma total_insert f ths t th th' : ths !! t = Some th ->
  (total f (<[t := th']> ths) + f th = total f ths + f th')%nat.
Proof.
  intros Ht. unfold total.
  rewrite (map_fold_delete_L _ _ t th ths) by (done || intros; lia).
  rewrite <- insert_delete_eq, map_fold_insert_L by (try apply lookup_delete_eq; intros; lia). lia.
Qed.

Lemma total_le f ths t th : ths !! t = Some th -> (f th <= total f ths)%nat.
Proof.
  intros Ht. unfold total. rewrite (map_fold_delete_L _ _ t th ths) by (done || intros; lia). lia.
Qed.

Lemma total_le2 f ths t th u uh : t <> u -> ths !! t = Some th -> ths !! u = Some uh ->
  (f th + f uh <= total f ths)%nat.
Proof.
  intros Hne Ht Hu. unfold total at 1. rewrite (map_fold_delete_L _ _ t th ths) by (done || intros; lia).
  pose proof (total_le f (delete t ths) u uh) as HE. rewrite lookup_delete_ne in HE by done.
  specialize (HE Hu). unfold total in HE. lia.
Qed.

Lemma total_zero f ths : (forall t th, ths !! t = Some th -> f th = 0%nat) -> total f ths = 0%nat.
Proof.
  unfold total. induction ths as [|t th ths Ht IH] using map_ind; intros Hz; [apply map_fold_empty|].
  rewrite map_fold_insert_L by (done || intros; lia).
  rewrite (Hz t th), IH; [done| |by rewrite lookup_insert_eq].
  intros u uh Hu. apply (Hz u). rewrite lookup_insert_ne; [done|]. by intros ->; rewrite Hu in Ht.
Qed.

Lemma total_add f g m : total (fun x => f x + g x)%nat m = (total f m + total g m)%nat.
Proof.
  unfold total. induction m as [|t th m Ht IH] using map_ind; [by rewrite !map_fold_empty|].
  rewrite !map_fold_insert_L by (done || intros; lia). lia.
Qed.

Lemma total_le_size f m : (forall x, f x <= 1)%nat -> (total f m <= size m)%nat.
Proof.
  intros Hf. unfold total. induction m as [|t th m Ht IH] using map_ind; [by rewrite map_fold_empty|].
  rewrite map_fold_insert_L by (done || intros; lia). rewrite map_size_insert_None by done.
  pose proof (Hf th). lia.
Qed.

(** Counting by a list of keys. *)
Lemma total_ge_length f m l : NoDup l -> (forall t, t ∈ l -> exists x, m !! t = Some x /\ (1 <= f x)%nat) ->
  (length l <= total f m)%nat.
Proof.
  intros Hl. revert m. induction Hl as [|t l Hn Hl IH]; intros m Hm; simpl; [lia|].
  destruct (Hm t) as (x & Ht & Hx); [by constructor|].
  unfold total. rewrite (map_fold_delete_L _ _ t x m) by (done || intros; lia).
  pose proof (IH (delete t m)) as IH'. unfold total in IH'. enough (length l <= map_fold (fun _ y n => f y + n) 0 (delete t m))%nat by lia.
  apply IH'. intros u Hu. rewrite lookup_delete_ne by (intros ->; by apply Hn). apply Hm. by constructor.
Qed.

Lemma total_le_length f m l : (forall t x, m !! t = Some x -> f x <> 0%nat -> f x = 1%nat /\ t ∈ l) ->
  (total f m <= length l)%nat.
Proof.
  unfold total. revert l. induction m as [|t x m Ht IH] using map_ind; intros l Hm; [rewrite map_fold_empty; lia|].
  rewrite map_fold_insert_L by (done || intros; lia).
  assert (forall u y, m !! u = Some y -> f y <> 0%nat -> f y = 1%nat /\ u ∈ l /\ u <> t) as Hm'.
  { intros u y Hu Hy. destruct (decide (u = t)) as [->|]; [by rewrite Ht in Hu|].
    destruct (Hm u y) as [? ?]; [by rewrite lookup_insert_ne|done|done]. }
  destruct (decide (f x = 0%nat)) as [->|Hx].
  - apply IH. intros u y Hu Hy. by destruct (Hm' u y Hu Hy) as (? & ? & ?).
  - destruct (Hm t x) as [E (l1 & l2 & ->)%list_elem_of_split]; [by rewrite lookup_insert_eq|done|].
    rewrite E. rewrite length_app. cbn [length].
    enough (map_fold (fun _ y n => f y + n) 0 m <= length (l1 ++ l2))%nat as Hle by (rewrite length_app in Hle; lia).
    apply IH. intros u y Hu Hy. destruct (Hm' u y Hu Hy) as (? & Hin & ?). split; [done|].
    rewrite elem_of_app, elem_of_cons in Hin. rewrite elem_of_app. tauto.
Qed.
End Total.
