(* ===== verification/CalendarTime.v ===== *)
(** * Calendar time in UTC

    [src/common/time.h], [src/libc/time/localtime_utc.c], [mktime_utc.c],
    [mktime.c], [localtime_r.c]: the conversion between a number of seconds
    since the Epoch and a broken-down [struct tm], and the conversions between
    [struct timespec] and CloudABI's 64-bit nanosecond timestamps. *)

From S2P Require Import Prelude.
From stdpp Require Import strings.
#[local] Open Scope Z_scope.

#[local] Ltac Zify.zify_post_hook ::= Z.to_euclidean_division_equations.

(** ** Data *)

Record tm := Tm {
  tm_sec : Z; tm_min : Z; tm_hour : Z; tm_mday : Z; tm_mon : Z; tm_year : Z;
  tm_wday : Z; tm_yday : Z; tm_isdst : Z;
  tm_gmtoff : Z; tm_zone : option string; tm_nsec : Z }.

Record timespec := Timespec { tv_sec : Z; tv_nsec : Z }.
Record timeval := Timeval { tvv_sec : Z; tvv_usec : Z }.

Definition NSEC_PER_SEC : Z := 1000000000.

(** ** [common/time.h] *)

Definition is_leap (year : Z) : bool :=
  let year := Z.rem year 400 in
  let year := if year <? 0 then year + 400 else year in
  ((Z.rem year 4 =? 0) && negb (Z.rem year 100 =? 0)) || (year =? 100).

Definition get_months (year : Z) : list Z :=
  if is_leap year
  then [31; 29; 31; 30; 31; 30; 31; 31; 30; 31; 30; 31]
  else [31; 28; 31; 30; 31; 30; 31; 31; 30; 31; 30; 31].

Definition get_months_cumulative (year : Z) : list Z :=
  if is_leap year
  then [0; 31; 60; 91; 121; 152; 182; 213; 244; 274; 305; 335; 366]
  else [0; 31; 59; 90; 120; 151; 181; 212; 243; 273; 304; 334; 365].

Definition get_ydays (year : Z) : Z := if is_leap year then 366 else 365.

(** [cloudabi_timestamp_t] is an unsigned 64-bit integer;
    [__builtin_mul_overflow] and [__builtin_add_overflow] compute the exact
    result and report whether it fits. *)
Definition fits_u64 (z : Z) : bool := (0 <=? z) && (z <? 2 ^ 64).

Definition timespec_to_timestamp_exact (ts : timespec) : option Z :=
  if (tv_nsec ts <? 0) || (NSEC_PER_SEC <=? tv_nsec ts) then None
  else if tv_sec ts <? 0 then None
  else if negb (fits_u64 (tv_sec ts * NSEC_PER_SEC)) then None
  else
    let timestamp := u64 (tv_sec ts * NSEC_PER_SEC) in
    if negb (fits_u64 (timestamp + tv_nsec ts)) then None
    else Some (u64 (timestamp + tv_nsec ts)).

Definition timespec_to_timestamp_clamp (ts : timespec) : option Z :=
  if (tv_nsec ts <? 0) || (NSEC_PER_SEC <=? tv_nsec ts) then None
  else if tv_sec ts <? 0 then Some 0
  else if negb (fits_u64 (tv_sec ts * NSEC_PER_SEC)) then Some ULONG_MAX
  else
    let timestamp := u64 (tv_sec ts * NSEC_PER_SEC) in
    if negb (fits_u64 (timestamp + tv_nsec ts)) then Some ULONG_MAX
    else Some (u64 (timestamp + tv_nsec ts)).

Definition timestamp_to_timespec (timestamp : Z) : timespec :=
  Timespec (timestamp / NSEC_PER_SEC) (timestamp mod NSEC_PER_SEC).

Definition timestamp_to_timeval (timestamp : Z) : timeval :=
  let ts := timestamp_to_timespec timestamp in
  Timeval (tv_sec ts) (Z.quot (tv_nsec ts) 1000).

(** ** [__localtime_utc] *)

Definition ERALENGTH : Z := 146097 * 86400.

(** [while (tm->tm_yday >= months[tm->tm_mon + 1]) ++tm->tm_mon;]  The fuel
    bounds the number of table entries inspected; an access past the table is
    [None]. *)
Fixpoint month_loop (fuel : nat) (months : list Z) (yday mon : Z) : option Z :=
  match fuel with
  | O => None
  | S fuel =>
      limit ← months !! Z.to_nat (mon + 1);
      if limit <=? yday then month_loop fuel months yday (mon + 1) else Some mon
  end.

(** The date part: from the number of days since the start of the era to the
    year (within the era, counted from 1900), the day of the year, the month
    and the day of the month. *)
Definition localtime_date (days : Z) : option (Z * Z * Z * Z) :=
  let days := u32 (days + Z.quot (s32 days - 11323) 36524) in
  let days := u32 (days + u32 (days / 1461 + u32 (days + 731) / 1461
                               + u32 (days + 1096) / 1461)) in
  let yday := days mod 366 in
  let local_year := u16 (days / 366 + 70) in
  let months := get_months_cumulative local_year in
  mon ← month_loop 13 months yday 0;
  start ← months !! Z.to_nat mon;
  Some (local_year, yday, mon, yday - start + 1).

Definition localtime_utc (timer : Z) : option (Z * tm) :=
  let era := Z.quot timer ERALENGTH in
  let timer := Z.rem timer ERALENGTH in
  let '(era, timer) :=
    if timer <? 0 then (era - 1, timer + ERALENGTH) else (era, timer) in
  let seconds := u32 (u64 timer mod 86400) in
  let minutes := u16 (seconds / 60) in
  let days := u32 (u64 timer / 86400) in
  '(local_year, yday, mon, mday) ← localtime_date days;
  let year := era * 400 + local_year in
  let result y := Tm (seconds mod 60) (minutes mod 60) (minutes / 60) mday mon y
                     (u32 (days + 4) mod 7) yday 0 0 None 0 in
  Some (if year <? INT_MIN then (EOVERFLOW, result INT_MIN)
        else if INT_MAX <? year then (EOVERFLOW, result INT_MAX)
        else (0, result year)).

(** ** [__mktime_utc] *)

(** [modulo_quotient(&numer, denom)]: the quotient and the updated [*numer]. *)
Definition modulo_quotient (numer denom : Z) : Z * Z :=
  let quot := Z.quot numer denom in
  let numer := Z.rem numer denom in
  if numer <? 0 then (quot - 1, numer + denom) else (quot, numer).

(** Days from the Epoch to the start of a year, lines 35-40. *)
Definition mktime_year_day (year : Z) : Z :=
  let era := Z.quot year 400 - 2 in
  let local_year := u16 (Z.rem year 400 + 800) in
  (local_year - 70) * 365 + Z.quot (local_year - 69) 4
  - Z.quot (local_year - 1) 100 + Z.quot (local_year + 299) 400 + era * 146097.

Definition mktime_utc (t : tm) : option timespec :=
  let '(nsec_quot, nsec) := modulo_quotient (tm_nsec t) NSEC_PER_SEC in
  let sec := tm_sec t + tm_min t * 60 + tm_hour t * 3600 + nsec_quot in
  let '(mon_quot, mon) := modulo_quotient (tm_mon t) 12 in
  let year := tm_year t + mon_quot in
  start ← get_months_cumulative year !! Z.to_nat mon;
  let yday := tm_mday t + start - 1 in
  let day := yday + mktime_year_day year in
  Some (Timespec (sec + day * 86400) nsec).

(** ** The public entry points

    [mktime] ([timegm]) and [localtime_r] ([gmtime_r]): the value returned,
    [errno] when it is set, and the structure stored through the pointer. *)

Definition set_zone_nsec (t : tm) (nsec : Z) : tm :=
  Tm (tm_sec t) (tm_min t) (tm_hour t) (tm_mday t) (tm_mon t) (tm_year t)
     (tm_wday t) (tm_yday t) (tm_isdst t) (tm_gmtoff t) (Some "UTC"%string) nsec.

Definition mktime (t : tm) : option (Z * option Z * tm) :=
  result ← mktime_utc t;
  '(error, t') ← localtime_utc (tv_sec result);
  let t' := set_zone_nsec t' (tv_nsec result) in
  Some (if negb (error =? 0) then (-1, Some error, t')
        else (tv_sec result, None, t')).

(** The boolean says whether the result pointer is returned (not [NULL]). *)
Definition localtime_r (timer : Z) : option (bool * option Z * tm) :=
  '(error, t) ← localtime_utc timer;
  let t := set_zone_nsec t (tm_nsec t) in
  Some (if negb (error =? 0) then (false, Some error, t) else (true, None, t)).

(** ** The Gregorian calendar as the reference

    A year is counted from 1900, as in [tm_year]. *)

Definition gregorian_leap (y : Z) : Prop :=
  (1900 + y) mod 4 = 0 /\ ((1900 + y) mod 100 <> 0 \/ (1900 + y) mod 400 = 0).

Lemma is_leap_spec y : is_leap y = true <-> gregorian_leap y.
Proof.
  unfold is_leap, gregorian_leap.
  assert (forall m, (if Z.rem m 400 <? 0 then Z.rem m 400 + 400 else Z.rem m 400)
                    = m mod 400) as E.
  { intros m. pose proof (quot_rem_floor m 400 ltac:(lia)) as Q.
    destruct (Z.ltb_spec (Z.rem m 400) 0); congruence. }
  rewrite E. clear E.
  assert (0 <= y mod 400 < 400) by lia.
  rewrite !(Z.rem_mod_nonneg (y mod 400)) by lia.
  rewrite orb_true_iff, andb_true_iff, negb_true_iff, !Z.eqb_eq, Z.eqb_neq.
  lia.
Qed.

Lemma is_leap_era y e : is_leap (y + e * 400) = is_leap y.
Proof.
  apply eq_bool_prop_intro. rewrite !Is_true_true, !is_leap_spec.
  unfold gregorian_leap. lia.
Qed.

(** The number of days from the Epoch to the start of year [y], in closed
    form with rounding towards minus infinity. *)
Definition year_day (y : Z) : Z :=
  (y - 70) * 365 + (y - 69) / 4 - (y - 1) / 100 + (y + 299) / 400.

Lemma mktime_year_day_closed y : mktime_year_day y = year_day y.
Proof.
  unfold mktime_year_day, year_day.
  pose proof (Z.quot_rem' y 400). pose proof (Z.rem_bound_abs y 400).
  rewrite uN_small by (unfold in_unsigned; lia).
  rewrite !Z.quot_div_nonneg by lia.
  generalize dependent (Z.rem y 400). intros r. generalize (Z.quot y 400).
  intros q -> ?. lia.
Qed.

Lemma year_day_step y : year_day (y + 1) = year_day y + get_ydays y.
Proof.
  unfold get_ydays. destruct (is_leap y) eqn:E.
  - apply is_leap_spec in E. unfold gregorian_leap, year_day in *. lia.
  - apply not_true_iff_false in E. rewrite is_leap_spec in E.
    unfold gregorian_leap, year_day in *. lia.
Qed.

Lemma year_day_era y e : year_day (y + e * 400) = year_day y + e * 146097.
Proof. unfold year_day. lia. Qed.

Lemma get_ydays_bounds y : 365 <= get_ydays y <= 366.
Proof. unfold get_ydays. destruct (is_leap y); lia. Qed.

Lemma year_day_mono y y' : y <= y' -> year_day y <= year_day y'.
Proof. unfold year_day. lia. Qed.

(** A day number determines its year and its day of the year. *)
Lemma year_day_unique y y' d d' :
  0 <= d < get_ydays y -> 0 <= d' < get_ydays y' ->
  year_day y + d = year_day y' + d' -> y = y' /\ d = d'.
Proof.
  intros H H' E.
  pose proof (year_day_step y). pose proof (year_day_step y').
  destruct (Z.lt_trichotomy y y') as [?|[->|?]].
  - pose proof (year_day_mono (y + 1) y'). lia.
  - lia.
  - pose proof (year_day_mono (y' + 1) y). lia.
Qed.

(** Every day of an era belongs to one of its 400 years. *)
Lemma year_of_day d :
  0 <= d < 146097 ->
  exists y, 70 <= y < 470 /\ year_day y <= d < year_day y + get_ydays y.
Proof.
  intros Hd.
  assert (forall n, 0 <= n -> d < year_day (70 + n) ->
          exists y, 70 <= y < 70 + n /\ year_day y <= d < year_day y + get_ydays y)
    as IH.
  { apply (natlike_ind (fun n => d < year_day (70 + n) -> _)).
    - change (year_day (70 + 0)) with 0. lia.
    - intros n Hn IH Hlt.
      destruct (decide (d < year_day (70 + n))) as [L|L].
      + destruct (IH L) as (y & ? & ?). exists y. lia.
      + exists (70 + n). pose proof (year_day_step (70 + n)) as S.
        replace (70 + Z.succ n) with (70 + n + 1) in Hlt by lia. lia. }
  apply (IH 400); [lia|]. change (year_day (70 + 400)) with 146097. lia.
Qed.

(** ** Correctness of the date computation of [__localtime_utc] *)

(** The leap days inserted by lines 41-42, as a function of the day. *)
Definition century_days (d : Z) : Z := Z.quot (d - 11323) 36524.
Definition quad_days (d : Z) : Z := d / 1461 + (d + 731) / 1461 + (d + 1096) / 1461.
Definition inserted_days (d : Z) : Z :=
  century_days d + quad_days (d + century_days d).

Lemma century_days_bounds d : 0 <= d < 146097 -> 0 <= century_days d <= 3.
Proof. unfold century_days. lia. Qed.

Lemma inserted_days_mono d d' :
  0 <= d <= d' -> d' < 146097 -> inserted_days d <= inserted_days d'.
Proof.
  intros ? ?. unfold inserted_days.
  assert (century_days d <= century_days d') as Hc.
  { unfold century_days. apply Z.quot_le_mono; lia. }
  revert Hc. generalize (century_days d) (century_days d'). intros c c' Hc.
  unfold quad_days. apply Z.add_le_mono; [done|].
  repeat apply Z.add_le_mono; apply Z.div_le_mono; lia.
Qed.

(** On the first and the last day of each of the 400 years of an era, the
    inserted days are those that make every earlier year 366 days long. *)
Lemma inserted_days_years :
  Zforall 400 (fun i =>
    let y := i + 70 in
    let n := 366 * (y - 70) - year_day y in
    (inserted_days (year_day y) =? n)
    && (inserted_days (year_day y + get_ydays y - 1) =? n)) = true.
Proof. vm_compute. reflexivity. Qed.

Lemma inserted_days_spec y d :
  70 <= y < 470 -> year_day y <= d < year_day y + get_ydays y ->
  d + inserted_days d = 366 * (y - 70) + (d - year_day y).
Proof.
  intros Hy Hd.
  pose proof (Zforall_spec _ _ inserted_days_years (y - 70) ltac:(lia)) as H.
  cbv beta zeta in H. replace (y - 70 + 70) with y in H by lia. zprop.
  pose proof (year_day_mono 70 y ltac:(lia)) as M1. change (year_day 70) with 0 in M1.
  pose proof (year_day_mono (y + 1) 470 ltac:(lia)) as M2.
  change (year_day 470) with 146097 in M2. rewrite year_day_step in M2.
  pose proof (inserted_days_mono (year_day y) d).
  pose proof (inserted_days_mono d (year_day y + get_ydays y - 1)). lia.
Qed.

(** The month loop, checked on every day of a leap and of a common year. *)
Definition month_ok (lens cum : list Z) (yday : Z) : bool :=
  match month_loop 13 cum yday 0 with
  | Some mon =>
      match cum !! Z.to_nat mon, lens !! Z.to_nat mon with
      | Some start, Some len =>
          (0 <=? mon) && (mon <? 12) && (start <=? yday) && (yday <? start + len)
      | _, _ => false
      end
  | None => false
  end.

Lemma month_loop_ok y yday :
  0 <= yday < get_ydays y ->
  exists mon start len,
    month_loop 13 (get_months_cumulative y) yday 0 = Some mon /\
    get_months_cumulative y !! Z.to_nat mon = Some start /\
    get_months y !! Z.to_nat mon = Some len /\
    0 <= mon < 12 /\ start <= yday < start + len.
Proof.
  intros H.
  assert (month_ok (get_months y) (get_months_cumulative y) yday = true) as M.
  { unfold get_ydays, get_months, get_months_cumulative in *. destruct (is_leap y).
    - apply (Zforall_spec 366); [vm_compute; reflexivity|done].
    - apply (Zforall_spec 365); [vm_compute; reflexivity|done]. }
  unfold month_ok in M. destruct (month_loop _ _ _ _) as [mon|] eqn:L; [|done].
  destruct (get_months_cumulative y !! _) as [start|] eqn:Es; [|done].
  destruct (get_months y !! _) as [len|] eqn:El; [|done].
  zprop. eauto 10.
Qed.

(** What a date must satisfy to denote day [d] since the Epoch. *)
Record date_ok (y yday mon mday d : Z) : Prop := {
  do_yday : 0 <= yday < get_ydays y;
  do_day : year_day y + yday = d;
  do_mon : 0 <= mon < 12;
  do_mday : exists start len,
    get_months_cumulative y !! Z.to_nat mon = Some start /\
    get_months y !! Z.to_nat mon = Some len /\
    yday = start + mday - 1 /\ 1 <= mday <= len }.

Lemma localtime_date_ok d :
  0 <= d < 146097 ->
  exists y yday mon mday,
    localtime_date d = Some (y, yday, mon, mday) /\
    70 <= y < 470 /\ date_ok y yday mon mday d.
Proof.
  intros Hd. destruct (year_of_day d Hd) as (y & Hy & Hdy).
  pose proof (inserted_days_spec y d Hy Hdy) as HI.
  pose proof (century_days_bounds d Hd) as HC.
  unfold inserted_days, quad_days in HI. unfold localtime_date. cbv zeta.
  rewrite (sN_small 32 d) by (unfold in_signed; lia). fold (century_days d).
  assert (0 <= d - year_day y < 366) as Hyd
    by (pose proof (get_ydays_bounds y); lia).
  destruct (month_loop_ok y (d - year_day y)) as (mon & start & len & Hl & Hs & Hlen & Hm & Hr);
    [lia|].
  rewrite Z.add_assoc in HI. revert HI.
  assert (0 <= d + century_days d < 146100) as Hc by lia. revert Hc.
  generalize (d + century_days d). intros c Hc HI.
  rewrite (uN_small 32 c), (uN_small 32 (c + 731)), (uN_small 32 (c + 1096))
    by (unfold in_unsigned; lia).
  rewrite (uN_small 32 (c / 1461 + _ + _)) by (unfold in_unsigned; lia).
  rewrite HI, (uN_small 32), (uN_small 16) by (unfold in_unsigned; lia).
  replace ((366 * (y - 70) + (d - year_day y)) mod 366) with (d - year_day y) by lia.
  replace ((366 * (y - 70) + (d - year_day y)) / 366 + 70) with y by lia.
  rewrite Hl. simpl. rewrite Hs. simpl.
  eexists _, _, _, _. split; [reflexivity|]. split; [done|]. split; [lia|lia|done|].
  exists start, len. split; [done|]. split; [done|]. lia.
Qed.

(** The broken-down time of second [t] of a day, without the year clamping. *)
Definition make_tm (t y yday mon mday : Z) : tm :=
  let s := t mod 86400 in
  Tm (s mod 60) (s / 60 mod 60) (s / 3600) mday mon y
     ((t / 86400 + 4) mod 7) yday 0 0 None 0.

Lemma date_ok_era y yday mon mday d e :
  date_ok y yday mon mday d ->
  date_ok (e * 400 + y) yday mon mday (e * 146097 + d).
Proof.
  intros [? ? ? (start & len & ?)].
  assert (is_leap (e * 400 + y) = is_leap y) as EL
    by (rewrite Z.add_comm; apply is_leap_era).
  split; unfold get_ydays, get_months_cumulative, get_months in *; rewrite ?EL; [done| |done|eauto].
  rewrite (Z.add_comm _ y), year_day_era. lia.
Qed.

Lemma localtime_utc_spec t :
  exists y yday mon mday,
    date_ok y yday mon mday (t / 86400) /\
    localtime_utc t =
      Some (if y <? INT_MIN then (EOVERFLOW, make_tm t INT_MIN yday mon mday)
            else if INT_MAX <? y then (EOVERFLOW, make_tm t INT_MAX yday mon mday)
            else (0, make_tm t y yday mon mday)).
Proof.
  unfold localtime_utc.
  pose proof (quot_rem_floor t ERALENGTH ltac:(done)) as Q. rewrite Q. clear Q.
  assert (t = t / ERALENGTH * ERALENGTH + t mod ERALENGTH) as E
    by (unfold ERALENGTH; lia).
  assert (0 <= t mod ERALENGTH < ERALENGTH) as B by (unfold ERALENGTH; lia).
  revert E B. generalize (t / ERALENGTH) (t mod ERALENGTH). unfold ERALENGTH.
  intros e r E B. subst t.
  rewrite (uN_small 64 r) by (unfold in_unsigned; lia).
  rewrite (uN_small 32 (r mod 86400)), (uN_small 32 (r / 86400)),
    (uN_small 16), (uN_small 32) by (unfold in_unsigned; lia).
  destruct (localtime_date_ok (r / 86400) ltac:(lia)) as (y & yday & mon & mday & -> & Hy & Hok).
  simpl. exists (e * 400 + y), yday, mon, mday. split.
  - replace ((e * (146097 * 86400) + r) / 86400) with (e * 146097 + r / 86400) by lia.
    by apply date_ok_era.
  - unfold make_tm.
    replace ((e * (146097 * 86400) + r) mod 86400) with (r mod 86400) by lia.
    replace (((e * (146097 * 86400) + r) / 86400 + 4) mod 7)
      with ((r / 86400 + 4) mod 7) by lia.
    replace (r mod 86400 / 60 / 60) with (r mod 86400 / 3600) by lia.
    done.
Qed.

(** ** Correctness of [__mktime_utc] *)

Lemma modulo_quotient_spec a b : 0 < b -> modulo_quotient a b = (a / b, a mod b).
Proof.
  intros. unfold modulo_quotient. rewrite <- (quot_rem_floor a b) by done. done.
Qed.

Lemma months_cumulative_total y m :
  0 <= m < 12 -> exists start, get_months_cumulative y !! Z.to_nat m = Some start.
Proof.
  intros. apply lookup_lt_is_Some. unfold get_months_cumulative.
  destruct (is_leap y); simpl; lia.
Qed.

Lemma mktime_utc_spec t :
  exists start,
    get_months_cumulative (tm_year t + tm_mon t / 12) !! Z.to_nat (tm_mon t mod 12)
      = Some start /\
    mktime_utc t = Some (Timespec
      (tm_sec t + tm_min t * 60 + tm_hour t * 3600 + tm_nsec t / NSEC_PER_SEC
       + (tm_mday t + start - 1 + year_day (tm_year t + tm_mon t / 12)) * 86400)
      (tm_nsec t mod NSEC_PER_SEC)).
Proof.
  destruct (months_cumulative_total (tm_year t + tm_mon t / 12) (tm_mon t mod 12))
    as [start Hs]; [lia|].
  exists start. split; [done|]. unfold mktime_utc.
  rewrite !modulo_quotient_spec by done. cbv beta iota. rewrite Hs.
  simpl. by rewrite mktime_year_day_closed.
Qed.

(** A canonical broken-down UTC time, with every field in range. *)
Record tm_ok (t : tm) : Prop := {
  ok_sec : 0 <= tm_sec t < 60;
  ok_min : 0 <= tm_min t < 60;
  ok_hour : 0 <= tm_hour t < 24;
  ok_year : INT_MIN <= tm_year t <= INT_MAX;
  ok_date : exists d,
    date_ok (tm_year t) (tm_yday t) (tm_mon t) (tm_mday t) d /\
    tm_wday t = (d + 4) mod 7;
  ok_rest : tm_isdst t = 0 /\ tm_gmtoff t = 0 /\ tm_zone t = None /\ tm_nsec t = 0 }.

Lemma make_tm_ok t y yday mon mday :
  INT_MIN <= y <= INT_MAX -> date_ok y yday mon mday (t / 86400) ->
  tm_ok (make_tm t y yday mon mday).
Proof.
  intros Hy Hd. split; simpl; try lia; [|done].
  by exists (t / 86400).
Qed.

Lemma mktime_make_tm t y yday mon mday :
  date_ok y yday mon mday (t / 86400) ->
  mktime_utc (make_tm t y yday mon mday) = Some (Timespec t 0).
Proof.
  intros [_ Hd Hm (start & len & Hs & _ & Hyd & _)].
  destruct (mktime_utc_spec (make_tm t y yday mon mday)) as (start' & Hs' & ->).
  simpl in *. rewrite (Z.div_small mon 12), (Z.mod_small mon 12), Z.add_0_r in Hs' by lia.
  rewrite Hs in Hs'. injection Hs' as <-. f_equal. f_equal.
  change (0 / NSEC_PER_SEC) with 0. rewrite (Z.div_small mon 12), !Z.add_0_r by lia.
  replace (mday + start - 1 + year_day y) with (t / 86400) by lia.
  clear. pose proof (Z.div_mod t 86400). assert (0 <= t mod 86400 < 86400) by lia.
  revert H H0. generalize (t mod 86400) (t / 86400). lia.
Qed.

(** The months of a year partition its days. *)
Lemma month_unique_nat y (m m' : nat) md md' s s' l l' :
  (m < 12)%nat -> (m' < 12)%nat ->
  get_months_cumulative y !! m = Some s -> get_months_cumulative y !! m' = Some s' ->
  get_months y !! m = Some l -> get_months y !! m' = Some l' ->
  1 <= md <= l -> 1 <= md' <= l' -> s + md = s' + md' -> m = m' /\ md = md'.
Proof.
  unfold get_months_cumulative, get_months. intros L L'. destruct (is_leap y).
  all: destruct m as [|[|[|[|[|[|[|[|[|[|[|[|m]]]]]]]]]]]]; try lia.
  all: destruct m' as [|[|[|[|[|[|[|[|[|[|[|[|m']]]]]]]]]]]]; try lia.
  all: simpl; intros; simplify_eq; lia.
Qed.

Lemma month_unique y m m' md md' s s' l l' :
  0 <= m < 12 -> 0 <= m' < 12 ->
  get_months_cumulative y !! Z.to_nat m = Some s ->
  get_months_cumulative y !! Z.to_nat m' = Some s' ->
  get_months y !! Z.to_nat m = Some l -> get_months y !! Z.to_nat m' = Some l' ->
  1 <= md <= l -> 1 <= md' <= l' -> s + md = s' + md' -> m = m' /\ md = md'.
Proof.
  intros. edestruct (month_unique_nat y (Z.to_nat m) (Z.to_nat m')); eauto; lia.
Qed.

Lemma date_ok_unique y yday mon mday y' yday' mon' mday' d :
  date_ok y yday mon mday d -> date_ok y' yday' mon' mday' d ->
  y = y' /\ yday = yday' /\ mon = mon' /\ mday = mday'.
Proof.
  intros [? ? ? (s & l & Hs & Hl & ? & ?)] [? ? ? (s' & l' & Hs' & Hl' & ? & ?)].
  destruct (year_day_unique y y' yday yday') as [-> ->]; [done|done|lia|].
  destruct (month_unique y' mon mon' mday mday' s s' l l') as [-> ->]; try done. lia.
Qed.

(** ** Properties *)

(** The days the code assigns to a year are those of the Gregorian calendar:
    the Epoch is the start of year 70, and consecutive years are 366 or 365
    days apart according to the leap rule.  (These equations determine
    [mktime_year_day] on every integer.) *)
Lemma mktime_year_day_calendar y :
  mktime_year_day 70 = 0 /\
  mktime_year_day (y + 1) =
    mktime_year_day y + get_ydays y /\
  (get_ydays y = 366 <-> gregorian_leap y).
Proof.
  rewrite !mktime_year_day_closed. split; [done|]. split; [apply year_day_step|].
  unfold get_ydays. rewrite <- is_leap_spec. destruct (is_leap y); done.
Qed.

(** Which instants a [struct tm] can represent. *)
Definition representable (t : Z) : Prop :=
  mktime_year_day INT_MIN <= t / 86400 < mktime_year_day (INT_MAX + 1).

Lemma representable_year t y yday mon mday :
  date_ok y yday mon mday (t / 86400) ->
  representable t <-> INT_MIN <= y <= INT_MAX.
Proof.
  intros [Hy Hd _ _]. unfold representable. rewrite !mktime_year_day_closed.
  pose proof (year_day_step y) as St. rewrite <- Hd. split; intros [H1 H2].
  - destruct (Z.lt_ge_cases y INT_MIN).
    + pose proof (year_day_mono (y + 1) INT_MIN). lia.
    + destruct (Z.lt_ge_cases INT_MAX y); [|lia].
      pose proof (year_day_mono (INT_MAX + 1) y). lia.
  - pose proof (year_day_mono INT_MIN y).
    pose proof (year_day_mono (y + 1) (INT_MAX + 1)). lia.
Qed.

(** C1: [__localtime_utc] is total.  For an instant whose year fits in an
    [int] it returns 0 and a [struct tm] whose fields are all in range, whose
    date is the Gregorian date of that day, and from which [__mktime_utc]
    recovers the instant; for any other instant it returns [EOVERFLOW] and
    stores the nearest representable year. *)
Theorem localtime_utc_correct (t : Z) :
  exists e b,
    localtime_utc t = Some (e, b) /\
    (representable t -> e = 0 /\ tm_ok b /\ mktime_utc b = Some (Timespec t 0)) /\
    (~ representable t ->
       e = EOVERFLOW /\
       tm_year b = if t <? 0 then INT_MIN else INT_MAX).
Proof.
  destruct (localtime_utc_spec t) as (y & yday & mon & mday & Hd & ->).
  pose proof (representable_year t _ _ _ _ Hd) as HR. setoid_rewrite HR.
  assert (y < INT_MIN -> t < 0).
  { intros. destruct Hd as [? Hd ? ?]. pose proof (year_day_mono (y + 1) INT_MIN).
    pose proof (year_day_step y). assert (year_day INT_MIN < 0) by done. lia. }
  assert (INT_MAX < y -> 0 <= t).
  { intros. destruct Hd as [? Hd ? ?]. pose proof (year_day_mono INT_MAX y).
    assert (0 < year_day INT_MAX) by done. lia. }
  assert (INT_MIN < INT_MAX) by done.
  destruct (Z.ltb_spec y INT_MIN); [|destruct (Z.ltb_spec INT_MAX y)].
  all: eexists _, _; split; [reflexivity|]; split; intros Hr; try lia; simpl.
  - destruct (Z.ltb_spec t 0); split; done || lia.
  - destruct (Z.ltb_spec t 0); split; done || lia.
  - split; [done|]. split; [by apply make_tm_ok|by apply mktime_make_tm].
Qed.

Lemma tm_ok_localtime b :
  tm_ok b ->
  exists t, mktime_utc b = Some (Timespec t 0) /\ localtime_utc t = Some (0, b).
Proof.
  intros Hb. destruct Hb as [Hs Hm Hh Hy (d & Hd & Hw) (Hi & Hg & Hz & Hn)].
  assert (exists t, t / 86400 = d /\
    t mod 86400 = tm_hour b * 3600 + tm_min b * 60 + tm_sec b) as (t & Ed & Em).
  { exists (d * 86400 + tm_hour b * 3600 + tm_min b * 60 + tm_sec b). lia. }
  assert (make_tm t (tm_year b) (tm_yday b) (tm_mon b) (tm_mday b) = b) as Eb.
  { unfold make_tm. rewrite Ed, Em. clear - Hs Hm Hh Hw Hi Hg Hz Hn.
    destruct b; simpl in *. subst. f_equal; lia. }
  exists t. rewrite <- Ed in Hd. split.
  - rewrite <- Eb. by apply mktime_make_tm.
  - destruct (localtime_utc_spec t) as (y & yday & mon & mday & Hd' & ->).
    destruct (date_ok_unique _ _ _ _ _ _ _ _ _ Hd Hd') as (<- & <- & <- & <-).
    rewrite Eb. zcases. done.
Qed.

Lemma date_ok_int y yday mon mday d : date_ok y yday mon mday d -> 1 <= mday <= 31.
Proof.
  intros [_ _ Hm (s & l & _ & Hl & _ & ?)].
  assert (l <= 31); [|lia].
  assert (Forall (fun l => l <= 31) (get_months y)) as F.
  { unfold get_months. destruct (is_leap y); repeat constructor; done. }
  rewrite Forall_lookup in F. eauto.
Qed.

(** [mktime_utc] ignores the derived fields and the zone. *)
Lemma mktime_utc_ext a b :
  tm_sec a = tm_sec b -> tm_min a = tm_min b -> tm_hour a = tm_hour b ->
  tm_mday a = tm_mday b -> tm_mon a = tm_mon b -> tm_year a = tm_year b ->
  tm_nsec a = tm_nsec b -> mktime_utc a = mktime_utc b.
Proof. destruct a, b. simpl. intros. subst. done. Qed.

Lemma mktime_utc_set_nsec b n :
  0 <= n < NSEC_PER_SEC ->
  forall s, tm_nsec b = 0 -> mktime_utc b = Some (Timespec s 0) ->
  mktime_utc (set_zone_nsec b n) = Some (Timespec s n).
Proof.
  intros Hn s H0 H.
  destruct (mktime_utc_spec b) as (st & Hst & E). rewrite E in H.
  destruct (mktime_utc_spec (set_zone_nsec b n)) as (st' & Hst' & ->).
  simpl in *. rewrite Hst in Hst'. injection Hst' as <-. injection H as <- _.
  rewrite H0. unfold NSEC_PER_SEC in *. f_equal. f_equal; lia.
Qed.

(** [int] fields, and a [long] nanosecond field. *)
Definition tm_int (t : tm) : Prop :=
  Forall (in_signed 32)
    [tm_sec t; tm_min t; tm_hour t; tm_mday t; tm_mon t; tm_year t] /\
  in_signed 64 (tm_nsec t).

Lemma year_day_abs y : Z.abs y <= 2 ^ 32 -> Z.abs (year_day y) <= 2 ^ 41.
Proof. unfold year_day. lia. Qed.

Lemma cumulative_bounds y (m : nat) s :
  get_months_cumulative y !! m = Some s -> 0 <= s <= 366.
Proof.
  intros H. assert (Forall (fun s => 0 <= s <= 366) (get_months_cumulative y)) as F.
  { unfold get_months_cumulative. destruct (is_leap y); repeat constructor; lia. }
  rewrite Forall_lookup in F. eauto.
Qed.

(** Two canonical times of the same instant are equal. *)
Lemma tm_ok_unique a b t :
  tm_ok a -> tm_ok b ->
  mktime_utc a = Some (Timespec t 0) -> mktime_utc b = Some (Timespec t 0) -> a = b.
Proof.
  intros Ha Hb Ea Eb.
  destruct (tm_ok_localtime a Ha) as (ta & Ea' & La).
  destruct (tm_ok_localtime b Hb) as (tb & Eb' & Lb). congruence.
Qed.

(** [mktime] after [mktime_utc] has produced the instant [s]. *)
Lemma mktime_localtime t s n :
  mktime_utc t = Some (Timespec s n) ->
  exists r err b,
    mktime t = Some (r, err, b) /\
    (representable s ->
       r = s /\ err = None /\
       exists c, tm_ok c /\ b = set_zone_nsec c n /\
                 mktime_utc c = Some (Timespec s 0)) /\
    (~ representable s -> r = -1 /\ err = Some EOVERFLOW).
Proof.
  intros E. unfold mktime. rewrite E. simpl.
  destruct (localtime_utc_spec s) as (y & yday & mon & mday & Hd & ->).
  pose proof (representable_year s _ _ _ _ Hd) as HR. setoid_rewrite HR.
  assert (INT_MIN < INT_MAX) by done.
  destruct (Z.ltb_spec y INT_MIN); [|destruct (Z.ltb_spec INT_MAX y)]; simpl.
  all: eexists _, _, _; split; [reflexivity|]; split; intros ?; try lia; try done.
  split; [done|]. split; [done|]. eexists. split; [by apply make_tm_ok|].
  split; [done|]. by apply mktime_make_tm.
Qed.

(** C2: For any [int] fields, whatever their values, [mktime] (and [timegm])
    does not overflow its 64-bit arithmetic; when it succeeds it stores the
    canonical form of the date, and calling it again on that form returns the
    same instant and leaves the structure unchanged. *)
Theorem mktime_normalises (t : tm) (Ht : tm_int t) :
  exists s r err b,
    mktime_utc t = Some s /\ in_signed 64 (tv_sec s) /\
    0 <= tv_nsec s < NSEC_PER_SEC /\
    mktime t = Some (r, err, b) /\
    (representable (tv_sec s) ->
       r = tv_sec s /\ err = None /\ tm_nsec b = tv_nsec s /\
       (exists c, tm_ok c /\ b = set_zone_nsec c (tv_nsec s)) /\
       mktime b = Some (r, None, b)) /\
    (~ representable (tv_sec s) -> r = -1 /\ err = Some EOVERFLOW).
Proof.
  destruct Ht as [Hi Hn].
  repeat (apply Forall_cons_1 in Hi as [? Hi]). clear Hi. unfold in_signed in *.
  destruct (mktime_utc_spec t) as (start & Hs & Em).
  apply cumulative_bounds in Hs.
  assert (0 <= tm_nsec t mod NSEC_PER_SEC < NSEC_PER_SEC) as Hns
    by (unfold NSEC_PER_SEC; lia).
  pose proof (year_day_abs (tm_year t + tm_mon t / 12) ltac:(lia)) as Hyd.
  set (s := tm_sec t + tm_min t * 60 + tm_hour t * 3600 + tm_nsec t / NSEC_PER_SEC
     + (tm_mday t + start - 1 + year_day (tm_year t + tm_mon t / 12)) * 86400) in *.
  assert (in_signed 64 s) as Hr by (unfold s, in_signed, NSEC_PER_SEC in *; lia).
  clearbody s. exists (Timespec s (tm_nsec t mod NSEC_PER_SEC)). simpl.
  destruct (mktime_localtime t s _ Em) as (r & err & b & Eb & Hgood & Hbad).
  exists r, err, b. do 4 (split; [done|]). split; [|done].
  intros HR. destruct (Hgood HR) as (-> & -> & c & Hc & -> & Hm).
  destruct (mktime_localtime (set_zone_nsec c (tm_nsec t mod NSEC_PER_SEC)) s
    (tm_nsec t mod NSEC_PER_SEC)) as (r' & err' & b' & Eb' & Hgood' & _).
  { apply mktime_utc_set_nsec; [done|apply Hc|done]. }
  destruct (Hgood' HR) as (-> & -> & c' & Hc' & -> & Hm').
  assert (c' = c) as -> by (eapply tm_ok_unique; eauto).
  repeat split; eauto.
Qed.

(** [__localtime_utc] inverts [__mktime_utc] on every canonical broken-down
    time, and the two are injective there: [__mktime_utc] maps two different
    canonical times to two different instants. *)
Theorem mktime_utc_inverse (a b : tm) (Ha : tm_ok a) (Hb : tm_ok b) :
  exists s t,
    mktime_utc a = Some (Timespec s 0) /\ localtime_utc s = Some (0, a) /\
    mktime_utc b = Some (Timespec t 0) /\ localtime_utc t = Some (0, b) /\
    (s = t <-> a = b).
Proof.
  destruct (tm_ok_localtime a Ha) as (s & Ea & La).
  destruct (tm_ok_localtime b Hb) as (t & Eb & Lb).
  exists s, t. repeat (split; [done|]). split; congruence.
Qed.

(** [timespec_to_timestamp_exact] yields the nanosecond count when it fits
    in 64 bits and fails otherwise; [timespec_to_timestamp_clamp] agrees with it
    where it succeeds, and otherwise saturates at 0 or at the largest timestamp;
    [timestamp_to_timespec] is a right inverse for every timestamp. *)
Theorem timestamp_conversions (ts : timespec) (n : Z) (Hn : in_unsigned 64 n) :
  let v := tv_sec ts * NSEC_PER_SEC + tv_nsec ts in
  let valid := 0 <= tv_nsec ts < NSEC_PER_SEC in
  (forall r, timespec_to_timestamp_exact ts = Some r <->
     valid /\ 0 <= tv_sec ts /\ in_unsigned 64 v /\ r = v) /\
  (timespec_to_timestamp_clamp ts = None <-> ~ valid) /\
  (valid -> timespec_to_timestamp_clamp ts = Some (Z.max 0 (Z.min v ULONG_MAX))) /\
  timespec_to_timestamp_exact (timestamp_to_timespec n) = Some n.
Proof.
  destruct ts as [s m]. cbv zeta.
  unfold timespec_to_timestamp_exact, timespec_to_timestamp_clamp, fits_u64,
    timestamp_to_timespec, in_unsigned, ULONG_MAX, NSEC_PER_SEC, uN in *. simpl.
  change (2 ^ 64) with 18446744073709551616 in *.
  split; [|split; [|split]].
  - intros r. zcases; split; intros; simplify_eq; try done; try lia; repeat split; try lia; f_equal; lia.
  - zcases; split; intros; simplify_eq; try done; lia.
  - intros. zcases; f_equal; lia.
  - zcases; f_equal; lia.
Qed.

(** ** Witnesses *)

(** 25:61:61 on "day 30 of month 13" of 2015, with 2.5e9 nanoseconds. *)
Definition tm_example : tm := Tm 61 61 25 30 13 115 0 0 0 0 None 2500000000.

Lemma mktime_normalises_witness :
  tm_int tm_example /\
  exists s r err b,
    mktime_utc tm_example = Some s /\ mktime tm_example = Some (r, err, b) /\
    0 <= tv_nsec s < NSEC_PER_SEC.
Proof.
  assert (tm_int tm_example) as H
    by (split; [repeat constructor|]; vm_compute; intuition discriminate).
  split; [exact H|].
  destruct (mktime_normalises tm_example H) as (s & r & err & b & E & _ & Hn & M & _).
  exists s, r, err, b. exact (conj E (conj M Hn)).
Defined.

(** 29 February 2000, 12:00:00 UTC, a Tuesday. *)
Definition tm_leap_day : tm := Tm 0 0 12 29 1 100 2 59 0 0 None 0.

Lemma tm_leap_day_ok : tm_ok tm_leap_day.
Proof.
  split; simpl; [lia|lia|lia|done| |done].
  exists 11016. split; [|reflexivity].
  split; [done|reflexivity|lia|]. exists 31, 29. repeat split; done.
Qed.

Lemma mktime_utc_inverse_witness :
  tm_ok tm_leap_day /\
  exists s, mktime_utc tm_leap_day = Some (Timespec s 0) /\
            localtime_utc s = Some (0, tm_leap_day).
Proof.
  split; [exact tm_leap_day_ok|].
  destruct (mktime_utc_inverse tm_leap_day tm_leap_day tm_leap_day_ok tm_leap_day_ok)
    as (s & _ & E & L & _).
  exists s. exact (conj E L).
Defined.

Lemma timestamp_conversions_witness :
  in_unsigned 64 1500000000123456789 /\
  timespec_to_timestamp_exact (timestamp_to_timespec 1500000000123456789)
    = Some 1500000000123456789.
Proof.
  assert (in_unsigned 64 1500000000123456789) as H by (vm_compute; intuition discriminate).
  split; [exact H|].
  exact (proj2 (proj2 (proj2 (timestamp_conversions (Timespec 0 0) _ H)))).
Defined.
