(* ===== verification/Charset.v ===== *)
(** * Character sets

    [src/common/mbstate.h], [src/libc/locale/ctype/utf_8.c] and [us_ascii.c],
    and the [mbstoc32s]/[c32stombs] generators of [src/common/locale.h].

    A multibyte buffer is the list of the bytes (0-255) readable at the pointer;
    reading past its end is [None].  [lc_ctype] is the table of conversion
    functions through which the rest of the library uses a character set, and
    [CtypeLaws] what its clients rely on. *)

From S2P Require Import Prelude.
#[local] Open Scope Z_scope.

(** ** [mbstate_t] *)

Record mbstate := Mbstate {
  mb_surrogate : Z; mb_bytesleft : Z; mb_partial : Z; mb_lowerbound : Z }.

Definition mbstate_init : mbstate := Mbstate 0 0 0 0.

Definition mbstate_get_init (mbs : option mbstate) : bool :=
  match mbs with
  | None => true
  | Some m => ((mb_surrogate m <? 0xd800) || (0xdfff <? mb_surrogate m))
              && (mb_bytesleft m =? 0)
  end.

Definition mbstate_get_surrogate (m : mbstate) : option Z :=
  if (mb_surrogate m <? 0xd800) || (0xdfff <? mb_surrogate m) then None
  else Some (mb_surrogate m).

(** [None] when the assertion on the surrogate fails. *)
Definition mbstate_set_surrogate (surrogate : Z) : option mbstate :=
  if (0xd800 <=? surrogate) && (surrogate <=? 0xdfff)
  then Some (Mbstate surrogate 0 0 0) else None.

Definition mbstate_get_multibyte (m : mbstate) : Z * Z * Z :=
  (mb_bytesleft m, mb_partial m, mb_lowerbound m).

Definition mbstate_set_multibyte (bytesleft partial lowerbound : Z) : mbstate :=
  Mbstate 0 bytesleft partial lowerbound.

(** ** Results of [mbtoc32]

    [MbChar l c]: returns [l] and stores [c]; [MbIncomplete]: returns -2;
    [MbError]: returns -1 with [errno = EILSEQ]. *)

Inductive mbresult :=
  | MbChar (len c32 : Z)
  | MbIncomplete
  | MbError.

Record lc_ctype := LcCtype {
  mbtoc32 : list Z -> Z -> mbstate -> option (mbresult * mbstate);
  c32tomb_max : Z;
  (** [None]: returns -1 with [errno = EILSEQ]; [Some bs]: stores the bytes
      [bs] and returns their number. *)
  c32tomb : Z -> option (list Z) }.

(** ** US-ASCII *)

Definition SCHAR_MAX : Z := 127.

Definition us_ascii_mbtoc32 (s : list Z) (n : Z) (ps : mbstate)
    : option (mbresult * mbstate) :=
  if n <? 1 then Some (MbIncomplete, ps)
  else
    b ← head s;
    if SCHAR_MAX <? b then Some (MbError, ps)
    else Some (MbChar 1 b, mbstate_init).

Definition us_ascii_c32tomb (c32 : Z) : option (list Z) :=
  if SCHAR_MAX <? c32 then None else Some [u8 c32].

Definition ctype_us_ascii : lc_ctype := LcCtype us_ascii_mbtoc32 1 us_ascii_c32tomb.

(** ** UTF-8 *)

(** The [while (n-- > 0)] loop over the continuation bytes.  [pos] is the
    number of bytes consumed so far. *)
Fixpoint utf_8_continue (sb : list Z) (n pos bytesleft partial lowerbound : Z)
    (ps : mbstate) : option (mbresult * mbstate) :=
  if n <=? 0 then
    Some (MbIncomplete, mbstate_set_multibyte bytesleft partial lowerbound)
  else
    match sb with
    | [] => None
    | b :: sb =>
        if negb (Z.land b 0xc0 =? 0x80) then Some (MbError, ps)
        else
          let partial := Z.lor (u32 (Z.shiftl partial 6)) (Z.land b 0x3f) in
          let bytesleft := u32 (bytesleft - 1) in
          if bytesleft =? 0 then
            if (partial <? lowerbound)
               || ((0xd800 <=? partial) && (partial <=? 0xdfff))
               || (0x10ffff <? partial)
            then Some (MbError, ps)
            else Some (MbChar (pos + 1) partial, mbstate_init)
          else utf_8_continue sb (n - 1) (pos + 1) bytesleft partial lowerbound ps
    end.

Definition utf_8_mbtoc32 (s : list Z) (n : Z) (ps : mbstate)
    : option (mbresult * mbstate) :=
  if n <? 1 then Some (MbIncomplete, ps)
  else
    let '(bytesleft, partial, lowerbound) := mbstate_get_multibyte ps in
    if bytesleft =? 0 then
      match s with
      | [] => None
      | b :: sb =>
          if Z.land b 0x80 =? 0 then Some (MbChar 1 b, mbstate_init)
          else if Z.land b 0xe0 =? 0xc0 then
            utf_8_continue sb (n - 1) 1 1 (Z.land b 0x1f) 0x80 ps
          else if Z.land b 0xf0 =? 0xe0 then
            utf_8_continue sb (n - 1) 1 2 (Z.land b 0xf) 0x800 ps
          else if Z.land b 0xf8 =? 0xf0 then
            utf_8_continue sb (n - 1) 1 3 (Z.land b 0x7) 0x10000 ps
          else Some (MbError, ps)
      end
    else utf_8_continue s n 0 bytesleft partial lowerbound ps.

Definition utf_8_c32tomb (c32 : Z) : option (list Z) :=
  if c32 <=? 0x7f then Some [u8 c32]
  else if c32 <=? 0x7ff then
    Some [u8 (Z.lor 0xc0 (Z.shiftr c32 6)); u8 (Z.lor 0x80 (Z.land c32 0x3f))]
  else if c32 <=? 0xffff then
    if (0xd800 <=? c32) && (c32 <=? 0xdfff) then None
    else Some [u8 (Z.lor 0xe0 (Z.shiftr c32 12));
               u8 (Z.lor 0x80 (Z.land (Z.shiftr c32 6) 0x3f));
               u8 (Z.lor 0x80 (Z.land c32 0x3f))]
  else if c32 <=? 0x10ffff then
    Some [u8 (Z.lor 0xf0 (Z.shiftr c32 18));
          u8 (Z.lor 0x80 (Z.land (Z.shiftr c32 12) 0x3f));
          u8 (Z.lor 0x80 (Z.land (Z.shiftr c32 6) 0x3f));
          u8 (Z.lor 0x80 (Z.land c32 0x3f))]
  else None.

Definition ctype_utf_8 : lc_ctype := LcCtype utf_8_mbtoc32 4 utf_8_c32tomb.

(** ** UTF-8 in arithmetic *)

#[local] Ltac Zify.zify_post_hook ::= Z.to_euclidean_division_equations.

(** The classes of bytes the masks distinguish. *)
Lemma utf_8_byte_class b :
  byte b ->
  (Z.land b 0x80 =? 0) = (b <? 128) /\
  (Z.land b 0xe0 =? 0xc0) = ((192 <=? b) && (b <? 224)) /\
  (Z.land b 0xf0 =? 0xe0) = ((224 <=? b) && (b <? 240)) /\
  (Z.land b 0xf8 =? 0xf0) = ((240 <=? b) && (b <? 248)) /\
  (Z.land b 0xc0 =? 0x80) = ((128 <=? b) && (b <? 192)) /\
  Z.land b 0x1f = b mod 32 /\ Z.land b 0xf = b mod 16 /\
  Z.land b 0x7 = b mod 8 /\ Z.land b 0x3f = b mod 64.
Proof.
  intros H. split; [|split; [|split; [|split; [|split]]]].
  1-5: apply Bool.eqb_prop; revert b H; apply Zforall_spec; vm_compute; reflexivity.
  repeat split.
  - apply (land_low b 5). lia.
  - apply (land_low b 4). lia.
  - apply (land_low b 3). lia.
  - apply (land_low b 6). lia.
Qed.

Definition scalar (c : Z) : Prop :=
  0 <= c <= 0x10ffff /\ ~ (0xd800 <= c <= 0xdfff).

Definition is_scalar (c : Z) : bool :=
  (0 <=? c) && (c <=? 0x10ffff) && negb ((0xd800 <=? c) && (c <=? 0xdfff)).

(** The UTF-8 encoding form (table 3-6 of the Unicode standard). *)
Definition utf_8_encode (c : Z) : list Z :=
  if c <? 0x80 then [c]
  else if c <? 0x800 then [192 + c / 64; 128 + c mod 64]
  else if c <? 0x10000 then [224 + c / 4096; 128 + c / 64 mod 64; 128 + c mod 64]
  else [240 + c / 262144; 128 + c / 4096 mod 64; 128 + c / 64 mod 64; 128 + c mod 64].

Lemma u8_lor_lead base hi k :
  0 <= hi < 2 ^ k -> 0 <= k -> base = (base / 2 ^ k) * 2 ^ k -> 0 <= base ->
  base + 2 ^ k <= 256 -> u8 (Z.lor base hi) = base + hi.
Proof.
  intros Hh Hk Hb Hb0 Hm. rewrite lor_disjoint.
  - apply uN_small. unfold in_unsigned. lia.
  - rewrite Hb. by apply land_shifted_low.
Qed.

Lemma u8_lor_80 x : u8 (Z.lor 0x80 (Z.land x 0x3f)) = 128 + x mod 64.
Proof.
  change 0x3f with (Z.ones 6). rewrite land_low by lia.
  apply (u8_lor_lead 128 _ 6); [|done..].
  apply Z.mod_pos_bound. done.
Qed.

Lemma utf_8_c32tomb_spec c :
  0 <= c ->
  utf_8_c32tomb c = if is_scalar c then Some (utf_8_encode c) else None.
Proof.
  intros Hc. unfold utf_8_c32tomb, is_scalar, utf_8_encode.
  rewrite !u8_lor_80, !Z.shiftr_div_pow2 by lia.
  change (2 ^ 6) with 64. change (2 ^ 12) with 4096. change (2 ^ 18) with 262144.
  zcases; try done; f_equal; repeat (f_equal; try done).
  - apply uN_small. unfold in_unsigned. lia.
  - apply (u8_lor_lead 192 _ 5); [lia|done..].
  - apply (u8_lor_lead 224 _ 4); [lia|done..].
  - apply (u8_lor_lead 224 _ 4); [lia|done..].
  - apply (u8_lor_lead 240 _ 3); [lia|done..].
Qed.

(** One iteration of the continuation loop, in arithmetic. *)
Lemma utf_8_continue_cons b sb n pos bl pa lo ps :
  byte b -> 0 <= pa < 2 ^ 26 -> 1 <= bl <= 3 -> 1 <= n ->
  utf_8_continue (b :: sb) n pos bl pa lo ps =
  if (128 <=? b) && (b <? 192) then
    let p := pa * 64 + b mod 64 in
    if bl =? 1 then
      if (lo <=? p) && is_scalar p then Some (MbChar (pos + 1) p, mbstate_init)
      else Some (MbError, ps)
    else utf_8_continue sb (n - 1) (pos + 1) (bl - 1) p lo ps
  else Some (MbError, ps).
Proof.
  intros Hb Hp Hl Hn. simpl utf_8_continue at 1.
  rewrite (proj2 (Z.leb_gt n 0)) by lia.
  destruct (utf_8_byte_class b Hb) as (_ & _ & _ & _ & -> & _ & _ & _ & ->).
  destruct ((128 <=? b) && (b <? 192)) eqn:Ec; simpl; [|done].
  rewrite (uN_small 32 (bl - 1)) by (unfold in_unsigned; lia).
  rewrite (uN_small 32 (Z.shiftl pa 6)).
  2:{ rewrite Z.shiftl_mul_pow2 by lia. unfold in_unsigned. lia. }
  rewrite lor_shifted_low by (pose proof (Z.mod_pos_bound b 64); lia).
  change (2 ^ 6) with 64.
  replace (bl - 1 =? 0) with (bl =? 1) by (zcases; done).
  destruct (bl =? 1); [|done]. unfold is_scalar. zcases; done.
Qed.

Lemma utf_8_continue_stop sb pos bl pa lo ps :
  utf_8_continue sb 0 pos bl pa lo ps =
  Some (MbIncomplete, mbstate_set_multibyte bl pa lo).
Proof. by destruct sb. Qed.

(** The leading byte, in arithmetic. *)
Lemma utf_8_mbtoc32_init b sb n ps :
  byte b -> 1 <= n -> mb_bytesleft ps = 0 ->
  utf_8_mbtoc32 (b :: sb) n ps =
  if b <? 128 then Some (MbChar 1 b, mbstate_init)
  else if (192 <=? b) && (b <? 224) then
    utf_8_continue sb (n - 1) 1 1 (b mod 32) 0x80 ps
  else if (224 <=? b) && (b <? 240) then
    utf_8_continue sb (n - 1) 1 2 (b mod 16) 0x800 ps
  else if (240 <=? b) && (b <? 248) then
    utf_8_continue sb (n - 1) 1 3 (b mod 8) 0x10000 ps
  else Some (MbError, ps).
Proof.
  intros Hb Hn H0. unfold utf_8_mbtoc32, mbstate_get_multibyte.
  rewrite H0, (proj2 (Z.ltb_ge n 1)) by lia. simpl.
  destruct (utf_8_byte_class b Hb) as (-> & -> & -> & -> & _ & -> & -> & -> & _). done.
Qed.

Ltac utf_8_range :=
  match goal with
  | |- context [Z.leb ?a ?b && Z.ltb ?b ?c] =>
      replace (Z.leb a b && Z.ltb b c) with true
        by (symmetry; apply andb_true_iff; split; [apply Z.leb_le|apply Z.ltb_lt]; lia)
  | |- context [Z.leb ?a ?b && Z.ltb ?b ?c] =>
      replace (Z.leb a b && Z.ltb b c) with false
        by (symmetry; apply andb_false_iff; rewrite Z.leb_gt, Z.ltb_ge; lia)
  | |- context [Z.ltb ?a 128] => rewrite (proj2 (Z.ltb_ge a 128)) by lia
  end.

Lemma Zmod_add_base base k q h : base = q * k -> 0 <= h < k -> (base + h) mod k = h.
Proof.
  intros -> ?. rewrite Z.add_comm, Z_mod_plus_full. by apply Z.mod_small.
Qed.

Definition utf_8_final (l lo c : Z) (ps : mbstate) : option (mbresult * mbstate) :=
  if (lo <=? c) && is_scalar c then Some (MbChar l c, mbstate_init)
  else Some (MbError, ps).

(** Decoding a complete sequence of each length, from its payload digits. *)
Ltac utf_8_step :=
  rewrite utf_8_continue_cons by (unfold byte; lia); utf_8_range;
  rewrite (Zmod_add_base 128 64 2) by lia; cbv zeta.

Lemma utf_8_decode2 h a rest n ps :
  0 <= h < 32 -> 0 <= a < 64 -> 2 <= n -> mb_bytesleft ps = 0 ->
  utf_8_mbtoc32 (192 + h :: 128 + a :: rest) n ps =
  utf_8_final 2 0x80 (h * 64 + a) ps.
Proof.
  intros. rewrite utf_8_mbtoc32_init by (unfold byte; done || lia).
  repeat utf_8_range. rewrite (Zmod_add_base 192 32 6) by lia.
  by utf_8_step.
Qed.

Lemma utf_8_decode3 h a b rest n ps :
  0 <= h < 16 -> 0 <= a < 64 -> 0 <= b < 64 -> 3 <= n -> mb_bytesleft ps = 0 ->
  utf_8_mbtoc32 (224 + h :: 128 + a :: 128 + b :: rest) n ps =
  utf_8_final 3 0x800 ((h * 64 + a) * 64 + b) ps.
Proof.
  intros. rewrite utf_8_mbtoc32_init by (unfold byte; done || lia).
  repeat utf_8_range. rewrite (Zmod_add_base 224 16 14) by lia.
  utf_8_step. simpl (2 =? 1). cbv iota. by utf_8_step.
Qed.

Lemma utf_8_decode4 h a b c rest n ps :
  0 <= h < 8 -> 0 <= a < 64 -> 0 <= b < 64 -> 0 <= c < 64 -> 4 <= n ->
  mb_bytesleft ps = 0 ->
  utf_8_mbtoc32 (240 + h :: 128 + a :: 128 + b :: 128 + c :: rest) n ps =
  utf_8_final 4 0x10000 (((h * 64 + a) * 64 + b) * 64 + c) ps.
Proof.
  intros. rewrite utf_8_mbtoc32_init by (unfold byte; done || lia).
  repeat utf_8_range. rewrite (Zmod_add_base 240 8 30) by lia.
  utf_8_step. simpl (3 =? 1). cbv iota. utf_8_step. simpl (3 - 1 =? 1). cbv iota.
  by utf_8_step.
Qed.

Lemma is_scalar_spec c : is_scalar c = true <-> scalar c.
Proof.
  unfold is_scalar, scalar. rewrite !andb_true_iff, negb_true_iff, andb_false_iff,
    !Z.leb_le, !Z.leb_gt. lia.
Qed.

Lemma utf_8_final_ok l lo c ps :
  lo <= c -> scalar c -> utf_8_final l lo c ps = Some (MbChar l c, mbstate_init).
Proof.
  intros H Hs. unfold utf_8_final. apply is_scalar_spec in Hs. rewrite Hs.
  by rewrite (proj2 (Z.leb_le _ _)).
Qed.

Lemma utf_8_decode_encode c rest n ps :
  scalar c -> Z.of_nat (length (utf_8_encode c)) <= n -> mb_bytesleft ps = 0 ->
  utf_8_mbtoc32 (utf_8_encode c ++ rest) n ps =
  Some (MbChar (Z.of_nat (length (utf_8_encode c))) c, mbstate_init).
Proof.
  intros Hs Hn H0. pose proof Hs as [Hc _]. unfold utf_8_encode in *.
  destruct (Z.ltb_spec c 0x80);
    [|destruct (Z.ltb_spec c 0x800); [|destruct (Z.ltb_spec c 0x10000)]]; simpl in *.
  - rewrite utf_8_mbtoc32_init by (unfold byte; done || lia).
    by rewrite (proj2 (Z.ltb_lt c 128)) by lia.
  - rewrite utf_8_decode2 by (done || lia).
    replace (c / 64 * 64 + c mod 64) with c by lia. by apply utf_8_final_ok.
  - rewrite utf_8_decode3 by (done || lia).
    replace ((c / 4096 * 64 + c / 64 mod 64) * 64 + c mod 64) with c by lia.
    by apply utf_8_final_ok.
  - rewrite utf_8_decode4 by (done || lia).
    replace (((c / 262144 * 64 + c / 4096 mod 64) * 64 + c / 64 mod 64) * 64 + c mod 64)
      with c by lia.
    by apply utf_8_final_ok.
Qed.

Lemma utf_8_continue_inv sb n pos bl pa lo ps l c st :
  Forall byte sb -> 0 <= pa < 2 ^ 26 -> 1 <= bl <= 3 ->
  utf_8_continue sb n pos bl pa lo ps = Some (MbChar l c, st) ->
  exists a sb',
    sb = 128 + a :: sb' /\ 0 <= a < 64 /\ 1 <= n /\
    (if bl =? 1 then utf_8_final (pos + 1) lo (pa * 64 + a) ps = Some (MbChar l c, st)
     else utf_8_continue sb' (n - 1) (pos + 1) (bl - 1) (pa * 64 + a) lo ps
          = Some (MbChar l c, st)).
Proof.
  intros Hs Hp Hl H. destruct (Z.lt_ge_cases n 1) as [Hn|Hn].
  { destruct sb; simpl in H; rewrite (proj2 (Z.leb_le n 0)) in H by lia; done. }
  destruct sb as [|b sb].
  { simpl in H. rewrite (proj2 (Z.leb_gt n 0)) in H by lia. done. }
  apply Forall_cons_1 in Hs as [Hb Hs].
  rewrite utf_8_continue_cons in H by done.
  destruct ((128 <=? b) && (b <? 192)) eqn:E; [|done]. zprop.
  exists (b - 128), sb. cbv zeta in H.
  replace (b mod 64) with (b - 128) in H by (unfold byte in Hb; lia).
  split; [f_equal; lia|]. split; [lia|]. split; [lia|].
  by destruct (bl =? 1).
Qed.

Lemma utf_8_final_inv l' lo p ps l c st :
  utf_8_final l' lo p ps = Some (MbChar l c, st) ->
  l = l' /\ c = p /\ st = mbstate_init /\ lo <= c /\ scalar c.
Proof.
  unfold utf_8_final. destruct ((lo <=? p) && is_scalar p) eqn:E; [|done].
  zprop. rewrite is_scalar_spec in *. intros. simplify_eq. done.
Qed.

Ltac utf_8_inv H :=
  let a := fresh "a" in let sb := fresh "sb" in
  apply utf_8_continue_inv in H as (a & sb & -> & ? & ? & H); [|done|lia|lia];
  simpl in H;
  match goal with F : Forall byte (_ :: sb) |- _ => apply Forall_cons_1 in F as [_ F] end.

Lemma utf_8_encode2 h a :
  0 <= h < 32 -> 0 <= a < 64 -> 0x80 <= h * 64 + a ->
  utf_8_encode (h * 64 + a) = [192 + h; 128 + a].
Proof.
  intros. unfold utf_8_encode.
  rewrite (proj2 (Z.ltb_ge _ _)), (proj2 (Z.ltb_lt _ _)) by lia. repeat f_equal; lia.
Qed.

Lemma utf_8_encode3 h a b :
  0 <= h < 16 -> 0 <= a < 64 -> 0 <= b < 64 -> 0x800 <= (h * 64 + a) * 64 + b ->
  utf_8_encode ((h * 64 + a) * 64 + b) = [224 + h; 128 + a; 128 + b].
Proof.
  intros. unfold utf_8_encode.
  rewrite 2!(proj2 (Z.ltb_ge _ _)), (proj2 (Z.ltb_lt _ _)) by lia. repeat f_equal; lia.
Qed.

Lemma utf_8_encode4 h a b c :
  0 <= h < 8 -> 0 <= a < 64 -> 0 <= b < 64 -> 0 <= c < 64 ->
  0x10000 <= ((h * 64 + a) * 64 + b) * 64 + c ->
  utf_8_encode (((h * 64 + a) * 64 + b) * 64 + c) = [240 + h; 128 + a; 128 + b; 128 + c].
Proof.
  intros. unfold utf_8_encode. rewrite 3!(proj2 (Z.ltb_ge _ _)) by lia.
  repeat f_equal; lia.
Qed.

Lemma utf_8_decode_sound s n ps l c st :
  Forall byte s -> mb_bytesleft ps = 0 ->
  utf_8_mbtoc32 s n ps = Some (MbChar l c, st) ->
  st = mbstate_init /\ scalar c /\ l <= n /\
  l = Z.of_nat (length (utf_8_encode c)) /\
  exists rest, s = utf_8_encode c ++ rest.
Proof.
  intros Hs H0 H. destruct (Z.lt_ge_cases n 1) as [Hn|Hn].
  { unfold utf_8_mbtoc32 in H. rewrite (proj2 (Z.ltb_lt n 1)) in H by lia. done. }
  destruct s as [|b s].
  { unfold utf_8_mbtoc32, mbstate_get_multibyte in H.
    rewrite H0, (proj2 (Z.ltb_ge n 1)) in H by lia. done. }
  apply Forall_cons_1 in Hs as [Hb Hs]. unfold byte in Hb.
  rewrite utf_8_mbtoc32_init in H by done.
  destruct (Z.ltb_spec b 128).
  { simplify_eq. unfold utf_8_encode, scalar. rewrite (proj2 (Z.ltb_lt _ _)) by lia.
    split; [done|]. split; [lia|]. split; [done|]. split; [done|]. by exists s. }
  destruct ((192 <=? b) && (b <? 224)) eqn:E2; zprop.
  { replace (b mod 32) with (b - 192) in H by lia. utf_8_inv H.
    apply utf_8_final_inv in H as (-> & -> & -> & ? & ?).
    rewrite utf_8_encode2 by lia. simpl. split; [done|]. split; [done|].
    split; [lia|]. split; [done|]. eexists. simpl. apply f_equal2; [lia|reflexivity]. }
  clear E2. destruct ((224 <=? b) && (b <? 240)) eqn:E3; zprop.
  { replace (b mod 16) with (b - 224) in H by lia. do 2 utf_8_inv H.
    apply utf_8_final_inv in H as (-> & -> & -> & ? & ?).
    rewrite utf_8_encode3 by lia. simpl. split; [done|]. split; [done|].
    split; [lia|]. split; [done|]. eexists. simpl. apply f_equal2; [lia|reflexivity]. }
  clear E3. destruct ((240 <=? b) && (b <? 248)) eqn:E4; zprop; [|done].
  replace (b mod 8) with (b - 240) in H by lia. do 3 utf_8_inv H.
  apply utf_8_final_inv in H as (-> & -> & -> & ? & ?).
  rewrite utf_8_encode4 by lia. simpl. split; [done|]. split; [done|].
  split; [lia|]. split; [done|]. eexists. simpl. apply f_equal2; [lia|reflexivity].
Qed.

(** ** Incremental decoding *)

(** A decoding state reached in the middle of a character. *)
Definition utf_8_pending (ps : mbstate) : Prop :=
  1 <= mb_bytesleft ps <= 3 /\ 0 <= mb_partial ps < 2 ^ (26 - 6 * mb_bytesleft ps) /\
  mb_surrogate ps = 0.

(** The outcome of a call that was preceded by [k] consumed bytes, as seen by
    a single call on the whole input. *)
Definition resume (k : Z) (ps : mbstate) (r : option (mbresult * mbstate))
    : option (mbresult * mbstate) :=
  match r with
  | Some (MbChar l c, st) => Some (MbChar (k + l) c, st)
  | Some (MbIncomplete, st) => Some (MbIncomplete, st)
  | Some (MbError, _) => Some (MbError, ps)
  | None => None
  end.

Lemma utf_8_continue_shift k sb n pos bl pa lo ps ps' :
  utf_8_continue sb n (k + pos) bl pa lo ps =
  resume k ps (utf_8_continue sb n pos bl pa lo ps').
Proof.
  revert n pos bl pa. induction sb as [|b sb IH]; intros; simpl.
  - destruct (n <=? 0); done.
  - destruct (n <=? 0); [done|]. destruct (negb _); [done|].
    destruct (_ =? 0).
    + destruct (_ || _); [done|]. simpl. by rewrite Z.add_assoc.
    + by rewrite <- Z.add_assoc, IH.
Qed.

(** The state left behind by an incomplete call carries everything the next
    call needs. *)
Lemma utf_8_continue_split s1 s2 n2 pos bl pa lo ps st :
  Forall byte s1 -> 0 <= n2 -> 1 <= bl <= 3 -> 0 <= pa < 2 ^ (26 - 6 * bl) ->
  utf_8_continue s1 (Z.of_nat (length s1)) pos bl pa lo ps = Some (MbIncomplete, st) ->
  utf_8_pending st /\
  utf_8_continue (s1 ++ s2) (Z.of_nat (length s1) + n2) pos bl pa lo ps =
  utf_8_continue s2 n2 (pos + Z.of_nat (length s1))
    (mb_bytesleft st) (mb_partial st) (mb_lowerbound st) ps.
Proof.
  revert pos bl pa. induction s1 as [|b s1 IH]; intros pos bl pa Hs Hn Hl Hp H.
  - simpl in H. injection H as <-. simpl. rewrite Z.add_0_r. done.
  - apply Forall_cons_1 in Hs as [Hb Hs].
    assert (2 ^ (26 - 6 * bl) <= 2 ^ 26) by (apply Z.pow_le_mono_r; lia).
    assert (Z.of_nat (length (b :: s1)) = Z.of_nat (length s1) + 1) as EL by (simpl; lia).
    rewrite EL in *. rewrite utf_8_continue_cons in H by (done || lia).
    rewrite <- app_comm_cons, utf_8_continue_cons by (done || lia).
    destruct (_ && _); [|done]. cbv zeta in *.
    destruct (Z.eqb_spec bl 1) as [->|].
    { destruct (_ && _) in H; done. }
    replace (Z.of_nat (length s1) + 1 - 1) with (Z.of_nat (length s1)) in H by lia.
    apply IH in H as [? H]; [|done|done|lia|].
    + split; [done|].
      replace (Z.of_nat (length s1) + 1 + n2 - 1) with (Z.of_nat (length s1) + n2) by lia.
      rewrite H. f_equal. lia.
    + assert (2 ^ (26 - 6 * (bl - 1)) = 2 ^ (26 - 6 * bl) * 64) as ->.
      { change 64 with (2 ^ 6). rewrite <- Z.pow_add_r by lia. f_equal. lia. }
      pose proof (Z.mod_pos_bound b 64). lia.
Qed.

Lemma utf_8_pending_not_init ps : utf_8_pending ps -> (mb_bytesleft ps =? 0) = false.
Proof. intros [? _]. apply Z.eqb_neq. lia. Qed.

Lemma utf_8_mbtoc32_continue s n ps :
  utf_8_pending ps -> 1 <= n ->
  utf_8_mbtoc32 s n ps =
  utf_8_continue s n 0 (mb_bytesleft ps) (mb_partial ps) (mb_lowerbound ps) ps.
Proof.
  intros Hp Hn. unfold utf_8_mbtoc32, mbstate_get_multibyte.
  rewrite (proj2 (Z.ltb_ge n 1)), utf_8_pending_not_init by (done || lia). done.
Qed.

Lemma utf_8_mbtoc32_split s1 s2 n2 ps st :
  Forall byte s1 -> s1 <> [] -> 1 <= n2 ->
  mb_bytesleft ps = 0 \/ utf_8_pending ps ->
  utf_8_mbtoc32 s1 (Z.of_nat (length s1)) ps = Some (MbIncomplete, st) ->
  utf_8_pending st /\
  utf_8_mbtoc32 (s1 ++ s2) (Z.of_nat (length s1) + n2) ps =
  resume (Z.of_nat (length s1)) ps (utf_8_mbtoc32 s2 n2 st).
Proof.
  intros Hs Hne Hn Hps H. destruct s1 as [|b s1]; [done|].
  assert (1 <= Z.of_nat (length (b :: s1))) by (simpl; lia).
  assert (forall pos bl pa lo s,
    Forall byte s -> 1 <= bl <= 3 -> 0 <= pa < 2 ^ (26 - 6 * bl) ->
    Z.of_nat (length (b :: s1)) = pos + Z.of_nat (length s) ->
    utf_8_continue s (Z.of_nat (length s)) pos bl pa lo ps = Some (MbIncomplete, st) ->
    utf_8_pending st /\
    utf_8_continue (s ++ s2) (Z.of_nat (length s) + n2) pos bl pa lo ps =
    resume (Z.of_nat (length (b :: s1))) ps (utf_8_mbtoc32 s2 n2 st)) as K.
  { intros pos bl pa lo s Hs' Hbl Hpa EL Hc.
    apply (utf_8_continue_split _ s2 n2) in Hc as [Hst Hc]; [|done|lia|done|done].
    split; [done|]. rewrite Hc, <- EL, utf_8_mbtoc32_continue by done.
    rewrite <- (Z.add_0_r (Z.of_nat (length (b :: s1)))) at 1.
    apply utf_8_continue_shift. }
  destruct Hps as [Hi|Hp].
  - apply Forall_cons_1 in Hs as [Hb Hs].
    assert (Z.of_nat (length (b :: s1)) = 1 + Z.of_nat (length s1)) as EL by (simpl; lia).
    rewrite utf_8_mbtoc32_init in H by done.
    rewrite <- app_comm_cons, utf_8_mbtoc32_init by (done || lia).
    replace (Z.of_nat (length (b :: s1)) + n2 - 1) with (Z.of_nat (length s1) + n2) by lia.
    replace (Z.of_nat (length (b :: s1)) - 1) with (Z.of_nat (length s1)) in H by lia.
    destruct (b <? 128); [done|].
    assert (2 ^ 26 > 0) by done. unfold byte in Hb.
    destruct (_ && _); [|destruct (_ && _); [|destruct (_ && _); [|done]]].
    all: apply K; simpl; try done; lia.
  - rewrite utf_8_mbtoc32_continue in H by done.
    rewrite utf_8_mbtoc32_continue by (done || lia). destruct Hp as (? & ? & ?).
    apply K; done || lia.
Qed.

(** ** What a character set promises to its clients *)

Class CtypeLaws (C : lc_ctype) : Prop := {
  (** An encoding is a non-empty sequence of at most [c32tomb_max] bytes. *)
  law_length c bs :
    0 <= c -> c32tomb C c = Some bs ->
    1 <= Z.of_nat (length bs) <= c32tomb_max C /\ Forall byte bs;
  (** Decoding reads back what was encoded, whatever follows it. *)
  law_decode c bs rest n :
    0 <= c -> c32tomb C c = Some bs -> Z.of_nat (length bs) <= n ->
    mbtoc32 C (bs ++ rest) n mbstate_init =
      Some (MbChar (Z.of_nat (length bs)) c, mbstate_init);
  (** Only encodings decode: there is no second spelling of a character. *)
  law_sound s n l c st :
    Forall byte s -> mbtoc32 C s n mbstate_init = Some (MbChar l c, st) ->
    st = mbstate_init /\ 0 <= c < 2 ^ 32 /\ l <= n /\
    exists bs rest, c32tomb C c = Some bs /\ l = Z.of_nat (length bs) /\ s = bs ++ rest;
  (** No byte past [n] is read. *)
  law_total s n st : n <= Z.of_nat (length s) -> is_Some (mbtoc32 C s n st);
  law_empty s st : mbtoc32 C s 0 st = Some (MbIncomplete, st);
  (** The null character is the null byte. *)
  law_nul : c32tomb C 0 = Some [0] }.

Lemma utf_8_encode_length c :
  1 <= Z.of_nat (length (utf_8_encode c)) <= 4.
Proof. unfold utf_8_encode. zcases; lia. Qed.

Lemma utf_8_encode_bytes c : scalar c -> Forall byte (utf_8_encode c).
Proof.
  intros [H _]. unfold utf_8_encode.
  zcases; repeat constructor; lia.
Qed.

Lemma utf_8_continue_total sb n pos bl pa lo ps :
  n <= Z.of_nat (length sb) -> is_Some (utf_8_continue sb n pos bl pa lo ps).
Proof.
  revert n pos bl pa. induction sb as [|b sb IH]; intros n pos bl pa Hn; simpl in *.
  - rewrite (proj2 (Z.leb_le n 0)) by lia. eauto.
  - destruct (n <=? 0); [eauto|]. destruct (negb _); [eauto|].
    destruct (_ =? 0); [destruct (_ || _); eauto|]. apply IH. lia.
Qed.

Lemma utf_8_mbtoc32_total s n st :
  n <= Z.of_nat (length s) -> is_Some (utf_8_mbtoc32 s n st).
Proof.
  intros Hn. unfold utf_8_mbtoc32, mbstate_get_multibyte.
  destruct (Z.ltb_spec n 1); [eauto|].
  destruct (_ =? 0); [|by apply utf_8_continue_total].
  destruct s as [|b s]; simpl in Hn; [lia|].
  repeat (destruct (_ =? _); [eauto using utf_8_continue_total; apply utf_8_continue_total; lia|]).
  eauto.
Qed.

#[export] Instance utf_8_laws : CtypeLaws ctype_utf_8.
Proof.
  split; simpl.
  - intros c bs Hc H. rewrite utf_8_c32tomb_spec in H by done.
    destruct (is_scalar c) eqn:E; [|done]. simplify_eq.
    split; [apply utf_8_encode_length|by apply utf_8_encode_bytes, is_scalar_spec].
  - intros c bs rest n Hc H Hn. rewrite utf_8_c32tomb_spec in H by done.
    destruct (is_scalar c) eqn:E; [|done]. simplify_eq.
    by apply utf_8_decode_encode; [apply is_scalar_spec|..].
  - intros s n l c st Hs H. apply utf_8_decode_sound in H as (-> & Hc & Hl & -> & rest & ->); [|done..].
    pose proof Hc as [? _]. split; [done|]. split; [lia|]. split; [done|].
    exists (utf_8_encode c), rest. rewrite utf_8_c32tomb_spec by lia.
    by rewrite (proj2 (is_scalar_spec c)).
  - intros. by apply utf_8_mbtoc32_total.
  - done.
  - done.
Qed.

#[export] Instance us_ascii_laws : CtypeLaws ctype_us_ascii.
Proof.
  unfold ctype_us_ascii, us_ascii_mbtoc32, us_ascii_c32tomb, SCHAR_MAX. split; simpl.
  - intros c bs Hc H. destruct (Z.ltb_spec 127 c); [done|]. simplify_eq.
    rewrite uN_small by (unfold in_unsigned; lia). simpl. split; [lia|].
    repeat constructor; lia.
  - intros c bs rest n Hc H Hn. destruct (Z.ltb_spec 127 c); [done|]. simplify_eq.
    rewrite uN_small by (unfold in_unsigned; lia). simpl in *.
    rewrite (proj2 (Z.ltb_ge _ _)), (proj2 (Z.ltb_ge _ _)) by lia. done.
  - intros s n l c st Hs H. destruct (Z.ltb_spec n 1); [done|].
    destruct s as [|b s]; [done|]. apply Forall_cons_1 in Hs as [[? ?] _]. simpl in H.
    destruct (Z.ltb_spec 127 b); [done|]. simplify_eq.
    split; [done|]. split; [lia|]. split; [lia|]. exists [c], s.
    rewrite (proj2 (Z.ltb_ge _ _)), uN_small by (unfold in_unsigned; lia). done.
  - intros s n st Hn. destruct (Z.ltb_spec n 1); [eauto|].
    destruct s as [|b s]; simpl in *; [lia|]. destruct (127 <? b); eauto.
  - done.
  - done.
Qed.

(** ** Properties *)

(** C4: The UTF-8 encoder produces the Unicode encoding form of every scalar
    value and rejects surrogates and values above U+10FFFF; from the initial
    state the decoder yields a character exactly when the buffer starts with
    that character's encoding (so overlong, surrogate and out-of-range sequences
    are rejected), consuming exactly the encoding. *)
Theorem utf_8_codec (c n : Z) (s : list Z) (Hc : 0 <= c) (Hs : Forall byte s) :
  utf_8_c32tomb c = (if is_scalar c then Some (utf_8_encode c) else None) /\
  (forall l st,
     utf_8_mbtoc32 s n mbstate_init = Some (MbChar l c, st) <->
     st = mbstate_init /\ is_scalar c = true /\
     l = Z.of_nat (length (utf_8_encode c)) /\ l <= n /\
     exists rest, s = utf_8_encode c ++ rest).
Proof.
  split; [by apply utf_8_c32tomb_spec|]. intros l st. split.
  - intros H. apply utf_8_decode_sound in H as (-> & Hsc & Hl & -> & rest & ->); [|done..].
    rewrite is_scalar_spec. eauto 10.
  - intros (-> & Hsc & -> & Hl & rest & ->). rewrite is_scalar_spec in Hsc.
    by apply utf_8_decode_encode.
Qed.

(** C5: UTF-8 decoding is incremental: when a call on a non-empty prefix
    returns -2, continuing with the stored state on the rest gives what a single
    call on the whole input gives - the same character, the lengths adding up,
    the same final state, and an error for an error (where a single call leaves
    the caller's state untouched). *)
Theorem utf_8_incremental (s1 s2 : list Z) (n2 : Z) (ps st : mbstate)
    (H1 : Forall byte s1) (Hne : s1 <> []) (Hn2 : 1 <= n2)
    (Hps : mb_bytesleft ps = 0 \/ utf_8_pending ps)
    (Hinc : utf_8_mbtoc32 s1 (Z.of_nat (length s1)) ps = Some (MbIncomplete, st)) :
  utf_8_pending st /\
  utf_8_mbtoc32 (s1 ++ s2) (Z.of_nat (length s1) + n2) ps =
    match utf_8_mbtoc32 s2 n2 st with
    | Some (MbChar l c, st') => Some (MbChar (Z.of_nat (length s1) + l) c, st')
    | Some (MbIncomplete, st') => Some (MbIncomplete, st')
    | Some (MbError, _) => Some (MbError, ps)
    | None => None
    end.
Proof. by apply utf_8_mbtoc32_split. Qed.

(** The euro sign, U+20AC. *)
Lemma utf_8_codec_witness :
  Forall byte [0xe2; 0x82; 0xac; 0x41] /\
  utf_8_mbtoc32 [0xe2; 0x82; 0xac; 0x41] 4 mbstate_init
    = Some (MbChar 3 0x20ac, mbstate_init).
Proof.
  assert (Forall byte [0xe2; 0x82; 0xac; 0x41]) as H
    by (repeat constructor; vm_compute; discriminate).
  split; [exact H|].
  apply (proj2 (utf_8_codec 0x20ac 4 [0xe2; 0x82; 0xac; 0x41] ltac:(discriminate) H)).
  repeat split; [discriminate|]. exists [0x41]. reflexivity.
Defined.

(** The same character split after its first byte. *)
Lemma utf_8_incremental_witness :
  utf_8_mbtoc32 [0xe2] 1 mbstate_init
    = Some (MbIncomplete, mbstate_set_multibyte 2 2 0x800) /\
  utf_8_mbtoc32 ([0xe2] ++ [0x82; 0xac]) 3 mbstate_init
    = Some (MbChar 3 0x20ac, mbstate_init).
Proof.
  split; [reflexivity|].
  refine (eq_trans (proj2 (utf_8_incremental [0xe2] [0x82; 0xac] 2 mbstate_init
    (mbstate_set_multibyte 2 2 0x800) _ _ _ _ _)) _).
  - repeat constructor; vm_compute; discriminate.
  - discriminate.
  - discriminate.
  - left. reflexivity.
  - reflexivity.
  - reflexivity.
Defined.
