(* ===== verification/Multibyte.v ===== *)
(** * Multibyte and wide character conversion

    The string converters generated by [GENERATE_MBSTOC32S] and
    [GENERATE_C32STOMBS] of [src/common/locale.h], and the conversion functions
    of [src/libc/uchar], [src/libc/wchar] and [src/libc/stdlib] on top of them.

    Every function takes the character set of its locale ([locale->ctype]); the
    variants without [_l] use US-ASCII, the character set of the C locale.  The
    properties are proved against [CtypeLaws]. *)

From S2P Require Import Prelude Charset.
#[local] Open Scope Z_scope.

Section Generators.
Context (C : lc_ctype).

(** ** [mbstoc32s]

    Without an output buffer the characters are counted ([-1] on error); with
    one they are stored.  [fuel] bounds the number of characters: every one
    takes at least a byte, so the length of the input plus one is enough. *)

Fixpoint mbstoc32s_count (fuel : nat) (sb : list Z) (nmc : Z) (ps : mbstate)
    (allow_null : bool) (ret : Z) : option (Z * mbstate) :=
  match fuel with
  | O => None
  | S fuel =>
      '(r, ps) ← mbtoc32 C sb nmc ps;
      match r with
      | MbError => Some (-1, ps)
      | MbIncomplete => Some (ret, ps)
      | MbChar l c32 =>
          if (c32 =? 0) && negb allow_null then Some (ret, ps)
          else mbstoc32s_count fuel (drop (Z.to_nat l) sb) (nmc - l) ps allow_null (ret + 1)
      end
  end.

(** The result, the new [*src] ([None] for [NULL]), the characters stored and
    the new state. *)
Fixpoint mbstoc32s_store (fuel : nat) (len : Z) (sb : list Z) (nmc : Z)
    (ps : mbstate) (allow_null : bool) (out : list Z)
    : option (Z * option (list Z) * list Z * mbstate) :=
  match fuel with
  | O => None
  | S fuel =>
      if len <=? 0 then Some (Z.of_nat (length out), Some sb, out, ps)
      else
        '(r, ps) ← mbtoc32 C sb nmc ps;
        match r with
        | MbError => Some (-1, Some sb, out, ps)
        | MbIncomplete =>
            Some (Z.of_nat (length out), Some (drop (Z.to_nat nmc) sb), out, ps)
        | MbChar l c32 =>
            if (c32 =? 0) && negb allow_null
            then Some (Z.of_nat (length out), None, out ++ [c32], ps)
            else mbstoc32s_store fuel (len - 1) (drop (Z.to_nat l) sb) (nmc - l) ps
                   allow_null (out ++ [c32])
        end
  end.

(** ** [c32stombs] *)

Fixpoint c32stombs_count (src : list Z) (nc32 ret : Z) : option Z :=
  if nc32 <=? 0 then Some ret
  else
    match src with
    | [] => None
    | c :: src =>
        match c32tomb C c with
        | None => Some (-1)
        | Some bs =>
            let ret := ret + Z.of_nat (length bs) in
            if c =? 0 then Some (ret - 1) else c32stombs_count src (nc32 - 1) ret
        end
    end.

(** The result, the new [*src] and the bytes stored. *)
Fixpoint c32stombs_store (src : list Z) (nc32 len : Z) (out : list Z)
    : option (Z * option (list Z) * list Z) :=
  if (nc32 <=? 0) || (len <=? 0) then Some (Z.of_nat (length out), Some src, out)
  else
    match src with
    | [] => None
    | c :: src' =>
        match c32tomb C c with
        | None => Some (-1, Some src, out)
        | Some bs =>
            if len <? Z.of_nat (length bs)
            then Some (Z.of_nat (length out), Some src, out)
            else if c =? 0 then Some (Z.of_nat (length out), None, out ++ bs)
            else c32stombs_store src' (nc32 - 1) (len - Z.of_nat (length bs)) (out ++ bs)
        end
    end.

(** ** [mbrtoc32_l], [c32rtomb_l] ([mbrtowc_l], [wcrtomb_l])

    A [NULL] pointer is [None].  The result is the returned value (as the signed
    number it is cast from), the character stored, and the new state. *)

Definition mb_ret (r : mbresult) : Z :=
  match r with MbChar l _ => l | MbIncomplete => -2 | MbError => -1 end.

Definition mbrtoc32_l (s : option (list Z)) (n : Z) (ps : mbstate)
    : option (Z * option Z * mbstate) :=
  let '(s, n) := match s with None => ([0], 1) | Some s => (s, n) end in
  '(r, ps) ← mbtoc32 C s n ps;
  match r with
  | MbChar l c32 => Some (if c32 =? 0 then 0 else l, Some c32, ps)
  | _ => Some (mb_ret r, None, ps)
  end.

(** [to_buf = false]: [s] is [NULL], and the null character is converted into
    an internal buffer.  The result is the returned value, the bytes written
    through [s] and the new state. *)
Definition c32rtomb_l (to_buf : bool) (c32 : Z) (ps : mbstate) : Z * list Z * mbstate :=
  let c32 := if to_buf then c32 else 0 in
  match c32tomb C c32 with
  | None => (-1, [], ps)
  | Some bs => (Z.of_nat (length bs), if to_buf then bs else [], mbstate_init)
  end.

Definition mbrlen_l (s : list Z) (n : Z) (ps : mbstate) : option (Z * mbstate) :=
  '(r, ps) ← mbtoc32 C s n ps;
  match r with
  | MbChar l c32 => Some (if c32 =? 0 then 0 else l, ps)
  | _ => Some (mb_ret r, ps)
  end.

(** ** [mbrtoc16_l], [c16rtomb_l]: UTF-16 *)

Definition mbrtoc16_l (s : option (list Z)) (n : Z) (ps : mbstate)
    : option (Z * option Z * mbstate) :=
  let '(s, n) := match s with None => ([0], 1) | Some s => (s, n) end in
  match mbstate_get_surrogate ps with
  | Some trail => Some (-3, Some trail, mbstate_init)
  | None =>
      '(r, ps) ← mbtoc32 C s n ps;
      match r with
      | MbChar l c32 =>
          if c32 <? 0x10000 then
            Some (if u16 c32 =? 0 then 0 else l, Some (u16 c32), ps)
          else
            let c32 := c32 - 0x10000 in
            let lead := u16 (Z.lor 0xd800 (Z.shiftr c32 10)) in
            ps ← mbstate_set_surrogate (u16 (Z.lor 0xdc00 (Z.land c32 0x3ff)));
            Some (if lead =? 0 then 0 else l, Some lead, ps)
      | _ => Some (mb_ret r, None, ps)
      end
  end.

Definition c16rtomb_l (to_buf : bool) (c16 : Z) (ps : mbstate)
    : option (Z * list Z * mbstate) :=
  let c16 := if to_buf then c16 else 0 in
  let convert c32 :=
    match c32tomb C c32 with
    | None => Some (-1, [], ps)
    | Some bs => Some (Z.of_nat (length bs), if to_buf then bs else [], mbstate_init)
    end in
  match mbstate_get_surrogate ps with
  | Some lead =>
      if (c16 <? 0xdc00) || (0xdfff <? c16) then Some (-1, [], ps)
      else convert (0x10000 + Z.lor (Z.shiftl (Z.land lead 0x3ff) 10) (Z.land c16 0x3ff))
  | None =>
      if (0xd800 <=? c16) && (c16 <=? 0xdbff) then
        ps ← mbstate_set_surrogate c16; Some (0, [], ps)
      else convert c16
  end.

(** ** [mbtowc_l], [wctomb_l], [btowc_l], [wctob_l] *)

Definition EOF : Z := -1.
Definition WEOF : Z := -1.

Definition mbtowc_l (s : option (list Z)) (n : Z) : option (Z * option Z) :=
  match s with
  | None => Some (0, None)
  | Some s =>
      '(r, _) ← mbtoc32 C s n mbstate_init;
      match r with
      | MbChar l c32 => Some (if c32 =? 0 then 0 else l, Some c32)
      | _ => Some (-1, None)
      end
  end.

Definition wctomb_l (s_null : bool) (wchar : Z) : Z * list Z :=
  if s_null then (0, [])
  else match c32tomb C (u32 wchar) with
       | None => (-1, [])
       | Some bs => (Z.of_nat (length bs), bs)
       end.

Definition btowc_l (c : Z) : option Z :=
  if c =? EOF then Some WEOF
  else
    '(r, _) ← mbtoc32 C [u8 c] 1 mbstate_init;
    match r with
    | MbChar 1 c32 => Some c32
    | _ => Some WEOF
    end.

Definition wctob_l (c : Z) : Z :=
  match c32tomb C (u32 c) with
  | Some [b] => b
  | _ => EOF
  end.

(** ** [mbsnrtowcs_l], [wcsnrtombs_l]

    [dst_null]: the destination is [NULL]; [*src] is then left alone. *)

Definition mbsnrtowcs_l (dst_null : bool) (src : list Z) (nmc len : Z) (ps : mbstate)
    : option (Z * option (list Z) * list Z * mbstate) :=
  if dst_null then
    '(ret, ps) ← mbstoc32s_count (S (length src)) src nmc ps false 0;
    Some (ret, Some src, [], ps)
  else mbstoc32s_store (S (length src)) len src nmc ps false [].

Definition wcsnrtombs_l (dst_null : bool) (src : list Z) (nwc len : Z) (ps : mbstate)
    : option (Z * option (list Z) * list Z * mbstate) :=
  '(l, src', out) ← (if dst_null then
                       l ← c32stombs_count src nwc 0; Some (l, Some src, [])
                     else c32stombs_store src nwc len []);
  Some (l, src', out, if 0 <=? l then mbstate_init else ps).

End Generators.

(** ** The variants for the C locale *)

Definition mbrlen := mbrlen_l ctype_us_ascii.
Definition mbrtoc32 := mbrtoc32_l ctype_us_ascii.
Definition c32rtomb := c32rtomb_l ctype_us_ascii.
Definition mbrtoc16 := mbrtoc16_l ctype_us_ascii.
Definition c16rtomb := c16rtomb_l ctype_us_ascii.
Definition mbtowc := mbtowc_l ctype_us_ascii.
Definition wctomb := wctomb_l ctype_us_ascii.
Definition mbsnrtowcs := mbsnrtowcs_l ctype_us_ascii.
Definition wcsnrtombs := wcsnrtombs_l ctype_us_ascii.

Definition btowc (c : Z) : Z := if (c <? 0) || (SCHAR_MAX <? c) then WEOF else c.
Definition wctob (c : Z) : Z := if (c <? 0) || (SCHAR_MAX <? c) then EOF else c.

Definition mbsinit (ps : option mbstate) : bool := mbstate_get_init ps.

(** ** String conversion round trip *)

Section StringLaws.
Context (C : lc_ctype) `{!CtypeLaws C}.

(** [bss] are the encodings of the non-null characters [cs]. *)
Definition encodes (cs : list Z) (bss : list (list Z)) : Prop :=
  Forall2 (fun c bs => 0 < c /\ c32tomb C c = Some bs) cs bss.

Lemma length_concat_ge cs bss :
  encodes cs bss -> Z.of_nat (length cs) <= Z.of_nat (length (concat bss)).
Proof.
  induction 1 as [|c bs cs bss [? H] _ IH]; simpl; [lia|].
  apply law_length in H as [? _]; [|lia]. rewrite length_app. lia.
Qed.

Lemma mbstoc32s_count_spec cs bss rest fuel nmc ret :
  encodes cs bss -> (length cs < fuel)%nat ->
  Z.of_nat (length (concat bss)) < nmc ->
  mbstoc32s_count C fuel (concat bss ++ 0 :: rest) nmc mbstate_init false ret =
  Some (ret + Z.of_nat (length cs), mbstate_init).
Proof.
  intros H. revert fuel nmc ret.
  induction H as [|c bs cs bss [Hc H] _ IH]; intros fuel nmc ret Hf Hn.
  all: destruct fuel as [|fuel]; [simpl in Hf; lia|].
  - simpl in *. change (0 :: rest) with ([0] ++ rest).
    rewrite (law_decode 0 [0]) by (apply law_nul || (simpl; lia)). simpl. eq_args.
  - simpl in *. rewrite length_app in Hn. rewrite <- app_assoc.
    rewrite (law_decode c bs) by (done || lia). simpl.
    rewrite (proj2 (Z.eqb_neq c 0)) by lia. simpl.
    rewrite Nat2Z.id, drop_app_length, IH by lia. eq_args.
Qed.

Lemma mbstoc32s_store_spec cs bss rest fuel len nmc out :
  encodes cs bss -> (length cs < fuel)%nat -> Z.of_nat (length cs) < len ->
  Z.of_nat (length (concat bss)) < nmc ->
  mbstoc32s_store C fuel len (concat bss ++ 0 :: rest) nmc mbstate_init false out =
  Some (Z.of_nat (length out + length cs), None, out ++ cs ++ [0], mbstate_init).
Proof.
  intros H. revert fuel len nmc out.
  induction H as [|c bs cs bss [Hc H] _ IH]; intros fuel len nmc out Hf Hl Hn.
  all: destruct fuel as [|fuel]; [simpl in Hf; lia|].
  all: simpl in *; rewrite (proj2 (Z.leb_gt len 0)) by lia.
  - change (0 :: rest) with ([0] ++ rest).
    rewrite (law_decode 0 [0]) by (apply law_nul || (simpl; lia)). simpl.
    by rewrite Nat.add_0_r.
  - rewrite length_app in Hn. rewrite <- app_assoc.
    rewrite (law_decode c bs) by (done || lia). simpl.
    rewrite (proj2 (Z.eqb_neq c 0)) by lia. simpl.
    rewrite Nat2Z.id, drop_app_length, IH by lia.
    rewrite length_app, <- app_assoc. simpl. eq_args.
Qed.

Lemma c32stombs_store_spec cs bss rest nc32 len out :
  encodes cs bss -> Z.of_nat (length cs) < nc32 ->
  Z.of_nat (length (concat bss)) < len ->
  c32stombs_store C (cs ++ 0 :: rest) nc32 len out =
  Some (Z.of_nat (length out + length (concat bss)), None, out ++ concat bss ++ [0]).
Proof.
  intros H. revert nc32 len out.
  induction H as [|c bs cs bss [Hc H] _ IH]; intros nc32 len out Hn Hl; simpl in *.
  - rewrite (proj2 (Z.leb_gt nc32 0)), (proj2 (Z.leb_gt len 0)) by lia. simpl.
    rewrite law_nul. rewrite (proj2 (Z.ltb_ge len _)) by (simpl; lia). simpl.
    by rewrite Nat.add_0_r.
  - rewrite length_app in *. assert (0 <= Z.of_nat (length bs)) by lia.
    rewrite (proj2 (Z.leb_gt nc32 0)), (proj2 (Z.leb_gt len 0)) by lia. simpl.
    rewrite H, (proj2 (Z.ltb_ge len _)), (proj2 (Z.eqb_neq c 0)) by lia.
    rewrite IH by lia. rewrite length_app, <- !app_assoc. eq_args.
Qed.

Lemma c32stombs_count_spec cs bss rest nc32 ret :
  encodes cs bss -> Z.of_nat (length cs) < nc32 ->
  c32stombs_count C (cs ++ 0 :: rest) nc32 ret =
  Some (ret + Z.of_nat (length (concat bss))).
Proof.
  intros H. revert nc32 ret.
  induction H as [|c bs cs bss [Hc H] _ IH]; intros nc32 ret Hn; simpl in *;
  rewrite (proj2 (Z.leb_gt nc32 0)) by lia.
  - rewrite law_nul. simpl. eq_args.
  - rewrite H, (proj2 (Z.eqb_neq c 0)), IH by lia. rewrite length_app. eq_args.
Qed.

(** *** UTF-16 *)

Definition utf_16_encode (c : Z) : list Z :=
  if c <? 0x10000 then [c]
  else [0xd800 + (c - 0x10000) / 1024; 0xdc00 + (c - 0x10000) mod 1024].

Lemma surrogate_lor base x k :
  0 <= k <= 11 -> 0 <= x < 2 ^ k -> base = base / 2 ^ k * 2 ^ k ->
  0 <= base <= 0xdc00 -> u16 (Z.lor base x) = base + x.
Proof.
  intros Hk Hx Hb Hr. rewrite lor_disjoint.
  - apply uN_small. unfold in_unsigned.
    assert (2 ^ k <= 2 ^ 11) by (apply Z.pow_le_mono_r; lia). lia.
  - rewrite Hb. apply land_shifted_low; lia.
Qed.

Lemma lead_surrogate d :
  0 <= d < 2 ^ 20 -> u16 (Z.lor 0xd800 (Z.shiftr d 10)) = 0xd800 + d / 1024.
Proof.
  intros. rewrite Z.shiftr_div_pow2 by lia. change (2 ^ 10) with 1024.
  apply (surrogate_lor _ _ 10); [lia| |done|lia].
  split; [apply Z.div_pos; lia|apply Z.div_lt_upper_bound; lia].
Qed.

Lemma trail_surrogate d :
  u16 (Z.lor 0xdc00 (Z.land d 0x3ff)) = 0xdc00 + d mod 1024.
Proof.
  change 0x3ff with (Z.ones 10). rewrite land_low by lia.
  apply (surrogate_lor _ _ 10); [lia| |done|lia]. by apply Z.mod_pos_bound.
Qed.

(** Joining the pair gives the character back. *)
Lemma join_surrogates d :
  0 <= d < 2 ^ 20 ->
  Z.lor (Z.shiftl (Z.land (0xd800 + d / 1024) 0x3ff) 10)
        (Z.land (0xdc00 + d mod 1024) 0x3ff) = d.
Proof.
  intros Hd. change 0x3ff with (Z.ones 10). rewrite !land_low by lia.
  change (2 ^ 10) with 1024.
  pose proof (Z.div_mod d 1024). pose proof (Z.mod_pos_bound d 1024).
  assert (0 <= d / 1024 < 1024)
    by (split; [apply Z.div_pos; lia|apply Z.div_lt_upper_bound; lia]).
  assert (forall x k, 0 <= x < 1024 -> (k * 1024 + x) mod 1024 = x) as M.
  { intros x k ?. rewrite Z.add_comm, Z_mod_plus_full. by apply Z.mod_small. }
  change 0xd800 with (54 * 1024). change 0xdc00 with (55 * 1024). rewrite !M by lia.
  rewrite lor_shifted_low by lia. change (2 ^ 10) with 1024. lia.
Qed.

Lemma get_surrogate_set x : 0xd800 <= x <= 0xdfff ->
  mbstate_set_surrogate x = Some (Mbstate x 0 0 0) /\
  mbstate_get_surrogate (Mbstate x 0 0 0) = Some x.
Proof.
  intros. unfold mbstate_set_surrogate, mbstate_get_surrogate. simpl.
  zcases; done.
Qed.

End StringLaws.

(** ** Properties *)

(** C6: For every character set that satisfies [CtypeLaws], converting a
    null-terminated wide string with [wcsnrtombs_l] and the resulting bytes with
    [mbsnrtowcs_l] gives the string back; both consume their input entirely
    ([*src] becomes [NULL]), return the number of units stored before the
    terminator, agree with the counts computed without a buffer, and end in the
    initial state. *)
Theorem wcs_mbs_roundtrip (C : lc_ctype) `{!CtypeLaws C}
    (cs : list Z) (bss : list (list Z)) (nwc blen nmc wlen : Z) (ps : mbstate)
    (Henc : encodes C cs bss)
    (Hnwc : Z.of_nat (length cs) < nwc) (Hwlen : Z.of_nat (length cs) < wlen)
    (Hblen : Z.of_nat (length (concat bss)) < blen)
    (Hnmc : Z.of_nat (length (concat bss)) < nmc) :
  let bs := concat bss ++ [0] in
  wcsnrtombs_l C false (cs ++ [0]) nwc blen ps =
    Some (Z.of_nat (length (concat bss)), None, bs, mbstate_init) /\
  wcsnrtombs_l C true (cs ++ [0]) nwc blen ps =
    Some (Z.of_nat (length (concat bss)), Some (cs ++ [0]), [], mbstate_init) /\
  mbsnrtowcs_l C false bs nmc wlen mbstate_init =
    Some (Z.of_nat (length cs), None, cs ++ [0], mbstate_init) /\
  mbsnrtowcs_l C true bs nmc wlen mbstate_init =
    Some (Z.of_nat (length cs), Some bs, [], mbstate_init).
Proof.
  pose proof (length_concat_ge C cs bss Henc).
  assert (length cs < S (length (concat bss ++ [0%Z])))%nat by (rewrite length_app; lia).
  unfold wcsnrtombs_l, mbsnrtowcs_l. cbv zeta.
  rewrite (c32stombs_store_spec C cs bss), (c32stombs_count_spec C cs bss),
    (mbstoc32s_store_spec C cs bss), (mbstoc32s_count_spec C cs bss)
    by (assumption || (simpl; lia)).
  simpl. rewrite !(proj2 (Z.leb_le 0 _)) by lia. split_and!; eq_args.
Qed.

(** UTF-16 and multibyte strings convert into each other.  For a Unicode
    scalar value the locale can encode, [mbrtoc16_l] delivers its UTF-16 code
    units - the second one of a surrogate pair by a call that returns -3 and
    consumes nothing - and [c16rtomb_l], fed with those units, stores exactly the
    bytes of the character, at the last unit; both return to the initial state. *)
Theorem utf_16_conversion (C : lc_ctype) `{!CtypeLaws C} (c n n' : Z) (bs rest : list Z)
    (Hc : scalar c) (Hbs : c32tomb C c = Some bs) (Hn : Z.of_nat (length bs) <= n)
    (Hnz : c <> 0) :
  match utf_16_encode c with
  | [u] =>
      mbrtoc16_l C (Some (bs ++ rest)) n mbstate_init =
        Some (Z.of_nat (length bs), Some u, mbstate_init) /\
      c16rtomb_l C true u mbstate_init = Some (Z.of_nat (length bs), bs, mbstate_init)
  | [u; v] =>
      exists p q,
        mbrtoc16_l C (Some (bs ++ rest)) n mbstate_init =
          Some (Z.of_nat (length bs), Some u, p) /\
        mbrtoc16_l C (Some rest) n' p = Some (-3, Some v, mbstate_init) /\
        c16rtomb_l C true u mbstate_init = Some (0, [], q) /\
        c16rtomb_l C true v q = Some (Z.of_nat (length bs), bs, mbstate_init)
  | _ => False
  end.
Proof.
  destruct Hc as [Hc Hns]. unfold utf_16_encode.
  assert (mbtoc32 C (bs ++ rest) n mbstate_init =
    Some (MbChar (Z.of_nat (length bs)) c, mbstate_init)) as D
    by (apply law_decode; lia || done).
  destruct (Z.ltb_spec c 0x10000).
  - unfold mbrtoc16_l, c16rtomb_l. simpl. rewrite D. simpl.
    rewrite (proj2 (Z.ltb_lt c 65536)), uN_small by (done || unfold in_unsigned; lia).
    rewrite (proj2 (Z.eqb_neq c 0)) by done. split; [done|].
    rewrite Hbs. zcases; done.
  - set (d := c - 0x10000). assert (0 <= d < 2 ^ 20) as Hd by lia.
    assert (0 <= d / 1024 < 1024)
      by (split; [apply Z.div_pos; lia|apply Z.div_lt_upper_bound; lia]).
    pose proof (Z.mod_pos_bound d 1024 ltac:(lia)).
    destruct (get_surrogate_set (0xdc00 + d mod 1024)) as [S1 G1]; [lia|].
    destruct (get_surrogate_set (0xd800 + d / 1024)) as [S2 G2]; [lia|].
    eexists _, _. unfold mbrtoc16_l, c16rtomb_l. simpl mbstate_get_surrogate at 1.
    rewrite D. simpl. fold d. rewrite (proj2 (Z.ltb_ge c 65536)) by lia.
    rewrite lead_surrogate, trail_surrogate, S1 by done. simpl.
    rewrite (proj2 (Z.eqb_neq (55296 + d / 1024) 0)) by lia. split; [done|].
    rewrite G1. split; [done|].
    rewrite (proj2 (Z.leb_le 55296 _)), (proj2 (Z.leb_le _ 56319)), S2 by lia.
    split; [done|]. simpl. rewrite G2.
    rewrite (proj2 (Z.ltb_ge _ 56320)), (proj2 (Z.ltb_ge 57343 _)) by lia. simpl.
    rewrite join_surrogates by done. replace (65536 + d) with c by lia. by rewrite Hbs.
Qed.

(** Witnesses: "h\u20ac\U0001F600" in UTF-8. *)
Lemma wcs_mbs_roundtrip_witness :
  encodes ctype_utf_8 [0x68; 0x20ac; 0x1f600]
    [[0x68]; [0xe2; 0x82; 0xac]; [0xf0; 0x9f; 0x98; 0x80]] /\
  mbsnrtowcs_l ctype_utf_8 false [0x68; 0xe2; 0x82; 0xac; 0xf0; 0x9f; 0x98; 0x80; 0] 9 4
    mbstate_init = Some (3, None, [0x68; 0x20ac; 0x1f600; 0], mbstate_init).
Proof.
  assert (encodes ctype_utf_8 [0x68; 0x20ac; 0x1f600]
    [[0x68]; [0xe2; 0x82; 0xac]; [0xf0; 0x9f; 0x98; 0x80]]) as H
    by (repeat constructor).
  split; [exact H|].
  exact (proj1 (proj2 (proj2 (wcs_mbs_roundtrip ctype_utf_8 _ _ 4 9 9 4 mbstate_init H
    eq_refl eq_refl eq_refl eq_refl)))).
Defined.

Lemma utf_16_conversion_witness :
  scalar 0x1f600 /\
  exists p, mbrtoc16_l ctype_utf_8 (Some [0xf0; 0x9f; 0x98; 0x80]) 4 mbstate_init
              = Some (4, Some 0xd83d, p) /\
            mbrtoc16_l ctype_utf_8 (Some []) 0 p = Some (-3, Some 0xde00, mbstate_init).
Proof.
  assert (scalar 0x1f600) as H by (unfold scalar; lia).
  split; [exact H|].
  destruct (utf_16_conversion ctype_utf_8 0x1f600 4 0 [0xf0; 0x9f; 0x98; 0x80] []
    H eq_refl ltac:(discriminate) ltac:(discriminate)) as (p & q & E1 & E2 & _).
  exists p. exact (conj E1 E2).
Defined.
