(* ===== verification/Iconv.v ===== *)
(** * iconv

    [src/libc/iconv/iconv.c] and [iconv_impl.h]: conversion of a byte stream from
    one character set to another, for any two character sets that satisfy
    [CtypeLaws]. *)

From S2P Require Import Prelude Charset.
#[local] Open Scope Z_scope.

Record iconv_cd := IconvCd {
  cd_from : lc_ctype; cd_to : lc_ctype;
  cd_from_state : mbstate; cd_ignore : bool }.

(** What a call can change: the decoding state of the handle, [*inbuf] (as the
    bytes readable there), [*inbytesleft], the bytes written so far at
    [*outbuf], and [*outbytesleft]. *)
Record iconv_bufs := IconvBufs {
  ib_state : mbstate;
  ib_in : list Z; ib_inleft : Z;
  ib_out : list Z; ib_outleft : Z }.

(** The returned value, [errno] when it is set, and the buffers. *)
Definition iconv_ret : Type := Z * option Z * iconv_bufs.

Fixpoint iconv_loop (fuel : nat) (from to : lc_ctype) (ignore : bool)
    (b : iconv_bufs) (have_ilseq : bool) : option iconv_ret :=
  match fuel with
  | O => None
  | S fuel =>
      if ib_inleft b <=? 0 then
        Some (if have_ilseq then (-1, Some EILSEQ, b) else (0, None, b))
      else
        '(r, from_state) ← mbtoc32 from (ib_in b) (ib_inleft b) (ib_state b);
        match r with
        | MbError =>
            if negb ignore then Some (-1, Some EILSEQ, b)
            else
              iconv_loop fuel from to ignore
                (IconvBufs mbstate_init (drop 1 (ib_in b)) (ib_inleft b - 1)
                   (ib_out b) (ib_outleft b)) true
        | MbIncomplete => Some (-1, Some EINVAL, b)
        | MbChar inlen c32 =>
            match c32tomb to c32 with
            | None =>
                if negb ignore then Some (-1, Some EILSEQ, b)
                else
                  iconv_loop fuel from to ignore
                    (IconvBufs from_state (drop (Z.to_nat inlen) (ib_in b))
                       (ib_inleft b - inlen) (ib_out b) (ib_outleft b)) true
            | Some buf =>
                let outlen := Z.of_nat (length buf) in
                if ib_outleft b <? outlen then Some (-1, Some E2BIG, b)
                else
                  iconv_loop fuel from to ignore
                    (IconvBufs from_state (drop (Z.to_nat inlen) (ib_in b))
                       (ib_inleft b - inlen) (ib_out b ++ buf) (ib_outleft b - outlen))
                    have_ilseq
            end
        end
  end.

(** [inbuf = None]: the input pointer is [NULL].  The fuel is one more than the
    number of input bytes, as every iteration consumes at least one. *)
Definition iconv (cd : iconv_cd) (inbuf : option (list Z)) (inleft : Z) (outleft : Z)
    : option iconv_ret :=
  match inbuf with
  | None => Some (0, None, IconvBufs mbstate_init [] inleft [] outleft)
  | Some s =>
      iconv_loop (S (length s)) (cd_from cd) (cd_to cd) (cd_ignore cd)
        (IconvBufs (cd_from_state cd) s inleft [] outleft) false
  end.

(** ** Reference: what a conversion is, without buffers

    [converts from to ignore s out skipped rest]: the input [s] splits into a
    consumed part, whose conversion is [out], and [rest]; [skipped] says whether
    something of the consumed part was dropped, which only [ignore] allows. *)
Inductive converts (from to : lc_ctype) (ignore : bool)
    : list Z -> list Z -> bool -> list Z -> Prop :=
  | converts_stop s : converts from to ignore s [] false s
  | converts_char c bs ds s out skipped rest :
      0 <= c -> c32tomb from c = Some bs -> c32tomb to c = Some ds ->
      converts from to ignore s out skipped rest ->
      converts from to ignore (bs ++ s) (ds ++ out) skipped rest
  | converts_skip_char c bs s out skipped rest :
      ignore = true -> 0 <= c -> c32tomb from c = Some bs -> c32tomb to c = None ->
      converts from to ignore s out skipped rest ->
      converts from to ignore (bs ++ s) out true rest
  | converts_skip_byte b s st out skipped rest :
      ignore = true ->
      mbtoc32 from (b :: s) (Z.of_nat (length (b :: s))) mbstate_init
        = Some (MbError, st) ->
      converts from to ignore s out skipped rest ->
      converts from to ignore (b :: s) out true rest.

(** Why a conversion stopped before the unconverted input [rest], with
    [outleft] bytes of room left. *)
Definition stop_reason (from to : lc_ctype) (ignore skipped : bool) (rest : list Z)
    (outleft ret : Z) (err : option Z) : Prop :=
  let dec := mbtoc32 from rest (Z.of_nat (length rest)) mbstate_init in
  (rest = [] /\ skipped = false /\ ret = 0 /\ err = None) \/
  (rest = [] /\ skipped = true /\ ret = -1 /\ err = Some EILSEQ) \/
  (rest <> [] /\ ret = -1 /\ ignore = false /\ err = Some EILSEQ /\
     ((exists st, dec = Some (MbError, st)) \/
      exists l c st, dec = Some (MbChar l c, st) /\ c32tomb to c = None)) \/
  (rest <> [] /\ ret = -1 /\ err = Some EINVAL /\
     exists st, dec = Some (MbIncomplete, st)) \/
  (rest <> [] /\ ret = -1 /\ err = Some E2BIG /\
     exists l c st ds, dec = Some (MbChar l c, st) /\ c32tomb to c = Some ds /\
                       outleft < Z.of_nat (length ds)).

Section Correctness.
Context (from to : lc_ctype) `{!CtypeLaws from} `{!CtypeLaws to} (ignore : bool).

(** The outcome [res] of a run on [s] with [outleft] bytes of room, when [out]
    has been written before and [ilseq] says whether something was skipped. *)
Definition run_ok (s out : list Z) (outleft : Z) (ilseq : bool) (res : option iconv_ret)
    : Prop :=
  exists o skipped rest ret err,
    converts from to ignore s o skipped rest /\
    0 <= outleft - Z.of_nat (length o) /\
    stop_reason from to ignore (ilseq || skipped) rest
      (outleft - Z.of_nat (length o)) ret err /\
    res = Some (ret, err, IconvBufs mbstate_init rest (Z.of_nat (length rest)) (out ++ o)
                            (outleft - Z.of_nat (length o))).

Lemma run_stop s out outleft ilseq ret err :
  0 <= outleft -> stop_reason from to ignore ilseq s outleft ret err ->
  run_ok s out outleft ilseq
    (Some (ret, err, IconvBufs mbstate_init s (Z.of_nat (length s)) out outleft)).
Proof.
  intros Ho Hr. exists [], false, s, ret, err.
  rewrite app_nil_r, orb_false_r. simpl length. rewrite Z.sub_0_r.
  split; [constructor|]. done.
Qed.

Lemma run_char c bs ds s out outleft ilseq res :
  0 <= c -> c32tomb from c = Some bs -> c32tomb to c = Some ds ->
  run_ok s (out ++ ds) (outleft - Z.of_nat (length ds)) ilseq res ->
  run_ok (bs ++ s) out outleft ilseq res.
Proof.
  intros Hc Hb Hd (o & sk & rest & ret & err & Hcv & Hge & Hstop & ->).
  exists (ds ++ o), sk, rest, ret, err. rewrite length_app, app_assoc.
  replace (outleft - Z.of_nat (length ds + length o))
    with (outleft - Z.of_nat (length ds) - Z.of_nat (length o)) by lia.
  split; [by apply (converts_char _ _ _ c)|]. done.
Qed.

Lemma run_skip_char c bs s out outleft ilseq res :
  ignore = true -> 0 <= c -> c32tomb from c = Some bs -> c32tomb to c = None ->
  run_ok s out outleft true res -> run_ok (bs ++ s) out outleft ilseq res.
Proof.
  intros Hi Hc Hb Hd (o & sk & rest & ret & err & Hcv & Hge & Hstop & ->).
  exists o, true, rest, ret, err. rewrite orb_true_r.
  split; [by apply (converts_skip_char _ _ _ c _ _ _ sk)|]. done.
Qed.

Lemma run_skip_byte b s st out outleft ilseq res :
  ignore = true ->
  mbtoc32 from (b :: s) (Z.of_nat (length (b :: s))) mbstate_init = Some (MbError, st) ->
  run_ok s out outleft true res -> run_ok (b :: s) out outleft ilseq res.
Proof.
  intros Hi Hd (o & sk & rest & ret & err & Hcv & Hge & Hstop & ->).
  exists o, true, rest, ret, err. rewrite orb_true_r.
  split; [by apply (converts_skip_byte _ _ _ b s st o sk)|]. done.
Qed.

(** Decoding at the start of a non-empty input consumes a non-empty prefix. *)
Lemma decode_split s l c st :
  Forall byte s ->
  mbtoc32 from s (Z.of_nat (length s)) mbstate_init = Some (MbChar l c, st) ->
  exists bs rest,
    s = bs ++ rest /\ c32tomb from c = Some bs /\ 0 <= c /\ st = mbstate_init /\
    Forall byte rest /\ (length rest < length s)%nat /\
    drop (Z.to_nat l) s = rest /\ Z.of_nat (length s) - l = Z.of_nat (length rest).
Proof.
  intros Hs D. apply law_sound in D as (-> & Hc & _ & bs & rest & Hbs & -> & ->); [|done].
  pose proof (law_length c bs ltac:(lia) Hbs) as [Hlen _].
  apply Forall_app in Hs as [_ Hs]. exists bs, rest.
  rewrite length_app, Nat2Z.id, drop_app_length.
  split_and!; done || lia.
Qed.

Lemma iconv_loop_spec fuel s out outleft ilseq :
  Forall byte s -> (length s < fuel)%nat -> 0 <= outleft ->
  run_ok s out outleft ilseq
    (iconv_loop fuel from to ignore
      (IconvBufs mbstate_init s (Z.of_nat (length s)) out outleft) ilseq).
Proof.
  revert s out outleft ilseq.
  induction fuel as [|fuel IH]; intros s out outleft ilseq Hs Hf Ho; [lia|].
  destruct s as [|b s'] eqn:Es.
  { simpl. destruct ilseq; apply run_stop; try done; unfold stop_reason; tauto. }
  rewrite <- Es in *. assert (s <> []) as Hne by (by subst).
  assert (0 < Z.of_nat (length s)) by (subst; simpl; lia).
  simpl iconv_loop. rewrite (proj2 (Z.leb_gt _ 0)) by lia. simpl ib_in.
  destruct (law_total (C := from) s (Z.of_nat (length s)) mbstate_init) as [[r st] D]; [done|].
  rewrite D. simpl. destruct r as [l c| |].
  - destruct (decode_split s l c st Hs D)
      as (bs & rest & Hsp & Hbs & Hc & Hst & Hr & Hlt & Hdrop & ->).
    rewrite Hdrop, Hst.
    destruct (c32tomb to c) as [ds|] eqn:Hds.
    + destruct (Z.ltb_spec outleft (Z.of_nat (length ds))).
      * apply run_stop; [done|]. unfold stop_reason. do 4 right. eauto 10.
      * rewrite Hsp. apply (run_char c bs ds); [done..|]. apply IH; [done|lia|lia].
    + destruct ignore eqn:Ei; simpl.
      * rewrite Hsp. apply (run_skip_char c bs); [done..|]. apply IH; [done|lia|lia].
      * apply run_stop; [done|]. unfold stop_reason. right; right; left. eauto 12.
  - apply run_stop; [done|]. unfold stop_reason. do 3 right. left. eauto 10.
  - destruct ignore eqn:Ei; simpl.
    + subst s. apply (run_skip_byte b s' st); [done..|]. simpl drop.
      replace (Z.of_nat (length (b :: s')) - 1) with (Z.of_nat (length s')) by (simpl; lia).
      apply IH; [by apply Forall_cons_1 in Hs as [_ ?]|simpl in Hf; lia|lia].
    + apply run_stop; [done|]. unfold stop_reason. right; right; left. eauto 12.
Qed.

End Correctness.

(** ** Properties *)

(** C3: For any two lawful character sets and any input, [iconv] on a handle in
    the initial state terminates without reading or writing out of bounds.  The
    input it consumed converts, character by character, to exactly the bytes it
    wrote ([converts]); [*inbuf], [*inbytesleft] and [*outbytesleft] account for
    them; the handle is left in the initial state; and the result says why it
    stopped: end of input, an invalid or unencodable character (reported at the
    end when [//IGNORE] skips it), a truncated character (EINVAL), or a character
    that does not fit the output (E2BIG). *)
Theorem iconv_correct (cd : iconv_cd) `{!CtypeLaws (cd_from cd)} `{!CtypeLaws (cd_to cd)}
    (s : list Z) (outleft : Z)
    (Hs : Forall byte s) (Ho : 0 <= outleft) (Hst : cd_from_state cd = mbstate_init) :
  exists out skipped rest ret err,
    iconv cd (Some s) (Z.of_nat (length s)) outleft =
      Some (ret, err, IconvBufs mbstate_init rest (Z.of_nat (length rest)) out
                        (outleft - Z.of_nat (length out))) /\
    converts (cd_from cd) (cd_to cd) (cd_ignore cd) s out skipped rest /\
    Z.of_nat (length out) <= outleft /\
    stop_reason (cd_from cd) (cd_to cd) (cd_ignore cd) skipped rest
      (outleft - Z.of_nat (length out)) ret err.
Proof.
  unfold iconv. rewrite Hst.
  destruct (iconv_loop_spec (cd_from cd) (cd_to cd) (cd_ignore cd) (S (length s)) s []
    outleft false Hs ltac:(lia) Ho) as (o & sk & rest & ret & err & ? & ? & ? & ->).
  exists o, sk, rest, ret, err. split_and!; done || lia.
Qed.

(** "\u20acA" from UTF-8 to US-ASCII with [//IGNORE]: the euro sign is skipped. *)
Lemma iconv_correct_witness :
  Forall byte [0xe2; 0x82; 0xac; 0x41] /\
  exists ret err b,
    iconv (IconvCd ctype_utf_8 ctype_us_ascii mbstate_init true)
      (Some [0xe2; 0x82; 0xac; 0x41]) 4 8 = Some (ret, err, b) /\
    Z.of_nat (length (ib_out b)) <= 8.
Proof.
  assert (Forall byte [0xe2; 0x82; 0xac; 0x41]) as H
    by (repeat constructor; vm_compute; discriminate).
  split; [exact H|].
  destruct (iconv_correct (IconvCd ctype_utf_8 ctype_us_ascii mbstate_init true)
    [0xe2; 0x82; 0xac; 0x41] 8 H ltac:(discriminate) eq_refl)
    as (out & sk & rest & ret & err & E & _ & Hl & _).
  eexists ret, err, _. split; [exact E|exact Hl].
Defined.
