(* ===== verification/AvlTree.v ===== *)
(** * Balanced search trees: tsearch, tdelete, tfind, twalk, tdestroy

    Sources: src/libc/search/search_impl.h (the bit path), tsearch.c,
    tdelete.c, tdestroy.c and the inline tfind and twalk of
    include/search.h.

    A tree is the value reached from a [posix_tnode *]; a [posix_tnode **]
    inside it is the list of turns that leads there from the root ([true] is
    left).  [rootp] and [leaf] of the code are then [rootp] and
    [rootp ++ rel], and the code's [struct path] is kept beside [rel] as the
    two machine words it is.  A null dereference, a step array index out of
    bounds and a walk that misses its leaf are [None]. *)

From Stdlib Require Import Sorted.
From S2P Require Import Prelude.

#[local] Open Scope Z_scope.
#[local] Ltac Zify.zify_post_hook ::= Z.to_euclidean_division_equations.

(** ** The bit path (search_impl.h) *)

Record path := Path { steps0 : Z; steps1 : Z; nsteps : Z }.

Definition STEPS_BIT : Z := 64.

Definition path_init (p : path) : path := Path (steps0 p) (steps1 p) 0.

(** [p->steps[i]] is read and written for i < 2 only. *)
Definition path_update (f : Z -> Z) (p : path) : option path :=
  match nsteps p / STEPS_BIT with
  | 0 => Some (Path (f (steps0 p)) (steps1 p) (nsteps p + 1))
  | 1 => Some (Path (steps0 p) (f (steps1 p)) (nsteps p + 1))
  | _ => None
  end.

Definition path_taking_left (p : path) : option path :=
  path_update (fun w => Z.lor w (u64 (Z.shiftl 1 (nsteps p mod STEPS_BIT)))) p.

Definition path_taking_right (p : path) : option path :=
  path_update (fun w => Z.land w (u64 (Z.lnot (Z.shiftl 1 (nsteps p mod STEPS_BIT))))) p.

Definition path_took_left (p : path) : bool * path :=
  (Z.testbit (steps0 p) 0,
   Path (Z.lor (Z.shiftr (steps0 p) 1) (u64 (Z.shiftl (steps1 p) (STEPS_BIT - 1))))
        (Z.shiftr (steps1 p) 1) (nsteps p)).

Definition path_taking (d : bool) : path -> option path :=
  if d then path_taking_left else path_taking_right.

(** ** Nodes *)

Inductive tnode (K : Type) :=
  | Nil
  | Node (key : K) (balance : Z) (left right : tnode K).
Arguments Nil {K}.
Arguments Node {K} _ _ _ _.

(** Applying an update to the subtree a [posix_tnode **] points to. *)
Fixpoint alter_at {K} (pos : list bool) (f : tnode K -> option (tnode K)) (t : tnode K)
  : option (tnode K) :=
  match pos, t with
  | [], _ => f t
  | _, Nil => None
  | true :: pos, Node k b l r => l' ← alter_at pos f l; Some (Node k b l' r)
  | false :: pos, Node k b l r => r' ← alter_at pos f r; Some (Node k b l r')
  end.

Section Operations.
  Context {K : Type} (compar : K -> K -> Z).
  Implicit Types t l r : tnode K.

(** ** tsearch *)

(** Where the descent ends: at a node with an equal key, or at the null
    pointer [rootp ++ rel]. *)
Inductive descent :=
  | Found (k : K)
  | Leaf (rootp rel : list bool) (p : path).

Fixpoint tsearch_descend (key : K) t (rootp rel : list bool) (p : path) : option descent :=
  match t with
  | Nil => Some (Leaf rootp rel p)
  | Node k b l r =>
      let '(rootp, rel, p) :=
        if b =? 0 then (rootp, rel, p) else (rootp ++ rel, [], path_init p) in
      let cmp := compar key k in
      if cmp <? 0 then
        p ← path_taking_left p; tsearch_descend key l rootp (rel ++ [true]) p
      else if 0 <? cmp then
        p ← path_taking_right p; tsearch_descend key r rootp (rel ++ [false]) p
      else Some (Found k)
  end.

(** The second walk: [n] runs from [*rootp] to [*leaf], steered by the path. *)
Fixpoint tsearch_adjust (rel : list bool) (p : path) (n : tnode K) : option (tnode K) :=
  match rel with
  | [] => Some n
  | d :: rel =>
      match n with
      | Nil => None
      | Node k b l r =>
          let '(took, p) := path_took_left p in
          if negb (Bool.eqb took d) then None
          else if took then l' ← tsearch_adjust rel p l; Some (Node k (s8 (b + 1)) l' r)
          else r' ← tsearch_adjust rel p r; Some (Node k (s8 (b - 1)) l r')
      end
  end.

Definition tsearch_rotate (x : tnode K) : option (tnode K) :=
  match x with
  | Nil => None
  | Node xk xb xl xr =>
      if 1 <? xb then
        match xl with
        | Nil => None
        | Node yk yb yl yr =>
            if yb <? 0 then
              match yr with
              | Nil => None
              | Node zk zb zl zr =>
                  Some (Node zk 0 (Node yk (if zb <? 0 then 1 else 0) yl zl)
                                  (Node xk (if 0 <? zb then -1 else 0) zr xr))
              end
            else Some (Node yk 0 yl (Node xk 0 yr xr))
        end
      else if xb <? -1 then
        match xr with
        | Nil => None
        | Node yk yb yl yr =>
            if 0 <? yb then
              match yl with
              | Nil => None
              | Node zk zb zl zr =>
                  Some (Node zk 0 (Node xk (if zb <? 0 then 1 else 0) xl zl)
                                  (Node yk (if 0 <? zb then -1 else 0) zr yr))
              end
            else Some (Node yk 0 (Node xk 0 xl yl) yr)
        end
      else Some x
  end.

(** [path] is the uninitialised automatic variable, [alloc_ok] whether
    malloc succeeds.  The result is the new tree and the key of the node
    returned, if any. *)
Definition tsearch (key : K) (rootp : tnode K) (alloc_ok : bool) (path : path)
  : option (tnode K * option K) :=
  d ← tsearch_descend key rootp [] [] (path_init path);
  match d with
  | Found k => Some (rootp, Some k)
  | Leaf top rel p =>
      if negb alloc_ok then Some (rootp, None)
      else
        t ← alter_at (top ++ rel) (fun _ => Some (Node key 0 Nil Nil)) rootp;
        t ← alter_at top (tsearch_adjust rel p) t;
        t ← alter_at top tsearch_rotate t;
        Some (t, Some key)
  end.

(** ** tdelete *)

(** GO_LEFT and GO_RIGHT, at the node [leaf] points to. *)
Definition balance_of t : option Z :=
  match t with Nil => None | Node _ b _ _ => Some b end.

Definition go (d : bool) (b : Z) (l r : tnode K) (rootp rel : list bool) (p : path)
  : option (list bool * list bool * path) :=
  reset ←
    (if b =? 0 then Some true
     else if d then
       if b <? 0 then br ← balance_of r; Some (br =? 0) else Some false
     else
       if 0 <? b then bl ← balance_of l; Some (bl =? 0) else Some false);
  let '(rootp, rel, p) :=
    if (reset : bool) then (rootp ++ rel, [], path_init p) else (rootp, rel, p) in
  p ← path_taking d p;
  Some (rootp, rel ++ [d], p).

(** The pointer tdelete returns. *)
Inductive tdelete_ret :=
  | RetNull
  | RetRoot                 (* the non-null pointer for a removed root *)
  | RetNode (k : K).

(** The first loop; [None] inside is the early return for a missing key. *)
Fixpoint tdelete_descend (key : K) t (rootp rel : list bool) (p : path) (result : tdelete_ret)
  : option (option (tnode K * list bool * list bool * path * tdelete_ret)) :=
  match t with
  | Nil => Some None
  | Node k b l r =>
      let cmp := compar key k in
      if cmp <? 0 then
        '(rootp, rel, p) ← go true b l r rootp rel p;
        tdelete_descend key l rootp rel p (RetNode k)
      else if 0 <? cmp then
        '(rootp, rel, p) ← go false b l r rootp rel p;
        tdelete_descend key r rootp rel p (RetNode k)
      else Some (Some (t, rootp, rel, p, result))
  end.

(** GO_RIGHT as long as there is a right child, and the key found there. *)
Fixpoint tdelete_pred t (rootp rel : list bool) (p : path)
  : option (K * list bool * list bool * path) :=
  match t with
  | Nil => None
  | Node k b l r =>
      match r with
      | Nil => Some (k, rootp, rel, p)
      | Node _ _ _ _ =>
          '(rootp, rel, p) ← go false b l r rootp rel p;
          tdelete_pred r rootp rel p
      end
  end.

Definition set_key (key : K) t : option (tnode K) :=
  match t with Nil => None | Node _ b l r => Some (Node key b l r) end.

Definition replace_by_right t : option (tnode K) :=
  match t with Nil => None | Node _ _ _ r => Some r end.

Definition replace_by_left t : option (tnode K) :=
  match t with Nil => None | Node _ _ l _ => Some l end.

(** One node of the rebalancing walk: [x->__left] (or [x->__right]) has
    become [l] (resp. [r]). *)
Definition rebalance_left (xk : K) (xb : Z) (l r : tnode K) : option (tnode K) :=
  if xb <? 0 then
    match r with
    | Nil => None
    | Node yk yb yl yr =>
        if 0 <? yb then
          match yl with
          | Nil => None
          | Node zk zb zl zr =>
              Some (Node zk 0 (Node xk (if zb <? 0 then 1 else 0) l zl)
                              (Node yk (if 0 <? zb then -1 else 0) zr yr))
          end
        else if yb <? 0 then Some (Node yk 0 (Node xk 0 l yl) yr)
        else Some (Node yk 1 (Node xk (-1) l yl) yr)
    end
  else Some (Node xk (s8 (xb - 1)) l r).

Definition rebalance_right (xk : K) (xb : Z) (l r : tnode K) : option (tnode K) :=
  if 0 <? xb then
    match l with
    | Nil => None
    | Node yk yb yl yr =>
        if yb <? 0 then
          match yr with
          | Nil => None
          | Node zk zb zl zr =>
              Some (Node zk 0 (Node yk (if zb <? 0 then 1 else 0) yl zl)
                              (Node xk (if 0 <? zb then -1 else 0) zr r))
          end
        else if 0 <? yb then Some (Node yk 0 yl (Node xk 0 yr r))
        else Some (Node yk (-1) yl (Node xk 1 yr r))
    end
  else Some (Node xk (s8 (xb + 1)) l r).

(** The second loop: [n] runs from [rootp] to [leaf]. *)
Fixpoint tdelete_rebalance (rel : list bool) (p : path) (n : tnode K) : option (tnode K) :=
  match rel with
  | [] => Some n
  | d :: rel =>
      match n with
      | Nil => None
      | Node k b l r =>
          let '(took, p) := path_took_left p in
          if negb (Bool.eqb took d) then None
          else if took then l' ← tdelete_rebalance rel p l; rebalance_left k b l' r
          else r' ← tdelete_rebalance rel p r; rebalance_right k b l r'
      end
  end.

Definition tdelete (key : K) (rootp : tnode K) (path : path)
  : option (tnode K * tdelete_ret) :=
  d ← tdelete_descend key rootp [] [] (path_init path) RetRoot;
  match d with
  | None => Some (rootp, RetNull)
  | Some (Nil, _, _, _, _) => None
  | Some (Node _ b l r, top, rel, p, result) =>
      match l with
      | Nil =>
          t ← alter_at (top ++ rel) replace_by_right rootp;
          t ← alter_at top (tdelete_rebalance rel p) t;
          Some (t, result)
      | Node _ _ _ _ =>
          let keyp := top ++ rel in
          '(top, rel, p) ← go true b l r top rel p;
          '(old, top, rel, p) ← tdelete_pred l top rel p;
          t ← alter_at keyp (set_key old) rootp;
          t ← alter_at (top ++ rel) replace_by_left t;
          t ← alter_at top (tdelete_rebalance rel p) t;
          Some (t, result)
      end
  end.

(** ** tfind, twalk, tdestroy *)

Fixpoint tfind (key : K) (root : tnode K) : option K :=
  match root with
  | Nil => None
  | Node k _ l r =>
      let cmp := compar key k in
      if cmp <? 0 then tfind key l else if 0 <? cmp then tfind key r else Some k
  end.

Inductive visit := preorder | postorder | endorder | leaf.

(** The sequence of calls of the action. *)
Fixpoint twalk_recurse (root : tnode K) (level : Z) : list (K * visit * Z) :=
  match root with
  | Nil => []
  | Node k _ Nil Nil => [(k, leaf, level)]
  | Node k _ l r =>
      (k, preorder, level) :: twalk_recurse l (level + 1)
      ++ (k, postorder, level) :: twalk_recurse r (level + 1)
      ++ [(k, endorder, level)]
  end.

Definition twalk (root : tnode K) := twalk_recurse root 0.

(** The sequence of destructor calls; every node is freed after its own. *)
Fixpoint tdestroy (root : tnode K) : list K :=
  match root with
  | Nil => []
  | Node k _ l r => tdestroy l ++ k :: tdestroy r
  end.

End Operations.

(** ** The bit path stores the turns *)

Definition path_bit (p : path) (i : Z) : bool :=
  if i <? STEPS_BIT then Z.testbit (steps0 p) i else Z.testbit (steps1 p) (i - STEPS_BIT).

Record path_is (p : path) (rel : list bool) : Prop := {
  path_range0 : 0 <= steps0 p < 2 ^ 64;
  path_range1 : 0 <= steps1 p < 2 ^ 64;
  path_bits : forall i d, rel !! i = Some d -> path_bit p (Z.of_nat i) = d
}.

Definition path_built (p : path) (rel : list bool) : Prop :=
  path_is p rel /\ nsteps p = Z.of_nat (length rel).

#[local] Ltac bits := rewrite ?Z.lor_spec, ?Z.land_spec, ?uN_testbit, ?Z.shiftr_spec,
  ?Z.shiftl_spec, ?Z.lnot_spec by lia.

Lemma one_shiftl_bit k i : 0 <= k -> 0 <= i -> Z.testbit (Z.shiftl 1 k) i = (i =? k).
Proof.
  intros Hk Hi. rewrite Z.shiftl_1_l. destruct (Z.eqb_spec i k) as [->|].
  - by apply Z.pow2_bits_true.
  - apply Z.pow2_bits_false. lia.
Qed.

(** Taking a step stores it after the steps already taken. *)
Lemma path_taking_ok d p rel :
  path_built p rel -> (length rel < 128)%nat ->
  exists p', path_taking d p = Some p' /\ path_built p' (rel ++ [d]).
Proof.
  intros [[H0 H1 Hb] Hn] Hlen.
  set (w k := if d then fun x => Z.lor x (u64 (Z.shiftl 1 k))
              else fun x => Z.land x (u64 (Z.lnot (Z.shiftl 1 k)))).
  assert (Hw : forall k x, 0 <= x < 2 ^ 64 -> 0 <= w k x < 2 ^ 64).
  { intros k x Hx. unfold w. destruct d.
    - apply lor_range; [lia|done|]. apply uN_range. lia.
    - by apply land_range. }
  assert (Hwb : forall k x i, 0 <= k < 64 -> 0 <= i < 64 ->
      Z.testbit (w k x) i = if i =? k then d else Z.testbit x i).
  { intros k x i Hk Hi. unfold w. destruct d;
      rewrite ?Z.lor_spec, ?Z.land_spec, ?uN_testbit, ?Z.lnot_spec, one_shiftl_bit by lia;
      rewrite (proj2 (Z.ltb_lt i 64)) by lia; destruct (i =? k), (Z.testbit x i); done. }
  assert (path_taking d p = path_update (w (nsteps p mod 64)) p) as ->.
  { unfold w. by destruct d. }
  unfold path_update, STEPS_BIT.
  assert (Hq : nsteps p / 64 = 0 \/ nsteps p / 64 = 1) by lia.
  destruct Hq as [Hq|Hq]; rewrite Hq; eexists; (split; [done|]);
    (split; [|simpl; rewrite length_app; simpl; lia]); split; simpl; auto.
  all: intros i e Hi; unfold path_bit, STEPS_BIT in *; simpl.
  all: apply lookup_app_Some in Hi as [Hi|[Hge Hi]].
  all: try (apply Hb in Hi as Hi'; apply lookup_lt_Some in Hi;
            destruct (Z.ltb_spec (Z.of_nat i) 64); try done;
            rewrite Hwb by lia; rewrite (proj2 (Z.eqb_neq _ _)); [done|lia]).
  all: apply list_lookup_singleton_Some in Hi as [Hi ->].
  all: destruct (Z.ltb_spec (Z.of_nat i) 64); try lia.
  all: rewrite Hwb by lia; rewrite (proj2 (Z.eqb_eq _ _)); [done|lia].
Qed.

(** Popping a step gives them back first to last. *)
Lemma path_took_ok d p rel :
  path_is p (d :: rel) -> (length rel < 128)%nat ->
  exists p', path_took_left p = (d, p') /\ path_is p' rel.
Proof.
  intros [H0 H1 Hb] Hlen. unfold path_took_left, STEPS_BIT. eexists. split.
  - f_equal. apply (Hb 0%nat). done.
  - split; simpl.
    + apply lor_range; [lia|apply shiftr_range; lia|apply uN_range; lia].
    + by apply shiftr_range.
    + intros i e Hi. specialize (Hb (S i) e Hi).
      apply lookup_lt_Some in Hi. revert Hb. rewrite Nat2Z.inj_succ. unfold path_bit, STEPS_BIT; cbn [steps0 steps1].
      destruct (Z.ltb_spec (Z.of_nat i) 64) as [Hlt|Hge].
      * bits. rewrite (proj2 (Z.ltb_lt _ _) Hlt).
        destruct (Z.ltb_spec (Z.succ (Z.of_nat i)) 64).
        -- intros <-. rewrite (Z.testbit_neg_r (steps1 p)) by lia. simpl. by rewrite orb_false_r.
        -- intros <-. rewrite (testbit_high 64 (steps0 p)) by lia. simpl. f_equal. lia.
      * destruct (Z.ltb_spec (Z.succ (Z.of_nat i)) 64); [lia|].
        intros <-. bits. f_equal. lia.
Qed.

Lemma path_init_built p : 0 <= steps0 p < 2 ^ 64 -> 0 <= steps1 p < 2 ^ 64 ->
  path_built (path_init p) [].
Proof. intros ??. split; [split; done|done]. Qed.

(** ** Contents, balance and order *)

Section Tree.
  Context {K : Type}.
  Implicit Types t l r : tnode K.

(** The keys in order, and the number of nodes. *)
Fixpoint elements t : list K :=
  match t with Nil => [] | Node k _ l r => elements l ++ k :: elements r end.

(** [avl t h]: [t] has height [h] and each balance field is the height of
    the left subtree less that of the right one, which differ by at most
    one. *)
Inductive avl : tnode K -> Z -> Prop :=
  | avl_Nil : avl Nil 0
  | avl_Node k b l r hl hr h :
      avl l hl -> avl r hr -> b = hl - hr -> -1 <= b <= 1 -> h = 1 + Z.max hl hr ->
      avl (Node k b l r) h.
#[local] Hint Constructors avl : clib.

Lemma avl_nonneg t h : avl t h -> 0 <= h.
Proof. induction 1; lia. Qed.

Lemma avl_pos k b l r h : avl (Node k b l r) h -> 1 <= h.
Proof. inversion 1; subst. pose proof (avl_nonneg l hl ltac:(done)). lia. Qed.

Lemma avl_height_0 t : avl t 0 -> t = Nil.
Proof. destruct t; [done|]. intros H%avl_pos. lia. Qed.

(** An AVL tree of height h has at least 2^(h/2) - 1 nodes, so a tree that
    fits in the address space has a height the bit path can store. *)
Lemma avl_size t h : avl t h -> 2 ^ (h / 2) <= Z.of_nat (length (elements t)) + 1.
Proof.
  induction 1 as [|k b l r hl hr h Hl IHl Hr IHr Hb Hb1 Hh]; [done|]. simpl.
  pose proof (avl_nonneg _ _ Hl). pose proof (avl_nonneg _ _ Hr).
  rewrite length_app. simpl.
  destruct (Z.eq_dec h 1) as [->|]; [change (2 ^ (1 / 2)) with 1; lia|].
  assert (E : h / 2 = Z.succ ((h - 2) / 2)) by lia.
  rewrite E, Z.pow_succ_r by lia.
  assert (2 ^ ((h - 2) / 2) <= 2 ^ (hl / 2)) by (apply Z.pow_le_mono_r; lia).
  assert (2 ^ ((h - 2) / 2) <= 2 ^ (hr / 2)) by (apply Z.pow_le_mono_r; lia).
  lia.
Qed.

Lemma avl_height_bound t h :
  avl t h -> Z.of_nat (length (elements t)) < 2 ^ 64 - 1 -> h < 128.
Proof.
  intros H Hs. pose proof (avl_size _ _ H). pose proof (avl_nonneg _ _ H).
  destruct (Z.lt_ge_cases h 128); [done|].
  assert (2 ^ 64 <= 2 ^ (h / 2)) by (apply Z.pow_le_mono_r; lia). lia.
Qed.

(** Inversion of a balanced node, construction of one from balanced
    subtrees, and comparison of the contents. *)
Ltac avl_inv H :=
  let hl := fresh "hl" in let hr := fresh "hr" in
  let Hl := fresh "Hl" in let Hr := fresh "Hr" in
  inversion H as [|? ? ? ? hl hr ? Hl Hr ? ? ?]; subst; clear H;
  pose proof (avl_nonneg _ _ Hl); pose proof (avl_nonneg _ _ Hr).

Ltac avl_mk :=
  lazymatch goal with
  | H : avl ?t _ |- avl ?t _ => exact H
  | |- avl (Node _ _ _ _) _ => 
      eapply avl_Node; [avl_mk|avl_mk|zcases; lia|zcases; lia|first [reflexivity|zcases; lia]]
  end.

Ltac elems := simpl; rewrite <- ?app_assoc; simpl; rewrite <- ?app_assoc; done.

Lemma s8_small x : -128 <= x <= 127 -> s8 x = x.
Proof. intros H. apply sN_small; [lia|]. unfold in_signed. simpl. lia. Qed.

(** *** tsearch: a child that grew by one *)

Lemma rotate_left_heavy k l r hl hr :
  avl l (hl + 1) -> avl r hr -> hl - hr = 1 ->
  (forall k b l1 r1, l = Node k b l1 r1 -> b <> 0) ->
  exists t', tsearch_rotate (Node k 2 l r) = Some t' /\
    avl t' (1 + hl) /\ elements t' = elements l ++ k :: elements r.
Proof.
  intros Hl Hr Hb Hne. pose proof (avl_nonneg _ _ Hr). simpl.
  destruct l as [|yk yb yl yr]; [inversion Hl; lia|].
  specialize (Hne _ _ _ _ eq_refl). avl_inv Hl.
  destruct (Z.ltb_spec (hl0 - hr0) 0).
  - destruct yr as [|zk zb zl zr]; [inversion Hr0; lia|]. avl_inv Hr0.
    eexists. split; [done|]. split; [avl_mk|elems].
  - eexists. split; [done|]. split; [avl_mk|elems].
Qed.

Lemma rotate_right_heavy k l r hl hr :
  avl l hl -> avl r (hr + 1) -> hr - hl = 1 ->
  (forall k b l1 r1, r = Node k b l1 r1 -> b <> 0) ->
  exists t', tsearch_rotate (Node k (-2) l r) = Some t' /\
    avl t' (1 + hr) /\ elements t' = elements l ++ k :: elements r.
Proof.
  intros Hl Hr Hb Hne. pose proof (avl_nonneg _ _ Hl). simpl.
  destruct r as [|yk yb yl yr]; [inversion Hr; lia|].
  specialize (Hne _ _ _ _ eq_refl). avl_inv Hr.
  destruct (Z.ltb_spec 0 (hl0 - hr0)).
  - destruct yl as [|zk zb zl zr]; [inversion Hl0; lia|]. avl_inv Hl0.
    eexists. split; [done|]. split; [avl_mk|elems].
  - eexists. split; [done|]. split; [avl_mk|elems].
Qed.

Lemma rotate_balanced k b l r : -1 <= b <= 1 ->
  tsearch_rotate (Node k b l r) = Some (Node k b l r).
Proof. intros Hb. unfold tsearch_rotate. zcases; done. Qed.

(** *** tdelete: a child that shrank by one

    [reset_delete] is the condition under which GO_LEFT and GO_RIGHT move
    [rootp]: the height of the subtree then stays what it was. *)

Definition reset_delete (d : bool) t : bool :=
  match t with
  | Nil => false
  | Node _ b l r =>
      (b =? 0) || (if d then (b <? 0) && bool_decide (balance_of r = Some 0)
                   else (0 <? b) && bool_decide (balance_of l = Some 0))
  end.

Definition shrunk (reset : bool) (h : Z) : Z := if reset then h else h - 1.

Lemma rebalance_left_ok k b l r hl hr l' :
  avl l' (hl - 1) -> avl r hr -> b = hl - hr -> -1 <= b <= 1 ->
  exists t', rebalance_left k b l' r = Some t' /\
    avl t' (shrunk (reset_delete true (Node k b l r)) (1 + Z.max hl hr)) /\
    elements t' = elements l' ++ k :: elements r.
Proof.
  intros Hl Hr Hb Hb1. pose proof (avl_nonneg _ _ Hl). pose proof (avl_nonneg _ _ Hr).
  unfold rebalance_left, reset_delete, shrunk. destruct (Z.ltb_spec b 0); simpl.
  - rewrite (proj2 (Z.eqb_neq b 0)) by lia. simpl.
    destruct r as [|yk yb yl yr]; [inversion Hr; lia|]. avl_inv Hr. simpl.
    destruct (Z.ltb_spec 0 (hl0 - hr0)).
    + rewrite bool_decide_eq_false_2 by (intros [=]; lia).
      destruct yl as [|zk zb zl zr]; [inversion Hl0; lia|]. avl_inv Hl0.
      eexists. split; [done|]. split; [avl_mk|elems].
    + destruct (Z.ltb_spec (hl0 - hr0) 0).
      * rewrite bool_decide_eq_false_2 by (intros [=]; lia).
        eexists. split; [done|]. split; [avl_mk|elems].
      * rewrite bool_decide_eq_true_2 by (f_equal; lia).
        eexists. split; [done|]. split; [avl_mk|elems].
  - eexists. split; [done|]. rewrite s8_small, orb_false_r by lia. split; [|done].
    avl_mk.
Qed.

Lemma rebalance_right_ok k b l r hl hr r' :
  avl l hl -> avl r' (hr - 1) -> b = hl - hr -> -1 <= b <= 1 ->
  exists t', rebalance_right k b l r' = Some t' /\
    avl t' (shrunk (reset_delete false (Node k b l r)) (1 + Z.max hl hr)) /\
    elements t' = elements l ++ k :: elements r'.
Proof.
  intros Hl Hr Hb Hb1. pose proof (avl_nonneg _ _ Hl). pose proof (avl_nonneg _ _ Hr).
  unfold rebalance_right, reset_delete, shrunk. destruct (Z.ltb_spec 0 b); simpl.
  - rewrite (proj2 (Z.eqb_neq b 0)) by lia. simpl.
    destruct l as [|yk yb yl yr]; [inversion Hl; lia|]. avl_inv Hl. simpl.
    destruct (Z.ltb_spec (hl0 - hr0) 0).
    + rewrite bool_decide_eq_false_2 by (intros [=]; lia).
      destruct yr as [|zk zb zl zr]; [inversion Hr0; lia|]. avl_inv Hr0.
      eexists. split; [done|]. split; [avl_mk|elems].
    + destruct (Z.ltb_spec 0 (hl0 - hr0)).
      * rewrite bool_decide_eq_false_2 by (intros [=]; lia).
        eexists. split; [done|]. split; [avl_mk|elems].
      * rewrite bool_decide_eq_true_2 by (f_equal; lia).
        eexists. split; [done|]. split; [avl_mk|elems].
  - eexists. split; [done|]. rewrite s8_small, orb_false_r by lia. split; [|done].
    avl_mk.
Qed.

(** *** Positions *)

Fixpoint subtree_at (pos : list bool) t : option (tnode K) :=
  match pos, t with
  | [], _ => Some t
  | _, Nil => None
  | d :: pos, Node _ _ l r => subtree_at pos (if d then l else r)
  end.

Lemma alter_at_app p1 p2 f t : alter_at (p1 ++ p2) f t = alter_at p1 (alter_at p2 f) t.
Proof.
  revert t. induction p1 as [|d p1 IH]; intros t; [done|]. simpl.
  destruct d, t; simpl; by rewrite ?IH.
Qed.

Lemma alter_at_bind pos f g t :
  alter_at pos f t ≫= alter_at pos g = alter_at pos (fun s => f s ≫= g) t.
Proof.
  revert t. induction pos as [|d pos IH]; intros t; [done|].
  destruct d, t as [|k b l r]; try done; simpl.
  - rewrite <- IH. by destruct (alter_at pos f l).
  - rewrite <- IH. by destruct (alter_at pos f r).
Qed.

Lemma subtree_at_app p1 p2 t s :
  subtree_at p1 t = Some s -> subtree_at (p1 ++ p2) t = subtree_at p2 s.
Proof.
  revert t. induction p1 as [|d p1 IH]; intros t; simpl; [congruence|].
  destruct t; [done|]. apply IH.
Qed.

(** An update at a position changes the contents there only. *)
Lemma alter_at_elements pos t s :
  subtree_at pos t = Some s ->
  exists A B, elements t = A ++ elements s ++ B /\
    forall f s', f s = Some s' ->
      exists t', alter_at pos f t = Some t' /\ elements t' = A ++ elements s' ++ B /\
        subtree_at pos t' = Some s'.
Proof.
  revert t. induction pos as [|d pos IH]; intros t; simpl.
  - intros [= ->]. exists [], []. rewrite app_nil_r. split; [done|].
    intros f s' Hs. exists s'. rewrite app_nil_r. done.
  - destruct t as [|k b l r]; [done|].
    intros (A & B & HE & Hf)%IH. destruct d; simpl in *.
    + exists A, (B ++ k :: elements r). rewrite HE. split; [by rewrite <- !app_assoc|].
      intros f s' (t' & -> & Ht & Hs)%Hf. eexists. split; [done|]. simpl. rewrite Ht, Hs.
      by rewrite <- !app_assoc.
    + exists (elements l ++ k :: A), B. rewrite HE. split; [by rewrite <- !app_assoc|].
      intros f s' (t' & -> & Ht & Hs)%Hf. eexists. split; [done|]. simpl. rewrite Ht, Hs.
      by rewrite <- !app_assoc.
Qed.

(** Replacing a subtree by one of the same height keeps the balance. *)
Lemma alter_at_avl pos t s h :
  subtree_at pos t = Some s -> avl t h ->
  exists hs, avl s hs /\ Z.of_nat (length pos) + hs <= h /\
    forall f s', f s = Some s' -> avl s' hs -> exists t', alter_at pos f t = Some t' /\ avl t' h.
Proof.
  revert t h. induction pos as [|d pos IH]; intros t h; simpl.
  - intros [= ->] Ht. exists h. split; [done|]. split; [lia|]. eauto.
  - destruct t as [|k b l r]; [done|]. intros Hs Ht. avl_inv Ht.
    destruct d; simpl in *; eapply IH in Hs as (hs & Hs & Hlen & Hf); try done;
      exists hs; (split; [done|]); (split; [lia|]); intros f s' Hfs Hs';
      destruct (Hf f s' Hfs Hs') as (t' & -> & Ht'); eexists; (split; [done|]); avl_mk.
Qed.
(** *** The descent

    Both loops keep [rootp] at the last node where the resetting condition
    held, so that below it every node of the path is calm. *)

Definition child (d : bool) t : tnode K :=
  match t with Nil => Nil | Node _ _ l r => if d then l else r end.

Inductive calm (reset : bool -> tnode K -> bool) : list bool -> tnode K -> tnode K -> Prop :=
  | calm_here t : calm reset [] t t
  | calm_step d rel k b l r e :
      reset d (Node k b l r) = false -> calm reset rel (if d then l else r) e ->
      calm reset (d :: rel) (Node k b l r) e.

(** From [s], the subtree at [rootp], the path [rel] leads to [e]; [rootp]
    is where the condition last held, unless it never did. *)
Inductive steered (reset : bool -> tnode K -> bool) (top : list bool)
  : list bool -> tnode K -> tnode K -> Prop :=
  | steered_calm rel s e : top = [] -> calm reset rel s e -> steered reset top rel s e
  | steered_reset d rel k b l r e :
      reset d (Node k b l r) = true -> calm reset rel (if d then l else r) e ->
      steered reset top (d :: rel) (Node k b l r) e.

Record located (reset : bool -> tnode K -> bool) t (h : Z) (top rel : list bool) (e : tnode K)
  (p : path) : Prop := {
  located_avl : avl t h;
  located_height : h < 128;
  located_path : path_built p rel;
  located_top : exists s, subtree_at top t = Some s /\ steered reset top rel s e
}.

Section Descent.
  Context (reset : bool -> tnode K -> bool).

Lemma calm_subtree rel s e : calm reset rel s e -> subtree_at rel s = Some e.
Proof. induction 1; [done|]. simpl. by destruct d. Qed.

Lemma calm_snoc d rel s e : calm reset rel s e -> e <> Nil -> reset d e = false ->
  calm reset (rel ++ [d]) s (child d e).
Proof.
  induction 1 as [t|]; intros He Hr; simpl.
  - destruct t; [done|]. by repeat constructor.
  - constructor; [done|]. auto.
Qed.

Lemma steered_subtree top rel s e : steered reset top rel s e -> subtree_at rel s = Some e.
Proof. destruct 1 as [|? ? ? ? ? ? ? ? Hc]; [by apply calm_subtree|]. simpl. by apply calm_subtree. Qed.

Lemma located_subtree t h top rel e p : located reset t h top rel e p ->
  subtree_at (top ++ rel) t = Some e.
Proof.
  intros [_ _ _ (s & Hs & Hst)]. rewrite (subtree_at_app _ _ _ _ Hs).
  by eapply steered_subtree.
Qed.

Lemma located_init t h p : avl t h -> h < 128 ->
  0 <= steps0 p < 2 ^ 64 -> 0 <= steps1 p < 2 ^ 64 ->
  located reset t h [] [] t (path_init p).
Proof.
  intros Ht Hh H0 H1. split; [done..|by apply path_init_built|].
  exists t. split; [done|]. by repeat constructor.
Qed.

(** One step of either loop. *)
Lemma located_step d t h top rel e p :
  located reset t h top rel e p -> e <> Nil ->
  exists p' top' rel' p'',
    (if reset d e then (top ++ rel, [], path_init p) else (top, rel, p)) = (top', rel', p') /\
    path_taking d p' = Some p'' /\ located reset t h top' (rel' ++ [d]) (child d e) p''.
Proof.
  intros Hloc He. pose proof (located_subtree _ _ _ _ _ _ Hloc) as Hsub.
  destruct Hloc as [Ht Hh Hp (s & Hs & Hst)].
  destruct (alter_at_avl _ _ _ _ Hsub Ht) as (hs & Hhs & Hlen & _).
  destruct e as [|k b l r]; [done|]. apply avl_pos in Hhs. rewrite length_app in Hlen.
  destruct (reset d _) eqn:Hr.
  - destruct Hp as [[H0 H1 _] _].
    destruct (path_taking_ok d (path_init p) []) as (p' & Hp' & Hb'); [by apply path_init_built|simpl; lia|].
    do 4 eexists. split; [done|]. split; [done|]. split; [done..|].
    eexists. split; [done|]. eapply (steered_reset _ _ _ []); [done|constructor].
  - destruct (path_taking_ok d p rel Hp) as (p' & Hp' & Hb'); [lia|].
    do 4 eexists. split; [done|]. split; [done|]. split; [done..|].
    exists s. split; [done|]. destruct Hst as [rel s e -> Hc|].
    + constructor; [done|]. by apply (calm_snoc d) in Hc.
    + simpl. apply steered_reset; [done|]. by apply (calm_snoc d) in H0.
Qed.
End Descent.
Lemma avl_fun t h1 h2 : avl t h1 -> avl t h2 -> h1 = h2.
Proof.
  intros H. revert h2. induction H as [|k b l r hl hr h Hl IHl Hr IHr ? ? ?]; inversion 1; subst; [done|].
  erewrite (IHl hl0), (IHr hr0); done.
Qed.

(** An update at [rootp] in two stages, the second of which keeps the
    contents. *)
Lemma alter_twice top t s f g s1 s2 :
  subtree_at top t = Some s -> f s = Some s1 -> g s1 = Some s2 -> elements s2 = elements s1 ->
  exists t1 t2, alter_at top f t = Some t1 /\ alter_at top g t1 = Some t2 /\
    elements t2 = elements t1 /\
    forall h hs, avl t h -> avl s hs -> avl s2 hs -> avl t2 h.
Proof.
  intros Hs Hf Hg HE.
  destruct (alter_at_elements _ _ _ Hs) as (A & B & _ & Hel).
  destruct (Hel _ _ Hf) as (t1 & Ht1 & E1 & _).
  destruct (Hel (fun s => f s ≫= g) s2) as (t2 & Ht2 & E2 & _); [by rewrite Hf|].
  exists t1, t2. split; [done|]. rewrite <- alter_at_bind, Ht1 in Ht2. split; [done|].
  split; [by rewrite E1, E2, HE|].
  intros h hs Hh Hhs Hs2. destruct (alter_at_avl _ _ _ _ Hs Hh) as (hs' & Hs' & _ & Hav).
  rewrite (avl_fun _ _ _ Hs' Hhs) in Hav.
  destruct (Hav (fun s => f s ≫= g) s2) as (t2' & Ht2' & ?); [by rewrite Hf|done|].
  rewrite <- alter_at_bind, Ht1 in Ht2'. simpl in *. congruence.
Qed.

(** *** Insertion *)

Lemma tsearch_adjust_step d rel p p' k b l r :
  path_took_left p = (d, p') ->
  tsearch_adjust (d :: rel) p (Node k b l r) =
    if d then l' ← tsearch_adjust rel p' l; Some (Node k (s8 (b + 1)) l' r)
    else r' ← tsearch_adjust rel p' r; Some (Node k (s8 (b - 1)) l r').
Proof. cbn [tsearch_adjust]. intros ->. by destruct d. Qed.

Lemma tdelete_rebalance_step d rel p p' k b l r :
  path_took_left p = (d, p') ->
  tdelete_rebalance (d :: rel) p (Node k b l r) =
    if d then l' ← tdelete_rebalance rel p' l; rebalance_left k b l' r
    else r' ← tdelete_rebalance rel p' r; rebalance_right k b l r'.
Proof. cbn [tdelete_rebalance]. intros ->. by destruct d. Qed.

Definition reset_insert (d : bool) t : bool :=
  match t with Nil => false | Node _ b _ _ => negb (b =? 0) end.

Definition new_leaf (key : K) : tnode K -> option (tnode K) :=
  fun _ => Some (Node key 0 Nil Nil).

(** Below [rootp] every balance on the path is zero: the path grows by one
    level and no rotation is needed there. *)
Lemma adjust_calm key rel t p h :
  calm reset_insert rel t Nil -> avl t h -> path_is p rel -> (length rel <= 128)%nat ->
  exists t1 t2, alter_at rel (new_leaf key) t = Some t1 /\ tsearch_adjust rel p t1 = Some t2 /\
    avl t2 (h + 1) /\ elements t2 = elements t1 /\
    (0 < h -> forall k b l r, t2 = Node k b l r -> b <> 0).
Proof.
  intros Hc. remember Nil as e eqn:He. revert p h.
  induction Hc as [t|d rel k b l r e Hres Hc IH]; intros p h Ht Hp Hlen; subst.
  - inversion Ht; subst. do 2 eexists. split; [done|]. split; [done|]. split; [avl_mk|done].
  - simpl in Hres. apply negb_false_iff, Z.eqb_eq in Hres. subst b. avl_inv Ht. simpl in Hlen.
    destruct (path_took_ok _ _ _ Hp) as (p' & Htook & Hp'); [lia|].
    destruct d; cbn [alter_at].
    + destruct (IH eq_refl p' _ Hl Hp' ltac:(lia)) as (t1 & t2 & -> & Ha & Hav & HE & _).
      cbn [mbind option_bind]. do 2 eexists. split; [done|]. rewrite (tsearch_adjust_step _ _ _ _ _ _ _ _ Htook), Ha. simpl.
      split; [done|]. rewrite s8_small by lia. split; [avl_mk|]. split; [simpl; congruence|].
      intros _ ? ? ? ? [= <- <- _ _]. lia.
    + destruct (IH eq_refl p' _ Hr Hp' ltac:(lia)) as (t1 & t2 & -> & Ha & Hav & HE & _).
      cbn [mbind option_bind]. do 2 eexists. split; [done|]. rewrite (tsearch_adjust_step _ _ _ _ _ _ _ _ Htook), Ha. simpl.
      split; [done|]. rewrite s8_small by lia. split; [avl_mk|]. split; [simpl; congruence|].
      intros _ ? ? ? ? [= <- <- _ _]. lia.
Qed.
(** At [rootp] the balance was not zero: the subtree keeps its height. *)
Lemma insert_reset key d rel k b l r p h :
  reset_insert d (Node k b l r) = true -> calm reset_insert rel (if d then l else r) Nil ->
  avl (Node k b l r) h -> path_is p (d :: rel) -> (length rel < 128)%nat ->
  exists s1 s2 s3, alter_at (d :: rel) (new_leaf key) (Node k b l r) = Some s1 /\
    tsearch_adjust (d :: rel) p s1 = Some s2 /\ tsearch_rotate s2 = Some s3 /\
    avl s3 h /\ elements s3 = elements s1.
Proof.
  intros Hres Hc Ht Hp Hlen. simpl in Hres. apply negb_true_iff, Z.eqb_neq in Hres. avl_inv Ht.
  destruct (path_took_ok _ _ _ Hp) as (p' & Htook & Hp'); [lia|].
  destruct d.
  - destruct (adjust_calm key rel l p' hl) as (t1 & t2 & Ha & Hadj & Hav & HE & Hne);
      [done..|lia|].
    cbn [alter_at]. rewrite Ha. cbn [mbind option_bind]. do 2 eexists.
    assert (Hx : exists s3, tsearch_rotate (Node k (s8 (hl - hr + 1)) t2 r) = Some s3 /\
      avl s3 (1 + Z.max hl hr) /\ elements s3 = elements t2 ++ k :: elements r).
    { rewrite s8_small by lia. destruct (Z.eq_dec (hl - hr) 1) as [E|E].
      - rewrite E. destruct (rotate_left_heavy k t2 r hl hr) as (s3 & ? & ? & ?); [done..|apply Hne; lia|].
        exists s3. rewrite Z.max_l by lia. done.
      - rewrite rotate_balanced by lia. eexists. split; [done|]. split; [avl_mk|done]. }
    destruct Hx as (s3 & Hr3 & ? & ?). exists s3. split; [done|]. rewrite (tsearch_adjust_step _ _ _ _ _ _ _ _ Htook), Hadj. simpl. split; [done|]. split; [done|]. split; [done|]. simpl. congruence.
  - destruct (adjust_calm key rel r p' hr) as (t1 & t2 & Ha & Hadj & Hav & HE & Hne);
      [done..|lia|].
    cbn [alter_at]. rewrite Ha. cbn [mbind option_bind]. do 2 eexists.
    assert (Hx : exists s3, tsearch_rotate (Node k (s8 (hl - hr - 1)) l t2) = Some s3 /\
      avl s3 (1 + Z.max hl hr) /\ elements s3 = elements l ++ k :: elements t2).
    { rewrite s8_small by lia. destruct (Z.eq_dec (hl - hr) (-1)) as [E|E].
      - rewrite E. destruct (rotate_right_heavy k l t2 hl hr) as (s3 & ? & ? & ?); [done..|lia|apply Hne; lia|].
        exists s3. rewrite Z.max_r by lia. done.
      - rewrite rotate_balanced by lia. eexists. split; [done|]. split; [avl_mk|done]. }
    destruct Hx as (s3 & Hr3 & ? & ?). exists s3. split; [done|]. rewrite (tsearch_adjust_step _ _ _ _ _ _ _ _ Htook), Hadj. simpl. split; [done|]. split; [done|]. split; [done|]. simpl. congruence.
Qed.

Lemma insert_located key t h top rel p :
  located reset_insert t h top rel Nil p ->
  exists t1 t2 t3 h', alter_at (top ++ rel) (new_leaf key) t = Some t1 /\
    alter_at top (tsearch_adjust rel p) t1 = Some t2 /\ alter_at top tsearch_rotate t2 = Some t3 /\
    avl t3 h' /\ h <= h' <= h + 1 /\ elements t3 = elements t1.
Proof.
  intros Hloc. pose proof (located_subtree _ _ _ _ _ _ _ Hloc) as Hsub.
  destruct Hloc as [Ht Hh [Hp _] (s & Hs & Hst)].
  destruct (alter_at_avl _ _ _ _ Hsub Ht) as (he & He & Hlen & _).
  apply avl_nonneg in He. rewrite length_app in Hlen.
  inversion Hst as [? ? ? -> Hc|d rel' k b l r ? Hres Hc]; subst; clear Hst.
  - simpl in *. injection Hs as ->.
    destruct (adjust_calm key rel s p h Hc Ht Hp) as (t1 & t2 & H1 & H2 & H3 & H4 & _); [lia|].
    exists t1, t2, t2, (h + 1). do 2 (split; [done|]). split; [|split; [done|split; [lia|done]]].
    inversion H3; subst; [lia|]. by apply rotate_balanced.
  - destruct (alter_at_avl _ _ _ _ Hs Ht) as (hs & Hhs & _).
    destruct (insert_reset key d rel' k b l r p hs Hres Hc Hhs Hp) as (s1 & s2 & s3 & E1 & E2 & E3 & Hav & HE);
      [simpl in Hlen; lia|].
    destruct (alter_twice top t _ (alter_at (d :: rel') (new_leaf key))
      (fun s => tsearch_adjust (d :: rel') p s ≫= tsearch_rotate) s1 s3 Hs E1) as (t1 & t3 & A1 & A3 & HE' & Hav');
      [by rewrite E2|done|].
    rewrite <- alter_at_bind in A3. apply bind_Some in A3 as (t2 & A2 & A3).
    exists t1, t2, t3, h. rewrite alter_at_app. repeat (split; [done|]). split; [|split; [lia|done]].
    by eapply Hav'.
Qed.

(** *** Removal *)

(** One node of the walk: the child on the path shrank by one level. *)
Lemma rebalance_step f (d : bool) rel k b l r p h hc :
  avl (Node k b l r) h -> avl (if d then l else r) hc ->
  path_is p (d :: rel) -> (length rel < 128)%nat ->
  (forall p', path_is p' rel -> exists c1 c2, alter_at rel f (if d then l else r) = Some c1 /\
    tdelete_rebalance rel p' c1 = Some c2 /\ avl c2 (hc - 1) /\ elements c2 = elements c1) ->
  exists t1 t2, alter_at (d :: rel) f (Node k b l r) = Some t1 /\
    tdelete_rebalance (d :: rel) p t1 = Some t2 /\
    avl t2 (shrunk (reset_delete d (Node k b l r)) h) /\ elements t2 = elements t1.
Proof.
  intros Ht Hcd Hp Hlen IH. avl_inv Ht.
  destruct (path_took_ok _ _ _ Hp) as (p' & Htook & Hp'); [lia|].
  destruct (IH p' Hp') as (t1 & t2 & Ha & Hb & Hav & HE). destruct d; cbn [alter_at]; rewrite Ha; cbn [mbind option_bind].
  - rewrite <- (avl_fun _ _ _ Hl Hcd) in Hav.
    destruct (rebalance_left_ok k _ l r _ _ _ Hav Hr eq_refl) as (t3 & H3 & Hav3 & HE3); [lia|].
    exists (Node k (hl - hr) t1 r), t3.
    rewrite (tdelete_rebalance_step _ _ _ _ _ _ _ _ Htook), Hb. simpl.
    repeat (split; [done|]). congruence.
  - rewrite <- (avl_fun _ _ _ Hr Hcd) in Hav.
    destruct (rebalance_right_ok k _ l r _ _ _ Hl Hav eq_refl) as (t3 & H3 & Hav3 & HE3); [lia|].
    exists (Node k (hl - hr) l t1), t3.
    rewrite (tdelete_rebalance_step _ _ _ _ _ _ _ _ Htook), Hb. simpl.
    repeat (split; [done|]). congruence.
Qed.

(** Below [rootp] every subtree on the path shrinks by one level. *)
Lemma rebalance_calm f rel t e e' p h he :
  calm reset_delete rel t e -> avl t h -> avl e he -> f e = Some e' -> avl e' (he - 1) ->
  path_is p rel -> (length rel <= 128)%nat ->
  exists t1 t2, alter_at rel f t = Some t1 /\ tdelete_rebalance rel p t1 = Some t2 /\
    avl t2 (h - 1) /\ elements t2 = elements t1.
Proof.
  intros Hc. revert p h.
  induction Hc as [t|d rel k b l r e Hres Hc IH]; intros p h Ht He Hf He' Hp Hlen.
  - rewrite (avl_fun _ _ _ Ht He). by exists e', e'.
  - change (h - 1) with (shrunk false h). rewrite <- Hres. simpl in Hlen.
    assert (exists hc, avl (if d then l else r) hc) as [hc Hcd] by (inversion Ht; destruct d; eauto).
    eapply rebalance_step; [done|exact Hcd|done|lia|]. intros p' Hp'. apply IH; try done. lia.
Qed.

Lemma delete_located f t h top rel e e' p he :
  located reset_delete t h top rel e p -> avl e he -> f e = Some e' -> avl e' (he - 1) ->
  exists t1 t2 h', alter_at (top ++ rel) f t = Some t1 /\
    alter_at top (tdelete_rebalance rel p) t1 = Some t2 /\
    avl t2 h' /\ h - 1 <= h' <= h /\ elements t2 = elements t1.
Proof.
  intros Hloc He Hf He'. pose proof (located_subtree _ _ _ _ _ _ _ Hloc) as Hsub.
  destruct Hloc as [Ht Hh [Hp _] (s & Hs & Hst)].
  destruct (alter_at_avl _ _ _ _ Hsub Ht) as (he2 & He2 & Hlen & _).
  apply avl_nonneg in He2. rewrite length_app in Hlen.
  destruct Hst as [rel s e -> Hc|d rel k b l r e Hres Hc].
  - simpl in *. injection Hs as ->.
    destruct (rebalance_calm f rel s e e' p h he) as (t1 & t2 & H1 & H2 & H3 & H4); try done; [lia|].
    exists t1, t2, (h - 1). repeat (split; [done|]). split; [lia|done].
  - destruct (alter_at_avl _ _ _ _ Hs Ht) as (hs & Hhs & _). simpl in Hlen.
    assert (exists hc, avl (if d then l else r) hc) as [hc Hcd] by (inversion Hhs; destruct d; eauto).
    destruct (rebalance_step f d rel k b l r p hs hc) as (s1 & s2 & E1 & E2 & Hav & HE); try done; [lia| |].
    { intros p' Hp'. eapply rebalance_calm; try done. lia. }
    rewrite Hres in Hav.
    destruct (alter_twice top t _ _ _ s1 s2 Hs E1 E2 HE) as (t1 & t2 & A1 & A2 & HE' & Hav').
    exists t1, t2, h. rewrite alter_at_app. repeat (split; [done|]). split; [|split; [lia|done]].
    by eapply Hav'.
Qed.
End Tree.

(** ** Search order

    Stated for the comparison functions of [ComparOrder]. *)

Section Search.
  Context {K : Type} (compar : K -> K -> Z) `{!ComparOrder compar}.
  Implicit Types t l r : tnode K.

Definition precedes (x y : K) : Prop := compar x y < 0.

Definition in_order (l : list K) : Prop := StronglySorted precedes l.

Lemma compar_gt x y : 0 < compar x y <-> precedes y x.
Proof. unfold precedes. pose proof (compar_anti x y). lia. Qed.

Lemma in_order_mid (l : list K) k (r : list K) :
  in_order (l ++ k :: r) <->
  in_order l /\ in_order r /\ Forall (fun x => precedes x k) l /\ Forall (precedes k) r.
Proof.
  unfold in_order. induction l as [|x l IH]; simpl.
  - split; [inversion 1; subst; by repeat split; try constructor|]. intros (_ & ? & _ & ?). by constructor.
  - split.
    + inversion 1 as [|? ? Hs Hf]; subst. apply IH in Hs as (? & ? & ? & ?).
      apply Forall_app in Hf as [? [? ?]%Forall_cons_1]. repeat split; try done; by constructor.
    + intros (Hs & ? & Hf & Hk). inversion Hs; subst. inversion Hf; subst.
      constructor; [by apply IH|]. apply Forall_app. split; [done|]. constructor; [done|].
      eapply list.Forall_impl; [exact Hk|]. intros y Hy. by eapply compar_trans.
Qed.

(** The keys before and after [key]. *)
Definition around (key : K) (A B : list K) : Prop :=
  Forall (fun x => precedes x key) A /\ Forall (precedes key) B.

Lemma around_left key k (l : list K) A B :
  precedes key k -> around key A B -> around key A (B ++ k :: l) <-> Forall (precedes key) l.
Proof.
  intros Hk [HA HB]. unfold around. rewrite Forall_app, list.Forall_cons. tauto.
Qed.

Lemma Forall_precedes_trans x y (l : list K) : precedes x y -> Forall (precedes y) l -> Forall (precedes x) l.
Proof. intros H Hl. eapply list.Forall_impl; [exact Hl|]. intros z Hz. exact (compar_trans _ _ _ H Hz). Qed.

Lemma Forall_preceded_trans x y (l : list K) :
  precedes x y -> Forall (fun z => precedes z x) l -> Forall (fun z => precedes z y) l.
Proof. intros H Hl. eapply list.Forall_impl; [exact Hl|]. intros z Hz. exact (compar_trans _ _ _ Hz H). Qed.

Lemma around_equal key k A B : compar key k = 0 -> in_order (A ++ k :: B) -> around key A B.
Proof.
  intros E (_ & _ & HA & HB)%in_order_mid.
  assert (Hk : forall z, Z.sgn (compar key z) = Z.sgn (compar k z)) by (intros; by apply compar_eq).
  unfold around, precedes in *. split.
  - eapply list.Forall_impl; [exact HA|]. intros x Hx. simpl in Hx.
    pose proof (Hk x). pose proof (compar_anti k x). pose proof (compar_anti key x). lia.
  - eapply list.Forall_impl; [exact HB|]. intros x Hx. simpl in Hx. pose proof (Hk x). lia.
Qed.

(** The turns the comparisons dictate. *)
Fixpoint route (key : K) t : list bool :=
  match t with
  | Nil => []
  | Node k _ l r =>
      if compar key k <? 0 then true :: route key l
      else if 0 <? compar key k then false :: route key r else []
  end.

(** The search finds the equal key wherever it is, and the gap it belongs
    in when there is none. *)
Lemma route_correct key t : in_order (elements t) ->
  exists A B, around key A B /\
  match tfind compar key t with
  | Some k => compar key k = 0 /\ elements t = A ++ k :: B /\
      exists b l r, subtree_at (route key t) t = Some (Node k b l r)
  | None => elements t = A ++ B /\
      exists t1, alter_at (route key t) (new_leaf key) t = Some t1 /\ elements t1 = A ++ key :: B
  end.
Proof.
  induction t as [|k b l IHl r IHr]; simpl.
  - intros _. exists [], []. split; [done|]. split; [done|]. eexists. split; [done|done].
  - intros (Hl & Hr & HAl & HBr)%in_order_mid.
    destruct (Z.ltb_spec (compar key k) 0) as [Hlt|Hge]; [|destruct (Z.ltb_spec 0 (compar key k)) as [Hgt|]].
    + destruct (IHl Hl) as (A & B & Hab & Hm). exists A, (B ++ k :: elements r).
      split; [apply around_left; [done..|]; by eapply Forall_precedes_trans|].
      destruct (tfind compar key l).
      * destruct Hm as (? & -> & Hsub). simpl. by rewrite <- app_assoc.
      * destruct Hm as (-> & t1 & Ht & HE). simpl. rewrite Ht, <- app_assoc. split; [done|].
        eexists. split; [done|]. simpl. by rewrite HE, <- app_assoc.
    + apply compar_gt in Hgt. destruct (IHr Hr) as (A & B & [HA HB] & Hm).
      exists (elements l ++ k :: A), B.
      split; [split; [|done]; rewrite Forall_app, list.Forall_cons; split; [|done];
              by eapply Forall_preceded_trans|].
      destruct (tfind compar key r).
      * destruct Hm as (? & -> & Hsub). simpl. by rewrite <- app_assoc.
      * destruct Hm as (-> & t1 & Ht & HE). simpl. rewrite Ht, <- app_assoc. split; [done|].
        eexists. split; [done|]. simpl. by rewrite HE, <- app_assoc.
    + assert (E : compar key k = 0) by lia. exists (elements l), (elements r).
      split; [|split; [done|split; [done|by exists b, l, r]]].
      apply (around_equal _ _ _ _ E), in_order_mid. done.
Qed.
Lemma compar_cases key k :
  (compar key k <? 0) = true /\ compar key k < 0 \/
  (compar key k <? 0) = false /\ (0 <? compar key k) = true /\ 0 < compar key k \/
  (compar key k <? 0) = false /\ (0 <? compar key k) = false /\ compar key k = 0.
Proof. destruct (Z.ltb_spec (compar key k) 0), (Z.ltb_spec 0 (compar key k)); lia. Qed.

Lemma tsearch_descend_ok key t h e top rel p :
  located reset_insert t h top rel e p ->
  match tfind compar key e with
  | Some k => tsearch_descend compar key e top rel p = Some (Found k)
  | None => exists top' rel' p', tsearch_descend compar key e top rel p = Some (Leaf top' rel' p') /\
      located reset_insert t h top' rel' Nil p' /\ top' ++ rel' = top ++ rel ++ route key e
  end.
Proof.
  revert top rel p. induction e as [|k b l IHl r IHr]; intros top rel p Hloc; simpl.
  - exists top, rel, p. by rewrite app_nil_r.
  - assert (Hstep : forall d, exists p' top' rel' p'',
      (if b =? 0 then (top, rel, p) else (top ++ rel, [], path_init p)) = (top', rel', p') /\
      path_taking d p' = Some p'' /\ top' ++ rel' = top ++ rel /\
      located reset_insert t h top' (rel' ++ [d]) (if d then l else r) p'').
    { intros d. destruct (located_step _ d _ _ _ _ _ _ Hloc) as (p' & top' & rel' & p'' & E & ? & ?); [done|].
      exists p', top', rel', p''. simpl in E. rewrite <- E. destruct (b =? 0); simpl in *;
        (split; [done|]); injection E as <- <- <-; by rewrite ?app_nil_r. }
    destruct (compar_cases key k) as [[-> _]|[(-> & -> & _)|(-> & -> & _)]].
    + destruct (Hstep true) as (p' & top' & rel' & p'' & -> & Hp & Happ & Hloc'). simpl in Hp. rewrite Hp.
      apply IHl in Hloc'. simpl. destruct (tfind compar key l); [done|].
      rewrite <- app_assoc in Hloc'. simpl in Hloc'. by rewrite app_assoc, Happ, <- app_assoc in Hloc'.
    + destruct (Hstep false) as (p' & top' & rel' & p'' & -> & Hp & Happ & Hloc'). simpl in Hp. rewrite Hp.
      apply IHr in Hloc'. simpl. destruct (tfind compar key r); [done|].
      rewrite <- app_assoc in Hloc'. simpl in Hloc'. by rewrite app_assoc, Happ, <- app_assoc in Hloc'.
    + by destruct (b =? 0).
Qed.

Lemma tsearch_ok key t h p :
  avl t h -> in_order (elements t) -> h < 128 ->
  0 <= steps0 p < 2 ^ 64 -> 0 <= steps1 p < 2 ^ 64 ->
  exists A B, around key A B /\
  match tfind compar key t with
  | Some k => elements t = A ++ k :: B /\ compar key k = 0 /\
      forall alloc_ok, tsearch compar key t alloc_ok p = Some (t, Some k)
  | None => elements t = A ++ B /\ tsearch compar key t false p = Some (t, None) /\
      exists t' h', tsearch compar key t true p = Some (t', Some key) /\
        elements t' = A ++ key :: B /\ avl t' h' /\ h <= h' <= h + 1
  end.
Proof.
  intros Ht Hord Hh H0 H1.
  destruct (route_correct key t Hord) as (A & B & Hab & Hm). exists A, B. split; [done|].
  pose proof (located_init reset_insert t h p Ht Hh H0 H1) as Hloc.
  apply (tsearch_descend_ok key) in Hloc. unfold tsearch.
  destruct (tfind compar key t) as [k|].
  - destruct Hm as (? & ? & _). rewrite Hloc. done.
  - destruct Hm as (? & t1 & Ht1 & HE1). destruct Hloc as (top & rel & p' & -> & Hloc & Happ).
    simpl in Happ |- *. split; [done|]. split; [done|].
    destruct (insert_located key _ _ _ _ _ Hloc) as (t1' & t2 & t3 & h' & A1 & A2 & A3 & Hav & Hh' & HE).
    exists t3, h'. rewrite Happ in A1 |- *. unfold new_leaf in *. rewrite A1. simpl. rewrite A2. simpl.
    rewrite A3. simpl. split; [done|]. split; [|done]. rewrite HE. congruence.
Qed.

(** *** tdelete *)

Lemma go_ok d t h top rel k b l r p :
  located reset_delete t h top rel (Node k b l r) p ->
  exists top' rel' p', go d b l r top rel p = Some (top', rel', p') /\
    located reset_delete t h top' rel' (if d then l else r) p' /\
    top' ++ rel' = top ++ rel ++ [d].
Proof.
  intros Hloc. pose proof (located_subtree _ _ _ _ _ _ _ Hloc) as Hsub.
  destruct (alter_at_avl _ _ _ _ Hsub (located_avl _ _ _ _ _ _ _ Hloc)) as (hs & Hs & _).
  destruct (located_step _ d _ _ _ _ _ _ Hloc) as (p' & top' & rel' & p'' & E & Htake & Hloc'); [done|].
  exists top', (rel' ++ [d]), p''. unfold go.
  assert (Hres : (if b =? 0 then Some true
     else if d then if b <? 0 then br ← balance_of r; Some (br =? 0) else Some false
     else if 0 <? b then bl ← balance_of l; Some (bl =? 0) else Some false)
     = Some (reset_delete d (Node k b l r))).
  { inversion Hs as [|? ? ? ? hl hr ? Hl Hr ? ? ?]; subst. unfold reset_delete.
    pose proof (avl_nonneg _ _ Hl). pose proof (avl_nonneg _ _ Hr).
    destruct (Z.eqb_spec (hl - hr) 0); [done|].
    destruct d; [destruct (Z.ltb_spec (hl - hr) 0)|destruct (Z.ltb_spec 0 (hl - hr))]; try done.
    - destruct r as [|? b' ? ?]; [inversion Hr; lia|]. simpl. f_equal.
      destruct (Z.eqb_spec b' 0); symmetry; [apply bool_decide_eq_true_2|apply bool_decide_eq_false_2]; congruence.
    - destruct l as [|? b' ? ?]; [inversion Hl; lia|]. simpl. f_equal.
      destruct (Z.eqb_spec b' 0); symmetry; [apply bool_decide_eq_true_2|apply bool_decide_eq_false_2]; congruence. }
  rewrite Hres. cbn [mbind option_bind]. rewrite E, Htake. split; [done|]. split; [done|].
  destruct (reset_delete d _); injection E as <- <- <-; by rewrite <- ?app_assoc.
Qed.
(** The first loop finds the node the search finds, and its parent. *)
Definition parent_at (pos : list bool) t : @tdelete_ret K :=
  match pos with
  | [] => RetRoot
  | _ => match subtree_at (removelast pos) t with
         | Some (Node k _ _ _) => RetNode k
         | _ => RetNull
         end
  end.

Lemma parent_at_snoc pos d t k b l r :
  subtree_at pos t = Some (Node k b l r) -> parent_at (pos ++ [d]) t = RetNode k.
Proof.
  intros Hs. unfold parent_at. rewrite removelast_last, Hs. by destruct pos.
Qed.

Lemma parent_at_not_null pos t e : subtree_at pos t = Some e -> parent_at pos t <> RetNull.
Proof.
  destruct pos as [|d pos _] using rev_ind; [done|]. intros H.
  destruct (subtree_at pos t) as [[|k b l r]|] eqn:Hs.
  - by rewrite (subtree_at_app _ _ _ _ Hs) in H.
  - by rewrite (parent_at_snoc _ _ _ _ _ _ _ Hs).
  - exfalso. revert t Hs H. induction pos as [|d' pos IH]; intros [|] Hs H; try done. by eapply IH.
Qed.

Lemma tdelete_descend_ok key t h e top rel p :
  located reset_delete t h top rel e p ->
  match tfind compar key e with
  | None => tdelete_descend compar key e top rel p (parent_at (top ++ rel) t) = Some None
  | Some k => exists b l r top' rel' p',
      tdelete_descend compar key e top rel p (parent_at (top ++ rel) t)
        = Some (Some (Node k b l r, top', rel', p', parent_at (top ++ rel ++ route key e) t)) /\
      located reset_delete t h top' rel' (Node k b l r) p' /\
      top' ++ rel' = top ++ rel ++ route key e
  end.
Proof.
  revert top rel p. induction e as [|k b l IHl r IHr]; intros top rel p Hloc; [done|].
  pose proof (located_subtree _ _ _ _ _ _ _ Hloc) as Hsub.
  cbn [tfind tdelete_descend route].
  destruct (compar_cases key k) as [[-> _]|[(-> & -> & _)|(-> & -> & _)]].
  - destruct (go_ok true _ _ _ _ _ _ _ _ _ Hloc) as (top' & rel' & p' & -> & Hloc' & Happ).
    cbn [mbind option_bind]. apply IHl in Hloc'.
    rewrite (app_assoc top' rel'), Happ, (app_assoc top rel), (parent_at_snoc _ _ _ _ _ _ _ Hsub),
      <- (app_assoc _ [true]) in Hloc'.
    rewrite (app_assoc top rel). exact Hloc'.
  - destruct (go_ok false _ _ _ _ _ _ _ _ _ Hloc) as (top' & rel' & p' & -> & Hloc' & Happ).
    cbn [mbind option_bind]. apply IHr in Hloc'.
    rewrite (app_assoc top' rel'), Happ, (app_assoc top rel), (parent_at_snoc _ _ _ _ _ _ _ Hsub),
      <- (app_assoc _ [false]) in Hloc'.
    rewrite (app_assoc top rel). exact Hloc'.
  - rewrite app_nil_r. by exists b, l, r, top, rel, p.
Qed.

(** The second finds the predecessor: the last node of the left subtree. *)
Lemma tdelete_pred_ok t h e top rel p :
  located reset_delete t h top rel e p -> e <> Nil ->
  exists k b l top' rel' p' q, tdelete_pred e top rel p = Some (k, top', rel', p') /\
    located reset_delete t h top' rel' (Node k b l Nil) p' /\
    top' ++ rel' = top ++ rel ++ q /\
    exists t1, alter_at q replace_by_left e = Some t1 /\ elements e = elements t1 ++ [k].
Proof.
  revert top rel p. induction e as [|k b l _ r IHr]; intros top rel p Hloc He; [done|].
  assert (r = Nil \/ r <> Nil) as [->|Hr] by (destruct r; [by left|by right]).
  - exists k, b, l, top, rel, p, []. rewrite app_nil_r. simpl. eauto 10.
  - destruct (go_ok false _ _ _ _ _ _ _ _ _ Hloc) as (top' & rel' & p' & Hgo & Hloc' & Happ).
    destruct (IHr _ _ _ Hloc' Hr) as (k' & b' & l' & top2 & rel2 & p2 & q & E & Hloc2 & Happ2 & t1 & Ht1 & HE).
    exists k', b', l', top2, rel2, p2, (false :: q). cbn [tdelete_pred].
    destruct r as [|]; [done|]. rewrite Hgo. cbn [mbind option_bind]. rewrite E.
    split; [done|]. split; [done|]. split.
    + by rewrite Happ2, app_assoc, Happ, <- !app_assoc.
    + cbn [alter_at]. rewrite Ht1. eexists. split; [done|]. cbn [elements] in *.
      rewrite HE. by rewrite <- app_assoc.
Qed.

(** Storing another key in the node found keeps the descent. *)
Lemma calm_alter (f : tnode K -> option (tnode K)) rel s e e' :
  calm reset_delete rel s e -> f e = Some e' ->
  exists s', alter_at rel f s = Some s' /\ calm reset_delete rel s' e'.
Proof.
  induction 1 as [|d rel k b l r e Hres Hc IH]; intros Hf.
  - exists e'. split; [done|constructor].
  - destruct (IH Hf) as (s' & Hs' & Hc'). destruct d; simpl; rewrite Hs'; eexists; (split; [done|]);
      by constructor.
Qed.

Lemma located_alter f t h top rel e e' he p :
  located reset_delete t h top rel e p -> f e = Some e' -> avl e he -> avl e' he ->
  exists t', alter_at (top ++ rel) f t = Some t' /\ located reset_delete t' h top rel e' p.
Proof.
  intros Hloc Hf He He'. pose proof (located_subtree _ _ _ _ _ _ _ Hloc) as Hsub.
  destruct Hloc as [Ht Hh Hp (s & Hs & Hst)].
  destruct (alter_at_avl _ _ _ _ Hsub Ht) as (he2 & He2 & _ & Hav).
  rewrite (avl_fun _ _ _ He2 He) in Hav. destruct (Hav f e' Hf He') as (t' & Ht' & Hav').
  exists t'. split; [done|]. split; [done..|].
  assert (exists s', alter_at rel f s = Some s' /\ steered reset_delete top rel s' e') as (s' & Hs' & Hst').
  { destruct Hst as [rel s e -> Hc|d rel k b l r e Hres Hc].
    - destruct (calm_alter f _ _ _ _ Hc Hf) as (s' & ? & ?). exists s'. split; [done|]. by constructor.
    - destruct (calm_alter f _ _ _ _ Hc Hf) as (s' & E & ?).
      destruct d; simpl; rewrite E; eexists; (split; [done|]); by apply steered_reset. }
  exists s'. split; [|done]. rewrite alter_at_app in Ht'.
  destruct (alter_at_elements _ _ _ Hs) as (A & B & _ & Hel).
  destruct (Hel _ _ Hs') as (t2 & ? & _ & ?). congruence.
Qed.
(** Removing the node found, with its right subtree or its predecessor in
    its place: the contents lose that key and nothing else. *)
Lemma tdelete_no_left t h top rel k b r p A B :
  located reset_delete t h top rel (Node k b Nil r) p ->
  elements t = A ++ elements (Node k b Nil r) ++ B ->
  (forall f s', f (Node k b Nil r) = Some s' -> exists t', alter_at (top ++ rel) f t = Some t' /\
     elements t' = A ++ elements s' ++ B) ->
  exists t1 t2 h', alter_at (top ++ rel) replace_by_right t = Some t1 /\
    alter_at top (tdelete_rebalance rel p) t1 = Some t2 /\
    elements t2 = A ++ elements r ++ B /\ avl t2 h' /\ h - 1 <= h' <= h.
Proof.
  intros Hloc HE Hel. pose proof (located_subtree _ _ _ _ _ _ _ Hloc) as Hsub.
  destruct (alter_at_avl _ _ _ _ Hsub (located_avl _ _ _ _ _ _ _ Hloc)) as (he & He & _).
  assert (Hr : avl r (he - 1)).
  { inversion He as [|? ? ? ? hl hr ? Hl Hr]; subst. inversion Hl; subst.
    pose proof (avl_nonneg _ _ Hr). by replace (1 + Z.max 0 hr - 1) with hr by lia. }
  destruct (delete_located replace_by_right _ _ _ _ _ r _ he Hloc He eq_refl Hr)
    as (t1 & t2 & h' & A1 & A2 & Hav & Hh & HE2).
  destruct (Hel replace_by_right r eq_refl) as (t1' & A1' & HE1).
  exists t1, t2, h'. repeat (split; [done|]). split; [|done]. congruence.
Qed.

Lemma tdelete_with_left t h top rel k b l r p A B :
  located reset_delete t h top rel (Node k b l r) p -> l <> Nil ->
  (forall f s', f (Node k b l r) = Some s' -> exists t', alter_at (top ++ rel) f t = Some t' /\
     elements t' = A ++ elements s' ++ B) ->
  exists top1 rel1 p1 old top2 rel2 p2 t1 t2 t3 h', go true b l r top rel p = Some (top1, rel1, p1) /\
    tdelete_pred l top1 rel1 p1 = Some (old, top2, rel2, p2) /\
    alter_at (top ++ rel) (set_key old) t = Some t1 /\
    alter_at (top2 ++ rel2) replace_by_left t1 = Some t2 /\
    alter_at top2 (tdelete_rebalance rel2 p2) t2 = Some t3 /\
    elements t3 = A ++ (elements l ++ elements r) ++ B /\ avl t3 h' /\ h - 1 <= h' <= h.
Proof.
  intros Hloc Hl Hel. pose proof (located_subtree _ _ _ _ _ _ _ Hloc) as Hsub.
  destruct (alter_at_avl _ _ _ _ Hsub (located_avl _ _ _ _ _ _ _ Hloc)) as (he & He & _).
  destruct (go_ok true _ _ _ _ _ _ _ _ _ Hloc) as (top1 & rel1 & p1 & Hgo & Hloc1 & _).
  destruct (tdelete_pred_ok _ _ _ _ _ _ Hloc1 Hl) as (old & ? & ? & top2 & rel2 & p2 & ? & Hpred & _).
  assert (He' : avl (Node old b l r) he) by (inversion He; subst; by econstructor).
  destruct (located_alter (set_key old) _ _ _ _ _ _ _ _ Hloc eq_refl He He') as (t1 & A1 & Hloc').
  destruct (go_ok true _ _ _ _ _ _ _ _ _ Hloc') as (? & ? & ? & Hgo' & Hloc1' & Happ1).
  rewrite Hgo in Hgo'. injection Hgo' as <- <- <-.
  destruct (tdelete_pred_ok _ _ _ _ _ _ Hloc1' Hl) as (? & b' & l' & ? & ? & ? & q & Hpred' & Hloc2 & Happ & l1 & Hl1 & HEl).
  rewrite Hpred in Hpred'. injection Hpred' as <- <- <- <-.
  pose proof (located_subtree _ _ _ _ _ _ _ Hloc2) as Hsub2.
  destruct (alter_at_avl _ _ _ _ Hsub2 (located_avl _ _ _ _ _ _ _ Hloc2)) as (he2 & He2 & _).
  assert (Hl' : avl l' (he2 - 1)).
  { inversion He2 as [|? ? ? ? hl hr ? Hl2 Hr]; subst. inversion Hr; subst.
    pose proof (avl_nonneg _ _ Hl2). by replace (1 + Z.max hl 0 - 1) with hl by lia. }
  destruct (delete_located replace_by_left _ _ _ _ _ l' _ he2 Hloc2 He2 eq_refl Hl')
    as (t2 & t3 & h' & A2 & A3 & Hav & Hh & HE3).
  exists top1, rel1, p1, old, top2, rel2, p2, t1, t2, t3, h'. repeat (split; [done|]). split; [|done].
  destruct (Hel (fun s => set_key old s ≫= alter_at (true :: q) replace_by_left) (Node old b l1 r)) as (t2' & A2' & HE2').
  { simpl. by rewrite Hl1. }
  rewrite Happ, app_assoc, Happ1, <- !app_assoc, app_assoc, alter_at_app in A2.
  rewrite <- alter_at_bind, A1 in A2'. simpl in A2'. simpl in A2.
  assert (t2' = t2) as -> by congruence. rewrite HE3, HE2', HEl. simpl. by rewrite <- !app_assoc.
Qed.

Lemma tdelete_ok key t h p :
  avl t h -> in_order (elements t) -> h < 128 ->
  0 <= steps0 p < 2 ^ 64 -> 0 <= steps1 p < 2 ^ 64 ->
  exists A B, around key A B /\
  match tfind compar key t with
  | None => elements t = A ++ B /\ tdelete compar key t p = Some (t, RetNull)
  | Some k => elements t = A ++ k :: B /\ compar key k = 0 /\
      exists t' h', tdelete compar key t p = Some (t', parent_at (route key t) t) /\
        elements t' = A ++ B /\ avl t' h' /\ h - 1 <= h' <= h
  end.
Proof.
  intros Ht Hord Hh H0 H1.
  destruct (route_correct key t Hord) as (A & B & Hab & Hm).
  pose proof (located_init reset_delete t h p Ht Hh H0 H1) as Hloc.
  apply (tdelete_descend_ok key) in Hloc. change (parent_at ([] ++ []) t) with (@RetRoot K) in Hloc.
  unfold tdelete. destruct (tfind compar key t) as [k|].
  - destruct Hm as (E & _). destruct Hloc as (b & l & r & top & rel & p' & -> & Hloc & Happ).
    cbn [app] in Happ. cbn [mbind option_bind app]. rewrite <- Happ.
    destruct (alter_at_elements _ _ _ (located_subtree _ _ _ _ _ _ _ Hloc)) as (A' & B' & HE & Hel).
    assert (HE' : elements t = (A' ++ elements l) ++ k :: (elements r ++ B')).
    { rewrite HE. simpl. by rewrite <- !app_assoc. }
    exists (A' ++ elements l), (elements r ++ B'). rewrite HE' in Hord.
    split; [by apply (around_equal _ k)|]. split; [done|]. split; [done|].
    assert (Hel' : forall f s', f (Node k b l r) = Some s' -> exists t', alter_at (top ++ rel) f t = Some t' /\
      elements t' = A' ++ elements s' ++ B').
    { intros f s' (t' & ? & ? & _)%Hel. by exists t'. }
    destruct l as [|lk lb ll lr].
    + destruct (tdelete_no_left _ _ _ _ _ _ _ _ _ _ Hloc HE Hel') as (t1 & t2 & h' & -> & A2 & HE2 & Hav & Hh').
      exists t2, h'. cbn [mbind option_bind]. rewrite A2. rewrite app_nil_r. done.
    + destruct (tdelete_with_left _ _ _ _ _ _ _ _ _ _ _ Hloc ltac:(done) Hel')
        as (? & ? & ? & ? & ? & ? & ? & t1 & t2 & t3 & h' & -> & E2 & E3 & E4 & E5 & HE3 & Hav & Hh').
      exists t3, h'. cbn [mbind option_bind]. rewrite E2. cbn [mbind option_bind].
      rewrite E3. cbn [mbind option_bind]. rewrite E4. cbn [mbind option_bind]. rewrite E5.
      split; [done|]. split; [|done]. rewrite HE3. by rewrite <- !app_assoc.
  - exists A, B. split; [done|]. destruct Hm as [? _]. split; [done|]. by rewrite Hloc.
Qed.
Lemma twalk_in_order t :
  omap (fun '(k, v, _) => match v with postorder | leaf => Some k | _ => None end) (twalk t)
    = elements t.
Proof.
  unfold twalk. generalize 0. induction t as [|k b l IHl r IHr]; intros n; [done|].
  assert (E : (l = Nil /\ r = Nil) \/ twalk_recurse (Node k b l r) n =
    (k, preorder, n) :: twalk_recurse l (n + 1) ++ (k, postorder, n) :: twalk_recurse r (n + 1)
      ++ [(k, endorder, n)]) by (destruct l, r; auto).
  destruct E as [[-> ->]| ->]; [done|].
  cbn [omap list_omap]. rewrite omap_app. cbn [omap list_omap]. rewrite omap_app, IHl, IHr.
  simpl. by rewrite app_nil_r.
Qed.

(** *** The reference set: a sorted list *)

Fixpoint ref_insert (key : K) (l : list K) : list K :=
  match l with
  | [] => [key]
  | x :: l' =>
      if compar key x <? 0 then key :: l
      else if 0 <? compar key x then x :: ref_insert key l' else l
  end.

Fixpoint ref_remove (key : K) (l : list K) : list K :=
  match l with
  | [] => []
  | x :: l' => if compar key x =? 0 then l' else x :: ref_remove key l'
  end.

Definition ref_find (key : K) (l : list K) : option K :=
  head (filter (fun x => compar key x = 0) l).

Lemma ref_skip key A : Forall (fun x => precedes x key) A ->
  (forall B, ref_insert key (A ++ B) = A ++ ref_insert key B) /\
  (forall B, ref_remove key (A ++ B) = A ++ ref_remove key B) /\
  (forall B, ref_find key (A ++ B) = ref_find key B).
Proof.
  unfold ref_find. induction 1 as [|x A Hx HA (IH1 & IH2 & IH3)]; [done|].
  apply compar_gt in Hx. split; [|split]; intros B; simpl.
  - rewrite (proj2 (Z.ltb_ge _ _)), (proj2 (Z.ltb_lt _ _) Hx) by lia. by rewrite IH1.
  - rewrite (proj2 (Z.eqb_neq _ _)) by lia. by rewrite IH2.
  - rewrite filter_cons_False by lia. apply IH3.
Qed.

Lemma ref_stop key B : Forall (precedes key) B ->
  ref_insert key B = key :: B /\ ref_remove key B = B /\ ref_find key B = None.
Proof.
  unfold ref_find, precedes. intros H. split; [|split].
  - destruct H as [|x B Hx HB]; [done|]. simpl. by rewrite (proj2 (Z.ltb_lt _ _) Hx).
  - induction H as [|x B Hx HB IH]; [done|]. simpl.
    rewrite (proj2 (Z.eqb_neq _ _)) by lia. by rewrite IH.
  - induction H as [|x B Hx HB IH]; [done|]. rewrite filter_cons_False by lia. done.
Qed.

Lemma ref_absent key A B : around key A B ->
  ref_insert key (A ++ B) = A ++ key :: B /\ ref_remove key (A ++ B) = A ++ B /\
  ref_find key (A ++ B) = None.
Proof.
  intros [HA HB]. destruct (ref_skip key A HA) as (-> & -> & ->).
  destruct (ref_stop key B HB) as (-> & -> & ->). done.
Qed.

Lemma ref_present key k A B : around key A B -> compar key k = 0 ->
  ref_insert key (A ++ k :: B) = A ++ k :: B /\ ref_remove key (A ++ k :: B) = A ++ B /\
  ref_find key (A ++ k :: B) = Some k.
Proof.
  intros [HA HB] E. destruct (ref_skip key A HA) as (-> & -> & ->). unfold ref_find. simpl.
  rewrite filter_cons_True, E by done. done.
Qed.

Lemma around_in_order key A B : around key A B -> in_order (A ++ B) -> in_order (A ++ key :: B).
Proof.
  intros [HA HB] H. unfold in_order in *. induction HA as [|x A Hx HA IH]; simpl in *.
  - by constructor.
  - inversion H as [|? ? Hs Hf]; subst. apply Forall_app in Hf as [Hf1 Hf2]. constructor; [by apply IH|].
    apply Forall_app. split; [done|]. by constructor.
Qed.

Lemma in_order_delete A k B : in_order (A ++ k :: B) -> in_order (A ++ B).
Proof.
  unfold in_order. induction A as [|x A IH]; simpl; [by inversion 1|].
  inversion 1 as [|? ? Hs Hf]; subst. apply Forall_app in Hf as [Hf1 [_ Hf2]%Forall_cons_1].
  constructor; [by apply IH|]. by apply Forall_app.
Qed.

Lemma tfind_ref key t : in_order (elements t) -> tfind compar key t = ref_find key (elements t).
Proof.
  intros H. destruct (route_correct key t H) as (A & B & Hab & Hm).
  destruct (tfind compar key t); destruct Hm as (Hm & HE).
  - destruct HE as (-> & _). symmetry. by apply ref_present.
  - rewrite Hm. symmetry. by apply ref_absent.
Qed.
(** A program's use of a tree: insertions (each with its allocation
    outcome), removals and lookups, each call with its own uninitialised
    path. *)
Inductive tree_op :=
  | TInsert (key : K) (alloc_ok : bool) (p : path)
  | TRemove (key : K) (p : path).

Definition op_path (op : tree_op) : path :=
  match op with TInsert _ _ p | TRemove _ p => p end.

Definition run_op t (op : tree_op) : option (tnode K) :=
  match op with
  | TInsert key alloc_ok p => '(t, _) ← tsearch compar key t alloc_ok p; Some t
  | TRemove key p => '(t, _) ← tdelete compar key t p; Some t
  end.

Fixpoint run_ops t (ops : list tree_op) : option (tnode K) :=
  match ops with
  | [] => Some t
  | op :: ops => t ← run_op t op; run_ops t ops
  end.

Definition ref_op (l : list K) (op : tree_op) : list K :=
  match op with
  | TInsert key true _ => ref_insert key l
  | TInsert key false _ => l
  | TRemove key _ => ref_remove key l
  end.

(** ** Properties *)

(** A tree the functions work on: balanced, in search order, and no larger
    than the address space holds ([sizeof(posix_tnode)] is 32). *)
Record tree_wf t (h : Z) : Prop := {
  wf_avl : avl t h;
  wf_order : in_order (elements t);
  wf_size : 32 * Z.of_nat (length (elements t)) < 2 ^ 64
}.

Definition path_uninit (p : path) : Prop := 0 <= steps0 p < 2 ^ 64 /\ 0 <= steps1 p < 2 ^ 64.

Lemma tree_wf_height t h : tree_wf t h -> h < 128.
Proof. intros [Ha _ Hs]. apply (avl_height_bound t); [done|]. lia. Qed.

(** Tsearch on a balanced ordered tree.  Whatever the uninitialised
    [struct path] holds, no step is stored out of bounds and no null pointer
    is followed.  If the tree has an equal key its node is returned and the
    tree is untouched, whether or not memory is available.  Otherwise, when
    malloc fails the tree is untouched and NULL is returned; when it succeeds
    the new tree holds exactly the old keys and the new one, in order and
    balanced, at most one level higher. *)
Theorem tsearch_correct (key : K) t (h : Z) (p : path)
  (Hwf : tree_wf t h) (Hp : path_uninit p) :
  match ref_find key (elements t) with
  | Some k => forall alloc_ok, tsearch compar key t alloc_ok p = Some (t, Some k)
  | None =>
      tsearch compar key t false p = Some (t, None) /\
      exists t' h', tsearch compar key t true p = Some (t', Some key) /\
        elements t' = ref_insert key (elements t) /\
        length (elements t') = S (length (elements t)) /\
        in_order (elements t') /\ avl t' h' /\ h <= h' <= h + 1
  end.
Proof.
  destruct Hp as [H0 H1]. pose proof (tree_wf_height _ _ Hwf). destruct Hwf as [Ha Ho Hs].
  rewrite <- tfind_ref by done.
  destruct (tsearch_ok key t h p Ha Ho) as (A & B & Hab & Hm); [done..|].
  destruct (tfind compar key t); [by destruct Hm as (_ & _ & ?)|].
  destruct Hm as (HE & Hf & t' & h' & Ht & HE' & Hav). split; [done|]. exists t', h'.
  rewrite HE' , HE. rewrite (proj1 (ref_absent key A B Hab)). repeat (split; [done|]).
  split; [rewrite !length_app; simpl; lia|]. split; [|done].
  apply around_in_order; [done|]. by rewrite <- HE.
Qed.

(** Tdelete on a balanced ordered tree.  For a missing key it returns
    NULL and leaves the tree alone; otherwise the new tree holds exactly the
    other keys, in order and balanced, at most one level lower, and the
    pointer returned is the removed node's parent, or the non-null marker
    when the key was at the root. *)
Theorem tdelete_correct (key : K) t (h : Z) (p : path)
  (Hwf : tree_wf t h) (Hp : path_uninit p) :
  match ref_find key (elements t) with
  | None => tdelete compar key t p = Some (t, RetNull)
  | Some k =>
      exists t' h', tdelete compar key t p = Some (t', parent_at (route key t) t) /\
        parent_at (route key t) t <> RetNull /\
        elements t' = ref_remove key (elements t) /\
        length (elements t) = S (length (elements t')) /\
        in_order (elements t') /\ avl t' h' /\ h - 1 <= h' <= h
  end.
Proof.
  destruct Hp as [H0 H1]. pose proof (tree_wf_height _ _ Hwf). destruct Hwf as [Ha Ho Hs].
  rewrite <- tfind_ref by done.
  destruct (tdelete_ok key t h p Ha Ho) as (A & B & Hab & Hm); [done..|].
  destruct (tfind compar key t) as [k|] eqn:Hfind; [|by destruct Hm as (_ & ?)].
  destruct Hm as (HE & E & t' & h' & Ht & HE' & Hav). exists t', h'.
  rewrite HE', HE. rewrite (proj1 (proj2 (ref_present key k A B Hab E))). split; [done|].
  split; [|split; [done|split; [rewrite !length_app; simpl; lia|]]].
  - destruct (route_correct key t Ho) as (? & ? & _ & Hm). rewrite Hfind in Hm.
    destruct Hm as (_ & _ & b & l & r & Hsub). by eapply parent_at_not_null.
  - split; [|done]. apply (in_order_delete A k). by rewrite <- HE.
Qed.
Lemma run_op_refines t h op :
  tree_wf t h -> path_uninit (op_path op) ->
  exists t' h', run_op t op = Some t' /\ avl t' h' /\ in_order (elements t') /\
    elements t' = ref_op (elements t) op /\
    (length (elements t') <= S (length (elements t)))%nat.
Proof.
  intros Hwf [H0 H1]. pose proof (tree_wf_height _ _ Hwf). destruct Hwf as [Ha Ho Hs].
  destruct op as [key ok p|key p]; simpl in *.
  - destruct (tsearch_ok key t h p Ha Ho) as (A & B & Hab & Hm); [done..|].
    destruct (tfind compar key t) as [k|].
    + destruct Hm as (HE & E & ->). exists t, h. repeat (split; [done|]). split; [|lia].
      destruct ok; [|done]. symmetry. rewrite HE. by apply ref_present.
    + destruct Hm as (HE & Hf & t' & h' & Ht & HE' & Hav & _). destruct ok.
      * exists t', h'. rewrite Ht, HE', HE. repeat (split; [done|]).
        split; [apply around_in_order; [done|]; by rewrite <- HE|].
        split; [symmetry; by apply ref_absent|]. rewrite !length_app. simpl. lia.
      * exists t, h. rewrite Hf. repeat (split; [done|]). lia.
  - destruct (tdelete_ok key t h p Ha Ho) as (A & B & Hab & Hm); [done..|].
    destruct (tfind compar key t) as [k|].
    + destruct Hm as (HE & E & t' & h' & -> & HE' & Hav & _). exists t', h'. rewrite HE', HE.
      repeat (split; [done|]). split; [apply (in_order_delete A k); by rewrite <- HE|].
      split; [symmetry; by apply ref_present|]. rewrite !length_app. simpl. lia.
    + destruct Hm as (HE & ->). exists t, h. repeat (split; [done|]). split; [|lia].
      rewrite HE. symmetry. by apply ref_absent.
Qed.

(** C7: refinement.  Starting from any tree, any sequence of tsearch and
    tdelete calls that stays within the address space runs to completion and
    leaves a tree that is balanced, whose keys are those of the sorted-list
    set under the same operations, whose tfind is the set's lookup, and whose
    twalk reports the keys in order on its leaf and postorder visits. *)
Theorem tree_refines_set (t : tnode K) (h : Z) (ops : list tree_op)
  (Hwf : tree_wf t h) (Hp : Forall (fun op => path_uninit (op_path op)) ops)
  (Hn : 32 * Z.of_nat (length (elements t) + length ops) < 2 ^ 64) :
  exists t' h', run_ops t ops = Some t' /\ tree_wf t' h' /\
    elements t' = foldl ref_op (elements t) ops /\
    (forall key, tfind compar key t' = ref_find key (foldl ref_op (elements t) ops)) /\
    omap (fun '(k, v, _) => match v with postorder | leaf => Some k | _ => None end) (twalk t')
      = foldl ref_op (elements t) ops.
Proof.
  revert t h Hwf Hn. induction Hp as [|op ops Hop Hp IH]; intros t h Hwf Hn; simpl.
  - exists t, h. repeat (split; [done|]). split; [|apply twalk_in_order].
    intros key. apply tfind_ref, Hwf.
  - destruct (run_op_refines t h op Hwf Hop) as (t1 & h1 & -> & Ha & Ho & HE & Hlen).
    simpl in Hn. rewrite <- HE. apply (IH t1 h1); [|lia]. split; [done..|lia].
Qed.
End Search.

(** ** Witnesses *)

#[local] Definition wtree : tnode Z := Node 5 0 (Node 3 0 Nil Nil) (Node 9 0 Nil Nil).

Lemma wtree_wf : tree_wf (fun x y => x - y) wtree 2.
Proof.
  split; [|repeat constructor|done]. repeat (eapply avl_Node; try constructor); done.
Qed.

Lemma tsearch_correct_witness :
  exists t' h', tsearch (fun x y => x - y) 4 wtree true (Path 7 9 3) = Some (t', Some 4) /\
    elements t' = [3; 4; 5; 9] /\ avl t' h'.
Proof.
  destruct (tsearch_correct (fun x y => x - y) 4 wtree 2 (Path 7 9 3) wtree_wf ltac:(done))
    as (_ & t' & h' & ? & HE & _ & _ & ? & _).
  exists t', h'. split; [done|]. split; [rewrite HE; vm_compute; reflexivity|done].
Defined.

Lemma tdelete_correct_witness :
  exists t' h', tdelete (fun x y => x - y) 3 wtree (Path 7 9 3) = Some (t', RetNode 5) /\
    elements t' = [5; 9] /\ avl t' h'.
Proof.
  destruct (tdelete_correct (fun x y => x - y) 3 wtree 2 (Path 7 9 3) wtree_wf ltac:(done))
    as (t' & h' & ? & _ & HE & _ & _ & ? & _).
  exists t', h'. split; [done|]. split; [rewrite HE; vm_compute; reflexivity|done].
Defined.

Lemma tree_refines_set_witness :
  exists t', run_ops (fun x y => x - y) Nil
    [TInsert 2 true (Path 7 9 3); TInsert 1 true (Path 0 0 0); TInsert 0 true (Path 1 2 3);
     TRemove 1 (Path 7 7 7)] = Some t' /\ elements t' = [0; 2].
Proof.
  destruct (tree_refines_set (fun x y => x - y) Nil 0
    [TInsert 2 true (Path 7 9 3); TInsert 1 true (Path 0 0 0); TInsert 0 true (Path 1 2 3);
     TRemove 1 (Path 7 7 7)]) as (t' & h' & ? & _ & HE & _).
  - split; [constructor|constructor|done].
  - by repeat constructor.
  - done.
  - exists t'. split; [done|]. rewrite HE. vm_compute. reflexivity.
Defined.
