(* ===== verification/HashTable.v ===== *)
(** * Hash tables: hcreate_r, hsearch_r

    Sources: src/libc/search/hcreate_r.c, hsearch_r.c and the
    [struct __hsearch] of search_impl.h.

    A table of [ENTRY]s is a list of slots; a slot whose key is NULL is
    [None].  Keys are C strings, lists of non-zero bytes, and are not modified
    while they are in the table.  [ENTRY *] results are slot numbers.  The
    probing loops have no bound in the code: they run on fuel here, and
    running out of it is [None]. *)

From S2P Require Import Prelude.

#[local] Open Scope Z_scope.
#[local] Ltac Zify.zify_post_hook ::= Z.to_euclidean_division_equations.

Record entry := Entry { e_key : list Z; e_data : Z }.

#[export] Instance entry_eq_dec : EqDecision entry.
Proof. solve_decision. Defined.

Record hsearch := Hsearch {
  offset_basis : Z;
  index_mask : Z;
  entries_used : Z;
  entries : list (option entry)
}.

Inductive action := FIND | ENTER.

(** The random hash seed is what arc4random_buf stored; the two allocations
    each may fail. *)
Definition hcreate_r (alloc_table alloc_entries : bool) (seed : Z) : option hsearch :=
  if negb alloc_table then None
  else if negb alloc_entries then None
  else Some (Hsearch seed 15 0 (replicate 16 None)).

Fixpoint hsearch_hash (hash : Z) (str : list Z) : Z :=
  match str with
  | [] => hash
  | c :: str => hsearch_hash (u64 (Z.lxor hash c * 1099511628211)) str
  end.

Fixpoint hsearch_lookup_free (fuel : nat) (es : list (option entry)) (mask index i : Z)
  : option nat :=
  match fuel with
  | O => None
  | S fuel =>
      let j := Z.to_nat (Z.land index mask) in
      e ← es !! j;
      match e with
      | None => Some j
      | Some _ => hsearch_lookup_free fuel es mask (u64 (index + u64 (i + 1))) (u64 (i + 1))
      end
  end.

(** The first loop of hsearch_r: the slot it stops at, and whether that
    holds the key. *)
Fixpoint hsearch_probe (fuel : nat) (es : list (option entry)) (mask : Z) (key : list Z)
  (index i : Z) : option (nat * bool) :=
  match fuel with
  | O => None
  | S fuel =>
      let j := Z.to_nat (Z.land index mask) in
      e ← es !! j;
      match e with
      | None => Some (j, false)
      | Some e =>
          if decide (e_key e = key) then Some (j, true)
          else hsearch_probe fuel es mask key (u64 (index + u64 (i + 1))) (u64 (i + 1))
      end
  end.

(** The loop that copies the old entries over. *)
Fixpoint hsearch_rehash (basis mask : Z) (old es : list (option entry))
  : option (list (option entry)) :=
  match old with
  | [] => Some es
  | None :: old => hsearch_rehash basis mask old es
  | Some e :: old =>
      j ← hsearch_lookup_free (length es) es mask (hsearch_hash basis (e_key e)) 0;
      hsearch_rehash basis mask old (<[j := Some e]> es)
  end.

(** calloc(n, sizeof(ENTRY)): no block exceeds the address space. *)
Definition sizeof_ENTRY : Z := 16.
Definition calloc_ok (alloc_ok : bool) (n : Z) : bool :=
  alloc_ok && (n * sizeof_ENTRY <? 2 ^ 64).

Inductive hsearch_ret :=
  | HFound (slot : nat)        (* 1, *retval is the entry *)
  | HNotFound                  (* 0, errno is ESRCH *)
  | HNoMemory.                 (* 0, errno is calloc's *)

Definition hsearch_r (item : entry) (act : action) (alloc_ok : bool) (h : hsearch)
  : option (hsearch_ret * hsearch) :=
  let hash := hsearch_hash (offset_basis h) (e_key item) in
  '(j, found) ← hsearch_probe (length (entries h)) (entries h) (index_mask h) (e_key item) hash 0;
  if (found : bool) then Some (HFound j, h)
  else
    match act with
    | FIND => Some (HNotFound, h)
    | ENTER =>
        if index_mask h <=? u64 (entries_used h * 2) then
          let new_count := u64 (u64 (index_mask h + 1) * 2) in
          if negb (calloc_ok alloc_ok new_count) then Some (HNoMemory, h)
          else
            let mask := u64 (new_count - 1) in
            es ← hsearch_rehash (offset_basis h) mask (entries h)
                   (replicate (Z.to_nat new_count) None);
            j ← hsearch_lookup_free (length es) es mask hash 0;
            Some (HFound j, Hsearch (offset_basis h) mask (u64 (entries_used h + 1))
                                    (<[j := Some item]> es))
        else
          Some (HFound j, Hsearch (offset_basis h) (index_mask h) (u64 (entries_used h + 1))
                                  (<[j := Some item]> (entries h)))
    end.

(** ** Triangular probing

    The n-th slot probed is hash + n(n+1)/2, modulo the table size.  For a
    power of two, the first so many probes visit every slot. *)

Definition tri (n : Z) : Z := n * (n + 1) / 2.

Lemma tri_succ n : tri (n + 1) = tri n + (n + 1).
Proof.
  unfold tri. replace ((n + 1) * (n + 1 + 1)) with (n * (n + 1) + (n + 1) * 2) by lia.
  by rewrite Z.div_add by lia.
Qed.

Lemma tri_double n : 2 * tri n = n * (n + 1).
Proof.
  unfold tri. assert (n * (n + 1) mod 2 = 0).
  { rewrite Z.mul_mod, Z.add_mod by lia. assert (n mod 2 = 0 \/ n mod 2 = 1) as [-> | ->] by lia; done. }
  lia.
Qed.

Lemma tri_injective k a b :
  0 <= k -> 0 <= b < 2 ^ k -> 0 <= a < 2 ^ k -> tri a mod 2 ^ k = tri b mod 2 ^ k -> a = b.
Proof.
  intros Hk Hb Ha E.
  assert (Hdiv : (2 ^ (k + 1) | (a - b) * (a + b + 1))).
  { apply Z.cong_iff_0, Z.mod_divide in E; [|lia]. destruct E as [q E].
    exists q. rewrite Z.pow_add_r by lia. pose proof (tri_double a). pose proof (tri_double b).
    change (2 ^ 1) with 2. nia. }
  assert (Hpow : 2 ^ (k + 1) = 2 * 2 ^ k) by (rewrite Z.pow_add_r by lia; lia).
  assert (Hrp : forall x, x mod 2 = 1 -> Z.gcd (2 ^ (k + 1)) x = 1).
  { intros x Hx. apply Z.coprime_pow_l; [lia|]. unfold Z.coprime.
    by rewrite <- Z.gcd_mod, Hx by lia. }
  destruct (Z.eq_dec ((a + b + 1) mod 2) 1) as [Hodd|Heven].
  - rewrite Z.mul_comm in Hdiv. apply Z.gauss in Hdiv; [|by apply Hrp]. destruct Hdiv as [q Hq].
    assert (q = 0) by nia. lia.
  - apply Z.gauss in Hdiv; [|apply Hrp; lia]. destruct Hdiv as [q Hq].
    assert (q = 0) by nia. lia.
Qed.

Definition probe_slot (k hash n : Z) : Z := (hash + tri n) mod 2 ^ k.

Lemma probe_slot_range k hash n : 0 <= k -> 0 <= probe_slot k hash n < 2 ^ k.
Proof. intros Hk. apply Z.mod_pos_bound. lia. Qed.

Lemma probe_slot_surjective k hash j :
  0 <= k -> 0 <= j < 2 ^ k -> exists n, 0 <= n < 2 ^ k /\ probe_slot k hash n = j.
Proof.
  intros Hk Hj.
  assert (Hin : In j (map (probe_slot k hash) (seqZ 0 (2 ^ k)))).
  { apply (List.NoDup_length_incl (l := map (probe_slot k hash) (seqZ 0 (2 ^ k)))
      (l' := seqZ 0 (2 ^ k))).
    - apply List.NoDup_map_NoDup_ForallPairs; [|apply NoDup_ListNoDup, NoDup_seqZ].
      intros a b Ha Hb E. apply list_elem_of_In, elem_of_seqZ in Ha, Hb.
      apply (tri_injective k); [lia..|]. unfold probe_slot in E.
      apply (f_equal (fun z => (z - hash) mod 2 ^ k)) in E. rewrite !Zminus_mod_idemp_l in E.
      by replace (hash + tri a - hash) with (tri a) in E by lia;
        replace (hash + tri b - hash) with (tri b) in E by lia.
    - by rewrite length_map.
    - intros x Hx. apply in_map_iff in Hx as (n & <- & _). apply list_elem_of_In, elem_of_seqZ.
      pose proof (probe_slot_range k hash n Hk). lia.
    - apply list_elem_of_In, elem_of_seqZ. lia. }
  apply in_map_iff in Hin as (n & Hn & Hin). apply list_elem_of_In, elem_of_seqZ in Hin.
  exists n. split; [lia|done].
Qed.

(** ** The probing loops *)

Definition pslot (k hash n : Z) : nat := Z.to_nat (probe_slot k hash n).

Lemma u64_mod_pow2 k x : 0 <= k <= 64 -> u64 x mod 2 ^ k = x mod 2 ^ k.
Proof.
  intros Hk. unfold uN. apply Z.mod_mod_divide.
  exists (2 ^ (64 - k)). rewrite <- Z.pow_add_r by lia. f_equal. lia.
Qed.

Section Probing.
  Context (k hash : Z) (Hk : 0 <= k <= 63) (es : list (option entry)).

Lemma probe_index n : Z.to_nat (Z.land (u64 (hash + tri n)) (2 ^ k - 1)) = pslot k hash n.
Proof.
  replace (2 ^ k - 1) with (Z.ones k) by (rewrite Z.ones_equiv; lia).
  rewrite Z.land_ones, u64_mod_pow2 by lia. done.
Qed.

Lemma probe_next n : 0 <= n < 2 ^ 64 - 1 ->
  u64 (n + 1) = n + 1 /\ u64 (u64 (hash + tri n) + u64 (n + 1)) = u64 (hash + tri (n + 1)).
Proof.
  intros Hn. rewrite (uN_small 64 (n + 1)) by (unfold in_unsigned; lia). split; [done|].
  unfold uN. rewrite Zplus_mod_idemp_l, tri_succ. f_equal. lia.
Qed.

Lemma lookup_free_at d fuel n :
  0 <= n -> n + Z.of_nat d < 2 ^ 64 - 1 -> (d < fuel)%nat ->
  (forall m, n <= m < n + Z.of_nat d -> exists e, es !! pslot k hash m = Some (Some e)) ->
  es !! pslot k hash (n + Z.of_nat d) = Some None ->
  hsearch_lookup_free fuel es (2 ^ k - 1) (u64 (hash + tri n)) n = Some (pslot k hash (n + Z.of_nat d)).
Proof.
  revert fuel n. induction d as [|d IH]; intros fuel n Hn Hb Hf Hocc Hfree;
    destruct fuel as [|fuel]; try lia; cbn [hsearch_lookup_free]; rewrite probe_index.
  - rewrite Z.add_0_r in *. by rewrite Hfree.
  - destruct (Hocc n) as [e He]; [lia|]. rewrite He. cbn [mbind option_bind].
    destruct (probe_next n) as [-> ->]; [lia|].
    rewrite IH; [f_equal; f_equal; lia|lia|lia|lia| |].
    + intros m Hm. apply Hocc. lia.
    + rewrite <- Hfree. f_equal. f_equal. lia.
Qed.

Lemma hsearch_probe_at key d fuel n r :
  0 <= n -> n + Z.of_nat d < 2 ^ 64 - 1 -> (d < fuel)%nat ->
  (forall m, n <= m < n + Z.of_nat d ->
     exists e, es !! pslot k hash m = Some (Some e) /\ e_key e <> key) ->
  es !! pslot k hash (n + Z.of_nat d) = Some r ->
  (forall e, r = Some e -> e_key e = key) ->
  hsearch_probe fuel es (2 ^ k - 1) key (u64 (hash + tri n)) n
    = Some (pslot k hash (n + Z.of_nat d), bool_decide (r <> None)).
Proof.
  revert fuel n. induction d as [|d IH]; intros fuel n Hn Hb Hf Hocc Hlast Hr;
    destruct fuel as [|fuel]; try lia; cbn [hsearch_probe]; rewrite probe_index.
  - rewrite Z.add_0_r in *. rewrite Hlast. cbn [mbind option_bind].
    destruct r as [e|]; [|done]. by rewrite decide_True by auto.
  - destruct (Hocc n) as (e & He & Hne); [lia|]. rewrite He. cbn [mbind option_bind].
    rewrite decide_False by done. destruct (probe_next n) as [-> ->]; [lia|].
    rewrite IH; [f_equal; f_equal; f_equal; lia|lia|lia|lia| | |done].
    + intros m Hm. apply Hocc. lia.
    + rewrite <- Hlast. f_equal. f_equal. lia.
Qed.

Lemma hsearch_hash_range basis key : 0 <= basis < 2 ^ 64 ->
  in_unsigned 64 (hsearch_hash basis key).
Proof.
  revert basis. induction key as [|c key IH]; intros basis Hb; simpl; [done|].
  apply IH, uN_range. lia.
Qed.

(** The first of a finite range of probes with a decidable property. *)
Lemma first_probe (P : Z -> Prop) `{!forall n, Decision (P n)} n :
  0 <= n -> P n -> exists n0, 0 <= n0 <= n /\ P n0 /\ forall m, 0 <= m < n0 -> ~ P m.
Proof.
  intros Hn. pattern n. revert n Hn. apply (Zlt_0_ind _). intros n IH Hn HP.
  destruct (decide (Exists P (seqZ 0 n))) as [(m & Hm & HPm)%list.Exists_exists|Hno].
  - apply elem_of_seqZ in Hm. destruct (IH m) as (n0 & ? & ? & ?); [lia|done|].
    exists n0. split; [lia|done].
  - exists n. split; [lia|]. split; [done|]. intros m Hm HPm. apply Hno, list.Exists_exists.
    exists m. split; [|done]. apply elem_of_seqZ. lia.
Qed.

(** A table with a free slot: where the probes for a key first meet one. *)
Lemma first_free j :
  length es = Z.to_nat (2 ^ k) -> es !! j = Some None ->
  exists d, (d < length es)%nat /\ es !! pslot k hash (Z.of_nat d) = Some None /\
    forall m, 0 <= m < Z.of_nat d -> exists e, es !! pslot k hash m = Some (Some e).
Proof.
  intros Hlen Hj. pose proof (lookup_lt_Some _ _ _ Hj).
  destruct (probe_slot_surjective k hash (Z.of_nat j)) as (n & Hn & Hs); [lia..|].
  destruct (first_probe (fun n => es !! pslot k hash n = Some None) n) as (n0 & Hn0 & Hf & Hm);
    [lia|unfold pslot; by rewrite Hs, Nat2Z.id|].
  exists (Z.to_nat n0). rewrite Z2Nat.id by lia. split; [lia|]. split; [done|].
  intros m Hm'. specialize (Hm m Hm').
  destruct (lookup_lt_is_Some_2 es (pslot k hash m)) as [[e|] He]; [|by eauto|done].
  pose proof (probe_slot_range k hash m). unfold pslot. lia.
Qed.
End Probing.

(** ** The table invariant *)

(** The occupied slots' entries, and the finite map they represent. *)
Definition items (es : list (option entry)) : list entry := omap id es.

Definition contents (es : list (option entry)) : gmap (list Z) Z :=
  list_to_map ((fun e => (e_key e, e_data e)) <$> items es).

(** Every entry can be reached: the probes for its key before its slot
    meet occupied slots with other keys. *)
Definition reached (k basis : Z) (es : list (option entry)) (key : list Z) (n : Z) : Prop :=
  forall m, 0 <= m < n -> exists e,
    es !! pslot k (hsearch_hash basis key) m = Some (Some e) /\ e_key e <> key.

Record table_ok (k basis : Z) (es : list (option entry)) : Prop := {
  table_length : length es = Z.to_nat (2 ^ k);
  table_nodup : NoDup (e_key <$> items es);
  table_chain : forall j e, es !! j = Some (Some e) -> exists n, 0 <= n < 2 ^ k /\
    pslot k (hsearch_hash basis (e_key e)) n = j /\ reached k basis es (e_key e) n
}.

Lemma items_elem e es : e ∈ items es <-> exists j, es !! j = Some (Some e).
Proof.
  unfold items. rewrite list_elem_of_omap. split.
  - intros (x & Hx & E). unfold id in E. subst x. by apply list_elem_of_lookup in Hx.
  - intros [j Hj]. exists (Some e). split; [|done]. by apply list_elem_of_lookup_2 in Hj.
Qed.

Lemma items_insert j e es : es !! j = Some None -> items (<[j := Some e]> es) ≡ₚ e :: items es.
Proof.
  intros Hj. unfold items. rewrite <- (take_drop_middle es j None Hj) at 2.
  rewrite insert_take_drop by (by eapply lookup_lt_Some).
  rewrite !omap_app. simpl. by rewrite Permutation_middle.
Qed.

Lemma items_free es : (length (items es) < length es)%nat -> exists j, es !! j = Some None.
Proof.
  induction es as [|[e|] es IH]; simpl; [lia| |by exists 0%nat].
  intros H. destruct IH as [j Hj]; [unfold items in *; simpl in *; lia|]. by exists (S j).
Qed.

Lemma contents_lookup es key d :
  NoDup (e_key <$> items es) -> contents es !! key = Some d <-> Entry key d ∈ items es.
Proof.
  intros Hnd. unfold contents. rewrite <- elem_of_list_to_map.
  - rewrite list_elem_of_fmap. split; [|intros ?; by exists (Entry key d)].
    intros ([k' d'] & [= -> ->] & ?). done.
  - by rewrite <- list_fmap_compose.
Qed.

Lemma contents_absent es key : contents es !! key = None <-> key ∉ e_key <$> items es.
Proof.
  unfold contents. rewrite <- not_elem_of_list_to_map, <- list_fmap_compose. done.
Qed.

Lemma contents_perm es es' e :
  NoDup (e_key <$> items es') -> items es' ≡ₚ e :: items es ->
  contents es' = <[e_key e := e_data e]> (contents es).
Proof.
  intros Hnd Hp. unfold contents.
  rewrite (list_to_map_proper _ ((fun e => (e_key e, e_data e)) <$> (e :: items es))); [done| |by rewrite Hp].
  by rewrite <- list_fmap_compose.
Qed.

(** Storing a new key in the first free slot its probes meet. *)
Lemma table_insert k basis es e n :
  table_ok k basis es -> e_key e ∉ e_key <$> items es -> 0 <= n < 2 ^ k ->
  es !! pslot k (hsearch_hash basis (e_key e)) n = Some None ->
  (forall m, 0 <= m < n -> exists e', es !! pslot k (hsearch_hash basis (e_key e)) m = Some (Some e')) ->
  table_ok k basis (<[pslot k (hsearch_hash basis (e_key e)) n := Some e]> es).
Proof.
  intros [Hlen Hnd Hch] Hnew Hn Hfree Hocc. set (j := pslot _ _ n) in *.
  assert (Hkeep : forall i e', es !! i = Some (Some e') -> <[j := Some e]> es !! i = Some (Some e')).
  { intros i e' Hi. rewrite list_lookup_insert_ne; [done|]. intros ->. congruence. }
  split.
  - by rewrite length_insert.
  - rewrite (items_insert _ _ _ Hfree). rewrite fmap_cons. by apply list.NoDup_cons.
  - intros i e' Hi. destruct (decide (i = j)) as [->|Hij].
    + rewrite list_lookup_insert_eq in Hi by (by eapply lookup_lt_Some). injection Hi as <-.
      exists n. split; [done|]. split; [done|]. intros m Hm. destruct (Hocc m Hm) as [e' He'].
      exists e'. split; [by apply Hkeep|]. intros E. apply Hnew. rewrite <- E.
      apply list_elem_of_fmap_2, items_elem. eauto.
    + rewrite list_lookup_insert_ne in Hi by done.
      destruct (Hch _ _ Hi) as (n' & Hn' & Hs & Hr). exists n'. split; [done|]. split; [done|].
      intros m Hm. destruct (Hr m Hm) as (e2 & He2 & Hne). exists e2. split; [by apply Hkeep|done].
Qed.

(** Finding the slot for a new key. *)
Lemma place_ok k basis es e :
  0 <= k <= 63 -> 0 <= basis < 2 ^ 64 -> table_ok k basis es ->
  e_key e ∉ e_key <$> items es -> (length (items es) < length es)%nat ->
  exists j,
    hsearch_lookup_free (length es) es (2 ^ k - 1) (hsearch_hash basis (e_key e)) 0 = Some j /\
    hsearch_probe (length es) es (2 ^ k - 1) (e_key e) (hsearch_hash basis (e_key e)) 0
      = Some (j, false) /\
    es !! j = Some None /\ table_ok k basis (<[j := Some e]> es).
Proof.
  intros Hk Hb Ht Hnew Hfree. destruct (items_free es Hfree) as [j0 Hj0].
  set (h := hsearch_hash basis (e_key e)). pose proof (table_length _ _ _ Ht) as Hlen.
  destruct (first_free k h Hk es j0 Hlen Hj0) as (d & Hd & Hs & Hocc).
  assert (E : h = u64 (h + tri 0)).
  { symmetry. change (tri 0) with 0. rewrite Z.add_0_r. by apply uN_small, hsearch_hash_range. }
  assert (2 ^ k <= 2 ^ 63) by (apply Z.pow_le_mono_r; lia).
  exists (pslot k h (Z.of_nat d)). rewrite E at 1 3.
  rewrite (lookup_free_at k h Hk es d), (hsearch_probe_at k h Hk es (e_key e) d _ _ None);
    rewrite ?Z.add_0_l; try done; try lia.
  - repeat (split; [done|]). apply table_insert; try done. lia.
  - intros m Hm. destruct (Hocc m Hm) as [e' He']. exists e'. split; [done|].
    intros E'. apply Hnew. rewrite <- E'. apply list_elem_of_fmap_2, items_elem. eauto.
Qed.

(** Finding a key that is there. *)
Lemma probe_found k basis es j e :
  0 <= k <= 63 -> 0 <= basis < 2 ^ 64 -> table_ok k basis es -> es !! j = Some (Some e) ->
  hsearch_probe (length es) es (2 ^ k - 1) (e_key e) (hsearch_hash basis (e_key e)) 0
    = Some (j, true).
Proof.
  intros Hk Hb Ht Hj. set (h := hsearch_hash basis (e_key e)).
  destruct (table_chain _ _ _ Ht _ _ Hj) as (n & Hn & <- & Hr). pose proof (table_length _ _ _ Ht).
  assert (E : h = u64 (h + tri 0)).
  { symmetry. change (tri 0) with 0. rewrite Z.add_0_r. by apply uN_small, hsearch_hash_range. }
  assert (2 ^ k <= 2 ^ 63) by (apply Z.pow_le_mono_r; lia).
  rewrite E at 1.
  rewrite (hsearch_probe_at k h Hk es (e_key e) (Z.to_nat n) _ _ (Some e));
    rewrite ?Z.add_0_l, ?Z2Nat.id by lia; try done; try lia. by intros ? [= <-].
Qed.

(** Copying a table over keeps its contents. *)
Lemma rehash_ok k basis old es :
  0 <= k <= 63 -> 0 <= basis < 2 ^ 64 -> table_ok k basis es ->
  NoDup (e_key <$> items old ++ items es) ->
  (length (items old) + length (items es) < length es)%nat ->
  exists es', hsearch_rehash basis (2 ^ k - 1) old es = Some es' /\ table_ok k basis es' /\
    items es' ≡ₚ items old ++ items es.
Proof.
  intros Hk Hb. revert es. induction old as [|[e|] old IH]; intros es Ht Hnd Hlen; simpl.
  - by exists es.
  - change (items (Some e :: old)) with (e :: items old) in *. cbn [app length] in *.
    rewrite fmap_cons in Hnd. apply list.NoDup_cons in Hnd as [Hnew Hnd].
    assert (Hnew' : e_key e ∉ e_key <$> items es).
    { intros H. apply Hnew. rewrite fmap_app. apply elem_of_app. by right. }
    destruct (place_ok k basis es e) as (j & -> & _ & Hj & Ht'); try done; [lia|].
    pose proof (items_insert _ e _ Hj) as Hp. cbn [mbind option_bind].
    destruct (IH _ Ht') as (es' & -> & Hes' & Hp').
    + rewrite Hp, <- Permutation_middle, fmap_cons. by apply list.NoDup_cons.
    + rewrite Hp, length_insert. simpl. lia.
    + exists es'. split; [done|]. split; [done|]. by rewrite Hp', Hp, <- Permutation_middle.
  - apply IH; done.
Qed.

(** ** Properties *)

(** The invariant of [struct __hsearch]: a power-of-two table that is at most
    half full. *)
Record hsearch_wf (h : hsearch) (k : Z) : Prop := {
  hwf_k : 4 <= k <= 59;
  hwf_mask : index_mask h = 2 ^ k - 1;
  hwf_basis : 0 <= offset_basis h < 2 ^ 64;
  hwf_table : table_ok k (offset_basis h) (entries h);
  hwf_used : entries_used h = Z.of_nat (length (items (entries h)));
  hwf_load : 2 * entries_used h <= 2 ^ k
}.

Lemma table_empty k basis : table_ok k basis (replicate (Z.to_nat (2 ^ k)) None).
Proof.
  assert (Hi : forall n, items (replicate n None) = []) by (induction n; done).
  split.
  - apply length_replicate.
  - rewrite Hi. constructor.
  - intros j e [? _]%lookup_replicate. done.
Qed.

Lemma items_empty n : items (replicate n None) = [].
Proof. by induction n. Qed.

Lemma hsearch_find h k key :
  hsearch_wf h k ->
  match contents (entries h) !! key with
  | Some d => exists j, entries h !! j = Some (Some (Entry key d)) /\
      hsearch_probe (length (entries h)) (entries h) (index_mask h) key
        (hsearch_hash (offset_basis h) key) 0 = Some (j, true)
  | None => exists j, entries h !! j = Some None /\
      hsearch_probe (length (entries h)) (entries h) (index_mask h) key
        (hsearch_hash (offset_basis h) key) 0 = Some (j, false) /\
      forall d, table_ok k (offset_basis h) (<[j := Some (Entry key d)]> (entries h))
  end.
Proof.
  intros [Hk Hm Hb Ht Hu Hl]. rewrite Hm.
  assert (Hfree : (length (items (entries h)) < length (entries h))%nat).
  { rewrite (table_length _ _ _ Ht). assert (0 < 2 ^ k) by (apply Z.pow_pos_nonneg; lia). lia. }
  destruct (contents (entries h) !! key) as [d|] eqn:E.
  - apply contents_lookup in E; [|apply Ht]. apply items_elem in E as [j Hj]. exists j.
    split; [done|]. by apply (probe_found k _ _ _ (Entry key d)); [lia|..].
  - apply contents_absent in E.
    destruct (place_ok k (offset_basis h) (entries h) (Entry key 0)) as (j & Hf & Hp & Hj & _);
      try done; [lia|].
    exists j. split; [done|]. split; [done|]. intros d.
    destruct (place_ok k (offset_basis h) (entries h) (Entry key d)) as (j' & Hf' & _ & _ & Ht');
      try done; [lia|]. simpl in Hf, Hf'. by replace j with j' by congruence.
Qed.

(** Entering a new key without growing the table, and with. *)
Lemma enter_ok h k key d j :
  hsearch_wf h k -> entries h !! j = Some None ->
  table_ok k (offset_basis h) (<[j := Some (Entry key d)]> (entries h)) ->
  u64 (entries_used h * 2) < index_mask h ->
  let h' := Hsearch (offset_basis h) (index_mask h) (u64 (entries_used h + 1))
    (<[j := Some (Entry key d)]> (entries h)) in
  hsearch_wf h' k /\ contents (entries h') = <[key := d]> (contents (entries h)).
Proof.
  intros [Hk Hm Hb Ht Hu Hl] Hj Ht' Hload h'.
  assert (Hp : 2 ^ k <= 2 ^ 59) by (apply Z.pow_le_mono_r; lia).
  rewrite uN_small in Hload by (unfold in_unsigned; lia).
  split; [split; simpl; try done|].
  - rewrite (items_insert _ _ _ Hj). cbn [length]. rewrite uN_small; unfold in_unsigned; lia.
  - rewrite uN_small; [|unfold in_unsigned; lia].
    replace (2 ^ k) with (2 * 2 ^ (k - 1)) in * by (rewrite <- Z.pow_succ_r by lia; f_equal; lia). lia.
  - apply (contents_perm _ _ (Entry key d)); [apply Ht'|]. by apply items_insert.
Qed.

Lemma grow_ok h k key d :
  hsearch_wf h k -> k < 59 -> contents (entries h) !! key = None ->
  let mask := u64 (u64 (u64 (index_mask h + 1) * 2) - 1) in
  exists es j,
    hsearch_rehash (offset_basis h) mask (entries h)
      (replicate (Z.to_nat (u64 (u64 (index_mask h + 1) * 2))) None) = Some es /\
    hsearch_lookup_free (length es) es mask (hsearch_hash (offset_basis h) key) 0 = Some j /\
    es !! j = Some None /\
    let h' := Hsearch (offset_basis h) mask (u64 (entries_used h + 1))
      (<[j := Some (Entry key d)]> es) in
    hsearch_wf h' (k + 1) /\ contents (entries h') = <[key := d]> (contents (entries h)).
Proof.
  intros [Hk Hm Hb Ht Hu Hl] Hk59 Hnew mask. apply contents_absent in Hnew.
  assert (Hp : 2 ^ k <= 2 ^ 59) by (apply Z.pow_le_mono_r; lia).
  assert (0 < 2 ^ k) by (apply Z.pow_pos_nonneg; lia).
  assert (Hp2 : 2 ^ (k + 1) = 2 * 2 ^ k) by (rewrite Z.pow_add_r by lia; lia).
  assert (Hc : u64 (u64 (index_mask h + 1) * 2) = 2 ^ (k + 1)).
  { rewrite Hm, Z.sub_add, (uN_small 64 (2 ^ k)) by (unfold in_unsigned; lia).
    rewrite uN_small; unfold in_unsigned; lia. }
  assert (Hmask : mask = 2 ^ (k + 1) - 1).
  { unfold mask. rewrite Hc, uN_small; unfold in_unsigned; lia. }
  rewrite Hmask, Hc. clear mask Hmask.
  destruct (rehash_ok (k + 1) (offset_basis h) (entries h) (replicate (Z.to_nat (2 ^ (k + 1))) None))
    as (es & Hes & Hest & Hperm); try done; try lia.
  { apply table_empty. }
  { rewrite items_empty, app_nil_r. apply Ht. }
  { rewrite items_empty, length_replicate. simpl. lia. }
  rewrite items_empty, app_nil_r in Hperm.
  assert (Hnew' : key ∉ e_key <$> items es) by by rewrite Hperm.
  destruct (place_ok (k + 1) (offset_basis h) es (Entry key d)) as (j & Hj & _ & Hfree & Htab);
    try done; try lia.
  { rewrite Hperm, (table_length _ _ _ Hest). lia. }
  exists es, j. repeat (split; [done|]). split; [split; simpl; try done; try lia|].
  - rewrite (items_insert _ _ _ Hfree), Hperm. cbn [length]. rewrite uN_small; unfold in_unsigned; lia.
  - rewrite uN_small; [lia|]. unfold in_unsigned. lia.
  - simpl. apply (contents_perm _ _ (Entry key d)); [apply Htab|].
    by rewrite (items_insert _ _ _ Hfree), Hperm.
Qed.

Definition needs_growth (h : hsearch) : bool := index_mask h <=? entries_used h * 2.

Lemma hsearch_r_step h k key d alloc_ok :
  hsearch_wf h k ->
  match contents (entries h) !! key with
  | Some d0 => exists j, entries h !! j = Some (Some (Entry key d0)) /\
      forall act, hsearch_r (Entry key d) act alloc_ok h = Some (HFound j, h)
  | None =>
      hsearch_r (Entry key d) FIND alloc_ok h = Some (HNotFound, h) /\
      if needs_growth h && negb (calloc_ok alloc_ok ((index_mask h + 1) * 2))
      then hsearch_r (Entry key d) ENTER alloc_ok h = Some (HNoMemory, h)
      else exists j h' k', hsearch_r (Entry key d) ENTER alloc_ok h = Some (HFound j, h') /\
        hsearch_wf h' k' /\ entries h' !! j = Some (Some (Entry key d)) /\
        contents (entries h') = <[key := d]> (contents (entries h)) /\
        entries_used h' = entries_used h + 1
  end.
Proof.
  intros Hwf. pose proof (hsearch_find h k key Hwf) as Hfind. unfold hsearch_r.
  cbn [e_key e_data]. destruct (contents (entries h) !! key) as [d0|] eqn:Habs.
  { destruct Hfind as (j & Hj & ->). by exists j. }
  destruct Hfind as (j & Hj & -> & Hins). cbn [mbind option_bind]. split; [done|].
  destruct (Hwf) as [Hk Hm Hb Ht Hu Hl].
  assert (Hp : 2 ^ k <= 2 ^ 59) by (apply Z.pow_le_mono_r; lia).
  assert (0 < 2 ^ k) by (apply Z.pow_pos_nonneg; lia).
  unfold needs_growth.
  rewrite (uN_small 64 (entries_used h * 2)) by (unfold in_unsigned; lia).
  assert (Hu1 : u64 (entries_used h + 1) = entries_used h + 1)
    by (apply uN_small; unfold in_unsigned; lia).
  destruct (Z.leb_spec (index_mask h) (entries_used h * 2)) as [Hgrow|Hroom]; simpl andb.
  - assert (Hc : u64 (u64 (index_mask h + 1) * 2) = (index_mask h + 1) * 2).
    { rewrite (uN_small 64 (index_mask h + 1)) by (unfold in_unsigned; lia).
      rewrite uN_small; unfold in_unsigned; lia. }
    rewrite <- Hc. destruct (calloc_ok _ _) eqn:Hcalloc; [|done]. simpl negb.
    assert (k < 59).
    { unfold calloc_ok, sizeof_ENTRY in Hcalloc. apply andb_true_iff in Hcalloc as [_ Hlt].
      apply Z.ltb_lt in Hlt. rewrite Hc, Hm in Hlt. destruct (Z.eq_dec k 59) as [->|]; lia. }
    destruct (grow_ok h k key d Hwf) as (es & j' & -> & E & Hj' & Hwf' & Hcont); [done..|].
    cbn [mbind option_bind]. rewrite E. do 3 eexists. split; [done|]. split; [done|].
    cbn [entries]. split; [|done]. apply list_lookup_insert_eq. by eapply lookup_lt_Some.
  - destruct (enter_ok h k key d j Hwf Hj (Hins d)) as [Hwf' Hcont].
    { rewrite uN_small by (unfold in_unsigned; lia). lia. }
    do 3 eexists. split; [done|]. split; [done|]. cbn [entries]. split; [|done].
    apply list_lookup_insert_eq. by eapply lookup_lt_Some.
Qed.

(** Hsearch_r on a well-formed table.  Both probing loops terminate
    within one pass over the table.  A key that is present is found with the
    data it was entered with, whatever the action, and nothing changes.  For a
    key that is absent FIND fails with ESRCH and changes nothing; ENTER fails
    exactly when the table has to grow and calloc fails, changing nothing, and
    otherwise adds precisely that key, growing the table when it would become
    more than half full, and returns the entry stored. *)
Theorem hsearch_r_correct (h : hsearch) (k : Z) (key : list Z) (d : Z) (alloc_ok : bool)
  (Hwf : hsearch_wf h k) :
  match contents (entries h) !! key with
  | Some d0 => exists j, entries h !! j = Some (Some (Entry key d0)) /\
      forall act, hsearch_r (Entry key d) act alloc_ok h = Some (HFound j, h)
  | None =>
      hsearch_r (Entry key d) FIND alloc_ok h = Some (HNotFound, h) /\
      if needs_growth h && negb (calloc_ok alloc_ok ((index_mask h + 1) * 2))
      then hsearch_r (Entry key d) ENTER alloc_ok h = Some (HNoMemory, h)
      else exists j h' k', hsearch_r (Entry key d) ENTER alloc_ok h = Some (HFound j, h') /\
        hsearch_wf h' k' /\ entries h' !! j = Some (Some (Entry key d)) /\
        contents (entries h') = <[key := d]> (contents (entries h)) /\
        entries_used h' = entries_used h + 1
  end.
Proof. exact (hsearch_r_step h k key d alloc_ok Hwf). Qed.

(** A program's use of a table, and what it observes of each call: the data
    of the entry returned. *)
Inductive table_op := OpFind (key : list Z) | OpEnter (key : list Z) (d : Z).

Definition run_table_op (h : hsearch) (op : table_op) : option (option Z * hsearch) :=
  let '(item, act) :=
    match op with
    | OpFind key => (Entry key 0, FIND)
    | OpEnter key d => (Entry key d, ENTER)
    end in
  '(r, h) ← hsearch_r item act true h;
  match r with
  | HFound j => e ← entries h !! j; Some (option_map e_data e, h)
  | _ => Some (None, h)
  end.

Fixpoint run_table (h : hsearch) (ops : list table_op) : option (list (option Z) * hsearch) :=
  match ops with
  | [] => Some ([], h)
  | op :: ops =>
      '(o, h) ← run_table_op h op;
      '(os, h) ← run_table h ops;
      Some (o :: os, h)
  end.

(** The same on a finite map: entering an existing key keeps its data. *)
Definition ref_table_op (m : gmap (list Z) Z) (op : table_op) : option Z * gmap (list Z) Z :=
  match op with
  | OpFind key => (m !! key, m)
  | OpEnter key d =>
      match m !! key with Some d0 => (Some d0, m) | None => (Some d, <[key := d]> m) end
  end.

Fixpoint ref_table (m : gmap (list Z) Z) (ops : list table_op)
  : list (option Z) * gmap (list Z) Z :=
  match ops with
  | [] => ([], m)
  | op :: ops =>
      let '(o, m) := ref_table_op m op in
      let '(os, m) := ref_table m ops in
      (o :: os, m)
  end.

Lemma run_table_op_refines h k op :
  hsearch_wf h k -> entries_used h < 2 ^ 57 ->
  exists h' k', run_table_op h op = Some ((ref_table_op (contents (entries h)) op).1, h') /\
    hsearch_wf h' k' /\ contents (entries h') = (ref_table_op (contents (entries h)) op).2 /\
    entries_used h' <= entries_used h + 1.
Proof.
  intros Hwf Hused.
  assert (Hroom : needs_growth h && negb (calloc_ok true ((index_mask h + 1) * 2)) = false).
  { unfold needs_growth, calloc_ok, sizeof_ENTRY. destruct Hwf as [Hk Hm _ _ _ _]. rewrite Hm.
    destruct (Z.leb_spec (2 ^ k - 1) (entries_used h * 2)) as [Hg|]; [|done]. simpl.
    assert (2 ^ k <= 2 ^ 58) by lia. apply negb_false_iff, Z.ltb_lt. lia. }
  unfold run_table_op, ref_table_op. destruct op as [key|key d].
  - pose proof (hsearch_r_step h k key 0 true Hwf) as Hs.
    destruct (contents (entries h) !! key) as [d0|] eqn:E.
    + destruct Hs as (j & Hj & ->). exists h, k. cbn [mbind option_bind]. rewrite Hj. split; [done|].
      split; [done|]. split; [done|lia].
    + destruct Hs as (-> & _). exists h, k. split; [done|]. split; [done|]. split; [done|lia].
  - pose proof (hsearch_r_step h k key d true Hwf) as Hs.
    destruct (contents (entries h) !! key) as [d0|] eqn:E.
    + destruct Hs as (j & Hj & ->). exists h, k. cbn [mbind option_bind]. rewrite Hj. split; [done|].
      split; [done|]. split; [done|lia].
    + rewrite Hroom in Hs. destruct Hs as (_ & j & h' & k' & -> & Hwf' & Hj & Hc & Hu).
      exists h', k'. cbn [mbind option_bind]. rewrite Hj. split; [done|]. split; [done|].
      split; [done|lia].
Qed.

Lemma run_table_refines ops h k :
  hsearch_wf h k -> entries_used h + Z.of_nat (length ops) < 2 ^ 57 ->
  exists h' k', run_table h ops = Some ((ref_table (contents (entries h)) ops).1, h') /\
    hsearch_wf h' k' /\ contents (entries h') = (ref_table (contents (entries h)) ops).2.
Proof.
  revert h k. induction ops as [|op ops IH]; intros h k Hwf Hlen; simpl.
  - by exists h, k.
  - cbn [length] in Hlen.
    destruct (run_table_op_refines h k op Hwf) as (h1 & k1 & -> & Hwf1 & Hc & Hu); [lia|].
    destruct (IH h1 k1 Hwf1) as (h2 & k2 & E & Hwf2 & Hc2); [lia|].
    destruct (ref_table_op (contents (entries h)) op) as [o m1]. simpl in Hc. subst m1.
    cbn [mbind option_bind]. rewrite E. exists h2, k2.
    destruct (ref_table (contents (entries h1)) ops) as [os m2]. done.
Qed.

(** C8: a hash table is a finite map.  hcreate_r gives an empty table (or
    fails without one), and every sequence of FIND and ENTER calls for which
    memory is available observes exactly what the same operations observe on
    a finite map from strings to data. *)
Theorem hash_table_refines_map (seed : Z) (ops : list table_op)
  (Hseed : 0 <= seed < 2 ^ 64) (Hlen : Z.of_nat (length ops) < 2 ^ 57) :
  (forall a b, a && b = false -> hcreate_r a b seed = None) /\
  exists h0 h k, hcreate_r true true seed = Some h0 /\
    run_table h0 ops = Some ((ref_table ∅ ops).1, h) /\
    hsearch_wf h k /\ contents (entries h) = (ref_table ∅ ops).2.
Proof.
  split; [by intros [] []|]. eexists.
  destruct (run_table_refines ops (Hsearch seed 15 0 (replicate 16 None)) 4) as (h & k & Hr & Hwf & Hc).
  - split; try done. apply (table_empty 4).
  - simpl. lia.
  - exists h, k. split; [done|]. done.
Qed.

(** ** Witnesses *)

Lemma hash_table_refines_map_witness :
  exists h0 h, hcreate_r true true 14695981039346656037 = Some h0 /\
    run_table h0 [OpEnter [97] 1; OpEnter [98] 2; OpEnter [97] 3; OpFind [97]; OpFind [99]]
      = Some ([Some 1; Some 2; Some 1; Some 1; None], h).
Proof.
  destruct (hash_table_refines_map 14695981039346656037
    [OpEnter [97] 1; OpEnter [98] 2; OpEnter [97] 3; OpFind [97]; OpFind [99]])
    as (_ & h0 & h & k & H0 & H1 & _); [lia|simpl; lia|].
  exists h0, h. split; [exact H0|]. rewrite H1. vm_compute. reflexivity.
Defined.

Lemma hsearch_r_correct_witness :
  hsearch_r (Entry [97] 1) FIND true (Hsearch 5 15 0 (replicate 16 None))
    = Some (HNotFound, Hsearch 5 15 0 (replicate 16 None)).
Proof.
  apply (hsearch_r_correct (Hsearch 5 15 0 (replicate 16 None)) 4 [97] 1 true).
  split; try done. apply (table_empty 4).
Defined.
