(* ===== verification/MessageQueue.v ===== *)
(** * Message queues

    Sources: src/libc/mqueue/mqueue_impl.h, mq_init.c, mq_send.c,
    mq_timedsend.c, mq_receive.c, mq_timedreceive.c, mq_setattr.c,
    mq_getattr.c and mq_destroy.c.

    Messages live in a heap of [struct message] and are linked twice: the
    receive list runs through all of them, the send list through the last one
    of each priority.  A dereference of a null or freed pointer is [None].
    Each function holds the queue's mutex from its first to its last access,
    except while it waits, so a critical section is one step; the threads,
    their waits and the signals they send after unlocking are the step
    relation at the end. *)

From S2P Require Import Prelude.

#[local] Open Scope Z_scope.

Abbreviation loc := positive (only parsing).

Record message := Message {
  next_receive : option loc;
  next_send : option loc;
  priority : Z;
  contents : list Z
}.

Record mq_attr := MqAttr {
  mq_flags : Z;
  mq_maxmsg : Z;
  mq_msgsize : Z;
  mq_curmsgs : Z
}.

Record mqd := Mqd {
  attr : mq_attr;
  queue_receive : option loc;
  queue_send : option loc;
  heap : gmap loc message
}.

Definition O_NONBLOCK : Z := 4.

(** A [struct message **]: the queue's own pointer or a field of a message. *)
Inductive mptr := PQueue | PNext (l : loc).

Definition load_receive (s : mqd) (p : mptr) : option (option loc) :=
  match p with
  | PQueue => Some (queue_receive s)
  | PNext l => m ← heap s !! l; Some (next_receive m)
  end.

Definition load_send (s : mqd) (p : mptr) : option (option loc) :=
  match p with
  | PQueue => Some (queue_send s)
  | PNext l => m ← heap s !! l; Some (next_send m)
  end.

Definition set_heap (h : gmap loc message) (s : mqd) : mqd :=
  Mqd (attr s) (queue_receive s) (queue_send s) h.

Definition store_receive (p : mptr) (v : option loc) (s : mqd) : option mqd :=
  match p with
  | PQueue => Some (Mqd (attr s) v (queue_send s) (heap s))
  | PNext l =>
      m ← heap s !! l;
      Some (set_heap (<[l := Message v (next_send m) (priority m) (contents m)]> (heap s)) s)
  end.

Definition store_send (p : mptr) (v : option loc) (s : mqd) : option mqd :=
  match p with
  | PQueue => Some (Mqd (attr s) (queue_receive s) v (heap s))
  | PNext l =>
      m ← heap s !! l;
      Some (set_heap (<[l := Message (next_receive m) v (priority m) (contents m)]> (heap s)) s)
  end.

Definition set_curmsgs (n : Z) (s : mqd) : mqd :=
  Mqd (MqAttr (mq_flags (attr s)) (mq_maxmsg (attr s)) (mq_msgsize (attr s)) n)
      (queue_receive s) (queue_send s) (heap s).

(** ** Operations *)

Definition mq_init (a : mq_attr) : mqd + Z :=
  if negb (Z.land (mq_flags a) (Z.lnot O_NONBLOCK) =? 0) || (mq_maxmsg a <=? 0)
     || (mq_msgsize a <=? 0)
  then inr EINVAL
  else inl (Mqd (MqAttr (mq_flags a) (mq_maxmsg a) (mq_msgsize a) 0) None None ∅).

(** The pre functions return the error they fail with. *)
Definition mq_receive_pre (s : mqd) (msg_len : Z) : option Z :=
  if msg_len <? u64 (mq_msgsize (attr s)) then Some EMSGSIZE
  else if (mq_curmsgs (attr s) <=? 0) && negb (Z.land (mq_flags (attr s)) O_NONBLOCK =? 0)
  then Some EAGAIN
  else None.

Definition mq_send_pre (s : mqd) (msg_len : Z) : option Z :=
  if u64 (mq_msgsize (attr s)) <? msg_len then Some EMSGSIZE
  else if (mq_maxmsg (attr s) <=? mq_curmsgs (attr s))
          && negb (Z.land (mq_flags (attr s)) O_NONBLOCK =? 0)
  then Some EAGAIN
  else None.

(** The message's priority and contents, and the queue without it. *)
Definition mq_receive_post (s : mqd) : option (Z * list Z * mqd) :=
  l ← queue_receive s;
  m ← heap s !! l;
  let s := Mqd (attr s) (next_receive m) (queue_send s) (heap s) in
  let s := set_curmsgs (mq_curmsgs (attr s) - 1) s in
  let s := if decide (queue_send s = Some l)
           then Mqd (attr s) (queue_receive s) (next_send m) (heap s) else s in
  Some (priority m, contents m, set_heap (delete l (heap s)) s).

(** The scan of mq_send_post and the insertion it ends with.  [l] is the new
    message. *)
Fixpoint mq_send_insert (fuel : nat) (s : mqd) (m_receive m_send : mptr) (l : loc)
  (msg : list Z) (msg_prio : Z) : option mqd :=
  let insert_first :=
    r ← load_receive s m_receive;
    sd ← load_send s m_send;
    s ← store_receive m_receive (Some l) (set_heap (<[l := Message r sd msg_prio msg]> (heap s)) s);
    store_send m_send (Some l) s in
  match fuel with
  | O => None
  | S fuel =>
      p ← load_send s m_send;
      match p with
      | None => insert_first
      | Some ls =>
          m ← heap s !! ls;
          if priority m <=? msg_prio then
            if priority m =? msg_prio then
              let h := <[l := Message (next_receive m) (next_send m) msg_prio msg]> (heap s) in
              s ← store_receive (PNext ls) (Some l) (set_heap h s);
              store_send m_send (Some l) s
            else insert_first
          else mq_send_insert fuel s (PNext ls) (PNext ls) l msg msg_prio
      end
  end.

(** [fresh] is what malloc returned. *)
Definition mq_send_post (s : mqd) (fresh : option loc) (msg : list Z) (msg_prio : Z)
  : option (bool * mqd) :=
  match fresh with
  | None => Some (false, s)
  | Some l =>
      s ← mq_send_insert (S (size (heap s))) s PQueue PQueue l msg msg_prio;
      Some (true, set_curmsgs (mq_curmsgs (attr s) + 1) s)
  end.

Definition mq_setattr (s : mqd) (flags : Z) : (mqd * mq_attr) + Z :=
  if negb (Z.land flags (Z.lnot O_NONBLOCK) =? 0) then inr EINVAL
  else
    inl (Mqd (MqAttr flags (mq_maxmsg (attr s)) (mq_msgsize (attr s)) (mq_curmsgs (attr s)))
             (queue_receive s) (queue_send s) (heap s), attr s).

Definition mq_getattr (s : mqd) : mq_attr := attr s.

(** The loop of mq_destroy: every pending message is freed. *)
Fixpoint mq_destroy_loop (fuel : nat) (h : gmap loc message) (m : option loc)
  : option (gmap loc message) :=
  match m, fuel with
  | None, _ => Some h
  | Some _, O => None
  | Some l, S fuel => msg ← h !! l; mq_destroy_loop fuel (delete l h) (next_receive msg)
  end.

Definition mq_destroy (s : mqd) : option (gmap loc message) :=
  mq_destroy_loop (S (size (heap s))) (heap s) (queue_receive s).

(** ** The abstract queue: messages by descending priority, first in first
       out within one *)

Definition pqueue : Type := list (Z * list Z).

Fixpoint pq_insert (x : Z * list Z) (q : pqueue) : pqueue :=
  match q with
  | [] => [x]
  | y :: q' => if y.1 <? x.1 then x :: q else y :: pq_insert x q'
  end.

(** The messages of one priority; the send list points to the last. *)
Record group := Group { g_prio : Z; g_body : list (loc * list Z); g_last : loc * list Z }.

Definition g_members (g : group) : list (loc * list Z) := g_body g ++ [g_last g].
Definition g_queue (g : group) : pqueue := (fun m => (g_prio g, m.2)) <$> g_members g.
Definition queue_of (gs : list group) : pqueue := gs ≫= g_queue.
Definition locs (gs : list group) : list loc := gs ≫= (fun g => (g_members g).*1).

(** The receive list through [body], from [p] to [q]. *)
Fixpoint segment (h : gmap loc message) (prio : Z) (p : option loc) (body : list (loc * list Z))
  (q : option loc) : Prop :=
  match body with
  | [] => p = q
  | (l, c) :: body =>
      p = Some l /\ exists m, h !! l = Some m /\ priority m = prio /\ contents m = c /\
        segment h prio (next_receive m) body q
  end.

Fixpoint linked (h : gmap loc message) (pr ps : option loc) (gs : list group) : Prop :=
  match gs with
  | [] => pr = None /\ ps = None
  | g :: gs =>
      segment h (g_prio g) pr (g_body g) (Some (g_last g).1) /\ ps = Some (g_last g).1 /\
      exists m, h !! (g_last g).1 = Some m /\ priority m = g_prio g /\ contents m = (g_last g).2 /\
        linked h (next_receive m) (next_send m) gs
  end.

Fixpoint descending (gs : list group) : Prop :=
  match gs with
  | [] => True
  | g :: gs => Forall (fun g' => g_prio g' < g_prio g) gs /\ descending gs
  end.

Record mq_repr (s : mqd) (gs : list group) : Prop := {
  repr_linked : linked (heap s) (queue_receive s) (queue_send s) gs;
  repr_nodup : NoDup (locs gs);
  repr_dom : dom (heap s) = list_to_set (locs gs);
  repr_desc : descending gs;
  repr_count : mq_curmsgs (attr s) = Z.of_nat (length (locs gs))
}.

Fixpoint g_insert (l : loc) (prio : Z) (msg : list Z) (gs : list group) : list group :=
  match gs with
  | [] => [Group prio [] (l, msg)]
  | g :: gs' =>
      if g_prio g <=? prio then
        if g_prio g =? prio then Group prio (g_members g) (l, msg) :: gs'
        else Group prio [] (l, msg) :: gs
      else g :: g_insert l prio msg gs'
  end.

(** ** Insertion *)

Lemma segment_frame h h' prio p body q :
  (forall l, l ∈ body.*1 -> h' !! l = h !! l) -> segment h prio p body q -> segment h' prio p body q.
Proof.
  revert p. induction body as [|[l c] body IH]; intros p Hf; simpl; [done|].
  intros (-> & m & Hm & ? & ? & Hs). split; [done|]. exists m.
  rewrite Hf by (simpl; set_solver). repeat (split; [done|]). apply IH; [|done].
  intros x Hx. apply Hf. simpl. set_solver.
Qed.

Lemma segment_snoc h prio p body l m :
  segment h prio p body (Some l) -> h !! l = Some m -> priority m = prio ->
  segment h prio p (body ++ [(l, contents m)]) (next_receive m).
Proof.
  revert p. induction body as [|[x c] body IH]; intros p; simpl.
  - intros -> Hm ?. split; [done|]. by exists m.
  - intros (-> & m' & ? & ? & ? & ?) ??. split; [done|]. exists m'. auto.
Qed.

Lemma linked_frame h h' pr ps gs :
  (forall l, l ∈ locs gs -> h' !! l = h !! l) -> linked h pr ps gs -> linked h' pr ps gs.
Proof.
  revert pr ps. induction gs as [|g gs IH]; intros pr ps Hf; simpl; [done|].
  unfold locs in Hf. rewrite bind_cons in Hf. fold (locs gs) in Hf. unfold g_members in Hf.
  rewrite fmap_app in Hf. simpl in Hf.
  intros (Hs & -> & m & Hm & ? & ? & Hl). split; [|split; [done|]].
  - eapply segment_frame; [|done]. intros l Hl'. apply Hf. set_solver.
  - exists m. rewrite Hf by set_solver. repeat (split; [done|]). apply IH; [|done].
    intros l Hl'. apply Hf. set_solver.
Qed.

Lemma locs_cons g gs : locs (g :: gs) = (g_body g).*1 ++ (g_last g).1 :: locs gs.
Proof.
  unfold locs. rewrite bind_cons. unfold g_members. rewrite fmap_app. simpl.
  by rewrite <- app_assoc.
Qed.

Lemma locs_insert l prio msg gs : locs (g_insert l prio msg gs) ≡ₚ l :: locs gs.
Proof.
  induction gs as [|g gs IH]; [done|]. cbn [g_insert].
  destruct (g_prio g <=? prio); [destruct (g_prio g =? prio)|].
  - rewrite !locs_cons. simpl. unfold g_members. rewrite fmap_app. simpl. rewrite <- app_assoc.
    simpl. rewrite <- !Permutation_middle. apply Permutation_swap.
  - rewrite (locs_cons (Group _ _ _)). done.
  - rewrite !locs_cons, IH. rewrite <- !Permutation_middle. apply Permutation_swap.
Qed.

Lemma queue_of_cons g gs : queue_of (g :: gs) = g_queue g ++ queue_of gs.
Proof. done. Qed.

Lemma pq_insert_skip x A B : Forall (fun y => x.1 <= y.1) A ->
  pq_insert x (A ++ B) = A ++ pq_insert x B.
Proof.
  induction 1 as [|y A Hy HA IH]; [done|]. simpl.
  by rewrite (proj2 (Z.ltb_ge _ _) Hy), IH.
Qed.

Lemma pq_insert_stop x B : Forall (fun y => y.1 < x.1) B -> pq_insert x B = x :: B.
Proof. destruct 1 as [|y B Hy HB]; [done|]. simpl. by rewrite (proj2 (Z.ltb_lt _ _) Hy). Qed.

Lemma g_queue_prio g : Forall (fun y => y.1 = g_prio g) (g_queue g).
Proof. unfold g_queue. apply Forall_fmap, Forall_true. done. Qed.

Lemma queue_of_prio (P : Z -> Prop) gs :
  Forall (fun g => P (g_prio g)) gs -> Forall (fun y => P y.1) (queue_of gs).
Proof.
  induction 1 as [|g gs Hg Hgs IH]; [constructor|]. rewrite queue_of_cons. apply Forall_app.
  split; [|done]. eapply list.Forall_impl; [apply g_queue_prio|]. intros y Hy. simpl in Hy. by rewrite Hy.
Qed.

Lemma queue_of_insert l prio msg gs : descending gs ->
  queue_of (g_insert l prio msg gs) = pq_insert (prio, msg) (queue_of gs).
Proof.
  induction gs as [|g gs IH]; [done|]. intros [Hlt Hd]. cbn [g_insert].
  assert (Hge : prio <= g_prio g -> Forall (fun y => (prio, msg).1 <= y.1) (g_queue g)).
  { intros Hp. eapply list.Forall_impl; [apply g_queue_prio|]. simpl. intros y ->. done. }
  assert (Hgs : g_prio g <= prio -> Forall (fun y => y.1 < (prio, msg).1) (queue_of gs)).
  { intros Hp. apply (queue_of_prio (fun p => p < prio)). eapply list.Forall_impl; [exact Hlt|].
    simpl. lia. }
  destruct (Z.leb_spec (g_prio g) prio); [destruct (Z.eqb_spec (g_prio g) prio)|]; rewrite !queue_of_cons.
  - rewrite pq_insert_skip, pq_insert_stop by auto with lia. unfold g_queue, g_members. simpl.
    rewrite !fmap_app, <- !app_assoc. simpl. by subst prio.
  - rewrite pq_insert_stop; [done|]. apply Forall_app. split; [|auto].
    eapply list.Forall_impl; [apply g_queue_prio|]. simpl. intros y ->. lia.
  - rewrite pq_insert_skip by auto with lia. by rewrite IH.
Qed.

Lemma descending_insert l prio msg gs : descending gs -> descending (g_insert l prio msg gs).
Proof.
  assert (Hb : forall p gs, prio < p -> Forall (fun g' => g_prio g' < p) gs ->
    Forall (fun g' => g_prio g' < p) (g_insert l prio msg gs)).
  { intros p gs' Hp. induction 1 as [|g' gs' ? ? IH]; simpl; [by repeat constructor|].
    destruct (g_prio g' <=? prio); [destruct (g_prio g' =? prio)|]; repeat (constructor; try done). }
  induction gs as [|g gs IH]; [by repeat constructor|]. intros [Hlt Hd]. simpl.
  destruct (Z.leb_spec (g_prio g) prio); [destruct (Z.eqb_spec (g_prio g) prio) as [<-|]|]; simpl.
  - done.
  - split; [|done]. constructor; [simpl; lia|]. eapply list.Forall_impl; [exact Hlt|]. simpl. lia.
  - split; [|by apply IH]. by apply Hb.
Qed.

(** Both pointers of a position set at once. *)
Definition cursor_set (c : mptr) (r sd : option loc) (s : mqd) : mqd :=
  match c with
  | PQueue => Mqd (attr s) r sd (heap s)
  | PNext x =>
      set_heap (alter (fun m => Message r sd (priority m) (contents m)) x (heap s)) s
  end.

Definition cursor_at (s : mqd) (c : mptr) (pr ps : option loc) : Prop :=
  load_receive s c = Some pr /\ load_send s c = Some ps.

Lemma cursor_at_next s x pr ps :
  cursor_at s (PNext x) pr ps <->
  exists m, heap s !! x = Some m /\ next_receive m = pr /\ next_send m = ps.
Proof.
  unfold cursor_at; simpl. split.
  - destruct (heap s !! x) as [m|]; [|by intros [? ?]]. simpl. intros [[= <-] [= <-]]. by exists m.
  - intros (m & -> & <- & <-). done.
Qed.

Lemma cursor_store s c pr ps v :
  cursor_at s c pr ps ->
  store_receive c v s = Some (cursor_set c v ps s) /\ store_send c v s = Some (cursor_set c pr v s).
Proof.
  destruct c as [|x]; [by intros [[= <-] [= <-]]|]. rewrite cursor_at_next.
  intros (m & Hm & <- & <-). simpl. rewrite Hm. simpl. split; f_equal; unfold set_heap; f_equal;
    apply map_eq; intros y; (destruct (decide (y = x)) as [->|];
      [rewrite lookup_insert_eq, lookup_alter_eq, Hm|rewrite lookup_insert_ne, lookup_alter_ne]; done).
Qed.

Lemma cursor_set_at s c pr ps r sd :
  cursor_at s c pr ps -> cursor_at (cursor_set c r sd s) c r sd.
Proof.
  destruct c as [|x]; [done|]. rewrite !cursor_at_next. intros (m & Hm & _).
  simpl. exists (Message r sd (priority m) (contents m)). by rewrite lookup_alter_eq, Hm.
Qed.

Lemma cursor_set_set s c r sd r' sd' :
  cursor_set c r' sd' (cursor_set c r sd s) = cursor_set c r' sd' s.
Proof.
  destruct c as [|x]; [done|]. simpl. unfold set_heap. simpl. f_equal.
  by rewrite alter_alter_eq.
Qed.

Lemma cursor_set_lookup s c r sd x : c <> PNext x -> heap (cursor_set c r sd s) !! x = heap s !! x.
Proof. destruct c as [|y]; [done|]. intros H. simpl. apply lookup_alter_ne. congruence. Qed.

Lemma cursor_set_dom s c r sd : dom (heap (cursor_set c r sd s)) = dom (heap s).
Proof. destruct c as [|y]; [done|]. simpl. apply dom_alter_L. Qed.

Lemma cursor_set_attr s c r sd : attr (cursor_set c r sd s) = attr s.
Proof. by destruct c. Qed.

(** What an insertion at position [c] guarantees: the position now leads to
    the groups [gs'], and nothing else changed but the new message [l] and
    the messages of [ls]. *)
Record inserted (s s' : mqd) (c : mptr) (l : loc) (ls : list loc) (gs' : list group) : Prop := {
  ins_cursor : exists pr ps, cursor_at s' c pr ps /\ linked (heap s') pr ps gs';
  ins_attr : attr s' = attr s;
  ins_dom : dom (heap s') = {[l]} ∪ dom (heap s);
  ins_frame : forall x, x <> l -> x ∉ ls -> c <> PNext x -> heap s' !! x = heap s !! x;
  ins_body : forall x m, c = PNext x -> heap s !! x = Some m -> exists m', heap s' !! x = Some m' /\
    priority m' = priority m /\ contents m' = contents m;
  ins_queue : c <> PQueue -> queue_receive s' = queue_receive s /\ queue_send s' = queue_send s
}.

Lemma cursor_set_inserted s s1 c pr ps r sd l ls gs :
  cursor_at s1 c pr ps -> linked (heap (cursor_set c r sd s1)) r sd gs ->
  attr s1 = attr s -> dom (heap s1) = {[l]} ∪ dom (heap s) ->
  queue_receive s1 = queue_receive s -> queue_send s1 = queue_send s ->
  (forall x, x <> l -> x ∉ ls -> heap s1 !! x = heap s !! x) ->
  (forall x, c = PNext x -> x <> l /\ x ∉ ls) ->
  inserted s (cursor_set c r sd s1) c l ls gs.
Proof.
  intros Hc Hl Ha Hd Hqr Hqs Hf Hx. split.
  - exists r, sd. split; [by eapply cursor_set_at|done].
  - by rewrite cursor_set_attr.
  - by rewrite cursor_set_dom.
  - intros x ???. rewrite cursor_set_lookup by done. auto.
  - intros x m -> Hm. destruct (Hx x eq_refl). simpl. rewrite lookup_alter_eq, Hf, Hm by done.
    by eexists.
  - by destruct c.
Qed.

Lemma insert_first_ok s c pr ps l prio msg gs :
  cursor_at s c pr ps -> linked (heap s) pr ps gs -> l ∉ locs gs ->
  (forall x, c = PNext x -> x <> l /\ x ∉ locs gs) ->
  exists s',
    (s1 ← store_receive c (Some l) (set_heap (<[l := Message pr ps prio msg]> (heap s)) s);
     store_send c (Some l) s1) = Some s' /\
    inserted s s' c l (locs gs) (Group prio [] (l, msg) :: gs).
Proof.
  intros Hc Hl Hnew Hx. set (s0 := set_heap _ s). destruct Hc as [Hr Hs].
  assert (Hc0 : cursor_at s0 c pr ps).
  { destruct c as [|x]; [done|]. destruct (Hx x eq_refl). unfold cursor_at, s0. simpl.
    rewrite lookup_insert_ne by congruence. done. }
  destruct (cursor_store s0 c pr ps (Some l) Hc0) as [-> _]. cbn [mbind option_bind].
  destruct (cursor_store _ c _ _ (Some l) (cursor_set_at _ _ _ _ (Some l) ps Hc0)) as [_ ->].
  eexists. split; [done|]. rewrite cursor_set_set. eapply cursor_set_inserted; try done.
  - assert (Hne : c <> PNext l) by (intros ->; by destruct (Hx l eq_refl)).
    simpl. split; [done|]. split; [done|]. exists (Message pr ps prio msg).
    rewrite cursor_set_lookup by done. simpl. rewrite lookup_insert_eq. repeat (split; [done|]).
    eapply linked_frame; [|done]. intros y Hy. rewrite cursor_set_lookup.
    + simpl. apply lookup_insert_ne. congruence.
    + intros ->. by destruct (Hx y eq_refl).
  - simpl. by rewrite dom_insert_L.
  - intros x Hxl _. simpl. by apply lookup_insert_ne.
Qed.

(** Membership in the locations of a list of groups. *)
#[local] Ltac memb := rewrite ?elem_of_app, ?elem_of_cons in *; tauto.

(** Behind the last message of the same priority. *)
Lemma insert_same_ok s c g gs pr ps l prio msg m :
  cursor_at s c pr ps -> linked (heap s) pr ps (g :: gs) -> NoDup (locs (g :: gs)) ->
  l ∉ locs (g :: gs) -> (forall x, c = PNext x -> x <> l /\ x ∉ locs (g :: gs)) ->
  heap s !! (g_last g).1 = Some m -> g_prio g = prio ->
  exists s',
    (s1 ← store_receive (PNext (g_last g).1) (Some l)
            (set_heap (<[l := Message (next_receive m) (next_send m) prio msg]> (heap s)) s);
     store_send c (Some l) s1) = Some s' /\
    inserted s s' c l (locs (g :: gs)) (Group prio (g_members g) (l, msg) :: gs).
Proof.
  intros Hc (Hseg & -> & m' & Hm' & Hp & Hcont & Hl) Hnd Hnew Hx Hm Hg.
  assert (m' = m) as -> by congruence. clear Hm'. rewrite locs_cons in *.
  set (ls := (g_last g).1) in *. apply list.NoDup_app in Hnd as (Hnd1 & Hdis & [Hls Hnd2]%list.NoDup_cons).
  assert (Hlne : ls <> l) by (intros ->; apply Hnew; memb).
  cbn [store_receive]. cbn [heap set_heap]. rewrite lookup_insert_ne, Hm by done. cbn [mbind option_bind].
  set (s1 := set_heap _ _).
  assert (Hc1 : cursor_at s1 c pr (Some ls)).
  { destruct c as [|x]; [done|]. destruct (Hx x eq_refl) as [Hxl Hxn]. unfold cursor_at, s1. simpl.
    rewrite !lookup_insert_ne by (congruence || (intros ->; apply Hxn; memb)). done. }
  destruct (cursor_store s1 c _ _ (Some l) Hc1) as [_ ->]. eexists. split; [done|].
  assert (Hf1 : forall x, x <> l -> x <> ls -> heap s1 !! x = heap s !! x).
  { intros x ??. unfold s1. simpl. by rewrite !lookup_insert_ne. }
  assert (Hcn : forall x, x = l \/ x ∈ (g_body g).*1 ++ ls :: locs gs -> c <> PNext x).
  { intros x Hin ->. destruct (Hx x eq_refl). by destruct Hin. }
  eapply cursor_set_inserted; try done.
  - assert (Hb : forall x, x ∈ (g_body g).*1 -> heap s1 !! x = heap s !! x).
    { intros x Hin. apply Hf1; intros ->; [apply Hnew; memb|]. by eapply Hdis; [|left]. }
    cbn [linked g_prio g_body g_last fst snd]. split; [|split; [done|]].
    + unfold g_members. rewrite (surjective_pairing (g_last g)). fold ls. rewrite <- Hcont.
      eapply (segment_snoc _ _ _ _ _ (Message (Some l) (next_send m) (priority m) (contents m))).
      * eapply segment_frame; [|rewrite <- Hg; exact Hseg].
        intros x Hin. rewrite cursor_set_lookup; [by apply Hb|]. apply Hcn. memb.
      * rewrite cursor_set_lookup by (apply Hcn; memb). unfold s1. simpl. by rewrite lookup_insert_eq.
      * simpl. congruence.
    + eexists. rewrite cursor_set_lookup by (apply Hcn; by left). unfold s1 at 1. simpl.
      rewrite lookup_insert_ne, lookup_insert_eq by done. split; [done|]. split; [done|]. split; [done|]. simpl.
      eapply linked_frame; [|done]. intros x Hin.
      rewrite cursor_set_lookup by (apply Hcn; memb). apply Hf1; intros ->; [|done].
      apply Hnew. memb.
  - unfold s1. simpl. rewrite !dom_insert_L. assert (ls ∈ dom (heap s)) by by eapply elem_of_dom_2. set_solver.
  - intros x Hxl Hxn. apply Hf1; [done|]. intros ->. apply Hxn. memb.
Qed.

Lemma send_insert_ok gs fuel s c pr ps l prio msg :
  cursor_at s c pr ps -> linked (heap s) pr ps gs -> NoDup (locs gs) -> l ∉ locs gs ->
  (forall x, c = PNext x -> x <> l /\ x ∉ locs gs) -> (length gs < fuel)%nat ->
  exists s', mq_send_insert fuel s c c l msg prio = Some s' /\
    inserted s s' c l (locs gs) (g_insert l prio msg gs).
Proof.
  revert fuel s c pr ps. induction gs as [|g gs IH]; intros fuel s c pr ps Hc Hl Hnd Hnew Hx Hf;
    destruct fuel as [|fuel]; try lia; cbn [mq_send_insert].
  - destruct Hl as [-> ->]. rewrite (proj2 Hc), (proj1 Hc). cbn [mbind option_bind g_insert].
    by apply (insert_first_ok s c None None).
  - pose proof Hl as (Hseg & -> & m & Hm & Hp & Hcont & Hl').
    rewrite (proj2 Hc), (proj1 Hc). cbn [mbind option_bind g_insert]. rewrite Hm. cbn [mbind option_bind].
    rewrite Hp. destruct (Z.leb_spec (g_prio g) prio); [destruct (Z.eqb_spec (g_prio g) prio)|].
    + by eapply insert_same_ok.
    + by eapply (insert_first_ok s c pr).
    + rewrite locs_cons in *. apply list.NoDup_app in Hnd as (Hnd1 & Hdis & [Hls Hnd2]%list.NoDup_cons).
      destruct (IH fuel s (PNext (g_last g).1) (next_receive m) (next_send m)) as (s' & -> & Hins);
        [apply cursor_at_next; eauto|done|done|memb| |simpl in Hf; lia|].
      { intros x [= <-]. split; [|done]. intros E. apply Hnew. rewrite <- E. memb. }
      exists s'. split; [done|]. destruct Hins as [(pr' & ps' & Hc' & Hlk) Ha Hd Hfr Hb Hq].
      assert (Hcs : cursor_at s' c pr (Some (g_last g).1)).
      { destruct c as [|x]; [destruct (Hq ltac:(done)) as [E1 E2]; unfold cursor_at in *; simpl in *; by rewrite E1, E2|].
        destruct (Hx x eq_refl). unfold cursor_at in *. simpl in *. rewrite Hfr; [done|done|memb|].
        intros [= <-]. memb. }
      destruct (Hb _ _ eq_refl Hm) as (m' & Hm' & Hp' & Hcont').
      apply cursor_at_next in Hc' as (m2 & Hm2 & <- & <-). assert (m2 = m') as -> by congruence.
      split; try done.
      * exists pr, (Some (g_last g).1). split; [done|]. split; [|split; [done|]].
        -- eapply segment_frame; [|done]. intros x Hin. apply Hfr.
           ++ intros ->. apply Hnew. memb.
           ++ intros Hin'. eapply Hdis; [done|]. by right.
           ++ intros [= <-]. eapply Hdis; [done|]. by left.
        -- exists m'. split; [done|]. split; [congruence|]. split; [congruence|]. done.
      * intros x ? Hxn ?. apply Hfr; [done|memb|]. intros [= <-]. apply Hxn. memb.
      * intros x m3 -> Hm3. exists m3. destruct (Hx x eq_refl) as [? Hxn]. rewrite Hfr; [done|done|memb|].
        intros [= <-]. apply Hxn. memb.
      * intros _. by apply Hq.
Qed.

(** ** The operations refine the abstract queue *)

Lemma length_queue_of gs : length (queue_of gs) = length (locs gs).
Proof.
  induction gs as [|g gs IH]; [done|]. rewrite queue_of_cons, locs_cons.
  unfold g_queue, g_members. rewrite !length_app, !length_fmap, length_app, IH. simpl. lia.
Qed.

Lemma groups_fuel s gs : mq_repr s gs -> (length gs < S (size (heap s)))%nat.
Proof.
  intros [_ Hnd Hd _ _]. rewrite <- size_dom, Hd, size_list_to_set by done.
  clear. induction gs as [|g gs IH]; [simpl; lia|]. rewrite locs_cons, length_app. simpl in *. lia.
Qed.

(** The queue's attributes other than the number of messages. *)
Definition same_config (a b : mq_attr) : Prop :=
  mq_flags a = mq_flags b /\ mq_maxmsg a = mq_maxmsg b /\ mq_msgsize a = mq_msgsize b.

Lemma mq_send_post_ok s gs l msg prio :
  mq_repr s gs -> heap s !! l = None ->
  exists s', mq_send_post s (Some l) msg prio = Some (true, s') /\
    mq_repr s' (g_insert l prio msg gs) /\ same_config (attr s') (attr s).
Proof.
  intros Hr Hl. pose proof (groups_fuel _ _ Hr) as Hf. destruct Hr as [Hlk Hnd Hd Hdesc Hcnt].
  assert (Hnew : l ∉ locs gs).
  { apply not_elem_of_dom in Hl. rewrite Hd in Hl. by rewrite elem_of_list_to_set in Hl. }
  destruct (send_insert_ok gs _ s PQueue _ _ l prio msg (conj eq_refl eq_refl) Hlk Hnd Hnew ltac:(done) Hf)
    as (s' & Hs' & [(pr & ps & [Hpr Hps] & Hlk') Ha Hd' _ _ _]).
  unfold mq_send_post. rewrite Hs'. eexists. split; [done|]. simpl in Hpr, Hps.
  injection Hpr as <-. injection Hps as <-. split; [|by rewrite <- Ha].
  split; cbn [heap queue_receive queue_send attr set_curmsgs mq_curmsgs].
  - done.
  - rewrite locs_insert. by apply list.NoDup_cons.
  - rewrite Hd', Hd, locs_insert. done.
  - by apply descending_insert.
  - rewrite Ha, locs_insert, Hcnt. cbn [length]. lia.
Qed.

Lemma mq_receive_post_ok s gs p c q :
  mq_repr s gs -> queue_of gs = (p, c) :: q ->
  exists s' gs', mq_receive_post s = Some (p, c, s') /\ mq_repr s' gs' /\ queue_of gs' = q /\
    same_config (attr s') (attr s).
Proof.
  intros [Hlk Hnd Hd Hdesc Hcnt] Hq. destruct gs as [|g gs]; [done|]. rewrite queue_of_cons in Hq.
  destruct g as [prio [|[l0 c0] body] [l1 c1]]; rewrite locs_cons in *; unfold mq_receive_post.
  - (* the only message of its priority *)
    destruct Hlk as (Hpr & Hps & m & Hm & Hp & Hc & Hlk). simpl in *.
    injection Hq as <- <- <-.
    rewrite Hpr. cbn [mbind option_bind]. rewrite Hm. cbn [mbind option_bind queue_send set_curmsgs].
    rewrite decide_True by done. eexists _, gs. rewrite Hp, Hc. split; [done|].
    apply list.NoDup_cons in Hnd as [Hn Hnd].
    split; [|done]. split; cbn [heap queue_receive queue_send attr set_heap set_curmsgs mq_curmsgs].
    + eapply linked_frame; [|done]. intros x Hx. apply lookup_delete_ne. congruence.
    + done.
    + rewrite dom_delete_L, Hd. set_solver.
    + apply Hdesc.
    + lia.
  - (* more of them follow *)
    destruct Hlk as ((Hpr & m0 & Hm0 & Hp0 & Hc0 & Hseg) & Hps & m & Hm & Hp & Hc & Hlk). simpl in *.
    injection Hq as <- <- <-.
    apply list.NoDup_cons in Hnd as [Hn Hnd].
    rewrite Hpr. cbn [mbind option_bind]. rewrite Hm0. cbn [mbind option_bind queue_send set_curmsgs].
    rewrite decide_False by (rewrite Hps; intros [= ->]; memb).
    eexists _, (Group prio body (l1, c1) :: gs). rewrite Hp0, Hc0. split; [done|].
    split; [|done]. split; cbn [heap queue_receive queue_send attr set_heap set_curmsgs mq_curmsgs].
    + split; [|split; [done|]]; cbn [g_prio g_body g_last fst snd].
      * eapply segment_frame; [|done]. intros x Hx. apply lookup_delete_ne. intros ->. memb.
      * exists m. rewrite lookup_delete_ne by (intros ->; memb). repeat (split; [done|]).
        eapply linked_frame; [|done]. intros x Hx. apply lookup_delete_ne. intros ->. memb.
    + by rewrite locs_cons.
    + rewrite locs_cons. cbn [g_body g_last fst]. rewrite dom_delete_L, Hd. set_solver.
    + done.
    + rewrite locs_cons. cbn [g_body g_last fst]. unfold fmap. lia.
Qed.

(** mq_destroy frees every message exactly once. *)
Lemma mq_destroy_segment h prio p body q :
  segment h prio p body q -> NoDup (body.*1) ->
  exists h', dom h' = dom h ∖ list_to_set (body.*1) /\ (forall x, x ∉ body.*1 -> h' !! x = h !! x) /\
    forall fuel, (length body <= fuel)%nat ->
      mq_destroy_loop fuel h p = mq_destroy_loop (fuel - length body) h' q.
Proof.
  revert h p. induction body as [|[l c] body IH]; intros h p; simpl.
  - intros -> _. exists h. split; [set_solver|]. split; [done|]. intros fuel _. by rewrite Nat.sub_0_r.
  - intros (-> & m & Hm & ? & ? & Hs) [Hn Hnd]%list.NoDup_cons.
    destruct (IH (delete l h) (next_receive m)) as (h' & Hd & Hf & Hloop); [|done|].
    { eapply segment_frame; [|done]. intros x Hx. apply lookup_delete_ne. by intros ->. }
    exists h'. split; [rewrite Hd, dom_delete_L; set_solver|]. split.
    + intros x Hx. rewrite Hf by memb. apply lookup_delete_ne. intros ->. memb.
    + intros [|fuel] Hfuel; [lia|]. simpl. rewrite Hm. simpl. apply Hloop. lia.
Qed.

Lemma mq_destroy_linked gs h pr ps fuel :
  linked h pr ps gs -> NoDup (locs gs) -> dom h = list_to_set (locs gs) ->
  (length (locs gs) < fuel)%nat -> mq_destroy_loop fuel h pr = Some ∅.
Proof.
  revert h pr ps fuel. induction gs as [|g gs IH]; intros h pr ps fuel Hl Hnd Hd Hf.
  - destruct Hl as [-> _]. apply dom_empty_iff_L in Hd as ->. by destruct fuel.
  - destruct Hl as (Hseg & -> & m & Hm & Hp & Hc & Hl). rewrite locs_cons in *.
    apply list.NoDup_app in Hnd as (Hnd1 & Hdis & [Hls Hnd2]%list.NoDup_cons).
    destruct (mq_destroy_segment _ _ _ _ _ Hseg Hnd1) as (h' & Hd' & Hf' & Hloop).
    rewrite length_app, length_fmap in Hf. cbn [length] in Hf. rewrite Hloop by lia.
    destruct (fuel - length (g_body g))%nat as [|fuel'] eqn:E; [lia|]. simpl.
    rewrite Hf', Hm by (intros Hin; eapply Hdis; [done|by left]). cbn [mbind option_bind].
    eapply (IH _ _ (next_send m)); [|done| |lia].
    + eapply linked_frame; [|done]. intros x Hx. rewrite lookup_delete_ne by congruence.
      apply Hf'. intros Hin. eapply Hdis; [done|by right].
    + rewrite dom_delete_L, Hd', Hd. apply set_eq. intros x.
      rewrite !elem_of_difference, elem_of_singleton, !elem_of_list_to_set, elem_of_app, elem_of_cons.
      split; [tauto|]. intros HB. split; [split; [by right; right|]|].
      * intros HA. eapply Hdis; [done|by right].
      * by intros ->.
Qed.

(** [s] holds the messages [q], the next to be received first. *)
Definition mq_abs (s : mqd) (q : pqueue) : Prop := exists gs, mq_repr s gs /\ queue_of gs = q.

(** ** Threads

    mq_send and mq_receive, with the timed variants, as the critical sections
    they consist of.  A thread that waits on a condition variable has released
    the mutex; one that was woken must take it again and test its condition
    again; one that has unlocked after changing the queue still has to signal. *)

Inductive outcome :=
  | Sent
  | Received (prio : Z) (msg : list Z)
  | Failed (errno : Z)
  | NoMemory.

Inductive thread :=
  | Sending (timed : bool) (msg : list Z) (prio : Z)
  | SendWaiting (timed : bool) (msg : list Z) (prio : Z)
  | SendWoken (timed : bool) (msg : list Z) (prio : Z)
  | SignalReceive
  | Receiving (timed : bool) (msg_len : Z)
  | ReceiveWaiting (timed : bool)
  | ReceiveWoken (timed : bool)
  | SignalSend (prio : Z) (msg : list Z)
  | Finished (o : outcome).

(** The loop test and what follows it, with the mutex held. *)
Definition mq_send_section (s : mqd) (fresh : option loc) (timed : bool) (msg : list Z) (prio : Z)
  : option (mqd * thread) :=
  if mq_maxmsg (attr s) <=? mq_curmsgs (attr s) then Some (s, SendWaiting timed msg prio)
  else
    '(ok, s) ← mq_send_post s fresh msg prio;
    Some (s, if (ok : bool) then SignalReceive else Finished NoMemory).

Definition mq_send (s : mqd) (fresh : option loc) (timed : bool) (msg : list Z) (prio : Z)
  : option (mqd * thread) :=
  match mq_send_pre s (Z.of_nat (length msg)) with
  | Some e => Some (s, Finished (Failed e))
  | None => mq_send_section s fresh timed msg prio
  end.

Definition mq_receive_section (s : mqd) (timed : bool) : option (mqd * thread) :=
  if mq_curmsgs (attr s) <=? 0 then Some (s, ReceiveWaiting timed)
  else '(prio, msg, s) ← mq_receive_post s; Some (s, SignalSend prio msg).

Definition mq_receive (s : mqd) (timed : bool) (msg_len : Z) : option (mqd * thread) :=
  match mq_receive_pre s msg_len with
  | Some e => Some (s, Finished (Failed e))
  | None => mq_receive_section s timed
  end.

(** The critical section a thread is about to enter, if any. *)
Definition run_thread (s : mqd) (fresh : option loc) (t : thread) : option (mqd * thread) :=
  match t with
  | Sending timed msg prio => mq_send s fresh timed msg prio
  | SendWoken timed msg prio => mq_send_section s fresh timed msg prio
  | Receiving timed msg_len => mq_receive s timed msg_len
  | ReceiveWoken timed => mq_receive_section s timed
  | _ => None
  end.

(** What the section did to the queue. *)
Inductive event := EvSend (prio : Z) (msg : list Z) | EvReceive (prio : Z) (msg : list Z).

Definition event_of (t t' : thread) : list event :=
  match t, t' with
  | (Sending _ msg prio | SendWoken _ msg prio), SignalReceive => [EvSend prio msg]
  | _, SignalSend prio msg => [EvReceive prio msg]
  | _, _ => []
  end.

Record system := System { squeue : mqd; sthreads : list thread }.

Definition is_receive_waiting (t : thread) : bool :=
  match t with ReceiveWaiting _ => true | _ => false end.
Definition is_send_waiting (t : thread) : bool :=
  match t with SendWaiting _ _ _ => true | _ => false end.
Definition will_receive (t : thread) : bool :=
  match t with SignalReceive | ReceiveWoken _ => true | _ => false end.
Definition will_send (t : thread) : bool :=
  match t with SignalSend _ _ | SendWoken _ _ _ => true | _ => false end.

Fixpoint count (P : thread -> bool) (ts : list thread) : Z :=
  match ts with [] => 0 | t :: ts => Z.b2z (P t) + count P ts end.

(** [mem] says whether malloc succeeds in every step. *)
Inductive mq_step (mem : bool) : system -> list event -> system -> Prop :=
  | step_call q ts t :
      match t with Sending _ _ _ | Receiving _ _ => True | _ => False end ->
      mq_step mem (System q ts) [] (System q (ts ++ [t]))
  | step_run q ts i t fresh q' t' :
      ts !! i = Some t -> (forall l, fresh = Some l -> heap q !! l = None) ->
      (mem = true -> fresh <> None) ->
      run_thread q fresh t = Some (q', t') ->
      mq_step mem (System q ts) (event_of t t') (System q' (<[i := t']> ts))
  | step_signal_receive q ts i j timed :
      ts !! i = Some SignalReceive -> ts !! j = Some (ReceiveWaiting timed) ->
      mq_step mem (System q ts) [] (System q (<[j := ReceiveWoken timed]> (<[i := Finished Sent]> ts)))
  | step_signal_receive_none q ts i :
      ts !! i = Some SignalReceive -> count is_receive_waiting ts = 0 ->
      mq_step mem (System q ts) [] (System q (<[i := Finished Sent]> ts))
  | step_signal_send q ts i p c j timed msg prio :
      ts !! i = Some (SignalSend p c) -> ts !! j = Some (SendWaiting timed msg prio) ->
      mq_step mem (System q ts) []
        (System q (<[j := SendWoken timed msg prio]> (<[i := Finished (Received p c)]> ts)))
  | step_signal_send_none q ts i p c :
      ts !! i = Some (SignalSend p c) -> count is_send_waiting ts = 0 ->
      mq_step mem (System q ts) [] (System q (<[i := Finished (Received p c)]> ts))
  | step_spurious_receive q ts j timed :
      ts !! j = Some (ReceiveWaiting timed) ->
      mq_step mem (System q ts) [] (System q (<[j := ReceiveWoken timed]> ts))
  | step_spurious_send q ts j timed msg prio :
      ts !! j = Some (SendWaiting timed msg prio) ->
      mq_step mem (System q ts) [] (System q (<[j := SendWoken timed msg prio]> ts))
  | step_timeout q ts j t e :
      ts !! j = Some t ->
      match t with ReceiveWaiting true | SendWaiting true _ _ => True | _ => False end ->
      mq_step mem (System q ts) [] (System q (<[j := Finished (Failed e)]> ts))
  | step_setattr q ts flags q' old :
      mq_setattr q flags = inl (q', old) ->
      mq_step mem (System q ts) [] (System q' ts).

Inductive mq_steps (mem : bool) : system -> list event -> system -> Prop :=
  | steps_refl s : mq_steps mem s [] s
  | steps_snoc s es s1 e s2 : mq_steps mem s es s1 -> mq_step mem s1 e s2 -> mq_steps mem s (es ++ e) s2.

(** The history replayed on the abstract queue. *)
Definition pq_event (q : option pqueue) (e : event) : option pqueue :=
  q ← q;
  match e with
  | EvSend prio msg => Some (pq_insert (prio, msg) q)
  | EvReceive prio msg =>
      match q with
      | (p, c) :: q => if decide (p = prio /\ c = msg) then Some q else None
      | [] => None
      end
  end.

Definition replay (es : list event) : option pqueue := foldl pq_event (Some []) es.

(** ** Invariants *)

Lemma count_nonneg P ts : 0 <= count P ts.
Proof. induction ts as [|t ts IH]; simpl; [lia|]. destruct (P t); simpl; lia. Qed.

Lemma count_insert P ts i t t' :
  ts !! i = Some t -> count P (<[i := t']> ts) = count P ts - Z.b2z (P t) + Z.b2z (P t').
Proof.
  revert i. induction ts as [|t0 ts IH]; intros [|i] Hi; simpl in *; try done.
  - injection Hi as ->. lia.
  - rewrite (IH i Hi). lia.
Qed.

Lemma count_app P ts t : count P (ts ++ [t]) = count P ts + Z.b2z (P t).
Proof. induction ts as [|t0 ts IH]; simpl; lia. Qed.

Lemma mq_abs_count s q : mq_abs s q -> mq_curmsgs (attr s) = Z.of_nat (length q).
Proof. intros (gs & Hr & <-). rewrite length_queue_of. apply Hr. Qed.

(** What one critical section does. *)
Record section_ok (mem : bool) (q q' : mqd) (q0 q1 : pqueue) (t t' : thread) : Prop := {
  sec_abs : mq_abs q' q1;
  sec_event : foldl pq_event (Some q0) (event_of t t') = Some q1;
  sec_config : same_config (attr q') (attr q);
  sec_cap : mq_curmsgs (attr q') <= mq_maxmsg (attr q);
  sec_not_waiting : is_receive_waiting t = false /\ is_send_waiting t = false;
  sec_receive : if is_receive_waiting t' then mq_curmsgs (attr q') = 0
    else mq_curmsgs (attr q') - mq_curmsgs (attr q) <= Z.b2z (will_receive t') - Z.b2z (will_receive t);
  sec_send : if is_send_waiting t' then mq_curmsgs (attr q') = mq_maxmsg (attr q)
    else mem = true ->
      mq_curmsgs (attr q) - mq_curmsgs (attr q') <= Z.b2z (will_send t') - Z.b2z (will_send t)
}.

Lemma same_config_refl a : same_config a a.
Proof. done. Qed.

Lemma send_section_ok mem q q0 fresh timed msg prio t :
  mq_abs q q0 -> mq_curmsgs (attr q) <= mq_maxmsg (attr q) ->
  (forall l, fresh = Some l -> heap q !! l = None) -> (mem = true -> fresh <> None) ->
  t = Sending timed msg prio \/ t = SendWoken timed msg prio ->
  exists q' t' q1, mq_send_section q fresh timed msg prio = Some (q', t') /\
    section_ok mem q q' q0 q1 t t'.
Proof.
  intros Habs Hcap Hfresh Hmem Ht. unfold mq_send_section.
  pose proof (mq_abs_count _ _ Habs) as Hc.
  destruct (Z.leb_spec (mq_maxmsg (attr q)) (mq_curmsgs (attr q))).
  - exists q, (SendWaiting timed msg prio), q0. split; [done|].
    destruct Ht as [-> | ->]; split; simpl; try done; intros; lia.
  - destruct fresh as [l|].
    + destruct Habs as (gs & Hr & <-).
      destruct (mq_send_post_ok q gs l msg prio Hr (Hfresh l eq_refl)) as (s' & -> & Hr' & Hcfg).
      exists s', SignalReceive, (pq_insert (prio, msg) (queue_of gs)). split; [done|].
      assert (Habs' : mq_abs s' (pq_insert (prio, msg) (queue_of gs))).
      { eexists. split; [exact Hr'|]. apply queue_of_insert, Hr. }
      assert (Hc' : mq_curmsgs (attr s') = mq_curmsgs (attr q) + 1).
      { rewrite (repr_count _ _ Hr'), (repr_count _ _ Hr), locs_insert. cbn [length]. lia. }
      destruct Ht as [-> | ->]; split; simpl; try done; intros; lia.
    + exists q, (Finished NoMemory), q0. split; [done|].
      destruct mem; [by destruct Hmem|].
      destruct Ht as [-> | ->]; split; simpl; try done; intros; lia.
Qed.

Lemma receive_section_ok mem q q0 timed t :
  mq_abs q q0 -> mq_curmsgs (attr q) <= mq_maxmsg (attr q) ->
  (exists len, t = Receiving timed len) \/ t = ReceiveWoken timed ->
  exists q' t' q1, mq_receive_section q timed = Some (q', t') /\ section_ok mem q q' q0 q1 t t'.
Proof.
  intros Habs Hcap Ht. unfold mq_receive_section.
  pose proof (mq_abs_count _ _ Habs) as Hc.
  destruct (Z.leb_spec (mq_curmsgs (attr q)) 0).
  - exists q, (ReceiveWaiting timed), q0. split; [done|].
    destruct Ht as [[len ->] | ->]; split; simpl; try done; intros; lia.
  - destruct q0 as [|[p c] q0]; [simpl in Hc; lia|]. destruct Habs as (gs & Hr & Hq).
    destruct (mq_receive_post_ok q gs p c q0 Hr Hq) as (s' & gs' & -> & Hr' & Hq' & Hcfg).
    exists s', (SignalSend p c), q0. split; [done|].
    assert (Habs' : mq_abs s' q0) by by exists gs'.
    assert (Hc' : mq_curmsgs (attr s') = mq_curmsgs (attr q) - 1).
    { rewrite (mq_abs_count _ _ Habs'), Hc. cbn [length]. lia. }
    destruct Ht as [[len ->] | ->]; split; simpl; rewrite ?decide_True by done; try done; intros; lia.
Qed.

Lemma run_thread_ok mem q q0 fresh t q' t' :
  mq_abs q q0 -> mq_curmsgs (attr q) <= mq_maxmsg (attr q) ->
  (forall l, fresh = Some l -> heap q !! l = None) -> (mem = true -> fresh <> None) ->
  run_thread q fresh t = Some (q', t') ->
  exists q1, section_ok mem q q' q0 q1 t t'.
Proof.
  intros Habs Hcap Hfresh Hmem Hrun.
  assert (Hfail : forall e, (exists timed msg prio, t = Sending timed msg prio) \/
    (exists timed len, t = Receiving timed len) -> Some (q, Finished (Failed e)) = Some (q', t') ->
    exists q1, section_ok mem q q' q0 q1 t t').
  { intros e Ht [= <- <-]. exists q0.
    destruct Ht as [(? & ? & ? & ->)|(? & ? & ->)]; split; simpl; try done; intros; lia. }
  destruct t as [timed msg prio| |timed msg prio| |timed len| |timed| |]; simpl in Hrun; try done.
  - unfold mq_send in Hrun. destruct (mq_send_pre _ _) as [e|]; [by eapply Hfail; eauto 10|].
    destruct (send_section_ok mem q q0 fresh timed msg prio (Sending timed msg prio)) as (? & ? & q1 & E & ?);
      try done; [by left|]. exists q1. congruence.
  - destruct (send_section_ok mem q q0 fresh timed msg prio (SendWoken timed msg prio)) as (? & ? & q1 & E & ?);
      try done; [by right|]. exists q1. congruence.
  - unfold mq_receive in Hrun. destruct (mq_receive_pre _ _) as [e|]; [by eapply Hfail; eauto 10|].
    destruct (receive_section_ok mem q q0 timed (Receiving timed len)) as (? & ? & q1 & E & ?);
      try done; [by left; exists len|]. exists q1. congruence.
  - destruct (receive_section_ok mem q q0 timed (ReceiveWoken timed)) as (? & ? & q1 & E & ?);
      try done; [by right|]. exists q1. congruence.
Qed.

Record mq_inv (mem : bool) (s : system) (es : list event) : Prop := {
  inv_abs : exists q, mq_abs (squeue s) q /\ replay es = Some q;
  inv_cap : mq_curmsgs (attr (squeue s)) <= mq_maxmsg (attr (squeue s));
  inv_receive : 0 < count is_receive_waiting (sthreads s) ->
    mq_curmsgs (attr (squeue s)) <= count will_receive (sthreads s);
  inv_send : mem = true -> 0 < count is_send_waiting (sthreads s) ->
    mq_maxmsg (attr (squeue s)) - mq_curmsgs (attr (squeue s)) <= count will_send (sthreads s)
}.

Lemma replay_snoc es e q : replay es = Some q -> replay (es ++ e) = foldl pq_event (Some q) e.
Proof. intros H. unfold replay in *. by rewrite foldl_app, H. Qed.

(** A step that changes only threads. *)
Lemma mq_inv_threads mem q ts ts' es :
  mq_inv mem (System q ts) es ->
  (0 < count is_receive_waiting ts' ->
   0 < count is_receive_waiting ts /\ count will_receive ts <= count will_receive ts') ->
  (0 < count is_send_waiting ts' ->
   0 < count is_send_waiting ts /\ count will_send ts <= count will_send ts') ->
  mq_inv mem (System q ts') (es ++ []).
Proof.
  intros [Habs Hcap Hr Hs] H1 H2. rewrite app_nil_r. simpl in *. split; simpl; try done.
  - intros [? ?]%H1. specialize (Hr ltac:(done)). lia.
  - intros ? [? ?]%H2. specialize (Hs ltac:(done) ltac:(done)). lia.
Qed.

Lemma mq_inv_run mem q ts es i t fresh q' t' :
  mq_inv mem (System q ts) es -> ts !! i = Some t ->
  (forall l, fresh = Some l -> heap q !! l = None) -> (mem = true -> fresh <> None) ->
  run_thread q fresh t = Some (q', t') ->
  mq_inv mem (System q' (<[i := t']> ts)) (es ++ event_of t t').
Proof.
  intros [(q0 & Habs & Hrep) Hcap Hr Hs] Hi Hfresh Hmem Hrun. simpl in *.
  destruct (run_thread_ok mem q q0 fresh t q' t' Habs Hcap Hfresh Hmem Hrun)
    as (q1 & [Habs' Hev (_ & Hmax & _) Hcap' [Hw1 Hw2] Hrecv Hsend]).
  split; simpl.
  - exists q1. split; [done|]. by rewrite (replay_snoc _ _ q0).
  - lia.
  - rewrite !(count_insert _ _ _ _ _ Hi), Hw1. intros Hpos.
    pose proof (count_nonneg will_receive (<[i := t']> ts)) as Hnn.
    rewrite (count_insert _ _ _ _ _ Hi) in Hnn.
    destruct (is_receive_waiting t'); simpl in *; [lia|]. specialize (Hr ltac:(lia)). lia.
  - rewrite !(count_insert _ _ _ _ _ Hi), Hw2. intros Hm Hpos.
    pose proof (count_nonneg will_send (<[i := t']> ts)) as Hnn.
    rewrite (count_insert _ _ _ _ _ Hi) in Hnn.
    destruct (is_send_waiting t'); simpl in *; [lia|]. specialize (Hs Hm ltac:(lia)).
    specialize (Hsend Hm). lia.
Qed.

Lemma mq_inv_step mem s es e s' : mq_inv mem s es -> mq_step mem s e s' -> mq_inv mem s' (es ++ e).
Proof.
  intros Hinv Hstep.
  destruct Hstep as [q ts t Ht|q ts i t fresh q' t' Hi Hfr Hm Hrun|q ts i j timed Hi Hj|q ts i Hi H0
    |q ts i p c j timed msg prio Hi Hj|q ts i p c Hi H0|q ts j timed Hj|q ts j timed msg prio Hj
    |q ts j t e Hj Ht|q ts flags q' old Hset].
  - eapply mq_inv_threads; [done| |]; rewrite !count_app; destruct t; simpl; try done; lia.
  - by eapply mq_inv_run.
  - assert (Hij : i <> j) by congruence.
    assert (Hj' : <[i := Finished Sent]> ts !! j = Some (ReceiveWaiting timed))
      by by rewrite list_lookup_insert_ne.
    eapply mq_inv_threads; [done| |]; rewrite !(count_insert _ _ _ _ _ Hj'), !(count_insert _ _ _ _ _ Hi);
      simpl; lia.
  - eapply mq_inv_threads; [done| |]; rewrite !(count_insert _ _ _ _ _ Hi); simpl; lia.
  - assert (Hij : i <> j) by congruence.
    assert (Hj' : <[i := Finished (Received p c)]> ts !! j = Some (SendWaiting timed msg prio))
      by by rewrite list_lookup_insert_ne.
    eapply mq_inv_threads; [done| |]; rewrite !(count_insert _ _ _ _ _ Hj'), !(count_insert _ _ _ _ _ Hi);
      simpl; lia.
  - eapply mq_inv_threads; [done| |]; rewrite !(count_insert _ _ _ _ _ Hi); simpl; lia.
  - eapply mq_inv_threads; [done| |]; rewrite !(count_insert _ _ _ _ _ Hj); simpl; lia.
  - eapply mq_inv_threads; [done| |]; rewrite !(count_insert _ _ _ _ _ Hj); simpl; lia.
  - eapply mq_inv_threads; [done| |]; rewrite !(count_insert _ _ _ _ _ Hj);
      destruct t as [| [] | | | | [] | | |]; simpl in *; try done; lia.
  - rewrite app_nil_r. destruct Hinv as [(q0 & (gs & [] & Hq) & Hrep) Hcap Hr Hs].
    unfold mq_setattr in Hset. destruct (negb _); [done|]. injection Hset as <- <-.
    split; try done. exists q0. split; [|done]. exists gs. done.
Qed.

Lemma mq_inv_init mem a q : mq_init a = inl q -> mq_inv mem (System q []) [].
Proof.
  unfold mq_init. destruct (_ || _ || _) eqn:E; [done|]. intros [= <-].
  apply orb_false_iff in E as [[_ E2]%orb_false_iff _]. zprop.
  split; simpl; try lia. exists []. split; [|done]. exists []. split; [|done].
  by split; try constructor.
Qed.

Lemma mq_inv_steps mem s es s' :
  mq_inv mem s [] -> mq_steps mem s es s' -> mq_inv mem s' es.
Proof. intros Hi. induction 1 as [|s es s1 e s2 _ IH Hs]; [done|]. by eapply mq_inv_step; [apply IH|]. Qed.

(** ** Properties *)

(** C9: linearizability.  However the threads are scheduled, woken
    spuriously, timed out or refused memory, and however O_NONBLOCK is
    switched meanwhile, the queue never exceeds its capacity, every pointer it
    follows is valid, and the messages it holds are exactly those of a stable
    priority queue after the same insertions and removals in the order in
    which the critical sections ran; each message received was that queue's
    first.  A thread that has to enter its critical section always can, and
    mq_destroy then frees every remaining message exactly once. *)
Theorem mq_linearizable (a : mq_attr) (q0 : mqd) (mem : bool) (es : list event) (s : system)
  (Hinit : mq_init a = inl q0) (Hsteps : mq_steps mem (System q0 []) es s) :
  (exists q, replay es = Some q /\ mq_abs (squeue s) q /\
     mq_curmsgs (mq_getattr (squeue s)) = Z.of_nat (length q) /\
     Z.of_nat (length q) <= mq_maxmsg (attr (squeue s))) /\
  (forall fresh t, (forall l, fresh = Some l -> heap (squeue s) !! l = None) ->
     match t with SendWaiting _ _ _ | ReceiveWaiting _ | SignalReceive | SignalSend _ _ | Finished _ => False
     | _ => True end -> is_Some (run_thread (squeue s) fresh t)) /\
  mq_destroy (squeue s) = Some ∅.
Proof.
  pose proof (mq_inv_steps _ _ _ _ (mq_inv_init mem a q0 Hinit) Hsteps) as [(q & Habs & Hrep) Hcap _ _].
  pose proof (mq_abs_count _ _ Habs) as Hc. split; [|split].
  - exists q. repeat (split; [done|]). lia.
  - intros fresh t Hfr Ht. destruct t as [timed msg prio| |timed msg prio| |timed len| |timed| |]; try done; simpl.
    + unfold mq_send. destruct (mq_send_pre _ _); [done|].
      by destruct (send_section_ok false (squeue s) q fresh timed msg prio (Sending timed msg prio))
        as (? & ? & ? & -> & _); try done; left.
    + by destruct (send_section_ok false (squeue s) q fresh timed msg prio (SendWoken timed msg prio))
        as (? & ? & ? & -> & _); try done; right.
    + unfold mq_receive. destruct (mq_receive_pre _ _); [done|].
      by destruct (receive_section_ok false (squeue s) q timed (Receiving timed len))
        as (? & ? & ? & -> & _); try done; left; exists len.
    + by destruct (receive_section_ok false (squeue s) q timed (ReceiveWoken timed))
        as (? & ? & ? & -> & _); try done; right.
  - destruct Habs as (gs & [Hlk Hnd Hd _ _] & _). unfold mq_destroy.
    eapply mq_destroy_linked; [done..|]. rewrite <- size_dom, Hd, size_list_to_set by done. lia.
Qed.

(** C10: no lost wakeups, as long as malloc does not fail.  Whenever a
    receiver waits, at most as many messages are queued as threads are on
    their way to receive or to signal one; whenever a sender waits, at most
    as many slots are free as threads are on their way to fill or to announce
    one.  So when no thread is runnable, receivers wait only on an empty queue
    and senders only on a full one. *)
Theorem mq_no_lost_wakeup (a : mq_attr) (q0 : mqd) (es : list event) (s : system)
  (Hinit : mq_init a = inl q0) (Hsteps : mq_steps true (System q0 []) es s) :
  let n := mq_curmsgs (attr (squeue s)) in
  (0 < count is_receive_waiting (sthreads s) -> n <= count will_receive (sthreads s)) /\
  (0 < count is_send_waiting (sthreads s) ->
     mq_maxmsg (attr (squeue s)) - n <= count will_send (sthreads s)) /\
  (count will_receive (sthreads s) = 0 -> count will_send (sthreads s) = 0 ->
     (0 < count is_receive_waiting (sthreads s) -> n = 0) /\
     (0 < count is_send_waiting (sthreads s) -> n = mq_maxmsg (attr (squeue s)))).
Proof.
  pose proof (mq_inv_steps _ _ _ _ (mq_inv_init true a q0 Hinit) Hsteps) as [(q & Habs & _) Hcap Hr Hs].
  pose proof (mq_abs_count _ _ Habs) as Hc. specialize (Hs eq_refl). simpl.
  split; [done|]. split; [done|]. intros E1 E2. rewrite E1 in Hr. rewrite E2 in Hs. split; intros H.
  - specialize (Hr H). lia.
  - specialize (Hs H). lia.
Qed.

(** With a failing malloc a wakeup is lost: the sender that was woken for the
    free slot gives up without passing the wakeup on.  Here a sender and a
    receiver both wait on the empty queue and no thread is left to wake
    either. *)
#[local] Definition demo_attr : mq_attr := MqAttr 0 1 8 0.
#[local] Definition demo_queue : mqd := Mqd demo_attr None None ∅.

Lemma steps_cons mem s e s1 es s2 :
  mq_step mem s e s1 -> mq_steps mem s1 es s2 -> mq_steps mem s (e ++ es) s2.
Proof.
  intros Hs. induction 1 as [s1|s1 es s2 e' s3 _ IH Hs'].
  - rewrite app_nil_r. apply (steps_snoc _ _ [] s e s1); [constructor|done].
  - rewrite app_assoc. by eapply steps_snoc; [apply IH|].
Qed.

#[local] Ltac mq_run i f :=
  eapply steps_cons; [eapply (step_run _ _ _ i _ f); [reflexivity| | |vm_compute; reflexivity];
    [by intros l [= <-]|done]|].

#[local] Ltac mq_call t := eapply steps_cons; [by apply (step_call _ _ _ t)|]; cbn [app].

Theorem mq_send_wakeup_lost :
  exists es s, mq_steps false (System demo_queue []) es s /\
    mq_curmsgs (attr (squeue s)) = 0 /\ mq_maxmsg (attr (squeue s)) = 1 /\
    0 < count is_send_waiting (sthreads s) /\ 0 < count is_receive_waiting (sthreads s) /\
    count will_send (sthreads s) = 0 /\ count will_receive (sthreads s) = 0.
Proof.
  do 2 eexists. split.
  - mq_call (Sending false [1] 0). mq_run 0%nat (Some 1%positive).
    eapply steps_cons; [by eapply (step_signal_receive_none _ _ _ 0)|].
    mq_call (Sending false [2] 0). mq_run 1%nat (@None loc).
    mq_call (Sending false [3] 0). mq_run 2%nat (@None loc).
    mq_call (Receiving false 8). mq_run 3%nat (@None loc).
    eapply steps_cons; [by eapply (step_signal_send _ _ _ 3 _ _ 1)|].
    mq_run 1%nat (@None loc).
    mq_call (Receiving false 8). mq_run 4%nat (@None loc).
    apply steps_refl.
  - by vm_compute.
Qed.

(** ** Witnesses *)

Lemma demo_steps : exists es s, mq_steps true (System demo_queue []) es s /\
  count is_receive_waiting (sthreads s) = 1 /\ es = [EvSend 7 [1]; EvReceive 7 [1]].
Proof.
  do 2 eexists. split.
  - mq_call (Sending false [1] 7). mq_run 0%nat (Some 1%positive).
    mq_call (Receiving false 8). mq_run 1%nat (Some 2%positive).
    mq_call (Receiving false 8). mq_run 2%nat (Some 2%positive).
    apply steps_refl.
  - by vm_compute.
Qed.

Lemma mq_linearizable_witness :
  exists s, mq_steps true (System demo_queue []) [EvSend 7 [1]; EvReceive 7 [1]] s /\
    mq_abs (squeue s) [] /\ mq_destroy (squeue s) = Some ∅.
Proof.
  destruct demo_steps as (es & s & Hs & _ & ->). exists s. split; [exact Hs|].
  destruct (mq_linearizable demo_attr demo_queue true _ s eq_refl Hs) as ((q & E & Habs & _) & _ & Hd).
  assert (q = []) as -> by (vm_compute in E; congruence). split; assumption.
Defined.

Lemma mq_no_lost_wakeup_witness :
  exists es s, mq_steps true (System demo_queue []) es s /\
    0 < count is_receive_waiting (sthreads s) /\
    mq_curmsgs (attr (squeue s)) <= count will_receive (sthreads s).
Proof.
  destruct demo_steps as (es & s & Hs & Hw & _). exists es, s. split; [exact Hs|].
  split; [lia|]. apply (mq_no_lost_wakeup demo_attr demo_queue es s eq_refl Hs). lia.
Defined.
