(* ===== verification/Sort.v ===== *)
(** * Sorting and searching arrays: qsort_r, bsearch, lfind, lsearch

    Sources: the inline functions of include/stdlib.h and include/search.h.

    An array of [nel] elements of [width] bytes is a list of [nel] elements,
    and a pointer into it is an element index; __qsort_swap over [width] (or a
    multiple of it) bytes exchanges elements.  An access outside the array the
    function was given is [None]. *)

From Stdlib Require Import Sorted.
From S2P Require Import Prelude.

#[local] Open Scope Z_scope.

Section Arrays.
  Context {A : Type} (cmp : A -> A -> Z).

Definition get (l : list A) (i : Z) : option A :=
  if i <? 0 then None else l !! Z.to_nat i.

Definition put (l : list A) (i : Z) (x : A) : list A := <[Z.to_nat i := x]> l.

Definition compare_at (l : list A) (i j : Z) : option Z :=
  x ← get l i; y ← get l j; Some (cmp x y).

(** __qsort_swap of one element. *)
Definition swap1 (l : list A) (i j : Z) : option (list A) :=
  x ← get l i; y ← get l j; Some (put (put l i y) j x).

(** __qsort_swap of [n] elements. *)
Fixpoint qsort_swap (l : list A) (i j : Z) (n : nat) : option (list A) :=
  match n with
  | O => Some l
  | S n => l ← swap1 l i j; qsort_swap l (i + 1) (j + 1) n
  end.

(** The inner loop of __qsort_insertionsort, for [pl] down to the start. *)
Fixpoint insertion_inner (l : list A) (pl : nat) : option (list A) :=
  match pl with
  | O => Some l
  | S pl' =>
      r ← compare_at l (Z.of_nat pl') (Z.of_nat pl);
      if 0 <? r then
        l ← swap1 l (Z.of_nat pl) (Z.of_nat pl'); insertion_inner l pl'
      else Some l
  end.

(** The outer loop: [k] more elements, the first of them at [pm]. *)
Fixpoint insertion_outer (l : list A) (pm k : nat) : option (list A) :=
  match k with
  | O => Some l
  | S k => l ← insertion_inner l pm; insertion_outer l (S pm) k
  end.

Definition qsort_insertionsort (l : list A) : option (list A) :=
  insertion_outer l 1 (length l - 1).

Definition qsort_med3 (l : list A) (a b c : Z) : option Z :=
  ab ← compare_at l a b;
  bc ← compare_at l b c;
  if ab <? 0 then
    if bc <? 0 then Some b
    else ac ← compare_at l a c; Some (if ac <? 0 then c else a)
  else
    if 0 <? bc then Some b
    else ac ← compare_at l a c; Some (if 0 <? ac then c else a).

Definition qsort_pickpivot (l : list A) : option Z :=
  let nel := Z.of_nat (length l) in
  let pl := 0 in
  let pm := nel / 2 in
  let pn := nel - 1 in
  if 40 <? nel then
    let s := nel / 8 in
    pl ← qsort_med3 l pl (pl + s) (pl + 2 * s);
    pm ← qsort_med3 l (pm - s) pm (pm + s);
    pn ← qsort_med3 l (pn - 2 * s) (pn - s) pn;
    qsort_med3 l pl pm pn
  else qsort_med3 l pl pm pn.

(** The two inner loops of the partitioning. *)
Fixpoint scan_up (fuel : nat) (l : list A) (pa pb pc : Z) : option (list A * Z * Z) :=
  match fuel with
  | O => None
  | S fuel =>
      if pb <=? pc then
        r ← compare_at l pb 0;
        if r <=? 0 then
          '(l, pa) ← (if r =? 0 then l ← swap1 l pa pb; Some (l, pa + 1) else Some (l, pa));
          scan_up fuel l pa (pb + 1) pc
        else Some (l, pa, pb)
      else Some (l, pa, pb)
  end.

Fixpoint scan_down (fuel : nat) (l : list A) (pb pc pd : Z) : option (list A * Z * Z) :=
  match fuel with
  | O => None
  | S fuel =>
      if pb <=? pc then
        r ← compare_at l pc 0;
        if 0 <=? r then
          '(l, pd) ← (if r =? 0 then l ← swap1 l pc pd; Some (l, pd - 1) else Some (l, pd));
          scan_down fuel l pb (pc - 1) pd
        else Some (l, pc, pd)
      else Some (l, pc, pd)
  end.

(** The loop around them. *)
Fixpoint partition (fuel : nat) (l : list A) (pa pb pc pd : Z)
  : option (list A * Z * Z * Z * Z) :=
  match fuel with
  | O => None
  | S fuel =>
      '(l, pa, pb) ← scan_up (S (length l)) l pa pb pc;
      '(l, pc, pd) ← scan_down (S (length l)) l pb pc pd;
      if pc <? pb then Some (l, pa, pb, pc, pd)
      else l ← swap1 l pb pc; partition fuel l pa (pb + 1) (pc - 1) pd
  end.

(** __qsort_quicksort up to its recursive calls: the rearranged array and
    the sizes of the two partitions left to sort. *)
Definition quicksort_split (l : list A) : option (list A * Z * Z) :=
  let nel := Z.of_nat (length l) in
  piv ← qsort_pickpivot l;
  l ← swap1 l 0 piv;
  '(l, pa, pb, pc, pd) ← partition (S (length l)) l 0 0 (nel - 1) (nel - 1);
  let s := Z.min pa (pb - pa) in
  l ← qsort_swap l 0 (pb - s) (Z.to_nat s);
  let s := Z.min (pd - pc) (nel - pd - 1) in
  l ← qsort_swap l pb (nel - s) (Z.to_nat s);
  Some (l, pb - pa, pd - pc).

Fixpoint qsort_r (fuel : nat) (l : list A) : option (list A) :=
  match fuel with
  | O => None
  | S fuel =>
      let nel := length l in
      if (nel <? 8)%nat then qsort_insertionsort l
      else
        '(l, s1, s2) ← quicksort_split l;
        let n1 := Z.to_nat s1 in
        let n2 := (nel - Z.to_nat s2)%nat in
        l1 ← qsort_r fuel (take n1 l);
        l2 ← qsort_r fuel (drop n2 l);
        Some (l1 ++ take (n2 - n1) (drop n1 l) ++ l2)
  end.

Definition qsort (l : list A) : option (list A) := qsort_r (S (length l)) l.
End Arrays.

(** ** Elements of split lists *)

Section Elements.
  Context {A : Type}.
  Implicit Types X Y M l : list A.

Lemma get_mid X x Y i : i = Z.of_nat (length X) -> get (X ++ x :: Y) i = Some x.
Proof.
  intros ->. unfold get. rewrite (proj2 (Z.ltb_ge _ _)), Nat2Z.id by lia.
  by apply list_lookup_middle.
Qed.

Lemma put_mid X x y Y i : i = Z.of_nat (length X) -> put (X ++ x :: Y) i y = X ++ y :: Y.
Proof.
  intros ->. unfold put. rewrite Nat2Z.id. by rewrite insert_app_r_alt, Nat.sub_diag by lia.
Qed.

Lemma swap1_mid X x M y Y i j :
  i = Z.of_nat (length X) -> j = i + 1 + Z.of_nat (length M) ->
  swap1 (X ++ x :: M ++ y :: Y) i j = Some (X ++ y :: M ++ x :: Y) /\
  swap1 (X ++ x :: M ++ y :: Y) j i = Some (X ++ y :: M ++ x :: Y).
Proof.
  intros -> ->. unfold swap1.
  assert (E' : forall z w, X ++ z :: M ++ w :: Y = (X ++ z :: M) ++ w :: Y).
  { intros z w. by rewrite <- app_assoc. }
  assert (Hl : forall z : A, Z.of_nat (length X) + 1 + Z.of_nat (length M) = Z.of_nat (length (X ++ z :: M))).
  { intros z. rewrite length_app. simpl. lia. }
  assert (Hx : get (X ++ x :: M ++ y :: Y) (Z.of_nat (length X)) = Some x) by by apply get_mid.
  assert (Hy : get (X ++ x :: M ++ y :: Y) (Z.of_nat (length X) + 1 + Z.of_nat (length M)) = Some y).
  { rewrite E'. apply get_mid, Hl. }
  rewrite Hx, Hy. cbn [mbind option_bind]. split; f_equal.
  - rewrite (put_mid X) by done. rewrite (E' y), (put_mid (X ++ y :: M)) by apply Hl. by rewrite <- E'.
  - rewrite (E' x), (put_mid (X ++ x :: M)) by apply Hl. rewrite <- E'. by apply put_mid.
Qed.

Lemma swap1_self X x Y i : i = Z.of_nat (length X) -> swap1 (X ++ x :: Y) i i = Some (X ++ x :: Y).
Proof.
  intros Hi. unfold swap1. rewrite (get_mid X) by done. cbn [mbind option_bind].
  by rewrite !(put_mid X).
Qed.

(** Exchanging two ranges of equal length. *)
Lemma qsort_swap_ranges X P M Q Y i j :
  length P = length Q -> i = Z.of_nat (length X) ->
  j = i + Z.of_nat (length P) + Z.of_nat (length M) ->
  qsort_swap (X ++ P ++ M ++ Q ++ Y) i j (length P) = Some (X ++ Q ++ M ++ P ++ Y).
Proof.
  revert X M Q Y i j. induction P as [|x P IH]; intros X M [|y Q] Y i j Hl Hi Hj; simpl in *; try done.
  destruct (swap1_mid X x (P ++ M) y (Q ++ Y) i j Hi) as [Hs _].
  { rewrite length_app. lia. }
  rewrite <- app_assoc in Hs. rewrite Hs. cbn [mbind option_bind]. rewrite <- !app_assoc.
  replace (X ++ y :: P ++ M ++ x :: Q ++ Y) with ((X ++ [y]) ++ P ++ (M ++ [x]) ++ Q ++ Y)
    by (by rewrite <- !app_assoc).
  rewrite IH; [by rewrite <- !app_assoc|lia|rewrite length_app; simpl; lia|].
  rewrite length_app. simpl. lia.
Qed.
End Elements.

(** ** Insertion sort *)

Section Sorting.
  Context {A : Type} (cmp : A -> A -> Z) `{!ComparOrder cmp}.
  Implicit Types l X Y : list A.

Definition sorted l : Prop := StronglySorted (fun x y => cmp x y <= 0) l.

Lemma sorted_app X Y :
  sorted (X ++ Y) <-> sorted X /\ sorted Y /\ Forall (fun x => Forall (fun y => cmp x y <= 0) Y) X.
Proof.
  unfold sorted. induction X as [|x X IH]; simpl.
  - split; [by repeat constructor|by intros (_ & ? & _)].
  - split.
    + inversion 1 as [|? ? Hs Hf]; subst. apply IH in Hs as (? & ? & ?).
      apply Forall_app in Hf as [? ?]. repeat split; try done; by constructor.
    + intros (Hs & ? & Hf). inversion Hs; subst. inversion Hf; subst.
      constructor; [by apply IH|]. by apply Forall_app.
Qed.

Lemma compare_mid X x y Y i :
  i = Z.of_nat (length X) -> compare_at cmp (X ++ x :: y :: Y) i (i + 1) = Some (cmp x y).
Proof.
  intros Hi. unfold compare_at. rewrite (get_mid X x (y :: Y) i Hi). cbn [mbind option_bind].
  replace (X ++ x :: y :: Y) with ((X ++ [x]) ++ y :: Y) by (by rewrite <- app_assoc).
  rewrite (get_mid (X ++ [x])); [done|]. rewrite length_app. simpl. lia.
Qed.

(** The inner loop moves [x] down to its place in the sorted prefix. *)
Lemma insertion_inner_ok X x Y :
  sorted X ->
  exists X', insertion_inner cmp (X ++ x :: Y) (length X) = Some (X' ++ Y) /\
    sorted X' /\ X' ≡ₚ x :: X.
Proof.
  revert x Y. induction X as [|z X IH] using rev_ind; intros x Y Hs.
  - exists [x]. split; [done|]. split; [by repeat constructor|done].
  - rewrite length_app, Nat.add_comm. cbn [length Nat.add insertion_inner].
    rewrite <- app_assoc, Nat2Z.inj_succ. cbn [app]. rewrite <- Z.add_1_r.
    rewrite (compare_mid X) by done. cbn [mbind option_bind].
    apply sorted_app in Hs as (HsX & _ & Hall).
    destruct (Z.ltb_spec 0 (cmp z x)) as [Hgt|Hle].
    + destruct (swap1_mid X z [] x Y (Z.of_nat (length X)) (Z.of_nat (length X) + 1)) as [_ Hsw];
        [done|simpl; lia|]. simpl in Hsw. rewrite Hsw. cbn [mbind option_bind].
      destruct (IH x (z :: Y) HsX) as (X' & -> & Hs' & Hp). exists (X' ++ [z]).
      rewrite <- app_assoc. split; [done|]. split.
      * apply sorted_app. split; [done|]. split; [by repeat constructor|].
        rewrite Hp. constructor.
        -- constructor; [|constructor]. pose proof (compar_anti z x). lia.
        -- done.
      * by rewrite Hp.
    + exists (X ++ [z; x]). rewrite <- app_assoc. split; [done|]. split.
      * apply sorted_app. split; [done|]. split.
        { constructor; [by repeat constructor|by repeat constructor]. }
        eapply list.Forall_impl; [exact Hall|]. simpl. intros y Hy. inversion Hy; subst.
        repeat constructor; [done|]. by eapply compar_le_trans.
      * rewrite Permutation_app_comm. simpl. rewrite (Permutation_app_comm X). apply Permutation_swap.
Qed.

Lemma insertion_outer_ok X Y :
  sorted X -> exists l', insertion_outer cmp (X ++ Y) (length X) (length Y) = Some l' /\
    sorted l' /\ l' ≡ₚ X ++ Y.
Proof.
  revert X. induction Y as [|y Y IH]; intros X Hs; simpl.
  - exists X. by rewrite app_nil_r.
  - destruct (insertion_inner_ok X y Y Hs) as (X' & -> & Hs' & Hp). cbn [mbind option_bind].
    rewrite <- (Permutation_length Hp : length X' = S (length X)).
    destruct (IH X' Hs') as (l' & -> & Hsl & Hpl). exists l'. split; [done|]. split; [done|].
    rewrite Hpl, Hp. apply Permutation_middle.
Qed.

Lemma insertionsort_ok l :
  exists l', qsort_insertionsort cmp l = Some l' /\ sorted l' /\ l' ≡ₚ l.
Proof.
  unfold qsort_insertionsort. destruct l as [|x l].
  - exists []. split; [done|]. split; [constructor|done].
  - replace (length (x :: l) - 1)%nat with (length l) by (simpl; lia).
    apply (insertion_outer_ok [x] l). by repeat constructor.
Qed.
(** ** The pivot *)

Lemma get_some l i : 0 <= i < Z.of_nat (length l) -> is_Some (get l i).
Proof.
  intros Hi. unfold get. rewrite (proj2 (Z.ltb_ge _ _)) by lia. apply lookup_lt_is_Some_2. lia.
Qed.

Lemma compare_some l i j :
  0 <= i < Z.of_nat (length l) -> 0 <= j < Z.of_nat (length l) -> is_Some (compare_at cmp l i j).
Proof.
  intros Hi Hj. unfold compare_at. destruct (get_some l i Hi) as [x ->], (get_some l j Hj) as [y ->].
  by eexists.
Qed.

Lemma med3_some l a b c :
  0 <= a < Z.of_nat (length l) -> 0 <= b < Z.of_nat (length l) -> 0 <= c < Z.of_nat (length l) ->
  exists i, qsort_med3 cmp l a b c = Some i /\ 0 <= i < Z.of_nat (length l).
Proof.
  intros Ha Hb Hc. unfold qsort_med3.
  destruct (compare_some l a b Ha Hb) as [ab ->].
  destruct (compare_some l b c Hb Hc) as [bc ->].
  destruct (compare_some l a c Ha Hc) as [ac ->]. cbn [mbind option_bind]. repeat case_match; eexists; split; done.
Qed.

Lemma pickpivot_some l : (8 <= length l)%nat ->
  exists i, qsort_pickpivot cmp l = Some i /\ 0 <= i < Z.of_nat (length l).
Proof.
  intros Hl. unfold qsort_pickpivot.
  pose proof (Z.div_mod (Z.of_nat (length l)) 2). pose proof (Z.mod_pos_bound (Z.of_nat (length l)) 2).
  pose proof (Z.div_mod (Z.of_nat (length l)) 8). pose proof (Z.mod_pos_bound (Z.of_nat (length l)) 8).
  destruct (Z.ltb_spec 40 (Z.of_nat (length l))); [|apply med3_some; lia].
  destruct (med3_some l 0 (0 + Z.of_nat (length l) / 8) (0 + 2 * (Z.of_nat (length l) / 8)))
    as (i1 & -> & ?); [lia..|].
  destruct (med3_some l (Z.of_nat (length l) / 2 - Z.of_nat (length l) / 8) (Z.of_nat (length l) / 2)
    (Z.of_nat (length l) / 2 + Z.of_nat (length l) / 8)) as (i2 & -> & ?); [lia..|].
  destruct (med3_some l (Z.of_nat (length l) - 1 - 2 * (Z.of_nat (length l) / 8))
    (Z.of_nat (length l) - 1 - Z.of_nat (length l) / 8) (Z.of_nat (length l) - 1)) as (i3 & -> & ?); [lia..|].
  by apply med3_some.
Qed.

(** ** Partitioning

    The array is at all times E1 ++ L ++ U ++ G ++ E2: elements equal to,
    smaller than, not yet compared with, greater than and again equal to the
    pivot, which is the first element. *)

Section Partition.
  Context (p : A).

Definition eqp (x : A) : Prop := cmp x p = 0.
Definition ltp (x : A) : Prop := cmp x p < 0.
Definition gtp (x : A) : Prop := 0 < cmp x p.

Lemma compare_pivot X x Y i :
  head (X ++ x :: Y) = Some p -> i = Z.of_nat (length X) ->
  compare_at cmp (X ++ x :: Y) i 0 = Some (cmp x p).
Proof.
  intros Hh Hi. unfold compare_at. rewrite (get_mid X x Y i Hi). cbn [mbind option_bind].
  destruct (X ++ x :: Y) as [|z l]; [done|]. injection Hh as ->. done.
Qed.

Lemma scan_up_ok fuel E1 L U R pa pb pc :
  (length U < fuel)%nat -> Forall eqp E1 -> Forall ltp L -> (E1 = [] -> L = []) ->
  E1 ++ U <> [] -> head (E1 ++ L ++ U ++ R) = Some p ->
  pa = Z.of_nat (length E1) -> pb = pa + Z.of_nat (length L) -> pc = pb + Z.of_nat (length U) - 1 ->
  exists E1' L' U',
    scan_up cmp fuel (E1 ++ L ++ U ++ R) pa pb pc
      = Some (E1' ++ L' ++ U' ++ R, Z.of_nat (length E1'), Z.of_nat (length E1' + length L')) /\
    Forall eqp E1' /\ Forall ltp L' /\ head E1' = Some p /\
    E1' ++ L' ++ U' ≡ₚ E1 ++ L ++ U /\ (length U' <= length U)%nat /\
    Forall gtp (take 1 U').
Proof.
  revert fuel E1 L pa pb pc. induction U as [|x U IH]; intros fuel E1 L pa pb pc Hf HE HL HEL Hne Hh Hpa Hpb Hpc;
    (destruct fuel as [|fuel]; [simpl in Hf; lia|]); cbn [scan_up].
  - rewrite (proj2 (Z.leb_gt pb pc)) by (simpl in Hpc; lia). exists E1, L, [].
    rewrite Hpb, Hpa, Nat2Z.inj_add. split; [done|]. repeat (split; [done|]). split; [|by repeat constructor].
    rewrite app_nil_r in Hne. by destruct E1.
  - rewrite (proj2 (Z.leb_le pb pc)) by (simpl in Hpc; lia).
    assert (Hcmp : compare_at cmp (E1 ++ L ++ (x :: U) ++ R) pb 0 = Some (cmp x p)).
    { rewrite app_assoc. apply compare_pivot; [by rewrite <- app_assoc|]. rewrite length_app. lia. }
    rewrite Hcmp. cbn [mbind option_bind]. simpl length in *.
    destruct (Z.leb_spec (cmp x p) 0) as [Hle|Hgt].
    + destruct (Z.eqb_spec (cmp x p) 0) as [Heq|Hlt].
      * assert (exists L2, swap1 (E1 ++ L ++ (x :: U) ++ R) pa pb = Some ((E1 ++ [x]) ++ L2 ++ U ++ R) /\
          L2 ≡ₚ L) as (L2 & -> & HL2).
        { destruct L as [|y L].
          - exists []. split; [|done]. simpl in *. replace pb with pa by lia.
            rewrite <- app_assoc. simpl. by apply swap1_self.
          - exists (L ++ [y]). split; [|by rewrite Permutation_app_comm].
            destruct (swap1_mid E1 y L x (U ++ R) pa pb) as [Hsw _]; [done|simpl in *; lia|].
            simpl in Hsw |- *. rewrite Hsw. by rewrite <- !app_assoc. }
        cbn [mbind option_bind].
        assert (Hh2 : head ((E1 ++ [x]) ++ L2 ++ U ++ R) = Some p).
        { destruct E1 as [|e E1]; [|done]. rewrite (HEL eq_refl) in Hh. done. }
        destruct (IH fuel (E1 ++ [x]) L2 (pa + 1) (pb + 1) pc) as (E1' & L' & U' & -> & H1 & H2 & H3 & Hp & Hl & H4);
          try done; try lia.
        { apply Forall_app. split; [done|]. by repeat constructor. }
        { by rewrite HL2. }
        { by destruct E1. }
        { by destruct E1. }
        { rewrite length_app. simpl. lia. }
        { rewrite HL2. lia. }
        exists E1', L', U'. repeat (split; [done|]). split; [|split; [lia|done]].
        rewrite Hp, HL2, <- app_assoc. simpl. by rewrite (Permutation_middle L).
      * cbn [mbind option_bind].
        replace (E1 ++ L ++ (x :: U) ++ R) with (E1 ++ (L ++ [x]) ++ U ++ R) in * by (by rewrite <- app_assoc).
        destruct E1 as [|e E1].
        { rewrite (HEL eq_refl) in Hh. simpl in Hh. injection Hh as ->. pose proof (compar_refl cmp p). lia. }
        destruct (IH fuel (e :: E1) (L ++ [x]) pa (pb + 1) pc) as (E1' & L' & U' & -> & H1 & H2 & H3 & Hp & Hl & H4);
          try done; try lia.
        { apply Forall_app. split; [done|]. constructor; [|constructor]. unfold ltp. lia. }
        { rewrite length_app. simpl. lia. }
        exists E1', L', U'. repeat (split; [done|]). split; [|split; [lia|done]].
        by rewrite Hp, <- !app_assoc.
    + exists E1, L, (x :: U). rewrite Hpb, Hpa, Nat2Z.inj_add. repeat (split; [done|]). split; [|split].
      * destruct E1 as [|e E1]; [|done]. rewrite (HEL eq_refl) in Hh. simpl in Hh.
        injection Hh as ->. pose proof (compar_refl cmp p). lia.
      * done.
      * split; [done|]. by repeat constructor.
Qed.
Lemma scan_down_ok fuel P U G E2 pb pc pd :
  (length U < fuel)%nat -> Forall gtp G -> Forall eqp E2 -> head P = Some p ->
  pb = Z.of_nat (length P) -> pc = pb + Z.of_nat (length U) - 1 -> pd = pc + Z.of_nat (length G) ->
  exists U' G' E2',
    scan_down cmp fuel (P ++ U ++ G ++ E2) pb pc pd
      = Some (P ++ U' ++ G' ++ E2', pb + Z.of_nat (length U') - 1,
              pb + Z.of_nat (length U') - 1 + Z.of_nat (length G')) /\
    Forall gtp G' /\ Forall eqp E2' /\ U' ++ G' ++ E2' ≡ₚ U ++ G ++ E2 /\
    U' `prefix_of` U /\ (U' = [] \/ exists U2 y, U' = U2 ++ [y] /\ ltp y).
Proof.
  revert fuel G E2 pc pd. induction U as [|x U IH] using rev_ind;
    intros fuel G E2 pc pd Hf HG HE Hh Hpb Hpc Hpd;
    (destruct fuel as [|fuel]; [simpl in Hf; lia|]); cbn [scan_down].
  - rewrite (proj2 (Z.leb_gt pb pc)) by (simpl in Hpc; lia). exists [], G, E2.
    simpl in *. rewrite Hpd, Hpc. repeat (split; [done|]). by left.
  - rewrite length_app in Hf, Hpc. simpl in Hf, Hpc.
    rewrite (proj2 (Z.leb_le pb pc)) by lia.
    assert (Hhd : forall Y, head (P ++ Y) = Some p) by (intros Y; by destruct P).
    assert (Hcmp : compare_at cmp (P ++ (U ++ [x]) ++ G ++ E2) pc 0 = Some (cmp x p)).
    { rewrite <- app_assoc, app_assoc. apply compare_pivot; [rewrite <- app_assoc; apply Hhd|].
      rewrite length_app. lia. }
    rewrite Hcmp. cbn [mbind option_bind].
    destruct (Z.leb_spec 0 (cmp x p)) as [Hge|Hlt].
    + destruct (Z.eqb_spec (cmp x p) 0) as [Heq|Hne].
      * assert (exists G2, swap1 (P ++ (U ++ [x]) ++ G ++ E2) pc pd = Some (P ++ U ++ G2 ++ (x :: E2)) /\
          G2 ≡ₚ G) as (G2 & -> & HG2).
        { destruct G as [|g G _] using rev_ind.
          - exists []. split; [|done]. replace pd with pc by (simpl in *; lia). rewrite <- !app_assoc.
            simpl. rewrite (app_assoc P U). apply swap1_self. rewrite length_app. lia.
          - exists (g :: G). split; [|by rewrite Permutation_app_comm]. rewrite length_app in Hpd. simpl in Hpd.
            rewrite <- !app_assoc, (app_assoc P U). simpl.
            destruct (swap1_mid (P ++ U) x G g E2 pc pd) as [Hsw _]; [rewrite length_app; lia|lia|].
            rewrite Hsw. by rewrite <- !app_assoc. }
        cbn [mbind option_bind].
        destruct (IH fuel G2 (x :: E2) (pc - 1) (pd - 1)) as (U' & G' & E2' & -> & H1 & H2 & Hp & Hpre & H3);
          try done; try lia.
        { by rewrite HG2. }
        { by constructor. }
        { rewrite HG2. lia. }
        exists U', G', E2'. repeat (split; [done|]). split; [|split; [by apply prefix_app_r|done]].
        rewrite Hp, HG2, <- app_assoc. simpl. by rewrite (Permutation_middle G).
      * cbn [mbind option_bind]. rewrite <- app_assoc. simpl.
        destruct (IH fuel (x :: G) E2 (pc - 1) pd) as (U' & G' & E2' & E & H1 & H2 & Hp & Hpre & H3);
          try done; try lia.
        { constructor; [unfold gtp; lia|done]. }
        { simpl. lia. }
        simpl in E. rewrite E.
        exists U', G', E2'. repeat (split; [done|]). split; [by apply prefix_app_r|done].
    + exists (U ++ [x]), G, E2. rewrite length_app. simpl.
      replace (pb + Z.of_nat (length U + 1) - 1) with pc by lia. rewrite <- Hpd.
      repeat (split; [done|]). right. by exists U, x.
Qed.

Lemma partition_ok fuel E1 L U G E2 pa pb pc pd :
  (length U < fuel)%nat -> Forall eqp E1 -> Forall ltp L -> Forall gtp G -> Forall eqp E2 ->
  (E1 = [] -> L = []) -> E1 ++ U <> [] -> head (E1 ++ L ++ U ++ G ++ E2) = Some p ->
  pa = Z.of_nat (length E1) -> pb = pa + Z.of_nat (length L) -> pc = pb + Z.of_nat (length U) - 1 ->
  pd = pc + Z.of_nat (length G) ->
  exists E1' L' G' E2',
    partition cmp fuel (E1 ++ L ++ U ++ G ++ E2) pa pb pc pd
      = Some (E1' ++ L' ++ G' ++ E2', Z.of_nat (length E1'), Z.of_nat (length E1' + length L'),
              Z.of_nat (length E1' + length L') - 1,
              Z.of_nat (length E1' + length L') - 1 + Z.of_nat (length G')) /\
    Forall eqp E1' /\ Forall ltp L' /\ Forall gtp G' /\ Forall eqp E2' /\ E1' <> [] /\
    E1' ++ L' ++ G' ++ E2' ≡ₚ E1 ++ L ++ U ++ G ++ E2.
Proof.
  revert E1 L U G E2 pa pb pc pd. induction fuel as [|fuel IH];
    intros E1 L U G E2 pa pb pc pd Hf HE1 HL HG HE2 HEL Hne Hh Hpa Hpb Hpc Hpd; [lia|].
  cbn [partition].
  destruct (scan_up_ok (S (length (E1 ++ L ++ U ++ G ++ E2))) E1 L U (G ++ E2) pa pb pc)
    as (E1a & La & Ua & -> & HE1a & HLa & Hha & Hpera & Hlena & Hgta); try done.
  { rewrite !length_app. lia. }
  cbn [mbind option_bind].
  assert (Hla : (length E1a + length La + length Ua = length E1 + length L + length U)%nat).
  { apply Permutation_length in Hpera. rewrite !length_app in Hpera. lia. }
  rewrite (app_assoc E1a La).
  destruct (scan_down_ok (S (length ((E1a ++ La) ++ Ua ++ G ++ E2))) (E1a ++ La) Ua G E2
    (Z.of_nat (length E1a + length La)) pc pd) as (Ub & Gb & E2b & -> & HGb & HE2b & Hperb & Hpre & Hend); try done.
  { rewrite !length_app. lia. }
  { by destruct E1a. }
  { by rewrite length_app. }
  { lia. }
  cbn [mbind option_bind].
  assert (HE1ne : E1a <> []) by by destruct E1a.
  assert (Hperm : E1a ++ La ++ Ub ++ Gb ++ E2b ≡ₚ E1 ++ L ++ U ++ G ++ E2).
  { rewrite Hperb. transitivity ((E1a ++ La ++ Ua) ++ G ++ E2); [by rewrite <- !app_assoc|].
    rewrite Hpera. by rewrite <- !app_assoc. }
  destruct Hend as [->|(U2 & y & -> & Hy)].
  - rewrite (proj2 (Z.ltb_lt _ _)) by (simpl; lia). exists E1a, La, Gb, E2b. simpl.
    rewrite <- app_assoc, Z.add_0_r. simpl in Hperm. done.
  - destruct Hpre as [Uc Hpre]. destruct Ua as [|x Ua]; [by destruct U2|].
    apply Forall_cons_1 in Hgta as [Hx _].
    destruct U2 as [|x' U2].
    { simpl in Hpre. injection Hpre as -> _. unfold ltp, gtp in *. lia. }
    simpl in Hpre. injection Hpre as <- ->.
    rewrite (proj2 (Z.ltb_ge _ _)) by (rewrite length_app; simpl; lia).
    destruct (swap1_mid (E1a ++ La) x U2 y (Gb ++ E2b) (Z.of_nat (length E1a + length La))
      (Z.of_nat (length E1a + length La) + Z.of_nat (length ((x :: U2) ++ [y])) - 1)) as [Hsw _].
    { by rewrite length_app. }
    { rewrite length_app. simpl. lia. }
    replace (((x :: U2) ++ [y]) ++ Gb ++ E2b) with (x :: U2 ++ y :: Gb ++ E2b) by (by rewrite <- app_assoc).
    rewrite Hsw. cbn [mbind option_bind].
    replace ((E1a ++ La) ++ y :: U2 ++ x :: Gb ++ E2b) with (E1a ++ (La ++ [y]) ++ U2 ++ (x :: Gb) ++ E2b)
      by (by rewrite <- !app_assoc).
    cbn [length] in Hlena, Hla. rewrite !length_app in Hlena, Hla. cbn [length] in Hlena, Hla.
    match goal with |- context [partition cmp fuel _ ?a ?b ?c ?d] =>
      destruct (IH E1a (La ++ [y]) U2 (x :: Gb) E2b a b c d)
        as (E1' & L' & G' & E2' & -> & H1 & H2 & H3 & H4 & H5 & Hp); try done;
      rewrite ?length_app; cbn [length]; try lia end.
    { apply Forall_app. split; [done|]. by repeat constructor. }
    { by constructor. }
    { by destruct E1a. }
    { by destruct E1a. }
    exists E1', L', G', E2'. repeat (split; [done|]). rewrite Hp, <- Hperm, <- !app_assoc.
    do 2 f_equiv. simpl. rewrite <- !(Permutation_middle U2). apply Permutation_swap.
Qed.
End Partition.
(** ** Quicksort *)

(** Exchanging the shorter of two adjacent blocks with the end of the other
    brings the second block first. *)
Lemma swap_blocks X E L Y i :
  i = Z.of_nat (length X) ->
  let s := Z.min (Z.of_nat (length E)) (Z.of_nat (length L)) in
  exists L' E', qsort_swap (X ++ E ++ L ++ Y) i (i + Z.of_nat (length E + length L) - s) (Z.to_nat s)
    = Some (X ++ L' ++ E' ++ Y) /\ L' ≡ₚ L /\ E' ≡ₚ E.
Proof.
  intros Hi s. destruct (Z.le_ge_cases (Z.of_nat (length E)) (Z.of_nat (length L))) as [Hle|Hge].
  - assert (s = Z.of_nat (length E)) as -> by (unfold s; lia). rewrite Nat2Z.id.
    set (k := (length L - length E)%nat).
    exists (drop k L ++ take k L), E. split; [|split; [by rewrite Permutation_app_comm, take_drop|done]].
    rewrite <- (take_drop k L) at 1. rewrite <- !app_assoc.
    apply qsort_swap_ranges; [rewrite length_drop; lia|done|].
    rewrite length_take. lia.
  - assert (s = Z.of_nat (length L)) as -> by (unfold s; lia). rewrite Nat2Z.id.
    exists L, (drop (length L) E ++ take (length L) E).
    split; [|split; [done|by rewrite Permutation_app_comm, take_drop]].
    assert (Hl : length (take (length L) E) = length L) by (rewrite length_take; lia).
    pose proof (qsort_swap_ranges X (take (length L) E) (drop (length L) E) L Y i
      (i + Z.of_nat (length E + length L) - Z.of_nat (length L)) Hl Hi) as H.
    rewrite Hl, (app_assoc (take _ _)), take_drop in H. rewrite <- !app_assoc. apply H.
    rewrite length_drop. lia.
Qed.

Lemma quicksort_split_ok l : (8 <= length l)%nat ->
  exists L E G p, quicksort_split cmp l
      = Some (L ++ E ++ G, Z.of_nat (length L), Z.of_nat (length G)) /\
    Forall (ltp p) L /\ Forall (eqp p) E /\ Forall (gtp p) G /\ E <> [] /\ L ++ E ++ G ≡ₚ l.
Proof.
  intros Hl. unfold quicksort_split.
  destruct (pickpivot_some l Hl) as (piv & -> & Hpiv). cbn [mbind option_bind].
  assert (exists p l1, swap1 l 0 piv = Some (p :: l1) /\ p :: l1 ≡ₚ l) as (p & l1 & -> & Hp1).
  { destruct l as [|x l]; [simpl in Hl; lia|]. destruct (Z.eq_dec piv 0) as [->|Hne].
    - exists x, l. split; [|done]. by apply (swap1_self [] x l).
    - destruct (get_some l (piv - 1)) as [y Hy]; [simpl in Hpiv; lia|].
      unfold get in Hy. rewrite (proj2 (Z.ltb_ge _ _)) in Hy by lia.
      apply list_elem_of_split_length in Hy as (M & Y & -> & HM).
      exists y, (M ++ x :: Y). destruct (swap1_mid [] x M y Y 0 piv) as [Hs _]; [done|lia|].
      split; [done|]. rewrite <- !Permutation_middle. apply Permutation_swap. }
  cbn [mbind option_bind]. pose proof (Permutation_length Hp1) as Hlen.
  destruct (partition_ok p (S (length (p :: l1))) [] [] (p :: l1) [] [] 0 0
    (Z.of_nat (length l) - 1) (Z.of_nat (length l) - 1))
    as (E1 & L & G & E2 & E & HE1 & HL & HG & HE2 & Hne & Hperm); try done; try lia.
  { simpl length in *. lia. }
  simpl in E. rewrite !app_nil_r in E. simpl in E |- *. rewrite E. clear E. cbn [mbind option_bind].
  rewrite app_nil_r in Hperm. simpl in Hperm. rewrite Hp1 in Hperm.
  assert (Hn : (length E1 + length L + length G + length E2)%nat = length l).
  { apply Permutation_length in Hperm. rewrite !length_app in Hperm. lia. }
  destruct (swap_blocks [] E1 L (G ++ E2) 0 eq_refl) as (L' & E1' & Hs1 & HL' & HE1').
  cbn [app] in Hs1. rewrite Z.add_0_l in Hs1.
  replace (Z.of_nat (length E1 + length L) - Z.of_nat (length E1)) with (Z.of_nat (length L)) by lia.
  rewrite Hs1. cbn [mbind option_bind]. clear Hs1.
  assert (HlL : length L' = length L) by by apply Permutation_length.
  assert (HlE : length E1' = length E1) by by apply Permutation_length.
  destruct (swap_blocks (L' ++ E1') G E2 [] (Z.of_nat (length E1 + length L))) as (E2' & G' & Hs2 & HE2' & HG').
  { rewrite length_app. lia. }
  rewrite !app_nil_r, <- !app_assoc in Hs2.
  replace (Z.of_nat (length E1 + length L) - 1 + Z.of_nat (length G) - (Z.of_nat (length E1 + length L) - 1))
    with (Z.of_nat (length G)) by lia.
  replace (Z.of_nat (length l) - (Z.of_nat (length E1 + length L) - 1 + Z.of_nat (length G)) - 1)
    with (Z.of_nat (length E2)) by lia.
  replace (Z.of_nat (length l)) with (Z.of_nat (length E1 + length L) + Z.of_nat (length G + length E2)) by lia.
  rewrite Hs2. cbn [mbind option_bind].
  exists L', (E1' ++ E2'), G', p.
  assert (HlG : length G' = length G) by by apply Permutation_length.
  rewrite HlL, HlG, <- !app_assoc. split; [done|]. split; [by rewrite HL'|].
  split; [apply Forall_app; rewrite HE1', HE2'; done|]. split; [by rewrite HG'|]. split.
  - intros [H _]%app_nil. rewrite H in HE1'. apply Permutation_nil in HE1'. done.
  - rewrite HL', HE1', HE2', HG', <- Hperm.
    rewrite (Permutation_app_comm E2 G), (app_assoc L), (Permutation_app_comm L E1). by rewrite <- app_assoc.
Qed.

Lemma sorted_three p L E G :
  Forall (ltp p) L -> Forall (eqp p) E -> Forall (gtp p) G -> sorted L -> sorted G -> sorted (L ++ E ++ G).
Proof.
  intros HL HE HG HsL HsG.
  assert (Hle : forall X Y, Forall (fun x => cmp x p <= 0) X -> Forall (fun y => 0 <= cmp y p) Y ->
    Forall (fun x => Forall (fun y => cmp x y <= 0) Y) X).
  { intros X Y HX HY. eapply list.Forall_impl; [exact HX|]. intros x Hx. simpl in Hx.
    eapply list.Forall_impl; [exact HY|]. intros y Hy. simpl in Hy.
    apply (compar_le_trans cmp x p y); [lia|]. pose proof (compar_anti y p). lia. }
  assert (HE1 : Forall (fun x => cmp x p <= 0) E /\ Forall (fun x => 0 <= cmp x p) E)
    by (split; eapply list.Forall_impl; [exact HE| |exact HE|]; unfold eqp; simpl; lia).
  assert (HG1 : Forall (fun y => 0 <= cmp y p) G) by (eapply list.Forall_impl; [exact HG|]; unfold gtp; simpl; lia).
  assert (HL1 : Forall (fun x => cmp x p <= 0) L) by (eapply list.Forall_impl; [exact HL|]; unfold ltp; simpl; lia).
  assert (HsE : sorted E).
  { clear -HE1 Hle. destruct HE1 as [H1 H2]. unfold sorted. induction E as [|x E IH]; [constructor|].
    inversion H1; inversion H2; subst. constructor; [by apply IH|].
    assert (Hf : Forall (fun x => Forall (fun y => cmp x y <= 0) E) [x]) by (apply Hle; [by constructor|done]).
    by inversion Hf. }
  apply sorted_app. split; [done|]. split.
  - apply sorted_app. split; [done|]. split; [done|]. apply Hle; [apply HE1|done].
  - apply Hle; [done|]. apply Forall_app. split; [apply HE1|done].
Qed.

Lemma qsort_r_ok fuel l : (length l < fuel)%nat ->
  exists l', qsort_r cmp fuel l = Some l' /\ sorted l' /\ l' ≡ₚ l.
Proof.
  revert l. induction fuel as [|fuel IH]; intros l Hf; [lia|]. cbn [qsort_r].
  destruct (Nat.ltb_spec (length l) 8) as [Hs|Hl]; [apply insertionsort_ok|].
  destruct (quicksort_split_ok l Hl) as (L & E & G & p & -> & HL & HE & HG & Hne & Hp).
  cbn [mbind option_bind]. rewrite !Nat2Z.id.
  assert (Hlen : (length L + length E + length G)%nat = length l).
  { apply Permutation_length in Hp. rewrite !length_app in Hp. lia. }
  assert (0 < length E)%nat by (destruct E; [done|simpl; lia]).
  rewrite take_app_length.
  replace (drop (length l - length G) (L ++ E ++ G)) with G.
  2: { rewrite app_assoc, drop_app_length'; [done|]. rewrite length_app. lia. }
  rewrite drop_app_length, (take_app_length' E) by lia.
  destruct (IH L) as (l1 & -> & Hs1 & Hp1); [lia|]. destruct (IH G) as (l2 & -> & Hs2 & Hp2); [lia|].
  cbn [mbind option_bind]. eexists. split; [done|]. split.
  - apply (sorted_three p); try done; [by rewrite Hp1|by rewrite Hp2].
  - by rewrite Hp1, Hp2.
Qed.

(** C11: qsort terminates, never leaves the array, and rearranges it into
    ascending order, for every comparison function that is an order. *)
Theorem qsort_correct (l : list A) :
  exists l', qsort cmp l = Some l' /\ StronglySorted (fun x y => cmp x y <= 0) l' /\ l' ≡ₚ l.
Proof. apply (qsort_r_ok (S (length l)) l). lia. Qed.
End Sorting.

Lemma qsort_correct_witness :
  exists l', qsort (fun x y => x - y) [5; 3; 9; 1; 2; 2; 7; 8; 0; 4] = Some l' /\
    StronglySorted (fun x y => x - y <= 0) l'.
Proof.
  destruct (qsort_correct (fun x y => x - y) [5; 3; 9; 1; 2; 2; 7; 8; 0; 4]) as (l' & E & Hs & _).
  exists l'. split; [exact E|exact Hs].
Defined.

(** ** Searching *)

Section Searching.
  Context {A : Type} (compar : A -> Z).  (* the comparison with the key *)
  Implicit Types l : list A.

(** The loop of bsearch over the [nel] elements from [base] on; the result is
    the index of the element returned. *)
Fixpoint bsearch_loop (fuel : nat) l (base nel : Z) : option (option Z) :=
  match fuel with
  | O => None
  | S fuel =>
      if 0 <? nel then
        let mid := nel / 2 in
        obj ← get l (base + mid);
        let cmp := compar obj in
        if cmp <? 0 then bsearch_loop fuel l base mid
        else if 0 <? cmp then
          let skip := mid + 1 in
          bsearch_loop fuel l (base + skip) (nel - skip)
        else Some (Some (base + mid))
      else Some None
  end.

Definition bsearch l : option (option Z) :=
  bsearch_loop (S (S (Nat.log2 (length l)))) l 0 (Z.of_nat (length l)).

(** __lfind and __lsearch: from [i] on, to the end of the array. *)
Fixpoint lfind_from l (i : Z) : option Z :=
  match l with
  | [] => None
  | x :: l => if compar x =? 0 then Some i else lfind_from l (i + 1)
  end.

Definition lfind l : option Z := lfind_from l 0.

Definition lsearch (key : A) l : Z * list A :=
  match lfind l with
  | Some i => (i, l)
  | None => (Z.of_nat (length l), l ++ [key])
  end.

Lemma lfind_from_ok l i :
  match lfind_from l i with
  | Some j => exists x, i <= j /\ l !! Z.to_nat (j - i) = Some x /\ compar x = 0 /\
      Forall (fun y => compar y <> 0) (take (Z.to_nat (j - i)) l)
  | None => Forall (fun y => compar y <> 0) l
  end.
Proof.
  revert i. induction l as [|x l IH]; intros i; simpl; [done|].
  destruct (Z.eqb_spec (compar x) 0) as [E|E].
  - exists x. rewrite Z.sub_diag. simpl. repeat split; [lia|done|done].
  - specialize (IH (i + 1)). destruct (lfind_from l (i + 1)) as [j|]; [|by constructor].
    destruct IH as (y & Hj & Hy & Hc & Hf). exists y.
    replace (Z.to_nat (j - i)) with (S (Z.to_nat (j - (i + 1)))) by lia.
    repeat split; [lia|done|done|]. simpl. by constructor.
Qed.

(** What bsearch asks of the array: first the elements below the key, then
    those equal to it, then those above it. *)
Definition ordered_for_key l : Prop :=
  StronglySorted (fun x y => Z.sgn (compar y) <= Z.sgn (compar x)) l.

Lemma ordered_lookup l i j x y :
  ordered_for_key l -> (i < j)%nat -> l !! i = Some x -> l !! j = Some y ->
  Z.sgn (compar y) <= Z.sgn (compar x).
Proof.
  intros Ho. revert i j. induction Ho as [|z l Ho IH Hz]; intros [|i] [|j] Hij Hx Hy; try done; try lia.
  - simpl in *. injection Hx as <-. eapply list.Forall_lookup_1 in Hz; [|done]. done.
  - simpl in *. eapply (IH i j); try done. lia.
Qed.

Lemma bsearch_loop_ok fuel l base nel :
  ordered_for_key l -> 0 <= base -> 0 <= nel -> base + nel <= Z.of_nat (length l) ->
  nel < 2 ^ Z.of_nat fuel ->
  (forall i x, l !! i = Some x -> Z.of_nat i < base \/ base + nel <= Z.of_nat i -> compar x <> 0) ->
  exists r, bsearch_loop (S fuel) l base nel = Some r /\
    match r with
    | Some i => exists x, 0 <= i /\ l !! Z.to_nat i = Some x /\ compar x = 0
    | None => Forall (fun x => compar x <> 0) l
    end.
Proof.
  intros Ho. revert base nel. induction fuel as [|fuel IH]; intros base nel Hb Hn Hl Hf Hout.
  - exists None. simpl in Hf. assert (nel = 0) as -> by lia. split; [done|].
    apply list.Forall_lookup_2. intros i x Hi. apply (Hout i x Hi). lia.
  - change (bsearch_loop (S (S fuel)) l base nel) with
      (if 0 <? nel then
        obj ← get l (base + nel / 2);
        if compar obj <? 0 then bsearch_loop (S fuel) l base (nel / 2)
        else if 0 <? compar obj then bsearch_loop (S fuel) l (base + (nel / 2 + 1)) (nel - (nel / 2 + 1))
        else Some (Some (base + nel / 2))
      else Some None).
    rewrite Nat2Z.inj_succ, Z.pow_succ_r in Hf by lia.
    pose proof (Z.div_mod nel 2 ltac:(lia)). pose proof (Z.mod_pos_bound nel 2 ltac:(lia)).
    destruct (Z.ltb_spec 0 nel).
    + unfold get. rewrite (proj2 (Z.ltb_ge _ _)) by lia.
      destruct (lookup_lt_is_Some_2 l (Z.to_nat (base + nel / 2))) as [x Hx]; [lia|].
      rewrite Hx. cbn [mbind option_bind].
      destruct (Z.ltb_spec (compar x) 0) as [Hlt|Hge]; [|destruct (Z.ltb_spec 0 (compar x)) as [Hgt|Heq]].
      * apply IH; try lia. intros i y Hy Hi.
        destruct (decide (Z.of_nat i < base \/ base + nel <= Z.of_nat i)) as [Ho'|Hin]; [by apply (Hout i)|].
        destruct (decide (i = Z.to_nat (base + nel / 2))) as [->|]; [assert (y = x) by congruence; subst; lia|].
        pose proof (ordered_lookup l (Z.to_nat (base + nel / 2)) i x y Ho ltac:(lia) Hx Hy). lia.
      * apply IH; try lia. intros i y Hy Hi.
        destruct (decide (Z.of_nat i < base \/ base + nel <= Z.of_nat i)) as [Ho'|Hin]; [by apply (Hout i)|].
        destruct (decide (i = Z.to_nat (base + nel / 2))) as [->|]; [assert (y = x) by congruence; subst; lia|].
        pose proof (ordered_lookup l i (Z.to_nat (base + nel / 2)) y x Ho ltac:(lia) Hy Hx). lia.
      * eexists. split; [done|]. exists x. repeat split; [lia|done|lia].
    + exists None. split; [done|]. apply list.Forall_lookup_2. intros i x Hi. apply (Hout i x Hi). lia.
Qed.

(** on an array ordered for the key, bsearch stays inside the array,
    makes at most log2(nel) + 1 comparisons, and finds an equal element
    exactly when the linear search lfind finds one. *)
Theorem bsearch_correct (l : list A) (Ho : ordered_for_key l) :
  exists r, bsearch l = Some r /\
    (r = None <-> lfind l = None) /\
    (forall i, r = Some i -> exists x, 0 <= i /\ l !! Z.to_nat i = Some x /\ compar x = 0).
Proof.
  unfold bsearch. set (fuel := S (Nat.log2 (length l))).
  destruct (bsearch_loop_ok fuel l 0 (Z.of_nat (length l)) Ho) as (r & Hr & Hm); try lia.
  - change 2 with (Z.of_nat 2). rewrite <- Nat2Z.inj_pow. apply Nat2Z.inj_lt. unfold fuel.
    destruct (length l) as [|n]; [simpl; lia|]. apply Nat.log2_spec. lia.
  - intros i x Hi. apply lookup_lt_Some in Hi. lia.
  - exists r. split; [done|]. pose proof (lfind_from_ok l 0) as Hlf. fold (lfind l) in Hlf.
    destruct r as [i|].
    + split; [|intros i' [= <-]; done]. split; [done|]. intros E. rewrite E in Hlf.
      destruct Hm as (x & _ & Hx & Hc). eapply list.Forall_lookup_1 in Hlf; [|done]. done.
    + split; [|done]. split; [|done]. intros _. destruct (lfind l) as [j|]; [|done].
      destruct Hlf as (x & _ & Hx & Hc & _). eapply list.Forall_lookup_1 in Hm; [|done]. done.
Qed.

(** Lsearch finds the first equal element or appends the key, and a
    second call with the same key finds what the first one returned. *)
Theorem lsearch_correct (key : A) (l : list A) (Hkey : compar key = 0) :
  let '(i, l') := lsearch key l in
  (exists x, l' !! Z.to_nat i = Some x /\ compar x = 0 /\
     Forall (fun y => compar y <> 0) (take (Z.to_nat i) l')) /\
  l' = (if decide (lfind l = None) then l ++ [key] else l) /\
  lsearch key l' = (i, l').
Proof.
  unfold lsearch. pose proof (lfind_from_ok l 0) as Hlf. fold (lfind l) in Hlf.
  destruct (lfind l) as [i|] eqn:E.
  - destruct Hlf as (x & Hi & Hx & Hc & Hf). rewrite Z.sub_0_r in *.
    split; [by exists x|]. split; [done|]. by rewrite E.
  - assert (Hfind : forall i, lfind_from (l ++ [key]) i = Some (i + Z.of_nat (length l))).
    { clear E. induction l as [|y l IH]; intros i; simpl.
      - rewrite Hkey. simpl. f_equal. lia.
      - inversion Hlf; subst. rewrite (proj2 (Z.eqb_neq _ _)) by done. rewrite IH by done. f_equal. lia. }
    unfold lfind. rewrite Hfind, Nat2Z.id, take_app_length. split; [|done].
    exists key. split; [by apply list_lookup_middle|done].
Qed.
End Searching.

Lemma bsearch_correct_witness :
  exists r, bsearch (fun x => 7 - x) [1; 3; 7; 9] = Some r /\ r <> None.
Proof.
  destruct (bsearch_correct (fun x => 7 - x) [1; 3; 7; 9]) as (r & Hr & Hn & _).
  - repeat constructor; done.
  - exists r. split; [exact Hr|]. intros E. apply Hn in E. discriminate E.
Defined.

Lemma lsearch_correct_witness :
  lsearch (fun x => 7 - x) 7 [1; 3] = (2, [1; 3; 7]) /\
  lsearch (fun x => 7 - x) 7 [1; 3; 7] = (2, [1; 3; 7]).
Proof.
  split; [reflexivity|]. exact (proj2 (proj2 (lsearch_correct (fun x => 7 - x) 7 [1; 3] eq_refl))).
Defined.
