(* ===== verification/StrToInt.v ===== *)
(** * Integer parsing: strtol, strtoul, strtoll, strtoull, strtoimax,
      strtoumax and their wide character variants

    Sources: src/common/parser_strtoint.h, parser_whitespace.h, strtoint.h,
    the files of src/libc/stdlib, src/libc/inttypes and src/libc/wchar that
    instantiate them, and src/libc/wctype/iswspace.c.

    A string is the list of its characters, without the terminator; PEEK of
    the position after the last character is the terminator and PEEK further
    on is [None].  The results are the value, the error stored in errno, and
    what endptr points to. *)

From S2P Require Import Prelude Charset.

#[local] Open Scope Z_scope.
#[local] Ltac Zify.zify_post_hook ::= Z.to_euclidean_division_equations.

(** ** Data *)

(** The result type: NUMERIC_MIN, NUMERIC_MAX and conversion from uintmax_t. *)
Record int_type := IntType { NUMERIC_MIN : Z; NUMERIC_MAX : Z; convert : Z -> Z }.

Definition int_t_long : int_type := IntType LONG_MIN LONG_MAX s64.
Definition int_t_unsigned_long : int_type := IntType 0 ULONG_MAX u64.

Definition peek (s : list Z) (n : nat) : option Z := (s ++ [0]) !! n.

(** Character codes. *)
Definition c_0 : Z := 48.
Definition c_9 : Z := 57.
Definition c_A : Z := 65.
Definition c_F : Z := 70.
Definition c_X : Z := 88.
Definition c_Z : Z := 90.
Definition c_a : Z := 97.
Definition c_f : Z := 102.
Definition c_x : Z := 120.
Definition c_z : Z := 122.
Definition c_minus : Z := 45.
Definition c_plus : Z := 43.

Definition between (lo c hi : Z) : bool := (lo <=? c) && (c <=? hi).

(** ** The parser *)

(** The digit a character stands for, in any radix up to 36. *)
Definition digit_of (c : Z) : option Z :=
  if between c_0 c c_9 then Some (c - c_0)
  else if between c_A c c_Z then Some (c - c_A + 10)
  else if between c_a c c_z then Some (c - c_a + 10)
  else None.

(** "0x" and a hexadecimal digit. *)
Definition has_hex_prefix (s : list Z) : option bool :=
  a ← peek s 0;
  if negb (a =? c_0) then Some false
  else
    b ← peek s 1;
    if negb ((b =? c_x) || (b =? c_X)) then Some false
    else
      c ← peek s 2;
      Some (between c_0 c c_9 || between c_A c c_F || between c_a c c_f).

(** The loop over the digits: [value], [have_number] and [have_overflow]. *)
Fixpoint parse_digits (radix ceil last_digit : Z) (s : list Z) (value : Z)
  (have_number have_overflow : bool) : Z * bool * bool * list Z :=
  match s with
  | [] => (value, have_number, have_overflow, s)
  | c :: s' =>
      match digit_of c with
      | None => (value, have_number, have_overflow, s)
      | Some digit =>
          if radix <=? digit then (value, have_number, have_overflow, s)
          else if (ceil <? value) || ((value =? ceil) && (last_digit <? digit))
          then parse_digits radix ceil last_digit s' value true true
          else parse_digits radix ceil last_digit s' (u64 (value * radix + digit)) true have_overflow
      end
  end.

(** parser_strtoint.h: [have_number], [have_overflow], [number] and the
    remaining input. *)
Definition parse_strtoint (T : int_type) (min max : Z) (allow_negative : bool) (base : Z)
  (s : list Z) : option (bool * bool * Z * list Z) :=
  c ← peek s 0;
  let '(negative, s) :=
    if allow_negative && (c =? c_minus) then (true, drop 1 s)
    else if c =? c_plus then (false, drop 1 s)
    else (false, s) in
  hex ← (if (base =? 0) || (base =? 16) then has_hex_prefix s else Some false);
  c ← peek s 0;
  let '(base, s) :=
    if (hex : bool) then (16, drop 2 s)
    else if base =? 0 then (if c =? c_0 then 8 else 10, s)
    else (base, s) in
  if (2 <=? base) && (base <=? 36) then
    let '(ceil, last_digit) :=
      if (negative : bool) then (u64 (- Z.quot min base), u8 (- Z.rem min base))
      else (Z.quot max base, u8 (Z.rem max base)) in
    let '(value, have_number, have_overflow, s) := parse_digits base ceil last_digit s 0 false false in
    let number :=
      if (have_overflow : bool) then
        if (0 <=? convert T (u64 (-1))) || negb negative then max else min
      else if negative then convert T (u64 (- value)) else convert T value in
    Some (have_number, have_overflow, number, s)
  else Some (false, false, 0, s).

Definition iswspace (wc : Z) : bool :=
  between 9 wc 13 || (wc =? 32) || (wc =? 5760) || between 8192 wc 8198 || between 8200 wc 8202
  || between 8232 wc 8233 || (wc =? 8287) || (wc =? 12288).

(** The inner loop of parser_whitespace.h: bytes are decoded one at a time
    until a character is complete. *)
Fixpoint peek_char (fuel : nat) (C : lc_ctype) (s : list Z) (peeklen : nat) (mbs : mbstate)
  : option (mbresult * nat * mbstate) :=
  match fuel with
  | O => None
  | S fuel =>
      b ← peek s peeklen;
      '(r, mbs) ← mbtoc32 C [b] 1 mbs;
      match r with
      | MbIncomplete => peek_char fuel C s (S peeklen) mbs
      | _ => Some (r, S peeklen, mbs)
      end
  end.

Fixpoint skip_whitespace (fuel : nat) (C : lc_ctype) (s : list Z) (mbs : mbstate)
  : option (list Z) :=
  match fuel with
  | O => None
  | S fuel =>
      '(r, peeklen, mbs) ← peek_char (S (length s)) C s 0 mbs;
      match r with
      | MbChar ret c32 =>
          if (ret <=? 0) || negb (iswspace c32) then Some s
          else skip_whitespace fuel C (drop peeklen s) mbs
      | _ => Some s
      end
  end.

Fixpoint skip_whitespace_wide (s : list Z) : list Z :=
  match s with
  | [] => []
  | c :: s' => if iswspace c then skip_whitespace_wide s' else s
  end.

(** strtoint.h: the value returned, the error, and what *endptr points to. *)
Definition strtoint_result (str : list Z) (r : bool * bool * Z * list Z) : Z * option Z * list Z :=
  let '(have_number, have_overflow, number, s) := r in
  (number,
   if negb have_number then Some EINVAL else if (have_overflow : bool) then Some ERANGE else None,
   if have_number then s else str).

Definition strtoint (T : int_type) (C : lc_ctype) (str : list Z) (base : Z)
  : option (Z * option Z * list Z) :=
  s ← skip_whitespace (S (length str)) C str mbstate_init;
  r ← parse_strtoint T (NUMERIC_MIN T) (NUMERIC_MAX T) true base s;
  Some (strtoint_result str r).

Definition wcstoint (T : int_type) (str : list Z) (base : Z) : option (Z * option Z * list Z) :=
  let s := skip_whitespace_wide str in
  r ← parse_strtoint T (NUMERIC_MIN T) (NUMERIC_MAX T) true base s;
  Some (strtoint_result str r).

(** The instances: long, long long and intmax_t are all 64 bits wide. *)
Definition strtol_l := strtoint int_t_long.
Definition strtoll_l := strtoint int_t_long.
Definition strtoimax_l := strtoint int_t_long.
Definition strtoul_l := strtoint int_t_unsigned_long.
Definition strtoull_l := strtoint int_t_unsigned_long.
Definition strtoumax_l := strtoint int_t_unsigned_long.
Definition wcstol := wcstoint int_t_long.
Definition wcstoll := wcstoint int_t_long.
Definition wcstoimax := wcstoint int_t_long.
Definition wcstoul := wcstoint int_t_unsigned_long.
Definition wcstoull := wcstoint int_t_unsigned_long.
Definition wcstoumax := wcstoint int_t_unsigned_long.

(** ** What a numeral means *)

(** The digits at the start of the input, and the rest. *)
Fixpoint span_digits (radix : Z) (s : list Z) : list Z * list Z :=
  match s with
  | [] => ([], [])
  | c :: s' =>
      match digit_of c with
      | Some d =>
          if d <? radix then let '(ds, rest) := span_digits radix s' in (d :: ds, rest) else ([], s)
      | None => ([], s)
      end
  end.

(** Horner's rule, from an initial value. *)
Definition horner (radix v : Z) (ds : list Z) : Z := foldl (fun v d => v * radix + d) v ds.

Definition split_sign (allow_negative : bool) (s : list Z) : bool * list Z :=
  match s with
  | c :: s' =>
      if allow_negative && (c =? c_minus) then (true, s')
      else if c =? c_plus then (false, s') else (false, s)
  | [] => (false, [])
  end.

Definition is_hex_digit (c : Z) : bool :=
  match digit_of c with Some d => d <? 16 | None => false end.

Definition split_base (base : Z) (s : list Z) : Z * list Z :=
  let other := (if base =? 0 then (if bool_decide (head s = Some c_0) then 8 else 10) else base, s) in
  if (base =? 0) || (base =? 16) then
    match s with
    | a :: b :: ((c :: _) as s') =>
        if (a =? c_0) && ((b =? c_x) || (b =? c_X)) && is_hex_digit c then (16, s') else other
    | _ => other
    end
  else other.

(** The nearest value of the type; for an unsigned type a negative numeral
    counts as too large. *)
Definition saturate (min max x : Z) : Z :=
  if (min <=? x) && (x <=? max) then x
  else if (x <? 0) && (min <? 0) then min else max.

Definition strtoint_spec (min max : Z) (allow_negative : bool) (base : Z) (s : list Z)
  : bool * bool * Z * list Z :=
  let '(negative, s1) := split_sign allow_negative s in
  let '(radix, s2) := split_base base s1 in
  if (2 <=? radix) && (radix <=? 36) then
    let '(ds, rest) := span_digits radix s2 in
    let x := if negative then - horner radix 0 ds else horner radix 0 ds in
    (negb (bool_decide (ds = [])), negb ((min <=? x) && (x <=? max)), saturate min max x, rest)
  else (false, false, 0, s2).

(** A result type and the bounds passed to the parser. *)
Record int_ok (T : int_type) (min max : Z) : Prop := {
  ok_min : - 2 ^ 63 <= min <= 0;
  ok_max : 0 <= max < 2 ^ 64;
  ok_convert x : min <= x <= max -> convert T (u64 x) = x;
  ok_unsigned : (0 <=? convert T (u64 (-1))) = (min =? 0)
}.

Lemma int_ok_long : int_ok int_t_long LONG_MIN LONG_MAX.
Proof.
  split; unfold LONG_MIN, LONG_MAX; simpl; try done.
  intros x Hx. unfold sN, uN. lia.
Qed.

Lemma int_ok_unsigned_long : int_ok int_t_unsigned_long 0 ULONG_MAX.
Proof.
  split; unfold ULONG_MAX; simpl; try done.
  intros x Hx. unfold uN. lia.
Qed.

Lemma horner_mono radix v ds :
  2 <= radix -> 0 <= v -> Forall (fun d => 0 <= d) ds -> v <= horner radix v ds.
Proof.
  intros Hr Hv Hd. revert v Hv. induction Hd as [|d ds Hd Hds IH]; intros v Hv; simpl; [lia|].
  specialize (IH (v * radix + d)). unfold horner in *. simpl. nia.
Qed.

Lemma digit_of_range c d : digit_of c = Some d -> 0 <= d < 36.
Proof.
  unfold digit_of, between, c_0, c_9, c_A, c_Z, c_a, c_z.
  repeat (zcase1; simpl; try lia); intros [= <-]; lia.
Qed.

Lemma span_digits_range radix s : Forall (fun d => 0 <= d < radix) (span_digits radix s).1.
Proof.
  induction s as [|c s IH]; simpl; [constructor|].
  destruct (digit_of c) as [d|] eqn:E; [|constructor]. apply digit_of_range in E.
  destruct (Z.ltb_spec d radix); [|constructor]. destruct (span_digits radix s).
  simpl in *. constructor; [lia|done].
Qed.

(** The loop against Horner's rule: it never wraps around, and it reports an
    overflow exactly when the exact value exceeds the limit. *)
Lemma parse_digits_ok radix limit s value v (hn ho : bool) :
  2 <= radix <= 36 -> 0 <= limit < 2 ^ 64 -> 0 <= v ->
  (if ho then limit < v else value = v /\ v <= limit) ->
  let '(ds, rest) := span_digits radix s in
  exists value', parse_digits radix (limit / radix) (limit mod radix) s value hn ho
    = (value', hn || negb (bool_decide (ds = [])), negb (horner radix v ds <=? limit), rest) /\
    (horner radix v ds <= limit -> value' = horner radix v ds).
Proof.
  intros Hr Hl. revert value v hn ho. induction s as [|c s IH]; intros value v hn ho Hv Hinv; simpl.
  - exists value. rewrite orb_false_r. destruct ho.
    + rewrite (proj2 (Z.leb_gt _ _)) by (simpl; lia). split; [done|simpl; lia].
    + destruct Hinv as [-> Hle]. rewrite (proj2 (Z.leb_le _ _)) by (simpl; lia). done.
  - assert (Hstop : exists value', (value, hn, ho, c :: s) = (value', hn || false,
      negb (horner radix v [] <=? limit), c :: s) /\ (horner radix v [] <= limit -> value' = horner radix v [])).
    { exists value. rewrite orb_false_r. simpl. destruct ho.
      - rewrite (proj2 (Z.leb_gt _ _)) by lia. split; [done|lia].
      - destruct Hinv as [-> Hle]. by rewrite (proj2 (Z.leb_le _ _)). }
    destruct (digit_of c) as [d|] eqn:Ed; [|exact Hstop]. apply digit_of_range in Ed as Hd.
    destruct (Z.leb_spec radix d) as [Hge|Hlt].
    { rewrite (proj2 (Z.ltb_ge _ _)) by lia. exact Hstop. }
    rewrite (proj2 (Z.ltb_lt _ _)) by lia. destruct (span_digits radix s) as [ds rest] eqn:Es.
    change (horner radix v (d :: ds)) with (horner radix (v * radix + d) ds).
    rewrite orb_true_r.
    assert (Hcond : forall x, 0 <= x -> (limit / radix <? x) || ((x =? limit / radix) && (limit mod radix <? d))
      = (limit <? x * radix + d)).
    { intros x Hx. pose proof (Z.div_mod limit radix ltac:(lia)). pose proof (Z.mod_pos_bound limit radix ltac:(lia)).
      destruct (Z.ltb_spec limit (x * radix + d)), (Z.ltb_spec (limit / radix) x),
        (Z.eqb_spec x (limit / radix)), (Z.ltb_spec (limit mod radix) d); simpl; try done; exfalso; nia. }
    destruct ho.
    + assert (limit < v * radix + d) by nia.
      destruct ((limit / radix <? value) || _).
      * destruct (IH value (v * radix + d) true true) as (v' & -> & Hv'); [nia|done|]. by exists v'.
      * destruct (IH (u64 (value * radix + d)) (v * radix + d) true true) as (v' & -> & Hv'); [nia|done|]. by exists v'.
    + destruct Hinv as [-> Hle]. rewrite Hcond by done.
      destruct (Z.ltb_spec limit (v * radix + d)).
      * destruct (IH v (v * radix + d) true true) as (v' & -> & Hv'); [nia|done|]. by exists v'.
      * rewrite uN_small by (unfold in_unsigned; nia).
        destruct (IH (v * radix + d) (v * radix + d) true false) as (v' & -> & Hv'); [nia|done|]. by exists v'.
Qed.

(** *** The whole parser *)

Lemma split_sign_ok allow s :
  (c ← peek s 0;
   Some (if allow && (c =? c_minus) then (true, drop 1 s)
         else if c =? c_plus then (false, drop 1 s) else (false, s)))
  = Some (split_sign allow s).
Proof.
  destruct s as [|c s]; simpl; [by rewrite andb_false_r|]. rewrite drop_0.
  by destruct (allow && (c =? c_minus)), (c =? c_plus).
Qed.

Lemma is_hex_digit_ok c :
  (between c_0 c c_9 || between c_A c c_F || between c_a c c_f) = is_hex_digit c.
Proof.
  unfold is_hex_digit, digit_of, between, c_0, c_9, c_A, c_F, c_a, c_f, c_Z, c_z.
  repeat (zcase1; simpl; try lia); try done.
Qed.

Definition hex_prefix (s : list Z) : bool :=
  match s with
  | a :: b :: c :: _ => (a =? c_0) && ((b =? c_x) || (b =? c_X)) && is_hex_digit c
  | _ => false
  end.

Lemma has_hex_prefix_ok s : has_hex_prefix s = Some (hex_prefix s).
Proof.
  unfold has_hex_prefix. destruct s as [|a [|b [|c s]]]; simpl.
  - done.
  - by destruct (a =? c_0).
  - destruct (a =? c_0); [|done]. by destruct ((b =? c_x) || (b =? c_X)).
  - rewrite is_hex_digit_ok. destruct (a =? c_0); [|done]. by destruct ((b =? c_x) || (b =? c_X)).
Qed.

Lemma split_base_ok base s :
  (hex ← (if (base =? 0) || (base =? 16) then has_hex_prefix s else Some false);
   c ← peek s 0;
   Some (if (hex : bool) then (16, drop 2 s)
         else if base =? 0 then (if c =? c_0 then 8 else 10, s) else (base, s)))
  = Some (split_base base s).
Proof.
  unfold split_base. rewrite has_hex_prefix_ok.
  assert (Hother : (c ← peek s 0; Some (if base =? 0 then (if c =? c_0 then 8 else 10, s) else (base, s)))
    = Some (if base =? 0 then (if bool_decide (head s = Some c_0) then 8 else 10) else base, s)).
  { destruct s as [|c s]; simpl; [by destruct (base =? 0)|]. destruct (base =? 0); [|done].
    by destruct (Z.eqb_spec c c_0) as [->|]; case_bool_decide; try congruence. }
  destruct ((base =? 0) || (base =? 16)); [|exact Hother].
  destruct s as [|a [|b [|c s]]]; try exact Hother.
  cbn [hex_prefix mbind option_bind].
  destruct ((a =? c_0) && ((b =? c_x) || (b =? c_X)) && is_hex_digit c); [done|exact Hother].
Qed.

Lemma quot_limit limit radix : 0 <= limit < 2 ^ 64 -> 2 <= radix <= 36 ->
  Z.quot limit radix = limit / radix /\ u8 (Z.rem limit radix) = limit mod radix.
Proof.
  intros Hl Hr. rewrite Z.quot_div_nonneg, Z.rem_mod_nonneg by lia. split; [done|].
  pose proof (Z.mod_pos_bound limit radix ltac:(lia)). apply uN_small. unfold in_unsigned. lia.
Qed.

Lemma parse_strtoint_ok T min max allow base s :
  int_ok T min max -> parse_strtoint T min max allow base s = Some (strtoint_spec min max allow base s).
Proof.
  intros [Hmin Hmax Hconv Hun]. unfold parse_strtoint, strtoint_spec.
  pose proof (split_sign_ok allow s) as Hs. destruct (peek s 0) as [c|]; [|done]. cbn [mbind option_bind] in *.
  injection Hs as ->. destruct (split_sign allow s) as [neg s1].
  pose proof (split_base_ok base s1) as Hb.
  destruct (if (base =? 0) || (base =? 16) then has_hex_prefix s1 else Some false) as [hex|]; [|done].
  cbn [mbind option_bind] in *. destruct (peek s1 0) as [c'|]; [|done]. cbn [mbind option_bind] in *.
  injection Hb as ->. destruct (split_base base s1) as [radix s2].
  destruct ((2 <=? radix) && (radix <=? 36)) eqn:Er; [|done]. zprop.
  set (limit := if neg then - min else max).
  assert (Hlim : 0 <= limit < 2 ^ 64) by (unfold limit; destruct neg; lia).
  assert (Hceil : (if neg then (u64 (- Z.quot min radix), u8 (- Z.rem min radix))
    else (Z.quot max radix, u8 (Z.rem max radix))) = (limit / radix, limit mod radix)).
  { destruct (quot_limit limit radix Hlim) as [H1 H2]; [lia|]. unfold limit in *. destruct neg.
    - rewrite <- Z.quot_opp_l, <- Z.rem_opp_l by lia. rewrite H2, H1, uN_small; [done|].
      unfold in_unsigned. pose proof (Z.div_pos (- min) radix). split; [lia|].
      assert (- min / radix <= - min) by (apply Z.div_le_upper_bound; nia). lia.
    - by rewrite H1, H2. }
  rewrite Hceil.
  pose proof (parse_digits_ok radix limit s2 0 0 false false) as Hd.
  pose proof (span_digits_range radix s2) as Hrange.
  destruct (span_digits radix s2) as [ds rest]. destruct Hd as (v & -> & Hv); [lia..|].
  cbn [orb]. f_equal.
  assert (Hnn : 0 <= horner radix 0 ds).
  { apply (horner_mono radix 0 ds); [lia..|]. eapply list.Forall_impl; [exact Hrange|]. simpl. lia. }
  set (V := horner radix 0 ds) in *. unfold saturate, limit in *.
  destruct (Z.leb_spec V (if neg then - min else max)) as [Hle|Hgt]; cbn [negb].
  - rewrite (Hv Hle). destruct neg.
    + rewrite (proj2 (Z.leb_le _ _)), (proj2 (Z.leb_le _ _)) by lia. simpl.
      by rewrite Hconv by lia.
    + rewrite (proj2 (Z.leb_le _ _)), (proj2 (Z.leb_le _ _)) by lia. simpl.
      rewrite <- (uN_small 64 V) at 1 by (unfold in_unsigned; lia). by rewrite Hconv by lia.
  - rewrite Hun. destruct neg; cbn [negb].
    + rewrite (proj2 (Z.leb_gt _ _)) by lia. rewrite (proj2 (Z.ltb_lt (- V) 0)) by lia. simpl.
      rewrite orb_false_r. destruct (Z.eqb_spec min 0), (Z.ltb_spec min 0); try lia; done.
    + rewrite (proj2 (Z.leb_gt V max)) by lia. rewrite andb_false_r. simpl.
      rewrite orb_true_r, (proj2 (Z.ltb_ge V 0)) by lia. done.
Qed.

Lemma strtoint_spec_range min max allow base s str :
  min <= 0 <= max ->
  min <= (strtoint_result str (strtoint_spec min max allow base s)).1.1 <= max.
Proof.
  intros Hm. unfold strtoint_spec. destruct (split_sign allow s) as [neg s1].
  destruct (split_base base s1) as [radix s2]. destruct (_ && _); [|done].
  destruct (span_digits radix s2) as [ds rest]. simpl. unfold saturate.
  generalize (if neg then - horner radix 0 ds else horner radix 0 ds). intros x.
  destruct ((min <=? x) && _) eqn:E; [zprop; lia|]. destruct ((x <? 0) && _); lia.
Qed.

(** *** White space *)

(** Character sets that extend US-ASCII. *)
Class AsciiCompatible (C : lc_ctype) : Prop :=
  ascii_single c : 0 <= c < 128 -> c32tomb C c = Some [c].

#[export] Instance utf_8_ascii : AsciiCompatible ctype_utf_8.
Proof.
  intros c Hc. cbn [c32tomb ctype_utf_8]. rewrite utf_8_c32tomb_spec by lia.
  unfold is_scalar, utf_8_encode. zcases; done.
Qed.

#[export] Instance us_ascii_ascii : AsciiCompatible ctype_us_ascii.
Proof.
  intros c Hc. simpl. unfold us_ascii_c32tomb, SCHAR_MAX.
  rewrite (proj2 (Z.ltb_ge _ _)), uN_small by (unfold in_unsigned; lia). done.
Qed.

(** An ASCII character that is not white space. *)
Definition starts_plain (body : list Z) : Prop :=
  match body with [] => True | c :: _ => 0 <= c < 128 /\ iswspace c = false end.

Definition ascii_space (c : Z) : Prop := 0 <= c < 128 /\ iswspace c = true.

Section WhiteSpace.
  Context (C : lc_ctype) `{!CtypeLaws C} `{!AsciiCompatible C}.

Lemma peek_char_ascii f c s : 0 <= c < 128 -> peek s 0 = Some c ->
  peek_char (S f) C s 0 mbstate_init = Some (MbChar 1 c, 1%nat, mbstate_init).
Proof.
  intros Hc Hp. cbn [peek_char]. rewrite Hp. cbn [mbind option_bind].
  change [c] with ([c] ++ []).
  rewrite (law_decode c [c] [] 1) by (lia || (simpl; lia) || by apply ascii_single). done.
Qed.

Lemma skip_whitespace_ok fuel ws body :
  Forall ascii_space ws -> starts_plain body -> (length ws < fuel)%nat ->
  skip_whitespace fuel C (ws ++ body) mbstate_init = Some body.
Proof.
  intros Hws Hb. revert fuel. induction Hws as [|c ws [Hc Hsp] Hws IH]; intros [|fuel] Hf;
    try (simpl in Hf; lia); cbn [skip_whitespace app].
  - assert (exists c, 0 <= c < 128 /\ peek body 0 = Some c /\ iswspace c = false) as (c & Hc & Hp & Hsp).
    { destruct body as [|c body]; [by exists 0|]. destruct Hb. by exists c. }
    rewrite (peek_char_ascii _ c) by done. cbn [mbind option_bind]. by rewrite Hsp.
  - rewrite (peek_char_ascii _ c) by done. cbn [mbind option_bind]. rewrite Hsp. simpl.
    apply IH. simpl in Hf. lia.
Qed.

End WhiteSpace.

(** *** Decoding a byte at a time *)

(** What the byte-wise loop of parser_whitespace.h needs of a character set
    beyond [CtypeLaws]: a character may be decoded byte by byte through the
    state, an error is not undone by further bytes, and the null byte never
    continues a character. *)
Class ByteWise (C : lc_ctype) : Prop := {
  bw_split s b st :
    Forall byte s -> byte b -> s <> [] ->
    mbtoc32 C s (Z.of_nat (length s)) mbstate_init = Some (MbIncomplete, st) ->
    mbtoc32 C (s ++ [b]) (Z.of_nat (length s) + 1) mbstate_init
      = resume (Z.of_nat (length s)) mbstate_init (mbtoc32 C [b] 1 st);
  bw_error s rest st :
    Forall byte (s ++ rest) ->
    mbtoc32 C s (Z.of_nat (length s)) mbstate_init = Some (MbError, st) ->
    exists st', mbtoc32 C (s ++ rest) (Z.of_nat (length (s ++ rest))) mbstate_init
                  = Some (MbError, st');
  bw_nul s st :
    Forall byte s -> s <> [] ->
    mbtoc32 C s (Z.of_nat (length s)) mbstate_init = Some (MbIncomplete, st) ->
    exists st', mbtoc32 C [0] 1 st = Some (MbError, st') }.

Lemma utf_8_continue_error s rest n m pos bl pa lo ps st :
  utf_8_continue s n pos bl pa lo ps = Some (MbError, st) -> n <= m ->
  utf_8_continue (s ++ rest) m pos bl pa lo ps = Some (MbError, st).
Proof.
  revert n m pos bl pa. induction s as [|b s IH]; intros n m pos bl pa H Hm; simpl in *.
  - destruct (n <=? 0); done.
  - destruct (Z.leb_spec n 0); [done|]. rewrite (proj2 (Z.leb_gt m 0)) by lia.
    destruct (negb _); [done|]. destruct (_ =? 0); [destruct (_ || _); done|].
    eapply IH; [exact H|lia].
Qed.

Lemma utf_8_mbtoc32_error s rest n m ps st :
  utf_8_mbtoc32 s n ps = Some (MbError, st) -> n <= m ->
  utf_8_mbtoc32 (s ++ rest) m ps = Some (MbError, st).
Proof.
  unfold utf_8_mbtoc32, mbstate_get_multibyte. intros H Hm.
  destruct (Z.ltb_spec n 1); [done|]. rewrite (proj2 (Z.ltb_ge m 1)) by lia.
  destruct (_ =? 0) in *; [|by eapply utf_8_continue_error].
  destruct s as [|b s]; [done|]. simpl in *. destruct (_ =? _) in *; [done|].
  repeat (destruct (_ =? _) in *; [eapply utf_8_continue_error; [exact H|lia]|]). done.
Qed.

#[export] Instance utf_8_bytewise : ByteWise ctype_utf_8.
Proof.
  split; cbn [mbtoc32 ctype_utf_8].
  - intros s b st Hs Hb Hne H. apply (utf_8_mbtoc32_split s [b] 1); [done..|by left|done].
  - intros s rest st _ H. exists st. eapply utf_8_mbtoc32_error; [exact H|].
    rewrite length_app. lia.
  - intros s st Hs Hne H. apply (utf_8_mbtoc32_split s [0] 1) in H as [Hp _]; [|done..|by left].
    exists st. by rewrite utf_8_mbtoc32_continue.
Qed.

(** Character sets that decode a single byte at a time. *)
Lemma single_byte_bytewise (C : lc_ctype) `{!CtypeLaws C} :
  (forall b s n, 1 <= n -> mbtoc32 C (b :: s) n mbstate_init = mbtoc32 C [b] 1 mbstate_init) ->
  (forall b st, mbtoc32 C [b] 1 mbstate_init <> Some (MbIncomplete, st)) ->
  ByteWise C.
Proof.
  intros Hl Hc.
  assert (Hinc : forall (s : list Z) st, s <> [] ->
    mbtoc32 C s (Z.of_nat (length s)) mbstate_init <> Some (MbIncomplete, st)).
  { intros [|b s] st Hne; [done|]. rewrite Hl by (simpl; lia). apply Hc. }
  split; [intros s b st _ _ Hne H; by destruct (Hinc s st)| |intros s st _ Hne H; by destruct (Hinc s st)].
  intros [|b s] rest st _ H; [by rewrite law_empty in H|]. exists st.
  rewrite Hl in H by (simpl; lia). simpl app. by rewrite Hl by (simpl; lia).
Qed.

#[export] Instance us_ascii_bytewise : ByteWise ctype_us_ascii.
Proof.
  apply (single_byte_bytewise _); cbn [mbtoc32 ctype_us_ascii]; unfold us_ascii_mbtoc32.
  - intros b s n Hn. rewrite (proj2 (Z.ltb_ge n 1)) by lia. done.
  - intros b st. simpl. by destruct (SCHAR_MAX <? b).
Qed.

(** *** White space in any character set *)

(** The encodings of white space characters, one after the other. *)
Inductive encoded_spaces (C : lc_ctype) : list Z -> Prop :=
  | no_space : encoded_spaces C []
  | more_space c bs ws : iswspace c = true -> c32tomb C c = Some bs -> encoded_spaces C ws ->
      encoded_spaces C (bs ++ ws).

(** The string starts with no encoding of a white space character. *)
Definition starts_no_space (C : lc_ctype) (body : list Z) : Prop :=
  forall c bs rest, iswspace c = true -> c32tomb C c = Some bs -> body <> bs ++ rest.

Section AnyCharset.
  Context (C : lc_ctype) `{!CtypeLaws C} `{!ByteWise C}.

Definition char_byte (b : Z) : Prop := 1 <= b < 256.

Lemma char_bytes s : Forall char_byte s -> Forall byte s.
Proof. intros H. eapply list.Forall_impl; [exact H|]. unfold char_byte, byte. lia. Qed.

(** The state between two bytes of a character: what one call on the bytes
    read so far would leave. *)
Definition midway (pre : list Z) (mbs : mbstate) : Prop :=
  pre = [] /\ mbs = mbstate_init \/
  pre <> [] /\ mbtoc32 C pre (Z.of_nat (length pre)) mbstate_init = Some (MbIncomplete, mbs).

Lemma midway_step pre b mbs r st : Forall byte pre -> byte b -> midway pre mbs ->
  mbtoc32 C [b] 1 mbs = Some (r, st) ->
  match r with
  | MbChar l c => mbtoc32 C (pre ++ [b]) (Z.of_nat (length (pre ++ [b]))) mbstate_init
                    = Some (MbChar (Z.of_nat (length pre) + l) c, st)
  | MbIncomplete => midway (pre ++ [b]) st
  | MbError => exists st', mbtoc32 C (pre ++ [b]) (Z.of_nat (length (pre ++ [b]))) mbstate_init
                    = Some (MbError, st')
  end.
Proof.
  intros Hpre Hb [[-> ->]|[Hne H]] Hd.
  - simpl app. change (Z.of_nat (length [b])) with 1. destruct r as [l c| |]; [|right; done|by exists st].
    by rewrite Hd.
  - pose proof (bw_split pre b mbs Hpre Hb Hne H) as Hs. rewrite Hd in Hs. rewrite length_app.
    change (length [b]) with 1%nat. rewrite Nat2Z.inj_add. change (Z.of_nat 1) with 1.
    destruct r as [l c| |]; simpl in Hs; [done|right|by eexists].
    split; [by destruct pre|]. rewrite length_app, Nat2Z.inj_add. exact Hs.
Qed.

(** A character that is complete with the last byte is the encoding of that
    character, and it is read in full. *)
Lemma midway_char pre b mbs l c st : Forall byte (pre ++ [b]) -> midway pre mbs ->
  mbtoc32 C (pre ++ [b]) (Z.of_nat (length (pre ++ [b]))) mbstate_init = Some (MbChar l c, st) ->
  st = mbstate_init /\ 0 <= c /\ c32tomb C c = Some (pre ++ [b]) /\ l = Z.of_nat (length (pre ++ [b])).
Proof.
  intros Hs Hm H. apply law_sound in H as (-> & Hc & Hl & bs & rest & He & -> & E); [|done].
  destruct (law_length c bs ltac:(lia) He) as [Hlen _].
  assert (rest = []) as ->.
  { destruct rest as [|x rest _] using rev_ind; [done|]. exfalso. rewrite app_assoc in E. apply app_inj_tail in E as [-> ->].
    destruct Hm as [[Hn _]|[_ H]].
    - apply app_eq_nil in Hn as [-> _]. simpl in Hlen. lia.
    - rewrite (law_decode c bs rest) in H; [done|lia|done|]. rewrite length_app. lia. }
  rewrite app_nil_r in E. subst bs. repeat split; [lia|done].
Qed.

(** Bytes that decode to an error begin no character. *)
Lemma error_no_char s rest st c bs rest' : Forall byte (s ++ rest) ->
  mbtoc32 C s (Z.of_nat (length s)) mbstate_init = Some (MbError, st) ->
  0 <= c -> c32tomb C c = Some bs -> s ++ rest <> bs ++ rest'.
Proof.
  intros Hb H Hc He E. apply app_eq_inv in E as [(k & -> & _)|(k & -> & ->)].
  - rewrite (law_decode c bs k) in H; [done|done|done|]. rewrite length_app. lia.
  - rewrite app_assoc in Hb. apply Forall_app in Hb as [Hb _].
    destruct (bw_error s k st Hb H) as [st' H'].
    rewrite <- (app_nil_r (s ++ k)) in H' at 1. by rewrite (law_decode c (s ++ k) []) in H'.
Qed.

(** The inner loop reads a whole character of the string, its terminator, or
    stops at bytes that begin no character; it never reads past the
    terminator. *)
Lemma peek_char_ok s fuel pre post mbs :
  Forall char_byte s -> s = pre ++ post -> midway pre mbs -> (length post < fuel)%nat ->
  exists r n st, peek_char fuel C s (length pre) mbs = Some (r, n, st) /\
    match r with
    | MbChar l c => l = 1 /\ st = mbstate_init /\ exists bs, c32tomb C c = Some bs /\ n = length bs /\
        (c = 0 /\ s = [] \/ 0 <= c /\ exists rest, s = bs ++ rest)
    | MbIncomplete => False
    | MbError => forall c bs rest, c32tomb C c = Some bs -> 0 <= c -> s <> bs ++ rest
    end.
Proof.
  revert pre post mbs. induction fuel as [|fuel IH]; intros pre post mbs Hs -> Hm Hf; [lia|].
  pose proof (char_bytes _ Hs) as Hbytes. pose proof Hbytes as [Hpre Hpost]%Forall_app.
  cbn [peek_char]. unfold peek at 1. rewrite <- app_assoc, lookup_app_r, Nat.sub_diag by done.
  destruct post as [|b post]; cbn [app lookup list_lookup mbind option_bind].
  - destruct Hm as [[-> ->]|[Hne H]].
    + change [0] with ([0] ++ []) at 1. rewrite (law_decode 0 [0] [] 1) by (done || apply law_nul).
      eexists _, _, _. split; [done|]. repeat (split; [done|]). exists [0]. split; [apply law_nul|]. auto.
    + destruct (bw_nul pre mbs Hpre Hne H) as [st' E]. rewrite E. eexists _, _, _. split; [done|].
      intros c bs rest He Hc EQ. rewrite app_nil_r in *. rewrite EQ, (law_decode c bs rest) in H; [done|done|done|].
      rewrite length_app. lia.
  - destruct (law_total [b] 1 mbs) as [[r st] E]; [done|]. rewrite E. cbn [mbind option_bind].
    apply Forall_cons_1 in Hpost as [Hb Hpost].
    pose proof (midway_step pre b mbs r st Hpre Hb Hm E) as Hstep.
    assert (Hpb : Forall byte (pre ++ [b])) by (apply Forall_app_2; [done|by constructor]).
    assert (EQ : pre ++ b :: post = (pre ++ [b]) ++ post) by (by rewrite <- app_assoc).
    assert (EL : length (pre ++ [b]) = S (length pre)) by (rewrite length_app; simpl; lia).
    destruct r as [l c| |].
    + eexists _, _, _. split; [done|]. apply (midway_char pre b mbs) in Hstep as (-> & Hc & He & Hl); [|done..].
      split; [lia|]. split; [done|]. exists (pre ++ [b]). repeat (split; [done|]). right. split; [done|]. by exists post.
    + rewrite <- EL. apply (IH (pre ++ [b]) post st); [done|done|done|simpl in Hf; lia].
    + eexists _, _, _. split; [done|]. destruct Hstep as [st' H]. intros c bs rest He Hc. rewrite EQ.
      apply (error_no_char _ _ st' c); [by rewrite <- EQ|done..].
Qed.

Lemma iswspace_pos c : iswspace c = true -> 0 < c.
Proof. unfold iswspace, between. rewrite !orb_true_iff. intros H. repeat destruct H as [H|H]; zprop; lia. Qed.

Lemma skip_whitespace_any fuel s : Forall char_byte s -> (length s < fuel)%nat ->
  exists ws body, s = ws ++ body /\ encoded_spaces C ws /\ starts_no_space C body /\
    skip_whitespace fuel C s mbstate_init = Some body.
Proof.
  revert s. induction fuel as [|fuel IH]; intros s Hs Hf; [lia|]. cbn [skip_whitespace].
  destruct (peek_char_ok s (S (length s)) [] s mbstate_init) as (r & n & st & E & Hr); [done|done|by left|lia|].
  change (length (@nil Z)) with 0%nat in E. rewrite E. cbn [mbind option_bind].
  assert (Hstop : starts_no_space C s -> exists ws body, s = ws ++ body /\ encoded_spaces C ws /\
    starts_no_space C body /\ Some s = Some body) by (intros ?; exists [], s; eauto using no_space).
  destruct r as [l c| |]; [|done|].
  - destruct Hr as (-> & -> & bs & He & -> & Hc). simpl orb. destruct (iswspace c) eqn:Esp; cbn [negb].
    + destruct Hc as [[-> _]|[Hc [rest ->]]]; [done|]. rewrite drop_app_length.
      destruct (law_length c bs Hc He) as [Hlen _]. rewrite length_app in Hf.
      apply Forall_app in Hs as [_ Hs]. destruct (IH rest) as (ws & body & -> & Hws & Hb & E'); [done|lia|].
      exists (bs ++ ws), body. rewrite app_assoc. eauto using more_space.
    + apply Hstop. intros c' bs' rest' Hsp' He' EQ. pose proof (iswspace_pos c' Hsp').
      destruct Hc as [[-> ->]|[Hc [rest EQ']]].
      * symmetry in EQ. apply app_eq_nil in EQ as [-> _]. destruct (law_length c' [] ltac:(lia) He') as [? _]. simpl in *. lia.
      * pose proof (law_decode c bs rest (Z.of_nat (length s)) Hc He) as D1.
        pose proof (law_decode c' bs' rest' (Z.of_nat (length s)) ltac:(lia) He') as D2.
        rewrite <- EQ in D2. rewrite <- EQ' in D1. rewrite D1 in D2 by (rewrite EQ', length_app; lia).
        specialize (D2 ltac:(rewrite EQ, length_app; lia)). congruence.
  - apply Hstop. intros c bs rest Hsp He. pose proof (iswspace_pos c Hsp). apply (Hr c bs rest He). lia.
Qed.

Lemma strtoint_any str base : Forall char_byte str ->
  exists ws body, str = ws ++ body /\ encoded_spaces C ws /\ starts_no_space C body /\
    forall T, int_ok T (NUMERIC_MIN T) (NUMERIC_MAX T) -> strtoint T C str base
      = Some (strtoint_result str (strtoint_spec (NUMERIC_MIN T) (NUMERIC_MAX T) true base body)).
Proof.
  intros Hs. destruct (skip_whitespace_any (S (length str)) str) as (ws & body & E & Hws & Hb & H); [done|lia|].
  exists ws, body. repeat (split; [done|]). intros T HT. unfold strtoint. rewrite H. cbn [mbind option_bind].
  by rewrite parse_strtoint_ok.
Qed.

Lemma skip_whitespace_wide_any s :
  exists ws, s = ws ++ skip_whitespace_wide s /\ Forall (fun c => iswspace c = true) ws /\
    match skip_whitespace_wide s with [] => True | c :: _ => iswspace c = false end.
Proof.
  induction s as [|c s (ws & E & Hws & Hb)]; simpl; [by exists []|].
  destruct (iswspace c) eqn:Ec; [|by exists []]. exists (c :: ws). split; [simpl; congruence|]. auto.
Qed.

Lemma wcstoint_any T str base : int_ok T (NUMERIC_MIN T) (NUMERIC_MAX T) ->
  wcstoint T str base = Some (strtoint_result str
    (strtoint_spec (NUMERIC_MIN T) (NUMERIC_MAX T) true base (skip_whitespace_wide str))).
Proof. intros HT. unfold wcstoint. by rewrite parse_strtoint_ok. Qed.

(** ** Properties *)

(** C12: strtol, strtoll, strtoimax and the unsigned strtoul, strtoull and
    strtoumax on every null-terminated byte string, whatever bytes it holds, in
    every character set with [CtypeLaws] and [ByteWise], and their wide variants
    on every wide string.  The encodings of white space characters (of all of
    Unicode) in front are skipped, and nothing else is: bytes that form no
    character end them.  Then, after an optional sign and, for base 0 or 16, an
    optional "0x" before a hexadecimal digit, the longest run of digits of the
    base is read, without reading past the terminator; the result is its exact
    value, with ERANGE and the nearest limit of the type exactly when that is
    outside the type, and EINVAL with the end pointer at the start of the string
    when there are no digits or the base is none of 0 and 2 to 36.  For the
    unsigned variants negative numerals are out of range. *)
Theorem strtoint_correct (str wstr : list Z) (base : Z) (Hstr : Forall char_byte str) :
  (exists ws body, str = ws ++ body /\ encoded_spaces C ws /\ starts_no_space C body /\
     let signed := strtoint_result str (strtoint_spec LONG_MIN LONG_MAX true base body) in
     let unsigned := strtoint_result str (strtoint_spec 0 ULONG_MAX true base body) in
     strtol_l C str base = Some signed /\ strtoll_l C str base = Some signed /\
     strtoimax_l C str base = Some signed /\ strtoul_l C str base = Some unsigned /\
     strtoull_l C str base = Some unsigned /\ strtoumax_l C str base = Some unsigned /\
     LONG_MIN <= signed.1.1 <= LONG_MAX /\ 0 <= unsigned.1.1 <= ULONG_MAX) /\
  (exists ws body, wstr = ws ++ body /\ Forall (fun c => iswspace c = true) ws /\
     match body with [] => True | c :: _ => iswspace c = false end /\
     let signed := strtoint_result wstr (strtoint_spec LONG_MIN LONG_MAX true base body) in
     let unsigned := strtoint_result wstr (strtoint_spec 0 ULONG_MAX true base body) in
     wcstol wstr base = Some signed /\ wcstoll wstr base = Some signed /\
     wcstoimax wstr base = Some signed /\ wcstoul wstr base = Some unsigned /\
     wcstoull wstr base = Some unsigned /\ wcstoumax wstr base = Some unsigned /\
     LONG_MIN <= signed.1.1 <= LONG_MAX /\ 0 <= unsigned.1.1 <= ULONG_MAX).
Proof.
  assert (Hr : forall s body, let signed := strtoint_result s (strtoint_spec LONG_MIN LONG_MAX true base body) in
    let unsigned := strtoint_result s (strtoint_spec 0 ULONG_MAX true base body) in
    LONG_MIN <= signed.1.1 <= LONG_MAX /\ 0 <= unsigned.1.1 <= ULONG_MAX).
  { intros s body signed unsigned. unfold signed, unsigned.
    split; apply strtoint_spec_range; unfold LONG_MIN, LONG_MAX, ULONG_MAX; lia. }
  split.
  - destruct (strtoint_any str base Hstr) as (ws & body & E & Hws & Hb & H). exists ws, body.
    repeat (split; [done|]). pose proof (H _ int_ok_long) as H1. pose proof (H _ int_ok_unsigned_long) as H2.
    intros signed unsigned. repeat (split; [assumption|]). apply Hr.
  - destruct (skip_whitespace_wide_any wstr) as (ws & E & Hws & Hb). exists ws, (skip_whitespace_wide wstr).
    repeat (split; [done|]). pose proof (wcstoint_any _ wstr base int_ok_long) as H1.
    pose proof (wcstoint_any _ wstr base int_ok_unsigned_long) as H2.
    intros signed unsigned. repeat (split; [assumption|]). apply Hr.
Qed.
End AnyCharset.

(** An ideographic space, U+3000, in UTF-8 before the numeral. *)
Lemma strtoint_correct_witness :
  (exists ws body, [227; 128; 128; 32; 45; 52; 50; 66] = ws ++ body /\ encoded_spaces ctype_utf_8 ws /\
     starts_no_space ctype_utf_8 body) /\
  strtol_l ctype_utf_8 [227; 128; 128; 32; 45; 52; 50; 66] 10 = Some (-42, None, [66]) /\
  strtoul_l ctype_utf_8 [227; 128; 128; 32; 45; 52; 50; 66] 10 = Some (ULONG_MAX, Some ERANGE, [66]).
Proof.
  assert (Hstr : Forall char_byte [227; 128; 128; 32; 45; 52; 50; 66])
    by (repeat constructor; vm_compute; discriminate).
  destruct (strtoint_correct ctype_utf_8 _ [] 10 Hstr) as [(ws & body & E & Hws & Hb & _) _].
  split; [by exists ws, body|]. split; vm_compute; reflexivity.
Defined.
