(* ===== verification/Printf.v ===== *)
(** * Formatted output: vsnprintf

    Sources: src/common/vprintf.h (VSNPRINTF style, narrow characters),
    vprintf_body.h, vprintscanf.h and the numeric grouping of
    src/common/locale.h.

    Modelled are formats without numbered arguments and all conversions but
    the floating point ones and %m.  The arguments are the list of values
    va_arg will deliver; taking one at another type, or reading past the end of
    the format, is [None], and so is a conversion that is not modelled.  What a
    conversion writes is the list of characters it passes to PUTCHAR. *)

From S2P Require Import Prelude Charset StrToInt.

#[local] Open Scope Z_scope.
#[local] Ltac Zify.zify_post_hook ::= Z.to_euclidean_division_equations.

(** ** Digit grouping (locale.h)

    A grouping string is its list of signed chars, which must not be empty
    where one is read; the position in it is an index. *)

Definition SIZE_MAX : Z := 2 ^ 64 - 1.

Record numeric_grouping := NumericGrouping {
  ng_grouping : Z;         (* index into the grouping string *)
  ng_steps : Z;
  ng_repetitions : Z
}.

Fixpoint numeric_grouping_loop (g : list Z) (i ndigits ngroupings : Z)
  : option (numeric_grouping * Z) :=
  match g with
  | [] => None
  | x :: g' =>
      if (x <? 0) || (ndigits <=? x) then Some (NumericGrouping i ndigits 0, ngroupings)
      else
        match g' with
        | [] => Some (NumericGrouping i ((ndigits - 1) mod x + 1) ((ndigits - 1) / x),
                      ngroupings + (ndigits - 1) / x)
        | _ => numeric_grouping_loop g' (i + 1) (ndigits - x) (ngroupings + 1)
        end
  end.

Definition numeric_grouping_init (grouping : option (list Z)) (ndigits : Z)
  : option (numeric_grouping * Z) :=
  match grouping with
  | Some ((_ :: _) as g) =>
      if ndigits <=? 1 then Some (NumericGrouping 0 SIZE_MAX 0, 0)
      else numeric_grouping_loop g 0 ndigits 0
  | _ => Some (NumericGrouping 0 SIZE_MAX 0, 0)
  end.

Definition numeric_grouping_step (grouping : option (list Z)) (ng : numeric_grouping)
  : option (bool * numeric_grouping) :=
  if negb (ng_steps ng =? 0) then
    Some (false, NumericGrouping (ng_grouping ng) (ng_steps ng - 1) (ng_repetitions ng))
  else
    let '(i, reps) :=
      if negb (ng_repetitions ng =? 0) then (ng_grouping ng, ng_repetitions ng - 1)
      else (ng_grouping ng - 1, ng_repetitions ng) in
    if i <? 0 then None
    else
      g ← grouping;
      x ← g !! Z.to_nat i;
      if x <=? 0 then None else Some (true, NumericGrouping i (x - 1) reps).

(** ** Parsing the format (vprintscanf.h) *)

Definition is_digit (c : Z) : bool := between c_0 c c_9.

(** The value of a run of digits, an int: overflow is undefined. *)
Fixpoint get_number_loop (fmt : list Z) (value : Z) : option (Z * list Z) :=
  match fmt with
  | c :: fmt' =>
      if is_digit c then
        if INT_MAX <? value * 10 + c then None else get_number_loop fmt' (value * 10 + c - c_0)
      else Some (value, fmt)
  | [] => Some (value, [])
  end.

Definition get_number (fmt : list Z) : option (Z * list Z) := get_number_loop fmt 0.

(** "n$": 0 when there is none. *)
Fixpoint get_numarg_loop (fmt : list Z) (value : Z) : Z * list Z :=
  match fmt with
  | c :: fmt' => if is_digit c then get_numarg_loop fmt' (u64 (value * 10 + c - c_0)) else (value, fmt)
  | [] => (value, [])
  end.

Definition get_numarg (fmt : list Z) : Z * list Z :=
  match fmt with
  | c :: _ =>
      if between (c_0 + 1) c c_9 then
        match get_numarg_loop fmt 0 with
        | (value, 36 :: fmt') => (value, fmt')
        | _ => (0, fmt)
        end
      else (0, fmt)
  | [] => (0, fmt)
  end.

Inductive length_modifier :=
  LM_SHORT_SHORT | LM_SHORT | LM_DEFAULT | LM_LONG | LM_LONG_LONG | LM_LONG_DOUBLE.

Definition get_length_modifier (fmt : list Z) : length_modifier * list Z :=
  match fmt with
  | 104 :: 104 :: f => (LM_SHORT_SHORT, f)       (* hh *)
  | 104 :: f => (LM_SHORT, f)                    (* h *)
  | 108 :: 108 :: f => (LM_LONG_LONG, f)         (* ll *)
  | 108 :: f => (LM_LONG, f)                     (* l *)
  | 106 :: f => (LM_LONG, f)                     (* j: intmax_t *)
  | 122 :: f => (LM_LONG, f)                     (* z: size_t *)
  | 116 :: f => (LM_LONG, f)                     (* t: ptrdiff_t *)
  | 76 :: f => (LM_LONG_DOUBLE, f)               (* L *)
  | _ => (LM_DEFAULT, fmt)
  end.

(** The conversion specifiers "diouxXfFeEgGaAcspCS%m". *)
Definition specifiers : list Z :=
  [100; 105; 111; 117; 120; 88; 102; 70; 101; 69; 103; 71; 97; 65; 99; 115; 112; 67; 83; 37; 109].

(** strchr also finds the terminator. *)
Definition is_specifier (c : Z) : bool := bool_decide (c ∈ specifiers) || (c =? 0).

(** The scan over field width and precision in get_numarg_max. *)
Fixpoint numarg_scan (fuel : nat) (fmt : list Z) (max_numarg : Z) : option (option (Z * list Z)) :=
  match fuel with
  | O => None
  | S fuel =>
      match fmt with
      | [] => Some (Some (max_numarg, []))
      | c :: fmt' =>
          if is_specifier c then Some (Some (max_numarg, fmt))
          else if c =? 42 then                   (* '*' *)
            let '(numarg, fmt') := get_numarg fmt' in
            if numarg =? 0 then Some None
            else numarg_scan fuel fmt' (Z.max max_numarg numarg)
          else numarg_scan fuel fmt' max_numarg
      end
  end.

Fixpoint get_numarg_max_loop (fuel : nat) (fmt : list Z) (max_numarg : Z) : option Z :=
  match fuel with
  | O => None
  | S fuel =>
      match fmt with
      | [] => Some max_numarg
      | c :: fmt =>
          if c =? 37 then
            let '(numarg, fmt) := get_numarg fmt in
            let got_numarg := 0 <? numarg in
            r ← numarg_scan (S (length fmt)) fmt (Z.max max_numarg numarg);
            match r with
            | None => Some 0
            | Some (max_numarg, fmt) =>
                let c := default 0 (head fmt) in
                if negb (c =? 37) && negb (c =? 109) && negb got_numarg then Some 0
                else get_numarg_max_loop fuel fmt max_numarg
            end
          else get_numarg_max_loop fuel fmt max_numarg
      end
  end.

Definition get_numarg_max (fmt : list Z) : option Z := get_numarg_max_loop (S (length fmt)) fmt 0.

(** ** Arguments

    An argument of the call is a 32-bit or a 64-bit integer, or a pointer with
    what it points to; [va_arg] at another size or kind is [None]. *)

Inductive pointee := PChars (mem : list Z) | PWchars (mem : list Z) | POpaque.

Inductive arg :=
  | ArgInt (v : Z)
  | ArgLong (v : Z)
  | ArgPointer (addr : Z) (p : pointee).

Definition va_int (args : list arg) : option (Z * list arg) :=
  match args with ArgInt v :: args => Some (s32 v, args) | _ => None end.

Definition va_long (args : list arg) : option (Z * list arg) :=
  match args with ArgLong v :: args => Some (s64 v, args) | _ => None end.

Definition va_pointer (args : list arg) : option (Z * list arg) :=
  match args with ArgPointer a _ :: args => Some (u64 a, args) | _ => None end.

(** A null pointer is [None]. *)
Definition va_string (args : list arg) : option (option (list Z) * list arg) :=
  match args with
  | ArgPointer a p :: args =>
      if u64 a =? 0 then Some (None, args)
      else match p with PChars mem => Some (Some mem, args) | _ => None end
  | _ => None
  end.

Definition va_wstring (args : list arg) : option (option (list Z) * list arg) :=
  match args with
  | ArgPointer a p :: args =>
      if u64 a =? 0 then Some (None, args)
      else match p with PWchars mem => Some (Some mem, args) | _ => None end
  | _ => None
  end.

Definition GET_ARG_SINT_LM (lm : length_modifier) (args : list arg) : option (Z * list arg) :=
  match lm with
  | LM_SHORT_SHORT => '(v, args) ← va_int args; Some (s8 v, args)
  | LM_SHORT => '(v, args) ← va_int args; Some (s16 v, args)
  | LM_LONG | LM_LONG_LONG => va_long args
  | _ => va_int args
  end.

Definition GET_ARG_UINT_LM (lm : length_modifier) (args : list arg) : option (Z * list arg) :=
  match lm with
  | LM_SHORT_SHORT => '(v, args) ← va_int args; Some (u8 v, args)
  | LM_SHORT => '(v, args) ← va_int args; Some (u16 v, args)
  | LM_LONG | LM_LONG_LONG => '(v, args) ← va_long args; Some (u64 v, args)
  | _ => '(v, args) ← va_int args; Some (u32 v, args)
  end.

(** ** The conversions (vprintf_body.h) *)

(** The fields of lc_numeric the conversions use. *)
Record lc_numeric := LcNumeric { thousands_sep : Z; grouping : option (list Z) }.

Record flags := Flags {
  use_grouping : option (list Z);
  positive_sign : Z;
  left_justified : bool;
  alternative_form : bool;
  zero_padding : bool
}.

Fixpoint parse_flags (numeric : lc_numeric) (fmt : list Z) (fl : flags) : flags * list Z :=
  let '(Flags g p l a z) := fl in
  match fmt with
  | 39 :: fmt => parse_flags numeric fmt (Flags (grouping numeric) p l a z)
  | 45 :: fmt => parse_flags numeric fmt (Flags g p true a z)
  | 43 :: fmt => parse_flags numeric fmt (Flags g c_plus l a z)
  | 32 :: fmt => parse_flags numeric fmt (Flags g (if p =? c_plus then p else 32) l a z)
  | 35 :: fmt => parse_flags numeric fmt (Flags g p l true z)
  | 48 :: fmt => parse_flags numeric fmt (Flags g p l a true)
  | _ => (Flags g p l a (if l then false else z), fmt)
  end.

(** The field width, a size_t: a negative argument is converted. *)
Definition parse_field_width (fmt : list Z) (args : list arg) : option (Z * list Z * list arg) :=
  match fmt with
  | 42 :: fmt => '(v, args) ← va_int args; Some (u64 v, fmt, args)
  | _ => '(v, fmt) ← get_number fmt; Some (v, fmt, args)
  end.

Definition parse_precision (fmt : list Z) (args : list arg) : option (Z * list Z * list arg) :=
  match fmt with
  | 46 :: 42 :: fmt => '(v, args) ← va_int args; Some (v, fmt, args)
  | 46 :: fmt => '(v, fmt) ← get_number fmt; Some (v, fmt, args)
  | _ => Some (-1, fmt, args)
  end.

(** PAD_TO_FIELD_WIDTH: what it prints and the field width that is left. *)
Definition PAD_TO_FIELD_WIDTH (field_width width padding : Z) : list Z * Z :=
  (replicate (Z.to_nat (field_width - width)) padding, Z.min field_width width).

(** Non-null characters of the prefix. *)
Definition SET_NUMBER_PREFIX (str : list Z) : list Z := filter (fun c => c <> 0) str.

Definition charset_lower : list Z :=
  [48; 49; 50; 51; 52; 53; 54; 55; 56; 57; 97; 98; 99; 100; 101; 102].
Definition charset_upper : list Z :=
  [48; 49; 50; 51; 52; 53; 54; 55; 56; 57; 65; 66; 67; 68; 69; 70].

(** The digits, written downwards into a buffer with [room] bytes left. *)
Fixpoint digits_loop (room : nat) (charset : list Z) (base value : Z) (digits : list Z)
  : option (list Z) :=
  match room with
  | O => None
  | S room =>
      c ← charset !! Z.to_nat (value mod base);
      if value / base =? 0 then Some (c :: digits)
      else digits_loop room charset base (value / base) (c :: digits)
  end.

Fixpoint print_digits (g : option (list Z)) (sep : Z) (ng : numeric_grouping) (digits : list Z)
  : option (list Z) :=
  match digits with
  | [] => Some []
  | d :: digits =>
      '(add_sep, ng) ← numeric_grouping_step g ng;
      rest ← print_digits g sep ng digits;
      Some (if (add_sep : bool) then sep :: d :: rest else d :: rest)
  end.

(** LABEL(integer). *)
Definition print_integer (numeric : lc_numeric) (fl : flags) (field_width precision : Z)
  (number_prefix charset : list Z) (integer_base integer_value : Z) : option (list Z) :=
  digits ← digits_loop 24 charset integer_base integer_value [];
  let ndigits := Z.of_nat (length digits) in
  '(ng, ngroupings) ← numeric_grouping_init (use_grouping fl) ndigits;
  let width := ndigits + ngroupings in
  let width := if width <? precision then precision else width in
  let width := width + Z.of_nat (length number_prefix) in
  let '(lead, field_width) :=
    if zero_padding fl && (precision <? 0) then
      let '(pad, fw) := PAD_TO_FIELD_WIDTH field_width width c_0 in (number_prefix ++ pad, fw)
    else
      let '(pad, fw) :=
        if negb (left_justified fl) then PAD_TO_FIELD_WIDTH field_width width 32
        else ([], field_width) in (pad ++ number_prefix, fw) in
  if precision =? INT_MIN then None              (* precision-- overflows *)
  else
    let zeros := replicate (Z.to_nat (precision - ndigits)) c_0 in
    body ← print_digits (use_grouping fl) (u8 (thousands_sep numeric)) ng digits;
    let '(trail, _) := PAD_TO_FIELD_WIDTH field_width width 32 in
    Some (lead ++ zeros ++ body ++ trail).

(** The characters of a string before its terminator, [limit] at most; the
    memory behind the pointer may end after those. *)
Fixpoint string_chars (mem : list Z) (limit : Z) : option (list Z) :=
  if limit =? 0 then Some []
  else
    match mem with
    | [] => None
    | c :: mem => if c =? 0 then Some [] else s ← string_chars mem (limit - 1); Some (c :: s)
    end.

Definition null_string : list Z := [40; 110; 117; 108; 108; 41; 0].    (* "(null)" *)

(** LABEL(string). *)
Definition print_string (fl : flags) (field_width precision : Z) (string : option (list Z))
  : option (list Z) :=
  s ← string_chars (default null_string string) (u64 precision);
  let '(pad, _) := PAD_TO_FIELD_WIDTH field_width (Z.of_nat (length s)) 32 in
  Some (if left_justified fl then s ++ pad else pad ++ s).

(** What a conversion prints, and false if it fails after that. *)
Definition output : Type := list Z * bool.

(** The loop of the left-justified case: output and final width. *)
Fixpoint wstring_left (C : lc_ctype) (mem : list Z) (precision width : Z)
  : option (output * Z) :=
  if precision <=? width then Some (([], true), width)
  else
    match mem with
    | [] => None
    | w :: mem =>
        if w =? 0 then Some (([], true), width)
        else
          match c32tomb C (u32 w) with
          | None => Some (([], false), width)
          | Some buf =>
              let len := Z.of_nat (length buf) in
              if precision <? width + len then Some (([], true), width)
              else
                '((s, ok), width) ← wstring_left C mem precision (width + len);
                Some ((buf ++ s, ok), width)
          end
    end.

(** The first loop of the right-justified case: the characters up to
    wstring_end and the width, or a failure. *)
Fixpoint wstring_measure (C : lc_ctype) (mem : list Z) (precision width : Z)
  : option (option (list Z * Z)) :=
  if precision <=? width then Some (Some ([], width))
  else
    match mem with
    | [] => None
    | w :: mem =>
        if w =? 0 then Some (Some ([], width))
        else
          match c32tomb C (u32 w) with
          | None => Some None
          | Some buf =>
              let len := Z.of_nat (length buf) in
              if precision <? width + len then Some (Some ([w], width))
              else
                r ← wstring_measure C mem precision (width + len);
                Some ('(ws, width) ← r; Some (w :: ws, width))
          end
    end.

(** LABEL(wstring). *)
Definition print_wstring (C : lc_ctype) (fl : flags) (field_width precision : Z)
  (wstring : option (list Z)) : option output :=
  let mem := default null_string wstring in
  if left_justified fl then
    '((s, ok), width) ← wstring_left C mem (u64 precision) 0;
    if (ok : bool) then Some (s ++ (PAD_TO_FIELD_WIDTH field_width width 32).1, true)
    else Some (s, false)
  else
    r ← wstring_measure C mem (u64 precision) 0;
    match r with
    | None => Some ([], false)
    | Some (ws, width) =>
        Some ((PAD_TO_FIELD_WIDTH field_width width 32).1
              ++ concat (map (fun w => default [] (c32tomb C (u32 w))) ws), true)
    end.

(** The floating point conversions and %m (not modelled), %c %s %p %C %S and %%.
    wstring_buf is two elements of which only the first is initialised. *)
Definition print_conversion_text (C : lc_ctype) (numeric : lc_numeric) (fl : flags)
  (field_width precision : Z) (length_ : length_modifier) (specifier : Z) (args : list arg)
  : option (output * list arg) :=
  if bool_decide (specifier ∈ [102; 101; 103; 97; 70; 69; 71; 65; 109]) then None
  else if specifier =? 99 then                             (* c *)
    '(v, args) ← va_int args;
    match length_ with
    | LM_LONG => o ← print_wstring C fl field_width precision (Some [v]); Some (o, args)
    | _ => s ← print_string fl field_width precision (Some [u8 v; 0]); Some ((s, true), args)
    end
  else if specifier =? 115 then                            (* s *)
    match length_ with
    | LM_LONG =>
        '(w, args) ← va_wstring args; o ← print_wstring C fl field_width precision w; Some (o, args)
    | _ =>
        '(s, args) ← va_string args; s ← print_string fl field_width precision s; Some ((s, true), args)
    end
  else if specifier =? 112 then                            (* p *)
    '(v, args) ← va_pointer args;
    s ← print_integer numeric fl field_width precision (SET_NUMBER_PREFIX [c_0; c_x]) charset_lower 16 v;
    Some ((s, true), args)
  else if specifier =? 67 then                             (* C *)
    '(v, args) ← va_int args; o ← print_wstring C fl field_width precision (Some [v]); Some (o, args)
  else if specifier =? 83 then                             (* S *)
    '(w, args) ← va_wstring args; o ← print_wstring C fl field_width precision w; Some (o, args)
  else if specifier =? 37 then Some (([37], true), args)   (* % *)
  else Some (([], true), args).

(** The switch on the specifier: %d %i %o %u %x %X and the others. *)
Definition print_conversion (C : lc_ctype) (numeric : lc_numeric) (fl : flags)
  (field_width precision : Z) (length_ : length_modifier) (specifier : Z) (args : list arg)
  : option (output * list arg) :=
  let charset := if c_a <=? specifier then charset_lower else charset_upper in
  let integer prefix base v args :=
    s ← print_integer numeric fl field_width precision prefix charset base v;
    Some ((s, true), args) in
  let alternative prefix v :=
    if alternative_form fl && negb (v =? 0) then SET_NUMBER_PREFIX prefix else [] in
  if (specifier =? 100) || (specifier =? 105) then        (* d, i *)
    '(value, args) ← GET_ARG_SINT_LM length_ args;
    if 0 <=? value then integer (SET_NUMBER_PREFIX [positive_sign fl]) 10 value args
    else if value =? LONG_MIN then None                    (* -value overflows *)
    else integer (SET_NUMBER_PREFIX [c_minus]) 10 (- value) args
  else if specifier =? 111 then                            (* o *)
    '(v, args) ← GET_ARG_UINT_LM length_ args; integer (alternative [c_0] v) 8 v args
  else if specifier =? 117 then                            (* u *)
    '(v, args) ← GET_ARG_UINT_LM length_ args; integer [] 10 v args
  else if specifier =? 120 then                            (* x *)
    '(v, args) ← GET_ARG_UINT_LM length_ args; integer (alternative [c_0; c_x] v) 16 v args
  else if specifier =? 88 then                             (* X *)
    '(v, args) ← GET_ARG_UINT_LM length_ args; integer (alternative [c_0; c_X] v) 16 v args
  else print_conversion_text C numeric fl field_width precision length_ specifier args.

(** One directive, after its percent sign. *)
Definition print_directive (C : lc_ctype) (numeric : lc_numeric) (fmt : list Z) (args : list arg)
  : option (output * list Z * list arg) :=
  let '(fl, fmt) := parse_flags numeric fmt (Flags None 0 false false false) in
  '(field_width, fmt, args) ← parse_field_width fmt args;
  '(precision, fmt, args) ← parse_precision fmt args;
  let '(length_, fmt) := get_length_modifier fmt in
  match fmt with
  | [] => None                                             (* past the terminator *)
  | specifier :: fmt =>
      '(o, args) ← print_conversion C numeric fl field_width precision length_ specifier args;
      Some (o, fmt, args)
  end.

Fixpoint vprintf_body (fuel : nat) (C : lc_ctype) (numeric : lc_numeric) (fmt : list Z)
  (args : list arg) : option output :=
  match fuel with
  | O => None
  | S fuel =>
      match fmt with
      | [] => Some ([], true)
      | 37 :: fmt =>
          '((s, ok), fmt, args) ← print_directive C numeric fmt args;
          if (ok : bool) then
            '(s', ok) ← vprintf_body fuel C numeric fmt args; Some (s ++ s', ok)
          else Some (s, false)
      | c :: fmt => '(s, ok) ← vprintf_body fuel C numeric fmt args; Some (c :: s, ok)
      end
  end.

(** ** vsnprintf_l *)

Definition PUTCHAR (n : Z) (st : list Z * Z) (c : Z) : option (list Z * Z) :=
  let '(s, resultstored) := st in
  if u64 (resultstored + 1) <? n then
    if (Z.to_nat resultstored <? length s)%nat then
      Some (<[Z.to_nat resultstored := c]> s, u64 (resultstored + 1))
    else None
  else Some (s, u64 (resultstored + 1)).

Fixpoint put_chars (n : Z) (st : list Z * Z) (cs : list Z) : option (list Z * Z) :=
  match cs with
  | [] => Some st
  | c :: cs => st ← PUTCHAR n st c; put_chars n st cs
  end.

(** The buffer and the result; numbered arguments are not modelled. *)
Definition vsnprintf_l (C : lc_ctype) (numeric : lc_numeric) (s : list Z) (n : Z) (fmt : list Z)
  (args : list arg) : option (list Z * Z) :=
  numarg_max ← get_numarg_max fmt;
  if 0 <? numarg_max then None
  else
    '(out, ok) ← vprintf_body (S (length fmt)) C numeric fmt args;
    '(s, resultstored) ← put_chars n (s, 0) out;
    if (ok : bool) then
      if 0 <? n then
        let i := Z.to_nat (if resultstored <? n - 1 then resultstored else n - 1) in
        if (i <? length s)%nat then Some (<[i := 0]> s, s32 resultstored) else None
      else Some (s, s32 resultstored)
    else Some (s, -1).

(** ** Grouping, from the right

    What the grouping string means: each entry is the size of a group, from the
    right, the last one is repeated, and a negative one ends the grouping. *)

Fixpoint group_sizes (fuel : nat) (g : list Z) (n : Z) : list Z :=
  match fuel, g with
  | S fuel, x :: g' =>
      if (x <? 0) || (n <=? x) then [n]
      else x :: group_sizes fuel (match g' with [] => g | _ => g' end) (n - x)
  | _, _ => [n]
  end.

(** The sizes of the groups of [n] digits, right to left. *)
Definition groups (g : option (list Z)) (n : Z) : list Z :=
  group_sizes (Z.to_nat n) (default [] g) n.

(** Consecutive pieces of the given sizes, separated. *)
Fixpoint join_groups (sep : Z) (sizes : list Z) (ds : list Z) : list Z :=
  match sizes with
  | [] => []
  | [s] => take (Z.to_nat s) ds
  | s :: sizes => take (Z.to_nat s) ds ++ sep :: join_groups sep sizes (drop (Z.to_nat s) ds)
  end.

Definition group_digits (sep : Z) (g : option (list Z)) (ds : list Z) : list Z :=
  join_groups sep (reverse (groups g (Z.of_nat (length ds)))) ds.

Definition sumZ (l : list Z) : Z := foldr Z.add 0 l.

(** A string of signed chars: no terminator inside. *)
Definition grouping_ok (g : option (list Z)) : Prop := Forall (fun x => x <> 0) (default [] g).

(** The groups a state still has to print, left to right. *)
Definition pending (g : list Z) (ng : numeric_grouping) : list Z :=
  ng_steps ng :: replicate (Z.to_nat (ng_repetitions ng)) (default 0 (g !! Z.to_nat (ng_grouping ng)))
    ++ reverse (take (Z.to_nat (ng_grouping ng)) g).

Lemma sumZ_app l l' : sumZ (l ++ l') = sumZ l + sumZ l'.
Proof. unfold sumZ. induction l; simpl; lia. Qed.

Lemma sumZ_reverse l : sumZ (reverse l) = sumZ l.
Proof. induction l; [done|]. rewrite reverse_cons, sumZ_app. simpl. lia. Qed.

Lemma join_groups_cons sep s rest d ds :
  0 < s -> join_groups sep (s :: rest) (d :: ds) = d :: join_groups sep (s - 1 :: rest) ds.
Proof.
  intros Hs. replace (Z.to_nat s) with (S (Z.to_nat (s - 1))) by lia.
  destruct rest as [|r rest]; simpl; by replace (Z.to_nat s) with (S (Z.to_nat (s - 1))) by lia.
Qed.

Lemma join_groups_zero sep s rest ds :
  join_groups sep (0 :: s :: rest) ds = sep :: join_groups sep (s :: rest) ds.
Proof. done. Qed.

(** One step towards the next group. *)
Lemma grouping_reload g ng x rest :
  0 <= ng_grouping ng -> 0 <= ng_repetitions ng -> 0 < x ->
  is_Some (g !! Z.to_nat (ng_grouping ng)) -> pending g ng = 0 :: x :: rest ->
  exists ng', numeric_grouping_step (Some g) ng = Some (true, ng') /\ pending g ng' = x - 1 :: rest /\
    0 <= ng_grouping ng' /\ 0 <= ng_repetitions ng' /\ is_Some (g !! Z.to_nat (ng_grouping ng')).
Proof.
  destruct ng as [i s r]. unfold pending, numeric_grouping_step.
  cbn [ng_grouping ng_steps ng_repetitions]. intros Hi Hr Hx [y Hy] [= -> Hp].
  rewrite Hy in Hp. cbn [Z.eqb negb default] in *. destruct (Z.eqb_spec r 0) as [->|Hr0]; cbn [negb].
  - cbn [Z.to_nat replicate app] in Hp.
    destruct (Z.to_nat i) as [|k] eqn:Ek; [by rewrite take_0 in Hp|].
    assert (k < length g)%nat by (apply lookup_lt_Some in Hy; lia).
    destruct (lookup_lt_is_Some_2 g k) as [z Hz]; [done|].
    rewrite (take_S_r g k z Hz), reverse_app in Hp. simpl in Hp. injection Hp as <- <-.
    rewrite (proj2 (Z.ltb_ge _ _)) by lia. replace (Z.to_nat (i - 1)) with k by lia.
    cbn [mbind option_bind]. rewrite Hz. cbn [mbind option_bind].
    rewrite (proj2 (Z.leb_gt _ _)) by lia. eexists. split; [done|].
    cbn [ng_grouping ng_steps ng_repetitions]. replace (Z.to_nat (i - 1)) with k by lia.
    split_and!; done || lia || by eexists.
  - rewrite (proj2 (Z.ltb_ge _ _)) by lia. cbn [mbind option_bind]. rewrite Hy. cbn [mbind option_bind].
    replace (Z.to_nat r) with (S (Z.to_nat (r - 1))) in Hp by lia. simpl in Hp. injection Hp as <- <-.
    rewrite (proj2 (Z.leb_gt _ _)) by lia. eexists. split; [done|].
    cbn [ng_grouping ng_steps ng_repetitions]. rewrite Hy. split_and!; done || lia || by eexists.
Qed.

Lemma print_digits_ok g sep ng ds :
  0 <= ng_grouping ng -> 0 <= ng_steps ng -> 0 <= ng_repetitions ng ->
  is_Some (g !! Z.to_nat (ng_grouping ng)) -> Forall (fun x => 0 < x) (drop 1 (pending g ng)) ->
  sumZ (pending g ng) = Z.of_nat (length ds) ->
  print_digits (Some g) sep ng ds = Some (join_groups sep (pending g ng) ds).
Proof.
  revert ng. induction ds as [|d ds IH]; intros ng Hi Hs Hr Hy Hpos Hsum.
  - simpl. f_equal. unfold pending in *. cbn [drop] in *.
    destruct (replicate _ _ ++ _) as [|x l] eqn:E; [by rewrite take_nil|].
    exfalso. apply Forall_cons_1 in Hpos as [Hx Hl]. simpl in Hsum.
    assert (0 <= sumZ l); [|unfold sumZ in *; lia].
    clear -Hl. induction Hl; simpl; lia.
  - cbn [print_digits]. cbn [length] in Hsum. destruct (Z.eqb_spec (ng_steps ng) 0) as [H0|H0].
    + destruct (pending g ng) as [|s [|x rest]] eqn:Ep; [done| |].
      { exfalso. unfold pending in Ep. injection Ep as <- _. simpl in Hsum. lia. }
      assert (s = 0) as -> by (unfold pending in Ep; congruence).
      cbn [drop] in Hpos. apply Forall_cons_1 in Hpos as [Hx Hrest].
      destruct (grouping_reload g ng x rest Hi Hr Hx Hy Ep) as (ng' & -> & Ep' & Hi' & Hr' & Hy').
      cbn [mbind option_bind]. rewrite (IH ng'); [| |unfold pending in Ep'; injection Ep'; lia| | | |]; try done.
      * rewrite Ep'. cbn [mbind option_bind]. by rewrite join_groups_zero, join_groups_cons.
      * by rewrite Ep'.
      * rewrite Ep'. simpl in *. lia.
    + unfold numeric_grouping_step. rewrite (proj2 (Z.eqb_neq _ _)) by done. cbn [negb mbind option_bind].
      rewrite IH; cbn [ng_grouping ng_steps ng_repetitions]; try done; try lia.
      * cbn [mbind option_bind]. unfold pending. cbn [ng_grouping ng_steps ng_repetitions].
        by rewrite join_groups_cons by lia.
      * unfold pending in *. cbn [ng_grouping ng_steps ng_repetitions] in *. simpl in *. lia.
Qed.

Lemma group_sizes_last x n :
  0 < x -> forall fuel, 0 < n <= Z.of_nat fuel ->
  group_sizes fuel [x] n = replicate (Z.to_nat ((n - 1) / x)) x ++ [(n - 1) mod x + 1].
Proof.
  intros Hx fuel. revert n. induction fuel as [|fuel IH]; intros n Hn; [lia|]. cbn [group_sizes].
  rewrite (proj2 (Z.ltb_ge _ _)) by lia. cbn [orb]. destruct (Z.leb_spec n x) as [Hle|Hgt].
  - rewrite Z.div_small, Z.mod_small by lia. simpl. f_equal. lia.
  - rewrite IH by lia. replace ((n - 1) / x) with (1 + (n - x - 1) / x)
      by (rewrite <- Z.div_add_l by lia; f_equal; lia).
    replace ((n - 1) mod x) with ((n - x - 1) mod x)
      by (replace (n - x - 1) with (n - 1 + (-1) * x) by lia; apply Z.mod_add; lia).
    rewrite Z2Nat.inj_add by (try apply Z.div_pos; lia). done.
Qed.

Lemma group_sizes_sum fuel g n : Forall (fun x => x <> 0) g -> 0 < n ->
  sumZ (group_sizes fuel g n) = n /\ Forall (fun x => 0 < x) (group_sizes fuel g n).
Proof.
  intros Hg. revert g n Hg. induction fuel as [|fuel IH]; intros [|x g'] n Hg Hn;
    cbn [group_sizes]; try (simpl; split; [lia|by repeat constructor]).
  destruct ((x <? 0) || (n <=? x)) eqn:E; [simpl; split; [lia|by repeat constructor]|]. zprop.
  assert (Hx : 0 < x) by (apply Forall_cons_1 in Hg; lia).
  destruct (IH (match g' with [] => x :: g' | _ => g' end) (n - x)) as [H1 H2]; [|lia|].
  { destruct g'; [done|]. exact (proj2 (Forall_cons_1 _ _ _ Hg)). }
  split; [simpl; lia|by constructor].
Qed.

(** The state after initialisation describes the groups, and the number of
    separators is one less. *)
Lemma numeric_grouping_loop_ok g' : forall g i n k fuel,
  g' <> [] -> Forall (fun x => x <> 0) g' -> drop (Z.to_nat i) g = g' -> 0 <= i -> 0 < n ->
  n <= Z.of_nat fuel ->
  exists ng, numeric_grouping_loop g' i n k
    = Some (ng, k + Z.of_nat (length (group_sizes fuel g' n)) - 1) /\
    pending g ng = reverse (take (Z.to_nat i) g ++ group_sizes fuel g' n) /\
    0 <= ng_grouping ng /\ 0 <= ng_steps ng /\ 0 <= ng_repetitions ng /\
    is_Some (g !! Z.to_nat (ng_grouping ng)).
Proof.
  induction g' as [|x g' IH]; intros g i n k fuel Hne Hnz Hd Hi Hn Hf; [done|].
  assert (Hlk : g !! Z.to_nat i = Some x).
  { rewrite <- (Nat.add_0_r (Z.to_nat i)), <- lookup_drop, Hd. done. }
  destruct fuel as [|fuel]; [lia|]. cbn [numeric_grouping_loop].
  destruct ((x <? 0) || (n <=? x)) eqn:E.
  { cbn [group_sizes]. rewrite E. eexists. split; [apply f_equal, f_equal2; [done|simpl; lia]|].
    unfold pending. cbn [ng_grouping ng_steps ng_repetitions Z.to_nat replicate app].
    rewrite reverse_app. split_and!; done || lia || by eexists. }
  zprop. assert (0 < x) by (apply Forall_cons_1 in Hnz; lia). destruct g' as [|y g'].
  - rewrite group_sizes_last by lia. eexists. split; [apply f_equal, f_equal2; [done|]|].
    { rewrite length_app, length_replicate. simpl. rewrite Nat2Z.inj_add, Z2Nat.id by (apply Z.div_pos; lia). lia. }
    unfold pending. cbn [ng_grouping ng_steps ng_repetitions]. rewrite Hlk. cbn [default].
    rewrite !reverse_app, reverse_replicate.
    pose proof (Z.mod_pos_bound (n - 1) x ltac:(lia)). pose proof (Z.div_pos (n - 1) x ltac:(lia)).
    split_and!; try done; try lia; by eexists.
  - destruct (IH g (i + 1) (n - x) (k + 1) fuel) as (ng & Heq & Hp & Hrest); try lia.
    { done. }
    { exact (proj2 (Forall_cons_1 _ _ _ Hnz)). }
    { rewrite Z2Nat.inj_add by lia. rewrite <- drop_drop, Hd. done. }
    exists ng. split; [|split; [|done]].
    + rewrite Heq. f_equal. f_equal. cbn [group_sizes].
      rewrite (proj2 (Z.ltb_ge x 0)), (proj2 (Z.leb_gt n x)) by lia. cbn [orb length]. lia.
    + rewrite Hp, Z2Nat.inj_add by lia. rewrite Nat.add_1_r, (take_S_r g _ x Hlk).
      rewrite <- app_assoc. f_equal. f_equal. cbn [group_sizes].
      by rewrite (proj2 (Z.ltb_ge x 0)), (proj2 (Z.leb_gt n x)) by lia.
Qed.

Lemma print_digits_plain g sep i s r ds :
  Z.of_nat (length ds) <= s -> print_digits g sep (NumericGrouping i s r) ds = Some ds.
Proof.
  revert s. induction ds as [|d ds IH]; intros s Hs; [done|]. cbn [print_digits length] in *.
  unfold numeric_grouping_step. cbn [ng_steps]. rewrite (proj2 (Z.eqb_neq _ _)) by lia.
  cbn [negb mbind option_bind ng_grouping ng_repetitions]. rewrite IH by lia. done.
Qed.

(** The state machine against the grouping from the right. *)
Lemma grouping_machine_ok g sep ds :
  grouping_ok g -> ds <> [] -> Z.of_nat (length ds) <= SIZE_MAX ->
  exists ng, numeric_grouping_init g (Z.of_nat (length ds))
      = Some (ng, Z.of_nat (length (groups g (Z.of_nat (length ds)))) - 1) /\
    print_digits g sep ng ds = Some (group_digits sep g ds).
Proof.
  intros Hg Hds Hmax. set (n := Z.of_nat (length ds)) in *.
  assert (Hn : 0 < n) by (destruct ds; [done|unfold n; simpl; lia]).
  unfold numeric_grouping_init, group_digits, groups. fold n.
  assert (Hplain : group_sizes (Z.to_nat n) (default [] g) n = [n] ->
    exists ng, Some (NumericGrouping 0 SIZE_MAX 0, 0)
      = Some (ng, Z.of_nat (length (group_sizes (Z.to_nat n) (default [] g) n)) - 1) /\
      print_digits g sep ng ds
      = Some (join_groups sep (reverse (group_sizes (Z.to_nat n) (default [] g) n)) ds)).
  { intros ->. eexists. split; [done|]. rewrite print_digits_plain by done. simpl. f_equal.
    rewrite firstn_all2; [done|unfold n; lia]. }
  destruct g as [[|x g]|]; [apply Hplain; by destruct (Z.to_nat n)| |apply Hplain; by destruct (Z.to_nat n)].
  destruct (Z.leb_spec n 1) as [Hle|Hgt].
  { apply Hplain. replace n with 1 by lia. change (Z.to_nat 1) with 1%nat. cbn [default id group_sizes].
    assert (x <> 0) by exact (proj1 (Forall_cons_1 _ _ _ Hg)).
    destruct (Z.ltb_spec x 0), (Z.leb_spec 1 x); done || lia. }
  cbn [default id] in *.
  destruct (numeric_grouping_loop_ok (x :: g) (x :: g) 0 n 0 (Z.to_nat n))
    as (ng & -> & Hp & Hi & Hs & Hr & Hy); try done; try lia.
  exists ng. split; [done|]. cbn [Z.to_nat take app] in Hp.
  destruct (group_sizes_sum (Z.to_nat n) (x :: g) n Hg Hn) as [Hsum Hpos].
  rewrite print_digits_ok; rewrite ?Hp; try done.
  - apply Forall_drop. by apply Forall_reverse.
  - by rewrite sumZ_reverse.
Qed.

(** ** Numerals *)

(** [ds] is the numeral of [v]: only digits of the base, the value by Horner's
    rule, no leading zero. *)
Definition is_numeral (base v : Z) (ds : list Z) : Prop :=
  exists vals, span_digits base ds = (vals, []) /\ horner base 0 vals = v /\ vals <> [] /\
    (head vals = Some 0 -> vals = [0]) /\ length ds = length vals /\
    Forall (fun c => 48 <= c < 128) ds.

Lemma charset_ok charset d :
  charset ∈ [charset_lower; charset_upper] -> 0 <= d < 16 ->
  exists c, charset !! Z.to_nat d = Some c /\ digit_of c = Some d /\ 48 <= c < 128.
Proof.
  intros Hc Hd.
  destruct (Z_of_nat_complete d) as [k ->]; [lia|]. rewrite Nat2Z.id.
  assert (In k (seq 0 16)) as Hin by (apply in_seq; lia).
  rewrite !elem_of_cons in Hc. destruct Hc as [->|[->|Hc]]; [| |by apply elem_of_nil in Hc];
    simpl in Hin; repeat (destruct Hin as [<-|Hin]; [eexists; split_and!; [reflexivity|reflexivity|lia..]|]); done.
Qed.

Lemma span_digits_app base xs vals ys :
  span_digits base xs = (vals, []) ->
  span_digits base (xs ++ ys) = (vals ++ (span_digits base ys).1, (span_digits base ys).2).
Proof.
  revert vals. induction xs as [|x xs IH]; intros vals H; simpl in *.
  - injection H as <-. by destruct (span_digits base ys).
  - destruct (digit_of x) as [d|]; [|done]. destruct (d <? base); [|done].
    destruct (span_digits base xs) as [vs rest]. injection H as <- ->.
    by rewrite (IH vs).
Qed.

Lemma digits_loop_ok charset base room : forall v acc,
  charset ∈ [charset_lower; charset_upper] -> 2 <= base <= 16 -> 0 <= v < base ^ Z.of_nat room ->
  exists ds, digits_loop (S room) charset base v acc = Some (ds ++ acc) /\ is_numeral base v ds.
Proof.
  induction room as [|room IH]; intros v acc Hcs Hb Hv; cbn [digits_loop];
    pose proof (Z.mod_pos_bound v base ltac:(lia)) as Hm;
    destruct (charset_ok charset (v mod base) Hcs) as (c & -> & Hdig & Hc); try lia;
    cbn [mbind option_bind].
  all: assert (Hone : v / base = 0 -> is_numeral base v [c]).
  1, 3: intros H0; exists [v mod base]; simpl; rewrite Hdig, (proj2 (Z.ltb_lt _ _)) by lia;
    pose proof (Z.div_mod v base ltac:(lia)); split_and!; try done; unfold horner; simpl; try lia;
    [by intros [= ->]|by apply Forall_singleton].
  - assert (H0 : v / base = 0) by (replace v with 0 by (simpl in Hv; lia); apply Z.div_0_l; lia).
    rewrite H0. exists [c]. auto.
  - destruct (Z.eqb_spec (v / base) 0) as [H0|H0]; [exists [c]; auto|].
    assert (Hq : 0 <= v / base < base ^ Z.of_nat room).
    { split; [apply Z.div_pos; lia|]. apply Z.div_lt_upper_bound; [lia|].
      replace (Z.of_nat (S room)) with (Z.succ (Z.of_nat room)) in Hv by lia.
      rewrite Z.pow_succ_r in Hv by lia. lia. }
    destruct (IH (v / base) (c :: acc) Hcs Hb Hq) as (ds & Heq & vals & Hspan & Hval & Hne & Hz & Hlen & Hrng).
    cbn [digits_loop] in Heq. rewrite Heq. exists (ds ++ [c]). split; [by rewrite <- app_assoc|].
    exists (vals ++ [v mod base]). rewrite (span_digits_app _ _ _ _ Hspan). simpl. rewrite Hdig.
    rewrite (proj2 (Z.ltb_lt _ _)) by lia. rewrite !length_app, Hlen.
    split_and!; try done; [| |destruct vals; simpl; [done|]|].
    + unfold horner. rewrite foldl_app. fold (horner base 0 vals). rewrite Hval. simpl.
      pose proof (Z.div_mod v base ltac:(lia)). lia.
    + intros Happ. by destruct vals.
    + intros [= ->]. specialize (Hz eq_refl). injection Hz as ->. simpl in Hval. lia.
    + apply Forall_app. split; [done|by apply Forall_singleton].
Qed.

Lemma is_numeral_length base v ds : is_numeral base v ds -> ds <> [].
Proof. intros (vals & _ & _ & Hne & _ & Hlen & _) ->. destruct vals; done. Qed.

Lemma join_groups_length sep sizes ds :
  Forall (fun x => 0 < x) sizes -> sizes <> [] -> sumZ sizes = Z.of_nat (length ds) ->
  Z.of_nat (length (join_groups sep sizes ds)) = Z.of_nat (length ds) + Z.of_nat (length sizes) - 1.
Proof.
  intros Hpos. revert ds. induction Hpos as [|s sizes Hs Hpos IH]; intros ds Hne Hsum; [done|].
  destruct sizes as [|s' sizes].
  - simpl in *. rewrite length_take. lia.
  - change (join_groups sep (s :: s' :: sizes) ds)
      with (take (Z.to_nat s) ds ++ sep :: join_groups sep (s' :: sizes) (drop (Z.to_nat s) ds)).
    assert (Hrest : 0 <= sumZ (s' :: sizes)) by (clear -Hpos; unfold sumZ; induction Hpos; simpl in *; lia).
    change (sumZ (s :: s' :: sizes)) with (s + sumZ (s' :: sizes)) in Hsum.
    rewrite length_app, length_take. cbn [length] in *.
    rewrite Nat2Z.inj_add, Nat2Z.inj_succ, IH; [|done|rewrite length_drop; lia].
    rewrite length_drop. lia.
Qed.

Lemma group_digits_length sep g ds :
  grouping_ok g -> ds <> [] ->
  Z.of_nat (length (group_digits sep g ds))
  = Z.of_nat (length ds) + Z.of_nat (length (groups g (Z.of_nat (length ds)))) - 1.
Proof.
  intros Hg Hds. unfold group_digits, groups.
  destruct (group_sizes_sum (Z.to_nat (Z.of_nat (length ds))) (default [] g) (Z.of_nat (length ds)))
    as [Hsum Hpos]; [done|destruct ds; [done|simpl; lia]|].
  rewrite join_groups_length, length_reverse; [done|by apply Forall_reverse| |by rewrite sumZ_reverse].
  intros Hnil. apply (f_equal sumZ) in Hnil. rewrite sumZ_reverse, Hsum in Hnil.
  destruct ds; [done|]. simpl in Hnil. lia.
Qed.

(** ** Integer conversions *)

(** The layout: the padding is spaces on the left, spaces on the right, or
    zeros between the prefix and the digits. *)
Definition justify (fl : flags) (precision : Z) (prefix body : list Z) (pad : nat) : list Z :=
  if zero_padding fl && (precision <? 0) then prefix ++ replicate pad c_0 ++ body
  else if left_justified fl then prefix ++ body ++ replicate pad 32
  else replicate pad 32 ++ prefix ++ body.

Lemma justify_length fl precision prefix body pad :
  length (justify fl precision prefix body pad) = (length prefix + length body + pad)%nat.
Proof.
  unfold justify. destruct (_ && _), (left_justified fl); rewrite !length_app, length_replicate; lia.
Qed.

Lemma digits_loop_length charset base room v acc ds :
  digits_loop room charset base v acc = Some ds -> (length ds <= room + length acc)%nat.
Proof.
  revert v acc. induction room as [|room IH]; intros v acc H; [done|]. cbn [digits_loop] in H.
  destruct (charset !! _) as [c|]; [|done]. cbn [mbind option_bind] in H.
  destruct (_ =? 0); [injection H as <-; simpl; lia|]. apply IH in H. simpl in H. lia.
Qed.

Lemma digits_loop_charset charset base room v acc ds :
  digits_loop room charset base v acc = Some ds -> Forall (fun c => c ∈ charset) acc ->
  Forall (fun c => c ∈ charset) ds.
Proof.
  revert v acc. induction room as [|room IH]; intros v acc H Hacc; [done|]. cbn [digits_loop] in H.
  destruct (charset !! _) as [c|] eqn:Ec; [|done]. cbn [mbind option_bind] in H.
  apply list_elem_of_lookup_2 in Ec. destruct (_ =? 0); [injection H as <-; by constructor|].
  eapply IH; [exact H|by constructor].
Qed.

Lemma print_integer_ok numeric fl field_width precision prefix charset base v :
  grouping_ok (use_grouping fl) -> charset ∈ [charset_lower; charset_upper] ->
  8 <= base <= 16 -> 0 <= v < 2 ^ 64 -> INT_MIN < precision ->
  exists ds, is_numeral base v ds /\ (length ds <= 24)%nat /\ Forall (fun c => c ∈ charset) ds /\
    let grouped := group_digits (u8 (thousands_sep numeric)) (use_grouping fl) ds in
    let zeros := replicate (Z.to_nat (precision - Z.of_nat (length ds))) c_0 in
    let width := Z.of_nat (length prefix) + Z.max precision (Z.of_nat (length grouped)) in
    print_integer numeric fl field_width precision prefix charset base v
    = Some (justify fl precision prefix (zeros ++ grouped) (Z.to_nat (field_width - width))).
Proof.
  intros Hg Hcs Hb Hv Hp.
  destruct (digits_loop_ok charset base 23 v [] Hcs) as (ds & Hds & Hnum); [lia| |].
  { split; [lia|]. apply Z.lt_le_trans with (8 ^ 23); [lia|]. apply Z.pow_le_mono_l. lia. }
  rewrite app_nil_r in Hds. pose proof (is_numeral_length _ _ _ Hnum) as Hne.
  apply digits_loop_length in Hds as Hle. simpl in Hle.
  exists ds. split; [done|]. split; [done|].
  split; [eapply digits_loop_charset; [exact Hds|constructor]|]. intros grouped zeros width.
  destruct (grouping_machine_ok (use_grouping fl) (u8 (thousands_sep numeric)) ds)
    as (ng & Hinit & Hprint); [done|done|unfold SIZE_MAX; lia|].
  pose proof (group_digits_length (u8 (thousands_sep numeric)) (use_grouping fl) ds Hg Hne) as Hlen.
  unfold print_integer. rewrite Hds. cbn [mbind option_bind]. rewrite Hinit. cbn [mbind option_bind].
  rewrite (proj2 (Z.eqb_neq precision INT_MIN)) by lia. rewrite Hprint. cbn [mbind option_bind].
  fold grouped in Hlen |- *. fold zeros.
  replace ((if _ <? precision then precision else _) + Z.of_nat (length prefix)) with width
    by (unfold width; zcases; lia).
  assert (Hrest : Z.to_nat (Z.min field_width width - width) = 0%nat) by lia.
  unfold justify, PAD_TO_FIELD_WIDTH.
  destruct (zero_padding fl && (precision <? 0)), (left_justified fl); cbn [negb];
    rewrite ?Hrest; cbn [replicate]; by rewrite ?app_nil_r, <- ?app_assoc.
Qed.

(** ** The buffer *)

Lemma put_chars_ok n cs : forall pre rest,
  n <= Z.of_nat (length pre + length rest) ->
  Z.of_nat (length pre + length cs) < SIZE_MAX ->
  let m := Z.to_nat (n - 1 - Z.of_nat (length pre)) in
  put_chars n (pre ++ rest, Z.of_nat (length pre)) cs
  = Some (pre ++ take m cs ++ drop (length (take m cs)) rest,
          Z.of_nat (length pre + length cs)).
Proof.
  induction cs as [|c cs IH]; intros pre rest Hn Hlen m; unfold SIZE_MAX in *.
  - simpl. by rewrite take_nil, drop_0, Nat.add_0_r.
  - cbn [put_chars length] in *. unfold PUTCHAR. rewrite uN_small by (unfold in_unsigned; lia).
    rewrite Nat2Z.id, length_app. destruct (Z.ltb_spec (Z.of_nat (length pre) + 1) n) as [Hlt|Hge].
    + destruct rest as [|r rest]; [simpl in Hn; lia|]. cbn [length] in *.
      rewrite (proj2 (Nat.ltb_lt _ _)) by lia. cbn [mbind option_bind].
      rewrite insert_app_r_alt, Nat.sub_diag by lia. cbn [insert list_insert].
      specialize (IH (pre ++ [c]) rest). rewrite <- app_assoc, length_app in IH. cbn [length app] in IH.
      replace (Z.of_nat (length pre) + 1) with (Z.of_nat (length pre + 1)) by lia.
      rewrite IH by lia. unfold m.
      replace (Z.to_nat (n - 1 - Z.of_nat (length pre)))
        with (S (Z.to_nat (n - 1 - Z.of_nat (length pre + 1)))) by lia.
      cbn [take length drop app]. rewrite <- app_assoc. by replace (length pre + 1 + length cs)%nat
        with (length pre + S (length cs))%nat by lia.
    + cbn [mbind option_bind]. assert (Hm : m = 0%nat) by lia. rewrite Hm, take_0. cbn [app length].
      rewrite drop_0. clear IH.
      assert (H : forall k cs, n <= k + 1 -> 0 <= k -> k + Z.of_nat (length cs) < 2 ^ 64 - 1 ->
        put_chars n (pre ++ rest, k) cs = Some (pre ++ rest, k + Z.of_nat (length cs))).
      { intros k cs'. revert k. induction cs' as [|c' cs' IH]; intros k H1 H2 H3; cbn [put_chars length] in *.
        - by rewrite Z.add_0_r.
        - unfold PUTCHAR. rewrite uN_small by (unfold in_unsigned; lia).
          rewrite (proj2 (Z.ltb_ge _ _)) by lia. cbn [mbind option_bind]. rewrite IH by lia.
          f_equal. f_equal. lia. }
      rewrite H by lia. f_equal. f_equal. lia.
Qed.

(** *** Fuel *)

Lemma get_numarg_length fmt : (length (get_numarg fmt).2 <= length fmt)%nat.
Proof.
  assert (H : forall v, (length (get_numarg_loop fmt v).2 <= length fmt)%nat).
  { induction fmt as [|c fmt IH]; intros v; simpl; [done|]. destruct (is_digit c); simpl; [|lia].
    specialize (IH (u64 (v * 10 + c - c_0))). lia. }
  destruct fmt as [|c fmt]; [done|]. unfold get_numarg. destruct (between _ c _); [|done].
  specialize (H 0). destruct (get_numarg_loop (c :: fmt) 0) as [v [|d fmt']]; [done|].
  destruct (decide (d = 36)) as [->|Hd]; [simpl in *; lia|].
  assert (Hother : (match d with 36 => (v, fmt') | _ => (0, c :: fmt) end) = (0, c :: fmt)).
  { destruct d as [|p|p]; [done| |done]. do 6 (destruct p as [p|p|]; try done). }
  rewrite Hother. simpl. lia.
Qed.

Lemma numarg_scan_total fuel fmt k : (length fmt < fuel)%nat ->
  exists r, numarg_scan fuel fmt k = Some r /\
    match r with Some (_, fmt') => (length fmt' <= length fmt)%nat | None => True end.
Proof.
  revert fmt k. induction fuel as [|fuel IH]; intros fmt k Hf; [lia|]. cbn [numarg_scan].
  destruct fmt as [|c fmt]; [by exists (Some (k, []))|].
  destruct (is_specifier c); [by exists (Some (k, c :: fmt))|].
  assert (Hrec : forall fmt' k', (length fmt' <= length fmt)%nat ->
    exists r, numarg_scan fuel fmt' k' = Some r /\
      match r with Some (_, fmt'') => (length fmt'' <= length (c :: fmt))%nat | None => True end).
  { intros fmt' k' Hl. destruct (IH fmt' k') as (r & -> & Hr); [simpl in Hf; lia|].
    exists r. split; [done|]. destruct r as [[? ?]|]; [simpl; lia|done]. }
  destruct (c =? 42); [|by apply Hrec].
  pose proof (get_numarg_length fmt) as Hl. destruct (get_numarg fmt) as [numarg fmt'].
  destruct (numarg =? 0); [by exists None|]. by apply Hrec.
Qed.

Lemma get_numarg_max_total fmt : is_Some (get_numarg_max fmt).
Proof.
  unfold get_numarg_max. generalize 0 as k. assert (H : (length fmt < S (length fmt))%nat) by lia.
  revert H. generalize (S (length fmt)) as fuel. intros fuel. revert fmt.
  induction fuel as [|fuel IH]; intros fmt Hf k; [lia|]. cbn [get_numarg_max_loop].
  destruct fmt as [|c fmt]; [done|]. cbn [length] in Hf. destruct (c =? 37); [|apply IH; lia].
  pose proof (get_numarg_length fmt) as Hl. destruct (get_numarg fmt) as [numarg fmt'].
  destruct (numarg_scan_total (S (length fmt')) fmt' (Z.max k numarg)) as (r & -> & Hr); [lia|].
  cbn [mbind option_bind]. destruct r as [[k' fmt'']|]; [|done].
  destruct (_ && _); [done|]. apply IH. simpl in *. lia.
Qed.

Lemma parse_flags_length numeric fmt fl : (length (parse_flags numeric fmt fl).2 <= length fmt)%nat.
Proof.
  revert fl. induction fmt as [|c fmt IH]; intros [g p l a z]; cbn [parse_flags]; [done|].
  repeat case_match; subst; cbn [snd length]; try lia;
    match goal with |- (length (parse_flags _ _ ?f).2 <= _)%nat => specialize (IH f) end; lia.
Qed.

Lemma get_number_length fmt v fmt' : get_number fmt = Some (v, fmt') -> (length fmt' <= length fmt)%nat.
Proof.
  unfold get_number. generalize 0 as k. induction fmt as [|c fmt IH]; intros k; simpl.
  - by intros [= <- <-].
  - destruct (is_digit c); [|by intros [= <- <-]]. destruct (INT_MAX <? _); [done|].
    intros H. apply IH in H. lia.
Qed.

Lemma parse_field_width_length fmt args w fmt' args' :
  parse_field_width fmt args = Some (w, fmt', args') -> (length fmt' <= length fmt)%nat.
Proof.
  unfold parse_field_width. intros H.
  assert (Hd : ('(v, fmt) ← get_number fmt; Some (v, fmt, args)) = Some (w, fmt', args') ->
    (length fmt' <= length fmt)%nat).
  { destruct (get_number fmt) as [[v f]|] eqn:E; [|done]. intros [= <- <- <-].
    by apply get_number_length in E. }
  repeat case_match; subst; auto. destruct (va_int args) as [[v a]|]; [|done].
  injection H as <- <- <-. simpl. lia.
Qed.

Lemma parse_precision_length fmt args w fmt' args' :
  parse_precision fmt args = Some (w, fmt', args') -> (length fmt' <= length fmt)%nat.
Proof.
  unfold parse_precision. intros H.
  assert (Hd : forall f, ('(v, fmt) ← get_number f; Some (v, fmt, args)) = Some (w, fmt', args') ->
    (length fmt' <= S (length f))%nat).
  { intros f. destruct (get_number f) as [[v f']|] eqn:E; [|done]. intros [= <- <- <-].
    apply get_number_length in E. lia. }
  assert (Hn : Some (-1, fmt, args) = Some (w, fmt', args') -> (length fmt' <= length fmt)%nat)
    by (by intros [= <- <- <-]).
  repeat case_match; subst; auto; try (by apply Hd in H).
  destruct (va_int args) as [[v a]|]; [|done]. injection H as <- <- <-. simpl. lia.
Qed.

Lemma get_length_modifier_length fmt : (length (get_length_modifier fmt).2 <= length fmt)%nat.
Proof. unfold get_length_modifier. repeat case_match; subst; simpl; lia. Qed.

Lemma print_directive_length C numeric fmt args o fmt' args' :
  print_directive C numeric fmt args = Some (o, fmt', args') -> (length fmt' < length fmt)%nat.
Proof.
  unfold print_directive. pose proof (parse_flags_length numeric fmt (Flags None 0 false false false)) as H1.
  destruct (parse_flags numeric fmt _) as [fl f1]. cbn [snd] in H1.
  destruct (parse_field_width f1 args) as [[[w f2] a2]|] eqn:E2; [|done]. cbn [mbind option_bind].
  apply parse_field_width_length in E2.
  destruct (parse_precision f2 a2) as [[[p f3] a3]|] eqn:E3; [|done]. cbn [mbind option_bind].
  apply parse_precision_length in E3.
  pose proof (get_length_modifier_length f3) as H4. destruct (get_length_modifier f3) as [lm f4].
  destruct f4 as [|sp f5]; [done|]. cbn [snd length] in H4.
  destruct (print_conversion _ _ _ _ _ _ _ _) as [[o' a']|]; [|done]. cbn [mbind option_bind].
  intros [= <- <- <-]. lia.
Qed.

(** The fuel of the loop over the format is enough: more of it changes nothing. *)
Lemma vprintf_body_fuel C numeric : forall f f' fmt args,
  (length fmt < f)%nat -> (length fmt < f')%nat ->
  vprintf_body f C numeric fmt args = vprintf_body f' C numeric fmt args.
Proof.
  induction f as [|f IH]; intros [|f'] fmt args Hf Hf'; try lia. cbn [vprintf_body].
  destruct fmt as [|c fmt]; [done|]. cbn [length] in Hf, Hf'.
  assert (Hplain : ('(s, ok) ← vprintf_body f C numeric fmt args; Some (c :: s, ok))
    = ('(s, ok) ← vprintf_body f' C numeric fmt args; Some (c :: s, ok))).
  { by rewrite (IH f') by lia. }
  assert (Hdir : ('((s, ok), fmt, args) ← print_directive C numeric fmt args;
      if (ok : bool) then '(s', ok) ← vprintf_body f C numeric fmt args; Some (s ++ s', ok)
      else Some (s, false))
    = ('((s, ok), fmt, args) ← print_directive C numeric fmt args;
      if (ok : bool) then '(s', ok) ← vprintf_body f' C numeric fmt args; Some (s ++ s', ok)
      else Some (s, false))).
  { destruct (print_directive C numeric fmt args) as [[[[s ok] fmt1] args1]|] eqn:E; [|done].
    apply print_directive_length in E. cbn [mbind option_bind]. destruct ok; [|done].
    by rewrite (IH f') by lia. }
  repeat case_match; subst; done.
Qed.

(** ** Properties *)

Lemma vsnprintf_l_run C numeric s n fmt args out ok :
  n <= Z.of_nat (length s) -> get_numarg_max fmt = Some 0 ->
  vprintf_body (S (length fmt)) C numeric fmt args = Some (out, ok) ->
  Z.of_nat (length out) <= INT_MAX ->
  let kept := take (Z.to_nat (n - 1)) out in
  vsnprintf_l C numeric s n fmt args
  = Some (if ok && (0 <? n) then kept ++ 0 :: drop (S (length kept)) s
          else kept ++ drop (length kept) s,
          if ok then Z.of_nat (length out) else -1).
Proof.
  intros Hn Hm Hb Hlen kept. unfold INT_MAX in Hlen. unfold vsnprintf_l. rewrite Hm, Hb. cbn [mbind option_bind].
  rewrite Z.ltb_irrefl. pose proof (put_chars_ok n out [] s) as Hp. cbn [length app Nat.add Z.of_nat] in Hp.
  change (Z.of_nat 0) with 0 in Hp. rewrite Hp by (unfold SIZE_MAX; lia). cbn [mbind option_bind].
  rewrite Z.sub_0_r. fold kept.
  destruct ok; [|done]. rewrite sN_small by (unfold in_signed; lia). cbn [andb].
  destruct (Z.ltb_spec 0 n) as [Hpos|Hneg]; [|done].
  assert (Hi : Z.to_nat (if Z.of_nat (length out) <? n - 1 then Z.of_nat (length out) else n - 1) = length kept)
    by (unfold kept; rewrite length_take; zcases; lia).
  rewrite Hi. assert (Hk : (length kept < length s)%nat) by (unfold kept; rewrite length_take; lia).
  rewrite length_app, length_drop, (proj2 (Nat.ltb_lt _ _)) by lia. f_equal. f_equal.
  rewrite insert_app_r_alt, Nat.sub_diag by lia.
  destruct (lookup_lt_is_Some_2 s (length kept) Hk) as [y Hy].
  by rewrite (drop_S s y _ Hy).
Qed.

(** The prefix and the magnitude of each integer conversion. *)
Definition integer_spec (fl : flags) (specifier v : Z) : list Z * Z * Z :=
  let alt p := if alternative_form fl && negb (v =? 0) then p else [] in
  if (specifier =? 100) || (specifier =? 105) then
    (if v <? 0 then [c_minus] else if positive_sign fl =? 0 then [] else [positive_sign fl], 10, Z.abs v)
  else if specifier =? 111 then (alt [c_0], 8, v)
  else if specifier =? 117 then ([], 10, v)
  else if specifier =? 120 then (alt [c_0; c_x], 16, v)
  else (alt [c_0; c_X], 16, v).

Definition get_integer_arg (specifier : Z) (lm : length_modifier) (args : list arg) :=
  if (specifier =? 100) || (specifier =? 105) then GET_ARG_SINT_LM lm args else GET_ARG_UINT_LM lm args.

Lemma get_integer_arg_range specifier lm args v rest :
  get_integer_arg specifier lm args = Some (v, rest) ->
  LONG_MIN <= v < 2 ^ 64 /\ ((specifier =? 100) || (specifier =? 105) = true -> v <= LONG_MAX) /\
  ((specifier =? 100) || (specifier =? 105) = false -> 0 <= v).
Proof.
  unfold get_integer_arg, GET_ARG_SINT_LM, GET_ARG_UINT_LM, va_int, va_long, LONG_MIN, LONG_MAX.
  destruct ((specifier =? 100) || (specifier =? 105)), lm, args as [|[x|x|a p] args]; try done;
    cbn [mbind option_bind]; intros [= <- <-]; unfold sN, uN; split_and!; try done; intros; lia.
Qed.

Definition integer_specifiers : list Z := [100; 105; 111; 117; 120; 88].

Lemma print_conversion_integer C numeric fl field_width precision lm specifier args v rest :
  specifier ∈ integer_specifiers -> get_integer_arg specifier lm args = Some (v, rest) -> v <> LONG_MIN ->
  let charset := if c_a <=? specifier then charset_lower else charset_upper in
  let '(prefix, base, magnitude) := integer_spec fl specifier v in
  8 <= base <= 16 /\ 0 <= magnitude < 2 ^ 64 /\
  print_conversion C numeric fl field_width precision lm specifier args
  = (s ← print_integer numeric fl field_width precision prefix charset base magnitude;
     Some ((s, true), rest)).
Proof.
  intros Hsp Harg Hv charset. pose proof (get_integer_arg_range _ _ _ _ _ Harg) as (Hr & Hs & Hu).
  unfold LONG_MIN, LONG_MAX in *. unfold get_integer_arg in Harg.
  unfold integer_specifiers in Hsp. rewrite !elem_of_cons in Hsp.
  destruct Hsp as [->|[->|[->|[->|[->|[->|Hsp]]]]]]; [| | | | | |by apply elem_of_nil in Hsp];
    unfold charset, integer_spec, print_conversion; cbn [Z.eqb Pos.eqb orb] in *; rewrite Harg; cbn [mbind option_bind].
  1, 2: specialize (Hs eq_refl); destruct (Z.leb_spec 0 v), (Z.ltb_spec v 0); try lia;
    [rewrite Z.abs_eq by lia; unfold SET_NUMBER_PREFIX; destruct (Z.eqb_spec (positive_sign fl) 0) as [->|Hp];
       [|rewrite filter_cons_True by done]; by repeat split; lia
    |rewrite Z.abs_neq by lia; unfold LONG_MIN; rewrite (proj2 (Z.eqb_neq v _)) by lia; by repeat split; lia].
  all: specialize (Hu eq_refl); by repeat split; lia.
Qed.

Lemma group_digits_wider sep g ds : grouping_ok g -> ds <> [] ->
  (length ds <= length (group_digits sep g ds))%nat.
Proof.
  intros Hg Hne. pose proof (group_digits_length sep g ds Hg Hne) as Hlen.
  assert (1 <= Z.of_nat (length (groups g (Z.of_nat (length ds))))); [|lia].
  unfold groups. destruct (Z.to_nat (Z.of_nat (length ds))) as [|k], (default [] g) as [|x g'];
    cbn [group_sizes length]; try lia. destruct (_ || _); cbn [length]; lia.
Qed.

(** A digit of a numeral: upper or lower case above nine. *)
Definition letter_case (upper : bool) (c : Z) : Prop :=
  48 <= c <= 57 \/ if upper then 65 <= c <= 70 else 97 <= c <= 102.

Lemma charset_case (upper : bool) ds :
  Forall (fun c => c ∈ if upper then charset_upper else charset_lower) ds -> Forall (letter_case upper) ds.
Proof.
  assert (H : Forall (letter_case upper) (if upper then charset_upper else charset_lower))
    by (unfold charset_upper, charset_lower, letter_case; destruct upper;
        repeat (apply Forall_cons_2; [lia|]); constructor).
  rewrite list.Forall_forall in H. intros Hds. eapply list.Forall_impl; [exact Hds|exact H].
Qed.

(** What an integer conversion writes: the numeral of the magnitude in the
    base and the case asked for, grouped, behind the zeros of the precision,
    with the prefix, in the field. *)
Definition integer_field (numeric : lc_numeric) (fl : flags) (field_width precision : Z)
  (prefix : list Z) (upper : bool) (base magnitude : Z) (ds out : list Z) : Prop :=
  let grouped := group_digits (u8 (thousands_sep numeric)) (use_grouping fl) ds in
  let number := replicate (Z.to_nat (precision - Z.of_nat (length ds))) c_0 ++ grouped in
  let width := Z.of_nat (length prefix) + Z.max precision (Z.of_nat (length grouped)) in
  is_numeral base magnitude ds /\ Forall (letter_case upper) ds /\
  out = justify fl precision prefix number (Z.to_nat (field_width - width)) /\
  (precision <= Z.of_nat (length ds) \/ length grouped = length ds ->
   Z.of_nat (length out) = Z.max field_width (Z.of_nat (length prefix + length number))).

Lemma print_integer_field numeric fl field_width precision prefix (upper : bool) base v :
  grouping_ok (use_grouping fl) -> 8 <= base <= 16 -> 0 <= v < 2 ^ 64 -> INT_MIN < precision ->
  exists ds out, integer_field numeric fl field_width precision prefix upper base v ds out /\
    print_integer numeric fl field_width precision prefix
      (if upper then charset_upper else charset_lower) base v = Some out.
Proof.
  intros Hg Hb Hv Hp. destruct (print_integer_ok numeric fl field_width precision prefix
    (if upper then charset_upper else charset_lower) base v) as (ds & Hnum & _ & Hcs & Heq); try done.
  { destruct upper; repeat constructor. }
  cbv zeta in Heq. exists ds. eexists. split; [|exact Heq].
  split; [done|]. split; [by apply charset_case|]. split; [done|]. intros Hcase.
  pose proof (group_digits_wider (u8 (thousands_sep numeric)) _ ds Hg (is_numeral_length _ _ _ Hnum)) as Hlen.
  rewrite justify_length, length_app, length_replicate. lia.
Qed.

(** Negating the most negative integer and decrementing the smallest precision
    overflow. *)
Lemma integer_conversion_undefined C numeric fl field_width precision lm specifier args v rest :
  specifier ∈ integer_specifiers -> get_integer_arg specifier lm args = Some (v, rest) ->
  v = LONG_MIN \/ precision = INT_MIN ->
  print_conversion C numeric fl field_width precision lm specifier args = None.
Proof.
  intros Hsp Harg H. destruct (decide (v = LONG_MIN)) as [->|Hv].
  - pose proof (get_integer_arg_range _ _ _ _ _ Harg) as (_ & _ & Hu).
    unfold get_integer_arg in Harg. unfold print_conversion.
    destruct ((specifier =? 100) || (specifier =? 105)); [by rewrite Harg|].
    specialize (Hu eq_refl). unfold LONG_MIN in Hu. lia.
  - destruct H as [? | ->]; [done|].
    pose proof (print_conversion_integer C numeric fl field_width INT_MIN lm specifier args v rest Hsp Harg Hv) as H.
    cbv zeta in H. destruct (integer_spec fl specifier v) as [[prefix base] magnitude]. destruct H as (_ & _ & ->).
    unfold print_integer. destruct (digits_loop _ _ _ _ _); [|done]. cbn [mbind option_bind].
    destruct (numeric_grouping_init _ _) as [[ng k]|]; [|done]. cbn [mbind option_bind].
    repeat case_match; done.
Qed.

Lemma integer_conversion_field C numeric fl field_width precision lm specifier args v rest :
  specifier ∈ integer_specifiers -> get_integer_arg specifier lm args = Some (v, rest) ->
  v <> LONG_MIN -> INT_MIN < precision -> grouping_ok (use_grouping fl) ->
  let '(prefix, base, magnitude) := integer_spec fl specifier v in
  exists ds out, integer_field numeric fl field_width precision prefix (specifier =? 88) base magnitude ds out /\
    print_conversion C numeric fl field_width precision lm specifier args = Some ((out, true), rest).
Proof.
  intros Hsp Harg Hv Hp Hg.
  pose proof (print_conversion_integer C numeric fl field_width precision lm specifier args v rest Hsp Harg Hv) as H.
  assert (Hcs : (if c_a <=? specifier then charset_lower else charset_upper)
    = if specifier =? 88 then charset_upper else charset_lower).
  { unfold integer_specifiers in Hsp. rewrite !elem_of_cons in Hsp.
    destruct Hsp as [->|[->|[->|[->|[->|[->|Hn]]]]]]; try done. by apply elem_of_nil in Hn. }
  cbv zeta in H. rewrite Hcs in H. destruct (integer_spec fl specifier v) as [[prefix base] magnitude].
  destruct H as (Hb & Hm & ->).
  destruct (print_integer_field numeric fl field_width precision prefix (specifier =? 88) base magnitude)
    as (ds & out & Hf & ->); [done..|]. by exists ds, out.
Qed.

(** C14: The integer conversions %d %i %o %u %x %X, for any flags, field width,
    length modifier and grouping string, any precision an int holds except
    INT_MIN, and any argument of the type except that %d and %i do not take the
    most negative 64-bit integer: those two are undefined in the code (second
    half).  The argument is printed as its exact numeral in the base, without
    superfluous zeros, with upper-case letters for %X and lower-case ones for
    %x, extended with zeros to the precision and with the separators at the
    places the grouping string prescribes from the right; sign and base prefix
    stand in front, and the padding on the side and of the kind the flags say.
    Without separators inserted after a precision took effect the field has
    exactly the width asked for or, if that is larger, the width of the number.
    The conversion buffer never overflows. *)
Theorem integer_conversion_correct C numeric fl field_width precision lm specifier args v rest
  (Hsp : specifier ∈ integer_specifiers) (Harg : get_integer_arg specifier lm args = Some (v, rest))
  (Hg : grouping_ok (use_grouping fl)) :
  (v <> LONG_MIN -> INT_MIN < precision ->
   let '(prefix, base, magnitude) := integer_spec fl specifier v in
   exists ds out, is_numeral base magnitude ds /\
     Forall (fun c => 48 <= c <= 57 \/ if specifier =? 88 then 65 <= c <= 70 else 97 <= c <= 102) ds /\
     let grouped := group_digits (u8 (thousands_sep numeric)) (use_grouping fl) ds in
     let number := replicate (Z.to_nat (precision - Z.of_nat (length ds))) c_0 ++ grouped in
     let width := Z.of_nat (length prefix) + Z.max precision (Z.of_nat (length grouped)) in
     print_conversion C numeric fl field_width precision lm specifier args = Some ((out, true), rest) /\
     out = justify fl precision prefix number (Z.to_nat (field_width - width)) /\
     (precision <= Z.of_nat (length ds) \/ length grouped = length ds ->
      Z.of_nat (length out) = Z.max field_width (Z.of_nat (length prefix + length number)))) /\
  (v = LONG_MIN \/ precision = INT_MIN ->
   print_conversion C numeric fl field_width precision lm specifier args = None).
Proof.
  split.
  - intros Hv Hp.
    pose proof (integer_conversion_field C numeric fl field_width precision lm specifier args v rest) as H.
    destruct (integer_spec fl specifier v) as [[prefix base] magnitude].
    destruct H as (ds & out & (Hn & Hc & Ho & Hw) & E); [done..|]. exists ds, out. auto 10.
  - intros H. by apply (integer_conversion_undefined C numeric fl field_width precision lm specifier args v rest).
Qed.

(** "%+'12d" of 1234567 with groups of three. *)
Lemma integer_conversion_correct_witness : exists ds out,
  print_conversion ctype_utf_8 (LcNumeric 44 (Some [3])) (Flags (Some [3]) c_plus false false false)
    12 (-1) LM_DEFAULT 100 [ArgInt 1234567] = Some ((out, true), []) /\
  is_numeral 10 1234567 ds /\
  out = [32; 32; 43; 49; 44; 50; 51; 52; 44; 53; 54; 55].
Proof.
  pose proof (integer_conversion_correct ctype_utf_8 (LcNumeric 44 (Some [3]))
    (Flags (Some [3]) c_plus false false false) 12 (-1) LM_DEFAULT 100 [ArgInt 1234567] 1234567 []) as H.
  destruct H as [H _]; [repeat constructor|reflexivity|repeat constructor; done|].
  destruct H as (ds & out & Hnum & _ & Hpr & _).
  - done.
  - done.
  - exists ds, out. split; [exact Hpr|]. split; [exact Hnum|]. vm_compute in Hpr. congruence.
Defined.

(** *** Reading back what was printed *)

(** The numeral of a magnitude is read back whole. *)
Lemma numeral_readback (neg : bool) min max base v ds :
  is_numeral base v ds -> 2 <= base <= 36 -> base <> 16 ->
  min <= (if neg then - v else v) <= max ->
  strtoint_spec min max true base ((if neg then [c_minus] else []) ++ ds)
  = (true, false, if neg then - v else v, []).
Proof.
  intros (vals & Hspan & Hval & Hne & _ & _ & Hrng) Hb Hb16 Hr. unfold strtoint_spec.
  assert (Hsign : split_sign true ((if neg then [c_minus] else []) ++ ds) = (neg, ds)).
  { destruct neg; [done|]. destruct ds as [|c ds]; [done|]. apply Forall_cons_1 in Hrng as [Hc _].
    simpl. unfold c_minus, c_plus. rewrite (proj2 (Z.eqb_neq c 45)), (proj2 (Z.eqb_neq c 43)) by lia. done. }
  rewrite Hsign. unfold split_base. rewrite (proj2 (Z.eqb_neq base 0)), (proj2 (Z.eqb_neq base 16)) by lia.
  cbn [orb]. rewrite (proj2 (Z.leb_le 2 base)), (proj2 (Z.leb_le base 36)) by lia. cbn [andb].
  rewrite Hspan, Hval. rewrite bool_decide_false by done. unfold saturate.
  by rewrite (proj2 (Z.leb_le min _)), (proj2 (Z.leb_le _ max)) by lia.
Qed.

Definition default_flags : flags := Flags None 0 false false false.

(** Without flags, width and precision: the prefix and the numeral. *)
Lemma print_integer_plain numeric prefix charset base v :
  charset ∈ [charset_lower; charset_upper] -> 8 <= base <= 16 -> 0 <= v < 2 ^ 64 ->
  exists ds, is_numeral base v ds /\ (length ds <= 24)%nat /\
    print_integer numeric default_flags 0 (-1) prefix charset base v = Some (prefix ++ ds).
Proof.
  intros Hcs Hb Hv.
  destruct (print_integer_ok numeric default_flags 0 (-1) prefix charset base v)
    as (ds & Hnum & Hle & _ & Hpr); try done; [constructor|].
  exists ds. split; [done|]. split; [done|]. cbv zeta in Hpr.
  assert (Hg : group_digits (u8 (thousands_sep numeric)) None ds = ds).
  { unfold group_digits, groups. cbn [default id].
    assert (H1 : forall k n, group_sizes k [] n = [n]) by by intros []. rewrite H1. simpl.
    by rewrite Nat2Z.id, firstn_all. }
  change (use_grouping default_flags) with (@None (list Z)) in Hpr. rewrite Hg in Hpr.
  assert (Hz : Z.to_nat (-1 - Z.of_nat (length ds)) = 0%nat) by lia.
  rewrite Hz in Hpr. set (pad := Z.to_nat _) in Hpr.
  assert (Hpad : pad = 0%nat) by (unfold pad; lia).
  rewrite Hpad in Hpr. unfold justify in Hpr.
  cbn [default_flags zero_padding left_justified andb replicate app] in Hpr. by rewrite Hpr, ?app_nil_r.
Qed.

(** What "%ld", "%lu" and "%lo" print. *)
Lemma print_plain C numeric specifier v :
  specifier ∈ [100; 117; 111] -> LONG_MIN < v < 2 ^ 64 -> (specifier = 100 -> v <= LONG_MAX) ->
  (specifier <> 100 -> 0 <= v) ->
  let base := if specifier =? 111 then 8 else 10 in
  exists ds, is_numeral base (Z.abs v) ds /\ (length ds <= 24)%nat /\
    let out := (if v <? 0 then [c_minus] else []) ++ ds in
    vprintf_body 4 C numeric [37; 108; specifier] [ArgLong v] = Some (out, true).
Proof.
  intros Hsp Hv Hs Hu base. unfold LONG_MIN, LONG_MAX in *.
  set (charset := if c_a <=? specifier then charset_lower else charset_upper).
  assert (Hcs : charset ∈ [charset_lower; charset_upper])
    by (unfold charset; destruct (c_a <=? specifier); repeat constructor).
  pose proof (print_conversion_integer C numeric default_flags 0 (-1) LM_LONG specifier [ArgLong v] v []) as H.
  cbv zeta in H. fold charset in H.
  specialize (H ltac:(unfold integer_specifiers; set_solver)).
  assert (Harg : get_integer_arg specifier LM_LONG [ArgLong v] = Some (v, [])).
  { rewrite !elem_of_cons in Hsp. destruct Hsp as [->|[->|[->|Hsp]]]; [| | |by apply elem_of_nil in Hsp];
      unfold get_integer_arg; simpl; unfold sN, uN; repeat f_equal; lia. }
  specialize (H Harg ltac:(unfold LONG_MIN; lia)).
  assert (Hspec : integer_spec default_flags specifier v = (if v <? 0 then [c_minus] else [], base, Z.abs v)).
  { rewrite !elem_of_cons in Hsp. destruct Hsp as [->|[->|[->|Hsp]]]; [| | |by apply elem_of_nil in Hsp];
      unfold integer_spec, base; simpl; [done|..]; rewrite Z.abs_eq by lia;
      by rewrite (proj2 (Z.ltb_ge v 0)) by lia. }
  rewrite Hspec in H. destruct H as (Hb & Hm & Heq).
  destruct (print_integer_plain numeric (if v <? 0 then [c_minus] else []) charset base (Z.abs v))
    as (ds & Hnum & Hle & Hpr); try done.
  exists ds. split; [done|]. split; [done|]. cbv zeta.
  assert (Hdir : print_directive C numeric [108; specifier] [ArgLong v]
    = ('(o, args) ← print_conversion C numeric default_flags 0 (-1) LM_LONG specifier [ArgLong v];
       Some (o, [], args))).
  { rewrite !elem_of_cons in Hsp. by destruct Hsp as [->|[->|[->|Hsp]]]; [| | |apply elem_of_nil in Hsp]. }
  cbn [vprintf_body]. rewrite Hdir, Heq, Hpr.
  cbn [mbind option_bind]. by rewrite app_nil_r.
Qed.

Section RoundTrip.
  Context (C : lc_ctype) `{!CtypeLaws C} `{!AsciiCompatible C} (numeric : lc_numeric).

Lemma strtoint_readback T (neg : bool) base v ds :
  int_ok T (NUMERIC_MIN T) (NUMERIC_MAX T) -> is_numeral base v ds -> 2 <= base <= 36 -> base <> 16 ->
  NUMERIC_MIN T <= (if neg then - v else v) <= NUMERIC_MAX T ->
  strtoint T C ((if neg then [c_minus] else []) ++ ds) base = Some (if neg then - v else v, None, []).
Proof.
  intros HT Hnum Hb Hb16 Hr. unfold strtoint. set (str := _ ++ ds).
  assert (Hplain : starts_plain str).
  { unfold str. destruct neg; [done|]. destruct Hnum as (_ & _ & _ & _ & _ & _ & Hrng).
    destruct ds as [|c ds]; [done|]. apply Forall_cons_1 in Hrng as [Hc _]. simpl. split; [lia|].
    unfold iswspace, between. zcases. }
  pose proof (skip_whitespace_ok C (S (length str)) [] str) as Hws. cbn [app] in Hws.
  rewrite Hws; [|constructor|done|simpl; lia]. cbn [mbind option_bind].
  rewrite parse_strtoint_ok by done. unfold str. rewrite (numeral_readback neg _ _ base v ds) by done. done.
Qed.

(** Printing and reading back.  Into any buffer of at least 32
    characters, snprintf of "%ld" stores a terminated numeral from which
    strtol in base 10 recovers the argument exactly, with no error and
    nothing left over; likewise "%lu" with strtoul, and "%lo" with strtoul in
    base 8. *)
Theorem printf_strtol_roundtrip (s : list Z) (v u : Z)
  (Hs : 32 <= Z.of_nat (length s)) (Hv : LONG_MIN < v <= LONG_MAX) (Hu : 0 <= u <= ULONG_MAX) :
  let n := Z.of_nat (length s) in
  let stored out := Some (out ++ 0 :: drop (S (length out)) s, Z.of_nat (length out)) in
  (exists out, vsnprintf_l C numeric s n [37; 108; 100] [ArgLong v] = stored out /\
    strtol_l C out 10 = Some (v, None, [])) /\
  (exists out, vsnprintf_l C numeric s n [37; 108; 117] [ArgLong u] = stored out /\
    strtoul_l C out 10 = Some (u, None, [])) /\
  (exists out, vsnprintf_l C numeric s n [37; 108; 111] [ArgLong u] = stored out /\
    strtoul_l C out 8 = Some (u, None, [])).
Proof.
  intros n stored. unfold LONG_MIN, LONG_MAX, ULONG_MAX in *.
  assert (Hone : forall sp x T, sp ∈ [100; 117; 111] -> LONG_MIN < x < 2 ^ 64 ->
    (sp = 100 -> x <= LONG_MAX) -> (sp <> 100 -> 0 <= x) ->
    int_ok T (NUMERIC_MIN T) (NUMERIC_MAX T) -> NUMERIC_MIN T <= x <= NUMERIC_MAX T ->
    exists out, vsnprintf_l C numeric s n [37; 108; sp] [ArgLong x] = stored out /\
      strtoint T C out (if sp =? 111 then 8 else 10) = Some (x, None, [])).
  { intros sp x T Hsp Hx H1 H2 HT Hr.
    destruct (print_plain C numeric sp x Hsp Hx H1 H2) as (ds & Hnum & Hle & Hpr).
    set (base := if sp =? 111 then 8 else 10) in *. cbv zeta in Hpr.
    set (out := (if x <? 0 then [c_minus] else []) ++ ds) in *.
    assert (Hlen : (length out <= 25)%nat) by (unfold out; rewrite length_app; destruct (x <? 0); simpl; lia).
    exists out. split.
    - rewrite (vsnprintf_l_run C numeric s n _ _ out true); [| lia | |done|unfold INT_MAX; lia].
      + rewrite (proj2 (Z.ltb_lt 0 n)) by lia. cbn [andb]. rewrite firstn_all2 by lia. done.
      + rewrite !elem_of_cons in Hsp. by destruct Hsp as [->|[->|[->|Hsp]]]; [| | |apply elem_of_nil in Hsp].
    - unfold out. rewrite (strtoint_readback T (x <? 0) base (Z.abs x) ds HT Hnum);
        unfold base; zcases; repeat f_equal; lia. }
  split; [|split].
  - apply (Hone 100 v int_t_long); [repeat constructor|unfold LONG_MIN; lia|unfold LONG_MAX; lia|done
      |apply int_ok_long|simpl; unfold LONG_MIN, LONG_MAX; lia].
  - apply (Hone 117 u int_t_unsigned_long);
      [repeat constructor|unfold LONG_MIN; lia|done|lia|apply int_ok_unsigned_long|done].
  - apply (Hone 111 u int_t_unsigned_long);
      [repeat constructor|unfold LONG_MIN; lia|done|lia|apply int_ok_unsigned_long|done].
Qed.
End RoundTrip.

Lemma printf_strtol_roundtrip_witness : exists out,
  vsnprintf_l ctype_utf_8 (LcNumeric 0 None) (replicate 32 7) 32 [37; 108; 100] [ArgLong (-120)]
    = Some (out ++ 0 :: drop (S (length out)) (replicate 32 7), Z.of_nat (length out)) /\
  strtol_l ctype_utf_8 out 10 = Some (-120, None, []).
Proof.
  apply (printf_strtol_roundtrip ctype_utf_8 (LcNumeric 0 None) (replicate 32 7) (-120) 0);
    unfold LONG_MIN, LONG_MAX, ULONG_MAX; simpl; lia.
Defined.

(** *** Where the code departs from its own comments and from the C standard *)

(** "%.3ls" of two characters of two bytes each prints both, one byte more
    than the precision; left-justified it prints only the first. *)
Lemma wide_precision_exceeded :
  vprintf_body 6 ctype_utf_8 (LcNumeric 0 None) [37; 46; 51; 108; 115] [ArgPointer 1 (PWchars [228; 246; 0])]
    = Some ([195; 164; 195; 182], true) /\
  vprintf_body 7 ctype_utf_8 (LcNumeric 0 None) [37; 45; 46; 51; 108; 115]
    [ArgPointer 1 (PWchars [228; 246; 0])] = Some ([195; 164], true).
Proof. done. Qed.

(** "%lc" and "%C" go on to read the second, uninitialised element of
    wstring_buf. *)
Lemma wide_char_unterminated c : c ∈ [[37; 108; 99]; [37; 67]] ->
  vprintf_body 4 ctype_utf_8 (LcNumeric 0 None) c [ArgInt 65] = None.
Proof.
  rewrite !elem_of_cons. intros [->|[->|H]]; [done|done|by apply elem_of_nil in H].
Qed.

(** "%'12.10d" with groups of three: 14 characters in a field of 12 that
    needed no padding. *)
Lemma grouping_precision_padding :
  vprintf_body 9 ctype_utf_8 (LcNumeric 44 (Some [3])) [37; 39; 49; 50; 46; 49; 48; 100] [ArgInt 1234567]
    = Some ([32; 32; 48; 48; 48; 49; 44; 50; 51; 52; 44; 53; 54; 55], true).
Proof. done. Qed.

(** The character after "%%" is taken for a directive: "%% o%1$s" counts as a
    format without numbered arguments, "%%, %1$s" as one with them. *)
Lemma numarg_percent :
  get_numarg_max [37; 37; 32; 111; 37; 49; 36; 115] = Some 0 /\
  get_numarg_max [37; 37; 44; 32; 37; 49; 36; 115] = Some 1.
Proof. done. Qed.
