(* ===== verification/PrintfFormat.v ===== *)
(** * What a format means: the contract of snprintf

    Sources: src/common/vprintf_body.h, vprintf.h and vprintscanf.h, as
    modelled in [Printf].

    A format is a sequence of pieces, ordinary characters and directives made
    of flags, field width, precision, length modifier and specifier.  [typed]
    says that the arguments of a call fit the pieces, [prints] what the pieces
    have to print; both are stated on the pieces and do not mention the parser
    or the printer of [Printf].  Covered are the specifiers
    d i o u x X c s p % and the wide strings %ls and %S without a precision.
    Not covered are formats with numbered arguments, the floating point
    conversions and %m, which [Printf] does not model, and %lc, %C and wide
    strings with a precision, where the code is wrong
    ([Printf.wide_char_unterminated], [Printf.wide_precision_exceeded]). *)

From S2P Require Import Prelude Charset StrToInt Printf.

#[local] Open Scope Z_scope.
#[local] Ltac Zify.zify_post_hook ::= Z.to_euclidean_division_equations.

(** ** Pieces *)









(** ** Well-formed directives *)








(** ** What the parts mean *)










(** ** Arguments that fit, and what is printed *)

Section Meaning.
  Context (C : lc_ctype) (numeric : lc_numeric).




End Meaning.

(** ** Parsing what was rendered *)
















(** ** Strings *)



Section WideStrings.
  Context (C : lc_ctype).





End WideStrings.

(** ** Conversions *)

Section Conversions.
  Context (C : lc_ctype) (numeric : lc_numeric).









End Conversions.

(** ** Formats without numbered arguments *)






