(* ===== verification/Memory.v ===== *)
(** * Byte-addressed memory and long words

    The memory the string functions of src/libc/string work on: a finite map
    from addresses to bytes, in which an access outside the map is undefined
    ([None]), and the access to aligned long words of
    src/libc/string/string_impl.h.  An unsigned long has eight bytes, the
    least significant one first. *)

From stdpp Require Import gmap.
From S2P Require Import Prelude.

#[local] Open Scope Z_scope.
#[local] Ltac Zify.zify_post_hook ::= Z.to_euclidean_division_equations.

(** ** Accesses *)

Notation mem := (gmap Z Z).

Definition ld (m : mem) (a : Z) : option Z := m !! a.

Definition st (m : mem) (a v : Z) : option mem :=
  _ ← m !! a; Some (<[a := v]> m).

(** The bytes of a long. *)
Fixpoint le_combine (bs : list Z) : Z :=
  match bs with [] => 0 | b :: bs => b + 256 * le_combine bs end.

Fixpoint le_split (k : nat) (v : Z) : list Z :=
  match k with O => [] | S k => v mod 256 :: le_split k (v / 256) end.

Definition is_long_aligned (p : Z) : bool := p mod 8 =? 0.

Definition is_long_aligned_equally (a b : Z) : bool := a mod 8 =? b mod 8.

Fixpoint ld_bytes (m : mem) (a : Z) (k : nat) : option (list Z) :=
  match k with
  | O => Some []
  | S k => b ← ld m a; bs ← ld_bytes m (a + 1) k; Some (b :: bs)
  end.

Fixpoint st_bytes (m : mem) (a : Z) (bs : list Z) : option mem :=
  match bs with [] => Some m | b :: bs => m ← st m a b; st_bytes m (a + 1) bs end.

(** Access to a long, undefined unless it is aligned. *)
Definition ld_long (m : mem) (a : Z) : option Z :=
  if is_long_aligned a then bs ← ld_bytes m a 8; Some (le_combine bs) else None.

Definition st_long (m : mem) (a v : Z) : option mem :=
  if is_long_aligned a then st_bytes m a (le_split 8 v) else None.

(** *** string_impl.h *)

Definition LONG_STRING_SIZE : Z := 32.

Definition construct_chars (c : Z) : Z :=
  let cl := u8 c in
  let cl := u64 (Z.lor cl (Z.shiftl cl 8)) in
  let cl := u64 (Z.lor cl (Z.shiftl cl 16)) in
  u64 (Z.lor cl (Z.shiftl cl 32)).

Definition contains_nullbyte (v : Z) : bool :=
  negb (Z.land (Z.land (u64 (v - construct_chars 1)) (u64 (Z.lnot v))) (construct_chars 128) =? 0).

(** ** Regions *)

(** The bytes from [a] on are [l]. *)
Fixpoint bytes_at (m : mem) (a : Z) (l : list Z) : Prop :=
  match l with [] => True | x :: l => m !! a = Some x /\ bytes_at m (a + 1) l end.

(** The memory with [l] stored from [a] on. *)
Fixpoint write (m : mem) (a : Z) (l : list Z) : mem :=
  match l with [] => m | x :: l => write (<[a := x]> m) (a + 1) l end.

Definition mapped (m : mem) (a n : Z) : Prop := forall i, 0 <= i < n -> is_Some (m !! (a + i)).

Lemma lookup_write m a l b :
  write m a l !! b = if (a <=? b) && (b <? a + Z.of_nat (length l)) then l !! Z.to_nat (b - a) else m !! b.
Proof.
  revert m a. induction l as [|x l IH]; intros m a; cbn [write length].
  - destruct ((a <=? b) && (b <? a + Z.of_nat 0)) eqn:E; [zprop; lia|done].
  - rewrite IH. destruct (Z.eq_dec a b) as [->|Hne].
    + rewrite lookup_insert. rewrite (proj2 (Z.leb_gt (b + 1) b)) by lia. cbn [andb].
      rewrite (proj2 (Z.leb_le b b)), (proj2 (Z.ltb_lt b _)) by lia. cbn [andb].
      by rewrite decide_True, Z.sub_diag by done.
    + rewrite lookup_insert_ne by done.
      destruct (Z.leb_spec a b), (Z.leb_spec (a + 1) b), (Z.ltb_spec b (a + 1 + Z.of_nat (length l))),
        (Z.ltb_spec b (a + Z.of_nat (S (length l)))); cbn [andb]; try lia; try done.
      replace (Z.to_nat (b - a)) with (S (Z.to_nat (b - (a + 1)))) by lia. done.
Qed.

Lemma lookup_write_out m a l b : ~ (a <= b < a + Z.of_nat (length l)) -> write m a l !! b = m !! b.
Proof. intros Hb. rewrite lookup_write. destruct (_ && _) eqn:E; [zprop; lia|done]. Qed.

Lemma bytes_at_lookup m a l :
  bytes_at m a l <-> forall i x, l !! i = Some x -> m !! (a + Z.of_nat i) = Some x.
Proof.
  revert a. induction l as [|x l IH]; intros a; cbn [bytes_at].
  - split; [done|]. by intros.
  - rewrite IH. split.
    + intros [H0 H] [|i] y Hi; simpl in Hi; [injection Hi as <-; by rewrite Z.add_0_r|].
      replace (a + Z.of_nat (S i)) with (a + 1 + Z.of_nat i) by lia. by apply H.
    + intros H. split; [rewrite <- (Z.add_0_r a); by apply (H 0%nat)|]. intros i y Hi.
      replace (a + 1 + Z.of_nat i) with (a + Z.of_nat (S i)) by lia. by apply H.
Qed.

Lemma bytes_at_app m a l l' :
  bytes_at m a (l ++ l') <-> bytes_at m a l /\ bytes_at m (a + Z.of_nat (length l)) l'.
Proof.
  revert a. induction l as [|x l IH]; intros a; cbn [bytes_at app length].
  - rewrite Z.add_0_r. tauto.
  - rewrite IH. replace (a + 1 + Z.of_nat (length l)) with (a + Z.of_nat (S (length l))) by lia. tauto.
Qed.

Lemma bytes_at_mapped m a l : bytes_at m a l -> mapped m a (Z.of_nat (length l)).
Proof.
  rewrite bytes_at_lookup. intros H i Hi. destruct (lookup_lt_is_Some_2 l (Z.to_nat i)) as [x Hx]; [lia|].
  exists x. specialize (H _ _ Hx). by rewrite Z2Nat.id in H by lia.
Qed.

(** Regions are unchanged by writes elsewhere. *)
Lemma bytes_at_ext m m' a l :
  (forall b, a <= b < a + Z.of_nat (length l) -> m' !! b = m !! b) -> bytes_at m a l -> bytes_at m' a l.
Proof.
  intros Hext. rewrite !bytes_at_lookup. intros H i x Hi. rewrite Hext; [by apply H|].
  apply lookup_lt_Some in Hi. lia.
Qed.

Lemma mapped_insert m a n b v : mapped m a n -> mapped (<[b := v]> m) a n.
Proof.
  intros H i Hi. destruct (Z.eq_dec (a + i) b) as [->|]; [rewrite lookup_insert; by rewrite decide_True by done|].
  rewrite lookup_insert_ne by done. by apply H.
Qed.

Lemma mapped_sub m a n b k : a <= b -> b + k <= a + n -> mapped m a n -> mapped m b k.
Proof.
  intros H1 H2 H i Hi. replace (b + i) with (a + (b + i - a)) by lia. apply H. lia.
Qed.

Lemma write_app m a l l' : write m a (l ++ l') = write (write m a l) (a + Z.of_nat (length l)) l'.
Proof.
  revert m a. induction l as [|x l IH]; intros m a; cbn [write app length]; [by rewrite Z.add_0_r|].
  rewrite IH. f_equal. lia.
Qed.

Lemma write_snoc m a l x : write m a (l ++ [x]) = write (<[a + Z.of_nat (length l) := x]> m) a l.
Proof.
  apply map_eq. intros b. rewrite !lookup_write, length_app. cbn [length].
  destruct (Z.eq_dec b (a + Z.of_nat (length l))) as [->|Hne].
  - rewrite lookup_insert, decide_True by done.
    rewrite (proj2 (Z.leb_le _ _)), (proj2 (Z.ltb_lt _ _)), Z.ltb_irrefl by lia. cbn [andb].
    rewrite lookup_app_r by lia. by replace (Z.to_nat _ - length l)%nat with 0%nat by lia.
  - rewrite lookup_insert_ne by done.
    destruct (Z.leb_spec a b), (Z.ltb_spec b (a + Z.of_nat (length l))),
      (Z.ltb_spec b (a + Z.of_nat (length l + 1))); cbn [andb]; try lia; try done.
    by rewrite lookup_app_l by lia.
Qed.

Lemma bytes_at_write m a l : bytes_at (write m a l) a l.
Proof.
  apply bytes_at_lookup. intros i x Hi. rewrite lookup_write. apply lookup_lt_Some in Hi as Hlt.
  rewrite (proj2 (Z.leb_le _ _)), (proj2 (Z.ltb_lt _ _)) by lia. cbn [andb].
  by replace (Z.to_nat (a + Z.of_nat i - a)) with i by lia.
Qed.

(** ** Long accesses on regions *)

Lemma st_mapped m a v : is_Some (m !! a) -> st m a v = Some (<[a := v]> m).
Proof. intros [x Hx]. unfold st. by rewrite Hx. Qed.

Lemma ld_bytes_at m a l : bytes_at m a l -> ld_bytes m a (length l) = Some l.
Proof.
  revert a. induction l as [|x l IH]; intros a; cbn [bytes_at ld_bytes length]; [done|].
  intros [H0 H]. unfold ld. rewrite H0. cbn [mbind option_bind]. by rewrite (IH _ H).
Qed.

Lemma st_bytes_write m a l : mapped m a (Z.of_nat (length l)) -> st_bytes m a l = Some (write m a l).
Proof.
  revert m a. induction l as [|x l IH]; intros m a Hm; cbn [st_bytes write]; [done|].
  cbn [length] in Hm. rewrite st_mapped by (rewrite <- (Z.add_0_r a); apply Hm; lia).
  cbn [mbind option_bind]. apply IH. apply mapped_insert.
  apply (mapped_sub _ a (Z.of_nat (S (length l)))); [lia..|done].
Qed.

Lemma le_split_combine l : Forall byte l -> le_split (length l) (le_combine l) = l.
Proof.
  induction 1 as [|x l Hx Hl IH]; cbn [le_split le_combine length]; [done|]. unfold byte in Hx.
  replace ((x + 256 * le_combine l) mod 256) with x by lia.
  replace ((x + 256 * le_combine l) / 256) with (le_combine l) by lia. by rewrite IH.
Qed.

Lemma le_combine_range l : Forall byte l -> 0 <= le_combine l < 256 ^ Z.of_nat (length l).
Proof.
  induction 1 as [|x l Hx Hl IH]; [done|]. cbn [le_combine length].
  rewrite Nat2Z.inj_succ, Z.pow_succ_r by lia. unfold byte in Hx. lia.
Qed.

Lemma le_combine_inj l l' :
  Forall byte l -> Forall byte l' -> length l = length l' -> le_combine l = le_combine l' -> l = l'.
Proof.
  intros Hl Hl' Hlen Heq. rewrite <- (le_split_combine l Hl), <- (le_split_combine l' Hl').
  by rewrite Hlen, Heq.
Qed.

Lemma ld_long_at m a l : bytes_at m a l -> length l = 8%nat -> is_long_aligned a = true ->
  ld_long m a = Some (le_combine l).
Proof.
  intros H Hl Ha. unfold ld_long. rewrite Ha. rewrite <- Hl at 1. by rewrite (ld_bytes_at _ _ _ H).
Qed.

Lemma st_long_at m a l : mapped m a 8 -> length l = 8%nat -> Forall byte l -> is_long_aligned a = true ->
  st_long m a (le_combine l) = Some (write m a l).
Proof.
  intros Hm Hl Hb Ha. unfold st_long. rewrite Ha. rewrite <- Hl, le_split_combine by done.
  apply st_bytes_write. by rewrite Hl.
Qed.

(** *** Null bytes in a long *)

(** Bitwise operations byte by byte. *)
Lemma land_bytes a b x y : 0 <= a < 256 -> 0 <= b < 256 ->
  Z.land (a + 256 * x) (b + 256 * y) = Z.land a b + 256 * Z.land x y.
Proof.
  intros Ha Hb.
  assert (Hdec : forall c z, 0 <= c < 256 -> c + 256 * z = Z.lor c (Z.shiftl z 8)).
  { intros c z Hc. rewrite Z.lor_comm, lor_shifted_low by (simpl; lia). lia. }
  assert (Hab : 0 <= Z.land a b < 2 ^ 8) by (apply land_range; simpl; lia).
  rewrite !Hdec by (simpl in Hab; lia). apply Z.bits_inj'. intros n Hn.
  rewrite !Z.land_spec, !Z.lor_spec, !Z.land_spec, !Z.shiftl_spec, Z.land_spec by lia.
  destruct (Z.ltb_spec n 8).
  - rewrite !(Z.testbit_neg_r _ (n - 8)) by lia. by rewrite !orb_false_r.
  - rewrite !(testbit_high 8 _ n) by (simpl; lia). done.
Qed.

Fixpoint repeat_byte (k : nat) (c : Z) : Z :=
  match k with O => 0 | S k => c + 256 * repeat_byte k c end.

Definition null_test (k : nat) (v : Z) : Z :=
  let w := 256 ^ Z.of_nat k in
  Z.land (Z.land ((v - repeat_byte k 1) mod w) (Z.lnot v mod w)) (repeat_byte k 128).

Lemma repeat_byte_range k c : 0 <= c < 256 -> 0 <= repeat_byte k c < 256 ^ Z.of_nat k.
Proof.
  intros Hc. induction k as [|k IH]; [done|]. cbn [repeat_byte].
  rewrite Nat2Z.inj_succ, Z.pow_succ_r by lia. lia.
Qed.

Lemma null_test_byte b : 0 <= b < 256 ->
  (Z.land (Z.land ((b - 1) mod 256) (Z.lnot b mod 256)) 128 =? 0) = negb (b =? 0).
Proof.
  intros Hb. apply (Zforall_spec 256 (fun b =>
    eqb (Z.land (Z.land ((b - 1) mod 256) (Z.lnot b mod 256)) 128 =? 0) (negb (b =? 0)))) in Hb;
    [by apply eqb_prop|by vm_compute].
Qed.

(** The low byte of a difference, and the rest when there is no borrow. *)
Lemma mod_split x y w : 0 < w -> 0 <= x < 256 -> (x + 256 * y) mod (256 * w) = x + 256 * (y mod w).
Proof. intros Hw Hx. rewrite Z.rem_mul_r by lia. replace ((x + 256 * y) mod 256) with x by lia.
  by replace ((x + 256 * y) / 256) with y by lia. Qed.

Lemma null_test_ok bs : Forall byte bs ->
  (null_test (length bs) (le_combine bs) =? 0) = negb (bool_decide (0 ∈ bs)).
Proof.
  induction 1 as [|b bs Hb Hbs IH]; [done|]. cbn [length le_combine]. unfold null_test in *.
  rewrite Nat2Z.inj_succ, Z.pow_succ_r by lia. cbn [repeat_byte]. unfold byte in Hb.
  set (w := 256 ^ Z.of_nat (length bs)) in *. assert (Hw : 0 < w) by (unfold w; lia).
  set (v := le_combine bs) in *. set (r1 := repeat_byte _ 1) in *. set (r8 := repeat_byte _ 128) in *.
  assert (Hnot : Z.lnot (b + 256 * v) mod (256 * w) = Z.lnot b mod 256 + 256 * (Z.lnot v mod w)).
  { rewrite <- mod_split by (try lia; apply Z.mod_pos_bound; lia). f_equal. unfold Z.lnot. lia. }
  rewrite Hnot. pose proof (Z.mod_pos_bound (Z.lnot b) 256 ltac:(lia)) as Hnb.
  pose proof (null_test_byte b Hb) as Hnt. destruct (Z.eq_dec b 0) as [->|Hb0].
  - assert (Hd : exists q, (0 + 256 * v - (1 + 256 * r1)) mod (256 * w) = 255 + 256 * q).
    { exists ((v - r1 - 1) mod w). rewrite <- mod_split by lia. f_equal. lia. }
    destruct Hd as [q ->]. rewrite land_bytes by lia.
    change (Z.land 255 (Z.lnot 0 mod 256)) with 255. rewrite land_bytes by lia.
    change (Z.land 255 128) with 128. rewrite bool_decide_true by constructor.
    apply Z.eqb_neq. lia.
  - assert (Hd : (b + 256 * v - (1 + 256 * r1)) mod (256 * w) = (b - 1) mod 256 + 256 * ((v - r1) mod w)).
    { replace ((b - 1) mod 256) with (b - 1) by lia. rewrite <- mod_split by lia. f_equal. lia. }
    rewrite Hd. rewrite land_bytes by (try apply Z.mod_pos_bound; lia).
    assert (Hlo : 0 <= Z.land ((b - 1) mod 256) (Z.lnot b mod 256) < 256).
    { apply (land_range 8); simpl; lia. }
    rewrite land_bytes by lia. rewrite (proj2 (Z.eqb_neq b 0) Hb0) in Hnt. apply Z.eqb_eq in Hnt.
    rewrite Hnt, Z.add_0_l. assert (Hiff : bool_decide (0 ∈ b :: bs) = bool_decide (0 ∈ bs)).
    { apply bool_decide_ext. rewrite elem_of_cons. naive_solver. }
    rewrite Hiff, <- IH. destruct (Z.eqb_spec (Z.land (Z.land ((v - r1) mod w) (Z.lnot v mod w)) r8) 0) as [->|];
      [done|]. apply Z.eqb_neq. lia.
Qed.

Lemma construct_chars_ok c : 0 <= c < 256 -> construct_chars c = repeat_byte 8 c.
Proof.
  intros Hc. apply (Zforall_spec 256 (fun c => construct_chars c =? repeat_byte 8 c)) in Hc;
    [by apply Z.eqb_eq|by vm_compute].
Qed.

Lemma contains_nullbyte_ok bs : Forall byte bs -> length bs = 8%nat ->
  contains_nullbyte (le_combine bs) = bool_decide (0 ∈ bs).
Proof.
  intros Hb Hl. pose proof (null_test_ok bs Hb) as H. rewrite Hl in H. unfold null_test in H.
  unfold contains_nullbyte. rewrite !construct_chars_ok by lia. unfold uN.
  change (256 ^ Z.of_nat 8) with (2 ^ 64) in H. rewrite H. apply negb_involutive.
Qed.

(** ** Strings in memory *)

(** Every value is a byte, and memory is mapped in aligned long words. *)
Record mem_ok (m : mem) : Prop := {
  mem_bytes : forall a v, m !! a = Some v -> byte v;
  mem_longs : forall a b, is_Some (m !! a) -> b / 8 = a / 8 -> is_Some (m !! b)
}.

(** The characters of a string that has a terminator within [maxlen]
    characters, or of which only [maxlen] characters need exist. *)
Record nstring (m : mem) (a : Z) (str : list Z) (maxlen : Z) : Prop := {
  nstring_bytes : bytes_at m a str;
  nstring_nonnull : 0 ∉ str;
  nstring_end : maxlen <= Z.of_nat (length str) \/ m !! (a + Z.of_nat (length str)) = Some 0
}.

Definition cstring (m : mem) (a : Z) (str : list Z) : Prop :=
  bytes_at m a (str ++ [0]) /\ 0 ∉ str.

Lemma cstring_nstring m a str n : cstring m a str -> nstring m a str n.
Proof.
  intros [H Hn]. apply bytes_at_app in H as [H1 [H2 _]]. split; [done..|by right].
Qed.

Lemma cstring_cons m a c str : cstring m a (c :: str) -> m !! a = Some c /\ c <> 0 /\ cstring m (a + 1) str.
Proof.
  intros [[H0 H] Hn]. rewrite not_elem_of_cons in Hn. destruct Hn as [Hc Hn]. by repeat split.
Qed.

Lemma cstring_nil m a : cstring m a [] -> m !! a = Some 0.
Proof. by intros [[H _] _]. Qed.

Lemma bytes_at_agree m a l l' :
  bytes_at m a l -> bytes_at m a l' -> (length l <= length l')%nat -> l' = l ++ drop (length l) l'.
Proof.
  revert a l'. induction l as [|x l IH]; intros a l' H H' Hlen; [done|].
  destruct l' as [|y l']; [simpl in Hlen; lia|]. destruct H as [H0 H], H' as [H0' H'].
  assert (x = y) as -> by congruence. simpl. f_equal. apply (IH (a + 1)); [done..|simpl in Hlen; lia].
Qed.

(** The aligned long at a mapped address. *)
Lemma mem_long_at m a : mem_ok m -> is_long_aligned a = true -> is_Some (m !! a) ->
  exists w, length w = 8%nat /\ bytes_at m a w /\ Forall byte w /\ ld_long m a = Some (le_combine w).
Proof.
  intros Hm Ha Hs. assert (Hal := Ha). unfold is_long_aligned in Ha. apply Z.eqb_eq in Ha.
  assert (H : forall k b, b / 8 = a / 8 -> b + Z.of_nat k <= 8 * (a / 8) + 8 ->
    exists w, length w = k /\ bytes_at m b w /\ Forall byte w).
  { induction k as [|k IH]; intros b Hb Hk; [by exists []|].
    destruct (mem_longs m Hm a b Hs Hb) as [v Hv]. destruct (decide (k = 0%nat)) as [->|Hk0].
    - exists [v]. split; [done|]. split; [done|]. constructor; [by apply (mem_bytes m Hm b)|constructor].
    - destruct (IH (b + 1)) as (w & Hl & Hw & Hby); [lia..|]. exists (v :: w). split; [simpl; lia|].
      split; [done|]. constructor; [by apply (mem_bytes m Hm b)|done]. }
  destruct (H 8%nat a) as (w & Hl & Hw & Hby); [done|lia|]. exists w. repeat split; try done.
  by apply ld_long_at.
Qed.

(** A long of a string: either the terminator is in it, or it is eight more
    characters. *)
Lemma nstring_long m a str maxlen :
  mem_ok m -> nstring m a str maxlen -> is_long_aligned a = true -> 8 <= maxlen ->
  exists w, length w = 8%nat /\ Forall byte w /\ ld_long m a = Some (le_combine w) /\
    bytes_at m a w /\
    if contains_nullbyte (le_combine w) then (length str < 8)%nat
    else exists str', str = w ++ str' /\ nstring m (a + 8) str' (maxlen - 8).
Proof.
  intros Hm [Hb Hn He] Ha Hmax.
  assert (Hs : is_Some (m !! a)).
  { destruct str as [|c str]; [|destruct Hb; by eexists]. simpl in He. rewrite Z.add_0_r in He.
    destruct He; [lia|by eexists]. }
  destruct (mem_long_at m a Hm Ha Hs) as (w & Hl & Hw & Hby & Hld). exists w. repeat (split; [done|]).
  rewrite contains_nullbyte_ok by done. case_bool_decide as Hnull.
  - destruct (Nat.lt_ge_cases (length str) 8) as [|Hge]; [done|]. exfalso.
    rewrite (bytes_at_agree m a w str Hw Hb) in Hn by lia. set_solver.
  - assert (Hge : (8 <= length str)%nat).
    { destruct (Nat.lt_ge_cases (length str) 8) as [Hlt|]; [|done]. exfalso. destruct He as [He|He]; [lia|].
      apply Hnull. rewrite bytes_at_lookup in Hw.
      destruct (lookup_lt_is_Some_2 w (length str)) as [x Hx]; [lia|]. specialize (Hw _ _ Hx).
      rewrite Hw in He. injection He as ->. by apply list_elem_of_lookup_2 in Hx. }
    pose proof (bytes_at_agree m a w str Hw Hb) as Heq. rewrite Hl in Heq. exists (drop 8 str).
    specialize (Heq Hge). split; [done|]. rewrite Heq in Hb, Hn, He.
    apply bytes_at_app in Hb as [_ Hb]. rewrite Hl in Hb. rewrite length_app, Hl in He. split; [done|set_solver|].
    destruct He as [He|He]; [left; lia|right]. rewrite <- He. f_equal. lia.
Qed.

(** An aligned block of whole longs is a memory. *)
Lemma mem_ok_block a l :
  a mod 8 = 0 -> Z.of_nat (length l) mod 8 = 0 -> Forall byte l -> mem_ok (write ∅ a l).
Proof.
  intros Ha Hl Hb.
  assert (Hdom : forall b, is_Some ((write ∅ a l : mem) !! b) <-> a <= b < a + Z.of_nat (length l)).
  { intros b. rewrite lookup_write, lookup_empty. destruct (_ && _) eqn:E.
    - zprop. split; [lia|]. intros _. apply lookup_lt_is_Some_2. lia.
    - split; [by intros []|]. intros H. rewrite (proj2 (Z.leb_le _ _)), (proj2 (Z.ltb_lt _ _)) in E by lia. done. }
  split.
  - intros b v. rewrite lookup_write, lookup_empty. destruct (_ && _); [|done]. intros Hv.
    by apply (Forall_lookup_1 _ _ _ _ Hb Hv).
  - intros b c H1 H2. apply Hdom in H1. apply Hdom. lia.
Qed.
