(* ===== verification/StringScan.v ===== *)
(** * Measuring and comparing strings: strlen, strnlen, memcmp, strcmp, strncmp

    Sources: src/libc/string/strlen.c, strnlen.c, memcmp.c, strcmp.c and
    strncmp.c, which look at a long word at a time where the alignment allows
    it.  A loop that ends early is a sum: [inl] the result of the function,
    [inr] the variables after the loop.  Loops bounded only by the terminator
    take fuel. *)

From stdpp Require Import gmap.
From S2P Require Import Prelude Memory.

#[local] Open Scope Z_scope.
#[local] Ltac Zify.zify_post_hook ::= Z.to_euclidean_division_equations.

(** ** strlen and strnlen *)

Fixpoint strlen_align (fuel : nat) (m : mem) (s eb : Z) : option (Z + Z) :=
  if is_long_aligned eb then Some (inr eb)
  else
    match fuel with
    | O => None
    | S fuel => c ← ld m eb; if c =? 0 then Some (inl (eb - s)) else strlen_align fuel m s (eb + 1)
    end.

Fixpoint strlen_longs (fuel : nat) (m : mem) (el : Z) : option Z :=
  match fuel with
  | O => None
  | S fuel => v ← ld_long m el; if contains_nullbyte v then Some el else strlen_longs fuel m (el + 8)
  end.

Fixpoint strlen_bytes (fuel : nat) (m : mem) (eb : Z) : option Z :=
  match fuel with
  | O => None
  | S fuel => c ← ld m eb; if c =? 0 then Some eb else strlen_bytes fuel m (eb + 1)
  end.

Definition strlen (fuel : nat) (m : mem) (s : Z) : option Z :=
  r ← strlen_align 8 m s s;
  match r with
  | inl len => Some len
  | inr eb =>
      el ← strlen_longs fuel m eb;
      eb ← strlen_bytes fuel m el;
      Some (eb - s)
  end.

Fixpoint strnlen_align (fuel : nat) (m : mem) (s eb maxlen : Z) : option (Z + Z * Z) :=
  if is_long_aligned eb then Some (inr (eb, maxlen))
  else
    match fuel with
    | O => None
    | S fuel =>
        if maxlen =? 0 then Some (inl (eb - s))
        else c ← ld m eb; if c =? 0 then Some (inl (eb - s)) else strnlen_align fuel m s (eb + 1) (maxlen - 1)
    end.

Fixpoint strnlen_longs (fuel : nat) (m : mem) (el maxlen : Z) : option (Z * Z) :=
  match fuel with
  | O => None
  | S fuel =>
      if 8 <=? maxlen then
        v ← ld_long m el;
        if contains_nullbyte v then Some (el, maxlen) else strnlen_longs fuel m (el + 8) (maxlen - 8)
      else Some (el, maxlen)
  end.

Fixpoint strnlen_bytes (maxlen : nat) (m : mem) (eb : Z) : option Z :=
  match maxlen with
  | O => Some eb
  | S maxlen => c ← ld m eb; if c =? 0 then Some eb else strnlen_bytes maxlen m (eb + 1)
  end.

Definition strnlen (m : mem) (s maxlen : Z) : option Z :=
  r ← strnlen_align 8 m s s maxlen;
  match r with
  | inl len => Some len
  | inr (eb, maxlen) =>
      '(el, maxlen) ← strnlen_longs (S (Z.to_nat maxlen)) m eb maxlen;
      eb ← strnlen_bytes (Z.to_nat maxlen) m el;
      Some (eb - s)
  end.

(** ** memcmp *)

Fixpoint memcmp_align (fuel : nat) (m : mem) (sb1 sb2 n : Z) : option (Z + Z * Z * Z) :=
  if is_long_aligned sb1 then Some (inr (sb1, sb2, n))
  else
    match fuel with
    | O => None
    | S fuel =>
        c1 ← ld m sb1; c2 ← ld m sb2;
        if negb (c1 =? c2) then Some (inl (c1 - c2)) else memcmp_align fuel m (sb1 + 1) (sb2 + 1) (n - 1)
    end.

Fixpoint memcmp_longs (fuel : nat) (m : mem) (sl1 sl2 n : Z) : option (Z * Z * Z) :=
  match fuel with
  | O => None
  | S fuel =>
      if 8 <=? n then
        v1 ← ld_long m sl1; v2 ← ld_long m sl2;
        if v1 =? v2 then memcmp_longs fuel m (sl1 + 8) (sl2 + 8) (n - 8) else Some (sl1, sl2, n)
      else Some (sl1, sl2, n)
  end.

Fixpoint memcmp_bytes (n : nat) (m : mem) (sb1 sb2 : Z) : option Z :=
  match n with
  | O => Some 0
  | S n =>
      c1 ← ld m sb1; c2 ← ld m sb2;
      if negb (c1 =? c2) then Some (c1 - c2) else memcmp_bytes n m (sb1 + 1) (sb2 + 1)
  end.

Definition memcmp (m : mem) (s1 s2 n : Z) : option Z :=
  if (LONG_STRING_SIZE <=? n) && is_long_aligned_equally s1 s2 then
    r ← memcmp_align 8 m s1 s2 n;
    match r with
    | inl d => Some d
    | inr (sb1, sb2, n) =>
        '(sb1, sb2, n) ← memcmp_longs (S (Z.to_nat n)) m sb1 sb2 n;
        memcmp_bytes (Z.to_nat n) m sb1 sb2
    end
  else memcmp_bytes (Z.to_nat n) m s1 s2.

(** ** strcmp *)

Fixpoint strcmp_align (fuel : nat) (m : mem) (sb1 sb2 : Z) : option (Z + Z * Z) :=
  if is_long_aligned sb1 then Some (inr (sb1, sb2))
  else
    match fuel with
    | O => None
    | S fuel =>
        c1 ← ld m sb1; c2 ← ld m sb2;
        if negb (c1 =? c2) then Some (inl (c1 - c2))
        else if c1 =? 0 then Some (inl 0) else strcmp_align fuel m (sb1 + 1) (sb2 + 1)
    end.

Fixpoint strcmp_longs (fuel : nat) (m : mem) (sl1 sl2 : Z) : option (Z * Z) :=
  match fuel with
  | O => None
  | S fuel =>
      v1 ← ld_long m sl1; v2 ← ld_long m sl2;
      if (v1 =? v2) && negb (contains_nullbyte v1) then strcmp_longs fuel m (sl1 + 8) (sl2 + 8)
      else Some (sl1, sl2)
  end.

Fixpoint strcmp_bytes (fuel : nat) (m : mem) (sb1 sb2 : Z) : option Z :=
  match fuel with
  | O => None
  | S fuel =>
      c1 ← ld m sb1; c2 ← ld m sb2;
      if negb (c1 =? c2) then Some (c1 - c2)
      else if c1 =? 0 then Some 0 else strcmp_bytes fuel m (sb1 + 1) (sb2 + 1)
  end.

Definition strcmp (fuel : nat) (m : mem) (sb1 sb2 : Z) : option Z :=
  if is_long_aligned_equally sb1 sb2 then
    r ← strcmp_align 8 m sb1 sb2;
    match r with
    | inl d => Some d
    | inr (sb1, sb2) =>
        '(sb1, sb2) ← strcmp_longs fuel m sb1 sb2;
        strcmp_bytes fuel m sb1 sb2
    end
  else strcmp_bytes fuel m sb1 sb2.

(** ** strncmp *)

Fixpoint strncmp_align (fuel : nat) (m : mem) (sb1 sb2 n : Z) : option (Z + Z * Z * Z) :=
  if is_long_aligned sb1 then Some (inr (sb1, sb2, n))
  else
    match fuel with
    | O => None
    | S fuel =>
        c1 ← ld m sb1; c2 ← ld m sb2;
        if negb (c1 =? c2) then Some (inl (c1 - c2))
        else if c1 =? 0 then Some (inl 0) else strncmp_align fuel m (sb1 + 1) (sb2 + 1) (n - 1)
    end.

Fixpoint strncmp_longs (fuel : nat) (m : mem) (sl1 sl2 n : Z) : option (Z * Z * Z) :=
  match fuel with
  | O => None
  | S fuel =>
      if 8 <=? n then
        v1 ← ld_long m sl1; v2 ← ld_long m sl2;
        if (v1 =? v2) && negb (contains_nullbyte v1) then strncmp_longs fuel m (sl1 + 8) (sl2 + 8) (n - 8)
        else Some (sl1, sl2, n)
      else Some (sl1, sl2, n)
  end.

Fixpoint strncmp_bytes (n : nat) (m : mem) (sb1 sb2 : Z) : option Z :=
  match n with
  | O => Some 0
  | S n =>
      c1 ← ld m sb1; c2 ← ld m sb2;
      if negb (c1 =? c2) then Some (c1 - c2)
      else if c1 =? 0 then Some 0 else strncmp_bytes n m (sb1 + 1) (sb2 + 1)
  end.

Definition strncmp (m : mem) (sb1 sb2 n : Z) : option Z :=
  if (LONG_STRING_SIZE <=? n) && is_long_aligned_equally sb1 sb2 then
    r ← strncmp_align 8 m sb1 sb2 n;
    match r with
    | inl d => Some d
    | inr (sb1, sb2, n) =>
        '(sb1, sb2, n) ← strncmp_longs (S (Z.to_nat n)) m sb1 sb2 n;
        strncmp_bytes (Z.to_nat n) m sb1 sb2
    end
  else strncmp_bytes (Z.to_nat n) m sb1 sb2.

(** ** strlen and strnlen against the number of characters *)

(** The characters seen so far are those between [s] and the position. *)
Definition len_spec (str : list Z) (maxlen : Z) : Z := Z.min maxlen (Z.of_nat (length str)).

Lemma nstring_cons m a str maxlen : 0 < maxlen -> nstring m a str maxlen ->
  (str = [] /\ m !! a = Some 0) \/
  exists c str', str = c :: str' /\ m !! a = Some c /\ c <> 0 /\ nstring m (a + 1) str' (maxlen - 1).
Proof.
  intros Hmax [Hb Hn He]. destruct str as [|c str].
  - left. simpl in He. rewrite Z.add_0_r in He. destruct He; [lia|done].
  - right. exists c, str. destruct Hb as [H0 Hb]. rewrite not_elem_of_cons in Hn. destruct Hn as [Hc Hn].
    repeat split; try done. cbn [length] in He. destruct He as [He|He]; [left; lia|right].
    rewrite <- He. f_equal. lia.
Qed.

Lemma aligned_succ a k : is_long_aligned a = false -> (- a) mod 8 <= Z.of_nat (S k) ->
  (- (a + 1)) mod 8 <= Z.of_nat k.
Proof. unfold is_long_aligned. intros Ha%Z.eqb_neq. lia. Qed.

Lemma not_aligned_zero a : is_long_aligned a = false -> (- a) mod 8 <= 0 -> False.
Proof. unfold is_long_aligned. intros Ha%Z.eqb_neq. lia. Qed.

Lemma strnlen_align_ok m s fuel : forall eb str maxlen,
  (- eb) mod 8 <= Z.of_nat fuel -> 0 <= maxlen -> nstring m eb str maxlen ->
  match strnlen_align fuel m s eb maxlen with
  | Some (inl len) => len = eb - s + len_spec str maxlen
  | Some (inr (eb', maxlen')) => exists str', is_long_aligned eb' = true /\ 0 <= maxlen' /\
      nstring m eb' str' maxlen' /\ eb' + len_spec str' maxlen' = eb + len_spec str maxlen
  | None => False
  end.
Proof.
  unfold len_spec. induction fuel as [|fuel IH]; intros eb str maxlen Hf Hmax Hs; cbn [strnlen_align];
    destruct (is_long_aligned eb) eqn:Ea; try (exists str; repeat split; try done; apply Hs).
  { by apply (not_aligned_zero eb). }
  destruct (Z.eqb_spec maxlen 0) as [->|Hne]; [lia|].
  destruct (nstring_cons m eb str maxlen ltac:(lia) Hs) as [[-> H0]|(c & str' & -> & H0 & Hc & Hs')];
    unfold ld; rewrite H0; cbn [mbind option_bind].
  - simpl. lia.
  - rewrite (proj2 (Z.eqb_neq c 0) Hc).
    specialize (IH (eb + 1) str' (maxlen - 1)). cbn [length].
    destruct (strnlen_align fuel m s (eb + 1) (maxlen - 1)) as [[len|[eb' maxlen']]|].
    + specialize (IH (aligned_succ _ _ Ea Hf) ltac:(lia) Hs'). lia.
    + destruct IH as (str2 & H1 & H2 & H3 & H4); [by apply aligned_succ|lia|done|].
      exists str2. repeat (split; [done|]). lia.
    + apply IH; [by apply aligned_succ|lia|done].
Qed.

Lemma strnlen_longs_ok m : mem_ok m -> forall fuel el str maxlen,
  maxlen < Z.of_nat fuel -> 0 <= maxlen -> is_long_aligned el = true -> nstring m el str maxlen ->
  exists el' str' maxlen', strnlen_longs fuel m el maxlen = Some (el', maxlen') /\ 0 <= maxlen' /\
    nstring m el' str' maxlen' /\ el' + len_spec str' maxlen' = el + len_spec str maxlen.
Proof.
  intros Hm. unfold len_spec. induction fuel as [|fuel IH]; intros el str maxlen Hf Hmax Ha Hs; [lia|].
  cbn [strnlen_longs]. destruct (Z.leb_spec 8 maxlen) as [H8|H8]; [|by exists el, str, maxlen].
  destruct (nstring_long m el str maxlen Hm Hs Ha H8) as (w & Hl & Hby & -> & _ & H).
  cbn [mbind option_bind]. destruct (contains_nullbyte (le_combine w)); [by exists el, str, maxlen|].
  destruct H as (str' & -> & Hs').
  destruct (IH (el + 8) str' (maxlen - 8)) as (el2 & str2 & max2 & Heq & H1 & H2 & H3); [lia|lia| |done|].
  { unfold is_long_aligned in *. lia. }
  exists el2, str2, max2. repeat (split; [done|]). rewrite length_app, Hl. lia.
Qed.

Lemma strnlen_bytes_ok m k : forall eb str, nstring m eb str (Z.of_nat k) ->
  strnlen_bytes k m eb = Some (eb + len_spec str (Z.of_nat k)).
Proof.
  unfold len_spec. induction k as [|k IH]; intros eb str Hs; cbn [strnlen_bytes]; [f_equal; lia|].
  destruct (nstring_cons m eb str (Z.of_nat (S k)) ltac:(lia) Hs) as [[-> H0]|(c & str' & -> & H0 & Hc & Hs')];
    unfold ld; rewrite H0; cbn [mbind option_bind]; [simpl; f_equal; lia|].
  rewrite (proj2 (Z.eqb_neq c 0) Hc). rewrite (IH _ str'); [f_equal; cbn [length]; lia|].
  by replace (Z.of_nat (S k) - 1) with (Z.of_nat k) in Hs' by lia.
Qed.

Lemma strnlen_ok m s str maxlen : mem_ok m -> 0 <= maxlen -> nstring m s str maxlen ->
  strnlen m s maxlen = Some (len_spec str maxlen).
Proof.
  intros Hm Hmax Hs. unfold strnlen.
  pose proof (strnlen_align_ok m s 8 s str maxlen ltac:(lia) Hmax Hs) as Ha.
  destruct (strnlen_align 8 m s s maxlen) as [[len|[eb n]]|]; cbn [mbind option_bind]; [f_equal; lia| |done].
  destruct Ha as (str1 & Hal & Hn & Hs1 & Heq).
  destruct (strnlen_longs_ok m Hm (S (Z.to_nat n)) eb str1 n) as (el & str2 & n2 & -> & Hn2 & Hs2 & Heq2);
    [lia|done..|]. cbn [mbind option_bind].
  rewrite (strnlen_bytes_ok m (Z.to_nat n2) el str2) by by rewrite Z2Nat.id.
  cbn [mbind option_bind]. rewrite Z2Nat.id by done. f_equal. lia.
Qed.

Lemma strlen_align_ok m s fuel : forall eb str,
  (- eb) mod 8 <= Z.of_nat fuel -> cstring m eb str ->
  match strlen_align fuel m s eb with
  | Some (inl len) => len = eb - s + Z.of_nat (length str)
  | Some (inr eb') => exists str', is_long_aligned eb' = true /\ cstring m eb' str' /\
      (length str' <= length str)%nat /\ eb' + Z.of_nat (length str') = eb + Z.of_nat (length str)
  | None => False
  end.
Proof.
  induction fuel as [|fuel IH]; intros eb str Hf Hs; cbn [strlen_align];
    destruct (is_long_aligned eb) eqn:Ea; try (exists str; repeat split; try done; apply Hs).
  { by apply (not_aligned_zero eb). }
  unfold ld. destruct str as [|c str].
  - rewrite (cstring_nil _ _ Hs). simpl. lia.
  - destruct (cstring_cons _ _ _ _ Hs) as (-> & Hc & Hs'). cbn [mbind option_bind length].
    rewrite (proj2 (Z.eqb_neq c 0) Hc). specialize (IH (eb + 1) str (aligned_succ _ _ Ea Hf) Hs').
    destruct (strlen_align fuel m s (eb + 1)) as [[len|eb']|]; [lia| |done].
    destruct IH as (str2 & H1 & H2 & H3 & H4). exists str2. repeat (split; [done|]). lia.
Qed.

Lemma strlen_longs_ok m : mem_ok m -> forall fuel el str,
  (length str < fuel)%nat -> is_long_aligned el = true -> cstring m el str ->
  exists el' str', strlen_longs fuel m el = Some el' /\ cstring m el' str' /\
    (length str' <= length str)%nat /\ el' + Z.of_nat (length str') = el + Z.of_nat (length str).
Proof.
  intros Hm. induction fuel as [|fuel IH]; intros el str Hf Ha Hs; [lia|]. cbn [strlen_longs].
  destruct (nstring_long m el str (Z.of_nat (length str) + 9) Hm (cstring_nstring _ _ _ _ Hs) Ha)
    as (w & Hl & Hby & -> & _ & H); [lia|].
  cbn [mbind option_bind]. destruct (contains_nullbyte (le_combine w)); [by exists el, str|].
  destruct H as (str' & -> & [Hb Hn He]). rewrite length_app, Hl in *.
  destruct (IH (el + 8) str') as (el2 & str2 & Heq & H1 & H2 & H3); [lia| | |].
  { unfold is_long_aligned in *. lia. }
  { split; [|done]. apply bytes_at_app. split; [done|]. destruct He as [He|He]; [lia|done]. }
  exists el2, str2. split; [done|]. split; [done|]. lia.
Qed.

Lemma strlen_bytes_ok m fuel : forall eb str, (length str < fuel)%nat -> cstring m eb str ->
  strlen_bytes fuel m eb = Some (eb + Z.of_nat (length str)).
Proof.
  induction fuel as [|fuel IH]; intros eb str Hf Hs; [lia|]. cbn [strlen_bytes]. unfold ld.
  destruct str as [|c str].
  - rewrite (cstring_nil _ _ Hs). simpl. f_equal. lia.
  - destruct (cstring_cons _ _ _ _ Hs) as (-> & Hc & Hs'). cbn [mbind option_bind].
    rewrite (proj2 (Z.eqb_neq c 0) Hc), (IH _ str); [f_equal; cbn [length]; lia|simpl in Hf; lia|done].
Qed.

Lemma strlen_ok m s str fuel : mem_ok m -> cstring m s str -> (length str < fuel)%nat ->
  strlen fuel m s = Some (Z.of_nat (length str)).
Proof.
  intros Hm Hs Hf. unfold strlen. pose proof (strlen_align_ok m s 8 s str ltac:(lia) Hs) as Ha.
  destruct (strlen_align 8 m s s) as [[len|eb]|]; cbn [mbind option_bind]; [f_equal; lia| |done].
  destruct Ha as (str1 & Hal & Hs1 & Hle & Heq).
  destruct (strlen_longs_ok m Hm fuel eb str1) as (el & str2 & -> & Hs2 & Hle2 & Heq2); [lia|done..|].
  cbn [mbind option_bind]. rewrite (strlen_bytes_ok m fuel el str2); [|lia|done].
  cbn [mbind option_bind]. f_equal. lia.
Qed.

(** ** Comparisons against the lexicographic order *)

(** The difference of the first pair of bytes that differ. *)
Fixpoint cmp_spec (l1 l2 : list Z) : Z :=
  match l1, l2 with
  | x :: l1, y :: l2 => if x =? y then cmp_spec l1 l2 else x - y
  | _, _ => 0
  end.

Lemma cmp_spec_app w l1 l2 : cmp_spec (w ++ l1) (w ++ l2) = cmp_spec l1 l2.
Proof. induction w as [|x w IH]; [done|]. simpl. by rewrite Z.eqb_refl. Qed.

Lemma memcmp_bytes_ok m l1 : forall l2 a b, length l1 = length l2 ->
  bytes_at m a l1 -> bytes_at m b l2 -> memcmp_bytes (length l1) m a b = Some (cmp_spec l1 l2).
Proof.
  induction l1 as [|x l1 IH]; intros [|y l2] a b Hl H1 H2; try done. cbn [memcmp_bytes length cmp_spec].
  destruct H1 as [Hx H1], H2 as [Hy H2]. unfold ld. rewrite Hx, Hy. cbn [mbind option_bind].
  destruct (x =? y); cbn [negb]; [|done]. apply IH; [by injection Hl|done..].
Qed.

Lemma memcmp_align_ok m fuel : forall l1 l2 a b,
  (- a) mod 8 <= Z.of_nat fuel -> (- a) mod 8 <= Z.of_nat (length l1) -> length l1 = length l2 ->
  bytes_at m a l1 -> bytes_at m b l2 ->
  match memcmp_align fuel m a b (Z.of_nat (length l1)) with
  | Some (inl d) => d = cmp_spec l1 l2
  | Some (inr (a', b', n)) => exists l1' l2', is_long_aligned a' = true /\ (b' - a' = b - a) /\
      n = Z.of_nat (length l1') /\ length l1' = length l2' /\
      bytes_at m a' l1' /\ bytes_at m b' l2' /\ cmp_spec l1 l2 = cmp_spec l1' l2'
  | None => False
  end.
Proof.
  induction fuel as [|fuel IH]; intros l1 l2 a b Hf Hn Hl H1 H2; cbn [memcmp_align];
    destruct (is_long_aligned a) eqn:Ea; try (exists l1, l2; by repeat split).
  { by apply (not_aligned_zero a). }
  destruct l1 as [|x l1]; [exfalso; apply (not_aligned_zero a); simpl in Hn; done|].
  destruct l2 as [|y l2]; [done|]. destruct H1 as [Hx H1], H2 as [Hy H2]. unfold ld. rewrite Hx, Hy.
  cbn [mbind option_bind cmp_spec length]. destruct (x =? y); cbn [negb]; [|done].
  replace (Z.of_nat (S (length l1)) - 1) with (Z.of_nat (length l1)) by lia.
  specialize (IH l1 l2 (a + 1) (b + 1) (aligned_succ _ _ Ea Hf) (aligned_succ _ _ Ea Hn)
    ltac:(by injection Hl) H1 H2).
  destruct (memcmp_align fuel m (a + 1) (b + 1) (Z.of_nat (length l1))) as [[d|[[a' b'] n]]|]; [done| |done].
  destruct IH as (l1' & l2' & G1 & G2 & G3). exists l1', l2'. split; [done|]. split; [lia|done].
Qed.

Lemma memcmp_longs_ok m : mem_ok m -> forall fuel l1 l2 a b,
  (length l1 < fuel)%nat -> is_long_aligned a = true -> is_long_aligned b = true -> length l1 = length l2 ->
  bytes_at m a l1 -> bytes_at m b l2 ->
  exists a' b' l1' l2', memcmp_longs fuel m a b (Z.of_nat (length l1)) = Some (a', b', Z.of_nat (length l1')) /\
    length l1' = length l2' /\ bytes_at m a' l1' /\ bytes_at m b' l2' /\ cmp_spec l1 l2 = cmp_spec l1' l2'.
Proof.
  intros Hm. induction fuel as [|fuel IH]; intros l1 l2 a b Hf Ha Hb Hl H1 H2; [lia|]. cbn [memcmp_longs].
  destruct (Z.leb_spec 8 (Z.of_nat (length l1))) as [H8|H8]; [|by exists a, b, l1, l2].
  destruct (mem_long_at m a Hm Ha) as (w1 & Hl1 & Hw1 & Hby1 & ->).
  { destruct l1; [simpl in H8; lia|]. destruct H1. by eexists. }
  destruct (mem_long_at m b Hm Hb) as (w2 & Hl2 & Hw2 & Hby2 & ->).
  { destruct l2; [simpl in Hl; rewrite Hl in H8; simpl in H8; lia|]. destruct H2. by eexists. }
  cbn [mbind option_bind]. destruct (Z.eqb_spec (le_combine w1) (le_combine w2)) as [Heq|Hne];
    [|by exists a, b, l1, l2].
  apply le_combine_inj in Heq as <-; [|done..|by rewrite Hl1, Hl2].
  pose proof (bytes_at_agree m a w1 l1 Hw1 H1 ltac:(lia)) as E1.
  pose proof (bytes_at_agree m b w1 l2 Hw2 H2 ltac:(lia)) as E2. rewrite Hl1 in E1, E2.
  assert (G1 := H1). rewrite E1 in G1. apply bytes_at_app in G1 as [_ G1]. rewrite Hl1 in G1.
  assert (G2 := H2). rewrite E2 in G2. apply bytes_at_app in G2 as [_ G2]. rewrite Hl1 in G2.
  destruct (IH (drop 8 l1) (drop 8 l2) (a + 8) (b + 8)) as (a' & b' & l1' & l2' & Hrec & R1 & R2 & R3 & R4).
  - rewrite length_drop. lia.
  - unfold is_long_aligned in *. lia.
  - unfold is_long_aligned in *. lia.
  - rewrite !length_drop. lia.
  - done.
  - done.
  - exists a', b', l1', l2'. rewrite length_drop in Hrec.
    replace (Z.of_nat (length l1) - 8) with (Z.of_nat (length l1 - 8)) by lia.
    repeat (split; [done|]). rewrite E1, E2, cmp_spec_app. done.
Qed.

Lemma memcmp_ok m a b l1 l2 : mem_ok m -> length l1 = length l2 -> bytes_at m a l1 -> bytes_at m b l2 ->
  memcmp m a b (Z.of_nat (length l1)) = Some (cmp_spec l1 l2).
Proof.
  intros Hm Hl H1 H2. unfold memcmp. destruct ((LONG_STRING_SIZE <=? _) && _) eqn:E.
  - unfold LONG_STRING_SIZE, is_long_aligned_equally in E. zprop.
    pose proof (memcmp_align_ok m 8 l1 l2 a b ltac:(lia) ltac:(lia) Hl H1 H2) as Hal.
    destruct (memcmp_align 8 m a b (Z.of_nat (length l1))) as [[d|[[a' b'] n]]|]; cbn [mbind option_bind];
      [by rewrite Hal| |done].
    destruct Hal as (l1' & l2' & G1 & G2 & -> & G3 & G4 & G5 & G6).
    destruct (memcmp_longs_ok m Hm (S (Z.to_nat (Z.of_nat (length l1')))) l1' l2' a' b')
      as (a2 & b2 & l12 & l22 & -> & R1 & R2 & R3 & R4); [lia|done| |done..|].
    { unfold is_long_aligned in *. lia. }
    cbn [mbind option_bind]. rewrite Nat2Z.id. rewrite (memcmp_bytes_ok m l12 l22 a2 b2) by done. congruence.
  - rewrite Nat2Z.id. by apply memcmp_bytes_ok.
Qed.

(** *** Strings up to a limit *)

(** The bytes compared: at most [n] of the string and its terminator. *)
Definition ncmp_spec (n : nat) (str1 str2 : list Z) : Z := cmp_spec (take n (str1 ++ [0])) (take n (str2 ++ [0])).

Lemma ncmp_spec_app n w s1 s2 : (length w <= n)%nat ->
  ncmp_spec n (w ++ s1) (w ++ s2) = ncmp_spec (n - length w) s1 s2.
Proof.
  intros Hn. unfold ncmp_spec. rewrite <- !app_assoc, (take_app_ge w (s1 ++ [0])), (take_app_ge w (s2 ++ [0])) by done.
  apply cmp_spec_app.
Qed.

(** The first bytes of two strings: they differ, end together, or go on. *)
Lemma ncmp_first n m a b s1 s2 : nstring m a s1 (Z.of_nat (S n)) -> nstring m b s2 (Z.of_nat (S n)) ->
  exists c1 c2, m !! a = Some c1 /\ m !! b = Some c2 /\
    if c1 =? c2 then
      if c1 =? 0 then ncmp_spec (S n) s1 s2 = 0
      else exists s1' s2', s1 = c1 :: s1' /\ s2 = c1 :: s2' /\
        nstring m (a + 1) s1' (Z.of_nat n) /\ nstring m (b + 1) s2' (Z.of_nat n) /\
        ncmp_spec (S n) s1 s2 = ncmp_spec n s1' s2'
    else ncmp_spec (S n) s1 s2 = c1 - c2.
Proof.
  intros H1 H2. apply nstring_cons in H1; [|lia]. apply nstring_cons in H2; [|lia].
  replace (Z.of_nat (S n) - 1) with (Z.of_nat n) in * by lia. unfold ncmp_spec.
  destruct H1 as [[-> Ha]|(c1 & s1' & -> & Ha & Hc1 & H1)],
    H2 as [[-> Hb]|(c2 & s2' & -> & Hb & Hc2 & H2)]; do 2 eexists; (split; [done|]); (split; [done|]).
  - simpl. by rewrite !take_nil.
  - rewrite (proj2 (Z.eqb_neq 0 c2)) by lia. cbn [app take cmp_spec].
    by rewrite (proj2 (Z.eqb_neq 0 c2)) by lia.
  - rewrite (proj2 (Z.eqb_neq c1 0)) by lia. cbn [app take cmp_spec].
    by rewrite (proj2 (Z.eqb_neq c1 0)) by lia.
  - destruct (Z.eqb_spec c1 c2) as [<-|Hne].
    + rewrite (proj2 (Z.eqb_neq c1 0)) by lia. exists s1', s2'. repeat (split; [done|]).
      cbn [app take cmp_spec]. by rewrite Z.eqb_refl.
    + cbn [app take cmp_spec]. by rewrite (proj2 (Z.eqb_neq c1 c2)) by lia.
Qed.

(** The pair of longs of two strings: they are equal without a null byte, and
    then both strings go on behind them. *)
Lemma ncmp_longs m a b s1 s2 n :
  mem_ok m -> nstring m a s1 n -> nstring m b s2 n -> is_long_aligned a = true -> is_long_aligned b = true ->
  8 <= n ->
  exists v1 v2, ld_long m a = Some v1 /\ ld_long m b = Some v2 /\
    ((v1 =? v2) && negb (contains_nullbyte v1) = true -> exists w s1' s2', length w = 8%nat /\
       s1 = w ++ s1' /\ s2 = w ++ s2' /\ nstring m (a + 8) s1' (n - 8) /\ nstring m (b + 8) s2' (n - 8)).
Proof.
  intros Hm H1 H2 Ha Hb Hn.
  destruct (nstring_long m a s1 n Hm H1 Ha Hn) as (w1 & Hl1 & Hby1 & Hld1 & _ & G1).
  destruct (nstring_long m b s2 n Hm H2 Hb Hn) as (w2 & Hl2 & Hby2 & Hld2 & _ & G2).
  exists (le_combine w1), (le_combine w2). split; [done|]. split; [done|]. intros E. zprop.
  apply le_combine_inj in H as <-; [|done..|by rewrite Hl1, Hl2].
  destruct (contains_nullbyte (le_combine w1)); [done|]. destruct G1 as (s1' & -> & G1), G2 as (s2' & -> & G2).
  by exists w1, s1', s2'.
Qed.

Lemma aligned_add8 a : is_long_aligned a = true -> is_long_aligned (a + 8) = true.
Proof. unfold is_long_aligned. lia. Qed.

Lemma strncmp_align_ok m fuel : forall n a b s1 s2,
  (- a) mod 8 <= Z.of_nat fuel -> (- a) mod 8 <= Z.of_nat n ->
  nstring m a s1 (Z.of_nat n) -> nstring m b s2 (Z.of_nat n) ->
  match strncmp_align fuel m a b (Z.of_nat n) with
  | Some (inl d) => d = ncmp_spec n s1 s2
  | Some (inr (a', b', n')) => exists k s1' s2', n' = Z.of_nat k /\ is_long_aligned a' = true /\ b' - a' = b - a /\
      nstring m a' s1' n' /\ nstring m b' s2' n' /\ ncmp_spec n s1 s2 = ncmp_spec k s1' s2'
  | None => False
  end.
Proof.
  induction fuel as [|fuel IH]; intros n a b s1 s2 Hf Hn H1 H2; cbn [strncmp_align];
    destruct (is_long_aligned a) eqn:Ea; try (exists n, s1, s2; by repeat (split; [done|])).
  { by apply (not_aligned_zero a). }
  destruct n as [|n]; [exfalso; by apply (not_aligned_zero a)|].
  destruct (ncmp_first n m a b s1 s2 H1 H2) as (c1 & c2 & Hc1 & Hc2 & H). unfold ld. rewrite Hc1, Hc2.
  cbn [mbind option_bind]. destruct (c1 =? c2); cbn [negb]; [|done]. destruct (c1 =? 0); [done|].
  destruct H as (s1' & s2' & -> & -> & G1 & G2 & ->).
  replace (Z.of_nat (S n) - 1) with (Z.of_nat n) by lia.
  specialize (IH n (a + 1) (b + 1) s1' s2' (aligned_succ _ _ Ea Hf) (aligned_succ _ _ Ea Hn) G1 G2).
  destruct (strncmp_align fuel m (a + 1) (b + 1) (Z.of_nat n)) as [[d|[[a' b'] n']]|]; [done| |done].
  destruct IH as (k & t1 & t2 & E1 & E2 & E3 & E4). exists k, t1, t2. repeat (split; [done|]). split; [lia|done].
Qed.

Lemma strncmp_longs_ok m : mem_ok m -> forall fuel n a b s1 s2,
  (n < fuel)%nat -> is_long_aligned a = true -> is_long_aligned b = true ->
  nstring m a s1 (Z.of_nat n) -> nstring m b s2 (Z.of_nat n) ->
  exists a' b' k s1' s2', strncmp_longs fuel m a b (Z.of_nat n) = Some (a', b', Z.of_nat k) /\
    nstring m a' s1' (Z.of_nat k) /\ nstring m b' s2' (Z.of_nat k) /\ ncmp_spec n s1 s2 = ncmp_spec k s1' s2'.
Proof.
  intros Hm. induction fuel as [|fuel IH]; intros n a b s1 s2 Hf Ha Hb H1 H2; [lia|]. cbn [strncmp_longs].
  destruct (Z.leb_spec 8 (Z.of_nat n)) as [H8|H8]; [|by exists a, b, n, s1, s2].
  destruct (ncmp_longs m a b s1 s2 (Z.of_nat n) Hm H1 H2 Ha Hb H8) as (v1 & v2 & -> & -> & H).
  cbn [mbind option_bind]. destruct ((v1 =? v2) && _); [|by exists a, b, n, s1, s2].
  destruct (H eq_refl) as (w & s1' & s2' & Hw & -> & -> & G1 & G2).
  replace (Z.of_nat n - 8) with (Z.of_nat (n - 8)) in * by lia.
  destruct (IH (n - 8)%nat (a + 8) (b + 8) s1' s2') as (a' & b' & k & t1 & t2 & E1 & E2 & E3 & E4);
    [lia|by apply aligned_add8..|done|done|].
  exists a', b', k, t1, t2. repeat (split; [done|]). rewrite ncmp_spec_app by lia. by rewrite Hw.
Qed.

Lemma strncmp_bytes_ok m n : forall a b s1 s2,
  nstring m a s1 (Z.of_nat n) -> nstring m b s2 (Z.of_nat n) ->
  strncmp_bytes n m a b = Some (ncmp_spec n s1 s2).
Proof.
  induction n as [|n IH]; intros a b s1 s2 H1 H2; cbn [strncmp_bytes]; [done|].
  destruct (ncmp_first n m a b s1 s2 H1 H2) as (c1 & c2 & Hc1 & Hc2 & H). unfold ld. rewrite Hc1, Hc2.
  cbn [mbind option_bind]. destruct (c1 =? c2); cbn [negb]; [|by rewrite H]. destruct (c1 =? 0); [by rewrite H|].
  destruct H as (s1' & s2' & -> & -> & G1 & G2 & ->). by apply IH.
Qed.

Lemma strncmp_ok m a b s1 s2 n : mem_ok m -> nstring m a s1 (Z.of_nat n) -> nstring m b s2 (Z.of_nat n) ->
  strncmp m a b (Z.of_nat n) = Some (ncmp_spec n s1 s2).
Proof.
  intros Hm H1 H2. unfold strncmp. destruct ((LONG_STRING_SIZE <=? _) && _) eqn:E.
  - unfold LONG_STRING_SIZE, is_long_aligned_equally in E. zprop.
    pose proof (strncmp_align_ok m 8 n a b s1 s2 ltac:(lia) ltac:(lia) H1 H2) as Hal.
    destruct (strncmp_align 8 m a b (Z.of_nat n)) as [[d|[[a' b'] n']]|]; cbn [mbind option_bind];
      [by rewrite Hal| |done].
    destruct Hal as (k & t1 & t2 & -> & G1 & G2 & G3 & G4 & ->).
    destruct (strncmp_longs_ok m Hm (S (Z.to_nat (Z.of_nat k))) k a' b' t1 t2)
      as (a2 & b2 & k2 & u1 & u2 & -> & R1 & R2 & ->); [lia|done| |done..|].
    { unfold is_long_aligned in *. lia. }
    cbn [mbind option_bind]. rewrite Nat2Z.id. by apply strncmp_bytes_ok.
  - rewrite Nat2Z.id. by apply strncmp_bytes_ok.
Qed.

(** *** strcmp: no limit *)

Lemma ncmp_spec_all n s1 s2 : (length s1 < n)%nat -> (length s2 < n)%nat ->
  ncmp_spec n s1 s2 = cmp_spec (s1 ++ [0]) (s2 ++ [0]).
Proof. intros H1 H2. unfold ncmp_spec. rewrite !firstn_all2 by (rewrite length_app; simpl; lia). done. Qed.

(** The first bytes of two terminated strings. *)
Lemma cmp_first m a b s1 s2 : cstring m a s1 -> cstring m b s2 ->
  exists c1 c2, m !! a = Some c1 /\ m !! b = Some c2 /\
    if c1 =? c2 then
      if c1 =? 0 then cmp_spec (s1 ++ [0]) (s2 ++ [0]) = 0
      else exists s1' s2', s1 = c1 :: s1' /\ s2 = c1 :: s2' /\ cstring m (a + 1) s1' /\ cstring m (b + 1) s2' /\
        cmp_spec (s1 ++ [0]) (s2 ++ [0]) = cmp_spec (s1' ++ [0]) (s2' ++ [0])
    else cmp_spec (s1 ++ [0]) (s2 ++ [0]) = c1 - c2.
Proof.
  intros H1 H2. set (n := (length s1 + length s2)%nat).
  destruct (ncmp_first n m a b s1 s2) as (c1 & c2 & Ha & Hb & H); [by apply cstring_nstring..|].
  rewrite ncmp_spec_all in H by (unfold n; lia). exists c1, c2. split; [done|]. split; [done|].
  destruct (c1 =? c2); [|done]. destruct (c1 =? 0); [done|].
  destruct H as (s1' & s2' & -> & -> & _ & _ & _). exists s1', s2'.
  apply cstring_cons in H1 as (_ & _ & H1). apply cstring_cons in H2 as (_ & _ & H2).
  repeat (split; [done|]). simpl. by rewrite Z.eqb_refl.
Qed.

Lemma strcmp_align_ok m fuel : forall a b s1 s2,
  (- a) mod 8 <= Z.of_nat fuel -> cstring m a s1 -> cstring m b s2 ->
  match strcmp_align fuel m a b with
  | Some (inl d) => d = cmp_spec (s1 ++ [0]) (s2 ++ [0])
  | Some (inr (a', b')) => exists s1' s2', is_long_aligned a' = true /\ b' - a' = b - a /\
      cstring m a' s1' /\ cstring m b' s2' /\ (length s1' <= length s1)%nat /\
      cmp_spec (s1 ++ [0]) (s2 ++ [0]) = cmp_spec (s1' ++ [0]) (s2' ++ [0])
  | None => False
  end.
Proof.
  induction fuel as [|fuel IH]; intros a b s1 s2 Hf H1 H2; cbn [strcmp_align];
    destruct (is_long_aligned a) eqn:Ea; try (exists s1, s2; by repeat (split; [done|])).
  { by apply (not_aligned_zero a). }
  destruct (cmp_first m a b s1 s2 H1 H2) as (c1 & c2 & Hc1 & Hc2 & H). unfold ld. rewrite Hc1, Hc2.
  cbn [mbind option_bind]. destruct (c1 =? c2); cbn [negb]; [|done]. destruct (c1 =? 0); [done|].
  destruct H as (s1' & s2' & -> & -> & G1 & G2 & ->).
  specialize (IH (a + 1) (b + 1) s1' s2' (aligned_succ _ _ Ea Hf) G1 G2).
  destruct (strcmp_align fuel m (a + 1) (b + 1)) as [[d|[a' b']]|]; [done| |done].
  destruct IH as (t1 & t2 & E1 & E2 & E3 & E4 & E5 & E6). exists t1, t2. repeat (split; [done || lia|]).
  split; [simpl; lia|done].
Qed.

Lemma strcmp_longs_ok m : mem_ok m -> forall fuel a b s1 s2,
  (length s1 < fuel)%nat -> is_long_aligned a = true -> is_long_aligned b = true ->
  cstring m a s1 -> cstring m b s2 ->
  exists a' b' s1' s2', strcmp_longs fuel m a b = Some (a', b') /\ cstring m a' s1' /\ cstring m b' s2' /\
    (length s1' <= length s1)%nat /\ cmp_spec (s1 ++ [0]) (s2 ++ [0]) = cmp_spec (s1' ++ [0]) (s2' ++ [0]).
Proof.
  intros Hm. induction fuel as [|fuel IH]; intros a b s1 s2 Hf Ha Hb H1 H2; [lia|]. cbn [strcmp_longs].
  set (M := Z.of_nat (length s1 + length s2) + 9).
  destruct (ncmp_longs m a b s1 s2 M Hm (cstring_nstring _ _ _ _ H1) (cstring_nstring _ _ _ _ H2) Ha Hb)
    as (v1 & v2 & -> & -> & H); [lia|].
  cbn [mbind option_bind]. destruct ((v1 =? v2) && _); [|by exists a, b, s1, s2].
  destruct (H eq_refl) as (w & s1' & s2' & Hw & -> & -> & _ & _).
  assert (Hsuf : forall p s, cstring m p (w ++ s) -> cstring m (p + 8) s).
  { intros p s [Hb' Hn]. rewrite <- app_assoc in Hb'. apply bytes_at_app in Hb' as [_ Hb'].
    rewrite Hw in Hb'. split; [done|set_solver]. }
  rewrite length_app in *. rewrite <- !app_assoc, cmp_spec_app.
  destruct (IH (a + 8) (b + 8) s1' s2') as (a' & b' & t1 & t2 & E1 & E2 & E3 & E4 & E5);
    [lia|by apply aligned_add8|by apply aligned_add8|by apply Hsuf..|].
  exists a', b', t1, t2. repeat (split; [done|]). split; [lia|done].
Qed.

Lemma strcmp_bytes_ok m fuel : forall a b s1 s2, (length s1 < fuel)%nat -> cstring m a s1 -> cstring m b s2 ->
  strcmp_bytes fuel m a b = Some (cmp_spec (s1 ++ [0]) (s2 ++ [0])).
Proof.
  induction fuel as [|fuel IH]; intros a b s1 s2 Hf H1 H2; [lia|]. cbn [strcmp_bytes].
  destruct (cmp_first m a b s1 s2 H1 H2) as (c1 & c2 & Hc1 & Hc2 & H). unfold ld. rewrite Hc1, Hc2.
  cbn [mbind option_bind]. destruct (c1 =? c2); cbn [negb]; [|by rewrite H]. destruct (c1 =? 0); [by rewrite H|].
  destruct H as (s1' & s2' & -> & -> & G1 & G2 & ->). apply IH; [simpl in Hf; lia|done..].
Qed.

Lemma strcmp_ok m a b s1 s2 fuel : mem_ok m -> cstring m a s1 -> cstring m b s2 -> (length s1 < fuel)%nat ->
  strcmp fuel m a b = Some (cmp_spec (s1 ++ [0]) (s2 ++ [0])).
Proof.
  intros Hm H1 H2 Hf. unfold strcmp. destruct (is_long_aligned_equally a b) eqn:E; [|by apply strcmp_bytes_ok].
  unfold is_long_aligned_equally in E.
  pose proof (strcmp_align_ok m 8 a b s1 s2 ltac:(lia) H1 H2) as Hal.
  destruct (strcmp_align 8 m a b) as [[d|[a' b']]|]; cbn [mbind option_bind]; [by rewrite Hal| |done].
  destruct Hal as (t1 & t2 & G1 & G2 & G3 & G4 & G5 & ->).
  destruct (strcmp_longs_ok m Hm fuel a' b' t1 t2) as (a2 & b2 & u1 & u2 & -> & R1 & R2 & R3 & ->);
    [lia|done| |done..|].
  { unfold is_long_aligned in *. lia. }
  cbn [mbind option_bind]. apply strcmp_bytes_ok; [lia|done..].
Qed.

(** ** Properties *)

(** strlen and strnlen.  Reading a long word at a time, at any alignment
    and for any bytes, strlen returns the number of characters before the
    first null byte and strnlen the smaller of that and the limit; they end
    within the string's length, touch no unmapped memory as long as memory is
    mapped in aligned words, and strnlen does not need a terminator within
    the limit. *)
Theorem strlen_strnlen_correct m s str maxlen fuel
  (Hm : mem_ok m) (Hmax : 0 <= maxlen) (Hn : nstring m s str maxlen) :
  strnlen m s maxlen = Some (Z.min maxlen (Z.of_nat (length str))) /\
  (cstring m s str -> (length str < fuel)%nat -> strlen fuel m s = Some (Z.of_nat (length str))).
Proof. split; [by apply strnlen_ok|]. intros Hs Hf. by apply strlen_ok. Qed.

(** memcmp, strcmp and strncmp.  Although they compare long words where
    both operands are equally aligned, they return the difference of the
    first pair of bytes that differ, as unsigned characters, and zero when
    there is none: within the n bytes for memcmp, up to and including the
    terminators for strcmp, and within the first n of these for strncmp. *)
Theorem compare_correct m a b fuel
  (Hm : mem_ok m) :
  (forall l1 l2, length l1 = length l2 -> bytes_at m a l1 -> bytes_at m b l2 ->
     memcmp m a b (Z.of_nat (length l1)) = Some (cmp_spec l1 l2)) /\
  (forall s1 s2, cstring m a s1 -> cstring m b s2 -> (length s1 < fuel)%nat ->
     strcmp fuel m a b = Some (cmp_spec (s1 ++ [0]) (s2 ++ [0]))) /\
  (forall s1 s2 n, nstring m a s1 (Z.of_nat n) -> nstring m b s2 (Z.of_nat n) ->
     strncmp m a b (Z.of_nat n) = Some (cmp_spec (take n (s1 ++ [0])) (take n (s2 ++ [0])))).
Proof.
  split; [|split].
  - intros l1 l2 Hl H1 H2. by apply memcmp_ok.
  - intros s1 s2 H1 H2 Hf. by apply strcmp_ok.
  - intros s1 s2 n H1 H2. by apply strncmp_ok.
Qed.

(** "abcdefghijkl" at address 3 and "abcdefghijkm" at address 19 of a block of
    six longs. *)
Definition demo_mem : mem :=
  write ∅ 0 ([9; 9; 9] ++ [97; 98; 99; 100; 101; 102; 103; 104; 105; 106; 107; 108; 0]
    ++ [1; 2; 3] ++ [97; 98; 99; 100; 101; 102; 103; 104; 105; 106; 107; 109; 0] ++ replicate 16 7).

Lemma strlen_strnlen_correct_witness :
  strlen 20 demo_mem 3 = Some 12 /\ strnlen demo_mem 3 10 = Some 10.
Proof.
  assert (Hm : mem_ok demo_mem) by (apply mem_ok_block; [done|done|repeat constructor; done]).
  pose (str := [97; 98; 99; 100; 101; 102; 103; 104; 105; 106; 107; 108]).
  destruct (strlen_strnlen_correct demo_mem 3 str 10 20) as [H1 H2].
  - exact Hm.
  - done.
  - split.
    + by vm_compute.
    + by apply (bool_decide_unpack _); vm_compute.
    + left. simpl. lia.
  - split; [clear H1|exact H1]. apply H2; [|vm_compute; lia]. clear H2. split; [by vm_compute|by apply (bool_decide_unpack _); vm_compute].
Defined.

Lemma compare_correct_witness :
  memcmp demo_mem 3 19 11 = Some 0 /\ strcmp 20 demo_mem 3 19 = Some (-1).
Proof.
  assert (Hm : mem_ok demo_mem) by (apply mem_ok_block; [done|done|repeat constructor; done]).
  destruct (compare_correct demo_mem 3 19 20 Hm) as (H1 & H2 & _). split.
  - apply (H1 [97; 98; 99; 100; 101; 102; 103; 104; 105; 106; 107]
      [97; 98; 99; 100; 101; 102; 103; 104; 105; 106; 107]); by vm_compute.
  - apply (H2 [97; 98; 99; 100; 101; 102; 103; 104; 105; 106; 107; 108]
      [97; 98; 99; 100; 101; 102; 103; 104; 105; 106; 107; 109]);
      [split; [by vm_compute|by apply (bool_decide_unpack _); vm_compute]..|vm_compute; lia].
Defined.
