(* ===== verification/StringCopy.v ===== *)
(** * Filling, moving and copying memory and strings

    Sources, all in src/libc/string: memset.c, memmove.c (also memcpy),
    memccpy.c, memchr.c, memrchr.c, strchr.c, strrchr.c, strcpy.c, stpcpy.c,
    strncpy.c, stpncpy.c, strcat.c, strncat.c, strlcpy.c, strlcat.c, strdup.c
    and strndup.c.  Functions return their result and the new memory; a null
    pointer is [None] inside the result. *)

From stdpp Require Import gmap.
From S2P Require Import Prelude Memory StringScan.

#[local] Open Scope Z_scope.
#[local] Ltac Zify.zify_post_hook ::= Z.to_euclidean_division_equations.

(** ** memset *)

Fixpoint memset_align (fuel : nat) (m : mem) (sb c n : Z) : option (mem * Z * Z) :=
  if is_long_aligned sb then Some (m, sb, n)
  else
    match fuel with
    | O => None
    | S fuel => m ← st m sb (u8 c); memset_align fuel m (sb + 1) c (n - 1)
    end.

Fixpoint memset_longs (fuel : nat) (m : mem) (sl cl n : Z) : option (mem * Z * Z) :=
  match fuel with
  | O => None
  | S fuel =>
      m ← st_long m sl cl;
      if 8 <=? n - 8 then memset_longs fuel m (sl + 8) cl (n - 8) else Some (m, sl + 8, n - 8)
  end.

Fixpoint memset_bytes (n : nat) (m : mem) (sb c : Z) : option mem :=
  match n with
  | O => Some m
  | S n => m ← st m sb (u8 c); memset_bytes n m (sb + 1) c
  end.

Definition memset (m : mem) (s c n : Z) : option (Z * mem) :=
  '(m, sb, n) ← (if LONG_STRING_SIZE <=? n then
                   '(m, sb, n) ← memset_align 8 m s c n;
                   memset_longs (Z.to_nat n) m sb (construct_chars (u8 c)) n
                 else Some (m, s, n));
  m ← memset_bytes (Z.to_nat n) m sb c;
  Some (s, m).

(** ** memmove *)

Fixpoint forward_align (fuel : nat) (m : mem) (sb1 sb2 n : Z) : option (mem * Z * Z * Z) :=
  if is_long_aligned sb1 then Some (m, sb1, sb2, n)
  else
    match fuel with
    | O => None
    | S fuel => c ← ld m sb2; m ← st m sb1 c; forward_align fuel m (sb1 + 1) (sb2 + 1) (n - 1)
    end.

Fixpoint forward_longs (fuel : nat) (m : mem) (sl1 sl2 n : Z) : option (mem * Z * Z * Z) :=
  match fuel with
  | O => None
  | S fuel =>
      v ← ld_long m sl2; m ← st_long m sl1 v;
      if 8 <=? n - 8 then forward_longs fuel m (sl1 + 8) (sl2 + 8) (n - 8)
      else Some (m, sl1 + 8, sl2 + 8, n - 8)
  end.

Fixpoint forward_bytes (n : nat) (m : mem) (sb1 sb2 : Z) : option mem :=
  match n with
  | O => Some m
  | S n => c ← ld m sb2; m ← st m sb1 c; forward_bytes n m (sb1 + 1) (sb2 + 1)
  end.

Fixpoint backward_align (fuel : nat) (m : mem) (sb1 sb2 n : Z) : option (mem * Z * Z * Z) :=
  if is_long_aligned sb1 then Some (m, sb1, sb2, n)
  else
    match fuel with
    | O => None
    | S fuel => c ← ld m (sb2 - 1); m ← st m (sb1 - 1) c; backward_align fuel m (sb1 - 1) (sb2 - 1) (n - 1)
    end.

Fixpoint backward_longs (fuel : nat) (m : mem) (sl1 sl2 n : Z) : option (mem * Z * Z * Z) :=
  match fuel with
  | O => None
  | S fuel =>
      v ← ld_long m (sl2 - 8); m ← st_long m (sl1 - 8) v;
      if 8 <=? n - 8 then backward_longs fuel m (sl1 - 8) (sl2 - 8) (n - 8)
      else Some (m, sl1 - 8, sl2 - 8, n - 8)
  end.

Fixpoint backward_bytes (n : nat) (m : mem) (sb1 sb2 : Z) : option mem :=
  match n with
  | O => Some m
  | S n => c ← ld m (sb2 - 1); m ← st m (sb1 - 1) c; backward_bytes n m (sb1 - 1) (sb2 - 1)
  end.

Definition memmove (m : mem) (s1 s2 n : Z) : option (Z * mem) :=
  if s1 <? s2 then
    '(m, sb1, sb2, n) ←
      (if (LONG_STRING_SIZE <=? n) && is_long_aligned_equally s1 s2 then
         '(m, sb1, sb2, n) ← forward_align 8 m s1 s2 n;
         forward_longs (Z.to_nat n) m sb1 sb2 n
       else Some (m, s1, s2, n));
    m ← forward_bytes (Z.to_nat n) m sb1 sb2;
    Some (s1, m)
  else if s2 <? s1 then
    '(m, sb1, sb2, n) ←
      (if (LONG_STRING_SIZE <=? n) && is_long_aligned_equally (s1 + n) (s2 + n) then
         '(m, sb1, sb2, n) ← backward_align 8 m (s1 + n) (s2 + n) n;
         backward_longs (Z.to_nat n) m sb1 sb2 n
       else Some (m, s1 + n, s2 + n, n));
    m ← backward_bytes (Z.to_nat n) m sb1 sb2;
    Some (s1, m)
  else Some (s1, m).

(** ** Searching and copying single bytes *)

Fixpoint memccpy (n : nat) (m : mem) (sb1 sb2 c : Z) : option (option Z * mem) :=
  match n with
  | O => Some (None, m)
  | S n =>
      x ← ld m sb2; m ← st m sb1 x;
      y ← ld m sb1;
      if y =? u8 c then Some (Some (sb1 + 1), m) else memccpy n m (sb1 + 1) (sb2 + 1) c
  end.

Fixpoint memchr (n : nat) (m : mem) (sb c : Z) : option (option Z) :=
  match n with
  | O => Some None
  | S n => x ← ld m sb; if x =? u8 c then Some (Some sb) else memchr n m (sb + 1) c
  end.

(** The pointer starts behind the last byte. *)
Fixpoint memrchr_loop (n : nat) (m : mem) (sb c : Z) : option (option Z) :=
  match n with
  | O => Some None
  | S n => x ← ld m (sb - 1); if x =? u8 c then Some (Some (sb - 1)) else memrchr_loop n m (sb - 1) c
  end.

Definition memrchr (n : nat) (m : mem) (s c : Z) : option (option Z) := memrchr_loop n m (s + Z.of_nat n) c.

Fixpoint strchr (fuel : nat) (m : mem) (s c : Z) : option (option Z) :=
  match fuel with
  | O => None
  | S fuel =>
      x ← ld m s;
      if x =? u8 c then Some (Some s) else if x =? 0 then Some None else strchr fuel m (s + 1) c
  end.

Fixpoint strrchr_loop (fuel : nat) (m : mem) (s c : Z) (last : option Z) : option (option Z) :=
  match fuel with
  | O => None
  | S fuel =>
      x ← ld m s;
      let last := if x =? u8 c then Some s else last in
      if x =? 0 then Some last else strrchr_loop fuel m (s + 1) c last
  end.

Definition strrchr (fuel : nat) (m : mem) (s c : Z) : option (option Z) := strrchr_loop fuel m s c None.

(** ** Copying strings *)

(** The loop of strcpy and of the second half of strcat: the source character
    is read a second time after the store. *)
Fixpoint copy_loop (fuel : nat) (m : mem) (s s2 : Z) : option mem :=
  match fuel with
  | O => None
  | S fuel =>
      x ← ld m s2; m ← st m s x;
      y ← ld m s2;
      if y =? 0 then Some m else copy_loop fuel m (s + 1) (s2 + 1)
  end.

Definition strcpy (fuel : nat) (m : mem) (s1 s2 : Z) : option (Z * mem) :=
  m ← copy_loop fuel m s1 s2; Some (s1, m).

Fixpoint stpcpy (fuel : nat) (m : mem) (s1 s2 : Z) : option (Z * mem) :=
  match fuel with
  | O => None
  | S fuel =>
      x ← ld m s2; m ← st m s1 x;
      y ← ld m s2;
      if y =? 0 then Some (s1, m) else stpcpy fuel m (s1 + 1) (s2 + 1)
  end.

(** Copying while n > 0 and the source has not ended: the end of the copy and
    what is left of n. *)
Fixpoint ncopy_loop (n : nat) (m : mem) (s1 s2 : Z) : option (mem * Z * nat) :=
  match n with
  | O => Some (m, s1, O)
  | S n' =>
      x ← ld m s2;
      if x =? 0 then Some (m, s1, n) else m ← st m s1 x; ncopy_loop n' m (s1 + 1) (s2 + 1)
  end.

Fixpoint zero_loop (n : nat) (m : mem) (s1 : Z) : option mem :=
  match n with
  | O => Some m
  | S n => m ← st m s1 0; zero_loop n m (s1 + 1)
  end.

Definition strncpy (m : mem) (s1 s2 : Z) (n : nat) : option (Z * mem) :=
  '(m, p, n) ← ncopy_loop n m s1 s2; m ← zero_loop n m p; Some (s1, m).

Definition stpncpy (m : mem) (s1 s2 : Z) (n : nat) : option (Z * mem) :=
  '(m, p, n) ← ncopy_loop n m s1 s2; m ← zero_loop n m p; Some (p, m).

(** To the terminator. *)
Fixpoint skip_loop (fuel : nat) (m : mem) (s : Z) : option Z :=
  match fuel with
  | O => None
  | S fuel => x ← ld m s; if x =? 0 then Some s else skip_loop fuel m (s + 1)
  end.

Definition strcat (fuel : nat) (m : mem) (s1 s2 : Z) : option (Z * mem) :=
  s ← skip_loop fuel m s1; m ← copy_loop fuel m s s2; Some (s1, m).

Fixpoint strncat_loop (n : nat) (m : mem) (s s2 : Z) : option (mem * Z) :=
  match n with
  | O => Some (m, s)
  | S n => x ← ld m s2; if x =? 0 then Some (m, s) else m ← st m s x; strncat_loop n m (s + 1) (s2 + 1)
  end.

Definition strncat (fuel : nat) (m : mem) (s1 s2 : Z) (n : nat) : option (Z * mem) :=
  match n with
  | O => Some (s1, m)
  | _ => s ← skip_loop fuel m s1; '(m, s) ← strncat_loop n m s s2; m ← st m s 0; Some (s1, m)
  end.

(** The loop of strlcpy and strlcat: [inl] the source pointer when the
    terminator was copied, [inr] the pointers and n when the space ran out. *)
Fixpoint lcopy_loop (n : nat) (m : mem) (s1 s2 : Z) : option (mem * (Z + Z * Z * nat)) :=
  match n with
  | S ((S _) as n') =>
      x ← ld m s2; m ← st m s1 x;
      y ← ld m s2;
      if y =? 0 then Some (m, inl s2) else lcopy_loop n' m (s1 + 1) (s2 + 1)
  | _ => Some (m, inr (s1, s2, n))
  end.

Definition lcopy (fuel : nat) (m : mem) (s1 s2 : Z) (n : nat) : option (Z * mem) :=
  '(m, r) ← lcopy_loop n m s1 s2;
  match r with
  | inl p => Some (p - s2, m)
  | inr (s1, p, n) =>
      m ← (if (0 <? n)%nat then st m s1 0 else Some m);
      p ← skip_loop fuel m p;
      Some (p - s2, m)
  end.

Definition strlcpy (fuel : nat) (m : mem) (s1 s2 : Z) (n : nat) : option (Z * mem) := lcopy fuel m s1 s2 n.

(** The used part of the destination: the position, what is left of n, and
    how much was skipped. *)
Fixpoint used_loop (n : nat) (m : mem) (s1 skipped : Z) : option (Z * nat * Z) :=
  match n with
  | O => Some (s1, O, skipped)
  | S n' => x ← ld m s1; if x =? 0 then Some (s1, n, skipped) else used_loop n' m (s1 + 1) (skipped + 1)
  end.

Definition strlcat (fuel : nat) (m : mem) (s1 s2 : Z) (n : nat) : option (Z * mem) :=
  '(s1, n, skipped) ← used_loop n m s1 0;
  '(len, m) ← lcopy fuel m s1 s2 n;
  Some (len + skipped, m).

(** ** Duplicating strings

    malloc is a parameter: a new block or a failure. *)

Definition strdup (malloc : mem -> Z -> option (Z * mem)) (fuel : nat) (m : mem) (s : Z)
  : option (option Z * mem) :=
  len ← strlen fuel m s;
  match malloc m (len + 1) with
  | None => Some (None, m)
  | Some (copy, m) => '(_, m) ← memmove m copy s (len + 1); Some (Some copy, m)
  end.

Definition strndup (malloc : mem -> Z -> option (Z * mem)) (m : mem) (s size : Z)
  : option (option Z * mem) :=
  len ← strnlen m s size;
  match malloc m (len + 1) with
  | None => Some (None, m)
  | Some (copy, m) =>
      '(_, m) ← memmove m copy s len;
      m ← st m (copy + len) 0;
      Some (Some copy, m)
  end.

(** ** memset *)

(** Equality of two results: memory, pointers and counts. *)
#[local] Ltac some_eq := apply f_equal; repeat match goal with
  | |- (_, _) = (_, _) => apply f_equal2
  | |- inl _ = inl _ => apply f_equal
  | |- inr _ = inr _ => apply f_equal
  end; try done; lia.

Lemma memset_bytes_ok k c : forall m sb, mapped m sb (Z.of_nat k) ->
  memset_bytes k m sb c = Some (write m sb (replicate k (u8 c))).
Proof.
  induction k as [|k IH]; intros m sb Hm; cbn [memset_bytes replicate write]; [done|].
  rewrite st_mapped by (rewrite <- (Z.add_0_r sb); apply Hm; lia). cbn [mbind option_bind]. apply IH.
  apply mapped_insert. apply (mapped_sub _ sb (Z.of_nat (S k))); [lia..|done].
Qed.

Lemma mapped_write m a l b n : mapped m b n -> mapped (write m a l) b n.
Proof.
  revert m a. induction l as [|x l IH]; intros m a H; cbn [write]; [done|].
  by apply IH, mapped_insert.
Qed.

(** A loop that has filled a part leaves the rest of the region to fill. *)
Definition filled (m : mem) (sb c : Z) (n : Z) (r : option (mem * Z * Z)) : Prop :=
  exists k, Z.of_nat k <= n /\
    r = Some (write m sb (replicate k (u8 c)), sb + Z.of_nat k, n - Z.of_nat k).

Lemma filled_step m sb c n x r : Z.of_nat x <= n ->
  filled (write m sb (replicate x (u8 c))) (sb + Z.of_nat x) c (n - Z.of_nat x) r -> filled m sb c n r.
Proof.
  intros Hn (k & Hk & ->). exists (x + k)%nat. split; [lia|].
  rewrite replicate_add, write_app, length_replicate. some_eq.
Qed.

Lemma memset_align_ok c fuel : forall m sb n,
  (- sb) mod 8 <= Z.of_nat fuel -> (- sb) mod 8 <= n -> mapped m sb n ->
  filled m sb c n (memset_align fuel m sb c n) /\
  forall m' sb' n', memset_align fuel m sb c n = Some (m', sb', n') ->
    is_long_aligned sb' = true /\ n' = n - (- sb) mod 8.
Proof.
  induction fuel as [|fuel IH]; intros m sb n Hf Hn Hm; cbn [memset_align];
    destruct (is_long_aligned sb) eqn:Ea;
    try (split; [exists 0%nat; split; [lia|]; simpl; some_eq
      |intros m' sb' n' [= <- <- <-]; unfold is_long_aligned in Ea; split; [done|lia]]).
  { exfalso. by apply (not_aligned_zero sb). }
  assert (Hpos : 0 < (- sb) mod 8) by (unfold is_long_aligned in Ea; lia).
  rewrite st_mapped by (rewrite <- (Z.add_0_r sb); apply Hm; lia). cbn [mbind option_bind].
  destruct (IH (<[sb := u8 c]> m) (sb + 1) (n - 1)) as [H1 H2].
  - by apply aligned_succ.
  - unfold is_long_aligned in Ea. lia.
  - apply mapped_insert. apply (mapped_sub _ sb n); [lia..|done].
  - split; [by apply (filled_step m sb c n 1); [lia|]|].
    intros m' sb' n' H. destruct (H2 _ _ _ H) as [G1 G2]. split; [done|]. unfold is_long_aligned in *. lia.
Qed.

Lemma memset_longs_ok c fuel : forall m sl n,
  n <= 8 * Z.of_nat fuel -> 8 <= n -> is_long_aligned sl = true -> mapped m sl n ->
  filled m sl c n (memset_longs fuel m sl (construct_chars (u8 c)) n).
Proof.
  assert (Hc : byte (u8 c)) by (apply (uN_range 8); lia).
  assert (Hcl : construct_chars (u8 c) = le_combine (replicate 8 (u8 c))) by (by rewrite construct_chars_ok).
  induction fuel as [|fuel IH]; intros m sl n Hf Hn Ha Hm; [lia|]. cbn [memset_longs].
  rewrite Hcl at 1. rewrite st_long_at; [|apply (mapped_sub _ sl n); [lia..|done]|done| |done].
  2: by apply Forall_replicate.
  cbn [mbind option_bind]. apply (filled_step m sl c n 8); [lia|].
  change (Z.of_nat 8) with 8. destruct (Z.leb_spec 8 (n - 8)) as [H8|H8].
  - apply IH; [lia|done|by apply aligned_add8|]. apply mapped_write.
    apply (mapped_sub _ sl n); [lia..|done].
  - exists 0%nat. split; [lia|]. simpl. some_eq.
Qed.

Lemma memset_ok m s c n : 0 <= n -> mapped m s n ->
  memset m s c n = Some (s, write m s (replicate (Z.to_nat n) (u8 c))).
Proof.
  intros Hn Hm. unfold memset.
  assert (H : filled m s c n (if LONG_STRING_SIZE <=? n then
       '(m, sb, n) ← memset_align 8 m s c n; memset_longs (Z.to_nat n) m sb (construct_chars (u8 c)) n
     else Some (m, s, n))).
  { destruct (Z.leb_spec LONG_STRING_SIZE n) as [Hl|Hl]; unfold LONG_STRING_SIZE in Hl.
    - destruct (memset_align_ok c 8 m s n) as [(k & Hk & Heq) H2]; [lia..|done|]. rewrite Heq.
      cbn [mbind option_bind]. destruct (H2 _ _ _ Heq) as [Ha Hn'].
      apply (filled_step m s c n k); [lia|]. apply memset_longs_ok; [lia..|done|].
      apply mapped_write. apply (mapped_sub _ s n); [lia..|done].
    - exists 0%nat. split; [lia|]. simpl. some_eq. }
  destruct H as (k & Hk & ->). cbn [mbind option_bind]. rewrite memset_bytes_ok.
  - cbn [mbind option_bind]. do 2 f_equal. replace (Z.to_nat n) with (k + Z.to_nat (n - Z.of_nat k))%nat by lia.
    by rewrite replicate_add, write_app, length_replicate.
  - apply mapped_write. apply (mapped_sub _ s n); [lia..|done].
Qed.

(** ** memmove *)

(** Storing a region in two parts, the second one first. *)
Lemma write_app_back m a l l' : write (write m (a + Z.of_nat (length l)) l') a l = write m a (l ++ l').
Proof.
  apply map_eq. intros b. rewrite !lookup_write, length_app.
  destruct (Z.leb_spec a b), (Z.ltb_spec b (a + Z.of_nat (length l))),
    (Z.leb_spec (a + Z.of_nat (length l)) b),
    (Z.ltb_spec b (a + Z.of_nat (length l) + Z.of_nat (length l'))),
    (Z.ltb_spec b (a + Z.of_nat (length l + length l'))); cbn [andb]; try lia; try done.
  - by rewrite lookup_app_l by lia.
  - rewrite lookup_app_r by lia. f_equal. lia.
Qed.

(** A forward loop has copied a first part of [l]. *)
Definition moved (m : mem) (s1 s2 : Z) (l : list Z) (r : option (mem * Z * Z * Z)) : Prop :=
  exists l1 l2, l = l1 ++ l2 /\
    r = Some (write m s1 l1, s1 + Z.of_nat (length l1), s2 + Z.of_nat (length l1), Z.of_nat (length l2)).

Lemma moved_step m s1 s2 w l r :
  moved (write m s1 w) (s1 + Z.of_nat (length w)) (s2 + Z.of_nat (length w)) l r -> moved m s1 s2 (w ++ l) r.
Proof.
  intros (l1 & l2 & -> & ->). exists (w ++ l1), l2. split; [by rewrite app_assoc|].
  rewrite write_app, length_app. some_eq.
Qed.

Lemma moved_stop m s1 s2 l : moved m s1 s2 l (Some (m, s1, s2, Z.of_nat (length l))).
Proof. exists [], l. split; [done|]. simpl. some_eq. Qed.

(** What is still to be read is not overwritten. *)
Lemma forward_keeps m s1 s2 w l : s1 <= s2 -> bytes_at m s2 (w ++ l) ->
  bytes_at (write m s1 w) (s2 + Z.of_nat (length w)) l.
Proof.
  intros Hs [_ H]%bytes_at_app. apply (bytes_at_ext m); [|done]. intros b Hb. apply lookup_write_out. lia.
Qed.

Lemma mapped_rest m s w l : mapped m s (Z.of_nat (length (w ++ l))) ->
  mapped (write m s w) (s + Z.of_nat (length w)) (Z.of_nat (length l)).
Proof. rewrite length_app. intros H. apply mapped_write. eapply mapped_sub; [| |exact H]; lia. Qed.

(** Copying one long: the next eight bytes. *)
Lemma long_step m s1 s2 w : length w = 8%nat -> Forall byte w -> bytes_at m s2 w -> mapped m s1 8 ->
  is_long_aligned s1 = true -> is_long_aligned s2 = true ->
  exists v, ld_long m s2 = Some v /\ st_long m s1 v = Some (write m s1 w).
Proof.
  intros Hl Hby Hw Hm H1 H2. exists (le_combine w). split; [by apply ld_long_at|by apply st_long_at].
Qed.

Lemma forward_align_ok fuel : forall m s1 s2 l,
  s1 < s2 -> (- s1) mod 8 <= Z.of_nat fuel -> (- s1) mod 8 <= Z.of_nat (length l) ->
  bytes_at m s2 l -> mapped m s1 (Z.of_nat (length l)) ->
  moved m s1 s2 l (forward_align fuel m s1 s2 (Z.of_nat (length l))) /\
  forall m' p1 p2 n', forward_align fuel m s1 s2 (Z.of_nat (length l)) = Some (m', p1, p2, n') ->
    is_long_aligned p1 = true /\ n' = Z.of_nat (length l) - (- s1) mod 8.
Proof.
  induction fuel as [|fuel IH]; intros m s1 s2 l Hs Hf Hn Hl Hm; cbn [forward_align];
    destruct (is_long_aligned s1) eqn:Ea;
    try (split; [apply moved_stop|intros m' p1 p2 n' [= <- <- <- <-]; unfold is_long_aligned in Ea; split; [done|lia]]).
  { exfalso. by apply (not_aligned_zero s1). }
  destruct l as [|x l]; [exfalso; by apply (not_aligned_zero s1)|].
  assert (Hx := Hl). destruct Hx as [Hx _]. unfold ld. rewrite Hx. cbn [mbind option_bind length].
  rewrite st_mapped by (rewrite <- (Z.add_0_r s1); apply Hm; simpl; lia). cbn [mbind option_bind].
  replace (Z.of_nat (S (length l)) - 1) with (Z.of_nat (length l)) by lia.
  destruct (IH (<[s1 := x]> m) (s1 + 1) (s2 + 1) l) as [H1 H2].
  - lia.
  - by apply aligned_succ.
  - by apply aligned_succ.
  - apply (forward_keeps m s1 s2 [x] l); [lia|done].
  - by apply (mapped_rest m s1 [x] l).
  - split; [by apply (moved_step m s1 s2 [x] l)|]. intros m' p1 p2 n' H. destruct (H2 _ _ _ _ H) as [G1 G2].
    split; [done|]. unfold is_long_aligned in *. lia.
Qed.

Lemma split8 (l : list Z) : 8 <= Z.of_nat (length l) -> exists w l', l = w ++ l' /\ length w = 8%nat.
Proof. intros H. exists (take 8 l), (drop 8 l). rewrite take_drop, length_take. split; [done|lia]. Qed.

Lemma forward_longs_ok fuel : forall m s1 s2 l,
  s1 < s2 -> Z.of_nat (length l) <= 8 * Z.of_nat fuel -> 8 <= Z.of_nat (length l) ->
  is_long_aligned s1 = true -> is_long_aligned s2 = true ->
  Forall byte l -> bytes_at m s2 l -> mapped m s1 (Z.of_nat (length l)) ->
  moved m s1 s2 l (forward_longs fuel m s1 s2 (Z.of_nat (length l))).
Proof.
  induction fuel as [|fuel IH]; intros m s1 s2 l Hs Hf Hn Ha1 Ha2 Hby Hl Hm; [lia|]. cbn [forward_longs].
  destruct (split8 l Hn) as (w & l' & -> & Hw). apply Forall_app in Hby as [Hbw Hbl].
  destruct (long_step m s1 s2 w Hw Hbw) as (v & Hld & Hst); [by apply bytes_at_app in Hl as [Hl _]| |done..|].
  { apply (mapped_sub _ s1 (Z.of_nat (length (w ++ l')))); [lia..|done]. }
  rewrite Hld. cbn [mbind option_bind]. rewrite Hst. cbn [mbind option_bind]. apply moved_step.
  apply (forward_keeps m s1) in Hl; [|lia]. apply mapped_rest in Hm.
  rewrite length_app, Hw in *. change (Z.of_nat 8) with 8 in *.
  replace (Z.of_nat (8 + length l') - 8) with (Z.of_nat (length l')) by lia.
  destruct (Z.leb_spec 8 (Z.of_nat (length l'))); [|by apply moved_stop].
  apply IH; try done; try lia; by apply aligned_add8.
Qed.

Lemma forward_bytes_ok l : forall m s1 s2, s1 < s2 -> bytes_at m s2 l -> mapped m s1 (Z.of_nat (length l)) ->
  forward_bytes (length l) m s1 s2 = Some (write m s1 l).
Proof.
  induction l as [|x l IH]; intros m s1 s2 Hs Hl Hm; cbn [forward_bytes length write]; [done|].
  assert (Hx := Hl). destruct Hx as [Hx _]. unfold ld. rewrite Hx. cbn [mbind option_bind].
  rewrite st_mapped by (rewrite <- (Z.add_0_r s1); apply Hm; simpl; lia). cbn [mbind option_bind].
  apply IH; [lia|apply (forward_keeps m s1 s2 [x] l); [lia|done]|by apply (mapped_rest m s1 [x] l)].
Qed.

(** *** Backward *)

(** A backward loop has copied a last part of [l]; the pointers are behind
    what is left. *)
Definition moved_back (m : mem) (s1 s2 : Z) (l : list Z) (r : option (mem * Z * Z * Z)) : Prop :=
  exists l1 l2, l = l1 ++ l2 /\
    r = Some (write m (s1 + Z.of_nat (length l1)) l2, s1 + Z.of_nat (length l1), s2 + Z.of_nat (length l1),
              Z.of_nat (length l1)).

Lemma moved_back_step m s1 s2 w l r :
  moved_back (write m (s1 + Z.of_nat (length l)) w) s1 s2 l r -> moved_back m s1 s2 (l ++ w) r.
Proof.
  intros (l1 & l2 & -> & ->). exists l1, (l2 ++ w). split; [by rewrite app_assoc|].
  rewrite length_app. replace (s1 + Z.of_nat (length l1 + length l2))
    with (s1 + Z.of_nat (length l1) + Z.of_nat (length l2)) by lia. by rewrite write_app_back.
Qed.

Lemma moved_back_stop m s1 s2 l :
  moved_back m s1 s2 l (Some (m, s1 + Z.of_nat (length l), s2 + Z.of_nat (length l), Z.of_nat (length l))).
Proof. exists l, []. by rewrite app_nil_r. Qed.

Lemma backward_keeps m s1 s2 w l : s2 <= s1 -> bytes_at m s2 (l ++ w) ->
  bytes_at (write m (s1 + Z.of_nat (length l)) w) s2 l.
Proof.
  intros Hs [H _]%bytes_at_app. apply (bytes_at_ext m); [|done]. intros b Hb. apply lookup_write_out. lia.
Qed.

Lemma mapped_front m s w l : mapped m s (Z.of_nat (length (l ++ w))) ->
  mapped (write m (s + Z.of_nat (length l)) w) s (Z.of_nat (length l)).
Proof. rewrite length_app. intros H. apply mapped_write. eapply mapped_sub; [| |exact H]; lia. Qed.

Lemma backward_align_ok fuel : forall m s1 s2 l,
  s2 < s1 -> (s1 + Z.of_nat (length l)) mod 8 <= Z.of_nat fuel ->
  (s1 + Z.of_nat (length l)) mod 8 <= Z.of_nat (length l) ->
  bytes_at m s2 l -> mapped m s1 (Z.of_nat (length l)) ->
  let r := backward_align fuel m (s1 + Z.of_nat (length l)) (s2 + Z.of_nat (length l)) (Z.of_nat (length l)) in
  moved_back m s1 s2 l r /\
  forall m' p1 p2 n', r = Some (m', p1, p2, n') ->
    is_long_aligned p1 = true /\ n' = Z.of_nat (length l) - (s1 + Z.of_nat (length l)) mod 8.
Proof.
  induction fuel as [|fuel IH]; intros m s1 s2 l Hs Hf Hn Hl Hm; cbn [backward_align];
    destruct (is_long_aligned (s1 + Z.of_nat (length l))) eqn:Ea;
    try (split; [apply moved_back_stop|intros m' p1 p2 n' [= <- <- <- <-]; unfold is_long_aligned in Ea; split; [done|lia]]).
  { unfold is_long_aligned in Ea. lia. }
  unfold is_long_aligned in Ea. apply Z.eqb_neq in Ea.
  destruct l as [|x l _] using rev_ind; [simpl in *; lia|].
  assert (Hx := Hl). apply bytes_at_app in Hx as [_ [Hx _]]. unfold ld.
  pose proof (backward_keeps m s1 s2 [x] l ltac:(lia) Hl) as Hl'.
  pose proof (mapped_front m s1 [x] l Hm) as Hm'.
  specialize (Hm (Z.of_nat (length l))). rewrite length_app in *. cbn [length] in *.
  replace (s2 + Z.of_nat (length l + 1) - 1) with (s2 + Z.of_nat (length l)) by lia.
  replace (s1 + Z.of_nat (length l + 1) - 1) with (s1 + Z.of_nat (length l)) by lia.
  replace (Z.of_nat (length l + 1) - 1) with (Z.of_nat (length l)) by lia.
  rewrite Hx. cbn [mbind option_bind]. rewrite st_mapped by (apply Hm; lia). cbn [mbind option_bind].
  destruct (IH (<[s1 + Z.of_nat (length l) := x]> m) s1 s2 l) as [H1 H2]; [lia|lia|lia|done|done|].
  split; [by apply (moved_back_step m s1 s2 [x] l)|]. intros m' p1 p2 n' H.
  destruct (H2 _ _ _ _ H) as [G1 G2]. split; [done|lia].
Qed.

Lemma split8_back (l : list Z) : 8 <= Z.of_nat (length l) -> exists w l', l = l' ++ w /\ length w = 8%nat.
Proof.
  intros H. exists (drop (length l - 8) l), (take (length l - 8) l).
  rewrite take_drop, length_drop. split; [done|lia].
Qed.

Lemma aligned_sub8 a : is_long_aligned (a + 8) = true -> is_long_aligned a = true.
Proof. unfold is_long_aligned. rewrite !Z.eqb_eq. lia. Qed.

Lemma backward_longs_ok fuel : forall m s1 s2 l,
  s2 < s1 -> Z.of_nat (length l) <= 8 * Z.of_nat fuel -> 8 <= Z.of_nat (length l) ->
  is_long_aligned (s1 + Z.of_nat (length l)) = true -> is_long_aligned (s2 + Z.of_nat (length l)) = true ->
  Forall byte l -> bytes_at m s2 l -> mapped m s1 (Z.of_nat (length l)) ->
  moved_back m s1 s2 l
    (backward_longs fuel m (s1 + Z.of_nat (length l)) (s2 + Z.of_nat (length l)) (Z.of_nat (length l))).
Proof.
  induction fuel as [|fuel IH]; intros m s1 s2 l Hs Hf Hn Ha1 Ha2 Hby Hl Hm; [lia|]. cbn [backward_longs].
  destruct (split8_back l Hn) as (w & l' & -> & Hw). apply Forall_app in Hby as [Hbl Hbw].
  assert (Hlw := Hl). apply bytes_at_app in Hlw as [_ Hlw].
  apply (backward_keeps m s1) in Hl; [|lia]. pose proof (mapped_front m s1 w l' Hm) as Hm'.
  assert (Hm8 : mapped m (s1 + Z.of_nat (length l')) 8).
  { eapply mapped_sub; [| |exact Hm]; rewrite ?length_app, ?Hw; lia. }
  apply moved_back_step. rewrite length_app, Hw in *.
  assert (Hb1 : is_long_aligned (s1 + Z.of_nat (length l')) = true)
    by (apply aligned_sub8; by replace (_ + 8) with (s1 + Z.of_nat (length l' + 8)) by lia).
  assert (Hb2 : is_long_aligned (s2 + Z.of_nat (length l')) = true)
    by (apply aligned_sub8; by replace (_ + 8) with (s2 + Z.of_nat (length l' + 8)) by lia).
  replace (s2 + Z.of_nat (length l' + 8) - 8) with (s2 + Z.of_nat (length l')) by lia.
  replace (s1 + Z.of_nat (length l' + 8) - 8) with (s1 + Z.of_nat (length l')) by lia.
  replace (Z.of_nat (length l' + 8) - 8) with (Z.of_nat (length l')) by lia.
  destruct (long_step m (s1 + Z.of_nat (length l')) (s2 + Z.of_nat (length l')) w Hw Hbw Hlw Hm8) as (v & Hld & Hst);
    [done..|].
  rewrite Hld. cbn [mbind option_bind]. rewrite Hst. cbn [mbind option_bind].
  destruct (Z.leb_spec 8 (Z.of_nat (length l'))); [|by apply moved_back_stop].
  apply IH; done || lia.
Qed.

Lemma backward_bytes_ok l : forall m s1 s2, s2 < s1 -> bytes_at m s2 l -> mapped m s1 (Z.of_nat (length l)) ->
  backward_bytes (length l) m (s1 + Z.of_nat (length l)) (s2 + Z.of_nat (length l)) = Some (write m s1 l).
Proof.
  induction l as [|x l IH] using rev_ind; intros m s1 s2 Hs Hl Hm; [done|].
  rewrite length_app. cbn [length]. rewrite Nat.add_1_r. cbn [backward_bytes].
  assert (Hx := Hl). apply bytes_at_app in Hx as [_ [Hx _]].
  replace (s2 + Z.of_nat (S (length l)) - 1) with (s2 + Z.of_nat (length l)) by lia.
  replace (s1 + Z.of_nat (S (length l)) - 1) with (s1 + Z.of_nat (length l)) by lia.
  unfold ld. rewrite Hx. cbn [mbind option_bind].
  rewrite st_mapped by (apply Hm; rewrite length_app; simpl; lia). cbn [mbind option_bind].
  rewrite IH; [by rewrite write_snoc|lia| |].
  - apply (backward_keeps m s1 s2 [x] l); [lia|done].
  - by apply (mapped_front m s1 [x] l).
Qed.

(** Copying a region onto itself. *)
Lemma write_same m a l : bytes_at m a l -> write m a l = m.
Proof.
  revert m. induction l as [|x l IH] using rev_ind; intros m Hl; [done|].
  apply bytes_at_app in Hl as [Hl [Hx _]]. rewrite write_snoc, insert_id by done. by apply IH.
Qed.

(** Both phases of the optimised copies. *)
Lemma forward_phase m s1 s2 l :
  s1 < s2 -> Forall byte l -> bytes_at m s2 l -> mapped m s1 (Z.of_nat (length l)) ->
  moved m s1 s2 l (if (LONG_STRING_SIZE <=? Z.of_nat (length l)) && is_long_aligned_equally s1 s2 then
    '(m, sb1, sb2, n) ← forward_align 8 m s1 s2 (Z.of_nat (length l)); forward_longs (Z.to_nat n) m sb1 sb2 n
    else Some (m, s1, s2, Z.of_nat (length l))).
Proof.
  intros Hs Hby Hl Hm. unfold LONG_STRING_SIZE. destruct ((32 <=? _) && _) eqn:E; [|apply moved_stop].
  unfold is_long_aligned_equally in E. zprop.
  destruct (forward_align_ok 8 m s1 s2 l) as [(l1 & l2 & El & Heq) H2]; [lia..|done|done|]. rewrite Heq.
  destruct (H2 _ _ _ _ Heq) as [Ha Hn]. cbn [mbind option_bind]. subst l. apply Forall_app in Hby as [_ Hby].
  apply moved_step. rewrite length_app in *. apply forward_longs_ok; try done; try lia.
  - unfold is_long_aligned in *. lia.
  - apply forward_keeps; [lia|done].
  - apply mapped_rest. by rewrite length_app.
Qed.

Lemma backward_phase m s1 s2 l :
  s2 < s1 -> Forall byte l -> bytes_at m s2 l -> mapped m s1 (Z.of_nat (length l)) ->
  let n := Z.of_nat (length l) in
  moved_back m s1 s2 l (if (LONG_STRING_SIZE <=? n) && is_long_aligned_equally (s1 + n) (s2 + n) then
    '(m, sb1, sb2, n) ← backward_align 8 m (s1 + n) (s2 + n) n; backward_longs (Z.to_nat n) m sb1 sb2 n
    else Some (m, s1 + n, s2 + n, n)).
Proof.
  intros Hs Hby Hl Hm n. unfold LONG_STRING_SIZE. destruct ((32 <=? n) && _) eqn:E; [|apply moved_back_stop].
  unfold is_long_aligned_equally, n in *. zprop.
  destruct (backward_align_ok 8 m s1 s2 l) as [(l1 & l2 & El & Heq) H2]; [lia..|done|done|].
  rewrite Heq. destruct (H2 _ _ _ _ Heq) as [Ha Hn]. cbn [mbind option_bind].
  subst l. apply Forall_app in Hby as [Hby _].
  apply moved_back_step. rewrite length_app in *. apply backward_longs_ok; try done; try lia.
  - unfold is_long_aligned in *. lia.
  - apply backward_keeps; [lia|done].
  - apply mapped_front. by rewrite length_app.
Qed.

Lemma memmove_ok m s1 s2 l :
  Forall byte l -> bytes_at m s2 l -> mapped m s1 (Z.of_nat (length l)) ->
  memmove m s1 s2 (Z.of_nat (length l)) = Some (s1, write m s1 l).
Proof.
  intros Hby Hl Hm. unfold memmove. destruct (Z.ltb_spec s1 s2) as [Hs|Hs].
  - destruct (forward_phase m s1 s2 l Hs Hby Hl Hm) as (l1 & l2 & -> & ->). cbn [mbind option_bind].
    rewrite Nat2Z.id, forward_bytes_ok; [|lia|apply forward_keeps; [lia|done]|by apply mapped_rest].
    cbn [mbind option_bind]. by rewrite write_app.
  - destruct (Z.ltb_spec s2 s1) as [Hs'|Hs']; [|assert (s1 = s2) as -> by lia; by rewrite write_same].
    destruct (backward_phase m s1 s2 l Hs' Hby Hl Hm) as (l1 & l2 & -> & ->). cbn [mbind option_bind].
    rewrite Nat2Z.id, backward_bytes_ok; [|lia|apply backward_keeps; [lia|done]|by apply mapped_front].
    cbn [mbind option_bind]. by rewrite write_app_back.
Qed.

(** ** Strings *)

Lemma bytes_at_write_out m a l b l' :
  b + Z.of_nat (length l) <= a \/ a + Z.of_nat (length l') <= b ->
  bytes_at m b l -> bytes_at (write m a l') b l.
Proof. intros Hd. apply bytes_at_ext. intros c Hc. apply lookup_write_out. lia. Qed.

(** A destination of [k] bytes and a source string with its terminator that
    do not overlap. *)
Definition apart (s1 k s2 : Z) (str : list Z) : Prop :=
  s1 + k <= s2 \/ s2 + Z.of_nat (length str) + 1 <= s1.

Lemma apart_cons s1 k s2 c str : 0 <= k -> apart s1 k s2 (c :: str) -> apart (s1 + 1) (k - 1) (s2 + 1) str.
Proof. unfold apart. cbn [length]. lia. Qed.

Lemma cstring_insert m a str b v :
  b < a \/ a + Z.of_nat (length str) < b -> cstring m a str -> cstring (<[b := v]> m) a str.
Proof.
  intros Hb [H Hn]. split; [|done]. apply (bytes_at_ext m); [|done]. intros c Hc.
  rewrite length_app in Hc. simpl in Hc. apply lookup_insert_ne. lia.
Qed.

(** One character copied: the state in which the loops go on. *)
Lemma copy_step m s1 k s2 c str : 0 < k -> cstring m s2 (c :: str) -> apart s1 k s2 (c :: str) -> mapped m s1 k ->
  ld m s2 = Some c /\ st m s1 c = Some (<[s1 := c]> m) /\ ld (<[s1 := c]> m) s2 = Some c /\
  cstring (<[s1 := c]> m) (s2 + 1) str /\ apart (s1 + 1) (k - 1) (s2 + 1) str /\
  mapped (<[s1 := c]> m) (s1 + 1) (k - 1).
Proof.
  intros Hk Hs Ha Hm. unfold ld. destruct (cstring_cons _ _ _ _ Hs) as (H0 & _ & Hs').
  assert (Hne : s1 <> s2) by (unfold apart in Ha; cbn [length] in Ha; lia).
  split; [done|]. split; [by apply st_mapped; rewrite <- (Z.add_0_r s1); apply Hm|].
  split; [by rewrite lookup_insert_ne|]. split.
  - apply cstring_insert; [|done]. unfold apart in Ha. cbn [length] in Ha. lia.
  - split; [by apply (apart_cons _ _ _ c); [lia|]|]. apply mapped_insert.
    eapply mapped_sub; [| |exact Hm]; lia.
Qed.

Lemma end_step m s1 k s2 : 0 < k -> cstring m s2 [] -> apart s1 k s2 [] -> mapped m s1 k ->
  ld m s2 = Some 0 /\ st m s1 0 = Some (<[s1 := 0]> m) /\ ld (<[s1 := 0]> m) s2 = Some 0.
Proof.
  intros Hk Hs Ha Hm. unfold ld. pose proof (cstring_nil _ _ Hs) as H0.
  assert (Hne : s1 <> s2) by (unfold apart in Ha; simpl in Ha; lia).
  split; [done|]. split; [by apply st_mapped; rewrite <- (Z.add_0_r s1); apply Hm|by rewrite lookup_insert_ne].
Qed.

Lemma copy_loop_ok fuel : forall m s s2 str,
  (length str < fuel)%nat -> cstring m s2 str -> apart s (Z.of_nat (length str) + 1) s2 str ->
  mapped m s (Z.of_nat (length str) + 1) ->
  copy_loop fuel m s s2 = Some (write m s (str ++ [0])) /\
  stpcpy fuel m s s2 = Some (s + Z.of_nat (length str), write m s (str ++ [0])).
Proof.
  induction fuel as [|fuel IH]; intros m s s2 str Hf Hs Ha Hm; [lia|]. cbn [copy_loop stpcpy].
  destruct str as [|c str].
  - destruct (end_step m s 1 s2 ltac:(lia) Hs Ha Hm) as (-> & H1 & H2). cbn [mbind option_bind].
    rewrite H1. cbn [mbind option_bind]. rewrite H2. cbn [mbind option_bind Z.eqb]. simpl. by rewrite Z.add_0_r.
  - destruct (copy_step m s (Z.of_nat (length (c :: str)) + 1) s2 c str ltac:(lia) Hs Ha Hm)
      as (-> & H1 & H2 & H3 & H4 & H5). cbn [mbind option_bind].
    rewrite H1. cbn [mbind option_bind]. rewrite H2. cbn [mbind option_bind].
    destruct (cstring_cons _ _ _ _ Hs) as (_ & Hc & _). rewrite (proj2 (Z.eqb_neq c 0) Hc).
    cbn [length] in *. replace (Z.of_nat (S (length str)) + 1 - 1) with (Z.of_nat (length str) + 1) in * by lia.
    destruct (IH _ _ _ str ltac:(lia) H3 H4 H5) as [-> ->]. split; [done|]. some_eq.
Qed.

(** *** Copies with a limit *)

(** The bytes of a source of which at most [n] characters are read. *)
Definition nsize (str : list Z) (n : Z) : Z :=
  Z.of_nat (length str) + (if n <=? Z.of_nat (length str) then 0 else 1).

Definition napart (s1 k s2 : Z) (str : list Z) (n : Z) : Prop :=
  s1 + k <= s2 \/ s2 + nsize str n <= s1.

Lemma nstring_insert m a str n b v :
  b < a \/ a + nsize str n <= b -> nstring m a str n -> nstring (<[b := v]> m) a str n.
Proof.
  unfold nsize. intros Hb [H Hn He]. split; [|done|].
  - apply (bytes_at_ext m); [|done]. intros c Hc. apply lookup_insert_ne. destruct (n <=? _) in Hb; lia.
  - destruct (Z.leb_spec n (Z.of_nat (length str))); [by left|]. destruct He as [He|He]; [by left|right].
    rewrite lookup_insert_ne by lia. done.
Qed.

Lemma ncopy_step m s1 k s2 str n : 0 < n -> 0 < k -> nstring m s2 str n -> napart s1 k s2 str n -> mapped m s1 k ->
  (str = [] /\ ld m s2 = Some 0) \/
  exists c str', str = c :: str' /\ c <> 0 /\ ld m s2 = Some c /\ st m s1 c = Some (<[s1 := c]> m) /\
    nstring (<[s1 := c]> m) (s2 + 1) str' (n - 1) /\ napart (s1 + 1) (k - 1) (s2 + 1) str' (n - 1) /\
    mapped (<[s1 := c]> m) (s1 + 1) (k - 1).
Proof.
  intros Hn Hk Hs Ha Hm. unfold ld.
  destruct (nstring_cons m s2 str n Hn Hs) as [[-> H0]|(c & str' & -> & H0 & Hc & Hs')]; [by left|right].
  assert (Hsz : nsize (c :: str') n = 1 + nsize str' (n - 1)) by (unfold nsize; cbn [length]; zcases).
  exists c, str'. split; [done|]. split; [done|]. split; [done|].
  split; [by apply st_mapped; rewrite <- (Z.add_0_r s1); apply Hm|].
  assert (0 <= nsize str' (n - 1)) by (unfold nsize; zcases).
  split; [apply nstring_insert; [unfold napart in Ha; lia|done]|].
  split; [unfold napart in *; lia|]. apply mapped_insert. eapply mapped_sub; [| |exact Hm]; lia.
Qed.

Lemma zero_loop_ok k : forall m s, mapped m s (Z.of_nat k) -> zero_loop k m s = Some (write m s (replicate k 0)).
Proof.
  induction k as [|k IH]; intros m s Hm; cbn [zero_loop replicate write]; [done|].
  rewrite st_mapped by (rewrite <- (Z.add_0_r s); apply Hm; lia). cbn [mbind option_bind]. apply IH.
  apply mapped_insert. eapply mapped_sub; [| |exact Hm]; lia.
Qed.

Lemma ncopy_loop_ok n : forall m s1 s2 str,
  nstring m s2 str (Z.of_nat n) -> napart s1 (Z.of_nat n) s2 str (Z.of_nat n) -> mapped m s1 (Z.of_nat n) ->
  let l := take n str in
  ncopy_loop n m s1 s2 = Some (write m s1 l, s1 + Z.of_nat (length l), (n - length l)%nat).
Proof.
  induction n as [|n IH]; intros m s1 s2 str Hs Ha Hm; cbn [ncopy_loop].
  - simpl. some_eq.
  - destruct (ncopy_step m s1 (Z.of_nat (S n)) s2 str (Z.of_nat (S n)) ltac:(lia) ltac:(lia) Hs Ha Hm)
      as [[-> ->]|(c & str' & -> & Hc & -> & H1 & H2 & H3 & H4)]; cbn [mbind option_bind].
    + simpl. some_eq.
    + rewrite (proj2 (Z.eqb_neq c 0) Hc), H1. cbn [mbind option_bind].
      replace (Z.of_nat (S n) - 1) with (Z.of_nat n) in * by lia.
      rewrite (IH _ _ _ str') by done. cbn [take length write]. some_eq.
Qed.

(** strncpy and stpncpy: the copy padded with null bytes to n. *)
Lemma strncpy_ok m s1 s2 str n :
  nstring m s2 str (Z.of_nat n) -> napart s1 (Z.of_nat n) s2 str (Z.of_nat n) -> mapped m s1 (Z.of_nat n) ->
  let l := take n str ++ replicate (n - length (take n str)) 0 in
  strncpy m s1 s2 n = Some (s1, write m s1 l) /\
  stpncpy m s1 s2 n = Some (s1 + Z.of_nat (length (take n str)), write m s1 l).
Proof.
  intros Hs Ha Hm l. unfold strncpy, stpncpy. rewrite (ncopy_loop_ok n m s1 s2 str) by done.
  cbn [mbind option_bind]. rewrite zero_loop_ok.
  - cbn [mbind option_bind]. unfold l. by rewrite write_app.
  - apply mapped_write. eapply mapped_sub; [| |exact Hm]; rewrite ?length_take; lia.
Qed.

Lemma skip_loop_ok fuel : forall m s str, (length str < fuel)%nat -> cstring m s str ->
  skip_loop fuel m s = Some (s + Z.of_nat (length str)).
Proof.
  induction fuel as [|fuel IH]; intros m s str Hf Hs; [lia|]. cbn [skip_loop]. unfold ld. destruct str as [|c str].
  - rewrite (cstring_nil _ _ Hs). simpl. f_equal. lia.
  - destruct (cstring_cons _ _ _ _ Hs) as (-> & Hc & Hs'). cbn [mbind option_bind].
    rewrite (proj2 (Z.eqb_neq c 0) Hc), (IH _ _ str); [f_equal; cbn [length]; lia|simpl in Hf; lia|done].
Qed.

Lemma strncat_loop_ok n : forall m s1 s2 str,
  nstring m s2 str (Z.of_nat n) -> napart s1 (Z.of_nat n) s2 str (Z.of_nat n) -> mapped m s1 (Z.of_nat n) ->
  let l := take n str in
  strncat_loop n m s1 s2 = Some (write m s1 l, s1 + Z.of_nat (length l)).
Proof.
  induction n as [|n IH]; intros m s1 s2 str Hs Ha Hm; cbn [strncat_loop].
  - simpl. some_eq.
  - destruct (ncopy_step m s1 (Z.of_nat (S n)) s2 str (Z.of_nat (S n)) ltac:(lia) ltac:(lia) Hs Ha Hm)
      as [[-> ->]|(c & str' & -> & Hc & -> & H1 & H2 & H3 & H4)]; cbn [mbind option_bind].
    + simpl. some_eq.
    + rewrite (proj2 (Z.eqb_neq c 0) Hc), H1. cbn [mbind option_bind].
      replace (Z.of_nat (S n) - 1) with (Z.of_nat n) in * by lia.
      rewrite (IH _ _ _ str') by done. cbn [take length write]. some_eq.
Qed.

(** *** strlcpy and strlcat *)

Definition lcopy_bytes (n : nat) (str : list Z) : list Z :=
  match n with O => [] | S n => take n str ++ [0] end.

Lemma lcopy_loop_ok n : forall m s1 s2 str,
  cstring m s2 str -> apart s1 (Z.of_nat n) s2 str -> mapped m s1 (Z.of_nat n) ->
  lcopy_loop n m s1 s2
  = if (length str <? n - 1)%nat then Some (write m s1 (str ++ [0]), inl (s2 + Z.of_nat (length str)))
    else Some (write m s1 (take (n - 1) str),
               inr (s1 + Z.of_nat (n - 1), s2 + Z.of_nat (n - 1), if (n =? 0)%nat then 0%nat else 1%nat)).
Proof.
  induction n as [|[|n] IH]; intros m s1 s2 str Hs Ha Hm; [simpl; some_eq..|].
  change (lcopy_loop (S (S n)) m s1 s2) with
    (x ← ld m s2; m ← st m s1 x; y ← ld m s2;
     if y =? 0 then Some (m, inl s2) else lcopy_loop (S n) m (s1 + 1) (s2 + 1)).
  replace (S (S n) - 1)%nat with (S n) by lia. destruct str as [|c str].
  - destruct (end_step m s1 (Z.of_nat (S (S n))) s2 ltac:(lia) Hs Ha Hm) as (-> & H1 & H2).
    cbn [mbind option_bind]. rewrite H1. cbn [mbind option_bind]. rewrite H2. cbn [mbind option_bind Z.eqb length].
    cbn [Nat.ltb Nat.leb app write]. some_eq.
  - destruct (copy_step m s1 (Z.of_nat (S (S n))) s2 c str ltac:(lia) Hs Ha Hm) as (-> & H1 & H2 & H3 & H4 & H5).
    cbn [mbind option_bind]. rewrite H1. cbn [mbind option_bind]. rewrite H2. cbn [mbind option_bind].
    destruct (cstring_cons _ _ _ _ Hs) as (_ & Hc & _). rewrite (proj2 (Z.eqb_neq c 0) Hc).
    replace (Z.of_nat (S (S n)) - 1) with (Z.of_nat (S n)) in * by lia.
    rewrite (IH _ _ _ str) by done. replace (S n - 1)%nat with n by lia. cbn [length take app write].
    destruct (Nat.ltb_spec (length str) n), (Nat.ltb_spec (S (length str)) (S n)); try lia; simpl; some_eq.
Qed.

Lemma cstring_drop m a str k : (k <= length str)%nat -> cstring m a str -> cstring m (a + Z.of_nat k) (drop k str).
Proof.
  intros Hk [Hb Hn]. rewrite <- (take_drop k str) in Hb, Hn. rewrite <- app_assoc in Hb.
  apply bytes_at_app in Hb as [_ Hb]. rewrite length_take, Nat.min_l in Hb by done. split; [done|set_solver].
Qed.

Lemma cstring_write m a str b l :
  b + Z.of_nat (length l) <= a \/ a + Z.of_nat (length str) + 1 <= b -> cstring m a str -> cstring (write m b l) a str.
Proof.
  intros Hd [Hb Hn]. split; [|done]. apply bytes_at_write_out; [|done]. rewrite length_app. simpl. lia.
Qed.

Lemma lcopy_ok fuel m s1 s2 str n :
  (length str < fuel)%nat -> cstring m s2 str -> apart s1 (Z.of_nat n) s2 str -> mapped m s1 (Z.of_nat n) ->
  lcopy fuel m s1 s2 n = Some (Z.of_nat (length str), write m s1 (lcopy_bytes n str)).
Proof.
  intros Hf Hs Ha Hm. unfold lcopy. rewrite (lcopy_loop_ok n m s1 s2 str) by done.
  destruct (Nat.ltb_spec (length str) (n - 1)) as [Hlt|Hge]; cbn [mbind option_bind].
  - destruct n as [|n]; [lia|]. cbn [lcopy_bytes]. rewrite firstn_all2 by lia. some_eq.
  - destruct n as [|n]; cbn [Nat.eqb Nat.ltb Nat.leb].
    + cbn [mbind option_bind lcopy_bytes write Nat.sub take]. change (Z.of_nat 0) with 0.
      rewrite !Z.add_0_r, take_0. cbn [write].
      rewrite (skip_loop_ok fuel m s2 str) by done. cbn [mbind option_bind]. some_eq.
    + replace (S n - 1)%nat with n in * by lia. assert (Hlen : length (take n str) = n) by (rewrite length_take; lia).
      rewrite st_mapped. 2: { apply mapped_write with (b := s1) (n := Z.of_nat (S n)); [done|lia]. }
      cbn [mbind option_bind lcopy_bytes]. rewrite write_app, Hlen. cbn [write].
      change (<[s1 + Z.of_nat n := 0]> (write m s1 (take n str)))
        with (write (write m s1 (take n str)) (s1 + Z.of_nat n) [0]).
      rewrite (skip_loop_ok fuel _ _ (drop n str)); [|rewrite length_drop; lia|].
      * cbn [mbind option_bind]. rewrite length_drop. some_eq.
      * unfold apart in Ha. do 2 (apply cstring_write; [rewrite length_drop, ?Hlen; simpl; lia|]).
        by apply cstring_drop.
Qed.

Lemma used_loop_ok n : forall m s1 k dst, nstring m s1 dst (Z.of_nat n) ->
  let d := length (take n dst) in
  used_loop n m s1 k = Some (s1 + Z.of_nat d, (n - d)%nat, k + Z.of_nat d).
Proof.
  induction n as [|n IH]; intros m s1 k dst Hs; cbn [used_loop].
  - simpl. some_eq.
  - unfold ld. destruct (nstring_cons m s1 dst (Z.of_nat (S n)) ltac:(lia) Hs)
      as [[-> ->]|(c & dst' & -> & -> & Hc & Hs')]; cbn [mbind option_bind].
    + simpl. some_eq.
    + rewrite (proj2 (Z.eqb_neq c 0) Hc). replace (Z.of_nat (S n) - 1) with (Z.of_nat n) in Hs' by lia.
      rewrite (IH _ _ _ dst' Hs'). cbn [take length]. some_eq.
Qed.

Lemma strlcat_ok fuel m s1 s2 dst str n :
  (length str < fuel)%nat -> cstring m s2 str -> nstring m s1 dst (Z.of_nat n) ->
  apart s1 (Z.of_nat n) s2 str -> mapped m s1 (Z.of_nat n) ->
  let d := length (take n dst) in
  strlcat fuel m s1 s2 n
  = Some (Z.of_nat (d + length str), write m (s1 + Z.of_nat d) (lcopy_bytes (n - d) str)).
Proof.
  intros Hf Hs Hd Ha Hm d. unfold strlcat. rewrite (used_loop_ok n m s1 0 dst Hd). cbn [mbind option_bind].
  fold d. assert (d <= n)%nat by (unfold d; rewrite length_take; lia).
  rewrite (lcopy_ok fuel m _ s2 str) by (done || (unfold apart in *; lia) || (eapply mapped_sub; [| |exact Hm]; lia)).
  cbn [mbind option_bind]. some_eq.
Qed.

(** ** Searches *)

(** [r] is the first (the last) place of [c] in [l], which starts at [s]. *)
Definition is_first (s : Z) (l : list Z) (c : Z) (r : option Z) : Prop :=
  match r with
  | Some p => exists i : nat, p = s + Z.of_nat i /\ l !! i = Some c /\ forall j, (j < i)%nat -> l !! j <> Some c
  | None => c ∉ l
  end.

Definition is_last (s : Z) (l : list Z) (c : Z) (r : option Z) : Prop :=
  match r with
  | Some p => exists i : nat, p = s + Z.of_nat i /\ l !! i = Some c /\ forall j, (i < j)%nat -> l !! j <> Some c
  | None => c ∉ l
  end.

Lemma is_first_here s l c : is_first s (c :: l) c (Some s).
Proof. exists 0%nat. split; [lia|]. split; [done|]. lia. Qed.

Lemma is_first_cons s x l c r : x <> c -> is_first (s + 1) l c r -> is_first s (x :: l) c r.
Proof.
  intros Hx. destruct r as [p|]; cbn [is_first]; [|rewrite not_elem_of_cons; naive_solver].
  intros (i & -> & Hi & Hj). exists (S i). split; [lia|]. split; [done|]. intros [|j] Hlt; [naive_solver|].
  apply Hj. lia.
Qed.

Lemma is_last_snoc s x l c r : x <> c -> is_last s l c r -> is_last s (l ++ [x]) c r.
Proof.
  intros Hx. destruct r as [p|]; cbn [is_last]; [|set_solver].
  intros (i & -> & Hi & Hj). exists i. split; [done|]. apply lookup_lt_Some in Hi as Hlt.
  rewrite lookup_app_l by done. split; [done|]. intros j Hlj Heq. apply lookup_app_Some in Heq as [Heq|[Hle Heq]].
  - by apply (Hj j).
  - destruct (j - length l)%nat; [naive_solver|]. done.
Qed.

Lemma is_last_here s l c : is_last s (l ++ [c]) c (Some (s + Z.of_nat (length l))).
Proof.
  exists (length l). split; [done|]. rewrite lookup_app_r, Nat.sub_diag by lia. split; [done|].
  intros j Hj. rewrite lookup_ge_None_2; [done|]. rewrite length_app. simpl. lia.
Qed.

Lemma memchr_ok c l : forall m s, bytes_at m s l ->
  exists r, memchr (length l) m s c = Some r /\ is_first s l (u8 c) r.
Proof.
  induction l as [|x l IH]; intros m s Hl; cbn [memchr length].
  - exists None. split; [done|]. apply not_elem_of_nil.
  - destruct Hl as [Hx Hl]. unfold ld. rewrite Hx. cbn [mbind option_bind].
    destruct (Z.eqb_spec x (u8 c)) as [->|Hne]; [exists (Some s); split; [done|apply is_first_here]|].
    destruct (IH m (s + 1) Hl) as (r & -> & Hr). exists r. split; [done|by apply is_first_cons].
Qed.

Lemma memrchr_ok c l : forall m s, bytes_at m s l ->
  exists r, memrchr (length l) m s c = Some r /\ is_last s l (u8 c) r.
Proof.
  unfold memrchr. induction l as [|x l IH] using rev_ind; intros m s Hl.
  - exists None. split; [done|]. apply not_elem_of_nil.
  - apply bytes_at_app in Hl as [Hl [Hx _]]. rewrite length_app. cbn [length]. rewrite Nat.add_1_r.
    cbn [memrchr_loop]. replace (s + Z.of_nat (S (length l)) - 1) with (s + Z.of_nat (length l)) by lia.
    unfold ld. rewrite Hx. cbn [mbind option_bind].
    destruct (Z.eqb_spec x (u8 c)) as [->|Hne]; [eexists; split; [done|apply is_last_here]|].
    destruct (IH m s Hl) as (r & -> & Hr). exists r. split; [done|by apply is_last_snoc].
Qed.

Lemma strchr_ok c fuel : forall m s str, (length str < fuel)%nat -> cstring m s str ->
  exists r, strchr fuel m s c = Some r /\ is_first s (str ++ [0]) (u8 c) r.
Proof.
  induction fuel as [|fuel IH]; intros m s str Hf Hs; [lia|]. cbn [strchr]. unfold ld. destruct str as [|x str].
  - rewrite (cstring_nil _ _ Hs). cbn [mbind option_bind].
    destruct (Z.eqb_spec 0 (u8 c)) as [<-|Hne]; [eexists; split; [done|apply is_first_here]|].
    exists None. split; [done|]. simpl. set_solver.
  - destruct (cstring_cons _ _ _ _ Hs) as (-> & Hx & Hs'). cbn [mbind option_bind app].
    destruct (Z.eqb_spec x (u8 c)) as [->|Hne]; [eexists; split; [done|apply is_first_here]|].
    rewrite (proj2 (Z.eqb_neq x 0) Hx). destruct (IH m (s + 1) str) as (r & -> & Hr); [simpl in Hf; lia|done|].
    exists r. split; [done|by apply is_first_cons].
Qed.

Lemma strrchr_loop_ok c fuel : forall m s0 s pre last str, (length str < fuel)%nat -> cstring m s str ->
  s = s0 + Z.of_nat (length pre) -> is_last s0 pre (u8 c) last ->
  exists r, strrchr_loop fuel m s c last = Some r /\ is_last s0 (pre ++ str ++ [0]) (u8 c) r.
Proof.
  induction fuel as [|fuel IH]; intros m s0 s pre last str Hf Hs Hpos Hl; [lia|]. cbn [strrchr_loop]. unfold ld.
  assert (Hnext : forall x, is_last s0 (pre ++ [x]) (u8 c) (if x =? u8 c then Some s else last)).
  { intros x. destruct (Z.eqb_spec x (u8 c)) as [->|Hne]; [subst s; apply is_last_here|by apply is_last_snoc]. }
  destruct str as [|x str].
  - rewrite (cstring_nil _ _ Hs). cbn [mbind option_bind app]. eexists. split; [done|]. apply (Hnext 0).
  - destruct (cstring_cons _ _ _ _ Hs) as (-> & Hx & Hs'). cbn [mbind option_bind].
    rewrite (proj2 (Z.eqb_neq x 0) Hx).
    destruct (IH m s0 (s + 1) (pre ++ [x]) (if x =? u8 c then Some s else last) str) as (r & -> & Hr);
      [simpl in Hf; lia|done|rewrite length_app; simpl; lia|apply Hnext|].
    exists r. split; [done|]. by rewrite <- app_assoc in Hr.
Qed.

(** memccpy: everything up to and including the first such byte. *)
Lemma memccpy_ok c l : forall m s1 s2, bytes_at m s2 l -> mapped m s1 (Z.of_nat (length l)) ->
  s1 + Z.of_nat (length l) <= s2 \/ s2 + Z.of_nat (length l) <= s1 ->
  exists r k, memccpy (length l) m s1 s2 c = Some (r, write m s1 (take k l)) /\
    match r with
    | Some p => is_first s1 l (u8 c) (Some (p - 1)) /\ k = Z.to_nat (p - s1)
    | None => ((u8 c) ∉ l) /\ k = length l
    end.
Proof.
  induction l as [|x l IH]; intros m s1 s2 Hl Hm Hd; cbn [memccpy length].
  - exists None, 0%nat. split; [done|]. split; [apply not_elem_of_nil|done].
  - destruct Hl as [Hx Hl]. cbn [length] in *. unfold ld. rewrite Hx. cbn [mbind option_bind].
    rewrite st_mapped by (rewrite <- (Z.add_0_r s1); apply Hm; lia). cbn [mbind option_bind].
    rewrite lookup_insert, decide_True by done. cbn [mbind option_bind].
    destruct (Z.eqb_spec x (u8 c)) as [->|Hne].
    + exists (Some (s1 + 1)), 1%nat. split; [done|].
      split; [|lia]. replace (s1 + 1 - 1) with s1 by lia. apply is_first_here.
    + destruct (IH (<[s1 := x]> m) (s1 + 1) (s2 + 1)) as (r & k & -> & Hr).
      * apply (bytes_at_ext m); [|done]. intros b Hb. apply lookup_insert_ne. lia.
      * apply mapped_insert. eapply mapped_sub; [| |exact Hm]; lia.
      * lia.
      * exists r, (S k). split; [done|]. destruct r as [p|].
        -- destruct Hr as [Hr Hk]. split; [by apply is_first_cons|]. destruct Hr as (i & Hi & _). lia.
        -- destruct Hr as [Hr ->]. split; [|done]. rewrite not_elem_of_cons. naive_solver.
Qed.

(** ** Duplicates *)

(** What malloc promises: a block of the size asked for that nothing else
    uses, with everything else unchanged; it may also fail. *)
Class MallocLaws (malloc : mem -> Z -> option (Z * mem)) : Prop :=
  malloc_fresh m n p m' : malloc m n = Some (p, m') ->
    mapped m' p n /\ m ⊆ m' /\ (forall i, 0 <= i < n -> m !! (p + i) = None).

Lemma subseteq_bytes_at m m' a l : m ⊆ m' -> bytes_at m a l -> bytes_at m' a l.
Proof.
  intros Hsub. rewrite !bytes_at_lookup. intros H i x Hi. by eapply lookup_weaken; [apply H|].
Qed.

Lemma fresh_write m m' p n l : m ⊆ m' -> (forall i, 0 <= i < n -> m !! (p + i) = None) ->
  Z.of_nat (length l) <= n -> m ⊆ write m' p l.
Proof.
  intros Hsub Hf Hl. apply map_subseteq_spec. intros a x Ha. rewrite lookup_write_out; [by eapply lookup_weaken|].
  intros Hin. rewrite <- (Zplus_minus p a), Hf in Ha by lia. done.
Qed.

(** What duplicating a string means: without memory a null pointer and nothing else, and otherwise the block that
    malloc has found, none of which was in use before, holding the string with its terminator. *)
Definition duplicates (malloc : mem -> Z -> option (Z * mem)) (m : mem) (copy : list Z) (res : option (option Z * mem)) : Prop :=
  let n := Z.of_nat (length copy) + 1 in
  match malloc m n with
  | None => res = Some (None, m)
  | Some (p, _) => exists m', res = Some (Some p, m') /\ m ⊆ m' /\ cstring m' p copy /\ mapped m' p n /\
      (forall i, 0 <= i < n -> m !! (p + i) = None)
  end.

Lemma strdup_ok malloc `{!MallocLaws malloc} fuel m s str :
  mem_ok m -> cstring m s str -> (length str < fuel)%nat -> Forall byte str ->
  duplicates malloc m str (strdup malloc fuel m s).
Proof.
  intros Hm Hs Hf Hby. unfold duplicates, strdup. rewrite (strlen_ok m s str) by done. cbn [mbind option_bind].
  destruct (malloc m (Z.of_nat (length str) + 1)) as [[p m']|] eqn:E; [|done].
  destruct (malloc_fresh _ _ _ _ E) as (Hmp & Hsub & Hfresh).
  assert (Hlen : Z.of_nat (length str) + 1 = Z.of_nat (length (str ++ [0]))) by (rewrite length_app; simpl; lia).
  destruct Hs as [Hb Hn]. rewrite Hlen in *. rewrite memmove_ok.
  - cbn [mbind option_bind]. eexists. split; [done|].
    split; [by eapply fresh_write|]. split; [split; [apply bytes_at_write|done]|]. split; [by apply mapped_write|exact Hfresh].
  - apply Forall_app. split; [done|by repeat constructor].
  - by apply (subseteq_bytes_at m).
  - done.
Qed.

Lemma strndup_ok malloc `{!MallocLaws malloc} m s str size :
  mem_ok m -> 0 <= size -> nstring m s str size -> Forall byte str ->
  let copy := take (Z.to_nat size) str in
  duplicates malloc m copy (strndup malloc m s size).
Proof.
  intros Hm Hsz Hs Hby copy. unfold duplicates, strndup. rewrite (strnlen_ok m s str) by done. cbn [mbind option_bind].
  assert (Hcl : len_spec str size = Z.of_nat (length copy)) by (unfold len_spec, copy; rewrite length_take; lia).
  rewrite Hcl. destruct (malloc m (Z.of_nat (length copy) + 1)) as [[p m']|] eqn:E; [|done].
  destruct (malloc_fresh _ _ _ _ E) as (Hmp & Hsub & Hfresh). destruct Hs as [Hb Hn _].
  assert (Hcopy : bytes_at m s copy /\ 0 ∉ copy).
  { rewrite <- (take_drop (Z.to_nat size) str) in Hb, Hn. apply bytes_at_app in Hb as [Hb _].
    fold copy in Hb, Hn. split; [done|set_solver]. }
  destruct Hcopy as [Hbc Hnc]. rewrite memmove_ok.
  - cbn [mbind option_bind]. rewrite st_mapped.
    2: { apply mapped_write with (b := p) (n := Z.of_nat (length copy) + 1); [done|lia]. }
    cbn [mbind option_bind]. change (<[p + Z.of_nat (length copy) := 0]> (write m' p copy))
      with (write (write m' p copy) (p + Z.of_nat (length copy)) [0]).
    rewrite <- write_app. eexists. split; [done|].
    split; [eapply fresh_write; [done..|rewrite length_app; simpl; lia]|].
    split; [split; [apply bytes_at_write|done]|]. split; [by apply mapped_write|exact Hfresh].
  - by apply Forall_take.
  - by apply (subseteq_bytes_at m).
  - eapply mapped_sub; [| |exact Hmp]; lia.
Qed.

(** ** Properties *)

(** Memmove and memset.  For any addresses, alignments and overlap of
    source and destination, memmove (which is also memcpy) leaves in the
    destination exactly the n bytes the source held before the call, and
    memset leaves n copies of the byte; no other address changes, only the two
    regions are accessed, and long words are only accessed aligned. *)
Theorem memmove_memset_correct m s1 s2 l c n
  (Hby : Forall byte l) (Hl : bytes_at m s2 l) (Hm : mapped m s1 (Z.of_nat (length l)))
  (Hn : 0 <= n) (Hms : mapped m s1 n) :
  (exists m', memmove m s1 s2 (Z.of_nat (length l)) = Some (s1, m') /\ bytes_at m' s1 l /\
    forall a, ~ (s1 <= a < s1 + Z.of_nat (length l)) -> m' !! a = m !! a) /\
  (exists m', memset m s1 c n = Some (s1, m') /\ (forall i, 0 <= i < n -> m' !! (s1 + i) = Some (u8 c)) /\
    forall a, ~ (s1 <= a < s1 + n) -> m' !! a = m !! a).
Proof.
  split.
  - exists (write m s1 l). split; [by apply memmove_ok|]. split; [apply bytes_at_write|].
    intros a Ha. by apply lookup_write_out.
  - exists (write m s1 (replicate (Z.to_nat n) (u8 c))). split; [by apply memset_ok|]. split.
    + intros i Hi. rewrite lookup_write, length_replicate.
      rewrite (proj2 (Z.leb_le _ _)), (proj2 (Z.ltb_lt _ _)) by lia. cbn [andb]. apply lookup_replicate_2. lia.
    + intros a Ha. apply lookup_write_out. rewrite length_replicate. lia.
Qed.

(** strlcpy and strlcat.  Both return the length of the string they tried
    to create, store at most n bytes, always terminate the result when n is
    not zero and the destination string ends within n bytes, and touch nothing
    else; the result is the longest prefix that fits. *)
Theorem strlcpy_strlcat_correct fuel m s1 s2 dst str n
  (Hf : (length str < fuel)%nat) (Hs : cstring m s2 str) (Hd : nstring m s1 dst (Z.of_nat n))
  (Ha : apart s1 (Z.of_nat n) s2 str) (Hm : mapped m s1 (Z.of_nat n)) :
  let fits k := match k with O => [] | S k => take k str ++ [0] end in
  let d := Nat.min n (length dst) in
  strlcpy fuel m s1 s2 n = Some (Z.of_nat (length str), write m s1 (fits n)) /\
  strlcat fuel m s1 s2 n
    = Some (Z.of_nat (d + length str), write m (s1 + Z.of_nat d) (fits (n - d)%nat)) /\
  (length (fits n) <= n)%nat /\ (d + length (fits (n - d)%nat) <= n)%nat.
Proof.
  intros fits d. assert (Hlen : forall k, (length (fits k) <= k)%nat).
  { intros [|k]; [done|]. cbn [fits]. rewrite length_app, length_take. simpl. lia. }
  split; [by apply lcopy_ok|]. split.
  - pose proof (strlcat_ok fuel m s1 s2 dst str n Hf Hs Hd Ha Hm) as H. rewrite length_take in H. exact H.
  - split; [apply Hlen|]. specialize (Hlen (n - d)%nat). lia.
Qed.

Lemma strcat_ok fuel m s1 s2 dst str :
  (length str < fuel)%nat -> (length dst < fuel)%nat -> cstring m s1 dst -> cstring m s2 str ->
  apart s1 (Z.of_nat (length dst + length str) + 1) s2 str ->
  mapped m s1 (Z.of_nat (length dst + length str) + 1) ->
  strcat fuel m s1 s2 = Some (s1, write m (s1 + Z.of_nat (length dst)) (str ++ [0])).
Proof.
  intros Hf1 Hf2 Hd Hs Ha Hm. unfold strcat. rewrite (skip_loop_ok fuel m s1 dst) by done.
  cbn [mbind option_bind]. destruct (copy_loop_ok fuel m (s1 + Z.of_nat (length dst)) s2 str) as [-> _];
    [done|done|unfold apart in *; lia|eapply mapped_sub; [| |exact Hm]; lia|]. done.
Qed.

Lemma strncat_ok fuel m s1 s2 dst str n :
  (length dst < fuel)%nat -> cstring m s1 dst -> nstring m s2 str (Z.of_nat n) ->
  napart s1 (Z.of_nat (length dst + n) + 1) s2 str (Z.of_nat n) ->
  mapped m s1 (Z.of_nat (length dst + n) + 1) -> (0 < n)%nat ->
  strncat fuel m s1 s2 n = Some (s1, write m (s1 + Z.of_nat (length dst)) (take n str ++ [0])).
Proof.
  intros Hf Hd Hs Ha Hm Hn. destruct n as [|n]; [lia|]. unfold strncat. rewrite (skip_loop_ok fuel m s1 dst) by done.
  cbn [mbind option_bind]. rewrite (strncat_loop_ok (S n) m _ s2 str);
    [|done|unfold napart in *; lia|eapply mapped_sub; [| |exact Hm]; lia].
  cbn [mbind option_bind]. set (l := take (S n) str). assert (Hl : (length l <= S n)%nat) by (unfold l; rewrite length_take; lia).
  rewrite st_mapped.
  - cbn [mbind option_bind]. by rewrite write_app.
  - rewrite <- Z.add_assoc. apply mapped_write with (b := s1) (n := Z.of_nat (length dst + S n) + 1); [done|lia].
Qed.

(** The copies.  With source and destination apart, strcpy and stpcpy
    store the string and its terminator, strcat and strncat store it, cut to n
    characters for strncat, behind the destination string; strncpy and
    stpncpy store at most n characters and pad with null bytes to exactly n;
    stpcpy and stpncpy return the end of the copied characters, the others the
    destination.  Nothing but the stated bytes is written, and all loops end
    within the lengths of the strings. *)
Theorem string_copies_correct fuel m s1 s2 dst str n
  (Hs : cstring m s2 str) (Hd : cstring m s1 dst) (Hn : (0 < n)%nat)
  (Hf : (length str < fuel)%nat) (Hf' : (length dst < fuel)%nat) :
  let k := Z.of_nat (length dst + length str + n) + 1 in
  apart s1 k s2 str -> mapped m s1 k ->
  strcpy fuel m s1 s2 = Some (s1, write m s1 (str ++ [0])) /\
  stpcpy fuel m s1 s2 = Some (s1 + Z.of_nat (length str), write m s1 (str ++ [0])) /\
  strcat fuel m s1 s2 = Some (s1, write m (s1 + Z.of_nat (length dst)) (str ++ [0])) /\
  strncat fuel m s1 s2 n = Some (s1, write m (s1 + Z.of_nat (length dst)) (take n str ++ [0])) /\
  strncpy m s1 s2 n = Some (s1, write m s1 (take n str ++ replicate (n - length (take n str)) 0)) /\
  stpncpy m s1 s2 n = Some (s1 + Z.of_nat (length (take n str)),
                            write m s1 (take n str ++ replicate (n - length (take n str)) 0)).
Proof.
  intros k Ha Hm. assert (Hna : forall j, j <= k -> napart s1 j s2 str (Z.of_nat n)).
  { intros j Hj. unfold apart in Ha. unfold napart, nsize. destruct (_ <=? _); lia. }
  assert (Hcp : copy_loop fuel m s1 s2 = Some (write m s1 (str ++ [0])) /\
    stpcpy fuel m s1 s2 = Some (s1 + Z.of_nat (length str), write m s1 (str ++ [0]))).
  { apply copy_loop_ok; [done|done|unfold apart, k in *; lia|eapply mapped_sub; [| |exact Hm]; unfold k; lia]. }
  destruct Hcp as [H1 H2]. split; [unfold strcpy; by rewrite H1|]. split; [done|]. split.
  { apply strcat_ok; try done; [unfold apart, k in *; lia|eapply mapped_sub; [| |exact Hm]; unfold k; lia]. }
  split.
  { apply strncat_ok; try done; [by apply cstring_nstring|apply Hna; unfold k; lia
      |eapply mapped_sub; [| |exact Hm]; unfold k; lia]. }
  apply strncpy_ok; [by apply cstring_nstring|apply Hna; unfold k; lia|eapply mapped_sub; [| |exact Hm]; unfold k; lia].
Qed.

(** The searches.  memchr and strchr return the first place of the
    character, memrchr and strrchr the last one, and a null pointer exactly
    when it does not occur; the terminator counts as part of the string for
    strchr and strrchr.  memccpy copies up to and including the first place of
    the character and returns the address behind it. *)
Theorem searches_correct fuel m s d l str c
  (Hl : bytes_at m s l) (Hs : cstring m s str) (Hf : (length str < fuel)%nat)
  (Hd : mapped m d (Z.of_nat (length l)))
  (Hsep : d + Z.of_nat (length l) <= s \/ s + Z.of_nat (length l) <= d) :
  (exists r, memchr (length l) m s c = Some r /\ is_first s l (u8 c) r) /\
  (exists r, memrchr (length l) m s c = Some r /\ is_last s l (u8 c) r) /\
  (exists r, strchr fuel m s c = Some r /\ is_first s (str ++ [0]) (u8 c) r) /\
  (exists r, strrchr fuel m s c = Some r /\ is_last s (str ++ [0]) (u8 c) r) /\
  (exists r k, memccpy (length l) m d s c = Some (r, write m d (take k l)) /\
    match r with
    | Some p => is_first d l (u8 c) (Some (p - 1)) /\ k = Z.to_nat (p - d)
    | None => is_first d l (u8 c) None /\ k = length l
    end).
Proof.
  split; [by apply memchr_ok|]. split; [by apply memrchr_ok|]. split; [by apply strchr_ok|]. split.
  - apply (strrchr_loop_ok c fuel m s s [] None str); [done|done|simpl; lia|]. apply not_elem_of_nil.
  - by apply memccpy_ok.
Qed.

(** C15: strdup and strndup.  For every allocator that returns unused blocks, the result is a null pointer exactly
    when malloc fails, and then nothing has changed; otherwise it is the block that malloc returned, of which no byte
    was in use before, and it holds a terminated copy of the string, cut to the given size for strndup; all memory
    that existed before is unchanged. *)
Theorem strdup_correct malloc `{!MallocLaws malloc} fuel m s str size
  (Hm : mem_ok m) (Hs : cstring m s str) (Hf : (length str < fuel)%nat) (Hby : Forall byte str) (Hz : 0 <= size) :
  duplicates malloc m str (strdup malloc fuel m s) /\
  duplicates malloc m (take (Z.to_nat size) str) (strndup malloc m s size).
Proof. split; [by apply strdup_ok|]. apply strndup_ok; [done..|by apply cstring_nstring|done]. Qed.

(** *** Concrete instances *)

(** "ab" at 0 in a destination of 32 bytes, "hello" at 40. *)
Definition copy_mem : mem :=
  write ∅ 0 ([97; 98; 0] ++ replicate 37 7 ++ [104; 101; 108; 108; 111; 0] ++ replicate 18 7).

(** An allocator that never reuses addresses. *)
Definition top_address (m : mem) : Z := map_fold (fun a _ acc => Z.max a acc) 0 m.

Definition top_malloc (m : mem) (n : Z) : option (Z * mem) :=
  let p := top_address m + 1 in Some (p, write m p (replicate (Z.to_nat n) 0)).

Lemma top_address_bound m a : is_Some (m !! a) -> a <= top_address m.
Proof.
  unfold top_address. revert a.
  apply (map_fold_weak_ind (fun r m => forall a, is_Some (m !! a) -> a <= r)).
  - intros a [x Hx]. by rewrite lookup_empty in Hx.
  - intros i x m' r Hi IH a [y Hy]. destruct (Z.eq_dec i a) as [->|Hne]; [lia|].
    rewrite lookup_insert_ne in Hy by done. specialize (IH a (ex_intro _ y Hy)). lia.
Qed.

#[export] Instance top_malloc_laws : MallocLaws top_malloc.
Proof.
  intros m n p m'. unfold top_malloc. intros [= <- <-].
  assert (Hf : forall i, 0 <= i < n -> m !! (top_address m + 1 + i) = None).
  { intros i Hi. destruct (m !! (top_address m + 1 + i)) as [x|] eqn:E; [|done].
    pose proof (top_address_bound m _ (ex_intro _ x E)). lia. }
  split; [|split; [|done]].
  - intros i Hi. rewrite lookup_write, length_replicate.
    rewrite (proj2 (Z.leb_le _ _)), (proj2 (Z.ltb_lt _ _)) by lia. cbn [andb].
    exists 0. apply lookup_replicate_2. lia.
  - apply (fresh_write m m _ (Z.max 0 n)); [done| |rewrite length_replicate; lia].
    intros i Hi. apply Hf. lia.
Qed.

Lemma memmove_memset_correct_witness : exists m',
  memmove copy_mem 3 0 36 = Some (3, m') /\ m' !! 4 = Some 98 /\ m' !! 39 = copy_mem !! 39.
Proof.
  pose (l := [97; 98; 0] ++ replicate 33 7).
  destruct (memmove_memset_correct copy_mem 3 0 l 0 5) as [(m' & H1 & H2 & H3) _].
  - repeat constructor; done.
  - by vm_compute.
  - apply (bytes_at_mapped copy_mem 3 (replicate 36 7)). by vm_compute.
  - done.
  - apply (bytes_at_mapped copy_mem 3 (replicate 5 7)). by vm_compute.
  - exists m'. split; [exact H1|]. split; [|apply H3; change (Z.of_nat (length l)) with 36; lia].
    rewrite bytes_at_lookup in H2. apply (H2 1%nat 98). done.
Defined.

Lemma copy_mem_strings : cstring copy_mem 40 [104; 101; 108; 108; 111] /\ cstring copy_mem 0 [97; 98] /\
  mapped copy_mem 0 32.
Proof.
  split; [|split].
  - split; [by vm_compute|by apply (bool_decide_unpack _); vm_compute].
  - split; [by vm_compute|by apply (bool_decide_unpack _); vm_compute].
  - apply (bytes_at_mapped copy_mem 0 ([97; 98; 0] ++ replicate 29 7)). by vm_compute.
Qed.

(** strlcpy of "hello" into 4 bytes, strlcat to "ab" within 4 bytes. *)
Lemma strlcpy_strlcat_correct_witness :
  strlcpy 10 copy_mem 0 40 4 = Some (5, write copy_mem 0 [104; 101; 108; 0]) /\
  strlcat 10 copy_mem 0 40 4 = Some (7, write copy_mem 2 [104; 0]).
Proof.
  destruct copy_mem_strings as (H1 & H2 & H3).
  destruct (strlcpy_strlcat_correct 10 copy_mem 0 40 [97; 98] [104; 101; 108; 108; 111] 4) as (G1 & G2 & _).
  - simpl. lia.
  - exact H1.
  - by apply cstring_nstring.
  - unfold apart. simpl. lia.
  - eapply mapped_sub; [| |exact H3]; simpl; lia.
  - split; [exact G1|exact G2].
Defined.

Lemma string_copies_correct_witness :
  strncpy copy_mem 0 40 8 = Some (0, write copy_mem 0 [104; 101; 108; 108; 111; 0; 0; 0]).
Proof.
  destruct copy_mem_strings as (H1 & H2 & H3).
  apply (string_copies_correct 10 copy_mem 0 40 [97; 98] [104; 101; 108; 108; 111] 8 H1 H2);
    [lia|simpl; lia|simpl; lia|unfold apart; simpl; lia|eapply mapped_sub; [| |exact H3]; simpl; lia].
Defined.

Lemma searches_correct_witness : exists r,
  strrchr 10 copy_mem 40 108 = Some r /\ is_last 40 [104; 101; 108; 108; 111; 0] 108 r.
Proof.
  destruct copy_mem_strings as (H1 & H2 & H3).
  apply (searches_correct 10 copy_mem 40 0 [104; 101; 108; 108; 111] [104; 101; 108; 108; 111] 108);
    [by vm_compute|exact H1|simpl; lia|eapply mapped_sub; [| |exact H3]; simpl; lia|simpl; lia].
Defined.

Lemma strdup_correct_witness : exists p m', strdup top_malloc 10 copy_mem 40 = Some (Some p, m') /\ copy_mem ⊆ m' /\ copy_mem !! p = None.
Proof.
  destruct copy_mem_strings as (H1 & _).
  destruct (strdup_correct top_malloc 10 copy_mem 40 [104; 101; 108; 108; 111] 3) as [(m' & G1 & G2 & _ & _ & G3) _].
  - apply mem_ok_block; [done|done|repeat constructor; done].
  - exact H1.
  - simpl. lia.
  - repeat constructor; done.
  - lia.
  - eexists _, m'. split; [exact G1|]. split; [exact G2|]. rewrite <- (G3 0); [f_equal; lia|simpl; lia].
Defined.
