(* ===== verification/StringTok.v ===== *)
(** * Byte sets, spans and tokens

    Sources: src/common/byteset.h; src/libc/string/strspn.c, strcspn.c,
    strpbrk.c, strsep.c and strtok_r.c. *)

From stdpp Require Import gmap.
From S2P Require Import Prelude Memory.

#[local] Open Scope Z_scope.
#[local] Ltac Zify.zify_post_hook ::= Z.to_euclidean_division_equations.

(** ** byteset.h: a set of bytes as four longs *)

Notation byteset := (list Z).

Definition byteaddset (bs : byteset) (c : Z) : byteset :=
  alter (fun w => Z.lor w (u64 (Z.shiftl 1 (c mod 64)))) (Z.to_nat (c / 64)) bs.

Definition bytedelset (bs : byteset) (c : Z) : byteset :=
  alter (fun w => Z.land w (u64 (Z.lnot (u64 (Z.shiftl 1 (c mod 64)))))) (Z.to_nat (c / 64)) bs.

Definition byteemptyset : byteset := replicate 4 0.

Definition bytefillset : byteset := replicate 4 ULONG_MAX.

Definition byteismember (bs : byteset) (c : Z) : bool :=
  negb (Z.land (default 0 (bs !! Z.to_nat (c / 64))) (u64 (Z.shiftl 1 (c mod 64))) =? 0).

(** ** Spans *)

(** while ( *s2 != 0) byteaddset(&bs, *s2++) *)
Fixpoint addset_loop (fuel : nat) (m : mem) (s2 : Z) (bs : byteset) : option byteset :=
  match fuel with
  | O => None
  | S fuel => x ← ld m s2; if x =? 0 then Some bs else addset_loop fuel m (s2 + 1) (byteaddset bs x)
  end.

(** do byteaddset(&bs, *s2); while ( *s2++ != 0) *)
Fixpoint addset_nul_loop (fuel : nat) (m : mem) (s2 : Z) (bs : byteset) : option byteset :=
  match fuel with
  | O => None
  | S fuel =>
      x ← ld m s2;
      let bs := byteaddset bs x in
      if x =? 0 then Some bs else addset_nul_loop fuel m (s2 + 1) bs
  end.

(** Advance while the membership of the character is [b]. *)
Fixpoint scan_loop (fuel : nat) (m : mem) (bs : byteset) (b : bool) (s : Z) : option Z :=
  match fuel with
  | O => None
  | S fuel => x ← ld m s; if eqb (byteismember bs x) b then scan_loop fuel m bs b (s + 1) else Some s
  end.

Definition strspn (fuel : nat) (m : mem) (s1 s2 : Z) : option Z :=
  bs ← addset_loop fuel m s2 byteemptyset;
  s ← scan_loop fuel m bs true s1;
  Some (s - s1).

Definition strcspn (fuel : nat) (m : mem) (s1 s2 : Z) : option Z :=
  bs ← addset_nul_loop fuel m s2 byteemptyset;
  s ← scan_loop fuel m bs false s1;
  Some (s - s1).

Definition strpbrk (fuel : nat) (m : mem) (s1 s2 : Z) : option (option Z) :=
  bs ← addset_nul_loop fuel m s2 byteemptyset;
  s ← scan_loop fuel m bs false s1;
  x ← ld m s;
  Some (if negb (x =? 0) then Some s else None).

(** ** Tokens: the result, the new *lasts and the memory *)

Definition strsep (fuel : nat) (m : mem) (lasts : option Z) (sep : Z) : option (option Z * option Z * mem) :=
  match lasts with
  | None => Some (None, lasts, m)
  | Some s =>
      n ← strcspn fuel m s sep;
      let end_ := s + n in
      x ← ld m end_;
      if x =? 0 then Some (Some s, None, m)
      else m ← st m end_ 0; Some (Some s, Some (end_ + 1), m)
  end.

Definition strtok_r (fuel : nat) (m : mem) (s : option Z) (sep : Z) (lasts : option Z)
  : option (option Z * option Z * mem) :=
  match (match s with None => lasts | Some _ => s end) with
  | None => Some (None, lasts, m)
  | Some s =>
      bs ← addset_loop fuel m sep byteemptyset;
      s ← scan_loop fuel m bs true s;
      x ← ld m s;
      if x =? 0 then Some (None, None, m)
      else
        let bs := byteaddset bs 0 in
        end_ ← scan_loop fuel m bs false (s + 1);
        x ← ld m end_;
        if x =? 0 then Some (Some s, None, m)
        else m ← st m end_ 0; Some (Some s, Some (end_ + 1), m)
  end.

(** ** Sets *)

(** The byte set represents the characters that satisfy [P]. *)
Definition bs_rep (bs : byteset) (P : Z -> bool) : Prop :=
  length bs = 4%nat /\ forall c, byte c -> byteismember bs c = P c.

Lemma land_bit w k : 0 <= k -> (Z.land w (2 ^ k) =? 0) = negb (Z.testbit w k).
Proof.
  intros Hk. destruct (Z.testbit w k) eqn:E; cbn [negb].
  - apply Z.eqb_neq. intros H. apply (f_equal (fun z => Z.testbit z k)) in H.
    by rewrite Z.land_spec, Z.pow2_bits_true, Z.bits_0, E in H by lia.
  - apply Z.eqb_eq. apply Z.bits_inj'. intros i Hi. rewrite Z.land_spec, Z.bits_0.
    destruct (Z.eq_dec k i) as [<-|Hne]; [by rewrite E|]. rewrite Z.pow2_bits_false by lia. apply andb_false_r.
Qed.

Lemma bit_word c : u64 (Z.shiftl 1 (c mod 64)) = 2 ^ (c mod 64).
Proof.
  rewrite Z.shiftl_1_l. apply uN_small. unfold in_unsigned. split; [lia|].
  apply Z.pow_lt_mono_r; lia.
Qed.

Lemma byteismember_testbit bs c :
  byteismember bs c = Z.testbit (default 0 (bs !! Z.to_nat (c / 64))) (c mod 64).
Proof. unfold byteismember. rewrite bit_word, land_bit by lia. apply negb_involutive. Qed.

Lemma same_bit c d : 0 <= c -> 0 <= d -> c / 64 = d / 64 -> c mod 64 = d mod 64 -> c = d.
Proof. lia. Qed.

Lemma byteaddset_rep bs P c : byte c -> bs_rep bs P -> bs_rep (byteaddset bs c) (fun x => P x || (x =? c)).
Proof.
  intros Hc [Hl HP]. unfold byteaddset. split; [by rewrite length_alter|]. intros d Hd.
  rewrite <- HP, !byteismember_testbit by done. unfold byte in *. rewrite bit_word.
  destruct (decide (Z.to_nat (c / 64) = Z.to_nat (d / 64))) as [Heq|Hne].
  - rewrite <- Heq, list_lookup_alter_eq.
    destruct (lookup_lt_is_Some_2 bs (Z.to_nat (c / 64))) as [w Hw]; [lia|].
    rewrite Hw. cbn [fmap option_fmap option_map default id]. rewrite Z.lor_spec. f_equal.
    destruct (Z.eqb_spec d c) as [->|Hdc]; [apply Z.pow2_bits_true; lia|].
    apply Z.pow2_bits_false. intros Hm. apply Hdc. symmetry. apply same_bit; lia.
  - rewrite list_lookup_alter_ne by done. rewrite (proj2 (Z.eqb_neq d c)); [by rewrite orb_false_r|].
    intros ->. done.
Qed.

Lemma bytedelset_rep bs P c : byte c -> bs_rep bs P -> bs_rep (bytedelset bs c) (fun x => P x && negb (x =? c)).
Proof.
  intros Hc [Hl HP]. unfold bytedelset. split; [by rewrite length_alter|]. intros d Hd.
  rewrite <- HP, !byteismember_testbit by done. unfold byte in *. rewrite bit_word.
  destruct (decide (Z.to_nat (c / 64) = Z.to_nat (d / 64))) as [Heq|Hne].
  - rewrite <- Heq, list_lookup_alter_eq.
    destruct (lookup_lt_is_Some_2 bs (Z.to_nat (c / 64))) as [w Hw]; [lia|].
    rewrite Hw. cbn [fmap option_fmap option_map default id]. rewrite Z.land_spec. f_equal.
    rewrite uN_testbit by lia. rewrite (proj2 (Z.ltb_lt _ _)), Z.lnot_spec by lia. cbn [andb]. f_equal.
    destruct (Z.eqb_spec d c) as [->|Hdc]; [apply Z.pow2_bits_true; lia|].
    apply Z.pow2_bits_false. intros Hm. apply Hdc. symmetry. apply same_bit; lia.
  - rewrite list_lookup_alter_ne by done. rewrite (proj2 (Z.eqb_neq d c)); [by rewrite andb_true_r|].
    intros ->. done.
Qed.

Lemma byteemptyset_rep : bs_rep byteemptyset (fun _ => false).
Proof.
  split; [done|]. intros c Hc. rewrite byteismember_testbit. unfold byte in Hc. unfold byteemptyset.
  rewrite lookup_replicate_2 by lia. apply Z.bits_0.
Qed.

Lemma bytefillset_rep : bs_rep bytefillset (fun _ => true).
Proof.
  split; [done|]. intros c Hc. rewrite byteismember_testbit. unfold byte in Hc. unfold bytefillset.
  rewrite lookup_replicate_2 by lia. change ULONG_MAX with (Z.ones 64). cbn [default id].
  apply Z.ones_spec_low. lia.
Qed.

(** ** Spans against prefixes *)

(** The longest prefix of characters for which [P] is [b], and the rest. *)
Fixpoint span (P : Z -> bool) (b : bool) (l : list Z) : list Z * list Z :=
  match l with
  | [] => ([], [])
  | x :: l' => if eqb (P x) b then let '(p, r) := span P b l' in (x :: p, r) else ([], l)
  end.

(** The separators, and the separators with the terminator. *)
Definition is_sep (sep : list Z) (x : Z) : bool := bool_decide (x ∈ sep).

Lemma span_app P b l : (span P b l).1 ++ (span P b l).2 = l.
Proof.
  induction l as [|x l IH]; [done|]. simpl. destruct (eqb (P x) b); [|done].
  destruct (span P b l) as [p r]. simpl in *. by rewrite IH.
Qed.

Lemma addset_loop_ok fuel : forall m s2 sep bs P, (length sep < fuel)%nat -> cstring m s2 sep -> Forall byte sep ->
  bs_rep bs P ->
  exists bs', addset_loop fuel m s2 bs = Some bs' /\ bs_rep bs' (fun x => P x || is_sep sep x).
Proof.
  induction fuel as [|fuel IH]; intros m s2 sep bs P Hf Hs Hby Hr; [lia|]. cbn [addset_loop]. unfold ld.
  destruct sep as [|c sep].
  - rewrite (cstring_nil _ _ Hs). cbn [mbind option_bind Z.eqb]. exists bs. split; [done|].
    split; [apply Hr|]. intros x Hx. rewrite (proj2 Hr x Hx). unfold is_sep.
    by rewrite bool_decide_false, orb_false_r by apply not_elem_of_nil.
  - destruct (cstring_cons _ _ _ _ Hs) as (-> & Hc & Hs'). cbn [mbind option_bind].
    rewrite (proj2 (Z.eqb_neq c 0) Hc). apply Forall_cons_1 in Hby as [Hb Hby].
    destruct (IH m (s2 + 1) sep (byteaddset bs c) _ ltac:(simpl in Hf; lia) Hs' Hby (byteaddset_rep bs P c Hb Hr))
      as (bs' & Heq & Hl & HP). exists bs'. split; [done|]. split; [done|]. intros x Hx. rewrite (HP x Hx).
    unfold is_sep. rewrite <- orb_assoc. f_equal.
    destruct (Z.eqb_spec x c) as [->|Hne]; cbn [orb].
    + by rewrite bool_decide_true by constructor.
    + apply bool_decide_ext. rewrite elem_of_cons. naive_solver.
Qed.

Lemma addset_nul_loop_ok fuel m s2 sep bs P : (length sep < fuel)%nat -> cstring m s2 sep -> Forall byte sep ->
  bs_rep bs P ->
  exists bs', addset_nul_loop fuel m s2 bs = Some bs' /\
    bs_rep bs' (fun x => P x || is_sep sep x || (x =? 0)).
Proof.
  intros Hf Hs Hby Hr.
  assert (H : forall fuel s2 bs, addset_nul_loop fuel m s2 bs
    = (bs' ← addset_loop fuel m s2 bs; Some (byteaddset bs' 0))).
  { clear. induction fuel as [|fuel IH]; intros s2 bs; cbn [addset_loop addset_nul_loop]; [done|].
    destruct (ld m s2) as [x|]; [|done]. cbn [mbind option_bind]. destruct (Z.eqb_spec x 0) as [->|]; [done|].
    apply IH. }
  destruct (addset_loop_ok fuel m s2 sep bs P Hf Hs Hby Hr) as (bs' & Heq & Hr').
  exists (byteaddset bs' 0). rewrite H, Heq. split; [done|].
  apply (byteaddset_rep bs' (fun x => P x || is_sep sep x) 0); [done|done].
Qed.

(** The scan stops at the terminator when that is not in the set (spans) or
    is in it (complemented spans). *)
Lemma scan_loop_ok m bs P b : bs_rep bs P -> P 0 = negb b -> forall fuel s str,
  (length str < fuel)%nat -> cstring m s str -> Forall byte str ->
  scan_loop fuel m bs b s = Some (s + Z.of_nat (length (span P b str).1)).
Proof.
  intros [_ HP] H0. induction fuel as [|fuel IH]; intros s str Hf Hs Hby; [lia|]. cbn [scan_loop]. unfold ld.
  destruct str as [|c str].
  - rewrite (cstring_nil _ _ Hs). cbn [mbind option_bind]. rewrite HP, H0 by done.
    destruct b; simpl; f_equal; lia.
  - destruct (cstring_cons _ _ _ _ Hs) as (-> & Hc & Hs'). cbn [mbind option_bind].
    apply Forall_cons_1 in Hby as [Hb Hby]. rewrite HP by done. cbn [span].
    destruct (eqb (P c) b); [|simpl; f_equal; lia].
    rewrite (IH (s + 1) str); [|simpl in Hf; lia|done|done]. destruct (span P b str) as [p r].
    cbn [fst length]. f_equal. lia.
Qed.

Lemma span_ext P Q b l : (forall x, x ∈ l -> P x = Q x) -> span P b l = span Q b l.
Proof.
  induction l as [|x l IH]; intros H; [done|]. cbn [span]. rewrite (H x) by constructor.
  rewrite IH; [done|]. intros y Hy. apply H. by constructor.
Qed.

Lemma span_rest_head P b l x r : (span P b l).2 = x :: r -> P x = negb b.
Proof.
  induction l as [|y l IH]; [done|]. cbn [span]. destruct (eqb (P y) b) eqn:E.
  - destruct (span P b l) as [p q]. exact IH.
  - intros [= -> _]. by destruct (P x), b.
Qed.

(** The rest of a string behind a span. *)
Lemma cstring_span m P b s str : cstring m s str ->
  cstring m (s + Z.of_nat (length (span P b str).1)) (span P b str).2.
Proof.
  rewrite <- (span_app P b str) at 1. destruct (span P b str) as [p r]. simpl. intros [Hb Hn].
  rewrite <- app_assoc in Hb. apply bytes_at_app in Hb as [_ Hb]. split; [done|set_solver].
Qed.

Lemma cstring_first m s str : cstring m s str -> ld m s = Some (match str with [] => 0 | c :: _ => c end).
Proof. unfold ld. destruct str; [by apply cstring_nil|]. by intros (H & _)%cstring_cons. Qed.

Section Calls.
  Context (m : mem) (sp : Z) (sep : list Z) (fuel : nat).
  Hypotheses (Hsep : cstring m sp sep) (Hsb : Forall byte sep) (Hfs : (length sep < fuel)%nat).

Lemma sep_nonnull : is_sep sep 0 = false.
Proof. unfold is_sep. apply bool_decide_false. by destruct Hsep. Qed.

Lemma span_set s str :
  cstring m s str -> Forall byte str -> (length str < fuel)%nat ->
  exists bs, addset_loop fuel m sp byteemptyset = Some bs /\ bs_rep bs (is_sep sep) /\
    scan_loop fuel m bs true s = Some (s + Z.of_nat (length (span (is_sep sep) true str).1)).
Proof.
  intros Hs Hby Hf.
  destruct (addset_loop_ok fuel m sp sep byteemptyset _ Hfs Hsep Hsb byteemptyset_rep) as (bs & -> & Hr).
  exists bs. split; [done|]. split; [done|]. apply scan_loop_ok; [done|apply sep_nonnull|done..].
Qed.

Lemma cspan_set bs s str :
  bs_rep bs (fun x => is_sep sep x || (x =? 0)) -> cstring m s str -> Forall byte str -> (length str < fuel)%nat ->
  scan_loop fuel m bs false s = Some (s + Z.of_nat (length (span (is_sep sep) false str).1)).
Proof.
  intros Hr Hs Hby Hf.
  rewrite (scan_loop_ok m bs (fun x => is_sep sep x || (x =? 0)) false Hr (orb_true_r _) fuel s str Hf Hs Hby).
  rewrite (span_ext _ (is_sep sep)); [done|]. intros x Hx. destruct (Z.eqb_spec x 0) as [->|]; [|by rewrite orb_false_r].
  exfalso. by destruct Hs.
Qed.

Lemma strspn_ok s str : cstring m s str -> Forall byte str -> (length str < fuel)%nat ->
  strspn fuel m s sp = Some (Z.of_nat (length (span (is_sep sep) true str).1)).
Proof.
  intros Hs Hby Hf. unfold strspn. destruct (span_set s str Hs Hby Hf) as (bs & -> & Hr & Hsc).
  cbn [mbind option_bind]. rewrite Hsc. cbn [mbind option_bind]. f_equal. lia.
Qed.

Lemma strcspn_ok s str : cstring m s str -> Forall byte str -> (length str < fuel)%nat ->
  strcspn fuel m s sp = Some (Z.of_nat (length (span (is_sep sep) false str).1)).
Proof.
  intros Hs Hby Hf. unfold strcspn.
  destruct (addset_nul_loop_ok fuel m sp sep byteemptyset _ Hfs Hsep Hsb byteemptyset_rep) as (bs & -> & Hr).
  cbn [mbind option_bind]. rewrite (cspan_set bs s str) by done. cbn [mbind option_bind]. f_equal. lia.
Qed.
Lemma strpbrk_ok s str : cstring m s str -> Forall byte str -> (length str < fuel)%nat ->
  let '(pre, rest) := span (is_sep sep) false str in
  strpbrk fuel m s sp = Some (match rest with [] => None | _ => Some (s + Z.of_nat (length pre)) end).
Proof.
  intros Hs Hby Hf. pose proof (cstring_span m (is_sep sep) false s str Hs) as Hr.
  unfold strpbrk.
  destruct (addset_nul_loop_ok fuel m sp sep byteemptyset _ Hfs Hsep Hsb byteemptyset_rep) as (bs & -> & Hbs).
  cbn [mbind option_bind]. rewrite (cspan_set bs s str) by done. cbn [mbind option_bind].
  destruct (span (is_sep sep) false str) as [pre rest]. cbn [fst snd] in *.
  rewrite (cstring_first m _ _ Hr). cbn [mbind option_bind]. destruct rest as [|c rest]; [done|].
  destruct (cstring_cons _ _ _ _ Hr) as (_ & Hc & _). by rewrite (proj2 (Z.eqb_neq c 0) Hc).
Qed.
End Calls.

(** ** Tokens and fields *)

(** The tokens of a string at [a]: the maximal non-empty runs without
    separators, with their addresses. *)
Fixpoint tokens (fuel : nat) (sep : list Z) (a : Z) (str : list Z) : list (Z * list Z) :=
  match fuel with
  | O => []
  | S fuel =>
      let '(pre, rest) := span (is_sep sep) true str in
      let p := a + Z.of_nat (length pre) in
      match rest with
      | [] => []
      | _ =>
          let '(tok, after) := span (is_sep sep) false rest in
          (p, tok) :: match after with
                      | [] => []
                      | _ :: after => tokens fuel sep (p + Z.of_nat (length tok) + 1) after
                      end
      end
  end.

(** The fields of a string at [a], which may be empty. *)
Fixpoint fields (fuel : nat) (sep : list Z) (a : Z) (str : list Z) : list (Z * list Z) :=
  match fuel with
  | O => []
  | S fuel =>
      let '(tok, after) := span (is_sep sep) false str in
      (a, tok) :: match after with
                  | [] => []
                  | _ :: after => fields fuel sep (a + Z.of_nat (length tok) + 1) after
                  end
  end.

(** Calling until a null pointer is returned. *)
Fixpoint strtok_all (calls fuel : nat) (m : mem) (s : option Z) (sep : Z) (lasts : option Z)
  : option (list Z * mem) :=
  match calls with
  | O => None
  | S calls =>
      '(r, lasts, m) ← strtok_r fuel m s sep lasts;
      match r with
      | None => Some ([], m)
      | Some p => '(ps, m) ← strtok_all calls fuel m None sep lasts; Some (p :: ps, m)
      end
  end.

Fixpoint strsep_all (calls fuel : nat) (m : mem) (lasts : option Z) (sep : Z) : option (list Z * mem) :=
  match calls with
  | O => None
  | S calls =>
      '(r, lasts, m) ← strsep fuel m lasts sep;
      match r with
      | None => Some ([], m)
      | Some p => '(ps, m) ← strsep_all calls fuel m lasts sep; Some (p :: ps, m)
      end
  end.

(** Cutting a string behind a token: the token and the rest are strings. *)
Lemma cut_string m s tok c after :
  cstring m s (tok ++ c :: after) ->
  let e := s + Z.of_nat (length tok) in
  st m e 0 = Some (<[e := 0]> m) /\ cstring (<[e := 0]> m) s tok /\ cstring (<[e := 0]> m) (e + 1) after.
Proof.
  intros [Hb Hn] e. rewrite <- app_assoc in Hb. apply bytes_at_app in Hb as [Hb1 [Hc Hb2]].
  split; [apply st_mapped; by eexists|]. split.
  - split; [|set_solver]. apply bytes_at_app. split.
    + apply (bytes_at_ext m); [|done]. intros b Hb. apply lookup_insert_ne. unfold e. lia.
    + split; [|done]. by rewrite lookup_insert, decide_True by done.
  - split; [|set_solver]. apply (bytes_at_ext m); [|done]. intros b Hb. apply lookup_insert_ne. lia.
Qed.

Lemma Forall_span P b l : Forall byte l -> Forall byte (span P b l).1 /\ Forall byte (span P b l).2.
Proof. rewrite <- (span_app P b l) at 1. apply Forall_app. Qed.

Lemma span_length P b l : (length (span P b l).1 + length (span P b l).2 = length l)%nat.
Proof. rewrite <- length_app. by rewrite span_app. Qed.

Section Step.
  Context (m : mem) (sp : Z) (sep : list Z) (fuel : nat).
  Hypotheses (Hsep : cstring m sp sep) (Hsb : Forall byte sep) (Hfs : (length sep < fuel)%nat).

Lemma strtok_step s lasts p0 str :
  match s with None => lasts | Some _ => s end = Some p0 ->
  cstring m p0 str -> Forall byte str -> (length str < fuel)%nat ->
  let '(pre, rest) := span (is_sep sep) true str in
  let p := p0 + Z.of_nat (length pre) in
  let '(tok, after) := span (is_sep sep) false rest in
  strtok_r fuel m s sp lasts
  = match rest, after with
    | [], _ => Some (None, None, m)
    | _, [] => Some (Some p, None, m)
    | _, _ :: _ => m' ← st m (p + Z.of_nat (length tok)) 0; Some (Some p, Some (p + Z.of_nat (length tok) + 1), m')
    end.
Proof.
  intros Hcur Hs Hby Hf. unfold strtok_r. rewrite Hcur.
  destruct (span_set m sp sep fuel Hsep Hsb Hfs p0 str Hs Hby Hf) as (bs & -> & Hbs & Hsc).
  cbn [mbind option_bind]. rewrite Hsc. pose proof (cstring_span m (is_sep sep) true p0 str Hs) as Hr.
  pose proof (span_rest_head (is_sep sep) true str) as Hhd. pose proof (span_length (is_sep sep) true str) as Hlen.
  pose proof (proj2 (Forall_span (is_sep sep) true str Hby)) as Hbr.
  destruct (span (is_sep sep) true str) as [pre rest]. cbn [fst snd] in *. set (p := p0 + Z.of_nat (length pre)) in *.
  cbn [mbind option_bind]. rewrite (cstring_first m p rest Hr). cbn [mbind option_bind].
  destruct rest as [|c rest]; [by destruct (span (is_sep sep) false [])|].
  destruct (cstring_cons _ _ _ _ Hr) as (_ & Hc & Hr'). rewrite (proj2 (Z.eqb_neq c 0) Hc).
  specialize (Hhd c rest eq_refl). cbn [negb] in Hhd. cbn [span]. rewrite Hhd. cbn [eqb].
  apply Forall_cons_1 in Hbr as [_ Hbr].
  rewrite (cspan_set m sep fuel (byteaddset bs 0) (p + 1) rest);
    [|by apply byteaddset_rep|done|done|cbn [length] in Hlen; lia].
  cbn [mbind option_bind]. pose proof (cstring_span m (is_sep sep) false (p + 1) rest Hr') as Ha.
  destruct (span (is_sep sep) false rest) as [tok after]. cbn [fst snd length] in *.
  rewrite (cstring_first m _ after Ha). cbn [mbind option_bind]. destruct after as [|d after]; [done|].
  destruct (cstring_cons _ _ _ _ Ha) as (_ & Hd & _). rewrite (proj2 (Z.eqb_neq d 0) Hd).
  by replace (p + Z.of_nat (S (length tok))) with (p + 1 + Z.of_nat (length tok)) by lia.
Qed.

Lemma strsep_step p0 str :
  cstring m p0 str -> Forall byte str -> (length str < fuel)%nat ->
  let '(tok, after) := span (is_sep sep) false str in
  strsep fuel m (Some p0) sp
  = match after with
    | [] => Some (Some p0, None, m)
    | _ :: _ => m' ← st m (p0 + Z.of_nat (length tok)) 0; Some (Some p0, Some (p0 + Z.of_nat (length tok) + 1), m')
    end.
Proof.
  intros Hs Hby Hf. unfold strsep. rewrite (strcspn_ok m sp sep fuel Hsep Hsb Hfs p0 str Hs Hby Hf).
  cbn [mbind option_bind]. pose proof (cstring_span m (is_sep sep) false p0 str Hs) as Ha.
  destruct (span (is_sep sep) false str) as [tok after]. cbn [fst snd] in *.
  rewrite (cstring_first m _ after Ha). cbn [mbind option_bind]. destruct after as [|d after]; [done|].
  destruct (cstring_cons _ _ _ _ Ha) as (_ & Hd & _). by rewrite (proj2 (Z.eqb_neq d 0) Hd).
Qed.
End Step.

(** *** The iterations *)

(** What a sequence of calls on the string [str] at [a] leaves: the pieces as
    strings, everything outside the string unchanged. *)
Definition pieces_ok (m m' : mem) (a : Z) (str : list Z) (ps : list (Z * list Z)) : Prop :=
  Forall (fun '(p, tok) => a <= p /\ p + Z.of_nat (length tok) <= a + Z.of_nat (length str) /\ cstring m' p tok) ps /\
  forall b, ~ (a <= b < a + Z.of_nat (length str)) -> m' !! b = m !! b.

Lemma pieces_nil m a str : pieces_ok m m a str [].
Proof. split; [constructor|done]. Qed.

(** A last piece, nothing written. *)
Lemma pieces_last m a str p tok : a <= p -> p + Z.of_nat (length tok) = a + Z.of_nat (length str) ->
  cstring m p tok -> pieces_ok m m a str [(p, tok)].
Proof. intros H1 H2 H3. split; [|done]. constructor; [|constructor]. split; [done|]. split; [lia|done]. Qed.

(** A piece that was cut off, then pieces of the rest. *)
Lemma pieces_cons m m' a str p tok c after ps :
  a <= p -> p + Z.of_nat (length tok) + 1 + Z.of_nat (length after) = a + Z.of_nat (length str) ->
  cstring m p (tok ++ c :: after) ->
  pieces_ok (<[p + Z.of_nat (length tok) := 0]> m) m' (p + Z.of_nat (length tok) + 1) after ps ->
  pieces_ok m m' a str ((p, tok) :: ps).
Proof.
  intros Ha Hend Hs [Hps Hout]. destruct (cut_string m p tok c after Hs) as (_ & Htok & _).
  split.
  - constructor.
    + split; [done|]. split; [lia|]. destruct Htok as [Hb Hn]. split; [|done].
      apply (bytes_at_ext (<[p + Z.of_nat (length tok) := 0]> m)); [|done]. intros b Hb'. apply Hout.
      rewrite length_app in Hb'. simpl in Hb'. lia.
    + eapply list.Forall_impl; [exact Hps|]. intros [q t] (H1 & H2 & H3). split; [lia|]. split; [lia|done].
  - intros b Hb. rewrite Hout by lia. apply lookup_insert_ne. lia.
Qed.

Lemma sep_after_cut m sp sep e : cstring m sp sep -> ~ (sp <= e <= sp + Z.of_nat (length sep)) ->
  cstring (<[e := 0]> m) sp sep.
Proof.
  intros [Hb Hn] He. split; [|done]. apply (bytes_at_ext m); [|done]. intros b Hb'.
  rewrite length_app in Hb'. simpl in Hb'. apply lookup_insert_ne. lia.
Qed.

Section Iterate.
  Context (sp : Z) (sep : list Z) (fuel : nat).
  Hypotheses (Hsb : Forall byte sep) (Hfs : (length sep < fuel)%nat).

(** The separators do not overlap the string. *)
Definition sep_apart (a : Z) (str : list Z) : Prop :=
  sp + Z.of_nat (length sep) < a \/ a + Z.of_nat (length str) < sp.

Lemma strtok_all_ok k : forall m s lasts a str,
  (length str < k)%nat -> match s with None => lasts | Some _ => s end = Some a ->
  cstring m sp sep -> sep_apart a str -> cstring m a str -> Forall byte str -> (length str < fuel)%nat ->
  exists m', strtok_all (S k) fuel m s sp lasts = Some ((tokens k sep a str).*1, m') /\
    pieces_ok m m' a str (tokens k sep a str).
Proof.
  induction k as [|k IH]; intros m s lasts a str Hk Hcur Hsep Hap Hs Hby Hf; [lia|].
  pose proof (strtok_step m sp sep fuel Hsep Hsb Hfs s lasts a str Hcur Hs Hby Hf) as Hstep.
  remember (S k) as k' eqn:Ek'. cbn [strtok_all]. subst k'. cbn [tokens].
  pose proof (cstring_span m (is_sep sep) true a str Hs) as Hr.
  pose proof (span_length (is_sep sep) true str) as Hlen.
  pose proof (proj2 (Forall_span (is_sep sep) true str Hby)) as Hbr.
  destruct (span (is_sep sep) true str) as [pre rest]. cbn [fst snd] in *.
  pose proof (span_app (is_sep sep) false rest) as Happ. pose proof (span_length (is_sep sep) false rest) as Hlen2.
  pose proof (proj2 (Forall_span (is_sep sep) false rest Hbr)) as Hba.
  destruct rest as [|c rest].
  { rewrite Hstep. cbn [mbind option_bind]. exists m. split; [done|apply pieces_nil]. }
  destruct (span (is_sep sep) false (c :: rest)) as [tok after]. cbn [fst snd] in *.
  set (p := a + Z.of_nat (length pre)) in *. rewrite Hstep. destruct after as [|d after].
  - cbn [mbind option_bind]. rewrite app_nil_r in Happ. subst tok. exists m. split.
    + destruct k; [simpl in *; lia|]. done.
    + apply pieces_last; [lia|simpl in *; lia|done].
  - rewrite <- Happ in Hr. destruct (cut_string m p tok d after Hr) as (-> & Htok & Haft).
    cbn [mbind option_bind]. apply Forall_cons_1 in Hba as [_ Hba]. cbn [length] in *.
    destruct (IH (<[p + Z.of_nat (length tok) := 0]> m) None (Some (p + Z.of_nat (length tok) + 1))
      (p + Z.of_nat (length tok) + 1) after) as (m' & -> & Hp); try done; try lia.
    + apply sep_after_cut; [done|]. unfold sep_apart in Hap. lia.
    + unfold sep_apart in *. lia.
    + cbn [mbind option_bind]. exists m'. split; [done|].
      apply (pieces_cons m m' a str p tok d after); [lia|lia|done|done].
Qed.

Lemma strsep_all_ok k : forall m a str,
  (length str < k)%nat -> cstring m sp sep -> sep_apart a str -> cstring m a str -> Forall byte str ->
  (length str < fuel)%nat ->
  exists m', strsep_all (S k) fuel m (Some a) sp = Some ((fields k sep a str).*1, m') /\
    pieces_ok m m' a str (fields k sep a str).
Proof.
  induction k as [|k IH]; intros m a str Hk Hsep Hap Hs Hby Hf; [lia|].
  pose proof (strsep_step m sp sep fuel Hsep Hsb Hfs a str Hs Hby Hf) as Hstep.
  remember (S k) as k' eqn:Ek'. cbn [strsep_all]. subst k'. cbn [fields].
  pose proof (span_app (is_sep sep) false str) as Happ. pose proof (span_length (is_sep sep) false str) as Hlen.
  pose proof (proj2 (Forall_span (is_sep sep) false str Hby)) as Hba.
  destruct (span (is_sep sep) false str) as [tok after]. cbn [fst snd] in *. rewrite Hstep.
  destruct after as [|d after].
  - cbn [mbind option_bind]. rewrite app_nil_r in Happ. subst tok. exists m. split; [by destruct k|].
    apply pieces_last; [lia|lia|done].
  - rewrite <- Happ in Hs. destruct (cut_string m a tok d after Hs) as (-> & Htok & Haft).
    cbn [mbind option_bind]. apply Forall_cons_1 in Hba as [_ Hba]. cbn [length] in *.
    destruct (IH (<[a + Z.of_nat (length tok) := 0]> m) (a + Z.of_nat (length tok) + 1) after)
      as (m' & -> & Hp); try done; try lia.
    + apply sep_after_cut; [done|]. unfold sep_apart in Hap. lia.
    + unfold sep_apart in *. lia.
    + cbn [mbind option_bind]. exists m'. split; [done|].
      apply (pieces_cons m m' a str a tok d after); [lia|lia|done|done].
Qed.
End Iterate.

(** *** What the pieces are *)

Lemma span_all P b l : Forall (fun x => P x = b) (span P b l).1.
Proof.
  induction l as [|x l IH]; [constructor|]. cbn [span]. destruct (eqb (P x) b) eqn:E; [|constructor].
  destruct (span P b l). constructor; [by destruct (P x), b|done].
Qed.

(** Tokens are not empty and contain no separator. *)
Lemma tokens_clean sep k : forall a str,
  Forall (fun '(_, tok) => tok <> [] /\ Forall (fun x => x ∉ sep) tok) (tokens k sep a str).
Proof.
  assert (Hclean : forall l, Forall (fun x => x ∉ sep) (span (is_sep sep) false l).1).
  { intros l. eapply list.Forall_impl; [apply span_all|]. intros x Hx. by apply bool_decide_eq_false in Hx. }
  induction k as [|k IH]; intros a str; cbn [tokens]; [constructor|].
  pose proof (span_rest_head (is_sep sep) true str) as Hhd.
  destruct (span (is_sep sep) true str) as [pre rest]. destruct rest as [|c rest]; [constructor|].
  specialize (Hhd c rest eq_refl). specialize (Hclean (c :: rest)). cbn [span] in *. rewrite Hhd in *. cbn [eqb negb] in *.
  destruct (span (is_sep sep) false rest) as [tok after]. cbn [fst] in Hclean.
  constructor; [done|]. destruct after; [constructor|apply IH].
Qed.

(** Joining the fields with some separator each gives the string back. *)
Lemma fields_join sep k : forall a str, (length str < k)%nat ->
  exists seps, length (fields k sep a str) = S (length seps) /\ Forall (fun x => x ∈ sep) seps /\
    str = concat (zip_with (fun tok c => tok ++ [c]) (fields k sep a str).*2 seps)
          ++ List.last (fields k sep a str).*2 [].
Proof.
  induction k as [|k IH]; intros a str Hk; [lia|]. cbn [fields].
  pose proof (span_app (is_sep sep) false str) as Happ. pose proof (span_rest_head (is_sep sep) false str) as Hhd.
  destruct (span (is_sep sep) false str) as [tok after]. cbn [fst snd] in *. destruct after as [|d after].
  - exists []. rewrite app_nil_r in Happ. subst. by repeat constructor.
  - rewrite <- Happ, length_app in Hk. cbn [length] in Hk.
    destruct (IH (a + Z.of_nat (length tok) + 1) after) as (seps & Hl & Hin & Hj); [lia|].
    exists (d :: seps). cbn [length]. split; [by rewrite Hl|].
    split; [constructor; [|done]; specialize (Hhd d after eq_refl); by apply bool_decide_eq_true in Hhd|].
    cbn [fmap list_fmap snd zip_with concat]. rewrite <- Happ, Hj at 1.
    set (fs := fields k sep (a + Z.of_nat (length tok) + 1) after) in *.
    destruct fs as [|f fs]; [done|]. cbn [fmap list_fmap].
    rewrite <- !app_assoc. done.
Qed.

(** ** Properties *)

(** Strspn, strcspn and strpbrk, with their bit sets of 256 bits, measure
    exactly the longest prefix of characters in, respectively not in, the set
    of the second string; strpbrk returns the first character in it. *)
Theorem spans_correct m s sp str sep fuel
  (Hs : cstring m s str) (Hsep : cstring m sp sep) (Hb : Forall byte str) (Hsb : Forall byte sep)
  (Hf : (length str < fuel)%nat) (Hfs : (length sep < fuel)%nat) :
  let '(inside, _) := span (is_sep sep) true str in
  let '(outside, rest) := span (is_sep sep) false str in
  strspn fuel m s sp = Some (Z.of_nat (length inside)) /\
  strcspn fuel m s sp = Some (Z.of_nat (length outside)) /\
  strpbrk fuel m s sp = Some (match rest with [] => None | _ => Some (s + Z.of_nat (length outside)) end) /\
  Forall (fun x => x ∈ sep) inside /\ Forall (fun x => x ∉ sep) outside /\
  outside ++ rest = str /\ match rest with [] => True | x :: _ => x ∈ sep end.
Proof.
  pose proof (strspn_ok m sp sep fuel Hsep Hsb Hfs s str Hs Hb Hf) as H1.
  pose proof (strcspn_ok m sp sep fuel Hsep Hsb Hfs s str Hs Hb Hf) as H2.
  pose proof (strpbrk_ok m sp sep fuel Hsep Hsb Hfs s str Hs Hb Hf) as H3.
  pose proof (span_all (is_sep sep) true str) as H4. pose proof (span_all (is_sep sep) false str) as H5.
  pose proof (span_app (is_sep sep) false str) as H6. pose proof (span_rest_head (is_sep sep) false str) as H7.
  destruct (span (is_sep sep) true str) as [inside r]. destruct (span (is_sep sep) false str) as [outside rest].
  cbn [fst snd] in *. repeat (split; [done|]).
  split; [eapply list.Forall_impl; [exact H4|]; intros x Hx; by apply bool_decide_eq_true in Hx|].
  split; [eapply list.Forall_impl; [exact H5|]; intros x Hx; by apply bool_decide_eq_false in Hx|].
  split; [done|]. destruct rest as [|x rest]; [done|]. specialize (H7 x rest eq_refl). by apply bool_decide_eq_true in H7.
Qed.

(** C16: strtok_r and strsep called until they return a null pointer.  strtok_r
    returns the addresses of exactly the maximal runs of characters that are
    not separators, none empty and none containing a separator; strsep those
    of all fields between single separators, which joined with the separators
    give the string back.  Each is left as a terminated string in place, no
    byte outside the string changes, and the iteration ends after at most one
    call more than the string has characters plus one. *)
Theorem tokens_correct m a sp str sep fuel k
  (Hs : cstring m a str) (Hsep : cstring m sp sep) (Hb : Forall byte str) (Hsb : Forall byte sep)
  (Hf : (length str < fuel)%nat) (Hfs : (length sep < fuel)%nat) (Hk : (length str < k)%nat)
  (Hap : sep_apart sp sep a str) :
  (exists m', strtok_all (S k) fuel m (Some a) sp None = Some ((tokens k sep a str).*1, m') /\
     pieces_ok m m' a str (tokens k sep a str)) /\
  Forall (fun '(_, tok) => tok <> [] /\ Forall (fun x => x ∉ sep) tok) (tokens k sep a str) /\
  (exists m', strsep_all (S k) fuel m (Some a) sp = Some ((fields k sep a str).*1, m') /\
     pieces_ok m m' a str (fields k sep a str)) /\
  exists seps, length (fields k sep a str) = S (length seps) /\ Forall (fun x => x ∈ sep) seps /\
    str = concat (zip_with (fun tok c => tok ++ [c]) (fields k sep a str).*2 seps)
          ++ List.last (fields k sep a str).*2 [].
Proof.
  split; [by apply strtok_all_ok|]. split; [apply tokens_clean|].
  split; [by apply strsep_all_ok|by apply fields_join].
Qed.

(** " a,,b" at 8 and ", " at 0. *)
Definition tok_mem : mem := write ∅ 0 ([44; 32; 0] ++ replicate 5 7 ++ [32; 97; 44; 44; 98; 0] ++ [7; 7]).

Lemma tok_mem_strings : cstring tok_mem 8 [32; 97; 44; 44; 98] /\ cstring tok_mem 0 [44; 32].
Proof. split; (split; [by vm_compute|by apply (bool_decide_unpack _); vm_compute]). Qed.

Lemma spans_correct_witness :
  strspn 10 tok_mem 8 0 = Some 1 /\ strcspn 10 tok_mem 8 0 = Some 0 /\ strpbrk 10 tok_mem 8 0 = Some (Some 8).
Proof.
  destruct tok_mem_strings as [H1 H2].
  destruct (spans_correct tok_mem 8 0 [32; 97; 44; 44; 98] [44; 32] 10 H1 H2) as (G1 & G2 & G3 & _);
    [repeat constructor; done|repeat constructor; done|simpl; lia|simpl; lia|].
  split; [exact G1|]. split; [exact G2|exact G3].
Defined.

Lemma tokens_correct_witness :
  (exists m', strtok_all 7 10 tok_mem (Some 8) 0 None = Some ([9; 12], m')) /\
  (exists m', strsep_all 7 10 tok_mem (Some 8) 0 = Some ([8; 9; 11; 12], m')).
Proof.
  destruct tok_mem_strings as [H1 H2].
  destruct (tokens_correct tok_mem 8 0 [32; 97; 44; 44; 98] [44; 32] 10 6 H1 H2)
    as ((m1 & G1 & _) & _ & (m2 & G2 & _) & _);
    [repeat constructor; done|repeat constructor; done|simpl; lia|simpl; lia|simpl; lia|unfold sep_apart; simpl; lia|].
  split; [exists m1; exact G1|exists m2; exact G2].
Defined.
