(* ===== verification/TwoWay.v ===== *)
(** * Substring search: memmem and strstr

    Sources: src/common/twoway.h, src/libc/string/memmem.c and strstr.c (the
    narrow variants).  The search is Crochemore and Perrin's two-way algorithm:
    the needle is cut at the start of its larger maximal suffix, the part behind
    the cut is compared first, and the length of the shift after a mismatch is
    justified by the critical factorisation theorem.

    The file first has the program, then the combinatorics of words it relies on
    (a word is a function on positions and a length), then the proofs of the
    loops.  The theorem: both functions return the first occurrence of the needle
    as the naive search finds it, and access nothing outside their operands. *)

From stdpp Require Import gmap.
From S2P Require Import Prelude Memory StringScan StringCopy.

#[local] Open Scope Z_scope.

(** ** The program *)

(** [char_t]: a plain char, which is signed. *)
Definition ld_char (m : mem) (a : Z) : option Z := v ← ld m a; Some (s8 v).

(** GENERATE_MAXIMAL_SUFFIX: the loop, for the comparison operator [OP]. *)
Fixpoint maximal_suffix_loop (OP : Z -> Z -> bool) (fuel : nat) (m : mem)
    (needle needlelen suffixpos period j k : Z) : option (Z * Z) :=
  if j + k <? needlelen then
    match fuel with
    | O => None
    | S fuel =>
        ap ← ld_char m (needle + (suffixpos + k));
        a ← ld_char m (needle + (j + k));
        if OP a ap then
          maximal_suffix_loop OP fuel m needle needlelen suffixpos (j + (k + 1) - suffixpos) (j + (k + 1)) 0
        else if a =? ap then
          if k =? period then maximal_suffix_loop OP fuel m needle needlelen suffixpos period (j + period) 0
          else maximal_suffix_loop OP fuel m needle needlelen suffixpos period j (k + 1)
        else maximal_suffix_loop OP fuel m needle needlelen j 1 (j + 1) 0
    end
  else Some (suffixpos, period).

(** Every turn increases 2 * suffixpos + 3 * j + 2 * k. *)
Definition suffix_fuel (needlelen : Z) : nat := Z.to_nat (7 * needlelen).

Definition maximal_suffix_1 (m : mem) (needle needlelen : Z) : option (Z * Z) :=
  maximal_suffix_loop Z.ltb (suffix_fuel needlelen) m needle needlelen 0 1 1 0.

Definition maximal_suffix_2 (m : mem) (needle needlelen : Z) : option (Z * Z) :=
  maximal_suffix_loop Z.gtb (suffix_fuel needlelen) m needle needlelen 0 1 1 0.

Definition maximal_suffix (m : mem) (needle needlelen : Z) : option (Z * Z) :=
  '(suffixpos1, period1) ← maximal_suffix_1 m needle needlelen;
  '(suffixpos2, period2) ← maximal_suffix_2 m needle needlelen;
  Some (if suffixpos2 <=? suffixpos1 then (suffixpos1, period1) else (suffixpos2, period2)).

(** HAYSTACK_SPACELEFT takes the position and haystackend, which it may move. *)
Fixpoint check_spaceleft (fuel : nat) (m : mem) (needlelen haystack haystackend : Z) : option (bool * Z) :=
  if haystackend <? haystack + needlelen then
    match fuel with
    | O => None
    | S fuel =>
        c ← ld_char m haystackend;
        if c =? 0 then Some (false, haystackend)
        else check_spaceleft fuel m needlelen haystack (haystackend + 1)
    end
  else Some (true, haystackend).

Definition memmem_spaceleft (haystack haystackend : Z) : option (bool * Z) :=
  Some (haystack <=? haystackend, haystackend).

(** while (i < needlelen && needle[i] == haystack[i]) ++i; *)
Fixpoint compare_suffix (fuel : nat) (m : mem) (needle needlelen haystack i : Z) : option Z :=
  if i <? needlelen then
    match fuel with
    | O => None
    | S fuel =>
        c ← ld_char m (needle + i);
        d ← ld_char m (haystack + i);
        if c =? d then compare_suffix fuel m needle needlelen haystack (i + 1) else Some i
    end
  else Some i.

(** while (j > skip && needle[j - 1] == haystack[j - 1]) --j; *)
Fixpoint compare_prefix (fuel : nat) (m : mem) (needle haystack skip j : Z) : option Z :=
  if skip <? j then
    match fuel with
    | O => None
    | S fuel =>
        c ← ld_char m (needle + (j - 1));
        d ← ld_char m (haystack + (j - 1));
        if c =? d then compare_prefix fuel m needle haystack skip (j - 1) else Some j
    end
  else Some j.

(** TWOWAY_PART: the loop, with MISMATCH a function from the position to the
    new position and the new value of skip.  The result is NULL or the
    position. *)
Fixpoint TWOWAY_PART (spaceleft : Z -> Z -> option (bool * Z)) (MISMATCH : Z -> Z -> Z * Z) (fuel : nat) (m : mem)
    (needle needlelen suffixpos period haystack haystackend skip : Z) : option (option Z) :=
  '(room, haystackend) ← spaceleft haystack haystackend;
  if negb room then Some None
  else
    match fuel with
    | O => None
    | S fuel =>
        let i := if skip <=? suffixpos then suffixpos else skip in
        i ← compare_suffix (Z.to_nat needlelen) m needle needlelen haystack i;
        if i <? needlelen then
          let haystack :=
            if (skip <=? period) || (skip - period <=? i - suffixpos)
            then haystack + (i - suffixpos + 1)
            else haystack + (skip - period + 1) in
          TWOWAY_PART spaceleft MISMATCH fuel m needle needlelen suffixpos period haystack haystackend 0
        else
          j ← compare_prefix (Z.to_nat needlelen) m needle haystack skip suffixpos;
          if j <=? skip then Some (Some haystack)
          else
            let '(haystack, skip) := MISMATCH haystack skip in
            TWOWAY_PART spaceleft MISMATCH fuel m needle needlelen suffixpos period haystack haystackend skip
    end.

Definition mismatch_periodic (needlelen period haystack skip : Z) : Z * Z :=
  (haystack + period, needlelen - period).

Definition mismatch_aperiodic (needlelen suffixpos haystack skip : Z) : Z * Z :=
  (if needlelen - suffixpos <? suffixpos then haystack + (suffixpos + 1)
   else haystack + (needlelen - suffixpos + 1), skip).

(** What twoway_memmem and twoway_strstr share. *)
Definition twoway (spaceleft : Z -> Z -> option (bool * Z)) (fuel : nat) (m : mem)
    (haystack haystackend needle needlelen : Z) : option (option Z) :=
  '(suffixpos, period) ← maximal_suffix m needle needlelen;
  c ← memcmp m needle (needle + period) suffixpos;
  TWOWAY_PART spaceleft
    (if c =? 0 then mismatch_periodic needlelen period else mismatch_aperiodic needlelen suffixpos)
    fuel m needle needlelen suffixpos period haystack haystackend 0.

Definition twoway_memmem (m : mem) (haystack haystacklen needle needlelen : Z) : option (option Z) :=
  twoway memmem_spaceleft (S (Z.to_nat haystacklen)) m haystack (haystack + haystacklen - needlelen) needle needlelen.

Definition twoway_strstr (fuel : nat) (m : mem) (haystack needle needlelen : Z) : option (option Z) :=
  twoway (check_spaceleft fuel m needlelen) fuel m haystack haystack needle needlelen.

Definition memmem (m : mem) (s1 s1len s2 s2len : Z) : option (option Z) :=
  if s1len <? s2len then Some None
  else if s2len =? 0 then Some (Some s1)
  else if s2len =? 1 then c ← ld_char m s2; memchr (Z.to_nat s1len) m s1 c
  else twoway_memmem m s1 s1len s2 s2len.

Definition strstr (fuel : nat) (m : mem) (s1 s2 : Z) : option (option Z) :=
  s2len ← strlen fuel m s2;
  if s2len =? 0 then Some (Some s1)
  else if s2len =? 1 then c ← ld_char m s2; strchr fuel m s1 c
  else twoway_strstr fuel m s1 s2 s2len.

(** ** The specification *)

(** The naive search: the index of the first place where [x] stands in [h]. *)
Fixpoint search (x h : list Z) : option nat :=
  if bool_decide (x `prefix_of` h) then Some 0%nat
  else match h with [] => None | _ :: h => S <$> search x h end.

Definition found (s : Z) (r : option nat) : option Z := (fun i => s + Z.of_nat i) <$> r.

Lemma search_Some x h i : x `prefix_of` drop i h -> (forall j, (j < i)%nat -> ~ x `prefix_of` drop j h) ->
  search x h = Some i.
Proof.
  revert h. induction i as [|i IH]; intros h Hi Hj.
  - rewrite drop_0 in Hi. destruct h; cbn [search]; by rewrite bool_decide_true.
  - assert (Hn : ~ x `prefix_of` h) by (specialize (Hj 0%nat ltac:(lia)); by rewrite drop_0 in Hj).
    destruct h as [|c h]; cbn [search]; rewrite bool_decide_false by done; [by rewrite drop_nil in Hi|].
    rewrite (IH h); [done|done|]. intros j Hji. apply (Hj (S j)). lia.
Qed.

Lemma search_None x h : (forall j, ~ x `prefix_of` drop j h) -> search x h = None.
Proof.
  induction h as [|c h IH]; intros Hj; pose proof (Hj 0%nat) as Hn; rewrite drop_0 in Hn; cbn [search];
    rewrite bool_decide_false by done; [done|]. rewrite IH; [done|]. intros j. apply (Hj (S j)).
Qed.

(** ** Words

    [y] is a word of length [m], seen as a function on its positions. *)

Section Words.
  Context (m : Z).

(** The suffix at [i] is smaller than the one at [j], by a letter. *)
Definition suffix_lt (y : Z -> Z) (i j : Z) : Prop :=
  exists k, 0 <= k /\ i + k < m /\ j + k < m /\ y (i + k) < y (j + k) /\
    forall k', 0 <= k' < k -> y (i + k') = y (j + k').

(** [p] is a period of the word between [s] and [n]. *)
Definition has_period (y : Z -> Z) (p s n : Z) : Prop := forall i, s <= i -> i + p < n -> y i = y (i + p).

(** The first [p] letters from [s] on are larger than every proper suffix of
    them, by a letter. *)
Definition primitive_block (y : Z -> Z) (s p : Z) : Prop := forall r, 0 < r < p ->
  exists k, 0 <= k < p - r /\ y (s + r + k) < y (s + k) /\
    forall k', 0 <= k' < k -> y (s + r + k') = y (s + k').

(** The invariant of the search for the maximal suffix. *)
Record suffix_inv (y : Z -> Z) (s p j k : Z) : Prop := {
  si_range : 0 <= s < j /\ j + k <= m /\ 0 <= k <= p /\ 1 <= p <= j - s;
  si_whole : (j - s) mod p = 0;
  si_period : has_period y p s (j + k);
  si_max : forall i, 0 <= i < s -> suffix_lt y i s;
  si_block : primitive_block y s p
}.

(** The suffix at [s] is the maximal one and [p] is its period. *)
Record max_suffix (y : Z -> Z) (s p : Z) : Prop := {
  ms_range : 0 <= s /\ 1 <= p /\ s + p <= m;
  ms_period : has_period y p s m;
  ms_max : forall i, 0 <= i < s -> suffix_lt y i s;
  ms_block : primitive_block y s p
}.

Lemma suffix_lt_trans y i j l : 0 <= i -> 0 <= l -> suffix_lt y i j -> suffix_lt y j l -> suffix_lt y i l.
Proof.
  intros _ _ (k1 & Hk1 & Hi & Hj & Hlt1 & Heq1) (k2 & Hk2 & Hj2 & Hl & Hlt2 & Heq2).
  exists (Z.min k1 k2). destruct (Z.lt_trichotomy k1 k2) as [Hk|[->|Hk]].
  - rewrite Z.min_l by lia. rewrite <- (Heq2 k1) by lia. repeat (split; [lia|]).
    intros k' Hk'. rewrite Heq1, Heq2 by lia. done.
  - rewrite Z.min_id. repeat (split; [lia|]). intros k' Hk'. rewrite Heq1, Heq2 by lia. done.
  - rewrite Z.min_r by lia. rewrite (Heq1 k2) by lia. repeat (split; [lia|]).
    intros k' Hk'. rewrite Heq1, Heq2 by lia. done.
Qed.

(** Letters at the same phase of a period are equal. *)
Lemma period_phase y p s n i : 1 <= p -> has_period y p s n -> s <= i < n -> y i = y (s + (i - s) mod p).
Proof.
  intros Hp Hper Hi. remember (Z.to_nat (i - s)) as c eqn:Hc. revert i Hi Hc.
  induction c as [c IH] using lt_wf_ind. intros i Hi Hc. destruct (Z.lt_ge_cases (i - s) p).
  - rewrite Z.mod_small by lia. f_equal. lia.
  - replace i with (i - p + p) at 1 by lia. rewrite <- Hper by lia.
    rewrite (IH (Z.to_nat (i - p - s))) by lia. f_equal. f_equal.
    replace (i - s) with (i - p - s + 1 * p) by lia. by rewrite Z.mod_add by lia.
Qed.

Lemma same_phase y p s n i i' : 1 <= p -> has_period y p s n -> s <= i < n -> s <= i' < n ->
  (i - s) mod p = (i' - s) mod p -> y i = y i'.
Proof. intros Hp Hper Hi Hi' He. rewrite (period_phase y p s n i), (period_phase y p s n i'), He by done. done. Qed.

Lemma has_period_step y p s n : has_period y p s n -> y (n - p) = y n -> has_period y p s (n + 1).
Proof.
  intros H He i Hi Hn. destruct (Z.eq_dec (i + p) n) as [Hl|]; [|apply H; lia].
  rewrite Hl, <- He. f_equal. lia.
Qed.

(** In the invariant the letter compared with the next one is one period
    before it. *)
Lemma inv_letter y s p j k : suffix_inv y s p j k -> y (s + k) = y (j + k - p).
Proof.
  intros [Hr Hw Hper _ _]. destruct (Z.eq_dec (s + k) (j + k - p)) as [->|]; [done|].
  apply (same_phase y p s (j + k)); [lia|done|lia|lia|].
  replace (j + k - p - s) with (k + (j - s) + -1 * p) by lia. rewrite Z.mod_add, Z.add_mod, Hw, Z.add_0_r by lia.
  rewrite Z.mod_mod by lia. f_equal. lia.
Qed.

(** Suffixes inside the first [j] letters, other than at [s], by their phase. *)
Lemma inv_inner y s p j k r : suffix_inv y s p j k -> 0 < r -> s + r < j -> r mod p <> 0 -> suffix_lt y (s + r) s.
Proof.
  intros [Hr Hw Hper _ Hb] Hr0 Hrj Hph. pose proof (Z.mod_pos_bound r p ltac:(lia)) as Hmb.
  destruct (Hb (r mod p)) as (c & Hc & Hlt & Heq); [lia|].
  assert (Hfit : s + r + c < j).
  { pose proof (Z.div_mod r p ltac:(lia)). pose proof (Z.div_mod (j - s) p ltac:(lia)) as Hd. rewrite Hw in Hd.
    assert (r / p < (j - s) / p) by (apply Z.div_lt_upper_bound; lia). nia. }
  assert (Hsame : forall c', 0 <= c' <= c -> y (s + r + c') = y (s + r mod p + c')).
  { intros c' Hc'. apply (same_phase y p s (j + k)); [lia|done|lia| |].
    - pose proof (Z.mod_le r p). lia.
    - replace (s + r + c' - s) with (r + c') by lia. replace (s + r mod p + c' - s) with (r mod p + c') by lia.
      by rewrite Z.add_mod_idemp_l by lia. }
  exists c. repeat (split; [lia|]). split; [rewrite Hsame by lia; done|].
  intros c' Hc'. rewrite Hsame by lia. by apply Heq.
Qed.

(** The steps of the search. *)
Lemma inv_init y : 1 <= m -> suffix_inv y 0 1 1 0.
Proof.
  intros Hm. split; [lia|by rewrite Z.mod_1_r| | |].
  - intros i Hi Hn. lia.
  - intros i Hi. lia.
  - intros r Hr. lia.
Qed.

Lemma inv_equal y s p j k : suffix_inv y s p j k -> j + k < m -> y (s + k) = y (j + k) -> k <> p ->
  suffix_inv y s p j (k + 1).
Proof.
  intros Hinv Hn He Hk. pose proof (inv_letter _ _ _ _ _ Hinv) as Hl. destruct Hinv as [Hr Hw Hper Hm Hb].
  split; [lia|done| |done|done]. rewrite Z.add_assoc. apply has_period_step; [done|congruence].
Qed.

Lemma inv_whole_period y s p j : suffix_inv y s p j p -> suffix_inv y s p (j + p) 0.
Proof.
  intros [Hr Hw Hper Hm Hb]. split; [lia| |by rewrite Z.add_0_r|done|done].
  replace (j + p - s) with (j - s + 1 * p) by lia. by rewrite Z.mod_add by lia.
Qed.

Lemma inv_smaller y s p j k : suffix_inv y s p j k -> j + k < m -> y (j + k) < y (s + k) ->
  suffix_inv y s (j + (k + 1) - s) (j + (k + 1)) 0.
Proof.
  intros Hinv Hn Hlt. pose proof (inv_letter _ _ _ _ _ Hinv) as Hl. destruct Hinv as [Hr Hw Hper Hm Hb].
  split; [lia|by rewrite Z.mod_same by lia|intros i Hi Hi'; lia|done|].
  intros r Hr0. set (n := j + k) in *. pose proof (Z.mod_pos_bound r p ltac:(lia)) as Hmb.
  pose proof (Z.mod_le r p ltac:(lia) ltac:(lia)) as Hle.
  assert (Hsame : forall c, 0 <= c -> s + r + c < n -> y (s + r + c) = y (s + r mod p + c)).
  { intros c Hc Hcn. apply (same_phase y p s n); [lia|done|lia|lia|].
    replace (s + r + c - s) with (r + c) by lia. replace (s + r mod p + c - s) with (r mod p + c) by lia.
    by rewrite Z.add_mod_idemp_l by lia. }
  assert (Hlast : p <= r -> y n < y (s + r mod p + (n - s - r))).
  { intros Hpr. replace (y (s + r mod p + (n - s - r))) with (y (n - p)); [lia|].
    apply (same_phase y p s n); [lia|done|lia|lia|].
    replace (n - p - s) with (r + (n - s - r) + -1 * p) by lia.
    replace (s + r mod p + (n - s - r) - s) with (r mod p + (n - s - r)) by lia.
    by rewrite Z.mod_add, Z.add_mod_idemp_l by lia. }
  destruct (Z.eq_dec (r mod p) 0) as [H0|H0].
  - rewrite H0 in Hsame, Hlast. rewrite Z.add_0_r in Hsame, Hlast. exists (n - s - r). split; [lia|].
    assert (p <= r) by (destruct (Z.lt_ge_cases r p); [rewrite Z.mod_small in H0 by lia; lia|done]).
    split; [replace (s + r + (n - s - r)) with n by lia; by apply Hlast|]. intros c Hc. apply Hsame; lia.
  - destruct (Hb (r mod p)) as (c & Hc & Hcl & Hce); [lia|]. destruct (Z.lt_ge_cases (s + r + c) n) as [Hin|Hout].
    + exists c. split; [lia|]. split; [rewrite Hsame by lia; done|]. intros c' Hc'. rewrite Hsame by lia. by apply Hce.
    + assert (p <= r) by (destruct (Z.lt_ge_cases r p); [rewrite Z.mod_small in Hc by lia; lia|done]).
      exists (n - s - r). split; [lia|]. split.
      * replace (s + r + (n - s - r)) with n by lia. eapply Z.lt_le_trans; [by apply Hlast|].
        destruct (Z.eq_dec (n - s - r) c) as [->|]; [lia|]. rewrite Hce by lia. lia.
      * intros c' Hc'. rewrite Hsame by lia. apply Hce. lia.
Qed.

Lemma inv_larger y s p j k : suffix_inv y s p j k -> j + k < m -> y (s + k) < y (j + k) ->
  suffix_inv y j 1 (j + 1) 0.
Proof.
  intros Hinv Hn Hlt. assert (Hinv' := Hinv). destruct Hinv as [Hr Hw Hper Hm Hb].
  split; [lia|by rewrite Z.mod_1_r|intros i Hi Hi'; lia| |intros r Hr0; lia].
  assert (Hsj : suffix_lt y s j).
  { exists k. repeat (split; [lia|]). intros c Hc. apply (same_phase y p s (j + k)); [lia|done|lia|lia|].
    replace (j + c - s) with (c + (j - s)) by lia. rewrite Z.add_mod, Hw, Z.add_0_r, Z.mod_mod by lia. f_equal. lia. }
  intros i Hi. destruct (Z.lt_trichotomy i s) as [His|[->|His]]; [|done|].
  - apply (suffix_lt_trans y i s j); [lia..|apply Hm; lia|done].
  - destruct (Z.eq_dec ((i - s) mod p) 0) as [H0|H0].
    + exists k. repeat (split; [lia|]). assert (Hsame : forall c, 0 <= c <= k -> y (i + c) = y (s + c)).
      { intros c Hc. apply (same_phase y p s (j + k)); [lia|done|lia|lia|].
        replace (i + c - s) with (c + (i - s)) by lia. rewrite Z.add_mod, H0, Z.add_0_r, Z.mod_mod by lia. f_equal. lia. }
      split; [rewrite Hsame by lia; done|]. intros c Hc. rewrite Hsame by lia.
      apply (same_phase y p s (j + k)); [lia|done|lia|lia|].
      replace (j + c - s) with (c + (j - s)) by lia. rewrite Z.add_mod, Hw, Z.add_0_r, Z.mod_mod by lia. f_equal. lia.
    + apply (suffix_lt_trans y i s j); [lia..| |done]. replace i with (s + (i - s)) by lia.
      apply (inv_inner y s p j k); [done|lia..|done].
Qed.

Lemma inv_final y s p j k : suffix_inv y s p j k -> m <= j + k -> max_suffix y s p.
Proof.
  intros [Hr Hw Hper Hm Hb] Hn. assert (Heq : j + k = m) by lia. rewrite Heq in Hper. split; [lia|done..].
Qed.

(** ** The critical factorisation *)

(** A repetition of length [r] around the position [s]. *)
Definition local_rep (y : Z -> Z) (s r : Z) : Prop :=
  forall k, 0 <= k -> s - r <= k < s -> k + r < m -> y k = y (k + r).

Lemma later_not_larger y s p r : max_suffix y s p -> 0 < r -> ~ suffix_lt y s (s + r).
Proof.
  intros [Hr Hper _ Hb] Hr0 (k & Hk & Hsk & Hrk & Hlt & Heq). pose proof (Z.mod_pos_bound r p ltac:(lia)) as Hmb.
  pose proof (Z.mod_le r p ltac:(lia) ltac:(lia)) as Hle.
  assert (Hsame : forall c, 0 <= c -> s + r + c < m -> y (s + r + c) = y (s + r mod p + c)).
  { intros c Hc Hcn. apply (same_phase y p s m); [lia|done|lia|lia|].
    replace (s + r + c - s) with (r + c) by lia. replace (s + r mod p + c - s) with (r mod p + c) by lia.
    by rewrite Z.add_mod_idemp_l by lia. }
  destruct (Z.eq_dec (r mod p) 0) as [H0|H0].
  - rewrite Hsame, H0, Z.add_0_r in Hlt by lia. lia.
  - destruct (Hb (r mod p)) as (c & Hc & Hcl & Hce); [lia|].
    destruct (Z.lt_trichotomy k c) as [Hkc|[->|Hkc]].
    + rewrite Hsame, Hce in Hlt by lia. lia.
    + rewrite Hsame in Hlt by lia. lia.
    + specialize (Heq c ltac:(lia)). rewrite Hsame in Heq by lia. lia.
Qed.

(** No repetition lies within the word left of a maximal suffix. *)
Lemma no_left_rep y s p r : max_suffix y s p -> 0 < r <= s -> ~ local_rep y s r.
Proof.
  intros Hms Hr Hrep. destruct (ms_max _ _ _ Hms (s - r) ltac:(lia)) as (k & Hk & Hi & Hj & Hlt & Heq).
  apply (later_not_larger y s p r Hms ltac:(lia)).
  destruct (Z.lt_ge_cases k r) as [Hkr|Hkr].
  - specialize (Hrep (s - r + k) ltac:(lia) ltac:(lia) ltac:(lia)).
    replace (s - r + k + r) with (s + k) in Hrep by lia. lia.
  - exists (k - r). replace (s + (k - r)) with (s - r + k) by lia. replace (s + r + (k - r)) with (s + k) by lia.
    repeat (split; [lia|]). intros c Hc. specialize (Heq (c + r) ltac:(lia)).
    replace (s - r + (c + r)) with (s + c) in Heq by lia. rewrite Heq. f_equal. lia.
Qed.

(** Nor is there one shorter than the period, when the maximal suffix for the
    opposite order is not shorter. *)
Lemma no_short_rep y s p s2 p2 r : max_suffix y s p -> max_suffix (fun i => - y i) s2 p2 -> s2 <= s ->
  0 < r < p -> ~ local_rep y s r.
Proof.
  intros Hms Hms2 Hs2 Hr Hrep. destruct (Z.le_gt_cases r s); [by apply (no_left_rep y s p r Hms ltac:(lia))|].
  pose proof (ms_range _ _ _ Hms) as Hrange. pose proof (ms_range _ _ _ Hms2) as Hrange2.
  destruct (ms_block _ _ _ Hms r Hr) as (k & Hk & Hlt & Heq).
  apply (later_not_larger _ s2 p2 r Hms2 ltac:(lia)). exists (s - s2 + k).
  replace (s2 + (s - s2 + k)) with (s + k) by lia. replace (s2 + r + (s - s2 + k)) with (s + r + k) by lia.
  repeat (split; [lia|]). intros c Hc. f_equal. destruct (Z.lt_ge_cases (s2 + c) s).
  - rewrite Hrep by lia. f_equal. lia.
  - specialize (Heq (s2 + c - s) ltac:(lia)). replace (s + r + (s2 + c - s)) with (s2 + r + c) in Heq by lia.
    rewrite Heq. f_equal. lia.
Qed.

(** A repetition longer than the period, but not than the suffix, can be
    shortened by the period. *)
Lemma rep_minus_period y s p r : max_suffix y s p -> p < r <= m - s -> local_rep y s r -> local_rep y s (r - p).
Proof.
  intros Hms Hr Hrep k Hk Hks Hkm. pose proof (ms_range _ _ _ Hms). rewrite Hrep by lia.
  rewrite (ms_period _ _ _ Hms (k + (r - p))) by lia. f_equal. lia.
Qed.

(** What the search relies on: the cut [s], the period [p], and whether the
    letters left of the cut continue the period. *)
Record critical (y : Z -> Z) (s p : Z) (periodic : bool) : Prop := {
  cr_range : 0 <= s /\ 1 <= p /\ s + p <= m;
  cr_periodic : periodic = true -> s < p /\ has_period y p 0 m /\
    forall r, 0 < r <= m - s -> local_rep y s r -> r mod p = 0;
  cr_short : forall r, 0 < r < p -> ~ local_rep y s r;
  cr_aperiodic : periodic = false -> forall r, 0 < r <= Z.max s (m - s) -> ~ local_rep y s r
}.

Lemma rep_multiple y s p s2 p2 r : max_suffix y s p -> max_suffix (fun i => - y i) s2 p2 -> s2 <= s ->
  0 < r <= m - s -> local_rep y s r -> r mod p = 0 /\ local_rep y s p.
Proof.
  intros Hms Hms2 Hs2 Hr Hrep. pose proof (ms_range _ _ _ Hms) as Hrange.
  remember (Z.to_nat r) as c eqn:Hc. revert r Hr Hrep Hc. induction c as [c IH] using lt_wf_ind.
  intros r Hr Hrep Hc. destruct (Z.lt_trichotomy r p) as [Hrp|[->|Hrp]].
  - exfalso. by apply (no_short_rep y s p s2 p2 r Hms Hms2 Hs2 ltac:(lia)).
  - split; [by apply Z.mod_same; lia|done].
  - destruct (IH (Z.to_nat (r - p)) ltac:(lia) (r - p) ltac:(lia)) as [H1 H2]; [|done|].
    + apply (rep_minus_period y s p r); [done|lia|done].
    + split; [|done]. replace r with (r - p + 1 * p) by lia. by rewrite Z.mod_add by lia.
Qed.

Theorem critical_factorisation y s p s2 p2 periodic :
  max_suffix y s p -> max_suffix (fun i => - y i) s2 p2 -> s2 <= s ->
  (periodic = true <-> forall k, 0 <= k < s -> y k = y (k + p)) ->
  critical y s p periodic.
Proof.
  intros Hms Hms2 Hs2 Hp. pose proof (ms_range _ _ _ Hms) as Hrange. split; [done| | |].
  - intros Ht. rewrite Hp in Ht. split; [|split].
    + destruct (Z.lt_ge_cases s p) as [|Hge]; [done|]. exfalso. apply (no_left_rep y s p p Hms ltac:(lia)).
      intros k Hk Hks _. apply Ht. lia.
    + intros i Hi Hn. destruct (Z.lt_ge_cases i s); [apply Ht; lia|]. by apply (ms_period _ _ _ Hms).
    + intros r Hr Hrep. by apply (rep_multiple y s p s2 p2 r).
  - intros r Hr. by apply (no_short_rep y s p s2 p2 r).
  - intros Hf r Hr Hrep. destruct (Z.le_gt_cases r s) as [Hrs|Hrs]; [by apply (no_left_rep y s p r Hms ltac:(lia))|].
    destruct (rep_multiple y s p s2 p2 r Hms Hms2 Hs2 ltac:(lia) Hrep) as [_ Hrepp].
    assert (Htrue : periodic = true); [|congruence]. apply Hp. intros k Hk.
    destruct (Z.le_gt_cases p s) as [Hps|Hps].
    + exfalso. by apply (no_left_rep y s p p Hms ltac:(lia)).
    + apply Hrepp; lia.
Qed.

(** ** The shifts of the search

    [h] is the haystack; an occurrence at [pos] is a place where the needle
    [y] stands in it. *)

Definition occurs (y h : Z -> Z) (pos : Z) : Prop := forall k, 0 <= k < m -> h (pos + k) = y k.

Definition matches (y h : Z -> Z) (pos a b : Z) : Prop := forall k, a <= k < b -> h (pos + k) = y k.

(** An occurrence further on repeats the letters that matched around the
    cut. *)
Lemma occurs_rep y h s pos d b : 0 <= s -> 0 < d -> matches y h pos s b -> s + d <= b \/ m <= b ->
  occurs y h (pos + d) -> local_rep y s d.
Proof.
  intros Hs Hd Hm Hb Ho k Hk Hks Hkm. destruct (Z.lt_ge_cases (k + d) s) as [|Hge]; [lia|].
  rewrite <- (Ho k) by lia. rewrite <- (Hm (k + d)) by lia. f_equal. lia.
Qed.

(** A mismatch behind the cut. *)
Lemma shift_suffix y h s p periodic pos i d : critical y s p periodic -> matches y h pos s i -> s <= i < m ->
  h (pos + i) <> y i -> 0 < d <= i - s -> ~ occurs y h (pos + d).
Proof.
  intros Hc Hm Hi Hne Hd Ho. pose proof (cr_range _ _ _ _ Hc) as Hrange.
  assert (Hrep : local_rep y s d) by (apply (occurs_rep y h s pos d i); [lia..|done|lia|done]).
  destruct periodic.
  - destruct (cr_periodic _ _ _ _ Hc eq_refl) as (Hsp & Hper & Hmul). specialize (Hmul d ltac:(lia) Hrep).
    apply Hne. replace (y i) with (y (i - d)); [rewrite <- (Ho (i - d)) by lia; f_equal; lia|].
    apply (same_phase y p 0 m); [lia|done|lia|lia|]. rewrite !Z.sub_0_r.
    rewrite Zminus_mod, Hmul, Z.sub_0_r, Z.mod_mod by lia. done.
  - by apply (cr_aperiodic _ _ _ _ Hc eq_refl d ltac:(lia)).
Qed.

(** The same, when the first [skip] letters are known to match. *)
Lemma shift_skip y h s p pos skip i d : critical y s p true -> matches y h pos 0 skip -> skip <= i < m -> s <= i ->
  h (pos + i) <> y i -> 0 < d <= skip - p -> ~ occurs y h (pos + d).
Proof.
  intros Hc Hm Hi Hsi Hne Hd Ho. pose proof (cr_range _ _ _ _ Hc) as Hrange.
  destruct (cr_periodic _ _ _ _ Hc eq_refl) as (Hsp & Hper & Hmul).
  assert (Hrep : local_rep y s d).
  { apply (occurs_rep y h s pos d skip); [lia..| |lia|done]. intros k Hk. apply Hm. lia. }
  specialize (Hmul d ltac:(lia) Hrep). apply Hne.
  replace (y i) with (y (i - d)); [rewrite <- (Ho (i - d)) by lia; f_equal; lia|].
  apply (same_phase y p 0 m); [lia|done|lia|lia|]. rewrite !Z.sub_0_r.
  rewrite Zminus_mod, Hmul, Z.sub_0_r, Z.mod_mod by lia. done.
Qed.

(** A mismatch before the cut. *)
Lemma shift_prefix y h s p periodic pos d : critical y s p periodic -> matches y h pos s m ->
  0 < d < (if periodic then p else Z.max s (m - s) + 1) -> ~ occurs y h (pos + d).
Proof.
  intros Hc Hm Hd Ho. pose proof (cr_range _ _ _ _ Hc) as Hrange.
  assert (Hrep : local_rep y s d) by (apply (occurs_rep y h s pos d m); [lia..|done|lia|done]).
  destruct periodic; [by apply (cr_short _ _ _ _ Hc d Hd)|].
  by apply (cr_aperiodic _ _ _ _ Hc eq_refl d ltac:(lia)).
Qed.

(** After a shift by the period the rest of the needle is known to match. *)
Lemma skip_matches y h s p pos : critical y s p true -> matches y h pos s m -> matches y h (pos + p) 0 (m - p).
Proof.
  intros Hc Hm k Hk. destruct (cr_periodic _ _ _ _ Hc eq_refl) as (Hsp & Hper & _).
  rewrite (Hper k) by lia. rewrite <- (Hm (k + p)) by lia. f_equal. lia.
Qed.

End Words.

(** ** The loops *)

(** The letter at a position of a list of bytes. *)
Definition letter (l : list Z) (i : Z) : Z := s8 (l !!! Z.to_nat i).

Lemma s8_inj a b : byte a -> byte b -> s8 a = s8 b -> a = b.
Proof. unfold byte, sN. intros Ha Hb. change (2 ^ 8) with 256. change (2 ^ (8 - 1)) with 128.
  intros He. Z.div_mod_to_equations. lia.
Qed.

Lemma letter_lookup l i : 0 <= i < Z.of_nat (length l) -> exists v, l !! Z.to_nat i = Some v /\ letter l i = s8 v.
Proof.
  intros Hi. destruct (lookup_lt_is_Some_2 l (Z.to_nat i)) as [v Hv]; [lia|]. exists v. split; [done|].
  unfold letter. by rewrite (list_lookup_total_correct _ _ _ Hv).
Qed.

Lemma ld_char_at m a l i : bytes_at m a l -> 0 <= i < Z.of_nat (length l) -> ld_char m (a + i) = Some (letter l i).
Proof.
  intros Hl Hi. destruct (letter_lookup l i Hi) as (v & Hv & ->). rewrite bytes_at_lookup in Hl.
  specialize (Hl _ _ Hv). rewrite Z2Nat.id in Hl by lia. unfold ld_char, ld. by rewrite Hl.
Qed.

Lemma ld_char_head m a c l : bytes_at m a (c :: l) -> ld_char m a = Some (s8 c).
Proof. intros [Hc _]. unfold ld_char, ld. by rewrite Hc. Qed.

Section Search.
  Context (m : mem) (needle : Z) (x : list Z).
  Context (Hneedle : bytes_at m needle x) (Hx : Forall byte x).
Let len := Z.of_nat (length x).

Lemma maximal_suffix_loop_ok (OP : Z -> Z -> bool) (f : Z -> Z) :
  (forall a b, OP a b = (f a <? f b)) -> (forall a b, f a = f b -> a = b) ->
  forall fuel s p j k, suffix_inv len (fun i => f (letter x i)) s p j k ->
  7 * len - (2 * s + 3 * j + 2 * k) <= Z.of_nat fuel ->
  exists s' p', maximal_suffix_loop OP fuel m needle len s p j k = Some (s', p') /\
    max_suffix len (fun i => f (letter x i)) s' p'.
Proof.
  intros HOP Hf. induction fuel as [|fuel IH]; intros s p j k Hinv Hfuel; cbn [maximal_suffix_loop];
    pose proof (si_range _ _ _ _ _ _ Hinv) as Hr; destruct (Z.ltb_spec (j + k) len) as [Hlt|Hge];
    try (eexists _, _; split; [done|by apply (inv_final len _ s p j k)]); [lia|].
  rewrite !(ld_char_at m needle x) by (try done; fold len; lia). cbn [mbind option_bind]. rewrite HOP.
  destruct (Z.ltb_spec (f (letter x (j + k))) (f (letter x (s + k)))) as [Hl|Hl].
  - apply IH; [|lia]. by apply (inv_smaller len _ s p j k).
  - destruct (Z.eqb_spec (letter x (j + k)) (letter x (s + k))) as [He|He].
    + destruct (Z.eqb_spec k p) as [->|Hk].
      * apply IH; [|lia]. by apply inv_whole_period.
      * apply IH; [|lia]. apply inv_equal; [done|lia|by rewrite He|done].
    + apply IH; [|lia]. apply (inv_larger len _ s p j k); [done|done|].
      assert (f (letter x (j + k)) <> f (letter x (s + k))) by auto. lia.
Qed.

Lemma max_suffix_ext (y z : Z -> Z) n s p : (forall i, y i = z i) -> max_suffix n y s p -> max_suffix n z s p.
Proof.
  intros Heq [H1 H2 H3 H4]. split; [done| | |].
  - intros i Hi Hn. rewrite <- !Heq. by apply H2.
  - intros i Hi. destruct (H3 i Hi) as (k & ? & ? & ? & ? & H). exists k. rewrite <- !Heq. repeat (split; [done|]).
    intros k' Hk'. rewrite <- !Heq. by apply H.
  - intros r Hr. destruct (H4 r Hr) as (k & ? & ? & H). exists k. rewrite <- !Heq. repeat (split; [done|]).
    intros k' Hk'. rewrite <- !Heq. by apply H.
Qed.

Lemma maximal_suffix_ok : 1 <= len -> exists s p s2 p2 (f : Z -> Z),
  maximal_suffix m needle len = Some (s, p) /\ (forall a b, f a = f b -> a = b) /\ s2 <= s /\
  max_suffix len (fun i => f (letter x i)) s p /\ max_suffix len (fun i => - f (letter x i)) s2 p2.
Proof.
  intros Hlen. unfold maximal_suffix, maximal_suffix_1, maximal_suffix_2, suffix_fuel.
  destruct (maximal_suffix_loop_ok Z.ltb (fun a => a)) with (fuel := Z.to_nat (7 * len)) (s := 0) (p := 1) (j := 1) (k := 0)
    as (s1 & p1 & -> & H1); [done|done|by apply inv_init|lia|].
  destruct (maximal_suffix_loop_ok Z.gtb Z.opp) with (fuel := Z.to_nat (7 * len)) (s := 0) (p := 1) (j := 1) (k := 0)
    as (s2 & p2 & -> & H2); [intros; rewrite Z.gtb_ltb; zcases|lia|by apply inv_init|lia|].
  cbn [mbind option_bind]. destruct (Z.leb_spec s2 s1).
  - exists s1, p1, s2, p2, (fun a => a). by repeat (split; [done|]).
  - exists s2, p2, s1, p1, Z.opp. split; [done|]. split; [lia|]. split; [lia|]. split; [done|]. eapply max_suffix_ext; [|exact H1]. intros i. simpl. lia.
Qed.

(** ** Comparing with the haystack *)

  Context (haystack : Z) (h : list Z).
  Context (Hhaystack : bytes_at m haystack h) (Hh : Forall byte h).
Let hlen := Z.of_nat (length h).

Lemma compare_suffix_ok pos fuel i : 0 <= pos -> pos + len <= hlen -> 0 <= i <= len -> len - i <= Z.of_nat fuel ->
  exists i', compare_suffix fuel m needle len (haystack + pos) i = Some i' /\ i <= i' <= len /\
    matches (letter x) (letter h) pos i i' /\ (i' < len -> letter h (pos + i') <> letter x i').
Proof.
  intros Hpos Hfit. revert i. induction fuel as [|fuel IH]; intros i Hi Hf; cbn [compare_suffix];
    destruct (Z.ltb_spec i len); try lia;
    try (exists i; split; [done|]; split; [lia|]; split; [intros k Hk; lia|lia]).
  rewrite <- Z.add_assoc. rewrite (ld_char_at m needle x), (ld_char_at m haystack h) by (try done; fold len hlen; lia).
  cbn [mbind option_bind]. destruct (Z.eqb_spec (letter x i) (letter h (pos + i))) as [He|He].
  - destruct (IH (i + 1)) as (i' & -> & Hi' & Hm & Hne); [lia..|]. exists i'. split; [done|]. split; [lia|]. split; [|done].
    intros k Hk. destruct (Z.eq_dec k i) as [->|]; [done|apply Hm; lia].
  - exists i. split; [done|]. split; [lia|]. split; [intros k Hk; lia|]. intros _ Heq. by apply He.
Qed.

Lemma compare_prefix_ok pos skip fuel j : 0 <= pos -> pos + len <= hlen -> 0 <= skip -> j <= len ->
  j - skip <= Z.of_nat fuel ->
  exists j', compare_prefix fuel m needle (haystack + pos) skip j = Some j' /\
    (if j' <=? skip then matches (letter x) (letter h) pos skip j else ~ occurs len (letter x) (letter h) pos).
Proof.
  intros Hpos Hfit Hskip. revert j. induction fuel as [|fuel IH]; intros j Hj Hf; cbn [compare_prefix];
    destruct (Z.ltb_spec skip j); try lia;
    try (exists j; split; [done|]; rewrite (proj2 (Z.leb_le j skip)) by lia; intros k Hk; lia).
  rewrite <- Z.add_assoc. rewrite (ld_char_at m needle x), (ld_char_at m haystack h) by (try done; fold len hlen; lia).
  cbn [mbind option_bind]. destruct (Z.eqb_spec (letter x (j - 1)) (letter h (pos + (j - 1)))) as [He|He].
  - destruct (IH (j - 1)) as (j' & -> & Hm); [lia..|]. exists j'. split; [done|]. destruct (j' <=? skip); [|done].
    intros k Hk. destruct (Z.eq_dec k (j - 1)) as [->|]; [done|apply Hm; lia].
  - exists j. split; [done|]. rewrite (proj2 (Z.leb_gt j skip)) by lia. intros Ho. apply He. symmetry. apply Ho. lia.
Qed.

(** ** The search *)

(** The first occurrence, or none. *)
Definition first_occurrence (r : option Z) : Prop :=
  match r with
  | Some a => exists pos, a = haystack + pos /\ 0 <= pos /\ pos + len <= hlen /\
      occurs len (letter x) (letter h) pos /\ forall q, 0 <= q < pos -> ~ occurs len (letter x) (letter h) q
  | None => forall q, 0 <= q -> q + len <= hlen -> ~ occurs len (letter x) (letter h) q
  end.

(** What the loop needs of the test for space. *)
Definition spaceleft_ok (spaceleft : Z -> Z -> option (bool * Z)) (Q : Z -> Prop) : Prop :=
  forall pos he, 0 <= pos -> Q he ->
  exists he', spaceleft (haystack + pos) he = Some (pos + len <=? hlen, he') /\ Q he'.

(** The invariant of the loop at the position [pos]. *)
Record search_inv (periodic : bool) (p pos skip : Z) : Prop := {
  se_pos : 0 <= pos;
  se_none : forall q, 0 <= q < pos -> ~ occurs len (letter x) (letter h) q;
  se_skip : skip = 0 \/ periodic = true /\ skip = len - p;
  se_known : matches (letter x) (letter h) pos 0 skip
}.

Lemma search_shift periodic p pos skip d skip' : search_inv periodic p pos skip -> 0 < d ->
  ~ occurs len (letter x) (letter h) pos ->
  (forall e, 0 < e < d -> ~ occurs len (letter x) (letter h) (pos + e)) ->
  skip' = 0 \/ periodic = true /\ skip' = len - p -> matches (letter x) (letter h) (pos + d) 0 skip' ->
  search_inv periodic p (pos + d) skip'.
Proof.
  intros [H1 H2 H3 H4] Hd Hhere Hbetween Hs Hm. split; [lia| |done|done].
  intros q Hq. destruct (Z.lt_trichotomy q pos) as [|[->|]]; [apply H2; lia|done|].
  replace q with (pos + (q - pos)) by lia. apply Hbetween. lia.
Qed.

(** A mismatch behind the cut. *)
Lemma search_suffix_mismatch periodic s p pos skip i :
  critical len (letter x) s p periodic -> search_inv periodic p pos skip -> 0 <= skip -> pos + len <= hlen ->
  (if skip <=? s then s else skip) <= i < len ->
  matches (letter x) (letter h) pos (if skip <=? s then s else skip) i -> letter h (pos + i) <> letter x i ->
  exists d, 0 < d /\ search_inv periodic p (pos + d) 0 /\
    (if (skip <=? p) || (skip - p <=? i - s) then haystack + pos + (i - s + 1)
     else haystack + pos + (skip - p + 1)) = haystack + (pos + d).
Proof.
  intros Hc Hinv Hskip Hfit Hi Hm Hne. pose proof (cr_range _ _ _ _ _ Hc) as Hrange.
  assert (Hsi : s <= i /\ skip <= i) by (destruct (Z.leb_spec skip s); lia).
  assert (Hms : matches (letter x) (letter h) pos s i).
  { intros k Hk. destruct (Z.leb_spec skip s); [by apply Hm|].
    destruct (Z.lt_ge_cases k skip); [apply (se_known _ _ _ _ Hinv); lia|apply Hm; lia]. }
  assert (Hhere : ~ occurs len (letter x) (letter h) pos) by (intros Ho; apply Hne, Ho; lia).
  destruct ((skip <=? p) || (skip - p <=? i - s)) eqn:E.
  - exists (i - s + 1). split; [lia|]. split; [|lia].
    apply (search_shift periodic p pos skip); [done|lia|done| |by left|intros k Hk; lia].
    intros e He. apply (shift_suffix len _ _ s p periodic pos i); [done|done|lia|done|lia].
  - apply orb_false_iff in E as [E1 E2]. exists (skip - p + 1). zprop. split; [lia|]. split; [|lia].
    destruct (se_skip _ _ _ _ Hinv) as [|[-> Hsk]]; [lia|].
    apply (search_shift true p pos skip); [done|lia|done| |by left|intros k Hk; lia].
    intros e He. apply (shift_skip len _ _ s p pos skip i); [done|apply Hinv|lia|lia|done|lia].
Qed.

(** A mismatch before it. *)
Lemma search_prefix_mismatch periodic s p pos skip :
  critical len (letter x) s p periodic -> (periodic = false -> 0 < s) -> search_inv periodic p pos skip ->
  matches (letter x) (letter h) pos s len -> ~ occurs len (letter x) (letter h) pos ->
  exists d skip', 0 < d /\ search_inv periodic p (pos + d) skip' /\
    (if periodic then mismatch_periodic len p else mismatch_aperiodic len s) (haystack + pos) skip =
      (haystack + (pos + d), skip').
Proof.
  intros Hc Hs Hinv Hm Hhere. pose proof (cr_range _ _ _ _ _ Hc) as Hrange. destruct periodic.
  - exists p, (len - p). split; [lia|]. split; [|unfold mismatch_periodic; f_equal; lia].
    apply (search_shift true p pos skip); [done|lia|done| |by right|].
    + intros e He. by apply (shift_prefix len _ _ s p true pos).
    + by apply (skip_matches len _ _ s).
  - exists (Z.max s (len - s) + 1), 0. split; [lia|]. destruct (se_skip _ _ _ _ Hinv) as [->|[? _]]; [|done]. split.
    + apply (search_shift false p pos 0); [done|lia|done| |by left|intros k Hk; lia].
      intros e He. by apply (shift_prefix len _ _ s p false pos).
    + unfold mismatch_aperiodic. zcases; f_equal; lia.
Qed.

Lemma TWOWAY_PART_ok spaceleft Q periodic s p :
  critical len (letter x) s p periodic -> (periodic = false -> 0 < s) -> spaceleft_ok spaceleft Q ->
  forall fuel pos he skip, search_inv periodic p pos skip -> Q he -> hlen - len - pos < Z.of_nat fuel ->
  exists r, TWOWAY_PART spaceleft (if periodic then mismatch_periodic len p else mismatch_aperiodic len s)
      fuel m needle len s p (haystack + pos) he skip = Some r /\ first_occurrence r.
Proof.
  intros Hc Hs Hsp. pose proof (cr_range _ _ _ _ _ Hc) as Hrange.
  induction fuel as [|fuel IH]; intros pos he skip Hinv HQ Hf; cbn [TWOWAY_PART];
    pose proof (se_pos _ _ _ _ Hinv) as Hpos; destruct (Hsp pos he Hpos HQ) as (he' & -> & HQ');
    cbn [mbind option_bind]; destruct (Z.leb_spec (pos + len) hlen) as [Hfit|Hout]; cbn [negb]; try lia;
    try (exists None; split; [done|]; intros q Hq Hql; apply (se_none _ _ _ _ Hinv); lia).
  assert (Hskip : 0 <= skip <= len) by (destruct (se_skip _ _ _ _ Hinv) as [|[_ ?]]; lia).
  destruct (compare_suffix_ok pos (Z.to_nat len) (if skip <=? s then s else skip)) as (i & -> & Hi & Hm & Hne);
    [lia|lia|destruct (skip <=? s); lia|destruct (skip <=? s); lia|]. cbn [mbind option_bind].
  destruct (Z.ltb_spec i len) as [Hil|Hil].
  - destruct (search_suffix_mismatch periodic s p pos skip i) as (d & Hd & Hinv' & ->); [done..|lia|lia|lia|done|by apply Hne|].
    apply IH; [done|done|lia].
  - assert (i = len) as -> by lia.
    assert (Hms : matches (letter x) (letter h) pos s len).
    { intros k Hk. destruct (Z.leb_spec skip s); [by apply Hm|].
      destruct (Z.lt_ge_cases k skip); [apply (se_known _ _ _ _ Hinv); lia|apply Hm; lia]. }
    destruct (compare_prefix_ok pos skip (Z.to_nat len) s) as (j & -> & Hj); [lia..|]. cbn [mbind option_bind].
    destruct (j <=? skip).
    + exists (Some (haystack + pos)). split; [done|]. exists pos. split; [done|]. split; [lia|]. split; [lia|].
      split; [|apply Hinv]. intros k Hk. destruct (Z.lt_ge_cases k skip); [apply (se_known _ _ _ _ Hinv); lia|].
      destruct (Z.lt_ge_cases k s); [apply Hj; lia|apply Hms; lia].
    + destruct (search_prefix_mismatch periodic s p pos skip) as (d & skip' & Hd & Hinv' & ->); [done..|].
      apply IH; [done|done|lia].
Qed.

(** Occurrences as prefixes of what is left of the haystack. *)
Lemma occurs_prefix pos : 0 <= pos -> pos + len <= hlen ->
  (occurs len (letter x) (letter h) pos <-> x `prefix_of` drop (Z.to_nat pos) h).
Proof.
  intros Hpos Hfit. split.
  - intros Ho. exists (drop (length x) (drop (Z.to_nat pos) h)). apply list_eq_same_length with (n := length (drop (Z.to_nat pos) h));
      [rewrite length_app, !length_drop; unfold len, hlen in *; lia|done|].
    intros i a b Hi Ha Hb. destruct (Nat.lt_ge_cases i (length x)) as [Hx1|Hx1].
    + rewrite lookup_app_l in Hb by done. rewrite lookup_drop in Ha.
      specialize (Ho (Z.of_nat i) ltac:(unfold len; lia)). unfold letter in Ho.
      rewrite Nat2Z.id, (list_lookup_total_correct x i b Hb) in Ho.
      replace (Z.to_nat (pos + Z.of_nat i)) with (Z.to_nat pos + i)%nat in Ho by lia.
      rewrite (list_lookup_total_correct h _ a Ha) in Ho.
      apply s8_inj; [by apply (Forall_lookup_1 _ _ _ _ Hh Ha)|by apply (Forall_lookup_1 _ _ _ _ Hx Hb)|done].
    + rewrite lookup_app_r, lookup_drop in Hb by done. replace (length x + (i - length x))%nat with i in Hb by lia. congruence.
  - intros [k Hk] i Hi. unfold letter. f_equal. replace (Z.to_nat (pos + i)) with (Z.to_nat pos + Z.to_nat i)%nat by lia.
    rewrite <- lookup_total_drop, Hk. by apply lookup_total_app_l; unfold len in Hi; lia.
Qed.

Lemma prefix_fits j : 0 < len -> x `prefix_of` drop j h -> Z.of_nat j + len <= hlen.
Proof. intros Hl Hp. apply prefix_length in Hp. rewrite length_drop in Hp. unfold len, hlen in *. lia. Qed.

Lemma first_occurrence_search r : 0 < len -> first_occurrence r -> r = found haystack (search x h).
Proof.
  intros Hl. destruct r as [a|]; cbn [first_occurrence].
  - intros (pos & -> & Hpos & Hfit & Ho & Hn). rewrite (search_Some x h (Z.to_nat pos)).
    + unfold found. simpl. f_equal. lia.
    + by apply occurs_prefix.
    + intros j Hj Hp. apply (Hn (Z.of_nat j)); [lia|]. apply occurs_prefix; [lia|by apply prefix_fits|by rewrite Nat2Z.id].
  - intros Hn. rewrite search_None; [done|]. intros j Hp. pose proof (prefix_fits j Hl Hp).
    apply (Hn (Z.of_nat j)); [lia|done|]. apply occurs_prefix; [lia|done|by rewrite Nat2Z.id].
Qed.

Lemma critical_map (f y : Z -> Z) n s p b : (forall a b, f a = f b -> a = b) ->
  critical n (fun i => f (y i)) s p b -> critical n y s p b.
Proof.
  intros Hf [H1 H2 H3 H4].
  assert (Hrep : forall r, local_rep n y s r -> local_rep n (fun i => f (y i)) s r).
  { intros r Hr k Hk Hks Hkm. f_equal. by apply Hr. }
  split; [done| | |].
  - intros Hb. destruct (H2 Hb) as (Hs & Hp & Hm). split; [done|]. split; [intros i Hi Hn; apply Hf; by apply Hp|].
    intros r Hr Hl. by apply Hm, Hrep.
  - intros r Hr Hl. by apply (H3 r Hr), Hrep.
  - intros Hb r Hr Hl. by apply (H4 Hb r Hr), Hrep.
Qed.

Lemma cmp_spec_zero l1 l2 : length l1 = length l2 -> (cmp_spec l1 l2 = 0 <-> l1 = l2).
Proof.
  revert l2. induction l1 as [|a l1 IH]; intros [|b l2] Hl; try done. simpl in *. destruct (Z.eqb_spec a b) as [->|Hne].
  - rewrite IH by lia. split; [by intros ->|by intros [= ->]].
  - split; [lia|by intros [= -> _]].
Qed.

(** memcmp tells whether the prefix continues the period. *)
Lemma memcmp_periodic s p : mem_ok m -> 0 <= s -> 1 <= p -> s + p <= len ->
  exists c, memcmp m needle (needle + p) s = Some c /\
    ((c =? 0) = true <-> forall k, 0 <= k < s -> letter x k = letter x (k + p)).
Proof.
  intros Hm Hs Hp Hfit. set (l1 := take (Z.to_nat s) x). set (l2 := take (Z.to_nat s) (drop (Z.to_nat p) x)).
  assert (Hl1 : length l1 = Z.to_nat s) by (unfold l1; rewrite length_take; unfold len in Hfit; lia).
  assert (Hl2 : length l2 = Z.to_nat s) by (unfold l2; rewrite length_take, length_drop; unfold len in Hfit; lia).
  assert (Hb1 : bytes_at m needle l1).
  { rewrite <- (take_drop (Z.to_nat s) x) in Hneedle. by apply bytes_at_app in Hneedle as [? _]. }
  assert (Hb2 : bytes_at m (needle + p) l2).
  { rewrite <- (take_drop (Z.to_nat p) x) in Hneedle. apply bytes_at_app in Hneedle as [_ Hd].
    rewrite length_take_le, Z2Nat.id in Hd by (unfold len in Hfit; lia).
    rewrite <- (take_drop (Z.to_nat s) (drop (Z.to_nat p) x)) in Hd. by apply bytes_at_app in Hd as [? _]. }
  exists (cmp_spec l1 l2). split.
  - rewrite <- (memcmp_ok m needle (needle + p) l1 l2) by (try done; lia). f_equal. lia.
  - rewrite Z.eqb_eq, cmp_spec_zero by lia.
    assert (Hlk : forall k, 0 <= k < s -> l1 !! Z.to_nat k = x !! Z.to_nat k /\ l2 !! Z.to_nat k = x !! Z.to_nat (k + p)).
    { intros k Hk. unfold l1, l2. rewrite !lookup_take_lt, lookup_drop by lia. split; [done|]. f_equal. lia. }
    split.
    + intros He k Hk. destruct (Hlk k Hk) as [H1 H2]. rewrite He, H2 in H1. unfold letter. 
      by rewrite !list_lookup_total_alt, H1.
    + intros He. apply list_eq_same_length with (n := Z.to_nat s); [lia..|]. intros i a b Hi Ha Hb.
      destruct (Hlk (Z.of_nat i) ltac:(lia)) as [H1 H2]. rewrite Nat2Z.id in H1, H2.
      specialize (He (Z.of_nat i) ltac:(lia)). unfold letter in He. rewrite Nat2Z.id in He.
      rewrite (list_lookup_total_correct x i a), (list_lookup_total_correct x _ b) in He by congruence.
      apply s8_inj; [| |done]; eapply (Forall_lookup_1 _ x); [exact Hx|by rewrite <- H1|exact Hx|by rewrite <- H2].
Qed.

Lemma twoway_ok spaceleft Q fuel he : mem_ok m -> 1 <= len -> spaceleft_ok spaceleft Q -> Q he ->
  hlen < Z.of_nat fuel ->
  twoway spaceleft fuel m haystack he needle len = Some (found haystack (search x h)).
Proof.
  intros Hm Hlen Hsp HQ Hf. unfold twoway.
  destruct (maximal_suffix_ok Hlen) as (s & p & s2 & p2 & f & -> & Hinj & Hs2 & H1 & H2). cbn [mbind option_bind].
  pose proof (ms_range _ _ _ _ H1) as Hrange. destruct (memcmp_periodic s p) as (c & -> & Hc); [done|lia..|].
  cbn [mbind option_bind].
  assert (Hcrit : critical len (letter x) s p (c =? 0)).
  { apply (critical_map f); [done|]. eapply critical_factorisation; [done..|]. rewrite Hc.
    split; [intros H k Hk; f_equal; by apply H|intros H k Hk; apply Hinj; by apply H]. }
  destruct (TWOWAY_PART_ok spaceleft Q (c =? 0) s p Hcrit) with (fuel := fuel) (pos := 0) (he := he) (skip := 0)
    as (r & Hr & Hfirst); [|done| |done|lia|].
  - intros Hap. destruct (Z.eq_dec s 0) as [->|]; [|lia]. assert ((c =? 0) = true); [|congruence].
    apply Hc. intros k Hk. lia.
  - split; [lia|intros q Hq; lia|by left|intros k Hk; lia].
  - rewrite Z.add_0_r in Hr. rewrite Hr. f_equal. apply first_occurrence_search; [lia|done].
Qed.

Lemma memmem_spaceleft_ok : spaceleft_ok memmem_spaceleft (fun he => he = haystack + hlen - len).
Proof.
  intros pos he Hpos ->. exists (haystack + hlen - len). split; [|done]. unfold memmem_spaceleft.
  f_equal. f_equal. zcases.
Qed.

Lemma check_spaceleft_ok fuel : cstring m haystack h -> hlen < Z.of_nat fuel ->
  spaceleft_ok (check_spaceleft fuel m len) (fun he => haystack <= he <= haystack + hlen).
Proof.
  intros [Hc Hn] Hf pos he Hpos Hhe. assert (Hf' : haystack + hlen - he < Z.of_nat fuel) by lia. clear Hf.
  revert he Hhe Hf'. induction fuel as [|fuel IH]; intros he Hhe Hf; [lia|]. cbn [check_spaceleft].
  destruct (Z.ltb_spec he (haystack + pos + len)) as [Hlt|Hge].
  - assert (Hld : ld_char m (haystack + (he - haystack)) = Some (letter (h ++ [0]) (he - haystack)))
      by (apply ld_char_at; [done|rewrite length_app; unfold hlen in *; simpl; lia]).
    replace (haystack + (he - haystack)) with he in Hld by lia. rewrite Hld.
    cbn [mbind option_bind]. destruct (letter_lookup (h ++ [0]) (he - haystack)) as (v & Hv & ->);
      [rewrite length_app; unfold hlen in *; simpl; lia|].
    destruct (Z.eq_dec (he - haystack) hlen) as [Hend|Hin].
    + rewrite lookup_app_r in Hv by (unfold hlen in *; lia). rewrite Hend in Hv. unfold hlen in Hv.
      rewrite Nat2Z.id, Nat.sub_diag in Hv. injection Hv as <-. exists he. split; [|lia].
      change (s8 0 =? 0) with true. cbv iota. f_equal. f_equal. zcases.
    + rewrite lookup_app_l in Hv by (unfold hlen in *; lia). destruct (Z.eqb_spec (s8 v) 0) as [Hz|Hz].
      * exfalso. apply Hn. apply (list_elem_of_lookup_2 _ (Z.to_nat (he - haystack))).
        replace 0 with v; [done|]. apply s8_inj; [by apply (Forall_lookup_1 _ _ _ _ Hh Hv)|done|done].
      * apply IH; lia.
  - exists he. split; [|lia]. f_equal. f_equal. zcases.
Qed.

End Search.

(** ** memmem and strstr *)

Lemma mem_ok_bytes m a l : mem_ok m -> bytes_at m a l -> Forall byte l.
Proof.
  intros Hm Hl. apply Forall_lookup_2. intros i v Hv. rewrite bytes_at_lookup in Hl.
  by apply (mem_bytes m Hm (a + Z.of_nat i)), Hl.
Qed.

Lemma found_zero s : found s (Some 0%nat) = Some s.
Proof. unfold found. simpl. f_equal. lia. Qed.

(** The search for one character. *)
Lemma is_first_search s h c r : is_first s h c r -> r = found s (search [c] h).
Proof.
  destruct r as [a|]; cbn [is_first].
  - intros (i & -> & Hi & Hj). rewrite (search_Some [c] h i); [done| |].
    + rewrite (drop_S _ _ _ Hi). by exists (drop (S i) h).
    + intros j Hji [k Hk]. apply (Hj j Hji). rewrite <- (Nat.add_0_r j), <- lookup_drop, Hk. done.
  - intros Hc. rewrite search_None; [done|]. intros j [k Hk]. apply Hc. apply (list_elem_of_lookup_2 _ j).
    rewrite <- (Nat.add_0_r j), <- lookup_drop, Hk. done.
Qed.

Lemma u8_s8 v : byte v -> u8 (s8 v) = v.
Proof.
  unfold byte, sN, uN. intros H. change (2 ^ 8) with 256. change (2 ^ (8 - 1)) with 128. Z.div_mod_to_equations. lia.
Qed.

Lemma search_nil h : search [] h = Some 0%nat.
Proof. destruct h; cbn [search]; rewrite bool_decide_true; done || apply prefix_nil. Qed.

Lemma memmem_ok m s1 h s2 x : mem_ok m -> bytes_at m s1 h -> bytes_at m s2 x ->
  memmem m s1 (Z.of_nat (length h)) s2 (Z.of_nat (length x)) = Some (found s1 (search x h)).
Proof.
  intros Hm Hh Hx. unfold memmem. pose proof (mem_ok_bytes _ _ _ Hm Hh) as Hhb. pose proof (mem_ok_bytes _ _ _ Hm Hx) as Hxb.
  destruct (Z.ltb_spec (Z.of_nat (length h)) (Z.of_nat (length x))) as [Hlt|Hge].
  { rewrite search_None; [done|]. intros j Hp%prefix_length. rewrite length_drop in Hp. lia. }
  destruct x as [|c x]; [by rewrite search_nil, found_zero|]. rewrite (proj2 (Z.eqb_neq (Z.of_nat (length (c :: x))) 0)) by (simpl; lia).
  destruct (Z.eqb_spec (Z.of_nat (length (c :: x))) 1) as [H1|H1].
  - destruct x; [|simpl in H1; lia].
    rewrite (ld_char_head m s2 c []) by done. cbn [mbind option_bind]. rewrite Nat2Z.id.
    destruct (memchr_ok (s8 c) h m s1 Hh) as (r & -> & Hr). f_equal. apply is_first_search.
    rewrite u8_s8 in Hr; [done|by inversion Hxb].
  - unfold twoway_memmem. eapply (twoway_ok m s2 (c :: x) Hx Hxb s1 h Hh Hhb); [done|simpl; lia|apply memmem_spaceleft_ok|done|lia].
Qed.

Lemma is_first_app s h c r : c <> 0 -> is_first s (h ++ [0]) c r -> is_first s h c r.
Proof.
  intros Hc. destruct r as [a|]; cbn [is_first].
  - intros (i & -> & Hi & Hj). exists i. split; [done|]. apply lookup_app_Some in Hi as [Hi|[Hl Hi]].
    + split; [done|]. intros j Hji Hjc. apply (Hj j Hji). by apply lookup_app_l_Some.
    + destruct (i - length h)%nat; [injection Hi as Hz; congruence|done].
  - set_solver.
Qed.

Lemma strstr_ok m s1 h s2 x fuel : mem_ok m -> cstring m s1 h -> cstring m s2 x ->
  (length h < fuel)%nat -> (length x < fuel)%nat ->
  strstr fuel m s1 s2 = Some (found s1 (search x h)).
Proof.
  intros Hm Hh Hx Hf1 Hf2. unfold strstr. rewrite (strlen_ok m s2 x) by done. cbn [mbind option_bind].
  assert (Hhb := Hh). destruct Hhb as [Hh1 _]. apply bytes_at_app in Hh1 as [Hh1 _].
  assert (Hxb := Hx). destruct Hxb as [Hx1 Hx0]. apply bytes_at_app in Hx1 as [Hx1 _].
  pose proof (mem_ok_bytes _ _ _ Hm Hh1) as Hhb. pose proof (mem_ok_bytes _ _ _ Hm Hx1) as Hxb.
  destruct x as [|c x]; [by rewrite search_nil, found_zero|]. rewrite (proj2 (Z.eqb_neq (Z.of_nat (length (c :: x))) 0)) by (simpl; lia).
  destruct (Z.eqb_spec (Z.of_nat (length (c :: x))) 1) as [H1|H1].
  - destruct x; [|simpl in H1; lia].
    rewrite (ld_char_head m s2 c []) by done. cbn [mbind option_bind].
    destruct (strchr_ok (s8 c) fuel m s1 h Hf1 Hh) as (r & -> & Hr). f_equal. apply is_first_search, is_first_app.
    + set_solver.
    + rewrite u8_s8 in Hr; [done|by inversion Hxb].
  - unfold twoway_strstr. eapply (twoway_ok m s2 (c :: x) Hx1 Hxb s1 h Hh1 Hhb);
      [done|simpl; lia|apply check_spaceleft_ok; [done|done|lia]|simpl; lia|lia].
Qed.

(** C23: memmem and strstr find the first occurrence of the needle, as the naive
    search does, and a null pointer when there is none.  They terminate: strstr
    in a number of steps bounded by the lengths of its operands, memmem without
    a bound being given; and they read only their operands (and, inside memcmp,
    the longs these lie in). *)
Theorem memmem_strstr_correct m (Hm : mem_ok m) :
  (forall s1 h s2 x, bytes_at m s1 h -> bytes_at m s2 x ->
     memmem m s1 (Z.of_nat (length h)) s2 (Z.of_nat (length x)) = Some (found s1 (search x h))) /\
  (forall s1 h s2 x fuel, cstring m s1 h -> cstring m s2 x -> (length h < fuel)%nat -> (length x < fuel)%nat ->
     strstr fuel m s1 s2 = Some (found s1 (search x h))).
Proof.
  split; [intros; by apply memmem_ok|intros; by apply strstr_ok].
Qed.

(** "abcabcabdabcabc" at 0, terminated, and "abcabd" at 16. *)
Definition search_mem : mem :=
  write ∅ 0 ([97; 98; 99; 97; 98; 99; 97; 98; 100; 97; 98; 99; 97; 98; 99; 0] ++ [97; 98; 99; 97; 98; 100; 0; 0]).

Lemma memmem_strstr_correct_witness :
  memmem search_mem 0 15 16 6 = Some (Some 3) /\ strstr 20 search_mem 0 16 = Some (Some 3) /\
  strstr 20 search_mem 16 0 = Some None.
Proof.
  assert (Hm : mem_ok search_mem) by (apply mem_ok_block; [done|done|repeat constructor; done]).
  destruct (memmem_strstr_correct search_mem Hm) as [H1 H2].
  assert (Hh : cstring search_mem 0 [97; 98; 99; 97; 98; 99; 97; 98; 100; 97; 98; 99; 97; 98; 99])
    by (split; [repeat split|apply (bool_decide_unpack _); vm_compute; exact I]).
  assert (Hx : cstring search_mem 16 [97; 98; 99; 97; 98; 100])
    by (split; [repeat split|apply (bool_decide_unpack _); vm_compute; exact I]).
  split; [|split].
  - exact (H1 0 [97; 98; 99; 97; 98; 99; 97; 98; 100; 97; 98; 99; 97; 98; 99] 16 [97; 98; 99; 97; 98; 100]
      (proj1 (proj1 (bytes_at_app _ _ _ _) (proj1 Hh))) (proj1 (proj1 (bytes_at_app _ _ _ _) (proj1 Hx)))).
  - exact (H2 0 _ 16 _ 20%nat Hh Hx ltac:(simpl; lia) ltac:(simpl; lia)).
  - exact (H2 16 _ 0 _ 20%nat Hx Hh ltac:(simpl; lia) ltac:(simpl; lia)).
Defined.
