(* ===== verification/LockAbi.v ===== *)
(** * The lock words shared with the kernel

    The read-write locks of src/libc/pthread are words that user space changes
    with atomic instructions and the kernel changes on its own when threads
    block.  The layout of the word and the kernel are not part of the
    repository: [LockAbi] and [Kernel] are the documented interface, the
    theorems of RwLock and Once are proved against them, and the end of this
    file has an instance of each.

    A word without its managed bit, its body, is 0 when the lock is free, the
    number of read locks, or the owner's thread identifier with the bit
    [CLOUDABI_LOCK_WRLOCKED].  [CLOUDABI_LOCK_KERNEL_MANAGED] tells that
    threads are asleep: the lock then has to be released by the kernel. *)

From S2P Require Import Prelude.

#[local] Open Scope Z_scope.

(** ** The word *)

Class LockAbi := {
  WRLOCKED_bit : Z;
  KERNEL_MANAGED_bit : Z;
  lock_bits : 0 <= WRLOCKED_bit < KERNEL_MANAGED_bit /\ KERNEL_MANAGED_bit < 32
}.

Section Words.
  Context `{LockAbi}.

Definition CLOUDABI_LOCK_UNLOCKED : Z := 0.
Definition CLOUDABI_LOCK_WRLOCKED : Z := 2 ^ WRLOCKED_bit.
Definition CLOUDABI_LOCK_KERNEL_MANAGED : Z := 2 ^ KERNEL_MANAGED_bit.

(** The tests of the code: [old & ~KERNEL_MANAGED], [(old & KERNEL_MANAGED) != 0],
    [(old & WRLOCKED) != 0] and [tid | WRLOCKED]. *)
Definition lock_body (w : Z) : Z := Z.land w (u32 (Z.lnot CLOUDABI_LOCK_KERNEL_MANAGED)).
Definition lock_managed (w : Z) : bool := negb (Z.land w CLOUDABI_LOCK_KERNEL_MANAGED =? 0).
Definition lock_wrlocked (w : Z) : bool := negb (Z.land w CLOUDABI_LOCK_WRLOCKED =? 0).
Definition wr_word (t : Z) : Z := Z.lor t CLOUDABI_LOCK_WRLOCKED.

(** A thread identifier, and a number of read locks, leaves the flags alone. *)
Definition lock_small (x : Z) : Prop := 0 <= x < CLOUDABI_LOCK_WRLOCKED.

(** The words made of a body and the managed bit. *)
Definition enc (managed : bool) (x : Z) : Z :=
  x + if managed then CLOUDABI_LOCK_KERNEL_MANAGED else 0.

Definition word_ok (w : Z) : Prop := 0 <= w < 2 * CLOUDABI_LOCK_KERNEL_MANAGED.

Lemma WRLOCKED_pos : 0 < CLOUDABI_LOCK_WRLOCKED.
Proof. pose proof lock_bits. apply Z.pow_pos_nonneg; lia. Qed.

Lemma WRLOCKED_MANAGED : 2 * CLOUDABI_LOCK_WRLOCKED <= CLOUDABI_LOCK_KERNEL_MANAGED.
Proof.
  pose proof lock_bits. unfold CLOUDABI_LOCK_WRLOCKED, CLOUDABI_LOCK_KERNEL_MANAGED.
  rewrite <- Z.pow_succ_r by lia. apply Z.pow_le_mono_r; lia.
Qed.

Lemma MANAGED_u32 : 2 * CLOUDABI_LOCK_KERNEL_MANAGED <= 2 ^ 32.
Proof.
  pose proof lock_bits. unfold CLOUDABI_LOCK_KERNEL_MANAGED.
  rewrite <- Z.pow_succ_r by lia. apply Z.pow_le_mono_r; lia.
Qed.

Lemma land_pow2 w k : 0 <= k -> Z.land w (2 ^ k) = if Z.testbit w k then 2 ^ k else 0.
Proof.
  intros Hk. apply Z.bits_inj'. intros i Hi. rewrite Z.land_spec, Z.pow2_bits_eqb by done.
  destruct (Z.eqb_spec k i) as [<-|Hn].
  - destruct (Z.testbit w k); [by rewrite Z.pow2_bits_true|by rewrite Z.bits_0].
  - rewrite andb_false_r. destruct (Z.testbit w k); [|by rewrite Z.bits_0].
    by rewrite Z.pow2_bits_false.
Qed.

Lemma flag_test w k : 0 <= k -> negb (Z.land w (2 ^ k) =? 0) = Z.testbit w k.
Proof.
  intros Hk. rewrite land_pow2 by done. destruct (Z.testbit w k); [|done].
  destruct (Z.eqb_spec (2 ^ k) 0); [|done]. pose proof (Z.pow_pos_nonneg 2 k). lia.
Qed.

Lemma testbit_flag x k i : 0 <= k -> 0 <= x < 2 ^ k -> 0 <= i ->
  Z.testbit (x + 2 ^ k) i = (i =? k) || Z.testbit x i.
Proof.
  intros Hk Hx Hi.
  rewrite <- lor_disjoint, Z.lor_spec, Z.pow2_bits_eqb, (Z.eqb_sym k), orb_comm; [done|done|].
  rewrite Z.land_comm. rewrite <- (Z.mul_1_l (2 ^ k)). by apply land_shifted_low.
Qed.

Lemma wr_word_add t : lock_small t -> wr_word t = t + CLOUDABI_LOCK_WRLOCKED.
Proof.
  intros Ht. pose proof lock_bits. apply lor_disjoint. rewrite Z.land_comm.
  unfold CLOUDABI_LOCK_WRLOCKED. rewrite <- (Z.mul_1_l (2 ^ _)). apply land_shifted_low; [lia|done].
Qed.

Lemma enc_ok b x : 0 <= x < CLOUDABI_LOCK_KERNEL_MANAGED -> word_ok (enc b x).
Proof. unfold word_ok, enc. destruct b; lia. Qed.

Lemma word_enc w : word_ok w -> exists b x, w = enc b x /\ 0 <= x < CLOUDABI_LOCK_KERNEL_MANAGED.
Proof.
  unfold word_ok, enc. intros Hw. destruct (Z.lt_ge_cases w CLOUDABI_LOCK_KERNEL_MANAGED).
  - exists false, w. lia.
  - exists true, (w - CLOUDABI_LOCK_KERNEL_MANAGED). lia.
Qed.

Lemma testbit_enc b x i : 0 <= x < CLOUDABI_LOCK_KERNEL_MANAGED -> 0 <= i ->
  Z.testbit (enc b x) i = (b && (i =? KERNEL_MANAGED_bit)) || Z.testbit x i.
Proof.
  intros Hx Hi. pose proof lock_bits. unfold enc.
  destruct b; [|by rewrite Z.add_0_r]. apply testbit_flag; [lia|done|done].
Qed.

Lemma managed_enc b x : 0 <= x < CLOUDABI_LOCK_KERNEL_MANAGED -> lock_managed (enc b x) = b.
Proof.
  intros Hx. pose proof lock_bits. unfold lock_managed.
  unfold CLOUDABI_LOCK_KERNEL_MANAGED at 1. rewrite flag_test, testbit_enc by (done || lia).
  rewrite Z.eqb_refl, andb_true_r, (testbit_high KERNEL_MANAGED_bit x) by (done || lia).
  apply orb_false_r.
Qed.

Lemma body_enc b x : 0 <= x < CLOUDABI_LOCK_KERNEL_MANAGED -> lock_body (enc b x) = x.
Proof.
  intros Hx. pose proof lock_bits as Hb. apply Z.bits_inj'. intros i Hi. unfold lock_body.
  rewrite Z.land_spec, testbit_enc, uN_testbit, Z.lnot_spec by (done || lia).
  unfold CLOUDABI_LOCK_KERNEL_MANAGED. rewrite Z.pow2_bits_eqb by lia.
  destruct (Z.lt_ge_cases i KERNEL_MANAGED_bit).
  - rewrite (proj2 (Z.eqb_neq i _)), (proj2 (Z.eqb_neq _ i)), (proj2 (Z.ltb_lt _ _)) by lia.
    by rewrite andb_false_r, andb_true_r.
  - rewrite (testbit_high KERNEL_MANAGED_bit x i) by (done || lia).
    rewrite (Z.eqb_sym i). destruct (KERNEL_MANAGED_bit =? i), b, (i <? 32); done.
Qed.

Lemma wrlocked_enc b x : 0 <= x < CLOUDABI_LOCK_KERNEL_MANAGED ->
  lock_wrlocked (enc b x) = lock_wrlocked x.
Proof.
  intros Hx. pose proof lock_bits. unfold lock_wrlocked, CLOUDABI_LOCK_WRLOCKED.
  rewrite !flag_test, testbit_enc, (proj2 (Z.eqb_neq _ _)), andb_false_r by (done || lia). done.
Qed.

Lemma wrlocked_small x : lock_small x -> lock_wrlocked x = false.
Proof.
  intros Hx. pose proof lock_bits. unfold lock_wrlocked, CLOUDABI_LOCK_WRLOCKED.
  rewrite flag_test by lia. apply (testbit_high WRLOCKED_bit); [done|lia].
Qed.

Lemma wrlocked_wr_word t : lock_small t -> lock_wrlocked (wr_word t) = true.
Proof.
  intros Ht. pose proof lock_bits. rewrite wr_word_add by done.
  unfold lock_wrlocked, CLOUDABI_LOCK_WRLOCKED. rewrite flag_test, testbit_flag by (done || lia).
  by rewrite Z.eqb_refl.
Qed.

Lemma wr_word_range t : lock_small t -> CLOUDABI_LOCK_WRLOCKED <= wr_word t < CLOUDABI_LOCK_KERNEL_MANAGED.
Proof. intros Ht. rewrite wr_word_add by done. pose proof WRLOCKED_MANAGED. unfold lock_small in Ht. lia. Qed.

Lemma wr_word_inj t u : lock_small t -> lock_small u -> wr_word t = wr_word u -> t = u.
Proof. intros. rewrite !wr_word_add in * by done. lia. Qed.

Lemma small_range x : lock_small x -> 0 <= x < CLOUDABI_LOCK_KERNEL_MANAGED.
Proof. pose proof WRLOCKED_MANAGED. pose proof WRLOCKED_pos. unfold lock_small. lia. Qed.

(** A word is its body with the managed bit. *)
Lemma word_split w : word_ok w ->
  w = enc (lock_managed w) (lock_body w) /\ 0 <= lock_body w < CLOUDABI_LOCK_KERNEL_MANAGED.
Proof.
  intros (b & x & -> & Hx)%word_enc. by rewrite managed_enc, body_enc.
Qed.

Lemma wrlocked_body w : word_ok w -> lock_wrlocked w = lock_wrlocked (lock_body w).
Proof. intros Hw. destruct (word_split w Hw) as [E Hb]. rewrite E at 1. by apply wrlocked_enc. Qed.

Lemma enc_inj b x c y : 0 <= x < CLOUDABI_LOCK_KERNEL_MANAGED -> 0 <= y < CLOUDABI_LOCK_KERNEL_MANAGED ->
  enc b x = enc c y -> b = c /\ x = y.
Proof. unfold enc. destruct b, c; lia. Qed.

(** Arithmetic on the body leaves the managed bit alone. *)
Lemma enc_u32 b x : 0 <= x < CLOUDABI_LOCK_KERNEL_MANAGED -> u32 (enc b x) = enc b x.
Proof.
  intros Hx. pose proof (enc_ok b x Hx) as Hw. unfold word_ok in Hw. pose proof MANAGED_u32.
  apply uN_small. unfold in_unsigned. lia.
Qed.

Lemma word_add w d : word_ok w -> 0 <= lock_body w + d < CLOUDABI_LOCK_KERNEL_MANAGED ->
  u32 (w + d) = enc (lock_managed w) (lock_body w + d).
Proof.
  intros Hw Hd. destruct (word_split w Hw) as [E _]. rewrite <- enc_u32 by done.
  f_equal. rewrite E at 1. unfold enc. lia.
Qed.

Lemma lor_managed x : 0 <= x < CLOUDABI_LOCK_KERNEL_MANAGED ->
  Z.lor x CLOUDABI_LOCK_KERNEL_MANAGED = enc true x.
Proof.
  intros Hx. pose proof lock_bits. apply lor_disjoint. rewrite Z.land_comm.
  unfold CLOUDABI_LOCK_KERNEL_MANAGED. rewrite <- (Z.mul_1_l (2 ^ _)). apply land_shifted_low; [lia|done].
Qed.

Lemma enc_false x : enc false x = x.
Proof. unfold enc. lia. Qed.

(** ** The kernel

    A lock in the kernel: its word, the threads asleep on it, and those that
    were given it and have not returned to user space yet. *)

Inductive mode := Rd | Wr.

#[global] Instance mode_eq_dec : EqDecision mode.
Proof. solve_decision. Defined.

Record klock := KLock {
  kword : Z;
  kblocked : list (Z * mode);
  kgranted : list (Z * mode)
}.

(** A poll for a lock event; cloudabi_sys_lock_unlock, which a poll for a
    condition variable event performs too; the time-out of a poll. *)
Inductive kcall := KPoll (t : Z) (m : mode) | KUnlock (t : Z) | KCancel (t : Z) (m : mode).

(** Threads only sleep on a managed lock, and a managed lock is locked. *)
Definition klock_wf (k : klock) : Prop :=
  word_ok (kword k) /\
  (kblocked k <> [] -> lock_managed (kword k) = true) /\
  (lock_managed (kword k) = true -> lock_body (kword k) <> 0) /\
  (forall t m, (t, m) ∈ kblocked k -> lock_small t).

Lemma klock_wf_word k x G : klock_wf k -> 0 <= x < CLOUDABI_LOCK_KERNEL_MANAGED ->
  (lock_managed (kword k) = true -> x <> 0) ->
  klock_wf (KLock (enc (lock_managed (kword k)) x) (kblocked k) G).
Proof.
  intros (Hw & HB & HM & Hs) Hx H0. unfold klock_wf. simpl. rewrite managed_enc, body_enc by done.
  split_and!; [by apply enc_ok|done..].
Qed.

(** The readers and the sleeping threads fit into the word. *)
Definition klock_fits (k : klock) : Prop :=
  Z.of_nat (length (kblocked k)) + (if lock_wrlocked (kword k) then 0 else lock_body (kword k)) + 1
  < CLOUDABI_LOCK_WRLOCKED.

(** What the kernel asks of the caller: only the owner unlocks. *)
Definition kernel_pre (op : kcall) (k : klock) : Prop :=
  klock_wf k /\ klock_fits k /\
  match op with
  | KPoll t _ => lock_small t
  | KUnlock t => lock_small t /\ lock_body (kword k) = wr_word t
  | KCancel t m => (t, m) ∈ kblocked k
  end.

(** The body the call leaves and the threads it has to decide on. *)
Inductive kernel_entry : kcall -> Z -> list (Z * mode) -> Z -> list (Z * mode) -> Prop :=
  | entry_poll t m x B : kernel_entry (KPoll t m) x B x ((t, m) :: B)
  | entry_unlock t x B : kernel_entry (KUnlock t) x B 0 B
  | entry_cancel t m x B B' : B ≡ₚ (t, m) :: B' -> kernel_entry (KCancel t m) x B x B'.

(** The lock is given to readers while no writer has it, to a writer when it
    is free. *)
Inductive kernel_grants : Z -> list (Z * mode) -> Z -> Prop :=
  | grants_none x : kernel_grants x [] x
  | grants_rd x ts : lock_wrlocked x = false ->
      kernel_grants x (map (fun t => (t, Rd)) ts) (x + Z.of_nat (length ts))
  | grants_wr t : kernel_grants 0 [(t, Wr)] (wr_word t).

Definition kernel_contract (op : kcall) (k k' : klock) : Prop :=
  exists y E gs,
    kernel_entry op (lock_body (kword k)) (kblocked k) y E /\
    E ≡ₚ gs ++ kblocked k' /\
    kgranted k' ≡ₚ gs ++ kgranted k /\
    kernel_grants y gs (lock_body (kword k')) /\
    klock_wf k'.
End Words.

Class Kernel `{LockAbi} := {
  kernel : kcall -> klock -> klock -> Prop;
  kernel_ok op k k' : kernel op k k' -> kernel_pre op k -> kernel_contract op k k';
  (** Readers only sleep behind a writer. *)
  kernel_readers op k k' : kernel op k k' -> kernel_pre op k ->
    lock_wrlocked (kword k') = false -> Forall (fun e => e.2 = Rd) (kblocked k') -> kblocked k' = []
}.

(** ** An instance: a kernel that prefers writers *)

#[global] Instance cloudabi_layout : LockAbi.
Proof. refine {| WRLOCKED_bit := 30; KERNEL_MANAGED_bit := 31 |}. lia. Defined.

Section Serve.
  Context `{LockAbi}.

Definition managed_if (B : list (Z * mode)) (x : Z) : Z :=
  enc (match B with [] => false | _ => true end) x.

Fixpoint first_writer (E : list (Z * mode)) : option (Z * list (Z * mode)) :=
  match E with
  | [] => None
  | (u, Wr) :: E => Some (u, E)
  | (u, Rd) :: E => match first_writer E with Some (v, E') => Some (v, (u, Rd) :: E') | None => None end
  end.

Fixpoint dequeue (e : Z * mode) (B : list (Z * mode)) : list (Z * mode) :=
  match B with
  | [] => []
  | x :: B => if decide (x = e) then B else x :: dequeue e B
  end.

(** Decide on the threads [E] when the body of the word is [y]. *)
Definition settle (y : Z) (E G : list (Z * mode)) : klock :=
  if lock_wrlocked y then KLock (managed_if E y) E G
  else match first_writer E with
       | None => KLock (y + Z.of_nat (length E)) [] (E ++ G)
       | Some (u, E') =>
           if y =? 0 then KLock (managed_if E' (wr_word u)) E' ((u, Wr) :: G) else KLock (managed_if E y) E G
       end.

Definition serve (op : kcall) (k : klock) : klock :=
  match op with
  | KPoll t m => settle (lock_body (kword k)) ((t, m) :: kblocked k) (kgranted k)
  | KUnlock t => settle 0 (kblocked k) (kgranted k)
  | KCancel t m => settle (lock_body (kword k)) (dequeue (t, m) (kblocked k)) (kgranted k)
  end.

Lemma dequeue_perm e B : e ∈ B -> B ≡ₚ e :: dequeue e B.
Proof.
  induction B as [|x B IH]; intros He; [by apply not_elem_of_nil in He|]. simpl.
  destruct (decide (x = e)) as [->|Hn]; [done|].
  apply elem_of_cons in He as [->|He]; [done|].
  rewrite (IH He) at 1. constructor.
Qed.

Lemma first_writer_Some E u E' : first_writer E = Some (u, E') -> E ≡ₚ (u, Wr) :: E'.
Proof.
  revert E'. induction E as [|[v []] E IH]; intros E' HE; simpl in HE; [done| |by simplify_eq].
  destruct (first_writer E) as [[w E'']|] eqn:Ef; [|done]. simplify_eq.
  rewrite (IH E'') by done. constructor.
Qed.

Lemma first_writer_None E : first_writer E = None -> E = map (fun t => (t, Rd)) (map fst E).
Proof.
  induction E as [|[v []] E IH]; simpl; [done| |done].
  destruct (first_writer E) as [[]|]; [done|]. intros _. f_equal. by apply IH.
Qed.

Lemma settled_wf x B G : 0 <= x < CLOUDABI_LOCK_KERNEL_MANAGED -> (forall t m, (t, m) ∈ B -> lock_small t) ->
  (B <> [] -> x <> 0) -> klock_wf (KLock (managed_if B x) B G).
Proof.
  intros Hx HB H0. unfold klock_wf, managed_if. simpl. rewrite managed_enc, body_enc by done.
  split_and!; [by apply enc_ok|by destruct B| |done]. intros Hm. apply H0. by destruct B.
Qed.

Lemma body_managed_if B x : 0 <= x < CLOUDABI_LOCK_KERNEL_MANAGED -> lock_body (managed_if B x) = x.
Proof. apply body_enc. Qed.

(** Whatever [settle] decides is a grant the contract allows. *)
Lemma settle_contract op k y E :
  kernel_entry op (lock_body (kword k)) (kblocked k) y E ->
  0 <= y < CLOUDABI_LOCK_KERNEL_MANAGED -> (forall t m, (t, m) ∈ E -> lock_small t) ->
  Z.of_nat (length E) + (if lock_wrlocked y then 0 else y) < CLOUDABI_LOCK_WRLOCKED ->
  kernel_contract op k (settle y E (kgranted k)).
Proof.
  intros He Hy Hs Hl. pose proof WRLOCKED_pos. pose proof WRLOCKED_MANAGED. unfold settle.
  destruct (lock_wrlocked y) eqn:Ew.
  { exists y, E, []. simpl. rewrite body_managed_if by done. split_and!; [done..|constructor|].
    apply settled_wf; [done..|]. intros _ ->. by rewrite wrlocked_small in Ew. }
  destruct (first_writer E) as [[u E']|] eqn:Ef.
  - pose proof (first_writer_Some _ _ _ Ef) as HP.
    assert (lock_small u) as Hu by (apply (Hs u Wr); rewrite HP; by constructor).
    destruct (Z.eqb_spec y 0) as [->|Hn].
    + pose proof (wr_word_range u Hu). exists 0, E, [(u, Wr)]. simpl. rewrite body_managed_if by lia.
      split_and!; [done..|constructor|]. apply settled_wf; [lia| |lia].
      intros v m Hv. apply (Hs v m). rewrite HP. by constructor.
    + exists y, E, []. simpl. rewrite body_managed_if by done. split_and!; [done..|constructor|].
      by apply settled_wf.
  - exists y, E, E. simpl. rewrite app_nil_r.
    pose proof (settled_wf (y + Z.of_nat (length E)) [] (E ++ kgranted k)) as Hwf.
    pose proof (body_managed_if [] (y + Z.of_nat (length E))) as Hb.
    unfold managed_if in Hwf, Hb. rewrite enc_false in Hwf, Hb. rewrite Hb by lia.
    split_and!; [done..| |apply Hwf; [lia|intros ?? []%not_elem_of_nil|done]].
    rewrite (first_writer_None E Ef), length_map. by apply grants_rd.
Qed.

Lemma settle_readers y E G : 0 <= y < CLOUDABI_LOCK_KERNEL_MANAGED -> (forall t m, (t, m) ∈ E -> lock_small t) ->
  lock_wrlocked (kword (settle y E G)) = false -> Forall (fun e => e.2 = Rd) (kblocked (settle y E G)) ->
  kblocked (settle y E G) = [].
Proof.
  intros Hy Hs. unfold settle. destruct (lock_wrlocked y) eqn:Ew; simpl.
  { unfold managed_if. by rewrite wrlocked_enc, Ew. }
  destruct (first_writer E) as [[u E']|] eqn:Ef; [|done].
  pose proof (first_writer_Some _ _ _ Ef) as HP.
  destruct (y =? 0); simpl.
  - assert (lock_small u) as Hu by (apply (Hs u Wr); rewrite HP; by constructor).
    pose proof (wr_word_range u Hu). pose proof WRLOCKED_pos.
    unfold managed_if. by rewrite wrlocked_enc, wrlocked_wr_word by (done || lia).
  - intros _ HF. rewrite HP in HF. by apply list.Forall_cons in HF as [? _].
Qed.

(** What each call hands to [settle]. *)
Lemma serve_settles op k : kernel_pre op k -> exists y E,
  serve op k = settle y E (kgranted k) /\
  kernel_entry op (lock_body (kword k)) (kblocked k) y E /\
  0 <= y < CLOUDABI_LOCK_KERNEL_MANAGED /\ (forall t m, (t, m) ∈ E -> lock_small t) /\
  Z.of_nat (length E) + (if lock_wrlocked y then 0 else y) < CLOUDABI_LOCK_WRLOCKED.
Proof.
  intros ((Hw & _ & _ & Hs) & Hf & Hp). unfold klock_fits in Hf. destruct (word_split _ Hw) as [_ Hb].
  pose proof WRLOCKED_pos. pose proof WRLOCKED_MANAGED. rewrite wrlocked_body in Hf by done.
  destruct op as [t m|t|t m]; simpl; do 2 eexists; (split; [done|]).
  - split_and!; [constructor|lia|lia| |cbn [length]; destruct (lock_wrlocked (lock_body (kword k))); lia].
    intros u n [E|Hu]%elem_of_cons; [by simplify_eq|by eapply Hs].
  - split_and!; [constructor|lia|lia|done|]. rewrite wrlocked_small by (unfold lock_small; lia).
    destruct (lock_wrlocked (lock_body (kword k))); lia.
  - pose proof (dequeue_perm _ _ Hp) as HP. pose proof (Permutation_length HP) as HL. cbn [length] in HL.
    split_and!; [by constructor|lia|lia| |destruct (lock_wrlocked (lock_body (kword k))); lia].
    intros u n Hu. apply (Hs u n). rewrite HP. by constructor.
Qed.

#[global] Instance serve_kernel : Kernel.
Proof.
  refine {| kernel := fun op k k' => k' = serve op k |}.
  - intros op k k' -> Hp. destruct (serve_settles op k Hp) as (y & E & -> & He & Hy & Hs & Hl).
    by apply settle_contract.
  - intros op k k' -> Hp. destruct (serve_settles op k Hp) as (y & E & -> & He & Hy & Hs & Hl).
    by apply settle_readers.
Defined.
End Serve.
