(* ===== verification/RwLock.v ===== *)
(** * Read-write locks, mutexes, spin locks and condition waits

    Sources: src/libc/pthread/pthread_rwlock_init.c, _tryrdlock.c, _rdlock.c,
    _timedrdlock.c, _trywrlock.c, _wrlock.c, _timedwrlock.c, _unlock.c,
    _destroy.c, pthread_cond_wait.c, pthread_cond_timedwait.c and
    src/common/pthread.h.  Mutexes and spin locks are the same functions under
    other names.

    The threads run concurrently: [exec] is what one thread does up to and
    including its next access to the lock (one atomic instruction on the word,
    or one access to the recursion counter, or one system call), and [step]
    interleaves the threads, the kernel and the callers in every order.  A weak
    compare-and-exchange may fail spuriously.  The kernel is the interface
    [Kernel] of LockAbi.

    The numbers of locks a thread holds ([reads], [writes], [other_reads]) are
    not part of the program: they record what its calls have returned.

    The theorems: the word always tells who holds the lock and the holders
    exclude each other, no assertion ever fails and the kernel is only asked to
    unlock by the owner, and no thread is left asleep on a free lock. *)

From S2P Require Import Prelude CalendarTime LockAbi.

#[local] Open Scope Z_scope.

Definition PTHREAD_MUTEX_NORMAL : Z := 1.
Definition PTHREAD_MUTEX_RECURSIVE : Z := 2.
Definition PTHREAD_PROCESS_PRIVATE : Z := 4.
Definition PTHREAD_PROCESS_SHARED : Z := 8.

(** Number of times locking in user space is attempted. *)
Definition LOCK_RETRY_COUNT : Z := 1.

Record lockattr := LockAttr { attr_pshared : Z; attr_type : Z }.

Definition pthread_rwlockattr_init : lockattr := LockAttr PTHREAD_PROCESS_PRIVATE PTHREAD_MUTEX_NORMAL.

Definition pthread_mutexattr_settype (attr : lockattr) (type : Z) : lockattr * Z :=
  if (type =? PTHREAD_MUTEX_NORMAL) || (type =? PTHREAD_MUTEX_RECURSIVE)
  then (LockAttr (attr_pshared attr) type, 0) else (attr, EINVAL).

(** __state, __write_recursion and __pshared, with what the kernel knows. *)
Record rwlock := RwLock { rw_kernel : klock; rw_recursion : Z; rw_pshared : Z }.

Definition pthread_rwlock_init (attr : option lockattr) : rwlock :=
  RwLock (KLock CLOUDABI_LOCK_UNLOCKED [] [])
    (match attr with Some a => if attr_type a =? PTHREAD_MUTEX_RECURSIVE then 0 else -1 | None => -1 end)
    (match attr with Some a => attr_pshared a | None => PTHREAD_PROCESS_PRIVATE end).

(** [None] is a failed assertion. *)
Definition pthread_rwlock_destroy (l : rwlock) : option Z :=
  if negb (kword (rw_kernel l) =? CLOUDABI_LOCK_UNLOCKED) then None
  else if 0 <? rw_recursion l then None else Some 0.

(** ** The threads *)

(** How a call waits: the try, plain and timed functions. *)
Inductive waiting := Try | Block | Timed (abstime : timespec).

Inductive pc :=
  | Idle (ret : Z)
  | TryRd (c : waiting) (i old : Z) | PollRd (c : waiting) | RdWait (c : waiting)
  | TryWr (c : waiting) (i : Z) | TryWrOwn | PollWr (c : waiting) | WrWait (c : waiting) | WrTaken
  | Unlock | UnlockWr (old : Z) | UnlockWrCas (old : Z) | UnlockWrKernel
  | UnlockRd (old : Z) | UnlockRdCas (old : Z) | UnlockRdKernel
  | CondCheck (abstime : option timespec) | CondCheckRec (abstime : option timespec)
  | CondEnter | CondWait | CondLock.

(** The thread-local variables __pthread_rdlocks and __pthread_wrlocks. *)
Record rwthread := RwThread {
  th_pc : pc;
  rdlocks : Z;
  wrlocks : list Z;
  reads : nat;
  writes : nat;
  other_reads : nat
}.

Definition goto (p : pc) (th : rwthread) : rwthread :=
  RwThread p (rdlocks th) (wrlocks th) (reads th) (writes th) (other_reads th).

Inductive rwoutcome :=
  | Next (w rec : Z) (th : rwthread)
  | Calls (op : kcall) (th : rwthread)
  | Fails
  | Waits.

Section Lock.
  Context `{LockAbi}.
  (** The address of the lock in the lists of write locks, and its attributes. *)
  Context (self : Z) (attr : option lockattr).

Definition LIST_INSERT_HEAD (th : rwthread) : list Z := self :: wrlocks th.
Definition LIST_REMOVE (th : rwthread) : list Z := filter (fun l => l <> self) (wrlocks th).

(** A read lock was acquired or given up. *)
Definition took_rd (p : pc) (th : rwthread) : rwthread :=
  RwThread p (u32 (rdlocks th + 1)) (wrlocks th) (S (reads th)) (writes th) (other_reads th).
Definition gave_rd (p : pc) (th : rwthread) : rwthread :=
  RwThread p (rdlocks th) (wrlocks th) (pred (reads th)) (writes th) (other_reads th).
Definition dec_rdlocks (th : rwthread) : rwthread :=
  RwThread (th_pc th) (u32 (rdlocks th - 1)) (wrlocks th) (reads th) (writes th) (other_reads th).

(** The write lock was acquired, or acquired or given up once more. *)
Definition took_wr (p : pc) (th : rwthread) : rwthread :=
  RwThread p (rdlocks th) (LIST_INSERT_HEAD th) (reads th) (S (writes th)) (other_reads th).
Definition set_writes (n : nat) (p : pc) (th : rwthread) : rwthread :=
  RwThread p (rdlocks th) (wrlocks th) (reads th) n (other_reads th).
Definition unlist (p : pc) (th : rwthread) : rwthread :=
  RwThread p (rdlocks th) (LIST_REMOVE th) (reads th) (writes th) (other_reads th).

(** pthread_rwlock_tryrdlock returned EBUSY: to its caller, or to the loop of
    the blocking functions. *)
Definition rd_busy (c : waiting) (i : Z) : pc :=
  match c with
  | Try => Idle EBUSY
  | _ => if i + 1 <? LOCK_RETRY_COUNT then TryRd c (i + 1) CLOUDABI_LOCK_UNLOCKED else PollRd c
  end.

Definition wr_busy (c : waiting) (i : Z) : pc :=
  match c with
  | Try => Idle EBUSY
  | _ => if i + 1 <? LOCK_RETRY_COUNT then TryWr c (i + 1) else PollWr c
  end.

(** The time-out is invalid. *)
Definition bad_abstime (c : waiting) : bool :=
  match c with
  | Timed ts => match timespec_to_timestamp_clamp ts with None => true | Some _ => false end
  | _ => false
  end.

Definition exec_tryrdlock (t : Z) (spurious : bool) (w rec : Z) (th : rwthread)
  (c : waiting) (i old : Z) : rwoutcome :=
  if (w =? old) && negb spurious then Next (u32 (old + 1)) rec (took_rd (Idle 0) th)
  else
    let old := w in
    if lock_wrlocked old then
      if lock_body old =? wr_word t then Fails else Next w rec (goto (rd_busy c i) th)
    else if lock_managed old && (rdlocks th =? 0) then Next w rec (goto (rd_busy c i) th)
    else Next w rec (goto (TryRd c i old) th).

Definition exec_trywrlock (t : Z) (w rec : Z) (th : rwthread) (c : waiting) (i : Z) : rwoutcome :=
  if w =? CLOUDABI_LOCK_UNLOCKED then Next (wr_word t) rec (took_wr (Idle 0) th)
  else if lock_body w =? wr_word t then Next w rec (goto TryWrOwn th)
  else Next w rec (goto (wr_busy c i) th).

(** The recursive case; the signed counter must not overflow. *)
Definition exec_trywrlock_own (w rec : Z) (th : rwthread) : rwoutcome :=
  if rec <? 0 then Fails
  else match wrlocks th with
       | [] => Fails
       | _ => if rec =? INT_MAX then Fails
              else Next w (rec + 1) (set_writes (S (writes th)) (Idle 0) th)
       end.

Definition exec_unlock (t : Z) (w rec : Z) (th : rwthread) : rwoutcome :=
  let old := w in
  if lock_wrlocked old then
    match wrlocks th with
    | [] => Fails
    | _ => if negb (lock_body old =? wr_word t) then Fails else Next w rec (goto (UnlockWr old) th)
    end
  else if negb (0 <? rdlocks th) then Fails
  else Next w rec (goto (UnlockRd old) th).

Definition exec_unlock_wr (w rec : Z) (th : rwthread) (old : Z) : rwoutcome :=
  if 0 <? rec then Next w (rec - 1) (set_writes (pred (writes th)) (Idle 0) th)
  else Next w rec (unlist (if lock_managed old then UnlockWrKernel else UnlockWrCas old) th).

Definition exec_unlock_rd (t : Z) (spurious : bool) (w rec : Z) (th : rwthread) (old : Z) : rwoutcome :=
  if old =? Z.lor 1 CLOUDABI_LOCK_KERNEL_MANAGED then
    if (w =? old) && negb spurious
    then Next (Z.lor (Z.lor t CLOUDABI_LOCK_WRLOCKED) CLOUDABI_LOCK_KERNEL_MANAGED) rec (gave_rd UnlockRdKernel th)
    else Next w rec (goto (UnlockRdCas w) th)
  else if lock_body old =? 0 then Fails
  else if (w =? old) && negb spurious
  then Next (u32 (old - 1)) rec (dec_rdlocks (gave_rd (Idle 0) th))
  else Next w rec (goto (UnlockRdCas w) th).

Definition exec_cond_check (t : Z) (w rec : Z) (th : rwthread) (abstime : option timespec) : rwoutcome :=
  match abstime, wrlocks th with
  | None, [] => Fails
  | _, _ =>
      if negb (lock_body w =? wr_word t) then Fails else Next w rec (goto (CondCheckRec abstime) th)
  end.

Definition exec_cond_check_rec (w rec : Z) (th : rwthread) (abstime : option timespec) : rwoutcome :=
  if 0 <? rec then Fails
  else if match abstime with Some ts => bad_abstime (Timed ts) | None => false end
  then Next w rec (goto (Idle EINVAL) th)
  else Next w rec (goto CondEnter th).

(** The calls into the kernel of the blocking functions. *)
Definition exec_poll_rd (t : Z) (w rec : Z) (th : rwthread) (c : waiting) : rwoutcome :=
  if bad_abstime c then Next w rec (goto (Idle EINVAL) th) else Calls (KPoll t Rd) (goto (RdWait c) th).

Definition exec_poll_wr (t : Z) (w rec : Z) (th : rwthread) (c : waiting) : rwoutcome :=
  if bad_abstime c then Next w rec (goto (Idle EINVAL) th) else Calls (KPoll t Wr) (goto (WrWait c) th).

Definition exec (t : Z) (spurious : bool) (w rec : Z) (th : rwthread) : rwoutcome :=
  match th_pc th with
  | Idle _ | RdWait _ | WrWait _ | CondWait | CondLock => Waits
  | TryRd c i old => exec_tryrdlock t spurious w rec th c i old
  | PollRd c => exec_poll_rd t w rec th c
  | TryWr c i => exec_trywrlock t w rec th c i
  | TryWrOwn => exec_trywrlock_own w rec th
  | PollWr c => exec_poll_wr t w rec th c
  | WrTaken => if 0 <? rec then Fails else Next w rec (took_wr (Idle 0) th)
  | Unlock => exec_unlock t w rec th
  | UnlockWr old => exec_unlock_wr w rec th old
  | UnlockWrCas old =>
      if w =? old then Next CLOUDABI_LOCK_UNLOCKED rec (set_writes (pred (writes th)) (Idle 0) th)
      else Next w rec (goto UnlockWrKernel th)
  | UnlockWrKernel => Calls (KUnlock t) (set_writes (pred (writes th)) (Idle 0) th)
  | UnlockRd old => if 0 <? rec then Fails else Next w rec (goto (UnlockRdCas old) th)
  | UnlockRdCas old => exec_unlock_rd t spurious w rec th old
  | UnlockRdKernel => Calls (KUnlock t) (dec_rdlocks (goto (Idle 0) th))
  | CondCheck abstime => exec_cond_check t w rec th abstime
  | CondCheckRec abstime => exec_cond_check_rec w rec th abstime
  | CondEnter => Calls (KUnlock t) (set_writes (pred (writes th)) CondWait (unlist CondWait th))
  end.

(** What a thread sleeps for, and how it goes on when it has got the lock. *)
Definition waits_for (th : rwthread) : option mode :=
  match th_pc th with
  | RdWait _ => Some Rd
  | WrWait _ | CondLock => Some Wr
  | _ => None
  end.

Inductive woken (th : rwthread) : rwthread -> Prop :=
  | woken_rd c : th_pc th = RdWait c -> woken th (took_rd (Idle 0) th)
  | woken_wr : th_pc th = WrWait Block -> woken th (goto WrTaken th)
  | woken_timed ts : th_pc th = WrWait (Timed ts) -> woken th (took_wr (Idle 0) th)
  | woken_cond ret : th_pc th = CondLock -> ret = 0 \/ ret = ETIMEDOUT -> woken th (took_wr (Idle ret) th).

(** ** The callers *)

Inductive call := CallRd (c : waiting) | CallWr (c : waiting) | CallUnlock | CallCond (abstime : option timespec).

Definition enter (cl : call) : pc :=
  match cl with
  | CallRd c => TryRd c 0 CLOUDABI_LOCK_UNLOCKED
  | CallWr c => TryWr c 0
  | CallUnlock => Unlock
  | CallCond abstime => CondCheck abstime
  end.

Definition recursive : Prop := rw_recursion (pthread_rwlock_init attr) = 0.

(** What the caller has to see to: no read lock on a lock it has
    write-locked, recursion only on a recursive lock, and it unlocks, or waits
    with, a lock it holds. *)
Definition may_call (th : rwthread) (cl : call) : Prop :=
  match cl with
  | CallRd _ => writes th = 0%nat
  | CallWr _ => writes th = 0%nat \/ recursive
  | CallUnlock => (0 < reads th)%nat \/ (0 < writes th)%nat
  | CallCond _ => writes th = 1%nat
  end.

(** ** The system *)

Record rwstate := RwState { rw_lock : rwlock; rw_threads : gmap Z rwthread }.

Definition upd (s : rwstate) (k : klock) (rec t : Z) (th : rwthread) : rwstate :=
  RwState (RwLock k rec (rw_pshared (rw_lock s))) (<[t := th]> (rw_threads s)).

Abbreviation klk s := (rw_kernel (rw_lock s)).
Abbreviation word s := (kword (rw_kernel (rw_lock s))).
Abbreviation recursion s := (rw_recursion (rw_lock s)).

Context `{!Kernel}.

Inductive step (s : rwstate) : rwstate -> Prop :=
  | step_call t th ret cl :
      rw_threads s !! t = Some th -> th_pc th = Idle ret -> may_call th cl ->
      step s (upd s (klk s) (recursion s) t (goto (enter cl) th))
  | step_exec t th spurious w rec th' :
      rw_threads s !! t = Some th ->
      exec t spurious (word s) (recursion s) th = Next w rec th' ->
      step s (upd s (KLock w (kblocked (klk s)) (kgranted (klk s))) rec t th')
  | step_kernel t th spurious op th' k :
      rw_threads s !! t = Some th ->
      exec t spurious (word s) (recursion s) th = Calls op th' ->
      kernel op (klk s) k ->
      step s (upd s k (recursion s) t th')
  | step_wake t th m th' G :
      rw_threads s !! t = Some th -> waits_for th = Some m ->
      kgranted (klk s) ≡ₚ (t, m) :: G -> woken th th' ->
      step s (upd s (KLock (word s) (kblocked (klk s)) G) (recursion s) t th')
  | step_timeout t th m ts k :
      rw_threads s !! t = Some th ->
      th_pc th = match m with Rd => RdWait (Timed ts) | Wr => WrWait (Timed ts) end ->
      (t, m) ∈ kblocked (klk s) -> kernel (KCancel t m) (klk s) k ->
      step s (upd s k (recursion s) t (goto (Idle ETIMEDOUT) th))
  | step_signal t th k :
      rw_threads s !! t = Some th -> th_pc th = CondWait -> kernel (KPoll t Wr) (klk s) k ->
      step s (upd s k (recursion s) t (goto CondLock th))
  | step_other t th ret wrs n :
      rw_threads s !! t = Some th -> th_pc th = Idle ret ->
      (self ∈ wrs <-> self ∈ wrlocks th) ->
      step s (upd s (klk s) (recursion s) t
                (RwThread (Idle ret) (u32 (Z.of_nat (reads th + n))) wrs (reads th) (writes th) n)).

Definition count_mode (m : mode) (l : list (Z * mode)) : nat := length (filter (fun e => e.2 = m) l).

(** The read locks that are held, including those on their way to a thread. *)
Definition all_reads (ths : gmap Z rwthread) (G : list (Z * mode)) : nat :=
  (total reads ths + count_mode Rd G)%nat.

(** The counters are wide enough for the locks that are held or waited for. *)
Definition fits (s : rwstate) : Prop :=
  Z.of_nat (all_reads (rw_threads s) (kgranted (klk s)) + length (kblocked (klk s))) + 1 < CLOUDABI_LOCK_WRLOCKED /\
  forall t th, rw_threads s !! t = Some th ->
    Z.of_nat (reads th + other_reads th) < 2 ^ 32 /\ Z.of_nat (writes th) <= INT_MAX.

(** Fresh threads that hold no lock of this name. *)
Definition initial (s : rwstate) : Prop :=
  rw_lock s = pthread_rwlock_init attr /\
  forall t th, rw_threads s !! t = Some th ->
    lock_small t /\ (exists ret, th_pc th = Idle ret) /\ reads th = 0%nat /\ writes th = 0%nat /\
    rdlocks th = Z.of_nat (other_reads th) /\ self ∉ wrlocks th.

Inductive reachable : rwstate -> Prop :=
  | reachable_initial s : initial s -> fits s -> reachable s
  | reachable_step s s' : reachable s -> step s s' -> fits s' -> reachable s'.

(** ** Counting the waiting threads *)

Lemma count_cons m e l : count_mode m (e :: l) = ((if decide (e.2 = m) then 1 else 0) + count_mode m l)%nat.
Proof. unfold count_mode. rewrite filter_cons. by destruct (decide _). Qed.

Lemma count_mode_app m l k : count_mode m (l ++ k) = (count_mode m l + count_mode m k)%nat.
Proof. unfold count_mode. by rewrite list.filter_app, length_app. Qed.

#[local] Instance count_proper m : Proper ((≡ₚ) ==> eq) (count_mode m).
Proof. intros l k E. unfold count_mode. by rewrite E. Qed.

Lemma count_pos m t l : (t, m) ∈ l -> (0 < count_mode m l)%nat.
Proof.
  intros (l1 & l2 & ->)%list_elem_of_split. rewrite count_mode_app, count_cons. simpl.
  rewrite decide_True by done. lia.
Qed.

Lemma count_2 t u m l : t <> u -> (t, m) ∈ l -> (u, m) ∈ l -> (1 < count_mode m l)%nat.
Proof.
  intros Hne (l1 & l2 & ->)%list_elem_of_split Hu.
  rewrite <- Permutation_middle in Hu |- *. rewrite count_cons. simpl. rewrite decide_True by done.
  apply elem_of_cons in Hu as [Hu|Hu]; [congruence|]. pose proof (count_pos m u _ Hu). lia.
Qed.

Lemma count_map_rd ts : count_mode Rd (map (fun t => (t, Rd)) ts) = length ts /\
  count_mode Wr (map (fun t => (t, Rd)) ts) = 0%nat.
Proof. induction ts as [|t ts [IH1 IH2]]; [done|]. simpl. by rewrite !count_cons, IH1, IH2. Qed.

(** ** The invariant *)

(** A thread that owns the word as a writer: it holds the write lock, it has
    just been given it, or it has upgraded its read lock to call the kernel. *)
Definition owner (th : rwthread) : nat :=
  match writes th, th_pc th with
  | S _, _ | _, WrTaken | _, UnlockRdKernel => 1
  | _, _ => 0
  end.

Definition all_owners (ths : gmap Z rwthread) (G : list (Z * mode)) : nat :=
  (total owner ths + count_mode Wr G)%nat.

Definition claims (ths : gmap Z rwthread) (G : list (Z * mode)) (t : Z) : Prop :=
  (exists th, ths !! t = Some th /\ owner th = 1%nat) \/ (t, Wr) ∈ G.

(** The body of the word counts the readers or names the one writer. *)
Definition word_tells (ths : gmap Z rwthread) (G : list (Z * mode)) (x : Z) : Prop :=
  (all_owners ths G = 0%nat /\ x = Z.of_nat (all_reads ths G)) \/
  (exists t, claims ths G t /\ all_owners ths G = 1%nat /\ all_reads ths G = 0%nat /\ x = wr_word t).

(** The recursion counter is that of the one writer. *)
Definition recursion_tells (n : nat) (rec : Z) : Prop :=
  (recursive /\ rec = Z.of_nat (pred n)) \/ (~ recursive /\ rec = -1 /\ (n <= 1)%nat).

(** The write lock is on the thread's list except while it is being released. *)
Definition listed (th : rwthread) : bool :=
  (0 <? writes th)%nat && match th_pc th with UnlockWrCas _ | UnlockWrKernel => false | _ => true end.

(** An old value of the word from which a reader starts. *)
Definition rd_word (w : Z) : Prop := word_ok w /\ lock_wrlocked w = false.

Definition pc_ok (t : Z) (th : rwthread) : Prop :=
  match th_pc th with
  | Idle _ => True
  | TryRd _ _ old => writes th = 0%nat /\ rd_word old
  | PollRd _ | RdWait _ | PollWr _ | WrWait _ | WrTaken | UnlockRdKernel | CondWait | CondLock => writes th = 0%nat
  | TryWr _ _ => writes th = 0%nat \/ recursive
  | TryWrOwn => (0 < writes th)%nat /\ recursive
  | Unlock => (0 < reads th)%nat \/ (0 < writes th)%nat
  | UnlockWr old => (0 < writes th)%nat /\ word_ok old /\ lock_body old = wr_word t
  | UnlockWrCas old => writes th = 1%nat /\ word_ok old /\ lock_body old = wr_word t /\ lock_managed old = false
  | UnlockWrKernel | CondCheck _ | CondCheckRec _ | CondEnter => writes th = 1%nat
  | UnlockRd old | UnlockRdCas old => (0 < reads th)%nat /\ rd_word old /\ lock_body old <> 0
  end.

Record thread_ok (t : Z) (th : rwthread) : Prop := {
  ok_tid : lock_small t;
  ok_rdlocks : rdlocks th = Z.of_nat (reads th + other_reads th + match th_pc th with UnlockRdKernel => 1 | _ => 0 end);
  ok_rdlocks_u32 : rdlocks th < 2 ^ 32;
  ok_listed : self ∈ wrlocks th <-> listed th = true;
  ok_pc : pc_ok t th
}.

(** The queues of the kernel hold exactly the sleeping threads. *)
Record queued (ths : gmap Z rwthread) (Q : list (Z * mode)) : Prop := {
  queued_waits t m : (t, m) ∈ Q -> exists th, ths !! t = Some th /\ waits_for th = Some m;
  queued_waiter t th m : ths !! t = Some th -> waits_for th = Some m -> (t, m) ∈ Q;
  queued_once : NoDup (map fst Q)
}.

Definition threads_ok (ths : gmap Z rwthread) : Prop :=
  forall t th, ths !! t = Some th -> thread_ok t th.

Record inv (s : rwstate) : Prop := {
  inv_kernel : klock_wf (klk s);
  inv_word : word_tells (rw_threads s) (kgranted (klk s)) (lock_body (word s));
  inv_recursion : recursion_tells (total writes (rw_threads s)) (recursion s);
  inv_queued : queued (rw_threads s) (kblocked (klk s) ++ kgranted (klk s));
  inv_threads : threads_ok (rw_threads s)
}.

(** ** What the word tells a thread *)

Lemma writes_owner th : (0 < writes th)%nat -> owner th = 1%nat.
Proof. unfold owner. destruct (writes th); [lia|done]. Qed.

Lemma owner_le th : (owner th <= 1)%nat.
Proof. unfold owner. destruct (writes th), (th_pc th); lia. Qed.

Section Tells.
  Context (ths : gmap Z rwthread) (G : list (Z * mode)) (x : Z) (Hx : word_tells ths G x) (t : Z).

Lemma claims_word : claims ths G t ->
  all_owners ths G = 1%nat /\ all_reads ths G = 0%nat /\ x = wr_word t.
Proof.
  intros Hc. destruct Hx as [[HO _]|(u & Hu & HO & HR & Hw)].
  - exfalso. unfold all_owners in HO. destruct Hc as [(th & Ht & Ho)|Hg].
    + pose proof (total_le owner _ _ _ Ht). lia.
    + pose proof (count_pos _ _ _ Hg). lia.
  - destruct (decide (u = t)) as [->|Hne]; [done|]. exfalso. unfold all_owners in HO.
    destruct Hc as [(th & Ht & Ho)|Hg], Hu as [(uh & Hut & Huo)|Hug].
    + pose proof (total_le2 owner _ _ _ _ _ Hne Hut Ht). lia.
    + pose proof (total_le owner _ _ _ Ht). pose proof (count_pos _ _ _ Hug). lia.
    + pose proof (total_le owner _ _ _ Hut). pose proof (count_pos _ _ _ Hg). lia.
    + pose proof (count_2 _ _ _ _ Hne Hug Hg). lia.
Qed.

Lemma reader_word : (0 < all_reads ths G)%nat -> all_owners ths G = 0%nat /\ x = Z.of_nat (all_reads ths G).
Proof. destruct Hx as [?|(u & ? & ? & ? & ?)]; [done|lia]. Qed.

Context (th : rwthread) (Ht : ths !! t = Some th).

Lemma owner_word : owner th = 1%nat ->
  all_owners ths G = 1%nat /\ all_reads ths G = 0%nat /\ x = wr_word t.
Proof. intros Ho. apply claims_word. left. eauto. Qed.

Lemma reads_word : (0 < reads th)%nat ->
  all_owners ths G = 0%nat /\ x = Z.of_nat (all_reads ths G) /\ (0 < all_reads ths G)%nat.
Proof.
  intros Hr. pose proof (total_le reads _ _ _ Ht).
  assert (0 < all_reads ths G)%nat as Hp by (unfold all_reads; lia).
  destruct (reader_word Hp). done.
Qed.

(** The write locks are those of the owner. *)
Lemma owner_writes : threads_ok ths -> owner th = 1%nat -> total writes ths = writes th.
Proof.
  intros Hok Ho. pose proof (total_insert writes ths t th (set_writes 0 (Idle 0) th) Ht) as E.
  simpl in E. rewrite total_zero in E; [lia|]. intros u uh Hu.
  apply lookup_insert_Some in Hu as [[<- <-]|[Hne Hu]]; [done|].
  destruct (writes uh) eqn:Ew; [done|]. exfalso.
  pose proof (writes_owner uh ltac:(lia)). destruct (owner_word Ho) as (HO & _ & _).
  unfold all_owners in HO. pose proof (total_le2 owner _ _ _ _ _ Hne Ht Hu). lia.
Qed.
End Tells.

Lemma no_owner_writes ths G : all_owners ths G = 0%nat -> total writes ths = 0%nat.
Proof.
  intros HO. apply total_zero. intros u uh Hu. pose proof (total_le owner _ _ _ Hu).
  unfold all_owners in HO. destruct (writes uh) eqn:E; [done|].
  pose proof (writes_owner uh ltac:(lia)). lia.
Qed.

(** ** Updating one thread *)

Section Update.
  Context (ths : gmap Z rwthread) (G : list (Z * mode)) (t : Z) (th th' : rwthread) (Ht : ths !! t = Some th).
  #[local] Abbreviation ths' := (<[t := th']> ths).

Lemma counts_upd :
  (all_reads ths' G + reads th = all_reads ths G + reads th')%nat /\
  (all_owners ths' G + owner th = all_owners ths G + owner th')%nat /\
  (total writes ths' + writes th = total writes ths + writes th')%nat.
Proof.
  unfold all_reads, all_owners. pose proof (total_insert reads ths t th th' Ht).
  pose proof (total_insert owner ths t th th' Ht). pose proof (total_insert writes ths t th th' Ht). lia.
Qed.

Lemma tells_same x : reads th' = reads th -> owner th' = owner th ->
  word_tells ths G x -> word_tells ths' G x.
Proof.
  intros Er Eo Hx. destruct counts_upd as (HR & HO & _). unfold word_tells.
  replace (all_reads ths' G) with (all_reads ths G) by lia.
  replace (all_owners ths' G) with (all_owners ths G) by lia.
  destruct Hx as [?|(u & Hc & ?)]; [by left|]. right. exists u. split; [|done].
  destruct Hc as [(uh & Hu & Ho)|Hg]; [left|by right].
  destruct (decide (u = t)) as [->|Hne].
  - exists th'. rewrite lookup_insert_eq. split; [done|]. by simplify_eq; rewrite Eo.
  - exists uh. by rewrite lookup_insert_ne.
Qed.

Lemma tells_owner x : owner th' = 1%nat -> all_owners ths' G = 1%nat -> all_reads ths' G = 0%nat ->
  x = wr_word t -> word_tells ths' G x.
Proof.
  intros Ho HO HR ->. right. exists t. split_and!; [|done..]. left. exists th'.
  by rewrite lookup_insert_eq.
Qed.

Lemma queued_same Q : waits_for th' = waits_for th -> queued ths Q -> queued ths' Q.
Proof.
  intros Ew [H1 H2 H3]. split; [| |done].
  - intros u m (uh & Hu & Hw)%H1. destruct (decide (u = t)) as [->|Hne].
    + exists th'. rewrite lookup_insert_eq. simplify_eq. by rewrite Ew.
    + exists uh. by rewrite lookup_insert_ne.
  - intros u uh m [[<- <-]|[Hne Hu]]%lookup_insert_Some Hw; [|by eapply H2].
    eapply H2; [done|]. by rewrite <- Ew.
Qed.

Lemma threads_upd : threads_ok ths -> thread_ok t th' -> threads_ok ths'.
Proof. intros Hok Hth u uh [[<- <-]|[Hne Hu]]%lookup_insert_Some; [done|by apply Hok]. Qed.
End Update.

(** The word says whether there is a writer. *)
Lemma claims_small ths B G u : threads_ok ths -> queued ths (B ++ G) -> claims ths G u -> lock_small u.
Proof.
  intros Hok Hq [(uh & Hu & _)|Hg]; [by eapply ok_tid, Hok|].
  destruct (queued_waits _ _ Hq u Wr) as (uh & Hu & _); [apply elem_of_app; by right|].
  by eapply ok_tid, Hok.
Qed.

Lemma tells_rd ths G x : word_tells ths G x -> (forall u, claims ths G u -> lock_small u) ->
  lock_wrlocked x = false -> all_owners ths G = 0%nat /\ x = Z.of_nat (all_reads ths G).
Proof.
  intros [?|(u & Hc & _ & _ & ->)] Hs Hw; [done|]. rewrite wrlocked_wr_word in Hw by auto. done.
Qed.

Lemma tells_zero ths G : word_tells ths G 0 -> (forall u, claims ths G u -> lock_small u) ->
  all_owners ths G = 0%nat /\ all_reads ths G = 0%nat.
Proof.
  intros Hx Hs. destruct (tells_rd _ _ _ Hx Hs) as [? ?]; [|lia].
  apply wrlocked_small. pose proof WRLOCKED_pos. unfold lock_small. lia.
Qed.

(** ** The steps of the threads in user space *)

Section User.
  Context (s : rwstate) (Hs : inv s) (Hfs : fits s) (t : Z) (th : rwthread) (Ht : rw_threads s !! t = Some th).
  #[local] Abbreviation G := (kgranted (klk s)).
  #[local] Abbreviation B := (kblocked (klk s)).
  #[local] Abbreviation after w rec th' := (upd s (KLock w B G) rec t th').

Lemma inv_small u : claims (rw_threads s) G u -> lock_small u.
Proof. eapply claims_small; [apply Hs|apply (inv_queued s Hs)]. Qed.

Lemma inv_upd th' w rec : waits_for th' = waits_for th -> thread_ok t th' ->
  klock_wf (KLock w B G) -> word_tells (<[t := th']> (rw_threads s)) G (lock_body w) ->
  recursion_tells (total writes (<[t := th']> (rw_threads s))) rec -> inv (after w rec th').
Proof.
  intros Ew Hth Hk Hw Hr. split; simpl; [done..| |].
  - eapply queued_same; [done..|apply (inv_queued s Hs)].
  - apply threads_upd; [apply Hs|done].
Qed.

(** A step that changes nothing but the thread. *)
Lemma inv_stay th' : waits_for th' = waits_for th -> thread_ok t th' ->
  reads th' = reads th -> owner th' = owner th -> writes th' = writes th ->
  inv (after (word s) (recursion s) th').
Proof.
  intros Ew Hth Er Eo Eww. apply inv_upd; [done..| | |].
  - destruct (klk s) as [w B' G'] eqn:E. simpl. rewrite <- E. apply Hs.
  - eapply tells_same; [done..|apply Hs].
  - destruct (counts_upd (rw_threads s) G t th th' Ht) as (_ & _ & Hc).
    replace (total writes _) with (total writes (rw_threads s)) by lia. apply Hs.
Qed.

(** Program points at which nothing but [writes] determines the role. *)
Definition plain (p : pc) : bool :=
  match p with
  | UnlockRdKernel | UnlockWrCas _ | UnlockWrKernel | WrTaken | RdWait _ | WrWait _ | CondLock => false
  | _ => true
  end.

Lemma inv_goto p : plain (th_pc th) = true -> plain p = true -> pc_ok t (goto p th) ->
  inv (after (word s) (recursion s) (goto p th)).
Proof.
  intros H1 H2 Hp. pose proof (inv_threads s Hs t th Ht) as [O1 O2 O3 O4 O5].
  apply inv_stay; [| |done| |done].
  - unfold waits_for. simpl. by destruct (th_pc th), p.
  - split; simpl; [done| |done| |done].
    + rewrite O2. by destruct (th_pc th), p.
    + rewrite O4. unfold listed. simpl. by destruct (th_pc th), p.
  - unfold owner. simpl. by destruct (writes th), (th_pc th), p.
Qed.

Lemma recursion_same n n' rec : recursion_tells n rec -> pred n' = pred n -> (n' <= 1 \/ n' <= n)%nat ->
  recursion_tells n' rec.
Proof. unfold recursion_tells. intros [[? ->]|(? & -> & ?)] E ?; [left|right]; split_and!; done || lia. Qed.

Lemma word_ok_s : word_ok (word s).
Proof. apply Hs. Qed.

Lemma tells_rd_s : lock_wrlocked (word s) = false ->
  all_owners (rw_threads s) G = 0%nat /\ lock_body (word s) = Z.of_nat (all_reads (rw_threads s) G).
Proof.
  intros Hw. apply tells_rd; [apply Hs|apply inv_small|]. by rewrite <- wrlocked_body by apply word_ok_s.
Qed.

Lemma exec_tryrdlock_inv spurious c i old w rec th' : th_pc th = TryRd c i old ->
  exec_tryrdlock t spurious (word s) (recursion s) th c i old = Next w rec th' ->
  fits (after w rec th') -> inv (after w rec th').
Proof.
  intros Ep E Hf. pose proof (inv_threads s Hs t th Ht) as Hok. destruct Hok as [O1 O2 O3 O4 O5].
  assert (Hp : pc_ok t th) by done. unfold pc_ok in Hp. rewrite Ep in Hp, O2. destruct Hp as [Hw0 [Hold Hwr]].
  unfold exec_tryrdlock in E. destruct ((word s =? old) && negb spurious) eqn:Ec.
  - apply andb_true_iff in Ec as [<-%Z.eqb_eq _]. injection E as <- <- <-.
    destruct (tells_rd_s Hwr) as [HO HR].
    destruct (counts_upd (rw_threads s) G t th (took_rd (Idle 0) th) Ht) as (CR & CO & CW).
    destruct Hf as [Hf Hft]. simpl in Hf, CR, CW.
    assert (owner th = 0%nat) as Eo by (unfold owner; by rewrite Hw0, Ep).
    assert (owner (took_rd (Idle 0) th) = 0%nat) as Eo' by (unfold owner; simpl; by rewrite Hw0).
    pose proof WRLOCKED_MANAGED. pose proof WRLOCKED_pos.
    rewrite word_add by (apply word_ok_s || lia).
    apply inv_upd.
    + unfold waits_for. simpl. by rewrite Ep.
    + destruct (Hft t (took_rd (Idle 0) th)) as [Hu _]; [simpl; by rewrite lookup_insert_eq|]. simpl in Hu.
      split; simpl; [done| | | |done].
      * rewrite O2, uN_small; unfold in_unsigned; lia.
      * rewrite O2, uN_small; unfold in_unsigned; lia.
      * rewrite O4. unfold listed. simpl. by rewrite Hw0.
    + apply klock_wf_word; [apply Hs|lia|lia].
    + left. rewrite body_enc by lia. lia.
    + eapply recursion_same; [apply Hs|lia|lia].
  - assert (forall p, plain p = true -> pc_ok t (goto p th) -> inv (after (word s) (recursion s) (goto p th))) as Hgo
      by (intros; apply inv_goto; by rewrite ?Ep).
    assert (plain (rd_busy c i) = true /\ pc_ok t (goto (rd_busy c i) th)) as [B1 B2].
    { unfold rd_busy. pose proof WRLOCKED_pos. pose proof WRLOCKED_MANAGED.
      assert (rd_word CLOUDABI_LOCK_UNLOCKED) by
        (split; [unfold word_ok; change CLOUDABI_LOCK_UNLOCKED with 0; lia|by apply wrlocked_small]).
      destruct c; [done|..]; by destruct (_ <? _). }
    destruct (lock_wrlocked (word s)) eqn:Ew.
    + destruct (lock_body (word s) =? wr_word t); [done|]. injection E as <- <- <-. auto.
    + destruct (lock_managed (word s) && (rdlocks th =? 0)); injection E as <- <- <-; [auto|].
      apply Hgo; [done|]. split; [done|]. split; [apply word_ok_s|done].
Qed.

Lemma th_ok : thread_ok t th.
Proof. by apply (inv_threads s Hs). Qed.

Lemma owner_word_s : owner th = 1%nat ->
  all_owners (rw_threads s) G = 1%nat /\ all_reads (rw_threads s) G = 0%nat /\ lock_body (word s) = wr_word t.
Proof. apply (owner_word _ _ _ (inv_word s Hs) t th Ht). Qed.

Lemma owner_writes_s : owner th = 1%nat -> total writes (rw_threads s) = writes th.
Proof. apply (owner_writes _ _ _ (inv_word s Hs) t th Ht), Hs. Qed.

(** The write lock enters the thread's list. *)
Lemma took_wr_ok ret : writes th = 0%nat -> th_pc th <> UnlockRdKernel -> thread_ok t (took_wr (Idle ret) th).
Proof.
  intros Hw Hp. destruct th_ok as [O1 O2 O3 O4 O5]. split; simpl; [done| |done| |done].
  - rewrite O2. by destruct (th_pc th).
  - split; [done|]. by constructor.
Qed.

(** A change of [writes] that is not seen in the list. *)
Lemma set_writes_ok n ret : th_pc th <> UnlockRdKernel ->
  listed th = (0 <? n)%nat -> thread_ok t (set_writes n (Idle ret) th).
Proof.
  intros Hp El. destruct th_ok as [O1 O2 O3 O4 O5]. split; simpl; [done| |done| |done].
  - rewrite O2. by destruct (th_pc th).
  - rewrite O4, El. unfold listed. simpl. by rewrite andb_true_r.
Qed.

(** A word that names a thread which is not asleep: it is the owner. *)
Lemma named_owner : lock_body (word s) = wr_word t -> waits_for th = None -> owner th = 1%nat.
Proof.
  intros Eb Ew. pose proof (ok_tid _ _ th_ok) as Hsm. destruct Hfs as [Hf _].
  destruct (inv_word s Hs) as [[_ E]|(u & Hc & _ & _ & E)].
  - pose proof (wr_word_range t Hsm). lia.
  - rewrite Eb in E. apply wr_word_inj in E as <-; [|done|by apply inv_small].
    destruct Hc as [(uh & Hu & Ho)|Hg]; [by simplify_eq|].
    destruct (queued_waits _ _ (inv_queued s Hs) t Wr) as (uh & Hu & Hw); [apply elem_of_app; by right|].
    by simplify_eq.
Qed.

Lemma exec_trywrlock_inv c i w rec th' : th_pc th = TryWr c i ->
  exec_trywrlock t (word s) (recursion s) th c i = Next w rec th' -> inv (after w rec th').
Proof.
  intros Ep E. pose proof th_ok as Hok. pose proof (ok_tid _ _ Hok) as Hsm.
  assert (Hp : pc_ok t th) by apply Hok. unfold pc_ok in Hp. rewrite Ep in Hp.
  unfold exec_trywrlock in E. destruct (Z.eqb_spec (word s) CLOUDABI_LOCK_UNLOCKED) as [E0|E0].
  - injection E as <- <- <-. pose proof (inv_word s Hs) as Hx. rewrite E0 in Hx.
    destruct (tells_zero _ _ Hx inv_small) as [HO HR]. pose proof WRLOCKED_pos. pose proof WRLOCKED_MANAGED.
    pose proof (total_le owner _ _ _ Ht). pose proof (no_owner_writes _ _ HO) as HW.
    pose proof (total_le writes _ _ _ Ht).
    destruct (counts_upd (rw_threads s) G t th (took_wr (Idle 0) th) Ht) as (CR & CO & CW).
    assert (owner (took_wr (Idle 0) th) = 1%nat) as Eo' by done.
    unfold all_owners in HO. simpl in CR, CW.
    assert (lock_managed (word s) = false) as Em by (by rewrite E0).
    pose proof (wr_word_range t Hsm). apply inv_upd.
    + unfold waits_for. simpl. by rewrite Ep.
    + apply took_wr_ok; [lia|by rewrite Ep].
    + rewrite <- (enc_false (wr_word t)), <- Em. apply klock_wf_word; [apply Hs|lia|lia].
    + rewrite <- (enc_false (wr_word t)), body_enc by lia.
      apply tells_owner; [done| |lia|done]. unfold all_owners in *. lia.
    + eapply recursion_same; [apply Hs|lia|lia].
  - destruct (Z.eqb_spec (lock_body (word s)) (wr_word t)) as [Eb|Eb]; injection E as <- <- <-.
    + apply inv_goto; [by rewrite Ep|done|].
      assert (owner th = 1%nat) as Ho by (apply named_owner; [done|]; unfold waits_for; by rewrite Ep).
      unfold owner in Ho. rewrite Ep in Ho. unfold pc_ok. simpl. destruct (writes th); [done|].
      destruct Hp; [done|]. split; [lia|done].
    + apply inv_goto; [by rewrite Ep|unfold wr_busy; by destruct c, (i + 1 <? LOCK_RETRY_COUNT)|].
      assert (writes th = 0%nat) as Hw0.
      { destruct (writes th) eqn:E; [done|]. destruct Eb. apply owner_word_s, writes_owner. lia. }
      unfold pc_ok, wr_busy. simpl. destruct c, (i + 1 <? LOCK_RETRY_COUNT); auto.
Qed.

Lemma exec_trywrlock_own_inv w rec th' : th_pc th = TryWrOwn ->
  exec_trywrlock_own (word s) (recursion s) th = Next w rec th' -> inv (after w rec th').
Proof.
  intros Ep E. assert (Hp : pc_ok t th) by apply th_ok. unfold pc_ok in Hp. rewrite Ep in Hp.
  destruct Hp as [Hw Hrec]. pose proof (writes_owner th Hw) as Ho.
  assert (w = word s /\ rec = recursion s + 1 /\ th' = set_writes (S (writes th)) (Idle 0) th) as (-> & -> & ->).
  { unfold exec_trywrlock_own in E. repeat case_match; by simplify_eq. }
  pose proof (counts_upd (rw_threads s) G t th (set_writes (S (writes th)) (Idle 0) th) Ht) as (_ & _ & CW).
  simpl in CW. pose proof (owner_writes_s Ho). apply inv_upd.
  - unfold waits_for. simpl. by rewrite Ep.
  - apply set_writes_ok; [by rewrite Ep|]. unfold listed. rewrite Ep, andb_true_r. by destruct (writes th); [lia|].
  - pose proof (inv_kernel s Hs). by destruct (klk s).
  - eapply tells_same; [done..|by rewrite Ho|apply Hs].
  - destruct (inv_recursion s Hs) as [[_ E2]|[? _]]; [|done]. left. split; [done|]. lia.
Qed.

Lemma exec_wrtaken_inv : th_pc th = WrTaken -> inv (after (word s) (recursion s) (took_wr (Idle 0) th)).
Proof.
  intros Ep. assert (Hp : pc_ok t th) by apply th_ok. unfold pc_ok in Hp. rewrite Ep in Hp.
  assert (owner th = 1%nat) as Ho by (unfold owner; by rewrite Hp, Ep).
  pose proof (counts_upd (rw_threads s) G t th (took_wr (Idle 0) th) Ht) as (_ & _ & CW).
  simpl in CW. pose proof (owner_writes_s Ho). apply inv_upd.
  - unfold waits_for. simpl. by rewrite Ep.
  - apply took_wr_ok; [done|by rewrite Ep].
  - pose proof (inv_kernel s Hs). by destruct (klk s).
  - eapply tells_same; [done..|by rewrite Ho|apply Hs].
  - eapply recursion_same; [apply Hs|lia|lia].
Qed.

Lemma reads_word_s : (0 < reads th)%nat ->
  all_owners (rw_threads s) G = 0%nat /\ lock_body (word s) = Z.of_nat (all_reads (rw_threads s) G) /\
  (0 < all_reads (rw_threads s) G)%nat.
Proof. apply (reads_word _ _ _ (inv_word s Hs) t th Ht). Qed.

(** Whoever unlocks a read-locked word holds a read lock. *)
Lemma unlock_role : (0 < reads th)%nat \/ (0 < writes th)%nat ->
  if lock_wrlocked (word s) then (0 < writes th)%nat else (0 < reads th)%nat.
Proof.
  pose proof (ok_tid _ _ th_ok) as Hsm. rewrite wrlocked_body by apply word_ok_s. intros [Hr|Hw].
  - destruct (reads_word_s Hr) as (_ & E & _). rewrite E. rewrite wrlocked_small; [done|].
    destruct Hfs as [Hf _]. unfold lock_small. lia.
  - destruct (owner_word_s (writes_owner th Hw)) as (_ & _ & ->). by rewrite wrlocked_wr_word.
Qed.

Lemma exec_unlock_inv w rec th' : th_pc th = Unlock ->
  exec_unlock t (word s) (recursion s) th = Next w rec th' -> inv (after w rec th').
Proof.
  intros Ep E. assert (Hp : pc_ok t th) by apply th_ok. unfold pc_ok in Hp. rewrite Ep in Hp.
  pose proof (unlock_role Hp) as Hrole. unfold exec_unlock in E.
  destruct (lock_wrlocked (word s)) eqn:Ew.
  - destruct (wrlocks th); [done|]. destruct (Z.eqb_spec (lock_body (word s)) (wr_word t)); [|done].
    injection E as <- <- <-. apply inv_goto; [by rewrite Ep|done|].
    split; [done|]. split; [apply word_ok_s|done].
  - destruct (0 <? rdlocks th); [|done]. injection E as <- <- <-. apply inv_goto; [by rewrite Ep|done|].
    destruct (reads_word_s Hrole) as (_ & Eb & Hr).
    split; [done|]. split; [split; [apply word_ok_s|done]|lia].
Qed.

Lemma unlist_ok p : plain (th_pc th) = true -> match p with UnlockWrCas _ | UnlockWrKernel => True | _ => False end ->
  pc_ok t (unlist p th) -> thread_ok t (unlist p th).
Proof.
  intros H1 H2 Hp. destruct th_ok as [O1 O2 O3 O4 O5]. split; simpl; [done| |done| |done].
  - rewrite O2. by destruct (th_pc th), p.
  - unfold LIST_REMOVE. rewrite list_elem_of_filter. unfold listed. simpl.
    split; [by intros [? _]|]. destruct p; try done; by rewrite andb_false_r.
Qed.

(** Without recursion left the writer holds the lock once. *)
Lemma last_write : (0 < writes th)%nat -> recursion s <= 0 -> writes th = 1%nat.
Proof.
  intros Hw Hr. pose proof (owner_writes_s (writes_owner th Hw)).
  destruct (inv_recursion s Hs) as [[_ E]|(_ & _ & E)]; lia.
Qed.

Lemma exec_unlock_wr_inv old w rec th' : th_pc th = UnlockWr old ->
  exec_unlock_wr (word s) (recursion s) th old = Next w rec th' -> inv (after w rec th').
Proof.
  intros Ep E. assert (Hp : pc_ok t th) by apply th_ok. unfold pc_ok in Hp. rewrite Ep in Hp.
  destruct Hp as (Hw & Hok & Hold). pose proof (writes_owner th Hw) as Ho.
  unfold exec_unlock_wr in E. destruct (Z.ltb_spec 0 (recursion s)) as [Hr|Hr]; injection E as <- <- <-.
  - pose proof (counts_upd (rw_threads s) G t th (set_writes (pred (writes th)) (Idle 0) th) Ht) as (_ & _ & CW).
    simpl in CW. pose proof (owner_writes_s Ho).
    destruct (inv_recursion s Hs) as [[Hrec E]|(_ & E & _)]; [|lia].
    apply inv_upd.
    + unfold waits_for. simpl. by rewrite Ep.
    + apply set_writes_ok; [by rewrite Ep|]. unfold listed. rewrite Ep, andb_true_r.
      destruct (Nat.ltb_spec 0 (writes th)), (Nat.ltb_spec 0 (pred (writes th))); done || lia.
    + pose proof (inv_kernel s Hs). by destruct (klk s).
    + eapply tells_same; [done..| |apply Hs]. rewrite Ho. apply writes_owner. simpl. lia.
    + left. split; [done|]. lia.
  - pose proof (last_write Hw Hr) as Hw1.
    apply inv_stay; [unfold waits_for; simpl; rewrite Ep; by destruct (lock_managed old)| |done| |done].
    + apply unlist_ok; [by rewrite Ep|by destruct (lock_managed old)|].
      unfold pc_ok. simpl. by destruct (lock_managed old) eqn:Em.
    + rewrite Ho. unfold owner. simpl. by rewrite Hw1.
Qed.

Lemma exec_unlock_wr_cas_inv old : th_pc th = UnlockWrCas old ->
  (word s = old -> inv (after CLOUDABI_LOCK_UNLOCKED (recursion s) (set_writes (pred (writes th)) (Idle 0) th))) /\
  inv (after (word s) (recursion s) (goto UnlockWrKernel th)).
Proof.
  intros Ep. pose proof th_ok as Hok. assert (Hp : pc_ok t th) by apply Hok. unfold pc_ok in Hp.
  rewrite Ep in Hp. destruct Hp as (Hw & Hwo & Hold & Hm).
  pose proof (writes_owner th ltac:(lia)) as Ho. destruct (owner_word_s Ho) as (HO & HR & Hb).
  pose proof (owner_writes_s Ho). split.
  - intros <-. destruct (counts_upd (rw_threads s) G t th (set_writes (pred (writes th)) (Idle 0) th) Ht) as (CR & CO & CW).
    simpl in CR, CW. rewrite Hw in *. cbn [pred] in *.
    assert (owner (set_writes 0 (Idle 0) th) = 0%nat) as Eo' by done.
    pose proof WRLOCKED_pos. pose proof WRLOCKED_MANAGED. apply inv_upd.
    + unfold waits_for. simpl. by rewrite Ep.
    + apply set_writes_ok; [by rewrite Ep|]. unfold listed. by rewrite Ep, andb_false_r.
    + change CLOUDABI_LOCK_UNLOCKED with (enc false 0). rewrite <- Hm.
      apply klock_wf_word; [apply Hs|lia|]. by rewrite Hm.
    + left. split; [lia|]. change (lock_body CLOUDABI_LOCK_UNLOCKED) with 0. lia.
    + eapply recursion_same; [apply Hs|lia|lia].
  - destruct Hok as [O1 O2 O3 O4 O5]. apply inv_stay; [unfold waits_for; simpl; by rewrite Ep| |done| |done].
    + split; simpl; [done|by rewrite O2, Ep|done| |done]. rewrite O4. unfold listed. by rewrite Ep, !andb_false_r.
    + unfold owner. simpl. by rewrite Ep, Hw.
Qed.

(** The last reader turns its lock into a write lock to call the kernel. *)
Lemma exec_upgrade_inv : th_pc th = UnlockRdCas (word s) -> word s = Z.lor 1 CLOUDABI_LOCK_KERNEL_MANAGED ->
  inv (after (Z.lor (Z.lor t CLOUDABI_LOCK_WRLOCKED) CLOUDABI_LOCK_KERNEL_MANAGED) (recursion s) (gave_rd UnlockRdKernel th)).
Proof.
  intros Ep Ew. pose proof th_ok as Hok. assert (Hp : pc_ok t th) by apply Hok. unfold pc_ok in Hp.
  rewrite Ep in Hp. destruct Hp as (Hr & _ & _). destruct Hok as [O1 O2 O3 O4 O5].
  destruct (reads_word_s Hr) as (HO & Hb & _). pose proof WRLOCKED_pos. pose proof WRLOCKED_MANAGED.
  rewrite lor_managed in Ew by lia. rewrite Ew, body_enc in Hb by lia.
  pose proof (wr_word_range t O1) as Hwr. fold (wr_word t). rewrite lor_managed by lia.
  destruct (counts_upd (rw_threads s) G t th (gave_rd UnlockRdKernel th) Ht) as (CR & CO & CW).
  assert (owner th = 0%nat) as Ho.
  { pose proof (total_le owner _ _ _ Ht). unfold all_owners in HO. lia. }
  assert (writes th = 0%nat) as Hw0 by (unfold owner in Ho; by destruct (writes th)).
  assert (owner (gave_rd UnlockRdKernel th) = 1%nat) as Ho' by (unfold owner; simpl; by rewrite Hw0).
  simpl in CR, CW. apply inv_upd.
  - unfold waits_for. simpl. by rewrite Ep.
  - split; simpl; [done| |done| |by unfold pc_ok].
    + rewrite O2, Ep. lia.
    + rewrite O4. unfold listed. simpl. by rewrite Hw0.
  - rewrite <- (managed_enc true 1), <- Ew by lia. apply klock_wf_word; [apply Hs|lia|lia].
  - rewrite body_enc by lia. apply tells_owner; [done|lia|lia|done].
  - eapply recursion_same; [apply Hs|lia|lia].
Qed.

(** Another reader gives up its lock. *)
Lemma exec_drop_rd_inv : th_pc th = UnlockRdCas (word s) -> word s <> Z.lor 1 CLOUDABI_LOCK_KERNEL_MANAGED ->
  inv (after (u32 (word s - 1)) (recursion s) (dec_rdlocks (gave_rd (Idle 0) th))).
Proof.
  intros Ep Ew. pose proof th_ok as Hok. assert (Hp : pc_ok t th) by apply Hok. unfold pc_ok in Hp.
  rewrite Ep in Hp. destruct Hp as (Hr & _ & _). destruct Hok as [O1 O2 O3 O4 O5].
  destruct (reads_word_s Hr) as (HO & Hb & Hr'). pose proof WRLOCKED_pos. pose proof WRLOCKED_MANAGED.
  destruct (word_split _ word_ok_s) as [Es Hrange]. rewrite lor_managed in Ew by lia.
  replace (word s - 1) with (word s + -1) by lia. rewrite word_add by (apply word_ok_s || lia).
  destruct (counts_upd (rw_threads s) G t th (dec_rdlocks (gave_rd (Idle 0) th)) Ht) as (CR & CO & CW).
  assert (owner th = 0%nat) as Ho.
  { pose proof (total_le owner _ _ _ Ht). unfold all_owners in HO. lia. }
  assert (writes th = 0%nat) as Hw0 by (unfold owner in Ho; by destruct (writes th)).
  assert (owner (dec_rdlocks (gave_rd (Idle 0) th)) = 0%nat) as Ho' by (unfold owner; simpl; by rewrite Hw0).
  rewrite Ep in O2. simpl in CR, CW. apply inv_upd.
  - unfold waits_for. simpl. by rewrite Ep.
  - split; simpl; [done| | | |done].
    + rewrite uN_small; unfold in_unsigned; lia.
    + rewrite uN_small; unfold in_unsigned; lia.
    + rewrite O4. unfold listed. simpl. by rewrite Hw0.
  - apply klock_wf_word; [apply Hs|lia|]. intros Em E0. apply Ew. rewrite Es, Em. f_equal. lia.
  - left. rewrite body_enc by lia. lia.
  - eapply recursion_same; [apply Hs|lia|lia].
Qed.

Lemma exec_unlock_rd_inv spurious old w rec th' : th_pc th = UnlockRdCas old ->
  exec_unlock_rd t spurious (word s) (recursion s) th old = Next w rec th' -> inv (after w rec th').
Proof.
  intros Ep E. assert (Hp : pc_ok t th) by apply th_ok. unfold pc_ok in Hp. rewrite Ep in Hp.
  destruct Hp as (Hr & _ & _). destruct (reads_word_s Hr) as (HO & Hb & Hr').
  assert (inv (after (word s) (recursion s) (goto (UnlockRdCas (word s)) th))) as Hretry.
  { apply inv_goto; [by rewrite Ep|done|]. split; [done|]. split; [|lia]. split; [apply word_ok_s|].
    rewrite wrlocked_body, Hb by apply word_ok_s. apply wrlocked_small. destruct Hfs as [Hf _].
    unfold lock_small. lia. }
  unfold exec_unlock_rd in E. destruct (Z.eqb_spec old (Z.lor 1 CLOUDABI_LOCK_KERNEL_MANAGED)) as [->|Hn].
  - destruct (Z.eqb_spec (word s) (Z.lor 1 CLOUDABI_LOCK_KERNEL_MANAGED)) as [Ew|Ew], spurious; simpl in E;
      injection E as <- <- <-; try done. apply exec_upgrade_inv; [by rewrite Ew|done].
  - destruct (lock_body old =? 0); [done|].
    destruct (Z.eqb_spec (word s) old) as [<-|Ew], spurious; simpl in E; injection E as <- <- <-; try done.
    by apply exec_drop_rd_inv.
Qed.

(** Every step in user space keeps the invariant. *)
Lemma exec_next_inv spurious w rec th' :
  exec t spurious (word s) (recursion s) th = Next w rec th' ->
  fits (after w rec th') -> inv (after w rec th').
Proof.
  intros E Hf. unfold exec in E. assert (Hp : pc_ok t th) by apply th_ok. unfold pc_ok in Hp.
  destruct (th_pc th) eqn:Ep; try done.
  - by eapply exec_tryrdlock_inv.
  - unfold exec_poll_rd, exec_poll_wr in E. destruct (bad_abstime c); [|done]. injection E as <- <- <-. apply inv_goto; by rewrite ?Ep.
  - by eapply exec_trywrlock_inv.
  - by eapply exec_trywrlock_own_inv.
  - unfold exec_poll_rd, exec_poll_wr in E. destruct (bad_abstime c); [|done]. injection E as <- <- <-. apply inv_goto; by rewrite ?Ep.
  - destruct (0 <? recursion s); [done|]. injection E as <- <- <-. by apply exec_wrtaken_inv.
  - by apply exec_unlock_inv.
  - by eapply exec_unlock_wr_inv.
  - destruct (exec_unlock_wr_cas_inv _ Ep) as [H1 H2].
    destruct (Z.eqb_spec (word s) old); injection E as <- <- <-; auto.
  - destruct (0 <? recursion s); [done|]. injection E as <- <- <-. apply inv_goto; by rewrite ?Ep.
  - by eapply exec_unlock_rd_inv.
  - unfold exec_cond_check in E. assert (w = word s /\ rec = recursion s /\ th' = goto (CondCheckRec abstime) th) as (-> & -> & ->).
    { repeat case_match; by simplify_eq. }
    apply inv_goto; by rewrite ?Ep.
  - unfold exec_cond_check_rec in E. destruct (0 <? recursion s); [done|].
    destruct (match abstime with Some ts => bad_abstime (Timed ts) | None => false end);
      injection E as <- <- <-; apply inv_goto; by rewrite ?Ep.
Qed.

(** ** The steps of the kernel *)

Lemma queued_perm ths Q Q' : Q ≡ₚ Q' -> queued ths Q -> queued ths Q'.
Proof.
  intros E [H1 H2 H3]. split.
  - intros u m. rewrite <- E. apply H1.
  - intros u uh m. rewrite <- E. apply H2.
  - by rewrite <- E.
Qed.

Lemma queued_add th' m Q : waits_for th = None -> waits_for th' = Some m ->
  queued (rw_threads s) Q -> queued (<[t := th']> (rw_threads s)) ((t, m) :: Q).
Proof.
  intros Ew Ew' [H1 H2 H3].
  assert (forall n, (t, n) ∉ Q) as Hn by (intros n (uh & ? & ?)%H1; by simplify_eq).
  split.
  - intros u n Hu. destruct (decide (u = t)) as [->|Hne].
    + exists th'. rewrite lookup_insert_eq. split; [done|].
      apply elem_of_cons in Hu as [Hu|Hu]; [by simplify_eq|by apply Hn in Hu].
    + rewrite lookup_insert_ne by done. apply elem_of_cons in Hu as [Hu|Hu]; [by simplify_eq|by apply H1].
  - intros u uh n [[<- <-]|[Hne Hu]]%lookup_insert_Some Hw; [simplify_eq; by constructor|].
    constructor. by eapply H2.
  - simpl. constructor; [|done]. intros ([u n] & E & Hin)%list_elem_of_fmap. simpl in E. subst. by apply Hn in Hin.
Qed.

Lemma queued_del th' m Q : waits_for th' = None ->
  queued (rw_threads s) ((t, m) :: Q) -> queued (<[t := th']> (rw_threads s)) Q.
Proof.
  intros Ew' [H1 H2 H3]. simpl in H3. apply list.NoDup_cons in H3 as [Hn H3].
  assert (forall u n, (u, n) ∈ Q -> u <> t) as Hne.
  { intros u n Hu ->. apply Hn, list_elem_of_fmap. by exists (t, n). }
  split; [| |done].
  - intros u n Hu. rewrite lookup_insert_ne by (symmetry; by eapply Hne). apply H1. by constructor.
  - intros u uh n [[<- <-]|[Hu Hl]]%lookup_insert_Some Hw; [by rewrite Ew' in Hw|].
    destruct (proj1 (elem_of_cons _ _ _) (H2 _ _ _ Hl Hw)) as [E|?]; [by simplify_eq|done].
Qed.

Lemma tells_perm ths Q Q' x : Q ≡ₚ Q' -> word_tells ths Q x -> word_tells ths Q' x.
Proof.
  intros E. unfold word_tells, claims, all_owners, all_reads. rewrite E.
  intros [?|(u & Hc & ?)]; [by left|]. right. exists u. by rewrite <- E.
Qed.

Lemma tells_grants ths Q gs Q' x y : word_tells ths Q x -> (forall u, claims ths Q u -> lock_small u) ->
  kernel_grants x gs y -> Q' ≡ₚ gs ++ Q -> word_tells ths Q' y.
Proof.
  intros Hx Hsm Hg E. eapply tells_perm; [symmetry; exact E|]. destruct Hg as [x|x ts Hwr|u].
  - done.
  - destruct (tells_rd _ _ _ Hx Hsm Hwr) as [HO HR]. left. unfold all_owners, all_reads in *.
    rewrite !count_mode_app. destruct (count_map_rd ts) as [-> ->]. lia.
  - destruct (tells_zero _ _ Hx Hsm) as [HO HR]. right. exists u. unfold claims, all_owners, all_reads in *.
    simpl. rewrite !count_cons. simpl. split_and!; [right; by constructor|lia|lia|done].
Qed.

Lemma kernel_inv op th' k : kernel op (klk s) k -> kernel_pre op (klk s) ->
  thread_ok t th' ->
  recursion_tells (total writes (<[t := th']> (rw_threads s))) (recursion s) ->
  (forall y E, kernel_entry op (lock_body (word s)) B y E ->
     word_tells (<[t := th']> (rw_threads s)) G y /\ queued (<[t := th']> (rw_threads s)) (E ++ G)) ->
  inv (upd s k (recursion s) t th').
Proof.
  intros Hk Hpre Hok Hrec Hentry. destruct (kernel_ok _ _ _ Hk Hpre) as (y & E & gs & He & HE & HG & Hg & Hwf).
  destruct (Hentry _ _ He) as [Hy Hq].
  assert (threads_ok (<[t := th']> (rw_threads s))) as Hths by (apply threads_upd; [apply Hs|done]).
  split; simpl; [done| |done| |done].
  - eapply tells_grants; [exact Hy| |exact Hg|done]. intros u Hu. by eapply claims_small.
  - eapply queued_perm; [|exact Hq]. rewrite HE, HG. solve_Permutation.
Qed.

Lemma klock_fits_s : klock_fits (klk s).
Proof.
  destruct Hfs as [Hf _]. unfold klock_fits. destruct (lock_wrlocked (word s)) eqn:Ew; [lia|].
  destruct (tells_rd_s Ew) as [_ ->]. lia.
Qed.

(** Sleeping. *)
Lemma poll_inv m th' k : kernel (KPoll t m) (klk s) k ->
  waits_for th = None -> waits_for th' = Some m -> thread_ok t th' ->
  reads th' = reads th -> owner th' = owner th -> writes th' = writes th ->
  inv (upd s k (recursion s) t th').
Proof.
  intros Hk Ew Ew' Hok Er Eo Eww. eapply kernel_inv; [done| |done| |].
  - split; [apply Hs|]. split; [apply klock_fits_s|apply Hok].
  - destruct (counts_upd (rw_threads s) G t th th' Ht) as (_ & _ & Hc).
    replace (total writes _) with (total writes (rw_threads s)) by lia. apply Hs.
  - intros y E He. inversion He; subst. split; [by eapply tells_same, Hs|].
    simpl. apply queued_add; [done..|]. apply (inv_queued s Hs).
Qed.

(** Giving the word back to the kernel. *)
Lemma kunlock_inv th' k : kernel (KUnlock t) (klk s) k -> owner th = 1%nat ->
  waits_for th = None -> waits_for th' = None -> thread_ok t th' ->
  reads th' = reads th -> owner th' = 0%nat -> (pred (writes th) = 0%nat /\ writes th' = 0%nat) ->
  inv (upd s k (recursion s) t th').
Proof.
  intros Hk Ho Ew Ew' Hok Er Eo [Ew1 Ew0]. destruct (owner_word_s Ho) as (HO & HR & Hb).
  pose proof (owner_writes_s Ho).
  destruct (counts_upd (rw_threads s) G t th th' Ht) as (CR & CO & CW).
  eapply kernel_inv; [done| |done| |].
  - split; [apply Hs|]. split; [apply klock_fits_s|]. split; [apply Hok|done].
  - eapply recursion_same; [apply Hs|lia|lia].
  - intros y E He. inversion He; subst. split; [left; lia|].
    eapply queued_same; [done|by rewrite Ew, Ew'|apply (inv_queued s Hs)].
Qed.

(** Time-outs. *)
Lemma cancel_inv m th' k : kernel (KCancel t m) (klk s) k -> (t, m) ∈ B ->
  waits_for th' = None -> thread_ok t th' ->
  reads th' = reads th -> owner th' = owner th -> writes th' = writes th ->
  inv (upd s k (recursion s) t th').
Proof.
  intros Hk HB Ew' Hok Er Eo Eww. eapply kernel_inv; [done| |done| |].
  - split; [apply Hs|]. split; [apply klock_fits_s|done].
  - destruct (counts_upd (rw_threads s) G t th th' Ht) as (_ & _ & Hc).
    replace (total writes _) with (total writes (rw_threads s)) by lia. apply Hs.
  - intros y E He. inversion He as [| |? ? ? ? ? HP]; subst. split; [by eapply tells_same, Hs|].
    apply (queued_del th' m); [done|]. eapply queued_perm; [|apply (inv_queued s Hs)].
    exact (Permutation_app_tail G HP).
Qed.

Lemma goto_ok p : listed (goto p th) = listed th -> th_pc th <> UnlockRdKernel -> p <> UnlockRdKernel ->
  pc_ok t (goto p th) -> thread_ok t (goto p th).
Proof.
  intros El H1 H2 Hp. destruct th_ok as [O1 O2 O3 O4 O5]. split; simpl; [done| |done|by rewrite El|done].
  rewrite O2. by destruct (th_pc th), p.
Qed.

Lemma exec_calls_inv spurious op th' k :
  exec t spurious (word s) (recursion s) th = Calls op th' -> kernel op (klk s) k ->
  inv (upd s k (recursion s) t th').
Proof.
  intros E Hk. pose proof th_ok as Hok. assert (Hp : pc_ok t th) by apply Hok. unfold pc_ok in Hp.
  destruct (th_pc th) eqn:Ep; unfold exec in E; rewrite Ep in E; try done;
    try (unfold exec_tryrdlock, exec_trywrlock, exec_trywrlock_own, exec_unlock, exec_unlock_wr,
         exec_unlock_rd, exec_cond_check, exec_cond_check_rec in E; repeat case_match; done).
  - unfold exec_poll_rd, exec_poll_wr in E. destruct (bad_abstime c); [done|]. injection E as <- <-. eapply poll_inv; [done| |done| |done| |done].
    + unfold waits_for. by rewrite Ep.
    + apply goto_ok; unfold listed; simpl; by rewrite ?Ep, ?Hp.
    + unfold owner. simpl. by rewrite Hp, Ep.
  - unfold exec_poll_rd, exec_poll_wr in E. destruct (bad_abstime c); [done|]. injection E as <- <-. eapply poll_inv; [done| |done| |done| |done].
    + unfold waits_for. by rewrite Ep.
    + apply goto_ok; unfold listed; simpl; by rewrite ?Ep, ?Hp.
    + unfold owner. simpl. by rewrite Hp, Ep.
  - injection E as <- <-. eapply kunlock_inv; simpl; rewrite ?Hp; try done.
    + by apply writes_owner; lia.
    + unfold waits_for. by rewrite Ep.
    + apply set_writes_ok; [by rewrite Ep|]. unfold listed. by rewrite Ep, andb_false_r.
  - injection E as <- <-. destruct Hok as [O1 O2 O3 O4 O5]. rewrite Ep in O2.
    eapply kunlock_inv; simpl; rewrite ?Hp; try done.
    + unfold owner. by rewrite Ep, Hp.
    + unfold waits_for. by rewrite Ep.
    + split; simpl; [done| | | |done].
      * rewrite uN_small; unfold in_unsigned; lia.
      * rewrite uN_small; unfold in_unsigned; lia.
      * rewrite O4. unfold listed. simpl. by rewrite Hp.
    + unfold owner. simpl. by rewrite Hp.
  - injection E as <- <-. destruct Hok as [O1 O2 O3 O4 O5]. rewrite Ep in O2.
    eapply kunlock_inv; simpl; rewrite ?Hp; try done.
    + by apply writes_owner; lia.
    + unfold waits_for. by rewrite Ep.
    + split; simpl; [done|done|done| |done].
      unfold LIST_REMOVE. rewrite list_elem_of_filter. unfold listed. simpl. split; [by intros [? _]|done].
Qed.

(** Waking up with the lock. *)
Lemma tells_wake m th' Q x : waits_for th = Some m ->
  reads th' = (reads th + if decide (m = Rd) then 1 else 0)%nat ->
  owner th' = (owner th + if decide (m = Wr) then 1 else 0)%nat ->
  word_tells (rw_threads s) ((t, m) :: Q) x -> word_tells (<[t := th']> (rw_threads s)) Q x.
Proof.
  intros Ew Er Eo Hx. destruct (counts_upd (rw_threads s) Q t th th' Ht) as (CR & CO & _).
  assert (all_reads (<[t := th']> (rw_threads s)) Q = all_reads (rw_threads s) ((t, m) :: Q)) as ER
    by (unfold all_reads in *; rewrite count_cons; destruct m; simpl in *; lia).
  assert (all_owners (<[t := th']> (rw_threads s)) Q = all_owners (rw_threads s) ((t, m) :: Q)) as EO
    by (unfold all_owners in *; rewrite count_cons; destruct m; simpl in *; lia).
  unfold word_tells. rewrite ER, EO. destruct Hx as [?|(u & Hc & ?)]; [by left|].
  right. exists u. split; [|done]. pose proof (owner_le th').
  assert (owner th' = 1%nat -> claims (<[t := th']> (rw_threads s)) Q t) as Hct
    by (intros; left; exists th'; by rewrite lookup_insert_eq).
  destruct Hc as [(uh & Hu & Ho)|[Hg|Hg]%elem_of_cons]; [|simplify_eq; apply Hct; simpl in Eo; lia|by right].
  destruct (decide (u = t)) as [->|Hne]; [simplify_eq; apply Hct; lia|].
  left. exists uh. by rewrite lookup_insert_ne.
Qed.

Lemma wake_inv m th' Q : waits_for th = Some m -> G ≡ₚ (t, m) :: Q -> woken th th' ->
  fits (upd s (KLock (word s) B Q) (recursion s) t th') ->
  inv (upd s (KLock (word s) B Q) (recursion s) t th').
Proof.
  intros Ew HG Hwk [_ Hft]. pose proof th_ok as Hok. assert (Hp : pc_ok t th) by apply Hok.
  assert (writes th = 0%nat) as Hw0 by (unfold pc_ok, waits_for in *; by destruct (th_pc th)).
  assert (owner th = 0%nat) as Ho by (unfold owner; rewrite Hw0; unfold waits_for in Ew; by destruct (th_pc th)).
  assert (th_pc th <> UnlockRdKernel) as Hnk by (intros E; unfold waits_for in Ew; by rewrite E in Ew).
  assert (m = Wr -> total writes (rw_threads s) = 0%nat) as Hwr.
  { intros ->. apply (no_owner_writes _ []).
    destruct (claims_word _ _ _ (inv_word s Hs) t) as (HO & _); [right; rewrite HG; by constructor|].
    unfold all_owners in *. rewrite HG, count_cons, decide_True in HO by done.
    change (count_mode Wr []) with 0%nat. lia. }
  pose proof (tells_perm _ _ _ _ HG (inv_word s Hs)) as Htell.
  destruct (counts_upd (rw_threads s) Q t th th' Ht) as (_ & _ & CW).
  assert (waits_for th' = None /\ thread_ok t th' /\
    reads th' = (reads th + if decide (m = Rd) then 1 else 0)%nat /\
    owner th' = (owner th + if decide (m = Wr) then 1 else 0)%nat /\
    (writes th' = 0%nat \/ (m = Wr /\ writes th' = 1%nat))) as (Ew' & Hok' & Er & Eo & Eww).
  { rewrite Ho. unfold waits_for in Ew. destruct Hwk as [c Ep|Ep|ts Ep|ret Ep _]; rewrite Ep in Ew;
      injection Ew as <-; (split; [done|]); simpl; rewrite ?Hw0; repeat (case_decide; try done).
    - split; [|split_and!; [lia|unfold owner; simpl; by rewrite Hw0|by left]].
      destruct (Hft t (took_rd (Idle 0) th)) as [Hu _]; [simpl; by rewrite lookup_insert_eq|]. simpl in Hu.
      destruct Hok as [O1 O2 O3 O4 O5]. rewrite Ep in O2. split; simpl; [done| | | |done].
      + rewrite O2, uN_small; unfold in_unsigned; lia.
      + rewrite O2, uN_small; unfold in_unsigned; lia.
      + rewrite O4. unfold listed. simpl. by rewrite Hw0.
    - split; [|split_and!; [lia|unfold owner; simpl; by rewrite Hw0|by left]].
      apply goto_ok; unfold listed; simpl; by rewrite ?Ep, ?Hw0.
    - split; [by apply took_wr_ok|]. split_and!; [lia|done|by right].
    - split; [by apply took_wr_ok|]. split_and!; [lia|done|by right]. }
  split; simpl; [pose proof (inv_kernel s Hs); by destruct (klk s)| | | |].
  - by eapply tells_wake.
  - eapply recursion_same; [apply Hs|..]; (destruct Eww as [?|[Em ?]]; [|specialize (Hwr Em)]; lia).
  - apply (queued_del th' m); [done|]. eapply queued_perm; [|apply (inv_queued s Hs)].
    rewrite HG. solve_Permutation.
  - apply threads_upd; [apply Hs|done].
Qed.

Lemma call_inv cl ret : th_pc th = Idle ret -> may_call th cl ->
  inv (upd s (klk s) (recursion s) t (goto (enter cl) th)).
Proof.
  intros Ep Hc.
  assert (inv (after (word s) (recursion s) (goto (enter cl) th))) as Hi; [|by destruct (klk s)].
  apply inv_goto; [by rewrite Ep|by destruct cl|]. unfold pc_ok. destruct cl; simpl in *; try done.
  pose proof WRLOCKED_pos. pose proof WRLOCKED_MANAGED. split; [done|]. split.
  - unfold word_ok, CLOUDABI_LOCK_UNLOCKED. lia.
  - apply wrlocked_small. unfold lock_small, CLOUDABI_LOCK_UNLOCKED. lia.
Qed.

Lemma other_inv ret wrs n : th_pc th = Idle ret -> (self ∈ wrs <-> self ∈ wrlocks th) ->
  Z.of_nat (reads th + n) < 2 ^ 32 ->
  inv (upd s (klk s) (recursion s) t
         (RwThread (Idle ret) (u32 (Z.of_nat (reads th + n))) wrs (reads th) (writes th) n)).
Proof.
  intros Ep Hself Hn. destruct th_ok as [O1 O2 O3 O4 O5].
  assert (inv (after (word s) (recursion s)
    (RwThread (Idle ret) (u32 (Z.of_nat (reads th + n))) wrs (reads th) (writes th) n))) as Hi; [|by destruct (klk s)].
  apply inv_stay; [unfold waits_for; by rewrite Ep| |done|unfold owner; by rewrite Ep|done].
  split; simpl; [done| | | |done].
  - rewrite uN_small; unfold in_unsigned; lia.
  - rewrite uN_small; unfold in_unsigned; lia.
  - rewrite Hself, O4. unfold listed. by rewrite Ep.
Qed.

Lemma timeout_inv m ts k : th_pc th = match m with Rd => RdWait (Timed ts) | Wr => WrWait (Timed ts) end ->
  (t, m) ∈ B -> kernel (KCancel t m) (klk s) k ->
  inv (upd s k (recursion s) t (goto (Idle ETIMEDOUT) th)).
Proof.
  intros Ep HB Hk. assert (Hp : pc_ok t th) by apply th_ok.
  assert (writes th = 0%nat) as Hw0 by (unfold pc_ok in Hp; rewrite Ep in Hp; by destruct m).
  eapply cancel_inv; [done|done|done| |done| |done].
  - apply goto_ok; unfold listed; simpl; rewrite ?Ep, ?Hw0; by destruct m.
  - unfold owner. simpl. rewrite Hw0, Ep. by destruct m.
Qed.

Lemma signal_inv k : th_pc th = CondWait -> kernel (KPoll t Wr) (klk s) k ->
  inv (upd s k (recursion s) t (goto CondLock th)).
Proof.
  intros Ep Hk. assert (Hp : pc_ok t th) by apply th_ok. unfold pc_ok in Hp. rewrite Ep in Hp.
  eapply poll_inv; [done|unfold waits_for; by rewrite Ep|done| |done| |done].
  - apply goto_ok; unfold listed; simpl; by rewrite ?Ep, ?Hp.
  - unfold owner. simpl. by rewrite Ep, Hp.
Qed.
End User.

Lemma step_inv s s' : inv s -> fits s -> step s s' -> fits s' -> inv s'.
Proof.
  intros Hs Hf Hst Hf'. destruct Hst.
  - by eapply call_inv.
  - by eapply exec_next_inv.
  - by eapply exec_calls_inv.
  - by eapply wake_inv.
  - by eapply timeout_inv.
  - by eapply signal_inv.
  - eapply other_inv; [done..|]. destruct Hf' as [_ Hf']. simpl in Hf'.
    edestruct Hf' as [Hn _]; [by rewrite lookup_insert_eq|]. done.
Qed.

Lemma recursion_initial : recursion_tells 0 (rw_recursion (pthread_rwlock_init attr)).
Proof.
  unfold recursion_tells, recursive, pthread_rwlock_init. simpl.
  destruct attr as [a|]; [|right; lia]. destruct (_ =? _); [by left|right; lia].
Qed.

Lemma initial_inv s : initial s -> fits s -> inv s.
Proof.
  intros [El Hth] [_ Hf]. pose proof WRLOCKED_pos. pose proof WRLOCKED_MANAGED.
  assert (forall t th, rw_threads s !! t = Some th -> owner th = 0%nat /\ waits_for th = None) as Hz.
  { intros t th Ht. destruct (Hth t th Ht) as (_ & [ret Ep] & _ & Hw & _). unfold owner, waits_for. by rewrite Hw, Ep. }
  split; rewrite ?El; simpl.
  - split_and!; simpl; [unfold word_ok, CLOUDABI_LOCK_UNLOCKED; lia|done|done|intros ?? []%not_elem_of_nil].
  - left. unfold all_owners, all_reads. rewrite !total_zero; [done|apply Hth|apply Hz].
  - rewrite total_zero by apply Hth. apply recursion_initial.
  - split; [intros ?? []%not_elem_of_nil| |constructor].
    intros t th m Ht Hw. destruct (Hz t th Ht) as [_ E]. by rewrite E in Hw.
  - intros t th Ht. destruct (Hth t th Ht) as (Hsm & [ret Ep] & Hr & Hw & Hrd & Hself).
    split; [done|..]; rewrite ?Ep, ?Hr.
    + lia.
    + destruct (Hf t th Ht) as [Hu _]. lia.
    + unfold listed. by rewrite Hw.
    + unfold pc_ok. by rewrite Ep.
Qed.

Lemma reachable_inv s : reachable s -> inv s /\ fits s.
Proof.
  induction 1 as [s Hi Hf|s s' _ [IH1 IH2] Hst Hf]; [split; [by apply initial_inv|done]|].
  split; [by eapply step_inv|done].
Qed.

(** ** No assertion fails *)

Section Safe.
  Context (s : rwstate) (Hs : inv s) (Hfs : fits s) (t : Z) (th : rwthread) (Ht : rw_threads s !! t = Some th).

Lemma listed_nonempty : listed th = true -> wrlocks th <> [].
Proof.
  intros Hl E. destruct (th_ok s Hs t th Ht) as [_ _ _ O4 _]. apply O4 in Hl. rewrite E in Hl.
  by apply not_elem_of_nil in Hl.
Qed.

(** Once nobody holds the write lock, or its owner once, the counter is not
    positive. *)
Lemma recursion_nonpos : (total writes (rw_threads s) <= 1)%nat -> recursion s <= 0.
Proof. intros Hn. destruct (inv_recursion s Hs) as [[_ E]|(_ & E & _)]; lia. Qed.

Lemma tryrdlock_safe spurious c i old : th_pc th = TryRd c i old ->
  exec_tryrdlock t spurious (word s) (recursion s) th c i old <> Fails.
Proof.
  intros Ep. assert (Hp : pc_ok t th) by (by apply (th_ok s Hs)). unfold pc_ok in Hp. rewrite Ep in Hp.
  unfold exec_tryrdlock. destruct (_ && negb spurious); [done|].
  destruct (lock_wrlocked (word s)); [|by destruct (_ && _)].
  destruct (Z.eqb_spec (lock_body (word s)) (wr_word t)) as [E|]; [|done].
  apply (named_owner s Hs Hfs t th Ht) in E; [|unfold waits_for; by rewrite Ep].
  unfold owner in E. rewrite (proj1 Hp), Ep in E. done.
Qed.

Lemma trywrlock_own_safe : th_pc th = TryWrOwn -> exec_trywrlock_own (word s) (recursion s) th <> Fails.
Proof.
  intros Ep. assert (Hp : pc_ok t th) by (by apply (th_ok s Hs)). unfold pc_ok in Hp. rewrite Ep in Hp.
  destruct Hp as [Hw Hrec]. pose proof (owner_writes_s s Hs t th Ht (writes_owner th Hw)) as E.
  destruct (inv_recursion s Hs) as [[_ Er]|[? _]]; [|done].
  destruct Hfs as [_ Hf]. destruct (Hf t th Ht) as [_ Hmax]. unfold exec_trywrlock_own.
  destruct (Z.ltb_spec (recursion s) 0); [lia|].
  destruct (wrlocks th) eqn:El.
  - destruct (listed_nonempty); [|done]. unfold listed. rewrite Ep, andb_true_r. apply Nat.ltb_lt. lia.
  - destruct (Z.eqb_spec (recursion s) INT_MAX); [lia|done].
Qed.

Lemma unlock_safe : th_pc th = Unlock -> exec_unlock t (word s) (recursion s) th <> Fails.
Proof.
  intros Ep. pose proof (th_ok s Hs t th Ht) as Hok. assert (Hp : pc_ok t th) by apply Hok.
  unfold pc_ok in Hp. rewrite Ep in Hp. pose proof (unlock_role s Hs Hfs t th Ht Hp) as Hr. unfold exec_unlock.
  destruct (lock_wrlocked (word s)).
  - destruct (wrlocks th) eqn:El.
    + destruct (listed_nonempty); [|done]. unfold listed. rewrite Ep, andb_true_r. by apply Nat.ltb_lt.
    + destruct (owner_word_s s Hs t th Ht (writes_owner th Hr)) as (_ & _ & E). by rewrite E, Z.eqb_refl.
  - pose proof (ok_rdlocks _ _ Hok). destruct (Z.ltb_spec 0 (rdlocks th)); [done|lia].
Qed.

Lemma cond_check_safe abstime : th_pc th = CondCheck abstime ->
  exec_cond_check t (word s) (recursion s) th abstime <> Fails.
Proof.
  intros Ep. assert (Hp : pc_ok t th) by (by apply (th_ok s Hs)). unfold pc_ok in Hp. rewrite Ep in Hp.
  destruct (owner_word_s s Hs t th Ht (writes_owner th ltac:(lia))) as (_ & _ & E). unfold exec_cond_check.
  destruct (wrlocks th) eqn:El; [|by rewrite E, Z.eqb_refl; destruct abstime].
  destruct (listed_nonempty); [|done]. unfold listed. by rewrite Ep, Hp.
Qed.

Lemma exec_safe spurious : exec t spurious (word s) (recursion s) th <> Fails.
Proof.
  assert (Hp : pc_ok t th) by (by apply (th_ok s Hs)). unfold exec. unfold pc_ok in Hp.
  destruct (th_pc th) eqn:Ep; try done.
  - by apply tryrdlock_safe.
  - unfold exec_poll_rd, exec_poll_wr. by destruct (bad_abstime c).
  - unfold exec_trywrlock. by repeat case_match.
  - by apply trywrlock_own_safe.
  - unfold exec_poll_rd, exec_poll_wr. by destruct (bad_abstime c).
  - assert (owner th = 1%nat) as Ho by (unfold owner; by rewrite Hp, Ep).
    pose proof (owner_writes_s s Hs t th Ht Ho). destruct (Z.ltb_spec 0 (recursion s)); [|done].
    pose proof recursion_nonpos. lia.
  - by apply unlock_safe.
  - unfold exec_unlock_wr. by case_match.
  - by case_match.
  - destruct (reads_word_s s Hs t th Ht (proj1 Hp)) as (HO & _).
    pose proof (no_owner_writes _ _ HO). destruct (Z.ltb_spec 0 (recursion s)); [|done].
    pose proof recursion_nonpos. lia.
  - destruct Hp as (_ & _ & Hb). unfold exec_unlock_rd.
    destruct (_ =? Z.lor _ _); [by case_match|]. destruct (Z.eqb_spec (lock_body old) 0); [done|by case_match].
  - by apply cond_check_safe.
  - pose proof (owner_writes_s s Hs t th Ht (writes_owner th ltac:(lia))).
    unfold exec_cond_check_rec. destruct (Z.ltb_spec 0 (recursion s)); [pose proof recursion_nonpos; lia|].
    by case_match.
Qed.

Lemma exec_pre spurious op th' : exec t spurious (word s) (recursion s) th = Calls op th' ->
  kernel_pre op (klk s).
Proof.
  intros E. pose proof (th_ok s Hs t th Ht) as Hok. assert (Hp : pc_ok t th) by apply Hok. unfold pc_ok in Hp.
  assert (owner th = 1%nat -> kernel_pre (KUnlock t) (klk s)) as Hown.
  { intros Ho. split; [apply Hs|]. split; [by apply klock_fits_s|]. split; [apply Hok|]. by apply (owner_word_s s Hs t th Ht). }
  assert (forall m, kernel_pre (KPoll t m) (klk s)) as Hpoll by (intros m; split; [apply Hs|]; split; [by apply klock_fits_s|apply Hok]).
  destruct (th_pc th) eqn:Ep; unfold exec in E; rewrite Ep in E; try done;
    try (unfold exec_tryrdlock, exec_trywrlock, exec_trywrlock_own, exec_unlock, exec_unlock_wr,
         exec_unlock_rd, exec_cond_check, exec_cond_check_rec in E; repeat case_match; done).
  - unfold exec_poll_rd, exec_poll_wr in E. destruct (bad_abstime c); [done|]. by injection E as <- <-.
  - unfold exec_poll_rd, exec_poll_wr in E. destruct (bad_abstime c); [done|]. by injection E as <- <-.
  - injection E as <- <-. apply Hown, writes_owner. lia.
  - injection E as <- <-. apply Hown. unfold owner. by rewrite Ep, Hp.
  - injection E as <- <-. apply Hown, writes_owner. lia.
Qed.
End Safe.

(** ** The theorems *)

Lemma idle_queue s : inv s -> (forall t th, rw_threads s !! t = Some th -> exists ret, th_pc th = Idle ret) ->
  kblocked (klk s) = [] /\ kgranted (klk s) = [].
Proof.
  intros Hs Hidle. apply app_eq_nil. destruct (_ ++ _) as [|[t m] Q] eqn:E; [done|].
  destruct (queued_waits _ _ (inv_queued s Hs) t m) as (th & Ht & Hw); [rewrite E; by constructor|].
  destruct (Hidle t th Ht) as [ret Ep]. unfold waits_for in Hw. by rewrite Ep in Hw.
Qed.

Lemma destroy_safe s : inv s ->
  (forall t th, rw_threads s !! t = Some th -> (exists ret, th_pc th = Idle ret) /\ reads th = 0%nat /\ writes th = 0%nat) ->
  pthread_rwlock_destroy (rw_lock s) = Some 0.
Proof.
  intros Hs Hidle. destruct (idle_queue s Hs) as [EB EG]; [by intros; eapply Hidle|].
  assert (lock_body (word s) = 0) as Eb.
  { pose proof (inv_word s Hs) as Hx. rewrite EG in Hx.
    destruct Hx as [[_ ->]|(t & [(th & Ht & Ho)|[]%not_elem_of_nil] & _)].
    - unfold all_reads. rewrite total_zero; [done|]. intros t th Ht. by destruct (Hidle t th Ht) as (_ & ? & _).
    - destruct (Hidle t th Ht) as ([ret Ep] & _ & Hw). unfold owner in Ho. by rewrite Hw, Ep in Ho. }
  assert (word s = CLOUDABI_LOCK_UNLOCKED) as Ew.
  { destruct (inv_kernel s Hs) as (Hw & _ & Hm & _). destruct (word_split _ Hw) as [-> _]. rewrite Eb.
    destruct (lock_managed (word s)); [by destruct Hm|by rewrite enc_false]. }
  pose proof (recursion_nonpos s Hs) as Hr. rewrite total_zero in Hr; [|intros t th Ht; by destruct (Hidle t th Ht) as (_ & _ & ?)].
  unfold pthread_rwlock_destroy. rewrite Ew, Z.eqb_refl. simpl.
  destruct (Z.ltb_spec 0 (recursion s)); [lia|done].
Qed.

(** C17: in every reachable state of the read-write lock a thread that holds the
    write lock excludes all other holders, the lock word names the writer or
    counts the readers, the recursion counter is the writer's, and between calls
    a thread's lock counter and its list of write locks are right. *)
Theorem rwlock_exclusion s : reachable s ->
  (forall t th u uh, rw_threads s !! t = Some th -> rw_threads s !! u = Some uh ->
     (0 < writes th)%nat -> reads uh = 0%nat /\ (u <> t -> writes uh = 0%nat)) /\
  (forall t th, rw_threads s !! t = Some th -> (0 < writes th)%nat ->
     lock_body (word s) = wr_word t /\
     (recursive -> recursion s = Z.of_nat (writes th) - 1) /\ (~ recursive -> writes th = 1%nat)) /\
  (forall t th, rw_threads s !! t = Some th -> (0 < reads th)%nat ->
     lock_body (word s) = Z.of_nat (all_reads (rw_threads s) (kgranted (klk s)))) /\
  (forall t th ret, rw_threads s !! t = Some th -> th_pc th = Idle ret ->
     rdlocks th = Z.of_nat (reads th + other_reads th) /\ (self ∈ wrlocks th <-> (0 < writes th)%nat)).
Proof.
  intros [Hs Hf]%reachable_inv. split_and!.
  - intros t th u uh Ht Hu Hw. destruct (owner_word_s s Hs t th Ht (writes_owner th Hw)) as (HO & HR & _).
    pose proof (total_le reads _ _ _ Hu). unfold all_reads in HR. split; [lia|]. intros Hne.
    destruct (writes uh) eqn:E; [done|]. pose proof (writes_owner uh ltac:(lia)). pose proof (writes_owner th Hw).
    pose proof (total_le2 owner _ _ _ _ _ Hne Hu Ht). unfold all_owners in HO. lia.
  - intros t th Ht Hw. pose proof (writes_owner th Hw) as Ho. pose proof (owner_writes_s s Hs t th Ht Ho) as E.
    destruct (owner_word_s s Hs t th Ht Ho) as (_ & _ & Hb).
    destruct (inv_recursion s Hs) as [[Hr Er]|(Hr & Er & Hle)]; (split; [done|split; intros; done || lia]).
  - intros t th Ht Hr. by apply (reads_word_s s Hs t th Ht).
  - intros t th ret Ht Ep. destruct (th_ok s Hs t th Ht) as [_ O2 _ O4 _]. rewrite Ep in O2. split; [lia|].
    rewrite O4. unfold listed. rewrite Ep, andb_true_r. apply Nat.ltb_lt.
Qed.

(** C18: no assertion of the lock functions ever fails and no counter overflows,
    in any interleaving of the threads and the kernel; the kernel is asked to
    unlock only by the owner of the word; and a lock that nobody uses can be
    destroyed. *)
Theorem rwlock_safe s : reachable s ->
  (forall t th spurious, rw_threads s !! t = Some th ->
     exec t spurious (word s) (recursion s) th <> Fails /\
     (forall op th', exec t spurious (word s) (recursion s) th = Calls op th' -> kernel_pre op (klk s))) /\
  ((forall t th, rw_threads s !! t = Some th ->
      (exists ret, th_pc th = Idle ret) /\ reads th = 0%nat /\ writes th = 0%nat) ->
   pthread_rwlock_destroy (rw_lock s) = Some 0).
Proof.
  intros [Hs Hf]%reachable_inv. split; [|by apply destroy_safe].
  intros t th spurious Ht. split; [by apply exec_safe|]. intros op th'. by apply exec_pre.
Qed.

(** C19: no wake-up is lost.  A sleeping thread is always known to the kernel;
    while threads sleep the word has the managed bit and the lock is not free:
    somebody holds it, has been given it or is about to ask the kernel to unlock
    it; and no step of a thread in user space frees the word then. *)
Theorem rwlock_no_lost_wakeup s : reachable s ->
  (forall t th m, rw_threads s !! t = Some th -> waits_for th = Some m ->
     (t, m) ∈ kblocked (klk s) ++ kgranted (klk s)) /\
  (kblocked (klk s) <> [] ->
     lock_managed (word s) = true /\
     ((exists t th, rw_threads s !! t = Some th /\
         ((0 < reads th)%nat \/ (0 < writes th)%nat \/ th_pc th = WrTaken \/ th_pc th = UnlockRdKernel)) \/
      kgranted (klk s) <> []) /\
     (forall t th spurious w rec th', rw_threads s !! t = Some th ->
        exec t spurious (word s) (recursion s) th = Next w rec th' ->
        fits (upd s (KLock w (kblocked (klk s)) (kgranted (klk s))) rec t th') ->
        lock_managed w = true /\ lock_body w <> 0)).
Proof.
  intros [Hs Hf]%reachable_inv. split; [apply (inv_queued s Hs)|]. intros HB.
  destruct (inv_kernel s Hs) as (Hw & Hm & Hnz & _). specialize (Hm HB). specialize (Hnz Hm).
  split_and!; [done| |].
  - destruct (kgranted (klk s)) eqn:EG; [left|by right].
    pose proof (inv_word s Hs) as Hx. rewrite EG in Hx.
    destruct Hx as [[_ E]|(t & [(th & Ht & Ho)|[]%not_elem_of_nil] & _)].
    + unfold all_reads in E. change (count_mode Rd []) with 0%nat in E. rewrite Nat.add_0_r in E.
      destruct (decide (map_Exists (fun _ th => 0 < reads th)%nat (rw_threads s))) as [(t & th & Ht & Hr)|Hn]; [by eauto|].
      rewrite total_zero in E; [done|]. intros t th Ht. destruct (reads th) eqn:Er; [done|].
      destruct Hn. exists t, th. split; [done|lia].
    + exists t, th. split; [done|]. unfold owner in Ho.
      destruct (writes th); [destruct (th_pc th); try done; auto|]. right. left. lia.
  - intros t th spurious w rec th' Ht E Hf'.
    pose proof (exec_next_inv s Hs Hf t th Ht _ _ _ _ E Hf') as Hs'.
    destruct (inv_kernel _ Hs') as (_ & Hm' & Hnz' & _). simpl in *. auto.
Qed.
End Lock.

(** ** A run: a writer and a reader that has to sleep *)

Module Run.

#[local] Abbreviation klk s := (rw_kernel (rw_lock s)).
#[local] Abbreviation word s := (kword (rw_kernel (rw_lock s))).
#[local] Abbreviation recursion s := (rw_recursion (rw_lock s)).

Definition fresh : rwthread := RwThread (Idle 0) 0 [] 0 0 0.

Definition start : rwstate :=
  RwState (pthread_rwlock_init None) (<[1 := fresh]> (<[2 := fresh]> ∅)).

(** One step of a thread, with the kernel of LockAbi. *)
Definition call_of (t : Z) (cl : call) (s : rwstate) : rwstate :=
  match rw_threads s !! t with
  | Some th => upd s (klk s) (recursion s) t (goto (enter cl) th)
  | None => s
  end.

Definition run_of (t : Z) (s : rwstate) : rwstate :=
  match rw_threads s !! t with
  | Some th =>
      match exec 7 t false (word s) (recursion s) th with
      | Next w rec th' => upd s (KLock w (kblocked (klk s)) (kgranted (klk s))) rec t th'
      | Calls op th' => upd s (serve op (klk s)) (recursion s) t th'
      | _ => s
      end
  | None => s
  end.

Definition fits_b (s : rwstate) : bool :=
  bool_decide (Z.of_nat (all_reads (rw_threads s) (kgranted (klk s)) + length (kblocked (klk s))) + 1 < CLOUDABI_LOCK_WRLOCKED /\
    map_Forall (fun _ th => Z.of_nat (reads th + other_reads th) < 2 ^ 32 /\ Z.of_nat (writes th) <= INT_MAX)
      (rw_threads s)).

Definition may_lock (t : Z) (cl : call) (s : rwstate) : bool :=
  match rw_threads s !! t, cl with
  | Some (RwThread (Idle _) _ _ _ O _), (CallRd _ | CallWr _) => fits_b (call_of t cl s)
  | _, _ => false
  end.

Definition may_run (t : Z) (s : rwstate) : bool :=
  match rw_threads s !! t with
  | Some th =>
      match exec 7 t false (word s) (recursion s) th with
      | Next _ _ _ | Calls _ _ => fits_b (run_of t s)
      | _ => false
      end
  | None => false
  end.

Lemma fits_b_fits s : fits_b s = true -> fits s.
Proof. intros [H1 H2]%bool_decide_eq_true. split; [done|]. intros t th Ht. by apply (H2 t). Qed.

Lemma reach_call t cl s : reachable 7 None s -> may_lock t cl s = true -> reachable 7 None (call_of t cl s).
Proof.
  intros Hr Hm. unfold may_lock in Hm. destruct (rw_threads s !! t) as [th|] eqn:Ht; [|done].
  assert (fits_b (call_of t cl s) = true /\ may_call None th cl /\ exists ret, th_pc th = Idle ret) as (Hf & Hc & ret & Ep).
  { destruct th as [p rd wr r [|w] o]; destruct p; try done. destruct cl; try done; (split; [done|split; [simpl; auto|by eexists]]). }
  eapply reachable_step; [done| |by apply fits_b_fits]. unfold call_of. rewrite Ht. by eapply step_call.
Qed.

Lemma reach_run t s : reachable 7 None s -> may_run t s = true -> reachable 7 None (run_of t s).
Proof.
  intros Hr Hm. unfold may_run in Hm. destruct (rw_threads s !! t) as [th|] eqn:Ht; [|done].
  destruct (exec 7 t false _ _ th) eqn:E; try done;
    (eapply reachable_step; [done| |by apply fits_b_fits]; unfold run_of; rewrite Ht, E).
  - by eapply step_exec.
  - by eapply step_kernel.
Qed.

Definition demo : rwstate :=
  run_of 2 (run_of 2 (call_of 2 (CallRd Block) (run_of 1 (call_of 1 (CallWr Block) start)))).

Lemma start_initial : initial 7 None start /\ fits start.
Proof.
  split; [|apply fits_b_fits; vm_compute; reflexivity]. split; [done|]. intros t th Ht. simpl in Ht.
  assert (lock_small t /\ th = fresh) as [Hs ->].
  { apply lookup_insert_Some in Ht as [[<- <-]|[_ Ht]]; [by vm_compute|].
    apply lookup_insert_Some in Ht as [[<- <-]|[_ Ht]]; [by vm_compute|]. by rewrite lookup_empty in Ht. }
  split_and!; [done|by exists 0|done|done|done|]. apply not_elem_of_nil.
Qed.

Lemma demo_reachable : reachable 7 None demo.
Proof.
  unfold demo.
  do 2 (apply reach_run; [|vm_compute; reflexivity]). apply reach_call; [|vm_compute; reflexivity].
  apply reach_run; [|vm_compute; reflexivity]. apply reach_call; [|vm_compute; reflexivity].
  by apply reachable_initial; apply start_initial.
Qed.

Definition demo_reader : rwthread := RwThread (RdWait Block) 0 [] 0 0 0.
Definition demo_writer : rwthread := RwThread (Idle 0) 0 [7] 0 1 0.

Lemma demo_threads : rw_threads demo !! 1 = Some demo_writer /\ rw_threads demo !! 2 = Some demo_reader /\
  kblocked (klk demo) = [(2, Rd)] /\ lock_body (word demo) = 2 ^ 30 + 1 /\ rw_pshared (rw_lock demo) = 4.
Proof. vm_compute. done. Qed.

Lemma rwlock_exclusion_witness : reads demo_reader = 0%nat /\ lock_body (word demo) = wr_word 1.
Proof.
  destruct (rwlock_exclusion 7 None demo demo_reachable) as (H1 & H2 & _).
  destruct demo_threads as (T1 & T2 & _). split.
  - destruct (H1 1 demo_writer 2 demo_reader T1 T2) as [E _]; [simpl; lia|exact E].
  - destruct (H2 1 demo_writer T1) as [E _]; [simpl; lia|exact E].
Defined.

Lemma rwlock_safe_witness :
  exec 7 1 false (word demo) (recursion demo) demo_writer <> Fails /\ pthread_rwlock_destroy (rw_lock start) = Some 0.
Proof.
  split.
  - apply (proj1 (rwlock_safe 7 None demo demo_reachable)), demo_threads.
  - apply (proj2 (rwlock_safe 7 None start (reachable_initial 7 None start (proj1 start_initial) (proj2 start_initial)))).
    intros t th Ht. destruct (proj2 (proj1 start_initial) t th Ht) as (_ & ? & ? & ? & _). auto.
Defined.

Lemma rwlock_no_lost_wakeup_witness : lock_managed (word demo) = true.
Proof.
  destruct (rwlock_no_lost_wakeup 7 None demo demo_reachable) as [_ H2].
  apply H2. destruct demo_threads as (_ & _ & E & _). by rewrite E.
Defined.

End Run.
