(* ===== verification/Once.v ===== *)
(** * One-time initialisation: pthread_once

    Source: src/libc/pthread/pthread_once.c.  A once object is a lock word that
    starts as CLOUDABI_LOCK_BOGUS; the thread that runs the initialisation
    routine holds it as a writer, and the others sleep as readers until the
    kernel releases it.  As in RwLock one step of a thread ends with its next
    access to the word, its next system call, or the call or the return of the
    initialisation routine.

    The theorems: whatever the interleaving, the routine is called at most once
    and has returned before any call of pthread_once returns; the assertion
    never fails; and nobody is left asleep when the object is finished. *)

From S2P Require Import Prelude LockAbi.

#[local] Open Scope Z_scope.

Section Once.
  Context `{LockAbi}.

(** PTHREAD_ONCE_INIT: managed, but locked by nobody. *)
Definition CLOUDABI_LOCK_BOGUS : Z := CLOUDABI_LOCK_KERNEL_MANAGED.

Inductive opc := OIdle | OEntry | OCall | OInit | OFinish | OKernel | OPoll | OWait | OStore | ODone.

Inductive ooutcome := ONext (w : Z) (p : opc) | OCalls (op : kcall) (p : opc) | OFails | OWaits.

Definition pthread_once (t w : Z) (p : opc) : ooutcome :=
  match p with
  | OEntry =>
      if w =? CLOUDABI_LOCK_BOGUS then ONext (Z.lor t CLOUDABI_LOCK_WRLOCKED) OCall
      else if lock_wrlocked w then ONext w OPoll
      else ONext w OStore
  | OCall => ONext w OInit
  | OInit => ONext w OFinish
  | OFinish =>
      if w =? Z.lor t CLOUDABI_LOCK_WRLOCKED then ONext CLOUDABI_LOCK_UNLOCKED OStore
      else if w =? Z.lor (Z.lor t CLOUDABI_LOCK_WRLOCKED) CLOUDABI_LOCK_KERNEL_MANAGED then ONext w OKernel
      else OFails
  | OKernel => OCalls (KUnlock t) OStore
  | OPoll => OCalls (KPoll t Rd) OWait
  | OStore => ONext CLOUDABI_LOCK_UNLOCKED ODone
  | OIdle | OWait | ODone => OWaits
  end.

(** [begun] and [ended] count the calls and the returns of the routine. *)
Record ostate := OState { o_lock : klock; o_threads : gmap Z opc; begun : nat; ended : nat }.

Definition one_if (b : bool) : nat := if b then 1 else 0.
Definition is_call (p : opc) : bool := match p with OCall => true | _ => false end.
Definition is_init (p : opc) : bool := match p with OInit => true | _ => false end.
Definition is_poll (p : opc) : nat := match p with OPoll => 1 | _ => 0 end.
Definition is_wait (p : opc) : nat := match p with OWait => 1 | _ => 0 end.

Definition oupd (s : ostate) (k : klock) (t : Z) (p p' : opc) : ostate :=
  OState k (<[t := p']> (o_threads s)) (begun s + one_if (is_call p)) (ended s + one_if (is_init p)).

#[local] Abbreviation ow s := (kword (o_lock s)).
#[local] Abbreviation oB s := (kblocked (o_lock s)).
#[local] Abbreviation oG s := (kgranted (o_lock s)).

Context `{!Kernel}.

Inductive ostep (s : ostate) : ostate -> Prop :=
  | ostep_call t p : o_threads s !! t = Some p -> p = OIdle \/ p = ODone ->
      ostep s (oupd s (o_lock s) t p OEntry)
  | ostep_exec t p w p' : o_threads s !! t = Some p -> pthread_once t (ow s) p = ONext w p' ->
      ostep s (oupd s (KLock w (oB s) (oG s)) t p p')
  | ostep_kernel t p op p' k : o_threads s !! t = Some p -> pthread_once t (ow s) p = OCalls op p' ->
      kernel op (o_lock s) k -> ostep s (oupd s k t p p')
  | ostep_wake t Q : o_threads s !! t = Some OWait -> oG s ≡ₚ (t, Rd) :: Q ->
      ostep s (oupd s (KLock (ow s) (oB s) Q) t OWait OStore).

Definition oinitial (s : ostate) : Prop :=
  o_lock s = KLock CLOUDABI_LOCK_BOGUS [] [] /\ begun s = 0%nat /\ ended s = 0%nat /\
  Z.of_nat (size (o_threads s)) + 1 < CLOUDABI_LOCK_WRLOCKED /\
  forall t p, o_threads s !! t = Some p -> lock_small t /\ p = OIdle.

Inductive oreachable : ostate -> Prop :=
  | oreachable_initial s : oinitial s -> oreachable s
  | oreachable_step s s' : oreachable s -> ostep s s' -> oreachable s'.

(** ** The three phases of a once object *)

Record fresh (s : ostate) : Prop := {
  fresh_lock : o_lock s = KLock CLOUDABI_LOCK_BOGUS [] [];
  fresh_count : begun s = 0%nat /\ ended s = 0%nat;
  fresh_pc t p : o_threads s !! t = Some p -> p = OIdle \/ p = OEntry
}.

(** Thread [t] at [p] runs the initialisation; the others come too late. *)
Record running (t : Z) (p : opc) (s : ostate) : Prop := {
  running_owner : o_threads s !! t = Some p;
  running_count : match p with
    | OCall => begun s = 0%nat /\ ended s = 0%nat
    | OInit => begun s = 1%nat /\ ended s = 0%nat
    | OFinish | OKernel => begun s = 1%nat /\ ended s = 1%nat
    | _ => False
    end;
  running_wf : klock_wf (o_lock s);
  running_body : lock_body (ow s) = wr_word t;
  running_granted : oG s = [];
  running_readers : Forall (fun e => e.2 = Rd) (oB s);
  running_waits u : o_threads s !! u = Some OWait -> (u, Rd) ∈ oB s;
  running_blocked : length (oB s) = total is_wait (o_threads s);
  running_pc u q : u <> t -> o_threads s !! u = Some q -> q = OIdle \/ q = OEntry \/ q = OPoll \/ q = OWait
}.

Record finished (s : ostate) : Prop := {
  finished_count : begun s = 1%nat /\ ended s = 1%nat;
  finished_wf : klock_wf (o_lock s);
  finished_blocked : oB s = [];
  finished_body : lock_body (ow s) + Z.of_nat (total is_poll (o_threads s)) <= Z.of_nat (size (o_threads s));
  finished_waits u : o_threads s !! u = Some OWait -> (u, Rd) ∈ oG s;
  finished_pc u q : o_threads s !! u = Some q -> q <> OCall /\ q <> OInit /\ q <> OFinish /\ q <> OKernel
}.

Record once_inv (s : ostate) : Prop := {
  once_size : Z.of_nat (size (o_threads s)) + 1 < CLOUDABI_LOCK_WRLOCKED;
  once_tid t p : o_threads s !! t = Some p -> lock_small t;
  once_phase : fresh s \/ (exists t p, running t p s) \/ finished s
}.

(** ** The kernel, when only readers sleep *)

Lemma body_small s : finished s -> Z.of_nat (size (o_threads s)) + 1 < CLOUDABI_LOCK_WRLOCKED ->
  lock_small (lock_body (ow s)) /\ lock_wrlocked (ow s) = false /\ klock_fits (o_lock s).
Proof.
  intros [_ Hwf HB Hb _ _] Hsz. destruct Hwf as (Hw & _). destruct (word_split _ Hw) as [_ Hr].
  assert (lock_small (lock_body (ow s))) as Hs by (unfold lock_small; lia).
  assert (lock_wrlocked (ow s) = false) as Ew by (rewrite wrlocked_body by done; by apply wrlocked_small).
  split_and!; [done..|]. unfold klock_fits. rewrite Ew, HB. cbn [length]. lia.
Qed.

(** The readers all get the lock at once. *)
Lemma kernel_all_readers op k k' y E : kernel op k k' -> kernel_pre op k ->
  (forall y' E', kernel_entry op (lock_body (kword k)) (kblocked k) y' E' -> y' = y /\ E' = E) ->
  Forall (fun e => e.2 = Rd) E -> 0 <= y -> y + Z.of_nat (length E) < CLOUDABI_LOCK_WRLOCKED ->
  klock_wf k' /\ kblocked k' = [] /\ kgranted k' ≡ₚ E ++ kgranted k /\
  lock_body (kword k') = y + Z.of_nat (length E).
Proof.
  intros Hk Hp Hent HE Hy Hl.
  destruct (kernel_ok _ _ _ Hk Hp) as (y' & E' & gs & He & HP & HG & Hg & Hwf).
  destruct (Hent _ _ He) as [-> ->].
  assert (Forall (fun e => e.2 = Rd) gs /\ Forall (fun e => e.2 = Rd) (kblocked k')) as [Hgs HB]
    by (rewrite HP in HE; by apply Forall_app in HE).
  assert (Z.of_nat (length gs) <= Z.of_nat (length E)) as Hle
    by (rewrite (Permutation_length HP), length_app; lia).
  assert (lock_body (kword k') = y + Z.of_nat (length gs)) as Eb.
  { destruct Hg as [x|x ts _|u]; [simpl; lia|by rewrite length_map|]. by apply list.Forall_cons in Hgs as [? _]. }
  assert (kblocked k' = []) as EB.
  { apply (kernel_readers _ _ _ Hk Hp); [|done]. destruct Hwf as (Hw & _).
    rewrite wrlocked_body, Eb by done. apply wrlocked_small. unfold lock_small. lia. }
  rewrite EB, app_nil_r in HP. split_and!; [done|done|by rewrite HP|]. by rewrite Eb, (Permutation_length HP).
Qed.

(** ** The steps keep the object in a phase *)

Lemma oupd_size s k t p p' : o_threads s !! t = Some p -> size (o_threads (oupd s k t p p')) = size (o_threads s).
Proof. intros Ht. simpl. apply map_size_insert_Some. by rewrite Ht. Qed.

Lemma oupd_tid s k t p p' : once_inv s -> o_threads s !! t = Some p ->
  forall u q, o_threads (oupd s k t p p') !! u = Some q -> lock_small u.
Proof.
  intros Hs Ht u q Hu. simpl in Hu. apply lookup_insert_Some in Hu as [[<- _]|[_ Hu]]; by eapply (once_tid s Hs).
Qed.

Lemma once_upd s k t p p' : once_inv s -> o_threads s !! t = Some p ->
  (fresh (oupd s k t p p') \/ (exists u q, running u q (oupd s k t p p')) \/ finished (oupd s k t p p')) ->
  once_inv (oupd s k t p p').
Proof.
  intros Hs Ht Hph. split; [rewrite oupd_size by done; apply Hs|by apply oupd_tid|done].
Qed.

Lemma bogus_enc : CLOUDABI_LOCK_BOGUS = enc true 0.
Proof. done. Qed.

Lemma wf_not_bogus k : klock_wf k -> kword k <> CLOUDABI_LOCK_BOGUS.
Proof.
  intros (_ & _ & Hm & _) E. pose proof WRLOCKED_pos. pose proof WRLOCKED_MANAGED.
  rewrite E, bogus_enc, managed_enc, body_enc in Hm by lia. by apply Hm.
Qed.

Lemma klock_eta k : KLock (kword k) (kblocked k) (kgranted k) = k.
Proof. by destruct k. Qed.

Lemma unlocked_wf G : klock_wf (KLock CLOUDABI_LOCK_UNLOCKED [] G).
Proof.
  pose proof WRLOCKED_pos. pose proof WRLOCKED_MANAGED.
  split_and!; simpl; [unfold word_ok, CLOUDABI_LOCK_UNLOCKED; lia|done|done|intros ?? []%not_elem_of_nil].
Qed.

(** The first caller takes the word. *)
Lemma fresh_take s t : once_inv s -> fresh s -> o_threads s !! t = Some OEntry ->
  running t OCall (oupd s (KLock (wr_word t) (oB s) (oG s)) t OEntry OCall).
Proof.
  intros Hs [El [E1 E2] Hpc] Ht. pose proof (once_tid s Hs t _ Ht) as Hsm.
  pose proof (wr_word_range t Hsm) as Hr. pose proof WRLOCKED_pos. rewrite El. simpl.
  assert (forall u q, u <> t -> <[t := OCall]> (o_threads s) !! u = Some q -> q = OIdle \/ q = OEntry) as Hq
    by (intros u q Hne Hu; rewrite lookup_insert_ne in Hu by done; by eapply Hpc).
  split; simpl; rewrite ?E1, ?E2; try done.
  - by rewrite lookup_insert_eq.
  - pose proof (klock_wf_word (KLock CLOUDABI_LOCK_UNLOCKED [] []) (wr_word t) [] (unlocked_wf [])) as Hwf.
    change (lock_managed _) with false in Hwf. rewrite enc_false in Hwf. apply Hwf; [lia|done].
  - rewrite <- (enc_false (wr_word t)) at 1. by rewrite body_enc by lia.
  - intros u Hu. destruct (decide (u = t)) as [->|Hne]; [by rewrite lookup_insert_eq in Hu|].
    by destruct (Hq u _ Hne Hu).
  - rewrite total_zero; [done|]. intros u q [[_ <-]|[Hne Hu]]%lookup_insert_Some; [done|].
    by destruct (Hpc u q Hu) as [-> | ->].
  - intros u q Hne Hu. destruct (Hq u q Hne Hu); auto.
Qed.

(** A thread other than the owner, short of going to sleep. *)
Lemma running_other s t p u q q' : running t p s -> o_threads s !! u = Some q -> u <> t ->
  q = OIdle \/ q = OEntry -> q' = OEntry \/ q' = OPoll -> running t p (oupd s (o_lock s) u q q').
Proof.
  intros [H1 H2 H3 H4 H5 H6 H7 H8 H9] Hu Hne Hq Hq'.
  assert (one_if (is_call q) = 0%nat /\ one_if (is_init q) = 0%nat /\ is_wait q = 0%nat) as (C1 & C2 & C3)
    by (by destruct Hq as [-> | ->]).
  assert (is_wait q' = 0%nat /\ q' <> OWait) as [C4 C5] by (by destruct Hq' as [-> | ->]).
  split; simpl; rewrite ?C1, ?C2, ?Nat.add_0_r; try done.
  - by rewrite lookup_insert_ne.
  - intros v [[_ E]|[_ Hv]]%lookup_insert_Some; [done|]. by apply H7.
  - pose proof (total_insert is_wait (o_threads s) u q q' Hu). lia.
  - intros v r Hv [[<- <-]|[_ Hr]]%lookup_insert_Some; [destruct Hq'; auto|]. by apply (H9 v).
Qed.

(** A late caller goes to sleep. *)
Lemma running_sleep s t p u k : running t p s -> once_inv s -> o_threads s !! u = Some OPoll ->
  kernel (KPoll u Rd) (o_lock s) k -> running t p (oupd s k u OPoll OWait).
Proof.
  intros [H1 H2 H3 H4 H5 H6 H7 H8 H9] Hs Hu Hk. pose proof (once_tid s Hs u _ Hu) as Hsm.
  pose proof (once_tid s Hs t _ H1) as Htm. pose proof (wr_word_range t Htm). pose proof WRLOCKED_pos.
  assert (u <> t) as Hne by (intros ->; rewrite Hu in H1; by injection H1 as <-).
  assert (kernel_pre (KPoll u Rd) (o_lock s)) as Hp.
  { split_and!; [done| |done]. unfold klock_fits. rewrite wrlocked_body, H4, wrlocked_wr_word by (done || apply H3).
    pose proof (total_le_size is_wait (o_threads s) ltac:(intros []; simpl; lia)). pose proof (once_size s Hs). lia. }
  destruct (kernel_ok _ _ _ Hk Hp) as (y & E & gs & He & HP & HG & Hg & Hwf).
  inversion He; subst. rewrite H4 in Hg.
  assert (gs = [] /\ lock_body (kword k) = wr_word t) as [-> Eb].
  { inversion Hg as [|? ts Hw|v E0]; subst; [done| |lia]. by rewrite wrlocked_wr_word in Hw. }
  simpl in HP, HG. split; simpl; rewrite ?Nat.add_0_r; try done.
  - by rewrite lookup_insert_ne.
  - rewrite H5 in HG. by apply Permutation_nil_r in HG.
  - rewrite <- HP. by constructor.
  - intros v [[<- _]|[_ Hv]]%lookup_insert_Some; rewrite <- HP; [by constructor|]. constructor. by apply H7.
  - pose proof (total_insert is_wait (o_threads s) u OPoll OWait Hu) as E. simpl in E.
    rewrite <- (Permutation_length HP). simpl. lia.
  - intros v r Hv [[<- <-]|[_ Hr]]%lookup_insert_Some; [auto|]. by apply (H9 v).
Qed.

Lemma running_fits s t p : running t p s -> once_inv s -> klock_fits (o_lock s).
Proof.
  intros [H1 _ H3 H4 _ _ _ H8 _] Hs. pose proof (once_tid s Hs t _ H1). unfold klock_fits.
  rewrite wrlocked_body, H4, wrlocked_wr_word by (done || apply H3).
  pose proof (total_le_size is_wait (o_threads s) ltac:(intros []; simpl; lia)). pose proof (once_size s Hs). lia.
Qed.

(** A step of the owner that leaves the lock alone. *)
Lemma running_owner_step s t p p' : running t p s ->
  (p = OCall /\ p' = OInit) \/ (p = OInit /\ p' = OFinish) \/ (p = OFinish /\ p' = OKernel) ->
  running t p' (oupd s (o_lock s) t p p').
Proof.
  intros [H1 H2 H3 H4 H5 H6 H7 H8 H9] Hp.
  assert (is_wait p = 0%nat /\ is_wait p' = 0%nat /\ p' <> OWait) as (C1 & C2 & C3)
    by (by destruct Hp as [[-> ->]|[[-> ->]|[-> ->]]]).
  split; simpl; try done.
  - by rewrite lookup_insert_eq.
  - destruct Hp as [[-> ->]|[[-> ->]|[-> ->]]]; simpl in *; lia.
  - intros u [[_ ?]|[_ Hu]]%lookup_insert_Some; [done|by apply H7].
  - pose proof (total_insert is_wait (o_threads s) t p p' H1). lia.
  - intros u q Hne Hu. rewrite lookup_insert_ne in Hu by done. by apply (H9 u).
Qed.

(** The owner releases the word: in user space when nobody sleeps, otherwise
    through the kernel. *)
Lemma running_release s t p k : running t p s -> p = OFinish \/ p = OKernel ->
  klock_wf k -> kblocked k = [] -> lock_body (kword k) = Z.of_nat (length (oB s)) ->
  (forall u, (u, Rd) ∈ oB s -> (u, Rd) ∈ kgranted k) -> finished (oupd s k t p OStore).
Proof.
  intros [H1 H2 H3 H4 H5 H6 H7 H8 H9] Hp Hwf HB Hb HG.
  assert (is_call p = false /\ is_init p = false /\ is_wait p = 0%nat /\ is_poll p = 0%nat) as (C1 & C2 & C3 & C4)
    by (by destruct Hp as [-> | ->]).
  split; simpl; rewrite ?C1, ?C2; simpl; rewrite ?Nat.add_0_r; try done.
  - by destruct Hp as [-> | ->].
  - pose proof (oupd_size s k t p OStore H1) as E. simpl in E. rewrite E, Hb, H8.
    pose proof (total_insert is_poll (o_threads s) t p OStore H1) as E2. simpl in E2.
    pose proof (total_add is_wait is_poll (o_threads s)).
    pose proof (total_le_size (fun x => is_wait x + is_poll x)%nat (o_threads s) ltac:(intros []; simpl; lia)). lia.
  - intros u [[_ ?]|[_ Hu]]%lookup_insert_Some; [done|]. by apply HG, H7.
  - intros u q [[_ <-]|[Hne Hu]]%lookup_insert_Some; [done|].
    destruct (H9 u q) as [->|[->|[->| ->]]]; done.
Qed.

Lemma running_finish s t : running t OFinish s -> once_inv s -> ow s = wr_word t ->
  finished (oupd s (KLock CLOUDABI_LOCK_UNLOCKED (oB s) (oG s)) t OFinish OStore).
Proof.
  intros Hr Hs Ew. pose proof (once_tid s Hs t _ (running_owner _ _ _ Hr)) as Hsm.
  pose proof (wr_word_range t Hsm) as Hrange. pose proof WRLOCKED_pos.
  assert (oB s = []) as EB.
  { destruct (running_wf _ _ _ Hr) as (_ & HB & _). rewrite Ew, <- (enc_false (wr_word t)), managed_enc in HB by lia.
    destruct (oB s); [done|]. by discriminate HB. }
  apply (running_release _ _ _ _ Hr); simpl; rewrite ?EB; [by left|apply unlocked_wf|done|done|].
  intros u []%not_elem_of_nil.
Qed.

Lemma running_kernel s t k : running t OKernel s -> once_inv s ->
  kernel (KUnlock t) (o_lock s) k ->
  kernel_pre (KUnlock t) (o_lock s) /\ finished (oupd s k t OKernel OStore).
Proof.
  intros Hr Hs Hk. pose proof (once_tid s Hs t _ (running_owner _ _ _ Hr)) as Hsm.
  assert (kernel_pre (KUnlock t) (o_lock s)) as Hp.
  { split_and!; [apply Hr|by eapply running_fits|done|apply Hr]. }
  split; [done|]. pose proof WRLOCKED_pos.
  destruct (kernel_all_readers _ _ _ 0 (oB s) Hk Hp) as (Hwf & HB & HG & Hb).
  - intros y E He. by inversion He.
  - apply Hr.
  - lia.
  - rewrite (running_blocked _ _ _ Hr).
    pose proof (total_le_size is_wait (o_threads s) ltac:(intros []; simpl; lia)). pose proof (once_size s Hs). lia.
  - apply (running_release _ _ _ _ Hr); [by right|done|done|lia|]. intros u Hu. rewrite HG.
    apply elem_of_app. by left.
Qed.

(** Steps on a finished object: the word stays a small number of readers. *)
Lemma finished_upd s k t p p' : finished s -> o_threads s !! t = Some p ->
  is_call p = false -> is_init p = false -> p' = OEntry \/ p' = OStore \/ p' = ODone ->
  klock_wf k -> kblocked k = [] -> lock_body (kword k) <= lock_body (ow s) ->
  (forall u, u <> t -> (u, Rd) ∈ oG s -> (u, Rd) ∈ kgranted k) -> finished (oupd s k t p p').
Proof.
  intros [H1 H2 H3 H4 H5 H6] Ht C1 C2 Hp' Hwf HB Hb HG.
  assert (is_poll p' = 0%nat) as C3 by (by destruct Hp' as [->|[->| ->]]).
  split; simpl; rewrite ?C1, ?C2; simpl; rewrite ?Nat.add_0_r; try done.
  - pose proof (oupd_size s k t p p' Ht) as E. simpl in E. rewrite E.
    pose proof (total_insert is_poll (o_threads s) t p p' Ht). lia.
  - intros u [[<- ->]|[Hne Hu]]%lookup_insert_Some; [by destruct Hp' as [?|[?|?]]|].
    apply HG; [done|]. by apply H5.
  - intros u q [[_ <-]|[_ Hu]]%lookup_insert_Some; [|by apply (H6 u)]. by destruct Hp' as [->|[->| ->]].
Qed.

Lemma finished_poll_pre s t p : finished s -> once_inv s -> o_threads s !! t = Some p ->
  kernel_pre (KPoll t Rd) (o_lock s).
Proof.
  intros Hf Hs Ht. destruct (body_small s Hf (once_size s Hs)) as (_ & _ & Hfit).
  split_and!; [apply Hf|done|by eapply (once_tid s Hs)].
Qed.

Lemma finished_sleep s t k : finished s -> once_inv s -> o_threads s !! t = Some OPoll ->
  kernel (KPoll t Rd) (o_lock s) k -> finished (oupd s k t OPoll OWait).
Proof.
  intros Hf Hs Ht Hk. pose proof (finished_poll_pre s t _ Hf Hs Ht) as Hp.
  destruct (body_small s Hf (once_size s Hs)) as ([Hb0 _] & _ & _).
  destruct Hf as [H1 H2 H3 H4 H5 H6]. pose proof (once_size s Hs).
  pose proof (total_le is_poll _ _ _ Ht) as Hpoll. simpl in Hpoll.
  destruct (kernel_all_readers _ _ _ (lock_body (ow s)) [(t, Rd)] Hk Hp) as (Hwf & HB & HG & Hb).
  - intros y E He. inversion He; subst. by rewrite H3.
  - by repeat constructor.
  - lia.
  - cbn [length]. lia.
  - split; simpl; rewrite ?Nat.add_0_r; try done.
    + pose proof (oupd_size s k t OPoll OWait Ht) as E. simpl in E. rewrite E, Hb. cbn [length].
      pose proof (total_insert is_poll (o_threads s) t OPoll OWait Ht) as E2. simpl in E2. lia.
    + intros u Hu. rewrite HG. simpl. destruct (decide (u = t)) as [->|Hne]; [by constructor|].
      rewrite lookup_insert_ne in Hu by done. constructor. by apply H5.
    + intros u q [[_ <-]|[_ Hu]]%lookup_insert_Some; [done|by apply (H6 u)].
Qed.

Lemma fresh_step s s' : once_inv s -> fresh s -> ostep s s' -> once_inv s'.
Proof.
  intros Hs Hf Hst. destruct Hst as [t p Ht Hp|t p w p' Ht E|t p op p' k Ht E Hk|t Q Ht HG].
  - apply once_upd; [done..|]. left. destruct Hf as [El [E1 E2] Hpc].
    split; simpl; [done| |].
    + destruct Hp as [-> | ->]; simpl; lia.
    + intros u q [[_ <-]|[_ Hu]]%lookup_insert_Some; [by right|by eapply Hpc].
  - destruct (fresh_pc s Hf t p Ht) as [-> | ->]; [done|]. simpl in E.
    rewrite (fresh_lock s Hf) in E. simpl in E. rewrite Z.eqb_refl in E. injection E as <- <-.
    apply once_upd; [done..|]. right. left. exists t, OCall. by apply fresh_take.
  - destruct (fresh_pc s Hf t p Ht) as [-> | ->]; [done|]. simpl in E. by repeat case_match.
  - by destruct (fresh_pc s Hf t _ Ht).
Qed.

Lemma running_step s t0 p0 s' : once_inv s -> running t0 p0 s -> ostep s s' -> once_inv s'.
Proof.
  intros Hs Hr Hst. pose proof (running_owner _ _ _ Hr) as Ho. pose proof (running_count _ _ _ Hr) as Hc.
  destruct (running_wf _ _ _ Hr) as (Hw & _). pose proof (once_tid s Hs t0 _ Ho) as Hsm.
  assert (lock_wrlocked (ow s) = true) as Ewr
    by (by rewrite wrlocked_body, (running_body _ _ _ Hr), wrlocked_wr_word).
  destruct Hst as [t p Ht Hp|t p w p' Ht E|t p op p' k Ht E Hk|t Q Ht HG].
  - assert (t <> t0) as Hne by (intros ->; rewrite Ht in Ho; injection Ho as <-; by destruct Hp as [-> | ->]).
    apply once_upd; [done..|]. right. left. exists t0, p0. apply running_other; [done..| |by left].
    destruct (running_pc _ _ _ Hr t p Hne Ht) as [?|[?|[?|?]]]; destruct Hp; subst; auto; done.
  - apply once_upd; [done..|]. destruct (decide (t = t0)) as [->|Hne].
    + rewrite Ht in Ho. injection Ho as <-. pose proof (wr_word_range t0 Hsm).
      destruct p; try done; simpl in E.
      * injection E as <- <-. rewrite klock_eta. right. left. exists t0, OInit. apply running_owner_step; auto.
      * injection E as <- <-. rewrite klock_eta. right. left. exists t0, OFinish. apply running_owner_step; auto.
      * destruct (Z.eqb_spec (ow s) (Z.lor t0 CLOUDABI_LOCK_WRLOCKED)).
        { injection E as <- <-. right. right. by apply running_finish. }
        destruct (_ =? _); [|done]. injection E as <- <-. rewrite klock_eta. right. left. exists t0, OKernel.
        apply running_owner_step; auto.
    + destruct (running_pc _ _ _ Hr t p Hne Ht) as [->|[->|[->| ->]]]; try done. simpl in E.
      destruct (Z.eqb_spec (ow s) CLOUDABI_LOCK_BOGUS) as [Eb|_]; [by destruct (wf_not_bogus _ (running_wf _ _ _ Hr))|].
      rewrite Ewr in E. injection E as <- <-. rewrite klock_eta. right. left. exists t0, p0.
      apply running_other; auto.
  - apply once_upd; [done..|]. destruct (decide (t = t0)) as [->|Hne].
    + rewrite Ht in Ho. injection Ho as <-. destruct p; try done; simpl in E; try (by repeat case_match).
      injection E as <- <-. right. right. by eapply running_kernel.
    + destruct (running_pc _ _ _ Hr t p Hne Ht) as [->|[->|[->| ->]]]; try done; simpl in E; [by repeat case_match|].
      injection E as <- <-. right. left. exists t0, p0. by apply running_sleep.
  - rewrite (running_granted _ _ _ Hr) in HG. by apply Permutation_nil_cons in HG.
Qed.

Lemma finished_step s s' : once_inv s -> finished s -> ostep s s' -> once_inv s'.
Proof.
  intros Hs Hf Hst. destruct (body_small s Hf (once_size s Hs)) as ([Hb0 _] & Ewr & _).
  pose proof (finished_blocked s Hf) as HB.
  destruct Hst as [t p Ht Hp|t p w p' Ht E|t p op p' k Ht E Hk|t Q Ht HG];
    (apply once_upd; [done..|]; right; right).
  - apply finished_upd; try done; try (by destruct Hp as [-> | ->]); [by left|apply Hf].
  - destruct (finished_pc s Hf t p Ht) as (N1 & N2 & N3 & N4). destruct p; try done; simpl in E.
    + destruct (Z.eqb_spec (ow s) CLOUDABI_LOCK_BOGUS) as [Eb|_]; [by destruct (wf_not_bogus _ (finished_wf s Hf))|].
      rewrite Ewr in E. injection E as <- <-. rewrite klock_eta.
      apply finished_upd; try done; [by right; left|apply Hf].
    + injection E as <- <-. apply finished_upd; try done; [by right; right|rewrite HB; apply unlocked_wf].
  - destruct (finished_pc s Hf t p Ht) as (N1 & N2 & N3 & N4). destruct p; try done; simpl in E; [by repeat case_match|].
    injection E as <- <-. by apply finished_sleep.
  - pose proof (finished_wf s Hf) as Hwf. apply finished_upd; try done; [by right; left|].
    intros u Hne Hu. rewrite HG in Hu. apply elem_of_cons in Hu as [Hu|Hu]; [by simplify_eq|done].
Qed.

Lemma oreachable_inv s : oreachable s -> once_inv s.
Proof.
  induction 1 as [s (El & E1 & E2 & Hsz & Hpc)|s s' _ IH Hst].
  - split; [done| |].
    + intros t p Ht. by apply (Hpc t p).
    + left. split; [done|done|]. intros t p Ht. left. by apply (Hpc t p).
  - destruct (once_phase s IH) as [Hf|[(t & p & Hr)|Hf]];
      [by eapply fresh_step|by eapply running_step|by eapply finished_step].
Qed.

(** The assertion holds and the kernel's conditions are met. *)
Lemma once_exec_safe s t p : once_inv s -> o_threads s !! t = Some p ->
  pthread_once t (ow s) p <> OFails /\
  (forall op p', pthread_once t (ow s) p = OCalls op p' -> kernel_pre op (o_lock s)).
Proof.
  intros Hs Ht. pose proof (once_tid s Hs t p Ht) as Hsm. pose proof (wr_word_range t Hsm) as Hrange.
  assert (p = OPoll -> kernel_pre (KPoll t Rd) (o_lock s)) as Hpoll.
  { intros ->. destruct (once_phase s Hs) as [Hf|[(u & q & Hr)|Hf]].
    - by destruct (fresh_pc s Hf t _ Ht).
    - split_and!; [apply Hr|by eapply running_fits|done].
    - by eapply finished_poll_pre. }
  assert (p = OFinish \/ p = OKernel -> running t p s) as Hown.
  { intros Hp. destruct (once_phase s Hs) as [Hf|[(u & q & Hr)|Hf]].
    - destruct (fresh_pc s Hf t _ Ht); destruct Hp; by subst.
    - destruct (decide (t = u)) as [->|Hne]; [rewrite (running_owner _ _ _ Hr) in Ht; by simplify_eq|].
      destruct (running_pc _ _ _ Hr t p Hne Ht) as [?|[?|[?|?]]]; destruct Hp; by subst.
    - destruct (finished_pc s Hf t p Ht) as (_ & _ & ? & ?). by destruct Hp. }
  split.
  - destruct p; simpl; try done; [by repeat case_match|].
    pose proof (Hown (or_introl eq_refl)) as Hr. destruct (running_wf _ _ _ Hr) as (Hw & _).
    destruct (word_split _ Hw) as [Es _]. rewrite (running_body _ _ _ Hr) in Es. pose proof WRLOCKED_pos.
    fold (wr_word t). rewrite lor_managed by lia.
    destruct (lock_managed (ow s)); rewrite Es, ?enc_false, Z.eqb_refl; [by case_match|done].
  - intros op p' E. destruct p; simpl in E; try done; try (by repeat case_match).
    + injection E as <- <-. pose proof (Hown (or_intror eq_refl)) as Hr.
      split_and!; [apply Hr|by eapply running_fits|done|apply Hr].
    + injection E as <- <-. by apply Hpoll.
Qed.

(** C20: in every interleaving of the callers of pthread_once the routine is
    called at most once, and it has been called and has returned before any
    caller leaves pthread_once; the assertion on the word never fails and the
    kernel is only asked to unlock by the owner. *)
Theorem pthread_once_safe s : oreachable s ->
  (ended s <= begun s <= 1)%nat /\
  (forall t p, o_threads s !! t = Some p -> p = OStore \/ p = ODone -> begun s = 1%nat /\ ended s = 1%nat) /\
  (forall t p, o_threads s !! t = Some p ->
     pthread_once t (ow s) p <> OFails /\
     (forall op p', pthread_once t (ow s) p = OCalls op p' -> kernel_pre op (o_lock s))).
Proof.
  intros Hs%oreachable_inv. split_and!; [| | |intros t p Ht; by apply once_exec_safe].
  1, 2: destruct (once_phase s Hs) as [Hf|[(t & p & Hr)|Hf]];
    [destruct (fresh_count s Hf)|pose proof (running_count _ _ _ Hr); destruct p; lia|destruct (finished_count s Hf)]; lia.
  intros t p Ht Hp. destruct (once_phase s Hs) as [Hf|[(u & q & Hr)|Hf]]; [| |apply Hf].
  - destruct (fresh_pc s Hf t p Ht); destruct Hp; by subst.
  - pose proof (running_count _ _ _ Hr) as Hc. pose proof (running_owner _ _ _ Hr) as Ho.
    destruct (decide (t = u)) as [->|Hne]; [rewrite Ht in Ho; injection Ho as ->; by destruct Hp as [-> | ->]|].
    destruct (running_pc _ _ _ Hr t p Hne Ht) as [?|[?|[?|?]]]; destruct Hp; by subst.
Qed.

(** No caller of pthread_once is left behind: as soon as no thread is
    executing or completing the initialisation, nobody sleeps on the object and
    every caller that waits has been given what it waits for, so that its next
    step is possible; later callers do not sleep. *)
Theorem pthread_once_no_sleeper s : oreachable s -> begun s = 1%nat ->
  (forall t p, o_threads s !! t = Some p -> p <> OInit /\ p <> OFinish /\ p <> OKernel) ->
  kblocked (o_lock s) = [] /\
  (forall t, o_threads s !! t = Some OWait -> exists s', ostep s s' /\ o_threads s' !! t = Some OStore) /\
  (forall t, o_threads s !! t = Some OEntry -> pthread_once t (ow s) OEntry = ONext (ow s) OStore).
Proof.
  intros Hs%oreachable_inv Hb Hno. destruct (once_phase s Hs) as [Hf|[(u & q & Hr)|Hf]].
  - destruct (fresh_count s Hf). lia.
  - pose proof (running_count _ _ _ Hr) as Hc. destruct (Hno u q (running_owner _ _ _ Hr)) as (? & ? & ?).
    destruct q; try done. lia.
  - split_and!; [apply Hf| |].
    + intros t Ht. destruct (list_elem_of_split _ _ (finished_waits s Hf t Ht)) as (l1 & l2 & E).
      eexists. split; [eapply (ostep_wake s t (l1 ++ l2)); [done|]|simpl; by rewrite lookup_insert_eq].
      rewrite E. symmetry. apply Permutation_middle.
    + intros t Ht. destruct (body_small s Hf (once_size s Hs)) as (_ & Ewr & _). simpl.
      destruct (Z.eqb_spec (ow s) CLOUDABI_LOCK_BOGUS) as [E|_]; [by destruct (wf_not_bogus _ (finished_wf s Hf))|].
      by rewrite Ewr.
Qed.
End Once.

(** ** A run: the second caller sleeps until the first has finished *)

Module OnceRun.

Definition start : ostate := OState (KLock CLOUDABI_LOCK_BOGUS [] []) (<[1 := OIdle]> (<[2 := OIdle]> ∅)) 0 0.

Definition go (t : Z) (s : ostate) : ostate :=
  match o_threads s !! t with
  | Some OIdle => oupd s (o_lock s) t OIdle OEntry
  | Some p =>
      match pthread_once t (kword (o_lock s)) p with
      | ONext w p' => oupd s (KLock w (kblocked (o_lock s)) (kgranted (o_lock s))) t p p'
      | OCalls op p' => oupd s (serve op (o_lock s)) t p p'
      | _ => s
      end
  | None => s
  end.

Definition may_go (t : Z) (s : ostate) : bool :=
  match o_threads s !! t with
  | Some OIdle => true
  | Some p => match pthread_once t (kword (o_lock s)) p with ONext _ _ | OCalls _ _ => true | _ => false end
  | None => false
  end.

Lemma reach_go t s : oreachable s -> may_go t s = true -> oreachable (go t s).
Proof.
  intros Hr Hm. eapply oreachable_step; [done|]. unfold may_go, go in *.
  destruct (o_threads s !! t) as [p|] eqn:Ht; [|done].
  destruct p; [by eapply ostep_call; [|left]|..]; (destruct (pthread_once t _ _) eqn:E; first [done|by eapply ostep_exec|by eapply ostep_kernel]).
Qed.

Definition demo : ostate := go 1 (go 1 (go 1 (go 1 (go 2 (go 2 (go 1 (go 2 (go 1 start)))))))).

Lemma once_demo_reachable : oreachable demo.
Proof.
  unfold demo. do 9 (apply reach_go; [|vm_compute; reflexivity]). apply oreachable_initial.
  split_and!; try done. intros t p Ht. simpl in Ht.
  apply lookup_insert_Some in Ht as [[<- <-]|[_ Ht]]; [by vm_compute|].
  apply lookup_insert_Some in Ht as [[<- <-]|[_ Ht]]; [by vm_compute|]. by rewrite lookup_empty in Ht.
Qed.

Lemma once_demo_threads : o_threads demo = <[1 := OStore]> (<[2 := OWait]> ∅) /\ begun demo = 1%nat /\
  kgranted (o_lock demo) = [(2, Rd)].
Proof. vm_compute. done. Qed.

Lemma pthread_once_safe_witness : begun demo = 1%nat /\ ended demo = 1%nat.
Proof.
  apply (proj1 (proj2 (pthread_once_safe demo once_demo_reachable)) 1 OStore); [|by left].
  rewrite (proj1 once_demo_threads). apply lookup_insert_eq.
Defined.

Lemma demo_done t p : o_threads demo !! t = Some p -> p <> OInit /\ p <> OFinish /\ p <> OKernel.
Proof.
  intros Ht. rewrite (proj1 once_demo_threads) in Ht.
  apply lookup_insert_Some in Ht as [[_ <-]|[_ Ht]]; [done|].
  apply lookup_insert_Some in Ht as [[_ <-]|[_ Ht]]; [done|]. by rewrite lookup_empty in Ht.
Qed.

Lemma pthread_once_no_sleeper_witness : exists s', ostep demo s' /\ o_threads s' !! 2 = Some OStore.
Proof.
  destruct (pthread_once_no_sleeper demo once_demo_reachable (proj1 (proj2 once_demo_threads)) demo_done) as (_ & Hw & _).
  apply Hw. rewrite (proj1 once_demo_threads), lookup_insert_ne by lia. apply lookup_insert_eq.
Defined.

End OnceRun.
