(* ===== verification/Semaphore.v ===== *)
(** * Semaphores

    Sources: src/libc/semaphore/sem_init.c, sem_post.c, sem_wait.c,
    sem_trywait.c, sem_timedwait.c, sem_getvalue.c and
    src/libc/pthread/pthread_cond_signal.c.

    The functions are monitors: a mutex protects the value and a condition
    variable tells the waiting threads about posts.  The threads interleave at
    every lock, unlock, wait and signal; the mutex is what RwLock shows it to
    be, one owner at a time.  The kernel's part of the condition variable is
    the interface [Condvar].

    Every call leaves a record of what it returned.

    The theorem: the value is the initial one plus the posts minus the waits that
    returned 0, but for calls that have left the critical section and not yet
    returned, and never leaves the range of an unsigned int; and a thread never
    sleeps through a post: while the value is positive and somebody sleeps, some
    thread is on its way to wake a sleeper or to look at the value again. *)

From S2P Require Import Prelude CalendarTime.

#[local] Open Scope Z_scope.

(** ** Condition variables *)

(** The word the kernel keeps for a condition variable, and who sleeps. *)
Record condvar := CondVar { cv_waiters : Z; cv_asleep : list Z }.

Inductive ccall := CSleep (t : Z) | CSignal | CBroadcast | CLeave (t : Z).

(** cloudabi_sys_poll and cloudabi_sys_condvar_signal with one thread or all to
    wake; a thread may also leave early.  The word is CLOUDABI_CONDVAR_HAS_NO_WAITERS
    only when nobody sleeps. *)
Class Condvar := {
  HAS_NO_WAITERS : Z;
  cond : ccall -> condvar -> condvar -> Prop;
  cond_word op c c' : cond op c c' -> cv_asleep c' <> [] -> cv_waiters c' <> HAS_NO_WAITERS;
  cond_sleep t c c' : cond (CSleep t) c c' -> cv_asleep c' ≡ₚ t :: cv_asleep c;
  cond_signal c c' : cond CSignal c c' ->
    match cv_asleep c with [] => cv_asleep c' = [] | _ => exists u, cv_asleep c ≡ₚ u :: cv_asleep c' end;
  cond_broadcast c c' : cond CBroadcast c c' -> cv_asleep c' = [];
  cond_leave t c c' : cond (CLeave t) c c' -> t ∈ cv_asleep c -> cv_asleep c ≡ₚ t :: cv_asleep c'
}.

(** ** The operations *)

Inductive sem_op := SemPost | SemWait (abstime : option timespec) | SemTryWait | SemGetValue.

(** The return value with errno, or the value sem_getvalue stores. *)
Inductive sem_ret := Ret (r : Z) (err : option Z) | RetValue (sval : Z).

Inductive spc :=
  | SIdle
  | SLock (op : sem_op)
  | SBody (op : sem_op)
  | SAsleep (abstime : option timespec)
  | SRelock (abstime : option timespec)
  | STimedOut (abstime : option timespec)
  | SUnlock (op : sem_op) (signal : bool) (r : sem_ret)
  | SSignal (op : sem_op) (r : sem_ret).

(** The code between the lock and the unlock, or the wait: the new value and where the thread goes on. *)
Definition sem_post_body (value : Z) : Z * (spc + option timespec) :=
  if value =? UINT_MAX then (value, inl (SUnlock SemPost false (Ret (-1) (Some EINVAL))))
  else (u32 (value + 1), inl (SUnlock SemPost true (Ret 0 None))).

Definition sem_wait_body (value : Z) : Z * (spc + option timespec) :=
  if value =? 0 then (value, inr None)
  else (u32 (value - 1), inl (SUnlock (SemWait None) false (Ret 0 None))).

(** [pthread_cond_timedwait] refuses an invalid time before it waits. *)
Definition sem_timedwait_body (abstime : timespec) (value : Z) : Z * (spc + option timespec) :=
  if value =? 0 then
    match timespec_to_timestamp_clamp abstime with
    | None => (value, inl (SUnlock (SemWait (Some abstime)) false (Ret (-1) (Some EINVAL))))
    | Some _ => (value, inr (Some abstime))
    end
  else (u32 (value - 1), inl (SUnlock (SemWait (Some abstime)) false (Ret 0 None))).

Definition sem_trywait_body (value : Z) : Z * (spc + option timespec) :=
  if value =? 0 then (value, inl (SUnlock SemTryWait false (Ret (-1) (Some EAGAIN))))
  else (u32 (value - 1), inl (SUnlock SemTryWait false (Ret 0 None))).

Definition sem_getvalue_body (value : Z) : Z * (spc + option timespec) :=
  (value, inl (SUnlock SemGetValue false (RetValue (if INT_MAX <? value then INT_MAX else value)))).

Definition sem_body (op : sem_op) (value : Z) : Z * (spc + option timespec) :=
  match op with
  | SemPost => sem_post_body value
  | SemWait None => sem_wait_body value
  | SemWait (Some abstime) => sem_timedwait_body abstime value
  | SemTryWait => sem_trywait_body value
  | SemGetValue => sem_getvalue_body value
  end.

(** [results] is the history of the calls that have returned, with what they returned. *)
Record sem := Sem {
  sem_owner : option Z;
  sem_value : Z;
  sem_cond : condvar;
  results : list (sem_op * sem_ret)
}.

(** A post, or a wait of any kind, that returned 0. *)
Definition post_ok (op : sem_op) (r : sem_ret) : nat :=
  match op, r with SemPost, Ret r _ => if r =? 0 then 1 else 0 | _, _ => 0 end.
Definition wait_ok (op : sem_op) (r : sem_ret) : nat :=
  match op, r with (SemWait _ | SemTryWait), Ret r _ => if r =? 0 then 1 else 0 | _, _ => 0 end.

Definition posts_done (l : list (sem_op * sem_ret)) : nat := sum_list ((fun x => post_ok x.1 x.2) <$> l).
Definition waits_done (l : list (sem_op * sem_ret)) : nat := sum_list ((fun x => wait_ok x.1 x.2) <$> l).

Lemma done_cons op r l : posts_done ((op, r) :: l) = (post_ok op r + posts_done l)%nat /\ waits_done ((op, r) :: l) = (wait_ok op r + waits_done l)%nat.
Proof. done. Qed.

Section Semaphore.
  Context `{Condvar}.

(** The attribute [pshared] only selects the scope in which the kernel looks the
    mutex and the condition variable up, and the clock only matters for
    timeouts, which may happen at any time here. *)
Definition sem_init (value : Z) : sem := Sem None value (CondVar HAS_NO_WAITERS []) [].

Record sstate := SState { ss_sem : sem; ss_threads : gmap Z spc }.

Definition set_pc (s : sstate) (m : sem) (t : Z) (p : spc) : sstate :=
  SState m (<[t := p]> (ss_threads s)).

Definition with_owner (o : option Z) (m : sem) : sem := Sem o (sem_value m) (sem_cond m) (results m).
Definition with_cond (c : condvar) (m : sem) : sem := Sem (sem_owner m) (sem_value m) c (results m).
Definition with_value (v : Z) (m : sem) : sem := Sem (sem_owner m) v (sem_cond m) (results m).
Definition with_result (op : sem_op) (r : sem_ret) (m : sem) : sem :=
  Sem (sem_owner m) (sem_value m) (sem_cond m) ((op, r) :: results m).

(** [pthread_cond_signal] enters the kernel only when somebody waits. *)
Definition pthread_cond_signal (c c' : condvar) : Prop :=
  if cv_waiters c =? HAS_NO_WAITERS then c' = c else cond CSignal c c'.

(** The steps.  A thread that sleeps and is no longer known to the condition
    variable has been woken up. *)
Inductive sstep (s : sstate) : sstate -> Prop :=
  | sstep_call t op : ss_threads s !! t = Some SIdle ->
      sstep s (set_pc s (ss_sem s) t (SLock op))
  | sstep_lock t p p' : ss_threads s !! t = Some p -> sem_owner (ss_sem s) = None ->
      match p with
      | SLock op => p' = SBody op
      | SRelock abstime => p' = SBody (SemWait abstime)
      | STimedOut abstime => p' = SUnlock (SemWait abstime) false (Ret (-1) (Some ETIMEDOUT))
      | _ => False
      end ->
      sstep s (set_pc s (with_owner (Some t) (ss_sem s)) t p')
  | sstep_body t op v p : ss_threads s !! t = Some (SBody op) -> sem_owner (ss_sem s) = Some t ->
      sem_body op (sem_value (ss_sem s)) = (v, inl p) ->
      sstep s (set_pc s (with_value v (ss_sem s)) t p)
  | sstep_sleep t op v abstime c : ss_threads s !! t = Some (SBody op) -> sem_owner (ss_sem s) = Some t ->
      sem_body op (sem_value (ss_sem s)) = (v, inr abstime) ->
      cond (CSleep t) (sem_cond (ss_sem s)) c ->
      sstep s (set_pc s (with_owner None (with_cond c (with_value v (ss_sem s)))) t (SAsleep abstime))
  | sstep_unlock t op r : ss_threads s !! t = Some (SUnlock op true r) -> sem_owner (ss_sem s) = Some t ->
      sstep s (set_pc s (with_owner None (ss_sem s)) t (SSignal op r))
  | sstep_return t op r : ss_threads s !! t = Some (SUnlock op false r) -> sem_owner (ss_sem s) = Some t ->
      sstep s (set_pc s (with_owner None (with_result op r (ss_sem s))) t SIdle)
  | sstep_signal t op r c : ss_threads s !! t = Some (SSignal op r) ->
      pthread_cond_signal (sem_cond (ss_sem s)) c ->
      sstep s (set_pc s (with_cond c (with_result op r (ss_sem s))) t SIdle)
  | sstep_wake t abstime : ss_threads s !! t = Some (SAsleep abstime) -> t ∉ cv_asleep (sem_cond (ss_sem s)) ->
      sstep s (set_pc s (ss_sem s) t (SRelock abstime))
  | sstep_leave t abstime c p : ss_threads s !! t = Some (SAsleep abstime) -> t ∈ cv_asleep (sem_cond (ss_sem s)) ->
      cond (CLeave t) (sem_cond (ss_sem s)) c ->
      p = SRelock abstime \/ (abstime <> None /\ p = STimedOut abstime) ->
      sstep s (set_pc s (with_cond c (ss_sem s)) t p).

Inductive sreachable (value : Z) : sstate -> Prop :=
  | sreachable_initial ths : (forall t p, ths !! t = Some p -> p = SIdle) ->
      sreachable value (SState (sem_init value) ths)
  | sreachable_step s s' : sreachable value s -> sstep s s' -> sreachable value s'.

(** ** The invariant *)

(** Threads inside the critical section, threads that are going to look at the
    value as waiters do, and threads that are going to signal. *)
Definition inside (p : spc) : bool := match p with SBody _ | SUnlock _ _ _ => true | _ => false end.
Definition looking (p : spc) : nat :=
  match p with SAsleep _ | SRelock _ | SBody (SemWait _) => 1 | _ => 0 end.
Definition signalling (p : spc) : nat := match p with SUnlock _ true _ | SSignal _ _ => 1 | _ => 0 end.

(** Calls that have changed the value and are about to return 0. *)
Definition posting (p : spc) : nat := match p with SUnlock op _ r | SSignal op r => post_ok op r | _ => 0 end.
Definition taking (p : spc) : nat := match p with SUnlock op _ r | SSignal op r => wait_ok op r | _ => 0 end.

(** What the calls that have returned, or are about to, add to the value. *)
Definition balance (s : sstate) : Z :=
  Z.of_nat (posts_done (results (ss_sem s))) - Z.of_nat (waits_done (results (ss_sem s)))
  + Z.of_nat (total posting (ss_threads s)) - Z.of_nat (total taking (ss_threads s)).

Record sem_inv (value : Z) (s : sstate) : Prop := {
  sem_range : 0 <= sem_value (ss_sem s) <= UINT_MAX;
  sem_count : sem_value (ss_sem s) = value + balance s;
  sem_inside t p : ss_threads s !! t = Some p -> inside p = true -> sem_owner (ss_sem s) = Some t;
  sem_flag : cv_asleep (sem_cond (ss_sem s)) <> [] -> cv_waiters (sem_cond (ss_sem s)) <> HAS_NO_WAITERS;
  sem_asleep t : t ∈ cv_asleep (sem_cond (ss_sem s)) -> exists abstime, ss_threads s !! t = Some (SAsleep abstime);
  sem_nodup : NoDup (cv_asleep (sem_cond (ss_sem s)));
  sem_wakeup : cv_asleep (sem_cond (ss_sem s)) <> [] ->
    sem_value (ss_sem s) + Z.of_nat (length (cv_asleep (sem_cond (ss_sem s))))
    <= Z.of_nat (total signalling (ss_threads s)) + Z.of_nat (total looking (ss_threads s))
}.

(** Each body changes the value by what its result says. *)
Lemma sem_body_spec op value : 0 <= value <= UINT_MAX ->
  let '(v, next) := sem_body op value in
  0 <= v <= UINT_MAX /\
  match next with
  | inl p => v = value + Z.of_nat (posting p) - Z.of_nat (taking p) /\ inside p = true /\ looking p = 0%nat /\
      (posting p + taking p <= 1)%nat /\ signalling p = posting p /\ (looking (SBody op) = 1%nat -> posting p = 0%nat /\ (taking p = 1%nat \/ value = 0))
  | inr _ => v = value /\ value = 0
  end.
Proof.
  intros Hv. assert (forall z, 0 <= z <= UINT_MAX -> u32 z = z) as Hu
    by (intros z Hz; apply uN_small; unfold in_unsigned, UINT_MAX in *; lia).
  destruct op as [|[abstime|]| |]; simpl;
    unfold sem_post_body, sem_wait_body, sem_timedwait_body, sem_trywait_body.
  - destruct (Z.eqb_spec value UINT_MAX); simpl; [|rewrite Hu by lia]; split_and!; (done || lia || (intros _; split; auto)).
  - destruct (Z.eqb_spec value 0); simpl.
    + destruct (timespec_to_timestamp_clamp abstime); simpl; split_and!; (done || lia || (intros _; split; auto)).
    + rewrite Hu by lia. split_and!; (done || lia || (intros _; split; auto)).
  - destruct (Z.eqb_spec value 0); simpl; [|rewrite Hu by lia]; split_and!; (done || lia || (intros _; split; auto)).
  - destruct (Z.eqb_spec value 0); simpl; [|rewrite Hu by lia]; split_and!; (done || lia || (intros _; split; auto)).
  - split_and!; (done || lia || (intros _; split; auto)).
Qed.

Section Step.
  Context (value : Z) (s : sstate) (Hs : sem_inv value s) (t : Z) (p p' : spc) (Ht : ss_threads s !! t = Some p).
  #[local] Abbreviation asleep := (cv_asleep (sem_cond (ss_sem s))).

(** The owner of the mutex is the only thread inside. *)
Lemma inside_upd o : sem_owner (ss_sem s) = None \/ sem_owner (ss_sem s) = Some t ->
  (inside p' = true -> o = Some t) -> forall u q,
  <[t := p']> (ss_threads s) !! u = Some q -> inside q = true -> o = Some u.
Proof.
  intros Ho Hp' u q [[<- <-]|[Hne Hu]]%lookup_insert_Some Hq; [auto|].
  pose proof (sem_inside _ _ Hs u q Hu Hq) as E. destruct Ho as [Ho|Ho]; rewrite Ho in E; [done|]. by simplify_eq.
Qed.

Lemma inside_outside : inside p' = false -> forall u q,
  <[t := p']> (ss_threads s) !! u = Some q -> inside q = true -> sem_owner (ss_sem s) = Some u.
Proof.
  intros Hp' u q [[<- <-]|[Hne Hu]]%lookup_insert_Some Hq; [by rewrite Hp' in Hq|by apply (sem_inside _ _ Hs u q)].
Qed.

(** The sleepers, as long as [t] is not one of them. *)
Lemma asleep_upd (l : list Z) : (forall u, u ∈ l -> u ∈ asleep /\ u <> t) ->
  forall u, u ∈ l -> exists abstime, <[t := p']> (ss_threads s) !! u = Some (SAsleep abstime).
Proof.
  intros Hl u [Hu Hne]%Hl. rewrite lookup_insert_ne by done. by apply (sem_asleep _ _ Hs).
Qed.

Lemma awake_not_asleep : match p with SAsleep _ => False | _ => True end -> t ∉ asleep.
Proof. intros Hp (a & E)%(sem_asleep _ _ Hs). rewrite Ht in E. by injection E as ->. Qed.

Lemma sem_counts :
  Z.of_nat (total signalling (<[t := p']> (ss_threads s))) + Z.of_nat (signalling p)
    = Z.of_nat (total signalling (ss_threads s)) + Z.of_nat (signalling p') /\
  Z.of_nat (total looking (<[t := p']> (ss_threads s))) + Z.of_nat (looking p)
    = Z.of_nat (total looking (ss_threads s)) + Z.of_nat (looking p').
Proof.
  pose proof (total_insert signalling _ _ _ p' Ht). pose proof (total_insert looking _ _ _ p' Ht). lia.
Qed.

(** What the thread has done shows in the balance, first as a call in progress and then as a result. *)
Lemma balance_step m : balance (set_pc s m t p') =
  balance s + (Z.of_nat (posts_done (results m)) - Z.of_nat (posts_done (results (ss_sem s))))
  - (Z.of_nat (waits_done (results m)) - Z.of_nat (waits_done (results (ss_sem s))))
  + (Z.of_nat (posting p') - Z.of_nat (posting p)) - (Z.of_nat (taking p') - Z.of_nat (taking p)).
Proof.
  unfold balance. cbn [set_pc ss_sem ss_threads].
  pose proof (total_insert posting _ _ _ p' Ht). pose proof (total_insert taking _ _ _ p' Ht). lia.
Qed.

(** A step that does not touch the condition variable: the value rises no more
    than the number of threads that will deal with it. *)
Lemma sem_step_inv m : match p with SAsleep _ => t ∉ asleep | _ => True end ->
  sem_cond m = sem_cond (ss_sem s) -> 0 <= sem_value m <= UINT_MAX ->
  sem_value m = value + balance (set_pc s m t p') ->
  (forall u q, <[t := p']> (ss_threads s) !! u = Some q -> inside q = true -> sem_owner m = Some u) ->
  sem_value m = 0 \/ sem_value m - sem_value (ss_sem s) <=
    Z.of_nat (signalling p') + Z.of_nat (looking p') - Z.of_nat (signalling p) - Z.of_nat (looking p) ->
  sem_inv value (set_pc s m t p').
Proof.
  intros Hp Ec Hr Hc Hin Hv. destruct sem_counts as [C1 C2].
  assert (t ∉ asleep) as Hn.
  { pose proof awake_not_asleep as HX. clear -Hp HX. destruct p; auto. }
  split; cbn [set_pc ss_sem ss_threads]; rewrite ?Ec; try done; try apply Hs.
  - apply asleep_upd. intros u Hu. split; [done|]. by intros ->.
  - intros HA. destruct Hv as [Hv|Hv]; [|pose proof (sem_wakeup _ _ Hs HA); lia].
    pose proof (total_ge_length looking (<[t := p']> (ss_threads s)) asleep (sem_nodup _ _ Hs)) as HL.
    enough (length asleep <= total looking (<[t := p']> (ss_threads s)))%nat by lia.
    apply HL. intros u Hu. destruct (asleep_upd asleep) with (u := u) as (a & E); [|done|by exists (SAsleep a)].
    intros v Hin'. split; [done|]. by intros ->.
Qed.
End Step.

(** A sleeper leaves the condition variable. *)
Lemma sem_leave_inv value s t abstime c p : sem_inv value s -> ss_threads s !! t = Some (SAsleep abstime) ->
  t ∈ cv_asleep (sem_cond (ss_sem s)) -> cond (CLeave t) (sem_cond (ss_sem s)) c ->
  p = SRelock abstime \/ p = STimedOut abstime -> sem_inv value (set_pc s (with_cond c (ss_sem s)) t p).
Proof.
  intros Hs Ht Hin Hc Hp. pose proof (cond_leave _ _ _ Hc Hin) as HP.
  pose proof (sem_nodup _ _ Hs) as HN. rewrite HP in HN. apply list.NoDup_cons in HN as [Hn HN].
  destruct (sem_counts s t (SAsleep abstime) p Ht) as [C1 C2]. simpl in C1, C2.
  split; cbn [set_pc with_cond ss_sem ss_threads sem_value sem_cond sem_owner]; try apply Hs; try done.
  - rewrite (balance_step s t _ p Ht), (sem_count _ _ Hs). cbn [with_cond results]. destruct Hp as [-> | ->]; cbn [posting taking]; lia.
  - apply (inside_outside value s Hs); [by destruct Hp as [-> | ->]].
  - by apply (cond_word _ _ _ Hc).
  - apply (asleep_upd value s Hs). intros u Hu. split; [rewrite HP; by constructor|]. by intros ->.
  - intros HA. assert (cv_asleep (sem_cond (ss_sem s)) <> []) as HA' by (intros E; rewrite E in Hin; by apply not_elem_of_nil in Hin).
    pose proof (sem_wakeup _ _ Hs HA') as Hw. rewrite HP in Hw. cbn [length] in Hw.
    destruct Hp as [-> | ->]; simpl in *; lia.
Qed.

(** A waiter goes to sleep: it found the value 0. *)
Lemma sem_sleep_inv value s t op abstime c : sem_inv value s -> ss_threads s !! t = Some (SBody op) ->
  sem_value (ss_sem s) = 0 ->
  cond (CSleep t) (sem_cond (ss_sem s)) c ->
  sem_inv value (set_pc s (with_owner None (with_cond c (with_value (sem_value (ss_sem s)) (ss_sem s)))) t (SAsleep abstime)).
Proof.
  intros Hs Ht Hv Hc. pose proof (cond_sleep _ _ _ Hc) as HP.
  pose proof (awake_not_asleep value s Hs t _ Ht I) as Hn.
  pose proof (sem_inside _ _ Hs t _ Ht eq_refl) as Ho.
  assert (forall u, u ∈ cv_asleep c ->
    exists a, <[t := SAsleep abstime]> (ss_threads s) !! u = Some (SAsleep a)) as Hsl.
  { intros u Hu. rewrite HP in Hu. apply elem_of_cons in Hu as [->|Hu].
    - exists abstime. by rewrite lookup_insert_eq.
    - apply (asleep_upd value s Hs t _ (cv_asleep (sem_cond (ss_sem s)))); [|done]. intros v Hv'. split; [done|]. by intros ->. }
  assert (NoDup (cv_asleep c)) as HN.
  { rewrite HP. apply list.NoDup_cons. split; [done|apply Hs]. }
  split; cbn [set_pc with_cond with_owner with_value ss_sem ss_threads sem_value sem_cond sem_owner]; try apply Hs; try done.
  - rewrite (balance_step s t _ _ Ht), (sem_count _ _ Hs). cbn [with_cond with_owner with_value results posting taking]. lia.
  - intros u q [[<- <-]|[Hne Hu]]%lookup_insert_Some Hq; [done|].
    pose proof (sem_inside _ _ Hs u q Hu Hq) as E. rewrite Ho in E. by simplify_eq.
  - by apply (cond_word _ _ _ Hc).
  - intros _. pose proof (total_ge_length looking (<[t := SAsleep abstime]> (ss_threads s)) (cv_asleep c) HN) as HL.
    rewrite Hv. enough (length (cv_asleep c) <= total looking (<[t:=SAsleep abstime]> (ss_threads s)))%nat by lia.
    apply HL. intros u Hu. destruct (Hsl u Hu) as (a & E). by exists (SAsleep a).
Qed.

(** A poster wakes a sleeper, if there is one. *)
Lemma sem_signal_inv value s t op r c : sem_inv value s -> ss_threads s !! t = Some (SSignal op r) ->
  pthread_cond_signal (sem_cond (ss_sem s)) c ->
  sem_inv value (set_pc s (with_cond c (with_result op r (ss_sem s))) t SIdle).
Proof.
  intros Hs Ht Hc. unfold pthread_cond_signal in Hc. destruct (sem_counts s t (SSignal op r) SIdle Ht) as [C1 C2]. simpl in C1, C2.
  pose proof (awake_not_asleep value s Hs t _ Ht I) as Hn.
  assert (sem_value (ss_sem s) = value + balance (set_pc s (with_cond c (with_result op r (ss_sem s))) t SIdle)) as Hbal.
  { rewrite (balance_step s t _ _ Ht), (sem_count _ _ Hs). cbn [with_cond with_result results posting taking].
    destruct (done_cons op r (results (ss_sem s))) as [-> ->]. lia. }
  assert (cv_asleep c = [] \/
    ((exists u, cv_asleep (sem_cond (ss_sem s)) ≡ₚ u :: cv_asleep c) /\ (cv_asleep c <> [] -> cv_waiters c <> HAS_NO_WAITERS)))
    as [E|[[u HP] Hw]].
  { destruct (Z.eqb_spec (cv_waiters (sem_cond (ss_sem s))) HAS_NO_WAITERS) as [E|_].
    - subst. left. destruct (cv_asleep (sem_cond (ss_sem s))) eqn:EA; [done|]. by destruct (sem_flag _ _ Hs); rewrite ?EA.
    - pose proof (cond_signal _ _ Hc) as HS. destruct (cv_asleep (sem_cond (ss_sem s))); [by left|].
      right. split; [done|]. apply (cond_word _ _ _ Hc). }
  - split; cbn [set_pc with_cond with_result ss_sem ss_threads sem_value sem_cond sem_owner]; rewrite ?E; try apply Hs; try done.
    + by apply (inside_outside value s Hs).
    + intros u []%not_elem_of_nil.
    + constructor.
  - pose proof (sem_nodup _ _ Hs) as HN. rewrite HP in HN. apply list.NoDup_cons in HN as [_ HN].
    split; cbn [set_pc with_cond with_result ss_sem ss_threads sem_value sem_cond sem_owner]; try apply Hs; try done.
    + by apply (inside_outside value s Hs).
    + apply (asleep_upd value s Hs). intros v Hv. assert (v ∈ cv_asleep (sem_cond (ss_sem s))) by (rewrite HP; by constructor).
      split; [done|]. by intros ->.
    + intros HA. assert (cv_asleep (sem_cond (ss_sem s)) <> []) as HA'
        by (intros E; rewrite E in HP; by apply Permutation_nil_cons in HP).
      pose proof (sem_wakeup _ _ Hs HA') as Hwk. rewrite HP in Hwk. cbn [length] in Hwk. lia.
Qed.

Lemma sem_step value s s' : sem_inv value s -> sstep s s' -> sem_inv value s'.
Proof.
  intros Hs Hst. pose proof (sem_range _ _ Hs) as Hr. pose proof (sem_count _ _ Hs) as Hc.
  destruct Hst as [t op Ht|t p p' Ht Ho Hp|t op v p Ht Ho Hb|t op v a c Ht Ho Hb Hcond|t op r Ht Ho|t op r Ht Ho|t op r c Ht Hcond
    |t a Ht Hn|t a c p Ht Hin Hcond Hp].
  - apply (sem_step_inv value s Hs t SIdle); try done; [|by apply (inside_outside value s Hs)|right; simpl; lia].
    rewrite (balance_step s t _ _ Ht), Hc. simpl. lia.
  - assert (0 <= Z.of_nat (signalling p') + Z.of_nat (looking p') - Z.of_nat (signalling p) - Z.of_nat (looking p)) as Hl
      by (destruct p; try done; subst p'; simpl; try lia; destruct op; simpl; lia).
    apply (sem_step_inv value s Hs t p); try done; [by destruct p| |apply (inside_upd value s Hs)|right; simpl; lia].
    + rewrite (balance_step s t _ _ Ht). cbn [with_owner results sem_value]. rewrite Hc. destruct p; try done; subst p'; simpl; lia.
    + by left.
    + done.
  - pose proof (sem_body_spec op _ Hr) as Hspec. rewrite Hb in Hspec. destruct Hspec as (Hv & -> & Hi & Hl & H1 & Hsig & Hlook).
    apply (sem_step_inv value s Hs t (SBody op)); try done; cbn [with_value sem_value sem_owner].
    + rewrite (balance_step s t _ _ Ht). cbn [with_value results posting taking]. rewrite Hc. lia.
    + apply (inside_upd value s Hs); [by right|done].
    + rewrite Hsig, Hl. change (signalling (SBody op)) with 0%nat. assert (looking (SBody op) = 1%nat \/ looking (SBody op) = 0%nat) as [E|E] by (destruct op; auto).
      * destruct (Hlook E) as [-> [->|E0]]; rewrite E; [right; lia|]. rewrite E0. destruct (taking p) as [|k]; [by left|]. exfalso. lia.
      * right. rewrite E. lia.
  - pose proof (sem_body_spec op _ Hr) as Hspec. rewrite Hb in Hspec. destruct Hspec as (Hv & -> & Hv0). by eapply sem_sleep_inv.
  - apply (sem_step_inv value s Hs t (SUnlock op true r)); try done; cbn [with_owner sem_value sem_owner].
    + rewrite (balance_step s t _ _ Ht). cbn [with_owner results posting taking]. rewrite Hc. lia.
    + apply (inside_upd value s Hs); [by right|done].
    + right. simpl. lia.
  - apply (sem_step_inv value s Hs t (SUnlock op false r)); try done; cbn [with_owner with_result sem_value sem_owner].
    + rewrite (balance_step s t _ _ Ht). cbn [with_owner with_result results posting taking]. rewrite Hc.
      destruct (done_cons op r (results (ss_sem s))) as [-> ->]. lia.
    + apply (inside_upd value s Hs); [by right|done].
    + right. simpl. lia.
  - by apply sem_signal_inv.
  - apply (sem_step_inv value s Hs t (SAsleep a)); try done; [|by apply (inside_outside value s Hs)|right; simpl; lia].
    rewrite (balance_step s t _ _ Ht), Hc. simpl. lia.
  - apply (sem_leave_inv value s t a); try done. destruct Hp as [?|[_ ?]]; auto.
Qed.

Lemma sreachable_inv value s : 0 <= value <= UINT_MAX -> sreachable value s -> sem_inv value s.
Proof.
  intros Hv Hr. induction Hr as [ths Hth|s s' _ IH Hst]; [|by eapply sem_step].
  assert (forall f, (forall p, p = SIdle -> f p = 0%nat) -> total f ths = 0%nat) as H0
    by (intros f Hf; apply total_zero; intros t p Ht; by apply Hf, (Hth t)).
  split; simpl; try done; [| | |constructor].
  - unfold balance, posts_done, waits_done. simpl. rewrite !H0 by (by intros p ->). lia.
  - intros t p Ht Hi. rewrite (Hth t p Ht) in Hi. done.
  - intros t []%not_elem_of_nil.
Qed.

(** A thread on its way to signal or to look at the value again. *)
Definition on_its_way (s : sstate) (t : Z) (p : spc) : Prop :=
  signalling p = 1%nat \/ (looking p = 1%nat /\ t ∉ cv_asleep (sem_cond (ss_sem s))).

Lemma some_on_its_way value s : sem_inv value s ->
  cv_asleep (sem_cond (ss_sem s)) <> [] -> 0 < sem_value (ss_sem s) ->
  exists t p, ss_threads s !! t = Some p /\ on_its_way s t p.
Proof.
  intros Hs HA Hv.
  assert (forall t p, Decision (on_its_way s t p)) by (unfold on_its_way; apply _).
  destruct (decide (map_Exists (on_its_way s) (ss_threads s))) as [(t & p & Ht & Hp)|Hn]; [by eauto|].
  assert (forall t p, ss_threads s !! t = Some p -> ~ on_its_way s t p) as Hno
    by (intros t p Ht Hp; apply Hn; by exists t, p).
  exfalso. pose proof (sem_wakeup _ _ Hs HA) as Hw.
  rewrite (total_zero signalling) in Hw.
  2: { intros t p Ht. pose proof (Hno t p Ht) as Hx. unfold on_its_way in Hx.
       destruct p as [| | | | | |? []|]; simpl in *; tauto. }
  pose proof (total_le_length looking (ss_threads s) (cv_asleep (sem_cond (ss_sem s)))) as HL.
  enough (total looking (ss_threads s) <= length (cv_asleep (sem_cond (ss_sem s))))%nat by lia.
  apply HL. intros t p Ht Hp. pose proof (Hno t p Ht) as Hx. unfold on_its_way in Hx.
  assert (looking p = 1%nat) as E by (destruct p as [|op|op| | | |? []|]; try destruct op; done).
  split; [done|]. destruct (decide (t ∈ cv_asleep (sem_cond (ss_sem s)))); [done|tauto].
Qed.

(** C21: in every interleaving of its users a semaphore's value is the initial
    value plus the calls of sem_post that returned 0 minus the calls of sem_wait,
    sem_timedwait and sem_trywait that returned 0, where calls that have left the
    critical section count by what they are about to return; when there are none of
    these, it is the initial value and what the returned calls say.  The value stays
    between 0 and UINT_MAX and is only read and written by the owner of the mutex; and
    no post is slept through: when the value is positive and threads sleep, some
    thread is about to signal or about to look at the value as a waiter. *)
Theorem semaphore_correct value s : 0 <= value <= UINT_MAX -> sreachable value s ->
  0 <= sem_value (ss_sem s) <= UINT_MAX /\
  sem_value (ss_sem s) = value + Z.of_nat (posts_done (results (ss_sem s))) - Z.of_nat (waits_done (results (ss_sem s)))
    + Z.of_nat (total posting (ss_threads s)) - Z.of_nat (total taking (ss_threads s)) /\
  ((forall t op signal r, ss_threads s !! t <> Some (SUnlock op signal r) /\ ss_threads s !! t <> Some (SSignal op r)) ->
     sem_value (ss_sem s) = value + Z.of_nat (posts_done (results (ss_sem s))) - Z.of_nat (waits_done (results (ss_sem s)))) /\
  (forall t p, ss_threads s !! t = Some p -> inside p = true -> sem_owner (ss_sem s) = Some t) /\
  (cv_asleep (sem_cond (ss_sem s)) <> [] -> 0 < sem_value (ss_sem s) ->
     exists t p, ss_threads s !! t = Some p /\ on_its_way s t p) /\
  (forall t, t ∈ cv_asleep (sem_cond (ss_sem s)) -> exists abstime, ss_threads s !! t = Some (SAsleep abstime)).
Proof.
  intros Hv Hr%sreachable_inv; [|done]. pose proof (sem_count _ _ Hr) as Hc. unfold balance in Hc.
  split; [apply Hr|]. split; [lia|]. split; [|split; [apply Hr|split; [by eapply some_on_its_way|apply Hr]]].
  intros Hno. rewrite !total_zero in Hc; [lia|..]; intros t p Ht; destruct p as [| | | | | |op sg r|op r]; try done;
    [by destruct (Hno t op sg r)|by destruct (Hno t op true r)|by destruct (Hno t op sg r)|by destruct (Hno t op true r)].
Qed.
End Semaphore.

(** ** An instance, and a run: a post while a thread sleeps *)

Fixpoint leave (t : Z) (l : list Z) : list Z :=
  match l with [] => [] | u :: l => if u =? t then l else u :: leave t l end.

Definition cserve (op : ccall) (c : condvar) : condvar :=
  let l := match op with
           | CSleep t => t :: cv_asleep c
           | CSignal => drop 1 (cv_asleep c)
           | CBroadcast => []
           | CLeave t => leave t (cv_asleep c)
           end in
  CondVar (Z.of_nat (length l)) l.

Lemma leave_perm t l : t ∈ l -> l ≡ₚ t :: leave t l.
Proof.
  induction l as [|u l IH]; intros Hin; [by apply not_elem_of_nil in Hin|]. simpl.
  destruct (Z.eqb_spec u t) as [->|Hne]; [done|]. apply elem_of_cons in Hin as [->|Hin]; [done|].
  rewrite (IH Hin) at 1. constructor.
Qed.

#[global] Instance cserve_condvar : Condvar.
Proof.
  refine {| HAS_NO_WAITERS := 0; cond := fun op c c' => c' = cserve op c |}.
  - intros op c c' ->. unfold cserve. simpl. destruct op; [simpl; lia| |done|].
    + by destruct (drop 1 (cv_asleep c)).
    + by destruct (leave t (cv_asleep c)).
  - by intros t c c' ->.
  - intros c c' ->. simpl. destruct (cv_asleep c) as [|u l]; [done|]. by exists u.
  - by intros c c' ->.
  - intros t c c' -> Hin. by apply leave_perm.
Defined.

Module SemRun.

Definition start : sstate := SState (sem_init 0) (<[1 := SIdle]> (<[2 := SIdle]> ∅)).

Definition s1 := set_pc start (ss_sem start) 1 (SLock (SemWait None)).
Definition s2 := set_pc s1 (with_owner (Some 1) (ss_sem s1)) 1 (SBody (SemWait None)).
Definition s3 := set_pc s2 (with_owner None (with_cond (cserve (CSleep 1) (sem_cond (ss_sem s2))) (with_value 0 (ss_sem s2)))) 1 (SAsleep None).
Definition s4 := set_pc s3 (ss_sem s3) 2 (SLock SemPost).
Definition s5 := set_pc s4 (with_owner (Some 2) (ss_sem s4)) 2 (SBody SemPost).
Definition demo := set_pc s5 (with_value 1 (ss_sem s5)) 2 (SUnlock SemPost true (Ret 0 None)).

Lemma sem_demo_reachable : sreachable 0 demo.
Proof.
  eapply sreachable_step; [|by apply (sstep_body s5 2 SemPost 1)].
  eapply sreachable_step; [|by apply (sstep_lock s4 2 (SLock SemPost))].
  eapply sreachable_step; [|by apply (sstep_call s3 2 SemPost)].
  eapply sreachable_step; [|by apply (sstep_sleep s2 1 (SemWait None) 0)].
  eapply sreachable_step; [|by apply (sstep_lock s1 1 (SLock (SemWait None)))].
  eapply sreachable_step; [|by apply (sstep_call start 1 (SemWait None))].
  apply sreachable_initial. intros t p Ht.
  apply lookup_insert_Some in Ht as [[_ <-]|[_ Ht]]; [done|].
  apply lookup_insert_Some in Ht as [[_ <-]|[_ Ht]]; [done|]. by rewrite lookup_empty in Ht.
Qed.

Lemma semaphore_correct_witness : exists t p, ss_threads demo !! t = Some p /\ on_its_way demo t p.
Proof.
  assert (0 <= 0 <= UINT_MAX) as Hv by (unfold UINT_MAX; lia).
  destruct (semaphore_correct 0 demo Hv sem_demo_reachable) as (_ & _ & _ & _ & Hw & _).
  apply Hw; [discriminate|reflexivity].
Defined.

End SemRun.
