(* ===== verification/Inet.v ===== *)
(** * Internet addresses: inet_pton, inet_ntop, inet_aton

    Sources: src/libc/arpa/inet/inet_pton.c, inet_ntop.c, inet_aton.c and the
    address predicates of src/include/netinet/in.h.

    An address is its list of bytes in network order; a string is the list of
    its characters without the terminator.  In the parsers the outer [None] is
    undefined behaviour (an access outside an array) and the inner one the
    return value 0.  The formatters print with the model of snprintf. *)

From S2P Require Import Prelude Charset StrToInt Printf.

#[local] Open Scope Z_scope.
#[local] Ltac Zify.zify_post_hook ::= Z.to_euclidean_division_equations.

Definition c_colon : Z := 58.
Definition c_dot : Z := 46.

(** The character at the start of a string: the terminator at its end. *)
Definition cur (s : list Z) : Z := default 0 (head s).

(** ** inet_pton *)

(** A number between 0 and 255 without leading zeros. *)
Definition pton4_number (src : list Z) : option (Z * list Z) :=
  let digit s number := if between c_0 (cur s) c_9 then (u32 (number * 10 + cur s - c_0), drop 1 s) else (number, s) in
  if cur src =? c_0 then Some (0, drop 1 src)
  else if between (c_0 + 1) (cur src) c_9 then
    let '(number, src) := digit (drop 1 src) (cur src - c_0) in
    let '(number, src) := digit src number in
    if 255 <? number then None else Some (number, src)
  else None.

(** The loop over the groups, [n] of which are still to come. *)
Fixpoint pton4_groups (n : nat) (src : list Z) : option (list Z) :=
  match n with
  | O => Some []
  | S n =>
      '(number, src) ← pton4_number src;
      if negb (cur src =? match n with O => 0 | _ => c_dot end) then None
      else addr ← pton4_groups n (drop 1 src); Some (number :: addr)
  end.

Definition inet_pton4 (src : list Z) : option (list Z) := pton4_groups 4 src.

Definition NGROUPS : Z := 8.

(** Up to four hexadecimal digits, one at least: the number and the rest. *)
Fixpoint pton6_digits (n : nat) (first : bool) (src : list Z) (number : Z) : option (Z * list Z) :=
  match n with
  | O => Some (number, src)
  | S n =>
      let c := cur src in
      if between c_0 c c_9 then pton6_digits n false (drop 1 src) (number * 16 + c - c_0)
      else if between c_A c c_F then pton6_digits n false (drop 1 src) (number * 16 + c - c_A + 10)
      else if between c_a c c_f then pton6_digits n false (drop 1 src) (number * 16 + c - c_a + 10)
      else if first then None
      else pton6_digits n false src number
  end.

(** Storing bytes into the array from an index on. *)
Definition store_bytes (addr : list Z) (i : Z) (bs : list Z) : option (list Z) :=
  if (0 <=? i) && (i + Z.of_nat (length bs) <=? Z.of_nat (length addr))
  then Some (take (Z.to_nat i) addr ++ bs ++ drop (Z.to_nat i + length bs) addr) else None.

(** The loop over the groups of digits: the array, leading_groups and groups. *)
Fixpoint pton6_loop (fuel : nat) (src addr : list Z) (leading_groups groups : Z)
  : option (option (list Z * Z * Z)) :=
  match fuel with
  | O => None
  | S fuel =>
      let group_start := src in
      match pton6_digits 4 true src 0 with
      | None => Some None
      | Some (number, src) =>
          addr ← store_bytes addr (groups * 2) [u8 (Z.shiftr number 8); u8 number];
          let next src leading_groups groups :=
            if NGROUPS <=? groups then Some None else pton6_loop fuel src addr leading_groups groups in
          if (cur src =? c_colon) && (cur (drop 1 src) =? c_colon) then
            let groups := groups + 1 in
            if leading_groups <? groups then Some None
            else
              let leading_groups := groups in
              let src := drop 2 src in
              if cur src =? 0 then
                if NGROUPS - 2 <? groups then Some None else Some (Some (addr, leading_groups, groups))
              else next src leading_groups (groups + 2)
          else if cur src =? c_colon then next (drop 1 src) leading_groups (groups + 1)
          else if cur src =? 0 then Some (Some (addr, leading_groups, groups + 1))
          else if NGROUPS - 2 <? groups then Some None
          else
            match inet_pton4 group_start with
            | None => Some None
            | Some quad =>
                addr ← store_bytes addr (groups * 2) quad;
                Some (Some (addr, leading_groups, groups + 2))
            end
      end
  end.

(** Copying [n] bytes of the array from an index on into the result. *)
Definition copy_bytes (dst : list Z) (i : Z) (addr : list Z) (j n : Z) : option (list Z) :=
  if (0 <=? j) && (0 <=? n) && (j + n <=? Z.of_nat (length addr))
  then store_bytes dst i (take (Z.to_nat n) (drop (Z.to_nat j) addr)) else None.

(** After the loop: the leading groups to the start, the others to the end. *)
Definition pton6_finish (r : option (list Z * Z * Z)) : option (option (list Z)) :=
  match r with
  | None => Some None
  | Some (addr, leading_groups, groups) =>
      if groups <? leading_groups then Some None
      else
        let dst := replicate 16 0 in
        dst ← copy_bytes dst 0 addr 0 (leading_groups * 2);
        let trailing_groups := groups - leading_groups in
        dst ← copy_bytes dst ((NGROUPS - trailing_groups) * 2) addr (leading_groups * 2) (trailing_groups * 2);
        Some (Some dst)
  end.

Definition inet_pton6 (src : list Z) : option (option (list Z)) :=
  let addr := replicate 16 0 in
  if (cur src =? c_colon) && (cur (drop 1 src) =? c_colon) then
    if cur (drop 2 src) =? 0 then Some (Some (replicate 16 0))
    else r ← pton6_loop 9 (drop 2 src) addr 0 2; pton6_finish r
  else r ← pton6_loop 9 src addr NGROUPS 0; pton6_finish r.

Inductive family := AF_INET | AF_INET6 | AF_OTHER.

(** The return value with the error and the address stored. *)
Definition inet_pton (af : family) (src : list Z) : option (Z * option Z * option (list Z)) :=
  match af with
  | AF_INET => Some (match inet_pton4 src with Some a => (1, None, Some a) | None => (0, None, None) end)
  | AF_INET6 => r ← inet_pton6 src; Some (match r with Some a => (1, None, Some a) | None => (0, None, None) end)
  | AF_OTHER => Some (-1, Some EAFNOSUPPORT, None)
  end.

(** ** inet_ntop *)

Definition IN6_IS_ADDR_V4MAPPED (a : list Z) : bool :=
  bool_decide (take 10 a = replicate 10 0) && bool_decide (take 2 (drop 10 a) = [255; 255]).

Definition IN6_IS_ADDR_V4COMPAT (a : list Z) : bool :=
  bool_decide (take 12 a = replicate 12 0) &&
  (negb (bool_decide (take 3 (drop 12 a) = [0; 0; 0]))
   || negb (bool_decide (drop 15 a = [0]) || bool_decide (drop 15 a = [1]))).

Section Format.
  (** The locale snprintf uses. *)
  Context (C : lc_ctype) (numeric : lc_numeric).

(** "%hhu.%hhu.%hhu.%hhu" *)
Definition fmt_quad : list Z :=
  [37; 104; 104; 117; 46; 37; 104; 104; 117; 46; 37; 104; 104; 117; 46; 37; 104; 104; 117].

(** ":%hx" *)
Definition fmt_group : list Z := [58; 37; 104; 120].

(** The string stored in a destination of [size] characters or an error;
    [buf] is what the local buffer holds initially. *)
Definition inet_ntop_inet (buf src : list Z) (size : Z) : option (list Z + Z) :=
  '(buf, len) ← vsnprintf_l C numeric buf 16 fmt_quad (map ArgInt src);
  let len := u64 len in
  if size <=? len then Some (inr ENOSPC)
  else str ← string_chars buf (size - 1); Some (inl str).

Definition group_of (src : list Z) (i : nat) : Z :=
  Z.lor (u16 (Z.shiftl (default 0 (src !! (2 * i)%nat)) 8)) (default 0 (src !! (2 * i + 1)%nat)).

(** The longest run of zero groups: [cur] and [best] are start and length. *)
Fixpoint find_zeroes (groups : list Z) (i : nat) (zeroes_cur zeroes_best : nat * nat) : nat * nat :=
  match groups with
  | [] => zeroes_best
  | g :: groups =>
      if g =? 0 then
        let zeroes_cur := (zeroes_cur.1, S zeroes_cur.2) in
        find_zeroes groups (S i) zeroes_cur
          (if (zeroes_best.2 <? zeroes_cur.2)%nat then zeroes_cur else zeroes_best)
      else find_zeroes groups (S i) (S i, O) zeroes_best
  end.

(** snprintf into the rest of the buffer, and a plain store. *)
Definition buf_printf (buf : list Z) (bufend : Z) (fmt : list Z) (args : list arg) : option (list Z * Z) :=
  if (0 <=? bufend) && (bufend <=? Z.of_nat (length buf)) then
    '(s, n) ← vsnprintf_l C numeric (drop (Z.to_nat bufend) buf) (Z.of_nat (length buf) - bufend) fmt args;
    Some (take (Z.to_nat bufend) buf ++ s, bufend + n)
  else None.

Definition buf_put (buf : list Z) (bufend c : Z) : option (list Z * Z) :=
  if (0 <=? bufend) && (bufend <? Z.of_nat (length buf))
  then Some (<[Z.to_nat bufend := c]> buf, bufend + 1) else None.

Fixpoint ntop6_loop (fuel : nat) (src : list Z) (ipv4 : bool) (zeroes_best : nat * nat) (i : nat)
  (strip_colon : nat) (buf : list Z) (bufend : Z) : option (list Z * Z) :=
  match fuel with
  | O => None
  | S fuel =>
      let continue i strip_colon '(buf, bufend) :=
        if (i <? 8)%nat then ntop6_loop fuel src ipv4 zeroes_best i strip_colon buf bufend else Some (buf, bufend) in
      if (i =? 6)%nat && ipv4 then
        buf_printf buf bufend (drop strip_colon (58 :: fmt_quad)) (map ArgInt (drop 12 src))
      else if (i =? zeroes_best.1)%nat && (1 <? zeroes_best.2)%nat then
        '(buf, bufend) ← buf_put buf bufend c_colon;
        r ← buf_put buf bufend c_colon;
        continue (i + zeroes_best.2)%nat 1%nat r
      else
        r ← buf_printf buf bufend (drop strip_colon fmt_group) [ArgInt (group_of src i)];
        continue (S i) 0%nat r
  end.

Definition inet_ntop_inet6 (buf src : list Z) (size : Z) : option (list Z + Z) :=
  let groups := map (group_of src) (seq 0 8) in
  let zeroes_best := find_zeroes groups 0 (0%nat, 0%nat) (0%nat, 0%nat) in
  let ipv4 := IN6_IS_ADDR_V4COMPAT src || IN6_IS_ADDR_V4MAPPED src in
  '(buf, bufend) ← ntop6_loop 9 src ipv4 zeroes_best 0 1 buf 0;
  '(buf, len) ← buf_put buf bufend 0;
  if size <? len then Some (inr ENOSPC) else Some (inl (take (Z.to_nat (len - 1)) buf)).

Definition inet_ntop (af : family) (buf src : list Z) (size : Z) : option (list Z + Z) :=
  match af with
  | AF_INET => inet_ntop_inet (take 16 buf) (take 4 src) size
  | AF_INET6 => inet_ntop_inet6 buf src size
  | AF_OTHER => Some (inr EAFNOSUPPORT)
  end.
End Format.

(** ** inet_aton *)

Definition int_t_uint32 : int_type := IntType 0 UINT_MAX u32.

Definition htonl (i : Z) : list Z :=
  [u8 (Z.shiftr i 24); u8 (Z.shiftr i 16); u8 (Z.shiftr i 8); u8 i].

(** The loop: the remaining input, [max], [leading] and [shift].  The result is
    s_addr, as its bytes in memory. *)
Fixpoint aton_loop (fuel : nat) (cp : list Z) (max leading shift : Z) : option (option (list Z)) :=
  match fuel with
  | O => None
  | S fuel =>
      '(have_number, have_overflow, number, cp) ← parse_strtoint int_t_uint32 0 max false 0 cp;
      if negb have_number || have_overflow then Some None
      else if cur cp =? 0 then Some (Some (htonl (Z.lor leading number)))
      else if (0 <? shift) && (number <=? 255) && (cur cp =? c_dot) then
        aton_loop fuel (drop 1 cp) (Z.shiftr max 8) (Z.lor leading (u32 (Z.shiftl number shift))) (shift - 8)
      else Some None
  end.

Definition inet_aton (cp : list Z) : option (option (list Z)) := aton_loop 5 cp UINT_MAX 0 24.

(** ** Numerals *)

Lemma horner_ge base v ds : 2 <= base -> 0 <= v -> Forall (fun d => 0 <= d) ds ->
  v * base ^ Z.of_nat (length ds) <= horner base v ds.
Proof.
  intros Hb Hv Hd. revert v Hv. induction Hd as [|d ds Hd Hds IH]; intros v Hv.
  - simpl. lia.
  - cbn [length]. rewrite Nat2Z.inj_succ, Z.pow_succ_r by lia.
    change (horner base v (d :: ds)) with (horner base (v * base + d) ds).
    pose proof (IH (v * base + d) ltac:(nia)). pose proof (Z.pow_pos_nonneg base (Z.of_nat (length ds)) ltac:(lia) ltac:(lia)).
    nia.
Qed.

(** A numeral below [base ^ k] has at most [k] digits. *)
Lemma is_numeral_short base v ds k : 2 <= base -> is_numeral base v ds -> v < base ^ Z.of_nat k -> (0 < k)%nat ->
  (length ds <= k)%nat.
Proof.
  intros Hb (vals & Hspan & Hval & Hne & Hz & Hlen & _) Hv Hk. rewrite Hlen.
  pose proof (span_digits_range base ds) as Hr. rewrite Hspan in Hr. simpl in Hr.
  destruct vals as [|d vals]; [done|]. apply list.Forall_cons in Hr as [Hd Hr].
  destruct (decide (d = 0)) as [->|Hd0].
  { rewrite (Hz eq_refl). simpl. lia. }
  destruct (decide (length (d :: vals) <= k)%nat) as [|Hgt]; [done|]. exfalso.
  assert (base ^ Z.of_nat k <= base ^ Z.of_nat (length vals)) as Hp
    by (apply Z.pow_le_mono_r; [lia|simpl in Hgt; lia]).
  pose proof (horner_ge base d vals Hb ltac:(lia)) as Hg.
  change (horner base 0 (d :: vals)) with (horner base (0 * base + d) vals) in Hval.
  rewrite Z.mul_0_l, Z.add_0_l in Hval.
  assert (Forall (fun d => 0 <= d) vals) as Hnn by (eapply list.Forall_impl; [exact Hr|simpl; lia]).
  specialize (Hg Hnn). pose proof (Z.pow_pos_nonneg base (Z.of_nat (length vals)) ltac:(lia) ltac:(lia)). nia.
Qed.

(** The decimal digits are the characters from '0'. *)
Lemma decimal_digits ds vals : span_digits 10 ds = (vals, []) -> ds = map (fun d => d + 48) vals.
Proof.
  revert vals. induction ds as [|c ds IH]; intros vals E; simpl in E; [by injection E as <-|].
  destruct (digit_of c) as [d|] eqn:Ed; [|done]. destruct (Z.ltb_spec d 10); [|done].
  destruct (span_digits 10 ds) as [vs rest]. injection E as <- ->. simpl. rewrite (IH vs eq_refl). f_equal.
  unfold digit_of, between, c_0, c_9, c_A, c_Z, c_a, c_z in Ed.
  repeat (zcase1_in Ed; simpl in Ed); try done; injection Ed as <-; lia.
Qed.

(** The tests of inet_pton6 for a hexadecimal digit. *)
Lemma hex_tests c : match digit_of c with
  | Some d => if d <? 16 then
      (between c_0 c c_9 = true /\ d = c - c_0) \/
      (between c_0 c c_9 = false /\ between c_A c c_F = true /\ d = c - c_A + 10) \/
      (between c_0 c c_9 = false /\ between c_A c c_F = false /\ between c_a c c_f = true /\ d = c - c_a + 10)
    else between c_0 c c_9 = false /\ between c_A c c_F = false /\ between c_a c c_f = false
  | None => between c_0 c c_9 = false /\ between c_A c c_F = false /\ between c_a c c_f = false
  end.
Proof.
  unfold digit_of, between, c_0, c_9, c_A, c_F, c_Z, c_a, c_f, c_z.
  repeat (zcase1; simpl; try lia); auto 10; lia.
Qed.

Lemma pton6_digits_stop n src number : is_hex_digit (cur src) = false ->
  pton6_digits n false src number = Some (number, src).
Proof.
  intros Hc. induction n as [|n IH]; [done|]. simpl. unfold is_hex_digit in Hc.
  pose proof (hex_tests (cur src)) as Ht. destruct (digit_of (cur src)) as [d|]; [rewrite Hc in Ht|];
    destruct Ht as (-> & -> & ->); apply IH.
Qed.

(** The loop over the hexadecimal digits reads a numeral of at most four. *)
Lemma pton6_digits_ok n first ds vals rest number :
  span_digits 16 ds = (vals, []) -> (length vals <= n)%nat -> (first = true -> vals <> []) ->
  is_hex_digit (cur rest) = false ->
  pton6_digits n first (ds ++ rest) number = Some (horner 16 number vals, rest).
Proof.
  revert n first vals number. induction ds as [|c ds IH]; intros n first vals number E Hn Hf Hr; simpl in E.
  - injection E as <-. destruct first; [by destruct (Hf eq_refl)|]. by apply pton6_digits_stop.
  - pose proof (hex_tests c) as Ht. destruct (digit_of c) as [d|]; [|done]. destruct (d <? 16); [|done].
    destruct (span_digits 16 ds) as [vs r] eqn:Es. injection E as <- ->.
    destruct n as [|n]; [simpl in Hn; lia|]. cbn [length] in Hn.
    change (horner 16 number (d :: vs)) with (horner 16 (number * 16 + d) vs).
    cbn [pton6_digits app]. change (cur (c :: ds ++ rest)) with c. change (drop 1 (c :: ds ++ rest)) with (ds ++ rest).
    destruct Ht as [(-> & Ed)|[(-> & -> & Ed)|(-> & -> & -> & Ed)]];
      rewrite (IH n false vs) by (done || lia); f_equal; f_equal; f_equal; lia.
Qed.

(** The numbers of a dotted quad. *)
Lemma pton4_number_ok b ds rest : byte b -> is_numeral 10 b ds -> between c_0 (cur rest) c_9 = false ->
  pton4_number (ds ++ rest) = Some (b, rest).
Proof.
  intros Hb Hn Hr. pose proof (is_numeral_short 10 b ds 3 ltac:(lia) Hn) as Hl. unfold byte in Hb.
  specialize (Hl ltac:(simpl; lia) ltac:(lia)).
  destruct Hn as (vals & Hspan & Hval & Hne & Hz & Hlen & _).
  pose proof (span_digits_range 10 ds) as Hrg. rewrite Hspan in Hrg. simpl in Hrg.
  rewrite (decimal_digits ds vals Hspan) in *. rewrite length_map in Hl.
  assert (forall d s, 0 <= d < 10 -> between c_0 (cur ((d + 48) :: s)) c_9 = true) as Hdig.
  { intros d s Hd. change (cur (d + 48 :: s)) with (d + 48). unfold between, c_0, c_9. zcases. }
  assert (forall d s number, 0 <= d < 10 -> 0 <= number < 1000 ->
    u32 (number * 10 + cur ((d + 48) :: s) - c_0) = number * 10 + d) as Hval1.
  { intros d s number Hd Hnum. change (cur (d + 48 :: s)) with (d + 48). unfold c_0.
    rewrite uN_small; [lia|unfold in_unsigned; lia]. }
  destruct vals as [|d0 vals]; [done|]. apply list.Forall_cons in Hrg as [Hd0 Hrg].
  unfold pton4_number. cbn [map app].
  assert (forall s, cur (d0 + 48 :: s) = d0 + 48) as Hcur by done. rewrite !Hcur.
  assert (forall (x : Z) s, drop 1 (x :: s) = s) as Hdrop by (intros; apply drop_0). rewrite !Hdrop.
  destruct (Z.eqb_spec (d0 + 48) c_0) as [E0|E0]; unfold c_0 in E0.
  { assert (d0 = 0) as -> by lia. injection (Hz eq_refl) as ->. simpl in Hval. by rewrite <- Hval. }
  assert (between (c_0 + 1) (d0 + 48) c_9 = true) as ->.
  { unfold between, c_0, c_9. zcases. }
  replace (d0 + 48 - c_0) with d0 by (unfold c_0; lia).
  destruct vals as [|d1 vals]; [|apply list.Forall_cons in Hrg as [Hd1 Hrg]]; cbn [map app].
  { rewrite Hr. cbv beta iota. rewrite Hr. unfold horner in Hval. simpl in Hval. subst.
    rewrite (proj2 (Z.ltb_ge _ _)) by lia. done. }
  rewrite Hdig, Hval1 by lia. cbv beta iota. rewrite !Hdrop.
  destruct vals as [|d2 vals]; [|apply list.Forall_cons in Hrg as [Hd2 Hrg]]; cbn [map app].
  { rewrite Hr. unfold horner in Hval. simpl in Hval. subst.
    rewrite (proj2 (Z.ltb_ge _ _)) by lia. done. }
  rewrite Hdig, Hval1 by lia. rewrite !Hdrop. destruct vals; [|simpl in Hl; lia]. unfold horner in Hval. simpl in Hval. subst.
  cbn [map app]. rewrite (proj2 (Z.ltb_ge _ _)) by lia. done.
Qed.

(** ** What the formats print *)

Section Text.
  Context (C : lc_ctype) (numeric : lc_numeric).

Definition dec (b : Z) : list Z := default [] (print_integer numeric default_flags 0 (-1) [] charset_lower 10 b).
Definition hex (g : Z) : list Z := default [] (print_integer numeric default_flags 0 (-1) [] charset_lower 16 g).

Lemma dec_ok b : byte b -> is_numeral 10 b (dec b) /\ (length (dec b) <= 3)%nat /\
  print_integer numeric default_flags 0 (-1) [] charset_lower 10 b = Some (dec b).
Proof.
  intros Hb. unfold byte in Hb.
  destruct (print_integer_plain numeric [] charset_lower 10 b) as (ds & Hn & _ & E); [by repeat constructor|lia|lia|].
  unfold dec. rewrite E. cbn [default id app].
  split_and!; [done| |done]. apply (is_numeral_short 10 b); [lia|done|simpl; lia|lia].
Qed.

Lemma hex_ok g : 0 <= g < 65536 -> is_numeral 16 g (hex g) /\ (length (hex g) <= 4)%nat /\
  print_integer numeric default_flags 0 (-1) [] charset_lower 16 g = Some (hex g).
Proof.
  intros Hg.
  destruct (print_integer_plain numeric [] charset_lower 16 g) as (ds & Hn & _ & E); [by repeat constructor|lia|lia|].
  unfold hex. rewrite E. cbn [default id app].
  split_and!; [done| |done]. apply (is_numeral_short 16 g); [lia|done|simpl; lia|lia].
Qed.

(** %hhu and %hx *)
Lemma directive_hhu b fmt args : byte b ->
  print_directive C numeric (104 :: 104 :: 117 :: fmt) (ArgInt b :: args) = Some ((dec b, true), fmt, args).
Proof.
  intros Hb. destruct (dec_ok b Hb) as (_ & _ & E). unfold byte in Hb.
  assert (print_directive C numeric (104 :: 104 :: 117 :: fmt) (ArgInt b :: args)
    = (s ← print_integer numeric default_flags 0 (-1) [] charset_lower 10 (u8 (s32 b)); Some ((s, true), fmt, args))) as ->.
  { unfold print_directive, default_flags. cbn -[print_integer uN].
    by destruct (print_integer numeric (Flags None 0 false false false) 0 (-1) [] charset_lower 10 (u8 (s32 b))). }
  rewrite sN_small, uN_small by (unfold in_unsigned, in_signed; lia). by rewrite E.
Qed.

Lemma directive_hx g fmt args : 0 <= g < 65536 ->
  print_directive C numeric (104 :: 120 :: fmt) (ArgInt g :: args) = Some ((hex g, true), fmt, args).
Proof.
  intros Hg. destruct (hex_ok g Hg) as (_ & _ & E).
  assert (print_directive C numeric (104 :: 120 :: fmt) (ArgInt g :: args)
    = (s ← print_integer numeric default_flags 0 (-1) [] charset_lower 16 (u16 (s32 g)); Some ((s, true), fmt, args))) as ->.
  { unfold print_directive, default_flags. cbn -[print_integer uN].
    by destruct (print_integer numeric (Flags None 0 false false false) 0 (-1) [] charset_lower 16 (u16 (s32 g))). }
  rewrite sN_small, uN_small by (unfold in_unsigned, in_signed; lia). by rewrite E.
Qed.

Definition quad_text (b0 b1 b2 b3 : Z) : list Z :=
  dec b0 ++ c_dot :: dec b1 ++ c_dot :: dec b2 ++ c_dot :: dec b3.

Lemma vprintf_char fuel c fmt args : c <> 37 ->
  vprintf_body (S fuel) C numeric (c :: fmt) args
  = ('(s, ok) ← vprintf_body fuel C numeric fmt args; Some (c :: s, ok)).
Proof. intros Hc. cbn [vprintf_body]. repeat case_match; done. Qed.

Lemma vprintf_hhu fuel b fmt args : byte b ->
  vprintf_body (S fuel) C numeric (37 :: 104 :: 104 :: 117 :: fmt) (ArgInt b :: args)
  = ('(s, ok) ← vprintf_body fuel C numeric fmt args; Some (dec b ++ s, ok)).
Proof. intros Hb. cbn [vprintf_body]. by rewrite directive_hhu. Qed.

Lemma vprintf_hx fuel g fmt args : 0 <= g < 65536 ->
  vprintf_body (S fuel) C numeric (37 :: 104 :: 120 :: fmt) (ArgInt g :: args)
  = ('(s, ok) ← vprintf_body fuel C numeric fmt args; Some (hex g ++ s, ok)).
Proof. intros Hg. cbn [vprintf_body]. by rewrite directive_hx. Qed.

Lemma print_quad fuel b0 b1 b2 b3 : byte b0 -> byte b1 -> byte b2 -> byte b3 -> (8 <= fuel)%nat ->
  vprintf_body fuel C numeric fmt_quad (map ArgInt [b0; b1; b2; b3]) = Some (quad_text b0 b1 b2 b3, true).
Proof.
  intros H0 H1 H2 H3 Hf. do 8 (destruct fuel as [|fuel]; [lia|]). unfold fmt_quad. cbn [map].
  rewrite vprintf_hhu, vprintf_char, vprintf_hhu, vprintf_char, vprintf_hhu, vprintf_char, vprintf_hhu by done.
  cbn. by rewrite app_nil_r.
Qed.

Lemma print_colon_quad fuel b0 b1 b2 b3 : byte b0 -> byte b1 -> byte b2 -> byte b3 -> (9 <= fuel)%nat ->
  vprintf_body fuel C numeric (58 :: fmt_quad) (map ArgInt [b0; b1; b2; b3])
  = Some (c_colon :: quad_text b0 b1 b2 b3, true).
Proof.
  intros H0 H1 H2 H3 Hf. destruct fuel as [|fuel]; [lia|]. rewrite vprintf_char by done.
  rewrite print_quad by (done || lia). done.
Qed.

Definition colon (strip : nat) : list Z := match strip with O => [c_colon] | _ => [] end.

Lemma print_group g strip : 0 <= g < 65536 -> (strip <= 1)%nat ->
  vprintf_body (S (length (drop strip fmt_group))) C numeric (drop strip fmt_group) [ArgInt g]
  = Some (colon strip ++ hex g, true).
Proof.
  intros Hg Hs. destruct strip as [|[|]]; [| |lia]; unfold fmt_group; cbn [drop length].
  - rewrite vprintf_char, vprintf_hx by done. cbn. by rewrite app_nil_r.
  - rewrite vprintf_hx by done. cbn. by rewrite app_nil_r.
Qed.

Lemma quad_length b0 b1 b2 b3 : byte b0 -> byte b1 -> byte b2 -> byte b3 -> (length (quad_text b0 b1 b2 b3) <= 15)%nat.
Proof.
  intros H0 H1 H2 H3. unfold quad_text. rewrite !length_app. cbn [length]. rewrite !length_app. cbn [length].
  rewrite length_app. cbn [length].
  destruct (dec_ok b0 H0) as (_ & ? & _), (dec_ok b1 H1) as (_ & ? & _), (dec_ok b2 H2) as (_ & ? & _),
    (dec_ok b3 H3) as (_ & ? & _). lia.
Qed.

(** ** Reading a dotted quad *)

Lemma pton4_group n b rest : byte b -> cur rest = match n with O => 0 | _ => c_dot end ->
  pton4_groups (S n) (dec b ++ rest) = (addr ← pton4_groups n (drop 1 rest); Some (b :: addr)).
Proof.
  intros Hb Hr. destruct (dec_ok b Hb) as (Hn & _). cbn [pton4_groups].
  rewrite (pton4_number_ok b) by (done || (rewrite Hr; by destruct n)). cbn [mbind option_bind].
  by rewrite Hr, Z.eqb_refl.
Qed.

Lemma inet_pton4_quad b0 b1 b2 b3 : byte b0 -> byte b1 -> byte b2 -> byte b3 ->
  inet_pton4 (quad_text b0 b1 b2 b3) = Some [b0; b1; b2; b3].
Proof.
  intros H0 H1 H2 H3. unfold inet_pton4, quad_text.
  rewrite pton4_group by done. change (drop 1 (c_dot :: ?x)) with x.
  rewrite pton4_group by done. change (drop 1 (c_dot :: ?x)) with x.
  rewrite pton4_group by done. change (drop 1 (c_dot :: ?x)) with x.
  rewrite <- (app_nil_r (dec b3)), pton4_group by done. done.
Qed.

(** ** The buffers *)

Lemma buf_printf_ok pre rest fmt args txt :
  vprintf_body (S (length fmt)) C numeric fmt args = Some (txt, true) -> get_numarg_max fmt = Some 0 ->
  (length txt < length rest)%nat -> Z.of_nat (length rest) <= INT_MAX ->
  exists rest', buf_printf C numeric (pre ++ rest) (Z.of_nat (length pre)) fmt args
    = Some ((pre ++ txt) ++ rest', Z.of_nat (length (pre ++ txt))) /\
    (length txt + length rest' = length rest)%nat.
Proof.
  intros Hb Hm Hl Hmax. unfold buf_printf. rewrite length_app.
  rewrite !(proj2 (Z.leb_le _ _)) by lia. cbn [andb]. rewrite Nat2Z.id, drop_app_length, take_app_length.
  replace (Z.of_nat (length pre + length rest) - Z.of_nat (length pre)) with (Z.of_nat (length rest)) by lia.
  pose proof (vsnprintf_l_run C numeric rest (Z.of_nat (length rest)) fmt args txt true) as Hr. cbv zeta in Hr.
  rewrite take_ge in Hr by lia. rewrite Hr by (done || lia).
  rewrite (proj2 (Z.ltb_lt 0 _)) by lia. cbn [andb mbind option_bind].
  exists (0 :: drop (S (length txt)) rest). rewrite <- app_assoc, length_app, Nat2Z.inj_add.
  split; [done|]. cbn [length]. rewrite length_drop. lia.
Qed.

Lemma buf_put_ok pre rest c : (0 < length rest)%nat ->
  exists rest', buf_put (pre ++ rest) (Z.of_nat (length pre)) c
    = Some ((pre ++ [c]) ++ rest', Z.of_nat (length (pre ++ [c]))) /\ (1 + length rest' = length rest)%nat.
Proof.
  intros Hl. destruct rest as [|x rest]; [simpl in Hl; lia|]. exists rest. split; [|done].
  unfold buf_put. rewrite length_app. cbn [length].
  rewrite (proj2 (Z.leb_le _ _)), (proj2 (Z.ltb_lt _ _)) by lia. cbn [andb]. rewrite Nat2Z.id.
  rewrite insert_app_r_alt, Nat.sub_diag, length_app by lia. cbn. rewrite <- app_assoc. repeat f_equal. lia.
Qed.

(** ** The array of the parser *)

Definition pad (A : list Z) : list Z := A ++ replicate (16 - length A) 0.

Lemma pad_length A : (length A <= 16)%nat -> length (pad A) = 16%nat.
Proof. intros. unfold pad. rewrite length_app, length_replicate. lia. Qed.

Lemma store_pad A xs bs : (length A + length bs <= 16)%nat -> (length xs <= length bs)%nat ->
  store_bytes (pad (A ++ xs)) (Z.of_nat (length A)) bs = Some (pad (A ++ bs)).
Proof.
  intros Hl Hx. unfold store_bytes. rewrite pad_length by (rewrite length_app; lia).
  rewrite !(proj2 (Z.leb_le _ _)) by lia. cbn [andb]. f_equal. rewrite Nat2Z.id. unfold pad.
  rewrite !length_app, <- !app_assoc, take_app_length. do 2 f_equal.
  rewrite drop_app_add', drop_app_ge by done. rewrite drop_replicate. f_equal. lia.
Qed.

Lemma store_pad_new A bs : (length A + length bs <= 16)%nat ->
  store_bytes (pad A) (Z.of_nat (length A)) bs = Some (pad (A ++ bs)).
Proof. intros Hl. rewrite <- (app_nil_r A) at 1. apply store_pad; [done|simpl; lia]. Qed.

(** The characters of the texts: digits, dots and colons. *)
Definition address_chars (s : list Z) : Prop := Forall (fun c => 46 <= c < 128) s.

Lemma numeral_chars base v ds : is_numeral base v ds -> address_chars ds.
Proof. intros (vals & _ & _ & _ & _ & _ & Hc). eapply list.Forall_impl; [exact Hc|]. cbn. lia. Qed.

Lemma quad_chars b0 b1 b2 b3 : byte b0 -> byte b1 -> byte b2 -> byte b3 -> address_chars (quad_text b0 b1 b2 b3).
Proof.
  intros H0 H1 H2 H3. assert (forall b, byte b -> address_chars (dec b)) as Hd.
  { intros b Hb. destruct (dec_ok b Hb) as (Hn & _). by eapply numeral_chars. }
  unfold quad_text, address_chars, c_dot. repeat (apply Forall_app; split; [by apply Hd|constructor; [lia|]]). by apply Hd.
Qed.

(** ** The text of an IPv6 address *)

Section Address.
  Context (src : list Z) (Hlen : length src = 16%nat) (Hbytes : Forall byte src) (ipv4 : bool).

(** The groups [8 - n .. 7] without "::". *)
Fixpoint tail_text (n : nat) : list Z :=
  match n with
  | O => []
  | S n' =>
      if (8 - n =? 6)%nat && ipv4 then
        quad_text (default 0 (src !! 12%nat)) (default 0 (src !! 13%nat))
          (default 0 (src !! 14%nat)) (default 0 (src !! 15%nat))
      else hex (group_of src (8 - n)) ++ match n' with O => [] | _ => c_colon :: tail_text n' end
  end.

Lemma src_byte i : byte (default 0 (src !! i)).
Proof.
  destruct (src !! i) eqn:E; [|unfold byte; simpl; lia]. simpl. by eapply Forall_lookup_1 in Hbytes.
Qed.

Lemma group_eq i : group_of src i = default 0 (src !! (2 * i)%nat) * 256 + default 0 (src !! (2 * i + 1)%nat).
Proof.
  unfold group_of. pose proof (src_byte (2 * i)) as H1. pose proof (src_byte (2 * i + 1)) as H2. unfold byte in *.
  rewrite uN_small by (unfold in_unsigned; rewrite Z.shiftl_mul_pow2 by lia; lia).
  rewrite lor_shifted_low by lia. lia.
Qed.

Lemma group_range i : 0 <= group_of src i < 65536.
Proof.
  rewrite group_eq. pose proof (src_byte (2 * i)) as H1. pose proof (src_byte (2 * i + 1)) as H2. unfold byte in *. lia.
Qed.

Lemma drop_two i x y : src !! i = Some x -> src !! S i = Some y -> drop i src = x :: y :: drop (S (S i)) src.
Proof. intros Hx Hy. by rewrite (drop_S src x i Hx), (drop_S src y (S i) Hy). Qed.

(** The bytes a group is stored as. *)
Lemma group_bytes i : (i < 8)%nat ->
  drop (2 * i) src = u8 (Z.shiftr (group_of src i) 8) :: u8 (group_of src i) :: drop (2 * S i) src.
Proof.
  intros Hi. destruct (lookup_lt_is_Some_2 src (2 * i)) as [x Hx]; [lia|].
  destruct (lookup_lt_is_Some_2 src (2 * i + 1)) as [y Hy]; [lia|].
  replace (2 * S i)%nat with (S (S (2 * i))) by lia.
  rewrite (drop_two (2 * i) x y) by (done || by rewrite <- Nat.add_1_r).
  rewrite group_eq, Hx, Hy. simpl.
  pose proof (src_byte (2 * i)) as H1. pose proof (src_byte (2 * i + 1)) as H2. rewrite Hx in H1. rewrite Hy in H2.
  simpl in H1, H2. unfold byte in *. unfold uN. rewrite Z.shiftr_div_pow2 by lia. repeat f_equal; lia.
Qed.

Lemma quad_bytes : drop 12 src = [default 0 (src !! 12%nat); default 0 (src !! 13%nat);
  default 0 (src !! 14%nat); default 0 (src !! 15%nat)].
Proof.
  destruct src as [|? [|? [|? [|? [|? [|? [|? [|? [|? [|? [|? [|? [|? [|? [|? [|? [|]]]]]]]]]]]]]]]]]; done.
Qed.

(** A hexadecimal numeral begins with a digit, which is no colon. *)
Lemma numeral_head base v ds rest : base <= 16 -> is_numeral base v ds -> is_hex_digit (cur (ds ++ rest)) = true.
Proof.
  intros Hb (vals & Hspan & _ & Hne & _). destruct ds as [|c ds]; [by injection Hspan as <-|].
  change (cur ((c :: ds) ++ rest)) with c. simpl in Hspan. unfold is_hex_digit.
  destruct (digit_of c) as [d|]; [|by injection Hspan as <-].
  destruct (Z.ltb_spec d base); [apply Z.ltb_lt; lia|by injection Hspan as <-].
Qed.

Lemma tail_head n rest : is_hex_digit (cur (tail_text (S n) ++ rest)) = true.
Proof.
  cbn [tail_text]. destruct (_ && ipv4).
  - unfold quad_text. rewrite <- app_assoc. eapply numeral_head; [|apply dec_ok, src_byte]. lia.
  - rewrite <- app_assoc. eapply numeral_head; [|apply hex_ok, group_range]. lia.
Qed.

Lemma hex_not_colon s : is_hex_digit (cur s) = true -> (cur s =? c_colon) = false /\ (cur s =? 0) = false.
Proof.
  intros Hc. split; apply Z.eqb_neq; intros E; rewrite E in Hc; vm_compute in Hc; done.
Qed.

(** The decimal digits read as hexadecimal ones. *)
Lemma span_10_16 ds vals : span_digits 10 ds = (vals, []) -> span_digits 16 ds = (vals, []).
Proof.
  revert vals. induction ds as [|c ds IH]; intros vals E; simpl in *; [done|].
  destruct (digit_of c) as [d|]; [|done]. destruct (Z.ltb_spec d 10); [|done].
  destruct (span_digits 10 ds) as [vs r]. injection E as <- ->. rewrite (IH vs eq_refl).
  by rewrite (proj2 (Z.ltb_lt _ _)) by lia.
Qed.

Definition group_pair (i : nat) : list Z := [u8 (Z.shiftr (group_of src i) 8); u8 (group_of src i)].

(** Reading a group: the digits and the stores. *)
Lemma read_group i rest : is_hex_digit (cur rest) = false ->
  pton6_digits 4 true (hex (group_of src i) ++ rest) 0 = Some (group_of src i, rest).
Proof.
  intros Hr. destruct (hex_ok (group_of src i) (group_range i)) as ((vals & Hspan & Hval & Hne & _ & Hl & _) & H4 & _).
  rewrite (pton6_digits_ok 4 true _ vals rest 0) by (done || lia). by rewrite Hval.
Qed.

Section Group.
  Context (fuel i g : nat) (A : list Z) (leading : Z) (HA : length A = (2 * g)%nat) (Hg : (g < 8)%nat).

Lemma store_group : store_bytes (pad A) (Z.of_nat g * 2) (group_pair i) = Some (pad (A ++ group_pair i)).
Proof.
  replace (Z.of_nat g * 2) with (Z.of_nat (length A)) by lia. apply store_pad_new. simpl. lia.
Qed.

Lemma group_end :
  pton6_loop (S fuel) (hex (group_of src i)) (pad A) leading (Z.of_nat g)
  = Some (Some (pad (A ++ group_pair i), leading, Z.of_nat g + 1)).
Proof.
  cbn [pton6_loop]. rewrite <- (app_nil_r (hex _)), read_group by done. fold (group_pair i). rewrite store_group. done.
Qed.

Lemma group_colon t : is_hex_digit (cur t) = true -> (S g < 8)%nat ->
  pton6_loop (S fuel) (hex (group_of src i) ++ c_colon :: t) (pad A) leading (Z.of_nat g)
  = pton6_loop fuel t (pad (A ++ group_pair i)) leading (Z.of_nat g + 1).
Proof.
  intros Ht Hg'. cbn [pton6_loop]. rewrite read_group by done. fold (group_pair i). rewrite store_group.
  cbn [mbind option_bind]. change (cur (c_colon :: t)) with c_colon. change (drop 1 (c_colon :: t)) with (drop 0 t).
  rewrite drop_0. destruct (hex_not_colon t Ht) as [-> _]. rewrite Z.eqb_refl. cbn [andb].
  unfold NGROUPS. by rewrite (proj2 (Z.leb_gt _ _)) by lia.
Qed.

Lemma group_double t : Z.of_nat g + 1 <= leading ->
  pton6_loop (S fuel) (hex (group_of src i) ++ c_colon :: c_colon :: t) (pad A) leading (Z.of_nat g)
  = if cur t =? 0 then
      if NGROUPS - 2 <? Z.of_nat g + 1 then Some None
      else Some (Some (pad (A ++ group_pair i), Z.of_nat g + 1, Z.of_nat g + 1))
    else if NGROUPS <=? Z.of_nat g + 1 + 2 then Some None
    else pton6_loop fuel t (pad (A ++ group_pair i)) (Z.of_nat g + 1) (Z.of_nat g + 1 + 2).
Proof.
  intros Hl. cbn [pton6_loop]. rewrite read_group by done. fold (group_pair i). rewrite store_group.
  cbn [mbind option_bind]. change (cur (c_colon :: c_colon :: t)) with c_colon.
  change (drop 1 (c_colon :: c_colon :: t)) with (c_colon :: t). change (cur (c_colon :: t)) with c_colon.
  change (drop 2 (c_colon :: c_colon :: t)) with (drop 0 t). rewrite drop_0, Z.eqb_refl. cbn [andb].
  by rewrite (proj2 (Z.ltb_ge _ _)) by lia.
Qed.
End Group.

(** The dotted quad at the end. *)
Lemma loop_quad fuel A leading g : length A = (2 * g)%nat -> (g + 2 <= 8)%nat ->
  pton6_loop (S fuel) (quad_text (default 0 (src !! 12%nat)) (default 0 (src !! 13%nat))
    (default 0 (src !! 14%nat)) (default 0 (src !! 15%nat))) (pad A) leading (Z.of_nat g)
  = Some (Some (pad (A ++ drop 12 src), leading, Z.of_nat g + 2)).
Proof.
  intros HA Hg. set (q := quad_text _ _ _ _). cbn [pton6_loop].
  destruct (dec_ok _ (src_byte 12)) as ((vals & Hspan & _ & Hne & _ & Hl & _) & H3 & _).
  assert (exists rest, q = dec (default 0 (src !! 12%nat)) ++ c_dot :: rest) as [rest Eq] by (by eexists).
  rewrite Eq. rewrite (pton6_digits_ok 4 true _ vals) by (try done; try lia; by apply span_10_16). rewrite <- Eq.
  set (number := horner 16 0 vals).
  replace (Z.of_nat g * 2) with (Z.of_nat (length A)) by lia.
  rewrite store_pad_new by (simpl; lia). cbn [mbind option_bind].
  change (cur (c_dot :: rest)) with c_dot. cbn [Z.eqb andb c_dot c_colon Pos.eqb].
  unfold NGROUPS. rewrite (proj2 (Z.ltb_ge _ _)) by lia.
  unfold q. rewrite inet_pton4_quad by apply src_byte. rewrite <- quad_bytes.
  rewrite store_pad; [done|..]; rewrite quad_bytes; simpl; lia.
Qed.

(** Reading the groups from [8 - n] on. *)
Lemma read_tail n : forall fuel A leading g, (0 < n <= 8)%nat -> (n <= fuel)%nat ->
  length A = (2 * g)%nat -> (g + n <= 8)%nat ->
  pton6_loop fuel (tail_text n) (pad A) leading (Z.of_nat g)
  = Some (Some (pad (A ++ drop (2 * (8 - n)) src), leading, Z.of_nat (g + n))).
Proof.
  induction n as [|n IH]; intros fuel A leading g Hn Hf HA Hg; [lia|].
  destruct fuel as [|fuel]; [lia|]. cbn [tail_text].
  destruct ((8 - S n =? 6)%nat && ipv4) eqn:E6.
  { apply andb_true_iff in E6 as [E6%Nat.eqb_eq _]. assert (n = 1%nat) as -> by lia.
    rewrite loop_quad by (done || lia). repeat f_equal. lia. }
  set (i := (8 - S n)%nat). rewrite (group_bytes i) by (unfold i; lia).
  destruct n as [|n].
  - rewrite app_nil_r, group_end by (done || lia). rewrite drop_ge by (rewrite Hlen; unfold i; lia).
    repeat f_equal. lia.
  - rewrite group_colon by (done || lia || (rewrite <- (app_nil_r (tail_text _)); apply tail_head)).
    replace (Z.of_nat g + 1) with (Z.of_nat (S g)) by lia.
    rewrite IH by (rewrite ?length_app; simpl; lia). rewrite <- app_assoc. unfold group_pair. cbn [app].
    replace (8 - S n)%nat with (S i) by (unfold i; lia).
    by replace (S g + S n)%nat with (g + S (S n))%nat by lia.
Qed.

(** ** Putting the address together *)

Lemma pad_zeros A n : (length A + n <= 16)%nat -> pad (A ++ replicate n 0) = pad A.
Proof.
  intros Hl. unfold pad. rewrite <- app_assoc, length_app, length_replicate, <- replicate_add. do 2 f_equal. lia.
Qed.

Lemma finish_ok P T (l m : nat) : length P = (2 * l)%nat -> length T = (2 * m)%nat -> (l + m <= 8)%nat ->
  pton6_finish (Some (pad (P ++ T), Z.of_nat l, Z.of_nat (l + m)))
  = Some (Some (P ++ replicate (16 - 2 * l - 2 * m) 0 ++ T)).
Proof.
  intros HP HT Hl. unfold pton6_finish. rewrite (proj2 (Z.ltb_ge _ _)) by lia.
  unfold copy_bytes. rewrite pad_length by (rewrite length_app; lia).
  rewrite !(proj2 (Z.leb_le _ _)) by lia. cbn [andb].
  replace (Z.to_nat (Z.of_nat l * 2)) with (length P) by lia.
  replace (Z.to_nat ((Z.of_nat (l + m) - Z.of_nat l) * 2)) with (length T) by lia.
  change (Z.to_nat 0) with 0%nat. rewrite drop_0. unfold pad at 1 2. rewrite <- app_assoc.
  rewrite take_app_length, drop_app_length, take_app_length.
  assert (replicate 16 0 = pad []) as -> by done.
  change 0 with (Z.of_nat (length (@nil Z))). rewrite store_pad_new by (simpl; lia). cbn [mbind option_bind app].
  set (n := (16 - 2 * l - 2 * m)%nat).
  replace ((NGROUPS - (Z.of_nat (l + m) - Z.of_nat l)) * 2) with (Z.of_nat (length (P ++ replicate n 0)))
    by (rewrite length_app, length_replicate; unfold NGROUPS, n; lia).
  rewrite <- (pad_zeros P n) by (unfold n; lia).
  rewrite store_pad_new by (rewrite length_app, length_replicate; unfold n; lia). cbn [mbind option_bind].
  unfold pad. rewrite !length_app, length_replicate.
  replace (16 - _)%nat with 0%nat by (unfold n; lia). by rewrite app_nil_r, <- app_assoc.
Qed.

Lemma take_group i : (i < 8)%nat -> take (2 * S i) src = take (2 * i) src ++ group_pair i.
Proof.
  intros Hi. replace (2 * S i)%nat with (2 * i + 2)%nat by lia.
  rewrite <- take_take_drop, group_bytes by done. done.
Qed.

Lemma hex_chars i : address_chars (hex (group_of src i)).
Proof. destruct (hex_ok _ (group_range i)) as (Hn & _). by eapply numeral_chars. Qed.

Lemma tail_chars n : address_chars (tail_text n).
Proof.
  induction n as [|n IH]; [constructor|]. cbn [tail_text]. destruct (_ && _); [apply quad_chars; apply src_byte|].
  apply Forall_app. split; [apply hex_chars|]. destruct n; [constructor|]. constructor; [unfold c_colon; lia|exact IH].
Qed.

(** ** With a run of zero groups *)

Section Run.
  Context (st L : nat) (HL : (1 < L)%nat) (HsL : (st + L <= 8)%nat).
  Context (Hz : forall j, (st <= j < st + L)%nat -> group_of src j = 0).

Lemma run_bytes : drop (2 * st) src = replicate (2 * L) 0 ++ drop (2 * (st + L)) src.
Proof.
  clear HL. revert st HsL Hz. induction L as [|n IH]; intros st HsL Hz; [by rewrite Nat.add_0_r|].
  rewrite group_bytes, (Hz st), (IH (S st)) by (intros; try apply Hz; lia).
  replace (2 * S n)%nat with (S (S (2 * n))) by lia. by replace (S st + n)%nat with (st + S n)%nat by lia.
Qed.

Definition after_text : list Z := tail_text (8 - (st + L)).

(** The groups [st - k .. st - 1], the "::" and the rest. *)
Fixpoint run_text (k : nat) : list Z :=
  match k with
  | O => []
  | S k' => hex (group_of src (st - k)) ++
      match k' with O => c_colon :: c_colon :: after_text | _ => c_colon :: run_text k' end
  end.

Lemma after_cur : (st + L < 8)%nat -> is_hex_digit (cur after_text) = true.
Proof.
  intros Hlt. unfold after_text. destruct (8 - (st + L))%nat as [|n] eqn:E; [lia|].
  rewrite <- (app_nil_r (tail_text _)). apply tail_head.
Qed.

Lemma take_length i : (i <= 8)%nat -> length (take (2 * i) src) = (2 * i)%nat.
Proof. intros. rewrite length_take. lia. Qed.

Lemma zeros4 A : (length A + 4 <= 16)%nat -> pad A = pad (A ++ [0; 0; 0; 0]).
Proof. intros. symmetry. by apply (pad_zeros A 4). Qed.

Definition run_result : list Z * Z * Z :=
  if decide (st + L = 8)%nat then (pad (take (2 * st) src), Z.of_nat st, Z.of_nat st)
  else (pad (take (2 * st) src ++ [0; 0; 0; 0] ++ drop (2 * (st + L)) src), Z.of_nat st,
        Z.of_nat (st + (2 + (8 - (st + L))))).

Lemma read_after fuel : (8 - (st + L) <= fuel)%nat -> (st + L < 8)%nat ->
  pton6_loop fuel after_text (pad (take (2 * st) src)) (Z.of_nat st) (Z.of_nat (st + 2)) = Some (Some run_result).
Proof.
  intros Hf Hlt. rewrite zeros4 by (rewrite take_length by lia; lia). unfold after_text.
  rewrite read_tail by (rewrite ?length_app, ?take_length by lia; simpl; lia).
  unfold run_result. rewrite decide_False by lia. rewrite <- app_assoc.
  replace (8 - (8 - (st + L)))%nat with (st + L)%nat by lia. by rewrite <- Nat.add_assoc.
Qed.

Lemma read_run k : forall fuel, (0 < k <= st)%nat -> (k + (8 - (st + L)) <= fuel)%nat ->
  pton6_loop fuel (run_text k) (pad (take (2 * (st - k)) src)) NGROUPS (Z.of_nat (st - k)) = Some (Some run_result).
Proof.
  induction k as [|k IH]; intros fuel Hk Hf; [lia|]. destruct fuel as [|fuel]; [lia|]. cbn [run_text].
  set (i := (st - S k)%nat).
  assert (take (2 * i) src ++ group_pair i = take (2 * S i) src) as Et by (by rewrite take_group by (unfold i; lia)).
  destruct k as [|k].
  - rewrite group_double by (rewrite ?take_length; unfold i, NGROUPS; lia). rewrite Et.
    replace (S i) with st by (unfold i; lia). replace (Z.of_nat i + 1) with (Z.of_nat st) by (unfold i; lia).
    destruct (decide (st + L = 8)%nat) as [E8|E8].
    + unfold after_text, run_result. rewrite E8, Nat.sub_diag, decide_True by done. cbn [tail_text].
      change (cur [] =? 0) with true. cbn iota. unfold NGROUPS. by rewrite (proj2 (Z.ltb_ge _ _)) by lia.
    + destruct (hex_not_colon after_text) as [_ ->]; [apply after_cur; lia|].
      unfold NGROUPS. rewrite (proj2 (Z.leb_gt _ _)) by lia.
      replace (Z.of_nat st + 2) with (Z.of_nat (st + 2)) by lia. apply read_after; lia.
  - rewrite group_colon.
    + rewrite Et. replace (Z.of_nat i + 1) with (Z.of_nat (st - S k)) by (unfold i; lia).
      replace (S i) with (st - S k)%nat by (unfold i; lia). apply IH; lia.
    + apply take_length. unfold i. lia.
    + unfold i. lia.
    + cbn [run_text]. eapply numeral_head; [|apply hex_ok, group_range]. lia.
    + unfold i. lia.
Qed.

Lemma run_finish : pton6_finish (Some run_result) = Some (Some src).
Proof.
  assert (forall x, x = drop (2 * st) src -> Some (Some (take (2 * st) src ++ x)) = Some (Some src)) as E
    by (intros x ->; by rewrite take_drop).
  unfold run_result. destruct (decide (st + L = 8)%nat) as [E8|E8].
  - pose proof (finish_ok (take (2 * st) src) [] st 0) as HF. rewrite Nat.add_0_r, app_nil_r in HF.
    rewrite HF by (rewrite ?take_length by lia; simpl; lia). apply E. rewrite run_bytes, E8.
    rewrite (drop_ge src) by (rewrite Hlen; lia). do 2 f_equal. lia.
  - rewrite finish_ok.
    + apply E. rewrite run_bytes. change [0; 0; 0; 0] with (replicate 4 0).
      rewrite app_assoc, <- replicate_add. do 2 f_equal. lia.
    + apply take_length. lia.
    + rewrite length_app, length_drop, Hlen. simpl. lia.
    + lia.
Qed.

(** The whole text when the run is printed, and reading it. *)
Definition full_text : list Z :=
  if (st =? 0)%nat then c_colon :: c_colon :: after_text else run_text st.

Lemma full_chars : address_chars full_text.
Proof.
  unfold full_text. assert (H2 : address_chars (c_colon :: c_colon :: after_text)).
  { constructor; [unfold c_colon; lia|]. constructor; [unfold c_colon; lia|]. apply tail_chars. }
  destruct (st =? 0)%nat; [done|]. generalize st at 1. intros k. induction k as [|k IH]; [constructor|]. cbn [run_text].
  apply Forall_app. split; [apply hex_chars|]. destruct k; [done|]. constructor; [unfold c_colon; lia|exact IH].
Qed.

Lemma pton6_run : inet_pton6 full_text = Some (Some src).
Proof.
  unfold full_text, inet_pton6. pose proof run_finish as HF. destruct (Nat.eqb_spec st 0) as [E0|E0].
  - change (cur (c_colon :: c_colon :: after_text)) with c_colon.
    change (drop 1 (c_colon :: c_colon :: after_text)) with (c_colon :: after_text).
    change (cur (c_colon :: after_text)) with c_colon.
    change (drop 2 (c_colon :: c_colon :: after_text)) with (drop 0 after_text). rewrite drop_0, Z.eqb_refl. cbn [andb].
    destruct (decide (st + L = 8)%nat) as [E8|E8].
    + assert (after_text = []) as -> by (unfold after_text; by rewrite E8).
      change (cur [] =? 0) with true. cbn iota. unfold run_result in HF. rewrite E0, decide_True in HF by lia.
      by vm_compute in HF.
    + destruct (hex_not_colon after_text) as [_ ->]; [apply after_cur; lia|].
      pose proof (read_after 9) as HA. rewrite E0 in HA. change (pad (take (2 * 0) src)) with (replicate 16 0) in HA.
      change (Z.of_nat (0 + 2)) with 2 in HA. change (Z.of_nat 0) with 0 in HA. rewrite HA by lia. exact HF.
  - destruct (hex_not_colon (run_text st)) as [-> _].
    { destruct st as [|k]; [done|]. cbn [run_text]. eapply numeral_head; [|apply hex_ok, group_range]. lia. }
    cbn [andb]. pose proof (read_run st 9) as HR. rewrite Nat.sub_diag in HR.
    change (pad (take (2 * 0) src)) with (replicate 16 0) in HR. change (Z.of_nat 0) with 0 in HR.
    rewrite HR by lia. exact HF.
Qed.
End Run.

Lemma pton6_plain : inet_pton6 (tail_text 8) = Some (Some src).
Proof.
  unfold inet_pton6. destruct (hex_not_colon (tail_text 8)) as [-> _].
  { rewrite <- (app_nil_r (tail_text 8)). apply tail_head. }
  cbn [andb]. assert (replicate 16 0 = pad []) as -> by done.
  pose proof (read_tail 8 9 [] NGROUPS 0) as HR. change (Z.of_nat 0) with 0 in HR.
  rewrite HR by (simpl; lia). cbn [mbind option_bind app].
  pose proof (finish_ok src [] 8 0 Hlen) as HF. rewrite app_nil_r in HF. change (drop (2 * (8 - 8)) src) with (drop 0 src).
  rewrite drop_0. unfold NGROUPS. simpl in HF. rewrite app_nil_r in HF. by apply HF.
Qed.

(** ** Printing *)

Lemma print_quad_strip strip : (strip <= 1)%nat ->
  vprintf_body (S (length (drop strip (58 :: fmt_quad)))) C numeric (drop strip (58 :: fmt_quad)) (map ArgInt (drop 12 src))
  = Some (colon strip ++ tail_text 2, true) \/ ipv4 = false.
Proof.
  intros Hs. destruct ipv4 eqn:E4; [left|by right]. rewrite quad_bytes.
  destruct strip as [|[|]]; [| |lia]; cbn [drop].
  - rewrite print_colon_quad by (apply src_byte || (simpl; lia)). cbn [tail_text]. by rewrite E4.
  - rewrite print_quad by (apply src_byte || (simpl; lia)). cbn [tail_text]. by rewrite E4.
Qed.

Section Loop.
  Context (st L : nat).

Definition no_run (i : nat) : Prop := (st < i)%nat \/ (L <= 1)%nat \/ (st = 6%nat /\ ipv4 = true).

Lemma ntop_tail n : forall fuel strip pre rest, (0 < n <= 8)%nat -> (n <= fuel)%nat -> (strip <= 1)%nat ->
  (length pre + length (colon strip) <= 5 * (8 - n))%nat -> (length pre + length rest = 46)%nat -> no_run (8 - n) ->
  exists rest', ntop6_loop C numeric fuel src ipv4 (st, L) (8 - n) strip (pre ++ rest) (Z.of_nat (length pre))
    = Some ((pre ++ colon strip ++ tail_text n) ++ rest', Z.of_nat (length (pre ++ colon strip ++ tail_text n))) /\
    (length (pre ++ colon strip ++ tail_text n) + length rest' = 46)%nat /\ (0 < length rest')%nat.
Proof.
  induction n as [|n IH]; intros fuel strip pre rest Hn Hf Hs Hb Hl Hnr; [lia|].
  destruct fuel as [|fuel]; [lia|]. set (i := (8 - S n)%nat) in *. cbn [ntop6_loop]. cbn [fst snd].
  destruct ((i =? 6)%nat && ipv4) eqn:E6.
  { apply andb_true_iff in E6 as [E6%Nat.eqb_eq E4]. assert (n = 1%nat) as -> by (unfold i in E6; lia).
    destruct (print_quad_strip strip Hs) as [Hp|?]; [|congruence].
    assert (length (colon strip ++ tail_text 2) <= 15 + length (colon strip))%nat as Hq.
    { rewrite length_app. cbn [tail_text]. rewrite E4. cbn [Nat.sub Nat.eqb andb].
      pose proof (quad_length _ _ _ _ (src_byte 12) (src_byte 13) (src_byte 14) (src_byte 15)). lia. }
    destruct (buf_printf_ok pre rest _ _ _ Hp) as (rest' & E & Hr').
    - destruct strip as [|[|]]; [reflexivity|reflexivity|lia].
    - unfold i in Hb. lia.
    - unfold INT_MAX. lia.
    - exists rest'. rewrite E. split; [done|]. rewrite (length_app pre). unfold i in Hb. split; lia. }
  assert ((i =? st)%nat && (1 <? L)%nat = false) as ->.
  { unfold no_run in Hnr. destruct (Nat.eqb_spec i st) as [Ei|], (Nat.ltb_spec 1 L); try done. exfalso.
    destruct Hnr as [?|[?|[Es E4]]]; [lia|lia|]. by rewrite Ei, Es, E4 in E6. }
  assert (tail_text (S n) = hex (group_of src i) ++ match n with O => [] | _ => c_colon :: tail_text n end) as Et.
  { cbn [tail_text]. fold i. by rewrite E6. }
  destruct (hex_ok (group_of src i) (group_range i)) as (_ & H4 & _).
  destruct (buf_printf_ok pre rest _ _ _ (print_group _ strip (group_range i) Hs)) as (rest' & E & Hr').
  { destruct strip as [|[|]]; [reflexivity|reflexivity|lia]. }
  { rewrite length_app. unfold i in *. lia. }
  { unfold INT_MAX. lia. }
  rewrite E. cbn [mbind option_bind]. rewrite Et. rewrite length_app in Hr'. destruct n as [|n].
  - replace (S i) with 8%nat by (unfold i; lia). cbn [Nat.ltb Nat.leb]. rewrite app_nil_r.
    exists rest'. split; [done|]. rewrite !length_app. unfold i in *. lia.
  - rewrite (proj2 (Nat.ltb_lt (S i) 8)) by (unfold i; lia).
    destruct (IH fuel 0%nat (pre ++ colon strip ++ hex (group_of src i)) rest') as (r2 & E2 & Hr2); try lia.
    + rewrite !length_app. simpl. unfold i in *. lia.
    + rewrite !length_app. lia.
    + destruct Hnr as [?|[?|?]]; [left; unfold i in *; lia|by right; left|by right; right].
    + replace (8 - S n)%nat with (S i) in E2 by (unfold i; lia).
      assert ((pre ++ colon strip ++ hex (group_of src i)) ++ colon 0 ++ tail_text (S n)
        = pre ++ colon strip ++ hex (group_of src i) ++ c_colon :: tail_text (S n)) as Htxt by (by rewrite <- !app_assoc).
      rewrite Htxt in E2, Hr2. exists r2. by rewrite E2.
Qed.

Context (HL : (1 < L)%nat) (HsL : (st + L <= 8)%nat) (Hq : ~ (st = 6%nat /\ ipv4 = true)).

(** The result of printing the rest of an address. *)
Definition prints (fuel i strip : nat) (pre rest txt : list Z) : Prop :=
  exists rest', ntop6_loop C numeric fuel src ipv4 (st, L) i strip (pre ++ rest) (Z.of_nat (length pre))
    = Some ((pre ++ txt) ++ rest', Z.of_nat (length (pre ++ txt))) /\
    (length (pre ++ txt) + length rest' = 46)%nat /\ (0 < length rest')%nat.

Lemma ntop_double fuel strip pre rest : (8 - (st + L) < fuel)%nat -> (length pre <= 5 * st)%nat ->
  (length pre + length rest = 46)%nat -> prints fuel st strip pre rest (c_colon :: c_colon :: after_text st L).
Proof.
  intros Hf Hb Hl. destruct fuel as [|fuel]; [lia|]. unfold prints. cbn [ntop6_loop fst snd].
  assert ((st =? 6)%nat && ipv4 = false) as ->.
  { destruct (Nat.eqb_spec st 6), ipv4; try done. by destruct Hq. }
  rewrite Nat.eqb_refl, (proj2 (Nat.ltb_lt 1 L)) by lia. cbn [andb].
  destruct (buf_put_ok pre rest c_colon) as (r1 & E1 & Hr1); [lia|]. rewrite E1. cbn [mbind option_bind].
  destruct (buf_put_ok (pre ++ [c_colon]) r1 c_colon) as (r2 & E2 & Hr2); [lia|]. rewrite E2. cbn [mbind option_bind].
  assert (forall x, ((pre ++ [c_colon]) ++ [c_colon]) ++ x = pre ++ c_colon :: c_colon :: x) as Ha
    by (intros; by rewrite <- !app_assoc).
  destruct (Nat.ltb_spec (st + L) 8) as [Hlt|Hge].
  - destruct (ntop_tail (8 - (st + L)) fuel 1 ((pre ++ [c_colon]) ++ [c_colon]) r2) as (r3 & E3 & Hr3); try lia.
    + rewrite !length_app. simpl. lia.
    + rewrite !length_app. simpl. lia.
    + left. lia.
    + replace (8 - (8 - (st + L)))%nat with (st + L)%nat in E3 by lia. cbn [colon app] in E3, Hr3.
      rewrite (Ha (tail_text _)) in E3, Hr3. exists r3. by rewrite E3.
  - unfold after_text. replace (8 - (st + L))%nat with 0%nat by lia. cbn [tail_text]. exists r2.
    pose proof (Ha []) as Ha'. rewrite app_nil_r in Ha'. rewrite Ha'. split; [done|].
    rewrite length_app in *. simpl in *. lia.
Qed.

Lemma ntop_run k : forall fuel strip pre rest, (0 < k <= st)%nat -> (k + (8 - (st + L)) < fuel)%nat ->
  (strip <= 1)%nat -> (length pre + length (colon strip) <= 5 * (st - k))%nat -> (length pre + length rest = 46)%nat ->
  prints fuel (st - k) strip pre rest (colon strip ++ run_text st L k).
Proof.
  induction k as [|k IH]; intros fuel strip pre rest Hk Hf Hs Hb Hl; [lia|].
  destruct fuel as [|fuel]; [lia|]. set (i := (st - S k)%nat) in *. unfold prints. cbn [ntop6_loop fst snd].
  assert ((i =? 6)%nat && ipv4 = false) as -> by (rewrite (proj2 (Nat.eqb_neq i 6)) by (unfold i; lia); done).
  rewrite (proj2 (Nat.eqb_neq i st)) by (unfold i; lia). cbn [andb].
  destruct (hex_ok (group_of src i) (group_range i)) as (_ & H4 & _).
  destruct (buf_printf_ok pre rest _ _ _ (print_group _ strip (group_range i) Hs)) as (rest' & E & Hr').
  { destruct strip as [|[|]]; [reflexivity|reflexivity|lia]. }
  { rewrite length_app. unfold i in *. lia. }
  { unfold INT_MAX. lia. }
  rewrite E. cbn [mbind option_bind]. rewrite length_app in Hr'.
  rewrite (proj2 (Nat.ltb_lt (S i) 8)) by (unfold i; lia). cbn [run_text]. fold i.
  assert (forall x, (pre ++ colon strip ++ hex (group_of src i)) ++ x = pre ++ colon strip ++ hex (group_of src i) ++ x) as Ha
    by (intros; by rewrite <- !app_assoc).
  destruct k as [|k].
  - replace (S i) with st by (unfold i; lia).
    destruct (ntop_double fuel 0 (pre ++ colon strip ++ hex (group_of src i)) rest') as (r2 & E2 & Hr2);
      [lia|rewrite !length_app; unfold i in *; lia|rewrite !length_app; lia|].
    rewrite (Ha (c_colon :: _)) in E2, Hr2. exists r2. by rewrite E2.
  - destruct (IH fuel 0%nat (pre ++ colon strip ++ hex (group_of src i)) rest') as (r2 & E2 & Hr2);
      [lia|lia|lia|rewrite !length_app; simpl; unfold i in *; lia|rewrite !length_app; lia|].
    replace (st - S k)%nat with (S i) in E2 by (unfold i; lia). cbn [colon app] in E2, Hr2.
    rewrite (Ha (c_colon :: _)) in E2, Hr2. exists r2. by rewrite E2.
Qed.

Lemma ntop_full buf : length buf = 46%nat -> prints 9 0 1 [] buf (full_text st L).
Proof.
  intros Hl. unfold full_text. destruct (Nat.eqb_spec st 0) as [E0|E0].
  - pose proof (ntop_double 9 1 [] buf) as HD. rewrite E0 in HD at 3. apply HD; simpl; lia.
  - pose proof (ntop_run st 9 1 [] buf) as HR. rewrite Nat.sub_diag in HR. apply HR; simpl; lia.
Qed.
End Loop.

(** ** The longest run *)

Lemma find_zeroes_ok : forall gs i cs cl bs bl, (cs + cl = i)%nat -> (bs + bl <= i)%nat ->
  (forall j, (cs <= j < i)%nat -> group_of src j = 0) -> (forall j, (bs <= j < bs + bl)%nat -> group_of src j = 0) ->
  (forall j, (j < length gs)%nat -> gs !! j = Some (group_of src (i + j))) ->
  let '(s, l) := find_zeroes gs i (cs, cl) (bs, bl) in
  (s + l <= i + length gs)%nat /\ forall j, (s <= j < s + l)%nat -> group_of src j = 0.
Proof.
  induction gs as [|g gs IH]; intros i cs cl bs bl Hc Hb Hcz Hbz Hgs; cbn [find_zeroes length].
  { split; [lia|done]. }
  pose proof (Hgs 0%nat ltac:(simpl; lia)) as Hg. simpl in Hg. injection Hg as ->. rewrite Nat.add_0_r.
  assert (forall j, (j < length gs)%nat -> gs !! j = Some (group_of src (S i + j))) as Hgs'.
  { intros j Hj. specialize (Hgs (S j) ltac:(simpl; lia)). simpl in Hgs. by rewrite Hgs, Nat.add_succ_r. }
  replace (i + S (length gs))%nat with (S i + length gs)%nat by lia. cbn [fst snd].
  destruct (Z.eqb_spec (group_of src i) 0) as [E0|E0].
  - assert (forall j, (cs <= j < S i)%nat -> group_of src j = 0) as Hcz'.
    { intros j Hj. destruct (decide (j = i)) as [->|]; [done|]. apply Hcz. lia. }
    destruct (bl <? S cl)%nat; apply IH; try done; try lia. intros j Hj. apply Hcz'. lia.
  - apply IH; try done; try lia; intros j Hj; lia.
Qed.
End Address.

(** ** Printing and reading back *)

Lemma inet6_text buf src : length buf = 46%nat -> length src = 16%nat -> Forall byte src ->
  exists text, (length text <= 45)%nat /\ address_chars text /\
    (forall size, inet_ntop_inet6 C numeric buf src size
      = Some (if size <? Z.of_nat (length text) + 1 then inr ENOSPC else inl text)) /\
    inet_pton6 text = Some (Some src).
Proof.
  intros Hbuf Hlen Hb. unfold inet_ntop_inet6.
  set (ipv4 := IN6_IS_ADDR_V4COMPAT src || IN6_IS_ADDR_V4MAPPED src). cbv zeta.
  pose proof (find_zeroes_ok src Hlen (map (group_of src) (seq 0 8)) 0 0 0 0 0) as HF.
  destruct (find_zeroes _ _ _ _) as [st L].
  destruct HF as [HsL Hz]; try lia.
  { intros j Hj. rewrite length_map, length_seq in Hj. rewrite list_lookup_fmap, lookup_seq_lt by done. done. }
  rewrite length_map, length_seq in HsL. cbn [Nat.add] in HsL.
  assert (exists text, prints src ipv4 st L 9 0 1 [] buf text /\ inet_pton6 text = Some (Some src) /\ address_chars text) as (text & Hp & Hread & Hchars).
  { destruct (decide ((L <= 1)%nat \/ (st = 6%nat /\ ipv4 = true))) as [Hno|Hrun].
    - exists (tail_text src ipv4 8). split; [|split; [by apply pton6_plain|by apply tail_chars]].
      destruct (ntop_tail src Hlen Hb ipv4 st L 8 9 1 [] buf) as (r & E & Hr); simpl; try lia; [by right|].
      exists r. split; [exact E|exact Hr].
    - exists (full_text src ipv4 st L). split; [apply ntop_full; try done; tauto || lia|].
      split; [apply pton6_run; try done; lia|apply full_chars; try done; lia]. }
  destruct Hp as (rest & E & Hl & Hr). cbn [app length] in E, Hl. change (Z.of_nat 0) with 0 in E. rewrite E. cbn [mbind option_bind].
  destruct (buf_put_ok text rest 0 Hr) as (r2 & E2 & Hr2). rewrite E2. cbn [mbind option_bind].
  exists text. split; [lia|]. split; [done|]. split; [|done]. intros size. rewrite length_app. cbn [length].
  replace (Z.of_nat (length text + 1)) with (Z.of_nat (length text) + 1) by lia.
  destruct (size <? Z.of_nat (length text) + 1); [done|]. do 3 f_equal.
  replace (Z.to_nat _) with (length text) by lia. by rewrite <- app_assoc, take_app_length.
Qed.

Lemma string_chars_ok txt rest limit : Forall (fun c => c <> 0) txt -> Z.of_nat (length txt) <= limit ->
  string_chars (txt ++ 0 :: rest) limit = Some txt.
Proof.
  intros Ht. revert limit. induction Ht as [|c txt Hc Ht IH]; intros limit Hl; cbn [app string_chars].
  - by destruct (limit =? 0).
  - cbn [length] in Hl. rewrite (proj2 (Z.eqb_neq limit 0)), (proj2 (Z.eqb_neq c 0)) by (done || lia).
    by rewrite IH by lia.
Qed.

Lemma inet_text buf b0 b1 b2 b3 size : length buf = 16%nat -> byte b0 -> byte b1 -> byte b2 -> byte b3 -> 0 <= size ->
  inet_ntop_inet C numeric buf [b0; b1; b2; b3] size
  = Some (if size <? Z.of_nat (length (quad_text b0 b1 b2 b3)) + 1 then inr ENOSPC else inl (quad_text b0 b1 b2 b3)).
Proof.
  intros Hl H0 H1 H2 H3 Hs. pose proof (quad_length b0 b1 b2 b3 H0 H1 H2 H3) as Hq.
  unfold inet_ntop_inet. pose proof (vsnprintf_l_run C numeric buf 16 fmt_quad (map ArgInt [b0; b1; b2; b3])
    (quad_text b0 b1 b2 b3) true) as Hr. cbv zeta in Hr.
  rewrite take_ge in Hr by (simpl; lia).
  rewrite Hr; [|lia|reflexivity|apply print_quad; simpl; done || lia|unfold INT_MAX; lia].
  cbn [andb Z.ltb Z.compare mbind option_bind].
  rewrite uN_small by (unfold in_unsigned; lia).
  destruct (Z.leb_spec size (Z.of_nat (length (quad_text b0 b1 b2 b3)))).
  - by rewrite (proj2 (Z.ltb_lt _ _)) by lia.
  - rewrite (proj2 (Z.ltb_ge _ _)) by lia. rewrite string_chars_ok; [done| |lia].
    eapply list.Forall_impl; [by apply quad_chars|cbn; lia].
Qed.

Definition addr_length (af : family) : nat := match af with AF_INET => 4 | _ => 16 end.

(** C22: an Internet address of either family is printed by inet_ntop as a text
    that fits INET_ADDRSTRLEN or INET6_ADDRSTRLEN, whatever is in the buffer;
    the call fails with ENOSPC exactly when the caller's buffer cannot hold the
    text and its terminator; and inet_pton reads the text back as the same
    address. *)
Theorem inet_ntop_pton_roundtrip (af : family) (buf src : list Z) :
  af <> AF_OTHER -> length buf = 46%nat -> length src = addr_length af -> Forall byte src ->
  exists text, Z.of_nat (length text) < match af with AF_INET => 16 | _ => 46 end /\
    (forall size, 0 <= size -> inet_ntop C numeric af buf src size
       = Some (if size <? Z.of_nat (length text) + 1 then inr ENOSPC else inl text)) /\
    inet_pton af text = Some (1, None, Some src).
Proof.
  intros Haf Hbuf Hsrc Hb. destruct af; [| |done]; simpl in Hsrc.
  - destruct src as [|b0 [|b1 [|b2 [|b3 [|]]]]]; try done.
    apply list.Forall_cons in Hb as [H0 Hb]. apply list.Forall_cons in Hb as [H1 Hb].
    apply list.Forall_cons in Hb as [H2 Hb]. apply list.Forall_cons in Hb as [H3 _].
    exists (quad_text b0 b1 b2 b3). pose proof (quad_length b0 b1 b2 b3 H0 H1 H2 H3). split; [lia|]. split.
    + intros size Hs. unfold inet_ntop. cbn [take]. apply inet_text; try done. rewrite length_take. lia.
    + unfold inet_pton. by rewrite inet_pton4_quad.
  - destruct (inet6_text buf src Hbuf Hsrc Hb) as (text & Hl & _ & Hp & Hr).
    exists text. split; [lia|]. split; [intros; apply Hp|]. unfold inet_pton. by rewrite Hr.
Qed.
End Text.

Definition doc_address : list Z := [32; 1; 13; 184; 0; 0; 0; 0; 0; 0; 0; 0; 0; 0; 0; 1].

Lemma inet_ntop_pton_roundtrip_witness : exists text,
  inet_ntop ctype_utf_8 (LcNumeric 0 None) AF_INET6 (replicate 46 7) doc_address 46 = Some (inl text) /\
  inet_pton AF_INET6 text = Some (1, None, Some doc_address).
Proof.
  destruct (inet_ntop_pton_roundtrip ctype_utf_8 (LcNumeric 0 None) AF_INET6 (replicate 46 7) doc_address)
    as (text & Hl & Hp & Hr).
  - discriminate.
  - reflexivity.
  - reflexivity.
  - repeat constructor; lia.
  - exists text. split; [|exact Hr]. rewrite (Hp 46) by lia. clear Hp Hr.
    rewrite (proj2 (Z.ltb_ge _ _)) by lia. reflexivity.
Defined.

(** ** The parsers on every string *)

Lemma store_bytes_total addr i bs : Forall byte addr -> Forall byte bs -> 0 <= i ->
  i + Z.of_nat (length bs) <= Z.of_nat (length addr) ->
  exists addr', store_bytes addr i bs = Some addr' /\ length addr' = length addr /\ Forall byte addr'.
Proof.
  intros Ha Hb Hi Hl. unfold store_bytes. rewrite !(proj2 (Z.leb_le _ _)) by lia. cbn [andb].
  eexists. split; [done|]. split.
  - rewrite !length_app, length_take, length_drop. lia.
  - apply Forall_app. split; [by apply Forall_take|]. apply Forall_app. split; [done|by apply Forall_drop].
Qed.

Lemma u8_byte x : byte (u8 x).
Proof. pose proof (uN_range 8 x ltac:(lia)) as Hr. unfold in_unsigned in Hr. unfold byte. lia. Qed.

Lemma pton4_number_byte src b rest : pton4_number src = Some (b, rest) -> byte b.
Proof.
  unfold pton4_number. destruct (cur src =? c_0); [intros [= <- <-]; unfold byte; lia|].
  destruct (between (c_0 + 1) (cur src) c_9) eqn:Eb; [|done].
  unfold between, c_0, c_9 in Eb. zprop.
  assert (forall x y, 0 <= x -> 0 <= (if between c_0 (cur y) c_9 then (u32 (x * 10 + cur y - c_0), drop 1 y) else (x, y)).1) as Hd.
  { intros x y Hx. destruct (between c_0 (cur y) c_9); [|done]. simpl. apply (uN_range 32). lia. }
  pose proof (Hd (cur src - c_0) (drop 1 src) ltac:(unfold c_0; lia)) as H1.
  destruct (if between c_0 (cur (drop 1 src)) c_9 then _ else _) as [n1 s1]. simpl in H1.
  pose proof (Hd n1 s1 H1) as H2. destruct (if between c_0 (cur s1) c_9 then _ else _) as [n2 s2]. simpl in H2.
  destruct (Z.ltb_spec 255 n2); [done|]. intros [= <- <-]. unfold byte. lia.
Qed.

Lemma pton4_groups_ok n src a : pton4_groups n src = Some a -> length a = n /\ Forall byte a.
Proof.
  revert src a. induction n as [|n IH]; intros src a; cbn [pton4_groups]; [intros [= <-]; by split|].
  destruct (pton4_number src) as [[b rest]|] eqn:E; [|done]. cbn [mbind option_bind].
  destruct (negb _); [done|]. destruct (pton4_groups n (drop 1 rest)) as [a'|] eqn:Ea; [|done].
  cbn [mbind option_bind]. intros [= <-]. destruct (IH _ _ Ea) as [<- Hb]. split; [done|].
  constructor; [by eapply pton4_number_byte|done].
Qed.

(** What the loop hands to the final copies. *)
Definition loop_ok (r : option (list Z * Z * Z)) : Prop :=
  match r with
  | None => True
  | Some (addr, leading, groups) => length addr = 16%nat /\ Forall byte addr /\ 0 <= leading /\ 0 <= groups <= 8
  end.

Lemma pton6_loop_total fuel : forall src addr leading groups, length addr = 16%nat -> Forall byte addr ->
  0 <= leading -> 0 <= groups < 8 -> 8 - groups <= Z.of_nat fuel ->
  exists r, pton6_loop fuel src addr leading groups = Some r /\ loop_ok r.
Proof.
  induction fuel as [|fuel IH]; intros src addr leading groups Ha Hb Hl Hg Hf; [lia|]. cbn [pton6_loop].
  destruct (pton6_digits 4 true src 0) as [[number s1]|]; [|by exists None].
  destruct (store_bytes_total addr (groups * 2) [u8 (Z.shiftr number 8); u8 number]) as (a1 & -> & Ha1 & Hb1);
    [done|by repeat constructor; apply u8_byte|lia|simpl; lia|]. cbn [mbind option_bind]. unfold NGROUPS.
  rewrite Ha in Ha1.
  assert (forall s l g, 0 <= l -> groups < g -> exists r,
    (if 8 <=? g then Some None else pton6_loop fuel s a1 l g) = Some r /\ loop_ok r) as Hnext.
  { intros s l g Hl' Hg'. destruct (Z.leb_spec 8 g); [by exists None|]. apply IH; done || lia. }
  destruct ((cur s1 =? c_colon) && (cur (drop 1 s1) =? c_colon)).
  { destruct (Z.ltb_spec leading (groups + 1)); [by exists None|].
    destruct (cur (drop 2 s1) =? 0); [|apply Hnext; lia].
    destruct (Z.ltb_spec (8 - 2) (groups + 1)); [by exists None|]. eexists. split; [done|].
    split_and!; [done..|lia|lia|lia]. }
  destruct (cur s1 =? c_colon); [apply Hnext; lia|].
  destruct (cur s1 =? 0); [eexists; split; [done|]; split_and!; [done..|lia|lia|lia]|].
  destruct (Z.ltb_spec (8 - 2) groups); [by exists None|].
  destruct (inet_pton4 src) as [quad|] eqn:Eq; [|by exists None].
  destruct (pton4_groups_ok 4 src quad Eq) as [Hq Hqb].
  destruct (store_bytes_total a1 (groups * 2) quad) as (a2 & -> & Ha2 & Hb2); [done|done|lia|rewrite Hq; lia|].
  eexists. split; [done|]. split_and!; [congruence|done|lia|lia|lia].
Qed.

Lemma copy_bytes_total dst i addr j n : Forall byte dst -> Forall byte addr -> 0 <= i -> 0 <= j -> 0 <= n ->
  j + n <= Z.of_nat (length addr) -> i + n <= Z.of_nat (length dst) ->
  exists dst', copy_bytes dst i addr j n = Some dst' /\ length dst' = length dst /\ Forall byte dst'.
Proof.
  intros Hd Ha Hi Hj Hn H1 H2. unfold copy_bytes. rewrite !(proj2 (Z.leb_le _ _)) by lia. cbn [andb].
  apply store_bytes_total; [done|by apply Forall_take, Forall_drop|done|]. rewrite length_take, length_drop. lia.
Qed.

Lemma pton6_finish_total r : loop_ok r ->
  exists o, pton6_finish r = Some o /\ forall a, o = Some a -> length a = 16%nat /\ Forall byte a.
Proof.
  destruct r as [[[addr l] g]|]; [|by exists None]. intros (Ha & Hb & Hl & Hg). unfold pton6_finish.
  destruct (Z.ltb_spec g l); [by exists None|].
  destruct (copy_bytes_total (replicate 16 0) 0 addr 0 (l * 2)) as (d1 & -> & Hd1 & Hb1);
    [apply Forall_replicate; unfold byte; lia|done|lia|lia|lia|rewrite Ha; lia|rewrite length_replicate; lia|].
  rewrite length_replicate in Hd1. cbn [mbind option_bind].
  destruct (copy_bytes_total d1 ((NGROUPS - (g - l)) * 2) addr (l * 2) ((g - l) * 2)) as (d2 & -> & Hd2 & Hb2);
    [done|done|unfold NGROUPS; lia|lia|lia|rewrite Ha; lia|rewrite Hd1; unfold NGROUPS; lia|].
  cbn [mbind option_bind]. eexists. split; [done|]. intros a [= <-]. split; [congruence|done].
Qed.

Lemma inet_pton6_total src :
  exists o, inet_pton6 src = Some o /\ forall a, o = Some a -> length a = 16%nat /\ Forall byte a.
Proof.
  unfold inet_pton6. assert (Forall byte (replicate 16 0)) as Hz by (apply Forall_replicate; unfold byte; lia).
  assert (forall s l g, 0 <= l -> 0 <= g < 8 -> exists o,
    (r ← pton6_loop 9 s (replicate 16 0) l g; pton6_finish r) = Some o /\
    forall a, o = Some a -> length a = 16%nat /\ Forall byte a) as Hloop.
  { intros s l g Hl Hg. destruct (pton6_loop_total 9 s (replicate 16 0) l g) as (r & -> & Hr); [done|done|lia|lia|lia|].
    by apply pton6_finish_total. }
  destruct ((cur src =? c_colon) && _); [|apply Hloop; unfold NGROUPS; lia].
  destruct (cur (drop 2 src) =? 0); [|apply Hloop; lia].
  eexists. split; [done|]. intros a [= <-]. split; [done|exact Hz].
Qed.

(** ** inet_aton against arithmetic *)

(** A number below [256 ^ n] at the end, or a byte, a dot and [n - 1]
    more bytes. *)
Fixpoint aton_spec (n : nat) (cp : list Z) : option Z :=
  match n with
  | O => None
  | S n =>
      let '(have_number, have_overflow, v, rest) := strtoint_spec 0 (256 ^ Z.of_nat (S n) - 1) false 0 cp in
      if negb have_number || have_overflow then None
      else if cur rest =? 0 then Some v
      else if (v <=? 255) && (cur rest =? c_dot)
      then low ← aton_spec n (drop 1 rest); Some (v * 256 ^ Z.of_nat n + low)
      else None
  end.

Definition big_endian (v : Z) : list Z :=
  [v / 256 ^ 3 mod 256; v / 256 ^ 2 mod 256; v / 256 mod 256; v mod 256].

Lemma int_ok_uint32 max : 0 <= max <= UINT_MAX -> int_ok int_t_uint32 0 max.
Proof.
  intros Hm. unfold UINT_MAX in Hm. split; simpl; [lia|lia| |done]. intros x Hx. unfold uN. lia.
Qed.

Lemma strtoint_spec_value max s hn ho v rest : 0 <= max -> strtoint_spec 0 max false 0 s = (hn, ho, v, rest) ->
  0 <= v <= max \/ (hn = false \/ ho = true).
Proof.
  intros Hm. unfold strtoint_spec. destruct (split_sign false s) as [neg s1] eqn:Es.
  destruct (split_base 0 s1) as [radix s2]. destruct (_ && _); [|intros [= <- <- <- <-]; auto].
  pose proof (span_digits_range radix s2). destruct (span_digits radix s2) as [ds r].
  set (x := if neg then _ else _). intros [= <- <- <- <-]. unfold saturate.
  destruct ((0 <=? x) && (x <=? max)) eqn:E; [zprop; left; lia|by right; right].
Qed.

Lemma htonl_big_endian v : 0 <= v < 2 ^ 32 -> htonl v = big_endian v.
Proof.
  intros Hv. unfold htonl, big_endian, uN. rewrite !Z.shiftr_div_pow2 by lia. done.
Qed.

(** The loop with [n] bytes to come: [max] is the largest number they
    hold, and the bits of [leading] are above them. *)
Lemma aton_loop_ok n : forall fuel cp K, (0 < n <= 4)%nat -> (n <= fuel)%nat ->
  0 <= K < 256 ^ (4 - Z.of_nat n) ->
  aton_loop fuel cp (256 ^ Z.of_nat n - 1) (K * 256 ^ Z.of_nat n) (8 * (Z.of_nat n - 1))
  = Some (low ← aton_spec n cp; Some (big_endian (K * 256 ^ Z.of_nat n + low))).
Proof.
  induction n as [|n IH]; intros fuel cp K Hl Hf HK; [lia|]. destruct fuel as [|fuel]; [lia|].
  cbn [aton_loop aton_spec].
  assert (n = 0 \/ n = 1 \/ n = 2 \/ n = 3)%nat as Hleft by lia.
  set (P := 256 ^ Z.of_nat (S n)) in *. set (Q := 256 ^ Z.of_nat n).
  assert (P = 256 * Q) as EP by (unfold P, Q; rewrite Nat2Z.inj_succ, Z.pow_succ_r by lia; done).
  assert (Q = 2 ^ (8 * Z.of_nat n)) as EQ by (unfold Q; by rewrite Z.pow_mul_r by lia).
  assert (P = 2 ^ (8 * Z.of_nat (S n))) as EP2 by (unfold P; by rewrite Z.pow_mul_r by lia).
  assert (0 < Q /\ K * P + P <= 2 ^ 32) as [HQ HKP].
  { destruct Hleft as [->|[->|[->| ->]]]; unfold Q, P in *; simpl in *; lia. }
  assert (int_ok int_t_uint32 0 (P - 1)) as Hok by (apply int_ok_uint32; unfold UINT_MAX; nia).
  rewrite (parse_strtoint_ok _ _ _ _ _ _ Hok). cbn [mbind option_bind].
  destruct (strtoint_spec 0 (P - 1) false 0 cp) as [[[hn ho] v] rest] eqn:Es.
  apply strtoint_spec_value in Es as Hv; [|lia].
  destruct (negb hn || ho) eqn:Ebad; [done|]. destruct hn, ho; try done.
  destruct Hv as [Hv|[?|?]]; [|done..].
  destruct (cur rest =? 0).
  { cbn [mbind option_bind]. do 2 f_equal. rewrite lor_disjoint; [apply htonl_big_endian; nia|].
    rewrite EP2. apply land_shifted_low; lia. }
  destruct Hleft as [->|Hleft].
  { rewrite (proj2 (Z.ltb_ge 0 _)) by lia. cbn [andb]. by destruct (_ && _). }
  rewrite (proj2 (Z.ltb_lt 0 _)) by lia. cbn [andb].
  destruct (Z.leb_spec v 255) as [Hv8|]; [|done]. cbn [andb]. destruct (cur rest =? c_dot); [|done].
  replace (8 * (Z.of_nat (S n) - 1)) with (8 * Z.of_nat n) by lia.
  rewrite Z.shiftl_mul_pow2, <- EQ by lia.
  rewrite (uN_small 32) by (unfold in_unsigned; nia).
  assert (Z.lor (K * P) (v * Q) = (K * 256 + v) * Q) as ->.
  { rewrite lor_disjoint; [lia|]. rewrite EP2. apply land_shifted_low; [lia|]. rewrite <- EP2. nia. }
  assert (Z.shiftr (P - 1) 8 = Q - 1) as ->.
  { rewrite Z.shiftr_div_pow2, EP by lia. change (2 ^ 8) with 256. lia. }
  replace (8 * Z.of_nat n - 8) with (8 * (Z.of_nat n - 1)) by lia.
  pose proof (IH fuel (drop 1 rest) (K * 256 + v)) as IH'. fold Q in IH'. rewrite IH'; [|lia|lia|].
  - destruct (aton_spec n (drop 1 rest)) as [low|]; [|done]. cbn [mbind option_bind].
    do 3 f_equal. rewrite EP. lia.
  - replace (4 - Z.of_nat n) with (Z.succ (4 - Z.of_nat (S n))) by lia. rewrite Z.pow_succ_r by lia. lia.
Qed.

(** The address parsers on every string.  inet_pton never leaves the
    arrays it fills nor loops for ever, and a successful call stores 4 or 16
    bytes; inet_aton accepts exactly the forms a, a.b, a.b.c and a.b.c.d of
    numbers in C notation in which all but the last are bytes and the last fits
    the bytes that are left, and stores the address in network byte order. *)
Theorem inet_parsers_total (src : list Z) :
  (forall af, exists ret err a, inet_pton af src = Some (ret, err, a) /\
     (ret = 1 <-> a <> None) /\ (err = Some EAFNOSUPPORT <-> af = AF_OTHER) /\
     (forall addr, a = Some addr -> length addr = addr_length af /\ Forall byte addr)) /\
  inet_aton src = Some (v ← aton_spec 4 src; Some (big_endian v)).
Proof.
  split.
  - intros [| |]; unfold inet_pton.
    + destruct (inet_pton4 src) as [a|] eqn:E; do 3 eexists; (split; [done|]); split_and!; try done.
      intros addr [= <-]. by apply pton4_groups_ok in E.
    + destruct (inet_pton6_total src) as (o & -> & Ho). cbn [mbind option_bind].
      destruct o as [a|]; do 3 eexists; (split; [done|]); split_and!; try done.
    + do 3 eexists. split; [done|]. split_and!; done.
  - unfold inet_aton. pose proof (aton_loop_ok 4 5 src 0) as HA.
    change (256 ^ Z.of_nat 4 - 1) with UINT_MAX in HA. change (8 * (Z.of_nat 4 - 1)) with 24 in HA.
    rewrite Z.mul_0_l in HA. rewrite HA by (simpl; lia).
    by destruct (aton_spec 4 src).
Qed.
