(* ===== verification/WideClass.v ===== *)
(** * Character classes and case mapping

    Sources: src/libc/wctype (wctype_impl.h, isw*.c, tow*.c, their variants for
    a locale, wctype.c, wctrans.c), src/libc/wchar/wcwidth.c and wcswidth.c, and
    src/libc/ctype (ctype_impl.h, is*.c, to*.c and their variants for a locale).

    A class is a sorted table of ranges of code points, searched by bisection.
    Reading outside a table is [None].

    The theorems: the search finds the range that contains a character whenever
    there is one; over all wide characters the classes stand in the relations
    the standards require; the case mappings are idempotent and go from upper to
    lower case and back; and the functions of ctype.h are those of the wide
    classes in the C locale. *)

From stdpp Require Import strings.
From S2P Require Import Prelude Charset StrToInt WideTables.

#[local] Open Scope Z_scope.
#[local] Ltac Zify.zify_post_hook ::= Z.to_euclidean_division_equations.

(** ** The search (wctype_impl.h) *)

(** The loop of the bisection; min and max have type size_t. *)
Fixpoint wcbsearch_loop (fuel : nat) (key : Z) (extents : list Z) (min max : Z) : option Z :=
  match fuel with
  | O => None
  | S fuel =>
      let mid := u64 (min + max + 1) / 2 in
      e ← extents !! Z.to_nat mid;
      let '(min, max) := if key <? e then (min, u64 (mid - 1)) else (mid, max) in
      if min <? max then wcbsearch_loop fuel key extents min max else Some min
  end.

Definition wcbsearch_key (ch : Z) : Z := Z.lor (u32 (Z.shiftl ch 11)) 0x7ff.

(** The index of the range, or -1. *)
Definition wcbsearch (ch : Z) (extents : list Z) : option Z :=
  min ← wcbsearch_loop 64 (wcbsearch_key ch) extents 0 (u64 (Z.of_nat (length extents) - 1));
  e ← extents !! Z.to_nat min;
  Some (if (Z.shiftr e 11 <=? ch) && (ch <=? Z.shiftr e 11 + Z.land e 0x7ff) then min else -1).

Definition iswctype_extents (wc : Z) (extents : list Z) : option bool :=
  i ← wcbsearch wc extents; Some (0 <=? i).

Definition towctrans_extents (wc : Z) (extents deltas : list Z) : option Z :=
  idx ← wcbsearch wc extents;
  if 0 <=? idx then d ← deltas !! Z.to_nat idx; Some (u32 (wc + d)) else Some wc.

Definition valid_in_locale (wc : Z) (C : lc_ctype) : bool :=
  match c32tomb C wc with None => false | Some _ => true end.

(** ** The classes *)

Definition iswalnum (wc : Z) : option bool := iswctype_extents wc iswalnum_extents.
Definition iswgraph (wc : Z) : option bool := iswctype_extents wc iswgraph_extents.
Definition iswlower (wc : Z) : option bool := iswctype_extents wc iswlower_extents.
Definition iswprint (wc : Z) : option bool := iswctype_extents wc iswprint_extents.
Definition iswpunct (wc : Z) : option bool := iswctype_extents wc iswpunct_extents.
Definition iswupper (wc : Z) : option bool := iswctype_extents wc iswupper_extents.

Definition iswalpha (wc : Z) : option bool :=
  if (wc <? 0x30) || (0x39 <? wc) then iswalnum wc else Some false.

Definition iswblank (wc : Z) : option bool :=
  Some ((wc =? 0x9) || (wc =? 0x20) || (wc =? 0x1680) || between 0x2000 wc 0x2006 || between 0x2008 wc 0x200a
        || (wc =? 0x205f) || (wc =? 0x3000)).

Definition iswcntrl (wc : Z) : option bool :=
  Some (between 0x0 wc 0x1f || between 0x7f wc 0x9f || between 0x2028 wc 0x2029).

Definition iswdigit (wc : Z) : option bool := Some (between 0x30 wc 0x39).

Definition iswspace (wc : Z) : option bool := Some (StrToInt.iswspace wc).

Definition iswxdigit (wc : Z) : option bool :=
  Some (between 0x30 wc 0x39 || between 0x41 wc 0x46 || between 0x61 wc 0x66).

Definition towlower (wc : Z) : option Z := towctrans_extents wc towlower_extents towlower_deltas.
Definition towupper (wc : Z) : option Z := towctrans_extents wc towupper_extents towupper_deltas.

(** The variants for a locale, of any class and of either mapping. *)
Definition isw_l (isw : Z -> option bool) (wc : Z) (C : lc_ctype) : option bool :=
  b ← isw wc; Some (b && valid_in_locale wc C).

Definition tow_l (tow : Z -> option Z) (wc : Z) (C : lc_ctype) : option Z :=
  nwc ← tow wc; Some (if valid_in_locale nwc C then nwc else wc).

(** wctype, wctrans, iswctype and towctrans. *)
Definition wctype (property : string) : option (Z -> option bool) :=
  if decide (property = "alnum"%string) then Some iswalnum
  else if decide (property = "alpha"%string) then Some iswalpha
  else if decide (property = "blank"%string) then Some iswblank
  else if decide (property = "cntrl"%string) then Some iswcntrl
  else if decide (property = "digit"%string) then Some iswdigit
  else if decide (property = "graph"%string) then Some iswgraph
  else if decide (property = "lower"%string) then Some iswlower
  else if decide (property = "print"%string) then Some iswprint
  else if decide (property = "punct"%string) then Some iswpunct
  else if decide (property = "space"%string) then Some iswspace
  else if decide (property = "upper"%string) then Some iswupper
  else if decide (property = "xdigit"%string) then Some iswxdigit
  else None.

Definition iswctype (wc : Z) (charclass : option (Z -> option bool)) : option bool :=
  match charclass with Some isw => isw wc | None => Some false end.

Definition wctrans (charclass : string) : option (Z -> option Z) :=
  if decide (charclass = "tolower"%string) then Some towlower
  else if decide (charclass = "toupper"%string) then Some towupper
  else None.

Definition towctrans (wc : Z) (desc : option (Z -> option Z)) : option Z :=
  match desc with Some tow => tow wc | None => Some wc end.

(** ** wcwidth and wcswidth *)

Definition wcwidth (wc : Z) : option Z :=
  let ch := u32 wc in
  min ← wcbsearch_loop 64 (wcbsearch_key ch) wcwidth_extents 0 (u64 (Z.of_nat (length wcwidth_extents) - 1));
  e ← wcwidth_extents !! Z.to_nat min;
  Some (if (Z.shiftr e 11 <=? ch) && (ch <=? Z.shiftr e 11 + Z.land e 0x1ff)
        then Z.land (Z.shiftr e 9) 0x3 else -1).

(** The string is the list of its characters with the terminator; [n] bounds
    the number of characters. *)
Fixpoint wcswidth (pwcs : list Z) (n : nat) (len : Z) : option Z :=
  match n with
  | O => Some len
  | S n =>
      match pwcs with
      | [] => None
      | c :: pwcs =>
          if c =? 0 then Some len
          else l ← wcwidth c; if l =? -1 then Some (-1) else wcswidth pwcs n (len + l)
      end
  end.

(** ** ctype.h *)

Definition UCHAR_MAX : Z := 255.

Definition isctype_l (c : Z) (wctype : Z -> option bool) (C : lc_ctype) : option bool :=
  if (c <? 0) || (UCHAR_MAX <? c) then Some false
  else
    '(r, _) ← mbtoc32 C [c] 1 mbstate_init;
    match r with
    | MbChar len c32 => if len =? 1 then wctype c32 else Some false
    | _ => Some false
    end.

Definition toctrans_l (c : Z) (wctrans : Z -> option Z) (C : lc_ctype) : option Z :=
  if (c <? 0) || (UCHAR_MAX <? c) then Some c
  else
    '(r, _) ← mbtoc32 C [c] 1 mbstate_init;
    match r with
    | MbChar len c32 =>
        if len =? 1 then
          w ← wctrans c32;
          match c32tomb C w with
          | Some [b] => Some b
          | _ => Some c
          end
        else Some c
    | _ => Some c
    end.

Definition isalnum (c : Z) : bool := between 48 c 57 || between 65 c 90 || between 97 c 122.
Definition isalpha (c : Z) : bool := between 65 c 90 || between 97 c 122.
Definition isascii (c : Z) : bool := between 0 c 127.
Definition isblank (c : Z) : bool := (c =? 9) || (c =? 32).
Definition iscntrl (c : Z) : bool := ((0 <=? c) && (c <? 32)) || (c =? 0x7f).
Definition isdigit (c : Z) : bool := between 48 c 57.
Definition isgraph (c : Z) : bool := between 33 c 126.
Definition islower (c : Z) : bool := between 97 c 122.
Definition isprint (c : Z) : bool := between 32 c 126.
Definition ispunct (c : Z) : bool := between 33 c 47 || between 58 c 64 || between 91 c 96 || between 123 c 126.
Definition isspace (c : Z) : bool := between 9 c 13 || (c =? 32).
Definition isupper (c : Z) : bool := between 65 c 90.
Definition isxdigit (c : Z) : bool := between 48 c 57 || between 65 c 70 || between 97 c 102.
Definition tolower (c : Z) : Z := if between 65 c 90 then c - 65 + 97 else c.
Definition toupper (c : Z) : Z := if between 97 c 122 then c - 97 + 65 else c.

(** ** Tables as sets of characters *)

Definition first_of (e : Z) : Z := e / 2 ^ 11.
Definition last_of (bits e : Z) : Z := e / 2 ^ 11 + e mod 2 ^ bits.

(** Ranges in increasing order that do not overlap. *)
Fixpoint increasing (bits prev : Z) (extents : list Z) : bool :=
  match extents with
  | [] => true
  | e :: extents => (prev <? first_of e) && (last_of bits e <? 2 ^ 21) && increasing bits (last_of bits e) extents
  end.

Definition in_range (bits ch e : Z) : bool := between (first_of e) ch (last_of bits e).

(** The reference: a linear search. *)
Definition in_extents (bits ch : Z) (extents : list Z) : bool := existsb (in_range bits ch) extents.

Definition table_ok (bits : Z) (extents : list Z) : bool :=
  increasing bits (-1) extents && (2 <=? Z.of_nat (length extents)) && (Z.of_nat (length extents) <? 2 ^ 32).

Lemma tables_ok :
  table_ok 11 iswalnum_extents && table_ok 11 iswgraph_extents && table_ok 11 iswlower_extents &&
  table_ok 11 iswprint_extents && table_ok 11 iswpunct_extents && table_ok 11 iswupper_extents &&
  table_ok 11 towlower_extents && table_ok 11 towupper_extents && table_ok 9 wcwidth_extents = true.
Proof. vm_compute. reflexivity. Qed.

(** ** The search finds the range *)

Section Search.
  Context (bits : Z) (Hbits : 0 <= bits <= 11) (extents : list Z) (Hok : table_ok bits extents = true).

Lemma increasing_bound prev l i e : increasing bits prev l = true -> l !! i = Some e ->
  prev < first_of e /\ last_of bits e < 2 ^ 21.
Proof.
  revert prev i. induction l as [|x l IH]; intros prev i Hl Hi; [done|]. cbn [increasing] in Hl. zprop.
  destruct i as [|i]; [injection Hi as ->; lia|]. destruct (IH (last_of bits x) i) as [Hx1 Hx2]; [done..|].
  unfold last_of, first_of in *. pose proof (Z.mod_pos_bound x (2 ^ bits) ltac:(lia)). lia.
Qed.

Lemma increasing_apart prev l i j e e' : increasing bits prev l = true -> (i < j)%nat ->
  l !! i = Some e -> l !! j = Some e' -> last_of bits e < first_of e'.
Proof.
  revert prev i j. induction l as [|x l IH]; intros prev i j Hl Hij Hi Hj; [done|]. cbn [increasing] in Hl. zprop.
  destruct j as [|j]; [lia|]. destruct i as [|i].
  - injection Hi as ->. by destruct (increasing_bound (last_of bits e) l j e').
  - by apply (IH (last_of bits x) i j); [|lia|..].
Qed.

(** The key is compared with the first code point of the range. *)
Lemma key_compare ch e : 0 <= ch < 2 ^ 21 -> (wcbsearch_key ch <? e) = (ch <? first_of e).
Proof.
  intros Hch. unfold wcbsearch_key, uN, first_of. rewrite Z.shiftl_mul_pow2, Z.mod_small by lia.
  rewrite lor_disjoint.
  - change 0x7ff with 2047. change (2 ^ 11) with 2048. destruct (Z.ltb_spec ch (e / 2048)); zcases.
  - change 0x7ff with (Z.ones 11). rewrite Z.land_ones by lia. apply Z.mod_mul. lia.
Qed.

Lemma wcbsearch_loop_ok key fuel min max : 0 <= min < max -> max < Z.of_nat (length extents) -> max < 2 ^ 32 ->
  max - min < 2 ^ Z.of_nat fuel ->
  (forall i e, max < Z.of_nat i -> extents !! i = Some e -> key < e) ->
  (min = 0 \/ forall e, extents !! Z.to_nat min = Some e -> e <= key) ->
  exists r, wcbsearch_loop fuel key extents min max = Some r /\ 0 <= r < Z.of_nat (length extents) /\
    (forall i e, r < Z.of_nat i -> extents !! i = Some e -> key < e) /\
    (r = 0 \/ forall e, extents !! Z.to_nat r = Some e -> e <= key).
Proof.
  revert min max. induction fuel as [|fuel IH]; intros min max Hmm Hmax Hsmall Hf Habove Hbelow; [simpl in Hf; lia|].
  cbn [wcbsearch_loop]. rewrite (uN_small 64 (min + max + 1)) by (unfold in_unsigned; lia).
  set (mid := (min + max + 1) / 2). assert (Hmid : min < mid <= max) by (unfold mid; lia).
  destruct (lookup_lt_is_Some_2 extents (Z.to_nat mid)) as [e He]; [lia|]. rewrite He. cbn [mbind option_bind].
  rewrite Nat2Z.inj_succ, Z.pow_succ_r in Hf by lia.
  assert (Hsorted : forall i e', mid < Z.of_nat i -> extents !! i = Some e' -> e < e').
  { intros i e' Hi He'. unfold table_ok in Hok. zprop.
    pose proof (increasing_apart (-1) extents (Z.to_nat mid) i e e' ltac:(done) ltac:(lia) He He') as Ha.
    unfold last_of, first_of in Ha. pose proof (Z.mod_pos_bound e (2 ^ bits) ltac:(lia)).
    change (2 ^ 11) with 2048 in *. lia. }
  destruct (Z.ltb_spec key e) as [Hlt|Hge].
  - rewrite uN_small by (unfold in_unsigned; lia).
    assert (Habove' : forall i e', mid - 1 < Z.of_nat i -> extents !! i = Some e' -> key < e').
    { intros i e' Hi He'. destruct (Z.eq_dec mid (Z.of_nat i)) as [Hm|Hm].
      - rewrite Hm, Nat2Z.id in He. congruence.
      - specialize (Hsorted i e' ltac:(lia) He'). lia. }
    destruct (Z.ltb_spec min (mid - 1)) as [Hc|Hc].
    + apply IH; [lia|lia|lia|unfold mid; lia|done|done].
    + exists min. split; [done|]. split; [lia|]. split; [|done]. intros i e' Hi. apply Habove'. lia.
  - assert (Hbelow' : mid = 0 \/ forall e', extents !! Z.to_nat mid = Some e' -> e' <= key) by (right; intros; congruence).
    destruct (Z.ltb_spec mid max) as [Hc|Hc].
    + apply IH; [lia|lia|lia|unfold mid; lia|done|done].
    + exists mid. split; [done|]. split; [lia|]. split; [|done]. intros i e' Hi. apply Habove. lia.
Qed.

(** The entry at which the search ends contains the character, if any does. *)
Lemma search_ok ch : 0 <= ch < 2 ^ 32 ->
  exists r e, wcbsearch_loop 64 (wcbsearch_key ch) extents 0 (u64 (Z.of_nat (length extents) - 1)) = Some r /\
    0 <= r /\ extents !! Z.to_nat r = Some e /\ 0 <= e < 2 ^ 32 /\ in_range bits ch e = in_extents bits ch extents.
Proof.
  intros Hch. assert (Htab := Hok). unfold table_ok in Htab. zprop.
  rewrite uN_small by (unfold in_unsigned; lia).
  destruct (wcbsearch_loop_ok (wcbsearch_key ch) 64 0 (Z.of_nat (length extents) - 1))
    as (r & -> & Hr & Habove & Hbelow); [lia..| |by left|].
  { intros i e Hi He. apply lookup_lt_Some in He. lia. }
  destruct (lookup_lt_is_Some_2 extents (Z.to_nat r)) as [e He]; [lia|]. exists r, e. split; [done|]. split; [lia|].
  split; [done|]. destruct (increasing_bound (-1) extents (Z.to_nat r) e ltac:(done) He) as [Hb1 Hb2].
  assert (He0 : 0 <= e < 2 ^ 32).
  { unfold last_of, first_of in *. pose proof (Z.mod_pos_bound e (2 ^ bits) ltac:(lia)). change (2 ^ 11) with 2048 in *. lia. }
  split; [done|]. symmetry. destruct (in_range bits ch e) eqn:Ein.
  - apply existsb_exists. exists e. split; [|done]. apply list_elem_of_In. by apply (list_elem_of_lookup_2 _ (Z.to_nat r)).
  - apply not_true_iff_false. intros (x & Hx & Hin)%existsb_exists. apply list_elem_of_In, list_elem_of_lookup_1 in Hx as [i Hi].
    destruct (increasing_bound (-1) extents i x ltac:(done) Hi) as [Hx1 Hx2].
    assert (Hin' := Hin). unfold in_range, between in Hin'. zprop. assert (Hch' : 0 <= ch < 2 ^ 21) by lia.
    assert (Hkx : (wcbsearch_key ch <? x) = false) by (rewrite key_compare by done; zcases).
    destruct (Z.lt_trichotomy (Z.of_nat i) r) as [Hlt|[Heq|Hgt]].
    + destruct Hbelow as [->|Hbelow]; [lia|]. specialize (Hbelow e He).
      assert (Hke : (wcbsearch_key ch <? e) = false) by (zcases). rewrite key_compare in Hke by done. zprop.
      pose proof (increasing_apart (-1) extents i (Z.to_nat r) x e ltac:(done) ltac:(lia) Hi He). lia.
    + rewrite <- Heq, Nat2Z.id in He. congruence.
    + specialize (Habove i x Hgt Hi). zprop. lia.
Qed.

End Search.

(** ** The functions as linear searches *)

Lemma entry_range bits ch e : 0 <= e -> 0 <= bits ->
  (Z.shiftr e 11 <=? ch) && (ch <=? Z.shiftr e 11 + Z.land e (Z.ones bits)) = in_range bits ch e.
Proof. intros He Hb. unfold in_range, between, first_of, last_of. by rewrite Z.shiftr_div_pow2, Z.land_ones by lia. Qed.

Lemma iswctype_extents_ok wc t : table_ok 11 t = true -> 0 <= wc < 2 ^ 32 ->
  iswctype_extents wc t = Some (in_extents 11 wc t).
Proof.
  intros Ht Hwc. unfold iswctype_extents, wcbsearch.
  destruct (search_ok 11 ltac:(lia) t Ht wc Hwc) as (r & e & -> & Hr & He & He0 & Hin). cbn [mbind option_bind].
  rewrite He. cbn [mbind option_bind]. change 0x7ff with (Z.ones 11). rewrite entry_range, Hin by lia.
  destruct (in_extents 11 wc t); f_equal; zcases.
Qed.

(** The reference for the mappings: the delta of the range found. *)
Fixpoint translate (wc : Z) (extents deltas : list Z) : Z :=
  match extents, deltas with
  | e :: extents, d :: deltas => if in_range 11 wc e then u32 (wc + d) else translate wc extents deltas
  | _, _ => wc
  end.

Lemma translate_at wc t ds i e d : t !! i = Some e -> ds !! i = Some d -> in_range 11 wc e = true ->
  (forall j x, (j < i)%nat -> t !! j = Some x -> in_range 11 wc x = false) -> translate wc t ds = u32 (wc + d).
Proof.
  revert t ds. induction i as [|i IH]; intros [|x t] [|y ds] Ht Hd Hin Hj; try done; cbn [translate].
  - injection Ht as ->. injection Hd as ->. by rewrite Hin.
  - rewrite (Hj 0%nat x) by (done || lia). apply IH; [done..|]. intros j z Hji Hz. apply (Hj (S j)); [lia|done].
Qed.

Lemma translate_none wc t ds : in_extents 11 wc t = false -> translate wc t ds = wc.
Proof.
  revert ds. induction t as [|e t IH]; intros [|d ds] Hin; try done. cbn [translate in_extents existsb] in *.
  apply orb_false_iff in Hin as [-> Hin]. by apply IH.
Qed.

Lemma towctrans_extents_ok wc t ds : table_ok 11 t = true -> length ds = length t -> 0 <= wc < 2 ^ 32 ->
  towctrans_extents wc t ds = Some (translate wc t ds).
Proof.
  intros Ht Hl Hwc. unfold towctrans_extents, wcbsearch.
  destruct (search_ok 11 ltac:(lia) t Ht wc Hwc) as (r & e & -> & Hr & He & He0 & Hin). cbn [mbind option_bind].
  rewrite He. cbn [mbind option_bind]. change 0x7ff with (Z.ones 11). rewrite entry_range, Hin by lia.
  destruct (in_extents 11 wc t) eqn:Ein.
  - rewrite (proj2 (Z.leb_le 0 r)) by lia. apply lookup_lt_Some in He as Hlt.
    destruct (lookup_lt_is_Some_2 ds (Z.to_nat r)) as [d Hd]; [lia|]. rewrite Hd. cbn [mbind option_bind].
    f_equal. symmetry. apply (translate_at wc t ds (Z.to_nat r) e d He Hd Hin).
    intros j x Hj Hx. unfold table_ok in Ht. zprop.
    pose proof (increasing_apart 11 ltac:(lia) (-1) t j (Z.to_nat r) x e ltac:(done) Hj Hx He).
    unfold in_range, between in *. zprop. apply andb_false_iff. right. zcases.
  - rewrite (proj2 (Z.leb_gt 0 (-1))) by lia. f_equal. symmetry. by apply translate_none.
Qed.

(** ** Relations between classes

    A class changes only where a range begins or has just ended.  A relation
    between classes that holds at 0 and at these break points holds
    everywhere. *)

Definition stable (bs : list Z) (f : Z -> bool) : Prop :=
  forall b c, b <= c -> Forall (fun x => ~ b < x <= c) bs -> f b = f c.

Definition breaks (bits : Z) (t : list Z) : list Z := t ≫= fun e => [first_of e; last_of bits e + 1].

Lemma break_below (bs : list Z) c : 0 <= c ->
  exists b, b ∈ 0 :: bs /\ 0 <= b <= c /\ Forall (fun x => ~ b < x <= c) bs.
Proof.
  intros Hc. induction bs as [|x bs (b & Hb & Hbc & Hall)].
  - exists 0. split; [by left|]. split; [lia|constructor].
  - destruct (decide (b < x <= c)) as [Hx|Hx].
    + exists x. split; [by right; left|]. split; [lia|]. constructor; [lia|].
      eapply list.Forall_impl; [done|]. simpl. lia.
    + exists b. split; [set_solver|]. split; [lia|]. by constructor.
Qed.

Lemma stable_everywhere bs f : stable bs f -> forallb f (0 :: bs) = true -> forall c, 0 <= c -> f c = true.
Proof.
  intros Hs Hall c Hc. destruct (break_below bs c Hc) as (b & Hb & Hbc & Hno). rewrite <- (Hs b c) by (done || lia).
  rewrite forallb_forall in Hall. by apply Hall, list_elem_of_In.
Qed.

Lemma stable_app bs bs' f : stable bs f -> stable (bs ++ bs') f.
Proof. intros H b c Hbc Hno. apply Forall_app in Hno as [H1 _]. by apply H. Qed.

Lemma stable_app_r bs bs' f : stable bs' f -> stable (bs ++ bs') f.
Proof. intros H b c Hbc Hno. apply Forall_app in Hno as [_ H1]. by apply H. Qed.

Lemma stable_range bs lo hi : lo ∈ bs -> hi + 1 ∈ bs -> stable bs (fun c => between lo c hi).
Proof.
  intros Hlo Hhi b c Hbc Hno. rewrite list.Forall_forall in Hno. pose proof (Hno _ Hlo). pose proof (Hno _ Hhi).
  unfold between. zcases.
Qed.

Lemma stable_extents bits t : stable (breaks bits t) (fun c => in_extents bits c t).
Proof.
  induction t as [|e t IH]; [by intros b c|]. intros b c Hbc Hno. cbn [in_extents existsb]. f_equal.
  - apply (stable_range (breaks bits (e :: t))); [by left|by right; left|done|done].
  - apply IH; [done|]. by apply Forall_cons_1 in Hno as [_ [_ ?]%Forall_cons_1].
Qed.

Lemma stable_2 bs (op : bool -> bool -> bool) f g : stable bs f -> stable bs g -> stable bs (fun c => op (f c) (g c)).
Proof. intros Hf Hg b c Hbc Hno. by rewrite (Hf b c), (Hg b c). Qed.

(** The ranges of a table with their deltas (0 for a class), in chunks with
    bounds, computed once for a check. *)
Definition ranges (bits : Z) (t ds : list Z) : list (Z * Z * Z) :=
  zip_with (fun e d => (first_of e, last_of bits e, d)) t ds.

Fixpoint find_range (c : Z) (rs : list (Z * Z * Z)) : option Z :=
  match rs with
  | [] => None
  | (lo, hi, d) :: rs => if lo <=? c then if c <=? hi then Some d else find_range c rs else find_range c rs
  end.

Definition bounds (rs : list (Z * Z * Z)) : Z * Z :=
  foldr (fun r b => (Z.min r.1.1 b.1, Z.max r.1.2 b.2)) (2 ^ 32, -1) rs.

Fixpoint chunks (fuel : nat) (rs : list (Z * Z * Z)) : list (Z * Z * list (Z * Z * Z)) :=
  match fuel with
  | O => []
  | S fuel => (bounds (take 26 rs), take 26 rs) :: chunks fuel (drop 26 rs)
  end.

Fixpoint find_chunk (c : Z) (cs : list (Z * Z * list (Z * Z * Z))) : option Z :=
  match cs with
  | [] => None
  | (lo, hi, rs) :: cs =>
      if lo <=? c then
        if c <=? hi then match find_range c rs with Some d => Some d | None => find_chunk c cs end
        else find_chunk c cs
      else find_chunk c cs
  end.

Definition mapping (bits : Z) (t ds : list Z) : list (Z * Z * list (Z * Z * Z)) :=
  chunks (S (length t / 26)) (ranges bits t ds).

Definition table (bits : Z) (t : list Z) : list (Z * Z * list (Z * Z * Z)) := mapping bits t (replicate (length t) 0).

Definition in_table (c : Z) (cs : list (Z * Z * list (Z * Z * Z))) : bool :=
  match find_chunk c cs with Some _ => true | None => false end.

Lemma find_range_app c rs rs' :
  find_range c (rs ++ rs') = match find_range c rs with Some d => Some d | None => find_range c rs' end.
Proof. induction rs as [|[[lo hi] d] rs IH]; [done|]. cbn [find_range app]. rewrite IH. by destruct (lo <=? c), (c <=? hi). Qed.

Lemma bounds_ok c rs d : find_range c rs = Some d -> (bounds rs).1 <= c <= (bounds rs).2.
Proof.
  induction rs as [|[[lo hi] d'] rs IH]; [done|]. cbn [find_range bounds foldr fst snd]. fold (bounds rs).
  destruct (Z.leb_spec lo c), (Z.leb_spec c hi); intros Hd; try (specialize (IH Hd)); lia.
Qed.

Lemma chunks_ok c fuel rs : (length rs <= 26 * fuel)%nat -> find_chunk c (chunks fuel rs) = find_range c rs.
Proof.
  revert rs. induction fuel as [|fuel IH]; intros rs Hl; [destruct rs; [done|simpl in Hl; lia]|].
  cbn [chunks]. rewrite <- (take_drop 26 rs) at 4. rewrite find_range_app, <- (IH (drop 26 rs)) by (rewrite length_drop; lia).
  destruct (bounds (take 26 rs)) as [lo hi] eqn:Eb. cbn [find_chunk].
  destruct (find_range c (take 26 rs)) as [d|] eqn:E; [|by destruct (lo <=? c), (c <=? hi)].
  apply bounds_ok in E. rewrite Eb in E. cbn [fst snd] in E. by rewrite !(proj2 (Z.leb_le _ _)) by lia.
Qed.

Lemma mapping_ok bits c t ds : length ds = length t -> find_chunk c (mapping bits t ds) = find_range c (ranges bits t ds).
Proof.
  intros Hl. apply chunks_ok. unfold ranges. rewrite length_zip_with.
  pose proof (Nat.div_mod_eq (length t) 26). pose proof (Nat.mod_upper_bound (length t) 26). lia.
Qed.

Lemma find_range_extents bits c t ds : length ds = length t ->
  in_extents bits c t = match find_range c (ranges bits t ds) with Some _ => true | None => false end.
Proof.
  revert ds. induction t as [|e t IH]; intros [|d ds] Hl; try done.
  cbn [in_extents existsb ranges zip_with find_range]. fold (in_extents bits c t) (ranges bits t ds).
  rewrite (IH ds) by (simpl in Hl; lia). unfold in_range, between. by destruct (first_of e <=? c), (c <=? last_of bits e).
Qed.

Lemma in_table_ok bits c t : in_table c (table bits t) = in_extents bits c t.
Proof.
  unfold in_table, table. rewrite mapping_ok by apply length_replicate.
  by rewrite (find_range_extents bits c t (replicate (length t) 0)) by apply length_replicate.
Qed.

Lemma mapping_translate c t ds : length ds = length t ->
  translate c t ds = match find_chunk c (mapping 11 t ds) with Some d => u32 (c + d) | None => c end.
Proof.
  intros Hl. rewrite mapping_ok by done. revert ds Hl. induction t as [|e t IH]; intros [|d ds] Hl; try done.
  cbn [translate ranges zip_with find_range]. fold (ranges 11 t ds). rewrite (IH ds) by (simpl in Hl; lia).
  unfold in_range, between. by destruct (first_of e <=? c), (c <=? last_of 11 e).
Qed.

(** The constants of the classes that have no table. *)
Definition constant_breaks : list Z :=
  [0; 0x9; 0xa; 0xe; 0x20; 0x21; 0x30; 0x3a; 0x41; 0x47; 0x61; 0x67; 0x7f; 0xa0; 0x1680; 0x1681; 0x2000; 0x2007; 0x2008;
   0x200b; 0x2028; 0x202a; 0x205f; 0x2060; 0x3000; 0x3001; 1].

Definition blank (c : Z) : bool := default false (iswblank c).
Definition cntrl (c : Z) : bool := default false (iswcntrl c).
Definition xdigit (c : Z) : bool := default false (iswxdigit c).

Lemma stable_eqb bs x : x ∈ bs -> x + 1 ∈ bs -> stable bs (fun c => c =? x).
Proof.
  intros H1 H2 b c Hbc Hno. rewrite list.Forall_forall in Hno. pose proof (Hno _ H1). pose proof (Hno _ H2). zcases.
Qed.

#[local] Ltac stable_constants :=
  repeat (apply (stable_2 constant_breaks orb));
  first [apply stable_range|apply stable_eqb]; apply (bool_decide_unpack _); vm_compute; exact I.

Lemma stable_space : stable constant_breaks StrToInt.iswspace.
Proof. unfold StrToInt.iswspace. stable_constants. Qed.

Lemma stable_blank : stable constant_breaks blank.
Proof. unfold blank, iswblank. cbn [default]. stable_constants. Qed.

Lemma stable_cntrl : stable constant_breaks cntrl.
Proof. unfold cntrl, iswcntrl. cbn [default]. stable_constants. Qed.

Lemma stable_xdigit : stable constant_breaks xdigit.
Proof. unfold xdigit, iswxdigit. cbn [default]. stable_constants. Qed.

Lemma stable_digit : stable constant_breaks (fun c => between 0x30 c 0x39).
Proof. stable_constants. Qed.

Lemma forallb_same {A} (f g : A -> bool) l : (forall x, f x = g x) -> forallb f l = forallb g l.
Proof. intros H. induction l as [|x l IH]; [done|]. cbn [forallb]. by rewrite H, IH. Qed.

(** A relation between two tables and a third class [f], which [fast] also
    computes. *)
Lemma class_relation bits t t' bs (f fast : Z -> bool) (op : bool -> bool -> bool -> bool) :
  stable bs f -> (forall c, fast c = f c) ->
  (let p := table bits t in let p' := table 11 t' in
   forallb (fun c => op (in_table c p) (in_table c p') (fast c)) (0 :: (breaks bits t ++ breaks 11 t') ++ bs)) = true ->
  forall c, 0 <= c -> op (in_extents bits c t) (in_extents 11 c t') (f c) = true.
Proof.
  intros Hf Hfast Hall c Hc. revert c Hc. apply (stable_everywhere ((breaks bits t ++ breaks 11 t') ++ bs)).
  - intros b c Hbc Hno. rewrite (stable_app _ _ _ (stable_app _ _ _ (stable_extents bits t)) b c Hbc Hno).
    rewrite (stable_app _ _ _ (stable_app_r (breaks bits t) _ _ (stable_extents 11 t')) b c Hbc Hno).
    by rewrite (stable_app_r _ _ _ Hf b c Hbc Hno).
  - rewrite <- Hall. cbv zeta. apply forallb_same. intros c. by rewrite !in_table_ok, Hfast.
Qed.

(** The checks.  Each is about two tables and a third class. *)
#[local] Ltac class_check H := eapply class_relation; [exact H|done|vm_cast_no_check (eq_refl true)].

Lemma graph_print : forall c, 0 <= c ->
  (fun g p sp => eqb g (p && negb sp)) (in_extents 11 c iswgraph_extents) (in_extents 11 c iswprint_extents)
    (StrToInt.iswspace c) = true.
Proof. class_check stable_space. Qed.

Lemma print_cntrl : forall c, 0 <= c ->
  (fun p a cn => negb (p && cn)) (in_extents 11 c iswprint_extents) (in_extents 11 c iswalnum_extents) (cntrl c) = true.
Proof. class_check stable_cntrl. Qed.

Lemma upper_alnum : forall c, 0 <= c ->
  (fun u a dg => implb u (a && negb dg)) (in_extents 11 c iswupper_extents) (in_extents 11 c iswalnum_extents)
    (between 0x30 c 0x39) = true.
Proof. class_check stable_digit. Qed.

Lemma lower_alnum : forall c, 0 <= c ->
  (fun l a dg => implb l (a && negb dg)) (in_extents 11 c iswlower_extents) (in_extents 11 c iswalnum_extents)
    (between 0x30 c 0x39) = true.
Proof. class_check stable_digit. Qed.

Lemma xdigit_alnum : forall c, 0 <= c ->
  (fun a g x => implb x a && implb a g) (in_extents 11 c iswalnum_extents) (in_extents 11 c iswgraph_extents) (xdigit c) = true.
Proof. class_check stable_xdigit. Qed.

Lemma digit_alnum : forall c, 0 <= c ->
  (fun a g dg => implb dg a) (in_extents 11 c iswalnum_extents) (in_extents 11 c iswupper_extents) (between 0x30 c 0x39) = true.
Proof. class_check stable_digit. Qed.

Lemma blank_space c : implb (blank c) (StrToInt.iswspace c) = true.
Proof.
  unfold blank, iswblank, StrToInt.iswspace, between. cbn [default]. apply implb_true_iff. intros H.
  repeat (apply orb_true_iff in H as [H|H]); rewrite !orb_true_iff; zprop; rewrite ?andb_true_iff, ?Z.eqb_eq, ?Z.leb_le; lia.
Qed.

Lemma width_print : forall c, 0 <= c ->
  (fun w p z => eqb w (p || z)) (in_extents 9 c wcwidth_extents) (in_extents 11 c iswprint_extents) (c =? 0) = true.
Proof.
  apply (class_relation 9 wcwidth_extents iswprint_extents constant_breaks (fun c => c =? 0) (fun c => c =? 0));
    [|done|vm_cast_no_check (eq_refl true)].
  apply stable_eqb; apply (bool_decide_unpack _); vm_compute; exact I.
Qed.

Lemma punct_graph_alnum : forall c, 0 <= c ->
  (fun g a pu => eqb pu (g && negb a)) (in_extents 11 c iswgraph_extents) (in_extents 11 c iswalnum_extents)
    (in_extents 11 c iswpunct_extents) = true.
Proof.
  assert (H : forall p, p = table 11 iswpunct_extents -> forall c, 0 <= c ->
    (fun g a pu => eqb pu (g && negb a)) (in_extents 11 c iswgraph_extents) (in_extents 11 c iswalnum_extents)
    (in_extents 11 c iswpunct_extents) = true); [|by apply (H (table 11 iswpunct_extents))].
  intros p Hp. apply (class_relation 11 iswgraph_extents iswalnum_extents (breaks 11 iswpunct_extents)
    (fun c => in_extents 11 c iswpunct_extents) (fun c => in_table c p) (fun g a pu => eqb pu (g && negb a)));
    [apply stable_extents|intros c; rewrite Hp; apply in_table_ok|].
  rewrite Hp. clear Hp p.
  assert (H : (let p := table 11 iswpunct_extents in let p0 := table 11 iswgraph_extents in let p' := table 11 iswalnum_extents in
   forallb (fun c => eqb (in_table c p) (in_table c p0 && negb (in_table c p')))
     (0 :: (breaks 11 iswgraph_extents ++ breaks 11 iswalnum_extents) ++ breaks 11 iswpunct_extents)) = true) by (vm_cast_no_check (eq_refl true)).
  exact H.
Qed.

(** ** Case mapping *)

Definition chars_of (t : list Z) : list Z := t ≫= fun e => seqZ (first_of e) (last_of 11 e + 1 - first_of e).

Lemma chars_of_ok c t : in_extents 11 c t = true -> c ∈ chars_of t.
Proof.
  intros (e & He & Hc)%existsb_exists. apply list_elem_of_In in He. unfold chars_of. apply list_elem_of_bind.
  exists e. split; [|done]. unfold in_range, between in Hc. zprop. apply elem_of_seqZ. lia.
Qed.

(** What holds of a character [c] that is mapped to another one, by fast
    searches: [l] and [u] are the mappings, [lo] and [up] the classes. *)
Section CaseCheck.
  Context (l u : Z -> Z) (lo up : Z -> bool).

Definition lower_ok (c : Z) : bool :=
  negb (l c =? c) && (l (l c) =? l c) && up c && (lo (l c) || (l c =? 0xdf)) && (l (u (l c)) =? l c) &&
  between 0 (l c) 0x10ffff.

Definition upper_ok (c : Z) : bool :=
  negb (u c =? c) && (u (u c) =? u c) && lo c && up (u c) && (u (l (u c)) =? u c) && between 0 (u c) 0x10ffff.

End CaseCheck.

Definition fast_map (cs : list (Z * Z * list (Z * Z * Z))) (c : Z) : Z :=
  match find_chunk c cs with Some d => u32 (c + d) | None => c end.

Definition lower_of (c : Z) : Z := translate c towlower_extents towlower_deltas.
Definition upper_of (c : Z) : Z := translate c towupper_extents towupper_deltas.
Definition is_lower (c : Z) : bool := in_extents 11 c iswlower_extents.
Definition is_upper (c : Z) : bool := in_extents 11 c iswupper_extents.

Lemma deltas_length : length towlower_deltas = length towlower_extents /\ length towupper_deltas = length towupper_extents.
Proof. by vm_compute. Qed.

Lemma lower_check : forallb (lower_ok lower_of upper_of is_lower is_upper) (chars_of towlower_extents) = true.
Proof.
  assert (H : (let l := mapping 11 towlower_extents towlower_deltas in let u := mapping 11 towupper_extents towupper_deltas in
    let lo := table 11 iswlower_extents in let up := table 11 iswupper_extents in
    forallb (lower_ok (fast_map l) (fast_map u) (fun c => in_table c lo) (fun c => in_table c up))
      (chars_of towlower_extents)) = true) by (vm_cast_no_check (eq_refl true)).
  rewrite <- H. cbv zeta. apply forallb_same. intros c. destruct deltas_length. unfold lower_ok, lower_of, upper_of, is_lower, is_upper.
  unfold fast_map. rewrite !mapping_translate, !in_table_ok by done. done.
Qed.

Lemma upper_check : forallb (upper_ok lower_of upper_of is_lower is_upper) (chars_of towupper_extents) = true.
Proof.
  assert (H : (let l := mapping 11 towlower_extents towlower_deltas in let u := mapping 11 towupper_extents towupper_deltas in
    let lo := table 11 iswlower_extents in let up := table 11 iswupper_extents in
    forallb (upper_ok (fast_map l) (fast_map u) (fun c => in_table c lo) (fun c => in_table c up))
      (chars_of towupper_extents)) = true) by (vm_cast_no_check (eq_refl true)).
  rewrite <- H. cbv zeta. apply forallb_same. intros c. destruct deltas_length. unfold upper_ok, lower_of, upper_of, is_lower, is_upper.
  unfold fast_map. rewrite !mapping_translate, !in_table_ok by done. done.
Qed.

Lemma lower_of_other c : lower_ok lower_of upper_of is_lower is_upper c = true \/ lower_of c = c.
Proof.
  destruct (in_extents 11 c towlower_extents) eqn:E; [left|right; by apply translate_none].
  apply chars_of_ok, list_elem_of_In in E. by apply (proj1 (forallb_forall _ _) lower_check).
Qed.

Lemma upper_of_other c : upper_ok lower_of upper_of is_lower is_upper c = true \/ upper_of c = c.
Proof.
  destruct (in_extents 11 c towupper_extents) eqn:E; [left|right; by apply translate_none].
  apply chars_of_ok, list_elem_of_In in E. by apply (proj1 (forallb_forall _ _) upper_check).
Qed.

(** The functions, table by table; the tables themselves are not unfolded from
    here on. *)
#[local] Opaque iswalnum_extents iswgraph_extents iswlower_extents iswprint_extents iswpunct_extents iswupper_extents
  towlower_extents towupper_extents towlower_deltas towupper_deltas wcwidth_extents table_ok in_extents translate.

Lemma classes_ok wc : 0 <= wc < 2 ^ 32 ->
  iswalnum wc = Some (in_extents 11 wc iswalnum_extents) /\ iswgraph wc = Some (in_extents 11 wc iswgraph_extents) /\
  iswlower wc = Some (is_lower wc) /\ iswprint wc = Some (in_extents 11 wc iswprint_extents) /\
  iswpunct wc = Some (in_extents 11 wc iswpunct_extents) /\ iswupper wc = Some (is_upper wc).
Proof.
  intros Hwc. pose proof tables_ok as Hok. do 3 apply andb_prop in Hok as [Hok _].
  apply andb_prop in Hok as [Hok T6]. apply andb_prop in Hok as [Hok T5]. apply andb_prop in Hok as [Hok T4].
  apply andb_prop in Hok as [Hok T3]. apply andb_prop in Hok as [T1 T2].
  split; [exact (iswctype_extents_ok wc _ T1 Hwc)|]. split; [exact (iswctype_extents_ok wc _ T2 Hwc)|].
  split; [exact (iswctype_extents_ok wc _ T3 Hwc)|]. split; [exact (iswctype_extents_ok wc _ T4 Hwc)|].
  split; [exact (iswctype_extents_ok wc _ T5 Hwc)|]. exact (iswctype_extents_ok wc _ T6 Hwc).
Qed.

Lemma width_table_ok : table_ok 9 wcwidth_extents = true.
Proof. exact (proj2 (andb_prop _ _ tables_ok)). Qed.

Lemma towlower_ok wc : 0 <= wc < 2 ^ 32 -> towlower wc = Some (lower_of wc).
Proof.
  intros Hwc. pose proof tables_ok as Hok. do 2 apply andb_prop in Hok as [Hok _]. apply andb_prop in Hok as [_ Hok].
  exact (towctrans_extents_ok wc _ _ Hok (proj1 deltas_length) Hwc).
Qed.

Lemma towupper_ok wc : 0 <= wc < 2 ^ 32 -> towupper wc = Some (upper_of wc).
Proof.
  intros Hwc. pose proof tables_ok as Hok. apply andb_prop in Hok as [Hok _]. apply andb_prop in Hok as [_ Hok].
  exact (towctrans_extents_ok wc _ _ Hok (proj2 deltas_length) Hwc).
Qed.

#[local] Opaque towlower towupper iswlower iswupper lower_of upper_of is_lower is_upper.

(** ** The theorems *)

Lemma iswalpha_digit wc a : (if (wc <? 0x30) || (0x39 <? wc) then Some a else Some false) =
  Some (a && negb (between 0x30 wc 0x39)).
Proof. unfold between. destruct a; zcases; f_equal. Qed.

Lemma eq_refl_le_0_9 : 0 <= 9. Proof. done. Qed.
Lemma eq_refl_le_9_11 : 9 <= 11. Proof. done. Qed.

Lemma wcwidth_entries : forallb (fun e => Z.land (Z.shiftr e 9) 0x3 <=? 2) wcwidth_extents = true.
Proof. vm_compute. reflexivity. Qed.

Lemma wcwidth_ok wc : 0 <= wc < 2 ^ 32 ->
  exists width, wcwidth wc = Some width /\ -1 <= width <= 2 /\
    (0 <=? width) = in_extents 11 wc iswprint_extents || (wc =? 0).
Proof.
  intros Hwc. assert (Hwc0 : 0 <= wc) by lia. pose proof (width_print wc Hwc0) as Hp. cbv beta in Hp. apply eqb_prop in Hp. rewrite <- Hp.
  clear Hp Hwc0. unfold wcwidth. rewrite uN_small by exact Hwc.
  destruct (search_ok 9 (conj eq_refl_le_0_9 eq_refl_le_9_11) _ width_table_ok wc Hwc) as (r & e & Hs & Hr & He & He0 & Hin).
  rewrite Hs. cbn [mbind option_bind]. rewrite He. cbn [mbind option_bind]. change 0x1ff with (Z.ones 9).
  rewrite entry_range, Hin by (apply He0 || exact eq_refl_le_0_9).
  assert (He2 : (Z.land (Z.shiftr e 9) 0x3 <=? 2) = true).
  { apply (proj1 (forallb_forall _ _) wcwidth_entries), list_elem_of_In. by apply (list_elem_of_lookup_2 _ (Z.to_nat r)). }
  assert (He3 : 0 <= Z.land (Z.shiftr e 9) 0x3) by (apply Z.land_nonneg; right; done). apply Z.leb_le in He2.
  revert He2 He3. generalize (Z.land (Z.shiftr e 9) 0x3) (in_extents 9 wc wcwidth_extents). clear. intros w b H2 H3.
  destruct b; eexists; (split; [reflexivity|]); (split; [lia|]); zcases.
Qed.

(** The classes that the C standard names. *)
Definition class_names : list string :=
  ["alnum"; "alpha"; "blank"; "cntrl"; "digit"; "graph"; "lower"; "print"; "punct"; "space"; "upper"; "xdigit"]%string.

Lemma wctype_unknown name : name ∉ class_names -> wctype name = None.
Proof. intros H. unfold wctype. repeat (rewrite decide_False by (intros ->; apply H; vm_compute; repeat constructor)). done. Qed.

Lemma class_answers wc alnum alpha graph lower print punct upper : iswalnum wc = Some alnum -> iswalpha wc = Some alpha ->
  iswgraph wc = Some graph -> iswlower wc = Some lower -> iswprint wc = Some print -> iswpunct wc = Some punct -> iswupper wc = Some upper ->
  Forall2 (fun name answer => iswctype wc (wctype name) = Some answer) class_names
    [alnum; alpha; blank wc; cntrl wc; between 0x30 wc 0x39; graph; lower; print; punct; StrToInt.iswspace wc; upper; xdigit wc].
Proof.
  intros H1 H2 H3 H4 H5 H6 H7. unfold class_names.
  apply Forall2_cons_2; [exact H1|]. apply Forall2_cons_2; [exact H2|]. apply Forall2_cons_2; [reflexivity|]. apply Forall2_cons_2; [reflexivity|].
  apply Forall2_cons_2; [reflexivity|]. apply Forall2_cons_2; [exact H3|]. apply Forall2_cons_2; [exact H4|]. apply Forall2_cons_2; [exact H5|].
  apply Forall2_cons_2; [exact H6|]. apply Forall2_cons_2; [reflexivity|]. apply Forall2_cons_2; [exact H7|]. apply Forall2_cons_2; [reflexivity|].
  apply Forall2_nil_2.
Qed.

(** C24: the classes of wide characters.  For every wide character the bisection in
    the six tables of ranges stays in the table and finds what a linear search
    finds.  The answers of the twelve functions stand in the relations of
    the standards: alnum is alpha or digit and these are disjoint, upper and
    lower are alpha, xdigit is alnum, alnum is graph, graph is print without
    space, punct is graph without alnum, blank is space, nothing is both print
    and cntrl; and wcwidth is not -1 exactly for printing characters and the
    null character, and then 0, 1 or 2.  wctype has the twelve names of the C
    standard and no other, and iswctype with each gives the answer of the
    function of that name. *)
Theorem wide_classes wc (Hwc : 0 <= wc < 2 ^ 32) :
  Forall (fun t => iswctype_extents wc t = Some (in_extents 11 wc t))
    [iswalnum_extents; iswgraph_extents; iswlower_extents; iswprint_extents; iswpunct_extents; iswupper_extents] /\
  (forall name, name ∉ class_names -> wctype name = None) /\
  exists alnum alpha blank cntrl digit graph lower print punct space upper xdigit width,
    iswalnum wc = Some alnum /\ iswalpha wc = Some alpha /\ iswblank wc = Some blank /\ iswcntrl wc = Some cntrl /\
    iswdigit wc = Some digit /\ iswgraph wc = Some graph /\ iswlower wc = Some lower /\ iswprint wc = Some print /\
    iswpunct wc = Some punct /\ iswspace wc = Some space /\ iswupper wc = Some upper /\ iswxdigit wc = Some xdigit /\
    wcwidth wc = Some width /\
    Forall2 (fun name answer => iswctype wc (wctype name) = Some answer) class_names
      [alnum; alpha; blank; cntrl; digit; graph; lower; print; punct; space; upper; xdigit] /\
    alnum = alpha || digit /\ alpha && digit = false /\ implb upper alpha = true /\ implb lower alpha = true /\
    implb xdigit alnum = true /\ implb alnum graph = true /\ graph = print && negb space /\
    punct = graph && negb alnum /\ implb blank space = true /\ print && cntrl = false /\
    -1 <= width <= 2 /\ (0 <=? width) = print || (wc =? 0).
Proof.
  assert (H0 : 0 <= wc) by apply Hwc. destruct (classes_ok wc Hwc) as (E1 & E2 & E3 & E4 & E5 & E6).
  split; [exact (Forall_cons_2 _ _ _ E1 (Forall_cons_2 _ _ _ E2 (Forall_cons_2 _ _ _ E3 (Forall_cons_2 _ _ _ E4 (Forall_cons_2 _ _ _ E5
    (Forall_cons_2 _ _ _ E6 (Forall_nil_2 _)))))))|]. split; [exact wctype_unknown|].
  assert (Ha : iswalpha wc = Some (in_extents 11 wc iswalnum_extents && negb (between 0x30 wc 0x39))) by (unfold iswalpha; by rewrite E1, iswalpha_digit).
  pose proof (class_answers wc _ _ _ _ _ _ _ E1 Ha E2 E3 E4 E5 E6) as Hnames. clear Ha.
  pose proof (graph_print wc H0) as R1. pose proof (print_cntrl wc H0) as R2. pose proof (upper_alnum wc H0) as R3.
  pose proof (lower_alnum wc H0) as R4. pose proof (xdigit_alnum wc H0) as R5. pose proof (digit_alnum wc H0) as R6.
  pose proof (blank_space wc) as R7. pose proof (punct_graph_alnum wc H0) as R8.
  destruct (wcwidth_ok wc Hwc) as (width & Hwidth & Hw1 & Hw2).
  exists (in_extents 11 wc iswalnum_extents), (in_extents 11 wc iswalnum_extents && negb (between 0x30 wc 0x39)), (blank wc),
    (cntrl wc), (between 0x30 wc 0x39), (in_extents 11 wc iswgraph_extents), (in_extents 11 wc iswlower_extents),
    (in_extents 11 wc iswprint_extents), (in_extents 11 wc iswpunct_extents), (StrToInt.iswspace wc),
    (in_extents 11 wc iswupper_extents), (xdigit wc), width.
  unfold iswalpha. rewrite E1, E2, E3, E4, E5, E6, iswalpha_digit, Hwidth.
  do 13 (split; [reflexivity|]).
  split; [exact Hnames|].
  clear E1 E2 E3 E4 E5 E6 Hwidth Hnames.
  revert R1 R2 R3 R4 R5 R6 R7 R8 Hw2. cbv beta.
  generalize (in_extents 11 wc iswalnum_extents) (blank wc) (cntrl wc) (between 0x30 wc 0x39) (in_extents 11 wc iswgraph_extents)
    (in_extents 11 wc iswlower_extents) (in_extents 11 wc iswprint_extents) (in_extents 11 wc iswpunct_extents)
    (StrToInt.iswspace wc) (in_extents 11 wc iswupper_extents) (xdigit wc).
  intros an bl cn dg gr lo pr pu sp up xd R1%eqb_prop R2 R3 R4 R5 R6 R7 R8%eqb_prop Hw2.
  apply andb_true_iff in R5 as [R5 R5'].
  split; [by destruct an, dg|]. split; [by destruct an, dg|]. do 4 (split; [done|]). split; [done|]. split; [done|].
  split; [done|]. split; [by destruct pr, cn|]. done.
Qed.

(** the case mappings of wide characters.  For every wide character towlower
    and towupper find their answer inside their tables and are idempotent.  A
    character that towlower changes is upper case and its image is lower case
    (or U+00DF); one that towupper changes is lower case and its image upper
    case; and mapping such an image to the other case and back gives the image
    again. *)
Theorem case_mapping wc (Hwc : 0 <= wc < 2 ^ 32) :
  exists l u, towlower wc = Some l /\ towupper wc = Some u /\ towlower l = Some l /\ towupper u = Some u /\
    (l <> wc -> iswupper wc = Some true /\ (iswlower l = Some true \/ l = 0xdf) /\
       (v ← towupper l; towlower v) = Some l) /\
    (u <> wc -> iswlower wc = Some true /\ iswupper u = Some true /\ (v ← towlower u; towupper v) = Some u).
Proof.
  pose proof towlower_ok as Hl. pose proof towupper_ok as Hu.
  assert (Hil : forall c, 0 <= c < 2 ^ 32 -> iswlower c = Some (is_lower c)) by (intros; by apply classes_ok).
  assert (Hiu : forall c, 0 <= c < 2 ^ 32 -> iswupper c = Some (is_upper c)) by (intros; by apply classes_ok).
  assert (Hrl : forall c, 0 <= c < 2 ^ 32 -> 0 <= lower_of c < 2 ^ 32).
  { intros c Hc. destruct (lower_of_other c) as [H| ->]; [|done]. unfold lower_ok, between in H. zprop. lia. }
  assert (Hru : forall c, 0 <= c < 2 ^ 32 -> 0 <= upper_of c < 2 ^ 32).
  { intros c Hc. destruct (upper_of_other c) as [H| ->]; [|done]. unfold upper_ok, between in H. zprop. lia. }
  pose proof (Hrl wc Hwc) as Hlw. pose proof (Hru wc Hwc) as Huw.
  exists (lower_of wc), (upper_of wc). rewrite (Hl wc Hwc), (Hu wc Hwc), (Hl _ Hlw), (Hu _ Huw), (Hil wc Hwc), (Hiu wc Hwc).
  rewrite (Hil _ Hlw), (Hiu _ Huw), (Hu _ Hlw), (Hl _ Huw). cbn [mbind option_bind].
  rewrite (Hl _ (Hru _ Hlw)), (Hu _ (Hrl _ Huw)). do 2 (split; [reflexivity|]).
  split; [|split; [|split]].
  - destruct (lower_of_other wc) as [H|H]; [unfold lower_ok in H; zprop; congruence|by rewrite !H].
  - destruct (upper_of_other wc) as [H|H]; [unfold upper_ok in H; zprop; congruence|by rewrite !H].
  - intros Hne. destruct (lower_of_other wc) as [H|H]; [|done]. unfold lower_ok in H. zprop. split; [congruence|]. split; [|congruence].
    match goal with H : _ || _ = true |- _ => apply orb_true_iff in H as [H|H] end; [left; congruence|right; by apply Z.eqb_eq].
  - intros Hne. destruct (upper_of_other wc) as [H|H]; [|done]. unfold upper_ok in H. zprop. repeat split; congruence.
Qed.

(** U+00DF is the lower case of U+1E9E but not classified as lower case. *)
Lemma sharp_s_not_lower : towlower 0x1e9e = Some 0xdf /\ iswlower 0xdf = Some false.
Proof. by vm_compute. Qed.

#[local] Transparent towlower towupper iswlower iswupper.

(** One class, respectively one mapping, of ctype.h. *)
Lemma isctype_c_locale (isw : Z -> option bool) (narrow : Z -> bool) :
  Zforall 256 (fun c => bool_decide (isctype_l c isw ctype_us_ascii = Some (narrow c))) = true ->
  (forall c, c < 0 \/ 255 < c -> narrow c = false) -> forall c, isctype_l c isw ctype_us_ascii = Some (narrow c).
Proof.
  intros H Hout c. destruct (decide (0 <= c < 256)) as [Hc|Hc].
  - pose proof (Zforall_spec _ _ H c Hc) as Hb. by apply bool_decide_eq_true in Hb.
  - unfold isctype_l, UCHAR_MAX. rewrite Hout by lia. by rewrite (proj2 (orb_true_iff _ _)) by (rewrite !Z.ltb_lt; lia).
Qed.

Lemma toctrans_c_locale (tow : Z -> option Z) (to : Z -> Z) :
  Zforall 256 (fun c => bool_decide (toctrans_l c tow ctype_us_ascii = Some (to c))) = true ->
  (forall c, c < 0 \/ 255 < c -> to c = c) -> forall c, toctrans_l c tow ctype_us_ascii = Some (to c).
Proof.
  intros H Hout c. destruct (decide (0 <= c < 256)) as [Hc|Hc].
  - pose proof (Zforall_spec _ _ H c Hc) as Hb. by apply bool_decide_eq_true in Hb.
  - unfold toctrans_l, UCHAR_MAX. rewrite Hout by lia. by rewrite (proj2 (orb_true_iff _ _)) by (rewrite !Z.ltb_lt; lia).
Qed.

#[local] Ltac agree L wide narrow :=
  apply (L wide narrow); [vm_cast_no_check (eq_refl true)|];
  let x := fresh in let Hx := fresh in intros x Hx; unfold narrow, between; zcases.

(** the functions of ctype.h are those of the wide classes in the C locale:
    for every int they give what the variants for a locale give with the
    US-ASCII character set. *)
Theorem ctype_c_locale c :
  isctype_l c iswalnum ctype_us_ascii = Some (isalnum c) /\ isctype_l c iswalpha ctype_us_ascii = Some (isalpha c) /\
  isctype_l c iswblank ctype_us_ascii = Some (isblank c) /\ isctype_l c iswcntrl ctype_us_ascii = Some (iscntrl c) /\
  isctype_l c iswdigit ctype_us_ascii = Some (isdigit c) /\ isctype_l c iswgraph ctype_us_ascii = Some (isgraph c) /\
  isctype_l c iswlower ctype_us_ascii = Some (islower c) /\ isctype_l c iswprint ctype_us_ascii = Some (isprint c) /\
  isctype_l c iswpunct ctype_us_ascii = Some (ispunct c) /\ isctype_l c iswspace ctype_us_ascii = Some (isspace c) /\
  isctype_l c iswupper ctype_us_ascii = Some (isupper c) /\ isctype_l c iswxdigit ctype_us_ascii = Some (isxdigit c) /\
  toctrans_l c towlower ctype_us_ascii = Some (tolower c) /\ toctrans_l c towupper ctype_us_ascii = Some (toupper c).
Proof.
  split; [agree isctype_c_locale iswalnum isalnum|]. split; [agree isctype_c_locale iswalpha isalpha|].
  split; [agree isctype_c_locale iswblank isblank|]. split; [agree isctype_c_locale iswcntrl iscntrl|].
  split; [agree isctype_c_locale iswdigit isdigit|]. split; [agree isctype_c_locale iswgraph isgraph|].
  split; [agree isctype_c_locale iswlower islower|]. split; [agree isctype_c_locale iswprint isprint|].
  split; [agree isctype_c_locale iswpunct ispunct|]. split; [agree isctype_c_locale iswspace isspace|].
  split; [agree isctype_c_locale iswupper isupper|]. split; [agree isctype_c_locale iswxdigit isxdigit|].
  split; [agree toctrans_c_locale towlower tolower|]. agree toctrans_c_locale towupper toupper.
Qed.

(** ** Witnesses: U+0041 and U+00C9 *)

Lemma wide_classes_witness : exists alnum alpha digit,
  iswalnum 0x41 = Some alnum /\ iswalpha 0x41 = Some alpha /\ iswdigit 0x41 = Some digit /\ alnum = alpha || digit.
Proof.
  assert (Hwc : 0 <= 0x41 < 2 ^ 32) by lia.
  destruct (wide_classes 0x41 Hwc)
    as (_ & _ & alnum & alpha & ? & ? & digit & ? & ? & ? & ? & ? & ? & ? & ? & H1 & H2 & _ & _ & H3 & _ & _ & _ & _ & _ & _ & _ & _ & _ & H4 & _).
  exists alnum, alpha, digit. exact (conj H1 (conj H2 (conj H3 H4))).
Defined.

Lemma case_mapping_witness : exists l u,
  towlower 0xc9 = Some l /\ towupper 0xc9 = Some u /\ towlower l = Some l /\ towupper u = Some u.
Proof.
  assert (Hwc : 0 <= 0xc9 < 2 ^ 32) by lia. destruct (case_mapping 0xc9 Hwc) as (l & u & H1 & H2 & H3 & H4 & _).
  exists l, u. exact (conj H1 (conj H2 (conj H3 H4))).
Defined.
