(* ===== verification/Strftime.v ===== *)
(** * Formatting dates: strftime

    Sources: src/common/strftime.h (narrow characters), src/libc/time/strftime_l.c
    and the POSIX time locale of src/libc/locale/time/posix.c.

    The format is the list of its characters with the terminator; reading behind
    the terminator is undefined ([None]), and so is an int computation that
    overflows.  A conversion is the list of the characters it passes to PUTCHAR,
    which stores them one at a time.

    The theorems: what is stored is what an unlimited buffer would receive, or
    the function returns 0 and stays inside the buffer; and the week-based year
    and week are those of ISO 8601. *)

From stdpp Require Import strings.
From S2P Require Import Prelude CalendarTime Charset StrToInt.

#[local] Open Scope Z_scope.
#[local] Ltac Zify.zify_post_hook ::= Z.to_euclidean_division_equations.

(** ** Data *)

(** The characters of a literal. *)
Fixpoint text (s : string) : list Z :=
  match s with
  | EmptyString => []
  | String a s => Z.of_nat (Ascii.nat_of_ascii a) :: text s
  end.

(** [struct lc_time], without the fields for eras, which nothing reads.  Wide
    strings are without their terminator. *)
Record lc_time := LcTime {
  d_t_fmt : list Z; d_fmt : list Z; t_fmt : list Z; t_fmt_ampm : list Z;
  am_str : list Z; pm_str : list Z;
  day : list (list Z); abday : list (list Z); mon : list (list Z); abmon : list (list Z)
}.

Definition time_posix : lc_time := {|
  d_t_fmt := text "%a %b %e %H:%M:%S %Y";
  d_fmt := text "%m/%d/%y";
  t_fmt := text "%H:%M:%S";
  t_fmt_ampm := text "%I:%M:%S %p";
  am_str := text "AM";
  pm_str := text "PM";
  day := [text "Sunday"; text "Monday"; text "Tuesday"; text "Wednesday"; text "Thursday"; text "Friday";
          text "Saturday"];
  abday := [text "Sun"; text "Mon"; text "Tue"; text "Wed"; text "Thu"; text "Fri"; text "Sat"];
  mon := [text "January"; text "February"; text "March"; text "April"; text "May"; text "June"; text "July";
          text "August"; text "September"; text "October"; text "November"; text "December"];
  abmon := [text "Jan"; text "Feb"; text "Mar"; text "Apr"; text "May"; text "Jun"; text "Jul"; text "Aug";
            text "Sep"; text "Oct"; text "Nov"; text "Dec"]
|}.

(** An int computation. *)
Definition as_int (z : Z) : option Z := if (INT_MIN <=? z) && (z <=? INT_MAX) then Some z else None.

(** ** ISO 8601 weeks *)

Definition iso_8601_yday (yday wday : Z) : option Z :=
  d ← as_int (yday - wday); d ← as_int (d + 4);
  let firstthursday := Z.rem d 7 in
  let firstthursday := if firstthursday <? 0 then firstthursday + 7 else firstthursday in
  d ← as_int (yday - firstthursday); as_int (d + 3).

Definition iso_8601_week (t : tm) : option Z :=
  yday ← iso_8601_yday (tm_yday t) (tm_wday t);
  yday ←
    (if yday <? 0 then
       prev ← as_int (tm_year t - 1);
       d ← as_int (tm_yday t + get_ydays prev); iso_8601_yday d (tm_wday t)
     else
       d ← as_int (tm_yday t - get_ydays (tm_year t));
       nextyday ← iso_8601_yday d (tm_wday t);
       Some (if 0 <=? nextyday then nextyday else yday));
  Some (Z.quot yday 7 + 1).

Definition iso_8601_year (t : tm) : option Z :=
  yday ← iso_8601_yday (tm_yday t) (tm_wday t);
  if yday <? 0 then as_int (tm_year t - 1)
  else
    d ← as_int (tm_yday t - get_ydays (tm_year t));
    nextyday ← iso_8601_yday d (tm_wday t);
    if 0 <=? nextyday then as_int (tm_year t + 1) else Some (tm_year t).

(** ** Reading the format

    FORMAT_PEEK and FORMAT_NEXT read the subformat as long as there is one. *)

Definition FORMAT_PEEK (subformat format : list Z) : option Z :=
  match subformat with c :: _ => Some c | [] => head format end.

Definition FORMAT_NEXT (subformat format : list Z) : option (Z * list Z * list Z) :=
  match subformat with
  | c :: subformat => Some (c, subformat, format)
  | [] => match format with c :: format => Some (c, [], format) | [] => None end
  end.

(** The flags 0 and +. *)
Fixpoint parse_flags (fuel : nat) (left_padding : Z) (plus : bool) (subformat format : list Z)
    : option (Z * bool * list Z * list Z) :=
  match fuel with
  | O => None
  | S fuel =>
      c ← FORMAT_PEEK subformat format;
      if c =? 48 then
        '(_, subformat, format) ← FORMAT_NEXT subformat format; parse_flags fuel 48 plus subformat format
      else if c =? 43 then
        '(_, subformat, format) ← FORMAT_NEXT subformat format; parse_flags fuel left_padding true subformat format
      else Some (left_padding, plus, subformat, format)
  end.

(** The digits of the minimum field width, a size_t. *)
Fixpoint parse_width_digits (fuel : nat) (field_width : Z) (subformat format : list Z)
    : option (Z * list Z * list Z) :=
  match fuel with
  | O => None
  | S fuel =>
      c ← FORMAT_PEEK subformat format;
      if between 48 c 57 then
        '(c, subformat, format) ← FORMAT_NEXT subformat format;
        parse_width_digits fuel (u64 (field_width * 10 + c - 48)) subformat format
      else Some (field_width, subformat, format)
  end.

Definition parse_width (subformat format : list Z) : option (Z * list Z * list Z) :=
  c ← FORMAT_PEEK subformat format;
  if between 49 c 57 then parse_width_digits (S (length subformat + length format)) 0 subformat format
  else Some (0, subformat, format).

(** The E and O modifiers. *)
Definition parse_modifier (subformat format : list Z) : option (list Z * list Z) :=
  c ← FORMAT_PEEK subformat format;
  if (c =? 69) || (c =? 79) then
    '(_, subformat, format) ← FORMAT_NEXT subformat format; Some (subformat, format)
  else Some (subformat, format).

(** ** The conversion specifiers *)

(** The variables the switch statement sets. *)
Record conversion := Conversion {
  cv_string : option (list Z); cv_wstring : option (list Z);
  cv_number : Z; cv_precision : Z; cv_padding : Z; cv_sign : Z
}.

Definition no_conversion : conversion := Conversion None None 0 1 48 0.
Definition string_conversion (s : option (list Z)) : conversion := Conversion s None 0 1 48 0.
Definition wstring_conversion (s : option (list Z)) : conversion := Conversion None s 0 1 48 0.
Definition number_conversion (number precision : Z) : conversion := Conversion None None number precision 48 0.

(** How the switch statement is left: by break, by continue with a new
    subformat, at %F by the jump to year_number with one, at %f (which prints
    by itself), or by continue. *)
Inductive directive :=
  | Print (c : conversion)
  | Subformat (s : list Z)
  | FullDate
  | Nanoseconds
  | Nothing.

Definition year_number (t : tm) : conversion := number_conversion (tm_year t + 1900) 4.

(** The names of days and months: none when the index is out of range. *)
Definition name_of (names : list (list Z)) (i count : Z) : option (list Z) :=
  if (0 <=? i) && (i <? count) then names !! Z.to_nat i else None.

Definition specifier (lc : lc_time) (t : tm) (c : Z) : option directive :=
  match c with
  | 97 (* a *) => Some (Print (wstring_conversion (name_of (abday lc) (tm_wday t) 7)))
  | 65 (* A *) => Some (Print (wstring_conversion (name_of (day lc) (tm_wday t) 7)))
  | 98 (* b *) | 104 (* h *) => Some (Print (wstring_conversion (name_of (abmon lc) (tm_mon t) 12)))
  | 66 (* B *) => Some (Print (wstring_conversion (name_of (mon lc) (tm_mon t) 12)))
  | 99 (* c *) => Some (Subformat (d_t_fmt lc))
  | 67 (* C *) =>
      let number := tm_year t + 1900 in
      Some (Print (Conversion None None (Z.quot number 100) 2 48 (if number <? 0 then 45 else 0)))
  | 100 (* d *) =>
      Some (Print (number_conversion (if tm_mday t <? 1 then 1 else if tm_mday t <=? 31 then tm_mday t else 31) 2))
  | 68 (* D *) => Some (Subformat (text "%m/%d/%y"))
  | 101 (* e *) =>
      Some (Print (Conversion None None
        (if tm_mday t <? 1 then 1 else if tm_mday t <=? 31 then tm_mday t else 31) 2 32 0))
  | 102 (* f *) => Some Nanoseconds
  | 70 (* F *) => Some FullDate
  | 103 (* g *) =>
      year ← iso_8601_year t; n ← as_int (year + 1900);
      let n := Z.rem n 100 in
      Some (Print (number_conversion (if n <? 0 then - n else n) 2))
  | 71 (* G *) => year ← iso_8601_year t; Some (Print (number_conversion (year + 1900) 4))
  | 72 (* H *) =>
      Some (Print (number_conversion (if tm_hour t <? 0 then 0 else if tm_hour t <=? 23 then tm_hour t else 23) 2))
  | 73 (* I *) =>
      Some (Print (number_conversion
        (if tm_hour t <=? 0 then 12 else if tm_hour t <=? 12 then tm_hour t
         else if tm_hour t <=? 23 then tm_hour t - 12 else 11) 2))
  | 106 (* j *) =>
      Some (Print (number_conversion (if tm_yday t <? 0 then 1 else if tm_yday t <=? 365 then tm_yday t + 1 else 366) 3))
  | 109 (* m *) =>
      Some (Print (number_conversion (if tm_mon t <? 0 then 1 else if tm_mon t <=? 11 then tm_mon t + 1 else 12) 2))
  | 77 (* M *) =>
      Some (Print (number_conversion (if tm_min t <? 0 then 0 else if tm_min t <=? 59 then tm_min t else 59) 2))
  | 110 (* n *) => Some (Print (string_conversion (Some [10])))
  | 112 (* p *) => Some (Print (wstring_conversion (Some (if tm_hour t <? 12 then am_str lc else pm_str lc))))
  | 114 (* r *) => Some (Subformat (t_fmt_ampm lc))
  | 82 (* R *) => Some (Subformat (text "%H:%M"))
  | 83 (* S *) =>
      Some (Print (number_conversion (if tm_sec t <? 0 then 0 else if tm_sec t <=? 60 then tm_sec t else 60) 2))
  | 116 (* t *) => Some (Print (string_conversion (Some [9])))
  | 84 (* T *) => Some (Subformat (text "%H:%M:%S"))
  | 117 (* u *) =>
      Some (Print (number_conversion (if (tm_wday t <? 1) || (6 <? tm_wday t) then 7 else tm_wday t) 1))
  | 85 (* U *) =>
      d ← as_int (tm_yday t - tm_wday t); d ← as_int (d + 7);
      Some (Print (number_conversion (Z.quot d 7) 2))
  | 86 (* V *) => week ← iso_8601_week t; Some (Print (number_conversion week 2))
  | 87 (* W *) =>
      w ← as_int (tm_wday t + 6); d ← as_int (tm_yday t - Z.rem w 7); d ← as_int (d + 7);
      Some (Print (number_conversion (Z.quot d 7) 2))
  | 119 (* w *) =>
      Some (Print (number_conversion (if (tm_wday t <? 1) || (6 <? tm_wday t) then 0 else tm_wday t) 1))
  | 120 (* x *) => Some (Subformat (d_fmt lc))
  | 88 (* X *) => Some (Subformat (t_fmt lc))
  | 121 (* y *) =>
      let number := Z.rem (tm_year t + 1900) 100 in
      Some (Print (number_conversion (if number <? 0 then - number else number) 2))
  | 89 (* Y *) => Some (Print (year_number t))
  | 122 (* z *) =>
      if tm_isdst t <? 0 then Some Nothing
      else
        let minutes := Z.quot (tm_gmtoff t) 60 in
        Some (Print (Conversion None None (Z.quot minutes 60 * 100 + Z.rem minutes 60) 4 48 43))
  | 90 (* Z *) => Some (Print (string_conversion (text <$> tm_zone t)))
  | 37 (* % *) => Some (Print (string_conversion (Some [37])))
  | _ => Some (Print no_conversion)
  end.

(** ** Printing a conversion *)

(** %f: the digits of the nanoseconds up to the last one that is not zero; one
    turn of the loop per decimal. *)
Fixpoint nanosecond_digits (decimals : nat) (value digit : Z) : list Z :=
  match decimals with
  | O => []
  | S decimals =>
      let digit := digit / 10 in
      (value / digit) mod 10 + 48 ::
        (if value mod digit =? 0 then [] else nanosecond_digits decimals value digit)
  end.

Definition print_nanoseconds (t : tm) (field_width left_padding : Z) : list Z :=
  let ds := nanosecond_digits 9 (u64 (tm_nsec t)) 1000000000 in
  ds ++ replicate (Z.to_nat (field_width - Z.of_nat (length ds))) left_padding.

(** Characters of a wide string, with ? for those that have no encoding. *)
Definition put_wide (C : lc_ctype) (c : Z) : list Z :=
  match c32tomb C c with None => [63] | Some bs => bs end.

(** number_buf, filled from its end; it has room for 24 digits. *)
Fixpoint number_buf (room : nat) (value : Z) (digits : list Z) : option (list Z) :=
  match room with
  | O => None
  | S room =>
      let digits := 48 + value mod 10 :: digits in
      if 0 <? value / 10 then number_buf room (value / 10) digits else Some digits
  end.

Definition print_number (cv : conversion) (plus : bool) (field_width left_padding : Z) : option (list Z) :=
  let '(number_sign, plus, value) :=
    if cv_number cv <? 0 then (45, false, - cv_number cv) else (cv_sign cv, plus, cv_number cv) in
  digits ← number_buf 24 value [];
  let buflen := Z.of_nat (length digits) in
  let precision := cv_precision cv in
  let number_sign :=
    if plus && ((precision <? buflen) || (precision <? field_width)) then 43 else number_sign in
  let '(sign, field_width, left_padding) :=
    if negb (number_sign =? 0) then
      ([number_sign], if 0 <? field_width then field_width - 1 else field_width, 48)
    else ([], field_width, left_padding) in
  Some (sign ++ replicate (Z.to_nat (field_width - (if precision <? buflen then buflen else precision))) left_padding
        ++ replicate (Z.to_nat (precision - buflen)) (cv_padding cv) ++ digits).

Definition print_conversion (C : lc_ctype) (cv : conversion) (plus : bool) (field_width left_padding : Z)
    : option (list Z) :=
  match cv_string cv with
  | Some s => Some s
  | None =>
      match cv_wstring cv with
      | Some ws => Some (mjoin (put_wide C <$> ws))
      | None => print_number cv plus field_width left_padding
      end
  end.

(** What the specifier [c] prints, and what is left of the subformat and the
    format. *)
Definition strftime_specifier (lc : lc_time) (C : lc_ctype) (t : tm) (c : Z) (plus : bool)
    (field_width left_padding : Z) (subformat format : list Z) : option (list Z * list Z * list Z) :=
  d ← specifier lc t c;
  match d with
  | Print cv => out ← print_conversion C cv plus field_width left_padding; Some (out, subformat, format)
  | Subformat s => Some ([], s, format)
  | FullDate =>
      let '(plus, field_width) :=
        if (left_padding =? 32) && negb plus && (field_width =? 0) then (true, 4)
        else (plus, if 6 <=? field_width then field_width - 6 else 0) in
      out ← print_conversion C (year_number t) plus field_width left_padding;
      Some (out, text "-%m-%d", format)
  | Nanoseconds => Some (print_nanoseconds t field_width left_padding, subformat, format)
  | Nothing => Some ([], subformat, format)
  end.

(** After the %. *)
Definition strftime_conversion (lc : lc_time) (C : lc_ctype) (t : tm) (subformat format : list Z)
    : option (list Z * list Z * list Z) :=
  '(left_padding, plus, subformat, format) ←
    parse_flags (S (length subformat + length format)) 32 false subformat format;
  '(field_width, subformat, format) ← parse_width subformat format;
  '(subformat, format) ← parse_modifier subformat format;
  '(c, subformat, format) ← FORMAT_NEXT subformat format;
  strftime_specifier lc C t c plus field_width left_padding subformat format.

(** One turn of the loop over the format. *)
Definition strftime_turn (lc : lc_time) (C : lc_ctype) (t : tm) (subformat format : list Z)
    : option (list Z * list Z * list Z) :=
  c ← FORMAT_PEEK subformat format;
  if c =? 37 then
    '(_, subformat, format) ← FORMAT_NEXT subformat format;
    strftime_conversion lc C t subformat format
  else
    match subformat with
    | c :: subformat => Some (put_wide C c, subformat, format)
    | [] => match format with c :: format => Some ([c], [], format) | [] => None end
    end.

(** ** The buffer

    PUTCHAR stores a character at s[nstored], or returns 0 from the function
    ([inl], with the buffer).  A store outside the buffer is [None]. *)
Definition PUTCHAR (maxsize : Z) (s : list Z) (nstored c : Z) : option (list Z + list Z * Z) :=
  if maxsize <=? nstored + 1 then Some (inl s)
  else if nstored <? Z.of_nat (length s) then Some (inr (<[Z.to_nat nstored := c]> s, nstored + 1))
  else None.

Fixpoint put_chars (maxsize : Z) (s : list Z) (nstored : Z) (cs : list Z) : option (list Z + list Z * Z) :=
  match cs with
  | [] => Some (inr (s, nstored))
  | c :: cs =>
      r ← PUTCHAR maxsize s nstored c;
      match r with
      | inl s => Some (inl s)
      | inr (s, nstored) => put_chars maxsize s nstored cs
      end
  end.

Fixpoint strftime_loop (fuel : nat) (lc : lc_time) (C : lc_ctype) (t : tm) (maxsize : Z)
    (subformat format s : list Z) (nstored : Z) : option (Z * list Z) :=
  c ← head format;
  if negb (c =? 0) || negb (bool_decide (subformat = [])) then
    match fuel with
    | O => None
    | S fuel =>
        '(out, subformat, format) ← strftime_turn lc C t subformat format;
        r ← put_chars maxsize s nstored out;
        match r with
        | inl s => Some (0, s)
        | inr (s, nstored) => strftime_loop fuel lc C t maxsize subformat format s nstored
        end
    end
  else if nstored <? Z.of_nat (length s) then Some (nstored, <[Z.to_nat nstored := 0]> s)
  else None.

(** The result and the buffer [s]. *)
Definition strftime_l (fuel : nat) (lc : lc_time) (C : lc_ctype) (s : list Z) (maxsize : Z) (format : list Z)
    (t : tm) : option (Z * list Z) :=
  if maxsize =? 0 then Some (0, s) else strftime_loop fuel lc C t maxsize [] format s 0.

(** ** The specification: the text an unlimited buffer receives *)

Fixpoint strftime_text (fuel : nat) (lc : lc_time) (C : lc_ctype) (t : tm) (subformat format : list Z)
    : option (list Z) :=
  c ← head format;
  if negb (c =? 0) || negb (bool_decide (subformat = [])) then
    match fuel with
    | O => None
    | S fuel =>
        '(out, subformat, format) ← strftime_turn lc C t subformat format;
        rest ← strftime_text fuel lc C t subformat format;
        Some (out ++ rest)
    end
  else Some [].


(** ** Formats without undefined behaviour *)

(** Conversion specifications end before the terminator: state 0 is ordinary
    text, 1 follows a % and flags, 2 digits of the width, 3 a modifier. *)
Fixpoint complete (state : nat) (f : list Z) : bool :=
  match f with
  | [] => Nat.eqb state 0
  | c :: f =>
      match state with
      | 0%nat => complete (if c =? 37 then 1 else 0) f
      | 1%nat =>
          if (c =? 48) || (c =? 43) then complete 1 f
          else if between 49 c 57 then complete 2 f
          else if (c =? 69) || (c =? 79) then complete 3 f else complete 0 f
      | 2%nat =>
          if between 48 c 57 then complete 2 f
          else if (c =? 69) || (c =? 79) then complete 3 f else complete 0 f
      | _ => complete 0 f
      end
  end.

(** Formats of a locale, which may only use specifiers that do not switch to
    another format, and no flags. *)
Definition simple_specifiers : list Z := text "aAbhBCdefgGHIjmMnpStuUVWwyYzZ%".

Fixpoint simple_format (f : list Z) : bool :=
  match f with
  | [] => true
  | c :: f =>
      if c =? 37 then
        match f with d :: f => bool_decide (d ∈ simple_specifiers) && simple_format f | [] => false end
      else simple_format f
  end.

Record lc_time_ok (lc : lc_time) (K : nat) : Prop := {
  lt_d_t_fmt : simple_format (d_t_fmt lc) = true /\ (length (d_t_fmt lc) <= K)%nat;
  lt_d_fmt : simple_format (d_fmt lc) = true /\ (length (d_fmt lc) <= K)%nat;
  lt_t_fmt : simple_format (t_fmt lc) = true /\ (length (t_fmt lc) <= K)%nat;
  lt_t_fmt_ampm : simple_format (t_fmt_ampm lc) = true /\ (length (t_fmt_ampm lc) <= K)%nat;
  lt_builtin : (8 <= K)%nat
}.

Lemma time_posix_ok : lc_time_ok time_posix 20.
Proof. split; vm_compute; repeat constructor. Qed.

(** Dates on which the int computations do not overflow. *)
Record tm_small (t : tm) : Prop := {
  ts_year : - 2 ^ 31 + 2000 <= tm_year t <= 2 ^ 31 - 2000;
  ts_yday : - 2 ^ 30 <= tm_yday t <= 2 ^ 30;
  ts_wday : - 2 ^ 29 <= tm_wday t <= 2 ^ 29;
  ts_gmtoff : - 2 ^ 31 <= tm_gmtoff t < 2 ^ 31
}.

Lemma as_int_ok z : INT_MIN <= z <= INT_MAX -> as_int z = Some z.
Proof. intros H. unfold as_int. rewrite !(proj2 (Z.leb_le _ _)) by lia. done. Qed.

Lemma iso_8601_yday_ok yday wday : - 2 ^ 30 - 400 <= yday <= 2 ^ 30 + 400 -> - 2 ^ 29 <= wday <= 2 ^ 29 ->
  iso_8601_yday yday wday = Some (yday - (yday - wday + 4) mod 7 + 3).
Proof.
  intros Hy Hw. unfold iso_8601_yday, INT_MIN, INT_MAX in *.
  rewrite (as_int_ok (yday - wday)) by (unfold INT_MIN, INT_MAX; lia). cbn [mbind option_bind].
  rewrite (as_int_ok (yday - wday + 4)) by (unfold INT_MIN, INT_MAX; lia). cbn [mbind option_bind].
  assert (He : (if Z.rem (yday - wday + 4) 7 <? 0 then Z.rem (yday - wday + 4) 7 + 7 else Z.rem (yday - wday + 4) 7) =
    (yday - wday + 4) mod 7) by (zcases).
  rewrite He. pose proof (Z.mod_pos_bound (yday - wday + 4) 7 ltac:(lia)).
  rewrite as_int_ok by (unfold INT_MIN, INT_MAX; lia). cbn [mbind option_bind].
  by rewrite as_int_ok by (unfold INT_MIN, INT_MAX; lia).
Qed.

(** The day relative to the Monday of the first week of the year. *)
Definition iso_yday (yday wday : Z) : Z := yday - (yday - wday + 4) mod 7 + 3.

Lemma iso_8601_year_ok t : tm_small t ->
  iso_8601_year t = Some (if iso_yday (tm_yday t) (tm_wday t) <? 0 then tm_year t - 1
    else if 0 <=? iso_yday (tm_yday t - get_ydays (tm_year t)) (tm_wday t) then tm_year t + 1 else tm_year t).
Proof.
  intros [Hy Hd Hw _]. unfold iso_8601_year. rewrite iso_8601_yday_ok by lia. cbn [mbind option_bind].
  pose proof (get_ydays_bounds (tm_year t)). fold (iso_yday (tm_yday t) (tm_wday t)).
  destruct (_ <? 0); [by rewrite as_int_ok by (unfold INT_MIN, INT_MAX; lia)|].
  rewrite (as_int_ok (tm_yday t - _)) by (unfold INT_MIN, INT_MAX; lia). cbn [mbind option_bind].
  rewrite iso_8601_yday_ok by lia. cbn [mbind option_bind]. fold (iso_yday (tm_yday t - get_ydays (tm_year t)) (tm_wday t)).
  destruct (0 <=? _); [by rewrite as_int_ok by (unfold INT_MIN, INT_MAX; lia)|done].
Qed.

Lemma iso_8601_week_ok t : tm_small t ->
  iso_8601_week t = Some (Z.quot (if iso_yday (tm_yday t) (tm_wday t) <? 0
      then iso_yday (tm_yday t + get_ydays (tm_year t - 1)) (tm_wday t)
      else if 0 <=? iso_yday (tm_yday t - get_ydays (tm_year t)) (tm_wday t)
      then iso_yday (tm_yday t - get_ydays (tm_year t)) (tm_wday t) else iso_yday (tm_yday t) (tm_wday t)) 7 + 1).
Proof.
  intros [Hy Hd Hw _]. unfold iso_8601_week. rewrite iso_8601_yday_ok by lia. cbn [mbind option_bind].
  pose proof (get_ydays_bounds (tm_year t)). pose proof (get_ydays_bounds (tm_year t - 1)).
  fold (iso_yday (tm_yday t) (tm_wday t)). destruct (_ <? 0).
  - rewrite (as_int_ok (tm_year t - 1)) by (unfold INT_MIN, INT_MAX; lia). cbn [mbind option_bind].
    rewrite as_int_ok by (unfold INT_MIN, INT_MAX; lia). cbn [mbind option_bind]. by rewrite iso_8601_yday_ok by lia.
  - rewrite as_int_ok by (unfold INT_MIN, INT_MAX; lia). cbn [mbind option_bind]. rewrite iso_8601_yday_ok by lia.
    done.
Qed.

(** What the conversion specifiers do. *)
Definition directive_ok (K : nat) (d : directive) : Prop :=
  match d with
  | Print cv => Z.abs (cv_number cv) < 10 ^ 23
  | Subformat s => simple_format s = true /\ (length s <= K)%nat
  | _ => True
  end.


Lemma iso_8601_year_bound t y : tm_small t -> iso_8601_year t = Some y -> tm_year t - 1 <= y <= tm_year t + 1.
Proof. intros Hs. rewrite iso_8601_year_ok by done. intros [= <-]. repeat case_match; lia. Qed.

Lemma iso_8601_week_bound t w : tm_small t -> iso_8601_week t = Some w -> Z.abs w <= 2 ^ 31.
Proof.
  intros Hs. rewrite iso_8601_week_ok by done. destruct Hs as [Hy Hd Hw _].
  pose proof (get_ydays_bounds (tm_year t)). pose proof (get_ydays_bounds (tm_year t - 1)).
  intros [= <-]. unfold iso_yday. repeat case_match; lia.
Qed.


Lemma specifier_ok lc K t c : lc_time_ok lc K -> tm_small t ->
  exists d, specifier lc t c = Some d /\ directive_ok K d.
Proof.
  intros [H1 H2 H3 H4 H5] Hs. pose proof Hs as [Hy Hd Hw Hg].
  assert (Hi : forall z, - 2 ^ 31 <= z < 2 ^ 31 -> as_int z = Some z)
    by (intros; apply as_int_ok; unfold INT_MIN, INT_MAX; lia).
  destruct (iso_8601_year t) as [y|] eqn:Ey; [|by rewrite iso_8601_year_ok in Ey].
  destruct (iso_8601_week t) as [w|] eqn:Ew; [|by rewrite iso_8601_week_ok in Ew].
  pose proof (iso_8601_year_bound t y Hs Ey). pose proof (iso_8601_week_bound t w Hs Ew).
  pose proof (Z.rem_bound_abs (tm_wday t + 6) 7 ltac:(lia)).
  assert (Hb : forall n p pad sg, Z.abs n < 2 ^ 40 ->
    exists d, Some (Print (Conversion None None n p pad sg)) = Some d /\ directive_ok K d).
  { intros n p pad sg Hn. eexists. split; [reflexivity|]. simpl. lia. }
  unfold specifier, year_number, number_conversion.
  repeat match goal with |- context [match ?x with _ => _ end] => is_var x; destruct x end;
    try (eexists; split; [reflexivity|exact I]); try (eexists; split; [reflexivity|simpl; lia]);
    try (eexists; split; [reflexivity|assumption]);
    try (rewrite ?Ey, ?Ew; repeat (cbn [mbind option_bind]; rewrite ?Hi by lia); apply Hb; zcases; lia);
    try (apply Hb; repeat case_match; lia);
    try (eexists; split; [reflexivity|]; split; [by vm_compute|simpl; lia]).
  - destruct (tm_isdst t <? 0); [eexists; split; [reflexivity|exact I]|]. apply Hb. lia.
Qed.

(** ** Printing *)

Lemma number_buf_ok room value acc : 0 <= value < 10 ^ Z.of_nat room -> (0 < room)%nat ->
  exists ds, number_buf room value acc = Some (ds ++ acc).
Proof.
  revert value acc. induction room as [|room IH]; intros value acc Hv Hr; [lia|]. cbn [number_buf].
  destruct (Z.ltb_spec 0 (value / 10)) as [Hlt|Hge]; [|by exists [48 + value mod 10]].
  rewrite Nat2Z.inj_succ, Z.pow_succ_r in Hv by lia.
  destruct room as [|room]; [simpl in Hv; lia|].
  destruct (IH (value / 10) (48 + value mod 10 :: acc)) as [ds Hds]; [lia..|].
  exists (ds ++ [48 + value mod 10]). rewrite Hds, <- app_assoc. done.
Qed.

Lemma print_conversion_ok C cv plus w lp : Z.abs (cv_number cv) < 10 ^ 23 ->
  exists out, print_conversion C cv plus w lp = Some out.
Proof.
  intros Hn. unfold print_conversion. destruct (cv_string cv); [by eexists|]. destruct (cv_wstring cv); [by eexists|].
  unfold print_number. destruct (Z.ltb_spec (cv_number cv) 0).
  - destruct (number_buf_ok 24 (- cv_number cv) []) as [ds ->]; [simpl; lia|lia|]. cbn [mbind option_bind].
    destruct (negb _); by eexists.
  - destruct (number_buf_ok 24 (cv_number cv) []) as [ds ->]; [simpl; lia|lia|]. cbn [mbind option_bind].
    destruct (negb _); by eexists.
Qed.

(** ** Reading a conversion specification from the format *)

Lemma complete_peek state f : complete state f = true -> state <> 0%nat -> exists c f', f = c :: f'.
Proof. destruct f as [|c f]; [by destruct state|]. by eexists _, _. Qed.

Lemma parse_flags_ok fuel lp plus f : complete 1 f = true -> (length f < fuel)%nat ->
  exists lp' plus' c f', parse_flags fuel lp plus [] (f ++ [0]) = Some (lp', plus', [], (c :: f') ++ [0]) /\
    complete 1 (c :: f') = true /\ (length (c :: f') <= length f)%nat /\ c <> 48 /\ c <> 43.
Proof.
  revert lp plus f. induction fuel as [|fuel IH]; intros lp plus f Hc Hf; [lia|]. cbn [parse_flags].
  destruct (complete_peek 1 f Hc ltac:(done)) as (c & f' & ->). cbn [FORMAT_PEEK FORMAT_NEXT app head mbind option_bind].
  assert (Hc' := Hc). cbn [complete] in Hc'. destruct (Z.eqb_spec c 48) as [->|H48]; [|destruct (Z.eqb_spec c 43) as [->|H43]].
  - destruct (IH 48 plus f') as (? & ? & ? & ? & H1 & H2 & H3 & H4); [done|simpl in Hf; lia|].
    eexists _, _, _, _. split; [exact H1|]. split; [done|]. split; [simpl in *; lia|done].
  - destruct (IH lp true f') as (? & ? & ? & ? & H1 & H2 & H3 & H4); [done|simpl in Hf; lia|].
    eexists _, _, _, _. split; [exact H1|]. split; [done|]. split; [simpl in *; lia|done].
  - eexists _, _, c, f'. done.
Qed.

Lemma parse_width_digits_ok fuel w f : complete 2 f = true -> (length f < fuel)%nat ->
  exists w' c f', parse_width_digits fuel w [] (f ++ [0]) = Some (w', [], (c :: f') ++ [0]) /\
    complete 2 (c :: f') = true /\ (length (c :: f') <= length f)%nat /\ between 48 c 57 = false.
Proof.
  revert w f. induction fuel as [|fuel IH]; intros w f Hc Hf; [lia|]. cbn [parse_width_digits].
  destruct (complete_peek 2 f Hc ltac:(done)) as (c & f' & ->). cbn [FORMAT_PEEK FORMAT_NEXT app head mbind option_bind].
  assert (Hc' := Hc). cbn [complete] in Hc'. destruct (between 48 c 57) eqn:Eb.
  - destruct (IH (u64 (w * 10 + c - 48)) f') as (? & ? & ? & H1 & H2 & H3 & H4); [done|simpl in Hf; lia|].
    eexists _, _, _. split; [exact H1|]. split; [done|]. split; [simpl in *; lia|done].
  - by eexists _, c, f'.
Qed.

Lemma parse_width_ok c f : complete 1 (c :: f) = true -> c <> 48 -> c <> 43 ->
  exists w' c' f', parse_width [] ((c :: f) ++ [0]) = Some (w', [], (c' :: f') ++ [0]) /\
    complete 2 (c' :: f') = true /\ (length f' <= length f)%nat /\ between 48 c' 57 = false.
Proof.
  intros Hc H48 H43. unfold parse_width. cbn [FORMAT_PEEK app head mbind option_bind]. cbn [complete] in Hc.
  rewrite (proj2 (Z.eqb_neq c 48)), (proj2 (Z.eqb_neq c 43)) in Hc by done. cbn [orb] in Hc.
  destruct (between 49 c 57) eqn:Eb.
  - assert (Hb : between 48 c 57 = true) by (unfold between in *; zprop; lia).
    destruct (parse_width_digits_ok (S (length (@nil Z) + length ((c :: f) ++ [0]))) 0 (c :: f)) as (w' & c' & f' & H1 & H2 & H3 & H4).
    + cbn [complete]. by rewrite Hb.
    + rewrite length_app. simpl. lia.
    + eexists _, _, _. split; [exact H1|]. split; [done|]. split; [simpl in H3; lia|done].
  - assert (Hb : between 48 c 57 = false).
    { unfold between in *. apply andb_false_iff in Eb as [Eb|Eb]; apply andb_false_iff; zprop; lia. }
    eexists _, c, f. split; [done|]. split; [cbn [complete]; by rewrite Hb|]. done.
Qed.

Lemma parse_modifier_ok c f : complete 2 (c :: f) = true -> between 48 c 57 = false ->
  exists d f', parse_modifier [] ((c :: f) ++ [0]) = Some ([], (d :: f') ++ [0]) /\ complete 0 f' = true /\
    (length f' <= length f)%nat.
Proof.
  intros Hc Hb. unfold parse_modifier. cbn [FORMAT_PEEK FORMAT_NEXT app head mbind option_bind]. cbn [complete] in Hc.
  rewrite Hb in Hc. destruct ((c =? 69) || (c =? 79)).
  - destruct (complete_peek 3 f Hc ltac:(done)) as (d & f' & ->). exists d, f'. split; [done|]. split; [done|simpl; lia].
  - by exists c, f.
Qed.

(** ** One turn of the loop *)

Section Turn.
  Context (lc : lc_time) (K : nat) (C : lc_ctype) (t : tm).
  Context (Hlc : lc_time_ok lc K) (Ht : tm_small t).

(** A conversion of the format itself. *)
Lemma conversion_format f : complete 1 f = true ->
  exists out sub f', strftime_conversion lc C t [] (f ++ [0]) = Some (out, sub, f' ++ [0]) /\
    simple_format sub = true /\ (length sub <= K)%nat /\ complete 0 f' = true /\ (length f' < length f)%nat.
Proof.
  intros Hc. unfold strftime_conversion, strftime_specifier.
  destruct (parse_flags_ok (S (length (@nil Z) + length (f ++ [0]))) 32 false f Hc) as (lp & plus & c & f1 & -> & Hc1 & Hl1 & H48 & H43);
    [rewrite length_app; simpl; lia|]. cbn [mbind option_bind].
  destruct (parse_width_ok c f1 Hc1 H48 H43) as (w & c2 & f2 & -> & Hc2 & Hl2 & Hb). cbn [mbind option_bind].
  destruct (parse_modifier_ok c2 f2 Hc2 Hb) as (d & f3 & -> & Hc3 & Hl3). cbn [mbind option_bind FORMAT_NEXT app].
  assert (Hlen : (length f3 < length f)%nat) by (simpl in Hl1; lia).
  destruct (specifier_ok lc K t d Hlc Ht) as (dir & -> & Hdir). cbn [mbind option_bind].
  pose proof (ts_year t Ht) as Hy. pose proof (lt_builtin lc K Hlc) as HK. destruct dir as [cv|s| | |].
  - destruct (print_conversion_ok C cv plus w lp Hdir) as [out ->]. exists out, [], f3. repeat split; try done. simpl. lia.
  - destruct Hdir as [Hs HsK]. exists [], s, f3. done.
  - assert (Hp : forall plus w, exists out, print_conversion C (year_number t) plus w lp = Some out)
      by (intros; apply print_conversion_ok; simpl; lia).
    destruct (_ && _ && _); [destruct (Hp true 4) as [out ->]|destruct (Hp plus (if 6 <=? w then w - 6 else 0)) as [out ->]];
      exists out, (text "-%m-%d"), f3; repeat split; try done; try (by vm_compute); simpl; lia.
  - eexists _, [], f3. repeat split; try done. simpl. lia.
  - eexists _, [], f3. repeat split; try done. simpl. lia.
Qed.

(** A conversion of a format of the locale. *)
Lemma simple_specifier c : c ∈ simple_specifiers ->
  between 48 c 57 = false /\ (c =? 43) = false /\ (c =? 69) = false /\ (c =? 79) = false /\
  exists d, specifier lc t c = Some d /\ directive_ok K d /\
    match d with Subformat _ | FullDate => False | _ => True end.
Proof.
  intros Hc. destruct (specifier_ok lc K t c Hlc Ht) as (d & Hd & Hok).
  assert (Hall : Forall (fun c => between 48 c 57 = false /\ (c =? 43) = false /\ (c =? 69) = false /\ (c =? 79) = false /\
    match specifier lc t c with Some (Subformat _) | Some FullDate => False | _ => True end) simple_specifiers).
  { let l := eval vm_compute in simple_specifiers in change simple_specifiers with l.
    repeat (constructor; [do 4 (split; [by vm_compute|]); unfold specifier, mbind, option_bind;
      repeat case_match; try exact I; simplify_eq|]). constructor. }
  rewrite list.Forall_forall in Hall. destruct (Hall c Hc) as (H1 & H2 & H3 & H4 & H5). repeat (split; [done|]).
  exists d. split; [done|]. split; [done|]. by rewrite Hd in H5.
Qed.

Lemma conversion_subformat c sub f : c ∈ simple_specifiers ->
  exists out, strftime_conversion lc C t (c :: sub) f = Some (out, sub, f).
Proof.
  intros Hc. destruct (simple_specifier c Hc) as (Hb & H43 & H69 & H79 & d & Hd & Hok & Hsimple).
  unfold strftime_conversion, strftime_specifier. cbn [parse_flags FORMAT_PEEK mbind option_bind].
  assert (H48 : (c =? 48) = false) by (unfold between in Hb; apply andb_false_iff in Hb; apply Z.eqb_neq; destruct Hb; zprop; lia).
  rewrite H48, H43. cbn [mbind option_bind]. unfold parse_width. cbn [FORMAT_PEEK mbind option_bind].
  assert (Hb' : between 49 c 57 = false).
  { unfold between in *. apply andb_false_iff in Hb as [Hb|Hb]; apply andb_false_iff; zprop; lia. }
  rewrite Hb'. cbn [mbind option_bind]. unfold parse_modifier. cbn [FORMAT_PEEK FORMAT_NEXT mbind option_bind].
  rewrite H69, H79. cbn [orb mbind option_bind FORMAT_NEXT]. rewrite Hd. cbn [mbind option_bind].
  destruct d as [cv|s| | |]; try done; [|by eexists..].
  destruct (print_conversion_ok C cv false 0 32 Hok) as [out ->]. by exists out.
Qed.

(** The number of turns left decreases. *)
Definition turns (sub f : list Z) : nat := (length sub + S K * length f)%nat.

Lemma strftime_turn_ok sub f : simple_format sub = true -> complete 0 f = true -> ~ (sub = [] /\ f = []) ->
  (length sub <= K)%nat ->
  exists out sub' f', strftime_turn lc C t sub (f ++ [0]) = Some (out, sub', f' ++ [0]) /\
    simple_format sub' = true /\ complete 0 f' = true /\ (length sub' <= K)%nat /\ 0%nat <> turns sub f /\
    (turns sub' f' < turns sub f)%nat.
Proof.
  intros Hs Hc Hne HK. unfold strftime_turn, turns. destruct sub as [|c sub].
  - destruct f as [|c f]; [naive_solver|]. cbn [FORMAT_PEEK FORMAT_NEXT app head mbind option_bind]. cbn [complete] in Hc.
    destruct (Z.eqb_spec c 37) as [->|Hc37].
    + destruct (conversion_format f Hc) as (out & sub & f' & -> & H1 & H2 & H3 & H4). exists out, sub, f'.
      do 4 (split; [done|]). simpl. split; [lia|nia].
    + exists [c], [], f. do 3 (split; [done|]). simpl. split; [lia|split; [lia|nia]].
  - cbn [FORMAT_PEEK FORMAT_NEXT app mbind option_bind]. cbn [simple_format] in Hs. destruct (Z.eqb_spec c 37) as [->|Hc37].
    + destruct sub as [|d sub]; [done|]. apply andb_true_iff in Hs as [Hd Hs]. apply bool_decide_eq_true in Hd.
      destruct (conversion_subformat d sub (f ++ [0]) Hd) as [out ->]. exists out, sub, f.
      do 3 (split; [done|]). simpl in *. split; [lia|split; [lia|lia]].
    + exists (put_wide C c), sub, f. do 3 (split; [done|]). simpl in *. split; [lia|split; [lia|lia]].
Qed.

End Turn.

(** ** The buffer *)

(** The buffer after [txt] was stored behind [pre], or as much of it as fits. *)
Definition stored (maxsize : Z) (pre txt rest : list Z) : list Z :=
  take (Z.to_nat (maxsize - 1)) (pre ++ txt) ++ drop (Z.to_nat (maxsize - 1) - length pre) rest.

Lemma strftime_put_chars_ok maxsize cs : forall pre rest,
  Z.of_nat (length pre) < maxsize -> maxsize <= Z.of_nat (length pre + length rest) ->
  put_chars maxsize (pre ++ rest) (Z.of_nat (length pre)) cs =
    Some (if Z.of_nat (length pre + length cs) <? maxsize
          then inr ((pre ++ cs) ++ drop (length cs) rest, Z.of_nat (length pre + length cs))
          else inl (stored maxsize pre cs rest)).
Proof.
  induction cs as [|c cs IH]; intros pre rest Hpre Hrest; cbn [put_chars length].
  - rewrite Nat.add_0_r, (proj2 (Z.ltb_lt _ _)) by lia. by rewrite app_nil_r, drop_0.
  - unfold PUTCHAR. destruct (Z.leb_spec maxsize (Z.of_nat (length pre) + 1)) as [Hfull|Hroom].
    + cbn [mbind option_bind]. rewrite (proj2 (Z.ltb_ge _ _)) by lia. unfold stored.
      replace (Z.to_nat (maxsize - 1)) with (length pre) by lia. by rewrite take_app_length, Nat.sub_diag, drop_0.
    + rewrite (proj2 (Z.ltb_lt _ _)) by (rewrite length_app; lia). cbn [mbind option_bind]. rewrite Nat2Z.id.
      destruct rest as [|x rest]; [simpl in Hrest; lia|].
      rewrite insert_app_r_alt, Nat.sub_diag by lia. cbn [insert list_insert].
      replace (pre ++ c :: rest) with ((pre ++ [c]) ++ rest) by (by rewrite <- app_assoc).
      replace (Z.of_nat (length pre) + 1) with (Z.of_nat (length (pre ++ [c]))) by (rewrite length_app; simpl; lia).
      simpl in Hrest. rewrite IH by (rewrite length_app; simpl; lia). rewrite !length_app. cbn [length].
      replace (length pre + 1 + length cs)%nat with (length pre + S (length cs))%nat by lia.
      destruct (_ <? maxsize).
      * by rewrite <- !app_assoc.
      * unfold stored. rewrite <- !app_assoc, length_app. cbn [length app]. do 3 f_equal.
        replace (Z.to_nat (maxsize - 1) - length pre)%nat with (S (Z.to_nat (maxsize - 1) - (length pre + 1)))%nat by lia.
        done.
Qed.

Lemma stored_app maxsize pre out txt rest :
  Z.of_nat (length pre + length out) < maxsize -> maxsize <= Z.of_nat (length pre + length rest) ->
  stored maxsize (pre ++ out) txt (drop (length out) rest) = stored maxsize pre (out ++ txt) rest.
Proof.
  intros H1 H2. unfold stored. rewrite drop_drop, length_app, <- app_assoc. do 2 f_equal. lia.
Qed.

Lemma stored_full maxsize pre out txt rest : maxsize <= Z.of_nat (length pre + length out) ->
  stored maxsize pre (out ++ txt) rest = stored maxsize pre out rest.
Proof. intros H. unfold stored. rewrite app_assoc, take_app_le by (rewrite length_app; lia). done. Qed.

Lemma strftime_loop_ok lc C t maxsize fuel : forall sub format txt pre rest,
  strftime_text fuel lc C t sub format = Some txt ->
  Z.of_nat (length pre) < maxsize -> maxsize <= Z.of_nat (length pre + length rest) ->
  strftime_loop fuel lc C t maxsize sub format (pre ++ rest) (Z.of_nat (length pre)) =
    Some (if Z.of_nat (length pre + length txt) <? maxsize
          then (Z.of_nat (length pre + length txt), (pre ++ txt) ++ 0 :: drop (S (length txt)) rest)
          else (0, stored maxsize pre txt rest)).
Proof.
  induction fuel as [|fuel IH]; intros sub format txt pre rest Htxt Hpre Hrest; cbn [strftime_text strftime_loop] in *;
    (destruct (head format) as [c|]; cbn [mbind option_bind] in *; [|done]);
    destruct (negb (c =? 0) || negb (bool_decide (sub = []))); try done.
  1, 3: injection Htxt as <-; cbn [length]; rewrite Nat.add_0_r, app_nil_r, (proj2 (Z.ltb_lt _ maxsize)) by lia;
    rewrite (proj2 (Z.ltb_lt _ _)) by (rewrite length_app; lia); rewrite Nat2Z.id;
    (destruct rest as [|x rest]; [simpl in Hrest; lia|]);
    rewrite insert_app_r_alt, Nat.sub_diag by lia; done.
  destruct (strftime_turn lc C t sub format) as [[[out sub'] format']|]; cbn [mbind option_bind] in *; [|done].
  destruct (strftime_text fuel lc C t sub' format') as [txt'|] eqn:Etxt; cbn [mbind option_bind] in *; [|done].
  injection Htxt as <-. rewrite strftime_put_chars_ok by done. cbn [mbind option_bind]. rewrite length_app.
  destruct (Z.ltb_spec (Z.of_nat (length pre + length out)) maxsize) as [Hroom|Hfull].
  - replace (Z.of_nat (length pre + length out)) with (Z.of_nat (length (pre ++ out))) by (rewrite length_app; lia).
    rewrite (IH sub' format' txt') by (try done; rewrite ?length_app, ?length_drop; lia). rewrite length_app, Nat.add_assoc.
    rewrite stored_app by done. rewrite drop_drop, <- !app_assoc. by rewrite Nat.add_succ_r.
  - rewrite (proj2 (Z.ltb_ge _ _)) by lia. by rewrite stored_full.
Qed.

(** ** Termination *)

Lemma strftime_text_total lc K C t : lc_time_ok lc K -> tm_small t ->
  forall fuel sub f, simple_format sub = true -> complete 0 f = true -> (length sub <= K)%nat ->
  (turns K sub f <= fuel)%nat -> exists txt, strftime_text fuel lc C t sub (f ++ [0]) = Some txt.
Proof.
  intros Hlc Ht. induction fuel as [|fuel IH]; intros sub f Hs Hc HK Hf; cbn [strftime_text].
  - assert (sub = [] /\ f = []) as [-> ->].
    { unfold turns in Hf. destruct sub; [|simpl in Hf; lia]. destruct f; [done|simpl in Hf; lia]. }
    by exists [].
  - assert (Hhead : exists c, head (f ++ [0]) = Some c) by (destruct f; by eexists). destruct Hhead as [c Hhead].
    rewrite Hhead. cbn [mbind option_bind]. destruct (negb (c =? 0) || negb (bool_decide (sub = []))) eqn:E; [|by exists []].
    destruct (strftime_turn_ok lc K C t Hlc Ht sub f Hs Hc) as (out & sub' & f' & Hturn & H1 & H2 & H3 & H4 & H5); [|done|].
    { intros [-> ->]. injection Hhead as <-. done. }
    rewrite Hturn. cbn [mbind option_bind]. destruct (IH sub' f') as [txt Htxt]; [done..|lia|].
    rewrite Htxt. cbn [mbind option_bind]. by eexists.
Qed.

(** ** The theorems *)

(** The contract of strftime.  For a locale whose formats use only simple
    specifiers, a format in which no conversion specification is cut off, and a
    date that does not overflow an int, there is a text such that strftime on a
    buffer that has room for it and a terminator stores both and returns the
    length of the text; on any smaller buffer it returns 0, stores as much of the
    text as leaves room for a terminator and nothing else.  It terminates: the
    length of the format times one more than that of the longest format of the
    locale bounds the number of turns. *)
Theorem strftime_contract lc K C t f
  (Hlc : lc_time_ok lc K) (Ht : tm_small t) (Hf : complete 0 f = true) :
  exists txt, strftime_text (turns K [] f) lc C t [] (f ++ [0]) = Some txt /\
  forall s maxsize, 0 <= maxsize <= Z.of_nat (length s) ->
  strftime_l (turns K [] f) lc C s maxsize (f ++ [0]) t =
    Some (if Z.of_nat (length txt) <? maxsize
          then (Z.of_nat (length txt), txt ++ 0 :: drop (S (length txt)) s)
          else (0, take (Z.to_nat (maxsize - 1)) txt ++ drop (Z.to_nat (maxsize - 1)) s)).
Proof.
  destruct (strftime_text_total lc K C t Hlc Ht (turns K [] f) [] f) as [txt Htxt]; [done|done|simpl; lia|done|].
  exists txt. split; [done|]. intros s maxsize Hs. unfold strftime_l. destruct (Z.eqb_spec maxsize 0) as [->|Hne].
  - rewrite (proj2 (Z.ltb_ge _ _)) by lia. by rewrite take_0, drop_0.
  - pose proof (strftime_loop_ok lc C t maxsize _ [] (f ++ [0]) txt [] s Htxt ltac:(simpl; lia) ltac:(simpl; lia)) as Hl.
    cbn [length app Nat.add] in Hl. change (Z.of_nat 0) with 0 in Hl. rewrite Hl.
    destruct (_ <? _); [done|]. unfold stored. cbn [length app]. by rewrite Nat.sub_0_r.
Qed.

(** Weeks counted from the first Thursday on or after day [j]. *)
Lemma iso_yday_thursday j yd w d : d = j + yd -> w = (d + 4) mod 7 ->
  iso_yday yd w / 7 = (d - (w + 6) mod 7 + 3 - j) / 7.
Proof. intros -> ->. unfold iso_yday. lia. Qed.

Lemma iso_8601_spec t d
  (Hd : date_ok (tm_year t) (tm_yday t) (tm_mon t) (tm_mday t) d) (Hw : tm_wday t = (d + 4) mod 7)
  (Hy : - 2 ^ 31 + 2000 <= tm_year t <= 2 ^ 31 - 2000) (Hg : - 2 ^ 31 <= tm_gmtoff t < 2 ^ 31) :
  exists year week, iso_8601_year t = Some year /\ iso_8601_week t = Some week /\ 1 <= week <= 53 /\
    let thursday := d - (tm_wday t + 6) mod 7 + 3 in
    year_day year <= thursday < year_day (year + 1) /\ week = (thursday - year_day year) / 7 + 1.
Proof.
  destruct Hd as [Hyd Hday _ _]. assert (Hs : tm_small t) by (split; lia || (pose proof (get_ydays_bounds (tm_year t)); lia)).
  pose proof (get_ydays_bounds (tm_year t)) as Hb. pose proof (get_ydays_bounds (tm_year t - 1)) as Hb1.
  pose proof (get_ydays_bounds (tm_year t + 1)) as Hb2.
  pose proof (year_day_step (tm_year t)) as St. pose proof (year_day_step (tm_year t - 1)) as St1.
  pose proof (year_day_step (tm_year t + 1)) as St2. replace (tm_year t - 1 + 1) with (tm_year t) in St1 by lia.
  rewrite iso_8601_year_ok, iso_8601_week_ok by done. eexists _, _. split; [reflexivity|]. split; [reflexivity|].
  cbv zeta. set (th := d - (tm_wday t + 6) mod 7 + 3).
  pose proof (iso_yday_thursday (year_day (tm_year t)) (tm_yday t) (tm_wday t) d ltac:(lia) Hw) as E.
  pose proof (iso_yday_thursday (year_day (tm_year t - 1)) (tm_yday t + get_ydays (tm_year t - 1)) (tm_wday t) d
    ltac:(lia) Hw) as E1.
  pose proof (iso_yday_thursday (year_day (tm_year t + 1)) (tm_yday t - get_ydays (tm_year t)) (tm_wday t) d
    ltac:(lia) Hw) as E2.
  fold th in E, E1, E2. assert (Hth : d - 3 <= th <= d + 3) by (unfold th; lia). clearbody th.
  destruct (Z.ltb_spec (iso_yday (tm_yday t) (tm_wday t)) 0) as [Hlt|Hge];
    [|destruct (Z.leb_spec 0 (iso_yday (tm_yday t - get_ydays (tm_year t)) (tm_wday t))) as [Hle|Hgt]].
  - replace (tm_year t - 1 + 1) with (tm_year t) by lia. rewrite Z.quot_div_nonneg, E1 by lia. lia.
  - rewrite Z.quot_div_nonneg, E2 by lia. lia.
  - rewrite Z.quot_div_nonneg, E by lia. lia.
Qed.

(** C25: the week-based year and the week number are those of ISO 8601.  A week
    runs from Monday to Sunday and belongs to the year its Thursday is in; its
    number is the number of Thursdays of that year up to it. *)
Theorem iso_8601_correct t d
  (Hd : date_ok (tm_year t) (tm_yday t) (tm_mon t) (tm_mday t) d) (Hw : tm_wday t = (d + 4) mod 7)
  (Hy : - 2 ^ 31 + 2000 <= tm_year t <= 2 ^ 31 - 2000) (Hg : - 2 ^ 31 <= tm_gmtoff t < 2 ^ 31) :
  exists year week, iso_8601_year t = Some year /\ iso_8601_week t = Some week /\ 1 <= week <= 53 /\
    let thursday := d - (tm_wday t + 6) mod 7 + 3 in
    year_day year <= thursday < year_day (year + 1) /\ week = (thursday - year_day year) / 7 + 1.
Proof. by apply iso_8601_spec. Qed.

(** 1 January 2016 is the Friday of week 53 of 2015. *)
Definition tm_new_year : tm := Tm 5 4 3 1 0 116 5 0 0 0 None 120000000.

Lemma strftime_contract_witness : exists s,
  strftime_l 357 time_posix ctype_utf_8 (replicate 30 63) 30 (text "%G-W%V-%u %T.%f%z" ++ [0]) tm_new_year =
    Some (27, s) /\
  strftime_l 357 time_posix ctype_utf_8 (replicate 30 63) 5 (text "%G-W%V-%u %T.%f%z" ++ [0]) tm_new_year =
    Some (0, text "2015" ++ replicate 26 63).
Proof.
  destruct (strftime_contract time_posix 20 ctype_utf_8 tm_new_year (text "%G-W%V-%u %T.%f%z") time_posix_ok)
    as (txt & Htxt & H); [split; cbn; lia|by vm_compute|].
  vm_compute in Htxt. injection Htxt as <-.
  pose proof (H (replicate 30 63) 30 ltac:(by vm_compute)) as H1. pose proof (H (replicate 30 63) 5 ltac:(by vm_compute)) as H2.
  vm_compute in H1, H2.
  eexists. split; [exact H1|exact H2].
Defined.

Lemma iso_8601_correct_witness : exists year week,
  iso_8601_year tm_new_year = Some year /\ iso_8601_week tm_new_year = Some week /\ year = 115 /\ week = 53.
Proof.
  destruct (iso_8601_correct tm_new_year 16801) as (year & week & H1 & H2 & _).
  - split; [vm_compute; split; congruence|by vm_compute|cbn; lia|]. exists 0, 31. repeat split; vm_compute; congruence.
  - by vm_compute.
  - cbn. lia.
  - cbn. lia.
  - exists year, week. split; [exact H1|]. split; [exact H2|]. vm_compute in H1, H2. split; congruence.
Defined.
