(* ===== verification/Strptime.v ===== *)
(** * Parsing dates: strptime

    Sources: src/common/strptime.h and src/libc/time/strptime_l.c (narrow
    characters).

    The input and the format are lists of characters with their terminator;
    reading behind a terminator is undefined ([None]), and so is an int
    computation that overflows.  The inner option is the function's result: a
    null pointer when the input does not match.  Of the variables that the code
    leaves uninitialised ([century], [wday1] and the like) it only reads those it
    has set; they start as 0 here.

    The theorem is the round trip with Strftime: strptime reads back what strftime
    prints, for every format that determines the date. *)

From stdpp Require Import strings.
From S2P Require Import Prelude CalendarTime Charset StrToInt WideClass Strftime.

#[local] Open Scope Z_scope.
#[local] Ltac Zify.zify_post_hook ::= Z.to_euclidean_division_equations.

(** Undefined behaviour, a null pointer, or a value to go on with. *)
Definition parse_bind {A B} (m : option (option A)) (k : A -> option (option B)) : option (option B) :=
  match m with None => None | Some None => Some None | Some (Some x) => k x end.

#[local] Notation "'let!' x ':=' y 'in' z" := (parse_bind y (fun x => z)) 
  (at level 10, x pattern, y at level 100, z at level 200).

Definition is_digit (c : Z) : bool := between 48 c 57.

(** ** Numbers *)

(** The digits of a number that is at most [high]. *)
Fixpoint number_range_loop (buf : list Z) (max high value : Z) : option (Z * list Z) :=
  match buf with
  | [] => if 0 <? max then None else Some (value, buf)
  | c :: rest =>
      if (0 <? max) && is_digit c then
        let newvalue := value * 10 + c - 48 in
        if high <? newvalue then Some (value, buf) else number_range_loop rest (Z.quot max 10) high newvalue
      else Some (value, buf)
  end.

Definition parse_number_range (buf : list Z) (low high : Z) : option (option (Z * list Z)) :=
  c ← head buf;
  if negb (is_digit c) then Some None
  else
    '(value, buf) ← number_range_loop buf high high 0;
    Some (if value <? low then None else Some (value, buf)).

(** Up to [field_width] digits. *)
Fixpoint year_digits (buf : list Z) (field_width value : Z) : option (Z * list Z) :=
  match buf with
  | [] => if 0 <? field_width then None else Some (value, buf)
  | c :: rest =>
      if (0 <? field_width) && is_digit c then
        v ← as_int (value * 10); v ← as_int (v + c); value ← as_int (v - 48);
        year_digits rest (field_width - 1) value
      else Some (value, buf)
  end.

(** The value, whether it is negative, and what is left. *)
Definition parse_year (buf : list Z) (field_width : Z) : option (option (Z * bool * list Z)) :=
  c ← head buf;
  let negative := c =? 45 in
  let '(buf, field_width) :=
    if (c =? 43) || (c =? 45) then (tail buf, u64 (field_width - 1)) else (buf, field_width) in
  if 0 <? field_width then
    c ← head buf;
    if negb (is_digit c) then Some None
    else
      '(value, buf) ← year_digits buf field_width 0;
      Some (Some (if negative then - value else value, negative, buf))
  else Some (Some (0, negative, buf)).

Definition wday_until (a b : Z) : Z := Z.rem (Z.rem (a - b) 7 + 7) 7.

(** ** Names and white space (strptime_l.c) *)

Definition SIZE_MAX : Z := 2 ^ 64 - 1.

(** One name: the input after it, or no match. *)
Fixpoint match_name (C : lc_ctype) (a b : list Z) (mbs : mbstate) : option (option (list Z)) :=
  match a with
  | [] => Some (Some b)
  | wc :: a =>
      '(r, mbs) ← mbtoc32 C b SIZE_MAX mbs;
      match r with
      | MbChar len c32 =>
          if len <? 1 then Some None
          else
            x ← towlower wc; y ← towlower c32;
            if x =? y then match_name C a (drop (Z.to_nat len) b) mbs else Some None
      | _ => Some None
      end
  end.

Fixpoint parse_string (C : lc_ctype) (buf : list Z) (names : list (list Z)) (i : Z) : option (option (Z * list Z)) :=
  match names with
  | [] => Some None
  | name :: names =>
      r ← match_name C name buf mbstate_init;
      match r with
      | Some buf => Some (Some (i, buf))
      | None => parse_string C buf names (i + 1)
      end
  end.

(** The first list of names, or else the second. *)
Definition parse_strings (C : lc_ctype) (buf : list Z) (names names' : list (list Z)) : option (option (Z * list Z)) :=
  r ← parse_string C buf names 0;
  match r with Some r => Some (Some r) | None => parse_string C buf names' 0 end.

Fixpoint parse_whitespace (fuel : nat) (C : lc_ctype) (buf : list Z) (mbs : mbstate) (nonzero : bool)
    : option (bool * list Z) :=
  match fuel with
  | O => None
  | S fuel =>
      '(r, mbs) ← mbtoc32 C buf SIZE_MAX mbs;
      match r with
      | MbChar len c32 =>
          if (len <? 1) || negb (StrToInt.iswspace c32) then Some (nonzero, buf)
          else parse_whitespace fuel C (drop (Z.to_nat len) buf) mbs true
      | _ => Some (nonzero, buf)
      end
  end.

Definition skip_space (C : lc_ctype) (buf : list Z) : option (bool * list Z) :=
  parse_whitespace (S (length buf)) C buf mbstate_init false.

(** ** The conversion specifiers *)

Record fields := Fields {
  f_century : Z; f_century_specified : bool; f_century_negative : bool;
  f_gmtoff : Z; f_hour : Z; f_mday : Z; f_min : Z; f_mon : Z; f_sec : Z;
  f_wday : Z; f_wday1 : Z; f_wday_in_prevyear : Z; f_week : Z; f_yday : Z; f_year : Z; f_nsec : Z
}.

Definition no_fields : fields := Fields 0 false false 0 0 (-1) 0 0 0 (-1) 0 0 (-1) (-1) 0 0.

Definition set_century (c : Z) (neg : bool) (f : fields) : fields :=
  Fields c true neg (f_gmtoff f) (f_hour f) (f_mday f) (f_min f) (f_mon f) (f_sec f) (f_wday f) (f_wday1 f)
    (f_wday_in_prevyear f) (f_week f) (f_yday f) (f_year f) (f_nsec f).
Definition set_gmtoff (v : Z) (f : fields) : fields :=
  Fields (f_century f) (f_century_specified f) (f_century_negative f) v (f_hour f) (f_mday f) (f_min f) (f_mon f) (f_sec f)
    (f_wday f) (f_wday1 f) (f_wday_in_prevyear f) (f_week f) (f_yday f) (f_year f) (f_nsec f).
Definition set_hour (v : Z) (f : fields) : fields :=
  Fields (f_century f) (f_century_specified f) (f_century_negative f) (f_gmtoff f) v (f_mday f) (f_min f) (f_mon f) (f_sec f)
    (f_wday f) (f_wday1 f) (f_wday_in_prevyear f) (f_week f) (f_yday f) (f_year f) (f_nsec f).
Definition set_mday (v : Z) (f : fields) : fields :=
  Fields (f_century f) (f_century_specified f) (f_century_negative f) (f_gmtoff f) (f_hour f) v (f_min f) (f_mon f) (f_sec f)
    (f_wday f) (f_wday1 f) (f_wday_in_prevyear f) (f_week f) (f_yday f) (f_year f) (f_nsec f).
Definition set_min (v : Z) (f : fields) : fields :=
  Fields (f_century f) (f_century_specified f) (f_century_negative f) (f_gmtoff f) (f_hour f) (f_mday f) v (f_mon f) (f_sec f)
    (f_wday f) (f_wday1 f) (f_wday_in_prevyear f) (f_week f) (f_yday f) (f_year f) (f_nsec f).
Definition set_mon (v : Z) (f : fields) : fields :=
  Fields (f_century f) (f_century_specified f) (f_century_negative f) (f_gmtoff f) (f_hour f) (f_mday f) (f_min f) v (f_sec f)
    (f_wday f) (f_wday1 f) (f_wday_in_prevyear f) (f_week f) (f_yday f) (f_year f) (f_nsec f).
Definition set_sec (v : Z) (f : fields) : fields :=
  Fields (f_century f) (f_century_specified f) (f_century_negative f) (f_gmtoff f) (f_hour f) (f_mday f) (f_min f) (f_mon f) v
    (f_wday f) (f_wday1 f) (f_wday_in_prevyear f) (f_week f) (f_yday f) (f_year f) (f_nsec f).
Definition set_wday (v : Z) (f : fields) : fields :=
  Fields (f_century f) (f_century_specified f) (f_century_negative f) (f_gmtoff f) (f_hour f) (f_mday f) (f_min f) (f_mon f)
    (f_sec f) v (f_wday1 f) (f_wday_in_prevyear f) (f_week f) (f_yday f) (f_year f) (f_nsec f).
Definition set_week (v wday1 prev : Z) (f : fields) : fields :=
  Fields (f_century f) (f_century_specified f) (f_century_negative f) (f_gmtoff f) (f_hour f) (f_mday f) (f_min f) (f_mon f)
    (f_sec f) (f_wday f) wday1 prev v (f_yday f) (f_year f) (f_nsec f).
Definition set_yday (v : Z) (f : fields) : fields :=
  Fields (f_century f) (f_century_specified f) (f_century_negative f) (f_gmtoff f) (f_hour f) (f_mday f) (f_min f) (f_mon f)
    (f_sec f) (f_wday f) (f_wday1 f) (f_wday_in_prevyear f) (f_week f) v (f_year f) (f_nsec f).
Definition set_year (v : Z) (f : fields) : fields :=
  Fields (f_century f) (f_century_specified f) (f_century_negative f) (f_gmtoff f) (f_hour f) (f_mday f) (f_min f) (f_mon f)
    (f_sec f) (f_wday f) (f_wday1 f) (f_wday_in_prevyear f) (f_week f) (f_yday f) v (f_nsec f).
Definition set_nsec (v : Z) (f : fields) : fields :=
  Fields (f_century f) (f_century_specified f) (f_century_negative f) (f_gmtoff f) (f_hour f) (f_mday f) (f_min f) (f_mon f)
    (f_sec f) (f_wday f) (f_wday1 f) (f_wday_in_prevyear f) (f_week f) (f_yday f) (f_year f) v.

(** %f: the loop over the decimals, a do-while after the test of the first
    digit. *)
Fixpoint nsec_loop (decimals : nat) (buf : list Z) (digit nsec : Z) : option (Z * list Z) :=
  match decimals with
  | O => Some (nsec, buf)
  | S decimals =>
      match buf with
      | c :: buf =>
          let nsec := nsec + (c - 48) * digit in
          d ← head buf;
          if is_digit d then nsec_loop decimals buf (Z.quot digit 10) nsec else Some (nsec, buf)
      | [] => None
      end
  end.

(** %z: the offset, if there is one, and the input after it. *)
Definition parse_offset (gmtoff : Z) (buf : list Z) : option (Z * list Z) :=
  c0 ← head buf;
  if (c0 =? 45) || (c0 =? 43) then
    c1 ← buf !! 1%nat;
    if is_digit c1 then
      c2 ← buf !! 2%nat;
      if is_digit c2 then
        let gmtoff := c1 * 36000 + c2 * 3600 - 48 * 36000 - 48 * 3600 in
        c3 ← buf !! 3%nat;
        '(gmtoff, skip) ←
          (if between 48 c3 53 then
             c4 ← buf !! 4%nat;
             Some (if is_digit c4 then (gmtoff + (c3 * 600 + c4 * 60 - 48 * 600 - 48 * 60), 5%nat) else (gmtoff, 3%nat))
           else Some (gmtoff, 3%nat));
        Some (if c0 =? 45 then - gmtoff else gmtoff, drop skip buf)
      else Some (gmtoff, buf)
    else Some (gmtoff, buf)
  else if c0 =? 90 then Some (0, drop 1 buf) else Some (gmtoff, buf).

(** %Z: capital letters are skipped. *)
Fixpoint skip_zone (buf : list Z) : option (list Z) :=
  match buf with
  | [] => None
  | c :: rest => if between 65 c 90 then skip_zone rest else Some buf
  end.

(** The year_number label. *)
Definition parse_year_number (f : fields) (field_width : Z) (buf : list Z) : option (option (fields * list Z)) :=
  let field_width := if field_width =? 0 then 4 else field_width in
  let! (combined, negative, buf) := parse_year buf field_width in
  Some (Some (set_year (Z.abs (Z.rem combined 100)) (set_century (Z.quot combined 100) negative f), buf)).

(** A number that [set] stores. *)
Definition parse_field (low high : Z) (set : Z -> fields -> fields) (f : fields) (buf : list Z)
    : option (option (fields * list Z)) :=
  let! (value, buf) := parse_number_range buf low high in Some (Some (set value f, buf)).

(** A name whose index [set] stores. *)
Definition parse_name (C : lc_ctype) (names names' : list (list Z)) (set : Z -> fields -> fields) (f : fields)
    (buf : list Z) : option (option (fields * list Z)) :=
  let! (i, buf) := parse_strings C buf names names' in Some (Some (set i f, buf)).

(** A conversion leaves the subformat [sub] or replaces it. *)
Definition parse_value (lc : lc_time) (C : lc_ctype) (c field_width : Z) (f : fields) (buf : list Z)
    : option (option (fields * list Z)) :=
  match c with
  | 97 (* a *) | 65 (* A *) => parse_name C (day lc) (abday lc) set_wday f buf
  | 98 (* b *) | 66 (* B *) | 104 (* h *) => parse_name C (mon lc) (abmon lc) set_mon f buf
  | 67 (* C *) =>
      let field_width := if field_width =? 0 then 2 else field_width in
      let! (century, negative, buf) := parse_year buf field_width in Some (Some (set_century century negative f, buf))
  | 100 (* d *) | 101 (* e *) => parse_field 1 31 set_mday f buf
  | 102 (* f *) =>
      c ← head buf;
      if negb (is_digit c) then Some None
      else '(nsec, buf) ← nsec_loop 9 buf 100000000 0; Some (Some (set_nsec nsec f, buf))
  | 103 (* g *) | 121 (* y *) =>
      c ← head buf;
      parse_field 0 99 set_year f (if (c =? 45) || (c =? 43) then tail buf else buf)
  | 71 (* G *) | 89 (* Y *) => parse_year_number f field_width buf
  | 72 (* H *) => parse_field 0 23 set_hour f buf
  | 73 (* I *) => parse_field 1 12 (fun v f => set_hour (Z.quot (f_hour f) 12 * 12 + Z.rem v 12) f) f buf
  | 106 (* j *) => parse_field 1 366 set_yday f buf
  | 109 (* m *) => parse_field 1 12 (fun v => set_mon (v - 1)) f buf
  | 77 (* M *) => parse_field 0 59 set_min f buf
  | 110 (* n *) | 116 (* t *) => '(_, buf) ← skip_space C buf; Some (Some (f, buf))
  | 112 (* p *) =>
      let! (pm, buf) := parse_string C buf [am_str lc; pm_str lc] 0 in
      Some (Some (set_hour (if pm =? 0 then Z.rem (f_hour f) 12 else Z.rem (f_hour f) 12 + 12) f, buf))
  | 83 (* S *) => parse_field 0 60 set_sec f buf
  | 117 (* u *) => parse_field 1 7 (fun v => set_wday (Z.rem v 7)) f buf
  | 85 (* U *) => parse_field 0 53 (fun v => set_week v 0 0) f buf
  | 86 (* V *) => parse_field 1 53 (fun v => set_week v 1 3) f buf
  | 119 (* w *) => parse_field 0 6 set_wday f buf
  | 87 (* W *) => parse_field 0 53 (fun v => set_week v 1 0) f buf
  | 122 (* z *) => '(gmtoff, buf) ← parse_offset (f_gmtoff f) buf; Some (Some (set_gmtoff gmtoff f, buf))
  | 90 (* Z *) => buf ← skip_zone buf; Some (Some (f, buf))
  | 37 (* % *) => c ← head buf; Some (if c =? 37 then Some (f, tail buf) else None)
  | _ => Some (Some (f, buf))
  end.

(** The specifiers that stand for another format. *)
Definition subformat_of (lc : lc_time) (c : Z) : option (list Z) :=
  match c with
  | 99 (* c *) => Some (d_t_fmt lc)
  | 68 (* D *) => Some (text "%m/%d/%y")
  | 114 (* r *) => Some (t_fmt_ampm lc)
  | 82 (* R *) => Some (text "%H:%M")
  | 84 (* T *) => Some (text "%H:%M:%S")
  | 120 (* x *) => Some (d_fmt lc)
  | 88 (* X *) => Some (t_fmt lc)
  | _ => None
  end.

(** ** The loop over the format *)

Fixpoint skip_flags (fuel : nat) (subformat format : list Z) : option (list Z * list Z) :=
  match fuel with
  | O => None
  | S fuel =>
      c ← FORMAT_PEEK subformat format;
      if (c =? 48) || (c =? 43) then
        '(_, subformat, format) ← FORMAT_NEXT subformat format; skip_flags fuel subformat format
      else Some (subformat, format)
  end.

(** The fields, the subformat, the format and the input. *)
Definition parse_state : Type := fields * list Z * list Z * list Z.

(** What the specifier [c] does. *)
Definition strptime_specifier (lc : lc_time) (C : lc_ctype) (f : fields) (c field_width : Z)
    (subformat format buf : list Z) : option (option parse_state) :=
  match subformat_of lc c with
  | Some subformat => Some (Some (f, subformat, format, buf))
  | None =>
      if c =? 70 (* F *) then
        let field_width := if 6 <=? field_width then field_width - 6 else 0 in
        let! (f, buf) := parse_year_number f field_width buf in Some (Some (f, text "-%m-%d", format, buf))
      else
        let! (f, buf) := parse_value lc C c field_width f buf in Some (Some (f, subformat, format, buf))
  end.

(** After the %.  The field width and the modifiers are read as by strftime. *)
Definition strptime_conversion (lc : lc_time) (C : lc_ctype) (f : fields) (subformat format buf : list Z)
    : option (option parse_state) :=
  '(subformat, format) ← skip_flags (S (length subformat + length format)) subformat format;
  '(field_width, subformat, format) ← parse_width subformat format;
  '(subformat, format) ← parse_modifier subformat format;
  '(c, subformat, format) ← FORMAT_NEXT subformat format;
  strptime_specifier lc C f c field_width subformat format buf.

(** The bytes of a literal. *)
Fixpoint match_bytes (mb buf : list Z) : option (option (list Z)) :=
  match mb with
  | [] => Some (Some buf)
  | b :: mb =>
      match buf with
      | [] => None
      | c :: buf => if c =? b then match_bytes mb buf else Some None
      end
  end.

Definition strptime_turn (lc : lc_time) (C : lc_ctype) (f : fields) (subformat format buf : list Z)
    : option (option parse_state) :=
  c ← FORMAT_PEEK subformat format;
  if c =? 37 then
    '(_, subformat, format) ← FORMAT_NEXT subformat format;
    strptime_conversion lc C f subformat format buf
  else
    match subformat with
    | wc :: subformat =>
        if StrToInt.iswspace wc then
          '(_, buf) ← skip_space C buf; Some (Some (f, subformat, format, buf))
        else
          match c32tomb C wc with
          | None => Some None
          | Some mb => let! buf := match_bytes mb buf in Some (Some (f, subformat, format, buf))
          end
    | [] =>
        '(space, format) ← skip_space C format;
        if space : bool then
          '(_, buf) ← skip_space C buf; Some (Some (f, [], format, buf))
        else
          match format with
          | x :: format => let! buf := match_bytes [x] buf in Some (Some (f, [], format, buf))
          | [] => None
          end
    end.

Fixpoint strptime_loop (fuel : nat) (lc : lc_time) (C : lc_ctype) (f : fields) (subformat format buf : list Z)
    : option (option (fields * list Z)) :=
  c ← head format;
  if negb (c =? 0) || negb (bool_decide (subformat = [])) then
    match fuel with
    | O => None
    | S fuel =>
        let! (f, subformat, format, buf) := strptime_turn lc C f subformat format buf in
        strptime_loop fuel lc C f subformat format buf
    end
  else Some (Some (f, buf)).

(** ** The date *)

Definition tm_start (year : Z) : tm := Tm 0 0 0 1 0 year 0 0 0 0 None 0.

Definition set_tm_mon (m : Z) (t : tm) : tm :=
  Tm (tm_sec t) (tm_min t) (tm_hour t) (tm_mday t) m (tm_year t) (tm_wday t) (tm_yday t) (tm_isdst t) (tm_gmtoff t)
    (tm_zone t) (tm_nsec t).
Definition set_tm_mday (d : Z) (t : tm) : tm :=
  Tm (tm_sec t) (tm_min t) (tm_hour t) d (tm_mon t) (tm_year t) (tm_wday t) (tm_yday t) (tm_isdst t) (tm_gmtoff t)
    (tm_zone t) (tm_nsec t).

(** The year, with the century that POSIX asks for when none was given. *)
Definition strptime_year (f : fields) : option Z :=
  let '(century, negative) :=
    if f_century_specified f then (f_century f, f_century_negative f)
    else (if 69 <=? f_year f then 19 else 20, false) in
  c ← as_int (century * 100);
  y ← as_int (if negative then c - f_year f else c + f_year f);
  as_int (y - 1900).

(** A week number: the start of the week, then the day of the week or of the
    month. *)
Definition strptime_week (f : fields) (tm0 : tm) : option Z :=
  ts ← mktime_utc tm0;
  let sec := tv_sec ts in
  '(_, t) ← localtime_utc sec;
  let prevyear := wday_until (tm_wday t) (f_wday1 f) in
  let prevyear := if prevyear <=? f_wday_in_prevyear f then prevyear + 7 else prevyear in
  let sec := sec + (f_week f * 7 - prevyear) * 86400 in
  if 0 <=? f_wday f then Some (sec + wday_until (f_wday f) (f_wday1 f) * 86400)
  else if 1 <=? f_mday f then
    '(_, t) ← localtime_utc sec;
    if (tm_mday t <=? f_mday f) && (f_mday f <? tm_mday t + 7) then Some (sec + (f_mday f - tm_mday t) * 86400)
    else
      len ← get_months (tm_year t) !! Z.to_nat (tm_mon t);
      let mday := tm_mday t - len in
      Some (if f_mday f <? mday + 7 then sec + (f_mday f - mday) * 86400 else sec)
  else Some sec.

(** The start of the day. *)
Definition strptime_day (f : fields) : option Z :=
  year ← strptime_year f;
  let t := tm_start year in
  if 0 <=? f_yday f then ts ← mktime_utc (set_tm_mday (f_yday f) t); Some (tv_sec ts)
  else if 0 <=? f_week f then strptime_week f t
  else
    let t := set_tm_mon (f_mon f) t in
    if 1 <=? f_mday f then ts ← mktime_utc (set_tm_mday (f_mday f) t); Some (tv_sec ts)
    else if 0 <=? f_wday f then
      ts ← mktime_utc t;
      '(_, t) ← localtime_utc (tv_sec ts);
      Some (tv_sec ts + wday_until (f_wday f) (tm_wday t) * 86400)
    else ts ← mktime_utc t; Some (tv_sec ts).

Definition strptime_result (f : fields) : option tm :=
  sec ← strptime_day f;
  '(_, t) ← localtime_utc (sec + f_hour f * 3600 + f_min f * 60 + f_sec f);
  Some (Tm (tm_sec t) (tm_min t) (tm_hour t) (tm_mday t) (tm_mon t) (tm_year t) (tm_wday t) (tm_yday t) (-1)
    (f_gmtoff f) (tm_zone t) (f_nsec f)).

(** The rest of the input and the date, or a null pointer. *)
Definition strptime_l (fuel : nat) (lc : lc_time) (C : lc_ctype) (buf format : list Z)
    : option (option (list Z * tm)) :=
  let! (f, buf) := strptime_loop fuel lc C no_fields [] format buf in
  t ← strptime_result f; Some (Some (buf, t)).

(** ** Days and weeks *)

(** The seconds of the start of a day of the year, and of the month. *)
Lemma mktime_mday year yday mon mday d : date_ok year yday mon mday d ->
  mktime_utc (set_tm_mday mday (set_tm_mon mon (tm_start year))) = Some (Timespec (d * 86400) 0).
Proof.
  intros [_ Hd Hm (start & len & Hs & _ & Hyd & _)].
  destruct (mktime_utc_spec (set_tm_mday mday (set_tm_mon mon (tm_start year)))) as (start' & Hs' & ->). cbn in *.
  rewrite (Z.div_small mon 12), (Z.mod_small mon 12), Z.add_0_r in * by lia. rewrite Hs in Hs'. injection Hs' as <-.
  change (0 mod NSEC_PER_SEC) with 0. rewrite (Z.add_0_r year). do 2 f_equal. lia.
Qed.

Lemma mktime_yday year mday : mktime_utc (set_tm_mday mday (tm_start year)) =
  Some (Timespec ((year_day year + mday - 1) * 86400) 0).
Proof.
  destruct (mktime_utc_spec (set_tm_mday mday (tm_start year))) as (start & Hs & ->). cbn in *.
  rewrite !Z.add_0_r in *. unfold get_months_cumulative in Hs. change (Z.to_nat 0) with 0%nat in Hs.
  assert (start = 0) as -> by (destruct (is_leap year); by inversion Hs).
  change (0 mod NSEC_PER_SEC) with 0. rewrite ?(Z.add_0_r year). do 2 f_equal. lia.
Qed.

(** The weekday of a day. *)
Lemma localtime_day d : exists e t, localtime_utc (d * 86400) = Some (e, t) /\ tm_wday t = (d + 4) mod 7 /\
  exists y, date_ok y (tm_yday t) (tm_mon t) (tm_mday t) d /\ (INT_MIN <= y <= INT_MAX -> tm_year t = y).
Proof.
  destruct (localtime_utc_spec (d * 86400)) as (y & yday & mo & mday & Hd & ->).
  rewrite Z.div_mul in Hd by lia.
  repeat match goal with |- context [if ?b then _ else _] => destruct b eqn:? end; eexists _, _; (split; [reflexivity|]);
    cbn [make_tm tm_wday tm_yday tm_mon tm_mday tm_year]; rewrite Z.div_mul by lia; (split; [reflexivity|]); exists y;
    (split; [exact Hd|]); zprop; lia.
Qed.

(** The start and the length of a month and the start of the next one. *)
Lemma month_next y m s l : 0 <= m < 12 ->
  get_months_cumulative y !! Z.to_nat m = Some s -> get_months y !! Z.to_nat m = Some l ->
  28 <= l /\ (m = 11 -> s + l = get_ydays y) /\
  (m < 11 -> s + l + 7 < get_ydays y /\ get_months_cumulative y !! Z.to_nat (m + 1) = Some (s + l) /\
    exists l', get_months y !! Z.to_nat (m + 1) = Some l' /\ 28 <= l').
Proof.
  intros Hm. unfold get_months_cumulative, get_months, get_ydays.
  assert (m = 0 \/ m = 1 \/ m = 2 \/ m = 3 \/ m = 4 \/ m = 5 \/ m = 6 \/ m = 7 \/ m = 8 \/ m = 9 \/ m = 10 \/ m = 11) as Hc
    by lia.
  repeat destruct Hc as [->|Hc]; try subst m; destruct (is_leap y); cbn; intros [= <-] [= <-];
    (split; [lia|]); (split; [lia|]); intros; try lia; (split; [lia|]); (split; [done|]); eexists; (split; [done|]); lia.
Qed.

(** The date less than a week later. *)
Lemma date_advance y yd m md d y' yd' m' md' k :
  date_ok y yd m md d -> date_ok y' yd' m' md' (d + k) -> 0 <= k < 7 ->
  y' - 1 <= y <= y' /\ exists len, get_months y !! Z.to_nat m = Some len /\ 28 <= len /\ 1 <= md <= len /\
    ((md + k <= len /\ md' = md + k) \/ (len < md + k /\ md' = md + k - len)).
Proof.
  intros H H' Hk. pose proof H as [Hyd Hday Hm (s & l & Hs & Hl & Eyd & Hmd)].
  destruct (month_next y m s l Hm Hs Hl) as (Hl28 & Hdec & Hnext).
  assert (Hu : forall y2 yd2 m2 md2, date_ok y2 yd2 m2 md2 (d + k) -> y' = y2 /\ md' = md2).
  { intros. destruct (date_ok_unique _ _ _ _ _ _ _ _ _ H' H0) as (-> & _ & _ & ->). done. }
  destruct (Z.le_gt_cases (md + k) l) as [Hle|Hgt].
  - destruct (Hu y (yd + k) m (md + k)) as [-> ->].
    { split; [|lia|done|exists s, l; repeat split; try done; lia].
      destruct (decide (m = 11)) as [E|E]; [specialize (Hdec E)|specialize (Hnext ltac:(lia))]; lia. }
    split; [lia|]. exists l. repeat split; try done; lia.
  - assert (y' - 1 <= y <= y' /\ md' = md + k - l) as [Hy ->].
    { destruct (decide (m = 11)) as [->|E].
      - specialize (Hdec eq_refl). pose proof (year_day_step y). pose proof (get_ydays_bounds (y + 1)).
        destruct (Hu (y + 1) (md + k - l - 1) 0 (md + k - l)) as [-> ->]; [|lia].
        split; [lia|lia|lia|]. exists 0, 31. unfold get_months_cumulative, get_months.
        destruct (is_leap (y + 1)); repeat split; try done; lia.
      - destruct (Hnext ltac:(lia)) as (Hr & Hs' & l' & Hl' & Hl28').
        destruct (Hu y (yd + k) (m + 1) (md + k - l)) as [-> ->]; [|lia].
        split; [lia|lia|lia|]. exists (s + l), l'. repeat split; try done; lia. }
    split; [done|]. exists l. repeat split; try done; lia.
Qed.

(** A week number with the day of the week, or of the month: [d] is the day, [year]
    the year the weeks of which are counted, and the code's week starts on the day
    the date's week starts. *)
Lemma strptime_week_ok f year d y yd m md :
  date_ok y yd m md d -> -10000 < y < 10000 -> f_wday1 f = 0 \/ f_wday1 f = 1 ->
  (let w := wday_until ((year_day year + 4) mod 7) (f_wday1 f) in
   let prevyear := if w <=? f_wday_in_prevyear f then w + 7 else w in
   year_day year + f_week f * 7 - prevyear = d - (d + 4 - f_wday1 f) mod 7) ->
  f_wday f = (d + 4) mod 7 \/ (f_wday f = -1 /\ f_mday f = md) ->
  strptime_week f (tm_start year) = Some (d * 86400).
Proof.
  intros Hd Hy Hw1 Hweek Hday. unfold strptime_week.
  change (tm_start year) with (set_tm_mday 1 (tm_start year)). rewrite mktime_yday. cbn [mbind option_bind tv_sec].
  replace ((year_day year + 1 - 1) * 86400) with (year_day year * 86400) by lia.
  destruct (localtime_day (year_day year)) as (e & t & -> & Hwd & _). cbn [mbind option_bind]. rewrite Hwd.
  cbv zeta in Hweek.
  set (w := wday_until ((year_day year + 4) mod 7) (f_wday1 f)) in *.
  set (prev := if w <=? f_wday_in_prevyear f then w + 7 else w) in *.
  set (k := (d + 4 - f_wday1 f) mod 7) in *. assert (Hk : 0 <= k < 7) by (unfold k; lia).
  replace (year_day year * 86400 + (f_week f * 7 - prev) * 86400) with ((d - k) * 86400) by lia.
  destruct Hday as [->|[-> ->]].
  - rewrite (proj2 (Z.leb_le _ _)) by lia. f_equal. unfold wday_until, k. destruct Hw1 as [-> | ->]; lia.
  - cbn [Z.leb Z.compare]. pose proof (date_ok_int _ _ _ _ _ Hd) as Hmd. rewrite (proj2 (Z.leb_le 1 md)) by lia.
    destruct (localtime_day (d - k)) as (e2 & t2 & -> & _ & y2 & Hd2 & Ey2). cbn [mbind option_bind].
    destruct (date_advance _ _ _ _ _ _ _ _ _ k Hd2 ltac:(by replace (d - k + k) with d by lia) Hk)
      as (Hy2 & len & Hlen & H28 & Hmd2 & Hcase).
    rewrite Ey2 by (unfold INT_MIN, INT_MAX; lia).
    destruct ((tm_mday t2 <=? md) && (md <? tm_mday t2 + 7)) eqn:Eb; zprop.
    + f_equal. lia.
    + rewrite Hlen. cbn [mbind option_bind]. f_equal. apply andb_false_iff in Eb.
      rewrite (proj2 (Z.ltb_lt _ _)) by (destruct Eb; zprop; lia). destruct Eb; zprop; lia.
Qed.

(** ** Formats that can be read back

    A format as a list of ordinary characters and conversion specifications
    without flags, widths and modifiers. *)

Inductive token := Lit (c : Z) | Spec (c : Z).

Definition token_text (tk : token) : list Z := match tk with Lit c => [c] | Spec c => [37; c] end.
Fixpoint render (tks : list token) : list Z :=
  match tks with [] => [] | tk :: tks => token_text tk ++ render tks end.

(** The specifiers %F, %T, %R and %D stand for other formats: what they convert
    at once, and the subformat they leave. *)
Definition expand_now (tk : token) : list token :=
  match tk with
  | Spec 70 => [Spec 89]
  | Spec 84 | Spec 82 | Spec 68 => []
  | tk => [tk]
  end.
Definition expand_sub (tk : token) : list token :=
  match tk with
  | Spec 70 => [Lit 45; Spec 109; Lit 45; Spec 100]
  | Spec 84 => [Spec 72; Lit 58; Spec 77; Lit 58; Spec 83]
  | Spec 82 => [Spec 72; Lit 58; Spec 77]
  | Spec 68 => [Spec 109; Lit 47; Spec 100; Lit 47; Spec 121]
  | _ => []
  end.
Definition expand (tk : token) : list token := expand_now tk ++ expand_sub tk.
Fixpoint flatten (tks : list token) : list token :=
  match tks with [] => [] | tk :: tks => expand tk ++ flatten tks end.

(** The number of turns of the loops over the format. *)
Fixpoint steps (tks : list token) : nat :=
  match tks with [] => 0 | tk :: tks => S (length (expand_sub tk)) + steps tks end.

(** Specifiers that print numbers, %z and %%. *)
Definition number_specifiers : list Z := text "%dfGHjmMSuUVwWyYz".
Definition expanding_specifiers : list Z := text "FTRD".

(** Whether a token prints a digit first. *)
Definition digit_first (tk : token) : bool :=
  match tk with Lit c => is_digit c | Spec c => negb ((c =? 37) || (c =? 122)) end.
Definition is_space (tk : token) : bool := match tk with Lit c => StrToInt.iswspace c | Spec _ => false end.

(** What may follow a token: no digit after the nanoseconds, whose number of
    digits varies, and no second white space. *)
Definition may_follow (tk tk' : token) : bool :=
  match tk with
  | Spec c => if c =? 102 then negb (digit_first tk') else true
  | Lit c => if StrToInt.iswspace c then negb (is_space tk') else true
  end.

Definition token_ok (tk : token) : bool :=
  match tk with
  | Lit c => between 1 c 127 && negb (c =? 37)
  | Spec c => bool_decide (c ∈ number_specifiers ++ expanding_specifiers)
  end.

Fixpoint readable (tks : list token) : bool :=
  match tks with
  | [] => true
  | tk :: tks => token_ok tk && match tks with [] => true | tk' :: _ => may_follow tk tk' end && readable tks
  end.

(** Which specifiers a format has. *)
Definition has (tks : list token) (c : Z) : bool :=
  existsb (fun tk => match tk with Spec c' => c' =? c | Lit _ => false end) tks.

(** Whether the specifiers [h] determine the date in the year [year] (counted from
    1900): a week-based year with its week, or a year, of which two digits are
    enough from 1969 to 2068, with the day of the year, a week or the month; a
    week with the day of the week or of the month. *)
Definition date_given (h : Z -> bool) (year : Z) : bool :=
  let day_in_week := h 117 || h 119 || h 100 in
  if h 71 then h 86 && negb (h 85 || h 87 || h 106 || h 89 || h 121) && day_in_week
  else (h 89 || (h 121 && between 69 year 168)) && negb (h 86) &&
    (h 106 || (xorb (h 85) (h 87) && day_in_week) || (negb (h 85 || h 87) && h 100 && h 109)).

Definition time_given (h : Z -> bool) : bool := h 72 && h 77 && h 83.

(** ** Decimal numbers *)

Fixpoint decimal (digits : nat) (v : Z) : list Z :=
  match digits with O => [] | S digits => decimal digits (v / 10) ++ [48 + v mod 10] end.

Lemma length_decimal k v : length (decimal k v) = k.
Proof. revert v. induction k as [|k IH]; intros v; [done|]. simpl. rewrite length_app, IH. simpl. lia. Qed.

Lemma pow10_succ (k : nat) : 10 ^ Z.of_nat (S k) = 10 * 10 ^ Z.of_nat k.
Proof. rewrite Nat2Z.inj_succ, Z.pow_succ_r by lia. done. Qed.

Lemma decimal_pad n v j : 0 <= v < 10 ^ Z.of_nat n -> decimal (j + n) v = replicate j 48 ++ decimal n v.
Proof.
  revert v. induction n as [|n IH]; intros v Hv.
  - simpl in Hv. assert (v = 0) as -> by lia. rewrite Nat.add_0_r. simpl. rewrite app_nil_r.
    induction j as [|j IHj]; [done|]. cbn [decimal]. change (0 / 10) with 0. change (48 + 0 mod 10) with 48.
    rewrite IHj. by rewrite <- replicate_cons_app.
  - rewrite pow10_succ in Hv. rewrite Nat.add_succ_r. cbn [decimal]. rewrite IH by lia. by rewrite <- app_assoc.
Qed.

Lemma number_buf_decimal p : forall room v acc, 0 <= v < 10 ^ Z.of_nat p -> (1 <= p <= room)%nat ->
  exists n, (1 <= n <= p)%nat /\ v < 10 ^ Z.of_nat n /\ number_buf room v acc = Some (decimal n v ++ acc).
Proof.
  induction p as [|p IH]; intros [|room] v acc Hv Hp; try lia. cbn [number_buf].
  destruct (Z.ltb_spec 0 (v / 10)) as [Hlt|Hge].
  - rewrite pow10_succ in Hv. destruct p as [|p]; [simpl in Hv; lia|].
    destruct (IH room (v / 10) (48 + v mod 10 :: acc)) as (n & Hn & Hvn & ->); [lia..|].
    exists (S n). rewrite pow10_succ. split; [lia|]. split; [lia|]. cbn [decimal]. by rewrite <- app_assoc.
  - exists 1%nat. split; [lia|]. split; [simpl; lia|]. done.
Qed.

(** A number without a sign is printed with the digits of its precision. *)
Lemma print_number_decimal v (p : nat) : 0 <= v < 10 ^ Z.of_nat p -> (1 <= p <= 24)%nat ->
  print_number (number_conversion v (Z.of_nat p)) false 0 32 = Some (decimal p v).
Proof.
  intros Hv Hp. unfold print_number. cbn [cv_number cv_sign cv_precision cv_padding number_conversion].
  rewrite (proj2 (Z.ltb_ge v 0)) by lia. destruct (number_buf_decimal p 24 v []) as (n & Hn & Hvn & ->); [lia..|].
  cbn [mbind option_bind]. rewrite app_nil_r, length_decimal. cbn [andb negb Z.eqb app].
  rewrite (proj2 (Z.ltb_ge _ _)) by lia. rewrite Z2Nat.nonpos by lia. cbn [replicate app].
  replace (Z.to_nat (Z.of_nat p - Z.of_nat n)) with (p - n)%nat by lia. rewrite <- decimal_pad by lia.
  do 2 f_equal. lia.
Qed.

(** ... and read back. *)
Lemma is_digit_of v : is_digit (48 + v mod 10) = true.
Proof. unfold is_digit, between. zcases. Qed.

Lemma number_range_loop_decimal k : forall v rest max high acc,
  0 <= v < 10 ^ Z.of_nat k -> 0 <= acc -> acc * 10 ^ Z.of_nat k + v <= high -> 10 ^ (Z.of_nat k - 1) <= max ->
  number_range_loop (decimal k v ++ rest) max high acc =
    number_range_loop rest (Z.quot max (10 ^ Z.of_nat k)) high (acc * 10 ^ Z.of_nat k + v).
Proof.
  induction k as [|k IH]; intros v rest max high acc Hv Hacc Hhigh Hmax.
  - simpl in *. rewrite Z.quot_1_r. f_equal. lia.
  - rewrite pow10_succ in *. cbn [decimal]. rewrite <- app_assoc. cbn [app].
    replace (Z.of_nat (S k) - 1) with (Z.of_nat k) in Hmax by lia.
    assert (0 < 10 ^ Z.of_nat k) by lia.
    assert (10 ^ (Z.of_nat k - 1) <= 10 ^ Z.of_nat k) by (apply Z.pow_le_mono_r; lia).
    rewrite IH; [|nia..]. cbn [number_range_loop].
    assert (0 < Z.quot max (10 ^ Z.of_nat k)) as Hq by (apply Z.quot_str_pos; lia).
    rewrite is_digit_of, (proj2 (Z.ltb_lt _ _)) by done. cbn [andb].
    replace ((acc * 10 ^ Z.of_nat k + v / 10) * 10 + (48 + v mod 10) - 48) with (acc * (10 * 10 ^ Z.of_nat k) + v) by nia.
    rewrite (proj2 (Z.ltb_ge _ _)) by lia. f_equal. rewrite Z.quot_quot by lia. f_equal. lia.
Qed.

Lemma parse_number_range_decimal k v low high rest :
  low <= v <= high -> 0 <= v -> 10 ^ (Z.of_nat k - 1) <= high < 10 ^ Z.of_nat k -> (1 <= k)%nat ->
  parse_number_range (decimal k v ++ rest) low high = Some (Some (v, rest)).
Proof.
  intros Hv H0 Hhigh Hk. unfold parse_number_range.
  assert (exists w rest', decimal k v ++ rest = 48 + w mod 10 :: rest') as (w & rest' & E).
  { destruct k as [|k]; [lia|]. clear. revert v rest. induction k as [|k IH]; intros v rest; [by eexists v, _|].
    cbn [decimal]. rewrite <- app_assoc. destruct (IH (v / 10) ([48 + v mod 10] ++ rest)) as (w & r & E).
    cbn [decimal] in E. rewrite E. by eexists w, _. }
  pose proof (number_range_loop_decimal k v rest high high 0 ltac:(lia) ltac:(lia) ltac:(lia) ltac:(lia)) as L.
  rewrite E in *. cbn [head mbind option_bind]. rewrite is_digit_of. cbn [negb]. rewrite L.
  rewrite Z.quot_small by lia. destruct rest as [|c rest]; cbn [number_range_loop Z.ltb Z.compare andb mbind option_bind];
    rewrite (proj2 (Z.ltb_ge _ _)) by lia; repeat f_equal; lia.
Qed.

Lemma year_digits_decimal k : forall v rest width acc,
  0 <= v < 10 ^ Z.of_nat k -> 0 <= acc -> acc * 10 ^ Z.of_nat k + v <= 10 ^ 8 -> Z.of_nat k <= width ->
  year_digits (decimal k v ++ rest) width acc =
    year_digits rest (width - Z.of_nat k) (acc * 10 ^ Z.of_nat k + v).
Proof.
  induction k as [|k IH]; intros v rest width acc Hv Hacc Hhigh Hw.
  - simpl in *. f_equal; lia.
  - rewrite pow10_succ in *. cbn [decimal]. rewrite <- app_assoc. cbn [app].
    assert (0 < 10 ^ Z.of_nat k) by lia. rewrite IH; [|nia..]. cbn [year_digits].
    rewrite is_digit_of, (proj2 (Z.ltb_lt _ _)) by lia. cbn [andb].
    assert (0 <= acc * 10 ^ Z.of_nat k + v / 10 <= 10 ^ 8) as Hb by nia.
    replace (acc * (10 * 10 ^ Z.of_nat k) + v) with ((acc * 10 ^ Z.of_nat k + v / 10) * 10 + v mod 10) in * by nia.
    revert Hb Hhigh. generalize (acc * 10 ^ Z.of_nat k + v / 10). intros a Hb Hhigh.
    rewrite !as_int_ok by (unfold INT_MIN, INT_MAX; lia). cbn [mbind option_bind].
    rewrite !as_int_ok by (unfold INT_MIN, INT_MAX; lia). cbn [mbind option_bind].
    rewrite !as_int_ok by (unfold INT_MIN, INT_MAX; lia). cbn [mbind option_bind]. f_equal; lia.
Qed.

Lemma parse_year_decimal v rest : 0 <= v < 10000 ->
  parse_year (decimal 4 v ++ rest) 4 = Some (Some (v, false, rest)).
Proof.
  intros Hv. pose proof (year_digits_decimal 4 v rest 4 0 ltac:(simpl; lia) ltac:(lia) ltac:(simpl; lia) ltac:(simpl; lia)) as L.
  unfold parse_year. set (buf := decimal 4 v ++ rest) in *.
  assert (exists rest', buf = 48 + (v / 10 / 10 / 10) mod 10 :: rest') as (rest' & E) by (by eexists).
  rewrite E in *. cbn [head mbind option_bind].
  rewrite (proj2 (Z.eqb_neq _ 45)), (proj2 (Z.eqb_neq _ 43)) by lia. cbn [orb Z.ltb Z.compare head mbind option_bind].
  rewrite is_digit_of. cbn [negb]. rewrite L. simpl (4 - Z.of_nat 4).
  destruct rest as [|c rest]; cbn [year_digits Z.ltb Z.compare andb mbind option_bind]; repeat f_equal; lia.
Qed.

(** ** Nanoseconds and offsets *)

Definition no_digit (buf : list Z) : Prop := exists c buf', buf = c :: buf' /\ is_digit c = false.

Lemma nanosecond_digits_first n v digit : exists w rest, nanosecond_digits (S n) v digit = 48 + w mod 10 :: rest.
Proof. cbn [nanosecond_digits]. eexists _, _. rewrite Z.add_comm. done. Qed.

Lemma nsec_loop_digits n : forall v acc rest, no_digit rest -> 0 <= v ->
  nsec_loop (S n) (nanosecond_digits (S n) v (10 ^ Z.of_nat (S n)) ++ rest) (10 ^ Z.of_nat n) acc =
    Some (acc + v mod 10 ^ Z.of_nat (S n), rest).
Proof.
  induction n as [|n IH]; intros v acc rest Hrest Hv.
  - destruct Hrest as (c & rest' & -> & Hc). simpl. rewrite Z.mod_1_r, Z.div_1_r. simpl. rewrite Hc. do 2 f_equal. lia.
  - set (m := S n) in *. cbn [nanosecond_digits]. rewrite (pow10_succ m). set (p := 10 ^ Z.of_nat m) in *.
    assert (Hp : 0 < p) by (unfold p; lia).
    replace (10 * p / 10) with p by lia.
    assert (E : v mod (10 * p) = (v / p) mod 10 * p + v mod p) by (rewrite Z.mul_comm, Z.rem_mul_r by lia; lia).
    rewrite E. cbn [app]. cbn [nsec_loop]. destruct (Z.eqb_spec (v mod p) 0) as [H0|Hne].
    + destruct Hrest as (c & rest' & -> & Hc). cbn [app head mbind option_bind]. rewrite Hc, H0. do 2 f_equal. lia.
    + destruct (nanosecond_digits_first n v p) as (w & r & Ew). fold m in Ew.
      pose proof (IH v (acc + ((v / p) mod 10 + 48 - 48) * p) rest Hrest Hv) as L. rewrite Ew in *.
      cbn [app head mbind option_bind] in *. rewrite is_digit_of.
      replace (Z.quot p 10) with (10 ^ Z.of_nat n) by (unfold p, m; rewrite pow10_succ, Z.mul_comm, Z.quot_mul; lia).
      rewrite L. do 2 f_equal. lia.
Qed.

Lemma print_number_signed v : - 10000 < v < 10000 ->
  print_number (Conversion None None v 4 48 43) false 0 32 = Some ((if v <? 0 then 45 else 43) :: decimal 4 (Z.abs v)).
Proof.
  intros Hv. destruct (number_buf_decimal 4 24 (Z.abs v) []) as (n & Hn & Hvn & Hb); [simpl; lia..|].
  unfold print_number. cbn [cv_number cv_sign cv_precision cv_padding].
  assert (Hz : Z.to_nat (4 - Z.of_nat n) = (4 - n)%nat) by lia.
  assert (Hd : decimal 4 (Z.abs v) = replicate (4 - n) 48 ++ decimal n (Z.abs v)).
  { rewrite <- decimal_pad by lia. f_equal. lia. }
  destruct (Z.ltb_spec v 0); [replace (- v) with (Z.abs v) by lia|replace v with (Z.abs v) at 1 by lia];
    rewrite Hb; cbn [mbind option_bind]; rewrite app_nil_r, length_decimal; cbn [andb negb Z.eqb app];
    rewrite (proj2 (Z.ltb_ge 4 _)) by lia; cbn [Z.ltb Z.compare Z.to_nat Z.sub Z.add Z.opp replicate app];
    rewrite Hz, <- Hd; done.
Qed.

Lemma parse_offset_decimal g m rest : - 6000 < m < 6000 ->
  let v := Z.quot m 60 * 100 + Z.rem m 60 in
  parse_offset g (((if v <? 0 then 45 else 43) :: decimal 4 (Z.abs v)) ++ rest) = Some (60 * m, rest).
Proof.
  intros Hm v. unfold parse_offset. cbn [app head mbind option_bind].
  assert (Hc : ((if v <? 0 then 45 else 43) =? 45) || ((if v <? 0 then 45 else 43) =? 43) = true) by (by destruct (v <? 0)).
  rewrite Hc. cbn [decimal app lookup list_lookup mbind option_bind]. rewrite !is_digit_of.
  assert (Hb : between 48 (48 + (Z.abs v / 10) mod 10) 53 = true).
  { unfold between. apply andb_true_iff. split; apply Z.leb_le; unfold v; lia. }
  rewrite Hb.
  cbn [mbind option_bind drop]. do 2 f_equal.
  destruct (Z.ltb_spec v 0) as [Hv|Hv]; cbn [Z.eqb Pos.eqb]; unfold v in *; lia.
Qed.

(** ** What the specifiers print and read *)

(** A date that the specifiers can print: its year and its week-based year
    have four digits and its offset is a number of minutes below 100 hours. *)
Record printable (t : tm) (d iso_year iso_week : Z) : Prop := {
  pr_date : date_ok (tm_year t) (tm_yday t) (tm_mon t) (tm_mday t) d;
  pr_wday : tm_wday t = (d + 4) mod 7;
  pr_year : 0 <= tm_year t + 1900 < 10000;
  pr_sec : 0 <= tm_sec t < 60;
  pr_min : 0 <= tm_min t < 60;
  pr_hour : 0 <= tm_hour t < 24;
  pr_nsec : 0 <= tm_nsec t < 1000000000;
  pr_isdst : 0 <= tm_isdst t;
  pr_gmtoff : -360000 < tm_gmtoff t < 360000 /\ tm_gmtoff t mod 60 = 0;
  pr_iso_year : iso_8601_year t = Some iso_year /\ 0 <= iso_year + 1900 < 10000;
  pr_iso_week : iso_8601_week t = Some iso_week /\ 1 <= iso_week <= 53
}.

Section Specifiers.
  Context (lc : lc_time) (C : lc_ctype) (t : tm) (d iso_year iso_week : Z).
  Context (Ht : printable t d iso_year iso_week).

Definition offset_number : Z := Z.quot (Z.quot (tm_gmtoff t) 60) 60 * 100 + Z.rem (Z.quot (tm_gmtoff t) 60) 60.
Definition sunday_week : Z := (tm_yday t - tm_wday t + 7) / 7.
Definition monday_week : Z := (tm_yday t - (tm_wday t + 6) mod 7 + 7) / 7.

Definition spec_out (c : Z) : list Z :=
  match c with
  | 37 => [37]
  | 100 => decimal 2 (tm_mday t)
  | 102 => nanosecond_digits 9 (tm_nsec t) 1000000000
  | 71 => decimal 4 (iso_year + 1900)
  | 72 => decimal 2 (tm_hour t)
  | 106 => decimal 3 (tm_yday t + 1)
  | 109 => decimal 2 (tm_mon t + 1)
  | 77 => decimal 2 (tm_min t)
  | 83 => decimal 2 (tm_sec t)
  | 117 => decimal 1 (if tm_wday t =? 0 then 7 else tm_wday t)
  | 85 => decimal 2 sunday_week
  | 86 => decimal 2 iso_week
  | 119 => decimal 1 (tm_wday t)
  | 87 => decimal 2 monday_week
  | 121 => decimal 2 ((tm_year t + 1900) mod 100)
  | 89 => decimal 4 (tm_year t + 1900)
  | 122 => (if offset_number <? 0 then 45 else 43) :: decimal 4 (Z.abs offset_number)
  | _ => []
  end.

(** What reading it stores. *)
Definition effect (c : Z) (f : fields) : fields :=
  match c with
  | 100 => set_mday (tm_mday t) f
  | 102 => set_nsec (tm_nsec t) f
  | 71 => set_year ((iso_year + 1900) mod 100) (set_century ((iso_year + 1900) / 100) false f)
  | 72 => set_hour (tm_hour t) f
  | 106 => set_yday (tm_yday t + 1) f
  | 109 => set_mon (tm_mon t) f
  | 77 => set_min (tm_min t) f
  | 83 => set_sec (tm_sec t) f
  | 117 | 119 => set_wday (tm_wday t) f
  | 85 => set_week sunday_week 0 0 f
  | 86 => set_week iso_week 1 3 f
  | 87 => set_week monday_week 1 0 f
  | 121 => set_year ((tm_year t + 1900) mod 100) f
  | 89 => set_year ((tm_year t + 1900) mod 100) (set_century ((tm_year t + 1900) / 100) false f)
  | 122 => set_gmtoff (tm_gmtoff t) f
  | _ => f
  end.

Lemma printable_bounds : 1 <= tm_mday t <= 31 /\ 0 <= tm_mon t < 12 /\ 0 <= tm_yday t < 366 /\ 0 <= tm_wday t < 7 /\
  0 <= sunday_week <= 53 /\ 0 <= monday_week <= 53 /\ -10000 < offset_number < 10000.
Proof.
  destruct Ht as [Hd Hw Hy ? ? ? ? ? [Hg Hg'] ? ?]. pose proof (date_ok_int _ _ _ _ _ Hd). destruct Hd as [Hyd _ Hm _].
  pose proof (get_ydays_bounds (tm_year t)). unfold sunday_week, monday_week, offset_number. repeat split; lia.
Qed.

#[local] Ltac number_cases Hc :=
  let l := eval vm_compute in number_specifiers in change number_specifiers with l in Hc;
  repeat (apply elem_of_cons in Hc as [->|Hc]); [..|by apply not_elem_of_nil in Hc].

(** The value printed for a number in its range is the number itself. *)
Lemma spec_print c : c ∈ number_specifiers -> c <> 102 ->
  exists cv, specifier lc t c = Some (Print cv) /\ print_conversion C cv false 0 32 = Some (spec_out c).
Proof.
  pose proof printable_bounds as (H1 & H2 & H3 & H4 & H5 & H6 & H7).
  destruct Ht as [_ _ Hy ? ? ? ? Hdst _ [EG HG] [EV HV]].
  assert (Hn : forall v' v (p : nat), v' = v -> 0 <= v < 10 ^ Z.of_nat p -> (1 <= p <= 24)%nat ->
    exists cv, Some (Print (number_conversion v' (Z.of_nat p))) = Some (Print cv) /\
      print_conversion C cv false 0 32 = Some (decimal p v)).
  { intros v' v p -> Hv Hp. eexists. split; [reflexivity|]. by apply print_number_decimal. }
  intros Hc Hne. number_cases Hc; cbn [specifier spec_out year_number]; rewrite ?EG, ?EV;
    rewrite ?as_int_ok by (unfold INT_MIN, INT_MAX; lia); cbn [mbind option_bind];
    rewrite ?as_int_ok by (unfold INT_MIN, INT_MAX; lia); cbn [mbind option_bind];
    rewrite ?as_int_ok by (unfold INT_MIN, INT_MAX; lia); cbn [mbind option_bind]; try done;
    try (apply (Hn _ _ 2%nat); [|simpl; lia|lia]); try (apply (Hn _ _ 4%nat); [|simpl; lia|lia]);
    try (apply (Hn _ _ 3%nat); [|simpl; lia|lia]); try (apply (Hn _ _ 1%nat); [|zcases; lia|lia]);
    unfold sunday_week, monday_week; try solve [zcases]; try lia.
  - by exists (string_conversion (Some [37])).
  - rewrite (proj2 (Z.ltb_ge _ _)) by done. eexists. split; [reflexivity|]. by apply print_number_signed.
Qed.

Lemma parse_field_decimal k v v' low high set f rest :
  v' = v -> low <= v <= high -> 0 <= v -> 10 ^ (Z.of_nat k - 1) <= high < 10 ^ Z.of_nat k -> (1 <= k)%nat ->
  parse_field low high set f (decimal k v' ++ rest) = Some (Some (set v f, rest)).
Proof. intros -> Hv H0 Hh Hk. unfold parse_field. by rewrite parse_number_range_decimal. Qed.

Lemma parse_year_number_decimal f v rest : 0 <= v < 10000 ->
  parse_year_number f 0 (decimal 4 v ++ rest) =
    Some (Some (set_year (v mod 100) (set_century (v / 100) false f), rest)).
Proof.
  intros Hv. unfold parse_year_number. cbn [Z.eqb]. rewrite parse_year_decimal by done. cbn [parse_bind].
  repeat f_equal; lia.
Qed.

Lemma spec_parse c f rest : c ∈ number_specifiers -> (c = 102 -> no_digit rest) ->
  parse_value lc C c 0 f (spec_out c ++ rest) = Some (Some (effect c f, rest)).
Proof.
  pose proof printable_bounds as (H1 & H2 & H3 & H4 & H5 & H6 & H7).
  destruct Ht as [_ _ Hy ? ? ? Hns _ Hg [_ HG] [_ HV]].
  intros Hc Hf. number_cases Hc; cbn [parse_value spec_out effect];
    try (apply (parse_field_decimal 2); simpl; lia || done);
    try (apply parse_year_number_decimal; done);
    try (erewrite (parse_field_decimal 2); [reflexivity|reflexivity|simpl; lia..]).
  - done.
  - assert (exists w r, nanosecond_digits 9 (tm_nsec t) 1000000000 ++ rest = 48 + w mod 10 :: r) as (w & r & E).
    { destruct (nanosecond_digits_first 8 (tm_nsec t) 1000000000) as (w & r & ->). by eexists w, _. }
    pose proof (nsec_loop_digits 8 (tm_nsec t) 0 rest (Hf eq_refl) ltac:(lia)) as L. 
    change (10 ^ Z.of_nat 9) with 1000000000 in L. change (10 ^ Z.of_nat 8) with 100000000 in L.
    rewrite E in *. cbn [head mbind option_bind]. rewrite is_digit_of. cbn [negb]. rewrite L. cbn [mbind option_bind].
    rewrite Z.mod_small by lia. done.
  - apply (parse_field_decimal 3); simpl; lia.
  - rewrite (parse_field_decimal 2 (tm_mon t + 1)) by (simpl; lia). do 4 f_equal. lia.
  - rewrite (parse_field_decimal 1 (if tm_wday t =? 0 then 7 else tm_wday t)) by (try done; zcases).
    do 4 f_equal. zcases.
  - apply (parse_field_decimal 1); simpl; lia.
  - assert (E : exists r, decimal 2 ((tm_year t + 1900) mod 100) ++ rest = 48 + ((tm_year t + 1900) mod 100 / 10) mod 10 :: r)
      by (by eexists). destruct E as [r E].
    pose proof (parse_field_decimal 2 _ _ 0 99 set_year f rest (eq_refl ((tm_year t + 1900) mod 100))
      ltac:(lia) ltac:(lia) ltac:(simpl; lia) ltac:(lia)) as L.
    rewrite E in *. cbn [head mbind option_bind].
    rewrite (proj2 (Z.eqb_neq _ 45)), (proj2 (Z.eqb_neq _ 43)) by lia. done.
  - change (parse_offset (f_gmtoff f) (((if offset_number <? 0 then 45 else 43) :: decimal 4 (Z.abs offset_number)) ++ rest)
      ≫= (fun '(gmtoff, buf) => Some (Some (set_gmtoff gmtoff f, buf))) = Some (Some (set_gmtoff (tm_gmtoff t) f, rest))).
    unfold offset_number. rewrite parse_offset_decimal by lia. cbn [mbind option_bind]. do 4 f_equal. lia.
Qed.

(** ** Reading a conversion specification *)

Lemma plain_specifier c : c ∈ number_specifiers ++ expanding_specifiers ->
  between 48 c 57 = false /\ between 49 c 57 = false /\ (c =? 48) = false /\ (c =? 43) = false /\ (c =? 69) = false /\
  (c =? 79) = false.
Proof.
  intros Hc. assert (H : forallb (fun c => negb (between 48 c 57 || between 49 c 57 || (c =? 48) || (c =? 43) || (c =? 69) ||
    (c =? 79))) (number_specifiers ++ expanding_specifiers) = true) by (by vm_compute).
  rewrite forallb_forall in H. specialize (H c ltac:(by apply list_elem_of_In)). cbv beta in H.
  rewrite negb_true_iff, !orb_false_iff in H. tauto.
Qed.

Lemma next_peek sub fmt c sub' fmt' : FORMAT_NEXT sub fmt = Some (c, sub', fmt') -> FORMAT_PEEK sub fmt = Some c.
Proof. unfold FORMAT_NEXT, FORMAT_PEEK. destruct sub; [destruct fmt|]; naive_solver. Qed.

(** Both functions come to the specifier at once. *)
Lemma specification_read sub fmt sub1 fmt1 c sub2 fmt2 f buf :
  FORMAT_NEXT sub fmt = Some (37, sub1, fmt1) -> FORMAT_NEXT sub1 fmt1 = Some (c, sub2, fmt2) ->
  c ∈ number_specifiers ++ expanding_specifiers ->
  strftime_turn lc C t sub fmt = strftime_specifier lc C t c false 0 32 sub2 fmt2 /\
  strptime_turn lc C f sub fmt buf = strptime_specifier lc C f c 0 sub2 fmt2 buf.
Proof.
  intros H37 Hc Hp. destruct (plain_specifier c Hp) as (Hb1 & Hb2 & H1 & H2 & H3 & H4).
  pose proof (next_peek _ _ _ _ _ H37) as P37. pose proof (next_peek _ _ _ _ _ Hc) as Pc.
  unfold strftime_turn, strptime_turn. rewrite P37. cbn [mbind option_bind Z.eqb Pos.eqb]. rewrite H37.
  cbn [mbind option_bind]. unfold strftime_conversion, strptime_conversion. cbn [parse_flags skip_flags]. rewrite Pc.
  cbn [mbind option_bind]. rewrite H1, H2. cbn [orb mbind option_bind]. unfold parse_width. rewrite Pc.
  cbn [mbind option_bind]. rewrite Hb2. cbn [mbind option_bind]. unfold parse_modifier. rewrite Pc.
  cbn [mbind option_bind]. rewrite H3, H4. cbn [orb mbind option_bind]. rewrite Hc. done.
Qed.

Lemma print_full_year v : 0 <= v < 10000 -> print_number (number_conversion v 4) true 4 32 = Some (decimal 4 v).
Proof.
  intros Hv. unfold print_number. cbn [cv_number cv_sign cv_precision cv_padding number_conversion].
  rewrite (proj2 (Z.ltb_ge v 0)) by lia. destruct (number_buf_decimal 4 24 v []) as (n & Hn & Hvn & ->); [simpl; lia..|].
  cbn [mbind option_bind]. rewrite app_nil_r, length_decimal, (proj2 (Z.ltb_ge 4 _)) by lia. cbn.
  replace (Z.to_nat (4 - Z.of_nat n)) with (4 - n)%nat by lia. rewrite <- decimal_pad by lia.
  replace (4 - n + n)%nat with 4%nat by lia. done.
Qed.

(** ** Tokens *)

Definition token_out (tk : token) : list Z := match tk with Lit c => [c] | Spec c => spec_out c end.
Fixpoint outs (tks : list token) : list Z := match tks with [] => [] | tk :: tks => token_out tk ++ outs tks end.

Definition token_effect (tk : token) (f : fields) : fields := match tk with Lit _ => f | Spec c => effect c f end.
Fixpoint effects (tks : list token) (f : fields) : fields :=
  match tks with [] => f | tk :: tks => effects tks (token_effect tk f) end.

Lemma outs_app a b : outs (a ++ b) = outs a ++ outs b.
Proof. induction a as [|tk a IH]; [done|]. simpl. by rewrite IH, app_assoc. Qed.

Lemma effects_app a b f : effects (a ++ b) f = effects b (effects a f).
Proof. revert f. induction a as [|tk a IH]; intros f; [done|]. simpl. apply IH. Qed.

(** The specifier itself. *)
Lemma number_specifier c sub fmt f rest : c ∈ number_specifiers -> (c = 102 -> no_digit rest) ->
  strftime_specifier lc C t c false 0 32 sub fmt = Some (spec_out c, sub, fmt) /\
  strptime_specifier lc C f c 0 sub fmt (spec_out c ++ rest) = Some (Some (effect c f, sub, fmt, rest)).
Proof.
  intros Hc Hf. split.
  - unfold strftime_specifier. destruct (decide (c = 102)) as [->|Hne].
    + cbn [specifier mbind option_bind]. unfold print_nanoseconds. pose proof (pr_nsec _ _ _ _ Ht).
      rewrite (uN_small 64) by (unfold in_unsigned; lia). rewrite Z2Nat.nonpos by lia. cbn [replicate].
      by rewrite app_nil_r.
    + destruct (spec_print c Hc Hne) as (cv & -> & Hcv). cbn [mbind option_bind]. by rewrite Hcv.
  - unfold strptime_specifier.
    assert (E : subformat_of lc c = None /\ (c =? 70) = false) by (number_cases Hc; done). destruct E as [-> ->].
    by rewrite spec_parse.
Qed.

Lemma expanding_specifier c fmt f rest : c ∈ expanding_specifiers ->
  strftime_specifier lc C t c false 0 32 [] fmt = Some (outs (expand_now (Spec c)), render (expand_sub (Spec c)), fmt) /\
  strptime_specifier lc C f c 0 [] fmt (outs (expand_now (Spec c)) ++ rest) =
    Some (Some (effects (expand_now (Spec c)) f, render (expand_sub (Spec c)), fmt, rest)).
Proof.
  intros Hc. let l := eval vm_compute in expanding_specifiers in change expanding_specifiers with l in Hc.
  pose proof (pr_year _ _ _ _ Ht) as Hy.
  repeat (apply elem_of_cons in Hc as [->|Hc]); [..|by apply not_elem_of_nil in Hc]; [|done..].
  unfold strftime_specifier, strptime_specifier. cbn [specifier subformat_of mbind option_bind expand_now expand_sub outs
    effects token_out token_effect spec_out effect app render token_text]. cbn [Z.eqb Pos.eqb andb negb Z.leb Z.compare].
  unfold print_conversion, year_number. cbn [cv_string cv_wstring number_conversion].
  rewrite app_nil_r, parse_year_number_decimal by done. fold (number_conversion (tm_year t + 1900) 4).
  rewrite print_full_year by done. done.
Qed.

(** ** The loops over the format *)

Context `{!CtypeLaws C} `{!AsciiCompatible C}.

Lemma mbtoc32_ascii c rest : 0 <= c < 128 ->
  mbtoc32 C (c :: rest) SIZE_MAX mbstate_init = Some (MbChar 1 c, mbstate_init).
Proof.
  intros Hc. change (c :: rest) with ([c] ++ rest).
  by rewrite (law_decode c [c] rest SIZE_MAX) by (done || lia || by apply ascii_single).
Qed.

(** The next character is an ASCII character and not white space. *)
Definition plain_next (buf : list Z) : Prop :=
  exists c buf', buf = c :: buf' /\ 0 <= c < 128 /\ StrToInt.iswspace c = false.

Lemma parse_whitespace_stop fuel buf b : plain_next buf ->
  parse_whitespace (S fuel) C buf mbstate_init b = Some (b, buf).
Proof.
  intros (c & buf' & -> & Hc & Hs). cbn [parse_whitespace]. rewrite mbtoc32_ascii by done. cbn [mbind option_bind].
  by rewrite Hs.
Qed.

Lemma skip_space_plain buf : plain_next buf -> skip_space C buf = Some (false, buf).
Proof. apply parse_whitespace_stop. Qed.

Lemma skip_space_one c buf : 0 <= c < 128 -> StrToInt.iswspace c = true -> plain_next buf ->
  skip_space C (c :: buf) = Some (true, buf).
Proof.
  intros Hc Hs Hb. unfold skip_space. cbn [parse_whitespace]. rewrite mbtoc32_ascii by done. cbn [mbind option_bind].
  rewrite Hs. cbn [negb orb Z.ltb Z.compare]. change (Z.to_nat 1) with 1%nat. cbn [drop length].
  rewrite ?drop_0. by apply parse_whitespace_stop.
Qed.

(** What a subformat consists of. *)
Definition sub_token (tk : token) : Prop :=
  match tk with
  | Lit c => 0 <= c < 128 /\ c <> 37 /\ StrToInt.iswspace c = false
  | Spec c => c ∈ number_specifiers /\ c <> 102
  end.

Lemma expand_sub_tokens tk : Forall sub_token (expand_sub tk).
Proof.
  assert (H : Forall sub_token (expand_sub (Spec 70) ++ expand_sub (Spec 84) ++ expand_sub (Spec 82) ++ expand_sub (Spec 68))).
  { cbn [expand_sub app]. repeat (constructor; [first [by vm_compute; intuition congruence|
      split; [apply (bool_decide_unpack _); by vm_compute|done]]|]). constructor. }
  destruct tk as [c|c]; [constructor|]. rewrite !Forall_app in H. unfold expand_sub in *.
  repeat case_match; try exact (list.Forall_nil_2 _); tauto.
Qed.

Lemma sub_token_turn tk sub fmt f rest : sub_token tk ->
  strftime_turn lc C t (token_text tk ++ sub) fmt = Some (token_out tk, sub, fmt) /\
  strptime_turn lc C f (token_text tk ++ sub) fmt (token_out tk ++ rest) =
    Some (Some (token_effect tk f, sub, fmt, rest)).
Proof.
  destruct tk as [c|c]; cbn [token_text token_out token_effect app].
  - intros (Hc & H37 & Hs). unfold strftime_turn, strptime_turn. cbn [FORMAT_PEEK mbind option_bind].
    rewrite (proj2 (Z.eqb_neq c 37)) by done. unfold put_wide. rewrite Hs, (ascii_single c) by done.
    cbn [match_bytes]. rewrite Z.eqb_refl. done.
  - intros [Hc Hne]. destruct (specification_read (37 :: c :: sub) fmt (c :: sub) fmt c sub fmt f (spec_out c ++ rest))
      as [-> ->]; [done|done|apply elem_of_app; by left|]. by apply number_specifier.
Qed.

Lemma sub_loop sub : forall fuel fmt f rest, Forall sub_token sub -> fmt <> [] ->
  strftime_text (length sub + fuel) lc C t (render sub) fmt = (fun r => outs sub ++ r) <$> strftime_text fuel lc C t [] fmt /\
  strptime_loop (length sub + fuel) lc C f (render sub) fmt (outs sub ++ rest) =
    strptime_loop fuel lc C (effects sub f) [] fmt rest.
Proof.
  induction sub as [|tk sub IH]; intros fuel fmt f rest Hs Hf; cbn [length Nat.add render outs effects app].
  - split; [|done]. by destruct (strftime_text fuel lc C t [] fmt).
  - inversion Hs as [|? ? Htk Hs']; subst. destruct fmt as [|x fmt]; [done|].
    destruct (sub_token_turn tk (render sub) (x :: fmt) f (outs sub ++ rest) Htk) as [H1 H2].
    destruct (IH fuel (x :: fmt) (token_effect tk f) rest Hs' Hf) as [IH1 IH2].
    cbn [strftime_text strptime_loop head mbind option_bind].
    assert (Hne : bool_decide (token_text tk ++ render sub = []) = false)
      by (apply bool_decide_eq_false; by destruct tk). rewrite Hne. cbn [negb]. rewrite orb_true_r, <- app_assoc, H1, H2.
    cbn [mbind option_bind parse_bind]. rewrite IH1, IH2. split; [|done].
    destruct (strftime_text fuel lc C t [] (x :: fmt)); [|done]. cbn. by rewrite <- app_assoc.
Qed.

(** A token of the format itself. *)
Lemma token_turn tk fmt f rest : token_ok tk = true -> (tk = Spec 102 -> no_digit rest) ->
  (is_space tk = true -> plain_next fmt /\ plain_next rest) ->
  strftime_turn lc C t [] (token_text tk ++ fmt) = Some (outs (expand_now tk), render (expand_sub tk), fmt) /\
  strptime_turn lc C f [] (token_text tk ++ fmt) (outs (expand_now tk) ++ rest) =
    Some (Some (effects (expand_now tk) f, render (expand_sub tk), fmt, rest)).
Proof.
  destruct tk as [c|c]; cbn [token_ok token_text app is_space]; intros Hok Hf Hsp.
  - unfold between in Hok. apply andb_true_iff in Hok as [Hc H37]. apply andb_true_iff in Hc as [Hc1 Hc2].
    apply negb_true_iff in H37. zprop. cbn [expand_now expand_sub outs effects render token_out token_effect app].
    unfold strftime_turn, strptime_turn. cbn [FORMAT_PEEK head mbind option_bind].
    rewrite (proj2 (Z.eqb_neq c 37)) by done. split; [done|].
    destruct (StrToInt.iswspace c) eqn:Es.
    + destruct (Hsp eq_refl) as [Hp1 Hp2]. rewrite !skip_space_one by (done || lia). done.
    + rewrite (skip_space_plain (c :: fmt)) by (eexists c, _; split; [done|]; split; [lia|done]). cbn [mbind option_bind match_bytes].
      by rewrite Z.eqb_refl.
  - apply bool_decide_eq_true in Hok.
    destruct (specification_read [] (37 :: c :: fmt) [] (c :: fmt) c [] fmt f (outs (expand_now (Spec c)) ++ rest)) as [-> ->];
      [done|done|done|]. apply elem_of_app in Hok as [Hc|Hc]; [|by apply expanding_specifier].
    assert (E : expand_now (Spec c) = [Spec c] /\ expand_sub (Spec c) = []) by (number_cases Hc; done).
    destruct E as [-> ->]. cbn [outs effects token_out token_effect render]. rewrite app_nil_r.
    apply number_specifier; [done|]. intros ->. by apply Hf.
Qed.

Lemma decimal_first k v : (1 <= k)%nat -> exists w r, decimal k v = 48 + w mod 10 :: r.
Proof.
  destruct k as [|k]; [lia|]. intros _. revert v. induction k as [|k IH]; intros v; [by eexists v, []|].
  destruct (IH (v / 10)) as (w & r & E). cbn [decimal] in *. rewrite E. by eexists w, _.
Qed.

Lemma digit_plain w : 0 <= 48 + w mod 10 < 128 /\ StrToInt.iswspace (48 + w mod 10) = false.
Proof. unfold StrToInt.iswspace, between. split; [lia|]. zcases. Qed.

(** The first character of what a specifier prints. *)
Lemma spec_first c : c ∈ number_specifiers -> exists x r, spec_out c = x :: r /\ 0 <= x < 128 /\
  StrToInt.iswspace x = false /\ (digit_first (Spec c) = false -> is_digit x = false).
Proof.
  intros Hc. number_cases Hc; cbn [spec_out digit_first Z.eqb Pos.eqb orb negb];
    try (match goal with |- context [decimal ?k ?v] => destruct (decimal_first k v) as (w & r & E); [lia|] end;
         exists (48 + w mod 10), r; split; [exact E|]; destruct (digit_plain w); done).
  - by exists 37, [].
  - destruct (nanosecond_digits_first 8 (tm_nsec t) 1000000000) as (w & r & ->). eexists _, _. split; [done|].
    by destruct (digit_plain w).
  - eexists _, _. split; [done|]. destruct (offset_number <? 0); done.
Qed.

Lemma token_first tk rest : token_ok tk = true -> exists x r, outs (expand tk) ++ rest = x :: r /\ 0 <= x < 128 /\
  (is_space tk = false -> StrToInt.iswspace x = false) /\ (digit_first tk = false -> is_digit x = false).
Proof.
  destruct tk as [c|c]; cbn [token_ok is_space]; intros Hok.
  - unfold between in Hok. apply andb_true_iff in Hok as [Hc _]. apply andb_true_iff in Hc as [Hc1 Hc2]. zprop.
    exists c, rest. cbn. split; [done|]. split; [lia|done].
  - assert (Hn : forall c', c' ∈ number_specifiers -> forall tks, expand (Spec c) = Spec c' :: tks ->
      (digit_first (Spec c) = false -> digit_first (Spec c') = false) ->
      exists x r, outs (expand (Spec c)) ++ rest = x :: r /\ 0 <= x < 128 /\
        (false = false -> StrToInt.iswspace x = false) /\ (digit_first (Spec c) = false -> is_digit x = false)).
    { intros c' Hc' tks E Hd. rewrite E. destruct (spec_first c' Hc') as (x & r & Ex & Hx & Hs & Hdx).
      cbn [outs token_out]. rewrite Ex. eexists x, _. split; [done|]. split; [done|]. split; [done|]. auto. }
    apply bool_decide_eq_true, elem_of_app in Hok as [Hc|Hc].
    + apply (Hn c Hc []); [|done]. number_cases Hc; done.
    + let l := eval vm_compute in expanding_specifiers in change expanding_specifiers with l in Hc.
      assert (Hel : forall c', bool_decide (c' ∈ number_specifiers) = true -> c' ∈ number_specifiers)
        by (intros c'; apply bool_decide_eq_true).
      repeat (apply elem_of_cons in Hc as [->|Hc]); [..|by apply not_elem_of_nil in Hc];
        [eapply (Hn 89)|eapply (Hn 72)|eapply (Hn 72)|eapply (Hn 109)]; try reflexivity; try done;
        apply Hel; by vm_compute.
Qed.

Lemma format_first tks : forallb token_ok tks = true ->
  match tks with [] => True | tk :: _ => is_space tk = false end -> plain_next (render tks ++ [0]).
Proof.
  destruct tks as [|tk tks]; intros Hok Hs; [by exists 0, []|]. cbn [forallb] in Hok.
  apply andb_true_iff in Hok as [Hok _]. destruct tk as [c|c]; [|by eexists 37, _].
  cbn [token_ok is_space] in *. unfold between in Hok. apply andb_true_iff in Hok as [Hc _].
  apply andb_true_iff in Hc as [Hc1 Hc2]. zprop. eexists c, _. split; [done|]. split; [lia|done].
Qed.

Lemma readable_tokens tks : readable tks = true -> forallb token_ok tks = true.
Proof.
  induction tks as [|tk tks IH]; [done|]. cbn [readable forallb]. rewrite !andb_true_iff. intros [[H1 _] H2]. auto.
Qed.

(** What strftime prints, strptime reads, and they use the same number of
    turns. *)
Lemma format_loop tks g : readable tks = true -> forall fuel f,
  strftime_text (steps tks + fuel) lc C t [] (render tks ++ [0]) = Some (outs (flatten tks)) /\
  strptime_loop (steps tks + fuel) lc C f [] (render tks ++ [0]) (outs (flatten tks) ++ 0 :: g) =
    Some (Some (effects (flatten tks) f, 0 :: g)).
Proof.
  induction tks as [|tk tks IH]; intros Hr fuel f; [by destruct fuel|].
  pose proof (readable_tokens _ Hr) as Hok. cbn [readable] in Hr. rewrite !andb_true_iff in Hr. destruct Hr as [[Htk Hfol] Hr].
  cbn [forallb] in Hok. apply andb_true_iff in Hok as [_ Hok].
  cbn [steps flatten render]. unfold expand. rewrite !outs_app, !effects_app, <- !app_assoc. set (now := expand_now tk).
  set (rest := outs (flatten tks) ++ 0 :: g). set (fmt := render tks ++ [0]).
  assert (Hfirst : (tk = Spec 102 -> no_digit (outs (expand_sub tk) ++ rest)) /\
    (is_space tk = true -> plain_next fmt /\ plain_next (outs (expand_sub tk) ++ rest))).
  { destruct tks as [|tk' tks'].
    - split; [intros ->; by eexists 0, _|]. intros Hs. destruct tk as [c|c]; [|done]. split; by eexists 0, _.
    - unfold rest, fmt. cbn [flatten]. rewrite outs_app, <- app_assoc. cbn [forallb] in Hok.
      pose proof Hok as Hok'. apply andb_true_iff in Hok as [Htk' _].
      destruct (token_first tk' (outs (flatten tks') ++ 0 :: g) Htk') as (x & r & -> & Hx & Hxs & Hxd). split.
      + intros ->. cbn in Hfol. apply negb_true_iff in Hfol. exists x, r. auto.
      + intros Hs. destruct tk as [c|c]; [|done]. cbn [may_follow is_space] in *. rewrite Hs in Hfol.
        apply negb_true_iff in Hfol. split; [by apply (format_first (tk' :: tks'))|]. cbn. exists x, r. auto. }
  destruct (token_turn tk fmt f (outs (expand_sub tk) ++ rest) Htk (proj1 Hfirst) (proj2 Hfirst)) as [T1 T2]. fold now in T1, T2.
  destruct (IH Hr fuel (effects (expand_sub tk) (effects now f))) as [IH1 IH2]. fold fmt rest in IH1, IH2.
  destruct (sub_loop (expand_sub tk) (steps tks + fuel) fmt (effects now f) rest) as [S1 S2];
    [apply expand_sub_tokens|unfold fmt; by destruct (render tks)|].
  assert (Hh : exists x, head (token_text tk ++ fmt) = Some x /\ (x =? 0) = false).
  { destruct tk as [c|c]; [|by exists 37]. exists c. split; [done|]. cbn [token_ok] in Htk. unfold between in Htk.
    apply andb_true_iff in Htk as [Hc _]. apply andb_true_iff in Hc as [Hc _]. zprop. lia. }
  destruct Hh as (x & Hh & Hx). cbn [Nat.add strftime_text strptime_loop]. rewrite <- Nat.add_assoc, Hh.
  cbn [mbind option_bind]. rewrite Hx. cbn [negb orb]. rewrite T1, T2. cbn [mbind option_bind parse_bind].
  rewrite S1, S2, IH1, IH2. done.
Qed.

(** ** The fields that were read *)

Lemma flatten_numbers tks c : readable tks = true -> has (flatten tks) c = true -> c ∈ number_specifiers.
Proof.
  intros Hr%readable_tokens. induction tks as [|tk tks IH]; [done|]. cbn [forallb flatten] in *.
  apply andb_true_iff in Hr as [Htk Hr]. unfold has in *. rewrite existsb_app, orb_true_iff. intros [H|H]; [|auto].
  unfold expand in H. rewrite existsb_app, orb_true_iff in H. destruct H as [H|H].
  - destruct tk as [x|x]; [done|]. apply bool_decide_eq_true, elem_of_app in Htk as [Hx|Hx].
    + assert (E : expand_now (Spec x) = [Spec x]) by (number_cases Hx; done). rewrite E in H. cbn [existsb] in H.
      rewrite orb_false_r in H. zprop. by subst.
    + let l := eval vm_compute in expanding_specifiers in change expanding_specifiers with l in Hx.
      repeat (apply elem_of_cons in Hx as [->|Hx]); [..|by apply not_elem_of_nil in Hx]; try done.
      cbn [expand_now existsb] in H. rewrite orb_false_r in H. zprop. subst.
      apply (proj1 (bool_decide_eq_true _)). by vm_compute.
  - pose proof (expand_sub_tokens tk) as Hs. rewrite list.Forall_forall in Hs.
    apply existsb_exists in H as (tk' & Hin & Hc). apply list_elem_of_In in Hin. specialize (Hs tk' Hin).
    destruct tk' as [x|x]; [done|]. zprop. subst. by destruct Hs.
Qed.

(** A field that the specifiers in [S] set to [v], and no other. *)
Lemma effects_field {A} (p : fields -> A) (S : Z -> bool) v tks : forall f,
  (forall c f, has tks c = true -> p (effect c f) = if S c then v else p f) ->
  p (effects tks f) = if existsb (fun tk => match tk with Spec c => S c | Lit _ => false end) tks then v else p f.
Proof.
  induction tks as [|tk tks IH]; intros f H; [done|]. cbn [effects existsb].
  rewrite IH by (intros c f' Hc; apply H; unfold has in *; cbn [existsb]; rewrite Hc; apply orb_true_r). destruct tk as [c|c]; [done|].
  cbn [token_effect]. rewrite H by (unfold has; cbn [existsb]; by rewrite Z.eqb_refl). by destruct (S c), (existsb _ tks).
Qed.

Section Fields.
  Context (tks : list token) (Hnum : forall c, has tks c = true -> c ∈ number_specifiers).

#[local] Abbreviation h := (has tks).
#[local] Abbreviation f := (effects tks no_fields).

#[local] Ltac field_effect :=
  let c := fresh "c" in let f := fresh "f" in let Hc := fresh "Hc" in
  intros c f Hc; pose proof (Hnum c Hc) as Hn; number_cases Hn; try done; congruence.

Lemma has_two a b : existsb (fun tk => match tk with Spec c => (c =? a) || (c =? b) | Lit _ => false end) tks = h a || h b.
Proof.
  unfold has. clear Hnum. induction tks as [|tk l IH]; [done|]. cbn [existsb]. rewrite IH.
  destruct tk as [c|c]; [done|]. destruct (c =? a), (c =? b); cbn [orb]; by rewrite ?orb_true_r.
Qed.

Lemma field_values :
  f_hour f = (if h 72 then tm_hour t else 0) /\ f_min f = (if h 77 then tm_min t else 0) /\
  f_sec f = (if h 83 then tm_sec t else 0) /\ f_mday f = (if h 100 then tm_mday t else -1) /\
  f_mon f = (if h 109 then tm_mon t else 0) /\ f_wday f = (if h 117 || h 119 then tm_wday t else -1) /\
  f_yday f = (if h 106 then tm_yday t + 1 else -1) /\ f_gmtoff f = (if h 122 then tm_gmtoff t else 0) /\
  f_nsec f = (if h 102 then tm_nsec t else 0).
Proof.
  rewrite <- has_two. repeat split.
  - apply (effects_field f_hour (fun c => c =? 72)). field_effect.
  - apply (effects_field f_min (fun c => c =? 77)). field_effect.
  - apply (effects_field f_sec (fun c => c =? 83)). field_effect.
  - apply (effects_field f_mday (fun c => c =? 100)). field_effect.
  - apply (effects_field f_mon (fun c => c =? 109)). field_effect.
  - apply (effects_field f_wday (fun c => (c =? 117) || (c =? 119))). field_effect.
  - apply (effects_field f_yday (fun c => c =? 106)). field_effect.
  - apply (effects_field f_gmtoff (fun c => c =? 122)). field_effect.
  - apply (effects_field f_nsec (fun c => c =? 102)). field_effect.
Qed.

Lemma week_values : h 85 = false \/ h 87 = false -> h 86 = false \/ (h 85 = false /\ h 87 = false) ->
  (f_week f, f_wday1 f, f_wday_in_prevyear f) =
    if h 85 then (sunday_week, 0, 0) else if h 87 then (monday_week, 1, 0)
    else if h 86 then (iso_week, 1, 3) else (-1, 0, 0).
Proof.
  intros H1 H2. set (p := fun f => (f_week f, f_wday1 f, f_wday_in_prevyear f)).
  change (p f = if h 85 then (sunday_week, 0, 0) else if h 87 then (monday_week, 1, 0)
    else if h 86 then (iso_week, 1, 3) else (-1, 0, 0)).
  destruct (h 85) eqn:E85; [|destruct (h 87) eqn:E87; [|destruct (h 86) eqn:E86]].
  - rewrite (effects_field p (fun c => c =? 85) (sunday_week, 0, 0)) by (destruct H1, H2 as [|[]]; field_effect).
    fold (has tks 85). by rewrite E85.
  - rewrite (effects_field p (fun c => c =? 87) (monday_week, 1, 0)) by (destruct H2 as [|[]]; field_effect).
    fold (has tks 87). by rewrite E87.
  - rewrite (effects_field p (fun c => c =? 86) (iso_week, 1, 3)) by field_effect. fold (has tks 86). by rewrite E86.
  - rewrite (effects_field p (fun c => c =? 86) (iso_week, 1, 3)) by field_effect. fold (has tks 86). by rewrite E86.
Qed.

Lemma year_value : date_given h (tm_year t) = true ->
  strptime_year f = Some (if h 71 then iso_year else tm_year t).
Proof.
  pose proof (pr_year _ _ _ _ Ht) as Hy. pose proof (proj2 (pr_iso_year _ _ _ _ Ht)) as Hi.
  unfold date_given. cbv zeta. set (p := fun f => (f_century_specified f, f_century f, f_century_negative f)).
  intros Hg.
  assert (E : p f = (if h 71 then (true, (iso_year + 1900) / 100, false)
    else if h 89 then (true, (tm_year t + 1900) / 100, false) else (false, 0, false)) /\
    f_year f = (if h 71 then iso_year + 1900 else tm_year t + 1900) mod 100 /\ (h 71 = false -> h 89 = false ->
      69 <= tm_year t <= 168)).
  { destruct (h 71) eqn:E71.
    - assert (h 89 = false /\ h 121 = false) as [E89 E121] by (by destruct (h 89), (h 121); rewrite ?orb_true_r, ?andb_false_r in Hg).
      rewrite (effects_field p (fun c => c =? 71) (true, (iso_year + 1900) / 100, false)) by field_effect.
      rewrite (effects_field f_year (fun c => c =? 71) ((iso_year + 1900) mod 100)) by field_effect.
      fold (has tks 71). by rewrite E71.
    - rewrite (effects_field p (fun c => c =? 89) (true, (tm_year t + 1900) / 100, false)) by field_effect.
      rewrite (effects_field f_year (fun c => (c =? 89) || (c =? 121)) ((tm_year t + 1900) mod 100)) by field_effect.
      rewrite has_two. fold (has tks 89). unfold between in Hg. destruct (h 89); [done|]. destruct (h 121); [|done].
      cbn [orb andb] in *. split; [done|]. split; [done|]. intros _ _.
      destruct (Z.leb_spec 69 (tm_year t)), (Z.leb_spec (tm_year t) 168); cbn [andb] in Hg; [lia|discriminate..]. }
  destruct E as (Ep & Ey & Hc). unfold p in Ep. unfold strptime_year. rewrite Ey.
  assert (Hint : forall c y n, 0 <= c * 100 <= 10000 -> 0 <= y < 100 -> c * 100 + y - 1900 = n ->
    (c ← as_int (c * 100); y ← as_int (c + y); as_int (y - 1900)) = Some n).
  { intros c y n Hc' Hy' <-. rewrite as_int_ok by (unfold INT_MIN, INT_MAX; lia). cbn [mbind option_bind].
    rewrite as_int_ok by (unfold INT_MIN, INT_MAX; lia). cbn [mbind option_bind].
    by rewrite as_int_ok by (unfold INT_MIN, INT_MAX; lia). }
  destruct (h 71); [injection Ep as -> -> ->; apply Hint; lia|].
  destruct (h 89); [injection Ep as -> -> ->; apply Hint; lia|]. injection Ep as -> _ _. specialize (Hc eq_refl eq_refl).
  destruct (Z.leb_spec 69 ((tm_year t + 1900) mod 100)); apply Hint; lia.
Qed.

(** The weeks start where the weeks of the date do. *)
Lemma week_start year week wday1 prev :
  (year, week, wday1, prev) = (tm_year t, sunday_week, 0, 0) \/ (year, week, wday1, prev) = (tm_year t, monday_week, 1, 0) \/
  (year, week, wday1, prev) = (iso_year, iso_week, 1, 3) ->
  let w := wday_until ((year_day year + 4) mod 7) wday1 in
  year_day year + week * 7 - (if w <=? prev then w + 7 else w) = d - (d + 4 - wday1) mod 7.
Proof.
  pose proof Ht as [Hd Hw Hy _ _ _ _ _ [Hg _] [EY HY] [EW HW]]. pose proof (do_day _ _ _ _ _ Hd) as Hday.
  destruct (iso_8601_spec t d Hd Hw ltac:(lia) ltac:(lia)) as (y' & w' & EY' & EW' & _ & Hth & Ew). rewrite EY in EY'. rewrite EW in EW'.
  injection EY' as <-. injection EW' as <-. pose proof (proj1 (proj2 (proj2 (proj2 printable_bounds)))) as Bwd. cbv zeta.
  unfold wday_until, sunday_week, monday_week in *.
  intros [E|[E|E]]; injection E as -> -> -> ->; zcases.
Qed.

(** The day is the day that was printed. *)
Lemma day_value : date_given h (tm_year t) = true -> strptime_day f = Some (d * 86400).
Proof.
  intros Hg. pose proof (year_value Hg) as Hyear. pose proof field_values as (_ & _ & _ & Hmd & Hmo & Hwd & Hyd & _).
  pose proof Ht as [Hd Hw Hy _ _ _ _ _ _ _ [_ HW]]. pose proof printable_bounds as (Bmd & _ & Byd & Bwd & Bsw & Bmw & _).
  pose proof (do_day _ _ _ _ _ Hd) as Hday. unfold strptime_day. rewrite Hyear. cbn [mbind option_bind]. rewrite Hyd.
  unfold date_given in Hg. cbv zeta in Hg.
  assert (Hwk : h 117 || h 119 || h 100 = true -> forall year week wday1 prev,
    (f_week f, f_wday1 f, f_wday_in_prevyear f) = (week, wday1, prev) ->
    (year, week, wday1, prev) = (tm_year t, sunday_week, 0, 0) \/ (year, week, wday1, prev) = (tm_year t, monday_week, 1, 0) \/
    (year, week, wday1, prev) = (iso_year, iso_week, 1, 3) -> (0 <=? f_week f) = true /\
    strptime_week f (tm_start year) = Some (d * 86400)).
  { intros Hin year week wday1 prev [= Ew E1 Ep] Hcase. split; [rewrite Ew; apply Z.leb_le; naive_solver (lia)|].
    apply (strptime_week_ok f year d (tm_year t) (tm_yday t) (tm_mon t) (tm_mday t)); [done|lia|naive_solver (lia)| |].
    - rewrite Ew, E1, Ep. by apply week_start.
    - rewrite Hwd, Hmd, <- Hw. destruct (h 117 || h 119); [by left|]. cbn [orb] in Hin. rewrite Hin. by right. }
  destruct (h 106) eqn:E106.
  { rewrite (proj2 (Z.leb_le _ _)) by lia. rewrite mktime_yday. cbn [mbind option_bind tv_sec].
    destruct (h 71); [by rewrite ?orb_true_r, ?andb_false_r in Hg|]. f_equal. lia. }
  cbn [Z.leb Z.compare]. destruct (h 71) eqn:E71.
  - destruct (h 86) eqn:E86, (h 85) eqn:E85, (h 87) eqn:E87; try done. cbn [orb negb andb] in Hg.
    apply andb_true_iff in Hg as [_ Hin]. pose proof week_values as Hv. rewrite E85, E86, E87 in Hv.
    destruct (Hwk Hin iso_year _ _ _ (Hv ltac:(by left) ltac:(by right))) as [-> ->]; [by right; right|done].
  - destruct (h 86) eqn:E86; [by rewrite andb_false_r in Hg|]. apply andb_true_iff in Hg as [_ Hg].
    pose proof week_values as Hv. rewrite E86 in Hv. destruct (h 85) eqn:E85, (h 87) eqn:E87; cbn [orb negb andb xorb] in Hg; try done.
    + destruct (Hwk ltac:(by destruct (h 117 || h 119 || h 100)) (tm_year t) _ _ _ (Hv ltac:(by right) ltac:(by left))) as [-> ->];
        [by left|done].
    + destruct (Hwk ltac:(by destruct (h 117 || h 119 || h 100)) (tm_year t) _ _ _ (Hv ltac:(by left) ltac:(by left))) as [-> ->];
        [by right; left|done].
    + injection (Hv ltac:(by left) ltac:(by left)) as -> _ _. cbn [Z.leb Z.compare]. apply andb_true_iff in Hg as [Hg100 Hg109].
      rewrite Hmd, Hmo, Hg100, Hg109, (proj2 (Z.leb_le 1 _)) by lia. by rewrite (mktime_mday _ _ _ _ _ Hd).
Qed.

(** The whole date. *)
Lemma result_value : date_given h (tm_year t) = true -> time_given h = true ->
  strptime_result f = Some (Tm (tm_sec t) (tm_min t) (tm_hour t) (tm_mday t) (tm_mon t) (tm_year t) (tm_wday t) (tm_yday t)
    (-1) (if h 122 then tm_gmtoff t else 0) None (if h 102 then tm_nsec t else 0)).
Proof.
  intros Hg Htm. unfold strptime_result. rewrite day_value by done. cbn [mbind option_bind].
  pose proof field_values as (-> & -> & -> & _ & _ & _ & _ & -> & ->). unfold time_given in Htm.
  rewrite !andb_true_iff in Htm. destruct Htm as [[-> ->] ->].
  pose proof Ht as [Hd Hw Hy Hs Hm Hh _ _ _ _ _].
  set (s := d * 86400 + tm_hour t * 3600 + tm_min t * 60 + tm_sec t). assert (Es : s / 86400 = d) by lia.
  destruct (localtime_utc_spec s) as (y & yd & mo & md & Hd' & ->). rewrite Es in Hd'.
  destruct (date_ok_unique _ _ _ _ _ _ _ _ _ Hd Hd') as (<- & <- & <- & <-).
  rewrite !(proj2 (Z.ltb_ge _ _)) by (unfold INT_MIN, INT_MAX; lia). cbn [mbind option_bind]. unfold make_tm.
  cbn [tm_sec tm_min tm_hour tm_mday tm_mon tm_year tm_wday tm_yday tm_zone]. rewrite Es, <- Hw. unfold s.
  do 2 f_equal; lia.
Qed.
End Fields.
End Specifiers.

(** ** The theorem *)

(** A UTC date that the specifiers can print: four digits for its year, and an
    offset of whole minutes below 100 hours. *)
Record printable_tm (t : tm) (d : Z) : Prop := {
  pt_date : date_ok (tm_year t) (tm_yday t) (tm_mon t) (tm_mday t) d;
  pt_wday : tm_wday t = (d + 4) mod 7;
  pt_year : 0 < tm_year t + 1900 < 9999;
  pt_time : 0 <= tm_sec t < 60 /\ 0 <= tm_min t < 60 /\ 0 <= tm_hour t < 24 /\ 0 <= tm_nsec t < 1000000000;
  pt_offset : 0 <= tm_isdst t /\ -360000 < tm_gmtoff t < 360000 /\ tm_gmtoff t mod 60 = 0
}.

Lemma printable_weeks t d : printable_tm t d -> exists iso_year iso_week, printable t d iso_year iso_week.
Proof.
  intros [Hd Hw Hy (Hs & Hm & Hh & Hn) (Hi & Hg)].
  destruct (iso_8601_spec t d Hd Hw ltac:(lia) ltac:(lia)) as (y & w & EY & EW & HW & _). exists y, w.
  assert (tm_small t) as Hsm.
  { destruct Hd as [Hyd _ _ _]. pose proof (get_ydays_bounds (tm_year t)). split; lia. }
  pose proof (iso_8601_year_bound t y Hsm EY). split; try done; try lia. split; [done|lia].
Qed.

(** C26: strptime reads back what strftime prints.  Take any format of ordinary
    ASCII characters and of the specifiers %d %f %F %G %H %j %m %M %S %T %R %D %u %U
    %V %w %W %y %Y %z and %%, without two adjacent white space characters and
    without a digit after %f, that gives the time (by %H, %M and %S) and the date: by the
    year and the day of the year, by the year and the month and its day, by the year and
    the week (counted from Sundays or from Mondays) and the day of the week or of the month,
    or by the ISO 8601 year and week and such a day.  Then in any lawful ASCII-compatible
    character set, whatever the locale, strftime prints any date of the years 1 to 9998 into
    a buffer that is large enough and strptime on that buffer stops at the terminator with the
    same date and time, tm_isdst -1 and, where the format gives them, the same nanoseconds
    and offset. *)
Theorem strptime_strftime lc C t d tks fuel
  (Hlaws : CtypeLaws C) (Hascii : AsciiCompatible C) (Ht : printable_tm t d) (Hr : readable tks = true)
  (Hd : date_given (has (flatten tks)) (tm_year t) = true) (Htime : time_given (has (flatten tks)) = true) :
  exists txt, strftime_text (steps tks + fuel) lc C t [] (render tks ++ [0]) = Some txt /\
  forall s maxsize, Z.of_nat (length txt) < maxsize <= Z.of_nat (length s) ->
  exists s', strftime_l (steps tks + fuel) lc C s maxsize (render tks ++ [0]) t = Some (Z.of_nat (length txt), s') /\
    length s' = length s /\
    strptime_l (steps tks + fuel) lc C s' (render tks ++ [0]) = Some (Some (drop (length txt) s',
      Tm (tm_sec t) (tm_min t) (tm_hour t) (tm_mday t) (tm_mon t) (tm_year t) (tm_wday t) (tm_yday t) (-1)
        (if has (flatten tks) 122 then tm_gmtoff t else 0) None (if has (flatten tks) 102 then tm_nsec t else 0))).
Proof.
  destruct (printable_weeks t d Ht) as (iy & iw & Hp). exists (outs t iy iw (flatten tks)).
  set (txt := outs t iy iw (flatten tks)).
  split; [by destruct (format_loop lc C t d iy iw Hp tks [] Hr fuel no_fields)|]. intros s maxsize Hs.
  destruct (format_loop lc C t d iy iw Hp tks (drop (S (length txt)) s) Hr fuel no_fields) as [H1 H2]. fold txt in H1, H2.
  exists (txt ++ 0 :: drop (S (length txt)) s). split; [|split].
  - unfold strftime_l. rewrite (proj2 (Z.eqb_neq _ _)) by lia.
    pose proof (strftime_loop_ok lc C t maxsize _ [] (render tks ++ [0]) txt [] s H1 ltac:(simpl; lia) ltac:(simpl; lia)) as Hl.
    cbn [length app Nat.add] in Hl. change (Z.of_nat 0) with 0 in Hl. rewrite Hl. by rewrite (proj2 (Z.ltb_lt _ _)) by lia.
  - rewrite length_app. cbn [length]. rewrite length_drop. lia.
  - unfold strptime_l. rewrite H2. cbn [parse_bind]. rewrite drop_app_length.
    rewrite (result_value t d iy iw Hp (flatten tks)); [done| |done|done]. intros c. by apply flatten_numbers.
Qed.

(** 2016-W29-2 18:31:01.04827-0230: Tuesday of week 29 of 2016. *)
Definition tm_week29 : tm := Tm 1 31 18 19 6 116 2 200 0 (-9000) None 48270000.

Lemma tm_week29_printable : printable_tm tm_week29 17001.
Proof.
  split; cbn; try lia. split; [vm_compute; split; congruence|by vm_compute|lia|]. exists 182, 31. repeat split; vm_compute; congruence.
Qed.

Lemma strptime_strftime_witness :
  let format := [Spec 71; Lit 45; Lit 87; Spec 86; Lit 45; Spec 117; Lit 32; Spec 84; Lit 46; Spec 102; Spec 122] in
  exists s', strftime_l 100 time_posix ctype_utf_8 (replicate 40 63) 40 (render format ++ [0]) tm_week29 = Some (30, s') /\
    strptime_l 100 time_posix ctype_utf_8 s' (render format ++ [0]) =
      Some (Some (drop 30 s', Tm 1 31 18 19 6 116 2 200 (-1) (-9000) None 48270000)).
Proof.
  intros format. destruct (strptime_strftime time_posix ctype_utf_8 tm_week29 17001 format 84 _ _ tm_week29_printable
    ltac:(by vm_compute) ltac:(by vm_compute) ltac:(by vm_compute)) as (txt & Htxt & H).
  vm_compute in Htxt. injection Htxt as <-. destruct (H (replicate 40 63) 40) as (s' & H1 & _ & H2); [by vm_compute|].
  exists s'. split; [exact H1|exact H2].
Defined.
