(* ===== verification/Stdio.v ===== *)
(** * Standard I/O streams

    Sources: src/common/stdio.h, the stream functions of src/libc/stdio (getc, putc,
    fread, fwrite, fgets, fputs, ungetc, fseeko, ftello, fflush, rewind, clearerr, feof,
    ferror, setvbuf) and the three providers that keep their data in memory:
    fmemopen_l.c, open_memstream_l.c and tmpfile_l.c.

    A provider lends the stream functions windows into its buffer: a read window
    [readbuf], [readbuflen] or a write window [writebuf], [writebuflen]; what they
    have consumed or produced is worked out when the windows are given back
    (drained).  Pointers into the buffer are offsets, null is [None].  Failing
    assertions and accesses outside the buffer are [None].

    The specification is a file as one thinks of it: bytes and a position, read and
    written one byte at a time.  The theorem is that every sequence of calls on a
    stream gives the results it gives on the file. *)

From S2P Require Import Prelude.
From stdpp Require Import list.

#[local] Open Scope Z_scope.

(** ** Streams *)

Definition EBADF : Z := 8.
Definition ESPIPE : Z := 70.
Definition OFF_MIN : Z := - 2 ^ 63.
Definition OFF_MAX : Z := 2 ^ 63 - 1.
Definition EOF : Z := -1.
Definition _IOFBF : Z := 1.
Definition _IOLBF : Z := 2.
Definition _IONBF : Z := 3.
Definition SEEK_CUR : Z := 1.
Definition SEEK_END : Z := 2.
Definition SEEK_SET : Z := 3.
Definition UNGETC_SIZE : Z := 16.

(** The part of struct _FILE that does not concern the buffers.  [s_ungetcs] is the
    used part of the ungetc buffer.  [s_published] is what the pointers passed to
    open_memstream were last set to: the string and the size.  [s_errno] is the
    variable errno, and [s_nalloc] counts the calls to realloc. *)
Record status := Status {
  s_eof : bool; s_error : bool; s_orientation : Z; s_buftype : Z; s_should_flush : bool; s_lockcount : Z;
  s_ungetcs : list Z; s_errno : Z; s_published : option (list Z * Z); s_nalloc : nat
}.

Definition s_set_flags (e r : bool) (s : status) : status :=
  Status e r (s_orientation s) (s_buftype s) (s_should_flush s) (s_lockcount s) (s_ungetcs s) (s_errno s) (s_published s)
    (s_nalloc s).
Definition s_set_mode (o b : Z) (s : status) : status :=
  Status (s_eof s) (s_error s) o b (s_should_flush s) (s_lockcount s) (s_ungetcs s) (s_errno s) (s_published s) (s_nalloc s).
Definition s_set_lock (n : Z) (fl : bool) (s : status) : status :=
  Status (s_eof s) (s_error s) (s_orientation s) (s_buftype s) fl n (s_ungetcs s) (s_errno s) (s_published s) (s_nalloc s).
Definition s_set_ungetcs (l : list Z) (s : status) : status :=
  Status (s_eof s) (s_error s) (s_orientation s) (s_buftype s) (s_should_flush s) (s_lockcount s) l (s_errno s)
    (s_published s) (s_nalloc s).
Definition s_set_errno (e : Z) (s : status) : status :=
  Status (s_eof s) (s_error s) (s_orientation s) (s_buftype s) (s_should_flush s) (s_lockcount s) (s_ungetcs s) e
    (s_published s) (s_nalloc s).
Definition s_set_published (p : option (list Z * Z)) (s : status) : status :=
  Status (s_eof s) (s_error s) (s_orientation s) (s_buftype s) (s_should_flush s) (s_lockcount s) (s_ungetcs s) (s_errno s) p
    (s_nalloc s).
Definition s_count_alloc (s : status) : status :=
  Status (s_eof s) (s_error s) (s_orientation s) (s_buftype s) (s_should_flush s) (s_lockcount s) (s_ungetcs s) (s_errno s)
    (s_published s) (S (s_nalloc s)).

(** struct _FILE, with the fields that fmemopen, memstream and tmpfile have in
    common; [buf] is the allocated memory. *)
Record FILE := File {
  st : status; offset : Z;
  readbuf : option Z; readbuflen : Z;
  writebuf : option Z; writebuflen : Z;
  buf : list Z; owritebuf : option Z; used : Z; size : Z; append : bool
}.

Definition eof (f : FILE) : bool := s_eof (st f).
Definition error (f : FILE) : bool := s_error (st f).
Definition orientation (f : FILE) : Z := s_orientation (st f).
Definition buftype (f : FILE) : Z := s_buftype (st f).
Definition should_flush (f : FILE) : bool := s_should_flush (st f).
Definition lockcount (f : FILE) : Z := s_lockcount (st f).
Definition ungetcs (f : FILE) : list Z := s_ungetcs (st f).
Definition nalloc (f : FILE) : nat := s_nalloc (st f).

Definition with_st (g : status -> status) (f : FILE) : FILE :=
  File (g (st f)) (offset f) (readbuf f) (readbuflen f) (writebuf f) (writebuflen f) (buf f) (owritebuf f) (used f) (size f)
    (append f).
Definition set_flags (e r : bool) : FILE -> FILE := with_st (s_set_flags e r).
Definition set_errno (e : Z) : FILE -> FILE := with_st (s_set_errno e).
Definition set_ungetcs (l : list Z) : FILE -> FILE := with_st (s_set_ungetcs l).
Definition set_published (p : option (list Z * Z)) : FILE -> FILE := with_st (s_set_published p).
Definition set_lock (n : Z) (fl : bool) : FILE -> FILE := with_st (s_set_lock n fl).
Definition set_mode (o b : Z) : FILE -> FILE := with_st (s_set_mode o b).
Definition count_alloc : FILE -> FILE := with_st s_count_alloc.

Definition set_offset (o : Z) (f : FILE) : FILE :=
  File (st f) o (readbuf f) (readbuflen f) (writebuf f) (writebuflen f) (buf f) (owritebuf f) (used f) (size f) (append f).
Definition set_read (p : option Z) (n : Z) (f : FILE) : FILE :=
  File (st f) (offset f) p n (writebuf f) (writebuflen f) (buf f) (owritebuf f) (used f) (size f) (append f).
Definition set_write (p : option Z) (n : Z) (o : option Z) (f : FILE) : FILE :=
  File (st f) (offset f) (readbuf f) (readbuflen f) p n (buf f) o (used f) (size f) (append f).
Definition set_memory (b : list Z) (u s : Z) (f : FILE) : FILE :=
  File (st f) (offset f) (readbuf f) (readbuflen f) (writebuf f) (writebuflen f) b (owritebuf f) u s (append f).

(** Part of the buffer, and a store into it. *)
Definition slice (b : list Z) (p n : Z) : option (list Z) :=
  if (0 <=? p) && (0 <=? n) && (p + n <=? Z.of_nat (length b)) then Some (take (Z.to_nat n) (drop (Z.to_nat p) b)) else None.
Definition store (b : list Z) (p : Z) (l : list Z) : option (list Z) :=
  if (0 <=? p) && (p + Z.of_nat (length l) <=? Z.of_nat (length b))
  then Some (take (Z.to_nat p) b ++ l ++ drop (Z.to_nat p + length l) b) else None.

Definition assert (b : bool) : option unit := if b then Some () else None.

(** ** common/stdio.h: positions *)

Definition fseekable (f : FILE) : bool := 0 <=? offset f.

Definition ftello_physical (f : FILE) : option Z :=
  _ ← assert (fseekable f);
  _ ← assert ((readbuflen f =? 0) || (writebuflen f =? 0));
  let result := offset f - readbuflen f - writebuflen f in
  _ ← assert (0 <=? result);
  Some result.

Definition ftello_logical (f : FILE) : option Z :=
  p ← ftello_physical f; Some (p - Z.of_nat (length (ungetcs f))).

(** ** The operations of a provider: struct fileops *)

Record fileops := Fileops {
  read_peek : FILE -> option (bool * FILE);
  write_peek : FILE -> option (bool * FILE);
  seek : FILE -> Z -> bool -> option (bool * FILE);
  op_setvbuf : FILE -> Z -> option (bool * FILE);
  flush : FILE -> option (bool * FILE)
}.

Definition ebadf (f : FILE) : option (bool * FILE) := Some (false, set_errno EBADF f).

(** The result of realloc, by the number of calls before and the size, and what is
    in fresh memory. *)
Record allocator := Allocator { alloc_ok : nat -> Z -> bool; junk : Z -> Z }.

Definition realloc (A : allocator) (n : Z) (f : FILE) : bool * FILE :=
  let b := buf f in
  if alloc_ok A (nalloc f) n then
    (true, count_alloc (set_memory (take (Z.to_nat n) b ++
       (junk A <$> seqZ (Z.of_nat (length b)) (n - Z.of_nat (length b)))) (used f) (size f) f))
  else (false, count_alloc (set_errno ENOMEM f)).

(** The three providers share the code that works out what was written. *)
Definition sync_length (f : FILE) : option FILE :=
  if negb (bool_decide (writebuf f = owritebuf f)) && (used f <? offset f) then
    o ← owritebuf f;
    b ← (if used f <? o then store (buf f) (used f) (replicate (Z.to_nat (o - used f)) 0) else Some (buf f));
    Some (set_memory b (offset f) (size f) f)
  else Some f.

(** *** fmemopen *)

Definition mem_drain (f : FILE) : option FILE :=
  p ← ftello_physical f;
  f ← sync_length (set_offset p f);
  Some (set_write None 0 None (set_read None 0 f)).

Definition mem_read_peek (f : FILE) : option (bool * FILE) :=
  f ← mem_drain f;
  Some (true, if offset f <? used f
              then set_offset (used f) (set_read (Some (offset f)) (used f - offset f) f) else f).

Definition mem_write_peek (f : FILE) : option (bool * FILE) :=
  f ← mem_drain f;
  let f := if append f then set_offset (used f) f else f in
  if size f <=? offset f then Some (false, set_errno ENOSPC f)
  else Some (true, set_offset (size f) (set_write (Some (offset f)) (size f - offset f) (Some (offset f)) f)).

(** __builtin_add_overflow into an off_t. *)
Definition add_overflow (a b : Z) : option Z := if (OFF_MIN <=? a + b) && (a + b <=? OFF_MAX) then Some (a + b) else None.

Definition mem_seek (f : FILE) (off : Z) (seek_end : bool) : option (bool * FILE) :=
  f ← mem_drain f;
  match (if seek_end then add_overflow off (used f) else Some off) with
  | None => Some (false, set_errno EOVERFLOW f)
  | Some off =>
      if (off <? 0) || (size f <? off) then Some (false, set_errno EINVAL f) else Some (true, set_offset off f)
  end.

Definition mem_setvbuf (f : FILE) (sz : Z) : option (bool * FILE) := Some (true, f).

Definition mem_flush (f : FILE) : option (bool * FILE) := f ← mem_drain f; Some (true, f).

Definition mem_ops (readable writable : bool) : fileops := {|
  read_peek := if readable then mem_read_peek else ebadf;
  write_peek := if writable then mem_write_peek else ebadf;
  seek := mem_seek; op_setvbuf := mem_setvbuf; flush := mem_flush
|}.

(** *** open_memstream *)

Definition ms_drain (f : FILE) : option FILE :=
  p ← ftello_physical f;
  f ← sync_length (set_offset p f);
  Some (set_write None 0 None f).

(** Doubling the size until the position is inside; [slack] is the extra byte of
    open_memstream.  The comparison is between values of type off_t. *)
Fixpoint grow_loop (fuel : nat) (off slack new_size : Z) : option Z :=
  match fuel with
  | O => None
  | S fuel =>
      let limit := s64 new_size - slack in
      if OFF_MIN <=? limit then
        if limit <=? off then grow_loop fuel off slack (u64 (new_size * 2)) else Some new_size
      else None
  end.

Definition ms_grow (A : allocator) (f : FILE) : option (bool * FILE) :=
  if size f <=? offset f then
    new_size ← grow_loop 64 (offset f) 1 (u64 (size f + 1));
    let '(ok, f) := realloc A new_size f in
    Some (ok, if ok : bool then set_memory (buf f) (used f) (new_size - 1) f else f)
  else Some (true, f).

Definition ms_write_peek (A : allocator) (f : FILE) : option (bool * FILE) :=
  f ← ms_drain f;
  '(ok, f) ← ms_grow A f;
  if ok : bool
  then Some (true, set_offset (size f) (set_write (Some (offset f)) (size f - offset f) (Some (offset f)) f))
  else Some (false, f).

Definition ms_seek (f : FILE) (off : Z) (seek_end : bool) : option (bool * FILE) :=
  f ← ms_drain f;
  match (if seek_end then add_overflow off (used f) else Some off) with
  | None => Some (false, set_errno EOVERFLOW f)
  | Some off => if off <? 0 then Some (false, set_errno EINVAL f) else Some (true, set_offset off f)
  end.

Definition ms_setvbuf (f : FILE) (sz : Z) : option (bool * FILE) := Some (true, f).

Definition ms_flush (f : FILE) : option (bool * FILE) :=
  f ← ms_drain f;
  b ← store (buf f) (used f) [0];
  s ← slice b 0 (used f + 1);
  Some (true, set_published (Some (s, if used f <? offset f then used f else offset f)) (set_memory b (used f) (size f) f)).

Definition ms_ops (A : allocator) : fileops := {|
  read_peek := ebadf; write_peek := ms_write_peek A; seek := ms_seek; op_setvbuf := ms_setvbuf; flush := ms_flush
|}.

(** *** tmpfile *)

Definition tmp_drain : FILE -> option FILE := mem_drain.
Definition tmp_read_peek : FILE -> option (bool * FILE) := mem_read_peek.

Definition tmp_grow (A : allocator) (f : FILE) : option (bool * FILE) :=
  if size f <=? offset f then
    let new_size := if size f <? 16 then 16 else size f in
    new_size ← grow_loop 64 (offset f) 0 new_size;
    let '(ok, f) := realloc A new_size f in
    Some (ok, if ok : bool then set_memory (buf f) (used f) new_size f else f)
  else Some (true, f).

Definition tmp_write_peek (A : allocator) (f : FILE) : option (bool * FILE) :=
  f ← tmp_drain f;
  '(ok, f) ← tmp_grow A f;
  if ok : bool
  then Some (true, set_offset (size f) (set_write (Some (offset f)) (size f - offset f) (Some (offset f)) f))
  else Some (false, f).

Definition tmp_seek (f : FILE) (off : Z) (seek_end : bool) : option (bool * FILE) :=
  f ← tmp_drain f;
  match (if seek_end then add_overflow off (used f) else Some off) with
  | None => Some (false, set_errno EOVERFLOW f)
  | Some off => if off <? 0 then Some (false, set_errno EINVAL f) else Some (true, set_offset off f)
  end.

Definition tmp_setvbuf (f : FILE) (sz : Z) : option (bool * FILE) := Some (true, f).

Definition tmp_flush (f : FILE) : option (bool * FILE) := Some (true, f).

Definition tmp_ops (A : allocator) : fileops := {|
  read_peek := tmp_read_peek; write_peek := tmp_write_peek A; seek := tmp_seek; op_setvbuf := tmp_setvbuf; flush := tmp_flush
|}.

(** ** common/stdio.h: calling the operations *)

Section Functions.
  Context (ops : fileops).

Definition fop_read_peek (f : FILE) : option (bool * FILE) :=
  _ ← assert (readbuflen f =? 0);
  _ ← assert (bool_decide (ungetcs f = []));
  '(ok, f) ← read_peek ops f;
  if ok : bool then
    _ ← assert (negb (fseekable f) || (writebuflen f =? 0));
    Some (true, if readbuflen f =? 0 then set_flags true (error f) f else f)
  else Some (false, set_flags (eof f) true f).

Definition fop_write_peek (f : FILE) : option (bool * FILE) :=
  '(ok, f) ← write_peek ops f;
  if ok : bool then
    _ ← assert (0 <? writebuflen f);
    _ ← assert (negb (fseekable f) || (readbuflen f =? 0));
    Some (true, f)
  else Some (false, set_flags (eof f) true f).

Definition fop_seek (f : FILE) (off : Z) (seek_end : bool) : option (bool * FILE) :=
  _ ← assert (fseekable f); seek ops f off seek_end.

Definition fop_setvbuf (f : FILE) (len : Z) : option (bool * FILE) :=
  _ ← assert (0 <? len); op_setvbuf ops f len.

Definition fop_flush (f : FILE) : option (bool * FILE) :=
  '(ok, f) ← flush ops f;
  Some (if ok : bool then (true, f) else (false, set_flags (eof f) true f)).

(** Locking, by one thread. *)
Definition flockfile (f : FILE) : FILE := set_lock (lockcount f + 1) (should_flush f) f.

Definition funlockfile (f : FILE) : option FILE :=
  _ ← assert (0 <? lockcount f);
  let f := set_lock (lockcount f - 1) (should_flush f) f in
  if (lockcount f =? 0) && should_flush f then
    '(_, f) ← fop_flush f; Some (set_lock (lockcount f) false f)
  else Some f.

Definition flockfile_orientation (mode : Z) (f : FILE) : FILE :=
  let f := flockfile f in if orientation f =? 0 then set_mode mode (buftype f) f else f.

(** The bytes that can be read; no bytes at the end of the file. *)
Definition fread_peek (f : FILE) : option (option (list Z) * FILE) :=
  if negb (bool_decide (ungetcs f = [])) then Some (Some (ungetcs f), f)
  else
    '(ok, f) ← (if readbuflen f =? 0 then fop_read_peek f else Some (true, f));
    if ok : bool then
      if readbuflen f =? 0 then Some (Some [], f)
      else p ← readbuf f; l ← slice (buf f) p (readbuflen f); Some (Some l, f)
    else Some (None, f).

Definition fread_consume (f : FILE) (n : Z) : option FILE :=
  if negb (bool_decide (ungetcs f = [])) then
    _ ← assert (n <=? Z.of_nat (length (ungetcs f)));
    Some (set_ungetcs (drop (Z.to_nat n) (ungetcs f)) f)
  else
    _ ← assert (n <=? readbuflen f);
    p ← readbuf f;
    Some (set_read (Some (p + n)) (readbuflen f - n) f).

Definition getc_unlocked (f : FILE) : option (Z * FILE) :=
  '(r, f) ← fread_peek f;
  match r with
  | None | Some [] => Some (EOF, f)
  | Some (c :: _) => f ← fread_consume f 1; Some (c, f)
  end.

(** The write window. *)
Definition fwrite_peek (f : FILE) : option (bool * FILE) :=
  if writebuflen f =? 0 then fop_write_peek f else Some (true, f).

(** [l] is what was stored in the window. *)
Definition fwrite_produce (f : FILE) (l : list Z) : option FILE :=
  let n := Z.of_nat (length l) in
  let f := if ((buftype f =? _IOLBF) && bool_decide (10 ∈ l)) || ((buftype f =? _IONBF) && (0 <? n))
           then set_lock (lockcount f) true f else f in
  _ ← assert (n <=? writebuflen f);
  w ← writebuf f;
  Some (set_write (Some (w + n)) (writebuflen f - n) (owritebuf f) f).

Definition store_window (f : FILE) (l : list Z) : option FILE :=
  w ← writebuf f; b ← store (buf f) w l; Some (set_memory b (used f) (size f) f).

(** The number of bytes written. *)
Fixpoint fwrite_put_loop (fuel : nat) (f : FILE) (inbuf : list Z) (written : Z) : option (Z * FILE) :=
  match fuel with
  | O => None
  | S fuel =>
      '(ok, f) ← fwrite_peek f;
      if ok : bool then
        if writebuflen f <? Z.of_nat (length inbuf) then
          let l := take (Z.to_nat (writebuflen f)) inbuf in
          f ← store_window f l; f ← fwrite_produce f l;
          fwrite_put_loop fuel f (drop (length l) inbuf) (written + Z.of_nat (length l))
        else
          f ← store_window f inbuf; f ← fwrite_produce f inbuf; Some (written + Z.of_nat (length inbuf), f)
      else Some (written, f)
  end.

Definition fwrite_put (f : FILE) (inbuf : list Z) : option (Z * FILE) :=
  _ ← assert (0 <? Z.of_nat (length inbuf)); fwrite_put_loop (length inbuf) f inbuf 0.

Definition putc_unlocked (c : Z) (f : FILE) : option (Z * FILE) :=
  '(ok, f) ← fwrite_peek f;
  if ok : bool then f ← store_window f [u8 c]; f ← fwrite_produce f [u8 c]; Some (u8 c, f)
  else Some (EOF, f).

(** ** The functions of stdio.h

    Results that are stored through pointers are part of the value. *)

Definition getc (f : FILE) : option (Z * FILE) :=
  '(r, f) ← getc_unlocked (flockfile_orientation (-1) f); f ← funlockfile f; Some (r, f).

Definition putc (c : Z) (f : FILE) : option (Z * FILE) :=
  '(r, f) ← putc_unlocked c (flockfile_orientation (-1) f); f ← funlockfile f; Some (r, f).

Definition mul_overflow (a b : Z) : option Z := if a * b <? 2 ^ 64 then Some (a * b) else None.

(** The number of bytes read, and the bytes. *)
Fixpoint fread_loop (fuel : nat) (f : FILE) (outbuflen : Z) (out : list Z) : option (bool * list Z * FILE) :=
  match fuel with
  | O => None
  | S fuel =>
      '(r, f) ← fread_peek f;
      match r with
      | None | Some [] => Some (false, out, f)
      | Some readbuf =>
          if outbuflen <=? Z.of_nat (length readbuf) then
            f ← fread_consume f outbuflen; Some (true, out ++ take (Z.to_nat outbuflen) readbuf, f)
          else
            f ← fread_consume f (Z.of_nat (length readbuf));
            fread_loop fuel f (outbuflen - Z.of_nat (length readbuf)) (out ++ readbuf)
      end
  end.

Definition fread (sz nitems : Z) (f : FILE) : option (Z * list Z * FILE) :=
  let f := flockfile_orientation (-1) f in
  match mul_overflow sz nitems with
  | None => f ← funlockfile (set_flags (eof f) true f); Some (0, [], set_errno EINVAL f)
  | Some 0 => f ← funlockfile f; Some (0, [], f)
  | Some outbuflen =>
      '(all, out, f) ← fread_loop (Z.to_nat outbuflen) f outbuflen [];
      f ← funlockfile f;
      Some (if all : bool then nitems else Z.of_nat (length out) / sz, out, f)
  end.

(** [ptr] is the array that is written. *)
Definition fwrite (ptr : list Z) (sz nitems : Z) (f : FILE) : option (Z * FILE) :=
  let f := flockfile_orientation (-1) f in
  match mul_overflow sz nitems with
  | None => f ← funlockfile (set_flags (eof f) true f); Some (0, set_errno EINVAL f)
  | Some writelen =>
      if writelen =? 0 then f ← funlockfile f; Some (0, f)
      else
        inbuf ← slice ptr 0 writelen;
        '(len, f) ← fwrite_put f inbuf;
        f ← funlockfile f; Some (len / sz, f)
  end.

Definition fputs (s : list Z) (f : FILE) : option (Z * FILE) :=
  let f := flockfile_orientation (-1) f in
  if bool_decide (s = []) then f ← funlockfile f; Some (0, f)
  else
    '(written, f) ← fwrite_put f s;
    f ← funlockfile f;
    Some (if written =? Z.of_nat (length s) then 0 else EOF, f).

(** memchr: the part of the bytes up to and with the character. *)
Fixpoint through (c : Z) (l : list Z) : option (list Z) :=
  match l with
  | [] => None
  | x :: l => if x =? c then Some [x] else (x ::.) <$> through c l
  end.

Fixpoint fgets_loop (fuel : nat) (f : FILE) (outbuflen : Z) (out : list Z) : option (option (list Z) * FILE) :=
  match fuel with
  | O => None
  | S fuel =>
      '(r, f) ← fread_peek f;
      match r with
      | None => Some (None, f)
      | Some [] => Some (if bool_decide (out = []) then None else Some out, f)
      | Some readbuf =>
          let outbuflen :=
            match through 10 (take (Z.to_nat outbuflen) readbuf) with
            | Some line => Z.of_nat (length line)
            | None => outbuflen
            end in
          if outbuflen <=? Z.of_nat (length readbuf) then
            f ← fread_consume f outbuflen; Some (Some (out ++ take (Z.to_nat outbuflen) readbuf), f)
          else
            f ← fread_consume f (Z.of_nat (length readbuf));
            fgets_loop fuel f (outbuflen - Z.of_nat (length readbuf)) (out ++ readbuf)
      end
  end.

(** The string that is stored, or a null pointer. *)
Definition fgets (n : Z) (f : FILE) : option (option (list Z) * FILE) :=
  let f := flockfile_orientation (-1) f in
  if n <=? 0 then f ← funlockfile f; Some (None, f)
  else if n =? 1 then f ← funlockfile f; Some (Some [], f)
  else
    '(r, f) ← fgets_loop (Z.to_nat (n - 1)) f (n - 1) [];
    f ← funlockfile f; Some (r, f).

Definition ungetc (c : Z) (f : FILE) : option (Z * FILE) :=
  let f := flockfile_orientation (-1) f in
  let '(r, f) :=
    if c =? EOF then (EOF, set_errno EINVAL f)
    else if UNGETC_SIZE <=? Z.of_nat (length (ungetcs f)) then (EOF, set_errno ENOSPC f)
    else (u8 c, set_flags false (error f) (set_ungetcs (u8 c :: ungetcs f) f)) in
  f ← funlockfile f; Some (r, f).

(** What a successful seek does to the stream. *)
Definition after_seek (f : FILE) : FILE := set_ungetcs [] (set_flags false (error f) f).

Definition fseeko (off whence : Z) (f : FILE) : option (Z * FILE) :=
  let f := flockfile f in
  '(result, f) ←
    (if negb (fseekable f) then Some (false, set_errno ESPIPE f)
     else
       '(result, f) ←
         (if whence =? SEEK_CUR then
            pos ← ftello_logical f;
            match add_overflow off pos with
            | None => Some (false, set_errno EOVERFLOW f)
            | Some off => fop_seek f off false
            end
          else if whence =? SEEK_END then fop_seek f off true
          else if whence =? SEEK_SET then fop_seek f off false
          else Some (false, set_errno EINVAL f));
       Some (result, if result : bool then after_seek f else f));
  f ← funlockfile f;
  Some (if result : bool then 0 else -1, f).

Definition ftello (f : FILE) : option (Z * FILE) :=
  let f := flockfile f in
  if negb (fseekable f) then f ← funlockfile f; Some (-1, set_errno ESPIPE f)
  else result ← ftello_logical f; f ← funlockfile f; Some (result, f).

Definition fflush (f : FILE) : option (Z * FILE) :=
  '(result, f) ← fop_flush (flockfile f);
  let f := if result : bool then set_ungetcs [] f else f in
  f ← funlockfile f; Some (if result : bool then 0 else EOF, f).

Definition rewind (f : FILE) : option (Z * FILE) :=
  let f := flockfile f in
  f ← (if fseekable f then '(_, f) ← fop_seek f 0 false; Some f else Some f);
  f ← funlockfile (set_ungetcs [] (set_flags false false f)); Some (0, f).

Definition clearerr (f : FILE) : option (Z * FILE) :=
  f ← funlockfile (set_flags false false (flockfile f)); Some (0, f).

Definition feof (f : FILE) : option (Z * FILE) :=
  let f := flockfile f in f' ← funlockfile f; Some (Z.b2z (eof f), f').

Definition ferror (f : FILE) : option (Z * FILE) :=
  let f := flockfile f in f' ← funlockfile f; Some (Z.b2z (error f), f').

Definition setvbuf (type sz : Z) (f : FILE) : option (Z * FILE) :=
  if negb ((type =? _IOFBF) || (type =? _IOLBF) || (type =? _IONBF)) then Some (-1, set_errno EINVAL f)
  else
    let sz := if sz =? 0 then 1 else sz in
    '(result, f) ← fop_setvbuf (flockfile f) sz;
    let f := if result : bool then set_mode (orientation f) type f else f in
    f ← funlockfile f; Some (Z.b2z (negb result), f).

End Functions.

(** ** Opening a stream *)

Definition __falloc : FILE :=
  File (Status false false 0 _IOFBF false 0 [] 0 None 0) 0 None 0 None 0 [] None 0 0 false.

Definition O_APPEND : Z := 0x1.
Definition O_CREAT : Z := 0x1000.
Definition O_EXCL : Z := 0x4000.
Definition O_TRUNC : Z := 0x8000.
Definition O_RDONLY : Z := 0x4000000.
Definition O_WRONLY : Z := 0x10000000.
Definition O_RDWR : Z := Z.lor O_RDONLY O_WRONLY.

(** Characters behind the terminator are not read. *)
Definition skip_char (c : Z) (s : list Z) : bool * list Z :=
  match s with x :: s' => if x =? c then (true, s') else (false, s) | [] => (false, s) end.

Definition get_oflags_from_string (s : list Z) : Z :=
  match s with
  | c :: s =>
      let oflags :=
        if c =? 114 (* r *) then O_RDONLY
        else if c =? 119 (* w *) then Z.lor (Z.lor O_WRONLY O_CREAT) O_TRUNC
        else if c =? 97 (* a *) then Z.lor (Z.lor O_WRONLY O_CREAT) O_APPEND else 0 in
      if oflags =? 0 then 0
      else
        let '(_, s) := skip_char 98 s in
        let '(plus, s) := skip_char 43 s in
        let oflags := if plus : bool then Z.lor oflags O_RDWR else oflags in
        let '(_, s) := skip_char 98 s in
        let '(x, s) := skip_char 120 s in
        let oflags := if x : bool then Z.lor oflags O_EXCL else oflags in
        match s with [] => oflags | _ => 0 end
  | [] => 0
  end.

(** The bytes before the first null byte. *)
Fixpoint strnlen (s : list Z) : Z :=
  match s with [] => 0 | c :: s => if c =? 0 then 0 else strnlen s + 1 end.

(** The stream and its operations, or a null pointer and errno.  [b] is the caller's
    buffer, if there is one; the allocations succeed. *)
Definition fmemopen_l (A : allocator) (b : option (list Z)) (sz : Z) (mode : list Z) : Z + FILE * fileops :=
  let oflags := get_oflags_from_string mode in
  if (oflags =? 0) || (sz =? 0) then inl EINVAL
  else
    let app := negb (Z.land oflags O_APPEND =? 0) in
    let '(b, off, u) :=
      match b with
      | None => (junk A <$> seqZ 0 sz, 0, 0)
      | Some b =>
          if app then (b, strnlen b, strnlen b)
          else if Z.land oflags O_WRONLY =? 0 then (b, 0, sz) else (b, 0, 0)
      end in
    inr (File (st __falloc) off None 0 (Some off) 0 b None u sz app,
         mem_ops (negb (Z.land oflags O_RDONLY =? 0)) (negb (Z.land oflags O_WRONLY =? 0))).

Definition DEFAULT_BUFFER_SIZE : Z := 16.

Definition open_memstream_l (A : allocator) : FILE * fileops :=
  (set_memory (junk A <$> seqZ 0 DEFAULT_BUFFER_SIZE) 0 (DEFAULT_BUFFER_SIZE - 1) __falloc, ms_ops A).

Definition tmpfile_l (A : allocator) : FILE * fileops := (__falloc, tmp_ops A).

(** ** The specification: a file of bytes *)

(** The kind of a stream: fmemopen by its access mode, open_memstream, tmpfile. *)
Inductive kind := Mem (readable writable appending : bool) | Memstream | Tmpfile.

Definition k_read (k : kind) : bool := match k with Mem r _ _ => r | Memstream => false | Tmpfile => true end.
Definition k_write (k : kind) : bool := match k with Mem _ w _ => w | _ => true end.
Definition k_append (k : kind) : bool := match k with Mem _ _ a => a | _ => false end.

(** The bytes, the position, and the size up to which the file can grow without
    more memory. *)
Record afile := Afile { a_st : status; a_data : list Z; a_pos : Z; a_cap : Z }.

Definition a_with (g : status -> status) (a : afile) : afile := Afile (g (a_st a)) (a_data a) (a_pos a) (a_cap a).
Definition a_move (p : Z) (a : afile) : afile := Afile (a_st a) (a_data a) p (a_cap a).
Definition a_fail (a : afile) : afile := a_with (fun s => s_set_flags (s_eof s) true s) a.

(** A byte at position [p]; a gap before it is filled with null bytes. *)
Definition write_at (d : list Z) (p b : Z) : list Z :=
  (fun i => if i =? p then b else default 0 (d !! Z.to_nat i)) <$> seqZ 0 (Z.max (Z.of_nat (length d)) (p + 1)).

Definition FAR : Z := 2 ^ 62 - 1.

Section Spec.
  Context (A : allocator) (k : kind).

(** More memory, when the position is at the end of what there is.  Beyond [FAR]
    the doubling of the size overflows. *)
Definition a_grow (slack cap : Z) (a : afile) : option (bool * afile) :=
  if a_cap a <=? a_pos a then
    _ ← assert (a_pos a <? FAR);
    new_size ← grow_loop 64 (a_pos a) slack cap;
    Some (if alloc_ok A (s_nalloc (a_st a)) new_size
          then (true, Afile (s_count_alloc (a_st a)) (a_data a) (a_pos a) (new_size - slack))
          else (false, a_with s_count_alloc (a_with (s_set_errno ENOMEM) a)))
  else Some (true, a).

(** Room for a byte. *)
Definition a_room (a : afile) : option (bool * afile) :=
  match k with
  | Mem _ _ appending =>
      let a := if appending : bool then a_move (Z.of_nat (length (a_data a))) a else a in
      Some (if a_cap a <=? a_pos a then (false, a_with (s_set_errno ENOSPC) a) else (true, a))
  | Memstream => a_grow 1 (a_cap a + 1) a
  | Tmpfile => a_grow 0 (if a_cap a <? 16 then 16 else a_cap a) a
  end.

Definition a_write_byte (b : Z) (a : afile) : option (bool * afile) :=
  if k_write k then
    '(ok, a) ← a_room a;
    Some (if ok : bool then
            let flush := (s_buftype (a_st a) =? _IOLBF) && (b =? 10) || (s_buftype (a_st a) =? _IONBF) in
            let s := if flush then s_set_lock (s_lockcount (a_st a)) true (a_st a) else a_st a in
            (true, Afile s (write_at (a_data a) (a_pos a) b) (a_pos a + 1) (a_cap a))
          else (false, a_fail a))
  else Some (false, a_fail (a_with (s_set_errno EBADF) a)).

(** The number of bytes written before the first failure. *)
Fixpoint a_write (l : list Z) (a : afile) : option (Z * afile) :=
  match l with
  | [] => Some (0, a)
  | b :: l =>
      '(ok, a) ← a_write_byte b a;
      if ok : bool then '(n, a) ← a_write l a; Some (n + 1, a) else Some (0, a)
  end.

Inductive outcome := Done | AtEnd | Failed.

(** The byte counts when the outcome is [Done]. *)
Definition a_read_byte (a : afile) : outcome * Z * afile :=
  match s_ungetcs (a_st a) with
  | c :: l => (Done, c, a_with (s_set_ungetcs l) a)
  | [] =>
      if k_read k then
        match a_data a !! Z.to_nat (a_pos a) with
        | Some c => (Done, c, a_move (a_pos a + 1) a)
        | None => (AtEnd, 0, a_with (fun s => s_set_flags true (s_error s) s) a)
        end
      else (Failed, 0, a_fail (a_with (s_set_errno EBADF) a))
  end.

(** [n] bytes, or fewer up to one of which [stop] holds. *)
Fixpoint a_read (n : nat) (stop : Z -> bool) (a : afile) : outcome * list Z * afile :=
  match n with
  | O => (Done, [], a)
  | S n =>
      let '(r, c, a) := a_read_byte a in
      match r with
      | Done => if stop c then (Done, [c], a) else let '(r, l, a) := a_read n stop a in (r, c :: l, a)
      | r => (r, [], a)
      end
  end.

Definition a_flush (a : afile) : afile :=
  match k with
  | Memstream =>
      let len := Z.of_nat (length (a_data a)) in
      a_with (s_set_published (Some (a_data a ++ [0], if len <? a_pos a then len else a_pos a))) a
  | _ => a
  end.

Definition a_lock (a : afile) : afile := a_with (fun s => s_set_lock (s_lockcount s + 1) (s_should_flush s) s) a.

Definition a_unlock (a : afile) : afile :=
  let a := a_with (fun s => s_set_lock (s_lockcount s - 1) (s_should_flush s) s) a in
  if (s_lockcount (a_st a) =? 0) && s_should_flush (a_st a)
  then a_with (fun s => s_set_lock (s_lockcount s) false s) (a_flush a) else a.

Definition a_enter (a : afile) : afile :=
  a_with (fun s => if s_orientation s =? 0 then s_set_mode (-1) (s_buftype s) s else s) (a_lock a).

Definition a_seek (off : Z) (seek_end : bool) (a : afile) : bool * afile :=
  match (if seek_end then add_overflow off (Z.of_nat (length (a_data a))) else Some off) with
  | None => (false, a_with (s_set_errno EOVERFLOW) a)
  | Some off =>
      if (off <? 0) || match k with Mem _ _ _ => a_cap a <? off | _ => false end
      then (false, a_with (s_set_errno EINVAL) a) else (true, a_move off a)
  end.

(** ** Calls *)

Inductive call :=
  | Getc | Putc (c : Z) | Fread (sz nitems : Z) | Fwrite (l : list Z) (sz nitems : Z) | Fputs (s : list Z) | Fgets (n : Z)
  | Ungetc (c : Z) | Fseeko (off whence : Z) | Ftello | Fflush | Rewind | Clearerr | Feof | Ferror | Setvbuf (type sz : Z)
  | Flockfile | Funlockfile.

(** The value returned and the bytes stored. *)
Inductive answer := Num (z : Z) | Bytes (z : Z) (l : list Z) | Line (l : option (list Z)).

Definition a_leave (r : answer) (a : afile) : option (answer * afile) := Some (r, a_unlock a).

Definition spec_call (c : call) (a : afile) : option (answer * afile) :=
  match c with
  | Getc => let '(r, c, a) := a_read_byte (a_enter a) in a_leave (Num (match r with Done => c | _ => EOF end)) a
  | Putc c => '(ok, a) ← a_write_byte (u8 c) (a_enter a); a_leave (Num (if ok : bool then u8 c else EOF)) a
  | Fread sz nitems =>
      match mul_overflow sz nitems with
      | None => Some (Bytes 0 [], a_with (s_set_errno EINVAL) (a_unlock (a_fail (a_enter a))))
      | Some n =>
          let '(r, l, a) := a_read (Z.to_nat n) (fun _ => false) (a_enter a) in
          a_leave (Bytes (if n =? 0 then 0 else match r with Done => nitems | _ => Z.of_nat (length l) / sz end) l) a
      end
  | Fwrite ptr sz nitems =>
      match mul_overflow sz nitems with
      | None => Some (Num 0, a_with (s_set_errno EINVAL) (a_unlock (a_fail (a_enter a))))
      | Some n =>
          l ← slice ptr 0 n;
          '(len, a) ← a_write l (a_enter a); a_leave (Num (if n =? 0 then 0 else len / sz)) a
      end
  | Fputs s => '(len, a) ← a_write s (a_enter a); a_leave (Num (if len =? Z.of_nat (length s) then 0 else EOF)) a
  | Fgets n =>
      if n <=? 0 then a_leave (Line None) (a_enter a)
      else
        let '(r, l, a) := a_read (Z.to_nat (n - 1)) (fun c => c =? 10) (a_enter a) in
        a_leave (Line (match r with Done => Some l | AtEnd => if bool_decide (l = []) then None else Some l | Failed => None end)) a
  | Ungetc c =>
      let a := a_enter a in
      if c =? EOF then a_leave (Num EOF) (a_with (s_set_errno EINVAL) a)
      else if UNGETC_SIZE <=? Z.of_nat (length (s_ungetcs (a_st a))) then a_leave (Num EOF) (a_with (s_set_errno ENOSPC) a)
      else a_leave (Num (u8 c)) (a_with (fun s => s_set_flags false (s_error s) (s_set_ungetcs (u8 c :: s_ungetcs s) s)) a)
  | Fseeko off whence =>
      let a := a_lock a in
      let '(ok, a) :=
        if whence =? SEEK_CUR then
          match add_overflow off (a_pos a - Z.of_nat (length (s_ungetcs (a_st a)))) with
          | None => (false, a_with (s_set_errno EOVERFLOW) a)
          | Some off => a_seek off false a
          end
        else if whence =? SEEK_END then a_seek off true a
        else if whence =? SEEK_SET then a_seek off false a
        else (false, a_with (s_set_errno EINVAL) a) in
      if ok : bool then a_leave (Num 0) (a_with (fun s => s_set_ungetcs [] (s_set_flags false (s_error s) s)) a)
      else a_leave (Num (-1)) a
  | Ftello => a_leave (Num (a_pos a - Z.of_nat (length (s_ungetcs (a_st a))))) (a_lock a)
  | Fflush => a_leave (Num 0) (a_with (s_set_ungetcs []) (a_flush (a_lock a)))
  | Rewind => a_leave (Num 0) (a_with (fun s => s_set_ungetcs [] (s_set_flags false false s)) (a_move 0 (a_lock a)))
  | Clearerr => a_leave (Num 0) (a_with (s_set_flags false false) (a_lock a))
  | Feof => a_leave (Num (Z.b2z (s_eof (a_st a)))) (a_lock a)
  | Ferror => a_leave (Num (Z.b2z (s_error (a_st a)))) (a_lock a)
  | Setvbuf type sz =>
      if negb ((type =? _IOFBF) || (type =? _IOLBF) || (type =? _IONBF)) then Some (Num (-1), a_with (s_set_errno EINVAL) a)
      else a_leave (Num 0) (a_with (fun s => s_set_mode (s_orientation s) type s) (a_lock a))
  | Flockfile => Some (Num 0, a_lock a)
  | Funlockfile => if 0 <? s_lockcount (a_st a) then a_leave (Num 0) a else None
  end.
End Spec.

Definition run_call (ops : fileops) (c : call) (f : FILE) : option (answer * FILE) :=
  match c with
  | Getc => '(r, f) ← getc ops f; Some (Num r, f)
  | Putc c => '(r, f) ← putc ops c f; Some (Num r, f)
  | Fread sz nitems => '(r, l, f) ← fread ops sz nitems f; Some (Bytes r l, f)
  | Fwrite l sz nitems => '(r, f) ← fwrite ops l sz nitems f; Some (Num r, f)
  | Fputs s => '(r, f) ← fputs ops s f; Some (Num r, f)
  | Fgets n => '(r, f) ← fgets ops n f; Some (Line r, f)
  | Ungetc c => '(r, f) ← ungetc ops c f; Some (Num r, f)
  | Fseeko off whence => '(r, f) ← fseeko ops off whence f; Some (Num r, f)
  | Ftello => '(r, f) ← ftello ops f; Some (Num r, f)
  | Fflush => '(r, f) ← fflush ops f; Some (Num r, f)
  | Rewind => '(r, f) ← rewind ops f; Some (Num r, f)
  | Clearerr => '(r, f) ← clearerr ops f; Some (Num r, f)
  | Feof => '(r, f) ← feof ops f; Some (Num r, f)
  | Ferror => '(r, f) ← ferror ops f; Some (Num r, f)
  | Setvbuf type sz => '(r, f) ← setvbuf ops type sz f; Some (Num r, f)
  | Flockfile => Some (Num 0, flockfile f)
  | Funlockfile => f ← funlockfile ops f; Some (Num 0, f)
  end.

Fixpoint run_calls (ops : fileops) (cs : list call) (f : FILE) : option (list answer * FILE) :=
  match cs with
  | [] => Some ([], f)
  | c :: cs => '(r, f) ← run_call ops c f; '(rs, f) ← run_calls ops cs f; Some (r :: rs, f)
  end.

Fixpoint spec_calls (A : allocator) (k : kind) (cs : list call) (a : afile) : option (list answer * afile) :=
  match cs with
  | [] => Some ([], a)
  | c :: cs => '(r, a) ← spec_call A k c a; '(rs, a) ← spec_calls A k cs a; Some (r :: rs, a)
  end.

(** Arguments of type size_t. *)
Definition call_ok (c : call) : Prop :=
  match c with Fread sz nitems | Fwrite _ sz nitems => 0 <= sz /\ 0 <= nitems | Setvbuf _ sz => 0 <= sz | _ => True end.
