(* ===== verification/StdioRefine.v ===== *)
(** * Standard I/O streams implement files

    The streams of [Stdio] refine the files of its specification.  [models] relates a
    stream to the file it stands for, whatever windows are open; the class [Provider]
    is what the stream functions need of a provider, with one instance for each of
    fmemopen, open_memstream and tmpfile; the functions are proved against the
    class. *)

From S2P Require Import Prelude.
From stdpp Require Import list.
From S2P Require Import Stdio.

#[local] Open Scope Z_scope.

(** ** The windows *)

(** The first [n] bytes of the memory, with null bytes from [u] to [o]. *)
Definition image (b : list Z) (u o n : Z) : list Z :=
  (fun i => if (u <=? i) && (i <? o) then 0 else default 0 (b !! Z.to_nat i)) <$> seqZ 0 n.

(** The contents of the file that a stream stands for. *)
Definition contents (f : FILE) : list Z :=
  match owritebuf f, writebuf f with
  | Some o, Some w => image (buf f) (used f) o (if o <? w then Z.max (used f) w else used f)
  | _, _ => image (buf f) (used f) 0 (used f)
  end.

(** No window, a read window up to the end of the data, or a write window up to
    the end of the memory. *)
Inductive window (f : FILE) : Prop :=
  | Win_none : readbuflen f = 0 -> writebuflen f = 0 -> owritebuf f = None ->
      writebuf f = None \/ offset f <= used f -> window f
  | Win_read p : readbuf f = Some p -> p = offset f - readbuflen f -> 0 <= readbuflen f -> offset f = used f ->
      writebuf f = None -> owritebuf f = None -> writebuflen f = 0 -> window f
  | Win_write o w : owritebuf f = Some o -> writebuf f = Some w -> 0 <= o <= w -> w + writebuflen f = size f ->
      offset f = size f -> 0 <= writebuflen f -> readbuflen f = 0 -> (append f = true -> used f = o) -> window f.

Definition k_slack (k : kind) : Z := match k with Memstream => 1 | _ => 0 end.

(** A stream stands for a file. *)
Record models (k : kind) (f : FILE) (a : afile) : Prop := {
  m_st : a_st a = st f;
  m_pos : a_pos a = offset f - readbuflen f - writebuflen f;
  m_pos0 : 0 <= a_pos a;
  m_data : a_data a = contents f;
  m_cap : a_cap a = size f;
  m_append : append f = k_append k;
  m_used : 0 <= used f <= size f;
  m_size : size f + k_slack k < 2 ^ 63;
  m_memory : Z.of_nat (length (buf f)) = size f + k_slack k;
  m_window : window f;
  m_noread : k_read k = false -> readbuflen f = 0;
  m_nowrite : k_write k = false -> writebuflen f = 0
}.

(** The same without windows. *)
Record drained (k : kind) (f : FILE) (a : afile) : Prop := {
  d_models : models k f a;
  d_writebuf : writebuf f = None;
  d_owritebuf : owritebuf f = None;
  d_readbuflen : readbuflen f = 0;
  d_writebuflen : writebuflen f = 0
}.

(** *** Lists by index *)

Lemma length_image b u o n : 0 <= n -> length (image b u o n) = Z.to_nat n.
Proof. intros. unfold image. by rewrite length_fmap, length_seqZ. Qed.

Lemma lookup_image b u o n (i : nat) : Z.of_nat i < n ->
  image b u o n !! i = Some (if (u <=? Z.of_nat i) && (Z.of_nat i <? o) then 0 else default 0 (b !! i)).
Proof.
  intros Hi. unfold image. rewrite list_lookup_fmap, lookup_seqZ_lt by done. cbn. by rewrite Z.add_0_l, Nat2Z.id.
Qed.

Lemma length_write_at d p b : 0 <= p -> Z.of_nat (length (write_at d p b)) = Z.max (Z.of_nat (length d)) (p + 1).
Proof. intros. unfold write_at. rewrite length_fmap, length_seqZ. lia. Qed.

Lemma lookup_write_at d p b (i : nat) : Z.of_nat i < Z.max (Z.of_nat (length d)) (p + 1) ->
  write_at d p b !! i = Some (if Z.of_nat i =? p then b else default 0 (d !! i)).
Proof.
  intros Hi. unfold write_at. rewrite list_lookup_fmap, lookup_seqZ_lt by done. cbn. by rewrite Z.add_0_l, Nat2Z.id.
Qed.

(** Equality of lists by index. *)
Lemma list_eq_index (l l' : list Z) : length l = length l' ->
  (forall i : nat, (i < length l)%nat -> l !! i = l' !! i) -> l = l'.
Proof.
  intros Hl H. apply list_eq. intros i. destruct (decide (i < length l)%nat) as [Hi|Hi]; [by apply H|].
  rewrite !lookup_ge_None_2 by lia. done.
Qed.

Lemma image_ext b b' u u' o o' n : (forall i : nat, Z.of_nat i < n ->
    (if (u <=? Z.of_nat i) && (Z.of_nat i <? o) then 0 else default 0 (b !! i)) =
    (if (u' <=? Z.of_nat i) && (Z.of_nat i <? o') then 0 else default 0 (b' !! i))) ->
  image b u o n = image b' u' o' n.
Proof.
  intros H. destruct (Z.le_gt_cases n 0) as [Hn|Hn].
  - unfold image. by rewrite seqZ_nil by lia.
  - apply list_eq_index; [by rewrite !length_image by lia|]. intros i Hi. rewrite length_image in Hi by lia.
    rewrite !lookup_image by lia. f_equal. apply H. lia.
Qed.

Lemma image_take b u : 0 <= u <= Z.of_nat (length b) -> image b u 0 u = take (Z.to_nat u) b.
Proof.
  intros Hu. apply list_eq_index; [rewrite length_image, length_take by lia; lia|].
  intros i Hi. rewrite length_image in Hi by lia. rewrite lookup_image by lia. rewrite lookup_take_lt by lia.
  rewrite (proj2 (Z.ltb_ge _ 0)), andb_false_r by lia.
  destruct (lookup_lt_is_Some_2 b i) as [x Hx]; [lia|]. by rewrite Hx.
Qed.

Lemma store_ok b p l : 0 <= p -> p + Z.of_nat (length l) <= Z.of_nat (length b) ->
  exists b', store b p l = Some b' /\ length b' = length b /\
    forall i : nat, b' !! i = if (p <=? Z.of_nat i) && (Z.of_nat i <? p + Z.of_nat (length l)) then l !! (i - Z.to_nat p)%nat
                              else b !! i.
Proof.
  intros Hp Hl. unfold store. rewrite !(proj2 (Z.leb_le _ _)) by lia. cbn [andb]. eexists. split; [done|].
  split; [rewrite !length_app, length_take, length_drop; lia|]. intros i.
  destruct (Z.leb_spec p (Z.of_nat i)) as [H1|H1]; cbn [andb].
  - rewrite lookup_app_r by (rewrite length_take; lia). rewrite length_take, Nat.min_l by lia.
    destruct (Z.ltb_spec (Z.of_nat i) (p + Z.of_nat (length l))) as [H2|H2].
    + by rewrite lookup_app_l by lia.
    + rewrite lookup_app_r by lia. rewrite lookup_drop. f_equal. lia.
  - rewrite lookup_app_l by (rewrite length_take; lia). by rewrite lookup_take_lt by lia.
Qed.

(** *** Giving the windows back *)

Section Windows.
  Context (k : kind).

Lemma physical_ok f a : models k f a -> ftello_physical f = Some (a_pos a).
Proof.
  intros [_ Hpos Hp0 _ _ _ Hu _ _ Hw _]. unfold ftello_physical, assert, fseekable.
  assert (0 <= offset f /\ (readbuflen f = 0 \/ writebuflen f = 0)) as [Ho Hb] by (inversion Hw; lia).
  rewrite (proj2 (Z.leb_le 0 (offset f))) by lia. cbn [mbind option_bind].
  replace ((readbuflen f =? 0) || (writebuflen f =? 0)) with true by (destruct Hb as [-> | ->]; by rewrite ?orb_true_r).
  cbn [mbind option_bind]. rewrite (proj2 (Z.leb_le _ _)) by lia. cbn [mbind option_bind]. f_equal. lia.
Qed.

(** The length of the data is brought up to date. *)
Lemma sync_ok f a : models k f a ->
  exists b, sync_length (set_offset (a_pos a) f) = Some (set_memory b (Z.of_nat (length (a_data a))) (size f) (set_offset (a_pos a) f)) /\
    length b = length (buf f) /\ Z.of_nat (length (a_data a)) <= size f /\
    a_data a = image b (Z.of_nat (length (a_data a))) 0 (Z.of_nat (length (a_data a))).
Proof.
  intros [_ Hpos Hp0 Hd _ _ Hu Hsz Hmem Hw _]. rewrite Hd. unfold sync_length, contents.
  cbn [set_offset writebuf owritebuf used offset buf size].
  assert (Hslack : 0 <= k_slack k <= 1) by (destruct k; cbn; lia).
  assert (Hsame : forall o, image (buf f) (used f) o (used f) = image (buf f) (used f) 0 (used f)).
  { intros o. apply image_ext. intros i Hi. by rewrite (proj2 (Z.leb_gt (used f) _)) by lia. }
  assert (Hno : Z.of_nat (length (image (buf f) (used f) 0 (used f))) = used f) by (rewrite length_image by lia; lia).
  destruct Hw as [Hr0 Hw0 Eo Hw|p _ _ _ Ho Ew Eo _|o w Eo Ew How Hws Hos Hwl Hrl Hap].
  - assert (negb (bool_decide (writebuf f = owritebuf f)) && (used f <? a_pos a) = false) as ->.
    { destruct Hw as [Hw|Hw]; [by rewrite bool_decide_true by congruence|].
      rewrite (proj2 (Z.ltb_ge _ _)) by lia. by rewrite andb_false_r. }
    rewrite Eo, Hno. exists (buf f). split; [by destruct f|]. split; [done|]. split; [lia|done].
  - rewrite (bool_decide_true (writebuf f = owritebuf f)) by congruence. rewrite Eo, Hno. exists (buf f).
    split; [by destruct f|]. split; [done|]. split; [lia|done].
  - rewrite Eo, Ew. replace (a_pos a) with w in * by lia. destruct (Z.ltb_spec o w) as [Hlt|Hge].
    + rewrite bool_decide_false by (intros [=]; lia). cbn [negb andb]. rewrite length_image by lia.
      rewrite Z2Nat.id by lia. destruct (Z.ltb_spec (used f) w) as [Huw|Huw].
      * rewrite Z.max_r by lia. cbn [mbind option_bind]. destruct (Z.ltb_spec (used f) o) as [Huo|Huo].
        -- destruct (store_ok (buf f) (used f) (replicate (Z.to_nat (o - used f)) 0)) as (b & -> & Hlb & Hb);
             [lia|rewrite length_replicate; lia|].
           cbn [mbind option_bind]. exists b. split; [done|]. split; [done|]. split; [lia|].
           apply image_ext. intros i Hi. rewrite (proj2 (Z.leb_gt w _)) by lia. cbn [andb].
           rewrite Hb, length_replicate. replace (used f + Z.of_nat (Z.to_nat (o - used f))) with o by lia.
           destruct ((used f <=? Z.of_nat i) && (Z.of_nat i <? o)) eqn:E; [|done].
           rewrite lookup_replicate_2; [done|]. zprop. lia.
        -- cbn [mbind option_bind]. exists (buf f). split; [done|]. split; [done|]. split; [lia|].
           apply image_ext. intros i Hi. rewrite (proj2 (Z.leb_gt w _)) by lia.
           destruct (Z.leb_spec (used f) (Z.of_nat i)), (Z.ltb_spec (Z.of_nat i) o); cbn [andb]; done || lia.
      * rewrite Z.max_l by lia. exists (buf f). split; [by destruct f|]. split; [done|]. split; [lia|].
        apply Hsame.
    + rewrite Hsame, Hno. exists (buf f). assert (o = w) as -> by lia. rewrite bool_decide_true by done.
      split; [by destruct f|]. split; [done|]. split; [lia|done].
Qed.

Lemma mem_drain_ok f a : models k f a -> exists f', mem_drain f = Some f' /\ drained k f' a /\ offset f' = a_pos a /\
  used f' = Z.of_nat (length (a_data a)).
Proof.
  intros Hm. unfold mem_drain. rewrite (physical_ok f a Hm). cbn [mbind option_bind].
  destruct (sync_ok f a Hm) as (b & -> & Hlb & Hle & Hd). cbn [mbind option_bind]. eexists. split; [done|].
  destruct Hm as [Hst Hpos Hp0 _ Hcap Happ Hu Hsz Hmem Hw Hnr].
  split; [|done]. split; [|done..]. split; cbn; try done; try lia. by apply Win_none; auto.
Qed.

Lemma ms_drain_ok f a : models k f a -> k_read k = false -> exists f', ms_drain f = Some f' /\ drained k f' a /\
  offset f' = a_pos a /\ used f' = Z.of_nat (length (a_data a)).
Proof.
  intros Hm Hk. unfold ms_drain. rewrite (physical_ok f a Hm). cbn [mbind option_bind].
  destruct (sync_ok f a Hm) as (b & -> & Hlb & Hle & Hd). cbn [mbind option_bind]. eexists. split; [done|].
  destruct Hm as [Hst Hpos Hp0 _ Hcap Happ Hu Hsz Hmem Hw Hnr]. specialize (Hnr Hk).
  split; [|done]. split; cbn; try done. split; cbn; try done; try lia. by apply Win_none; auto.
Qed.

(** *** Opening windows *)

Lemma models_st g f a : models k f a -> models k (with_st g f) (a_with g a).
Proof.
  intros [Hst Hpos Hp0 Hd Hcap Happ Hu Hsz Hmem Hw Hnr]. split; cbn; try done; [by rewrite Hst|].
  destruct Hw; [by apply Win_none|by eapply Win_read|by eapply Win_write].
Qed.

Lemma contents_none f : owritebuf f = None -> 0 <= used f <= Z.of_nat (length (buf f)) ->
  contents f = take (Z.to_nat (used f)) (buf f).
Proof. intros E Hu. unfold contents. rewrite E. by apply image_take. Qed.

Lemma slack_bounds : 0 <= k_slack k <= 1.
Proof. destruct k; cbn; lia. Qed.

(** What the read window shows. *)
Lemma read_window f a : models k f a -> 0 < readbuflen f ->
  exists p, readbuf f = Some p /\ slice (buf f) p (readbuflen f) = Some (drop (Z.to_nat (a_pos a)) (a_data a)).
Proof.
  intros [_ Hpos Hp0 Hd _ _ Hu _ Hmem Hw _] Hr. pose proof slack_bounds.
  destruct Hw as [? ? ? ?|p Ep Hp _ Ho Ew Eo Hwl|o w ? ? ? ? ? ? ? ?]; [lia| |lia].
  exists p. split; [done|]. unfold slice. rewrite !(proj2 (Z.leb_le _ _)) by lia. cbn [andb].
  rewrite Hd, contents_none by (done || lia). rewrite skipn_firstn_comm. do 2 f_equal; [lia|]. f_equal. lia.
Qed.

Lemma open_read f a : drained k f a -> k_read k = true -> offset f = a_pos a -> offset f < used f ->
  models k (set_offset (used f) (set_read (Some (offset f)) (used f - offset f) f)) a.
Proof.
  intros [[Hst Hpos Hp0 Hd Hcap Happ Hu Hsz Hmem Hw Hnr] Ew Eo Hr Hwl] Hk Hoff Hlt. split; cbn; try done; try lia; [|congruence].
  eapply Win_read; cbn; try done; lia.
Qed.

Lemma contents_window f o : owritebuf f = None ->
  contents (set_offset (size f) (set_write (Some o) (size f - o) (Some o) f)) = contents f.
Proof.
  intros E. unfold contents. cbn. rewrite E, Z.ltb_irrefl. apply image_ext. intros i Hi.
  by rewrite (proj2 (Z.leb_gt _ _)) by lia.
Qed.

Lemma open_write f a : drained k f a -> k_write k = true -> offset f = a_pos a -> offset f < size f -> (append f = true -> used f = offset f) ->
  models k (set_offset (size f) (set_write (Some (offset f)) (size f - offset f) (Some (offset f)) f)) a.
Proof.
  intros [[Hst Hpos Hp0 Hd Hcap Happ Hu Hsz Hmem Hw Hnr] Ew Eo Hr Hwl] Hk Hoff Hlt Hap. split; cbn; try done; try lia.
  - rewrite Hd. symmetry. exact (contents_window f (offset f) Eo).
  - eapply Win_write; cbn; try done; lia.
  - congruence.
Qed.

Lemma drained_move f a p : drained k f a -> 0 <= p -> drained k (set_offset p f) (a_move p a).
Proof.
  intros [[Hst Hpos Hp0 Hd Hcap Happ Hu Hsz Hmem Hw Hnr] Ew Eo Hr Hwl] Hp. split; cbn; try done.
  split; cbn; try done; try lia. apply Win_none; cbn; auto.
Qed.

Lemma drained_st g f a : drained k f a -> drained k (with_st g f) (a_with g a).
Proof. intros [Hm ? ? ? ?]. split; [by apply models_st|done..]. Qed.

(** More memory. *)
Lemma grow_loop_ok fuel off slack : forall n, 0 <= off < FAR -> 0 <= slack <= 1 -> 0 < n < 2 ^ 63 ->
  off + slack < n * 2 ^ Z.of_nat fuel ->
  exists n', grow_loop (S fuel) off slack n = Some n' /\ n <= n' < 2 ^ 63 /\ off + slack < n'.
Proof.
  unfold FAR. induction fuel as [|fuel IH]; intros n Ho Hs Hn Hf; cbn [grow_loop];
    rewrite (sN_small 64) by (unfold in_signed; lia); unfold OFF_MIN; rewrite (proj2 (Z.leb_le _ (n - slack))) by lia.
  - rewrite (proj2 (Z.leb_gt _ _)) by (simpl in Hf; lia). exists n. split; [done|]. simpl in Hf. lia.
  - destruct (Z.leb_spec (n - slack) off) as [Hle|Hgt]; [|exists n; split; [done|lia]].
    rewrite uN_small by (unfold in_unsigned; lia). rewrite Nat2Z.inj_succ, Z.pow_succ_r in Hf by lia.
    destruct (IH (n * 2)) as (n' & Hl & Hn'); [done|done|lia|lia|]. cbn [grow_loop] in Hl. exists n'. split; [exact Hl|lia].
Qed.

Lemma realloc_models A f a n : drained k f a -> Z.of_nat (length (buf f)) <= n < 2 ^ 63 ->
  alloc_ok A (nalloc f) n = true ->
  exists f', realloc A n f = (true, f') /\ st f' = s_count_alloc (st f) /\
    drained k (set_memory (buf f') (used f') (n - k_slack k) f')
      (Afile (s_count_alloc (a_st a)) (a_data a) (a_pos a) (n - k_slack k)) /\
    offset f' = offset f.
Proof.
  intros [[Hst Hpos Hp0 Hd Hcap Happ Hu Hsz Hmem Hw Hnr] Ew Eo Hr Hwl] Hn Hok. unfold realloc. rewrite Hok.
  eexists. split; [done|]. cbn. split; [done|]. split; [|done]. pose proof slack_bounds.
  rewrite take_ge by lia. split; cbn; try done. split; cbn; try done; try lia.
  - by rewrite Hst.
  - rewrite Hd. unfold contents. cbn. rewrite Eo. apply image_ext. intros i Hi. by rewrite lookup_app_l by lia.
  - rewrite length_app, length_fmap, length_seqZ. lia.
  - apply Win_none; cbn; auto.
Qed.

End Windows.

(** ** What a provider promises

    The operations of a provider seen on the file: windows open where the file has
    data or room, a seek moves, a flush publishes. *)

Class Provider (A : allocator) (k : kind) (ops : fileops) : Prop := {
  prov_read f a : models k f a -> readbuflen f = 0 -> k_read k = true ->
    exists f', read_peek ops f = Some (true, f') /\ models k f' a /\ writebuflen f' = 0 /\
      (0 < readbuflen f' <-> a_pos a < Z.of_nat (length (a_data a))) /\ 0 <= readbuflen f';
  prov_noread f : k_read k = false -> read_peek ops f = ebadf f;
  prov_write f a ok a' : models k f a -> writebuflen f = 0 -> k_write k = true -> a_room A k a = Some (ok, a') ->
    exists f', write_peek ops f = Some (ok, f') /\ models k f' a' /\ (ok = true -> 0 < writebuflen f' /\ readbuflen f' = 0);
  prov_nowrite f : k_write k = false -> write_peek ops f = ebadf f;
  prov_seek f a off seek_end : models k f a ->
    exists f', seek ops f off seek_end = Some ((a_seek k off seek_end a).1, f') /\ models k f' (a_seek k off seek_end a).2;
  prov_setvbuf f len : op_setvbuf ops f len = Some (true, f);
  prov_flush f a : models k f a -> exists f', flush ops f = Some (true, f') /\ models k f' (a_flush k a)
}.

(** *** fmemopen *)

Lemma mem_read_ok k f a : models k f a -> k_read k = true ->
  exists f', mem_read_peek f = Some (true, f') /\ models k f' a /\ writebuflen f' = 0 /\
    (0 < readbuflen f' <-> a_pos a < Z.of_nat (length (a_data a))) /\ 0 <= readbuflen f'.
Proof.
  intros Hm Hk. destruct (mem_drain_ok k f a Hm) as (g & Eg & Hg & Ho & Hu). unfold mem_read_peek. rewrite Eg.
  cbn [mbind option_bind]. eexists. split; [done|]. destruct (Z.ltb_spec (offset g) (used g)) as [Hlt|Hge].
  - split; [by apply open_read|]. cbn. split; [exact (d_writebuflen _ _ _ Hg)|]. lia.
  - split; [apply Hg|]. split; [exact (d_writebuflen _ _ _ Hg)|]. rewrite (d_readbuflen _ _ _ Hg). lia.
Qed.

(** A seek, for all three: [inside] is the further condition of fmemopen. *)
Lemma seek_ok k (drain : FILE -> option FILE) f a off (seek_end : bool) g :
  drain f = Some g -> drained k g a -> used g = Z.of_nat (length (a_data a)) ->
  exists f', (f ← drain f;
     match (if seek_end then add_overflow off (used f) else Some off) with
     | None => Some (false, set_errno EOVERFLOW f)
     | Some off =>
         if (off <? 0) || match k with Mem _ _ _ => size f <? off | _ => false end
         then Some (false, set_errno EINVAL f) else Some (true, set_offset off f)
     end) = Some ((a_seek k off seek_end a).1, f') /\ models k f' (a_seek k off seek_end a).2.
Proof.
  intros Eg Hg Hu. rewrite Eg. cbn [mbind option_bind]. rewrite Hu. unfold a_seek. rewrite (m_cap _ _ _ (d_models _ _ _ Hg)).
  destruct (if seek_end then add_overflow off (Z.of_nat (length (a_data a))) else Some off) as [p|].
  - destruct ((p <? 0) || _) eqn:E.
    + eexists. split; [done|]. apply models_st. apply Hg.
    + eexists. split; [done|]. apply orb_false_iff in E as [E _]. zprop. apply (drained_move k g a p Hg E).
  - eexists. split; [done|]. apply models_st. apply Hg.
Qed.

#[export] Instance mem_provider A r w app : Provider A (Mem r w app) (mem_ops r w).
Proof.
  split.
  - intros f a Hm _ Hk. cbn in Hk. subst r. by apply mem_read_ok.
  - cbn. by intros f ->.
  - intros f a ok a' Hm _ Hk. cbn in Hk. subst w. cbn. unfold mem_write_peek.
    destruct (mem_drain_ok _ f a Hm) as (g & -> & Hg & Ho & Hu). cbn [mbind option_bind].
    pose proof (m_append _ _ _ (d_models _ _ _ Hg)) as Happ. cbn in Happ. rewrite Happ.
    assert (Hg' : drained (Mem r true app) (if app then set_offset (used g) g else g)
      (if app then a_move (Z.of_nat (length (a_data a))) a else a)).
    { destruct app; [|done]. rewrite Hu. apply drained_move; [done|lia]. }
    assert (Ho' : offset (if app then set_offset (used g) g else g) =
      a_pos (if app then a_move (Z.of_nat (length (a_data a))) a else a)) by (by destruct app).
    assert (Hap' : append (if app then set_offset (used g) g else g) = true -> used (if app then set_offset (used g) g else g) =
      offset (if app then set_offset (used g) g else g)) by (destruct app; [done|]; by rewrite Happ).
    revert Hg' Ho' Hap'. generalize (if app then set_offset (used g) g else g).
    generalize (if app then a_move (Z.of_nat (length (a_data a))) a else a). intros b h Hh Ho' Hap' [= E].
    rewrite <- (m_cap _ _ _ (d_models _ _ _ Hh)) in *. rewrite Ho' in *. destruct (a_cap b <=? a_pos b) eqn:Ec; injection E as <- <-.
    + eexists. split; [done|]. split; [by apply models_st, Hh|done].
    + zprop. eexists. split; [done|]. rewrite <- Ho'. rewrite (m_cap _ _ _ (d_models _ _ _ Hh)) in *.
      split; [apply open_write; [done|done|done|lia|by rewrite Ho']|]. cbn. intros _. split; [lia|exact (d_readbuflen _ _ _ Hh)].
  - cbn. by intros f ->.
  - intros f a off seek_end Hm. destruct (mem_drain_ok _ f a Hm) as (g & Eg & Hg & _ & Hu).
    exact (seek_ok _ mem_drain f a off seek_end g Eg Hg Hu).
  - done.
  - intros f a Hm. cbn. unfold mem_flush. destruct (mem_drain_ok _ f a Hm) as (g & -> & Hg & _). cbn [mbind option_bind].
    eexists. split; [done|]. apply Hg.
Qed.

(** *** open_memstream and tmpfile *)

Lemma grow_room A k f a new_size0 ok a' : drained k f a -> offset f = a_pos a -> Z.of_nat (length (buf f)) <= new_size0 < 2 ^ 63 ->
  0 < new_size0 -> a_grow A (k_slack k) new_size0 a = Some (ok, a') ->
  exists f', (if size f <=? offset f then
      new_size ← grow_loop 64 (offset f) (k_slack k) new_size0;
      let '(ok, f) := realloc A new_size f in
      Some (ok, if ok : bool then set_memory (buf f) (used f) (new_size - k_slack k) f else f)
    else Some (true, f)) = Some (ok, f') /\ models k f' a' /\ (ok = true -> drained k f' a' /\ offset f' = a_pos a' /\ offset f' < size f').
Proof.
  intros Hf Ho Hn Hn0. pose proof (slack_bounds k) as Hs. unfold a_grow. rewrite (m_cap _ _ _ (d_models _ _ _ Hf)), <- Ho.
  pose proof (m_st _ _ _ (d_models _ _ _ Hf)) as Hst. pose proof (m_pos0 _ _ _ (d_models _ _ _ Hf)) as Hp0.
  destruct (Z.leb_spec (size f) (offset f)) as [Hle|Hgt].
  - unfold assert. destruct (Z.ltb_spec (offset f) FAR) as [Hfar|]; [|done]. cbn [mbind option_bind].
    destruct (grow_loop_ok 63 (offset f) (k_slack k) new_size0) as (n & -> & Hn1 & Hn2); [lia..|unfold FAR in Hfar; lia|].
    cbn [mbind option_bind]. rewrite Hst. fold (nalloc f). destruct (alloc_ok A (nalloc f) n) eqn:Eok; intros [= <- <-].
    + destruct (realloc_models k A f a n Hf ltac:(lia) Eok) as (f' & -> & _ & Hd & Ho'). rewrite Hst, <- Ho in Hd.
      eexists. split; [done|]. split; [apply Hd|]. intros _. split; [exact Hd|]. cbn. lia.
    + unfold realloc. rewrite Eok. eexists. split; [done|]. split; [by apply models_st, models_st, Hf|done].
  - intros [= <- <-]. eexists. split; [done|]. split; [apply Hf|]. intros _. split; [done|lia].
Qed.

Lemma window_room k f a : k_append k = false -> k_write k = true -> drained k f a -> offset f = a_pos a -> offset f < size f ->
  models k (set_offset (size f) (set_write (Some (offset f)) (size f - offset f) (Some (offset f)) f)) a /\
  0 < size f - offset f /\ readbuflen f = 0.
Proof.
  intros Hk Hk' Hf Ho Hlt. split; [apply open_write; [done..|]|split; [lia|exact (d_readbuflen _ _ _ Hf)]].
  rewrite (m_append _ _ _ (d_models _ _ _ Hf)), Hk. done.
Qed.

#[export] Instance memstream_provider A : Provider A Memstream (ms_ops A).
Proof.
  split; try done.
  - intros f a ok a' Hm _ _ Hroom. cbn. unfold ms_write_peek. destruct (ms_drain_ok _ f a Hm eq_refl) as (g & -> & Hg & Ho & _).
    cbn [mbind option_bind]. pose proof (d_models _ _ _ Hg) as [_ _ _ _ Hc _ Hu Hsz Hmem _ _].
    change (k_slack Memstream) with 1 in *.
    destruct (grow_room A Memstream g a (u64 (size g + 1)) ok a' Hg Ho) as (h & Eh & Hh & Hok).
    + rewrite uN_small by (unfold in_unsigned; lia). lia.
    + rewrite uN_small by (unfold in_unsigned; lia). lia.
    + rewrite uN_small by (unfold in_unsigned; lia). by rewrite <- Hc.
    + unfold ms_grow. change (k_slack Memstream) with 1 in Eh. rewrite Eh. cbn [mbind option_bind]. destruct ok; [|by eexists].
      destruct (Hok eq_refl) as (Hd & Ho' & Hlt). destruct (window_room Memstream h a' eq_refl eq_refl Hd Ho' Hlt) as (H1 & H2 & H3). eexists. split; [done|]. done.
  - intros f a off seek_end Hm. destruct (ms_drain_ok _ f a Hm eq_refl) as (g & Eg & Hg & _ & Hu).
    destruct (seek_ok _ ms_drain f a off seek_end g Eg Hg Hu) as (f' & E & Hf'). exists f'. split; [|done]. rewrite <- E. cbn.
    unfold ms_seek. destruct (ms_drain f) as [x|]; [|done]. cbn [mbind option_bind]. destruct (if seek_end then add_overflow off (used x) else Some off); [|done].
    by rewrite orb_false_r.
  - intros f a Hm. cbn. unfold ms_flush. destruct (ms_drain_ok _ f a Hm eq_refl) as (g & -> & Hg & Ho & Hu). cbn [mbind option_bind].
    pose proof (d_models _ _ _ Hg) as [_ _ _ Hd _ _ Hus _ Hmem _ _]. cbn in Hmem.
    assert (Es : a_data a = take (Z.to_nat (used g)) (buf g)) by (rewrite Hd; apply contents_none; [apply Hg|lia]).
    assert (Hl : length (a_data a) = Z.to_nat (used g)) by lia.
    unfold store. rewrite (proj2 (Z.leb_le _ _)), (proj2 (Z.leb_le (used g + _) _)) by (cbn [length]; lia). cbn [andb mbind option_bind].
    rewrite <- Es. cbn [length]. set (b := a_data a ++ [0] ++ drop (Z.to_nat (used g) + 1) (buf g)).
    assert (Hlb : length b = length (buf g)) by (unfold b; rewrite !length_app, length_drop; cbn [length]; lia).
    unfold slice. rewrite !(proj2 (Z.leb_le _ _)) by lia. cbn [andb mbind option_bind].
    eexists. split; [done|]. rewrite Ho, Hu. change (Z.to_nat 0) with 0%nat. rewrite drop_0.
    replace (take (Z.to_nat (Z.of_nat (length (a_data a)) + 1)) b) with (a_data a ++ [0]).
    2: { unfold b. rewrite app_assoc, take_app_length'; [done|]. rewrite length_app. cbn [length]. lia. }
    apply models_st. destruct Hg as [[Hst Hpos Hp0 _ Hcap Happ _ Hsz _ Hw Hnr] Ew Eo Hr Hwl].
    split; cbn; try done; try lia; [|by apply Win_none; cbn; auto].
    unfold contents. cbn. rewrite Eo, image_take by lia. unfold b. by rewrite Nat2Z.id, take_app_length.
Qed.

#[export] Instance tmpfile_provider A : Provider A Tmpfile (tmp_ops A).
Proof.
  split; try done.
  - intros f a Hm _ Hk. by apply mem_read_ok.
  - intros f a ok a' Hm _ _ Hroom. change (write_peek (tmp_ops A) f) with (tmp_write_peek A f). unfold tmp_write_peek, tmp_drain.
    destruct (mem_drain_ok _ f a Hm) as (g & -> & Hg & Ho & _).
    cbn [mbind option_bind]. pose proof (d_models _ _ _ Hg) as [_ _ _ _ Hc _ Hu Hsz Hmem _ _].
    change (k_slack Tmpfile) with 0 in *.
    destruct (grow_room A Tmpfile g a (if size g <? 16 then 16 else size g) ok a' Hg Ho) as (h & Eh & Hh & Hok).
    + destruct (Z.ltb_spec (size g) 16); lia.
    + destruct (Z.ltb_spec (size g) 16); lia.
    + change (k_slack Tmpfile) with 0. by rewrite <- Hc.
    + unfold tmp_grow. change (k_slack Tmpfile) with 0 in Eh.
      assert (Eh' : tmp_grow A g = Some (ok, h)).
      { unfold tmp_grow. rewrite <- Eh. destruct (size g <=? offset g); [|done]. destruct (grow_loop _ _ _ _); [|done].
        cbn [mbind option_bind]. by rewrite Z.sub_0_r. }
      unfold tmp_grow in Eh'. rewrite Eh'. cbn [mbind option_bind]. destruct ok; [|by eexists].
      destruct (Hok eq_refl) as (Hd & Ho' & Hlt). destruct (window_room Tmpfile h a' eq_refl eq_refl Hd Ho' Hlt) as (H1 & H2 & H3). eexists. split; [done|]. done.
  - intros f a off seek_end Hm. destruct (mem_drain_ok _ f a Hm) as (g & Eg & Hg & _ & Hu).
    destruct (seek_ok _ mem_drain f a off seek_end g Eg Hg Hu) as (f' & E & Hf'). exists f'. split; [|done]. rewrite <- E. cbn.
    unfold tmp_seek, tmp_drain. destruct (mem_drain f) as [x|]; [|done]. cbn [mbind option_bind].
    destruct (if seek_end then add_overflow off (used x) else Some off); [|done]. by rewrite orb_false_r.
  - intros f a Hm. by exists f.
Qed.

(** ** The stream functions, over any provider *)

Section Client.
  Context (A : allocator) (k : kind) (ops : fileops) `{!Provider A k ops}.

(** *** Reading *)

(** The bytes that are at hand, and the file after looking for them. *)
Definition avail (a : afile) : option (list Z) :=
  match s_ungetcs (a_st a) with
  | [] => if k_read k then Some (drop (Z.to_nat (a_pos a)) (a_data a)) else None
  | l => Some l
  end.

Definition a_peek (a : afile) : afile :=
  match avail a with
  | None => a_fail (a_with (s_set_errno EBADF) a)
  | Some [] => a_with (fun s => s_set_flags true (s_error s) s) a
  | Some _ => a
  end.

Definition a_skip (n : nat) (a : afile) : afile :=
  match s_ungetcs (a_st a) with
  | [] => a_move (a_pos a + Z.of_nat n) a
  | l => a_with (s_set_ungetcs (drop n l)) a
  end.

Lemma a_with_id g a : g (a_st a) = a_st a -> a_with g a = a.
Proof. intros E. destruct a. unfold a_with. cbn in *. by rewrite E. Qed.

Lemma avail_byte c l a : avail a = Some (c :: l) -> a_read_byte k a = (Done, c, a_skip 1 a).
Proof.
  unfold avail, a_read_byte, a_skip. destruct (s_ungetcs (a_st a)) as [|x u]; [|by intros [= <- <-]].
  destruct (k_read k); [|done]. intros [= E]. assert (H : a_data a !! Z.to_nat (a_pos a) = Some c).
  { rewrite <- (Nat.add_0_r (Z.to_nat (a_pos a))), <- lookup_drop, E. done. }
  by rewrite H.
Qed.

Lemma avail_skip c l a : 0 <= a_pos a -> avail a = Some (c :: l) -> l <> [] -> avail (a_skip 1 a) = Some l.
Proof.
  unfold avail, a_skip. intros Hp. destruct (s_ungetcs (a_st a)) as [|x u] eqn:Eu.
  - destruct (k_read k); [|done]. intros [= E] Hl. cbn. rewrite Eu. f_equal.
    replace (Z.to_nat (a_pos a + Z.of_nat 1)) with (Z.to_nat (a_pos a) + 1)%nat by lia. rewrite <- drop_drop, E. done.
  - intros [= <- <-] Hl. cbn. by destruct u.
Qed.

Lemma a_skip_step n a c l : avail a = Some (c :: l) -> (n <= length l)%nat -> a_skip n (a_skip 1 a) = a_skip (S n) a.
Proof.
  unfold avail, a_skip. destruct (s_ungetcs (a_st a)) as [|x u] eqn:Eu.
  - intros _ _. cbn. rewrite Eu. unfold a_move. cbn. f_equal. lia.
  - intros [= <- <-] Hn. cbn. destruct u as [|y u]; [|done]. destruct n; [|simpl in Hn; lia].
    unfold a_move, a_with. cbn. f_equal. lia.
Qed.

Lemma a_skip_0 a : a_skip 0 a = a.
Proof.
  unfold a_skip. destruct (s_ungetcs (a_st a)) as [|x u] eqn:E; destruct a as [s d p c]; cbn in *.
  - unfold a_move. cbn. f_equal. lia.
  - unfold a_with. cbn. f_equal. destruct s. cbn in *. by subst.
Qed.

(** Reading bytes that are at hand. *)
Lemma a_read_chunk stop l1 : forall l2 m a, 0 <= a_pos a -> avail a = Some (l1 ++ l2) -> Forall (fun c => stop c = false) l1 ->
  a_read k (length l1 + m) stop a =
    let '(r, l, a) := a_read k m stop (a_skip (length l1) a) in (r, l1 ++ l, a).
Proof.
  induction l1 as [|c l1 IH]; intros l2 m a Hp Ha Hs; cbn [length Nat.add app].
  - rewrite a_skip_0. by destruct (a_read k m stop a) as [[r l] a'].
  - inversion Hs as [|? ? Hc Hs']; subst. cbn [a_read]. rewrite (avail_byte c (l1 ++ l2)) by done. rewrite Hc.
    destruct l1 as [|d l1].
    + cbn [length Nat.add app]. by destruct (a_read k m stop (a_skip 1 a)) as [[r l] a'].
    + rewrite (IH l2 m (a_skip 1 a)); [| |by apply (avail_skip c)|done].
      * rewrite (a_skip_step _ _ c ((d :: l1) ++ l2)) by (done || (rewrite length_app; lia)).
        destruct (a_read k m stop (a_skip (S (length (d :: l1))) a)) as [[r l] a']. done.
      * unfold a_skip. destruct (s_ungetcs (a_st a)); cbn; lia.
Qed.

(** Consuming some of the bytes at hand. *)
Lemma consume_ungetc f a n : models k f a -> ungetcs f <> [] -> (n <= length (ungetcs f))%nat ->
  exists f', fread_consume f (Z.of_nat n) = Some f' /\ models k f' (a_skip n a).
Proof.
  intros Hm Hne Hn. unfold fread_consume, assert. rewrite bool_decide_false by done. cbn [negb].
  rewrite (proj2 (Z.leb_le _ _)) by lia. cbn [mbind option_bind]. eexists. split; [done|]. rewrite Nat2Z.id.
  unfold a_skip. rewrite (m_st _ _ _ Hm). fold (ungetcs f). destruct (ungetcs f); [done|]. by apply models_st.
Qed.

Lemma consume_window f a n : models k f a -> ungetcs f = [] -> 0 < readbuflen f -> Z.of_nat n <= readbuflen f ->
  exists f', fread_consume f (Z.of_nat n) = Some f' /\ models k f' (a_skip n a).
Proof.
  intros Hm Hu Hr Hn. unfold fread_consume, assert. rewrite Hu. rewrite bool_decide_true by done. cbn [negb].
  rewrite (proj2 (Z.leb_le _ _)) by lia. cbn [mbind option_bind]. unfold a_skip. rewrite (m_st _ _ _ Hm). fold (ungetcs f). rewrite Hu.
  destruct Hm as [Hst Hpos Hp0 Hd Hcap Happ Hus Hsz Hmem Hw Hnr].
  destruct Hw as [? ? ? ?|p Ep Hp Hr0 Ho Ew Eo Hwl|o w ? ? ? ? ? ? ? ?]; [lia| |lia].
  rewrite Ep. cbn [mbind option_bind]. eexists. split; [done|]. split; cbn; try done; try lia.
  - eapply Win_read; cbn; try done; lia.
  - intros Hk. specialize (Hnr Hk). lia.
Qed.

Lemma drop_nil_iff (d : list Z) p : 0 <= p -> drop (Z.to_nat p) d = [] <-> Z.of_nat (length d) <= p.
Proof.
  intros Hp. split.
  - intros E. pose proof (length_drop d (Z.to_nat p)) as H. rewrite E in H. cbn in H. lia.
  - intros H. apply drop_ge. lia.
Qed.

(** Refilling the read window. *)
Lemma refill_ok f a : models k f a -> ungetcs f = [] -> readbuflen f = 0 -> k_read k = true ->
  exists f', fop_read_peek ops f = Some (true, f') /\ models k f' (a_peek a) /\ st f' = a_st (a_peek a) /\
    (0 < readbuflen f' <-> a_pos a < Z.of_nat (length (a_data a))) /\ 0 <= readbuflen f'.
Proof.
  intros Hm Hu Hr Hk. unfold fop_read_peek, assert. rewrite Hr, Hu, bool_decide_true by done. cbn [Z.eqb mbind option_bind].
  destruct (prov_read f a Hm Hr Hk) as (g & -> & Hg & Hw & Hiff & Hr0). cbn [mbind option_bind]. rewrite Hw. cbn [Z.eqb].
  rewrite orb_true_r. cbn [mbind option_bind].
  assert (Ep : a_peek a = if readbuflen g =? 0 then a_with (fun s => s_set_flags true (s_error s) s) a else a).
  { unfold a_peek, avail. rewrite (m_st _ _ _ Hm). fold (ungetcs f). rewrite Hu, Hk. pose proof (m_pos0 _ _ _ Hm) as Hp0.
    pose proof (drop_nil_iff (a_data a) (a_pos a) Hp0) as Hn.
    destruct (drop (Z.to_nat (a_pos a)) (a_data a)) as [|c l] eqn:Ed; destruct (Z.eqb_spec (readbuflen g) 0); try done.
    - assert (Z.of_nat (length (a_data a)) <= a_pos a) by (by apply Hn). lia.
    - destruct (Z.lt_ge_cases (a_pos a) (Z.of_nat (length (a_data a)))) as [H|H]; [lia|]. apply Hn in H. done. }
  rewrite Ep. destruct (readbuflen g =? 0) eqn:E0.
  - eexists. split; [done|]. split; [|split; [|done]].
    + exact (models_st k (fun s => s_set_flags true (s_error s) s) g a Hg).
    + cbn. by rewrite (m_st _ _ _ Hg).
  - eexists. split; [done|]. split; [done|]. split; [by rewrite (m_st _ _ _ Hg)|done].
Qed.

Lemma avail_window a : s_ungetcs (a_st a) = [] -> k_read k = true -> avail a = Some (drop (Z.to_nat (a_pos a)) (a_data a)).
Proof. intros Hu Hk. unfold avail. by rewrite Hu, Hk. Qed.

Lemma peek_nonempty a l : avail a = Some l -> l <> [] -> a_peek a = a.
Proof. intros E Hl. unfold a_peek. rewrite E. by destruct l. Qed.

(** The read window, refilled if it is empty. *)
Lemma window_ok f a : models k f a -> ungetcs f = [] -> k_read k = true ->
  exists g, (if readbuflen f =? 0 then fop_read_peek ops f else Some (true, f)) = Some (true, g) /\
    models k g (a_peek a) /\ st g = a_st (a_peek a) /\ (0 < readbuflen g <-> a_pos a < Z.of_nat (length (a_data a))) /\
    0 <= readbuflen g.
Proof.
  intros Hm Hu Hk. destruct (Z.eqb_spec (readbuflen f) 0) as [Hr|Hr]; [by apply refill_ok|]. exists f.
  assert (0 < readbuflen f) as Hr' by (pose proof (m_window _ _ _ Hm) as Hw; inversion Hw; lia).
  destruct (read_window k f a Hm Hr') as (p & _ & Hsl).
  assert (Hlen : a_pos a < Z.of_nat (length (a_data a))).
  { unfold slice in Hsl. case_match; [|done]. injection Hsl as Hsl. apply (f_equal length) in Hsl.
    rewrite length_take, !length_drop in Hsl. pose proof (m_memory _ _ _ Hm). zprop. lia. }
  assert (Ep : a_peek a = a).
  { eapply peek_nonempty; [apply avail_window; [by rewrite (m_st _ _ _ Hm)|done]|].
    intros Ed. apply drop_nil_iff in Ed; [lia|apply Hm]. }
  rewrite Ep. split; [done|]. split; [done|]. split; [by rewrite (m_st _ _ _ Hm)|]. lia.
Qed.

Lemma peek_ok f a : models k f a -> exists f', fread_peek ops f = Some (avail a, f') /\ models k f' (a_peek a) /\
  forall n, (n <= length (default [] (avail a)))%nat -> default [] (avail a) <> [] ->
    exists f'', fread_consume f' (Z.of_nat n) = Some f'' /\ models k f'' (a_skip n a).
Proof.
  intros Hm. unfold fread_peek. pose proof (m_st _ _ _ Hm) as Hst. destruct (decide (ungetcs f = [])) as [Hu|Hu].
  - rewrite bool_decide_true by done. cbn [negb]. destruct (k_read k) eqn:Hk.
    + assert (Ha : avail a = Some (drop (Z.to_nat (a_pos a)) (a_data a))).
      { apply avail_window; [by rewrite Hst|done]. }
      destruct (window_ok f a Hm Hu Hk) as (g & -> & Hg & Hstg & Hiff & Hr0). cbn [mbind option_bind]. rewrite Ha.
      destruct (Z.eqb_spec (readbuflen g) 0) as [Hr|Hr].
      * assert (Hd : drop (Z.to_nat (a_pos a)) (a_data a) = []) by (apply drop_nil_iff; [apply Hm|lia]). rewrite Hd.
        exists g. split; [done|]. split; [done|]. done.
      * assert (Ep : a_peek a = a).
        { apply (peek_nonempty _ _ Ha). intros Ed. apply drop_nil_iff in Ed; [lia|apply Hm]. }
        rewrite Ep in *. destruct (read_window k g a Hg ltac:(lia)) as (p & -> & Hsl). cbn [mbind option_bind]. rewrite Hsl.
        cbn [mbind option_bind]. exists g. split; [done|]. split; [done|]. intros n Hn _. cbn [from_option id] in Hn.
        apply consume_window; [done|unfold ungetcs; by rewrite Hstg, Hst|lia|].
        unfold slice in Hsl. case_match; [|done]. injection Hsl as Hsl. rewrite <- Hsl in Hn. rewrite length_take, length_drop in Hn. zprop. lia.
    + assert (Ha : avail a = None) by (unfold avail; rewrite Hst; fold (ungetcs f); by rewrite Hu, Hk).
      assert (Hr : readbuflen f = 0) by (by apply Hm). rewrite Hr. cbn [Z.eqb]. unfold fop_read_peek, assert. rewrite Hr, Hu.
      rewrite bool_decide_true by done. cbn [Z.eqb mbind option_bind]. rewrite prov_noread by done. cbn [ebadf mbind option_bind].
      unfold a_peek. rewrite Ha. eexists. split; [done|]. split; [|done]. unfold a_fail.
      exact (models_st k (fun s => s_set_flags (s_eof s) true s) _ _ (models_st k (s_set_errno EBADF) f a Hm)).
  - rewrite bool_decide_false by done. cbn [negb].
    assert (Ha : avail a = Some (ungetcs f)) by (unfold avail; rewrite Hst; fold (ungetcs f); by destruct (ungetcs f)).
    assert (Ep : a_peek a = a) by (unfold a_peek; rewrite Ha; by destruct (ungetcs f)). rewrite Ha, Ep.
    exists f. split; [done|]. split; [done|]. intros n Hn Hne. by apply consume_ungetc.
Qed.

(** Whether there is a first byte decides how reading it goes. *)
Lemma read_failed a : avail a = None -> a_read_byte k a = (Failed, 0, a_peek a).
Proof.
  intros H. unfold a_peek. rewrite H. unfold avail in H. unfold a_read_byte.
  destruct (s_ungetcs (a_st a)); [|done]. by destruct (k_read k).
Qed.

Lemma read_at_end a : avail a = Some [] -> a_read_byte k a = (AtEnd, 0, a_peek a).
Proof.
  intros H. unfold a_peek. rewrite H. unfold avail in H. unfold a_read_byte.
  destruct (s_ungetcs (a_st a)); [|done]. destruct (k_read k); [|done]. injection H as H.
  rewrite lookup_ge_None_2; [done|]. pose proof (length_drop (a_data a) (Z.to_nat (a_pos a))) as Hl. rewrite H in Hl. simpl in Hl. lia.
Qed.

Lemma avail_app l1 l2 a : 0 <= a_pos a -> avail a = Some (l1 ++ l2) -> l2 <> [] -> avail (a_skip (length l1) a) = Some l2.
Proof.
  unfold avail, a_skip. intros Hp. destruct (s_ungetcs (a_st a)) as [|x u] eqn:Eu.
  - destruct (k_read k); [|done]. intros [= E] Hl. cbn. rewrite Eu. f_equal.
    replace (Z.to_nat (a_pos a + Z.of_nat (length l1))) with (Z.to_nat (a_pos a) + length l1)%nat by lia.
    rewrite <- drop_drop, E. by rewrite drop_app_length.
  - intros [= E] Hl. cbn [a_with a_st s_set_ungetcs s_ungetcs]. rewrite E, drop_app_length. by destruct l2.
Qed.

Lemma skip_pos n a : 0 <= a_pos a -> 0 <= a_pos (a_skip n a).
Proof. intros H. unfold a_skip. destruct (s_ungetcs (a_st a)); cbn; lia. Qed.

Lemma a_skip_end l1 c l2 a : avail a = Some (l1 ++ c :: l2) -> a_skip 1 (a_skip (length l1) a) = a_skip (S (length l1)) a.
Proof.
  unfold avail, a_skip. destruct (s_ungetcs (a_st a)) as [|x u] eqn:Eu.
  - intros _. cbn. rewrite Eu. unfold a_move. cbn. f_equal. lia.
  - intros [= E]. cbn [a_with a_st s_set_ungetcs s_ungetcs]. rewrite E, drop_app_length.
    unfold a_with. cbn [a_st a_data a_pos a_cap]. f_equal. unfold s_set_ungetcs.
    cbn [s_eof s_error s_orientation s_buftype s_should_flush s_lockcount s_errno s_published s_nalloc]. f_equal.
    change (S (length l1)) with (1 + length l1)%nat. rewrite Nat.add_comm, <- drop_drop, drop_app_length. done.
Qed.

Lemma a_read_take stop n chunk a : 0 <= a_pos a -> avail a = Some chunk -> (n <= length chunk)%nat ->
  Forall (fun c => stop c = false) (take n chunk) -> a_read k n stop a = (Done, take n chunk, a_skip n a).
Proof.
  intros Hp Ha Hn Hs. assert (Hl : length (take n chunk) = n) by (rewrite length_take; lia).
  pose proof (a_read_chunk stop (take n chunk) (drop n chunk) 0 a Hp) as Hr. rewrite Nat.add_0_r, Hl, take_drop in Hr.
  rewrite Hr by done. cbn [a_read]. by rewrite app_nil_r.
Qed.

Lemma a_read_through stop l1 c l2 m a : 0 <= a_pos a -> avail a = Some (l1 ++ c :: l2) ->
  Forall (fun c => stop c = false) l1 -> stop c = true ->
  a_read k (length l1 + S m) stop a = (Done, l1 ++ [c], a_skip (S (length l1)) a).
Proof.
  intros Hp Ha Hl Hc. rewrite (a_read_chunk _ _ (c :: l2)) by done. cbn [a_read].
  rewrite (avail_byte c l2) by (by apply avail_app). rewrite Hc. by rewrite (a_skip_end _ _ _ _ Ha).
Qed.

(** *** fread *)

Lemma fread_loop_ok fuel : forall f a n out, models k f a -> 0 < n <= Z.of_nat fuel ->
  let '(r, l, a') := a_read k (Z.to_nat n) (fun _ => false) a in
  exists f', fread_loop ops fuel f n out = Some (match r with Done => true | _ => false end, out ++ l, f') /\ models k f' a'.
Proof.
  induction fuel as [|fuel IH]; intros f a n out Hm Hn; [lia|]. cbn [fread_loop]. pose proof (m_pos0 _ _ _ Hm) as Hp.
  destruct (peek_ok f a Hm) as (g & -> & Hg & Hc). cbn [mbind option_bind]. destruct (avail a) as [[|c l]|] eqn:Ea.
  - replace (Z.to_nat n) with (S (Z.to_nat n - 1)) by lia. cbn [a_read]. rewrite read_at_end by done. exists g. by rewrite app_nil_r.
  - set (chunk := c :: l) in *. cbn [from_option id] in Hc. destruct (Z.leb_spec n (Z.of_nat (length chunk))) as [Hle|Hgt].
    + destruct (Hc (Z.to_nat n)) as (h & E & Hh); [lia|done|]. rewrite Z2Nat.id in E by lia. rewrite E. cbn [mbind option_bind].
      rewrite (a_read_take _ _ chunk) by (done || lia || by apply Forall_true). by exists h.
    + destruct (Hc (length chunk)) as (h & -> & Hh); [lia|done|]. cbn [mbind option_bind].
      replace (Z.to_nat n) with (length chunk + Z.to_nat (n - Z.of_nat (length chunk)))%nat by lia.
      rewrite (a_read_chunk _ _ []) by (done || (by rewrite app_nil_r) || by apply Forall_true).
      specialize (IH h _ (n - Z.of_nat (length chunk)) (out ++ chunk) Hh).
      destruct (a_read k _ _ (a_skip (length chunk) a)) as [[r l'] a']. rewrite <- app_assoc in IH. apply IH.
      subst chunk. cbn [length] in *. lia.
  - replace (Z.to_nat n) with (S (Z.to_nat n - 1)) by lia. cbn [a_read]. rewrite read_failed by done. exists g. by rewrite app_nil_r.
Qed.

(** *** fgets *)

Lemma through_spec c l : match through c l with
  | Some line => exists l1 l2, line = l1 ++ [c] /\ l = l1 ++ c :: l2 /\ Forall (fun x => (x =? c) = false) l1
  | None => Forall (fun x => (x =? c) = false) l
  end.
Proof.
  induction l as [|x l IH]; cbn [through]; [done|]. destruct (x =? c) eqn:E.
  - apply Z.eqb_eq in E as ->. by exists [], l.
  - destruct (through c l) as [line|]; cbn.
    + destruct IH as (l1 & l2 & -> & -> & H). exists (x :: l1), l2. split; [done|]. split; [done|]. by constructor.
    + by constructor.
Qed.

Definition line_answer (r : outcome) (l : list Z) : option (list Z) :=
  match r with Done => Some l | AtEnd => if bool_decide (l = []) then None else Some l | Failed => None end.

Lemma fgets_loop_ok fuel : forall f a n out, models k f a -> 0 < n <= Z.of_nat fuel ->
  let '(r, l, a') := a_read k (Z.to_nat n) (fun c => c =? 10) a in
  exists f', fgets_loop ops fuel f n out = Some (line_answer r (out ++ l), f') /\ models k f' a'.
Proof.
  induction fuel as [|fuel IH]; intros f a n out Hm Hn; [lia|]. cbn [fgets_loop]. pose proof (m_pos0 _ _ _ Hm) as Hp.
  destruct (peek_ok f a Hm) as (g & -> & Hg & Hc). cbn [mbind option_bind]. destruct (avail a) as [[|c l]|] eqn:Ea.
  - replace (Z.to_nat n) with (S (Z.to_nat n - 1)) by lia. cbn [a_read]. rewrite read_at_end by done. exists g. by rewrite app_nil_r.
  - set (chunk := c :: l) in *. cbn [from_option id] in Hc. pose proof (through_spec 10 (take (Z.to_nat n) chunk)) as Ht.
    destruct (through 10 (take (Z.to_nat n) chunk)) as [line|].
    + destruct Ht as (l1 & l2 & -> & El & Hl1). pose proof (f_equal length El) as Hlen.
      rewrite length_take, length_app in Hlen. cbn [length] in Hlen.
      assert (Ec : chunk = l1 ++ 10 :: l2 ++ drop (Z.to_nat n) chunk).
      { rewrite <- (take_drop (Z.to_nat n) chunk) at 1. rewrite El, <- app_assoc. done. }
      rewrite length_app. cbn [length]. rewrite (proj2 (Z.leb_le _ _)) by lia.
      destruct (Hc (length l1 + 1)%nat) as (h & -> & Hh); [lia|done|]. cbn [mbind option_bind].
      assert (Er : a_read k (Z.to_nat n) (fun c => c =? 10) a = (Done, l1 ++ [10], a_skip (S (length l1)) a)).
      { replace (Z.to_nat n) with (length l1 + S (Z.to_nat n - length l1 - 1))%nat by lia.
        by apply (a_read_through _ _ _ (l2 ++ drop (Z.to_nat n) chunk)); [done|rewrite <- Ec|..]. }
      rewrite Er. rewrite Nat.add_1_r in *. exists h. split; [|done]. rewrite Nat2Z.id. cbn [line_answer]. do 4 f_equal.
      rewrite Ec, <- Nat.add_1_r, (take_app_add _ _ 1). done.
    + destruct (Z.leb_spec n (Z.of_nat (length chunk))) as [Hle|Hgt].
      * destruct (Hc (Z.to_nat n)) as (h & E & Hh); [lia|done|]. rewrite Z2Nat.id in E by lia. rewrite E. cbn [mbind option_bind].
        rewrite (a_read_take (fun c => c =? 10) (Z.to_nat n) chunk a) by (done || lia). exists h. done.
      * destruct (Hc (length chunk)) as (h & -> & Hh); [lia|done|]. cbn [mbind option_bind]. rewrite take_ge in Ht by lia.
        replace (Z.to_nat n) with (length chunk + Z.to_nat (n - Z.of_nat (length chunk)))%nat by lia.
        rewrite (a_read_chunk _ _ []) by (done || by rewrite app_nil_r).
        specialize (IH h _ (n - Z.of_nat (length chunk)) (out ++ chunk) Hh).
        destruct (a_read k _ _ (a_skip (length chunk) a)) as [[r l'] a']. rewrite <- app_assoc in IH. apply IH.
        subst chunk. cbn [length] in *. lia.
  - replace (Z.to_nat n) with (S (Z.to_nat n - 1)) by lia. cbn [a_read]. rewrite read_failed by done. exists g. by rewrite app_nil_r.
Qed.

Lemma getc_ok f a : models k f a ->
  let '(r, c, a') := a_read_byte k a in
  exists f', getc_unlocked ops f = Some (match r with Done => c | _ => EOF end, f') /\ models k f' a'.
Proof.
  intros Hm. unfold getc_unlocked. destruct (peek_ok f a Hm) as (g & -> & Hg & Hc). cbn [mbind option_bind].
  destruct (avail a) as [[|c l]|] eqn:Ea.
  - rewrite read_at_end by done. by exists g.
  - rewrite (avail_byte c l) by done. destruct (Hc 1%nat) as (h & E & Hh); [cbn; lia|done|].
    change (Z.of_nat 1) with 1 in E. rewrite E. by exists h.
  - rewrite read_failed by done. by exists g.
Qed.

(** *** Writing *)

(** Room in the window is room in the file. *)
Lemma length_contents f a : models k f a -> 0 < writebuflen f ->
  exists o w, owritebuf f = Some o /\ writebuf f = Some w /\ 0 <= o <= w /\ w = a_pos a /\ w + writebuflen f = size f /\
    a_data a = image (buf f) (used f) o (if o <? w then Z.max (used f) w else used f) /\ (append f = true -> used f = o) /\
    offset f = size f /\ readbuflen f = 0.
Proof.
  intros [Hst Hpos Hp0 Hd Hcap Happ Hu Hsz Hmem Hw Hnr Hnw] Hr.
  destruct Hw as [? ? ? ?|p ? ? ? ? ? ? ?|o w Eo Ew How Hws Hos Hwl Hrl Hap]; [lia..|].
  exists o, w. unfold contents in Hd. rewrite Eo, Ew in Hd. repeat (split; [done || lia|]). done.
Qed.

Lemma window_has_room f a : models k f a -> 0 < writebuflen f -> a_room A k a = Some (true, a).
Proof.
  intros Hm Hr. destruct (length_contents f a Hm Hr) as (o & w & _ & _ & How & Hw & Hws & Hd & Hap & _).
  pose proof (m_cap _ _ _ Hm) as Hc. pose proof (m_append _ _ _ Hm) as Ha. pose proof (m_used _ _ _ Hm) as Hu.
  unfold a_room, a_grow. destruct k as [r wr app| |]; cbn in Ha; [|by rewrite (proj2 (Z.leb_gt _ _)) by lia..].
  assert (E : (if app then a_move (Z.of_nat (length (a_data a))) a else a) = a).
  { destruct app; [|done]. unfold a_move. destruct a as [s d p c]; cbn in *. f_equal. specialize (Hap Ha). rewrite Hd.
    destruct (Z.ltb_spec o w); rewrite length_image; lia. }
  rewrite E. by rewrite (proj2 (Z.leb_gt _ _)) by lia.
Qed.

(** Bytes stored in the window. *)
Definition put (f : FILE) (l : list Z) : option FILE := g ← store_window f l; fwrite_produce g l.

Lemma store_cons m p b l m' : store m p (b :: l) = Some m' -> exists m1, store m p [b] = Some m1 /\ store m1 (p + 1) l = Some m'.
Proof.
  unfold store. cbn [length]. destruct ((0 <=? p) && _) eqn:E; [|done]. zprop. intros [= <-].
  rewrite !(proj2 (Z.leb_le _ _)) by lia. cbn [andb]. eexists. split; [done|].
  assert (Hl : length (take (Z.to_nat p) m ++ [b] ++ drop (Z.to_nat p + 1) m) = length m).
  { rewrite !length_app, length_take, length_drop. cbn [length]. lia. }
  rewrite Hl, !(proj2 (Z.leb_le _ _)) by lia. cbn [andb]. f_equal. rewrite (app_assoc _ [b]).
  assert (Ht : Z.to_nat (p + 1) = length (take (Z.to_nat p) m ++ [b])) by (rewrite length_app, length_take; cbn [length]; lia).
  rewrite take_app_length' by done. rewrite <- (app_assoc _ [b]). cbn [app]. do 3 f_equal.
  rewrite Ht, <- drop_drop, drop_app_length, drop_drop. f_equal. lia.
Qed.

Definition flush_mark (l : list Z) (s : status) : status :=
  if ((s_buftype s =? _IOLBF) && bool_decide (10 ∈ l)) || ((s_buftype s =? _IONBF) && (0 <? Z.of_nat (length l)))
  then s_set_lock (s_lockcount s) true s else s.

(** What [put] does to a stream with enough room in its window. *)
Lemma put_eq f a l : models k f a -> 0 < writebuflen f -> Z.of_nat (length l) <= writebuflen f ->
  exists m, store (buf f) (a_pos a) l = Some m /\
    put f l = Some (set_write (Some (a_pos a + Z.of_nat (length l))) (writebuflen f - Z.of_nat (length l)) (owritebuf f)
      (with_st (flush_mark l) (set_memory m (used f) (size f) f))).
Proof.
  intros Hm Hr Hl. destruct (length_contents f a Hm Hr) as (o & w & Eo & Ew & How & Hw & Hws & _). subst w.
  destruct (store_ok (buf f) (a_pos a) l) as (m & E & _); [lia|pose proof (m_memory _ _ _ Hm); pose proof (slack_bounds k); lia|].
  exists m. split; [done|]. unfold put, store_window. rewrite Ew. cbn [mbind option_bind]. rewrite E. cbn [mbind option_bind].
  unfold fwrite_produce, flush_mark, buftype. cbn [set_memory st].
  destruct (_ || _) eqn:Ec; unfold assert; cbn; rewrite ?Ec; rewrite (proj2 (Z.leb_le _ _)) by lia; cbn [mbind option_bind]; rewrite Ew; cbn [mbind option_bind].
  - unfold with_st, set_write, set_memory. cbn. by rewrite Ec.
  - unfold with_st, set_write, set_memory. cbn. by rewrite Ec.
Qed.

Lemma image_write m m' u o w b n : 0 <= u -> 0 <= o <= w -> 0 <= n -> n = (if o <? w then Z.max u w else u) ->
  (forall i : nat, m' !! i = if Z.of_nat i =? w then Some b else m !! i) ->
  image m' u o (Z.max u (w + 1)) = write_at (image m u o n) w b.
Proof.
  intros Hu Ho Hn0 Hn Hm.
  assert (Hl : Z.max (Z.of_nat (length (image m u o n))) (w + 1) = Z.max u (w + 1)).
  { rewrite length_image by lia. destruct (Z.ltb_spec o w); lia. }
  apply list_eq_index; [apply Nat2Z.inj; rewrite length_write_at, Hl, length_image by lia; lia|].
  intros i Hi. rewrite length_image in Hi by lia. rewrite lookup_image by lia. rewrite lookup_write_at by lia. rewrite Hm. f_equal.
  destruct (Z.eqb_spec (Z.of_nat i) w) as [E|E].
  - rewrite (proj2 (Z.ltb_ge _ o)), andb_false_r by lia. done.
  - destruct (Z.lt_ge_cases (Z.of_nat i) n) as [Hin|Hin]; [by rewrite lookup_image by lia|].
    rewrite (lookup_ge_None_2 (image _ _ _ _)) by (rewrite length_image; lia).
    destruct (Z.ltb_spec o w); [lia|]. rewrite (proj2 (Z.leb_le u _)), (proj2 (Z.ltb_lt _ o)) by lia. done.
Qed.

Lemma put_byte f a b : models k f a -> k_write k = true -> 0 < writebuflen f ->
  exists f' a', put f [b] = Some f' /\ a_write_byte A k b a = Some (true, a') /\ models k f' a' /\ writebuflen f' = writebuflen f - 1.
Proof.
  intros Hm Hk Hr. destruct (put_eq f a [b] Hm Hr) as (m & Es & ->); [cbn; lia|]. unfold a_write_byte. rewrite Hk.
  rewrite (window_has_room f a Hm Hr). cbn [mbind option_bind]. do 2 eexists. split; [done|]. split; [done|]. split; [|done].
  destruct (length_contents f a Hm Hr) as (o & w & Eo & Ew & How & Hw & Hws & Hd & Hap & Hos & Hrl). subst w.
  destruct (store_ok (buf f) (a_pos a) [b]) as (m' & Es' & Hlm & Hm'); [lia|pose proof (m_memory _ _ _ Hm); pose proof (slack_bounds k); cbn; lia|].
  rewrite Es in Es'. injection Es' as <-. change (Z.of_nat (length [b])) with 1 in *.
  destruct Hm as [Hst Hpos Hp0 _ Hcap Happ Hu Hsz Hmem _ Hnr Hnw]. split; cbn; try done; try lia; [| | |by rewrite Hk].
  - rewrite Hst. unfold flush_mark. assert (bool_decide (10 ∈ [b]) = (b =? 10)) as ->.
    { apply eq_true_iff_eq. rewrite bool_decide_eq_true, Z.eqb_eq, list_elem_of_singleton. split; congruence. }
    cbn [length Z.of_nat]. by rewrite andb_true_r.
  - unfold contents. cbn. rewrite Eo, Hd, (proj2 (Z.ltb_lt o (a_pos a + 1))) by lia. symmetry. apply image_write; try done; try lia.
    { destruct (Z.ltb_spec o (a_pos a)); lia. }
    intros i. rewrite Hm'. destruct (Z.eqb_spec (Z.of_nat i) (a_pos a)) as [E|E].
    + rewrite E, Z.leb_refl, (proj2 (Z.ltb_lt _ _)) by lia. cbn [andb]. replace (i - Z.to_nat (a_pos a))%nat with 0%nat by lia. done.
    + destruct (Z.leb_spec (a_pos a) (Z.of_nat i)), (Z.ltb_spec (Z.of_nat i) (a_pos a + 1)); cbn [andb]; done || lia.
  - eapply Win_write; cbn; try done; lia.
Qed.

Lemma flush_mark_cons b l s : l <> [] -> flush_mark (b :: l) s = flush_mark l (flush_mark [b] s).
Proof.
  intros Hl. unfold flush_mark. assert (Hn : (0 <? Z.of_nat (length l)) = true) by (destruct l; [done|by cbn]).
  assert (bool_decide (10 ∈ b :: l) = bool_decide (10 ∈ [b]) || bool_decide (10 ∈ l)) as ->.
  { apply eq_true_iff_eq. rewrite orb_true_iff, !bool_decide_eq_true, elem_of_cons, list_elem_of_singleton. done. }
  cbn [length]. rewrite Hn. change (0 <? Z.of_nat (S _)) with true.
  destruct (s_buftype s =? _IOLBF) eqn:E1, (s_buftype s =? _IONBF) eqn:E2, (bool_decide (10 ∈ [b])); cbn [orb andb];
    cbn [s_set_lock s_buftype]; rewrite ?E1, ?E2; cbn [orb andb]; by destruct (bool_decide (10 ∈ l)).
Qed.

(** One byte after the other. *)
Lemma put_cons f a b l f1 a1 : models k f a -> 0 < writebuflen f -> Z.of_nat (length (b :: l)) <= writebuflen f -> l <> [] ->
  put f [b] = Some f1 -> models k f1 a1 -> put f (b :: l) = put f1 l.
Proof.
  intros Hm Hr Hl Hne E1 Hm1. cbn [length] in Hl. assert (0 < Z.of_nat (length l)) by (destruct l; [done|cbn; lia]).
  destruct (put_eq f a [b] Hm Hr) as (m1 & Es1 & E1'); [cbn; lia|]. rewrite E1 in E1'. injection E1' as ->.
  destruct (put_eq f a (b :: l) Hm Hr) as (m & Es & ->); [cbn [length]; lia|].
  destruct (put_eq _ a1 l Hm1) as (m2 & Es2 & ->); [cbn; lia..|].
  destruct (length_contents _ a1 Hm1) as (_ & w & _ & Ew & _ & Hw & _); [cbn; lia|]. cbn [set_write writebuf] in Ew. change (Z.of_nat (length [b])) with 1 in *.
  change (Z.of_nat 1) with 1 in *. injection Ew as <-.
  destruct (store_cons _ _ _ _ _ Es) as (m' & Es1' & Es2'). rewrite Es1 in Es1'. injection Es1' as <-.
  cbn [set_write with_st set_memory buf] in Es2. rewrite <- Hw, Es2' in Es2. injection Es2 as <-. rewrite <- Hw.
  unfold set_write, with_st, set_memory. cbn. rewrite flush_mark_cons by done. do 2 f_equal; [f_equal; lia|lia].
Qed.

Lemma put_ok l : forall f a, models k f a -> k_write k = true -> l <> [] -> Z.of_nat (length l) <= writebuflen f ->
  exists f' a', put f l = Some f' /\ a_write A k l a = Some (Z.of_nat (length l), a') /\ models k f' a' /\
    writebuflen f' = writebuflen f - Z.of_nat (length l).
Proof.
  induction l as [|b l IH]; intros f a Hm Hk Hne Hl; [done|]. cbn [length] in Hl.
  destruct (put_byte f a b Hm Hk ltac:(lia)) as (f1 & a1 & E1 & Ea1 & Hm1 & Hw1). cbn [a_write]. rewrite Ea1. cbn [mbind option_bind].
  destruct (decide (l = [])) as [->|Hl'].
  - exists f1, a1. split; [done|]. split; [done|]. split; [done|]. cbn. lia.
  - destruct (IH f1 a1 Hm1 Hk Hl' ltac:(lia)) as (f2 & a2 & E2 & -> & Hm2 & Hw2). exists f2, a2.
    rewrite (put_cons f a b l f1 a1) by (done || lia || (cbn [length]; lia)). split; [done|]. cbn [mbind option_bind length].
    split; [do 2 f_equal; lia|]. split; [done|]. lia.
Qed.

(** A window to write to. *)
Lemma wpeek_ok f a : models k f a ->
  match (if k_write k then a_room A k a else Some (false, a_with (s_set_errno EBADF) a)) with
  | Some (ok, a') => exists f', fwrite_peek ops f = Some (ok, f') /\ models k f' (if ok then a' else a_fail a') /\
      (ok = true -> k_write k = true /\ 0 < writebuflen f')
  | None => True
  end.
Proof.
  intros Hm. unfold fwrite_peek. destruct (Z.eqb_spec (writebuflen f) 0) as [Hr|Hr].
  - unfold fop_write_peek. destruct (k_write k) eqn:Hk.
    + destruct (a_room A k a) as [[ok a']|] eqn:Er; [|done]. destruct (prov_write f a ok a' Hm Hr Hk Er) as (g & -> & Hg & Hok).
      cbn [mbind option_bind]. destruct ok.
      * destruct (Hok eq_refl) as [Hw Hrl]. unfold assert. rewrite (proj2 (Z.ltb_lt _ _)) by lia. cbn [mbind option_bind].
        rewrite Hrl. cbn [Z.eqb]. rewrite orb_true_r. by exists g.
      * eexists. split; [done|]. split; [|done]. exact (models_st k (fun s => s_set_flags (s_eof s) true s) g a' Hg).
    + rewrite prov_nowrite by done. eexists. split; [done|]. split; [|done]. unfold a_fail.
      exact (models_st k (fun s => s_set_flags (s_eof s) true s) _ _ (models_st k (s_set_errno EBADF) f a Hm)).
  - assert (0 < writebuflen f) by (pose proof (m_window _ _ _ Hm) as Hw; inversion Hw; lia).
    destruct (k_write k) eqn:Hk; [|by destruct Hr; apply Hm]. rewrite (window_has_room f a) by done. by exists f.
Qed.

(** The first byte decides whether a write fails. *)
Lemma a_write_room l a : l <> [] ->
  a_write A k l a = ('(ok, a') ← (if k_write k then a_room A k a else Some (false, a_with (s_set_errno EBADF) a));
                     if ok : bool then a_write A k l a else Some (0, a_fail a')).
Proof.
  destruct l as [|b l]; [done|]. intros _. cbn [a_write]. unfold a_write_byte. destruct (k_write k); [|done].
  destruct (a_room A k a) as [[[] a']|]; done.
Qed.

Lemma a_write_settled l a a' : l <> [] -> k_write k = true -> a_room A k a = Some (true, a') -> a_room A k a' = Some (true, a') ->
  a_write A k l a = a_write A k l a'.
Proof. destruct l as [|b l]; [done|]. intros _ Hk E E'. cbn [a_write]. unfold a_write_byte. by rewrite Hk, E, E'. Qed.

Lemma a_write_app l1 : forall l2 a n a1, a_write A k l1 a = Some (n, a1) -> n = Z.of_nat (length l1) ->
  a_write A k (l1 ++ l2) a = ('(n2, a) ← a_write A k l2 a1; Some (n2 + n, a)).
Proof.
  induction l1 as [|b l1 IH]; intros l2 a n a1 E Hn; cbn [a_write app length] in *.
  - injection E as <- <-. destruct (a_write A k l2 a) as [[n2 a2]|]; [|done]. cbn. by rewrite Z.add_0_r.
  - destruct (a_write_byte A k b a) as [[ok a2]|]; [|done]. cbn [mbind option_bind] in *. destruct ok; [|injection E as <- <-; lia].
    destruct (a_write A k l1 a2) as [[n1 a3]|] eqn:E1; [|done]. cbn [mbind option_bind] in E. injection E as <- <-.
    rewrite (IH l2 a2 n1 a3 E1) by lia. destruct (a_write A k l2 a3) as [[n2 a4]|]; [|done]. cbn. do 2 f_equal. lia.
Qed.

Lemma put_loop_ok fuel : forall f a l written n a', models k f a -> l <> [] -> (length l <= fuel)%nat ->
  a_write A k l a = Some (n, a') ->
  exists f', fwrite_put_loop ops fuel f l written = Some (written + n, f') /\ models k f' a'.
Proof.
  induction fuel as [|fuel IH]; intros f a l written n a' Hm Hne Hl E; [by destruct l; cbn in Hl; [|lia]|].
  cbn [fwrite_put_loop]. pose proof (wpeek_ok f a Hm) as Hp. rewrite a_write_room in E by done.
  destruct (if k_write k then a_room A k a else _) as [[[] a1]|] eqn:Er; [| |done].
  - destruct Hp as (g & -> & Hg & Hok). cbn [mbind option_bind] in *. destruct (Hok eq_refl) as [Hk Hr]. rewrite Hk in Er.
    rewrite (a_write_settled l a a1) in E by (done || by apply (window_has_room g)).
    destruct (Z.ltb_spec (writebuflen g) (Z.of_nat (length l))) as [Hlt|Hge].
    + set (l1 := take (Z.to_nat (writebuflen g)) l).
      assert (Hl1 : Z.of_nat (length l1) = writebuflen g) by (unfold l1; rewrite length_take; lia).
      assert (Hne1 : l1 <> []) by (destruct l1; [cbn in Hl1; lia|done]).
      assert (Hl2 : length (drop (length l1) l) = (length l - length l1)%nat) by (by rewrite length_drop).
      destruct (put_ok l1 g a1 Hg Hk Hne1 ltac:(lia)) as (h & a2 & Eh & Ea & Hh & _).
      replace l with (l1 ++ drop (length l1) l) in E by (unfold l1; rewrite length_take, Nat.min_l by lia; apply take_drop).
      rewrite (a_write_app l1 _ a1 _ a2 Ea) in E by done.
      destruct (a_write A k (drop (length l1) l) a2) as [[n2 a3]|] eqn:E2; [|done]. cbn [mbind option_bind] in E.
      injection E as <- <-. unfold put in Eh. destruct (store_window g l1) as [g1|]; [|done]. cbn [mbind option_bind] in *. rewrite Eh.
      cbn [mbind option_bind]. destruct (IH h a2 (drop (length l1) l) (written + Z.of_nat (length l1)) n2 a3 Hh) as (f' & -> & Hf'); [|lia|done|].
      * intros E0. rewrite E0 in Hl2. cbn in Hl2. lia.
      * exists f'. split; [do 2 f_equal; lia|done].
    + destruct (put_ok l g a1 Hg Hk Hne Hge) as (h & a2 & Eh & Ea & Hh & _). rewrite Ea in E. injection E as <- <-.
      unfold put in Eh. destruct (store_window g l) as [g1|]; [|done]. cbn [mbind option_bind] in *. rewrite Eh. by exists h.
  - destruct Hp as (g & -> & Hg & _). cbn [mbind option_bind] in *. injection E as <- <-. exists g. by rewrite Z.add_0_r.
Qed.

(** *** Locking *)

Definition locks (a : afile) : Z := s_lockcount (a_st a).

Lemma lock_ok f a : models k f a -> models k (flockfile f) (a_lock a).
Proof. exact (models_st k (fun s => s_set_lock (s_lockcount s + 1) (s_should_flush s) s) f a). Qed.

Lemma stream_enter_ok f a : models k f a -> models k (flockfile_orientation (-1) f) (a_enter a).
Proof.
  intros Hm. unfold flockfile_orientation, a_enter. pose proof (lock_ok f a Hm) as Hl.
  pose proof (models_st k (fun s => if s_orientation s =? 0 then s_set_mode (-1) (s_buftype s) s else s) _ _ Hl) as H.
  unfold orientation, set_mode. unfold with_st at 1 in H. destruct (s_orientation (st (flockfile f)) =? 0); [exact H|].
  by destruct (flockfile f).
Qed.

Lemma fail_ok f a : models k f a -> models k (set_flags (eof f) true f) (a_fail a).
Proof. exact (models_st k (fun s => s_set_flags (s_eof s) true s) f a). Qed.

Lemma flush_ok f a : models k f a -> exists f', fop_flush ops f = Some (true, f') /\ models k f' (a_flush k a).
Proof. intros Hm. unfold fop_flush. destruct (prov_flush f a Hm) as (g & -> & Hg). by exists g. Qed.

Lemma flush_locks a : locks (a_flush k a) = locks a.
Proof. unfold a_flush. by destruct k. Qed.

Lemma leave_ok f a : models k f a -> 0 < locks a ->
  exists f', funlockfile ops f = Some f' /\ models k f' (a_unlock k a) /\ locks (a_unlock k a) = locks a - 1.
Proof.
  intros Hm Hl. unfold funlockfile, a_unlock, assert. unfold locks in *. pose proof (m_st _ _ _ Hm) as Hst. unfold lockcount. rewrite <- Hst.
  rewrite (proj2 (Z.ltb_lt _ _)) by lia. cbn [mbind option_bind]. unfold should_flush. rewrite <- Hst.
  assert (Hm1 : models k (set_lock (s_lockcount (a_st a) - 1) (s_should_flush (a_st a)) f)
    (a_with (fun s => s_set_lock (s_lockcount s - 1) (s_should_flush s) s) a)).
  { rewrite Hst. exact (models_st k (fun s => s_set_lock (s_lockcount s - 1) (s_should_flush s) s) f a Hm). }
  cbn [set_lock with_st st s_set_lock s_lockcount s_should_flush a_with a_st].
  destruct ((s_lockcount (a_st a) - 1 =? 0) && s_should_flush (a_st a)).
  - destruct (flush_ok _ _ Hm1) as (g & E & Hg).
    match goal with |- context [fop_flush ops ?x] => change (fop_flush ops x) with (fop_flush ops (set_lock (s_lockcount (a_st a) - 1) (s_should_flush (a_st a)) f)) end.
    rewrite E. cbn [mbind option_bind]. eexists. split; [done|].
    split; [exact (models_st k (fun s => s_set_lock (s_lockcount s) false s) _ _ Hg)|].
    pose proof (flush_locks (a_with (fun s => s_set_lock (s_lockcount s - 1) (s_should_flush s) s) a)) as H. exact H.
  - eexists. split; [done|]. done.
Qed.

(** Reading and writing keep the lock. *)
Lemma read_byte_locks a : locks (a_read_byte k a).2 = locks a.
Proof. unfold a_read_byte. destruct (s_ungetcs (a_st a)); [|done]. destruct (k_read k); [|done]. by destruct (_ !! _). Qed.

Lemma read_locks stop n : forall a, locks (a_read k n stop a).2 = locks a.
Proof.
  induction n as [|n IH]; intros a; [done|]. cbn [a_read]. pose proof (read_byte_locks a) as H.
  destruct (a_read_byte k a) as [[[] c] a1]; [|done..]. destruct (stop c); [done|]. specialize (IH a1).
  destruct (a_read k n stop a1) as [[r l] a2]. cbn in *. congruence.
Qed.

Lemma room_locks a ok a' : a_room A k a = Some (ok, a') -> locks a' = locks a.
Proof.
  assert (Hg : forall s c, a_grow A s c a = Some (ok, a') -> locks a' = locks a).
  { intros s c. unfold a_grow, assert. destruct (a_cap a <=? a_pos a); [|by intros [= <- <-]]. destruct (a_pos a <? FAR); [|done].
    cbn [mbind option_bind]. destruct (grow_loop _ _ _ _); [|done]. cbn [mbind option_bind]. by destruct (alloc_ok _ _ _); intros [= <- <-]. }
  unfold a_room. destruct k as [r w app| |]; [|apply Hg..]. destruct app, (_ <=? _); by intros [= <- <-].
Qed.

Lemma write_byte_locks b a ok a' : a_write_byte A k b a = Some (ok, a') -> locks a' = locks a.
Proof.
  unfold a_write_byte. destruct (k_write k); [|by intros [= <- <-]]. destruct (a_room A k a) as [[ok1 a1]|] eqn:E; [|done].
  cbn [mbind option_bind]. apply room_locks in E. destruct ok1; intros [= <- <-]; [|done]. rewrite <- E. unfold locks. cbn. by destruct (_ || _).
Qed.

Lemma write_locks l : forall a n a', a_write A k l a = Some (n, a') -> locks a' = locks a.
Proof.
  induction l as [|b l IH]; intros a n a'; cbn [a_write]; [by intros [= <- <-]|].
  destruct (a_write_byte A k b a) as [[ok a1]|] eqn:E; [|done]. cbn [mbind option_bind]. apply write_byte_locks in E.
  destruct ok; [|by intros [= <- <-]]. destruct (a_write A k l a1) as [[n1 a2]|] eqn:E1; [|done].
  intros [= <- <-]. apply IH in E1. congruence.
Qed.

Lemma enter_locks a : locks (a_enter a) = locks a + 1.
Proof. unfold a_enter, locks. cbn. by destruct (_ =? 0). Qed.

Lemma seek_locks off e a : locks (a_seek k off e a).2 = locks a.
Proof. unfold a_seek. destruct (if e then _ else _); [|done]. by destruct (_ || _). Qed.

(** *** Every call *)

(** A call on the stream does what it does on the file. *)
Definition serves (c : call) : Prop := forall f a r a', models k f a -> 0 <= locks a -> spec_call A k c a = Some (r, a') ->
  exists f', run_call ops c f = Some (r, f') /\ models k f' a' /\ 0 <= locks a'.

Lemma leave_answer g b r r' a' : models k g b -> 0 < locks b -> a_leave k r b = Some (r', a') ->
  r' = r /\ exists f', funlockfile ops g = Some f' /\ models k f' a' /\ 0 <= locks a'.
Proof.
  intros Hm Hl [= <- <-]. split; [done|]. destruct (leave_ok g b Hm Hl) as (f' & E & Hm' & Hl'). exists f'. split; [done|]. split; [done|]. lia.
Qed.

(** The end of a call: release the lock and return. *)
Ltac leave Hg E :=
  match type of E with
  | a_leave _ ?q ?b = Some (?q', ?b') =>
      let Hx := fresh "Hx" in let H := fresh "H" in
      assert (Hx : 0 < locks b); [|destruct (leave_answer _ b q q' b' Hg Hx E) as (-> & ? & H & ? & ?);
        match type of H with ?u = _ => match goal with |- context [funlockfile ?o ?x] => change (funlockfile o x) with u end end;
        rewrite H; cbn [mbind option_bind]; by eauto]
  end.

Lemma getc_serves : serves Getc.
Proof.
  intros f a r a' Hm Hl. cbn [spec_call run_call]. unfold getc. pose proof (getc_ok _ _ (stream_enter_ok f a Hm)) as Hg.
  pose proof (read_byte_locks (a_enter a)) as Hlk. rewrite enter_locks in Hlk.
  destruct (a_read_byte k (a_enter a)) as [[o c] b]. destruct Hg as (g & -> & Hg). cbn [mbind option_bind]. intros E.
  leave Hg E. cbn in Hlk. lia.
Qed.

Lemma putc_ok c f a ok a' : models k f a -> a_write_byte A k (u8 c) a = Some (ok, a') ->
  exists f', putc_unlocked ops c f = Some (if ok then u8 c else EOF, f') /\ models k f' a'.
Proof.
  intros Hm Eb. pose proof (wpeek_ok f a Hm) as Hp. unfold putc_unlocked.
  destruct (if k_write k then a_room A k a else _) as [[[] a1]|] eqn:Er.
  - destruct Hp as (g & -> & Hg & Hok). cbn [mbind option_bind]. destruct (Hok eq_refl) as [Hk Hr]. rewrite Hk in Er.
    destruct (put_byte g a1 (u8 c) Hg Hk Hr) as (h & a2 & Eh & Ea & Hh & _). unfold put in Eh.
    destruct (store_window g [u8 c]) as [g1|]; [|done]. cbn [mbind option_bind] in *. rewrite Eh. exists h.
    unfold a_write_byte in Ea, Eb. rewrite Hk in Ea, Eb. rewrite Er in Eb. rewrite (window_has_room g a1 Hg Hr) in Ea.
    rewrite Ea in Eb. by injection Eb as <- <-.
  - destruct Hp as (g & -> & Hg & _). cbn [mbind option_bind]. exists g. unfold a_write_byte in Eb.
    destruct (k_write k); [rewrite Er in Eb|injection Er as <-]; by injection Eb as <- <-.
  - unfold a_write_byte in Eb. destruct (k_write k); [by rewrite Er in Eb|done].
Qed.

Lemma putc_serves c : serves (Putc c).
Proof.
  intros f a r a' Hm Hl. cbn [spec_call run_call]. unfold putc.
  destruct (a_write_byte A k (u8 c) (a_enter a)) as [[ok b]|] eqn:Eb; [|done]. cbn [mbind option_bind]. intros E.
  pose proof (write_byte_locks _ _ _ _ Eb) as Hlk. rewrite enter_locks in Hlk.
  destruct (putc_ok c _ _ ok b (stream_enter_ok f a Hm) Eb) as (g & -> & Hg). cbn [mbind option_bind]. leave Hg E. lia.
Qed.

(** fread and fwrite with too large an array. *)
Lemma overflow_leaves f a : models k f a -> 0 <= locks a ->
  exists f', funlockfile ops (set_flags (eof (flockfile_orientation (-1) f)) true (flockfile_orientation (-1) f)) = Some f' /\
    models k (set_errno EINVAL f') (a_with (s_set_errno EINVAL) (a_unlock k (a_fail (a_enter a)))) /\
    0 <= locks (a_with (s_set_errno EINVAL) (a_unlock k (a_fail (a_enter a)))).
Proof.
  intros Hm Hl. pose proof (enter_locks a) as Hlk.
  destruct (leave_ok _ _ (fail_ok _ _ (stream_enter_ok f a Hm))) as (f' & E & Hf & Hlf); [change (0 < locks (a_enter a)); lia|].
  exists f'. split; [done|]. split; [exact (models_st k (s_set_errno EINVAL) _ _ Hf)|].
  change (0 <= locks (a_unlock k (a_fail (a_enter a)))). change (locks (a_fail (a_enter a))) with (locks (a_enter a)) in Hlf. lia.
Qed.

Lemma mul_overflow_bounds x y n : 0 <= x -> 0 <= y -> mul_overflow x y = Some n -> 0 <= n.
Proof. unfold mul_overflow. intros. case_match; [|done]. simplify_eq. nia. Qed.

Lemma fread_serves sz nitems : call_ok (Fread sz nitems) -> serves (Fread sz nitems).
Proof.
  intros [Hsz Hni] f a r a' Hm Hl. cbn [spec_call run_call]. unfold fread. pose proof (stream_enter_ok f a Hm) as Hg.
  pose proof (enter_locks a) as Hlk. destruct (mul_overflow sz nitems) as [n|] eqn:En.
  - apply mul_overflow_bounds in En; [|done..]. pose proof (read_locks (fun _ => false) (Z.to_nat n) (a_enter a)) as Hrl.
    destruct (Z.eq_dec n 0) as [->|Hn].
    + change (Z.to_nat 0) with 0%nat. cbn [a_read Z.eqb mbind option_bind]. intros E. leave Hg E. lia.
    + pose proof (fread_loop_ok (Z.to_nat n) _ _ n [] Hg) as Hf. destruct n as [|n|]; [done| |lia].
      destruct (a_read k (Z.to_nat (Z.pos n)) (fun _ => false) (a_enter a)) as [[o l] b].
      destruct Hf as (g & -> & Hg'); [lia|]. cbn [mbind option_bind Z.eqb app]. cbn [snd] in Hrl. intros E.
      destruct o; leave Hg' E; lia.
  - destruct (overflow_leaves f a Hm Hl) as (f' & -> & Hf & Hlf). cbn [mbind option_bind]. intros [= <- <-]. by eauto.
Qed.

Lemma fwrite_put_ok f a l n a' : models k f a -> l <> [] -> a_write A k l a = Some (n, a') ->
  exists f', fwrite_put ops f l = Some (n, f') /\ models k f' a'.
Proof.
  intros Hm Hl E. unfold fwrite_put, assert. rewrite (proj2 (Z.ltb_lt _ _)) by (destruct l; [done|cbn; lia]). cbn [mbind option_bind].
  exact (put_loop_ok (length l) f a l 0 n a' Hm Hl (le_n _) E).
Qed.

Lemma fwrite_serves ptr sz nitems : call_ok (Fwrite ptr sz nitems) -> serves (Fwrite ptr sz nitems).
Proof.
  intros [Hsz Hni] f a r a' Hm Hl. cbn [spec_call run_call]. unfold fwrite. pose proof (stream_enter_ok f a Hm) as Hg.
  pose proof (enter_locks a) as Hlk. destruct (mul_overflow sz nitems) as [n|] eqn:En.
  - apply mul_overflow_bounds in En; [|done..]. destruct (slice ptr 0 n) as [l|] eqn:El; [|done]. cbn [mbind option_bind].
    assert (Hll : Z.of_nat (length l) = n).
    { unfold slice in El. case_match; [|done]. injection El as <-. rewrite length_take, length_drop. zprop. lia. }
    destruct (a_write A k l (a_enter a)) as [[len b]|] eqn:Ew; [|done]. pose proof (write_locks _ _ _ _ Ew) as Hwl. cbn [mbind option_bind].
    destruct (Z.eqb_spec n 0) as [Hn|Hn].
    + destruct l; [|cbn in Hll; lia]. injection Ew as <- <-. intros E. leave Hg E. lia.
    + destruct (fwrite_put_ok _ _ l len b Hg) as (g & -> & Hg'); [by intros ->|done|]. cbn [mbind option_bind]. intros E. leave Hg' E. lia.
  - destruct (overflow_leaves f a Hm Hl) as (f' & -> & Hf & Hlf). cbn [mbind option_bind]. intros [= <- <-]. by eauto.
Qed.

Lemma fputs_serves s : serves (Fputs s).
Proof.
  intros f a r a' Hm Hl. cbn [spec_call run_call]. unfold fputs. pose proof (stream_enter_ok f a Hm) as Hg. pose proof (enter_locks a) as Hlk.
  destruct (a_write A k s (a_enter a)) as [[len b]|] eqn:Ew; [|done]. pose proof (write_locks _ _ _ _ Ew) as Hwl. cbn [mbind option_bind].
  destruct (decide (s = [])) as [->|Hs].
  - rewrite bool_decide_true by done. injection Ew as <- <-. intros E. leave Hg E. lia.
  - rewrite bool_decide_false by done. destruct (fwrite_put_ok _ _ s len b Hg Hs Ew) as (g & -> & Hg'). cbn [mbind option_bind]. intros E.
    leave Hg' E. lia.
Qed.

Lemma fgets_serves n : serves (Fgets n).
Proof.
  intros f a r a' Hm Hl. cbn [spec_call run_call]. unfold fgets. pose proof (stream_enter_ok f a Hm) as Hg. pose proof (enter_locks a) as Hlk.
  destruct (Z.leb_spec n 0) as [Hn|Hn]; [intros E; leave Hg E; lia|].
  pose proof (read_locks (fun c => c =? 10) (Z.to_nat (n - 1)) (a_enter a)) as Hrl. destruct (Z.eqb_spec n 1) as [->|Hn1].
  - change (Z.to_nat (1 - 1)) with 0%nat. cbn [a_read]. intros E. leave Hg E. lia.
  - pose proof (fgets_loop_ok (Z.to_nat (n - 1)) _ _ (n - 1) [] Hg) as Hf.
    destruct (a_read k (Z.to_nat (n - 1)) (fun c => c =? 10) (a_enter a)) as [[o l] b]. destruct Hf as (g & -> & Hg'); [lia|].
    cbn [mbind option_bind app]. cbn [snd] in Hrl. intros E. leave Hg' E. lia.
Qed.

Lemma ungetc_serves c : serves (Ungetc c).
Proof.
  intros f a r a' Hm Hl. cbn [spec_call run_call]. unfold ungetc. pose proof (stream_enter_ok f a Hm) as Hg. pose proof (enter_locks a) as Hlk.
  unfold ungetcs at 1. rewrite <- (m_st _ _ _ Hg). destruct (c =? EOF); [|destruct (UNGETC_SIZE <=? _)]; intros E.
  - pose proof (models_st k (s_set_errno EINVAL) _ _ Hg) as H. leave H E. change (0 < locks (a_enter a)). lia.
  - pose proof (models_st k (s_set_errno ENOSPC) _ _ Hg) as H. leave H E. change (0 < locks (a_enter a)). lia.
  - pose proof (models_st k (fun s => s_set_flags false (s_error s) (s_set_ungetcs (u8 c :: s_ungetcs s) s)) _ _ Hg) as H.
    leave H E. change (0 < locks (a_enter a)). lia.
Qed.

Lemma seekable f a : models k f a -> fseekable f = true.
Proof.
  intros Hm. pose proof (m_pos _ _ _ Hm). pose proof (m_pos0 _ _ _ Hm). unfold fseekable. apply Z.leb_le.
  pose proof (m_window _ _ _ Hm) as Hw. inversion Hw; lia.
Qed.

Lemma fop_seek_ok f a off e : models k f a ->
  exists f', fop_seek ops f off e = Some ((a_seek k off e a).1, f') /\ models k f' (a_seek k off e a).2.
Proof. intros Hm. unfold fop_seek, assert. rewrite (seekable f a Hm). by apply prov_seek. Qed.

Lemma logical_ok f a : models k f a -> ftello_logical f = Some (a_pos a - Z.of_nat (length (s_ungetcs (a_st a)))).
Proof. intros Hm. unfold ftello_logical. rewrite (physical_ok k f a Hm), (m_st _ _ _ Hm). done. Qed.

Lemma fseeko_serves off whence : serves (Fseeko off whence).
Proof.
  intros f a r a' Hm Hl. cbn [spec_call run_call]. unfold fseeko. pose proof (lock_ok f a Hm) as Hg.
  rewrite (seekable _ _ Hg). cbn [negb]. rewrite (logical_ok _ _ Hg).
  set (target := if whence =? SEEK_CUR then _ else _).
  match goal with |- context [mbind _ (if whence =? SEEK_CUR then ?x else ?y)] => set (code := if whence =? SEEK_CUR then x else y) end.
  assert (Hc : exists g, code = Some (target.1, g) /\ models k g target.2).
  { subst code target. destruct (whence =? SEEK_CUR).
    - cbn [mbind option_bind]. destruct (add_overflow _ _); [by apply fop_seek_ok|]. eexists. split; [done|]. exact (models_st k (s_set_errno EOVERFLOW) _ _ Hg).
    - destruct (whence =? SEEK_END); [by apply fop_seek_ok|]. destruct (whence =? SEEK_SET); [by apply fop_seek_ok|].
      eexists. split; [done|]. exact (models_st k (s_set_errno EINVAL) _ _ Hg). }
  assert (Hlk : locks target.2 = locks a + 1).
  { subst target. destruct (whence =? SEEK_CUR); [destruct (add_overflow _ _); [by rewrite seek_locks|done]|].
    destruct (whence =? SEEK_END); [by rewrite seek_locks|]. destruct (whence =? SEEK_SET); [by rewrite seek_locks|done]. }
  clearbody code target. destruct Hc as (g & -> & Hg'), target as [[] b]; cbn [fst snd mbind option_bind] in *; intros E.
  - pose proof (models_st k (fun s => s_set_ungetcs [] (s_set_flags false (s_error s) s)) _ _ Hg') as H. leave H E.
    change (0 < locks b). lia.
  - leave Hg' E. lia.
Qed.

Lemma ftello_serves : serves Ftello.
Proof.
  intros f a r a' Hm Hl. cbn [spec_call run_call]. unfold ftello. pose proof (lock_ok f a Hm) as Hg.
  rewrite (seekable _ _ Hg), (logical_ok _ _ Hg). cbn [negb mbind option_bind]. intros E. leave Hg E. cbn. unfold locks in Hl. lia.
Qed.

Lemma fflush_serves : serves Fflush.
Proof.
  intros f a r a' Hm Hl. cbn [spec_call run_call]. unfold fflush. destruct (flush_ok _ _ (lock_ok f a Hm)) as (g & -> & Hg).
  cbn [mbind option_bind]. intros E. pose proof (models_st k (s_set_ungetcs []) _ _ Hg) as H. leave H E.
  change (0 < locks (a_flush k (a_lock a))). rewrite flush_locks. change (0 < locks a + 1). lia.
Qed.

Lemma rewind_serves : serves Rewind.
Proof.
  intros f a r a' Hm Hl. cbn [spec_call run_call]. unfold rewind. pose proof (lock_ok f a Hm) as Hg.
  rewrite (seekable _ _ Hg). destruct (fop_seek_ok _ _ 0 false Hg) as (g & -> & Hg'). cbn [mbind option_bind].
  assert (Es : (a_seek k 0 false (a_lock a)).2 = a_move 0 (a_lock a)).
  { unfold a_seek. cbn [Z.ltb Z.compare orb]. destruct k; [|done..]. rewrite (proj2 (Z.ltb_ge _ _)); [done|].
    pose proof (m_cap _ _ _ Hm). pose proof (m_used _ _ _ Hm). cbn. lia. }
  rewrite Es in Hg'. intros E. pose proof (models_st k (fun s => s_set_ungetcs [] (s_set_flags false false s)) _ _ Hg') as H.
  leave H E. change (0 < locks a + 1). lia.
Qed.

Lemma flags_serve : serves Clearerr /\ serves Feof /\ serves Ferror.
Proof.
  repeat split; intros f a r a' Hm Hl; cbn [spec_call run_call]; unfold clearerr, feof, ferror; pose proof (lock_ok f a Hm) as Hg; intros E.
  - pose proof (models_st k (s_set_flags false false) _ _ Hg) as H. leave H E. change (0 < locks a + 1). lia.
  - unfold eof. change (s_eof (st (flockfile f))) with (s_eof (st f)). rewrite <- (m_st _ _ _ Hm). leave Hg E. change (0 < locks a + 1). lia.
  - unfold error. change (s_error (st (flockfile f))) with (s_error (st f)). rewrite <- (m_st _ _ _ Hm). leave Hg E. change (0 < locks a + 1). lia.
Qed.

Lemma setvbuf_serves type sz : call_ok (Setvbuf type sz) -> serves (Setvbuf type sz).
Proof.
  intros Hsz f a r a' Hm Hl. cbn [spec_call run_call]. unfold setvbuf. destruct (negb _).
  - intros [= <- <-]. eexists. split; [done|]. split; [|done]. exact (models_st k (s_set_errno EINVAL) f a Hm).
  - unfold fop_setvbuf, assert. rewrite (proj2 (Z.ltb_lt _ _)) by (cbn in Hsz; destruct (Z.eqb_spec sz 0); lia). cbn [mbind option_bind].
    rewrite prov_setvbuf. cbn [mbind option_bind].
    intros E. pose proof (models_st k (fun s => s_set_mode (s_orientation s) type s) _ _ (lock_ok f a Hm)) as H. leave H E.
    change (0 < locks a + 1). lia.
Qed.

Lemma locking_serves : serves Flockfile /\ serves Funlockfile.
Proof.
  split; intros f a r a' Hm Hl; cbn [spec_call run_call].
  - intros [= <- <-]. eexists. split; [done|]. split; [by apply lock_ok|]. change (0 <= locks a + 1). lia.
  - fold (locks a). destruct (Z.ltb_spec 0 (locks a)); [|done]. intros E. leave Hm E. lia.
Qed.

Lemma every_call_serves c : call_ok c -> serves c.
Proof.
  intros Hc. destruct c; auto using getc_serves, putc_serves, fread_serves, fwrite_serves, fputs_serves, fgets_serves, ungetc_serves,
    fseeko_serves, ftello_serves, fflush_serves, rewind_serves, setvbuf_serves; apply flags_serve || apply locking_serves.
Qed.

Lemma calls_serve cs : Forall call_ok cs -> forall f a rs a', models k f a -> 0 <= locks a -> spec_calls A k cs a = Some (rs, a') ->
  exists f', run_calls ops cs f = Some (rs, f') /\ models k f' a' /\ 0 <= locks a'.
Proof.
  induction 1 as [|c cs Hc _ IH]; intros f a rs a' Hm Hl; cbn [spec_calls run_calls]; [intros [= <- <-]; by eauto|].
  destruct (spec_call A k c a) as [[r b]|] eqn:Ec; [|done]. cbn [mbind option_bind].
  destruct (every_call_serves c Hc f a r b Hm Hl Ec) as (g & -> & Hg & Hlg). cbn [mbind option_bind].
  destruct (spec_calls A k cs b) as [[rs' b']|] eqn:Es; [|done]. intros [= <- <-].
  destruct (IH g b rs' b' Hg Hlg Es) as (h & -> & Hh & Hlh). cbn [mbind option_bind]. by eauto.
Qed.

End Client.

(** ** Opened streams *)

(** The file that a stream is opened on: its kind and its first state.  With an
    external buffer and a mode for reading only the file is the buffer, with a mode for
    appending it is the string in the buffer, and otherwise it is empty. *)
Inductive opens (A : allocator) : kind -> afile -> FILE -> fileops -> Prop :=
  | Opens_tmpfile : opens A Tmpfile (Afile (st __falloc) [] 0 0) (tmpfile_l A).1 (tmpfile_l A).2
  | Opens_memstream : opens A Memstream (Afile (st __falloc) [] 0 15) (open_memstream_l A).1 (open_memstream_l A).2
  | Opens_mem b sz mode f ops (oflags := get_oflags_from_string mode) (app := negb (Z.land oflags O_APPEND =? 0)) data :
      fmemopen_l A b sz mode = inr (f, ops) -> 0 <= sz < 2 ^ 63 -> (forall m, b = Some m -> Z.of_nat (length m) = sz) ->
      data = match b with
             | Some m => if app then take (Z.to_nat (strnlen m)) m else if Z.land oflags O_WRONLY =? 0 then m else []
             | None => []
             end ->
      opens A (Mem (negb (Z.land oflags O_RDONLY =? 0)) (negb (Z.land oflags O_WRONLY =? 0)) app)
        (Afile (st __falloc) data (if app then Z.of_nat (length data) else 0) sz) f ops.

Lemma strnlen_bounds s : 0 <= strnlen s <= Z.of_nat (length s).
Proof. induction s as [|c s IH]; cbn [strnlen length]; [lia|]. destruct (c =? 0); lia. Qed.

Lemma opens_models A k a f ops : opens A k a f ops -> models k f a /\ locks a = 0.
Proof.
  intros [| |b sz mode f' ops' oflags app data E Hsz Hb Hd].
  - split; [|done]. split; cbn; try done; try lia. by apply Win_none; cbn; auto.
  - split; [|done]. split; cbn; try done; try lia. by apply Win_none; cbn; auto.
  - split; [|done]. unfold fmemopen_l in E. fold oflags in E. destruct ((oflags =? 0) || (sz =? 0)); [done|]. fold app in E.
    assert (Hx : exists m u, f' = File (st __falloc) (if app then u else 0) None 0 (Some (if app then u else 0)) 0 m None u sz app /\
      Z.of_nat (length m) = sz /\ 0 <= u <= sz /\ data = take (Z.to_nat u) m).
    { destruct b as [m|].
      - specialize (Hb m eq_refl). destruct app.
        + injection E as <- _. exists m, (strnlen m). pose proof (strnlen_bounds m). repeat (split; [done || lia|]). done.
        + destruct (Z.land oflags O_WRONLY =? 0); injection E as <- _; [exists m, sz|exists m, 0]; repeat (split; [done || lia|]); [|done].
          by rewrite take_ge by lia.
      - injection E as <- _. exists (junk A <$> seqZ 0 sz), 0. split; [by destruct app|].
        rewrite length_fmap, length_seqZ. repeat (split; [lia|]). done. }
    destruct Hx as (m & u & -> & Hm & Hu & Hdata).
    assert (Hl : Z.of_nat (length data) = u) by (rewrite Hdata, length_take; lia). rewrite Hl.
    split; cbn; try done; try lia; try (destruct app; lia).
    + rewrite Hdata. symmetry. apply image_take. lia.
    + apply Win_none; cbn; auto. right. destruct app; lia.
Qed.

Lemma opens_provider A k a f ops : opens A k a f ops -> Provider A k ops.
Proof.
  intros [| |b sz mode f' ops' oflags app data E _ _ _]; [apply tmpfile_provider|apply memstream_provider|].
  unfold fmemopen_l in E. fold oflags in E. destruct ((oflags =? 0) || (sz =? 0)); [done|].
  assert (ops' = mem_ops (negb (Z.land oflags O_RDONLY =? 0)) (negb (Z.land oflags O_WRONLY =? 0))) as ->; [|apply mem_provider].
  by repeat case_match; simplify_eq.
Qed.

(** C27: every sequence of calls (getc, putc, fread, fwrite, fgets, fputs, ungetc, fseeko, ftello,
    fflush, rewind, clearerr, feof, ferror, setvbuf, flockfile, funlockfile) on a stream opened by
    fmemopen, open_memstream or tmpfile gives the results it gives on the file that the stream
    stands for, a list of bytes read and written one at a time at a position; no assertion fails
    and no access leaves the buffer; afterwards the stream still stands for the file: what has
    been written, with null bytes in the gaps, is in its memory. *)
Theorem stdio_refines_file A k a f ops cs rs a' :
  opens A k a f ops -> Forall call_ok cs -> spec_calls A k cs a = Some (rs, a') ->
  exists f', run_calls ops cs f = Some (rs, f') /\ contents f' = a_data a' /\ ftello_physical f' = Some (a_pos a') /\ st f' = a_st a'.
Proof.
  intros Ho Hcs E. pose proof (opens_provider _ _ _ _ _ Ho) as HP. destruct (opens_models _ _ _ _ _ Ho) as [Hm Hl].
  destruct (calls_serve A k ops cs Hcs f a rs a' Hm ltac:(lia) E) as (f' & Hr & Hm' & _). exists f'. split; [done|].
  split; [by rewrite (m_data _ _ _ Hm')|]. split; [exact (physical_ok k f' a' Hm')|by rewrite (m_st _ _ _ Hm')].
Qed.

Definition example_allocator : allocator := Allocator (fun n _ => (n <? 5)%nat) (fun i => 170).

Definition example_calls : list call :=
  [Fputs [72; 101; 108; 108; 111]; Fseeko 3 SEEK_CUR; Putc 33; Fseeko (-2) SEEK_END; Fflush; Ftello; Rewind; Fgets 10; Ungetc 65;
   Ftello; Fread 3 2; Feof].

Definition example_answers : list answer :=
  [Num 0; Num 0; Num 33; Num 0; Num 0; Num 7; Num 0; Line (Some [72; 101; 108; 108; 111; 0; 0; 0; 33]); Num 65; Num 8;
   Bytes 0 [65]; Num 1].

Lemma stdio_refines_file_witness : exists f', run_calls (tmp_ops example_allocator) example_calls __falloc = Some (example_answers, f') /\
  contents f' = [72; 101; 108; 108; 111; 0; 0; 0; 33].
Proof.
  destruct (spec_calls example_allocator Tmpfile example_calls (Afile (st __falloc) [] 0 0)) as [[rs a']|] eqn:E; [|by vm_compute in E].
  destruct (stdio_refines_file example_allocator Tmpfile _ _ _ example_calls rs a' (Opens_tmpfile example_allocator)) as (f' & Er & Hc & _);
    [repeat constructor; cbn; lia|exact E|].
  exists f'. vm_compute in E. injection E as <- <-. split; [exact Er|exact Hc].
Defined.

(** With a mode "r+" and an external buffer nothing of the buffer can be read: the
    size of the contents is only set when the mode does not allow writing, and "r+" does. *)
Lemma fmemopen_update_empty A m p :
  exists f ops f', fmemopen_l A (Some m) (Zpos p) [114; 43] = inr (f, ops) /\ run_calls ops [Getc; Feof] f = Some ([Num EOF; Num 1], f').
Proof. do 3 eexists. split; [reflexivity|]. vm_compute. reflexivity. Qed.

(** fmemopen does not terminate what was written with a null byte, not even in fflush. *)
Lemma fmemopen_no_terminator A :
  exists f ops f', fmemopen_l A (Some [120; 120; 120]) 3 [119] = inr (f, ops) /\
    run_calls ops [Putc 65; Fflush] f = Some ([Num 65; Num 0], f') /\ buf f' = [65; 120; 120].
Proof. do 3 eexists. split; [reflexivity|]. split; vm_compute; reflexivity. Qed.
