(* ===== verification/TimeZone.v ===== *)
(** * Time zones

    Sources: src/libc/time/time_impl.h, localtime_l.c, mktime_l.c, the data types of
    src/common/locale.h and src/libc/locale/timezone/utc.c.

    A time zone is a sequence of eras, each with an offset from UTC and the rules for
    daylight saving time that hold in it; a rule says on which day of which years a
    number of minutes is added.  The rules of an era are sorted by their first year;
    from them the functions work out those of one year, in the order in which they
    take effect, and the one that is in effect when the year starts.

    The theorems: the incremental computation gives the rules of the year, sorted, and
    the rule that was the last to take effect before; the comparison of a rule with a
    broken-down time is the comparison of two instants; the result of localtime_l
    denotes the instant it was computed from; mktime_l finds the instant again.
    [TzData] has the database itself and shows that it satisfies the hypotheses. *)

From S2P Require Import Prelude CalendarTime Charset Printf.
From stdpp Require Import strings sorting.

#[local] Open Scope Z_scope.
#[local] Ltac Zify.zify_post_hook ::= Z.to_euclidean_division_equations.

(** ** Data *)

Definition TIMEBASE_CUR : Z := 0.
Definition TIMEBASE_STD : Z := 1.
Definition TIMEBASE_UTC : Z := 2.
Definition UINT8_MAX : Z := 255.

Record lc_timezone_rule := Rule {
  year_from : Z; year_to : Z; month : Z; weekday : Z; monthday : Z; minute : Z; timebase : Z; save : Z; abbreviation : string
}.

Record lc_timezone_era := Era {
  rules : list lc_timezone_rule; gmtoff : Z; era_end : Z; end_save : Z; abbreviation_std : string; abbreviation_dst : string
}.

Definition lc_timezone : Type := list lc_timezone_era.

Definition __timezone_utc : lc_timezone := [Era [] 0 0 0 "UTC" ""].

(** An object of static storage without initialisers. *)
Definition nomatch : lc_timezone_rule := Rule 0 0 0 0 0 0 0 0 "".

Definition assert (b : bool) : option unit := if b then Some () else None.

(** ** time_impl.h

    The set of rules of a year is the list of the first [rules_count] pointers. *)

Definition RULESET_SIZE : nat := 8.

Definition stays (year : Z) (r : lc_timezone_rule) : bool := (year_to r =? UINT8_MAX) || (year <=? year_to r).

Definition ruleset_remove_stale (ruleset : list lc_timezone_rule) (year : Z) : list lc_timezone_rule :=
  filter (fun r => stays year r = true) ruleset.

(** Moving larger rules up, from slot [newslot], which is free. *)
Fixpoint ruleset_shift (newslot : nat) (ruleset : list lc_timezone_rule) (rule : lc_timezone_rule) : option (list lc_timezone_rule) :=
  match newslot with
  | O => Some (<[O := rule]> ruleset)
  | S j =>
      prev ← ruleset !! j;
      if (month rule <? month prev) || ((month rule =? month prev) && (monthday rule <? monthday prev)) then
        _ ← assert (negb (month rule =? month prev) || negb (monthday rule =? monthday prev));
        ruleset_shift j (<[S j := prev]> ruleset) rule
      else Some (<[S j := rule]> ruleset)
  end.

(** The new slot is the one behind the list; what it held is not read. *)
Definition ruleset_add (ruleset : list lc_timezone_rule) (rule : lc_timezone_rule) : option (list lc_timezone_rule) :=
  _ ← assert (length ruleset <? RULESET_SIZE)%nat;
  ruleset_shift (length ruleset) (ruleset ++ [rule]) rule.

(** [below] rules are left. *)
Fixpoint get_last_loop (below : nat) (ruleset : list lc_timezone_rule) (year : Z) (last last_dst : lc_timezone_rule)
  : option (lc_timezone_rule * lc_timezone_rule) :=
  match below with
  | O => Some (last, last_dst)
  | S i =>
      if year_to last <? year - 1 then
        rule ← ruleset !! i;
        if year_to last <? year_to rule
        then get_last_loop i ruleset year rule (if 0 <? save rule then rule else last_dst)
        else get_last_loop i ruleset year last last_dst
      else Some (last, last_dst)
  end.

Definition ruleset_get_last (ruleset : list lc_timezone_rule) (year : Z) (last_dst : lc_timezone_rule)
  : option (lc_timezone_rule * lc_timezone_rule) :=
  _ ← assert (0 <? length ruleset)%nat;
  last ← ruleset !! (length ruleset - 1)%nat;
  get_last_loop (length ruleset - 1) ruleset year last (if 0 <? save last then last else last_dst).

(** Step 1: the rules that start before the year; what is left of the rules. *)
Fixpoint fill_before (ruleset rules : list lc_timezone_rule) (year : Z) (last last_dst : lc_timezone_rule)
  : option (list lc_timezone_rule * list lc_timezone_rule * lc_timezone_rule * lc_timezone_rule) :=
  match rules with
  | [] => Some (ruleset, rules, last, last_dst)
  | rule :: rules' =>
      if year_from rule <? year then
        let last_year := 0 in
        let ruleset := if negb (last_year =? year_from rule) then ruleset_remove_stale ruleset (year_from rule) else ruleset in
        ruleset ← ruleset_add ruleset rule;
        '(last, last_dst) ← ruleset_get_last ruleset year last_dst;
        fill_before ruleset rules' year last last_dst
      else Some (ruleset, rules, last, last_dst)
  end.

(** Step 2: the rules that start in the year. *)
Fixpoint fill_current (ruleset rules : list lc_timezone_rule) (year : Z) : option (list lc_timezone_rule) :=
  match rules with
  | [] => Some ruleset
  | rule :: rules' =>
      if year_from rule =? year then ruleset ← ruleset_add ruleset rule; fill_current ruleset rules' year else Some ruleset
  end.

(** The set of rules, and the rules stored through the pointers. *)
Definition ruleset_fill_with_year (rules : list lc_timezone_rule) (year : Z) (last last_dst : lc_timezone_rule)
  : option (list lc_timezone_rule * lc_timezone_rule * lc_timezone_rule) :=
  '(ruleset, rules, last, last_dst) ← fill_before [] rules year last last_dst;
  ruleset ← fill_current (ruleset_remove_stale ruleset year) rules year;
  Some (ruleset, last, last_dst).

Definition rule_is_greater_than (rule : lc_timezone_rule) (t : tm) (offset : Z) : option bool :=
  let seconds := tm_sec t + tm_min t * 60 + tm_hour t * 3600 + offset in
  let md := tm_mday t + Z.quot seconds 86400 in
  let wd := tm_wday t + Z.quot seconds 86400 in
  let seconds := Z.rem seconds 86400 in
  let '(seconds, wd, md) := if seconds <? 0 then (seconds + 86400, wd - 1, md - 1) else (seconds, wd, md) in
  let compare mon md :=
    if negb (month rule =? mon) then mon <? month rule
    else
      let delta :=
        if negb (weekday rule =? 7) then
          let delta := Z.rem (weekday rule - wd + md - monthday rule) 7 in
          if delta <? 0 then delta + 7 else delta
        else 0 in
      md * 86400 + seconds <? (monthday rule + delta) * 86400 + minute rule * 60 in
  let mon := tm_mon t in
  if md <? 1 then
    if mon =? 0 then Some true
    else len ← get_months (tm_year t) !! Z.to_nat (mon - 1); Some (compare (mon - 1) (md + len))
  else
    len ← get_months (tm_year t) !! Z.to_nat mon;
    Some (if len <? md then compare (mon + 1) (md - len) else compare mon md).

(** ** localtime_l.c *)

(** The first rule of standard time. *)
Definition first_standard (rules : list lc_timezone_rule) : lc_timezone_rule :=
  default nomatch (head (filter (fun r => save r = 0) rules)).

Fixpoint applicable_loop (ruleset : list lc_timezone_rule) (std : tm) (gmtoff : Z) (m : lc_timezone_rule) : option lc_timezone_rule :=
  match ruleset with
  | [] => Some m
  | rule :: ruleset =>
      let offset := if timebase rule =? TIMEBASE_CUR then save m * 600 else if timebase rule =? TIMEBASE_UTC then - gmtoff else 0 in
      greater ← rule_is_greater_than rule std offset;
      if greater : bool then Some m else applicable_loop ruleset std gmtoff rule
  end.

Definition determine_applicable_rule (rules : list lc_timezone_rule) (std : tm) (gmtoff : Z) : option lc_timezone_rule :=
  '(ruleset, m, _) ← ruleset_fill_with_year rules (tm_year std) (first_standard rules) nomatch;
  applicable_loop ruleset std gmtoff m.

(** C strings. *)
Fixpoint chars (s : string) : list Z :=
  match s with EmptyString => [] | String a s => Z.of_nat (Ascii.nat_of_ascii a) :: chars s end.

Fixpoint cstring (l : list Z) : string :=
  match l with [] => "" | c :: l => if c =? 0 then "" else String (Ascii.ascii_of_nat (Z.to_nat c)) (cstring l) end.

(** The string pool is the list of cached abbreviations; no other thread changes
    it.  [malloc_ok] says whether the allocation succeeds. *)
Definition compute_combined_zone_abbreviation (malloc_ok : bool) (table : list string) (era rule : string)
  : option (string * list string) :=
  '(buf, _) ← vsnprintf_l ctype_us_ascii (LcNumeric 0 None) (replicate 16 0) 16 (chars era ++ [0]) [ArgPointer 1 (PChars (chars rule ++ [0]))];
  let abbr := cstring buf in
  Some (if bool_decide (abbr ∈ table) then (abbr, table) else if malloc_ok then (abbr, abbr :: table) else ("", table)).

Definition compute_zone_abbreviation (malloc_ok : bool) (table : list string) (era : lc_timezone_era) (rule : lc_timezone_rule)
  : option (string * list string) :=
  if negb (bool_decide (abbreviation_dst era = "")) then
    Some (if save rule =? 0 then abbreviation_std era else abbreviation_dst era, table)
  else if bool_decide (37 ∈ chars (abbreviation_std era)) then
    compute_combined_zone_abbreviation malloc_ok table (abbreviation_std era) (abbreviation rule)
  else Some (if (3 <=? String.length (abbreviation rule))%nat then abbreviation rule else abbreviation_std era, table).

(** The era of an instant, and where it starts on its predecessor's clock. *)
Fixpoint find_era (era : lc_timezone_era) (eras : list lc_timezone_era) (era_start sec : Z) : lc_timezone_era * Z :=
  match eras with
  | [] => (era, era_start)
  | next :: eras =>
      if sec <? era_end era then (era, era_start)
      else find_era next eras (era_end era + gmtoff era + end_save era * 600) sec
  end.

Definition TIME_MIN : Z := - 2 ^ 63.

Definition set_local (t : tm) (isdst off : Z) (zone : string) (nsec : Z) : tm :=
  Tm (tm_sec t) (tm_min t) (tm_hour t) (tm_mday t) (tm_mon t) (tm_year t) (tm_wday t) (tm_yday t) isdst off (Some zone) nsec.

(** The result, what is stored unless the argument is refused, and the string pool. *)
Definition localtime_l (malloc_ok : bool) (table : list string) (timer : timespec) (tz : lc_timezone)
  : option (Z * option tm * list string) :=
  if (tv_nsec timer <? 0) || (NSEC_PER_SEC <=? tv_nsec timer) then Some (EINVAL, None, table)
  else
    first ← head tz;
    let '(era, era_start) := find_era first (tail tz) TIME_MIN (tv_sec timer) in
    if negb (bool_decide (rules era = [])) then
      let timer_std := tv_sec timer + gmtoff era in
      '(_, std) ← localtime_utc (if era_start <? timer_std then timer_std else era_start);
      rule ← determine_applicable_rule (rules era) std (gmtoff era);
      let off := gmtoff era + save rule * 600 in
      '(error, result) ← localtime_utc (tv_sec timer + off);
      '(zone, table) ← compute_zone_abbreviation malloc_ok table era rule;
      Some (error, Some (set_local result (Z.b2z (0 <? save rule)) off zone (tv_nsec timer)), table)
    else
      '(error, result) ← localtime_utc (tv_sec timer + gmtoff era);
      '(zone, table) ← compute_zone_abbreviation malloc_ok table era nomatch;
      Some (error, Some (set_local result (tm_isdst result) (gmtoff era) zone (tv_nsec timer)), table).

(** ** mktime_l.c *)

Fixpoint save_loop (ruleset : list lc_timezone_rule) (dst : tm) (gmtoff : Z) (m m_dst : lc_timezone_rule)
  : option (lc_timezone_rule * lc_timezone_rule) :=
  match ruleset with
  | [] => Some (m, m_dst)
  | rule :: ruleset =>
      let offset :=
        if timebase rule =? TIMEBASE_STD then - save m * 600
        else if timebase rule =? TIMEBASE_UTC then - gmtoff - save m * 600 else 0 in
      greater ← rule_is_greater_than rule dst offset;
      if greater : bool then Some (m, m_dst) else save_loop ruleset dst gmtoff rule (if 0 <? save rule then rule else m_dst)
  end.

Definition determine_applicable_save (rules : list lc_timezone_rule) (dst : tm) (gmtoff : Z) (force_dst : bool) : option Z :=
  '(ruleset, m, m_dst) ← ruleset_fill_with_year rules (tm_year dst) nomatch nomatch;
  '(m, m_dst) ← save_loop ruleset dst gmtoff m m_dst;
  Some (if force_dst then save m_dst else save m).

(** The first era that contains the time, standard time. *)
Fixpoint find_era_std (era : lc_timezone_era) (eras : list lc_timezone_era) (sec : Z) : lc_timezone_era :=
  match eras with
  | [] => era
  | next :: eras =>
      if sec <? era_end era + gmtoff era - end_save era * 600 then era else find_era_std next eras sec
  end.

(** The same for daylight saving time, and the time to match against the rules. *)
Fixpoint find_era_dst (era : lc_timezone_era) (eras : list lc_timezone_era) (dsttime sec : Z) : lc_timezone_era * Z :=
  match eras with
  | [] => (era, dsttime)
  | next :: eras =>
      let e := era_end era in
      let s := end_save era * 600 in
      if sec <? e + gmtoff era + s then (era, dsttime)
      else find_era_dst next eras (if e + gmtoff next + s <? sec then sec else e + gmtoff next + s) sec
  end.

Definition mktime_l (t : tm) (tz : lc_timezone) : option timespec :=
  result ← mktime_utc t;
  let sec := tv_sec result in
  first ← head tz;
  if tm_isdst t =? 0 then Some (Timespec (sec - gmtoff (find_era_std first (tail tz) sec)) (tv_nsec result))
  else
    let '(era, dsttime) := find_era_dst first (tail tz) sec sec in
    saved ←
      (if negb (bool_decide (rules era = [])) then
         '(_, dst) ← localtime_utc dsttime;
         s ← determine_applicable_save (rules era) dst (gmtoff era) (0 <? tm_isdst t);
         Some (s * 600)
       else Some 0);
    Some (Timespec (sec - saved - gmtoff era) (tv_nsec result)).

(** ** The rules of a year *)

Record rule_ok (r : lc_timezone_rule) : Prop := {
  ro_from : 0 <= year_from r <= year_to r;
  ro_to : year_to r <= UINT8_MAX;
  ro_month : 0 <= month r < 12;
  ro_weekday : 0 <= weekday r <= 7;
  ro_monthday : 1 <= monthday r < 32;
  ro_minute : 0 <= minute r <= 1440;
  ro_timebase : 0 <= timebase r <= 2;
  ro_save : 0 <= save r < 16
}.

(** The order within a year, and the date on which a rule took effect for the last
    time before a year. *)
Definition day_key (r : lc_timezone_rule) : Z := month r * 32 + monthday r.
Definition before (r p : lc_timezone_rule) : Prop := day_key r <= day_key p.
Definition last_year (year : Z) (r : lc_timezone_rule) : Z := if year_to r =? UINT8_MAX then year - 1 else Z.min (year_to r) (year - 1).
Definition last_date (year : Z) (r : lc_timezone_rule) : Z := last_year year r * 512 + day_key r.

(** What the functions work out: the rules of the year, sorted, and the rule that was
    the last to take effect before the year. *)
Definition active (year : Z) (r : lc_timezone_rule) : bool := (year_from r <=? year) && stays year r.

Definition latest_before (year : Z) (rs : list lc_timezone_rule) (m : lc_timezone_rule) : Prop :=
  m ∈ rs /\ year_from m < year /\ forall r, r ∈ rs -> year_from r < year -> last_date year r <= last_date year m.

(** The set never gets too large: whenever a rule starts, fewer than eight of those
    before it are in force. *)
Fixpoint fits (seen rs : list lc_timezone_rule) : bool :=
  match rs with
  | [] => true
  | r :: rs => (length (filter (fun p => stays (year_from r) p = true) seen) <? RULESET_SIZE)%nat && fits (seen ++ [r]) rs
  end.

Record rules_ok (rs : list lc_timezone_rule) : Prop := {
  rs_ok : Forall rule_ok rs;
  rs_sorted : StronglySorted (fun r p => year_from r <= year_from p) rs;
  rs_fits : fits [] rs = true
}.

(** *** Adding a rule *)

Lemma day_key_lt r p : rule_ok r -> rule_ok p ->
  (month r <? month p) || ((month r =? month p) && (monthday r <? monthday p)) = (day_key r <? day_key p).
Proof. intros [] []. unfold day_key. apply eq_true_iff_eq. rewrite orb_true_iff, andb_true_iff, !Z.ltb_lt, Z.eqb_eq. lia. Qed.

Lemma shift_ok rule : rule_ok rule -> forall newslot l, (newslot < length l)%nat -> Forall rule_ok (take newslot l) ->
  exists l1 l2, take newslot l = l1 ++ l2 /\ ruleset_shift newslot l rule = Some (l1 ++ rule :: l2 ++ drop (S newslot) l) /\
    Forall (before rule) l2 /\ (forall p, last l1 = Some p -> before p rule).
Proof.
  intros Hr. induction newslot as [|j IH]; intros l Hj Hl; cbn [ruleset_shift].
  - exists [], []. destruct l; [cbn in Hj; lia|]. done.
  - destruct (lookup_lt_is_Some_2 l j) as [prev Hp]; [lia|]. rewrite Hp. cbn [mbind option_bind].
    rewrite (take_S_r l j prev Hp) in *. apply Forall_app in Hl as [Hl Hl']. inversion Hl' as [|? ? Hpo _]; subst.
    rewrite day_key_lt by done. destruct (Z.ltb_spec (day_key rule) (day_key prev)) as [Hlt|Hge].
    + assert (negb (month rule =? month prev) || negb (monthday rule =? monthday prev) = true) as ->.
      { unfold day_key in Hlt. destruct (Z.eqb_spec (month rule) (month prev)), (Z.eqb_spec (monthday rule) (monthday prev)); cbn; done || lia. }
      cbn [assert mbind option_bind]. destruct (IH (<[S j := prev]> l)) as (l1 & l2 & Et & E & H2 & H1).
      { rewrite length_insert. lia. }
      { by rewrite take_insert_ge by lia. }
      rewrite take_insert_ge in Et by lia. exists l1, (l2 ++ [prev]). rewrite Et, app_assoc. split; [done|]. split; [|split; [|done]].
      * rewrite E. do 3 f_equal. rewrite <- app_assoc. f_equal. rewrite (drop_S _ prev (S j)) by (apply list_lookup_insert_eq; lia).
        by rewrite drop_insert_lt by lia.
      * apply Forall_app. split; [done|]. constructor; [|done]. unfold before. lia.
    + exists (take j l ++ [prev]), []. rewrite app_nil_r. split; [done|]. split; [|split; [done|]].
      * f_equal. rewrite <- (take_S_r l j prev Hp). rewrite insert_take_drop by lia. done.
      * intros p. rewrite last_snoc. intros [= <-]. unfold before. lia.
Qed.

Lemma sorted_insert (r : lc_timezone_rule) l1 l2 : StronglySorted before (l1 ++ l2) -> Forall (before r) l2 ->
  (forall p, last l1 = Some p -> before p r) -> StronglySorted before (l1 ++ r :: l2).
Proof.
  induction l1 as [|x l1 IH]; cbn [app]; intros Hs H2 H1; [by constructor|]. inversion Hs as [|? ? Hs' Hx]; subst.
  constructor; [apply IH; [done..|]|].
  - intros p Hp. apply H1. destruct l1; [done|exact Hp].
  - apply Forall_app in Hx as [Hx1 Hx2]. apply Forall_app. split; [done|]. constructor; [|done].
    destruct l1 as [|y l1]; [by apply H1|]. destruct (last (y :: l1)) as [p|] eqn:Ep; [|by apply last_None in Ep].
    specialize (H1 p Ep). apply last_Some in Ep as (l' & El). rewrite El in Hx1. apply Forall_app in Hx1 as [_ Hx1].
    inversion Hx1; subst. unfold before in *. lia.
Qed.

Lemma add_ok l r : rule_ok r -> Forall rule_ok l -> StronglySorted before l -> (length l < RULESET_SIZE)%nat ->
  exists l', ruleset_add l r = Some l' /\ l' ≡ₚ r :: l /\ StronglySorted before l'.
Proof.
  intros Hr Hl Hs Hlen. unfold ruleset_add, assert. rewrite (proj2 (Nat.ltb_lt _ _)) by done. cbn [mbind option_bind].
  destruct (shift_ok r Hr (length l) (l ++ [r])) as (l1 & l2 & Et & -> & H2 & H1).
  { rewrite length_app. cbn. lia. }
  { by rewrite take_app_length. }
  rewrite take_app_length in Et. subst l. eexists. split; [done|]. rewrite drop_ge by (rewrite !length_app; cbn; lia). rewrite app_nil_r.
  split; [by rewrite Permutation_middle|]. by apply sorted_insert.
Qed.

(** *** The last rule before the year *)

Lemma last_date_le year r m : rule_ok r -> rule_ok m -> last_year year r <= last_year year m ->
  (last_year year r = last_year year m -> before r m) -> last_date year r <= last_date year m.
Proof. intros [] []. unfold last_date, before, day_key. lia. Qed.

Lemma sorted_lookup_before l (i j : nat) (r p : lc_timezone_rule) : StronglySorted before l -> (i <= j)%nat -> l !! i = Some r -> l !! j = Some p ->
  before r p.
Proof.
  intros Hs. revert i j. induction Hs as [|x l Hs IH Hx]; intros i j Hij; [done|]. destruct i as [|i], j as [|j]; cbn; try lia.
  - intros [= ->] [= ->]. unfold before. lia.
  - intros [= ->] Hp. rewrite Forall_lookup in Hx. by eapply Hx.
  - intros Hr Hp. apply (IH i j); [lia|done..].
Qed.

Lemma last_loop_ok l year : Forall rule_ok l -> StronglySorted before l -> forall below m d (i : nat),
  l !! i = Some m -> (below <= i)%nat -> (forall (j : nat) r, l !! j = Some r -> (below <= j)%nat -> last_date year r <= last_date year m) ->
  (0 < save m -> d = m) ->
  exists m' d', get_last_loop below l year m d = Some (m', d') /\ m' ∈ l /\ (forall r, r ∈ l -> last_date year r <= last_date year m') /\
    (0 < save m' -> d' = m').
Proof.
  intros Hok Hs. rewrite Forall_lookup in Hok. induction below as [|b IH]; intros m d i Hm Hb Hmax Hd; cbn [get_last_loop].
  - exists m, d. split; [done|]. split; [by eapply list_elem_of_lookup_2|]. split; [|done].
    intros r [j Hj]%list_elem_of_lookup_1. apply (Hmax j r Hj). lia.
  - destruct (lookup_lt_is_Some_2 l b) as [r Hr]; [apply lookup_lt_Some in Hm; lia|].
    pose proof (Hok _ _ Hm) as Hmo. pose proof (Hok _ _ Hr) as Hro.
    assert (Hcase : forall (j : nat) q, l !! j = Some q -> (b <= j)%nat -> last_date year q <= last_date year m \/ q = r).
    { intros j q Hq Hj. destruct (decide (j = b)) as [->|Hne]; [right; congruence|left; apply (Hmax j q Hq); lia]. }
    pose proof (sorted_lookup_before l b i r m Hs ltac:(lia) Hr Hm) as Hbm.
    destruct (Z.ltb_spec (year_to m) (year - 1)) as [Hy|Hy].
    + rewrite Hr. cbn [mbind option_bind]. destruct (Z.ltb_spec (year_to m) (year_to r)) as [Ht|Ht].
      * assert (Hle : last_date year m <= last_date year r).
        { unfold last_date, last_year, before, day_key, UINT8_MAX in *. destruct Hmo, Hro. unfold UINT8_MAX in *.
          destruct (Z.eqb_spec (year_to m) 255), (Z.eqb_spec (year_to r) 255); lia. }
        apply (IH r _ b); [done|lia| |by destruct (Z.ltb_spec 0 (save r)); [|lia]].
        intros j q Hq Hj. destruct (Hcase j q Hq Hj) as [H| ->]; lia.
      * apply (IH m d i); [done|lia| |done]. intros j q Hq Hj. destruct (Hcase j q Hq Hj) as [H| ->]; [done|].
        apply last_date_le; [done..| |by intros _]. unfold last_year. destruct Hmo, Hro. unfold UINT8_MAX in *.
        destruct (Z.eqb_spec (year_to m) 255), (Z.eqb_spec (year_to r) 255); lia.
    + exists m, d. split; [done|]. split; [by eapply list_elem_of_lookup_2|]. split; [|done].
      intros q [j Hj]%list_elem_of_lookup_1. destruct (le_lt_dec (S b) j) as [Hjb|Hjb]; [by apply (Hmax j q)|].
      apply last_date_le; [by eapply Hok|done| |intros _; by eapply sorted_lookup_before; [done| |done..]; lia].
      unfold last_year. pose proof (Hok _ _ Hj) as []. destruct Hmo. unfold UINT8_MAX in *.
      destruct (Z.eqb_spec (year_to m) 255), (Z.eqb_spec (year_to q) 255); lia.
Qed.

Lemma get_last_ok l year d : Forall rule_ok l -> StronglySorted before l -> l <> [] ->
  exists m' d', ruleset_get_last l year d = Some (m', d') /\ m' ∈ l /\ (forall r, r ∈ l -> last_date year r <= last_date year m') /\
    (0 < save m' -> d' = m').
Proof.
  intros Hok Hs Hne. unfold ruleset_get_last, assert. assert (0 < length l)%nat by (destruct l; [done|cbn; lia]).
  rewrite (proj2 (Nat.ltb_lt _ _)) by done. cbn [mbind option_bind].
  destruct (lookup_lt_is_Some_2 l (length l - 1)) as [m Hm]; [lia|]. rewrite Hm. cbn [mbind option_bind].
  apply (last_loop_ok l year Hok Hs _ m _ (length l - 1)); [done|lia| |by destruct (Z.ltb_spec 0 (save m)); [|lia]].
  intros j r Hj Hle. assert (j = length l - 1)%nat as -> by (apply lookup_lt_Some in Hj; lia). rewrite Hm in Hj. injection Hj as ->. lia.
Qed.

(** *** Filling the set *)

Definition staying (year : Z) (l : list lc_timezone_rule) : list lc_timezone_rule := filter (fun r => stays year r = true) l.

Lemma stays_mono y y' r : y <= y' -> stays y' r = true -> stays y r = true.
Proof. unfold stays. rewrite !orb_true_iff, !Z.leb_le. lia. Qed.

Lemma staying_staying y y' l : y <= y' -> staying y' (staying y l) = staying y' l.
Proof.
  intros Hy. unfold staying. rewrite list_filter_filter. apply list_filter_iff. intros r. split; [by intros []|].
  intros H. split; [done|]. by eapply stays_mono.
Qed.

Lemma staying_app y l l' : staying y (l ++ l') = staying y l ++ staying y l'.
Proof. apply filter_app. Qed.

Lemma staying_all y l : Forall (fun r => stays y r = true) l -> staying y l = l.
Proof. unfold staying. induction 1 as [|x l Hx _ IH]; [done|]. by rewrite filter_cons_True, IH. Qed.

Lemma remove_stale_0 l y : Forall rule_ok l -> 0 <= y ->
  (if negb (0 =? y) then ruleset_remove_stale l y else l) = staying y l.
Proof.
  intros Hl Hy. destruct (Z.eqb_spec 0 y) as [<-|Hne]; cbn [negb]; [|done]. symmetry. apply staying_all.
  eapply list.Forall_impl; [exact Hl|]. intros r []. unfold stays. rewrite orb_true_iff, Z.leb_le. lia.
Qed.

Lemma staying_ok y l : Forall rule_ok l -> Forall rule_ok (staying y l).
Proof. rewrite !list.Forall_forall. intros H x [_ Hx]%list_elem_of_filter. by apply H. Qed.

Lemma StronglySorted_filter {A} (R : A -> A -> Prop) (P : A -> Prop) `{!forall x, Decision (P x)} l :
  StronglySorted R l -> StronglySorted R (filter P l).
Proof.
  induction 1 as [|x l Hs IH Hx]; [constructor|]. rewrite filter_cons. destruct (decide (P x)); [|done].
  constructor; [done|]. rewrite list.Forall_forall in *. intros y [_ Hy]%list_elem_of_filter. by apply Hx.
Qed.

(** One more rule. *)
Lemma add_staying ruleset seen r y : rule_ok r -> Forall rule_ok ruleset -> StronglySorted before ruleset ->
  staying y ruleset ≡ₚ staying y seen -> (length (staying y seen) < RULESET_SIZE)%nat -> y = year_from r ->
  exists l', ruleset_add (staying y ruleset) r = Some l' /\ l' ≡ₚ staying y (seen ++ [r]) /\ StronglySorted before l' /\
    Forall rule_ok l' /\ l' <> [].
Proof.
  intros Hr Hl Hs Hp Hlen ->. destruct (add_ok (staying (year_from r) ruleset) r) as (l' & E & Hp' & Hs'); [done| | | |].
  - by apply staying_ok.
  - by apply StronglySorted_filter.
  - by rewrite Hp.
  - exists l'. split; [done|]. assert (Hst : staying (year_from r) [r] = [r]).
    { apply staying_all. constructor; [|done]. destruct Hr. unfold stays. rewrite orb_true_iff, Z.leb_le. lia. }
    split; [|split; [done|split]].
    + rewrite Hp', Hp, staying_app, Hst. by rewrite Permutation_cons_append.
    + rewrite Hp'. constructor; [done|]. by apply staying_ok.
    + intros ->. by apply Permutation_nil_cons in Hp'.
Qed.

(** The invariant of step 1: the set stands for the rules seen so far in every year
    from the last of them on. *)
Record filling (year : Z) (last0 dst0 : lc_timezone_rule) (seen ruleset : list lc_timezone_rule) (m d : lc_timezone_rule) : Prop := {
  fl_before : Forall (fun r => year_from r < year) seen;
  fl_set : forall y, Forall (fun r => year_from r <= y) seen -> staying y ruleset ≡ₚ staying y seen;
  fl_ok : Forall rule_ok ruleset;
  fl_sorted : StronglySorted before ruleset;
  fl_last : (seen = [] /\ m = last0 /\ d = dst0) \/
            (latest_before year seen m /\ (0 < save m -> d = m))
}.

Lemma fill_step year last0 dst0 seen ruleset m d r : filling year last0 dst0 seen ruleset m d ->
  Forall rule_ok seen -> rule_ok r -> year_from r < year -> Forall (fun p => year_from p <= year_from r) seen ->
  (length (staying (year_from r) seen) < RULESET_SIZE)%nat ->
  exists l' m' d', ruleset_add (staying (year_from r) ruleset) r = Some l' /\ ruleset_get_last l' year d = Some (m', d') /\
    filling year last0 dst0 (seen ++ [r]) l' m' d'.
Proof.
  intros [Hb Hset Hok Hs Hlast] Hseen Hr Hy Hfrom Hlen.
  destruct (add_staying ruleset seen r (year_from r) Hr Hok Hs (Hset _ Hfrom) Hlen eq_refl) as (l' & E & Hp & Hs' & Hok' & Hne).
  destruct (get_last_ok l' year d Hok' Hs' Hne) as (m' & d' & E' & Hm' & Hmax & Hd'). exists l', m', d'. split; [done|]. split; [done|].
  assert (Hin : forall x, x ∈ l' <-> stays (year_from r) x = true /\ x ∈ seen ++ [r]).
  { intros x. rewrite Hp. unfold staying. by rewrite list_elem_of_filter. }
  split; [|intros y Hy'|done|done|right; split; [split; [|split]|done]].
  - apply Forall_app. split; [done|]. by constructor.
  - assert (year_from r <= y) by (apply Forall_app in Hy' as [_ Hy']; by inversion Hy'). unfold staying in Hp |- *. rewrite Hp.
    fold (staying (year_from r) (seen ++ [r])). fold (staying y (staying (year_from r) (seen ++ [r]))). by rewrite staying_staying.
  - by apply Hin in Hm' as [_ Hm'].
  - apply Hin in Hm' as [_ [Hm'|Hm']%elem_of_app]; [by rewrite list.Forall_forall in Hb; apply Hb|]. by apply list_elem_of_singleton in Hm' as ->.
  - intros x Hx Hxy. destruct (stays (year_from r) x) eqn:Est; [apply Hmax, Hin; done|].
    assert (r ∈ l') as Hrl.
    { apply Hin. split; [|apply elem_of_app; right; by apply list_elem_of_singleton].
      destruct Hr. unfold stays. rewrite orb_true_iff, Z.leb_le. lia. }
    specialize (Hmax r Hrl). assert (rule_ok x) as Hxo.
    { apply elem_of_app in Hx as [Hx|Hx]; [by rewrite list.Forall_forall in Hseen; apply Hseen|]. by apply list_elem_of_singleton in Hx as ->. }
    assert (last_date year x <= last_date year r); [|lia]. unfold stays in Est. apply orb_false_iff in Est as [Ex Ey]. zprop.
    unfold last_date, last_year, day_key, UINT8_MAX in *. destruct Hr, Hxo. unfold UINT8_MAX in *.
    destruct (Z.eqb_spec (year_to x) 255), (Z.eqb_spec (year_to r) 255); lia.
Qed.

Lemma fill_before_ok year last0 dst0 rs : forall seen ruleset m d, filling year last0 dst0 seen ruleset m d ->
  Forall rule_ok (seen ++ rs) -> StronglySorted (fun r p => year_from r <= year_from p) (seen ++ rs) -> fits seen rs = true ->
  exists used rest l' m' d', rs = used ++ rest /\ fill_before ruleset rs year m d = Some (l', rest, m', d') /\
    filling year last0 dst0 (seen ++ used) l' m' d' /\ (forall r, head rest = Some r -> year <= year_from r) /\ fits (seen ++ used) rest = true.
Proof.
  induction rs as [|r rs IH]; intros seen ruleset m d Hf Hok Hsort Hfit; cbn [fill_before].
  - exists [], [], ruleset, m, d. rewrite (app_nil_r seen). split; [done|]. split; [done|]. split; [exact Hf|]. split; [done|]. exact Hfit.
  - destruct (Z.ltb_spec (year_from r) year) as [Hlt|Hge].
    + cbn [fits] in Hfit. apply andb_true_iff in Hfit as [Hlen Hfit]. apply Nat.ltb_lt in Hlen.
      assert (Hro : rule_ok r) by (apply Forall_app in Hok as [_ Hok]; by inversion Hok).
      assert (Hseen : Forall rule_ok seen) by (by apply Forall_app in Hok as [Hok _]).
      assert (Hfrom : Forall (fun p => year_from p <= year_from r) seen).
      { apply list.Forall_forall. intros p Hp. eapply StronglySorted_app_1_elem_of in Hsort; [exact Hsort|done|apply list_elem_of_here]. }
      rewrite remove_stale_0 by (apply Hf || destruct Hro; lia).
      destruct (fill_step year last0 dst0 seen ruleset m d r Hf Hseen Hro Hlt Hfrom Hlen) as (l' & m' & d' & -> & E & Hf').
      cbn [mbind option_bind]. rewrite E. cbn [mbind option_bind].
      destruct (IH (seen ++ [r]) l' m' d' Hf') as (used & rest & l2 & m2 & d2 & -> & E2 & Hf2 & Hh & Hfit2);
        [by rewrite <- app_assoc|by rewrite <- app_assoc|done|].
      rewrite <- app_assoc in Hf2, Hfit2. exists (r :: used), rest, l2, m2, d2. do 4 (split; [done|]). done.
    + exists [], (r :: rs), ruleset, m, d. rewrite (app_nil_r seen). split; [done|]. split; [done|]. split; [done|]. split; [|done].
      by intros ? [= <-].
Qed.

Lemma fill_current_ok year rs : forall seen ruleset, ruleset ≡ₚ staying year seen -> StronglySorted before ruleset ->
  Forall rule_ok (seen ++ rs) -> fits seen rs = true -> Forall (fun r => year <= year_from r) rs ->
  StronglySorted (fun r p => year_from r <= year_from p) rs ->
  exists l', fill_current ruleset rs year = Some l' /\ StronglySorted before l' /\
    l' ≡ₚ staying year (seen ++ filter (fun r => year_from r = year) rs).
Proof.
  induction rs as [|r rs IH]; intros seen ruleset Hp Hs Hok Hfit Hge Hsort; cbn [fill_current].
  - exists ruleset. rewrite filter_nil, app_nil_r. done.
  - cbn [fits] in Hfit. apply andb_true_iff in Hfit as [Hlen Hfit]. apply Nat.ltb_lt in Hlen. inversion Hge as [|? ? Hr Hge']; subst.
    inversion Hsort as [|? ? Hsort' Hfrom]; subst. rewrite filter_cons. destruct (Z.eqb_spec (year_from r) year) as [E|E].
    + rewrite decide_True by done. assert (Hro : rule_ok r) by (apply Forall_app in Hok as [_ Hok]; by inversion Hok).
      assert (Hrs : Forall rule_ok ruleset) by (rewrite Hp; apply staying_ok; by apply Forall_app in Hok as [Hok _]).
      assert (Hst : staying year ruleset = ruleset).
      { apply staying_all. rewrite Hp. apply list.Forall_forall. intros x. unfold staying. rewrite list_elem_of_filter. by intros []. }
      destruct (add_staying ruleset seen r year Hro Hrs Hs) as (l' & El & Hp' & Hs' & _ & _).
      { by rewrite Hst. } { unfold staying. by rewrite <- E. } { done. }
      rewrite Hst in El. rewrite El. cbn [mbind option_bind].
      destruct (IH (seen ++ [r]) l' Hp' Hs') as (l2 & -> & Hs2 & Hp2); [by rewrite <- app_assoc|done..|].
      exists l2. rewrite <- app_assoc in Hp2. done.
    + rewrite decide_False by done. exists ruleset. split; [done|]. split; [done|].
      assert (filter (fun r0 => year_from r0 = year) rs = []) as ->; [|by rewrite app_nil_r].
      apply elem_of_nil_inv. intros x [Hx Hin]%list_elem_of_filter. rewrite list.Forall_forall in Hfrom. specialize (Hfrom x Hin). cbn in Hfrom. lia.
Qed.

Lemma sorted_head_ge year rs : StronglySorted (fun r p => year_from r <= year_from p) rs ->
  (forall r, head rs = Some r -> year <= year_from r) -> Forall (fun r => year <= year_from r) rs.
Proof.
  intros Hs Hh. destruct rs as [|r rs]; [constructor|]. inversion Hs as [|? ? _ Hr]; subst. specialize (Hh r eq_refl).
  constructor; [done|]. eapply list.Forall_impl; [exact Hr|]. cbn. lia.
Qed.

Lemma active_split year used rest : Forall (fun r => year_from r < year) used -> Forall (fun r => year <= year_from r) rest ->
  filter (fun r => active year r = true) (used ++ rest) = staying year (used ++ filter (fun r => year_from r = year) rest).
Proof.
  intros Hu Hr. unfold staying. rewrite !filter_app. f_equal.
  - induction Hu as [|x l Hx _ IH]; [done|]. rewrite !filter_cons, IH. unfold active. rewrite (proj2 (Z.leb_le _ _)) by lia. done.
  - rewrite list_filter_filter. induction Hr as [|x l Hx _ IH]; [done|]. rewrite !filter_cons, IH. unfold active.
    destruct (Z.leb_spec (year_from x) year); cbn [andb].
    + destruct (decide (stays year x = true)).
      * rewrite decide_True by (split; [done|lia]). done.
      * rewrite decide_False by tauto. done.
    + rewrite !decide_False; [done|by intros [_ ?]; lia|done].
Qed.

Lemma fill_ok rs year last0 dst0 : rules_ok rs ->
  exists l m d, ruleset_fill_with_year rs year last0 dst0 = Some (l, m, d) /\
    l ≡ₚ filter (fun r => active year r = true) rs /\ StronglySorted before l /\
    ((latest_before year rs m /\ (0 < save m -> d = m)) \/ (Forall (fun r => year <= year_from r) rs /\ m = last0 /\ d = dst0)).
Proof.
  intros [Hok Hsort Hfit]. unfold ruleset_fill_with_year.
  destruct (fill_before_ok year last0 dst0 rs [] [] last0 dst0) as (used & rest & l & m & d & -> & -> & Hf & Hh & Hfit');
    [by split; auto; left|done..|]. cbn [app mbind option_bind] in *. destruct Hf as [Hb Hset Hlok Hls Hlast].
  pose proof (sorted_head_ge year rest (StronglySorted_app_1_r _ _ _ Hsort) Hh) as Hge.
  change (ruleset_remove_stale l year) with (staying year l).
  destruct (fill_current_ok year rest used (staying year l)) as (l2 & -> & Hs2 & Hp2).
  { apply Hset. eapply list.Forall_impl; [exact Hb|]. cbn. lia. }
  { by apply StronglySorted_filter. } { done. } { done. } { done. } { by eapply StronglySorted_app_1_r. }
  exists l2, m, d. split; [done|]. rewrite active_split by done. split; [done|]. split; [done|].
  destruct Hlast as [(-> & -> & ->)|[(Hm & Hmy & Hmax) Hd]]; [by right|left]. split; [|done].
  split; [apply elem_of_app; by left|]. split; [done|]. intros r [Hr|Hr]%elem_of_app Hry; [by apply Hmax|].
  rewrite list.Forall_forall in Hge. specialize (Hge r Hr). cbn in Hge. lia.
Qed.

(** For rules that are sorted by their first year and of which fewer than eight are in force whenever
    another one starts, [ruleset_fill_with_year] does not fail an assertion; the set it fills consists of the
    rules of the year in the order of their days, and the rule it stores is the one that took effect last before
    the year, or remains what it was if there is none; if that rule saves daylight it is also the last such
    rule. *)
Theorem ruleset_of_year (rs : list lc_timezone_rule) (year : Z) (last0 dst0 : lc_timezone_rule) (Hrs : rules_ok rs) :
  exists l m d, ruleset_fill_with_year rs year last0 dst0 = Some (l, m, d) /\
    l ≡ₚ filter (fun r => active year r = true) rs /\ StronglySorted before l /\
    ((latest_before year rs m /\ (0 < save m -> d = m)) \/ (Forall (fun r => year <= year_from r) rs /\ m = last0 /\ d = dst0)).
Proof. by apply fill_ok. Qed.

(** ** A rule and a broken-down time *)

(** The day on which a rule takes effect in a year, counted from the Epoch: the given day
    of the month, or the first given weekday from then on; and the second on the clock. *)
Definition month_start (year mon : Z) : Z := default 0 (get_months_cumulative year !! Z.to_nat mon).
Definition month_length (year mon : Z) : Z := default 0 (get_months year !! Z.to_nat mon).

Definition rule_delta (r : lc_timezone_rule) (year : Z) : Z :=
  if weekday r =? 7 then 0 else (weekday r - (year_day year + month_start year (month r) + monthday r - 1 + 4)) mod 7.

Definition rule_time (r : lc_timezone_rule) (year : Z) : Z :=
  (year_day year + month_start year (month r) + monthday r - 1 + rule_delta r year) * 86400 + minute r * 60.

(** The day is in the month. *)
Definition in_month (r : lc_timezone_rule) (year : Z) : Prop := monthday r + rule_delta r year <= month_length year (month r).

(** The seconds of a broken-down time since the Epoch. *)
Definition clock (t : tm) : Z :=
  (year_day (tm_year t) + tm_yday t) * 86400 + tm_hour t * 3600 + tm_min t * 60 + tm_sec t.

Lemma month_steps year : forall mon, 0 <= mon < 12 ->
  get_months year !! Z.to_nat mon = Some (month_length year mon) /\ 28 <= month_length year mon <= 31 /\
  get_months_cumulative year !! Z.to_nat mon = Some (month_start year mon) /\
  month_start year (mon + 1) = month_start year mon + month_length year mon.
Proof.
  intros mon Hmon. unfold month_start, month_length, get_months, get_months_cumulative.
  assert (H : mon = 0 \/ mon = 1 \/ mon = 2 \/ mon = 3 \/ mon = 4 \/ mon = 5 \/ mon = 6 \/ mon = 7 \/ mon = 8 \/ mon = 9 \/ mon = 10 \/ mon = 11) by lia.
  destruct (is_leap year); repeat destruct H as [->|H]; subst; split_and!; reflexivity || (vm_compute; congruence).
Qed.

Lemma months_total year : month_start year 12 = get_ydays year.
Proof. unfold month_start, get_months_cumulative, get_ydays. by destruct (is_leap year). Qed.

Lemma month_start_mono year m m' : 0 <= m <= m' -> m' <= 12 -> month_start year m <= month_start year m'.
Proof.
  intros Hm. pattern m'. apply (Zlt_lower_bound_ind _ m); [|lia]. intros x IH Hx Hx12.
  destruct (Z.eq_dec x m) as [->|Hne]; [lia|]. specialize (IH (x - 1) ltac:(lia) ltac:(lia)).
  destruct (month_steps year (x - 1)) as (_ & Hl & _ & E); [lia|]. replace (x - 1 + 1) with x in E by lia. lia.
Qed.

(** A rule whose day is in its month, seen from a day of some month. *)
Lemma rule_time_month r year : rule_ok r -> in_month r year ->
  (year_day year + month_start year (month r)) * 86400 <= rule_time r year <= (year_day year + month_start year (month r + 1)) * 86400.
Proof.
  intros [] Hm. unfold in_month in Hm. destruct (month_steps year (month r)) as (_ & _ & _ & E); [lia|]. rewrite E. unfold rule_time.
  assert (0 <= rule_delta r year < 7) by (unfold rule_delta; destruct (weekday r =? 7); lia). lia.
Qed.

(** The comparison, once the day is in a month: [md] is the day of month [mon], [wd] its
    weekday up to multiples of seven. *)
Lemma compare_ok r year mon md wd seconds : rule_ok r -> in_month r year -> 0 <= mon <= 12 ->
  (mon < 12 -> 1 <= md <= month_length year mon) -> 1 <= md -> 0 <= seconds < 86400 ->
  (wd - (year_day year + month_start year mon + md - 1 + 4)) mod 7 = 0 ->
  (if negb (month r =? mon) then mon <? month r
   else
     let delta :=
       if negb (weekday r =? 7) then
         let delta := Z.rem (weekday r - wd + md - monthday r) 7 in if delta <? 0 then delta + 7 else delta
       else 0 in
     md * 86400 + seconds <? (monthday r + delta) * 86400 + minute r * 60) =
  ((year_day year + month_start year mon + md - 1) * 86400 + seconds <? rule_time r year).
Proof.
  intros Hr Hin Hmon Hmd Hmd1 Hs Hwd. pose proof (rule_time_month r year Hr Hin) as Ht. pose proof (ro_month r Hr) as Hrm.
  destruct (Z.eqb_spec (month r) mon) as [E|E]; cbn [negb].
  - assert (Hd : (if negb (weekday r =? 7) then
      let delta := Z.rem (weekday r - wd + md - monthday r) 7 in if delta <? 0 then delta + 7 else delta else 0) = rule_delta r year).
    { unfold rule_delta. rewrite E. destruct (weekday r =? 7); cbn [negb]; [done|]. cbv zeta.
      destruct (Z.ltb_spec (Z.rem (weekday r - wd + md - monthday r) 7) 0); lia. }
    cbv zeta in Hd |- *. rewrite Hd. unfold rule_time. rewrite E. apply eq_true_iff_eq. rewrite !Z.ltb_lt. lia.
  - apply eq_true_iff_eq. rewrite !Z.ltb_lt. split; intros H.
    + pose proof (month_start_mono year (mon + 1) (month r) ltac:(lia) ltac:(lia)) as Hms.
      destruct (month_steps year mon) as (_ & _ & _ & Es); [lia|]. specialize (Hmd ltac:(lia)). lia.
    + assert (~ month r < mon); [|lia]. intros Hlt.
      pose proof (month_start_mono year (month r + 1) mon ltac:(lia) ltac:(lia)) as Hms. lia.
Qed.

(** A broken-down time with every field in range and a date of the calendar. *)
Record canonical (t : tm) : Prop := {
  ca_sec : 0 <= tm_sec t < 60;
  ca_min : 0 <= tm_min t < 60;
  ca_hour : 0 <= tm_hour t < 24;
  ca_date : exists d, date_ok (tm_year t) (tm_yday t) (tm_mon t) (tm_mday t) d /\ tm_wday t = (d + 4) mod 7
}.

Lemma rule_is_greater_ok r t offset : rule_ok r -> in_month r (tm_year t) -> canonical t -> Z.abs offset <= 200000 ->
  rule_is_greater_than r t offset = Some (clock t + offset <? rule_time r (tm_year t)).
Proof.
  intros Hr Hin [Hsec Hmin Hhour (d & [Hyd Hday Hmon (start & len & Hst & Hlen & Hy & Hmd)] & Hwd)] Hoff.
  destruct (month_steps (tm_year t) (tm_mon t) Hmon) as (Hl & Hl28 & Hs & Hstep). rewrite Hs in Hst. injection Hst as <-.
  rewrite Hl in Hlen. injection Hlen as <-. unfold rule_is_greater_than. cbv zeta.
  set (sec := tm_sec t + tm_min t * 60 + tm_hour t * 3600 + offset).
  assert (Hn : (if Z.rem sec 86400 <? 0 then (Z.rem sec 86400 + 86400, tm_wday t + Z.quot sec 86400 - 1, tm_mday t + Z.quot sec 86400 - 1)
    else (Z.rem sec 86400, tm_wday t + Z.quot sec 86400, tm_mday t + Z.quot sec 86400)) =
    (sec mod 86400, tm_wday t + sec / 86400, tm_mday t + sec / 86400)).
  { destruct (Z.ltb_spec (Z.rem sec 86400) 0); f_equal; [f_equal| |f_equal|]; lia. }
  rewrite Hn. assert (Hc : clock t + offset = (d + sec / 86400) * 86400 + sec mod 86400) by (unfold clock, sec; lia).
  assert (Hq : -3 <= sec / 86400 <= 3) by (unfold sec; lia). assert (Hsm : 0 <= sec mod 86400 < 86400) by lia.
  rewrite Hc. revert Hq Hsm Hwd. generalize (sec / 86400) (sec mod 86400). clear Hc Hn sec Hsec Hmin Hhour Hoff. intros q s Hq Hsm Hwd.
  destruct (Z.ltb_spec (tm_mday t + q) 1) as [Hlo|Hlo].
  - destruct (Z.eqb_spec (tm_mon t) 0) as [E0|E0].
    + f_equal. symmetry. apply Z.ltb_lt. pose proof (rule_time_month r _ Hr Hin).
      pose proof (month_start_mono (tm_year t) 0 (month r) ltac:(destruct Hr; lia) ltac:(destruct Hr; lia)).
      rewrite E0 in *. assert (month_start (tm_year t) 0 = 0) by (unfold month_start, get_months_cumulative; by destruct (is_leap _)). lia.
    + destruct (month_steps (tm_year t) (tm_mon t - 1)) as (Hl' & Hl28' & _ & Hstep'); [lia|]. rewrite Hl'. cbn [mbind option_bind]. f_equal.
      replace (tm_mon t - 1 + 1) with (tm_mon t) in Hstep' by lia. rewrite compare_ok with (year := tm_year t); try done; lia.
  - rewrite Hl. cbn [mbind option_bind]. f_equal. destruct (Z.ltb_spec (month_length (tm_year t) (tm_mon t)) (tm_mday t + q)) as [Hhi|Hhi].
    + rewrite compare_ok with (year := tm_year t); try done; try lia.
      intros Hlt. destruct (month_steps (tm_year t) (tm_mon t + 1)) as (_ & Hl28' & _); [lia|]. lia.
    + rewrite compare_ok with (year := tm_year t); try done; lia.
Qed.

(** [rule_is_greater_than] compares two instants: it says whether the time, moved by the offset, is before
    the second at which the rule takes effect in the year of the time, on the first of its weekdays from its day
    on; whatever month or year the offset leads to. *)
Theorem rule_comparison (r : lc_timezone_rule) (t : tm) (offset : Z) (Hr : rule_ok r) (Hm : in_month r (tm_year t))
  (Ht : canonical t) (Ho : Z.abs offset <= 200000) :
  rule_is_greater_than r t offset = Some (clock t + offset <? rule_time r (tm_year t)).
Proof. by apply rule_is_greater_ok. Qed.

(** ** The rule in effect *)

(** Standard time is [s]; the rules of the year one after the other. *)
Definition base_offset (r m : lc_timezone_rule) (off : Z) : Z :=
  if timebase r =? TIMEBASE_CUR then save m * 600 else if timebase r =? TIMEBASE_UTC then - off else 0.

Fixpoint in_effect (off year s : Z) (m : lc_timezone_rule) (l : list lc_timezone_rule) : lc_timezone_rule :=
  match l with
  | [] => m
  | r :: l => if s + base_offset r m off <? rule_time r year then m else in_effect off year s r l
  end.

(** The rules of an era in the years in which they apply. *)
Definition days_ok (rs : list lc_timezone_rule) : Prop := forall r year, r ∈ rs -> active year r = true -> in_month r year.

Lemma base_offset_bound r m off : 0 <= save m < 16 -> Z.abs off <= 131072 -> Z.abs (base_offset r m off) <= 140000.
Proof. unfold base_offset. intros. destruct (timebase r =? TIMEBASE_CUR); [lia|]. destruct (timebase r =? TIMEBASE_UTC); lia. Qed.

Lemma applicable_loop_ok off t : canonical t -> Z.abs off <= 131072 -> forall l m, Forall rule_ok l ->
  Forall (fun r => in_month r (tm_year t)) l -> 0 <= save m < 16 ->
  applicable_loop l t off m = Some (in_effect off (tm_year t) (clock t) m l).
Proof.
  intros Ht Hoff. induction l as [|r l IH]; intros m Hok Hin Hm; [done|]. cbn [applicable_loop in_effect].
  inversion Hok; subst. inversion Hin; subst. fold (base_offset r m off).
  rewrite rule_is_greater_ok; [|done..|pose proof (base_offset_bound r m off Hm Hoff); lia]. cbn [mbind option_bind].
  destruct (_ <? _); [done|]. apply IH; [done..|]. by apply ro_save.
Qed.

(** In daylight saving time: the saving of the rule before has been added. *)
Lemma save_loop_ok off t : canonical t -> Z.abs off <= 131072 -> forall l m md, Forall rule_ok l ->
  Forall (fun r => in_month r (tm_year t)) l -> 0 <= save m < 16 -> (0 < save m -> save md = save m) ->
  forall s m0, save m0 = save m -> Forall (fun r => save r <= save (in_effect off (tm_year t) s m0 l)) (m0 :: l) ->
  clock t = s + save (in_effect off (tm_year t) s m0 l) * 600 ->
  exists m' md', save_loop l t off m md = Some (m', md') /\ save m' = save (in_effect off (tm_year t) s m0 l) /\
    (0 < save m' -> save md' = save m').
Proof.
  intros Ht Hoff. induction l as [|r l IH]; intros m md Hok Hin Hm Hmd s m0 Em Hmax Hc; cbn [save_loop].
  - exists m, md. split; [done|]. cbn. split; [congruence|done].
  - inversion Hok as [|? ? Hr Hok']; subst. inversion Hin as [|? ? Hri Hin']; subst.
    set (o := if timebase r =? TIMEBASE_STD then _ else _).
    assert (Ho : o = base_offset r m0 off - save m0 * 600).
    { subst o. unfold base_offset. rewrite Em. pose proof (ro_timebase r Hr). unfold TIMEBASE_STD, TIMEBASE_CUR, TIMEBASE_UTC.
      destruct (Z.eqb_spec (timebase r) 1), (Z.eqb_spec (timebase r) 0), (Z.eqb_spec (timebase r) 2); lia. }
    clearbody o. subst o. pose proof (base_offset_bound r m0 off ltac:(lia) Hoff) as Hb.
    rewrite rule_is_greater_ok by (done || lia). cbn [mbind option_bind]. cbn [in_effect] in *.
    destruct (Z.ltb_spec (s + base_offset r m0 off) (rule_time r (tm_year t))) as [Hlt|Hge].
    + rewrite (proj2 (Z.ltb_lt _ _)) by lia. exists m, md. split; [done|]. split; [done|]. done.
    + inversion Hmax as [|? ? Hm0 Hmax']; subst. rewrite (proj2 (Z.ltb_ge _ _)) by lia.
      apply IH; [done|done|by apply ro_save|by destruct (Z.ltb_spec 0 (save r)); [|lia]|done|done|done].
Qed.

(** The rule to start from matters only if no rule comes before the year. *)
Lemma get_last_loop_indep l year below : forall m d d', fst <$> get_last_loop below l year m d = fst <$> get_last_loop below l year m d'.
Proof.
  induction below as [|i IH]; intros m d d'; cbn [get_last_loop]; [done|]. destruct (_ <? _); [|done].
  destruct (l !! i) as [r|]; [|done]. cbn [mbind option_bind]. destruct (_ <? _); apply IH.
Qed.

Lemma fill_before_indep year rs : forall l m d m' d' l1 rest m1 d1, fill_before l rs year m d = Some (l1, rest, m1, d1) ->
  exists m1' d1', fill_before l rs year m' d' = Some (l1, rest, m1', d1') /\ (m1' = m1 \/ (m1 = m /\ m1' = m')).
Proof.
  induction rs as [|r rs IH]; intros l m d m' d' l1 rest m1 d1; cbn [fill_before].
  - intros [= <- <- <- <-]. by eauto 10.
  - destruct (_ <? _); [|intros [= <- <- <- <-]; by eauto 10]. destruct (ruleset_add _ _) as [l2|]; [|done]. cbn [mbind option_bind].
    unfold ruleset_get_last, assert. destruct (0 <? length l2)%nat; [|done]. cbn [mbind option_bind].
    destruct (l2 !! (length l2 - 1)%nat) as [last|]; [|done]. cbn [mbind option_bind].
    pose proof (get_last_loop_indep l2 year (length l2 - 1) last (if 0 <? save last then last else d) (if 0 <? save last then last else d')) as Hi.
    destruct (get_last_loop _ _ _ _ (if 0 <? save last then last else d)) as [[m2 d2]|]; [|done].
    destruct (get_last_loop _ _ _ _ (if 0 <? save last then last else d')) as [[m3 d3]|]; [|done]. cbn in Hi. injection Hi as <-.
    cbn [mbind option_bind]. intros E. destruct (IH _ m2 d2 m2 d3 _ _ _ _ E) as (m1' & d1' & E' & H). exists m1', d1'. split; [done|].
    left. destruct H as [H|[H1 H2]]; congruence.
Qed.

Lemma fill_indep rs year a b a' b' l m d : ruleset_fill_with_year rs year a b = Some (l, m, d) ->
  exists m' d', ruleset_fill_with_year rs year a' b' = Some (l, m', d') /\ (m' = m \/ (m = a /\ m' = a')).
Proof.
  unfold ruleset_fill_with_year. destruct (fill_before [] rs year a b) as [[[[l1 rest] m1] d1]|] eqn:E; [|done]. cbn [mbind option_bind].
  destruct (fill_current _ _ _) as [l2|] eqn:Ec; [|done]. intros [= <- <- <-].
  destruct (fill_before_indep year rs [] a b a' b' _ _ _ _ E) as (m' & d' & -> & H). cbn [mbind option_bind]. rewrite Ec. by eauto.
Qed.

(** What is known of the rules of the year in which a time falls. *)
Lemma year_rules rs year last0 dst0 : rules_ok rs -> days_ok rs -> 0 <= save last0 < 16 ->
  exists l m d, ruleset_fill_with_year rs year last0 dst0 = Some (l, m, d) /\ Forall rule_ok l /\ Forall (fun r => in_month r year) l /\
    0 <= save m < 16 /\ (forall r, r ∈ l -> r ∈ rs) /\ (m ∈ rs \/ m = last0) /\ ((m ∈ rs /\ (0 < save m -> d = m)) \/ (m = last0 /\ d = dst0)).
Proof.
  intros Hrs Hd H0. destruct (fill_ok rs year last0 dst0 Hrs) as (l & m & d & E & Hp & _ & Hm). exists l, m, d. split; [done|].
  assert (Hin : forall r, r ∈ l <-> active year r = true /\ r ∈ rs) by (intros r; rewrite Hp; by rewrite list_elem_of_filter).
  destruct Hrs as [Hok _ _]. rewrite list.Forall_forall in Hok.
  split; [apply list.Forall_forall; intros r Hr; apply Hok; by apply Hin|].
  split; [apply list.Forall_forall; intros r Hr; apply Hin in Hr as [? ?]; by apply Hd|].
  destruct Hm as [[(Hm & _) Hdm]|(_ & -> & ->)].
  - split; [by apply ro_save, Hok|]. split; [intros r Hr; by apply Hin|]. split; [by left|]. by left.
  - split; [done|]. split; [intros r Hr; by apply Hin|]. split; [by right|]. by right.
Qed.

Lemma in_effect_in off year s l : forall m, in_effect off year s m l = m \/ in_effect off year s m l ∈ l.
Proof.
  induction l as [|r l IH]; intros m; cbn [in_effect]; [by left|]. destruct (_ <? _); [by left|]. right.
  destruct (IH r) as [-> |H]; [apply list_elem_of_here|by apply list_elem_of_further].
Qed.

Lemma first_standard_save rs : save (first_standard rs) = 0.
Proof.
  unfold first_standard. destruct (head _) as [r|] eqn:E; [|done]. cbn. apply head_Some_elem_of in E.
  by apply list_elem_of_filter in E as [E _].
Qed.

Lemma first_standard_in rs : first_standard rs ∈ rs \/ first_standard rs = nomatch.
Proof.
  unfold first_standard. destruct (head _) as [r|] eqn:E; [|by right]. cbn. apply head_Some_elem_of in E.
  apply list_elem_of_filter in E as [_ E]. by left.
Qed.

(** [determine_applicable_rule]: the rule in effect, and what it is computed from. *)
Lemma determine_rule_ok rs t off : rules_ok rs -> days_ok rs -> canonical t -> Z.abs off <= 131072 ->
  exists l m d, ruleset_fill_with_year rs (tm_year t) (first_standard rs) nomatch = Some (l, m, d) /\
    determine_applicable_rule rs t off = Some (in_effect off (tm_year t) (clock t) m l) /\
    (in_effect off (tm_year t) (clock t) m l ∈ rs \/ in_effect off (tm_year t) (clock t) m l = nomatch) /\
    0 <= save (in_effect off (tm_year t) (clock t) m l) < 16.
Proof.
  intros Hrs Hd Ht Hoff. destruct (year_rules rs (tm_year t) (first_standard rs) nomatch Hrs Hd) as (l & m & d & E & Hlo & Hli & Hm & Hl & Hmr & _).
  { rewrite first_standard_save. lia. }
  exists l, m, d. split; [done|]. unfold determine_applicable_rule. rewrite E. cbn [mbind option_bind].
  rewrite applicable_loop_ok by done. split; [done|]. pose proof (first_standard_in rs) as Hf.
  destruct (in_effect_in off (tm_year t) (clock t) l m) as [Ei|Hi].
  - rewrite Ei. split; [|done]. destruct Hmr as [Hmr| ->]; [by left|done].
  - split; [left; by apply Hl|]. rewrite list.Forall_forall in Hlo. by apply ro_save, Hlo.
Qed.

(** [determine_applicable_save] on the clock of daylight saving time. *)
Lemma determine_save_ok rs t off s l m d : rules_ok rs -> days_ok rs -> canonical t -> Z.abs off <= 131072 ->
  ruleset_fill_with_year rs (tm_year t) (first_standard rs) nomatch = Some (l, m, d) ->
  let saved := save (in_effect off (tm_year t) s m l) in
  0 < saved -> (forall r, r ∈ rs -> save r <= saved) -> clock t = s + saved * 600 ->
  determine_applicable_save rs t off true = Some saved.
Proof.
  intros Hrs Hd Ht Hoff E saved Hpos Hmax Hc. unfold determine_applicable_save.
  destruct (fill_indep _ _ _ _ nomatch nomatch _ _ _ E) as (m' & d' & E' & Hm').
  destruct (year_rules rs (tm_year t) nomatch nomatch Hrs Hd ltac:(cbn; lia)) as (l2 & m2 & d2 & E2 & Hlo & Hli & Hm2 & Hl & _ & Hmd).
  rewrite E' in E2. injection E2 as <- <- <-. rewrite E'. cbn [mbind option_bind].
  destruct (year_rules rs (tm_year t) (first_standard rs) nomatch Hrs Hd) as (l3 & m3 & d3 & E3 & _ & _ & Hm3 & _ & Hmr & _).
  { rewrite first_standard_save. lia. }
  rewrite E in E3. injection E3 as <- <- <-.
  assert (Es : save m = save m') by (destruct Hm' as [-> |[-> ->]]; [done|by rewrite first_standard_save]).
  destruct (save_loop_ok off t Ht Hoff l m' d' Hlo Hli Hm2) with (s := s) (m0 := m) as (m4 & d4 & -> & E4 & Hd4); [|done| |done|].
  - intros Hp. destruct Hmd as [[_ H]|[H1 H2]]; [by rewrite H|subst; cbn in Hp; lia].
  - fold saved. constructor; [|apply list.Forall_forall; intros r Hr; by apply Hmax, Hl].
    destruct Hmr as [Hmr| ->]; [by apply Hmax|rewrite first_standard_save; lia].
  - cbn [mbind option_bind]. rewrite Hd4 by lia. by rewrite E4.
Qed.

(** ** Eras *)

(** The abbreviations can be printed. *)
Definition named (e : lc_timezone_era) : Prop := forall r, r ∈ nomatch :: rules e -> is_Some (compute_zone_abbreviation true [] e r).

Record era_ok (e : lc_timezone_era) : Prop := {
  er_rules : rules_ok (rules e);
  er_days : days_ok (rules e);
  er_gmtoff : Z.abs (gmtoff e) <= 131072;
  er_end : Z.abs (era_end e) <= 2 ^ 37;
  er_save : 0 <= end_save e < 16;
  er_names : named e
}.

Definition zone_ok (tz : lc_timezone) : Prop := tz <> [] /\ Forall era_ok tz.

(** The era of an instant: the first that has not ended. *)
Definition era_of (tz : lc_timezone) (sec : Z) : option lc_timezone_era :=
  first ← head tz; Some (find_era first (tail tz) TIME_MIN sec).1.

Lemma find_era_in e es : forall st sec, (find_era e es st sec).1 ∈ e :: es.
Proof.
  revert e. induction es as [|n es IH]; intros e st sec; cbn [find_era]; [apply list_elem_of_here|].
  destruct (sec <? era_end e); [apply list_elem_of_here|]. apply list_elem_of_further, IH.
Qed.

Definition MARGIN : Z := 400000.

(** Far from the ends of the eras. *)
Definition settled (tz : lc_timezone) (sec : Z) : Prop := Forall (fun e => MARGIN <= Z.abs (sec - era_end e)) (removelast tz).

(** All three searches find the same era, and none of the corrections at its start is
    made. *)
Lemma eras_agree sec v es : 0 <= v <= 9000 -> forall e st dt, Forall era_ok (e :: es) -> settled (e :: es) sec -> st + 200000 < sec ->
  let era := (find_era e es st sec).1 in
  let local := sec + gmtoff era + v in
  dt = local ->
  (find_era e es st sec).2 < sec + gmtoff era /\ find_era_std e es local = era /\ find_era_dst e es dt local = (era, local).
Proof.
  intros Hv. induction es as [|n es IH]; intros e st dt Hok Hs Hst; inversion Hok as [|? ? He Hok']; subst; cbn [find_era].
  - cbn. intros ->. destruct He. split; [lia|]. done.
  - unfold settled in Hs. cbn [removelast] in Hs. inversion Hs as [|? ? Hm Hs']; subst. unfold MARGIN in Hm.
    pose proof (er_gmtoff _ He) as Hg. pose proof (er_save _ He) as Hsv. destruct (Z.ltb_spec sec (era_end e)) as [Hlt|Hge].
    + cbn [fst snd find_era_std find_era_dst]. intros ->. rewrite !(proj2 (Z.ltb_lt _ _)) by lia. split; [lia|]. done.
    + set (st' := era_end e + gmtoff e + end_save e * 600). intros Hdt. cbn zeta in IH.
      destruct (IH n st' dt Hok' Hs' ltac:(unfold st'; lia) Hdt) as (H1 & H2 & H3). split; [done|].
      pose proof (find_era_in n es st' sec) as Hin. rewrite list.Forall_forall in Hok'. pose proof (er_gmtoff _ (Hok' _ Hin)) as Hg'.
      assert (Hn : Z.abs (gmtoff n) <= 131072) by (apply er_gmtoff, Hok', list_elem_of_here).
      cbn [find_era_std find_era_dst]. rewrite !(proj2 (Z.ltb_ge _ _)) by lia. split; [done|].
      rewrite (proj2 (Z.ltb_lt _ _)) by lia. rewrite Hdt in H3. exact H3.
Qed.

(** ** localtime_l *)

Lemma set_local_canonical t i o z n : canonical t -> canonical (set_local t i o z n).
Proof. intros []. by split. Qed.

Lemma local_tm x : representable x ->
  exists t, localtime_utc x = Some (0, t) /\ canonical t /\ clock t = x /\ tm_isdst t = 0.
Proof.
  intros Hx. destruct (localtime_utc_spec x) as (y & yday & mon & mday & Hd & ->). apply (representable_year x _ _ _ _ Hd) in Hx.
  rewrite !(proj2 (Z.ltb_ge _ _)) by lia. eexists. split; [done|]. split; [|split; [|done]].
  - split; cbn; try lia. by eauto.
  - unfold clock, make_tm. cbn. destruct Hd as [_ Hd _ _]. rewrite Hd. lia.
Qed.

(** Even a clamped time is one the rules can be compared with. *)
Lemma abbreviation_total e r ok table : is_Some (compute_zone_abbreviation true [] e r) -> is_Some (compute_zone_abbreviation ok table e r).
Proof.
  unfold compute_zone_abbreviation, compute_combined_zone_abbreviation. destruct (negb _); [done|]. destruct (bool_decide _); [|done].
  intros [x Hx]. destruct (vsnprintf_l _ _ _ _ _ _) as [[b n]|]; [|done]. cbn. by eauto.
Qed.

Definition refused (ts : timespec) : bool := (tv_nsec ts <? 0) || (NSEC_PER_SEC <=? tv_nsec ts).

(** The offset and the rule that localtime_l uses at an instant. *)
Definition local_rule (era : lc_timezone_era) (start sec : Z) : option lc_timezone_rule :=
  if bool_decide (rules era = []) then Some nomatch
  else
    let std := if start <? sec + gmtoff era then sec + gmtoff era else start in
    '(_, t) ← localtime_utc std; determine_applicable_rule (rules era) t (gmtoff era).

Lemma localtime_ok ok table sec nsec tz first : zone_ok tz -> head tz = Some first -> 0 <= nsec < NSEC_PER_SEC ->
  (forall x, Z.abs (x - sec) <= 150000 -> representable x) ->
  let '(era, start) := find_era first (tail tz) TIME_MIN sec in
  (start <= sec + gmtoff era \/ representable start) ->
  exists rule b zone table', local_rule era start sec = Some rule /\ (rule ∈ rules era \/ rule = nomatch) /\
    localtime_utc (sec + (gmtoff era + save rule * 600)) = Some (0, b) /\ canonical b /\
    clock b = sec + (gmtoff era + save rule * 600) /\ compute_zone_abbreviation ok table era rule = Some (zone, table') /\
    localtime_l ok table (Timespec sec nsec) tz =
      Some (0, Some (set_local b (Z.b2z (0 <? save rule)) (gmtoff era + save rule * 600) zone nsec), table').
Proof.
  intros [Hne Hok] Hf Hn Hrep. destruct tz as [|e es]; [done|]. injection Hf as ->. cbn [tail].
  destruct (find_era first es TIME_MIN sec) as [era start] eqn:Ef. intros Hstart.
  assert (Hera : era_ok era).
  { rewrite list.Forall_forall in Hok. apply Hok. pose proof (find_era_in first es TIME_MIN sec) as H. by rewrite Ef in H. }
  pose proof (er_gmtoff _ Hera) as Hg. unfold localtime_l, local_rule. cbn [tv_nsec tv_sec].
  assert ((nsec <? 0) || (NSEC_PER_SEC <=? nsec) = false) as -> by (unfold NSEC_PER_SEC in *; apply orb_false_iff; rewrite Z.ltb_ge, Z.leb_gt; lia).
  cbn [head tail mbind option_bind]. rewrite Ef.
  assert (Hrule : exists rule, local_rule era start sec = Some rule /\ (rule ∈ rules era \/ rule = nomatch) /\ 0 <= save rule < 16).
  { unfold local_rule. case_bool_decide; [exists nomatch; split; [done|]; split; [by right|cbn; lia]|]. cbv zeta.
    destruct (local_tm (if start <? sec + gmtoff era then sec + gmtoff era else start)) as (t & -> & Ht & _).
    { destruct (Z.ltb_spec start (sec + gmtoff era)); [apply Hrep; lia|]. destruct Hstart as [H'|]; [|done].
      replace start with (sec + gmtoff era) by lia. apply Hrep. lia. }
    cbn [mbind option_bind].
    destruct (determine_rule_ok (rules era) t (gmtoff era)) as (l & m & d & _ & -> & Hin & Hsv); [by apply Hera..|done|done|]. by eauto. }
  destruct Hrule as (rule & Er & Hin & Hsv). unfold local_rule in Er. rewrite Er.
  destruct (local_tm (sec + (gmtoff era + save rule * 600))) as (b & Eb & Hb & Hcb & Hib); [apply Hrep; lia|].
  destruct (abbreviation_total era rule ok table) as [[zone table'] Ez].
  { apply er_names; [done|]. destruct Hin as [Hin| ->]; [by apply list_elem_of_further|apply list_elem_of_here]. }
  exists rule, b, zone, table'. split; [done|]. split; [done|]. split; [done|]. split; [done|]. split; [done|]. split; [done|].
  case_bool_decide as Hr; cbn [negb].
  - injection Er as <-. cbn [save nomatch Z.ltb Z.compare Z.b2z Z.mul] in *. rewrite Z.add_0_r in *. rewrite Eb. cbn [mbind option_bind].
    rewrite Ez. cbn [mbind option_bind]. by rewrite Hib.
  - cbv zeta in Er. destruct (localtime_utc (if start <? _ then _ else _)) as [[err t]|]; [|done]. cbn [mbind option_bind] in *. rewrite Er.
    cbn [mbind option_bind]. rewrite Eb. cbn [mbind option_bind]. rewrite Ez. done.
Qed.

Lemma find_era_start es : forall e st sec, Forall era_ok (e :: es) ->
  (find_era e es st sec).2 = st \/ Z.abs (find_era e es st sec).2 <= 2 ^ 38.
Proof.
  induction es as [|n es IH]; intros e st sec Hok; cbn [find_era]; [by left|]. destruct (sec <? era_end e); [by left|]. right.
  inversion Hok as [|? ? He Hok']; subst. destruct He.
  destruct (IH n (era_end e + gmtoff e + end_save e * 600) sec Hok') as [-> |H]; [lia|done].
Qed.

Lemma year_bounds : -785000000000 <= mktime_year_day INT_MIN <= -784000000000 /\ 784000000000 <= mktime_year_day (INT_MAX + 1) <= 785000000000.
Proof. split_and!; vm_compute; congruence. Qed.

Lemma representable_small x : Z.abs x <= 2 ^ 38 -> representable x.
Proof. pose proof year_bounds. unfold representable. lia. Qed.

Lemma representable_range x : representable x -> Z.abs x < 2 ^ 57.
Proof. pose proof year_bounds. unfold representable. lia. Qed.

Lemma start_ok tz sec first : zone_ok tz -> head tz = Some first -> representable sec ->
  let '(era, start) := find_era first (tail tz) TIME_MIN sec in start <= sec + gmtoff era \/ representable start.
Proof.
  intros [_ Hok] Hf Hs. destruct tz as [|e es]; [done|]. injection Hf as ->. cbn [tail].
  pose proof (find_era_start es first TIME_MIN sec Hok) as H. pose proof (find_era_in first es TIME_MIN sec) as Hin.
  destruct (find_era first es TIME_MIN sec) as [era start]. cbn [fst snd] in *. rewrite list.Forall_forall in Hok.
  pose proof (er_gmtoff _ (Hok _ Hin)) as Hg. apply representable_range in Hs.
  destruct H as [-> |H]; [left; unfold TIME_MIN; lia|right; by apply representable_small].
Qed.

(** The rule by which localtime_l corrects the time at an instant: none if the era has no rules, and otherwise the
    one in effect on the clock of standard time, which does not start before the era does. *)
Definition rule_at (era : lc_timezone_era) (start sec : Z) (rule : lc_timezone_rule) : Prop :=
  (rules era = [] /\ rule = nomatch) \/
  exists t l m d, localtime_utc (Z.max start (sec + gmtoff era)) = Some (0, t) /\
    ruleset_fill_with_year (rules era) (tm_year t) (first_standard (rules era)) nomatch = Some (l, m, d) /\
    rule = in_effect (gmtoff era) (tm_year t) (Z.max start (sec + gmtoff era)) m l.

Lemma local_rule_at era start sec rule : era_ok era -> representable (Z.max start (sec + gmtoff era)) ->
  local_rule era start sec = Some rule -> rule_at era start sec rule.
Proof.
  intros He Hrep. unfold local_rule. case_bool_decide; [intros [= <-]; by left|]. cbv zeta.
  assert (Em : (if start <? sec + gmtoff era then sec + gmtoff era else start) = Z.max start (sec + gmtoff era)).
  { destruct (Z.ltb_spec start (sec + gmtoff era)); lia. }
  rewrite Em. destruct (local_tm _ Hrep) as (t & E & Ht & Hc & _). rewrite E. cbn [mbind option_bind].
  destruct (determine_rule_ok (rules era) t (gmtoff era)) as (l & m & d & Ef & -> & _); [apply He|apply He|done|apply He|].
  intros [= <-]. right. exists t, l, m, d. by rewrite Hc.
Qed.

(** *** What the era and the rule are, independently of the searches *)

(** The era of an instant: all eras before it have ended and it has not, unless it is the last one.  It starts when
    the one before it ends, on the clock of that one. *)
Definition era_at (tz : lc_timezone) (sec : Z) (era : lc_timezone_era) (start : Z) : Prop :=
  exists earlier later, tz = earlier ++ era :: later /\ Forall (fun e => era_end e <= sec) earlier /\
    (later = [] \/ sec < era_end era) /\
    start = match last earlier with
            | None => TIME_MIN
            | Some p => era_end p + gmtoff p + end_save p * 600
            end.

(** The rules of a year in the order of their days. *)
Definition rules_of_year (rs : list lc_timezone_rule) (year : Z) (l : list lc_timezone_rule) : Prop :=
  l ≡ₚ filter (fun r => year_from r <= year /\ (year_to r = 255 \/ year <= year_to r)) rs /\ StronglySorted before l.

(** The rule in effect when a year starts: of those that began in an earlier year the one that took effect last;
    if there are none, the first that is standard time, or no rule. *)
Definition rule_at_new_year (rs : list lc_timezone_rule) (year : Z) (m : lc_timezone_rule) : Prop :=
  latest_before year rs m \/
  Forall (fun r => year <= year_from r) rs /\
  ((exists pre post, rs = pre ++ m :: post /\ save m = 0 /\ Forall (fun r => save r <> 0) pre) \/
   (Forall (fun r => save r <> 0) rs /\ m = nomatch)).

(** Rules that have taken effect one after the other by the time [s] on the clock of standard time; the time of a
    rule is on the clock it names, which may be that of the rule before it. *)
Fixpoint took_effect (off year s : Z) (m : lc_timezone_rule) (past : list lc_timezone_rule) : Prop :=
  match past with
  | [] => True
  | r :: past => rule_time r year <= s + base_offset r m off /\ took_effect off year s r past
  end.

(** The rule in effect: the last of the rules of the year that have taken effect, and the next one has not. *)
Definition rule_in_effect (era : lc_timezone_era) (start sec : Z) (rule : lc_timezone_rule) : Prop :=
  let s := Z.max start (sec + gmtoff era) in
  (rules era = [] /\ rule = nomatch) \/
  exists t m past future,
    canonical t /\ clock t = s /\ rules_of_year (rules era) (tm_year t) (past ++ future) /\
    rule_at_new_year (rules era) (tm_year t) m /\ took_effect (gmtoff era) (tm_year t) s m past /\
    rule = List.last past m /\
    match future with
    | [] => True
    | r :: _ => s + base_offset r rule (gmtoff era) < rule_time r (tm_year t)
    end.

Lemma find_era_at tz sec es : forall earlier e st, tz = earlier ++ e :: es -> Forall (fun p => era_end p <= sec) earlier ->
  st = match last earlier with None => TIME_MIN | Some p => era_end p + gmtoff p + end_save p * 600 end ->
  era_at tz sec (find_era e es st sec).1 (find_era e es st sec).2.
Proof.
  induction es as [|n es IH]; intros earlier e st Etz Hold Est; cbn [find_era].
  - exists earlier, []. auto.
  - destruct (Z.ltb_spec sec (era_end e)); [exists earlier, (n :: es); auto|].
    apply (IH (earlier ++ [e])); [by rewrite <- app_assoc|apply Forall_app_2; [done|by constructor]|by rewrite last_snoc].
Qed.

Lemma in_effect_split off year s l : forall m, exists past future, l = past ++ future /\ took_effect off year s m past /\
  in_effect off year s m l = List.last past m /\
  match future with [] => True | r :: _ => s + base_offset r (List.last past m) off < rule_time r year end.
Proof.
  induction l as [|r l IH]; intros m; cbn [in_effect]; [by exists [], []|].
  destruct (Z.ltb_spec (s + base_offset r m off) (rule_time r year)) as [Hlt|Hge]; [by exists [], (r :: l)|].
  destruct (IH r) as (past & future & -> & Ht & E & Hf). exists (r :: past), future.
  assert (El : List.last (r :: past) m = List.last past r).
  { clear. revert r m. induction past as [|p past IH]; intros r m; [done|]. change (List.last (p :: past) m = List.last (p :: past) r).
    by rewrite !IH. }
  rewrite El. split; [done|]. split; [done|]. done.
Qed.

Lemma first_standard_spec rs :
  (exists pre post, rs = pre ++ first_standard rs :: post /\ save (first_standard rs) = 0 /\ Forall (fun r => save r <> 0) pre) \/
  (Forall (fun r => save r <> 0) rs /\ first_standard rs = nomatch).
Proof.
  unfold first_standard. induction rs as [|r rs IH]; [by right|]. rewrite filter_cons. case_decide as Hr.
  - left. by exists [], rs.
  - destruct IH as [(pre & post & E & H0 & Hpre)|[Hall E]].
    + left. exists (r :: pre), post. split; [cbn; by f_equal|]. split; [done|by constructor].
    + right. split; [by constructor|done].
Qed.

Lemma rule_at_effect era start sec rule : era_ok era -> representable (Z.max start (sec + gmtoff era)) ->
  rule_at era start sec rule -> rule_in_effect era start sec rule.
Proof.
  intros He Hrep [H|(t & l & m & d & Et & Efill & ->)]; [by left|]. right.
  destruct (local_tm _ Hrep) as (t' & Et' & Ht & Hc & _). rewrite Et in Et'. injection Et' as <-.
  destruct (fill_ok (rules era) (tm_year t) (first_standard (rules era)) nomatch (er_rules _ He)) as (l' & m' & d' & Efill' & Hl & Hs & Hm).
  rewrite Efill in Efill'. injection Efill' as <- <- <-.
  destruct (in_effect_split (gmtoff era) (tm_year t) (Z.max start (sec + gmtoff era)) l m) as (past & future & -> & Hpast & Ein & Hf).
  exists t, m, past, future. split; [done|]. split; [done|]. split.
  { split; [|done]. rewrite Hl. erewrite list_filter_iff; [reflexivity|]. intros r. unfold active, stays, UINT8_MAX.
    rewrite andb_true_iff, orb_true_iff, !Z.leb_le, Z.eqb_eq. done. }
  split.
  { destruct Hm as [[Hm _]|(Hge & -> & _)]; [by left|right]. split; [done|]. apply first_standard_spec. }
  split; [done|]. split; [done|]. by rewrite Ein.
Qed.

(** C28: in a well-formed time zone [localtime_l] refuses nanoseconds out of range with EINVAL, and otherwise
    stores a time with every field in range and a date of the calendar, which is the given instant on a clock
    that is ahead of UTC by the offset it stores: the offset of the era of the instant (the first that has not ended,
    [era_at]) and the saving of the rule in effect (the last one that has taken effect by then, [rule_in_effect]),
    which is positive if and only if tm_isdst is set.  The instant is such that the local time is representable:
    tm_year fits an int for all instants within 150000 seconds. *)
Theorem localtime_l_correct (ok : bool) (table : list string) (ts : timespec) (tz : lc_timezone) (Hz : zone_ok tz)
  (Hrep : forall x, Z.abs (x - tv_sec ts) <= 150000 -> representable x) :
  if refused ts then localtime_l ok table ts tz = Some (EINVAL, None, table)
  else exists era start rule b zone table',
    era_at tz (tv_sec ts) era start /\ rule_in_effect era start (tv_sec ts) rule /\
    localtime_l ok table ts tz = Some (0, Some b, table') /\
    canonical b /\ clock b = tv_sec ts + tm_gmtoff b /\ tm_gmtoff b = gmtoff era + save rule * 600 /\
    tm_isdst b = Z.b2z (0 <? save rule) /\ tm_nsec b = tv_nsec ts /\
    compute_zone_abbreviation ok table era rule = Some (zone, table') /\ tm_zone b = Some zone.
Proof.
  destruct ts as [sec nsec]. unfold refused. cbn [tv_sec tv_nsec] in *.
  destruct ((nsec <? 0) || (NSEC_PER_SEC <=? nsec)) eqn:En.
  { unfold localtime_l. cbn [tv_nsec]. by rewrite En. }
  assert (Hn : 0 <= nsec < NSEC_PER_SEC) by (apply orb_false_iff in En as [? ?]; zprop; lia).
  destruct tz as [|first es]; [by destruct Hz|].
  pose proof (start_ok (first :: es) sec first Hz eq_refl (Hrep sec ltac:(lia))) as Hst.
  pose proof (localtime_ok ok table sec nsec (first :: es) first Hz eq_refl Hn Hrep) as H. cbn [tail] in *.
  pose proof (find_era_at (first :: es) sec es [] first TIME_MIN eq_refl (Forall_nil_2 _) eq_refl) as Hat.
  pose proof (find_era_in first es TIME_MIN sec) as Hin. destruct Hz as [_ Hok]. rewrite list.Forall_forall in Hok.
  destruct (find_era first es TIME_MIN sec) as [era start]. cbn [fst snd] in *. apply Hok in Hin as Hera.
  destruct (H Hst) as (rule & b & zone & table' & Er & _ & Eb & Hb & Hc & Ez & E).
  exists era, start, rule, (set_local b (Z.b2z (0 <? save rule)) (gmtoff era + save rule * 600) zone nsec), zone, table'.
  pose proof (er_gmtoff _ Hera). assert (Hmax : representable (Z.max start (sec + gmtoff era))).
  { destruct (Z.max_spec start (sec + gmtoff era)) as [[Hm ->]|[Hm ->]]; [apply Hrep; lia|].
    destruct Hst as [Hst|]; [|done]. replace start with (sec + gmtoff era) by lia. apply Hrep. lia. }
  split; [done|]. split; [by apply rule_at_effect, local_rule_at|].
  split; [done|]. split; [by apply set_local_canonical|]. done.
Qed.

(** ** mktime_l *)

Lemma mktime_utc_canonical t : canonical t -> 0 <= tm_nsec t < NSEC_PER_SEC -> mktime_utc t = Some (Timespec (clock t) (tm_nsec t)).
Proof.
  intros [_ _ _ (d & [_ Hd Hm (s & l & Hs & _ & Hy & _)] & _)] Hn. destruct (mktime_utc_spec t) as (s' & Hs' & ->).
  rewrite (Z.div_small (tm_mon t) 12), (Z.mod_small (tm_mon t) 12), Z.add_0_r in * by lia. rewrite Hs in Hs'. injection Hs' as <-.
  rewrite (Z.div_small (tm_nsec t)), (Z.mod_small (tm_nsec t)) by lia. unfold clock. do 2 f_equal. lia.
Qed.

Lemma clock_year a b : canonical a -> canonical b -> clock a = clock b -> tm_year a = tm_year b.
Proof.
  assert (Hd : forall t, canonical t -> date_ok (tm_year t) (tm_yday t) (tm_mon t) (tm_mday t) (clock t / 86400)).
  { intros t [Hs Hm Hh (d & Hd & _)]. replace (clock t / 86400) with d; [done|]. destruct Hd as [_ Hd _ _]. unfold clock. lia. }
  intros Ha Hb E. pose proof (Hd a Ha) as H1. rewrite E in H1. by destruct (date_ok_unique _ _ _ _ _ _ _ _ _ H1 (Hd b Hb)).
Qed.

Lemma mktime_localtime_rule b sec tz first era start rule : zone_ok tz -> head tz = Some first -> settled tz sec -> representable sec ->
  find_era first (tail tz) TIME_MIN sec = (era, start) -> rule_at era start sec rule -> 0 <= save rule < 16 -> canonical b -> 0 <= tm_nsec b < NSEC_PER_SEC ->
  clock b = sec + gmtoff era + save rule * 600 -> representable (clock b) -> tm_isdst b = Z.b2z (0 <? save rule) ->
  (0 < save rule -> (forall r, r ∈ rules era -> save r <= save rule) /\
     forall t, localtime_utc (sec + gmtoff era) = Some (0, t) -> tm_year t = tm_year b) ->
  mktime_l b tz = Some (Timespec sec (tm_nsec b)).
Proof.
  intros [_ Hok] Hf Hset Hrep Ee Hrule Hsv Hb Hn Hc Hrc Hi Hdst. destruct tz as [|e es]; [done|]. injection Hf as ->. cbn [tail] in Ee.
  pose proof (representable_range _ Hrep) as Hr57.
  destruct (eras_agree sec (save rule * 600) es ltac:(lia) first TIME_MIN (sec + gmtoff era + save rule * 600) Hok Hset) as (H1 & H2 & H3).
  { unfold TIME_MIN. lia. } { by rewrite Ee. }
  rewrite Ee in H1, H2, H3. cbn [fst snd] in *. unfold mktime_l. rewrite mktime_utc_canonical by done.
  cbn [mbind option_bind head tail tv_sec tv_nsec]. rewrite Hi, Hc. destruct (Z.ltb_spec 0 (save rule)) as [Hpos|Hz0]; cbn [Z.b2z Z.eqb].
  - destruct (Hdst Hpos) as [Hmax Hyear]. rewrite H3. destruct Hrule as [[_ ->]|(t & l & m & d & Et & Efill & Er)]; [cbn in Hpos; lia|].
    rewrite Z.max_r in Et, Er by lia. rewrite bool_decide_false.
    2: { intros En. rewrite En in Efill. cbn in Efill. injection Efill as <- <- _. subst rule. cbn in Hpos. lia. }
    cbn [negb]. rewrite Hc in Hrc. destruct (local_tm _ Hrc) as (t' & Et' & Ht' & Hct' & _). rewrite Et'. cbn [mbind option_bind].
    assert (He : era_ok era).
    { rewrite list.Forall_forall in Hok. apply Hok. pose proof (find_era_in first es TIME_MIN sec) as H. by rewrite Ee in H. }
    assert (Hy : tm_year t = tm_year t') by (rewrite (Hyear t Et); apply clock_year; [done..|lia]).
    rewrite Hy in Efill, Er. change (0 <? 1) with true. rewrite (determine_save_ok (rules era) t' (gmtoff era) (sec + gmtoff era) l m d).
    + cbn [mbind option_bind]. rewrite <- Er. do 2 f_equal. lia.
    + apply He.
    + apply He.
    + done.
    + apply He.
    + done.
    + by rewrite <- Er.
    + by rewrite <- Er.
    + by rewrite <- Er.
  - assert (save rule = 0) as Hs0 by lia. rewrite Hs0 in *. rewrite H2. do 2 f_equal. lia.
Qed.

(** C29: [mktime_l] recovers the instant from what [localtime_l] stored, in every well-formed time zone and at
    every instant that is not within five days of the end of an era, if the time is standard time, or if no rule
    of the era saves more than the one in effect and the hour it adds does not lead into another year. *)
Theorem mktime_localtime_l (ok : bool) (table table' : list string) (ts : timespec) (tz : lc_timezone) (b : tm) (Hz : zone_ok tz)
  (Hrep : forall x, Z.abs (x - tv_sec ts) <= 150000 -> representable x) (Hset : settled tz (tv_sec ts))
  (Hb : localtime_l ok table ts tz = Some (0, Some b, table'))
  (Hdst : tm_isdst b <> 0 -> exists era, era_of tz (tv_sec ts) = Some era /\
    (forall r, r ∈ rules era -> save r * 600 <= tm_gmtoff b - gmtoff era) /\
    forall t, localtime_utc (tv_sec ts + gmtoff era) = Some (0, t) -> tm_year t = tm_year b) :
  mktime_l b tz = Some ts.
Proof.
  destruct ts as [sec nsec]. cbn [tv_sec] in *.
  destruct ((nsec <? 0) || (NSEC_PER_SEC <=? nsec)) eqn:En.
  { unfold localtime_l in Hb. cbn [tv_nsec] in Hb. by rewrite En in Hb. }
  assert (Hn : 0 <= nsec < NSEC_PER_SEC) by (apply orb_false_iff in En as [? ?]; zprop; lia).
  destruct (head tz) as [first|] eqn:Ef; [|by destruct Hz as [Hne _]; destruct tz].
  pose proof (start_ok tz sec first Hz Ef (Hrep sec ltac:(lia))) as Hst. pose proof (localtime_ok ok table sec nsec tz first Hz Ef Hn Hrep) as H.
  destruct (find_era first (tail tz) TIME_MIN sec) as [era start] eqn:Ee.
  destruct (H Hst) as (rule & c & zone & table2 & Er & Hin & Ec & Hc & Hcc & _ & E). rewrite E in Hb. injection Hb as <- <-.
  assert (Hera : era_ok era).
  { destruct Hz as [_ Hok]. rewrite list.Forall_forall in Hok. apply Hok. destruct tz as [|e es]; [done|]. injection Ef as ->.
    pose proof (find_era_in first es TIME_MIN sec) as Hi. cbn [tail] in Ee. by rewrite Ee in Hi. }
  assert (Hsv : 0 <= save rule < 16).
  { destruct Hin as [Hin| ->]; [|cbn; lia]. destruct (er_rules _ Hera) as [Hok _ _]. rewrite list.Forall_forall in Hok. by apply ro_save, Hok. }
  pose proof (er_gmtoff _ Hera) as Hg. assert (Hclk : clock (set_local c (Z.b2z (0 <? save rule)) (gmtoff era + save rule * 600) zone nsec) = sec + gmtoff era + save rule * 600).
  { change (clock c = sec + gmtoff era + save rule * 600). lia. }
  apply (mktime_localtime_rule (set_local c (Z.b2z (0 <? save rule)) (gmtoff era + save rule * 600) zone nsec) sec tz first era start rule); try done.
  - apply Hrep. lia.
  - apply local_rule_at; [done| |done]. destruct (Z.max_spec start (sec + gmtoff era)) as [[Hm ->]|[Hm ->]]; [apply Hrep; lia|].
    destruct Hst as [Hst|]; [|done]. replace start with (sec + gmtoff era) by lia. apply Hrep. lia.
  - by apply set_local_canonical.
  - rewrite Hclk. apply Hrep. lia.
  - intros Hpos. destruct Hdst as (era' & Ee' & Hmax & Hyear); [cbn; by rewrite (proj2 (Z.ltb_lt _ _)) by lia|].
    unfold era_of in Ee'. rewrite Ef in Ee'. cbn [mbind option_bind] in Ee'. rewrite Ee in Ee'. injection Ee' as <-. split; [|done].
    intros r Hr. specialize (Hmax r Hr). cbn in Hmax. lia.
Qed.

(** ** Deciding well-formedness *)

Definition rule_okb (r : lc_timezone_rule) : bool :=
  (0 <=? year_from r) && (year_from r <=? year_to r) && (year_to r <=? UINT8_MAX) && (0 <=? month r) && (month r <? 12) &&
  (0 <=? weekday r) && (weekday r <=? 7) && (1 <=? monthday r) && (monthday r <? 32) && (0 <=? minute r) && (minute r <=? 1440) &&
  (0 <=? timebase r) && (timebase r <=? 2) && (0 <=? save r) && (save r <? 16).

(** The day is in its month in every year, or in each of the finitely many years. *)
Definition day_okb (r : lc_timezone_rule) : bool :=
  if monthday r + (if weekday r =? 7 then 0 else 6) <=? default 0 ([31; 28; 31; 30; 31; 30; 31; 31; 30; 31; 30; 31] !! Z.to_nat (month r))
  then true
  else if year_to r =? UINT8_MAX then false
  else forallb (fun y => monthday r + rule_delta r y <=? month_length y (month r)) (seqZ (year_from r) (year_to r - year_from r + 1)).

Fixpoint sortedb (rs : list lc_timezone_rule) : bool :=
  match rs with
  | [] => true
  | r :: rs => match rs with [] => true | p :: _ => year_from r <=? year_from p end && sortedb rs
  end.

Definition rules_okb (rs : list lc_timezone_rule) : bool := forallb rule_okb rs && sortedb rs && fits [] rs && forallb day_okb rs.

Definition era_okb (e : lc_timezone_era) : bool :=
  rules_okb (rules e) && (Z.abs (gmtoff e) <=? 131072) && (Z.abs (era_end e) <=? 2 ^ 37) && (0 <=? end_save e) && (end_save e <? 16).

Definition zone_okb (tz : lc_timezone) : bool := negb (bool_decide (tz = [])) && forallb era_okb tz.

Lemma rule_okb_ok r : rule_okb r = true -> rule_ok r.
Proof. unfold rule_okb. rewrite !andb_true_iff. intros. zprop. split; lia. Qed.

Lemma sortedb_ok rs : sortedb rs = true -> StronglySorted (fun r p => year_from r <= year_from p) rs.
Proof.
  intros H. apply Sorted_StronglySorted; [intros x y z; lia|]. induction rs as [|r rs IH]; [constructor|]. cbn [sortedb] in H.
  apply andb_true_iff in H as [H1 H2]. constructor; [by apply IH|]. destruct rs; [constructor|]. constructor. zprop. lia.
Qed.

Lemma day_okb_ok r year : rule_ok r -> day_okb r = true -> active year r = true -> in_month r year.
Proof.
  intros Hr. unfold day_okb, active, in_month. rewrite andb_true_iff. intros H [Hy Hs]. zprop.
  destruct (Z.leb_spec (monthday r + (if weekday r =? 7 then 0 else 6))
    (default 0 ([31; 28; 31; 30; 31; 30; 31; 31; 30; 31; 30; 31] !! Z.to_nat (month r)))) as [Hle|_].
  - clear H. assert (rule_delta r year <= if weekday r =? 7 then 0 else 6) by (unfold rule_delta; destruct (weekday r =? 7); lia).
    assert (default 0 ([31; 28; 31; 30; 31; 30; 31; 31; 30; 31; 30; 31] !! Z.to_nat (month r)) <= month_length year (month r)); [|lia].
    unfold month_length, get_months. destruct (is_leap year); [|lia]. destruct (Z.to_nat (month r)) as [|[|n]]; cbn; lia.
  - destruct (Z.eqb_spec (year_to r) UINT8_MAX) as [|Hto]; [done|].
    rewrite forallb_forall in H. apply Z.leb_le, H. apply list_elem_of_In, elem_of_seqZ. unfold stays in Hs.
    apply orb_true_iff in Hs as [Hs|Hs]; zprop; [done|lia].
Qed.

Lemma forallb_Forall_iff {A} (p : A -> bool) l : forallb p l = true <-> Forall (fun x => p x = true) l.
Proof. rewrite forallb_forall, list.Forall_forall. split; intros H x Hx; apply H; by apply list_elem_of_In. Qed.

Lemma zone_okb_ok tz : zone_okb tz = true -> Forall named tz -> zone_ok tz.
Proof.
  unfold zone_okb. rewrite andb_true_iff. intros [H1 H2] Hn. split; [by intros ->|]. apply forallb_Forall_iff in H2.
  rewrite list.Forall_forall in *. intros e He. specialize (H2 e He). specialize (Hn e He). cbn beta in H2. revert H2.
  unfold era_okb, rules_okb. rewrite !andb_true_iff, !forallb_Forall_iff.
  intros (((((((Hr & Hs) & Hf) & Hd) & Hg) & Hend) & Hs1) & Hs2). zprop.
  assert (Hro : Forall rule_ok (rules e)) by (eapply list.Forall_impl; [exact Hr|apply rule_okb_ok]). split; try lia; [| |done].
  - split; [done|by apply sortedb_ok|done].
  - intros r year Hin Ha. rewrite list.Forall_forall in Hd, Hro. apply day_okb_ok; [by apply Hro|by apply Hd|done].
Qed.
