(* ===== verification/TzData.v ===== *)
(** * The time zone database

    Source: src/libc/locale/timezone/tzdata.h, the IANA database of version 2017b, table
    by table.  The theorem is that every zone of it is well-formed, so that the theorems
    of [TimeZone] apply to it, and that every time has the name one reads in the table. *)

From S2P Require Import Prelude CalendarTime TimeZone.
From Stdlib Require Import Ascii.
From stdpp Require Import strings sorting.

#[local] Open Scope Z_scope.
#[local] Open Scope string_scope.

(** ** The tables *)

Definition rules_020 : list lc_timezone_rule :=
  [ Rule 0 255 0 7 1 0 TIMEBASE_CUR 2 "" ].

Definition rules_030 : list lc_timezone_rule :=
  [ Rule 0 255 0 7 1 0 TIMEBASE_CUR 3 "" ].

Definition rules_100 : list lc_timezone_rule :=
  [ Rule 0 255 0 7 1 0 TIMEBASE_CUR 6 "" ].

Definition rules_AN : list lc_timezone_rule :=
  [ Rule 71 85 9 0 25 120 TIMEBASE_STD 6 "D";
    Rule 72 72 1 7 27 120 TIMEBASE_STD 0 "S";
    Rule 73 81 2 0 1 120 TIMEBASE_STD 0 "S";
    Rule 82 82 3 0 1 120 TIMEBASE_STD 0 "S";
    Rule 83 85 2 0 1 120 TIMEBASE_STD 0 "S";
    Rule 86 89 2 0 15 120 TIMEBASE_STD 0 "S";
    Rule 86 86 9 7 19 120 TIMEBASE_STD 6 "D";
    Rule 87 99 9 0 25 120 TIMEBASE_STD 6 "D";
    Rule 90 95 2 0 1 120 TIMEBASE_STD 0 "S";
    Rule 96 105 2 0 25 120 TIMEBASE_STD 0 "S";
    Rule 100 100 7 0 25 120 TIMEBASE_STD 6 "D";
    Rule 101 107 9 0 25 120 TIMEBASE_STD 6 "D";
    Rule 106 106 3 0 1 120 TIMEBASE_STD 0 "S";
    Rule 107 107 2 0 25 120 TIMEBASE_STD 0 "S";
    Rule 108 255 3 0 1 120 TIMEBASE_STD 0 "S";
    Rule 108 255 9 0 1 120 TIMEBASE_STD 6 "D" ].

Definition rules_AQ : list lc_timezone_rule :=
  [ Rule 71 71 9 0 25 120 TIMEBASE_STD 6 "D";
    Rule 72 72 1 0 22 120 TIMEBASE_STD 0 "S";
    Rule 89 91 9 0 25 120 TIMEBASE_STD 6 "D";
    Rule 90 92 2 0 1 120 TIMEBASE_STD 0 "S" ].

Definition rules_AS : list lc_timezone_rule :=
  [ Rule 71 85 9 0 25 120 TIMEBASE_STD 6 "D";
    Rule 72 72 1 7 27 120 TIMEBASE_STD 0 "S";
    Rule 73 85 2 0 1 120 TIMEBASE_STD 0 "S";
    Rule 86 90 2 0 15 120 TIMEBASE_STD 0 "S";
    Rule 86 86 9 7 19 120 TIMEBASE_STD 6 "D";
    Rule 87 107 9 0 25 120 TIMEBASE_STD 6 "D";
    Rule 91 91 2 7 3 120 TIMEBASE_STD 0 "S";
    Rule 92 92 2 7 22 120 TIMEBASE_STD 0 "S";
    Rule 93 93 2 7 7 120 TIMEBASE_STD 0 "S";
    Rule 94 94 2 7 20 120 TIMEBASE_STD 0 "S";
    Rule 95 105 2 0 25 120 TIMEBASE_STD 0 "S";
    Rule 106 106 3 7 2 120 TIMEBASE_STD 0 "S";
    Rule 107 107 2 0 25 120 TIMEBASE_STD 0 "S";
    Rule 108 255 3 0 1 120 TIMEBASE_STD 0 "S";
    Rule 108 255 9 0 1 120 TIMEBASE_STD 6 "D" ].

Definition rules_AT : list lc_timezone_rule :=
  [ Rule 67 67 9 0 1 120 TIMEBASE_STD 6 "D";
    Rule 68 68 2 0 25 120 TIMEBASE_STD 0 "S";
    Rule 68 85 9 0 25 120 TIMEBASE_STD 6 "D";
    Rule 69 71 2 0 8 120 TIMEBASE_STD 0 "S";
    Rule 72 72 1 0 22 120 TIMEBASE_STD 0 "S";
    Rule 73 81 2 0 1 120 TIMEBASE_STD 0 "S";
    Rule 82 83 2 0 25 120 TIMEBASE_STD 0 "S";
    Rule 84 86 2 0 1 120 TIMEBASE_STD 0 "S";
    Rule 86 86 9 0 15 120 TIMEBASE_STD 6 "D";
    Rule 87 90 2 0 15 120 TIMEBASE_STD 0 "S";
    Rule 87 87 9 0 22 120 TIMEBASE_STD 6 "D";
    Rule 88 90 9 0 25 120 TIMEBASE_STD 6 "D";
    Rule 91 105 2 0 25 120 TIMEBASE_STD 0 "S";
    Rule 91 99 9 0 1 120 TIMEBASE_STD 6 "D";
    Rule 100 100 7 0 25 120 TIMEBASE_STD 6 "D";
    Rule 101 255 9 0 1 120 TIMEBASE_STD 6 "D";
    Rule 106 106 3 0 1 120 TIMEBASE_STD 0 "S";
    Rule 107 107 2 0 25 120 TIMEBASE_STD 0 "S";
    Rule 108 255 3 0 1 120 TIMEBASE_STD 0 "S" ].

Definition rules_AV : list lc_timezone_rule :=
  [ Rule 71 85 9 0 25 120 TIMEBASE_STD 6 "D";
    Rule 72 72 1 0 22 120 TIMEBASE_STD 0 "S";
    Rule 73 85 2 0 1 120 TIMEBASE_STD 0 "S";
    Rule 86 90 2 0 15 120 TIMEBASE_STD 0 "S";
    Rule 86 87 9 0 15 120 TIMEBASE_STD 6 "D";
    Rule 88 99 9 0 25 120 TIMEBASE_STD 6 "D";
    Rule 91 94 2 0 1 120 TIMEBASE_STD 0 "S";
    Rule 95 105 2 0 25 120 TIMEBASE_STD 0 "S";
    Rule 100 100 7 0 25 120 TIMEBASE_STD 6 "D";
    Rule 101 107 9 0 25 120 TIMEBASE_STD 6 "D";
    Rule 106 106 3 0 1 120 TIMEBASE_STD 0 "S";
    Rule 107 107 2 0 25 120 TIMEBASE_STD 0 "S";
    Rule 108 255 3 0 1 120 TIMEBASE_STD 0 "S";
    Rule 108 255 9 0 1 120 TIMEBASE_STD 6 "D" ].

Definition rules_AW : list lc_timezone_rule :=
  [ Rule 74 74 9 0 25 120 TIMEBASE_STD 6 "D";
    Rule 75 75 2 0 1 120 TIMEBASE_STD 0 "S";
    Rule 83 83 9 0 25 120 TIMEBASE_STD 6 "D";
    Rule 84 84 2 0 1 120 TIMEBASE_STD 0 "S";
    Rule 91 91 10 7 17 120 TIMEBASE_STD 6 "D";
    Rule 92 92 2 0 1 120 TIMEBASE_STD 0 "S";
    Rule 106 106 11 7 3 120 TIMEBASE_STD 6 "D";
    Rule 107 109 2 0 25 120 TIMEBASE_STD 0 "S";
    Rule 107 108 9 0 25 120 TIMEBASE_STD 6 "D" ].

Definition rules_Albania : list lc_timezone_rule :=
  [ Rule 40 40 5 7 16 0 TIMEBASE_CUR 6 "S";
    Rule 42 42 10 7 2 180 TIMEBASE_CUR 0 "";
    Rule 43 43 2 7 29 120 TIMEBASE_CUR 6 "S";
    Rule 43 43 3 7 10 180 TIMEBASE_CUR 0 "";
    Rule 74 74 4 7 4 0 TIMEBASE_CUR 6 "S";
    Rule 74 74 9 7 2 0 TIMEBASE_CUR 0 "";
    Rule 75 75 4 7 1 0 TIMEBASE_CUR 6 "S";
    Rule 75 75 9 7 2 0 TIMEBASE_CUR 0 "";
    Rule 76 76 4 7 2 0 TIMEBASE_CUR 6 "S";
    Rule 76 76 9 7 3 0 TIMEBASE_CUR 0 "";
    Rule 77 77 4 7 8 0 TIMEBASE_CUR 6 "S";
    Rule 77 77 9 7 2 0 TIMEBASE_CUR 0 "";
    Rule 78 78 4 7 6 0 TIMEBASE_CUR 6 "S";
    Rule 78 78 9 7 1 0 TIMEBASE_CUR 0 "";
    Rule 79 79 4 7 5 0 TIMEBASE_CUR 6 "S";
    Rule 79 79 8 7 30 0 TIMEBASE_CUR 0 "";
    Rule 80 80 4 7 3 0 TIMEBASE_CUR 6 "S";
    Rule 80 80 9 7 4 0 TIMEBASE_CUR 0 "";
    Rule 81 81 3 7 26 0 TIMEBASE_CUR 6 "S";
    Rule 81 81 8 7 27 0 TIMEBASE_CUR 0 "";
    Rule 82 82 4 7 2 0 TIMEBASE_CUR 6 "S";
    Rule 82 82 9 7 3 0 TIMEBASE_CUR 0 "";
    Rule 83 83 3 7 18 0 TIMEBASE_CUR 6 "S";
    Rule 83 83 9 7 1 0 TIMEBASE_CUR 0 "";
    Rule 84 84 3 7 1 0 TIMEBASE_CUR 6 "S" ].

Definition rules_Algeria : list lc_timezone_rule :=
  [ Rule 16 16 5 7 14 1380 TIMEBASE_STD 6 "S";
    Rule 16 19 9 0 1 1380 TIMEBASE_STD 0 "";
    Rule 17 17 2 7 24 1380 TIMEBASE_STD 6 "S";
    Rule 18 18 2 7 9 1380 TIMEBASE_STD 6 "S";
    Rule 19 19 2 7 1 1380 TIMEBASE_STD 6 "S";
    Rule 20 20 1 7 14 1380 TIMEBASE_STD 6 "S";
    Rule 20 20 9 7 23 1380 TIMEBASE_STD 0 "";
    Rule 21 21 2 7 14 1380 TIMEBASE_STD 6 "S";
    Rule 21 21 5 7 21 1380 TIMEBASE_STD 0 "";
    Rule 39 39 8 7 11 1380 TIMEBASE_STD 6 "S";
    Rule 39 39 10 7 19 60 TIMEBASE_CUR 0 "";
    Rule 44 45 3 1 1 120 TIMEBASE_CUR 6 "S";
    Rule 44 44 9 7 8 120 TIMEBASE_CUR 0 "";
    Rule 45 45 8 7 16 60 TIMEBASE_CUR 0 "";
    Rule 71 71 3 7 25 1380 TIMEBASE_STD 6 "S";
    Rule 71 71 8 7 26 1380 TIMEBASE_STD 0 "";
    Rule 77 77 4 7 6 0 TIMEBASE_CUR 6 "S";
    Rule 77 77 9 7 21 0 TIMEBASE_CUR 0 "";
    Rule 78 78 2 7 24 60 TIMEBASE_CUR 6 "S";
    Rule 78 78 8 7 22 180 TIMEBASE_CUR 0 "";
    Rule 80 80 3 7 25 0 TIMEBASE_CUR 6 "S";
    Rule 80 80 9 7 31 120 TIMEBASE_CUR 0 "" ].

Definition rules_Arg : list lc_timezone_rule :=
  [ Rule 30 30 11 7 1 0 TIMEBASE_CUR 6 "S";
    Rule 31 31 3 7 1 0 TIMEBASE_CUR 0 "";
    Rule 31 31 9 7 15 0 TIMEBASE_CUR 6 "S";
    Rule 32 40 2 7 1 0 TIMEBASE_CUR 0 "";
    Rule 32 39 10 7 1 0 TIMEBASE_CUR 6 "S";
    Rule 40 40 6 7 1 0 TIMEBASE_CUR 6 "S";
    Rule 41 41 5 7 15 0 TIMEBASE_CUR 0 "";
    Rule 41 41 9 7 15 0 TIMEBASE_CUR 6 "S";
    Rule 43 43 7 7 1 0 TIMEBASE_CUR 0 "";
    Rule 43 43 9 7 15 0 TIMEBASE_CUR 6 "S";
    Rule 46 46 2 7 1 0 TIMEBASE_CUR 0 "";
    Rule 46 46 9 7 1 0 TIMEBASE_CUR 6 "S";
    Rule 63 63 9 7 1 0 TIMEBASE_CUR 0 "";
    Rule 63 63 11 7 15 0 TIMEBASE_CUR 6 "S";
    Rule 64 66 2 7 1 0 TIMEBASE_CUR 0 "";
    Rule 64 66 9 7 15 0 TIMEBASE_CUR 6 "S";
    Rule 67 67 3 7 2 0 TIMEBASE_CUR 0 "";
    Rule 67 68 9 0 1 0 TIMEBASE_CUR 6 "S";
    Rule 68 69 3 0 1 0 TIMEBASE_CUR 0 "";
    Rule 74 74 0 7 23 0 TIMEBASE_CUR 6 "S";
    Rule 74 74 4 7 1 0 TIMEBASE_CUR 0 "";
    Rule 88 88 11 7 1 0 TIMEBASE_CUR 6 "S";
    Rule 89 93 2 0 1 0 TIMEBASE_CUR 0 "";
    Rule 89 92 9 0 15 0 TIMEBASE_CUR 6 "S";
    Rule 99 99 9 0 1 0 TIMEBASE_CUR 6 "S";
    Rule 100 100 2 7 3 0 TIMEBASE_CUR 0 "";
    Rule 107 107 11 7 30 0 TIMEBASE_CUR 6 "S";
    Rule 108 109 2 0 15 0 TIMEBASE_CUR 0 "";
    Rule 108 108 9 0 15 0 TIMEBASE_CUR 6 "S" ].

Definition rules_Aus : list lc_timezone_rule :=
  [ Rule 17 17 0 7 1 1 TIMEBASE_CUR 6 "D";
    Rule 17 17 2 7 25 120 TIMEBASE_CUR 0 "S";
    Rule 42 42 0 7 1 120 TIMEBASE_CUR 6 "D";
    Rule 42 42 2 7 29 120 TIMEBASE_CUR 0 "S";
    Rule 42 42 8 7 27 120 TIMEBASE_CUR 6 "D";
    Rule 43 44 2 0 25 120 TIMEBASE_CUR 0 "S";
    Rule 43 43 9 7 3 120 TIMEBASE_CUR 6 "D" ].

Definition rules_Austria : list lc_timezone_rule :=
  [ Rule 20 20 3 7 5 120 TIMEBASE_STD 6 "S";
    Rule 20 20 8 7 13 120 TIMEBASE_STD 0 "";
    Rule 46 46 3 7 14 120 TIMEBASE_STD 6 "S";
    Rule 46 48 9 0 1 120 TIMEBASE_STD 0 "";
    Rule 47 47 3 7 6 120 TIMEBASE_STD 6 "S";
    Rule 48 48 3 7 18 120 TIMEBASE_STD 6 "S";
    Rule 80 80 3 7 6 0 TIMEBASE_CUR 6 "S";
    Rule 80 80 8 7 28 0 TIMEBASE_CUR 0 "" ].

Definition rules_Azer : list lc_timezone_rule :=
  [ Rule 97 115 2 0 25 240 TIMEBASE_CUR 6 "S";
    Rule 97 115 9 0 25 300 TIMEBASE_CUR 0 "" ].

Definition rules_Bahamas : list lc_timezone_rule :=
  [ Rule 64 75 3 0 24 120 TIMEBASE_CUR 6 "D";
    Rule 64 75 9 0 25 120 TIMEBASE_CUR 0 "S" ].

Definition rules_Barb : list lc_timezone_rule :=
  [ Rule 77 77 5 7 12 120 TIMEBASE_CUR 6 "D";
    Rule 77 78 9 0 1 120 TIMEBASE_CUR 0 "S";
    Rule 78 80 3 0 15 120 TIMEBASE_CUR 6 "D";
    Rule 79 79 8 7 30 120 TIMEBASE_CUR 0 "S";
    Rule 80 80 8 7 25 120 TIMEBASE_CUR 0 "S" ].

Definition rules_Belgium : list lc_timezone_rule :=
  [ Rule 18 18 2 7 9 0 TIMEBASE_STD 6 "S";
    Rule 18 19 9 6 1 1380 TIMEBASE_STD 0 "";
    Rule 19 19 2 7 1 1380 TIMEBASE_STD 6 "S";
    Rule 20 20 1 7 14 1380 TIMEBASE_STD 6 "S";
    Rule 20 20 9 7 23 1380 TIMEBASE_STD 0 "";
    Rule 21 21 2 7 14 1380 TIMEBASE_STD 6 "S";
    Rule 21 21 9 7 25 1380 TIMEBASE_STD 0 "";
    Rule 22 22 2 7 25 1380 TIMEBASE_STD 6 "S";
    Rule 22 27 9 6 1 1380 TIMEBASE_STD 0 "";
    Rule 23 23 3 7 21 1380 TIMEBASE_STD 6 "S";
    Rule 24 24 2 7 29 1380 TIMEBASE_STD 6 "S";
    Rule 25 25 3 7 4 1380 TIMEBASE_STD 6 "S";
    Rule 26 26 3 7 17 1380 TIMEBASE_STD 6 "S";
    Rule 27 27 3 7 9 1380 TIMEBASE_STD 6 "S";
    Rule 28 28 3 7 14 1380 TIMEBASE_STD 6 "S";
    Rule 28 38 9 0 2 120 TIMEBASE_STD 0 "";
    Rule 29 29 3 7 21 120 TIMEBASE_STD 6 "S";
    Rule 30 30 3 7 13 120 TIMEBASE_STD 6 "S";
    Rule 31 31 3 7 19 120 TIMEBASE_STD 6 "S";
    Rule 32 32 3 7 3 120 TIMEBASE_STD 6 "S";
    Rule 33 33 2 7 26 120 TIMEBASE_STD 6 "S";
    Rule 34 34 3 7 8 120 TIMEBASE_STD 6 "S";
    Rule 35 35 2 7 31 120 TIMEBASE_STD 6 "S";
    Rule 36 36 3 7 19 120 TIMEBASE_STD 6 "S";
    Rule 37 37 3 7 4 120 TIMEBASE_STD 6 "S";
    Rule 38 38 2 7 27 120 TIMEBASE_STD 6 "S";
    Rule 39 39 3 7 16 120 TIMEBASE_STD 6 "S";
    Rule 39 39 10 7 19 120 TIMEBASE_STD 0 "";
    Rule 40 40 1 7 25 120 TIMEBASE_STD 6 "S";
    Rule 44 44 8 7 17 120 TIMEBASE_STD 0 "";
    Rule 45 45 3 7 2 120 TIMEBASE_STD 6 "S";
    Rule 45 45 8 7 16 120 TIMEBASE_STD 0 "";
    Rule 46 46 4 7 19 120 TIMEBASE_STD 6 "S";
    Rule 46 46 9 7 7 120 TIMEBASE_STD 0 "" ].

Definition rules_Belize : list lc_timezone_rule :=
  [ Rule 18 42 9 0 2 0 TIMEBASE_CUR 3 "-0530";
    Rule 19 43 1 0 9 0 TIMEBASE_CUR 0 "CST";
    Rule 73 73 11 7 5 0 TIMEBASE_CUR 6 "CDT";
    Rule 74 74 1 7 9 0 TIMEBASE_CUR 0 "CST";
    Rule 82 82 11 7 18 0 TIMEBASE_CUR 6 "CDT";
    Rule 83 83 1 7 12 0 TIMEBASE_CUR 0 "CST" ].

Definition rules_Brazil : list lc_timezone_rule :=
  [ Rule 31 31 9 7 3 660 TIMEBASE_CUR 6 "S";
    Rule 32 33 3 7 1 0 TIMEBASE_CUR 0 "";
    Rule 32 32 9 7 3 0 TIMEBASE_CUR 6 "S";
    Rule 49 52 11 7 1 0 TIMEBASE_CUR 6 "S";
    Rule 50 50 3 7 16 60 TIMEBASE_CUR 0 "";
    Rule 51 52 3 7 1 0 TIMEBASE_CUR 0 "";
    Rule 53 53 2 7 1 0 TIMEBASE_CUR 0 "";
    Rule 63 63 11 7 9 0 TIMEBASE_CUR 6 "S";
    Rule 64 64 2 7 1 0 TIMEBASE_CUR 0 "";
    Rule 65 65 0 7 31 0 TIMEBASE_CUR 6 "S";
    Rule 65 65 2 7 31 0 TIMEBASE_CUR 0 "";
    Rule 65 65 11 7 1 0 TIMEBASE_CUR 6 "S";
    Rule 66 68 2 7 1 0 TIMEBASE_CUR 0 "";
    Rule 66 67 10 7 1 0 TIMEBASE_CUR 6 "S";
    Rule 85 85 10 7 2 0 TIMEBASE_CUR 6 "S";
    Rule 86 86 2 7 15 0 TIMEBASE_CUR 0 "";
    Rule 86 86 9 7 25 0 TIMEBASE_CUR 6 "S";
    Rule 87 87 1 7 14 0 TIMEBASE_CUR 0 "";
    Rule 87 87 9 7 25 0 TIMEBASE_CUR 6 "S";
    Rule 88 88 1 7 7 0 TIMEBASE_CUR 0 "";
    Rule 88 88 9 7 16 0 TIMEBASE_CUR 6 "S";
    Rule 89 89 0 7 29 0 TIMEBASE_CUR 0 "";
    Rule 89 89 9 7 15 0 TIMEBASE_CUR 6 "S";
    Rule 90 90 1 7 11 0 TIMEBASE_CUR 0 "";
    Rule 90 90 9 7 21 0 TIMEBASE_CUR 6 "S";
    Rule 91 91 1 7 17 0 TIMEBASE_CUR 0 "";
    Rule 91 91 9 7 20 0 TIMEBASE_CUR 6 "S";
    Rule 92 92 1 7 9 0 TIMEBASE_CUR 0 "";
    Rule 92 92 9 7 25 0 TIMEBASE_CUR 6 "S";
    Rule 93 93 0 7 31 0 TIMEBASE_CUR 0 "";
    Rule 93 95 9 0 11 0 TIMEBASE_CUR 6 "S";
    Rule 94 95 1 0 15 0 TIMEBASE_CUR 0 "";
    Rule 96 96 1 7 11 0 TIMEBASE_CUR 0 "";
    Rule 96 96 9 7 6 0 TIMEBASE_CUR 6 "S";
    Rule 97 97 1 7 16 0 TIMEBASE_CUR 0 "";
    Rule 97 97 9 7 6 0 TIMEBASE_CUR 6 "S";
    Rule 98 98 2 7 1 0 TIMEBASE_CUR 0 "";
    Rule 98 98 9 7 11 0 TIMEBASE_CUR 6 "S";
    Rule 99 99 1 7 21 0 TIMEBASE_CUR 0 "";
    Rule 99 99 9 7 3 0 TIMEBASE_CUR 6 "S";
    Rule 100 100 1 7 27 0 TIMEBASE_CUR 0 "";
    Rule 100 101 9 0 8 0 TIMEBASE_CUR 6 "S";
    Rule 101 106 1 0 15 0 TIMEBASE_CUR 0 "";
    Rule 102 102 10 7 3 0 TIMEBASE_CUR 6 "S";
    Rule 103 103 9 7 19 0 TIMEBASE_CUR 6 "S";
    Rule 104 104 10 7 2 0 TIMEBASE_CUR 6 "S";
    Rule 105 105 9 7 16 0 TIMEBASE_CUR 6 "S";
    Rule 106 106 10 7 5 0 TIMEBASE_CUR 6 "S";
    Rule 107 107 1 7 25 0 TIMEBASE_CUR 0 "";
    Rule 107 107 9 0 8 0 TIMEBASE_CUR 6 "S";
    Rule 108 111 1 0 15 0 TIMEBASE_CUR 0 "";
    Rule 108 255 9 0 15 0 TIMEBASE_CUR 6 "S";
    Rule 112 112 1 0 22 0 TIMEBASE_CUR 0 "";
    Rule 113 114 1 0 15 0 TIMEBASE_CUR 0 "";
    Rule 115 115 1 0 22 0 TIMEBASE_CUR 0 "";
    Rule 116 122 1 0 15 0 TIMEBASE_CUR 0 "";
    Rule 123 123 1 0 22 0 TIMEBASE_CUR 0 "";
    Rule 124 125 1 0 15 0 TIMEBASE_CUR 0 "";
    Rule 126 126 1 0 22 0 TIMEBASE_CUR 0 "";
    Rule 127 133 1 0 15 0 TIMEBASE_CUR 0 "";
    Rule 134 134 1 0 22 0 TIMEBASE_CUR 0 "";
    Rule 135 136 1 0 15 0 TIMEBASE_CUR 0 "";
    Rule 137 137 1 0 22 0 TIMEBASE_CUR 0 "";
    Rule 138 255 1 0 15 0 TIMEBASE_CUR 0 "" ].

Definition rules_Bulg : list lc_timezone_rule :=
  [ Rule 79 79 2 7 31 1380 TIMEBASE_CUR 6 "S";
    Rule 79 79 9 7 1 60 TIMEBASE_CUR 0 "";
    Rule 80 82 3 6 1 1380 TIMEBASE_CUR 6 "S";
    Rule 80 80 8 7 29 60 TIMEBASE_CUR 0 "";
    Rule 81 81 8 7 27 120 TIMEBASE_CUR 0 "" ].

Definition rules_CA : list lc_timezone_rule :=
  [ Rule 48 48 2 7 14 121 TIMEBASE_CUR 6 "D";
    Rule 49 49 0 7 1 120 TIMEBASE_CUR 0 "S";
    Rule 50 66 3 0 24 60 TIMEBASE_CUR 6 "D";
    Rule 50 61 8 0 24 120 TIMEBASE_CUR 0 "S";
    Rule 62 66 9 0 25 120 TIMEBASE_CUR 0 "S" ].

Definition rules_CO : list lc_timezone_rule :=
  [ Rule 92 92 4 7 3 0 TIMEBASE_CUR 6 "S";
    Rule 93 93 3 7 4 0 TIMEBASE_CUR 0 "" ].

Definition rules_CR : list lc_timezone_rule :=
  [ Rule 79 80 1 0 22 0 TIMEBASE_CUR 6 "D";
    Rule 79 80 5 0 1 0 TIMEBASE_CUR 0 "S";
    Rule 91 92 0 6 15 0 TIMEBASE_CUR 6 "D";
    Rule 91 91 6 7 1 0 TIMEBASE_CUR 0 "S";
    Rule 92 92 2 7 15 0 TIMEBASE_CUR 0 "S" ].

Definition rules_C_Eur : list lc_timezone_rule :=
  [ Rule 16 16 3 7 30 1380 TIMEBASE_CUR 6 "S";
    Rule 16 16 9 7 1 60 TIMEBASE_CUR 0 "";
    Rule 17 18 3 1 15 120 TIMEBASE_STD 6 "S";
    Rule 17 18 8 1 15 120 TIMEBASE_STD 0 "";
    Rule 40 40 3 7 1 120 TIMEBASE_STD 6 "S";
    Rule 42 42 10 7 2 120 TIMEBASE_STD 0 "";
    Rule 43 43 2 7 29 120 TIMEBASE_STD 6 "S";
    Rule 43 43 9 7 4 120 TIMEBASE_STD 0 "";
    Rule 44 45 3 1 1 120 TIMEBASE_STD 6 "S";
    Rule 44 44 9 7 2 120 TIMEBASE_STD 0 "";
    Rule 45 45 8 7 16 120 TIMEBASE_STD 0 "";
    Rule 77 80 3 0 1 120 TIMEBASE_STD 6 "S";
    Rule 77 77 8 0 24 120 TIMEBASE_STD 0 "";
    Rule 78 78 9 7 1 120 TIMEBASE_STD 0 "";
    Rule 79 95 8 0 24 120 TIMEBASE_STD 0 "";
    Rule 81 255 2 0 25 120 TIMEBASE_STD 6 "S";
    Rule 96 255 9 0 25 120 TIMEBASE_STD 0 "" ].

Definition rules_Canada : list lc_timezone_rule :=
  [ Rule 18 18 3 7 14 120 TIMEBASE_CUR 6 "D";
    Rule 18 18 9 7 27 120 TIMEBASE_CUR 0 "S";
    Rule 42 42 1 7 9 120 TIMEBASE_CUR 6 "W";
    Rule 45 45 7 7 14 1380 TIMEBASE_UTC 6 "P";
    Rule 45 45 8 7 30 120 TIMEBASE_CUR 0 "S";
    Rule 74 86 3 0 24 120 TIMEBASE_CUR 6 "D";
    Rule 74 106 9 0 25 120 TIMEBASE_CUR 0 "S";
    Rule 87 106 3 0 1 120 TIMEBASE_CUR 6 "D";
    Rule 107 255 2 0 8 120 TIMEBASE_CUR 6 "D";
    Rule 107 255 10 0 1 120 TIMEBASE_CUR 0 "S" ].

Definition rules_Chatham : list lc_timezone_rule :=
  [ Rule 74 74 10 0 1 165 TIMEBASE_STD 6 "D";
    Rule 75 75 1 0 22 165 TIMEBASE_STD 0 "S";
    Rule 75 88 9 0 25 165 TIMEBASE_STD 6 "D";
    Rule 76 89 2 0 1 165 TIMEBASE_STD 0 "S";
    Rule 89 89 9 0 8 165 TIMEBASE_STD 6 "D";
    Rule 90 107 2 0 15 165 TIMEBASE_STD 0 "S";
    Rule 90 106 9 0 1 165 TIMEBASE_STD 6 "D";
    Rule 107 255 8 0 24 165 TIMEBASE_STD 6 "D";
    Rule 108 255 3 0 1 165 TIMEBASE_STD 0 "S" ].

Definition rules_Chicago : list lc_timezone_rule :=
  [ Rule 20 20 5 7 13 120 TIMEBASE_CUR 6 "D";
    Rule 20 21 9 0 25 120 TIMEBASE_CUR 0 "S";
    Rule 21 21 2 0 25 120 TIMEBASE_CUR 6 "D";
    Rule 22 66 3 0 24 120 TIMEBASE_CUR 6 "D";
    Rule 22 54 8 0 24 120 TIMEBASE_CUR 0 "S";
    Rule 55 66 9 0 25 120 TIMEBASE_CUR 0 "S" ].

Definition rules_Chile : list lc_timezone_rule :=
  [ Rule 27 31 8 7 1 0 TIMEBASE_CUR 6 "S";
    Rule 28 32 3 7 1 0 TIMEBASE_CUR 0 "";
    Rule 68 68 10 7 3 240 TIMEBASE_UTC 6 "S";
    Rule 69 69 2 7 30 180 TIMEBASE_UTC 0 "";
    Rule 69 69 10 7 23 240 TIMEBASE_UTC 6 "S";
    Rule 70 70 2 7 29 180 TIMEBASE_UTC 0 "";
    Rule 70 72 9 0 9 240 TIMEBASE_UTC 6 "S";
    Rule 71 71 2 7 14 180 TIMEBASE_UTC 0 "";
    Rule 72 86 2 0 9 180 TIMEBASE_UTC 0 "";
    Rule 73 73 8 7 30 240 TIMEBASE_UTC 6 "S";
    Rule 74 87 9 0 9 240 TIMEBASE_UTC 6 "S";
    Rule 87 87 3 7 12 180 TIMEBASE_UTC 0 "";
    Rule 88 90 2 0 9 180 TIMEBASE_UTC 0 "";
    Rule 88 89 9 0 9 240 TIMEBASE_UTC 6 "S";
    Rule 90 90 8 7 16 240 TIMEBASE_UTC 6 "S";
    Rule 91 96 2 0 9 180 TIMEBASE_UTC 0 "";
    Rule 91 97 9 0 9 240 TIMEBASE_UTC 6 "S";
    Rule 97 97 2 7 30 180 TIMEBASE_UTC 0 "";
    Rule 98 98 2 0 9 180 TIMEBASE_UTC 0 "";
    Rule 98 98 8 7 27 240 TIMEBASE_UTC 6 "S";
    Rule 99 99 3 7 4 180 TIMEBASE_UTC 0 "";
    Rule 99 110 9 0 9 240 TIMEBASE_UTC 6 "S";
    Rule 100 107 2 0 9 180 TIMEBASE_UTC 0 "";
    Rule 108 108 2 7 30 180 TIMEBASE_UTC 0 "";
    Rule 109 109 2 0 9 180 TIMEBASE_UTC 0 "";
    Rule 110 110 3 0 1 180 TIMEBASE_UTC 0 "";
    Rule 111 111 4 0 2 180 TIMEBASE_UTC 0 "";
    Rule 111 111 7 0 16 240 TIMEBASE_UTC 6 "S";
    Rule 112 114 3 0 23 180 TIMEBASE_UTC 0 "";
    Rule 112 114 8 0 2 240 TIMEBASE_UTC 6 "S";
    Rule 116 255 4 0 9 180 TIMEBASE_UTC 0 "";
    Rule 116 255 7 0 9 240 TIMEBASE_UTC 6 "S" ].

Definition rules_Cook : list lc_timezone_rule :=
  [ Rule 78 78 10 7 12 0 TIMEBASE_CUR 3 "HS";
    Rule 79 91 2 0 1 0 TIMEBASE_CUR 0 "";
    Rule 79 90 9 0 25 0 TIMEBASE_CUR 3 "HS" ].

Definition rules_Cuba : list lc_timezone_rule :=
  [ Rule 28 28 5 7 10 0 TIMEBASE_CUR 6 "D";
    Rule 28 28 9 7 10 0 TIMEBASE_CUR 0 "S";
    Rule 40 42 5 0 1 0 TIMEBASE_CUR 6 "D";
    Rule 40 42 8 0 1 0 TIMEBASE_CUR 0 "S";
    Rule 45 46 5 0 1 0 TIMEBASE_CUR 6 "D";
    Rule 45 46 8 0 1 0 TIMEBASE_CUR 0 "S";
    Rule 65 65 5 7 1 0 TIMEBASE_CUR 6 "D";
    Rule 65 65 8 7 30 0 TIMEBASE_CUR 0 "S";
    Rule 66 66 4 7 29 0 TIMEBASE_CUR 6 "D";
    Rule 66 66 9 7 2 0 TIMEBASE_CUR 0 "S";
    Rule 67 67 3 7 8 0 TIMEBASE_CUR 6 "D";
    Rule 67 68 8 0 8 0 TIMEBASE_CUR 0 "S";
    Rule 68 68 3 7 14 0 TIMEBASE_CUR 6 "D";
    Rule 69 77 3 0 24 0 TIMEBASE_CUR 6 "D";
    Rule 69 71 9 0 25 0 TIMEBASE_CUR 0 "S";
    Rule 72 74 9 7 8 0 TIMEBASE_CUR 0 "S";
    Rule 75 77 9 0 25 0 TIMEBASE_CUR 0 "S";
    Rule 78 78 4 7 7 0 TIMEBASE_CUR 6 "D";
    Rule 78 90 9 0 8 0 TIMEBASE_CUR 0 "S";
    Rule 79 80 2 0 15 0 TIMEBASE_CUR 6 "D";
    Rule 81 85 4 0 5 0 TIMEBASE_CUR 6 "D";
    Rule 86 89 2 0 14 0 TIMEBASE_CUR 6 "D";
    Rule 90 97 3 0 1 0 TIMEBASE_CUR 6 "D";
    Rule 91 95 9 0 8 0 TIMEBASE_STD 0 "S";
    Rule 96 96 9 7 6 0 TIMEBASE_STD 0 "S";
    Rule 97 97 9 7 12 0 TIMEBASE_STD 0 "S";
    Rule 98 99 2 0 25 0 TIMEBASE_STD 6 "D";
    Rule 98 103 9 0 25 0 TIMEBASE_STD 0 "S";
    Rule 100 103 3 0 1 0 TIMEBASE_STD 6 "D";
    Rule 104 104 2 0 25 0 TIMEBASE_STD 6 "D";
    Rule 106 110 9 0 25 0 TIMEBASE_STD 0 "S";
    Rule 107 107 2 0 8 0 TIMEBASE_STD 6 "D";
    Rule 108 108 2 0 15 0 TIMEBASE_STD 6 "D";
    Rule 109 110 2 0 8 0 TIMEBASE_STD 6 "D";
    Rule 111 111 2 0 15 0 TIMEBASE_STD 6 "D";
    Rule 111 111 10 7 13 0 TIMEBASE_STD 0 "S";
    Rule 112 112 3 7 1 0 TIMEBASE_STD 6 "D";
    Rule 112 255 10 0 1 0 TIMEBASE_STD 0 "S";
    Rule 113 255 2 0 8 0 TIMEBASE_STD 6 "D" ].

Definition rules_Cyprus : list lc_timezone_rule :=
  [ Rule 75 75 3 7 13 0 TIMEBASE_CUR 6 "S";
    Rule 75 75 9 7 12 0 TIMEBASE_CUR 0 "";
    Rule 76 76 4 7 15 0 TIMEBASE_CUR 6 "S";
    Rule 76 76 9 7 11 0 TIMEBASE_CUR 0 "";
    Rule 77 80 3 0 1 0 TIMEBASE_CUR 6 "S";
    Rule 77 77 8 7 25 0 TIMEBASE_CUR 0 "";
    Rule 78 78 9 7 2 0 TIMEBASE_CUR 0 "";
    Rule 79 97 8 0 24 0 TIMEBASE_CUR 0 "";
    Rule 81 98 2 0 25 0 TIMEBASE_CUR 6 "S" ].

Definition rules_Czech : list lc_timezone_rule :=
  [ Rule 45 45 3 7 8 120 TIMEBASE_STD 6 "S";
    Rule 45 45 10 7 18 120 TIMEBASE_STD 0 "";
    Rule 46 46 4 7 6 120 TIMEBASE_STD 6 "S";
    Rule 46 49 9 0 1 120 TIMEBASE_STD 0 "";
    Rule 47 47 3 7 20 120 TIMEBASE_STD 6 "S";
    Rule 48 48 3 7 18 120 TIMEBASE_STD 6 "S";
    Rule 49 49 3 7 9 120 TIMEBASE_STD 6 "S" ].

Definition rules_DR : list lc_timezone_rule :=
  [ Rule 66 66 9 7 30 0 TIMEBASE_CUR 6 "EDT";
    Rule 67 67 1 7 28 0 TIMEBASE_CUR 0 "EST";
    Rule 69 73 9 0 25 0 TIMEBASE_CUR 3 "-0430";
    Rule 70 70 1 7 21 0 TIMEBASE_CUR 0 "EST";
    Rule 71 71 0 7 20 0 TIMEBASE_CUR 0 "EST";
    Rule 72 74 0 7 21 0 TIMEBASE_CUR 0 "EST" ].

Definition rules_Denmark : list lc_timezone_rule :=
  [ Rule 16 16 4 7 14 1380 TIMEBASE_CUR 6 "S";
    Rule 16 16 8 7 30 1380 TIMEBASE_CUR 0 "";
    Rule 40 40 4 7 15 0 TIMEBASE_CUR 6 "S";
    Rule 45 45 3 7 2 120 TIMEBASE_STD 6 "S";
    Rule 45 45 7 7 15 120 TIMEBASE_STD 0 "";
    Rule 46 46 4 7 1 120 TIMEBASE_STD 6 "S";
    Rule 46 46 8 7 1 120 TIMEBASE_STD 0 "";
    Rule 47 47 4 7 4 120 TIMEBASE_STD 6 "S";
    Rule 47 47 7 7 10 120 TIMEBASE_STD 0 "";
    Rule 48 48 4 7 9 120 TIMEBASE_STD 6 "S";
    Rule 48 48 7 7 8 120 TIMEBASE_STD 0 "" ].

Definition rules_Denver : list lc_timezone_rule :=
  [ Rule 20 21 2 0 25 120 TIMEBASE_CUR 6 "D";
    Rule 20 20 9 0 25 120 TIMEBASE_CUR 0 "S";
    Rule 21 21 4 7 22 120 TIMEBASE_CUR 0 "S";
    Rule 65 66 3 0 24 120 TIMEBASE_CUR 6 "D";
    Rule 65 66 9 0 25 120 TIMEBASE_CUR 0 "S" ].

Definition rules_Detroit : list lc_timezone_rule :=
  [ Rule 48 48 3 0 24 120 TIMEBASE_CUR 6 "D";
    Rule 48 48 8 0 24 120 TIMEBASE_CUR 0 "S";
    Rule 67 67 5 7 14 120 TIMEBASE_CUR 6 "D";
    Rule 67 67 9 0 25 120 TIMEBASE_CUR 0 "S" ].

Definition rules_Dhaka : list lc_timezone_rule :=
  [ Rule 109 109 5 7 19 1380 TIMEBASE_CUR 6 "S";
    Rule 109 109 11 7 31 1440 TIMEBASE_CUR 0 "" ].

Definition rules_EU : list lc_timezone_rule :=
  [ Rule 77 80 3 0 1 60 TIMEBASE_UTC 6 "S";
    Rule 77 77 8 0 24 60 TIMEBASE_UTC 0 "";
    Rule 78 78 9 7 1 60 TIMEBASE_UTC 0 "";
    Rule 79 95 8 0 24 60 TIMEBASE_UTC 0 "";
    Rule 81 255 2 0 25 60 TIMEBASE_UTC 6 "S";
    Rule 96 255 9 0 25 60 TIMEBASE_UTC 0 "" ].

Definition rules_EUAsia : list lc_timezone_rule :=
  [ Rule 79 95 8 0 24 60 TIMEBASE_UTC 0 "";
    Rule 81 255 2 0 25 60 TIMEBASE_UTC 6 "S";
    Rule 96 255 9 0 25 60 TIMEBASE_UTC 0 "" ].

Definition rules_E_Eur : list lc_timezone_rule :=
  [ Rule 77 80 3 0 1 0 TIMEBASE_CUR 6 "S";
    Rule 77 77 8 0 24 0 TIMEBASE_CUR 0 "";
    Rule 78 78 9 7 1 0 TIMEBASE_CUR 0 "";
    Rule 79 95 8 0 24 0 TIMEBASE_CUR 0 "";
    Rule 81 255 2 0 25 0 TIMEBASE_CUR 6 "S";
    Rule 96 255 9 0 25 0 TIMEBASE_CUR 0 "" ].

Definition rules_E_EurAsia : list lc_timezone_rule :=
  [ Rule 79 95 8 0 24 0 TIMEBASE_CUR 0 "";
    Rule 81 255 2 0 25 0 TIMEBASE_CUR 6 "S";
    Rule 96 255 9 0 25 0 TIMEBASE_CUR 0 "" ].

Definition rules_Ecuador : list lc_timezone_rule :=
  [ Rule 92 92 10 7 28 0 TIMEBASE_CUR 6 "S";
    Rule 93 93 1 7 5 0 TIMEBASE_CUR 0 "" ].

Definition rules_Edm : list lc_timezone_rule :=
  [ Rule 18 19 3 0 8 120 TIMEBASE_CUR 6 "D";
    Rule 18 18 9 7 27 120 TIMEBASE_CUR 0 "S";
    Rule 19 19 4 7 27 120 TIMEBASE_CUR 0 "S";
    Rule 20 23 3 0 24 120 TIMEBASE_CUR 6 "D";
    Rule 20 20 9 0 25 120 TIMEBASE_CUR 0 "S";
    Rule 21 23 8 0 24 120 TIMEBASE_CUR 0 "S";
    Rule 42 42 1 7 9 120 TIMEBASE_CUR 6 "W";
    Rule 45 45 7 7 14 1380 TIMEBASE_UTC 6 "P";
    Rule 45 45 8 0 24 120 TIMEBASE_CUR 0 "S";
    Rule 47 47 3 0 24 120 TIMEBASE_CUR 6 "D";
    Rule 47 47 8 0 24 120 TIMEBASE_CUR 0 "S";
    Rule 67 67 3 0 24 120 TIMEBASE_CUR 6 "D";
    Rule 67 67 9 0 25 120 TIMEBASE_CUR 0 "S";
    Rule 69 69 3 0 24 120 TIMEBASE_CUR 6 "D";
    Rule 69 69 9 0 25 120 TIMEBASE_CUR 0 "S";
    Rule 72 86 3 0 24 120 TIMEBASE_CUR 6 "D";
    Rule 72 106 9 0 25 120 TIMEBASE_CUR 0 "S" ].

Definition rules_Egypt : list lc_timezone_rule :=
  [ Rule 40 40 6 7 15 0 TIMEBASE_CUR 6 "S";
    Rule 40 40 9 7 1 0 TIMEBASE_CUR 0 "";
    Rule 41 41 3 7 15 0 TIMEBASE_CUR 6 "S";
    Rule 41 41 8 7 16 0 TIMEBASE_CUR 0 "";
    Rule 42 44 3 7 1 0 TIMEBASE_CUR 6 "S";
    Rule 42 42 9 7 27 0 TIMEBASE_CUR 0 "";
    Rule 43 45 10 7 1 0 TIMEBASE_CUR 0 "";
    Rule 45 45 3 7 16 0 TIMEBASE_CUR 6 "S";
    Rule 57 57 4 7 10 0 TIMEBASE_CUR 6 "S";
    Rule 57 58 9 7 1 0 TIMEBASE_CUR 0 "";
    Rule 58 58 4 7 1 0 TIMEBASE_CUR 6 "S";
    Rule 59 81 4 7 1 60 TIMEBASE_CUR 6 "S";
    Rule 59 65 8 7 30 180 TIMEBASE_CUR 0 "";
    Rule 66 94 9 7 1 180 TIMEBASE_CUR 0 "";
    Rule 82 82 6 7 25 60 TIMEBASE_CUR 6 "S";
    Rule 83 83 6 7 12 60 TIMEBASE_CUR 6 "S";
    Rule 84 88 4 7 1 60 TIMEBASE_CUR 6 "S";
    Rule 89 89 4 7 6 60 TIMEBASE_CUR 6 "S";
    Rule 90 94 4 7 1 60 TIMEBASE_CUR 6 "S";
    Rule 95 110 3 5 24 0 TIMEBASE_STD 6 "S";
    Rule 95 105 8 4 24 1440 TIMEBASE_CUR 0 "";
    Rule 106 106 8 7 21 1440 TIMEBASE_CUR 0 "";
    Rule 107 107 8 4 1 1440 TIMEBASE_CUR 0 "";
    Rule 108 108 7 4 25 1440 TIMEBASE_CUR 0 "";
    Rule 109 109 7 7 20 1440 TIMEBASE_CUR 0 "";
    Rule 110 110 7 7 10 1440 TIMEBASE_CUR 0 "";
    Rule 110 110 8 7 9 1440 TIMEBASE_CUR 6 "S";
    Rule 110 110 8 4 24 1440 TIMEBASE_CUR 0 "";
    Rule 114 114 4 7 15 1440 TIMEBASE_CUR 6 "S";
    Rule 114 114 5 7 26 1440 TIMEBASE_CUR 0 "";
    Rule 114 114 6 7 31 1440 TIMEBASE_CUR 6 "S";
    Rule 114 114 8 4 24 1440 TIMEBASE_CUR 0 "" ].

Definition rules_EgyptAsia : list lc_timezone_rule :=
  [ Rule 57 57 4 7 10 0 TIMEBASE_CUR 6 "S";
    Rule 57 58 9 7 1 0 TIMEBASE_CUR 0 "";
    Rule 58 58 4 7 1 0 TIMEBASE_CUR 6 "S";
    Rule 59 67 4 7 1 60 TIMEBASE_CUR 6 "S";
    Rule 59 65 8 7 30 180 TIMEBASE_CUR 0 "";
    Rule 66 66 9 7 1 180 TIMEBASE_CUR 0 "" ].

Definition rules_Falk : list lc_timezone_rule :=
  [ Rule 37 38 8 0 24 0 TIMEBASE_CUR 6 "S";
    Rule 38 42 2 0 19 0 TIMEBASE_CUR 0 "";
    Rule 39 39 9 7 1 0 TIMEBASE_CUR 6 "S";
    Rule 40 42 8 0 24 0 TIMEBASE_CUR 6 "S";
    Rule 42 42 11 7 31 1440 TIMEBASE_CUR 0 "";
    Rule 83 83 8 0 24 0 TIMEBASE_CUR 6 "S";
    Rule 84 85 3 0 24 0 TIMEBASE_CUR 0 "";
    Rule 84 84 8 7 16 0 TIMEBASE_CUR 6 "S";
    Rule 85 100 8 0 9 0 TIMEBASE_CUR 6 "S";
    Rule 86 100 3 0 16 0 TIMEBASE_CUR 0 "";
    Rule 101 110 3 0 15 120 TIMEBASE_CUR 0 "";
    Rule 101 110 8 0 1 120 TIMEBASE_CUR 6 "S" ].

Definition rules_Fiji : list lc_timezone_rule :=
  [ Rule 98 99 10 0 1 120 TIMEBASE_CUR 6 "S";
    Rule 99 100 1 0 22 180 TIMEBASE_CUR 0 "";
    Rule 109 109 10 7 29 120 TIMEBASE_CUR 6 "S";
    Rule 110 110 2 0 25 180 TIMEBASE_CUR 0 "";
    Rule 110 113 9 0 21 120 TIMEBASE_CUR 6 "S";
    Rule 111 111 2 0 1 180 TIMEBASE_CUR 0 "";
    Rule 112 113 0 0 18 180 TIMEBASE_CUR 0 "";
    Rule 114 114 0 0 18 120 TIMEBASE_CUR 0 "";
    Rule 114 255 10 0 1 120 TIMEBASE_CUR 6 "S";
    Rule 115 255 0 0 15 180 TIMEBASE_CUR 0 "" ].

Definition rules_Finland : list lc_timezone_rule :=
  [ Rule 42 42 3 7 2 1440 TIMEBASE_CUR 6 "S";
    Rule 42 42 9 7 4 60 TIMEBASE_CUR 0 "";
    Rule 81 82 2 0 25 120 TIMEBASE_CUR 6 "S";
    Rule 81 82 8 0 24 180 TIMEBASE_CUR 0 "" ].

Definition rules_France : list lc_timezone_rule :=
  [ Rule 16 16 5 7 14 1380 TIMEBASE_STD 6 "S";
    Rule 16 19 9 0 1 1380 TIMEBASE_STD 0 "";
    Rule 17 17 2 7 24 1380 TIMEBASE_STD 6 "S";
    Rule 18 18 2 7 9 1380 TIMEBASE_STD 6 "S";
    Rule 19 19 2 7 1 1380 TIMEBASE_STD 6 "S";
    Rule 20 20 1 7 14 1380 TIMEBASE_STD 6 "S";
    Rule 20 20 9 7 23 1380 TIMEBASE_STD 0 "";
    Rule 21 21 2 7 14 1380 TIMEBASE_STD 6 "S";
    Rule 21 21 9 7 25 1380 TIMEBASE_STD 0 "";
    Rule 22 22 2 7 25 1380 TIMEBASE_STD 6 "S";
    Rule 22 38 9 6 1 1380 TIMEBASE_STD 0 "";
    Rule 23 23 4 7 26 1380 TIMEBASE_STD 6 "S";
    Rule 24 24 2 7 29 1380 TIMEBASE_STD 6 "S";
    Rule 25 25 3 7 4 1380 TIMEBASE_STD 6 "S";
    Rule 26 26 3 7 17 1380 TIMEBASE_STD 6 "S";
    Rule 27 27 3 7 9 1380 TIMEBASE_STD 6 "S";
    Rule 28 28 3 7 14 1380 TIMEBASE_STD 6 "S";
    Rule 29 29 3 7 20 1380 TIMEBASE_STD 6 "S";
    Rule 30 30 3 7 12 1380 TIMEBASE_STD 6 "S";
    Rule 31 31 3 7 18 1380 TIMEBASE_STD 6 "S";
    Rule 32 32 3 7 2 1380 TIMEBASE_STD 6 "S";
    Rule 33 33 2 7 25 1380 TIMEBASE_STD 6 "S";
    Rule 34 34 3 7 7 1380 TIMEBASE_STD 6 "S";
    Rule 35 35 2 7 30 1380 TIMEBASE_STD 6 "S";
    Rule 36 36 3 7 18 1380 TIMEBASE_STD 6 "S";
    Rule 37 37 3 7 3 1380 TIMEBASE_STD 6 "S";
    Rule 38 38 2 7 26 1380 TIMEBASE_STD 6 "S";
    Rule 39 39 3 7 15 1380 TIMEBASE_STD 6 "S";
    Rule 39 39 10 7 18 1380 TIMEBASE_STD 0 "";
    Rule 40 40 1 7 25 120 TIMEBASE_CUR 6 "S";
    Rule 41 41 4 7 5 0 TIMEBASE_CUR 12 "M";
    Rule 41 41 9 7 6 0 TIMEBASE_CUR 6 "S";
    Rule 42 42 2 7 9 0 TIMEBASE_CUR 12 "M";
    Rule 42 42 10 7 2 180 TIMEBASE_CUR 6 "S";
    Rule 43 43 2 7 29 120 TIMEBASE_CUR 12 "M";
    Rule 43 43 9 7 4 180 TIMEBASE_CUR 6 "S";
    Rule 44 44 3 7 3 120 TIMEBASE_CUR 12 "M";
    Rule 44 44 9 7 8 60 TIMEBASE_CUR 6 "S";
    Rule 45 45 3 7 2 120 TIMEBASE_CUR 12 "M";
    Rule 45 45 8 7 16 180 TIMEBASE_CUR 0 "";
    Rule 76 76 2 7 28 60 TIMEBASE_CUR 6 "S";
    Rule 76 76 8 7 26 60 TIMEBASE_CUR 0 "" ].

Definition rules_GB_Eire : list lc_timezone_rule :=
  [ Rule 16 16 4 7 21 120 TIMEBASE_STD 6 "BST";
    Rule 16 16 9 7 1 120 TIMEBASE_STD 0 "GMT";
    Rule 17 17 3 7 8 120 TIMEBASE_STD 6 "BST";
    Rule 17 17 8 7 17 120 TIMEBASE_STD 0 "GMT";
    Rule 18 18 2 7 24 120 TIMEBASE_STD 6 "BST";
    Rule 18 18 8 7 30 120 TIMEBASE_STD 0 "GMT";
    Rule 19 19 2 7 30 120 TIMEBASE_STD 6 "BST";
    Rule 19 19 8 7 29 120 TIMEBASE_STD 0 "GMT";
    Rule 20 20 2 7 28 120 TIMEBASE_STD 6 "BST";
    Rule 20 20 9 7 25 120 TIMEBASE_STD 0 "GMT";
    Rule 21 21 3 7 3 120 TIMEBASE_STD 6 "BST";
    Rule 21 21 9 7 3 120 TIMEBASE_STD 0 "GMT";
    Rule 22 22 2 7 26 120 TIMEBASE_STD 6 "BST";
    Rule 22 22 9 7 8 120 TIMEBASE_STD 0 "GMT";
    Rule 23 23 3 0 16 120 TIMEBASE_STD 6 "BST";
    Rule 23 24 8 0 16 120 TIMEBASE_STD 0 "GMT";
    Rule 24 24 3 0 9 120 TIMEBASE_STD 6 "BST";
    Rule 25 26 3 0 16 120 TIMEBASE_STD 6 "BST";
    Rule 25 38 9 0 2 120 TIMEBASE_STD 0 "GMT";
    Rule 27 27 3 0 9 120 TIMEBASE_STD 6 "BST";
    Rule 28 29 3 0 16 120 TIMEBASE_STD 6 "BST";
    Rule 30 30 3 0 9 120 TIMEBASE_STD 6 "BST";
    Rule 31 32 3 0 16 120 TIMEBASE_STD 6 "BST";
    Rule 33 33 3 0 9 120 TIMEBASE_STD 6 "BST";
    Rule 34 34 3 0 16 120 TIMEBASE_STD 6 "BST";
    Rule 35 35 3 0 9 120 TIMEBASE_STD 6 "BST";
    Rule 36 37 3 0 16 120 TIMEBASE_STD 6 "BST";
    Rule 38 38 3 0 9 120 TIMEBASE_STD 6 "BST";
    Rule 39 39 3 0 16 120 TIMEBASE_STD 6 "BST";
    Rule 39 39 10 0 16 120 TIMEBASE_STD 0 "GMT";
    Rule 40 40 1 0 23 120 TIMEBASE_STD 6 "BST";
    Rule 41 41 4 0 2 60 TIMEBASE_STD 12 "BDST";
    Rule 41 43 7 0 9 60 TIMEBASE_STD 6 "BST";
    Rule 42 44 3 0 2 60 TIMEBASE_STD 12 "BDST";
    Rule 44 44 8 0 16 60 TIMEBASE_STD 6 "BST";
    Rule 45 45 3 1 2 60 TIMEBASE_STD 12 "BDST";
    Rule 45 45 6 0 9 60 TIMEBASE_STD 6 "BST";
    Rule 45 46 9 0 2 120 TIMEBASE_STD 0 "GMT";
    Rule 46 46 3 0 9 120 TIMEBASE_STD 6 "BST";
    Rule 47 47 2 7 16 120 TIMEBASE_STD 6 "BST";
    Rule 47 47 3 7 13 60 TIMEBASE_STD 12 "BDST";
    Rule 47 47 7 7 10 60 TIMEBASE_STD 6 "BST";
    Rule 47 47 10 7 2 120 TIMEBASE_STD 0 "GMT";
    Rule 48 48 2 7 14 120 TIMEBASE_STD 6 "BST";
    Rule 48 48 9 7 31 120 TIMEBASE_STD 0 "GMT";
    Rule 49 49 3 7 3 120 TIMEBASE_STD 6 "BST";
    Rule 49 49 9 7 30 120 TIMEBASE_STD 0 "GMT";
    Rule 50 52 3 0 14 120 TIMEBASE_STD 6 "BST";
    Rule 50 52 9 0 21 120 TIMEBASE_STD 0 "GMT";
    Rule 53 53 3 0 16 120 TIMEBASE_STD 6 "BST";
    Rule 53 60 9 0 2 120 TIMEBASE_STD 0 "GMT";
    Rule 54 54 3 0 9 120 TIMEBASE_STD 6 "BST";
    Rule 55 56 3 0 16 120 TIMEBASE_STD 6 "BST";
    Rule 57 57 3 0 9 120 TIMEBASE_STD 6 "BST";
    Rule 58 59 3 0 16 120 TIMEBASE_STD 6 "BST";
    Rule 60 60 3 0 9 120 TIMEBASE_STD 6 "BST";
    Rule 61 63 2 0 25 120 TIMEBASE_STD 6 "BST";
    Rule 61 68 9 0 23 120 TIMEBASE_STD 0 "GMT";
    Rule 64 67 2 0 19 120 TIMEBASE_STD 6 "BST";
    Rule 68 68 1 7 18 120 TIMEBASE_STD 6 "BST";
    Rule 72 80 2 0 16 120 TIMEBASE_STD 6 "BST";
    Rule 72 80 9 0 23 120 TIMEBASE_STD 0 "GMT";
    Rule 81 95 2 0 25 60 TIMEBASE_UTC 6 "BST";
    Rule 81 89 9 0 23 60 TIMEBASE_UTC 0 "GMT";
    Rule 90 95 9 0 22 60 TIMEBASE_UTC 0 "GMT" ].

Definition rules_Germany : list lc_timezone_rule :=
  [ Rule 46 46 3 7 14 120 TIMEBASE_STD 6 "S";
    Rule 46 46 9 7 7 120 TIMEBASE_STD 0 "";
    Rule 47 47 3 7 6 180 TIMEBASE_STD 6 "S";
    Rule 47 47 4 7 11 120 TIMEBASE_STD 12 "M";
    Rule 47 47 5 7 29 180 TIMEBASE_CUR 6 "S";
    Rule 47 49 9 0 1 120 TIMEBASE_STD 0 "";
    Rule 48 48 3 7 18 120 TIMEBASE_STD 6 "S";
    Rule 49 49 3 7 10 120 TIMEBASE_STD 6 "S" ].

Definition rules_Ghana : list lc_timezone_rule :=
  [ Rule 20 42 8 7 1 0 TIMEBASE_CUR 2 "GHST";
    Rule 20 42 11 7 31 0 TIMEBASE_CUR 0 "GMT" ].

Definition rules_Greece : list lc_timezone_rule :=
  [ Rule 32 32 6 7 7 0 TIMEBASE_CUR 6 "S";
    Rule 32 32 8 7 1 0 TIMEBASE_CUR 0 "";
    Rule 41 41 3 7 7 0 TIMEBASE_CUR 6 "S";
    Rule 42 42 10 7 2 180 TIMEBASE_CUR 0 "";
    Rule 43 43 2 7 30 0 TIMEBASE_CUR 6 "S";
    Rule 43 43 9 7 4 0 TIMEBASE_CUR 0 "";
    Rule 52 52 6 7 1 0 TIMEBASE_CUR 6 "S";
    Rule 52 52 10 7 2 0 TIMEBASE_CUR 0 "";
    Rule 75 75 3 7 12 0 TIMEBASE_STD 6 "S";
    Rule 75 75 10 7 26 0 TIMEBASE_STD 0 "";
    Rule 76 76 3 7 11 120 TIMEBASE_STD 6 "S";
    Rule 76 76 9 7 10 120 TIMEBASE_STD 0 "";
    Rule 77 78 3 0 1 120 TIMEBASE_STD 6 "S";
    Rule 77 77 8 7 26 120 TIMEBASE_STD 0 "";
    Rule 78 78 8 7 24 240 TIMEBASE_CUR 0 "";
    Rule 79 79 3 7 1 540 TIMEBASE_CUR 6 "S";
    Rule 79 79 8 7 29 120 TIMEBASE_CUR 0 "";
    Rule 80 80 3 7 1 0 TIMEBASE_CUR 6 "S";
    Rule 80 80 8 7 28 0 TIMEBASE_CUR 0 "" ].

Definition rules_Guat : list lc_timezone_rule :=
  [ Rule 73 73 10 7 25 0 TIMEBASE_CUR 6 "D";
    Rule 74 74 1 7 24 0 TIMEBASE_CUR 0 "S";
    Rule 83 83 4 7 21 0 TIMEBASE_CUR 6 "D";
    Rule 83 83 8 7 22 0 TIMEBASE_CUR 0 "S";
    Rule 91 91 2 7 23 0 TIMEBASE_CUR 6 "D";
    Rule 91 91 8 7 7 0 TIMEBASE_CUR 0 "S";
    Rule 106 106 3 7 30 0 TIMEBASE_CUR 6 "D";
    Rule 106 106 9 7 1 0 TIMEBASE_CUR 0 "S" ].

Definition rules_HK : list lc_timezone_rule :=
  [ Rule 41 41 3 7 1 210 TIMEBASE_CUR 6 "S";
    Rule 41 41 8 7 30 210 TIMEBASE_CUR 0 "";
    Rule 46 46 3 7 20 210 TIMEBASE_CUR 6 "S";
    Rule 46 46 11 7 1 210 TIMEBASE_CUR 0 "";
    Rule 47 47 3 7 13 210 TIMEBASE_CUR 6 "S";
    Rule 47 47 11 7 30 210 TIMEBASE_CUR 0 "";
    Rule 48 48 4 7 2 210 TIMEBASE_CUR 6 "S";
    Rule 48 51 9 0 25 210 TIMEBASE_CUR 0 "";
    Rule 49 53 3 0 1 210 TIMEBASE_CUR 6 "S";
    Rule 52 52 9 7 25 210 TIMEBASE_CUR 0 "";
    Rule 53 53 10 7 1 210 TIMEBASE_CUR 0 "";
    Rule 54 64 2 0 18 210 TIMEBASE_CUR 6 "S";
    Rule 54 54 9 7 31 210 TIMEBASE_CUR 0 "";
    Rule 55 64 10 0 1 210 TIMEBASE_CUR 0 "";
    Rule 65 76 3 0 16 210 TIMEBASE_CUR 6 "S";
    Rule 65 76 9 0 16 210 TIMEBASE_CUR 0 "";
    Rule 73 73 11 7 30 210 TIMEBASE_CUR 6 "S";
    Rule 79 79 4 0 8 210 TIMEBASE_CUR 6 "S";
    Rule 79 79 9 0 16 210 TIMEBASE_CUR 0 "" ].

Definition rules_Haiti : list lc_timezone_rule :=
  [ Rule 83 83 4 7 8 0 TIMEBASE_CUR 6 "D";
    Rule 83 87 9 0 25 0 TIMEBASE_CUR 0 "S";
    Rule 84 87 3 0 24 0 TIMEBASE_CUR 6 "D";
    Rule 88 97 3 0 1 60 TIMEBASE_STD 6 "D";
    Rule 88 97 9 0 25 60 TIMEBASE_STD 0 "S";
    Rule 105 106 3 0 1 0 TIMEBASE_CUR 6 "D";
    Rule 105 106 9 0 25 0 TIMEBASE_CUR 0 "S";
    Rule 112 115 2 0 8 120 TIMEBASE_CUR 6 "D";
    Rule 112 115 10 0 1 120 TIMEBASE_CUR 0 "S";
    Rule 117 255 2 0 8 120 TIMEBASE_CUR 6 "D";
    Rule 117 255 10 0 1 120 TIMEBASE_CUR 0 "S" ].

Definition rules_Halifax : list lc_timezone_rule :=
  [ Rule 16 16 3 7 1 0 TIMEBASE_CUR 6 "D";
    Rule 16 16 9 7 1 0 TIMEBASE_CUR 0 "S";
    Rule 20 20 4 7 9 0 TIMEBASE_CUR 6 "D";
    Rule 20 20 7 7 29 0 TIMEBASE_CUR 0 "S";
    Rule 21 21 4 7 6 0 TIMEBASE_CUR 6 "D";
    Rule 21 22 8 7 5 0 TIMEBASE_CUR 0 "S";
    Rule 22 22 3 7 30 0 TIMEBASE_CUR 6 "D";
    Rule 23 25 4 0 1 0 TIMEBASE_CUR 6 "D";
    Rule 23 23 8 7 4 0 TIMEBASE_CUR 0 "S";
    Rule 24 24 8 7 15 0 TIMEBASE_CUR 0 "S";
    Rule 25 25 8 7 28 0 TIMEBASE_CUR 0 "S";
    Rule 26 26 4 7 16 0 TIMEBASE_CUR 6 "D";
    Rule 26 26 8 7 13 0 TIMEBASE_CUR 0 "S";
    Rule 27 27 4 7 1 0 TIMEBASE_CUR 6 "D";
    Rule 27 27 8 7 26 0 TIMEBASE_CUR 0 "S";
    Rule 28 31 4 0 8 0 TIMEBASE_CUR 6 "D";
    Rule 28 28 8 7 9 0 TIMEBASE_CUR 0 "S";
    Rule 29 29 8 7 3 0 TIMEBASE_CUR 0 "S";
    Rule 30 30 8 7 15 0 TIMEBASE_CUR 0 "S";
    Rule 31 32 8 1 24 0 TIMEBASE_CUR 0 "S";
    Rule 32 32 4 7 1 0 TIMEBASE_CUR 6 "D";
    Rule 33 33 3 7 30 0 TIMEBASE_CUR 6 "D";
    Rule 33 33 9 7 2 0 TIMEBASE_CUR 0 "S";
    Rule 34 34 4 7 20 0 TIMEBASE_CUR 6 "D";
    Rule 34 34 8 7 16 0 TIMEBASE_CUR 0 "S";
    Rule 35 35 5 7 2 0 TIMEBASE_CUR 6 "D";
    Rule 35 35 8 7 30 0 TIMEBASE_CUR 0 "S";
    Rule 36 36 5 7 1 0 TIMEBASE_CUR 6 "D";
    Rule 36 36 8 7 14 0 TIMEBASE_CUR 0 "S";
    Rule 37 38 4 0 1 0 TIMEBASE_CUR 6 "D";
    Rule 37 41 8 1 24 0 TIMEBASE_CUR 0 "S";
    Rule 39 39 4 7 28 0 TIMEBASE_CUR 6 "D";
    Rule 40 41 4 0 1 0 TIMEBASE_CUR 6 "D";
    Rule 46 49 3 0 24 120 TIMEBASE_CUR 6 "D";
    Rule 46 49 8 0 24 120 TIMEBASE_CUR 0 "S";
    Rule 51 54 3 0 24 120 TIMEBASE_CUR 6 "D";
    Rule 51 54 8 0 24 120 TIMEBASE_CUR 0 "S";
    Rule 56 59 3 0 24 120 TIMEBASE_CUR 6 "D";
    Rule 56 59 8 0 24 120 TIMEBASE_CUR 0 "S";
    Rule 62 73 3 0 24 120 TIMEBASE_CUR 6 "D";
    Rule 62 73 9 0 25 120 TIMEBASE_CUR 0 "S" ].

Definition rules_Holiday : list lc_timezone_rule :=
  [ Rule 92 93 9 0 25 120 TIMEBASE_STD 6 "D";
    Rule 93 94 2 0 1 120 TIMEBASE_STD 0 "S" ].

Definition rules_Hond : list lc_timezone_rule :=
  [ Rule 87 88 4 0 1 0 TIMEBASE_CUR 6 "D";
    Rule 87 88 8 0 24 0 TIMEBASE_CUR 0 "S";
    Rule 106 106 4 0 1 0 TIMEBASE_CUR 6 "D";
    Rule 106 106 7 1 1 0 TIMEBASE_CUR 0 "S" ].

Definition rules_Hungary : list lc_timezone_rule :=
  [ Rule 18 18 3 7 1 180 TIMEBASE_CUR 6 "S";
    Rule 18 18 8 7 16 180 TIMEBASE_CUR 0 "";
    Rule 19 19 3 7 15 180 TIMEBASE_CUR 6 "S";
    Rule 19 19 10 7 24 180 TIMEBASE_CUR 0 "";
    Rule 45 45 4 7 1 1380 TIMEBASE_CUR 6 "S";
    Rule 45 45 10 7 1 0 TIMEBASE_CUR 0 "";
    Rule 46 46 2 7 31 120 TIMEBASE_STD 6 "S";
    Rule 46 49 9 0 1 120 TIMEBASE_STD 0 "";
    Rule 47 49 3 0 4 120 TIMEBASE_STD 6 "S";
    Rule 50 50 3 7 17 120 TIMEBASE_STD 6 "S";
    Rule 50 50 9 7 23 120 TIMEBASE_STD 0 "";
    Rule 54 55 4 7 23 0 TIMEBASE_CUR 6 "S";
    Rule 54 55 9 7 3 0 TIMEBASE_CUR 0 "";
    Rule 56 56 5 0 1 0 TIMEBASE_CUR 6 "S";
    Rule 56 56 8 0 24 0 TIMEBASE_CUR 0 "";
    Rule 57 57 5 0 1 60 TIMEBASE_CUR 6 "S";
    Rule 57 57 8 0 24 180 TIMEBASE_CUR 0 "";
    Rule 80 80 3 7 6 60 TIMEBASE_CUR 6 "S" ].

Definition rules_Iceland : list lc_timezone_rule :=
  [ Rule 17 19 1 7 19 1380 TIMEBASE_CUR 6 "S";
    Rule 17 17 9 7 21 60 TIMEBASE_CUR 0 "";
    Rule 18 19 10 7 16 60 TIMEBASE_CUR 0 "";
    Rule 21 21 2 7 19 1380 TIMEBASE_CUR 6 "S";
    Rule 21 21 5 7 23 60 TIMEBASE_CUR 0 "";
    Rule 39 39 3 7 29 1380 TIMEBASE_CUR 6 "S";
    Rule 39 39 9 7 29 120 TIMEBASE_CUR 0 "";
    Rule 40 40 1 7 25 120 TIMEBASE_CUR 6 "S";
    Rule 40 41 10 0 2 60 TIMEBASE_STD 0 "";
    Rule 41 42 2 0 2 60 TIMEBASE_STD 6 "S";
    Rule 42 48 9 0 22 60 TIMEBASE_STD 0 "";
    Rule 43 46 2 0 1 60 TIMEBASE_STD 6 "S";
    Rule 47 67 3 0 1 60 TIMEBASE_STD 6 "S";
    Rule 49 49 9 7 30 60 TIMEBASE_STD 0 "";
    Rule 50 66 9 0 22 60 TIMEBASE_STD 0 "";
    Rule 67 67 9 7 29 60 TIMEBASE_STD 0 "" ].

Definition rules_Indianapolis : list lc_timezone_rule :=
  [ Rule 41 41 5 7 22 120 TIMEBASE_CUR 6 "D";
    Rule 41 54 8 0 24 120 TIMEBASE_CUR 0 "S";
    Rule 46 54 3 0 24 120 TIMEBASE_CUR 6 "D" ].

Definition rules_Iran : list lc_timezone_rule :=
  [ Rule 78 80 2 7 21 0 TIMEBASE_CUR 6 "D";
    Rule 78 78 9 7 21 0 TIMEBASE_CUR 0 "S";
    Rule 79 79 8 7 19 0 TIMEBASE_CUR 0 "S";
    Rule 80 80 8 7 23 0 TIMEBASE_CUR 0 "S";
    Rule 91 91 4 7 3 0 TIMEBASE_CUR 6 "D";
    Rule 91 95 8 7 22 0 TIMEBASE_CUR 0 "S";
    Rule 92 95 2 7 22 0 TIMEBASE_CUR 6 "D";
    Rule 96 96 2 7 21 0 TIMEBASE_CUR 6 "D";
    Rule 96 96 8 7 21 0 TIMEBASE_CUR 0 "S";
    Rule 97 99 2 7 22 0 TIMEBASE_CUR 6 "D";
    Rule 97 99 8 7 22 0 TIMEBASE_CUR 0 "S";
    Rule 100 100 2 7 21 0 TIMEBASE_CUR 6 "D";
    Rule 100 100 8 7 21 0 TIMEBASE_CUR 0 "S";
    Rule 101 103 2 7 22 0 TIMEBASE_CUR 6 "D";
    Rule 101 103 8 7 22 0 TIMEBASE_CUR 0 "S";
    Rule 104 104 2 7 21 0 TIMEBASE_CUR 6 "D";
    Rule 104 104 8 7 21 0 TIMEBASE_CUR 0 "S";
    Rule 105 105 2 7 22 0 TIMEBASE_CUR 6 "D";
    Rule 105 105 8 7 22 0 TIMEBASE_CUR 0 "S";
    Rule 108 108 2 7 21 0 TIMEBASE_CUR 6 "D";
    Rule 108 108 8 7 21 0 TIMEBASE_CUR 0 "S";
    Rule 109 111 2 7 22 0 TIMEBASE_CUR 6 "D";
    Rule 109 111 8 7 22 0 TIMEBASE_CUR 0 "S";
    Rule 112 112 2 7 21 0 TIMEBASE_CUR 6 "D";
    Rule 112 112 8 7 21 0 TIMEBASE_CUR 0 "S";
    Rule 113 115 2 7 22 0 TIMEBASE_CUR 6 "D";
    Rule 113 115 8 7 22 0 TIMEBASE_CUR 0 "S";
    Rule 116 116 2 7 21 0 TIMEBASE_CUR 6 "D";
    Rule 116 116 8 7 21 0 TIMEBASE_CUR 0 "S";
    Rule 117 119 2 7 22 0 TIMEBASE_CUR 6 "D";
    Rule 117 119 8 7 22 0 TIMEBASE_CUR 0 "S";
    Rule 120 120 2 7 21 0 TIMEBASE_CUR 6 "D";
    Rule 120 120 8 7 21 0 TIMEBASE_CUR 0 "S";
    Rule 121 123 2 7 22 0 TIMEBASE_CUR 6 "D";
    Rule 121 123 8 7 22 0 TIMEBASE_CUR 0 "S";
    Rule 124 124 2 7 21 0 TIMEBASE_CUR 6 "D";
    Rule 124 124 8 7 21 0 TIMEBASE_CUR 0 "S";
    Rule 125 127 2 7 22 0 TIMEBASE_CUR 6 "D";
    Rule 125 127 8 7 22 0 TIMEBASE_CUR 0 "S";
    Rule 128 129 2 7 21 0 TIMEBASE_CUR 6 "D";
    Rule 128 129 8 7 21 0 TIMEBASE_CUR 0 "S";
    Rule 130 131 2 7 22 0 TIMEBASE_CUR 6 "D";
    Rule 130 131 8 7 22 0 TIMEBASE_CUR 0 "S";
    Rule 132 133 2 7 21 0 TIMEBASE_CUR 6 "D";
    Rule 132 133 8 7 21 0 TIMEBASE_CUR 0 "S";
    Rule 134 135 2 7 22 0 TIMEBASE_CUR 6 "D";
    Rule 134 135 8 7 22 0 TIMEBASE_CUR 0 "S";
    Rule 136 255 2 7 21 0 TIMEBASE_CUR 6 "D";
    Rule 136 255 8 7 21 0 TIMEBASE_CUR 0 "S" ].

Definition rules_Iraq : list lc_timezone_rule :=
  [ Rule 82 82 4 7 1 0 TIMEBASE_CUR 6 "D";
    Rule 82 84 9 7 1 0 TIMEBASE_CUR 0 "S";
    Rule 83 83 2 7 31 0 TIMEBASE_CUR 6 "D";
    Rule 84 85 3 7 1 0 TIMEBASE_CUR 6 "D";
    Rule 85 90 8 0 24 60 TIMEBASE_STD 0 "S";
    Rule 86 90 2 0 25 60 TIMEBASE_STD 6 "D";
    Rule 91 107 3 7 1 180 TIMEBASE_STD 6 "D";
    Rule 91 107 9 7 1 180 TIMEBASE_STD 0 "S" ].

Definition rules_Italy : list lc_timezone_rule :=
  [ Rule 16 16 5 7 3 1440 TIMEBASE_CUR 6 "S";
    Rule 16 17 8 7 30 1440 TIMEBASE_CUR 0 "";
    Rule 17 17 2 7 31 1440 TIMEBASE_CUR 6 "S";
    Rule 18 18 2 7 9 1440 TIMEBASE_CUR 6 "S";
    Rule 18 18 9 7 6 1440 TIMEBASE_CUR 0 "";
    Rule 19 19 2 7 1 1440 TIMEBASE_CUR 6 "S";
    Rule 19 19 9 7 4 1440 TIMEBASE_CUR 0 "";
    Rule 20 20 2 7 20 1440 TIMEBASE_CUR 6 "S";
    Rule 20 20 8 7 18 1440 TIMEBASE_CUR 0 "";
    Rule 40 40 5 7 14 1440 TIMEBASE_CUR 6 "S";
    Rule 42 42 10 7 2 120 TIMEBASE_STD 0 "";
    Rule 43 43 2 7 29 120 TIMEBASE_STD 6 "S";
    Rule 43 43 9 7 4 120 TIMEBASE_STD 0 "";
    Rule 44 44 3 7 2 120 TIMEBASE_STD 6 "S";
    Rule 44 44 8 7 17 120 TIMEBASE_STD 0 "";
    Rule 45 45 3 7 2 120 TIMEBASE_CUR 6 "S";
    Rule 45 45 8 7 15 60 TIMEBASE_CUR 0 "";
    Rule 46 46 2 7 17 120 TIMEBASE_STD 6 "S";
    Rule 46 46 9 7 6 120 TIMEBASE_STD 0 "";
    Rule 47 47 2 7 16 0 TIMEBASE_STD 6 "S";
    Rule 47 47 9 7 5 0 TIMEBASE_STD 0 "";
    Rule 48 48 1 7 29 120 TIMEBASE_STD 6 "S";
    Rule 48 48 9 7 3 120 TIMEBASE_STD 0 "";
    Rule 66 68 4 0 22 0 TIMEBASE_STD 6 "S";
    Rule 66 66 8 7 24 1440 TIMEBASE_CUR 0 "";
    Rule 67 69 8 0 22 0 TIMEBASE_STD 0 "";
    Rule 69 69 5 7 1 0 TIMEBASE_STD 6 "S";
    Rule 70 70 4 7 31 0 TIMEBASE_STD 6 "S";
    Rule 70 70 8 0 24 0 TIMEBASE_STD 0 "";
    Rule 71 72 4 0 22 0 TIMEBASE_STD 6 "S";
    Rule 71 71 8 0 24 0 TIMEBASE_STD 0 "";
    Rule 72 72 9 7 1 0 TIMEBASE_STD 0 "";
    Rule 73 73 5 7 3 0 TIMEBASE_STD 6 "S";
    Rule 73 74 8 0 24 0 TIMEBASE_STD 0 "";
    Rule 74 74 4 7 26 0 TIMEBASE_STD 6 "S";
    Rule 75 75 5 7 1 0 TIMEBASE_STD 6 "S";
    Rule 75 77 8 0 24 0 TIMEBASE_STD 0 "";
    Rule 76 76 4 7 30 0 TIMEBASE_STD 6 "S";
    Rule 77 79 4 0 22 0 TIMEBASE_STD 6 "S";
    Rule 78 78 9 7 1 0 TIMEBASE_STD 0 "";
    Rule 79 79 8 7 30 0 TIMEBASE_STD 0 "" ].

Definition rules_Japan : list lc_timezone_rule :=
  [ Rule 48 48 4 0 1 120 TIMEBASE_CUR 6 "D";
    Rule 48 51 8 6 8 120 TIMEBASE_CUR 0 "S";
    Rule 49 49 3 0 1 120 TIMEBASE_CUR 6 "D";
    Rule 50 51 4 0 1 120 TIMEBASE_CUR 6 "D" ].

Definition rules_Jordan : list lc_timezone_rule :=
  [ Rule 73 73 5 7 6 0 TIMEBASE_CUR 6 "S";
    Rule 73 75 9 7 1 0 TIMEBASE_CUR 0 "";
    Rule 74 77 4 7 1 0 TIMEBASE_CUR 6 "S";
    Rule 76 76 10 7 1 0 TIMEBASE_CUR 0 "";
    Rule 77 77 9 7 1 0 TIMEBASE_CUR 0 "";
    Rule 78 78 3 7 30 0 TIMEBASE_CUR 6 "S";
    Rule 78 78 8 7 30 0 TIMEBASE_CUR 0 "";
    Rule 85 85 3 7 1 0 TIMEBASE_CUR 6 "S";
    Rule 85 85 9 7 1 0 TIMEBASE_CUR 0 "";
    Rule 86 88 3 5 1 0 TIMEBASE_CUR 6 "S";
    Rule 86 90 9 5 1 0 TIMEBASE_CUR 0 "";
    Rule 89 89 4 7 8 0 TIMEBASE_CUR 6 "S";
    Rule 90 90 3 7 27 0 TIMEBASE_CUR 6 "S";
    Rule 91 91 3 7 17 0 TIMEBASE_CUR 6 "S";
    Rule 91 91 8 7 27 0 TIMEBASE_CUR 0 "";
    Rule 92 92 3 7 10 0 TIMEBASE_CUR 6 "S";
    Rule 92 93 9 5 1 0 TIMEBASE_CUR 0 "";
    Rule 93 98 3 5 1 0 TIMEBASE_CUR 6 "S";
    Rule 94 94 8 5 15 0 TIMEBASE_CUR 0 "";
    Rule 95 98 8 5 15 0 TIMEBASE_STD 0 "";
    Rule 99 99 6 7 1 0 TIMEBASE_STD 6 "S";
    Rule 99 102 8 5 24 0 TIMEBASE_STD 0 "";
    Rule 100 101 2 4 25 0 TIMEBASE_STD 6 "S";
    Rule 102 112 2 4 25 1440 TIMEBASE_CUR 6 "S";
    Rule 103 103 9 7 24 0 TIMEBASE_STD 0 "";
    Rule 104 104 9 7 15 0 TIMEBASE_STD 0 "";
    Rule 105 105 8 5 24 0 TIMEBASE_STD 0 "";
    Rule 106 111 9 5 25 0 TIMEBASE_STD 0 "";
    Rule 113 113 11 7 20 0 TIMEBASE_CUR 0 "";
    Rule 114 255 2 4 25 1440 TIMEBASE_CUR 6 "S";
    Rule 114 255 9 5 25 0 TIMEBASE_STD 0 "" ].

Definition rules_Kyrgyz : list lc_timezone_rule :=
  [ Rule 92 96 3 0 7 0 TIMEBASE_STD 6 "S";
    Rule 92 96 8 0 24 0 TIMEBASE_CUR 0 "";
    Rule 97 105 2 0 25 150 TIMEBASE_CUR 6 "S";
    Rule 97 104 9 0 25 150 TIMEBASE_CUR 0 "" ].

Definition rules_LH : list lc_timezone_rule :=
  [ Rule 81 84 9 0 25 120 TIMEBASE_CUR 6 "D";
    Rule 82 85 2 0 1 120 TIMEBASE_CUR 0 "S";
    Rule 85 85 9 0 25 120 TIMEBASE_CUR 3 "D";
    Rule 86 89 2 0 15 120 TIMEBASE_CUR 0 "S";
    Rule 86 86 9 7 19 120 TIMEBASE_CUR 3 "D";
    Rule 87 99 9 0 25 120 TIMEBASE_CUR 3 "D";
    Rule 90 95 2 0 1 120 TIMEBASE_CUR 0 "S";
    Rule 96 105 2 0 25 120 TIMEBASE_CUR 0 "S";
    Rule 100 100 7 0 25 120 TIMEBASE_CUR 3 "D";
    Rule 101 107 9 0 25 120 TIMEBASE_CUR 3 "D";
    Rule 106 106 3 0 1 120 TIMEBASE_CUR 0 "S";
    Rule 107 107 2 0 25 120 TIMEBASE_CUR 0 "S";
    Rule 108 255 3 0 1 120 TIMEBASE_CUR 0 "S";
    Rule 108 255 9 0 1 120 TIMEBASE_CUR 3 "D" ].

Definition rules_Latvia : list lc_timezone_rule :=
  [ Rule 89 96 2 0 25 120 TIMEBASE_STD 6 "S";
    Rule 89 96 8 0 24 120 TIMEBASE_STD 0 "" ].

Definition rules_Lebanon : list lc_timezone_rule :=
  [ Rule 20 20 2 7 28 0 TIMEBASE_CUR 6 "S";
    Rule 20 20 9 7 25 0 TIMEBASE_CUR 0 "";
    Rule 21 21 3 7 3 0 TIMEBASE_CUR 6 "S";
    Rule 21 21 9 7 3 0 TIMEBASE_CUR 0 "";
    Rule 22 22 2 7 26 0 TIMEBASE_CUR 6 "S";
    Rule 22 22 9 7 8 0 TIMEBASE_CUR 0 "";
    Rule 23 23 3 7 22 0 TIMEBASE_CUR 6 "S";
    Rule 23 23 8 7 16 0 TIMEBASE_CUR 0 "";
    Rule 57 61 4 7 1 0 TIMEBASE_CUR 6 "S";
    Rule 57 61 9 7 1 0 TIMEBASE_CUR 0 "";
    Rule 72 72 5 7 22 0 TIMEBASE_CUR 6 "S";
    Rule 72 77 9 7 1 0 TIMEBASE_CUR 0 "";
    Rule 73 77 4 7 1 0 TIMEBASE_CUR 6 "S";
    Rule 78 78 3 7 30 0 TIMEBASE_CUR 6 "S";
    Rule 78 78 8 7 30 0 TIMEBASE_CUR 0 "";
    Rule 84 87 4 7 1 0 TIMEBASE_CUR 6 "S";
    Rule 84 91 9 7 16 0 TIMEBASE_CUR 0 "";
    Rule 88 88 5 7 1 0 TIMEBASE_CUR 6 "S";
    Rule 89 89 4 7 10 0 TIMEBASE_CUR 6 "S";
    Rule 90 92 4 7 1 0 TIMEBASE_CUR 6 "S";
    Rule 92 92 9 7 4 0 TIMEBASE_CUR 0 "";
    Rule 93 255 2 0 25 0 TIMEBASE_CUR 6 "S";
    Rule 93 98 8 0 24 0 TIMEBASE_CUR 0 "";
    Rule 99 255 9 0 25 0 TIMEBASE_CUR 0 "" ].

Definition rules_Libya : list lc_timezone_rule :=
  [ Rule 51 51 9 7 14 120 TIMEBASE_CUR 6 "S";
    Rule 51 51 11 7 31 1440 TIMEBASE_CUR 0 "";
    Rule 53 53 9 7 9 120 TIMEBASE_CUR 6 "S";
    Rule 53 53 11 7 31 1440 TIMEBASE_CUR 0 "";
    Rule 55 55 8 7 30 0 TIMEBASE_CUR 6 "S";
    Rule 55 55 11 7 31 1440 TIMEBASE_CUR 0 "";
    Rule 82 84 3 7 1 0 TIMEBASE_CUR 6 "S";
    Rule 82 85 9 7 1 0 TIMEBASE_CUR 0 "";
    Rule 85 85 3 7 6 0 TIMEBASE_CUR 6 "S";
    Rule 86 86 3 7 4 0 TIMEBASE_CUR 6 "S";
    Rule 86 86 9 7 3 0 TIMEBASE_CUR 0 "";
    Rule 87 89 3 7 1 0 TIMEBASE_CUR 6 "S";
    Rule 87 89 9 7 1 0 TIMEBASE_CUR 0 "";
    Rule 97 97 3 7 4 0 TIMEBASE_CUR 6 "S";
    Rule 97 97 9 7 4 0 TIMEBASE_CUR 0 "";
    Rule 113 113 2 5 25 60 TIMEBASE_CUR 6 "S";
    Rule 113 113 9 5 25 120 TIMEBASE_CUR 0 "" ].

Definition rules_Louisville : list lc_timezone_rule :=
  [ Rule 21 21 4 7 1 120 TIMEBASE_CUR 6 "D";
    Rule 21 21 8 7 1 120 TIMEBASE_CUR 0 "S";
    Rule 41 61 3 0 24 120 TIMEBASE_CUR 6 "D";
    Rule 41 41 8 0 24 120 TIMEBASE_CUR 0 "S";
    Rule 46 46 5 7 2 120 TIMEBASE_CUR 0 "S";
    Rule 50 55 8 0 24 120 TIMEBASE_CUR 0 "S";
    Rule 56 60 9 0 25 120 TIMEBASE_CUR 0 "S" ].

Definition rules_Lux : list lc_timezone_rule :=
  [ Rule 16 16 4 7 14 1380 TIMEBASE_CUR 6 "S";
    Rule 16 16 9 7 1 60 TIMEBASE_CUR 0 "";
    Rule 17 17 3 7 28 1380 TIMEBASE_CUR 6 "S";
    Rule 17 17 8 7 17 60 TIMEBASE_CUR 0 "";
    Rule 18 18 3 1 15 120 TIMEBASE_STD 6 "S";
    Rule 18 18 8 1 15 120 TIMEBASE_STD 0 "";
    Rule 19 19 2 7 1 1380 TIMEBASE_CUR 6 "S";
    Rule 19 19 9 7 5 180 TIMEBASE_CUR 0 "";
    Rule 20 20 1 7 14 1380 TIMEBASE_CUR 6 "S";
    Rule 20 20 9 7 24 120 TIMEBASE_CUR 0 "";
    Rule 21 21 2 7 14 1380 TIMEBASE_CUR 6 "S";
    Rule 21 21 9 7 26 120 TIMEBASE_CUR 0 "";
    Rule 22 22 2 7 25 1380 TIMEBASE_CUR 6 "S";
    Rule 22 22 9 0 2 60 TIMEBASE_CUR 0 "";
    Rule 23 23 3 7 21 1380 TIMEBASE_CUR 6 "S";
    Rule 23 23 9 0 2 120 TIMEBASE_CUR 0 "";
    Rule 24 24 2 7 29 1380 TIMEBASE_CUR 6 "S";
    Rule 24 28 9 0 2 60 TIMEBASE_CUR 0 "";
    Rule 25 25 3 7 5 1380 TIMEBASE_CUR 6 "S";
    Rule 26 26 3 7 17 1380 TIMEBASE_CUR 6 "S";
    Rule 27 27 3 7 9 1380 TIMEBASE_CUR 6 "S";
    Rule 28 28 3 7 14 1380 TIMEBASE_CUR 6 "S";
    Rule 29 29 3 7 20 1380 TIMEBASE_CUR 6 "S" ].

Definition rules_Macau : list lc_timezone_rule :=
  [ Rule 61 62 2 0 16 210 TIMEBASE_CUR 6 "D";
    Rule 61 64 10 0 1 210 TIMEBASE_CUR 0 "S";
    Rule 63 63 2 0 16 0 TIMEBASE_CUR 6 "D";
    Rule 64 64 2 0 16 210 TIMEBASE_CUR 6 "D";
    Rule 65 65 2 0 16 0 TIMEBASE_CUR 6 "D";
    Rule 65 65 9 7 31 0 TIMEBASE_CUR 0 "S";
    Rule 66 71 3 0 16 210 TIMEBASE_CUR 6 "D";
    Rule 66 71 9 0 16 210 TIMEBASE_CUR 0 "S";
    Rule 72 74 3 0 15 0 TIMEBASE_CUR 6 "D";
    Rule 72 73 9 0 15 0 TIMEBASE_CUR 0 "S";
    Rule 74 77 9 0 15 210 TIMEBASE_CUR 0 "S";
    Rule 75 77 3 0 15 210 TIMEBASE_CUR 6 "D";
    Rule 78 80 3 0 15 0 TIMEBASE_CUR 6 "D";
    Rule 78 80 9 0 15 0 TIMEBASE_CUR 0 "S" ].

Definition rules_Malta : list lc_timezone_rule :=
  [ Rule 73 73 2 7 31 0 TIMEBASE_STD 6 "S";
    Rule 73 73 8 7 29 0 TIMEBASE_STD 0 "";
    Rule 74 74 3 7 21 0 TIMEBASE_STD 6 "S";
    Rule 74 74 8 7 16 0 TIMEBASE_STD 0 "";
    Rule 75 79 3 0 15 120 TIMEBASE_CUR 6 "S";
    Rule 75 80 8 0 15 120 TIMEBASE_CUR 0 "";
    Rule 80 80 2 7 31 120 TIMEBASE_CUR 6 "S" ].

Definition rules_Marengo : list lc_timezone_rule :=
  [ Rule 51 51 3 0 24 120 TIMEBASE_CUR 6 "D";
    Rule 51 51 8 0 24 120 TIMEBASE_CUR 0 "S";
    Rule 54 60 3 0 24 120 TIMEBASE_CUR 6 "D";
    Rule 54 60 8 0 24 120 TIMEBASE_CUR 0 "S" ].

Definition rules_Mauritius : list lc_timezone_rule :=
  [ Rule 82 82 9 7 10 0 TIMEBASE_CUR 6 "S";
    Rule 83 83 2 7 21 0 TIMEBASE_CUR 0 "";
    Rule 108 108 9 0 25 120 TIMEBASE_CUR 6 "S";
    Rule 109 109 2 0 25 120 TIMEBASE_CUR 0 "" ].

Definition rules_Menominee : list lc_timezone_rule :=
  [ Rule 46 46 3 0 24 120 TIMEBASE_CUR 6 "D";
    Rule 46 46 8 0 24 120 TIMEBASE_CUR 0 "S";
    Rule 66 66 3 0 24 120 TIMEBASE_CUR 6 "D";
    Rule 66 66 9 0 25 120 TIMEBASE_CUR 0 "S" ].

Definition rules_Mexico : list lc_timezone_rule :=
  [ Rule 39 39 1 7 5 0 TIMEBASE_CUR 6 "D";
    Rule 39 39 5 7 25 0 TIMEBASE_CUR 0 "S";
    Rule 40 40 11 7 9 0 TIMEBASE_CUR 6 "D";
    Rule 41 41 3 7 1 0 TIMEBASE_CUR 0 "S";
    Rule 43 43 11 7 16 0 TIMEBASE_CUR 6 "W";
    Rule 44 44 4 7 1 0 TIMEBASE_CUR 0 "S";
    Rule 50 50 1 7 12 0 TIMEBASE_CUR 6 "D";
    Rule 50 50 6 7 30 0 TIMEBASE_CUR 0 "S";
    Rule 96 100 3 0 1 120 TIMEBASE_CUR 6 "D";
    Rule 96 100 9 0 25 120 TIMEBASE_CUR 0 "S";
    Rule 101 101 4 0 1 120 TIMEBASE_CUR 6 "D";
    Rule 101 101 8 0 24 120 TIMEBASE_CUR 0 "S";
    Rule 102 255 3 0 1 120 TIMEBASE_CUR 6 "D";
    Rule 102 255 9 0 25 120 TIMEBASE_CUR 0 "S" ].

Definition rules_Moldova : list lc_timezone_rule :=
  [ Rule 97 255 2 0 25 120 TIMEBASE_CUR 6 "S";
    Rule 97 255 9 0 25 180 TIMEBASE_CUR 0 "" ].

Definition rules_Moncton : list lc_timezone_rule :=
  [ Rule 33 35 5 0 8 60 TIMEBASE_CUR 6 "D";
    Rule 33 35 8 0 8 60 TIMEBASE_CUR 0 "S";
    Rule 36 38 5 0 1 60 TIMEBASE_CUR 6 "D";
    Rule 36 38 8 0 1 60 TIMEBASE_CUR 0 "S";
    Rule 39 39 4 7 27 60 TIMEBASE_CUR 6 "D";
    Rule 39 41 8 6 21 60 TIMEBASE_CUR 0 "S";
    Rule 40 40 4 7 19 60 TIMEBASE_CUR 6 "D";
    Rule 41 41 4 7 4 60 TIMEBASE_CUR 6 "D";
    Rule 46 72 3 0 24 120 TIMEBASE_CUR 6 "D";
    Rule 46 56 8 0 24 120 TIMEBASE_CUR 0 "S";
    Rule 57 72 9 0 25 120 TIMEBASE_CUR 0 "S";
    Rule 93 106 3 0 1 1 TIMEBASE_CUR 6 "D";
    Rule 93 106 9 0 25 1 TIMEBASE_CUR 0 "S" ].

Definition rules_Mongol : list lc_timezone_rule :=
  [ Rule 83 84 3 7 1 0 TIMEBASE_CUR 6 "S";
    Rule 83 83 9 7 1 0 TIMEBASE_CUR 0 "";
    Rule 84 98 8 0 24 0 TIMEBASE_CUR 0 "";
    Rule 85 98 2 0 25 0 TIMEBASE_CUR 6 "S";
    Rule 101 101 3 6 24 120 TIMEBASE_CUR 6 "S";
    Rule 101 106 8 6 24 120 TIMEBASE_CUR 0 "";
    Rule 102 106 2 6 25 120 TIMEBASE_CUR 6 "S";
    Rule 115 116 2 6 25 120 TIMEBASE_CUR 6 "S";
    Rule 115 116 8 6 24 0 TIMEBASE_CUR 0 "" ].

Definition rules_Morocco : list lc_timezone_rule :=
  [ Rule 39 39 8 7 12 0 TIMEBASE_CUR 6 "S";
    Rule 39 39 10 7 19 0 TIMEBASE_CUR 0 "";
    Rule 40 40 1 7 25 0 TIMEBASE_CUR 6 "S";
    Rule 45 45 10 7 18 0 TIMEBASE_CUR 0 "";
    Rule 50 50 5 7 11 0 TIMEBASE_CUR 6 "S";
    Rule 50 50 9 7 29 0 TIMEBASE_CUR 0 "";
    Rule 67 67 5 7 3 720 TIMEBASE_CUR 6 "S";
    Rule 67 67 9 7 1 0 TIMEBASE_CUR 0 "";
    Rule 74 74 5 7 24 0 TIMEBASE_CUR 6 "S";
    Rule 74 74 8 7 1 0 TIMEBASE_CUR 0 "";
    Rule 76 77 4 7 1 0 TIMEBASE_CUR 6 "S";
    Rule 76 76 7 7 1 0 TIMEBASE_CUR 0 "";
    Rule 77 77 8 7 28 0 TIMEBASE_CUR 0 "";
    Rule 78 78 5 7 1 0 TIMEBASE_CUR 6 "S";
    Rule 78 78 7 7 4 0 TIMEBASE_CUR 0 "";
    Rule 108 108 5 7 1 0 TIMEBASE_CUR 6 "S";
    Rule 108 108 8 7 1 0 TIMEBASE_CUR 0 "";
    Rule 109 109 5 7 1 0 TIMEBASE_CUR 6 "S";
    Rule 109 109 7 7 21 0 TIMEBASE_CUR 0 "";
    Rule 110 110 4 7 2 0 TIMEBASE_CUR 6 "S";
    Rule 110 110 7 7 8 0 TIMEBASE_CUR 0 "";
    Rule 111 111 3 7 3 0 TIMEBASE_CUR 6 "S";
    Rule 111 111 6 7 31 0 TIMEBASE_CUR 0 "";
    Rule 112 113 3 0 24 120 TIMEBASE_CUR 6 "S";
    Rule 112 112 6 7 20 180 TIMEBASE_CUR 0 "";
    Rule 112 112 7 7 20 120 TIMEBASE_CUR 6 "S";
    Rule 112 112 8 7 30 180 TIMEBASE_CUR 0 "";
    Rule 113 113 6 7 7 180 TIMEBASE_CUR 0 "";
    Rule 113 113 7 7 10 120 TIMEBASE_CUR 6 "S";
    Rule 113 255 9 0 25 180 TIMEBASE_CUR 0 "";
    Rule 114 121 2 0 25 120 TIMEBASE_CUR 6 "S";
    Rule 114 114 5 7 28 180 TIMEBASE_CUR 0 "";
    Rule 114 114 7 7 2 120 TIMEBASE_CUR 6 "S";
    Rule 115 115 5 7 14 180 TIMEBASE_CUR 0 "";
    Rule 115 115 6 7 19 120 TIMEBASE_CUR 6 "S";
    Rule 116 116 5 7 5 180 TIMEBASE_CUR 0 "";
    Rule 116 116 6 7 10 120 TIMEBASE_CUR 6 "S";
    Rule 117 117 4 7 21 180 TIMEBASE_CUR 0 "";
    Rule 117 117 6 7 2 120 TIMEBASE_CUR 6 "S";
    Rule 118 118 4 7 13 180 TIMEBASE_CUR 0 "";
    Rule 118 118 5 7 17 120 TIMEBASE_CUR 6 "S";
    Rule 119 119 4 7 5 180 TIMEBASE_CUR 0 "";
    Rule 119 119 5 7 9 120 TIMEBASE_CUR 6 "S";
    Rule 120 120 3 7 19 180 TIMEBASE_CUR 0 "";
    Rule 120 120 4 7 24 120 TIMEBASE_CUR 6 "S";
    Rule 121 121 3 7 11 180 TIMEBASE_CUR 0 "";
    Rule 121 121 4 7 16 120 TIMEBASE_CUR 6 "S";
    Rule 122 122 4 7 8 120 TIMEBASE_CUR 6 "S";
    Rule 123 123 3 7 23 120 TIMEBASE_CUR 6 "S";
    Rule 124 124 3 7 14 120 TIMEBASE_CUR 6 "S";
    Rule 125 125 3 7 6 120 TIMEBASE_CUR 6 "S";
    Rule 126 255 2 0 25 120 TIMEBASE_CUR 6 "S";
    Rule 136 136 9 7 19 180 TIMEBASE_CUR 0 "";
    Rule 137 137 9 7 4 180 TIMEBASE_CUR 0 "" ].

Definition rules_NBorneo : list lc_timezone_rule :=
  [ Rule 35 41 8 7 14 0 TIMEBASE_CUR 2 "TS";
    Rule 35 41 11 7 14 0 TIMEBASE_CUR 0 "" ].

Definition rules_NC : list lc_timezone_rule :=
  [ Rule 77 78 11 0 1 0 TIMEBASE_CUR 6 "S";
    Rule 78 79 1 7 27 0 TIMEBASE_CUR 0 "";
    Rule 96 96 11 7 1 120 TIMEBASE_STD 6 "S";
    Rule 97 97 2 7 2 120 TIMEBASE_STD 0 "" ].

Definition rules_NT_YK : list lc_timezone_rule :=
  [ Rule 18 18 3 7 14 120 TIMEBASE_CUR 6 "D";
    Rule 18 18 9 7 27 120 TIMEBASE_CUR 0 "S";
    Rule 19 19 4 7 25 120 TIMEBASE_CUR 6 "D";
    Rule 19 19 10 7 1 0 TIMEBASE_CUR 0 "S";
    Rule 42 42 1 7 9 120 TIMEBASE_CUR 6 "W";
    Rule 45 45 7 7 14 1380 TIMEBASE_UTC 6 "P";
    Rule 45 45 8 7 30 120 TIMEBASE_CUR 0 "S";
    Rule 65 65 3 0 24 0 TIMEBASE_CUR 12 "DD";
    Rule 65 65 9 0 25 120 TIMEBASE_CUR 0 "S";
    Rule 80 86 3 0 24 120 TIMEBASE_CUR 6 "D";
    Rule 80 106 9 0 25 120 TIMEBASE_CUR 0 "S";
    Rule 87 106 3 0 1 120 TIMEBASE_CUR 6 "D" ].

Definition rules_NYC : list lc_timezone_rule :=
  [ Rule 20 20 2 0 25 120 TIMEBASE_CUR 6 "D";
    Rule 20 20 9 0 25 120 TIMEBASE_CUR 0 "S";
    Rule 21 66 3 0 24 120 TIMEBASE_CUR 6 "D";
    Rule 21 54 8 0 24 120 TIMEBASE_CUR 0 "S";
    Rule 55 66 9 0 25 120 TIMEBASE_CUR 0 "S" ].

Definition rules_NZ : list lc_timezone_rule :=
  [ Rule 27 27 10 7 6 120 TIMEBASE_CUR 6 "S";
    Rule 28 28 2 7 4 120 TIMEBASE_CUR 0 "M";
    Rule 28 33 9 0 8 120 TIMEBASE_CUR 3 "S";
    Rule 29 33 2 0 15 120 TIMEBASE_CUR 0 "M";
    Rule 34 40 3 0 24 120 TIMEBASE_CUR 0 "M";
    Rule 34 40 8 0 24 120 TIMEBASE_CUR 3 "S";
    Rule 45 45 11 7 31 1440 TIMEBASE_CUR 0 "S";
    Rule 74 74 10 0 1 120 TIMEBASE_STD 6 "D";
    Rule 75 75 1 0 22 120 TIMEBASE_STD 0 "S";
    Rule 75 88 9 0 25 120 TIMEBASE_STD 6 "D";
    Rule 76 89 2 0 1 120 TIMEBASE_STD 0 "S";
    Rule 89 89 9 0 8 120 TIMEBASE_STD 6 "D";
    Rule 90 107 2 0 15 120 TIMEBASE_STD 0 "S";
    Rule 90 106 9 0 1 120 TIMEBASE_STD 6 "D";
    Rule 107 255 8 0 24 120 TIMEBASE_STD 6 "D";
    Rule 108 255 3 0 1 120 TIMEBASE_STD 0 "S" ].

Definition rules_Namibia : list lc_timezone_rule :=
  [ Rule 94 255 8 0 1 120 TIMEBASE_CUR 6 "S";
    Rule 95 255 3 0 1 120 TIMEBASE_CUR 0 "" ].

Definition rules_Neth : list lc_timezone_rule :=
  [ Rule 16 16 4 7 1 0 TIMEBASE_CUR 6 "NST";
    Rule 16 16 9 7 1 0 TIMEBASE_CUR 0 "AMT";
    Rule 17 17 3 7 16 120 TIMEBASE_STD 6 "NST";
    Rule 17 17 8 7 17 120 TIMEBASE_STD 0 "AMT";
    Rule 18 21 3 1 1 120 TIMEBASE_STD 6 "NST";
    Rule 18 21 8 1 24 120 TIMEBASE_STD 0 "AMT";
    Rule 22 22 2 0 25 120 TIMEBASE_STD 6 "NST";
    Rule 22 36 9 0 2 120 TIMEBASE_STD 0 "AMT";
    Rule 23 23 5 5 1 120 TIMEBASE_STD 6 "NST";
    Rule 24 24 2 0 25 120 TIMEBASE_STD 6 "NST";
    Rule 25 25 5 5 1 120 TIMEBASE_STD 6 "NST";
    Rule 26 31 4 7 15 120 TIMEBASE_STD 6 "NST";
    Rule 32 32 4 7 22 120 TIMEBASE_STD 6 "NST";
    Rule 33 36 4 7 15 120 TIMEBASE_STD 6 "NST";
    Rule 37 37 4 7 22 120 TIMEBASE_STD 6 "NST";
    Rule 37 37 6 7 1 0 TIMEBASE_CUR 6 "S";
    Rule 37 39 9 0 2 120 TIMEBASE_STD 0 "";
    Rule 38 39 4 7 15 120 TIMEBASE_STD 6 "S";
    Rule 45 45 3 7 2 120 TIMEBASE_STD 6 "S";
    Rule 45 45 8 7 16 120 TIMEBASE_STD 0 "" ].

Definition rules_Nic : list lc_timezone_rule :=
  [ Rule 79 80 2 0 16 0 TIMEBASE_CUR 6 "D";
    Rule 79 80 5 1 23 0 TIMEBASE_CUR 0 "S";
    Rule 105 105 3 7 10 0 TIMEBASE_CUR 6 "D";
    Rule 105 105 9 0 1 0 TIMEBASE_CUR 0 "S";
    Rule 106 106 3 7 30 120 TIMEBASE_CUR 6 "D";
    Rule 106 106 9 0 1 60 TIMEBASE_CUR 0 "S" ].

Definition rules_Norway : list lc_timezone_rule :=
  [ Rule 16 16 4 7 22 60 TIMEBASE_CUR 6 "S";
    Rule 16 16 8 7 30 0 TIMEBASE_CUR 0 "";
    Rule 45 45 3 7 2 120 TIMEBASE_STD 6 "S";
    Rule 45 45 9 7 1 120 TIMEBASE_STD 0 "";
    Rule 59 64 2 0 15 120 TIMEBASE_STD 6 "S";
    Rule 59 65 8 0 15 120 TIMEBASE_STD 0 "";
    Rule 65 65 3 7 25 120 TIMEBASE_STD 6 "S" ].

Definition rules_PRC : list lc_timezone_rule :=
  [ Rule 86 86 4 7 4 0 TIMEBASE_CUR 6 "D";
    Rule 86 91 8 0 11 0 TIMEBASE_CUR 0 "S";
    Rule 87 91 3 0 10 0 TIMEBASE_CUR 6 "D" ].

Definition rules_Pakistan : list lc_timezone_rule :=
  [ Rule 102 102 3 0 2 0 TIMEBASE_CUR 6 "S";
    Rule 102 102 9 0 2 0 TIMEBASE_CUR 0 "";
    Rule 108 108 5 7 1 0 TIMEBASE_CUR 6 "S";
    Rule 108 109 10 7 1 0 TIMEBASE_CUR 0 "";
    Rule 109 109 3 7 15 0 TIMEBASE_CUR 6 "S" ].

Definition rules_Palestine : list lc_timezone_rule :=
  [ Rule 99 105 3 5 15 0 TIMEBASE_CUR 6 "S";
    Rule 99 103 9 5 15 0 TIMEBASE_CUR 0 "";
    Rule 104 104 9 7 1 60 TIMEBASE_CUR 0 "";
    Rule 105 105 9 7 4 120 TIMEBASE_CUR 0 "";
    Rule 106 107 3 7 1 0 TIMEBASE_CUR 6 "S";
    Rule 106 106 8 7 22 0 TIMEBASE_CUR 0 "";
    Rule 107 107 8 4 8 120 TIMEBASE_CUR 0 "";
    Rule 108 109 2 5 25 0 TIMEBASE_CUR 6 "S";
    Rule 108 108 8 7 1 0 TIMEBASE_CUR 0 "";
    Rule 109 109 8 5 1 60 TIMEBASE_CUR 0 "";
    Rule 110 110 2 7 26 0 TIMEBASE_CUR 6 "S";
    Rule 110 110 7 7 11 0 TIMEBASE_CUR 0 "";
    Rule 111 111 3 7 1 1 TIMEBASE_CUR 6 "S";
    Rule 111 111 7 7 1 0 TIMEBASE_CUR 0 "";
    Rule 111 111 7 7 30 0 TIMEBASE_CUR 6 "S";
    Rule 111 111 8 7 30 0 TIMEBASE_CUR 0 "";
    Rule 112 114 2 4 25 1440 TIMEBASE_CUR 6 "S";
    Rule 112 112 8 7 21 60 TIMEBASE_CUR 0 "";
    Rule 113 113 8 5 21 0 TIMEBASE_CUR 0 "";
    Rule 114 115 9 5 21 0 TIMEBASE_CUR 0 "";
    Rule 115 115 2 5 25 1440 TIMEBASE_CUR 6 "S";
    Rule 116 255 2 6 25 60 TIMEBASE_CUR 6 "S";
    Rule 116 255 9 6 25 60 TIMEBASE_CUR 0 "" ].

Definition rules_Para : list lc_timezone_rule :=
  [ Rule 75 78 2 7 1 0 TIMEBASE_CUR 0 "";
    Rule 75 88 9 7 1 0 TIMEBASE_CUR 6 "S";
    Rule 79 91 3 7 1 0 TIMEBASE_CUR 0 "";
    Rule 89 89 9 7 22 0 TIMEBASE_CUR 6 "S";
    Rule 90 90 9 7 1 0 TIMEBASE_CUR 6 "S";
    Rule 91 91 9 7 6 0 TIMEBASE_CUR 6 "S";
    Rule 92 92 2 7 1 0 TIMEBASE_CUR 0 "";
    Rule 92 92 9 7 5 0 TIMEBASE_CUR 6 "S";
    Rule 93 93 2 7 31 0 TIMEBASE_CUR 0 "";
    Rule 93 95 9 7 1 0 TIMEBASE_CUR 6 "S";
    Rule 94 95 1 0 22 0 TIMEBASE_CUR 0 "";
    Rule 96 96 2 7 1 0 TIMEBASE_CUR 0 "";
    Rule 96 101 9 0 1 0 TIMEBASE_CUR 6 "S";
    Rule 97 97 1 0 22 0 TIMEBASE_CUR 0 "";
    Rule 98 101 2 0 1 0 TIMEBASE_CUR 0 "";
    Rule 102 104 3 0 1 0 TIMEBASE_CUR 0 "";
    Rule 102 103 8 0 1 0 TIMEBASE_CUR 6 "S";
    Rule 104 109 9 0 15 0 TIMEBASE_CUR 6 "S";
    Rule 105 109 2 0 8 0 TIMEBASE_CUR 0 "";
    Rule 110 112 3 0 8 0 TIMEBASE_CUR 0 "";
    Rule 110 255 9 0 1 0 TIMEBASE_CUR 6 "S";
    Rule 113 255 2 0 22 0 TIMEBASE_CUR 0 "" ].

Definition rules_Perry : list lc_timezone_rule :=
  [ Rule 46 46 3 0 24 120 TIMEBASE_CUR 6 "D";
    Rule 46 46 8 0 24 120 TIMEBASE_CUR 0 "S";
    Rule 53 54 3 0 24 120 TIMEBASE_CUR 6 "D";
    Rule 53 59 8 0 24 120 TIMEBASE_CUR 0 "S";
    Rule 55 55 4 7 1 0 TIMEBASE_CUR 6 "D";
    Rule 56 63 3 0 24 120 TIMEBASE_CUR 6 "D";
    Rule 60 60 9 0 25 120 TIMEBASE_CUR 0 "S";
    Rule 61 61 8 0 24 120 TIMEBASE_CUR 0 "S";
    Rule 62 63 9 0 25 120 TIMEBASE_CUR 0 "S" ].

Definition rules_Peru : list lc_timezone_rule :=
  [ Rule 37 37 11 7 31 1440 TIMEBASE_CUR 6 "S";
    Rule 38 38 3 7 1 0 TIMEBASE_CUR 0 "";
    Rule 38 39 8 0 24 0 TIMEBASE_CUR 6 "S";
    Rule 39 40 2 0 24 0 TIMEBASE_CUR 0 "";
    Rule 85 86 11 7 31 1440 TIMEBASE_CUR 6 "S";
    Rule 86 87 3 7 1 0 TIMEBASE_CUR 0 "";
    Rule 89 89 11 7 31 1440 TIMEBASE_CUR 6 "S";
    Rule 90 90 3 7 1 0 TIMEBASE_CUR 0 "";
    Rule 93 93 11 7 31 1440 TIMEBASE_CUR 6 "S";
    Rule 94 94 3 7 1 0 TIMEBASE_CUR 0 "" ].

Definition rules_Phil : list lc_timezone_rule :=
  [ Rule 36 36 10 7 1 0 TIMEBASE_CUR 6 "S";
    Rule 37 37 1 7 1 0 TIMEBASE_CUR 0 "";
    Rule 54 54 3 7 12 0 TIMEBASE_CUR 6 "S";
    Rule 54 54 6 7 1 0 TIMEBASE_CUR 0 "";
    Rule 78 78 2 7 22 0 TIMEBASE_CUR 6 "S";
    Rule 78 78 8 7 21 0 TIMEBASE_CUR 0 "" ].

Definition rules_Pike : list lc_timezone_rule :=
  [ Rule 55 55 4 7 1 0 TIMEBASE_CUR 6 "D";
    Rule 55 60 8 0 24 120 TIMEBASE_CUR 0 "S";
    Rule 56 64 3 0 24 120 TIMEBASE_CUR 6 "D";
    Rule 61 64 9 0 25 120 TIMEBASE_CUR 0 "S" ].

Definition rules_Poland : list lc_timezone_rule :=
  [ Rule 18 19 8 7 16 120 TIMEBASE_STD 0 "";
    Rule 19 19 3 7 15 120 TIMEBASE_STD 6 "S";
    Rule 44 44 3 7 3 120 TIMEBASE_STD 6 "S";
    Rule 44 44 9 7 4 120 TIMEBASE_CUR 0 "";
    Rule 45 45 3 7 29 0 TIMEBASE_CUR 6 "S";
    Rule 45 45 10 7 1 0 TIMEBASE_CUR 0 "";
    Rule 46 46 3 7 14 0 TIMEBASE_STD 6 "S";
    Rule 46 46 9 7 7 120 TIMEBASE_STD 0 "";
    Rule 47 47 4 7 4 120 TIMEBASE_STD 6 "S";
    Rule 47 49 9 0 1 120 TIMEBASE_STD 0 "";
    Rule 48 48 3 7 18 120 TIMEBASE_STD 6 "S";
    Rule 49 49 3 7 10 120 TIMEBASE_STD 6 "S";
    Rule 57 57 5 7 2 60 TIMEBASE_STD 6 "S";
    Rule 57 58 8 0 24 60 TIMEBASE_STD 0 "";
    Rule 58 58 2 7 30 60 TIMEBASE_STD 6 "S";
    Rule 59 59 4 7 31 60 TIMEBASE_STD 6 "S";
    Rule 59 61 9 0 1 60 TIMEBASE_STD 0 "";
    Rule 60 60 3 7 3 60 TIMEBASE_STD 6 "S";
    Rule 61 64 4 0 25 60 TIMEBASE_STD 6 "S";
    Rule 62 64 8 0 24 60 TIMEBASE_STD 0 "" ].

Definition rules_Port : list lc_timezone_rule :=
  [ Rule 16 16 5 7 17 1380 TIMEBASE_CUR 6 "S";
    Rule 16 16 10 7 1 60 TIMEBASE_CUR 0 "";
    Rule 17 17 1 7 28 1380 TIMEBASE_STD 6 "S";
    Rule 17 21 9 7 14 1380 TIMEBASE_STD 0 "";
    Rule 18 18 2 7 1 1380 TIMEBASE_STD 6 "S";
    Rule 19 19 1 7 28 1380 TIMEBASE_STD 6 "S";
    Rule 20 20 1 7 29 1380 TIMEBASE_STD 6 "S";
    Rule 21 21 1 7 28 1380 TIMEBASE_STD 6 "S";
    Rule 24 24 3 7 16 1380 TIMEBASE_STD 6 "S";
    Rule 24 24 9 7 14 1380 TIMEBASE_STD 0 "";
    Rule 26 26 3 7 17 1380 TIMEBASE_STD 6 "S";
    Rule 26 29 9 6 1 1380 TIMEBASE_STD 0 "";
    Rule 27 27 3 7 9 1380 TIMEBASE_STD 6 "S";
    Rule 28 28 3 7 14 1380 TIMEBASE_STD 6 "S";
    Rule 29 29 3 7 20 1380 TIMEBASE_STD 6 "S";
    Rule 31 31 3 7 18 1380 TIMEBASE_STD 6 "S";
    Rule 31 32 9 6 1 1380 TIMEBASE_STD 0 "";
    Rule 32 32 3 7 2 1380 TIMEBASE_STD 6 "S";
    Rule 34 34 3 7 7 1380 TIMEBASE_STD 6 "S";
    Rule 34 38 9 6 1 1380 TIMEBASE_STD 0 "";
    Rule 35 35 2 7 30 1380 TIMEBASE_STD 6 "S";
    Rule 36 36 3 7 18 1380 TIMEBASE_STD 6 "S";
    Rule 37 37 3 7 3 1380 TIMEBASE_STD 6 "S";
    Rule 38 38 2 7 26 1380 TIMEBASE_STD 6 "S";
    Rule 39 39 3 7 15 1380 TIMEBASE_STD 6 "S";
    Rule 39 39 10 7 18 1380 TIMEBASE_STD 0 "";
    Rule 40 40 1 7 24 1380 TIMEBASE_STD 6 "S";
    Rule 40 41 9 7 5 1380 TIMEBASE_STD 0 "";
    Rule 41 41 3 7 5 1380 TIMEBASE_STD 6 "S";
    Rule 42 45 2 6 8 1380 TIMEBASE_STD 6 "S";
    Rule 42 42 3 7 25 1320 TIMEBASE_STD 12 "M";
    Rule 42 42 7 7 15 1320 TIMEBASE_STD 6 "S";
    Rule 42 45 9 6 24 1380 TIMEBASE_STD 0 "";
    Rule 43 43 3 7 17 1320 TIMEBASE_STD 12 "M";
    Rule 43 45 7 6 25 1320 TIMEBASE_STD 6 "S";
    Rule 44 45 3 6 21 1320 TIMEBASE_STD 12 "M";
    Rule 46 46 3 6 1 1380 TIMEBASE_STD 6 "S";
    Rule 46 46 9 6 1 1380 TIMEBASE_STD 0 "";
    Rule 47 49 3 0 1 120 TIMEBASE_STD 6 "S";
    Rule 47 49 9 0 1 120 TIMEBASE_STD 0 "";
    Rule 51 65 3 0 1 120 TIMEBASE_STD 6 "S";
    Rule 51 65 9 0 1 120 TIMEBASE_STD 0 "";
    Rule 77 77 2 7 27 0 TIMEBASE_STD 6 "S";
    Rule 77 77 8 7 25 0 TIMEBASE_STD 0 "";
    Rule 78 79 3 0 1 0 TIMEBASE_STD 6 "S";
    Rule 78 78 9 7 1 0 TIMEBASE_STD 0 "";
    Rule 79 82 8 0 24 60 TIMEBASE_STD 0 "";
    Rule 80 80 2 0 25 0 TIMEBASE_STD 6 "S";
    Rule 81 82 2 0 25 60 TIMEBASE_STD 6 "S";
    Rule 83 83 2 0 25 120 TIMEBASE_STD 6 "S" ].

Definition rules_Pulaski : list lc_timezone_rule :=
  [ Rule 46 60 3 0 24 120 TIMEBASE_CUR 6 "D";
    Rule 46 54 8 0 24 120 TIMEBASE_CUR 0 "S";
    Rule 55 56 9 0 25 120 TIMEBASE_CUR 0 "S";
    Rule 57 60 8 0 24 120 TIMEBASE_CUR 0 "S" ].

Definition rules_ROK : list lc_timezone_rule :=
  [ Rule 48 48 5 7 1 0 TIMEBASE_CUR 6 "D";
    Rule 48 48 8 7 13 0 TIMEBASE_CUR 0 "S";
    Rule 49 49 3 7 3 0 TIMEBASE_CUR 6 "D";
    Rule 49 51 8 0 8 0 TIMEBASE_CUR 0 "S";
    Rule 50 50 3 7 1 0 TIMEBASE_CUR 6 "D";
    Rule 51 51 4 7 6 0 TIMEBASE_CUR 6 "D";
    Rule 55 55 4 7 5 0 TIMEBASE_CUR 6 "D";
    Rule 55 55 8 7 9 0 TIMEBASE_CUR 0 "S";
    Rule 56 56 4 7 20 0 TIMEBASE_CUR 6 "D";
    Rule 56 56 8 7 30 0 TIMEBASE_CUR 0 "S";
    Rule 57 60 4 0 1 0 TIMEBASE_CUR 6 "D";
    Rule 57 60 8 0 18 0 TIMEBASE_CUR 0 "S";
    Rule 87 88 4 0 8 120 TIMEBASE_CUR 6 "D";
    Rule 87 88 9 0 8 180 TIMEBASE_CUR 0 "S" ].

Definition rules_Regina : list lc_timezone_rule :=
  [ Rule 18 18 3 7 14 120 TIMEBASE_CUR 6 "D";
    Rule 18 18 9 7 27 120 TIMEBASE_CUR 0 "S";
    Rule 30 34 4 0 1 0 TIMEBASE_CUR 6 "D";
    Rule 30 34 9 0 1 0 TIMEBASE_CUR 0 "S";
    Rule 37 41 3 0 8 0 TIMEBASE_CUR 6 "D";
    Rule 37 37 9 0 8 0 TIMEBASE_CUR 0 "S";
    Rule 38 38 9 0 1 0 TIMEBASE_CUR 0 "S";
    Rule 39 41 9 0 8 0 TIMEBASE_CUR 0 "S";
    Rule 42 42 1 7 9 120 TIMEBASE_CUR 6 "W";
    Rule 45 45 7 7 14 1380 TIMEBASE_UTC 6 "P";
    Rule 45 45 8 0 24 120 TIMEBASE_CUR 0 "S";
    Rule 46 46 3 0 8 120 TIMEBASE_CUR 6 "D";
    Rule 46 46 9 0 8 120 TIMEBASE_CUR 0 "S";
    Rule 47 57 3 0 24 120 TIMEBASE_CUR 6 "D";
    Rule 47 57 8 0 24 120 TIMEBASE_CUR 0 "S";
    Rule 59 59 3 0 24 120 TIMEBASE_CUR 6 "D";
    Rule 59 59 9 0 25 120 TIMEBASE_CUR 0 "S" ].

Definition rules_Romania : list lc_timezone_rule :=
  [ Rule 32 32 4 7 21 0 TIMEBASE_STD 6 "S";
    Rule 32 39 9 0 1 0 TIMEBASE_STD 0 "";
    Rule 33 39 3 0 2 0 TIMEBASE_STD 6 "S";
    Rule 79 79 4 7 27 0 TIMEBASE_CUR 6 "S";
    Rule 79 79 8 0 24 0 TIMEBASE_CUR 0 "";
    Rule 80 80 3 7 5 1380 TIMEBASE_CUR 6 "S";
    Rule 80 80 8 0 24 60 TIMEBASE_CUR 0 "";
    Rule 91 93 2 0 25 0 TIMEBASE_STD 6 "S";
    Rule 91 93 8 0 24 0 TIMEBASE_STD 0 "" ].

Definition rules_Russia : list lc_timezone_rule :=
  [ Rule 17 17 6 7 1 1380 TIMEBASE_CUR 6 "MST";
    Rule 17 17 11 7 28 0 TIMEBASE_CUR 0 "MMT";
    Rule 18 18 4 7 31 1320 TIMEBASE_CUR 12 "MDST";
    Rule 18 18 8 7 16 60 TIMEBASE_CUR 6 "MST";
    Rule 19 19 4 7 31 1380 TIMEBASE_CUR 12 "MDST";
    Rule 19 19 6 7 1 0 TIMEBASE_UTC 6 "MSD";
    Rule 19 19 7 7 16 0 TIMEBASE_CUR 0 "MSK";
    Rule 21 21 1 7 14 1380 TIMEBASE_CUR 6 "MSD";
    Rule 21 21 2 7 20 1380 TIMEBASE_CUR 12 "+05";
    Rule 21 21 8 7 1 0 TIMEBASE_CUR 6 "MSD";
    Rule 21 21 9 7 1 0 TIMEBASE_CUR 0 "";
    Rule 81 84 3 7 1 0 TIMEBASE_CUR 6 "S";
    Rule 81 83 9 7 1 0 TIMEBASE_CUR 0 "";
    Rule 84 95 8 0 24 120 TIMEBASE_STD 0 "";
    Rule 85 110 2 0 25 120 TIMEBASE_STD 6 "S";
    Rule 96 110 9 0 25 120 TIMEBASE_STD 0 "" ].

Definition rules_RussiaAsia : list lc_timezone_rule :=
  [ Rule 81 84 3 7 1 0 TIMEBASE_CUR 6 "S";
    Rule 81 83 9 7 1 0 TIMEBASE_CUR 0 "";
    Rule 84 95 8 0 24 120 TIMEBASE_STD 0 "";
    Rule 85 111 2 0 25 120 TIMEBASE_STD 6 "S";
    Rule 96 111 9 0 25 120 TIMEBASE_STD 0 "" ].

Definition rules_SA : list lc_timezone_rule :=
  [ Rule 42 43 8 0 15 120 TIMEBASE_CUR 6 "";
    Rule 43 44 2 0 15 120 TIMEBASE_CUR 0 "" ].

Definition rules_Salv : list lc_timezone_rule :=
  [ Rule 87 88 4 0 1 0 TIMEBASE_CUR 6 "D";
    Rule 87 88 8 0 24 0 TIMEBASE_CUR 0 "S" ].

Definition rules_SanLuis : list lc_timezone_rule :=
  [ Rule 107 108 9 0 8 0 TIMEBASE_CUR 6 "S";
    Rule 108 109 2 0 8 0 TIMEBASE_CUR 0 "" ].

Definition rules_Shang : list lc_timezone_rule :=
  [ Rule 40 40 5 7 3 0 TIMEBASE_CUR 6 "D";
    Rule 40 41 9 7 1 0 TIMEBASE_CUR 0 "S";
    Rule 41 41 2 7 16 0 TIMEBASE_CUR 6 "D" ].

Definition rules_SovietZone : list lc_timezone_rule :=
  [ Rule 45 45 4 7 24 120 TIMEBASE_CUR 12 "M";
    Rule 45 45 8 7 24 180 TIMEBASE_CUR 6 "S";
    Rule 45 45 10 7 18 120 TIMEBASE_STD 0 "" ].

Definition rules_Spain : list lc_timezone_rule :=
  [ Rule 18 18 3 7 15 1380 TIMEBASE_CUR 6 "S";
    Rule 18 19 9 7 6 1440 TIMEBASE_STD 0 "";
    Rule 19 19 3 7 6 1380 TIMEBASE_CUR 6 "S";
    Rule 24 24 3 7 16 1380 TIMEBASE_CUR 6 "S";
    Rule 24 24 9 7 4 1440 TIMEBASE_STD 0 "";
    Rule 26 26 3 7 17 1380 TIMEBASE_CUR 6 "S";
    Rule 26 29 9 6 1 1440 TIMEBASE_STD 0 "";
    Rule 27 27 3 7 9 1380 TIMEBASE_CUR 6 "S";
    Rule 28 28 3 7 15 0 TIMEBASE_CUR 6 "S";
    Rule 29 29 3 7 20 1380 TIMEBASE_CUR 6 "S";
    Rule 37 37 5 7 16 1380 TIMEBASE_CUR 6 "S";
    Rule 37 37 9 7 2 1440 TIMEBASE_STD 0 "";
    Rule 38 38 3 7 2 1380 TIMEBASE_CUR 6 "S";
    Rule 38 38 3 7 30 1380 TIMEBASE_CUR 12 "M";
    Rule 38 38 9 7 2 1440 TIMEBASE_CUR 6 "S";
    Rule 39 39 9 7 7 1440 TIMEBASE_STD 0 "";
    Rule 42 42 4 7 2 1380 TIMEBASE_CUR 6 "S";
    Rule 42 42 8 7 1 60 TIMEBASE_CUR 0 "";
    Rule 43 46 3 6 13 1380 TIMEBASE_CUR 6 "S";
    Rule 43 44 9 0 1 60 TIMEBASE_CUR 0 "";
    Rule 45 46 8 0 24 60 TIMEBASE_CUR 0 "";
    Rule 49 49 3 7 30 1380 TIMEBASE_CUR 6 "S";
    Rule 49 49 9 7 2 60 TIMEBASE_CUR 0 "";
    Rule 74 75 3 6 12 1380 TIMEBASE_CUR 6 "S";
    Rule 74 75 9 0 1 60 TIMEBASE_CUR 0 "";
    Rule 76 76 2 7 27 1380 TIMEBASE_CUR 6 "S";
    Rule 76 77 8 0 24 60 TIMEBASE_CUR 0 "";
    Rule 77 77 3 7 2 1380 TIMEBASE_CUR 6 "S";
    Rule 78 78 3 7 2 120 TIMEBASE_STD 6 "S";
    Rule 78 78 9 7 1 120 TIMEBASE_STD 0 "" ].

Definition rules_SpainAfrica : list lc_timezone_rule :=
  [ Rule 67 67 5 7 3 720 TIMEBASE_CUR 6 "S";
    Rule 67 67 9 7 1 0 TIMEBASE_CUR 0 "";
    Rule 74 74 5 7 24 0 TIMEBASE_CUR 6 "S";
    Rule 74 74 8 7 1 0 TIMEBASE_CUR 0 "";
    Rule 76 77 4 7 1 0 TIMEBASE_CUR 6 "S";
    Rule 76 76 7 7 1 0 TIMEBASE_CUR 0 "";
    Rule 77 77 8 7 28 0 TIMEBASE_CUR 0 "";
    Rule 78 78 5 7 1 0 TIMEBASE_CUR 6 "S";
    Rule 78 78 7 7 4 0 TIMEBASE_CUR 0 "" ].

Definition rules_StJohns : list lc_timezone_rule :=
  [ Rule 17 17 3 7 8 120 TIMEBASE_CUR 6 "D";
    Rule 17 17 8 7 17 120 TIMEBASE_CUR 0 "S";
    Rule 19 19 4 7 5 1380 TIMEBASE_CUR 6 "D";
    Rule 19 19 7 7 12 1380 TIMEBASE_CUR 0 "S";
    Rule 20 35 4 0 1 1380 TIMEBASE_CUR 6 "D";
    Rule 20 35 9 0 25 1380 TIMEBASE_CUR 0 "S";
    Rule 36 41 4 1 9 0 TIMEBASE_CUR 6 "D";
    Rule 36 41 9 1 2 0 TIMEBASE_CUR 0 "S";
    Rule 46 50 4 0 8 120 TIMEBASE_CUR 6 "D";
    Rule 46 50 9 0 2 120 TIMEBASE_CUR 0 "S";
    Rule 51 86 3 0 24 120 TIMEBASE_CUR 6 "D";
    Rule 51 59 8 0 24 120 TIMEBASE_CUR 0 "S";
    Rule 60 86 9 0 25 120 TIMEBASE_CUR 0 "S";
    Rule 87 87 3 0 1 1 TIMEBASE_CUR 6 "D";
    Rule 87 106 9 0 25 1 TIMEBASE_CUR 0 "S";
    Rule 88 88 3 0 1 1 TIMEBASE_CUR 12 "DD";
    Rule 89 106 3 0 1 1 TIMEBASE_CUR 6 "D";
    Rule 107 111 2 0 8 1 TIMEBASE_CUR 6 "D";
    Rule 107 110 10 0 1 1 TIMEBASE_CUR 0 "S" ].

Definition rules_Starke : list lc_timezone_rule :=
  [ Rule 47 61 3 0 24 120 TIMEBASE_CUR 6 "D";
    Rule 47 54 8 0 24 120 TIMEBASE_CUR 0 "S";
    Rule 55 56 9 0 25 120 TIMEBASE_CUR 0 "S";
    Rule 57 58 8 0 24 120 TIMEBASE_CUR 0 "S";
    Rule 59 61 9 0 25 120 TIMEBASE_CUR 0 "S" ].

Definition rules_Sudan : list lc_timezone_rule :=
  [ Rule 70 70 4 7 1 0 TIMEBASE_CUR 6 "S";
    Rule 70 85 9 7 15 0 TIMEBASE_CUR 0 "";
    Rule 71 71 3 7 30 0 TIMEBASE_CUR 6 "S";
    Rule 72 85 3 0 24 0 TIMEBASE_CUR 6 "S" ].

Definition rules_Swift : list lc_timezone_rule :=
  [ Rule 57 57 3 0 24 120 TIMEBASE_CUR 6 "D";
    Rule 57 57 9 0 25 120 TIMEBASE_CUR 0 "S";
    Rule 59 61 3 0 24 120 TIMEBASE_CUR 6 "D";
    Rule 59 59 9 0 25 120 TIMEBASE_CUR 0 "S";
    Rule 60 61 8 0 24 120 TIMEBASE_CUR 0 "S" ].

Definition rules_Swiss : list lc_timezone_rule :=
  [ Rule 41 42 4 1 1 60 TIMEBASE_CUR 6 "S";
    Rule 41 42 9 1 1 120 TIMEBASE_CUR 0 "" ].

Definition rules_Syria : list lc_timezone_rule :=
  [ Rule 20 23 3 0 15 120 TIMEBASE_CUR 6 "S";
    Rule 20 23 9 0 1 120 TIMEBASE_CUR 0 "";
    Rule 62 62 3 7 29 120 TIMEBASE_CUR 6 "S";
    Rule 62 62 9 7 1 120 TIMEBASE_CUR 0 "";
    Rule 63 65 4 7 1 120 TIMEBASE_CUR 6 "S";
    Rule 63 63 8 7 30 120 TIMEBASE_CUR 0 "";
    Rule 64 64 9 7 1 120 TIMEBASE_CUR 0 "";
    Rule 65 65 8 7 30 120 TIMEBASE_CUR 0 "";
    Rule 66 66 3 7 24 120 TIMEBASE_CUR 6 "S";
    Rule 66 76 9 7 1 120 TIMEBASE_CUR 0 "";
    Rule 67 78 4 7 1 120 TIMEBASE_CUR 6 "S";
    Rule 77 78 8 7 1 120 TIMEBASE_CUR 0 "";
    Rule 83 84 3 7 9 120 TIMEBASE_CUR 6 "S";
    Rule 83 84 9 7 1 120 TIMEBASE_CUR 0 "";
    Rule 86 86 1 7 16 120 TIMEBASE_CUR 6 "S";
    Rule 86 86 9 7 9 120 TIMEBASE_CUR 0 "";
    Rule 87 87 2 7 1 120 TIMEBASE_CUR 6 "S";
    Rule 87 88 9 7 31 120 TIMEBASE_CUR 0 "";
    Rule 88 88 2 7 15 120 TIMEBASE_CUR 6 "S";
    Rule 89 89 2 7 31 120 TIMEBASE_CUR 6 "S";
    Rule 89 89 9 7 1 120 TIMEBASE_CUR 0 "";
    Rule 90 90 3 7 1 120 TIMEBASE_CUR 6 "S";
    Rule 90 90 8 7 30 120 TIMEBASE_CUR 0 "";
    Rule 91 91 3 7 1 0 TIMEBASE_CUR 6 "S";
    Rule 91 92 9 7 1 0 TIMEBASE_CUR 0 "";
    Rule 92 92 3 7 8 0 TIMEBASE_CUR 6 "S";
    Rule 93 93 2 7 26 0 TIMEBASE_CUR 6 "S";
    Rule 93 93 8 7 25 0 TIMEBASE_CUR 0 "";
    Rule 94 96 3 7 1 0 TIMEBASE_CUR 6 "S";
    Rule 94 105 9 7 1 0 TIMEBASE_CUR 0 "";
    Rule 97 98 2 1 25 0 TIMEBASE_CUR 6 "S";
    Rule 99 106 3 7 1 0 TIMEBASE_CUR 6 "S";
    Rule 106 106 8 7 22 0 TIMEBASE_CUR 0 "";
    Rule 107 107 2 5 25 0 TIMEBASE_CUR 6 "S";
    Rule 107 107 10 5 1 0 TIMEBASE_CUR 0 "";
    Rule 108 108 3 5 1 0 TIMEBASE_CUR 6 "S";
    Rule 108 108 10 7 1 0 TIMEBASE_CUR 0 "";
    Rule 109 109 2 5 25 0 TIMEBASE_CUR 6 "S";
    Rule 109 255 9 5 25 0 TIMEBASE_CUR 0 "";
    Rule 110 111 3 5 1 0 TIMEBASE_CUR 6 "S";
    Rule 112 255 2 5 25 0 TIMEBASE_CUR 6 "S" ].

Definition rules_Taiwan : list lc_timezone_rule :=
  [ Rule 46 46 4 7 15 0 TIMEBASE_CUR 6 "D";
    Rule 46 46 9 7 1 0 TIMEBASE_CUR 0 "S";
    Rule 47 47 3 7 15 0 TIMEBASE_CUR 6 "D";
    Rule 47 47 10 7 1 0 TIMEBASE_CUR 0 "S";
    Rule 48 51 4 7 1 0 TIMEBASE_CUR 6 "D";
    Rule 48 51 9 7 1 0 TIMEBASE_CUR 0 "S";
    Rule 52 52 2 7 1 0 TIMEBASE_CUR 6 "D";
    Rule 52 54 10 7 1 0 TIMEBASE_CUR 0 "S";
    Rule 53 59 3 7 1 0 TIMEBASE_CUR 6 "D";
    Rule 55 61 9 7 1 0 TIMEBASE_CUR 0 "S";
    Rule 60 61 5 7 1 0 TIMEBASE_CUR 6 "D";
    Rule 74 75 3 7 1 0 TIMEBASE_CUR 6 "D";
    Rule 74 75 9 7 1 0 TIMEBASE_CUR 0 "S";
    Rule 79 79 6 7 1 0 TIMEBASE_CUR 6 "D";
    Rule 79 79 9 7 1 0 TIMEBASE_CUR 0 "S" ].

Definition rules_Thule : list lc_timezone_rule :=
  [ Rule 91 92 2 0 25 120 TIMEBASE_CUR 6 "D";
    Rule 91 92 8 0 24 120 TIMEBASE_CUR 0 "S";
    Rule 93 106 3 0 1 120 TIMEBASE_CUR 6 "D";
    Rule 93 106 9 0 25 120 TIMEBASE_CUR 0 "S";
    Rule 107 255 2 0 8 120 TIMEBASE_CUR 6 "D";
    Rule 107 255 10 0 1 120 TIMEBASE_CUR 0 "S" ].

Definition rules_Tonga : list lc_timezone_rule :=
  [ Rule 99 99 9 7 7 120 TIMEBASE_STD 6 "S";
    Rule 100 100 2 7 19 120 TIMEBASE_STD 0 "";
    Rule 100 101 10 0 1 120 TIMEBASE_CUR 6 "S";
    Rule 101 102 0 0 25 120 TIMEBASE_CUR 0 "";
    Rule 116 255 10 0 1 120 TIMEBASE_CUR 6 "S";
    Rule 117 255 0 0 15 180 TIMEBASE_CUR 0 "" ].

Definition rules_Toronto : list lc_timezone_rule :=
  [ Rule 19 19 2 7 30 1410 TIMEBASE_CUR 6 "D";
    Rule 19 19 9 7 26 0 TIMEBASE_CUR 0 "S";
    Rule 20 20 4 7 2 120 TIMEBASE_CUR 6 "D";
    Rule 20 20 8 7 26 0 TIMEBASE_CUR 0 "S";
    Rule 21 21 4 7 15 120 TIMEBASE_CUR 6 "D";
    Rule 21 21 8 7 15 120 TIMEBASE_CUR 0 "S";
    Rule 22 23 4 0 8 120 TIMEBASE_CUR 6 "D";
    Rule 22 26 8 0 15 120 TIMEBASE_CUR 0 "S";
    Rule 24 27 4 0 1 120 TIMEBASE_CUR 6 "D";
    Rule 27 32 8 0 24 120 TIMEBASE_CUR 0 "S";
    Rule 28 31 3 0 24 120 TIMEBASE_CUR 6 "D";
    Rule 32 32 4 7 1 120 TIMEBASE_CUR 6 "D";
    Rule 33 40 3 0 24 120 TIMEBASE_CUR 6 "D";
    Rule 33 33 9 7 1 120 TIMEBASE_CUR 0 "S";
    Rule 34 39 8 0 24 120 TIMEBASE_CUR 0 "S";
    Rule 45 46 8 0 24 120 TIMEBASE_CUR 0 "S";
    Rule 46 46 3 0 24 120 TIMEBASE_CUR 6 "D";
    Rule 47 49 3 0 24 0 TIMEBASE_CUR 6 "D";
    Rule 47 48 8 0 24 0 TIMEBASE_CUR 0 "S";
    Rule 49 49 10 0 24 0 TIMEBASE_CUR 0 "S";
    Rule 50 73 3 0 24 120 TIMEBASE_CUR 6 "D";
    Rule 50 50 10 0 24 120 TIMEBASE_CUR 0 "S";
    Rule 51 56 8 0 24 120 TIMEBASE_CUR 0 "S";
    Rule 57 73 9 0 25 120 TIMEBASE_CUR 0 "S" ].

Definition rules_Troll : list lc_timezone_rule :=
  [ Rule 104 255 9 0 25 60 TIMEBASE_UTC 0 "+00";
    Rule 105 255 2 0 25 60 TIMEBASE_UTC 12 "+02" ].

Definition rules_Tunisia : list lc_timezone_rule :=
  [ Rule 39 39 3 7 15 1380 TIMEBASE_STD 6 "S";
    Rule 39 39 10 7 18 1380 TIMEBASE_STD 0 "";
    Rule 40 40 1 7 25 1380 TIMEBASE_STD 6 "S";
    Rule 41 41 9 7 6 0 TIMEBASE_CUR 0 "";
    Rule 42 42 2 7 9 0 TIMEBASE_CUR 6 "S";
    Rule 42 42 10 7 2 180 TIMEBASE_CUR 0 "";
    Rule 43 43 2 7 29 120 TIMEBASE_CUR 6 "S";
    Rule 43 43 3 7 17 120 TIMEBASE_CUR 0 "";
    Rule 43 43 3 7 25 120 TIMEBASE_CUR 6 "S";
    Rule 43 43 9 7 4 120 TIMEBASE_CUR 0 "";
    Rule 44 45 3 1 1 120 TIMEBASE_CUR 6 "S";
    Rule 44 44 9 7 8 0 TIMEBASE_CUR 0 "";
    Rule 45 45 8 7 16 0 TIMEBASE_CUR 0 "";
    Rule 77 77 3 7 30 0 TIMEBASE_STD 6 "S";
    Rule 77 77 8 7 24 0 TIMEBASE_STD 0 "";
    Rule 78 78 4 7 1 0 TIMEBASE_STD 6 "S";
    Rule 78 78 9 7 1 0 TIMEBASE_STD 0 "";
    Rule 88 88 5 7 1 0 TIMEBASE_STD 6 "S";
    Rule 88 90 8 0 24 0 TIMEBASE_STD 0 "";
    Rule 89 89 2 7 26 0 TIMEBASE_STD 6 "S";
    Rule 90 90 4 7 1 0 TIMEBASE_STD 6 "S";
    Rule 105 105 4 7 1 0 TIMEBASE_STD 6 "S";
    Rule 105 105 8 7 30 60 TIMEBASE_STD 0 "";
    Rule 106 108 2 0 25 120 TIMEBASE_STD 6 "S";
    Rule 106 108 9 0 25 120 TIMEBASE_STD 0 "" ].

Definition rules_Turkey : list lc_timezone_rule :=
  [ Rule 16 16 4 7 1 0 TIMEBASE_CUR 6 "S";
    Rule 16 16 9 7 1 0 TIMEBASE_CUR 0 "";
    Rule 20 20 2 7 28 0 TIMEBASE_CUR 6 "S";
    Rule 20 20 9 7 25 0 TIMEBASE_CUR 0 "";
    Rule 21 21 3 7 3 0 TIMEBASE_CUR 6 "S";
    Rule 21 21 9 7 3 0 TIMEBASE_CUR 0 "";
    Rule 22 22 2 7 26 0 TIMEBASE_CUR 6 "S";
    Rule 22 22 9 7 8 0 TIMEBASE_CUR 0 "";
    Rule 24 24 4 7 13 0 TIMEBASE_CUR 6 "S";
    Rule 24 25 9 7 1 0 TIMEBASE_CUR 0 "";
    Rule 25 25 4 7 1 0 TIMEBASE_CUR 6 "S";
    Rule 40 40 5 7 30 0 TIMEBASE_CUR 6 "S";
    Rule 40 40 9 7 5 0 TIMEBASE_CUR 0 "";
    Rule 40 40 11 7 1 0 TIMEBASE_CUR 6 "S";
    Rule 41 41 8 7 21 0 TIMEBASE_CUR 0 "";
    Rule 42 42 3 7 1 0 TIMEBASE_CUR 6 "S";
    Rule 42 42 10 7 1 0 TIMEBASE_CUR 0 "";
    Rule 45 45 3 7 2 0 TIMEBASE_CUR 6 "S";
    Rule 45 45 9 7 8 0 TIMEBASE_CUR 0 "";
    Rule 46 46 5 7 1 0 TIMEBASE_CUR 6 "S";
    Rule 46 46 9 7 1 0 TIMEBASE_CUR 0 "";
    Rule 47 48 3 0 16 0 TIMEBASE_CUR 6 "S";
    Rule 47 50 9 0 2 0 TIMEBASE_CUR 0 "";
    Rule 49 49 3 7 10 0 TIMEBASE_CUR 6 "S";
    Rule 50 50 3 7 19 0 TIMEBASE_CUR 6 "S";
    Rule 51 51 3 7 22 0 TIMEBASE_CUR 6 "S";
    Rule 51 51 9 7 8 0 TIMEBASE_CUR 0 "";
    Rule 62 62 6 7 15 0 TIMEBASE_CUR 6 "S";
    Rule 62 62 9 7 8 0 TIMEBASE_CUR 0 "";
    Rule 64 64 4 7 15 0 TIMEBASE_CUR 6 "S";
    Rule 64 64 9 7 1 0 TIMEBASE_CUR 0 "";
    Rule 70 72 4 0 2 0 TIMEBASE_CUR 6 "S";
    Rule 70 72 9 0 2 0 TIMEBASE_CUR 0 "";
    Rule 73 73 5 7 3 60 TIMEBASE_CUR 6 "S";
    Rule 73 73 10 7 4 180 TIMEBASE_CUR 0 "";
    Rule 74 74 2 7 31 120 TIMEBASE_CUR 6 "S";
    Rule 74 74 10 7 3 300 TIMEBASE_CUR 0 "";
    Rule 75 75 2 7 30 0 TIMEBASE_CUR 6 "S";
    Rule 75 76 9 0 25 0 TIMEBASE_CUR 0 "";
    Rule 76 76 5 7 1 0 TIMEBASE_CUR 6 "S";
    Rule 77 78 3 0 1 0 TIMEBASE_CUR 6 "S";
    Rule 77 77 9 7 16 0 TIMEBASE_CUR 0 "";
    Rule 79 80 3 0 1 180 TIMEBASE_CUR 6 "S";
    Rule 79 82 9 1 11 0 TIMEBASE_CUR 0 "";
    Rule 81 82 2 0 25 180 TIMEBASE_CUR 6 "S";
    Rule 83 83 6 7 31 0 TIMEBASE_CUR 6 "S";
    Rule 83 83 9 7 2 0 TIMEBASE_CUR 0 "";
    Rule 85 85 3 7 20 0 TIMEBASE_CUR 6 "S";
    Rule 85 85 8 7 28 0 TIMEBASE_CUR 0 "";
    Rule 86 93 2 0 25 60 TIMEBASE_STD 6 "S";
    Rule 86 95 8 0 24 60 TIMEBASE_STD 0 "";
    Rule 94 94 2 7 20 60 TIMEBASE_STD 6 "S";
    Rule 95 106 2 0 25 60 TIMEBASE_STD 6 "S";
    Rule 96 106 9 0 25 60 TIMEBASE_STD 0 "" ].

Definition rules_US : list lc_timezone_rule :=
  [ Rule 18 19 2 0 25 120 TIMEBASE_CUR 6 "D";
    Rule 18 19 9 0 25 120 TIMEBASE_CUR 0 "S";
    Rule 42 42 1 7 9 120 TIMEBASE_CUR 6 "W";
    Rule 45 45 7 7 14 1380 TIMEBASE_UTC 6 "P";
    Rule 45 45 8 0 24 120 TIMEBASE_CUR 0 "S";
    Rule 67 73 3 0 24 120 TIMEBASE_CUR 6 "D";
    Rule 67 106 9 0 25 120 TIMEBASE_CUR 0 "S";
    Rule 74 74 0 7 6 120 TIMEBASE_CUR 6 "D";
    Rule 75 75 1 7 23 120 TIMEBASE_CUR 6 "D";
    Rule 76 86 3 0 24 120 TIMEBASE_CUR 6 "D";
    Rule 87 106 3 0 1 120 TIMEBASE_CUR 6 "D";
    Rule 107 255 2 0 8 120 TIMEBASE_CUR 6 "D";
    Rule 107 255 10 0 1 120 TIMEBASE_CUR 0 "S" ].

Definition rules_Uruguay : list lc_timezone_rule :=
  [ Rule 23 23 9 7 2 0 TIMEBASE_CUR 3 "HS";
    Rule 24 26 3 7 1 0 TIMEBASE_CUR 0 "";
    Rule 24 25 9 7 1 0 TIMEBASE_CUR 3 "HS";
    Rule 33 35 9 0 25 0 TIMEBASE_CUR 3 "HS";
    Rule 34 36 2 6 25 1410 TIMEBASE_STD 0 "";
    Rule 36 36 10 7 1 0 TIMEBASE_CUR 3 "HS";
    Rule 37 41 2 0 25 0 TIMEBASE_CUR 0 "";
    Rule 37 40 9 0 25 0 TIMEBASE_CUR 3 "HS";
    Rule 41 41 7 7 1 0 TIMEBASE_CUR 3 "HS";
    Rule 41 41 11 7 31 1440 TIMEBASE_CUR 0 "";
    Rule 42 42 11 7 14 0 TIMEBASE_CUR 6 "S";
    Rule 43 43 2 7 14 0 TIMEBASE_CUR 0 "";
    Rule 59 59 4 7 24 0 TIMEBASE_CUR 6 "S";
    Rule 59 59 10 7 15 0 TIMEBASE_CUR 0 "";
    Rule 60 60 0 7 17 0 TIMEBASE_CUR 6 "S";
    Rule 60 60 2 7 6 0 TIMEBASE_CUR 0 "";
    Rule 65 67 3 0 1 0 TIMEBASE_CUR 6 "S";
    Rule 65 65 8 7 26 0 TIMEBASE_CUR 0 "";
    Rule 66 67 9 7 31 0 TIMEBASE_CUR 0 "";
    Rule 68 70 4 7 27 0 TIMEBASE_CUR 3 "HS";
    Rule 68 70 11 7 2 0 TIMEBASE_CUR 0 "";
    Rule 72 72 3 7 24 0 TIMEBASE_CUR 6 "S";
    Rule 72 72 7 7 15 0 TIMEBASE_CUR 0 "";
    Rule 74 74 2 7 10 0 TIMEBASE_CUR 3 "HS";
    Rule 74 74 11 7 22 0 TIMEBASE_CUR 6 "S";
    Rule 76 76 9 7 1 0 TIMEBASE_CUR 0 "";
    Rule 77 77 11 7 4 0 TIMEBASE_CUR 6 "S";
    Rule 78 78 3 7 1 0 TIMEBASE_CUR 0 "";
    Rule 79 79 9 7 1 0 TIMEBASE_CUR 6 "S";
    Rule 80 80 4 7 1 0 TIMEBASE_CUR 0 "";
    Rule 87 87 11 7 14 0 TIMEBASE_CUR 6 "S";
    Rule 88 88 2 7 14 0 TIMEBASE_CUR 0 "";
    Rule 88 88 11 7 11 0 TIMEBASE_CUR 6 "S";
    Rule 89 89 2 7 12 0 TIMEBASE_CUR 0 "";
    Rule 89 89 9 7 29 0 TIMEBASE_CUR 6 "S";
    Rule 90 92 2 0 1 0 TIMEBASE_CUR 0 "";
    Rule 90 91 9 0 21 0 TIMEBASE_CUR 6 "S";
    Rule 92 92 9 7 18 0 TIMEBASE_CUR 6 "S";
    Rule 93 93 1 7 28 0 TIMEBASE_CUR 0 "";
    Rule 104 104 8 7 19 0 TIMEBASE_CUR 6 "S";
    Rule 105 105 2 7 27 120 TIMEBASE_CUR 0 "";
    Rule 105 105 9 7 9 120 TIMEBASE_CUR 6 "S";
    Rule 106 106 2 7 12 120 TIMEBASE_CUR 0 "";
    Rule 106 114 9 0 1 120 TIMEBASE_CUR 6 "S";
    Rule 107 115 2 0 8 120 TIMEBASE_CUR 0 "" ].

Definition rules_Vanc : list lc_timezone_rule :=
  [ Rule 18 18 3 7 14 120 TIMEBASE_CUR 6 "D";
    Rule 18 18 9 7 27 120 TIMEBASE_CUR 0 "S";
    Rule 42 42 1 7 9 120 TIMEBASE_CUR 6 "W";
    Rule 45 45 7 7 14 1380 TIMEBASE_UTC 6 "P";
    Rule 45 45 8 7 30 120 TIMEBASE_CUR 0 "S";
    Rule 46 86 3 0 24 120 TIMEBASE_CUR 6 "D";
    Rule 46 46 9 7 13 120 TIMEBASE_CUR 0 "S";
    Rule 47 61 8 0 24 120 TIMEBASE_CUR 0 "S";
    Rule 62 106 9 0 25 120 TIMEBASE_CUR 0 "S" ].

Definition rules_Vanuatu : list lc_timezone_rule :=
  [ Rule 83 83 8 7 25 0 TIMEBASE_CUR 6 "S";
    Rule 84 91 2 0 23 0 TIMEBASE_CUR 0 "";
    Rule 84 84 9 7 23 0 TIMEBASE_CUR 6 "S";
    Rule 85 91 8 0 23 0 TIMEBASE_CUR 6 "S";
    Rule 92 93 0 0 23 0 TIMEBASE_CUR 0 "";
    Rule 92 92 9 0 23 0 TIMEBASE_CUR 6 "S" ].

Definition rules_Vincennes : list lc_timezone_rule :=
  [ Rule 46 46 3 0 24 120 TIMEBASE_CUR 6 "D";
    Rule 46 46 8 0 24 120 TIMEBASE_CUR 0 "S";
    Rule 53 54 3 0 24 120 TIMEBASE_CUR 6 "D";
    Rule 53 59 8 0 24 120 TIMEBASE_CUR 0 "S";
    Rule 55 55 4 7 1 0 TIMEBASE_CUR 6 "D";
    Rule 56 63 3 0 24 120 TIMEBASE_CUR 6 "D";
    Rule 60 60 9 0 25 120 TIMEBASE_CUR 0 "S";
    Rule 61 61 8 0 24 120 TIMEBASE_CUR 0 "S";
    Rule 62 63 9 0 25 120 TIMEBASE_CUR 0 "S" ].

Definition rules_WS : list lc_timezone_rule :=
  [ Rule 110 110 8 0 24 0 TIMEBASE_CUR 6 "D";
    Rule 111 111 3 6 1 240 TIMEBASE_CUR 0 "S";
    Rule 111 111 8 6 24 180 TIMEBASE_CUR 6 "D";
    Rule 112 255 3 0 1 240 TIMEBASE_CUR 0 "S";
    Rule 112 255 8 0 24 180 TIMEBASE_CUR 6 "D" ].

Definition rules_W_Eur : list lc_timezone_rule :=
  [ Rule 77 80 3 0 1 60 TIMEBASE_STD 6 "S";
    Rule 77 77 8 0 24 60 TIMEBASE_STD 0 "";
    Rule 78 78 9 7 1 60 TIMEBASE_STD 0 "";
    Rule 79 95 8 0 24 60 TIMEBASE_STD 0 "";
    Rule 81 255 2 0 25 60 TIMEBASE_STD 6 "S";
    Rule 96 255 9 0 25 60 TIMEBASE_STD 0 "" ].

Definition rules_Winn : list lc_timezone_rule :=
  [ Rule 16 16 3 7 23 0 TIMEBASE_CUR 6 "D";
    Rule 16 16 8 7 17 0 TIMEBASE_CUR 0 "S";
    Rule 18 18 3 7 14 120 TIMEBASE_CUR 6 "D";
    Rule 18 18 9 7 27 120 TIMEBASE_CUR 0 "S";
    Rule 37 37 4 7 16 120 TIMEBASE_CUR 6 "D";
    Rule 37 37 8 7 26 120 TIMEBASE_CUR 0 "S";
    Rule 42 42 1 7 9 120 TIMEBASE_CUR 6 "W";
    Rule 45 45 7 7 14 1380 TIMEBASE_UTC 6 "P";
    Rule 45 45 8 0 24 120 TIMEBASE_CUR 0 "S";
    Rule 46 46 4 7 12 120 TIMEBASE_CUR 6 "D";
    Rule 46 46 9 7 13 120 TIMEBASE_CUR 0 "S";
    Rule 47 49 3 0 24 120 TIMEBASE_CUR 6 "D";
    Rule 47 49 8 0 24 120 TIMEBASE_CUR 0 "S";
    Rule 50 50 4 7 1 120 TIMEBASE_CUR 6 "D";
    Rule 50 50 8 7 30 120 TIMEBASE_CUR 0 "S";
    Rule 51 60 3 0 24 120 TIMEBASE_CUR 6 "D";
    Rule 51 58 8 0 24 120 TIMEBASE_CUR 0 "S";
    Rule 59 59 9 0 25 120 TIMEBASE_CUR 0 "S";
    Rule 60 60 8 0 24 120 TIMEBASE_CUR 0 "S";
    Rule 63 63 3 0 24 120 TIMEBASE_CUR 6 "D";
    Rule 63 63 8 7 22 120 TIMEBASE_CUR 0 "S";
    Rule 66 86 3 0 24 120 TIMEBASE_STD 6 "D";
    Rule 66 105 9 0 25 120 TIMEBASE_STD 0 "S";
    Rule 87 105 3 0 1 120 TIMEBASE_STD 6 "D" ].

Definition rules_Zion : list lc_timezone_rule :=
  [ Rule 40 40 5 7 1 0 TIMEBASE_CUR 6 "D";
    Rule 42 44 10 7 1 0 TIMEBASE_CUR 0 "S";
    Rule 43 43 3 7 1 120 TIMEBASE_CUR 6 "D";
    Rule 44 44 3 7 1 0 TIMEBASE_CUR 6 "D";
    Rule 45 45 3 7 16 0 TIMEBASE_CUR 6 "D";
    Rule 45 45 10 7 1 120 TIMEBASE_CUR 0 "S";
    Rule 46 46 3 7 16 120 TIMEBASE_CUR 6 "D";
    Rule 46 46 10 7 1 0 TIMEBASE_CUR 0 "S";
    Rule 48 48 4 7 23 0 TIMEBASE_CUR 12 "DD";
    Rule 48 48 8 7 1 0 TIMEBASE_CUR 6 "D";
    Rule 48 49 10 7 1 120 TIMEBASE_CUR 0 "S";
    Rule 49 49 4 7 1 0 TIMEBASE_CUR 6 "D";
    Rule 50 50 3 7 16 0 TIMEBASE_CUR 6 "D";
    Rule 50 50 8 7 15 180 TIMEBASE_CUR 0 "S";
    Rule 51 51 3 7 1 0 TIMEBASE_CUR 6 "D";
    Rule 51 51 10 7 11 180 TIMEBASE_CUR 0 "S";
    Rule 52 52 3 7 20 120 TIMEBASE_CUR 6 "D";
    Rule 52 52 9 7 19 180 TIMEBASE_CUR 0 "S";
    Rule 53 53 3 7 12 120 TIMEBASE_CUR 6 "D";
    Rule 53 53 8 7 13 180 TIMEBASE_CUR 0 "S";
    Rule 54 54 5 7 13 0 TIMEBASE_CUR 6 "D";
    Rule 54 54 8 7 12 0 TIMEBASE_CUR 0 "S";
    Rule 55 55 5 7 11 120 TIMEBASE_CUR 6 "D";
    Rule 55 55 8 7 11 0 TIMEBASE_CUR 0 "S";
    Rule 56 56 5 7 3 0 TIMEBASE_CUR 6 "D";
    Rule 56 56 8 7 30 180 TIMEBASE_CUR 0 "S";
    Rule 57 57 3 7 29 120 TIMEBASE_CUR 6 "D";
    Rule 57 57 8 7 22 0 TIMEBASE_CUR 0 "S";
    Rule 74 74 6 7 7 0 TIMEBASE_CUR 6 "D";
    Rule 74 74 9 7 13 0 TIMEBASE_CUR 0 "S";
    Rule 75 75 3 7 20 0 TIMEBASE_CUR 6 "D";
    Rule 75 75 7 7 31 0 TIMEBASE_CUR 0 "S";
    Rule 85 85 3 7 14 0 TIMEBASE_CUR 6 "D";
    Rule 85 85 8 7 15 0 TIMEBASE_CUR 0 "S";
    Rule 86 86 4 7 18 0 TIMEBASE_CUR 6 "D";
    Rule 86 86 8 7 7 0 TIMEBASE_CUR 0 "S";
    Rule 87 87 3 7 15 0 TIMEBASE_CUR 6 "D";
    Rule 87 87 8 7 13 0 TIMEBASE_CUR 0 "S";
    Rule 88 88 3 7 10 0 TIMEBASE_CUR 6 "D";
    Rule 88 88 8 7 4 0 TIMEBASE_CUR 0 "S";
    Rule 89 89 3 7 30 0 TIMEBASE_CUR 6 "D";
    Rule 89 89 8 7 3 0 TIMEBASE_CUR 0 "S";
    Rule 90 90 2 7 25 0 TIMEBASE_CUR 6 "D";
    Rule 90 90 7 7 26 0 TIMEBASE_CUR 0 "S";
    Rule 91 91 2 7 24 0 TIMEBASE_CUR 6 "D";
    Rule 91 91 8 7 1 0 TIMEBASE_CUR 0 "S";
    Rule 92 92 2 7 29 0 TIMEBASE_CUR 6 "D";
    Rule 92 92 8 7 6 0 TIMEBASE_CUR 0 "S";
    Rule 93 93 3 7 2 0 TIMEBASE_CUR 6 "D";
    Rule 93 93 8 7 5 0 TIMEBASE_CUR 0 "S";
    Rule 94 94 3 7 1 0 TIMEBASE_CUR 6 "D";
    Rule 94 94 7 7 28 0 TIMEBASE_CUR 0 "S";
    Rule 95 95 2 7 31 0 TIMEBASE_CUR 6 "D";
    Rule 95 95 8 7 3 0 TIMEBASE_CUR 0 "S";
    Rule 96 96 2 7 15 0 TIMEBASE_CUR 6 "D";
    Rule 96 96 8 7 16 0 TIMEBASE_CUR 0 "S";
    Rule 97 97 2 7 21 0 TIMEBASE_CUR 6 "D";
    Rule 97 97 8 7 14 0 TIMEBASE_CUR 0 "S";
    Rule 98 98 2 7 20 0 TIMEBASE_CUR 6 "D";
    Rule 98 98 8 7 6 0 TIMEBASE_CUR 0 "S";
    Rule 99 99 3 7 2 120 TIMEBASE_CUR 6 "D";
    Rule 99 99 8 7 3 120 TIMEBASE_CUR 0 "S";
    Rule 100 100 3 7 14 120 TIMEBASE_CUR 6 "D";
    Rule 100 100 9 7 6 60 TIMEBASE_CUR 0 "S";
    Rule 101 101 3 7 9 60 TIMEBASE_CUR 6 "D";
    Rule 101 101 8 7 24 60 TIMEBASE_CUR 0 "S";
    Rule 102 102 2 7 29 60 TIMEBASE_CUR 6 "D";
    Rule 102 102 9 7 7 60 TIMEBASE_CUR 0 "S";
    Rule 103 103 2 7 28 60 TIMEBASE_CUR 6 "D";
    Rule 103 103 9 7 3 60 TIMEBASE_CUR 0 "S";
    Rule 104 104 3 7 7 60 TIMEBASE_CUR 6 "D";
    Rule 104 104 8 7 22 60 TIMEBASE_CUR 0 "S";
    Rule 105 105 3 7 1 120 TIMEBASE_CUR 6 "D";
    Rule 105 105 9 7 9 120 TIMEBASE_CUR 0 "S";
    Rule 106 110 2 5 26 120 TIMEBASE_CUR 6 "D";
    Rule 106 106 9 7 1 120 TIMEBASE_CUR 0 "S";
    Rule 107 107 8 7 16 120 TIMEBASE_CUR 0 "S";
    Rule 108 108 9 7 5 120 TIMEBASE_CUR 0 "S";
    Rule 109 109 8 7 27 120 TIMEBASE_CUR 0 "S";
    Rule 110 110 8 7 12 120 TIMEBASE_CUR 0 "S";
    Rule 111 111 3 7 1 120 TIMEBASE_CUR 6 "D";
    Rule 111 111 9 7 2 120 TIMEBASE_CUR 0 "S";
    Rule 112 112 2 5 26 120 TIMEBASE_CUR 6 "D";
    Rule 112 112 8 7 23 120 TIMEBASE_CUR 0 "S";
    Rule 113 255 2 5 23 120 TIMEBASE_CUR 6 "D";
    Rule 113 255 9 0 25 120 TIMEBASE_CUR 0 "S" ].

Definition eras_Africa_Abidjan : list lc_timezone_era :=
  [ Era [] (-968) (-1830383032) 0 "LMT" "";
    Era [] 0 0 0 "GMT" "" ].

Definition eras_Africa_Accra : list lc_timezone_era :=
  [ Era [] (-52) (-1640995148) 0 "LMT" "";
    Era rules_Ghana 0 0 0 "GMT" "+0020" ].

Definition eras_Africa_Algiers : list lc_timezone_era :=
  [ Era [] 732 (-2486679072) 0 "LMT" "";
    Era [] 561 (-1855958961) 0 "PMT" "";
    Era rules_Algeria 0 (-942012000) 0 "WE%sT" "";
    Era rules_Algeria 3600 (-733280400) 0 "CE%sT" "";
    Era [] 0 (-439430400) 0 "WET" "";
    Era [] 3600 (-212029200) 0 "CET" "";
    Era rules_Algeria 0 246236400 6 "WE%sT" "";
    Era rules_Algeria 3600 309740400 0 "CE%sT" "";
    Era rules_Algeria 0 357523200 0 "WE%sT" "";
    Era [] 3600 0 0 "CET" "" ].

Definition eras_Africa_Bissau : list lc_timezone_era :=
  [ Era [] (-3740) (-1830380260) 0 "LMT" "";
    Era [] (-3600) 157770000 0 "-01" "";
    Era [] 0 0 0 "GMT" "" ].

Definition eras_Africa_Cairo : list lc_timezone_era :=
  [ Era [] 7509 (-2185409109) 0 "LMT" "";
    Era rules_Egypt 7200 0 0 "EE%sT" "" ].

Definition eras_Africa_Casablanca : list lc_timezone_era :=
  [ Era [] (-1820) (-1773012580) 0 "LMT" "";
    Era rules_Morocco 0 448243200 0 "WE%sT" "";
    Era [] 3600 504918000 0 "CET" "";
    Era rules_Morocco 0 0 0 "WE%sT" "" ].

Definition eras_Africa_Ceuta : list lc_timezone_era :=
  [ Era [] (-1276) (-2177452800) 0 "LMT" "";
    Era [] 0 (-1630112400) 0 "WET" "";
    Era rules_100 0 (-1616810400) 6 "WEST" "";
    Era [] 0 (-1451692800) 0 "WET" "";
    Era rules_Spain 0 (-1293840000) 0 "WE%sT" "";
    Era rules_SpainAfrica 0 448243200 0 "WE%sT" "";
    Era [] 3600 504918000 0 "CET" "";
    Era rules_EU 3600 0 0 "CE%sT" "" ].

Definition eras_Africa_El_Aaiun : list lc_timezone_era :=
  [ Era [] (-3168) (-1136070432) 0 "LMT" "";
    Era [] (-3600) 198291600 0 "-01" "";
    Era rules_Morocco 0 0 0 "WE%sT" "" ].

Definition eras_Africa_Johannesburg : list lc_timezone_era :=
  [ Era [] 6720 (-2458173120) 0 "LMT" "";
    Era [] 5400 (-2109288600) 0 "SAST" "";
    Era rules_SA 7200 0 0 "SAST" "" ].

Definition eras_Africa_Khartoum : list lc_timezone_era :=
  [ Era [] 7808 (-1230775808) 0 "LMT" "";
    Era rules_Sudan 7200 947930400 0 "CA%sT" "";
    Era [] 10800 0 0 "EAT" "" ].

Definition eras_Africa_Lagos : list lc_timezone_era :=
  [ Era [] 816 (-1588464816) 0 "LMT" "";
    Era [] 3600 0 0 "WAT" "" ].

Definition eras_Africa_Maputo : list lc_timezone_era :=
  [ Era [] 7820 (-2109291020) 0 "LMT" "";
    Era [] 7200 0 0 "CAT" "" ].

Definition eras_Africa_Monrovia : list lc_timezone_era :=
  [ Era [] (-2588) (-2776979812) 0 "LMT" "";
    Era [] (-2588) (-1604359012) 0 "MMT" "";
    Era [] (-2670) 63593070 0 "MMT" "";
    Era [] 0 0 0 "GMT" "" ].

Definition eras_Africa_Nairobi : list lc_timezone_era :=
  [ Era [] 8836 (-1309746436) 0 "LMT" "";
    Era [] 10800 (-1262314800) 0 "EAT" "";
    Era [] 9000 (-946780200) 0 "+0230" "";
    Era [] 9900 (-315629100) 0 "+0245" "";
    Era [] 10800 0 0 "EAT" "" ].

Definition eras_Africa_Ndjamena : list lc_timezone_era :=
  [ Era [] 3612 (-1830387612) 0 "LMT" "";
    Era [] 3600 308703600 0 "WAT" "";
    Era rules_100 3600 321314400 6 "WAST" "";
    Era [] 3600 0 0 "WAT" "" ].

Definition eras_Africa_Tripoli : list lc_timezone_era :=
  [ Era [] 3164 (-1577926364) 0 "LMT" "";
    Era rules_Libya 3600 (-347158800) 0 "CE%sT" "";
    Era [] 7200 378684000 0 "EET" "";
    Era rules_Libya 3600 641775600 0 "CE%sT" "";
    Era [] 7200 844034400 0 "EET" "";
    Era rules_Libya 3600 875916000 6 "CE%sT" "";
    Era [] 7200 1352505600 0 "EET" "";
    Era rules_Libya 3600 1382659200 6 "CE%sT" "";
    Era [] 7200 0 0 "EET" "" ].

Definition eras_Africa_Tunis : list lc_timezone_era :=
  [ Era [] 2444 (-2797202444) 0 "LMT" "";
    Era [] 561 (-1855958961) 0 "PMT" "";
    Era rules_Tunisia 3600 0 0 "CE%sT" "" ].

Definition eras_Africa_Windhoek : list lc_timezone_era :=
  [ Era [] 4104 (-2458170504) 0 "LMT" "";
    Era [] 5400 (-2109288600) 0 "+0130" "";
    Era [] 7200 (-860976000) 0 "SAST" "";
    Era rules_100 7200 (-845254800) 6 "SAST" "";
    Era [] 7200 637970400 0 "SAST" "";
    Era [] 7200 765324000 0 "CAT" "";
    Era rules_Namibia 3600 0 0 "WA%sT" "" ].

Definition eras_America_Adak : list lc_timezone_era :=
  [ Era [] 44001 (-3225356001) 0 "LMT" "";
    Era [] (-42398) (-2188944802) 0 "LMT" "";
    Era [] (-39600) (-883573200) 0 "NST" "";
    Era rules_US (-39600) (-757342800) 0 "N%sT" "";
    Era [] (-39600) (-86878800) 0 "NST" "";
    Era [] (-39600) (-31496400) 0 "BST" "";
    Era rules_US (-39600) 436363200 6 "B%sT" "";
    Era rules_US (-36000) 439034400 0 "AH%sT" "";
    Era rules_US (-36000) 0 0 "H%sT" "" ].

Definition eras_America_Anchorage : list lc_timezone_era :=
  [ Era [] 50424 (-3225362424) 0 "LMT" "";
    Era [] (-35976) (-2188951224) 0 "LMT" "";
    Era [] (-36000) (-883576800) 0 "AST" "";
    Era rules_US (-36000) (-86882400) 0 "A%sT" "";
    Era [] (-36000) (-31500000) 0 "AHST" "";
    Era rules_US (-36000) 436359600 6 "AH%sT" "";
    Era rules_US (-32400) 439030800 0 "Y%sT" "";
    Era rules_US (-32400) 0 0 "AK%sT" "" ].

Definition eras_America_Araguaina : list lc_timezone_era :=
  [ Era [] (-11568) (-1767214032) 0 "LMT" "";
    Era rules_Brazil (-10800) 653540400 0 "-03" "-02";
    Era [] (-10800) 811047600 0 "-03" "";
    Era rules_Brazil (-10800) 1064372400 0 "-03" "-02";
    Era [] (-10800) 1350788400 0 "-03" "";
    Era rules_Brazil (-10800) 1378004400 0 "-03" "-02";
    Era [] (-10800) 0 0 "-03" "" ].

Definition eras_America_Argentina_Buenos_Aires : list lc_timezone_era :=
  [ Era [] (-14028) (-2372097972) 0 "LMT" "";
    Era [] (-15408) (-1567453392) 0 "CMT" "";
    Era [] (-14400) (-1233432000) 0 "-04" "";
    Era rules_Arg (-14400) (-7588800) 0 "-04" "-03";
    Era rules_Arg (-10800) 938919600 0 "-03" "-02";
    Era rules_Arg (-14400) 952052400 6 "-04" "-03";
    Era rules_Arg (-10800) 0 0 "-03" "-02" ].

Definition eras_America_Argentina_Catamarca : list lc_timezone_era :=
  [ Era [] (-15788) (-2372096212) 0 "LMT" "";
    Era [] (-15408) (-1567453392) 0 "CMT" "";
    Era [] (-14400) (-1233432000) 0 "-04" "";
    Era rules_Arg (-14400) (-7588800) 0 "-04" "-03";
    Era rules_Arg (-10800) 667965600 6 "-03" "-02";
    Era [] (-14400) 687931200 0 "-04" "";
    Era rules_Arg (-10800) 938919600 0 "-03" "-02";
    Era rules_Arg (-14400) 952052400 6 "-04" "-03";
    Era [] (-10800) 1086058800 0 "-03" "";
    Era [] (-14400) 1087704000 0 "-04" "";
    Era rules_Arg (-10800) 1224298800 0 "-03" "-02";
    Era [] (-10800) 0 0 "-03" "" ].

Definition eras_America_Argentina_Cordoba : list lc_timezone_era :=
  [ Era [] (-15408) (-2372096592) 0 "LMT" "";
    Era [] (-15408) (-1567453392) 0 "CMT" "";
    Era [] (-14400) (-1233432000) 0 "-04" "";
    Era rules_Arg (-14400) (-7588800) 0 "-04" "-03";
    Era rules_Arg (-10800) 667965600 6 "-03" "-02";
    Era [] (-14400) 687931200 0 "-04" "";
    Era rules_Arg (-10800) 938919600 0 "-03" "-02";
    Era rules_Arg (-14400) 952052400 6 "-04" "-03";
    Era rules_Arg (-10800) 0 0 "-03" "-02" ].

Definition eras_America_Argentina_Jujuy : list lc_timezone_era :=
  [ Era [] (-15672) (-2372096328) 0 "LMT" "";
    Era [] (-15408) (-1567453392) 0 "CMT" "";
    Era [] (-14400) (-1233432000) 0 "-04" "";
    Era rules_Arg (-14400) (-7588800) 0 "-04" "-03";
    Era rules_Arg (-10800) 636516000 6 "-03" "-02";
    Era [] (-14400) 657086400 0 "-04" "";
    Era rules_100 (-14400) 669178800 6 "-03" "";
    Era [] (-14400) 686721600 0 "-04" "";
    Era rules_100 (-10800) 694231200 6 "-02" "";
    Era rules_Arg (-10800) 938919600 0 "-03" "-02";
    Era rules_Arg (-14400) 952052400 6 "-04" "-03";
    Era rules_Arg (-10800) 1224298800 0 "-03" "-02";
    Era [] (-10800) 0 0 "-03" "" ].

Definition eras_America_Argentina_La_Rioja : list lc_timezone_era :=
  [ Era [] (-16044) (-2372095956) 0 "LMT" "";
    Era [] (-15408) (-1567453392) 0 "CMT" "";
    Era [] (-14400) (-1233432000) 0 "-04" "";
    Era rules_Arg (-14400) (-7588800) 0 "-04" "-03";
    Era rules_Arg (-10800) 667792800 6 "-03" "-02";
    Era [] (-14400) 673588800 0 "-04" "";
    Era rules_Arg (-10800) 938919600 0 "-03" "-02";
    Era rules_Arg (-14400) 952052400 6 "-04" "-03";
    Era [] (-10800) 1086058800 0 "-03" "";
    Era [] (-14400) 1087704000 0 "-04" "";
    Era rules_Arg (-10800) 1224298800 0 "-03" "-02";
    Era [] (-10800) 0 0 "-03" "" ].

Definition eras_America_Argentina_Mendoza : list lc_timezone_era :=
  [ Era [] (-16516) (-2372095484) 0 "LMT" "";
    Era [] (-15408) (-1567453392) 0 "CMT" "";
    Era [] (-14400) (-1233432000) 0 "-04" "";
    Era rules_Arg (-14400) (-7588800) 0 "-04" "-03";
    Era rules_Arg (-10800) 636516000 6 "-03" "-02";
    Era [] (-14400) 655963200 0 "-04" "";
    Era rules_100 (-14400) 667796400 6 "-03" "";
    Era [] (-14400) 687499200 0 "-04" "";
    Era rules_100 (-14400) 699418800 6 "-03" "";
    Era [] (-14400) 719380800 0 "-04" "";
    Era rules_Arg (-10800) 938919600 0 "-03" "-02";
    Era rules_Arg (-14400) 952052400 6 "-04" "-03";
    Era [] (-10800) 1085281200 0 "-03" "";
    Era [] (-14400) 1096171200 0 "-04" "";
    Era rules_Arg (-10800) 1224298800 0 "-03" "-02";
    Era [] (-10800) 0 0 "-03" "" ].

Definition eras_America_Argentina_Rio_Gallegos : list lc_timezone_era :=
  [ Era [] (-16612) (-2372095388) 0 "LMT" "";
    Era [] (-15408) (-1567453392) 0 "CMT" "";
    Era [] (-14400) (-1233432000) 0 "-04" "";
    Era rules_Arg (-14400) (-7588800) 0 "-04" "-03";
    Era rules_Arg (-10800) 938919600 0 "-03" "-02";
    Era rules_Arg (-14400) 952052400 6 "-04" "-03";
    Era [] (-10800) 1086058800 0 "-03" "";
    Era [] (-14400) 1087704000 0 "-04" "";
    Era rules_Arg (-10800) 1224298800 0 "-03" "-02";
    Era [] (-10800) 0 0 "-03" "" ].

Definition eras_America_Argentina_Salta : list lc_timezone_era :=
  [ Era [] (-15700) (-2372096300) 0 "LMT" "";
    Era [] (-15408) (-1567453392) 0 "CMT" "";
    Era [] (-14400) (-1233432000) 0 "-04" "";
    Era rules_Arg (-14400) (-7588800) 0 "-04" "-03";
    Era rules_Arg (-10800) 667965600 6 "-03" "-02";
    Era [] (-14400) 687931200 0 "-04" "";
    Era rules_Arg (-10800) 938919600 0 "-03" "-02";
    Era rules_Arg (-14400) 952052400 6 "-04" "-03";
    Era rules_Arg (-10800) 1224298800 0 "-03" "-02";
    Era [] (-10800) 0 0 "-03" "" ].

Definition eras_America_Argentina_San_Juan : list lc_timezone_era :=
  [ Era [] (-16444) (-2372095556) 0 "LMT" "";
    Era [] (-15408) (-1567453392) 0 "CMT" "";
    Era [] (-14400) (-1233432000) 0 "-04" "";
    Era rules_Arg (-14400) (-7588800) 0 "-04" "-03";
    Era rules_Arg (-10800) 667792800 6 "-03" "-02";
    Era [] (-14400) 673588800 0 "-04" "";
    Era rules_Arg (-10800) 938919600 0 "-03" "-02";
    Era rules_Arg (-14400) 952052400 6 "-04" "-03";
    Era [] (-10800) 1085972400 0 "-03" "";
    Era [] (-14400) 1090728000 0 "-04" "";
    Era rules_Arg (-10800) 1224298800 0 "-03" "-02";
    Era [] (-10800) 0 0 "-03" "" ].

Definition eras_America_Argentina_San_Luis : list lc_timezone_era :=
  [ Era [] (-15924) (-2372096076) 0 "LMT" "";
    Era [] (-15408) (-1567453392) 0 "CMT" "";
    Era [] (-14400) (-1233432000) 0 "-04" "";
    Era rules_Arg (-14400) (-7588800) 0 "-04" "-03";
    Era rules_Arg (-10800) 631159200 6 "-03" "-02";
    Era rules_100 (-10800) 637380000 6 "-02" "";
    Era [] (-14400) 655963200 0 "-04" "";
    Era rules_100 (-14400) 667796400 6 "-03" "";
    Era [] (-14400) 675748800 0 "-04" "";
    Era [] (-10800) 938919600 0 "-03" "";
    Era rules_100 (-14400) 952052400 6 "-03" "";
    Era [] (-10800) 1085972400 0 "-03" "";
    Era [] (-14400) 1090728000 0 "-04" "";
    Era rules_Arg (-10800) 1200880800 6 "-03" "-02";
    Era rules_SanLuis (-14400) 1255233600 0 "-04" "-03";
    Era [] (-10800) 0 0 "-03" "" ].

Definition eras_America_Argentina_Tucuman : list lc_timezone_era :=
  [ Era [] (-15652) (-2372096348) 0 "LMT" "";
    Era [] (-15408) (-1567453392) 0 "CMT" "";
    Era [] (-14400) (-1233432000) 0 "-04" "";
    Era rules_Arg (-14400) (-7588800) 0 "-04" "-03";
    Era rules_Arg (-10800) 667965600 6 "-03" "-02";
    Era [] (-14400) 687931200 0 "-04" "";
    Era rules_Arg (-10800) 938919600 0 "-03" "-02";
    Era rules_Arg (-14400) 952052400 6 "-04" "-03";
    Era [] (-10800) 1086058800 0 "-03" "";
    Era [] (-14400) 1087099200 0 "-04" "";
    Era rules_Arg (-10800) 0 0 "-03" "-02" ].

Definition eras_America_Argentina_Ushuaia : list lc_timezone_era :=
  [ Era [] (-16392) (-2372095608) 0 "LMT" "";
    Era [] (-15408) (-1567453392) 0 "CMT" "";
    Era [] (-14400) (-1233432000) 0 "-04" "";
    Era rules_Arg (-14400) (-7588800) 0 "-04" "-03";
    Era rules_Arg (-10800) 938919600 0 "-03" "-02";
    Era rules_Arg (-14400) 952052400 6 "-04" "-03";
    Era [] (-10800) 1085886000 0 "-03" "";
    Era [] (-14400) 1087704000 0 "-04" "";
    Era rules_Arg (-10800) 1224298800 0 "-03" "-02";
    Era [] (-10800) 0 0 "-03" "" ].

Definition eras_America_Asuncion : list lc_timezone_era :=
  [ Era [] (-13840) (-2524507760) 0 "LMT" "";
    Era [] (-13840) (-1206389360) 0 "AMT" "";
    Era [] (-14400) 86760000 0 "-04" "";
    Era [] (-10800) 134017200 0 "-03" "";
    Era rules_Para (-14400) 0 0 "-04" "-03" ].

Definition eras_America_Atikokan : list lc_timezone_era :=
  [ Era [] (-21988) (-2366733212) 0 "LMT" "";
    Era rules_Canada (-21600) (-923248800) 0 "C%sT" "";
    Era rules_100 (-21600) (-880214400) 6 "CDT" "";
    Era rules_Canada (-21600) (-765392400) 6 "C%sT" "";
    Era [] (-18000) 0 0 "EST" "" ].

Definition eras_America_Bahia : list lc_timezone_era :=
  [ Era [] (-9244) (-1767216356) 0 "LMT" "";
    Era rules_Brazil (-10800) 1064372400 0 "-03" "-02";
    Era [] (-10800) 1318734000 0 "-03" "";
    Era rules_Brazil (-10800) 1350788400 0 "-03" "-02";
    Era [] (-10800) 0 0 "-03" "" ].

Definition eras_America_Bahia_Banderas : list lc_timezone_era :=
  [ Era [] (-25260) (-1514739600) 0 "LMT" "";
    Era [] (-25200) (-1343066400) 0 "MST" "";
    Era [] (-21600) (-1234807200) 0 "CST" "";
    Era [] (-25200) (-1220292000) 0 "MST" "";
    Era [] (-21600) (-1207159200) 0 "CST" "";
    Era [] (-25200) (-1191344400) 0 "MST" "";
    Era [] (-21600) (-873828000) 0 "CST" "";
    Era [] (-25200) (-661539600) 0 "MST" "";
    Era [] (-28800) 28800 0 "PST" "";
    Era rules_Mexico (-25200) 1270371600 0 "M%sT" "";
    Era rules_Mexico (-21600) 0 0 "C%sT" "" ].

Definition eras_America_Barbados : list lc_timezone_era :=
  [ Era [] (-14309) (-1451678491) 0 "LMT" "";
    Era [] (-14309) (-1199217691) 0 "BMT" "";
    Era rules_Barb (-14400) 0 0 "A%sT" "" ].

Definition eras_America_Belem : list lc_timezone_era :=
  [ Era [] (-11636) (-1767213964) 0 "LMT" "";
    Era rules_Brazil (-10800) 590036400 0 "-03" "-02";
    Era [] (-10800) 0 0 "-03" "" ].

Definition eras_America_Belize : list lc_timezone_era :=
  [ Era [] (-21168) (-1822500432) 0 "LMT" "";
    Era rules_Belize (-21600) 0 0 "%s" "" ].

Definition eras_America_Blanc_Sablon : list lc_timezone_era :=
  [ Era [] (-13708) (-2713896692) 0 "LMT" "";
    Era rules_Canada (-14400) 14400 0 "A%sT" "";
    Era [] (-14400) 0 0 "AST" "" ].

Definition eras_America_Boa_Vista : list lc_timezone_era :=
  [ Era [] (-14560) (-1767211040) 0 "LMT" "";
    Era rules_Brazil (-14400) 590040000 0 "-04" "-03";
    Era [] (-14400) 938664000 0 "-04" "";
    Era rules_Brazil (-14400) 971578800 6 "-04" "-03";
    Era [] (-14400) 0 0 "-04" "" ].

Definition eras_America_Bogota : list lc_timezone_era :=
  [ Era [] (-17776) (-2707671824) 0 "LMT" "";
    Era [] (-17776) (-1739041424) 0 "BMT" "";
    Era rules_CO (-18000) 0 0 "-05" "-04" ].

Definition eras_America_Boise : list lc_timezone_era :=
  [ Era [] (-27889) (-2717640000) 0 "LMT" "";
    Era rules_US (-28800) (-1471788000) 0 "P%sT" "";
    Era rules_US (-25200) 126255600 0 "M%sT" "";
    Era [] (-25200) 129114000 0 "MST" "";
    Era rules_US (-25200) 0 0 "M%sT" "" ].

Definition eras_America_Cambridge_Bay : list lc_timezone_era :=
  [ Era [] 0 (-1577923200) 0 "-00" "";
    Era rules_NT_YK (-25200) 941356800 6 "M%sT" "";
    Era rules_Canada (-21600) 972802800 6 "C%sT" "";
    Era [] (-18000) 973400400 0 "EST" "";
    Era [] (-21600) 986115600 0 "CST" "";
    Era rules_Canada (-25200) 0 0 "M%sT" "" ].

Definition eras_America_Campo_Grande : list lc_timezone_era :=
  [ Era [] (-13108) (-1767212492) 0 "LMT" "";
    Era rules_Brazil (-14400) 0 0 "-04" "-03" ].

Definition eras_America_Cancun : list lc_timezone_era :=
  [ Era [] (-20824) (-1514743200) 0 "LMT" "";
    Era [] (-21600) 377935200 0 "CST" "";
    Era rules_Mexico (-18000) 902037600 6 "E%sT" "";
    Era rules_Mexico (-21600) 1422777600 0 "C%sT" "";
    Era [] (-18000) 0 0 "EST" "" ].

Definition eras_America_Caracas : list lc_timezone_era :=
  [ Era [] (-16064) (-2524505536) 0 "LMT" "";
    Era [] (-16060) (-1826739140) 0 "CMT" "";
    Era [] (-16200) (-157750200) 0 "-0430" "";
    Era [] (-14400) 1197183600 0 "-04" "";
    Era [] (-16200) 1462086000 0 "-0430" "";
    Era [] (-14400) 0 0 "-04" "" ].

Definition eras_America_Cayenne : list lc_timezone_era :=
  [ Era [] (-12560) (-1846269040) 0 "LMT" "";
    Era [] (-14400) (-71092800) 0 "-04" "";
    Era [] (-10800) 0 0 "-03" "" ].

Definition eras_America_Chicago : list lc_timezone_era :=
  [ Era [] (-21036) (-2717647200) 0 "LMT" "";
    Era rules_US (-21600) (-1577901600) 0 "C%sT" "";
    Era rules_Chicago (-21600) (-1067788800) 0 "C%sT" "";
    Era [] (-18000) (-1045414800) 0 "EST" "";
    Era rules_Chicago (-21600) (-883591200) 0 "C%sT" "";
    Era rules_US (-21600) (-757360800) 0 "C%sT" "";
    Era rules_Chicago (-21600) (-94672800) 0 "C%sT" "";
    Era rules_US (-21600) 0 0 "C%sT" "" ].

Definition eras_America_Chihuahua : list lc_timezone_era :=
  [ Era [] (-25460) (-1514739600) 0 "LMT" "";
    Era [] (-25200) (-1343066400) 0 "MST" "";
    Era [] (-21600) (-1234807200) 0 "CST" "";
    Era [] (-25200) (-1220292000) 0 "MST" "";
    Era [] (-21600) (-1207159200) 0 "CST" "";
    Era [] (-25200) (-1191344400) 0 "MST" "";
    Era [] (-21600) 820476000 0 "CST" "";
    Era rules_Mexico (-21600) 883634400 0 "C%sT" "";
    Era [] (-21600) 891766800 0 "CST" "";
    Era rules_Mexico (-25200) 0 0 "M%sT" "" ].

Definition eras_America_Costa_Rica : list lc_timezone_era :=
  [ Era [] (-20173) (-2524501427) 0 "LMT" "";
    Era [] (-20173) (-1545071027) 0 "SJMT" "";
    Era rules_CR (-21600) 0 0 "C%sT" "" ].

Definition eras_America_Creston : list lc_timezone_era :=
  [ Era [] (-27964) (-2713882436) 0 "LMT" "";
    Era [] (-25200) (-1680454800) 0 "MST" "";
    Era [] (-28800) (-1627833600) 0 "PST" "";
    Era [] (-25200) 0 0 "MST" "" ].

Definition eras_America_Cuiaba : list lc_timezone_era :=
  [ Era [] (-13460) (-1767212140) 0 "LMT" "";
    Era rules_Brazil (-14400) 1064376000 0 "-04" "-03";
    Era [] (-14400) 1096603200 0 "-04" "";
    Era rules_Brazil (-14400) 0 0 "-04" "-03" ].

Definition eras_America_Curacao : list lc_timezone_era :=
  [ Era [] (-16547) (-1826738653) 0 "LMT" "";
    Era [] (-16200) (-157750200) 0 "-0430" "";
    Era [] (-14400) 0 0 "AST" "" ].

Definition eras_America_Danmarkshavn : list lc_timezone_era :=
  [ Era [] (-4480) (-1686091520) 0 "LMT" "";
    Era [] (-10800) 323845200 0 "-03" "";
    Era rules_EU (-10800) 820465200 0 "-03" "-02";
    Era [] 0 0 0 "GMT" "" ].

Definition eras_America_Dawson : list lc_timezone_era :=
  [ Era [] (-33460) (-2188996940) 0 "LMT" "";
    Era rules_NT_YK (-32400) 120646800 0 "Y%sT" "";
    Era rules_NT_YK (-28800) 315561600 0 "P%sT" "";
    Era rules_Canada (-28800) 0 0 "P%sT" "" ].

Definition eras_America_Dawson_Creek : list lc_timezone_era :=
  [ Era [] (-28856) (-2713881544) 0 "LMT" "";
    Era rules_Canada (-28800) (-725817600) 0 "P%sT" "";
    Era rules_Vanc (-28800) 84013200 6 "P%sT" "";
    Era [] (-25200) 0 0 "MST" "" ].

Definition eras_America_Denver : list lc_timezone_era :=
  [ Era [] (-25196) (-2717643600) 0 "LMT" "";
    Era rules_US (-25200) (-1577898000) 0 "M%sT" "";
    Era rules_Denver (-25200) (-883587600) 0 "M%sT" "";
    Era rules_US (-25200) (-757357200) 0 "M%sT" "";
    Era rules_Denver (-25200) (-94669200) 0 "M%sT" "";
    Era rules_US (-25200) 0 0 "M%sT" "" ].

Definition eras_America_Detroit : list lc_timezone_era :=
  [ Era [] (-19931) (-2051202469) 0 "LMT" "";
    Era [] (-21600) (-1724083200) 0 "CST" "";
    Era [] (-18000) (-883594800) 0 "EST" "";
    Era rules_US (-18000) (-757364400) 0 "E%sT" "";
    Era rules_Detroit (-18000) 94712400 0 "E%sT" "";
    Era rules_US (-18000) 157784400 0 "E%sT" "";
    Era [] (-18000) 167814000 0 "EST" "";
    Era rules_US (-18000) 0 0 "E%sT" "" ].

Definition eras_America_Edmonton : list lc_timezone_era :=
  [ Era [] (-27232) (-1998663968) 0 "LMT" "";
    Era rules_Edm (-25200) 536482800 0 "M%sT" "";
    Era rules_Canada (-25200) 0 0 "M%sT" "" ].

Definition eras_America_Eirunepe : list lc_timezone_era :=
  [ Era [] (-16768) (-1767208832) 0 "LMT" "";
    Era rules_Brazil (-18000) 590043600 0 "-05" "-04";
    Era [] (-18000) 749192400 0 "-05" "";
    Era rules_Brazil (-18000) 780210000 0 "-05" "-04";
    Era [] (-18000) 1214283600 0 "-05" "";
    Era [] (-14400) 1384056000 0 "-04" "";
    Era [] (-18000) 0 0 "-05" "" ].

Definition eras_America_El_Salvador : list lc_timezone_era :=
  [ Era [] (-21408) (-1546279392) 0 "LMT" "";
    Era rules_Salv (-21600) 0 0 "C%sT" "" ].

Definition eras_America_Fort_Nelson : list lc_timezone_era :=
  [ Era [] (-29447) (-2713880953) 0 "LMT" "";
    Era rules_Vanc (-28800) (-757353600) 0 "P%sT" "";
    Era [] (-28800) (-725817600) 0 "PST" "";
    Era rules_Vanc (-28800) 536486400 0 "P%sT" "";
    Era rules_Canada (-28800) 1425808800 0 "P%sT" "";
    Era [] (-25200) 0 0 "MST" "" ].

Definition eras_America_Fortaleza : list lc_timezone_era :=
  [ Era [] (-9240) (-1767216360) 0 "LMT" "";
    Era rules_Brazil (-10800) 653540400 0 "-03" "-02";
    Era [] (-10800) 938660400 0 "-03" "";
    Era rules_Brazil (-10800) 972180000 6 "-03" "-02";
    Era [] (-10800) 1000350000 0 "-03" "";
    Era rules_Brazil (-10800) 1033441200 0 "-03" "-02";
    Era [] (-10800) 0 0 "-03" "" ].

Definition eras_America_Glace_Bay : list lc_timezone_era :=
  [ Era [] (-14388) (-2131646412) 0 "LMT" "";
    Era rules_Canada (-14400) (-536443200) 0 "A%sT" "";
    Era rules_Halifax (-14400) (-504907200) 0 "A%sT" "";
    Era [] (-14400) 63086400 0 "AST" "";
    Era rules_Halifax (-14400) 126244800 0 "A%sT" "";
    Era rules_Canada (-14400) 0 0 "A%sT" "" ].

Definition eras_America_Godthab : list lc_timezone_era :=
  [ Era [] (-12416) (-1686083584) 0 "LMT" "";
    Era [] (-10800) 323845200 0 "-03" "";
    Era rules_EU (-10800) 0 0 "-03" "-02" ].

Definition eras_America_Goose_Bay : list lc_timezone_era :=
  [ Era [] (-14500) (-2713895900) 0 "LMT" "";
    Era [] (-12652) (-1640982548) 0 "NST" "";
    Era rules_Canada (-12652) (-1609446548) 0 "N%sT" "";
    Era [] (-12652) (-1096921748) 0 "NST" "";
    Era [] (-12600) (-1072989000) 0 "NST" "";
    Era rules_StJohns (-12600) (-872368200) 0 "N%sT" "";
    Era rules_Canada (-12600) (-757369800) 0 "N%sT" "";
    Era rules_StJohns (-12600) (-119903400) 0 "N%sT" "";
    Era rules_StJohns (-14400) 1320116400 6 "A%sT" "";
    Era rules_Canada (-14400) 0 0 "A%sT" "" ].

Definition eras_America_Grand_Turk : list lc_timezone_era :=
  [ Era [] (-17072) (-2524504528) 0 "LMT" "";
    Era [] (-18431) (-1827687169) 0 "KMT" "";
    Era [] (-18000) 284014800 0 "EST" "";
    Era rules_US (-18000) 1446357600 6 "E%sT" "";
    Era [] (-14400) 0 0 "AST" "" ].

Definition eras_America_Guatemala : list lc_timezone_era :=
  [ Era [] (-21724) (-1617040676) 0 "LMT" "";
    Era rules_Guat (-21600) 0 0 "C%sT" "" ].

Definition eras_America_Guayaquil : list lc_timezone_era :=
  [ Era [] (-19160) (-2524502440) 0 "LMT" "";
    Era [] (-18840) (-1230749160) 0 "QMT" "";
    Era rules_Ecuador (-18000) 0 0 "-05" "-04" ].

Definition eras_America_Guyana : list lc_timezone_era :=
  [ Era [] (-13960) (-1730578040) 0 "LMT" "";
    Era [] (-13500) 176010300 0 "-0345" "";
    Era [] (-10800) 662698800 0 "-03" "";
    Era [] (-14400) 0 0 "-04" "" ].

Definition eras_America_Halifax : list lc_timezone_era :=
  [ Era [] (-15264) (-2131645536) 0 "LMT" "";
    Era rules_Halifax (-14400) (-1640980800) 0 "A%sT" "";
    Era rules_Canada (-14400) (-1609444800) 0 "A%sT" "";
    Era rules_Halifax (-14400) (-880221600) 0 "A%sT" "";
    Era rules_Canada (-14400) (-757368000) 0 "A%sT" "";
    Era rules_Halifax (-14400) 126244800 0 "A%sT" "";
    Era rules_Canada (-14400) 0 0 "A%sT" "" ].

Definition eras_America_Havana : list lc_timezone_era :=
  [ Era [] (-19768) (-2524501832) 0 "LMT" "";
    Era [] (-19776) (-1402813824) 0 "HMT" "";
    Era rules_Cuba (-18000) 0 0 "C%sT" "" ].

Definition eras_America_Hermosillo : list lc_timezone_era :=
  [ Era [] (-26632) (-1514739600) 0 "LMT" "";
    Era [] (-25200) (-1343066400) 0 "MST" "";
    Era [] (-21600) (-1234807200) 0 "CST" "";
    Era [] (-25200) (-1220292000) 0 "MST" "";
    Era [] (-21600) (-1207159200) 0 "CST" "";
    Era [] (-25200) (-1191344400) 0 "MST" "";
    Era [] (-21600) (-873828000) 0 "CST" "";
    Era [] (-25200) (-661539600) 0 "MST" "";
    Era [] (-28800) 28800 0 "PST" "";
    Era rules_Mexico (-25200) 915174000 0 "M%sT" "";
    Era [] (-25200) 0 0 "MST" "" ].

Definition eras_America_Indiana_Indianapolis : list lc_timezone_era :=
  [ Era [] (-20678) (-2717647200) 0 "LMT" "";
    Era rules_US (-21600) (-1577901600) 0 "C%sT" "";
    Era rules_Indianapolis (-21600) (-883591200) 0 "C%sT" "";
    Era rules_US (-21600) (-757360800) 0 "C%sT" "";
    Era rules_Indianapolis (-21600) (-463593600) 0 "C%sT" "";
    Era [] (-18000) (-386787600) 0 "EST" "";
    Era [] (-21600) (-368640000) 0 "CST" "";
    Era [] (-18000) (-31518000) 0 "EST" "";
    Era rules_US (-18000) 31554000 0 "E%sT" "";
    Era [] (-18000) 1136091600 0 "EST" "";
    Era rules_US (-18000) 0 0 "E%sT" "" ].

Definition eras_America_Indiana_Knox : list lc_timezone_era :=
  [ Era [] (-20790) (-2717647200) 0 "LMT" "";
    Era rules_US (-21600) (-725824800) 0 "C%sT" "";
    Era rules_Starke (-21600) (-242236800) 0 "C%sT" "";
    Era [] (-18000) (-195066000) 0 "EST" "";
    Era rules_US (-21600) 688546800 6 "C%sT" "";
    Era [] (-18000) 1143961200 0 "EST" "";
    Era rules_US (-21600) 0 0 "C%sT" "" ].

Definition eras_America_Indiana_Marengo : list lc_timezone_era :=
  [ Era [] (-20723) (-2717647200) 0 "LMT" "";
    Era rules_US (-21600) (-599594400) 0 "C%sT" "";
    Era rules_Marengo (-21600) (-273686400) 0 "C%sT" "";
    Era [] (-18000) (-31518000) 0 "EST" "";
    Era rules_US (-18000) 126687600 0 "E%sT" "";
    Era rules_100 (-21600) 152089200 6 "CDT" "";
    Era rules_US (-18000) 189320400 0 "E%sT" "";
    Era [] (-18000) 1136091600 0 "EST" "";
    Era rules_US (-18000) 0 0 "E%sT" "" ].

Definition eras_America_Indiana_Petersburg : list lc_timezone_era :=
  [ Era [] (-20947) (-2717647200) 0 "LMT" "";
    Era rules_US (-21600) (-473364000) 0 "C%sT" "";
    Era rules_Pike (-21600) (-147888000) 0 "C%sT" "";
    Era [] (-18000) (-100112400) 0 "EST" "";
    Era rules_US (-21600) 247042800 6 "C%sT" "";
    Era [] (-18000) 1143961200 0 "EST" "";
    Era rules_US (-21600) 1194159600 6 "C%sT" "";
    Era rules_US (-18000) 0 0 "E%sT" "" ].

Definition eras_America_Indiana_Tell_City : list lc_timezone_era :=
  [ Era [] (-20823) (-2717647200) 0 "LMT" "";
    Era rules_US (-21600) (-757360800) 0 "C%sT" "";
    Era rules_Perry (-21600) (-179337600) 0 "C%sT" "";
    Era [] (-18000) (-31518000) 0 "EST" "";
    Era rules_US (-18000) 31554000 0 "E%sT" "";
    Era [] (-18000) 1143961200 0 "EST" "";
    Era rules_US (-21600) 0 0 "C%sT" "" ].

Definition eras_America_Indiana_Vevay : list lc_timezone_era :=
  [ Era [] (-20416) (-2717647200) 0 "LMT" "";
    Era rules_US (-21600) (-495043200) 0 "C%sT" "";
    Era [] (-18000) (-31518000) 0 "EST" "";
    Era rules_US (-18000) 94712400 0 "E%sT" "";
    Era [] (-18000) 1136091600 0 "EST" "";
    Era rules_US (-18000) 0 0 "E%sT" "" ].

Definition eras_America_Indiana_Vincennes : list lc_timezone_era :=
  [ Era [] (-21007) (-2717647200) 0 "LMT" "";
    Era rules_US (-21600) (-757360800) 0 "C%sT" "";
    Era rules_Vincennes (-21600) (-179337600) 0 "C%sT" "";
    Era [] (-18000) (-31518000) 0 "EST" "";
    Era rules_US (-18000) 31554000 0 "E%sT" "";
    Era [] (-18000) 1143961200 0 "EST" "";
    Era rules_US (-21600) 1194159600 6 "C%sT" "";
    Era rules_US (-18000) 0 0 "E%sT" "" ].

Definition eras_America_Indiana_Winamac : list lc_timezone_era :=
  [ Era [] (-20785) (-2717647200) 0 "LMT" "";
    Era rules_US (-21600) (-757360800) 0 "C%sT" "";
    Era rules_Pulaski (-21600) (-273686400) 0 "C%sT" "";
    Era [] (-18000) (-31518000) 0 "EST" "";
    Era rules_US (-18000) 31554000 0 "E%sT" "";
    Era [] (-18000) 1143961200 0 "EST" "";
    Era rules_US (-21600) 1173600000 0 "C%sT" "";
    Era rules_US (-18000) 0 0 "E%sT" "" ].

Definition eras_America_Inuvik : list lc_timezone_era :=
  [ Era [] 0 (-536457600) 0 "-00" "";
    Era rules_NT_YK (-28800) 294228000 0 "P%sT" "";
    Era rules_NT_YK (-25200) 315558000 0 "M%sT" "";
    Era rules_Canada (-25200) 0 0 "M%sT" "" ].

Definition eras_America_Iqaluit : list lc_timezone_era :=
  [ Era [] 0 (-865296000) 0 "-00" "";
    Era rules_NT_YK (-18000) 941349600 6 "E%sT" "";
    Era rules_Canada (-21600) 972802800 6 "C%sT" "";
    Era rules_Canada (-18000) 0 0 "E%sT" "" ].

Definition eras_America_Jamaica : list lc_timezone_era :=
  [ Era [] (-18431) (-2524503169) 0 "LMT" "";
    Era [] (-18431) (-1827687169) 0 "KMT" "";
    Era [] (-18000) 126248400 0 "EST" "";
    Era rules_US (-18000) 441781200 0 "E%sT" "";
    Era [] (-18000) 0 0 "EST" "" ].

Definition eras_America_Juneau : list lc_timezone_era :=
  [ Era [] 54139 (-3225366139) 0 "LMT" "";
    Era [] (-32261) (-2188954939) 0 "LMT" "";
    Era [] (-28800) (-883584000) 0 "PST" "";
    Era rules_US (-28800) (-757353600) 0 "P%sT" "";
    Era [] (-28800) (-31507200) 0 "PST" "";
    Era rules_US (-28800) 325677600 0 "P%sT" "";
    Era rules_US (-32400) 341402400 6 "Y%sT" "";
    Era rules_US (-28800) 436352400 6 "P%sT" "";
    Era rules_US (-32400) 439030800 0 "Y%sT" "";
    Era rules_US (-32400) 0 0 "AK%sT" "" ].

Definition eras_America_Kentucky_Louisville : list lc_timezone_era :=
  [ Era [] (-20582) (-2717647200) 0 "LMT" "";
    Era rules_US (-21600) (-1546279200) 0 "C%sT" "";
    Era rules_Louisville (-21600) (-883594800) 6 "C%sT" "";
    Era rules_US (-21600) (-757360800) 0 "C%sT" "";
    Era rules_Louisville (-21600) (-266432400) 6 "C%sT" "";
    Era [] (-18000) (-63140400) 0 "EST" "";
    Era rules_US (-18000) 126687600 0 "E%sT" "";
    Era rules_100 (-21600) 152089200 6 "CDT" "";
    Era rules_US (-18000) 0 0 "E%sT" "" ].

Definition eras_America_Kentucky_Monticello : list lc_timezone_era :=
  [ Era [] (-20364) (-2717647200) 0 "LMT" "";
    Era rules_US (-21600) (-757360800) 0 "C%sT" "";
    Era [] (-21600) (-63136800) 0 "CST" "";
    Era rules_US (-21600) 972802800 6 "C%sT" "";
    Era rules_US (-18000) 0 0 "E%sT" "" ].

Definition eras_America_La_Paz : list lc_timezone_era :=
  [ Era [] (-16356) (-2524505244) 0 "LMT" "";
    Era [] (-16356) (-1205954844) 0 "CMT" "";
    Era rules_100 (-16356) (-1192307244) 6 "BOST" "";
    Era [] (-14400) 0 0 "-04" "" ].

Definition eras_America_Lima : list lc_timezone_era :=
  [ Era [] (-18492) (-2524503108) 0 "LMT" "";
    Era [] (-18516) (-1938538284) 0 "LMT" "";
    Era rules_Peru (-18000) 0 0 "-05" "-04" ].

Definition eras_America_Los_Angeles : list lc_timezone_era :=
  [ Era [] (-28378) (-2717640000) 0 "LMT" "";
    Era rules_US (-28800) (-757353600) 0 "P%sT" "";
    Era rules_CA (-28800) (-94665600) 0 "P%sT" "";
    Era rules_US (-28800) 0 0 "P%sT" "" ].

Definition eras_America_Maceio : list lc_timezone_era :=
  [ Era [] (-8572) (-1767217028) 0 "LMT" "";
    Era rules_Brazil (-10800) 653540400 0 "-03" "-02";
    Era [] (-10800) 813553200 0 "-03" "";
    Era rules_Brazil (-10800) 841806000 0 "-03" "-02";
    Era [] (-10800) 938660400 0 "-03" "";
    Era rules_Brazil (-10800) 972180000 6 "-03" "-02";
    Era [] (-10800) 1000350000 0 "-03" "";
    Era rules_Brazil (-10800) 1033441200 0 "-03" "-02";
    Era [] (-10800) 0 0 "-03" "" ].

Definition eras_America_Managua : list lc_timezone_era :=
  [ Era [] (-20708) (-2524500892) 0 "LMT" "";
    Era [] (-20712) (-1121105688) 0 "MMT" "";
    Era [] (-21600) 105084000 0 "CST" "";
    Era [] (-18000) 161758800 0 "EST" "";
    Era rules_Nic (-21600) 694260000 0 "C%sT" "";
    Era [] (-18000) 717310800 0 "EST" "";
    Era [] (-21600) 725868000 0 "CST" "";
    Era [] (-18000) 852094800 0 "EST" "";
    Era rules_Nic (-21600) 0 0 "C%sT" "" ].

Definition eras_America_Manaus : list lc_timezone_era :=
  [ Era [] (-14404) (-1767211196) 0 "LMT" "";
    Era rules_Brazil (-14400) 590040000 0 "-04" "-03";
    Era [] (-14400) 749188800 0 "-04" "";
    Era rules_Brazil (-14400) 780206400 0 "-04" "-03";
    Era [] (-14400) 0 0 "-04" "" ].

Definition eras_America_Martinique : list lc_timezone_era :=
  [ Era [] (-14660) (-2524506940) 0 "LMT" "";
    Era [] (-14660) (-1851537340) 0 "FFMT" "";
    Era [] (-14400) 323841600 0 "AST" "";
    Era rules_100 (-14400) 338958000 6 "ADT" "";
    Era [] (-14400) 0 0 "AST" "" ].

Definition eras_America_Matamoros : list lc_timezone_era :=
  [ Era [] (-24000) (-1514743200) 0 "LMT" "";
    Era [] (-21600) 568015200 0 "CST" "";
    Era rules_US (-21600) 599637600 0 "C%sT" "";
    Era rules_Mexico (-21600) 1262325600 0 "C%sT" "";
    Era rules_US (-21600) 0 0 "C%sT" "" ].

Definition eras_America_Mazatlan : list lc_timezone_era :=
  [ Era [] (-25540) (-1514739600) 0 "LMT" "";
    Era [] (-25200) (-1343066400) 0 "MST" "";
    Era [] (-21600) (-1234807200) 0 "CST" "";
    Era [] (-25200) (-1220292000) 0 "MST" "";
    Era [] (-21600) (-1207159200) 0 "CST" "";
    Era [] (-25200) (-1191344400) 0 "MST" "";
    Era [] (-21600) (-873828000) 0 "CST" "";
    Era [] (-25200) (-661539600) 0 "MST" "";
    Era [] (-28800) 28800 0 "PST" "";
    Era rules_Mexico (-25200) 0 0 "M%sT" "" ].

Definition eras_America_Menominee : list lc_timezone_era :=
  [ Era [] (-21027) (-2659759773) 0 "LMT" "";
    Era rules_US (-21600) (-757360800) 0 "C%sT" "";
    Era rules_Menominee (-21600) (-21484800) 0 "C%sT" "";
    Era [] (-18000) 104914800 0 "EST" "";
    Era rules_US (-21600) 0 0 "C%sT" "" ].

Definition eras_America_Merida : list lc_timezone_era :=
  [ Era [] (-21508) (-1514743200) 0 "LMT" "";
    Era [] (-21600) 377935200 0 "CST" "";
    Era [] (-18000) 407653200 0 "EST" "";
    Era rules_Mexico (-21600) 0 0 "C%sT" "" ].

Definition eras_America_Metlakatla : list lc_timezone_era :=
  [ Era [] 54822 (-3225366822) 0 "LMT" "";
    Era [] (-31578) (-2188955622) 0 "LMT" "";
    Era [] (-28800) (-883584000) 0 "PST" "";
    Era rules_US (-28800) (-757353600) 0 "P%sT" "";
    Era [] (-28800) (-31507200) 0 "PST" "";
    Era rules_US (-28800) 436352400 6 "P%sT" "";
    Era [] (-28800) 1446372000 0 "PST" "";
    Era rules_US (-32400) 0 0 "AK%sT" "" ].

Definition eras_America_Mexico_City : list lc_timezone_era :=
  [ Era [] (-23796) (-1514739600) 0 "LMT" "";
    Era [] (-25200) (-1343066400) 0 "MST" "";
    Era [] (-21600) (-1234807200) 0 "CST" "";
    Era [] (-25200) (-1220292000) 0 "MST" "";
    Era [] (-21600) (-1207159200) 0 "CST" "";
    Era [] (-25200) (-1191344400) 0 "MST" "";
    Era rules_Mexico (-21600) 1001833200 6 "C%sT" "";
    Era [] (-21600) 1014184800 0 "CST" "";
    Era rules_Mexico (-21600) 0 0 "C%sT" "" ].

Definition eras_America_Miquelon : list lc_timezone_era :=
  [ Era [] (-13480) (-1850328920) 0 "LMT" "";
    Era [] (-14400) 326001600 0 "AST" "";
    Era [] (-10800) 536468400 0 "-03" "";
    Era rules_Canada (-10800) 0 0 "-03" "-02" ].

Definition eras_America_Moncton : list lc_timezone_era :=
  [ Era [] (-15548) (-2715882052) 0 "LMT" "";
    Era [] (-18000) (-2131642800) 0 "EST" "";
    Era rules_Canada (-14400) (-1167595200) 0 "A%sT" "";
    Era rules_Moncton (-14400) (-883598400) 0 "A%sT" "";
    Era rules_Canada (-14400) (-757368000) 0 "A%sT" "";
    Era rules_Moncton (-14400) 94708800 0 "A%sT" "";
    Era rules_Canada (-14400) 725860800 0 "A%sT" "";
    Era rules_Moncton (-14400) 1167624000 0 "A%sT" "";
    Era rules_Canada (-14400) 0 0 "A%sT" "" ].

Definition eras_America_Monterrey : list lc_timezone_era :=
  [ Era [] (-24076) (-1514743200) 0 "LMT" "";
    Era [] (-21600) 568015200 0 "CST" "";
    Era rules_US (-21600) 599637600 0 "C%sT" "";
    Era rules_Mexico (-21600) 0 0 "C%sT" "" ].

Definition eras_America_Montevideo : list lc_timezone_era :=
  [ Era [] (-13484) (-2256668116) 0 "LMT" "";
    Era [] (-13484) (-1567455316) 0 "MMT" "";
    Era rules_Uruguay (-12600) (-853619400) 0 "-0330" "-03";
    Era rules_Uruguay (-10800) (-63147600) 0 "-03" "-02";
    Era rules_Uruguay (-10800) 31546800 0 "-03" "-0230";
    Era rules_Uruguay (-10800) 126237600 6 "-03" "-02";
    Era rules_Uruguay (-10800) 156911400 3 "-03" "-0230";
    Era rules_Uruguay (-10800) 0 0 "-03" "-02" ].

Definition eras_America_Nassau : list lc_timezone_era :=
  [ Era [] (-18570) (-1825095030) 0 "LMT" "";
    Era rules_Bahamas (-18000) 189320400 0 "E%sT" "";
    Era rules_US (-18000) 0 0 "E%sT" "" ].

Definition eras_America_New_York : list lc_timezone_era :=
  [ Era [] (-17762) (-2717650800) 0 "LMT" "";
    Era rules_US (-18000) (-1577905200) 0 "E%sT" "";
    Era rules_NYC (-18000) (-883594800) 0 "E%sT" "";
    Era rules_US (-18000) (-757364400) 0 "E%sT" "";
    Era rules_NYC (-18000) (-94676400) 0 "E%sT" "";
    Era rules_US (-18000) 0 0 "E%sT" "" ].

Definition eras_America_Nipigon : list lc_timezone_era :=
  [ Era [] (-21184) (-2366734016) 0 "LMT" "";
    Era rules_Canada (-18000) (-923252400) 0 "E%sT" "";
    Era rules_100 (-18000) (-880218000) 6 "EDT" "";
    Era rules_Canada (-18000) 0 0 "E%sT" "" ].

Definition eras_America_Nome : list lc_timezone_era :=
  [ Era [] 46701 (-3225358701) 0 "LMT" "";
    Era [] (-39698) (-2188947502) 0 "LMT" "";
    Era [] (-39600) (-883573200) 0 "NST" "";
    Era rules_US (-39600) (-757342800) 0 "N%sT" "";
    Era [] (-39600) (-86878800) 0 "NST" "";
    Era [] (-39600) (-31496400) 0 "BST" "";
    Era rules_US (-39600) 436363200 6 "B%sT" "";
    Era rules_US (-32400) 439030800 0 "Y%sT" "";
    Era rules_US (-32400) 0 0 "AK%sT" "" ].

Definition eras_America_Noronha : list lc_timezone_era :=
  [ Era [] (-7780) (-1767217820) 0 "LMT" "";
    Era rules_Brazil (-7200) 653536800 0 "-02" "-01";
    Era [] (-7200) 938656800 0 "-02" "";
    Era rules_Brazil (-7200) 971571600 6 "-02" "-01";
    Era [] (-7200) 1000346400 0 "-02" "";
    Era rules_Brazil (-7200) 1033437600 0 "-02" "-01";
    Era [] (-7200) 0 0 "-02" "" ].

Definition eras_America_North_Dakota_Beulah : list lc_timezone_era :=
  [ Era [] (-24427) (-2717643600) 0 "LMT" "";
    Era rules_US (-25200) 1289116800 6 "M%sT" "";
    Era rules_US (-21600) 0 0 "C%sT" "" ].

Definition eras_America_North_Dakota_Center : list lc_timezone_era :=
  [ Era [] (-24312) (-2717643600) 0 "LMT" "";
    Era rules_US (-25200) 720000000 6 "M%sT" "";
    Era rules_US (-21600) 0 0 "C%sT" "" ].

Definition eras_America_North_Dakota_New_Salem : list lc_timezone_era :=
  [ Era [] (-24339) (-2717643600) 0 "LMT" "";
    Era rules_US (-25200) 1067155200 6 "M%sT" "";
    Era rules_US (-21600) 0 0 "C%sT" "" ].

Definition eras_America_Ojinaga : list lc_timezone_era :=
  [ Era [] (-25060) (-1514739600) 0 "LMT" "";
    Era [] (-25200) (-1343066400) 0 "MST" "";
    Era [] (-21600) (-1234807200) 0 "CST" "";
    Era [] (-25200) (-1220292000) 0 "MST" "";
    Era [] (-21600) (-1207159200) 0 "CST" "";
    Era [] (-25200) (-1191344400) 0 "MST" "";
    Era [] (-21600) 820476000 0 "CST" "";
    Era rules_Mexico (-21600) 883634400 0 "C%sT" "";
    Era [] (-21600) 891766800 0 "CST" "";
    Era rules_Mexico (-25200) 1262329200 0 "M%sT" "";
    Era rules_US (-25200) 0 0 "M%sT" "" ].

Definition eras_America_Panama : list lc_timezone_era :=
  [ Era [] (-19088) (-2524502512) 0 "LMT" "";
    Era [] (-19176) (-1946918424) 0 "CMT" "";
    Era [] (-18000) 0 0 "EST" "" ].

Definition eras_America_Pangnirtung : list lc_timezone_era :=
  [ Era [] 0 (-1546300800) 0 "-00" "";
    Era rules_NT_YK (-14400) 796802400 0 "A%sT" "";
    Era rules_Canada (-18000) 941349600 6 "E%sT" "";
    Era rules_Canada (-21600) 972802800 6 "C%sT" "";
    Era rules_Canada (-18000) 0 0 "E%sT" "" ].

Definition eras_America_Paramaribo : list lc_timezone_era :=
  [ Era [] (-13240) (-1861906760) 0 "LMT" "";
    Era [] (-13252) (-1104524348) 0 "PMT" "";
    Era [] (-13236) (-765317964) 0 "PMT" "";
    Era [] (-12600) 465449400 0 "-0330" "";
    Era [] (-10800) 0 0 "-03" "" ].

Definition eras_America_Phoenix : list lc_timezone_era :=
  [ Era [] (-26898) (-2717643600) 0 "LMT" "";
    Era rules_US (-25200) (-820519140) 6 "M%sT" "";
    Era [] (-25200) (-812653140) 0 "MST" "";
    Era rules_US (-25200) (-796845540) 6 "M%sT" "";
    Era [] (-25200) (-94669200) 0 "MST" "";
    Era rules_US (-25200) (-56221200) 0 "M%sT" "";
    Era [] (-25200) 0 0 "MST" "" ].

Definition eras_America_Port_au_Prince : list lc_timezone_era :=
  [ Era [] (-17360) (-2524504240) 0 "LMT" "";
    Era [] (-17340) (-1670483460) 0 "PPMT" "";
    Era rules_Haiti (-18000) 0 0 "E%sT" "" ].

Definition eras_America_Port_of_Spain : list lc_timezone_era :=
  [ Era [] (-14764) (-1825098836) 0 "LMT" "";
    Era [] (-14400) 0 0 "AST" "" ].

Definition eras_America_Porto_Velho : list lc_timezone_era :=
  [ Era [] (-15336) (-1767210264) 0 "LMT" "";
    Era rules_Brazil (-14400) 590040000 0 "-04" "-03";
    Era [] (-14400) 0 0 "-04" "" ].

Definition eras_America_Puerto_Rico : list lc_timezone_era :=
  [ Era [] (-15865) (-2233035335) 0 "LMT" "";
    Era [] (-14400) (-873057600) 0 "AST" "";
    Era rules_US (-14400) (-757368000) 0 "A%sT" "";
    Era [] (-14400) 0 0 "AST" "" ].

Definition eras_America_Punta_Arenas : list lc_timezone_era :=
  [ Era [] (-17020) (-2524504580) 0 "LMT" "";
    Era [] (-16966) (-1892661434) 0 "SMT" "";
    Era [] (-18000) (-1688410800) 0 "-05" "";
    Era [] (-16966) (-1619205434) 0 "SMT" "";
    Era [] (-14400) (-1593806400) 0 "-04" "";
    Era [] (-16966) (-1335986234) 0 "SMT" "";
    Era rules_Chile (-18000) (-1178132400) 0 "-05" "-04";
    Era [] (-14400) (-870552000) 0 "-04" "";
    Era [] (-18000) (-865278000) 0 "-05" "";
    Era [] (-14400) (-718056000) 0 "-04" "";
    Era [] (-18000) (-713649600) 0 "-05" "";
    Era rules_Chile (-14400) 1480820400 6 "-04" "-03";
    Era [] (-10800) 0 0 "-03" "" ].

Definition eras_America_Rainy_River : list lc_timezone_era :=
  [ Era [] (-22696) (-2366732504) 0 "LMT" "";
    Era rules_Canada (-21600) (-923248800) 0 "C%sT" "";
    Era rules_100 (-21600) (-880214400) 6 "CDT" "";
    Era rules_Canada (-21600) 0 0 "C%sT" "" ].

Definition eras_America_Rankin_Inlet : list lc_timezone_era :=
  [ Era [] 0 (-410227200) 0 "-00" "";
    Era rules_NT_YK (-21600) 972802800 6 "C%sT" "";
    Era [] (-18000) 986112000 0 "EST" "";
    Era rules_Canada (-21600) 0 0 "C%sT" "" ].

Definition eras_America_Recife : list lc_timezone_era :=
  [ Era [] (-8376) (-1767217224) 0 "LMT" "";
    Era rules_Brazil (-10800) 653540400 0 "-03" "-02";
    Era [] (-10800) 938660400 0 "-03" "";
    Era rules_Brazil (-10800) 971575200 6 "-03" "-02";
    Era [] (-10800) 1000350000 0 "-03" "";
    Era rules_Brazil (-10800) 1033441200 0 "-03" "-02";
    Era [] (-10800) 0 0 "-03" "" ].

Definition eras_America_Regina : list lc_timezone_era :=
  [ Era [] (-25116) (-2030202084) 0 "LMT" "";
    Era rules_Regina (-25200) (-305737200) 0 "M%sT" "";
    Era [] (-21600) 0 0 "CST" "" ].

Definition eras_America_Resolute : list lc_timezone_era :=
  [ Era [] 0 (-704937600) 0 "-00" "";
    Era rules_NT_YK (-21600) 972802800 6 "C%sT" "";
    Era [] (-18000) 986112000 0 "EST" "";
    Era rules_Canada (-21600) 1162105200 6 "C%sT" "";
    Era [] (-18000) 1173600000 0 "EST" "";
    Era rules_Canada (-21600) 0 0 "C%sT" "" ].

Definition eras_America_Rio_Branco : list lc_timezone_era :=
  [ Era [] (-16272) (-1767209328) 0 "LMT" "";
    Era rules_Brazil (-18000) 590043600 0 "-05" "-04";
    Era [] (-18000) 1214283600 0 "-05" "";
    Era [] (-14400) 1384056000 0 "-04" "";
    Era [] (-18000) 0 0 "-05" "" ].

Definition eras_America_Santarem : list lc_timezone_era :=
  [ Era [] (-13128) (-1767212472) 0 "LMT" "";
    Era rules_Brazil (-14400) 590040000 0 "-04" "-03";
    Era [] (-14400) 1214280000 0 "-04" "";
    Era [] (-10800) 0 0 "-03" "" ].

Definition eras_America_Santiago : list lc_timezone_era :=
  [ Era [] (-16966) (-2524504634) 0 "LMT" "";
    Era [] (-16966) (-1892661434) 0 "SMT" "";
    Era [] (-18000) (-1688410800) 0 "-05" "";
    Era [] (-16966) (-1619205434) 0 "SMT" "";
    Era [] (-14400) (-1593806400) 0 "-04" "";
    Era [] (-16966) (-1335986234) 0 "SMT" "";
    Era rules_Chile (-18000) (-1178132400) 0 "-05" "-04";
    Era [] (-14400) (-870552000) 0 "-04" "";
    Era [] (-18000) (-865278000) 0 "-05" "";
    Era [] (-14400) (-740520000) 0 "-04" "";
    Era rules_100 (-14400) (-736376400) 6 "-03" "";
    Era [] (-14400) (-718056000) 0 "-04" "";
    Era [] (-18000) (-713649600) 0 "-05" "";
    Era rules_Chile (-14400) 0 6 "-04" "-03" ].

Definition eras_America_Santo_Domingo : list lc_timezone_era :=
  [ Era [] (-16776) (-2524504824) 0 "LMT" "";
    Era [] (-16800) (-1159773600) 0 "SDMT" "";
    Era rules_DR (-18000) 152082000 0 "%s" "";
    Era [] (-14400) 972799200 0 "AST" "";
    Era rules_US (-18000) 975823200 0 "E%sT" "";
    Era [] (-14400) 0 0 "AST" "" ].

Definition eras_America_Sao_Paulo : list lc_timezone_era :=
  [ Era [] (-11188) (-1767214412) 0 "LMT" "";
    Era rules_Brazil (-10800) (-195426000) 0 "-03" "-02";
    Era rules_100 (-10800) (-189381600) 6 "-02" "";
    Era rules_Brazil (-10800) 0 0 "-03" "-02" ].

Definition eras_America_Scoresbysund : list lc_timezone_era :=
  [ Era [] (-5272) (-1686090728) 0 "LMT" "";
    Era [] (-7200) 323841600 0 "-02" "";
    Era rules_C_Eur (-7200) 354679200 0 "-02" "-01";
    Era rules_EU (-3600) 0 0 "-01" "+00" ].

Definition eras_America_Sitka : list lc_timezone_era :=
  [ Era [] 53927 (-3225365927) 0 "LMT" "";
    Era [] (-32473) (-2188954727) 0 "LMT" "";
    Era [] (-28800) (-883584000) 0 "PST" "";
    Era rules_US (-28800) (-757353600) 0 "P%sT" "";
    Era [] (-28800) (-31507200) 0 "PST" "";
    Era rules_US (-28800) 436352400 6 "P%sT" "";
    Era rules_US (-32400) 439030800 0 "Y%sT" "";
    Era rules_US (-32400) 0 0 "AK%sT" "" ].

Definition eras_America_St_Johns : list lc_timezone_era :=
  [ Era [] (-12652) (-2713897748) 0 "LMT" "";
    Era rules_StJohns (-12652) (-1640982548) 0 "N%sT" "";
    Era rules_Canada (-12652) (-1609446548) 0 "N%sT" "";
    Era rules_StJohns (-12652) (-1096921748) 0 "N%sT" "";
    Era rules_StJohns (-12600) (-872368200) 0 "N%sT" "";
    Era rules_Canada (-12600) (-757369800) 0 "N%sT" "";
    Era rules_StJohns (-12600) 1320114600 6 "N%sT" "";
    Era rules_Canada (-12600) 0 0 "N%sT" "" ].

Definition eras_America_Swift_Current : list lc_timezone_era :=
  [ Era [] (-25880) (-2030201320) 0 "LMT" "";
    Era rules_Canada (-25200) (-747241200) 0 "M%sT" "";
    Era rules_Regina (-25200) (-631126800) 0 "M%sT" "";
    Era rules_Swift (-25200) 73472400 0 "M%sT" "";
    Era [] (-21600) 0 0 "CST" "" ].

Definition eras_America_Tegucigalpa : list lc_timezone_era :=
  [ Era [] (-20932) (-1538503868) 0 "LMT" "";
    Era rules_Hond (-21600) 0 0 "C%sT" "" ].

Definition eras_America_Thule : list lc_timezone_era :=
  [ Era [] (-16508) (-1686079492) 0 "LMT" "";
    Era rules_Thule (-14400) 0 0 "A%sT" "" ].

Definition eras_America_Thunder_Bay : list lc_timezone_era :=
  [ Era [] (-21420) (-2366733780) 0 "LMT" "";
    Era [] (-21600) (-1893434400) 0 "CST" "";
    Era [] (-18000) (-883594800) 0 "EST" "";
    Era rules_Canada (-18000) 18000 0 "E%sT" "";
    Era rules_Toronto (-18000) 94712400 0 "E%sT" "";
    Era [] (-18000) 126248400 0 "EST" "";
    Era rules_Canada (-18000) 0 0 "E%sT" "" ].

Definition eras_America_Tijuana : list lc_timezone_era :=
  [ Era [] (-28084) (-1514736000) 0 "LMT" "";
    Era [] (-25200) (-1451667600) 0 "MST" "";
    Era [] (-28800) (-1343062800) 0 "PST" "";
    Era [] (-25200) (-1234803600) 0 "MST" "";
    Era [] (-28800) (-1222963200) 0 "PST" "";
    Era rules_100 (-28800) (-1207242000) 6 "PDT" "";
    Era [] (-28800) (-873820800) 0 "PST" "";
    Era rules_100 (-28800) (-769395600) 6 "PWT" "";
    Era rules_100 (-28800) (-761677200) 6 "PPT" "";
    Era [] (-28800) (-686073600) 0 "PST" "";
    Era rules_100 (-28800) (-661539600) 6 "PDT" "";
    Era [] (-28800) (-504892800) 0 "PST" "";
    Era rules_CA (-28800) (-283968000) 0 "P%sT" "";
    Era [] (-28800) 189331200 0 "PST" "";
    Era rules_US (-28800) 820483200 0 "P%sT" "";
    Era rules_Mexico (-28800) 978336000 0 "P%sT" "";
    Era rules_US (-28800) 1014192000 0 "P%sT" "";
    Era rules_Mexico (-28800) 1262332800 0 "P%sT" "";
    Era rules_US (-28800) 0 0 "P%sT" "" ].

Definition eras_America_Toronto : list lc_timezone_era :=
  [ Era [] (-19052) (-2366736148) 0 "LMT" "";
    Era rules_Canada (-18000) (-1609441200) 0 "E%sT" "";
    Era rules_Toronto (-18000) (-880218000) 6 "E%sT" "";
    Era rules_Canada (-18000) (-757364400) 0 "E%sT" "";
    Era rules_Toronto (-18000) 126248400 0 "E%sT" "";
    Era rules_Canada (-18000) 0 0 "E%sT" "" ].

Definition eras_America_Vancouver : list lc_timezone_era :=
  [ Era [] (-29548) (-2713880852) 0 "LMT" "";
    Era rules_Vanc (-28800) 536486400 0 "P%sT" "";
    Era rules_Canada (-28800) 0 0 "P%sT" "" ].

Definition eras_America_Whitehorse : list lc_timezone_era :=
  [ Era [] (-32412) (-2188997988) 0 "LMT" "";
    Era rules_NT_YK (-32400) (-81961200) 0 "Y%sT" "";
    Era rules_NT_YK (-28800) 315561600 0 "P%sT" "";
    Era rules_Canada (-28800) 0 0 "P%sT" "" ].

Definition eras_America_Winnipeg : list lc_timezone_era :=
  [ Era [] (-23316) (-2602258284) 0 "LMT" "";
    Era rules_Winn (-21600) 1136095200 0 "C%sT" "";
    Era rules_Canada (-21600) 0 0 "C%sT" "" ].

Definition eras_America_Yakutat : list lc_timezone_era :=
  [ Era [] 52865 (-3225364865) 0 "LMT" "";
    Era [] (-33535) (-2188953665) 0 "LMT" "";
    Era [] (-32400) (-883580400) 0 "YST" "";
    Era rules_US (-32400) (-757350000) 0 "Y%sT" "";
    Era [] (-32400) (-31503600) 0 "YST" "";
    Era rules_US (-32400) 439030800 0 "Y%sT" "";
    Era rules_US (-32400) 0 0 "AK%sT" "" ].

Definition eras_America_Yellowknife : list lc_timezone_era :=
  [ Era [] 0 (-1104537600) 0 "-00" "";
    Era rules_NT_YK (-25200) 315558000 0 "M%sT" "";
    Era rules_Canada (-25200) 0 0 "M%sT" "" ].

Definition eras_Antarctica_Casey : list lc_timezone_era :=
  [ Era [] 0 (-31536000) 0 "-00" "";
    Era [] 28800 1255802400 0 "+08" "";
    Era [] 39600 1267714800 0 "+11" "";
    Era [] 28800 1319738400 0 "+08" "";
    Era [] 39600 1329843600 0 "+11" "";
    Era [] 28800 1477065600 0 "+08" "";
    Era [] 39600 0 0 "+11" "" ].

Definition eras_Antarctica_Davis : list lc_timezone_era :=
  [ Era [] 0 (-409190400) 0 "-00" "";
    Era [] 25200 (-163062000) 0 "+07" "";
    Era [] 0 (-28857600) 0 "-00" "";
    Era [] 25200 1255806000 0 "+07" "";
    Era [] 18000 1268251200 0 "+05" "";
    Era [] 25200 1319742000 0 "+07" "";
    Era [] 18000 1329854400 0 "+05" "";
    Era [] 25200 0 0 "+07" "" ].

Definition eras_Antarctica_DumontDUrville : list lc_timezone_era :=
  [ Era [] 0 (-725846400) 0 "-00" "";
    Era [] 36000 (-566992800) 0 "+10" "";
    Era [] 0 (-415497600) 0 "-00" "";
    Era [] 36000 0 0 "+10" "" ].

Definition eras_Antarctica_Macquarie : list lc_timezone_era :=
  [ Era [] 0 (-2214259200) 0 "-00" "";
    Era [] 36000 (-1680508800) 0 "AEST" "";
    Era rules_100 36000 (-1669892400) 6 "AEDT" "";
    Era rules_Aus 36000 (-1601719200) 0 "AE%sT" "";
    Era [] 0 (-687052800) 0 "-00" "";
    Era rules_Aus 36000 (-94730400) 0 "AE%sT" "";
    Era rules_AT 36000 1270310400 6 "AE%sT" "";
    Era [] 39600 0 0 "+11" "" ].

Definition eras_Antarctica_Mawson : list lc_timezone_era :=
  [ Era [] 0 (-501206400) 0 "-00" "";
    Era [] 21600 1255809600 0 "+06" "";
    Era [] 18000 0 0 "+05" "" ].

Definition eras_Antarctica_Palmer : list lc_timezone_era :=
  [ Era [] 0 (-157766400) 0 "-00" "";
    Era rules_Arg (-14400) (-7588800) 0 "-04" "-03";
    Era rules_Arg (-10800) 389070000 0 "-03" "-02";
    Era rules_Chile (-14400) 1480820400 6 "-04" "-03";
    Era [] (-10800) 0 0 "-03" "" ].

Definition eras_Antarctica_Rothera : list lc_timezone_era :=
  [ Era [] 0 218246400 0 "-00" "";
    Era [] (-10800) 0 0 "-03" "" ].

Definition eras_Antarctica_Syowa : list lc_timezone_era :=
  [ Era [] 0 (-407808000) 0 "-00" "";
    Era [] 10800 0 0 "+03" "" ].

Definition eras_Antarctica_Troll : list lc_timezone_era :=
  [ Era [] 0 1108166400 0 "-00" "";
    Era rules_Troll 0 0 0 "%s" "" ].

Definition eras_Antarctica_Vostok : list lc_timezone_era :=
  [ Era [] 0 (-380073600) 0 "-00" "";
    Era [] 21600 0 0 "+06" "" ].

Definition eras_Asia_Almaty : list lc_timezone_era :=
  [ Era [] 18468 (-1441170468) 0 "LMT" "";
    Era [] 18000 (-1247547600) 0 "+05" "";
    Era rules_RussiaAsia 21600 670363200 0 "+06" "+07";
    Era rules_RussiaAsia 18000 695768400 0 "+05" "+06";
    Era rules_RussiaAsia 21600 1099166400 6 "+06" "+07";
    Era [] 21600 0 0 "+06" "" ].

Definition eras_Asia_Amman : list lc_timezone_era :=
  [ Era [] 8624 (-1230776624) 0 "LMT" "";
    Era rules_Jordan 7200 0 0 "EE%sT" "" ].

Definition eras_Asia_Anadyr : list lc_timezone_era :=
  [ Era [] 42596 (-1441194596) 0 "LMT" "";
    Era [] 43200 (-1247572800) 0 "+12" "";
    Era rules_Russia 46800 386420400 0 "+13" "+14";
    Era rules_Russia 43200 670341600 0 "+12" "+13";
    Era rules_Russia 39600 695746800 0 "+11" "+12";
    Era rules_Russia 43200 1269698400 0 "+12" "+13";
    Era rules_Russia 39600 1301151600 0 "+11" "+12";
    Era [] 43200 0 0 "+12" "" ].

Definition eras_Asia_Aqtau : list lc_timezone_era :=
  [ Era [] 12064 (-1441164064) 0 "LMT" "";
    Era [] 14400 (-1247544000) 0 "+04" "";
    Era [] 18000 370724400 0 "+05" "";
    Era [] 21600 386445600 0 "+06" "";
    Era rules_RussiaAsia 18000 670366800 0 "+05" "+06";
    Era rules_RussiaAsia 14400 695772000 0 "+04" "+05";
    Era rules_RussiaAsia 18000 780440400 6 "+05" "+06";
    Era rules_RussiaAsia 14400 1099173600 6 "+04" "+05";
    Era [] 18000 0 0 "+05" "" ].

Definition eras_Asia_Aqtobe : list lc_timezone_era :=
  [ Era [] 13720 (-1441165720) 0 "LMT" "";
    Era [] 14400 (-1247544000) 0 "+04" "";
    Era [] 18000 354913200 0 "+05" "";
    Era rules_100 18000 370720800 6 "+06" "";
    Era [] 21600 386445600 0 "+06" "";
    Era rules_RussiaAsia 18000 670366800 0 "+05" "+06";
    Era rules_RussiaAsia 14400 695772000 0 "+04" "+05";
    Era rules_RussiaAsia 18000 1099170000 6 "+05" "+06";
    Era [] 18000 0 0 "+05" "" ].

Definition eras_Asia_Ashgabat : list lc_timezone_era :=
  [ Era [] 14012 (-1441166012) 0 "LMT" "";
    Era [] 14400 (-1247544000) 0 "+04" "";
    Era rules_RussiaAsia 18000 670366800 0 "+05" "+06";
    Era rules_RussiaAsia 14400 695772000 0 "+04" "+05";
    Era [] 18000 0 0 "+05" "" ].

Definition eras_Asia_Atyrau : list lc_timezone_era :=
  [ Era [] 12464 (-1441164464) 0 "LMT" "";
    Era [] 10800 (-1247540400) 0 "+03" "";
    Era [] 18000 370724400 0 "+05" "";
    Era [] 21600 386445600 0 "+06" "";
    Era rules_RussiaAsia 18000 670366800 0 "+05" "+06";
    Era rules_RussiaAsia 14400 695772000 0 "+04" "+05";
    Era rules_RussiaAsia 18000 922568400 0 "+05" "+06";
    Era rules_RussiaAsia 14400 1099173600 6 "+04" "+05";
    Era [] 18000 0 0 "+05" "" ].

Definition eras_Asia_Baghdad : list lc_timezone_era :=
  [ Era [] 10660 (-2524532260) 0 "LMT" "";
    Era [] 10656 (-1641005856) 0 "BMT" "";
    Era [] 10800 389048400 0 "+03" "";
    Era rules_Iraq 10800 0 0 "+03" "+04" ].

Definition eras_Asia_Baku : list lc_timezone_era :=
  [ Era [] 11964 (-1441163964) 0 "LMT" "";
    Era [] 10800 (-405140400) 0 "+03" "";
    Era rules_RussiaAsia 14400 670370400 0 "+04" "+05";
    Era rules_RussiaAsia 10800 717548400 6 "+03" "+04";
    Era [] 14400 820440000 0 "+04" "";
    Era rules_EUAsia 14400 852062400 0 "+04" "+05";
    Era rules_Azer 14400 0 0 "+04" "+05" ].

Definition eras_Asia_Bangkok : list lc_timezone_era :=
  [ Era [] 24124 (-2840164924) 0 "LMT" "";
    Era [] 24124 (-1570084924) 0 "BMT" "";
    Era [] 25200 0 0 "+07" "" ].

Definition eras_Asia_Barnaul : list lc_timezone_era :=
  [ Era [] 20100 (-1579844100) 0 "LMT" "";
    Era [] 21600 (-1247551200) 0 "+06" "";
    Era rules_Russia 25200 670359600 0 "+07" "+08";
    Era rules_Russia 21600 695764800 0 "+06" "+07";
    Era rules_Russia 25200 801590400 6 "+07" "+08";
    Era rules_Russia 21600 1301169600 0 "+06" "+07";
    Era [] 25200 1414263600 0 "+07" "";
    Era [] 21600 1459022400 0 "+06" "";
    Era [] 25200 0 0 "+07" "" ].

Definition eras_Asia_Beirut : list lc_timezone_era :=
  [ Era [] 8520 (-2840149320) 0 "LMT" "";
    Era rules_Lebanon 7200 0 0 "EE%sT" "" ].

Definition eras_Asia_Bishkek : list lc_timezone_era :=
  [ Era [] 17904 (-1441169904) 0 "LMT" "";
    Era [] 18000 (-1247547600) 0 "+05" "";
    Era rules_RussiaAsia 21600 670363200 0 "+06" "+07";
    Era rules_RussiaAsia 18000 683582400 6 "+05" "+06";
    Era rules_Kyrgyz 18000 1123783200 6 "+05" "+06";
    Era [] 21600 0 0 "+06" "" ].

Definition eras_Asia_Brunei : list lc_timezone_era :=
  [ Era [] 27580 (-1383464380) 0 "LMT" "";
    Era [] 27000 (-1167636600) 0 "+0730" "";
    Era [] 28800 0 0 "+08" "" ].

Definition eras_Asia_Chita : list lc_timezone_era :=
  [ Era [] 27232 (-1579419232) 0 "LMT" "";
    Era [] 28800 (-1247558400) 0 "+08" "";
    Era rules_Russia 32400 670352400 0 "+09" "+10";
    Era rules_Russia 28800 695757600 0 "+08" "+09";
    Era rules_Russia 32400 1301158800 0 "+09" "+10";
    Era [] 36000 1414252800 0 "+10" "";
    Era [] 28800 1459015200 0 "+08" "";
    Era [] 32400 0 0 "+09" "" ].

Definition eras_Asia_Choibalsan : list lc_timezone_era :=
  [ Era [] 27480 (-2032933080) 0 "LMT" "";
    Era [] 25200 252435600 0 "+07" "";
    Era [] 28800 417974400 0 "+08" "";
    Era rules_Mongol 32400 1206889200 0 "+09" "+10";
    Era rules_Mongol 28800 0 0 "+08" "+09" ].

Definition eras_Asia_Colombo : list lc_timezone_era :=
  [ Era [] 19164 (-2840159964) 0 "LMT" "";
    Era [] 19172 (-2019705572) 0 "MMT" "";
    Era [] 19800 (-883287000) 0 "+0530" "";
    Era rules_030 19800 (-862639200) 3 "+06" "";
    Era rules_100 19800 (-764051400) 6 "+0630" "";
    Era [] 19800 832962600 0 "+0530" "";
    Era [] 23400 846266400 0 "+0630" "";
    Era [] 21600 1145039400 0 "+06" "";
    Era [] 19800 0 0 "+0530" "" ].

Definition eras_Asia_Damascus : list lc_timezone_era :=
  [ Era [] 8712 (-1577931912) 0 "LMT" "";
    Era rules_Syria 7200 0 0 "EE%sT" "" ].

Definition eras_Asia_Dhaka : list lc_timezone_era :=
  [ Era [] 21700 (-2524543300) 0 "LMT" "";
    Era [] 21200 (-891582800) 0 "HMT" "";
    Era [] 23400 (-872058600) 0 "+0630" "";
    Era [] 19800 (-862637400) 0 "+0530" "";
    Era [] 23400 (-576138600) 0 "+0630" "";
    Era [] 21600 1230746400 0 "+06" "";
    Era rules_Dhaka 21600 0 0 "+06" "+07" ].

Definition eras_Asia_Dili : list lc_timezone_era :=
  [ Era [] 30140 (-1830414140) 0 "LMT" "";
    Era [] 28800 (-879152400) 0 "+08" "";
    Era [] 32400 199897200 0 "+09" "";
    Era [] 28800 969120000 0 "+08" "";
    Era [] 32400 0 0 "+09" "" ].

Definition eras_Asia_Dubai : list lc_timezone_era :=
  [ Era [] 13272 (-1577936472) 0 "LMT" "";
    Era [] 14400 0 0 "+04" "" ].

Definition eras_Asia_Dushanbe : list lc_timezone_era :=
  [ Era [] 16512 (-1441168512) 0 "LMT" "";
    Era [] 18000 (-1247547600) 0 "+05" "";
    Era rules_RussiaAsia 21600 670363200 0 "+06" "+07";
    Era rules_100 18000 684363600 6 "+05" "+06";
    Era [] 18000 0 0 "+05" "" ].

Definition eras_Asia_Famagusta : list lc_timezone_era :=
  [ Era [] 8148 (-1518920148) 0 "LMT" "";
    Era rules_Cyprus 7200 904597200 6 "EE%sT" "";
    Era rules_EUAsia 7200 1473282000 6 "EE%sT" "";
    Era [] 10800 0 0 "+03" "" ].

Definition eras_Asia_Gaza : list lc_timezone_era :=
  [ Era [] 8272 (-2185409872) 0 "LMT" "";
    Era rules_Zion 7200 (-682653600) 0 "EET" "EEST";
    Era rules_EgyptAsia 7200 (-81313200) 6 "EE%sT" "";
    Era rules_Zion 7200 820447200 0 "I%sT" "";
    Era rules_Jordan 7200 915141600 0 "EE%sT" "";
    Era rules_Palestine 7200 1219957200 6 "EE%sT" "";
    Era [] 7200 1220220000 0 "EET" "";
    Era rules_Palestine 7200 1262296800 0 "EE%sT" "";
    Era [] 7200 1269640860 0 "EET" "";
    Era rules_Palestine 7200 1312146000 6 "EE%sT" "";
    Era [] 7200 1325368800 0 "EET" "";
    Era rules_Palestine 7200 0 0 "EE%sT" "" ].

Definition eras_Asia_Hebron : list lc_timezone_era :=
  [ Era [] 8423 (-2185410023) 0 "LMT" "";
    Era rules_Zion 7200 (-682653600) 0 "EET" "EEST";
    Era rules_EgyptAsia 7200 (-81313200) 6 "EE%sT" "";
    Era rules_Zion 7200 820447200 0 "I%sT" "";
    Era rules_Jordan 7200 915141600 0 "EE%sT" "";
    Era rules_Palestine 7200 0 0 "EE%sT" "" ].

Definition eras_Asia_Ho_Chi_Minh : list lc_timezone_era :=
  [ Era [] 25600 (-2004073600) 0 "LMT" "";
    Era [] 25590 (-1851577590) 0 "PLMT" "";
    Era [] 25200 (-852105600) 0 "+07" "";
    Era [] 28800 (-782643600) 0 "+08" "";
    Era [] 32400 (-767869200) 0 "+09" "";
    Era [] 25200 (-718095600) 0 "+07" "";
    Era [] 28800 (-457776000) 0 "+08" "";
    Era [] 25200 (-315648000) 0 "+07" "";
    Era [] 28800 171820800 0 "+08" "";
    Era [] 25200 0 0 "+07" "" ].

Definition eras_Asia_Hong_Kong : list lc_timezone_era :=
  [ Era [] 27402 (-2056693002) 0 "LMT" "";
    Era rules_HK 28800 (-884246400) 0 "HK%sT" "";
    Era [] 32400 (-766746000) 0 "JST" "";
    Era rules_HK 28800 0 0 "HK%sT" "" ].

Definition eras_Asia_Hovd : list lc_timezone_era :=
  [ Era [] 21996 (-2032927596) 0 "LMT" "";
    Era [] 21600 252439200 0 "+06" "";
    Era rules_Mongol 25200 0 0 "+07" "+08" ].

Definition eras_Asia_Irkutsk : list lc_timezone_era :=
  [ Era [] 25025 (-2840165825) 0 "LMT" "";
    Era [] 25025 (-1575874625) 0 "IMT" "";
    Era [] 25200 (-1247554800) 0 "+07" "";
    Era rules_Russia 28800 670356000 0 "+08" "+09";
    Era rules_Russia 25200 695761200 0 "+07" "+08";
    Era rules_Russia 28800 1301162400 0 "+08" "+09";
    Era [] 32400 1414256400 0 "+09" "";
    Era [] 28800 0 0 "+08" "" ].

Definition eras_Asia_Jakarta : list lc_timezone_era :=
  [ Era [] 25632 (-3231299232) 0 "LMT" "";
    Era [] 25632 (-1451719200) 0 "BMT" "";
    Era [] 26400 (-1172906400) 0 "+0720" "";
    Era [] 27000 (-876641400) 0 "+0730" "";
    Era [] 32400 (-766054800) 0 "+09" "";
    Era [] 27000 (-683883000) 0 "+0730" "";
    Era [] 28800 (-620812800) 0 "+08" "";
    Era [] 27000 (-189415800) 0 "+0730" "";
    Era [] 25200 0 0 "WIB" "" ].

Definition eras_Asia_Jayapura : list lc_timezone_era :=
  [ Era [] 33768 (-1172913768) 0 "LMT" "";
    Era [] 32400 (-799491600) 0 "+09" "";
    Era [] 34200 (-189423000) 0 "+0930" "";
    Era [] 32400 0 0 "WIT" "" ].

Definition eras_Asia_Jerusalem : list lc_timezone_era :=
  [ Era [] 8454 (-2840149254) 0 "LMT" "";
    Era [] 8440 (-1641003640) 0 "JMT" "";
    Era rules_Zion 7200 0 0 "I%sT" "" ].

Definition eras_Asia_Kabul : list lc_timezone_era :=
  [ Era [] 16608 (-2524538208) 0 "LMT" "";
    Era [] 14400 (-788932800) 0 "+04" "";
    Era [] 16200 0 0 "+0430" "" ].

Definition eras_Asia_Kamchatka : list lc_timezone_era :=
  [ Era [] 38076 (-1487759676) 0 "LMT" "";
    Era [] 39600 (-1247569200) 0 "+11" "";
    Era rules_Russia 43200 670341600 0 "+12" "+13";
    Era rules_Russia 39600 695746800 0 "+11" "+12";
    Era rules_Russia 43200 1269698400 0 "+12" "+13";
    Era rules_Russia 39600 1301151600 0 "+11" "+12";
    Era [] 43200 0 0 "+12" "" ].

Definition eras_Asia_Karachi : list lc_timezone_era :=
  [ Era [] 16092 (-1988166492) 0 "LMT" "";
    Era [] 19800 (-862637400) 0 "+0530" "";
    Era rules_100 19800 (-764145000) 6 "+0630" "";
    Era [] 19800 (-576135000) 0 "+0530" "";
    Era [] 18000 38775600 0 "+05" "";
    Era rules_Pakistan 18000 0 0 "PK%sT" "" ].

Definition eras_Asia_Kathmandu : list lc_timezone_era :=
  [ Era [] 20476 (-1577943676) 0 "LMT" "";
    Era [] 19800 504901800 0 "+0530" "";
    Era [] 20700 0 0 "+0545" "" ].

Definition eras_Asia_Khandyga : list lc_timezone_era :=
  [ Era [] 32533 (-1579424533) 0 "LMT" "";
    Era [] 28800 (-1247558400) 0 "+08" "";
    Era rules_Russia 32400 670352400 0 "+09" "+10";
    Era rules_Russia 28800 695757600 0 "+08" "+09";
    Era rules_Russia 32400 1072882800 0 "+09" "+10";
    Era rules_Russia 36000 1301155200 0 "+10" "+11";
    Era [] 39600 1315832400 0 "+11" "";
    Era [] 36000 1414252800 0 "+10" "";
    Era [] 32400 0 0 "+09" "" ].

Definition eras_Asia_Kolkata : list lc_timezone_era :=
  [ Era [] 21208 (-2840162008) 0 "LMT" "";
    Era [] 21200 (-891582800) 0 "HMT" "";
    Era [] 23400 (-872058600) 0 "+0630" "";
    Era [] 19800 (-862637400) 0 "IST" "";
    Era rules_100 19800 (-764145000) 6 "+0630" "";
    Era [] 19800 0 0 "IST" "" ].

Definition eras_Asia_Krasnoyarsk : list lc_timezone_era :=
  [ Era [] 22286 (-1577513486) 0 "LMT" "";
    Era [] 21600 (-1247551200) 0 "+06" "";
    Era rules_Russia 25200 670359600 0 "+07" "+08";
    Era rules_Russia 21600 695764800 0 "+06" "+07";
    Era rules_Russia 25200 1301166000 0 "+07" "+08";
    Era [] 28800 1414260000 0 "+08" "";
    Era [] 25200 0 0 "+07" "" ].

Definition eras_Asia_Kuala_Lumpur : list lc_timezone_era :=
  [ Era [] 24406 (-2177477206) 0 "LMT" "";
    Era [] 24925 (-2038200925) 0 "SMT" "";
    Era [] 25200 (-1167634800) 0 "+07" "";
    Era rules_020 25200 (-1073028000) 2 "+0720" "";
    Era [] 26400 (-894180000) 0 "+0720" "";
    Era [] 27000 (-879665400) 0 "+0730" "";
    Era [] 32400 (-767005200) 0 "+09" "";
    Era [] 27000 378664200 0 "+0730" "";
    Era [] 28800 0 0 "+08" "" ].

Definition eras_Asia_Kuching : list lc_timezone_era :=
  [ Era [] 26480 (-1383463280) 0 "LMT" "";
    Era [] 27000 (-1167636600) 0 "+0730" "";
    Era rules_NBorneo 28800 (-879667200) 0 "+08" "+0820";
    Era [] 32400 (-767005200) 0 "+09" "";
    Era [] 28800 0 0 "+08" "" ].

Definition eras_Asia_Macau : list lc_timezone_era :=
  [ Era [] 27260 (-1830411260) 0 "LMT" "";
    Era rules_Macau 28800 0 0 "C%sT" "" ].

Definition eras_Asia_Magadan : list lc_timezone_era :=
  [ Era [] 36192 (-1441188192) 0 "LMT" "";
    Era [] 36000 (-1247565600) 0 "+10" "";
    Era rules_Russia 39600 670345200 0 "+11" "+12";
    Era rules_Russia 36000 695750400 0 "+10" "+11";
    Era rules_Russia 39600 1301151600 0 "+11" "+12";
    Era [] 43200 1414245600 0 "+12" "";
    Era [] 36000 1461427200 0 "+10" "";
    Era [] 39600 0 0 "+11" "" ].

Definition eras_Asia_Makassar : list lc_timezone_era :=
  [ Era [] 28656 (-1577951856) 0 "LMT" "";
    Era [] 28656 (-1172908656) 0 "MMT" "";
    Era [] 28800 (-880272000) 0 "+08" "";
    Era [] 32400 (-766054800) 0 "+09" "";
    Era [] 28800 0 0 "WITA" "" ].

Definition eras_Asia_Manila : list lc_timezone_era :=
  [ Era [] (-57360) (-3944621040) 0 "LMT" "";
    Era [] 29040 (-2229321840) 0 "LMT" "";
    Era rules_Phil 28800 (-873273600) 0 "+08" "+09";
    Era [] 32400 (-794221200) 0 "+09" "";
    Era rules_Phil 28800 0 0 "+08" "+09" ].

Definition eras_Asia_Nicosia : list lc_timezone_era :=
  [ Era [] 8008 (-1518920008) 0 "LMT" "";
    Era rules_Cyprus 7200 904597200 6 "EE%sT" "";
    Era rules_EUAsia 7200 0 0 "EE%sT" "" ].

Definition eras_Asia_Novokuznetsk : list lc_timezone_era :=
  [ Era [] 20928 (-1441259328) 0 "LMT" "";
    Era [] 21600 (-1247551200) 0 "+06" "";
    Era rules_Russia 25200 670359600 0 "+07" "+08";
    Era rules_Russia 21600 695764800 0 "+06" "+07";
    Era rules_Russia 25200 1269716400 0 "+07" "+08";
    Era rules_Russia 21600 1301169600 0 "+06" "+07";
    Era [] 25200 0 0 "+07" "" ].

Definition eras_Asia_Novosibirsk : list lc_timezone_era :=
  [ Era [] 19900 (-1579476700) 0 "LMT" "";
    Era [] 21600 (-1247551200) 0 "+06" "";
    Era rules_Russia 25200 670359600 0 "+07" "+08";
    Era rules_Russia 21600 695764800 0 "+06" "+07";
    Era rules_Russia 25200 738086400 6 "+07" "+08";
    Era rules_Russia 21600 1301169600 0 "+06" "+07";
    Era [] 25200 1414263600 0 "+07" "";
    Era [] 21600 1469304000 0 "+06" "";
    Era [] 25200 0 0 "+07" "" ].

Definition eras_Asia_Omsk : list lc_timezone_era :=
  [ Era [] 17610 (-1582088010) 0 "LMT" "";
    Era [] 18000 (-1247547600) 0 "+05" "";
    Era rules_Russia 21600 670363200 0 "+06" "+07";
    Era rules_Russia 18000 695768400 0 "+05" "+06";
    Era rules_Russia 21600 1301169600 0 "+06" "+07";
    Era [] 25200 1414263600 0 "+07" "";
    Era [] 21600 0 0 "+06" "" ].

Definition eras_Asia_Oral : list lc_timezone_era :=
  [ Era [] 12324 (-1441164324) 0 "LMT" "";
    Era [] 10800 (-1247540400) 0 "+03" "";
    Era [] 18000 354913200 0 "+05" "";
    Era rules_100 18000 370720800 6 "+06" "";
    Era [] 21600 386445600 0 "+06" "";
    Era rules_RussiaAsia 18000 606862800 0 "+05" "+06";
    Era rules_RussiaAsia 14400 695772000 0 "+04" "+05";
    Era rules_RussiaAsia 18000 701816400 0 "+05" "+06";
    Era rules_RussiaAsia 14400 1099173600 6 "+04" "+05";
    Era [] 18000 0 0 "+05" "" ].

Definition eras_Asia_Pontianak : list lc_timezone_era :=
  [ Era [] 26240 (-1946186240) 0 "LMT" "";
    Era [] 26240 (-1172906240) 0 "PMT" "";
    Era [] 27000 (-881220600) 0 "+0730" "";
    Era [] 32400 (-766054800) 0 "+09" "";
    Era [] 27000 (-683883000) 0 "+0730" "";
    Era [] 28800 (-620812800) 0 "+08" "";
    Era [] 27000 (-189415800) 0 "+0730" "";
    Era [] 28800 567964800 0 "WITA" "";
    Era [] 25200 0 0 "WIB" "" ].

Definition eras_Asia_Pyongyang : list lc_timezone_era :=
  [ Era [] 30180 (-1948782180) 0 "LMT" "";
    Era [] 30600 (-1830414600) 0 "KST" "";
    Era [] 32400 (-768646800) 0 "JST" "";
    Era [] 32400 1439564400 0 "KST" "";
    Era [] 30600 0 0 "KST" "" ].

Definition eras_Asia_Qatar : list lc_timezone_era :=
  [ Era [] 12368 (-1577935568) 0 "LMT" "";
    Era [] 14400 76190400 0 "+04" "";
    Era [] 10800 0 0 "+03" "" ].

Definition eras_Asia_Qyzylorda : list lc_timezone_era :=
  [ Era [] 15712 (-1441167712) 0 "LMT" "";
    Era [] 14400 (-1247544000) 0 "+04" "";
    Era [] 18000 354913200 0 "+05" "";
    Era rules_100 18000 370720800 6 "+06" "";
    Era [] 21600 386445600 0 "+06" "";
    Era rules_RussiaAsia 18000 670366800 0 "+05" "+06";
    Era rules_RussiaAsia 14400 686095200 6 "+04" "+05";
    Era rules_RussiaAsia 18000 695768400 0 "+05" "+06";
    Era rules_RussiaAsia 21600 701812800 0 "+06" "+07";
    Era rules_RussiaAsia 18000 1099170000 6 "+05" "+06";
    Era [] 21600 0 0 "+06" "" ].

Definition eras_Asia_Riyadh : list lc_timezone_era :=
  [ Era [] 11212 (-719636812) 0 "LMT" "";
    Era [] 10800 0 0 "+03" "" ].

Definition eras_Asia_Sakhalin : list lc_timezone_era :=
  [ Era [] 34248 (-2031039048) 0 "LMT" "";
    Era [] 32400 (-768560400) 0 "+09" "";
    Era rules_Russia 39600 670345200 0 "+11" "+12";
    Era rules_Russia 36000 695750400 0 "+10" "+11";
    Era rules_Russia 39600 859647600 0 "+11" "+12";
    Era rules_Russia 36000 1301155200 0 "+10" "+11";
    Era [] 39600 1414249200 0 "+11" "";
    Era [] 36000 1459008000 0 "+10" "";
    Era [] 39600 0 0 "+11" "" ].

Definition eras_Asia_Samarkand : list lc_timezone_era :=
  [ Era [] 16073 (-1441168073) 0 "LMT" "";
    Era [] 14400 (-1247544000) 0 "+04" "";
    Era [] 18000 354913200 0 "+05" "";
    Era rules_100 18000 370720800 6 "+06" "";
    Era [] 21600 386445600 0 "+06" "";
    Era rules_RussiaAsia 18000 694206000 0 "+05" "+06";
    Era [] 18000 0 0 "+05" "" ].

Definition eras_Asia_Seoul : list lc_timezone_era :=
  [ Era [] 30472 (-1948782472) 0 "LMT" "";
    Era [] 30600 (-1830414600) 0 "KST" "";
    Era [] 32400 (-767350800) 0 "JST" "";
    Era [] 32400 (-498128400) 0 "KST" "";
    Era rules_ROK 30600 (-264933000) 0 "K%sT" "";
    Era rules_ROK 32400 0 0 "K%sT" "" ].

Definition eras_Asia_Shanghai : list lc_timezone_era :=
  [ Era [] 29143 (-2177481943) 0 "LMT" "";
    Era rules_Shang 28800 (-662716800) 0 "C%sT" "";
    Era rules_PRC 28800 0 0 "C%sT" "" ].

Definition eras_Asia_Singapore : list lc_timezone_era :=
  [ Era [] 24925 (-2177477725) 0 "LMT" "";
    Era [] 24925 (-2038200925) 0 "SMT" "";
    Era [] 25200 (-1167634800) 0 "+07" "";
    Era rules_020 25200 (-1073028000) 2 "+0720" "";
    Era [] 26400 (-894180000) 0 "+0720" "";
    Era [] 27000 (-879665400) 0 "+0730" "";
    Era [] 32400 (-767005200) 0 "+09" "";
    Era [] 27000 378664200 0 "+0730" "";
    Era [] 28800 0 0 "+08" "" ].

Definition eras_Asia_Srednekolymsk : list lc_timezone_era :=
  [ Era [] 36892 (-1441188892) 0 "LMT" "";
    Era [] 36000 (-1247565600) 0 "+10" "";
    Era rules_Russia 39600 670345200 0 "+11" "+12";
    Era rules_Russia 36000 695750400 0 "+10" "+11";
    Era rules_Russia 39600 1301151600 0 "+11" "+12";
    Era [] 43200 1414245600 0 "+12" "";
    Era [] 39600 0 0 "+11" "" ].

Definition eras_Asia_Taipei : list lc_timezone_era :=
  [ Era [] 29160 (-2335248360) 0 "LMT" "";
    Era [] 28800 (-1017820800) 0 "CST" "";
    Era [] 32400 (-766224000) 0 "JST" "";
    Era rules_Taiwan 28800 0 0 "C%sT" "" ].

Definition eras_Asia_Tashkent : list lc_timezone_era :=
  [ Era [] 16631 (-1441168631) 0 "LMT" "";
    Era [] 18000 (-1247547600) 0 "+05" "";
    Era rules_RussiaAsia 21600 670363200 0 "+06" "+07";
    Era rules_RussiaAsia 18000 694206000 0 "+05" "+06";
    Era [] 18000 0 0 "+05" "" ].

Definition eras_Asia_Tbilisi : list lc_timezone_era :=
  [ Era [] 10751 (-2840151551) 0 "LMT" "";
    Era [] 10751 (-1441162751) 0 "TBMT" "";
    Era [] 10800 (-405140400) 0 "+03" "";
    Era rules_RussiaAsia 14400 670370400 0 "+04" "+05";
    Era rules_RussiaAsia 10800 694213200 0 "+03" "+04";
    Era rules_E_EurAsia 10800 780436800 6 "+03" "+04";
    Era rules_E_EurAsia 14400 846356400 6 "+04" "+05";
    Era rules_100 14400 859662000 6 "+05" "";
    Era rules_E_EurAsia 14400 1088276400 6 "+04" "+05";
    Era rules_RussiaAsia 10800 1111878000 0 "+03" "+04";
    Era [] 14400 0 0 "+04" "" ].

Definition eras_Asia_Tehran : list lc_timezone_era :=
  [ Era [] 12344 (-1704165944) 0 "LMT" "";
    Era [] 12344 (-757394744) 0 "TMT" "";
    Era [] 12600 247177800 0 "+0330" "";
    Era rules_Iran 14400 283982400 0 "+04" "+05";
    Era rules_Iran 12600 0 0 "+0330" "+0430" ].

Definition eras_Asia_Thimphu : list lc_timezone_era :=
  [ Era [] 21516 (-706341516) 0 "LMT" "";
    Era [] 19800 560025000 0 "+0530" "";
    Era [] 21600 0 0 "+06" "" ].

Definition eras_Asia_Tokyo : list lc_timezone_era :=
  [ Era [] 33539 (-2587712400) 0 "LMT" "";
    Era rules_Japan 32400 0 0 "J%sT" "" ].

Definition eras_Asia_Tomsk : list lc_timezone_era :=
  [ Era [] 20391 (-1578807591) 0 "LMT" "";
    Era [] 21600 (-1247551200) 0 "+06" "";
    Era rules_Russia 25200 670359600 0 "+07" "+08";
    Era rules_Russia 21600 695764800 0 "+06" "+07";
    Era rules_Russia 25200 1020193200 6 "+07" "+08";
    Era rules_Russia 21600 1301169600 0 "+06" "+07";
    Era [] 25200 1414263600 0 "+07" "";
    Era [] 21600 1464465600 0 "+06" "";
    Era [] 25200 0 0 "+07" "" ].

Definition eras_Asia_Ulaanbaatar : list lc_timezone_era :=
  [ Era [] 25652 (-2032931252) 0 "LMT" "";
    Era [] 25200 252435600 0 "+07" "";
    Era rules_Mongol 28800 0 0 "+08" "+09" ].

Definition eras_Asia_Urumqi : list lc_timezone_era :=
  [ Era [] 21020 (-1325483420) 0 "LMT" "";
    Era [] 21600 0 0 "+06" "" ].

Definition eras_Asia_Ust_Nera : list lc_timezone_era :=
  [ Era [] 34374 (-1579426374) 0 "LMT" "";
    Era [] 28800 (-1247558400) 0 "+08" "";
    Era rules_Russia 32400 354898800 0 "+09" "+10";
    Era rules_Russia 39600 670345200 0 "+11" "+12";
    Era rules_Russia 36000 695750400 0 "+10" "+11";
    Era rules_Russia 39600 1301151600 0 "+11" "+12";
    Era [] 43200 1315828800 0 "+12" "";
    Era [] 39600 1414249200 0 "+11" "";
    Era [] 36000 0 0 "+10" "" ].

Definition eras_Asia_Vladivostok : list lc_timezone_era :=
  [ Era [] 31651 (-1487321251) 0 "LMT" "";
    Era [] 32400 (-1247562000) 0 "+09" "";
    Era rules_Russia 36000 670348800 0 "+10" "+11";
    Era rules_Russia 32400 695754000 0 "+09" "+10";
    Era rules_Russia 36000 1301155200 0 "+10" "+11";
    Era [] 39600 1414249200 0 "+11" "";
    Era [] 36000 0 0 "+10" "" ].

Definition eras_Asia_Yakutsk : list lc_timezone_era :=
  [ Era [] 31138 (-1579423138) 0 "LMT" "";
    Era [] 28800 (-1247558400) 0 "+08" "";
    Era rules_Russia 32400 670352400 0 "+09" "+10";
    Era rules_Russia 28800 695757600 0 "+08" "+09";
    Era rules_Russia 32400 1301158800 0 "+09" "+10";
    Era [] 36000 1414252800 0 "+10" "";
    Era [] 32400 0 0 "+09" "" ].

Definition eras_Asia_Yangon : list lc_timezone_era :=
  [ Era [] 23080 (-2840163880) 0 "LMT" "";
    Era [] 23080 (-1577946280) 0 "RMT" "";
    Era [] 23400 (-873268200) 0 "+0630" "";
    Era [] 32400 (-778410000) 0 "+09" "";
    Era [] 23400 0 0 "+0630" "" ].

Definition eras_Asia_Yekaterinburg : list lc_timezone_era :=
  [ Era [] 14553 (-1688270553) 0 "LMT" "";
    Era [] 13505 (-1592610305) 0 "PMT" "";
    Era [] 14400 (-1247544000) 0 "+04" "";
    Era rules_Russia 18000 670366800 0 "+05" "+06";
    Era rules_Russia 14400 695772000 0 "+04" "+05";
    Era rules_Russia 18000 1301173200 0 "+05" "+06";
    Era [] 21600 1414267200 0 "+06" "";
    Era [] 18000 0 0 "+05" "" ].

Definition eras_Asia_Yerevan : list lc_timezone_era :=
  [ Era [] 10680 (-1441162680) 0 "LMT" "";
    Era [] 10800 (-405140400) 0 "+03" "";
    Era rules_RussiaAsia 14400 670370400 0 "+04" "+05";
    Era rules_RussiaAsia 10800 811897200 6 "+03" "+04";
    Era [] 14400 852062400 0 "+04" "";
    Era rules_RussiaAsia 14400 0 0 "+04" "+05" ].

Definition eras_Atlantic_Azores : list lc_timezone_era :=
  [ Era [] (-6160) (-2713904240) 0 "LMT" "";
    Era [] (-6872) (-1830377128) 0 "HMT" "";
    Era rules_Port (-7200) (-873676800) 6 "-02" "-01";
    Era rules_Port (-7200) (-864000000) 12 "+00" "";
    Era rules_Port (-7200) (-842832000) 6 "-02" "-01";
    Era rules_Port (-7200) (-831340800) 12 "+00" "";
    Era rules_Port (-7200) (-810777600) 6 "-02" "-01";
    Era rules_Port (-7200) (-799891200) 12 "+00" "";
    Era rules_Port (-7200) (-779328000) 6 "-02" "-01";
    Era rules_Port (-7200) (-768441600) 12 "+00" "";
    Era rules_Port (-7200) (-118267200) 0 "-02" "-01";
    Era rules_Port (-3600) 433303200 6 "-01" "+00";
    Era rules_W_Eur (-3600) 717559200 6 "-01" "+00";
    Era rules_EU 0 733280400 0 "WE%sT" "";
    Era rules_EU (-3600) 0 0 "-01" "+00" ].

Definition eras_Atlantic_Bermuda : list lc_timezone_era :=
  [ Era [] (-15558) (-1262281242) 0 "LMT" "";
    Era [] (-14400) 136360800 0 "AST" "";
    Era rules_Canada (-14400) 189316800 0 "A%sT" "";
    Era rules_US (-14400) 0 0 "A%sT" "" ].

Definition eras_Atlantic_Canary : list lc_timezone_era :=
  [ Era [] (-3696) (-1509663504) 0 "LMT" "";
    Era [] (-3600) (-733874400) 0 "-01" "";
    Era [] 0 323827200 0 "WET" "";
    Era rules_100 0 338950800 6 "WEST" "";
    Era rules_EU 0 0 0 "WE%sT" "" ].

Definition eras_Atlantic_Cape_Verde : list lc_timezone_era :=
  [ Era [] (-5644) (-1988144756) 0 "LMT" "";
    Era [] (-7200) (-862610400) 0 "-02" "";
    Era rules_100 (-7200) (-764118000) 6 "-01" "";
    Era [] (-7200) 186120000 0 "-02" "";
    Era [] (-3600) 0 0 "-01" "" ].

Definition eras_Atlantic_Faroe : list lc_timezone_era :=
  [ Era [] (-1624) (-1955748776) 0 "LMT" "";
    Era [] 0 347155200 0 "WET" "";
    Era rules_EU 0 0 0 "WE%sT" "" ].

Definition eras_Atlantic_Madeira : list lc_timezone_era :=
  [ Era [] (-4056) (-2713906344) 0 "LMT" "";
    Era [] (-4056) (-1830379944) 0 "FMT" "";
    Era rules_Port (-3600) (-873680400) 6 "-01" "+00";
    Era rules_Port (-3600) (-864003600) 12 "+01" "";
    Era rules_Port (-3600) (-842835600) 6 "-01" "+00";
    Era rules_Port (-3600) (-831344400) 12 "+01" "";
    Era rules_Port (-3600) (-810781200) 6 "-01" "+00";
    Era rules_Port (-3600) (-799894800) 12 "+01" "";
    Era rules_Port (-3600) (-779331600) 6 "-01" "+00";
    Era rules_Port (-3600) (-768445200) 12 "+01" "";
    Era rules_Port (-3600) (-118270800) 0 "-01" "+00";
    Era rules_Port 0 433299600 6 "WE%sT" "";
    Era rules_EU 0 0 0 "WE%sT" "" ].

Definition eras_Atlantic_Reykjavik : list lc_timezone_era :=
  [ Era [] (-5280) (-1956609120) 0 "LMT" "";
    Era rules_Iceland (-3600) (-54770400) 0 "-01" "+00";
    Era [] 0 0 0 "GMT" "" ].

Definition eras_Atlantic_South_Georgia : list lc_timezone_era :=
  [ Era [] (-8768) (-2524512832) 0 "LMT" "";
    Era [] (-7200) 0 0 "-02" "" ].

Definition eras_Atlantic_Stanley : list lc_timezone_era :=
  [ Era [] (-13884) (-2524507716) 0 "LMT" "";
    Era [] (-13884) (-1824235716) 0 "SMT" "";
    Era rules_Falk (-14400) 420609600 0 "-04" "-03";
    Era rules_Falk (-10800) 495601200 0 "-03" "-02";
    Era rules_Falk (-14400) 1283666400 0 "-04" "-03";
    Era [] (-10800) 0 0 "-03" "" ].

Definition eras_Australia_Adelaide : list lc_timezone_era :=
  [ Era [] 33260 (-2364110060) 0 "LMT" "";
    Era [] 32400 (-2230189200) 0 "ACST" "";
    Era rules_Aus 34200 31501800 0 "AC%sT" "";
    Era rules_AS 34200 0 0 "AC%sT" "" ].

Definition eras_Australia_Brisbane : list lc_timezone_era :=
  [ Era [] 36728 (-2366791928) 0 "LMT" "";
    Era rules_Aus 36000 31500000 0 "AE%sT" "";
    Era rules_AQ 36000 0 0 "AE%sT" "" ].

Definition eras_Australia_Broken_Hill : list lc_timezone_era :=
  [ Era [] 33948 (-2364110748) 0 "LMT" "";
    Era [] 36000 (-2314951200) 0 "AEST" "";
    Era [] 32400 (-2230189200) 0 "ACST" "";
    Era rules_Aus 34200 31501800 0 "AC%sT" "";
    Era rules_AN 34200 946647000 6 "AC%sT" "";
    Era rules_AS 34200 0 0 "AC%sT" "" ].

Definition eras_Australia_Currie : list lc_timezone_era :=
  [ Era [] 34528 (-2345794528) 0 "LMT" "";
    Era [] 36000 (-1680508800) 0 "AEST" "";
    Era rules_100 36000 (-1669892400) 6 "AEDT" "";
    Era rules_Aus 36000 47138400 0 "AE%sT" "";
    Era rules_AT 36000 0 6 "AE%sT" "" ].

Definition eras_Australia_Darwin : list lc_timezone_era :=
  [ Era [] 31400 (-2364108200) 0 "LMT" "";
    Era [] 32400 (-2230189200) 0 "ACST" "";
    Era rules_Aus 34200 0 0 "AC%sT" "" ].

Definition eras_Australia_Eucla : list lc_timezone_era :=
  [ Era [] 30928 (-2337928528) 0 "LMT" "";
    Era rules_Aus 31500 (-836469900) 0 "+0845" "+0945";
    Era rules_AW 31500 0 0 "+0845" "+0945" ].

Definition eras_Australia_Hobart : list lc_timezone_era :=
  [ Era [] 35356 (-2345795356) 0 "LMT" "";
    Era [] 36000 (-1680508800) 0 "AEST" "";
    Era rules_100 36000 (-1669892400) 6 "AEDT" "";
    Era rules_Aus 36000 (-94730400) 0 "AE%sT" "";
    Era rules_AT 36000 0 6 "AE%sT" "" ].

Definition eras_Australia_Lindeman : list lc_timezone_era :=
  [ Era [] 35756 (-2366790956) 0 "LMT" "";
    Era rules_Aus 36000 31500000 0 "AE%sT" "";
    Era rules_AQ 36000 709912800 0 "AE%sT" "";
    Era rules_Holiday 36000 0 0 "AE%sT" "" ].

Definition eras_Australia_Lord_Howe : list lc_timezone_era :=
  [ Era [] 38180 (-2364114980) 0 "LMT" "";
    Era [] 36000 352216800 0 "AEST" "";
    Era rules_LH 37800 488986200 0 "+1030" "+1130";
    Era rules_LH 37800 0 0 "+1030" "+11" ].

Definition eras_Australia_Melbourne : list lc_timezone_era :=
  [ Era [] 34792 (-2364111592) 0 "LMT" "";
    Era rules_Aus 36000 31500000 0 "AE%sT" "";
    Era rules_AV 36000 0 0 "AE%sT" "" ].

Definition eras_Australia_Perth : list lc_timezone_era :=
  [ Era [] 27804 (-2337925404) 0 "LMT" "";
    Era rules_Aus 28800 (-836467200) 0 "AW%sT" "";
    Era rules_AW 28800 0 0 "AW%sT" "" ].

Definition eras_Australia_Sydney : list lc_timezone_era :=
  [ Era [] 36292 (-2364113092) 0 "LMT" "";
    Era rules_Aus 36000 31500000 0 "AE%sT" "";
    Era rules_AN 36000 0 0 "AE%sT" "" ].

Definition eras_CET : list lc_timezone_era :=
  [ Era rules_C_Eur 3600 0 0 "CE%sT" "" ].

Definition eras_CST6CDT : list lc_timezone_era :=
  [ Era rules_US (-21600) 0 0 "C%sT" "" ].

Definition eras_EET : list lc_timezone_era :=
  [ Era rules_EU 7200 0 0 "EE%sT" "" ].

Definition eras_EST : list lc_timezone_era :=
  [ Era [] (-18000) 0 0 "EST" "" ].

Definition eras_EST5EDT : list lc_timezone_era :=
  [ Era rules_US (-18000) 0 0 "E%sT" "" ].

Definition eras_Etc_GMT : list lc_timezone_era :=
  [ Era [] 0 0 0 "GMT" "" ].

Definition eras_Etc_GMT1 : list lc_timezone_era :=
  [ Era [] (-3600) 0 0 "-01" "" ].

Definition eras_Etc_GMT10 : list lc_timezone_era :=
  [ Era [] (-36000) 0 0 "-10" "" ].

Definition eras_Etc_GMT11 : list lc_timezone_era :=
  [ Era [] (-39600) 0 0 "-11" "" ].

Definition eras_Etc_GMT12 : list lc_timezone_era :=
  [ Era [] (-43200) 0 0 "-12" "" ].

Definition eras_Etc_GMT2 : list lc_timezone_era :=
  [ Era [] (-7200) 0 0 "-02" "" ].

Definition eras_Etc_GMT3 : list lc_timezone_era :=
  [ Era [] (-10800) 0 0 "-03" "" ].

Definition eras_Etc_GMT4 : list lc_timezone_era :=
  [ Era [] (-14400) 0 0 "-04" "" ].

Definition eras_Etc_GMT5 : list lc_timezone_era :=
  [ Era [] (-18000) 0 0 "-05" "" ].

Definition eras_Etc_GMT6 : list lc_timezone_era :=
  [ Era [] (-21600) 0 0 "-06" "" ].

Definition eras_Etc_GMT7 : list lc_timezone_era :=
  [ Era [] (-25200) 0 0 "-07" "" ].

Definition eras_Etc_GMT8 : list lc_timezone_era :=
  [ Era [] (-28800) 0 0 "-08" "" ].

Definition eras_Etc_GMT9 : list lc_timezone_era :=
  [ Era [] (-32400) 0 0 "-09" "" ].

Definition eras_Etc_GMT_1 : list lc_timezone_era :=
  [ Era [] 3600 0 0 "+01" "" ].

Definition eras_Etc_GMT_10 : list lc_timezone_era :=
  [ Era [] 36000 0 0 "+10" "" ].

Definition eras_Etc_GMT_11 : list lc_timezone_era :=
  [ Era [] 39600 0 0 "+11" "" ].

Definition eras_Etc_GMT_12 : list lc_timezone_era :=
  [ Era [] 43200 0 0 "+12" "" ].

Definition eras_Etc_GMT_13 : list lc_timezone_era :=
  [ Era [] 46800 0 0 "+13" "" ].

Definition eras_Etc_GMT_14 : list lc_timezone_era :=
  [ Era [] 50400 0 0 "+14" "" ].

Definition eras_Etc_GMT_2 : list lc_timezone_era :=
  [ Era [] 7200 0 0 "+02" "" ].

Definition eras_Etc_GMT_3 : list lc_timezone_era :=
  [ Era [] 10800 0 0 "+03" "" ].

Definition eras_Etc_GMT_4 : list lc_timezone_era :=
  [ Era [] 14400 0 0 "+04" "" ].

Definition eras_Etc_GMT_5 : list lc_timezone_era :=
  [ Era [] 18000 0 0 "+05" "" ].

Definition eras_Etc_GMT_6 : list lc_timezone_era :=
  [ Era [] 21600 0 0 "+06" "" ].

Definition eras_Etc_GMT_7 : list lc_timezone_era :=
  [ Era [] 25200 0 0 "+07" "" ].

Definition eras_Etc_GMT_8 : list lc_timezone_era :=
  [ Era [] 28800 0 0 "+08" "" ].

Definition eras_Etc_GMT_9 : list lc_timezone_era :=
  [ Era [] 32400 0 0 "+09" "" ].

Definition eras_Etc_UCT : list lc_timezone_era :=
  [ Era [] 0 0 0 "UCT" "" ].

Definition eras_Etc_UTC : list lc_timezone_era :=
  [ Era [] 0 0 0 "UTC" "" ].

Definition eras_Europe_Amsterdam : list lc_timezone_era :=
  [ Era [] 1172 (-4260212372) 0 "LMT" "";
    Era rules_Neth 1172 (-1025745572) 6 "%s" "";
    Era rules_Neth 1200 (-935022000) 0 "+0020" "+0120";
    Era rules_C_Eur 3600 (-781052400) 0 "CE%sT" "";
    Era rules_Neth 3600 220921200 0 "CE%sT" "";
    Era rules_EU 3600 0 0 "CE%sT" "" ].

Definition eras_Europe_Andorra : list lc_timezone_era :=
  [ Era [] 364 (-2177453164) 0 "LMT" "";
    Era [] 0 (-733881600) 0 "WET" "";
    Era [] 3600 481078800 0 "CET" "";
    Era rules_EU 3600 0 0 "CE%sT" "" ].

Definition eras_Europe_Astrakhan : list lc_timezone_era :=
  [ Era [] 11532 (-1441249932) 0 "LMT" "";
    Era [] 10800 (-1247540400) 0 "+03" "";
    Era rules_Russia 14400 606866400 0 "+04" "+05";
    Era rules_Russia 10800 670374000 0 "+03" "+04";
    Era [] 14400 701820000 0 "+04" "";
    Era rules_Russia 10800 1301180400 0 "+03" "+04";
    Era [] 14400 1414274400 0 "+04" "";
    Era [] 10800 1459033200 0 "+03" "";
    Era [] 14400 0 0 "+04" "" ].

Definition eras_Europe_Athens : list lc_timezone_era :=
  [ Era [] 5692 (-2344642492) 0 "LMT" "";
    Era [] 5692 (-1686101632) 0 "AMT" "";
    Era rules_Greece 7200 (-904878000) 6 "EE%sT" "";
    Era rules_Greece 3600 (-812422800) 0 "CE%sT" "";
    Era rules_Greece 7200 347148000 0 "EE%sT" "";
    Era rules_EU 7200 0 0 "EE%sT" "" ].

Definition eras_Europe_Belgrade : list lc_timezone_era :=
  [ Era [] 4920 (-2713915320) 0 "LMT" "";
    Era [] 3600 (-905824800) 0 "CET" "";
    Era rules_C_Eur 3600 (-788922000) 0 "CE%sT" "";
    Era [] 3600 (-777942000) 0 "CET" "";
    Era rules_100 3600 (-766623600) 6 "CEST" "";
    Era [] 3600 407199600 0 "CET" "";
    Era rules_EU 3600 0 0 "CE%sT" "" ].

Definition eras_Europe_Berlin : list lc_timezone_era :=
  [ Era [] 3208 (-2422054408) 0 "LMT" "";
    Era rules_C_Eur 3600 (-776563200) 6 "CE%sT" "";
    Era rules_SovietZone 3600 (-757386000) 0 "CE%sT" "";
    Era rules_Germany 3600 315529200 0 "CE%sT" "";
    Era rules_EU 3600 0 0 "CE%sT" "" ].

Definition eras_Europe_Brussels : list lc_timezone_era :=
  [ Era [] 1050 (-2840141850) 0 "LMT" "";
    Era [] 1050 (-2450953050) 0 "BMT" "";
    Era [] 0 (-1740355200) 0 "WET" "";
    Era [] 3600 (-1693702800) 0 "CET" "";
    Era rules_C_Eur 3600 (-1613826000) 0 "CE%sT" "";
    Era rules_Belgium 0 (-934668000) 6 "WE%sT" "";
    Era rules_C_Eur 3600 (-799293600) 6 "CE%sT" "";
    Era rules_Belgium 3600 220921200 0 "CE%sT" "";
    Era rules_EU 3600 0 0 "CE%sT" "" ].

Definition eras_Europe_Bucharest : list lc_timezone_era :=
  [ Era [] 6264 (-2469404664) 0 "LMT" "";
    Era [] 6264 (-1213148664) 0 "BMT" "";
    Era rules_Romania 7200 354672000 0 "EE%sT" "";
    Era rules_C_Eur 7200 662680800 0 "EE%sT" "";
    Era rules_Romania 7200 757375200 0 "EE%sT" "";
    Era rules_E_Eur 7200 852069600 0 "EE%sT" "";
    Era rules_EU 7200 0 0 "EE%sT" "" ].

Definition eras_Europe_Budapest : list lc_timezone_era :=
  [ Era [] 4580 (-2500938980) 0 "LMT" "";
    Era rules_C_Eur 3600 (-1640998800) 0 "CE%sT" "";
    Era rules_Hungary 3600 (-906771600) 0 "CE%sT" "";
    Era rules_C_Eur 3600 (-788922000) 0 "CE%sT" "";
    Era rules_Hungary 3600 338950800 6 "CE%sT" "";
    Era rules_EU 3600 0 0 "CE%sT" "" ].

Definition eras_Europe_Chisinau : list lc_timezone_era :=
  [ Era [] 6920 (-2840147720) 0 "LMT" "";
    Era [] 6900 (-1637114100) 0 "CMT" "";
    Era [] 6264 (-1213148664) 0 "BMT" "";
    Era rules_Romania 7200 (-927165600) 0 "EE%sT" "";
    Era rules_100 7200 (-898138800) 6 "EEST" "";
    Era rules_C_Eur 3600 (-800157600) 6 "CE%sT" "";
    Era rules_Russia 10800 641944800 6 "MSK" "MSD";
    Era rules_Russia 7200 694216800 0 "EE%sT" "";
    Era rules_E_Eur 7200 852069600 0 "EE%sT" "";
    Era rules_Moldova 7200 0 0 "EE%sT" "" ].

Definition eras_Europe_Copenhagen : list lc_timezone_era :=
  [ Era [] 3020 (-2524524620) 0 "LMT" "";
    Era [] 3020 (-2398294220) 0 "CMT" "";
    Era rules_Denmark 3600 (-857257200) 6 "CE%sT" "";
    Era rules_C_Eur 3600 (-781052400) 0 "CE%sT" "";
    Era rules_Denmark 3600 315529200 0 "CE%sT" "";
    Era rules_EU 3600 0 0 "CE%sT" "" ].

Definition eras_Europe_Dublin : list lc_timezone_era :=
  [ Era [] (-1500) (-2821649700) 0 "LMT" "";
    Era [] (-1521) (-1691962479) 0 "DMT" "";
    Era rules_100 (-1521) (-1680471279) 6 "IST" "";
    Era rules_GB_Eire 0 (-1517011200) 0 "%s" "";
    Era rules_GB_Eire 0 (-942012000) 0 "GMT" "IST";
    Era rules_100 0 (-733359600) 6 "IST" "";
    Era [] 0 (-719445600) 0 "GMT" "";
    Era rules_100 0 (-699490800) 6 "IST" "";
    Era [] 0 (-684972000) 0 "GMT" "";
    Era rules_GB_Eire 0 (-37242000) 6 "GMT" "IST";
    Era [] 3600 57722400 0 "IST" "";
    Era rules_GB_Eire 0 820454400 0 "GMT" "IST";
    Era rules_EU 0 0 0 "GMT" "IST" ].

Definition eras_Europe_Gibraltar : list lc_timezone_era :=
  [ Era [] (-1284) (-2821649916) 0 "LMT" "";
    Era rules_GB_Eire 0 (-401320800) 0 "%s" "";
    Era [] 3600 378687600 0 "CET" "";
    Era rules_EU 3600 0 0 "CE%sT" "" ].

Definition eras_Europe_Helsinki : list lc_timezone_era :=
  [ Era [] 5989 (-2890258789) 0 "LMT" "";
    Era [] 5989 (-1535938789) 0 "HMT" "";
    Era rules_Finland 7200 410220000 0 "EE%sT" "";
    Era rules_EU 7200 0 0 "EE%sT" "" ].

Definition eras_Europe_Istanbul : list lc_timezone_era :=
  [ Era [] 6952 (-2840147752) 0 "LMT" "";
    Era [] 7016 (-1869875816) 0 "IMT" "";
    Era rules_Turkey 7200 277246800 6 "EE%sT" "";
    Era rules_Turkey 10800 482792400 0 "+03" "+04";
    Era rules_Turkey 7200 1167602400 0 "EE%sT" "";
    Era rules_EU 7200 1301187600 0 "EE%sT" "";
    Era [] 7200 1301274000 0 "EET" "";
    Era rules_EU 7200 1396141200 0 "EE%sT" "";
    Era [] 7200 1396227600 0 "EET" "";
    Era rules_EU 7200 1445734800 6 "EE%sT" "";
    Era rules_100 7200 1446944400 6 "EEST" "";
    Era rules_EU 7200 1473195600 6 "EE%sT" "";
    Era [] 10800 0 0 "+03" "" ].

Definition eras_Europe_Kaliningrad : list lc_timezone_era :=
  [ Era [] 4920 (-2422056120) 0 "LMT" "";
    Era rules_C_Eur 3600 (-788922000) 0 "CE%sT" "";
    Era rules_Poland 7200 (-757389600) 0 "CE%sT" "";
    Era rules_Russia 10800 606870000 0 "MSK" "MSD";
    Era rules_Russia 7200 1301184000 0 "EE%sT" "";
    Era [] 10800 1414278000 0 "+03" "";
    Era [] 7200 0 0 "EET" "" ].

Definition eras_Europe_Kiev : list lc_timezone_era :=
  [ Era [] 7324 (-2840148124) 0 "LMT" "";
    Era [] 7324 (-1441159324) 0 "KMT" "";
    Era [] 7200 (-1247536800) 0 "EET" "";
    Era [] 10800 (-892522800) 0 "MSK" "";
    Era rules_C_Eur 3600 (-825382800) 0 "CE%sT" "";
    Era rules_Russia 10800 646783200 6 "MSK" "MSD";
    Era rules_100 7200 686102400 6 "EEST" "";
    Era rules_E_Eur 7200 788911200 0 "EE%sT" "";
    Era rules_EU 7200 0 0 "EE%sT" "" ].

Definition eras_Europe_Kirov : list lc_timezone_era :=
  [ Era [] 11928 (-1593820800) 0 "LMT" "";
    Era [] 10800 (-1247540400) 0 "+03" "";
    Era rules_Russia 14400 606866400 0 "+04" "+05";
    Era rules_Russia 10800 670374000 0 "+03" "+04";
    Era [] 14400 701820000 0 "+04" "";
    Era rules_Russia 10800 1301180400 0 "+03" "+04";
    Era [] 14400 1414274400 0 "+04" "";
    Era [] 10800 0 0 "+03" "" ].

Definition eras_Europe_Lisbon : list lc_timezone_era :=
  [ Era [] (-2205) (-2713908195) 0 "LMT" "";
    Era [] (-2205) (-1830381795) 0 "LMT" "";
    Era rules_Port 0 (-118274400) 0 "WE%sT" "";
    Era [] 3600 212544000 0 "CET" "";
    Era rules_Port 0 433299600 6 "WE%sT" "";
    Era rules_W_Eur 0 717555600 6 "WE%sT" "";
    Era rules_EU 3600 828234000 0 "CE%sT" "";
    Era rules_EU 0 0 0 "WE%sT" "" ].

Definition eras_Europe_London : list lc_timezone_era :=
  [ Era [] (-75) (-3852662325) 0 "LMT" "";
    Era rules_GB_Eire 0 (-37242000) 6 "%s" "";
    Era [] 3600 57722400 0 "BST" "";
    Era rules_GB_Eire 0 820454400 0 "%s" "";
    Era rules_EU 0 0 0 "GMT" "BST" ].

Definition eras_Europe_Luxembourg : list lc_timezone_era :=
  [ Era [] 1476 (-2069713476) 0 "LMT" "";
    Era rules_Lux 3600 (-1612659600) 0 "CE%sT" "";
    Era rules_Lux 0 (-1269813600) 6 "WE%sT" "";
    Era rules_Belgium 0 (-935186400) 6 "WE%sT" "";
    Era rules_C_Eur 3600 (-797986800) 6 "WE%sT" "";
    Era rules_Belgium 3600 220921200 0 "CE%sT" "";
    Era rules_EU 3600 0 0 "CE%sT" "" ].

Definition eras_Europe_Madrid : list lc_timezone_era :=
  [ Era [] (-884) (-2177452800) 0 "LMT" "";
    Era rules_Spain 0 (-940208400) 0 "WE%sT" "";
    Era rules_Spain 3600 283993200 0 "CE%sT" "";
    Era rules_EU 3600 0 0 "CE%sT" "" ].

Definition eras_Europe_Malta : list lc_timezone_era :=
  [ Era [] 3484 (-2403478684) 0 "LMT" "";
    Era rules_Italy 3600 102380400 0 "CE%sT" "";
    Era rules_Malta 3600 347151600 0 "CE%sT" "";
    Era rules_EU 3600 0 0 "CE%sT" "" ].

Definition eras_Europe_Minsk : list lc_timezone_era :=
  [ Era [] 6616 (-2840147416) 0 "LMT" "";
    Era [] 6600 (-1441158600) 0 "MMT" "";
    Era [] 7200 (-1247536800) 0 "EET" "";
    Era [] 10800 (-899780400) 0 "MSK" "";
    Era rules_C_Eur 3600 (-804650400) 6 "CE%sT" "";
    Era rules_Russia 10800 631141200 0 "MSK" "MSD";
    Era [] 10800 670374000 0 "MSK" "";
    Era rules_Russia 7200 1301184000 0 "EE%sT" "";
    Era [] 10800 0 0 "+03" "" ].

Definition eras_Europe_Monaco : list lc_timezone_era :=
  [ Era [] 1772 (-2486680172) 0 "LMT" "";
    Era [] 561 (-1855958961) 0 "PMT" "";
    Era rules_France 0 (-766623600) 12 "WE%sT" "";
    Era rules_France 3600 220921200 0 "CE%sT" "";
    Era rules_EU 3600 0 0 "CE%sT" "" ].

Definition eras_Europe_Moscow : list lc_timezone_era :=
  [ Era [] 9017 (-2840149817) 0 "LMT" "";
    Era [] 9017 (-1688265017) 0 "MMT" "";
    Era rules_Russia 9079 (-1593820800) 12 "%s" "";
    Era rules_Russia 10800 (-1522728000) 6 "%s" "";
    Era rules_Russia 10800 (-1491188400) 0 "MSK" "MSD";
    Era [] 7200 (-1247536800) 0 "EET" "";
    Era rules_Russia 10800 670374000 0 "MSK" "MSD";
    Era rules_Russia 7200 695779200 0 "EE%sT" "";
    Era rules_Russia 10800 1301180400 0 "MSK" "MSD";
    Era [] 14400 1414274400 0 "MSK" "";
    Era [] 10800 0 0 "MSK" "" ].

Definition eras_Europe_Oslo : list lc_timezone_era :=
  [ Era [] 2580 (-2366757780) 0 "LMT" "";
    Era rules_Norway 3600 (-927511200) 0 "CE%sT" "";
    Era rules_C_Eur 3600 (-781052400) 0 "CE%sT" "";
    Era rules_Norway 3600 315529200 0 "CE%sT" "";
    Era rules_EU 3600 0 0 "CE%sT" "" ].

Definition eras_Europe_Paris : list lc_timezone_era :=
  [ Era [] 561 (-2486678901) 0 "LMT" "";
    Era [] 561 (-1855958901) 0 "PMT" "";
    Era rules_France 0 (-932436000) 6 "WE%sT" "";
    Era rules_C_Eur 3600 (-800071200) 6 "CE%sT" "";
    Era rules_France 0 (-766623600) 12 "WE%sT" "";
    Era rules_France 3600 220921200 0 "CE%sT" "";
    Era rules_EU 3600 0 0 "CE%sT" "" ].

Definition eras_Europe_Prague : list lc_timezone_era :=
  [ Era [] 3464 (-3786829064) 0 "LMT" "";
    Era [] 3464 (-2469401864) 0 "PMT" "";
    Era rules_C_Eur 3600 (-798073200) 6 "CE%sT" "";
    Era rules_Czech 3600 283993200 0 "CE%sT" "";
    Era rules_EU 3600 0 0 "CE%sT" "" ].

Definition eras_Europe_Riga : list lc_timezone_era :=
  [ Era [] 5794 (-2840146594) 0 "LMT" "";
    Era [] 5794 (-1632008194) 0 "RMT" "";
    Era rules_100 5794 (-1618702594) 6 "LST" "";
    Era [] 5794 (-1601681794) 0 "RMT" "";
    Era rules_100 5794 (-1597275394) 6 "LST" "";
    Era [] 5794 (-1377308194) 0 "RMT" "";
    Era [] 7200 (-928029600) 0 "EET" "";
    Era [] 10800 (-899521200) 0 "MSK" "";
    Era rules_C_Eur 3600 (-795834000) 0 "CE%sT" "";
    Era rules_Russia 10800 606870000 0 "MSK" "MSD";
    Era rules_100 7200 622598400 6 "EEST" "";
    Era rules_Latvia 7200 853797600 0 "EE%sT" "";
    Era rules_EU 7200 951775200 0 "EE%sT" "";
    Era [] 7200 978386400 0 "EET" "";
    Era rules_EU 7200 0 0 "EE%sT" "" ].

Definition eras_Europe_Rome : list lc_timezone_era :=
  [ Era [] 2996 (-3259097396) 0 "LMT" "";
    Era [] 2996 (-2403565200) 0 "RMT" "";
    Era rules_Italy 3600 (-830311200) 6 "CE%sT" "";
    Era rules_C_Eur 3600 (-807156000) 6 "CE%sT" "";
    Era rules_Italy 3600 315529200 0 "CE%sT" "";
    Era rules_EU 3600 0 0 "CE%sT" "" ].

Definition eras_Europe_Samara : list lc_timezone_era :=
  [ Era [] 12020 (-1593820800) 0 "LMT" "";
    Era [] 10800 (-1247540400) 0 "+03" "";
    Era [] 14400 (-1102305600) 0 "+04" "";
    Era rules_Russia 14400 606866400 0 "+04" "+05";
    Era rules_Russia 10800 670374000 0 "+03" "+04";
    Era rules_Russia 7200 686102400 6 "+02" "+03";
    Era [] 10800 687916800 0 "+03" "";
    Era rules_Russia 14400 1269727200 0 "+04" "+05";
    Era rules_Russia 10800 1301180400 0 "+03" "+04";
    Era [] 14400 0 0 "+04" "" ].

Definition eras_Europe_Saratov : list lc_timezone_era :=
  [ Era [] 11058 (-1593820800) 0 "LMT" "";
    Era [] 10800 (-1247540400) 0 "+03" "";
    Era rules_Russia 14400 575416800 0 "+04" "+05";
    Era rules_Russia 10800 670374000 0 "+03" "+04";
    Era [] 14400 701820000 0 "+04" "";
    Era rules_Russia 10800 1301180400 0 "+03" "+04";
    Era [] 14400 1414274400 0 "+04" "";
    Era [] 10800 1480806000 0 "+03" "";
    Era [] 14400 0 0 "+04" "" ].

Definition eras_Europe_Simferopol : list lc_timezone_era :=
  [ Era [] 8184 (-2840148984) 0 "LMT" "";
    Era [] 8160 (-1441160160) 0 "SMT" "";
    Era [] 7200 (-1247536800) 0 "EET" "";
    Era [] 10800 (-888894000) 0 "MSK" "";
    Era rules_C_Eur 3600 (-811648800) 6 "CE%sT" "";
    Era rules_Russia 10800 631141200 0 "MSK" "MSD";
    Era [] 10800 646786800 0 "MSK" "";
    Era [] 7200 694216800 0 "EET" "";
    Era rules_E_Eur 7200 767739600 6 "EE%sT" "";
    Era rules_E_Eur 10800 828219600 0 "MSK" "MSD";
    Era rules_100 10800 846374400 6 "MSD" "";
    Era rules_Russia 10800 852066000 0 "MSK" "MSD";
    Era [] 10800 859683600 0 "MSK" "";
    Era rules_EU 7200 1396137600 0 "EE%sT" "";
    Era [] 14400 1414274400 0 "MSK" "";
    Era [] 10800 0 0 "MSK" "" ].

Definition eras_Europe_Sofia : list lc_timezone_era :=
  [ Era [] 5596 (-2840146396) 0 "LMT" "";
    Era [] 7016 (-2369527016) 0 "IMT" "";
    Era [] 7200 (-857257200) 0 "EET" "";
    Era rules_C_Eur 3600 (-788922000) 0 "CE%sT" "";
    Era [] 3600 (-781048800) 0 "CET" "";
    Era [] 7200 291762000 0 "EET" "";
    Era rules_Bulg 7200 401846400 6 "EE%sT" "";
    Era rules_C_Eur 7200 662680800 0 "EE%sT" "";
    Era rules_E_Eur 7200 852069600 0 "EE%sT" "";
    Era rules_EU 7200 0 0 "EE%sT" "" ].

Definition eras_Europe_Stockholm : list lc_timezone_era :=
  [ Era [] 4332 (-2871681132) 0 "LMT" "";
    Era [] 3614 (-2208992414) 0 "SET" "";
    Era [] 3600 (-1692496800) 0 "CET" "";
    Era rules_100 3600 (-1680483600) 6 "CEST" "";
    Era [] 3600 315529200 0 "CET" "";
    Era rules_EU 3600 0 0 "CE%sT" "" ].

Definition eras_Europe_Tallinn : list lc_timezone_era :=
  [ Era [] 5940 (-2840146740) 0 "LMT" "";
    Era [] 5940 (-1638322740) 0 "TMT" "";
    Era rules_C_Eur 3600 (-1593824400) 0 "CE%sT" "";
    Era [] 5940 (-1535938740) 0 "TMT" "";
    Era [] 7200 (-927943200) 0 "EET" "";
    Era [] 10800 (-892954800) 0 "MSK" "";
    Era rules_C_Eur 3600 (-797652000) 6 "CE%sT" "";
    Era rules_Russia 10800 606870000 0 "MSK" "MSD";
    Era rules_100 7200 622598400 6 "EEST" "";
    Era rules_C_Eur 7200 906411600 6 "EE%sT" "";
    Era rules_EU 7200 941331600 6 "EE%sT" "";
    Era [] 7200 1014242400 0 "EET" "";
    Era rules_EU 7200 0 0 "EE%sT" "" ].

Definition eras_Europe_Tirane : list lc_timezone_era :=
  [ Era [] 4760 (-1767230360) 0 "LMT" "";
    Era [] 3600 (-932346000) 0 "CET" "";
    Era rules_Albania 3600 457480800 6 "CE%sT" "";
    Era rules_EU 3600 0 0 "CE%sT" "" ].

Definition eras_Europe_Ulyanovsk : list lc_timezone_era :=
  [ Era [] 11616 (-1593820800) 0 "LMT" "";
    Era [] 10800 (-1247540400) 0 "+03" "";
    Era rules_Russia 14400 606866400 0 "+04" "+05";
    Era rules_Russia 10800 670374000 0 "+03" "+04";
    Era rules_Russia 7200 695779200 0 "+02" "+03";
    Era rules_Russia 10800 1301180400 0 "+03" "+04";
    Era [] 14400 1414274400 0 "+04" "";
    Era [] 10800 1459033200 0 "+03" "";
    Era [] 14400 0 0 "+04" "" ].

Definition eras_Europe_Uzhgorod : list lc_timezone_era :=
  [ Era [] 5352 (-2500939752) 0 "LMT" "";
    Era [] 3600 (-946774800) 0 "CET" "";
    Era rules_C_Eur 3600 (-796874400) 6 "CE%sT" "";
    Era rules_100 3600 (-794714400) 6 "CEST" "";
    Era [] 3600 (-773456400) 0 "CET" "";
    Era rules_Russia 10800 631141200 0 "MSK" "MSD";
    Era [] 10800 646786800 0 "MSK" "";
    Era [] 3600 670384800 0 "CET" "";
    Era [] 7200 694216800 0 "EET" "";
    Era rules_E_Eur 7200 788911200 0 "EE%sT" "";
    Era rules_EU 7200 0 0 "EE%sT" "" ].

Definition eras_Europe_Vienna : list lc_timezone_era :=
  [ Era [] 3921 (-2422055121) 0 "LMT" "";
    Era rules_C_Eur 3600 (-1577926800) 0 "CE%sT" "";
    Era rules_Austria 3600 (-938905200) 0 "CE%sT" "";
    Era rules_C_Eur 3600 (-781052400) 0 "CE%sT" "";
    Era rules_100 3600 (-780188400) 6 "CEST" "";
    Era [] 3600 (-757386000) 0 "CET" "";
    Era rules_Austria 3600 347151600 0 "CE%sT" "";
    Era rules_EU 3600 0 0 "CE%sT" "" ].

Definition eras_Europe_Vilnius : list lc_timezone_era :=
  [ Era [] 6076 (-2840146876) 0 "LMT" "";
    Era [] 5040 (-1672536240) 0 "WMT" "";
    Era [] 5736 (-1585100136) 0 "KMT" "";
    Era [] 3600 (-1561251600) 0 "CET" "";
    Era [] 7200 (-1553565600) 0 "EET" "";
    Era [] 3600 (-928198800) 0 "CET" "";
    Era [] 10800 (-900126000) 0 "MSK" "";
    Era rules_C_Eur 3600 (-802144800) 6 "CE%sT" "";
    Era rules_Russia 10800 606870000 0 "MSK" "MSD";
    Era rules_Russia 7200 686102400 6 "EE%sT" "";
    Era rules_C_Eur 7200 883605600 0 "EE%sT" "";
    Era [] 7200 891133200 0 "EET" "";
    Era rules_EU 3600 941331600 6 "CE%sT" "";
    Era [] 7200 1041372000 0 "EET" "";
    Era rules_EU 7200 0 0 "EE%sT" "" ].

Definition eras_Europe_Volgograd : list lc_timezone_era :=
  [ Era [] 10660 (-1577761060) 0 "LMT" "";
    Era [] 10800 (-1247540400) 0 "+03" "";
    Era [] 14400 (-256881600) 0 "+04" "";
    Era rules_Russia 14400 575416800 0 "+04" "+05";
    Era rules_Russia 10800 670374000 0 "+03" "+04";
    Era [] 14400 701820000 0 "+04" "";
    Era rules_Russia 10800 1301180400 0 "+03" "+04";
    Era [] 14400 1414274400 0 "+04" "";
    Era [] 10800 0 0 "+03" "" ].

Definition eras_Europe_Warsaw : list lc_timezone_era :=
  [ Era [] 5040 (-2840145840) 0 "LMT" "";
    Era [] 5040 (-1717032240) 0 "WMT" "";
    Era rules_C_Eur 3600 (-1618700400) 6 "CE%sT" "";
    Era rules_Poland 7200 (-1501725600) 0 "EE%sT" "";
    Era rules_Poland 3600 (-931734000) 0 "CE%sT" "";
    Era rules_C_Eur 3600 (-796874400) 6 "CE%sT" "";
    Era rules_Poland 3600 220921200 0 "CE%sT" "";
    Era rules_W_Eur 3600 567990000 0 "CE%sT" "";
    Era rules_EU 3600 0 0 "CE%sT" "" ].

Definition eras_Europe_Zaporozhye : list lc_timezone_era :=
  [ Era [] 8440 (-2840149240) 0 "LMT" "";
    Era [] 8400 (-1441160400) 0 "+0220" "";
    Era [] 7200 (-1247536800) 0 "EET" "";
    Era [] 10800 (-894769200) 0 "MSK" "";
    Era rules_C_Eur 3600 (-826419600) 0 "CE%sT" "";
    Era rules_Russia 10800 670374000 0 "MSK" "MSD";
    Era rules_E_Eur 7200 788911200 0 "EE%sT" "";
    Era rules_EU 7200 0 0 "EE%sT" "" ].

Definition eras_Europe_Zurich : list lc_timezone_era :=
  [ Era [] 2048 (-3675198848) 0 "LMT" "";
    Era [] 1786 (-2385246586) 0 "BMT" "";
    Era rules_Swiss 3600 347151600 0 "CE%sT" "";
    Era rules_EU 3600 0 0 "CE%sT" "" ].

Definition eras_HST : list lc_timezone_era :=
  [ Era [] (-36000) 0 0 "HST" "" ].

Definition eras_Indian_Chagos : list lc_timezone_era :=
  [ Era [] 17380 (-1988167780) 0 "LMT" "";
    Era [] 18000 820436400 0 "+05" "";
    Era [] 21600 0 0 "+06" "" ].

Definition eras_Indian_Christmas : list lc_timezone_era :=
  [ Era [] 25372 (-2364102172) 0 "LMT" "";
    Era [] 25200 0 0 "+07" "" ].

Definition eras_Indian_Cocos : list lc_timezone_era :=
  [ Era [] 23260 (-2209012060) 0 "LMT" "";
    Era [] 23400 0 0 "+0630" "" ].

Definition eras_Indian_Kerguelen : list lc_timezone_era :=
  [ Era [] 0 (-631152000) 0 "-00" "";
    Era [] 18000 0 0 "+05" "" ].

Definition eras_Indian_Mahe : list lc_timezone_era :=
  [ Era [] 13308 (-2006653308) 0 "LMT" "";
    Era [] 14400 0 0 "+04" "" ].

Definition eras_Indian_Maldives : list lc_timezone_era :=
  [ Era [] 17640 (-2840158440) 0 "LMT" "";
    Era [] 17640 (-315636840) 0 "MMT" "";
    Era [] 18000 0 0 "+05" "" ].

Definition eras_Indian_Mauritius : list lc_timezone_era :=
  [ Era [] 13800 (-1988164200) 0 "LMT" "";
    Era rules_Mauritius 14400 0 0 "+04" "+05" ].

Definition eras_Indian_Reunion : list lc_timezone_era :=
  [ Era [] 13312 (-1848886912) 0 "LMT" "";
    Era [] 14400 0 0 "+04" "" ].

Definition eras_MET : list lc_timezone_era :=
  [ Era rules_C_Eur 3600 0 0 "ME%sT" "" ].

Definition eras_MST : list lc_timezone_era :=
  [ Era [] (-25200) 0 0 "MST" "" ].

Definition eras_MST7MDT : list lc_timezone_era :=
  [ Era rules_US (-25200) 0 0 "M%sT" "" ].

Definition eras_PST8PDT : list lc_timezone_era :=
  [ Era rules_US (-28800) 0 0 "P%sT" "" ].

Definition eras_Pacific_Apia : list lc_timezone_era :=
  [ Era [] 45184 (-2855737984) 0 "LMT" "";
    Era [] (-41216) (-1861878784) 0 "LMT" "";
    Era [] (-41400) (-631110600) 0 "-1130" "";
    Era rules_WS (-39600) 1325239200 6 "-11" "-10";
    Era rules_WS 46800 0 0 "+13" "+14" ].

Definition eras_Pacific_Auckland : list lc_timezone_era :=
  [ Era [] 41944 (-3192435544) 0 "LMT" "";
    Era rules_NZ 41400 (-757425600) 3 "NZ%sT" "";
    Era rules_NZ 43200 0 0 "NZ%sT" "" ].

Definition eras_Pacific_Bougainville : list lc_timezone_era :=
  [ Era [] 37336 (-2840178136) 0 "LMT" "";
    Era [] 35312 (-2366790512) 0 "PMMT" "";
    Era [] 36000 (-868010400) 0 "+10" "";
    Era [] 32400 (-768906000) 0 "+09" "";
    Era [] 36000 1419696000 0 "+10" "";
    Era [] 39600 0 0 "+11" "" ].

Definition eras_Pacific_Chatham : list lc_timezone_era :=
  [ Era [] 44028 (-3192437628) 0 "LMT" "";
    Era [] 44100 (-757426500) 0 "+1215" "";
    Era rules_Chatham 45900 0 0 "+1245" "+1345" ].

Definition eras_Pacific_Chuuk : list lc_timezone_era :=
  [ Era [] 36428 (-2177489228) 0 "LMT" "";
    Era [] 36000 0 0 "+10" "" ].

Definition eras_Pacific_Easter : list lc_timezone_era :=
  [ Era [] (-26248) (-2524495352) 0 "LMT" "";
    Era [] (-26248) (-1178124152) 0 "EMT" "";
    Era rules_Chile (-25200) 384922800 6 "-07" "-06";
    Era rules_Chile (-21600) 0 6 "-06" "-05" ].

Definition eras_Pacific_Efate : list lc_timezone_era :=
  [ Era [] 40396 (-1829387596) 0 "LMT" "";
    Era rules_Vanuatu 39600 0 0 "+11" "+12" ].

Definition eras_Pacific_Enderbury : list lc_timezone_era :=
  [ Era [] (-41060) (-2177411740) 0 "LMT" "";
    Era [] (-43200) 307627200 0 "-12" "";
    Era [] (-39600) 788958000 0 "-11" "";
    Era [] 46800 0 0 "+13" "" ].

Definition eras_Pacific_Fakaofo : list lc_timezone_era :=
  [ Era [] (-41096) (-2177411704) 0 "LMT" "";
    Era [] (-39600) 1325242800 0 "-11" "";
    Era [] 46800 0 0 "+13" "" ].

Definition eras_Pacific_Fiji : list lc_timezone_era :=
  [ Era [] 42944 (-1709985344) 0 "LMT" "";
    Era rules_Fiji 43200 0 0 "+12" "+13" ].

Definition eras_Pacific_Funafuti : list lc_timezone_era :=
  [ Era [] 43012 (-2177495812) 0 "LMT" "";
    Era [] 43200 0 0 "+12" "" ].

Definition eras_Pacific_Galapagos : list lc_timezone_era :=
  [ Era [] (-21504) (-1230746496) 0 "LMT" "";
    Era [] (-18000) 504939600 0 "-05" "";
    Era rules_Ecuador (-21600) 0 0 "-06" "-05" ].

Definition eras_Pacific_Gambier : list lc_timezone_era :=
  [ Era [] (-32388) (-1806678012) 0 "LMT" "";
    Era [] (-32400) 0 0 "-09" "" ].

Definition eras_Pacific_Guadalcanal : list lc_timezone_era :=
  [ Era [] 38388 (-1806748788) 0 "LMT" "";
    Era [] 39600 0 0 "+11" "" ].

Definition eras_Pacific_Guam : list lc_timezone_era :=
  [ Era [] (-51660) (-3944626740) 0 "LMT" "";
    Era [] 34740 (-2177487540) 0 "LMT" "";
    Era [] 36000 977493600 0 "GST" "";
    Era [] 36000 0 0 "ChST" "" ].

Definition eras_Pacific_Honolulu : list lc_timezone_era :=
  [ Era [] (-37886) (-2334101314) 0 "LMT" "";
    Era [] (-37800) (-1157283000) 0 "HST" "";
    Era rules_100 (-37800) (-1155436200) 6 "HDT" "";
    Era [] (-37800) (-880198200) 0 "HST" "";
    Era rules_100 (-37800) (-765376200) 6 "HDT" "";
    Era [] (-37800) (-712150200) 0 "HST" "";
    Era [] (-36000) 0 0 "HST" "" ].

Definition eras_Pacific_Kiritimati : list lc_timezone_era :=
  [ Era [] (-37760) (-2177415040) 0 "LMT" "";
    Era [] (-38400) 307622400 0 "-1040" "";
    Era [] (-36000) 788954400 0 "-10" "";
    Era [] 50400 0 0 "+14" "" ].

Definition eras_Pacific_Kosrae : list lc_timezone_era :=
  [ Era [] 39116 (-2177491916) 0 "LMT" "";
    Era [] 39600 (-7988400) 0 "+11" "";
    Era [] 43200 915105600 0 "+12" "";
    Era [] 39600 0 0 "+11" "" ].

Definition eras_Pacific_Kwajalein : list lc_timezone_era :=
  [ Era [] 40160 (-2177492960) 0 "LMT" "";
    Era [] 39600 (-7988400) 0 "+11" "";
    Era [] (-43200) 745848000 0 "-12" "";
    Era [] 43200 0 0 "+12" "" ].

Definition eras_Pacific_Majuro : list lc_timezone_era :=
  [ Era [] 41088 (-2177493888) 0 "LMT" "";
    Era [] 39600 (-7988400) 0 "+11" "";
    Era [] 43200 0 0 "+12" "" ].

Definition eras_Pacific_Marquesas : list lc_timezone_era :=
  [ Era [] (-33480) (-1806676920) 0 "LMT" "";
    Era [] (-34200) 0 0 "-0930" "" ].

Definition eras_Pacific_Nauru : list lc_timezone_era :=
  [ Era [] 40060 (-1545131260) 0 "LMT" "";
    Era [] 41400 (-877347000) 0 "+1130" "";
    Era [] 32400 (-800960400) 0 "+09" "";
    Era [] 41400 294323400 0 "+1130" "";
    Era [] 43200 0 0 "+12" "" ].

Definition eras_Pacific_Niue : list lc_timezone_era :=
  [ Era [] (-40780) (-2177412020) 0 "LMT" "";
    Era [] (-40800) (-599575200) 0 "-1120" "";
    Era [] (-41400) 276089400 0 "-1130" "";
    Era [] (-39600) 0 0 "-11" "" ].

Definition eras_Pacific_Norfolk : list lc_timezone_era :=
  [ Era [] 40312 (-2177493112) 0 "LMT" "";
    Era [] 40320 (-599656320) 0 "+1112" "";
    Era [] 41400 152029800 0 "+1130" "";
    Era rules_100 41400 162912600 6 "+1230" "";
    Era [] 41400 1443882600 0 "+1130" "";
    Era [] 39600 0 0 "+11" "" ].

Definition eras_Pacific_Noumea : list lc_timezone_era :=
  [ Era [] 39948 (-1829387148) 0 "LMT" "";
    Era rules_NC 39600 0 0 "+11" "+12" ].

Definition eras_Pacific_Pago_Pago : list lc_timezone_era :=
  [ Era [] 45432 (-2855738232) 0 "LMT" "";
    Era [] (-40968) (-1861879032) 0 "LMT" "";
    Era [] (-39600) 0 0 "SST" "" ].

Definition eras_Pacific_Palau : list lc_timezone_era :=
  [ Era [] 32276 (-2177485076) 0 "LMT" "";
    Era [] 32400 0 0 "+09" "" ].

Definition eras_Pacific_Pitcairn : list lc_timezone_era :=
  [ Era [] (-31220) (-2177421580) 0 "LMT" "";
    Era [] (-30600) 893665800 0 "-0830" "";
    Era [] (-28800) 0 0 "-08" "" ].

Definition eras_Pacific_Pohnpei : list lc_timezone_era :=
  [ Era [] 37972 (-2177490772) 0 "LMT" "";
    Era [] 39600 0 0 "+11" "" ].

Definition eras_Pacific_Port_Moresby : list lc_timezone_era :=
  [ Era [] 35320 (-2840176120) 0 "LMT" "";
    Era [] 35312 (-2366790512) 0 "PMMT" "";
    Era [] 36000 0 0 "+10" "" ].

Definition eras_Pacific_Rarotonga : list lc_timezone_era :=
  [ Era [] (-38344) (-2177414456) 0 "LMT" "";
    Era [] (-37800) 279714600 0 "-1030" "";
    Era rules_Cook (-36000) 0 0 "-10" "-0930" ].

Definition eras_Pacific_Tahiti : list lc_timezone_era :=
  [ Era [] (-35896) (-1806674504) 0 "LMT" "";
    Era [] (-36000) 0 0 "-10" "" ].

Definition eras_Pacific_Tarawa : list lc_timezone_era :=
  [ Era [] 41524 (-2177494324) 0 "LMT" "";
    Era [] 43200 0 0 "+12" "" ].

Definition eras_Pacific_Tongatapu : list lc_timezone_era :=
  [ Era [] 44360 (-2177497160) 0 "LMT" "";
    Era [] 44400 (-915193200) 0 "+1220" "";
    Era [] 46800 915102000 0 "+13" "";
    Era rules_Tonga 46800 0 0 "+13" "+14" ].

Definition eras_Pacific_Wake : list lc_timezone_era :=
  [ Era [] 39988 (-2177492788) 0 "LMT" "";
    Era [] 43200 0 0 "+12" "" ].

Definition eras_Pacific_Wallis : list lc_timezone_era :=
  [ Era [] 44120 (-2177496920) 0 "LMT" "";
    Era [] 43200 0 0 "+12" "" ].

Definition eras_WET : list lc_timezone_era :=
  [ Era rules_EU 0 0 0 "WE%sT" "" ].

Definition timezone_names : list string :=
  [ "Africa/Abidjan";
    "Africa/Accra";
    "Africa/Addis_Ababa";
    "Africa/Algiers";
    "Africa/Asmara";
    "Africa/Asmera";
    "Africa/Bamako";
    "Africa/Bangui";
    "Africa/Banjul";
    "Africa/Bissau";
    "Africa/Blantyre";
    "Africa/Brazzaville";
    "Africa/Bujumbura";
    "Africa/Cairo";
    "Africa/Casablanca";
    "Africa/Ceuta";
    "Africa/Conakry";
    "Africa/Dakar";
    "Africa/Dar_es_Salaam";
    "Africa/Djibouti";
    "Africa/Douala";
    "Africa/El_Aaiun";
    "Africa/Freetown";
    "Africa/Gaborone";
    "Africa/Harare";
    "Africa/Johannesburg";
    "Africa/Juba";
    "Africa/Kampala";
    "Africa/Khartoum";
    "Africa/Kigali";
    "Africa/Kinshasa";
    "Africa/Lagos";
    "Africa/Libreville";
    "Africa/Lome";
    "Africa/Luanda";
    "Africa/Lubumbashi";
    "Africa/Lusaka";
    "Africa/Malabo";
    "Africa/Maputo";
    "Africa/Maseru";
    "Africa/Mbabane";
    "Africa/Mogadishu";
    "Africa/Monrovia";
    "Africa/Nairobi";
    "Africa/Ndjamena";
    "Africa/Niamey";
    "Africa/Nouakchott";
    "Africa/Ouagadougou";
    "Africa/Porto-Novo";
    "Africa/Sao_Tome";
    "Africa/Timbuktu";
    "Africa/Tripoli";
    "Africa/Tunis";
    "Africa/Windhoek";
    "America/Adak";
    "America/Anchorage";
    "America/Anguilla";
    "America/Antigua";
    "America/Araguaina";
    "America/Argentina/Buenos_Aires";
    "America/Argentina/Catamarca";
    "America/Argentina/ComodRivadavia";
    "America/Argentina/Cordoba";
    "America/Argentina/Jujuy";
    "America/Argentina/La_Rioja";
    "America/Argentina/Mendoza";
    "America/Argentina/Rio_Gallegos";
    "America/Argentina/Salta";
    "America/Argentina/San_Juan";
    "America/Argentina/San_Luis";
    "America/Argentina/Tucuman";
    "America/Argentina/Ushuaia";
    "America/Aruba";
    "America/Asuncion";
    "America/Atikokan";
    "America/Atka";
    "America/Bahia";
    "America/Bahia_Banderas";
    "America/Barbados";
    "America/Belem";
    "America/Belize";
    "America/Blanc-Sablon";
    "America/Boa_Vista";
    "America/Bogota";
    "America/Boise";
    "America/Buenos_Aires";
    "America/Cambridge_Bay";
    "America/Campo_Grande";
    "America/Cancun";
    "America/Caracas";
    "America/Catamarca";
    "America/Cayenne";
    "America/Cayman";
    "America/Chicago";
    "America/Chihuahua";
    "America/Coral_Harbour";
    "America/Cordoba";
    "America/Costa_Rica";
    "America/Creston";
    "America/Cuiaba";
    "America/Curacao";
    "America/Danmarkshavn";
    "America/Dawson";
    "America/Dawson_Creek";
    "America/Denver";
    "America/Detroit";
    "America/Dominica";
    "America/Edmonton";
    "America/Eirunepe";
    "America/El_Salvador";
    "America/Ensenada";
    "America/Fort_Nelson";
    "America/Fort_Wayne";
    "America/Fortaleza";
    "America/Glace_Bay";
    "America/Godthab";
    "America/Goose_Bay";
    "America/Grand_Turk";
    "America/Grenada";
    "America/Guadeloupe";
    "America/Guatemala";
    "America/Guayaquil";
    "America/Guyana";
    "America/Halifax";
    "America/Havana";
    "America/Hermosillo";
    "America/Indiana/Indianapolis";
    "America/Indiana/Knox";
    "America/Indiana/Marengo";
    "America/Indiana/Petersburg";
    "America/Indiana/Tell_City";
    "America/Indiana/Vevay";
    "America/Indiana/Vincennes";
    "America/Indiana/Winamac";
    "America/Indianapolis";
    "America/Inuvik";
    "America/Iqaluit";
    "America/Jamaica";
    "America/Jujuy";
    "America/Juneau";
    "America/Kentucky/Louisville";
    "America/Kentucky/Monticello";
    "America/Knox_IN";
    "America/Kralendijk";
    "America/La_Paz";
    "America/Lima";
    "America/Los_Angeles";
    "America/Louisville";
    "America/Lower_Princes";
    "America/Maceio";
    "America/Managua";
    "America/Manaus";
    "America/Marigot";
    "America/Martinique";
    "America/Matamoros";
    "America/Mazatlan";
    "America/Mendoza";
    "America/Menominee";
    "America/Merida";
    "America/Metlakatla";
    "America/Mexico_City";
    "America/Miquelon";
    "America/Moncton";
    "America/Monterrey";
    "America/Montevideo";
    "America/Montreal";
    "America/Montserrat";
    "America/Nassau";
    "America/New_York";
    "America/Nipigon";
    "America/Nome";
    "America/Noronha";
    "America/North_Dakota/Beulah";
    "America/North_Dakota/Center";
    "America/North_Dakota/New_Salem";
    "America/Ojinaga";
    "America/Panama";
    "America/Pangnirtung";
    "America/Paramaribo";
    "America/Phoenix";
    "America/Port-au-Prince";
    "America/Port_of_Spain";
    "America/Porto_Acre";
    "America/Porto_Velho";
    "America/Puerto_Rico";
    "America/Punta_Arenas";
    "America/Rainy_River";
    "America/Rankin_Inlet";
    "America/Recife";
    "America/Regina";
    "America/Resolute";
    "America/Rio_Branco";
    "America/Rosario";
    "America/Santa_Isabel";
    "America/Santarem";
    "America/Santiago";
    "America/Santo_Domingo";
    "America/Sao_Paulo";
    "America/Scoresbysund";
    "America/Shiprock";
    "America/Sitka";
    "America/St_Barthelemy";
    "America/St_Johns";
    "America/St_Kitts";
    "America/St_Lucia";
    "America/St_Thomas";
    "America/St_Vincent";
    "America/Swift_Current";
    "America/Tegucigalpa";
    "America/Thule";
    "America/Thunder_Bay";
    "America/Tijuana";
    "America/Toronto";
    "America/Tortola";
    "America/Vancouver";
    "America/Virgin";
    "America/Whitehorse";
    "America/Winnipeg";
    "America/Yakutat";
    "America/Yellowknife";
    "Antarctica/Casey";
    "Antarctica/Davis";
    "Antarctica/DumontDUrville";
    "Antarctica/Macquarie";
    "Antarctica/Mawson";
    "Antarctica/McMurdo";
    "Antarctica/Palmer";
    "Antarctica/Rothera";
    "Antarctica/South_Pole";
    "Antarctica/Syowa";
    "Antarctica/Troll";
    "Antarctica/Vostok";
    "Arctic/Longyearbyen";
    "Asia/Aden";
    "Asia/Almaty";
    "Asia/Amman";
    "Asia/Anadyr";
    "Asia/Aqtau";
    "Asia/Aqtobe";
    "Asia/Ashgabat";
    "Asia/Ashkhabad";
    "Asia/Atyrau";
    "Asia/Baghdad";
    "Asia/Bahrain";
    "Asia/Baku";
    "Asia/Bangkok";
    "Asia/Barnaul";
    "Asia/Beirut";
    "Asia/Bishkek";
    "Asia/Brunei";
    "Asia/Calcutta";
    "Asia/Chita";
    "Asia/Choibalsan";
    "Asia/Chongqing";
    "Asia/Chungking";
    "Asia/Colombo";
    "Asia/Dacca";
    "Asia/Damascus";
    "Asia/Dhaka";
    "Asia/Dili";
    "Asia/Dubai";
    "Asia/Dushanbe";
    "Asia/Famagusta";
    "Asia/Gaza";
    "Asia/Harbin";
    "Asia/Hebron";
    "Asia/Ho_Chi_Minh";
    "Asia/Hong_Kong";
    "Asia/Hovd";
    "Asia/Irkutsk";
    "Asia/Istanbul";
    "Asia/Jakarta";
    "Asia/Jayapura";
    "Asia/Jerusalem";
    "Asia/Kabul";
    "Asia/Kamchatka";
    "Asia/Karachi";
    "Asia/Kashgar";
    "Asia/Kathmandu";
    "Asia/Katmandu";
    "Asia/Khandyga";
    "Asia/Kolkata";
    "Asia/Krasnoyarsk";
    "Asia/Kuala_Lumpur";
    "Asia/Kuching";
    "Asia/Kuwait";
    "Asia/Macao";
    "Asia/Macau";
    "Asia/Magadan";
    "Asia/Makassar";
    "Asia/Manila";
    "Asia/Muscat";
    "Asia/Nicosia";
    "Asia/Novokuznetsk";
    "Asia/Novosibirsk";
    "Asia/Omsk";
    "Asia/Oral";
    "Asia/Phnom_Penh";
    "Asia/Pontianak";
    "Asia/Pyongyang";
    "Asia/Qatar";
    "Asia/Qyzylorda";
    "Asia/Rangoon";
    "Asia/Riyadh";
    "Asia/Saigon";
    "Asia/Sakhalin";
    "Asia/Samarkand";
    "Asia/Seoul";
    "Asia/Shanghai";
    "Asia/Singapore";
    "Asia/Srednekolymsk";
    "Asia/Taipei";
    "Asia/Tashkent";
    "Asia/Tbilisi";
    "Asia/Tehran";
    "Asia/Tel_Aviv";
    "Asia/Thimbu";
    "Asia/Thimphu";
    "Asia/Tokyo";
    "Asia/Tomsk";
    "Asia/Ujung_Pandang";
    "Asia/Ulaanbaatar";
    "Asia/Ulan_Bator";
    "Asia/Urumqi";
    "Asia/Ust-Nera";
    "Asia/Vientiane";
    "Asia/Vladivostok";
    "Asia/Yakutsk";
    "Asia/Yangon";
    "Asia/Yekaterinburg";
    "Asia/Yerevan";
    "Atlantic/Azores";
    "Atlantic/Bermuda";
    "Atlantic/Canary";
    "Atlantic/Cape_Verde";
    "Atlantic/Faeroe";
    "Atlantic/Faroe";
    "Atlantic/Jan_Mayen";
    "Atlantic/Madeira";
    "Atlantic/Reykjavik";
    "Atlantic/South_Georgia";
    "Atlantic/St_Helena";
    "Atlantic/Stanley";
    "Australia/ACT";
    "Australia/Adelaide";
    "Australia/Brisbane";
    "Australia/Broken_Hill";
    "Australia/Canberra";
    "Australia/Currie";
    "Australia/Darwin";
    "Australia/Eucla";
    "Australia/Hobart";
    "Australia/LHI";
    "Australia/Lindeman";
    "Australia/Lord_Howe";
    "Australia/Melbourne";
    "Australia/NSW";
    "Australia/North";
    "Australia/Perth";
    "Australia/Queensland";
    "Australia/South";
    "Australia/Sydney";
    "Australia/Tasmania";
    "Australia/Victoria";
    "Australia/West";
    "Australia/Yancowinna";
    "Brazil/Acre";
    "Brazil/DeNoronha";
    "Brazil/East";
    "Brazil/West";
    "CET";
    "CST6CDT";
    "Canada/Atlantic";
    "Canada/Central";
    "Canada/East-Saskatchewan";
    "Canada/Eastern";
    "Canada/Mountain";
    "Canada/Newfoundland";
    "Canada/Pacific";
    "Canada/Saskatchewan";
    "Canada/Yukon";
    "Chile/Continental";
    "Chile/EasterIsland";
    "Cuba";
    "EET";
    "EST";
    "EST5EDT";
    "Egypt";
    "Eire";
    "Etc/GMT";
    "Etc/GMT+0";
    "Etc/GMT+1";
    "Etc/GMT+10";
    "Etc/GMT+11";
    "Etc/GMT+12";
    "Etc/GMT+2";
    "Etc/GMT+3";
    "Etc/GMT+4";
    "Etc/GMT+5";
    "Etc/GMT+6";
    "Etc/GMT+7";
    "Etc/GMT+8";
    "Etc/GMT+9";
    "Etc/GMT-0";
    "Etc/GMT-1";
    "Etc/GMT-10";
    "Etc/GMT-11";
    "Etc/GMT-12";
    "Etc/GMT-13";
    "Etc/GMT-14";
    "Etc/GMT-2";
    "Etc/GMT-3";
    "Etc/GMT-4";
    "Etc/GMT-5";
    "Etc/GMT-6";
    "Etc/GMT-7";
    "Etc/GMT-8";
    "Etc/GMT-9";
    "Etc/GMT0";
    "Etc/Greenwich";
    "Etc/UCT";
    "Etc/UTC";
    "Etc/Universal";
    "Etc/Zulu";
    "Europe/Amsterdam";
    "Europe/Andorra";
    "Europe/Astrakhan";
    "Europe/Athens";
    "Europe/Belfast";
    "Europe/Belgrade";
    "Europe/Berlin";
    "Europe/Bratislava";
    "Europe/Brussels";
    "Europe/Bucharest";
    "Europe/Budapest";
    "Europe/Busingen";
    "Europe/Chisinau";
    "Europe/Copenhagen";
    "Europe/Dublin";
    "Europe/Gibraltar";
    "Europe/Guernsey";
    "Europe/Helsinki";
    "Europe/Isle_of_Man";
    "Europe/Istanbul";
    "Europe/Jersey";
    "Europe/Kaliningrad";
    "Europe/Kiev";
    "Europe/Kirov";
    "Europe/Lisbon";
    "Europe/Ljubljana";
    "Europe/London";
    "Europe/Luxembourg";
    "Europe/Madrid";
    "Europe/Malta";
    "Europe/Mariehamn";
    "Europe/Minsk";
    "Europe/Monaco";
    "Europe/Moscow";
    "Europe/Nicosia";
    "Europe/Oslo";
    "Europe/Paris";
    "Europe/Podgorica";
    "Europe/Prague";
    "Europe/Riga";
    "Europe/Rome";
    "Europe/Samara";
    "Europe/San_Marino";
    "Europe/Sarajevo";
    "Europe/Saratov";
    "Europe/Simferopol";
    "Europe/Skopje";
    "Europe/Sofia";
    "Europe/Stockholm";
    "Europe/Tallinn";
    "Europe/Tirane";
    "Europe/Tiraspol";
    "Europe/Ulyanovsk";
    "Europe/Uzhgorod";
    "Europe/Vaduz";
    "Europe/Vatican";
    "Europe/Vienna";
    "Europe/Vilnius";
    "Europe/Volgograd";
    "Europe/Warsaw";
    "Europe/Zagreb";
    "Europe/Zaporozhye";
    "Europe/Zurich";
    "GB";
    "GB-Eire";
    "GMT";
    "GMT+0";
    "GMT-0";
    "GMT0";
    "Greenwich";
    "HST";
    "Hongkong";
    "Iceland";
    "Indian/Antananarivo";
    "Indian/Chagos";
    "Indian/Christmas";
    "Indian/Cocos";
    "Indian/Comoro";
    "Indian/Kerguelen";
    "Indian/Mahe";
    "Indian/Maldives";
    "Indian/Mauritius";
    "Indian/Mayotte";
    "Indian/Reunion";
    "Iran";
    "Israel";
    "Jamaica";
    "Japan";
    "Kwajalein";
    "Libya";
    "MET";
    "MST";
    "MST7MDT";
    "Mexico/BajaNorte";
    "Mexico/BajaSur";
    "Mexico/General";
    "NZ";
    "NZ-CHAT";
    "Navajo";
    "PRC";
    "PST8PDT";
    "Pacific/Apia";
    "Pacific/Auckland";
    "Pacific/Bougainville";
    "Pacific/Chatham";
    "Pacific/Chuuk";
    "Pacific/Easter";
    "Pacific/Efate";
    "Pacific/Enderbury";
    "Pacific/Fakaofo";
    "Pacific/Fiji";
    "Pacific/Funafuti";
    "Pacific/Galapagos";
    "Pacific/Gambier";
    "Pacific/Guadalcanal";
    "Pacific/Guam";
    "Pacific/Honolulu";
    "Pacific/Johnston";
    "Pacific/Kiritimati";
    "Pacific/Kosrae";
    "Pacific/Kwajalein";
    "Pacific/Majuro";
    "Pacific/Marquesas";
    "Pacific/Midway";
    "Pacific/Nauru";
    "Pacific/Niue";
    "Pacific/Norfolk";
    "Pacific/Noumea";
    "Pacific/Pago_Pago";
    "Pacific/Palau";
    "Pacific/Pitcairn";
    "Pacific/Pohnpei";
    "Pacific/Ponape";
    "Pacific/Port_Moresby";
    "Pacific/Rarotonga";
    "Pacific/Saipan";
    "Pacific/Samoa";
    "Pacific/Tahiti";
    "Pacific/Tarawa";
    "Pacific/Tongatapu";
    "Pacific/Truk";
    "Pacific/Wake";
    "Pacific/Wallis";
    "Pacific/Yap";
    "Poland";
    "Portugal";
    "ROC";
    "ROK";
    "Singapore";
    "Turkey";
    "UCT";
    "US/Alaska";
    "US/Aleutian";
    "US/Arizona";
    "US/Central";
    "US/East-Indiana";
    "US/Eastern";
    "US/Hawaii";
    "US/Indiana-Starke";
    "US/Michigan";
    "US/Mountain";
    "US/Pacific";
    "US/Pacific-New";
    "US/Samoa";
    "UTC";
    "Universal";
    "W-SU";
    "WET";
    "Zulu" ].

Definition timezones : list lc_timezone :=
  [ eras_Africa_Abidjan;
    eras_Africa_Accra;
    eras_Africa_Nairobi;
    eras_Africa_Algiers;
    eras_Africa_Nairobi;
    eras_Africa_Nairobi;
    eras_Africa_Abidjan;
    eras_Africa_Lagos;
    eras_Africa_Abidjan;
    eras_Africa_Bissau;
    eras_Africa_Maputo;
    eras_Africa_Lagos;
    eras_Africa_Maputo;
    eras_Africa_Cairo;
    eras_Africa_Casablanca;
    eras_Africa_Ceuta;
    eras_Africa_Abidjan;
    eras_Africa_Abidjan;
    eras_Africa_Nairobi;
    eras_Africa_Nairobi;
    eras_Africa_Lagos;
    eras_Africa_El_Aaiun;
    eras_Africa_Abidjan;
    eras_Africa_Maputo;
    eras_Africa_Maputo;
    eras_Africa_Johannesburg;
    eras_Africa_Khartoum;
    eras_Africa_Nairobi;
    eras_Africa_Khartoum;
    eras_Africa_Maputo;
    eras_Africa_Lagos;
    eras_Africa_Lagos;
    eras_Africa_Lagos;
    eras_Africa_Abidjan;
    eras_Africa_Lagos;
    eras_Africa_Maputo;
    eras_Africa_Maputo;
    eras_Africa_Lagos;
    eras_Africa_Maputo;
    eras_Africa_Johannesburg;
    eras_Africa_Johannesburg;
    eras_Africa_Nairobi;
    eras_Africa_Monrovia;
    eras_Africa_Nairobi;
    eras_Africa_Ndjamena;
    eras_Africa_Lagos;
    eras_Africa_Abidjan;
    eras_Africa_Abidjan;
    eras_Africa_Lagos;
    eras_Africa_Abidjan;
    eras_Africa_Abidjan;
    eras_Africa_Tripoli;
    eras_Africa_Tunis;
    eras_Africa_Windhoek;
    eras_America_Adak;
    eras_America_Anchorage;
    eras_America_Port_of_Spain;
    eras_America_Port_of_Spain;
    eras_America_Araguaina;
    eras_America_Argentina_Buenos_Aires;
    eras_America_Argentina_Catamarca;
    eras_America_Argentina_Catamarca;
    eras_America_Argentina_Cordoba;
    eras_America_Argentina_Jujuy;
    eras_America_Argentina_La_Rioja;
    eras_America_Argentina_Mendoza;
    eras_America_Argentina_Rio_Gallegos;
    eras_America_Argentina_Salta;
    eras_America_Argentina_San_Juan;
    eras_America_Argentina_San_Luis;
    eras_America_Argentina_Tucuman;
    eras_America_Argentina_Ushuaia;
    eras_America_Curacao;
    eras_America_Asuncion;
    eras_America_Atikokan;
    eras_America_Adak;
    eras_America_Bahia;
    eras_America_Bahia_Banderas;
    eras_America_Barbados;
    eras_America_Belem;
    eras_America_Belize;
    eras_America_Blanc_Sablon;
    eras_America_Boa_Vista;
    eras_America_Bogota;
    eras_America_Boise;
    eras_America_Argentina_Buenos_Aires;
    eras_America_Cambridge_Bay;
    eras_America_Campo_Grande;
    eras_America_Cancun;
    eras_America_Caracas;
    eras_America_Argentina_Catamarca;
    eras_America_Cayenne;
    eras_America_Panama;
    eras_America_Chicago;
    eras_America_Chihuahua;
    eras_America_Atikokan;
    eras_America_Argentina_Cordoba;
    eras_America_Costa_Rica;
    eras_America_Creston;
    eras_America_Cuiaba;
    eras_America_Curacao;
    eras_America_Danmarkshavn;
    eras_America_Dawson;
    eras_America_Dawson_Creek;
    eras_America_Denver;
    eras_America_Detroit;
    eras_America_Port_of_Spain;
    eras_America_Edmonton;
    eras_America_Eirunepe;
    eras_America_El_Salvador;
    eras_America_Tijuana;
    eras_America_Fort_Nelson;
    eras_America_Indiana_Indianapolis;
    eras_America_Fortaleza;
    eras_America_Glace_Bay;
    eras_America_Godthab;
    eras_America_Goose_Bay;
    eras_America_Grand_Turk;
    eras_America_Port_of_Spain;
    eras_America_Port_of_Spain;
    eras_America_Guatemala;
    eras_America_Guayaquil;
    eras_America_Guyana;
    eras_America_Halifax;
    eras_America_Havana;
    eras_America_Hermosillo;
    eras_America_Indiana_Indianapolis;
    eras_America_Indiana_Knox;
    eras_America_Indiana_Marengo;
    eras_America_Indiana_Petersburg;
    eras_America_Indiana_Tell_City;
    eras_America_Indiana_Vevay;
    eras_America_Indiana_Vincennes;
    eras_America_Indiana_Winamac;
    eras_America_Indiana_Indianapolis;
    eras_America_Inuvik;
    eras_America_Iqaluit;
    eras_America_Jamaica;
    eras_America_Argentina_Jujuy;
    eras_America_Juneau;
    eras_America_Kentucky_Louisville;
    eras_America_Kentucky_Monticello;
    eras_America_Indiana_Knox;
    eras_America_Curacao;
    eras_America_La_Paz;
    eras_America_Lima;
    eras_America_Los_Angeles;
    eras_America_Kentucky_Louisville;
    eras_America_Curacao;
    eras_America_Maceio;
    eras_America_Managua;
    eras_America_Manaus;
    eras_America_Port_of_Spain;
    eras_America_Martinique;
    eras_America_Matamoros;
    eras_America_Mazatlan;
    eras_America_Argentina_Mendoza;
    eras_America_Menominee;
    eras_America_Merida;
    eras_America_Metlakatla;
    eras_America_Mexico_City;
    eras_America_Miquelon;
    eras_America_Moncton;
    eras_America_Monterrey;
    eras_America_Montevideo;
    eras_America_Toronto;
    eras_America_Port_of_Spain;
    eras_America_Nassau;
    eras_America_New_York;
    eras_America_Nipigon;
    eras_America_Nome;
    eras_America_Noronha;
    eras_America_North_Dakota_Beulah;
    eras_America_North_Dakota_Center;
    eras_America_North_Dakota_New_Salem;
    eras_America_Ojinaga;
    eras_America_Panama;
    eras_America_Pangnirtung;
    eras_America_Paramaribo;
    eras_America_Phoenix;
    eras_America_Port_au_Prince;
    eras_America_Port_of_Spain;
    eras_America_Rio_Branco;
    eras_America_Porto_Velho;
    eras_America_Puerto_Rico;
    eras_America_Punta_Arenas;
    eras_America_Rainy_River;
    eras_America_Rankin_Inlet;
    eras_America_Recife;
    eras_America_Regina;
    eras_America_Resolute;
    eras_America_Rio_Branco;
    eras_America_Argentina_Cordoba;
    eras_America_Tijuana;
    eras_America_Santarem;
    eras_America_Santiago;
    eras_America_Santo_Domingo;
    eras_America_Sao_Paulo;
    eras_America_Scoresbysund;
    eras_America_Denver;
    eras_America_Sitka;
    eras_America_Port_of_Spain;
    eras_America_St_Johns;
    eras_America_Port_of_Spain;
    eras_America_Port_of_Spain;
    eras_America_Port_of_Spain;
    eras_America_Port_of_Spain;
    eras_America_Swift_Current;
    eras_America_Tegucigalpa;
    eras_America_Thule;
    eras_America_Thunder_Bay;
    eras_America_Tijuana;
    eras_America_Toronto;
    eras_America_Port_of_Spain;
    eras_America_Vancouver;
    eras_America_Port_of_Spain;
    eras_America_Whitehorse;
    eras_America_Winnipeg;
    eras_America_Yakutat;
    eras_America_Yellowknife;
    eras_Antarctica_Casey;
    eras_Antarctica_Davis;
    eras_Antarctica_DumontDUrville;
    eras_Antarctica_Macquarie;
    eras_Antarctica_Mawson;
    eras_Pacific_Auckland;
    eras_Antarctica_Palmer;
    eras_Antarctica_Rothera;
    eras_Pacific_Auckland;
    eras_Antarctica_Syowa;
    eras_Antarctica_Troll;
    eras_Antarctica_Vostok;
    eras_Europe_Oslo;
    eras_Asia_Riyadh;
    eras_Asia_Almaty;
    eras_Asia_Amman;
    eras_Asia_Anadyr;
    eras_Asia_Aqtau;
    eras_Asia_Aqtobe;
    eras_Asia_Ashgabat;
    eras_Asia_Ashgabat;
    eras_Asia_Atyrau;
    eras_Asia_Baghdad;
    eras_Asia_Qatar;
    eras_Asia_Baku;
    eras_Asia_Bangkok;
    eras_Asia_Barnaul;
    eras_Asia_Beirut;
    eras_Asia_Bishkek;
    eras_Asia_Brunei;
    eras_Asia_Kolkata;
    eras_Asia_Chita;
    eras_Asia_Choibalsan;
    eras_Asia_Shanghai;
    eras_Asia_Shanghai;
    eras_Asia_Colombo;
    eras_Asia_Dhaka;
    eras_Asia_Damascus;
    eras_Asia_Dhaka;
    eras_Asia_Dili;
    eras_Asia_Dubai;
    eras_Asia_Dushanbe;
    eras_Asia_Famagusta;
    eras_Asia_Gaza;
    eras_Asia_Shanghai;
    eras_Asia_Hebron;
    eras_Asia_Ho_Chi_Minh;
    eras_Asia_Hong_Kong;
    eras_Asia_Hovd;
    eras_Asia_Irkutsk;
    eras_Europe_Istanbul;
    eras_Asia_Jakarta;
    eras_Asia_Jayapura;
    eras_Asia_Jerusalem;
    eras_Asia_Kabul;
    eras_Asia_Kamchatka;
    eras_Asia_Karachi;
    eras_Asia_Urumqi;
    eras_Asia_Kathmandu;
    eras_Asia_Kathmandu;
    eras_Asia_Khandyga;
    eras_Asia_Kolkata;
    eras_Asia_Krasnoyarsk;
    eras_Asia_Kuala_Lumpur;
    eras_Asia_Kuching;
    eras_Asia_Riyadh;
    eras_Asia_Macau;
    eras_Asia_Macau;
    eras_Asia_Magadan;
    eras_Asia_Makassar;
    eras_Asia_Manila;
    eras_Asia_Dubai;
    eras_Asia_Nicosia;
    eras_Asia_Novokuznetsk;
    eras_Asia_Novosibirsk;
    eras_Asia_Omsk;
    eras_Asia_Oral;
    eras_Asia_Bangkok;
    eras_Asia_Pontianak;
    eras_Asia_Pyongyang;
    eras_Asia_Qatar;
    eras_Asia_Qyzylorda;
    eras_Asia_Yangon;
    eras_Asia_Riyadh;
    eras_Asia_Ho_Chi_Minh;
    eras_Asia_Sakhalin;
    eras_Asia_Samarkand;
    eras_Asia_Seoul;
    eras_Asia_Shanghai;
    eras_Asia_Singapore;
    eras_Asia_Srednekolymsk;
    eras_Asia_Taipei;
    eras_Asia_Tashkent;
    eras_Asia_Tbilisi;
    eras_Asia_Tehran;
    eras_Asia_Jerusalem;
    eras_Asia_Thimphu;
    eras_Asia_Thimphu;
    eras_Asia_Tokyo;
    eras_Asia_Tomsk;
    eras_Asia_Makassar;
    eras_Asia_Ulaanbaatar;
    eras_Asia_Ulaanbaatar;
    eras_Asia_Urumqi;
    eras_Asia_Ust_Nera;
    eras_Asia_Bangkok;
    eras_Asia_Vladivostok;
    eras_Asia_Yakutsk;
    eras_Asia_Yangon;
    eras_Asia_Yekaterinburg;
    eras_Asia_Yerevan;
    eras_Atlantic_Azores;
    eras_Atlantic_Bermuda;
    eras_Atlantic_Canary;
    eras_Atlantic_Cape_Verde;
    eras_Atlantic_Faroe;
    eras_Atlantic_Faroe;
    eras_Europe_Oslo;
    eras_Atlantic_Madeira;
    eras_Atlantic_Reykjavik;
    eras_Atlantic_South_Georgia;
    eras_Africa_Abidjan;
    eras_Atlantic_Stanley;
    eras_Australia_Sydney;
    eras_Australia_Adelaide;
    eras_Australia_Brisbane;
    eras_Australia_Broken_Hill;
    eras_Australia_Sydney;
    eras_Australia_Currie;
    eras_Australia_Darwin;
    eras_Australia_Eucla;
    eras_Australia_Hobart;
    eras_Australia_Lord_Howe;
    eras_Australia_Lindeman;
    eras_Australia_Lord_Howe;
    eras_Australia_Melbourne;
    eras_Australia_Sydney;
    eras_Australia_Darwin;
    eras_Australia_Perth;
    eras_Australia_Brisbane;
    eras_Australia_Adelaide;
    eras_Australia_Sydney;
    eras_Australia_Hobart;
    eras_Australia_Melbourne;
    eras_Australia_Perth;
    eras_Australia_Broken_Hill;
    eras_America_Rio_Branco;
    eras_America_Noronha;
    eras_America_Sao_Paulo;
    eras_America_Manaus;
    eras_CET;
    eras_CST6CDT;
    eras_America_Halifax;
    eras_America_Winnipeg;
    eras_America_Regina;
    eras_America_Toronto;
    eras_America_Edmonton;
    eras_America_St_Johns;
    eras_America_Vancouver;
    eras_America_Regina;
    eras_America_Whitehorse;
    eras_America_Santiago;
    eras_Pacific_Easter;
    eras_America_Havana;
    eras_EET;
    eras_EST;
    eras_EST5EDT;
    eras_Africa_Cairo;
    eras_Europe_Dublin;
    eras_Etc_GMT;
    eras_Etc_GMT;
    eras_Etc_GMT1;
    eras_Etc_GMT10;
    eras_Etc_GMT11;
    eras_Etc_GMT12;
    eras_Etc_GMT2;
    eras_Etc_GMT3;
    eras_Etc_GMT4;
    eras_Etc_GMT5;
    eras_Etc_GMT6;
    eras_Etc_GMT7;
    eras_Etc_GMT8;
    eras_Etc_GMT9;
    eras_Etc_GMT;
    eras_Etc_GMT_1;
    eras_Etc_GMT_10;
    eras_Etc_GMT_11;
    eras_Etc_GMT_12;
    eras_Etc_GMT_13;
    eras_Etc_GMT_14;
    eras_Etc_GMT_2;
    eras_Etc_GMT_3;
    eras_Etc_GMT_4;
    eras_Etc_GMT_5;
    eras_Etc_GMT_6;
    eras_Etc_GMT_7;
    eras_Etc_GMT_8;
    eras_Etc_GMT_9;
    eras_Etc_GMT;
    eras_Etc_GMT;
    eras_Etc_UCT;
    eras_Etc_UTC;
    eras_Etc_UTC;
    eras_Etc_UTC;
    eras_Europe_Amsterdam;
    eras_Europe_Andorra;
    eras_Europe_Astrakhan;
    eras_Europe_Athens;
    eras_Europe_London;
    eras_Europe_Belgrade;
    eras_Europe_Berlin;
    eras_Europe_Prague;
    eras_Europe_Brussels;
    eras_Europe_Bucharest;
    eras_Europe_Budapest;
    eras_Europe_Zurich;
    eras_Europe_Chisinau;
    eras_Europe_Copenhagen;
    eras_Europe_Dublin;
    eras_Europe_Gibraltar;
    eras_Europe_London;
    eras_Europe_Helsinki;
    eras_Europe_London;
    eras_Europe_Istanbul;
    eras_Europe_London;
    eras_Europe_Kaliningrad;
    eras_Europe_Kiev;
    eras_Europe_Kirov;
    eras_Europe_Lisbon;
    eras_Europe_Belgrade;
    eras_Europe_London;
    eras_Europe_Luxembourg;
    eras_Europe_Madrid;
    eras_Europe_Malta;
    eras_Europe_Helsinki;
    eras_Europe_Minsk;
    eras_Europe_Monaco;
    eras_Europe_Moscow;
    eras_Asia_Nicosia;
    eras_Europe_Oslo;
    eras_Europe_Paris;
    eras_Europe_Belgrade;
    eras_Europe_Prague;
    eras_Europe_Riga;
    eras_Europe_Rome;
    eras_Europe_Samara;
    eras_Europe_Rome;
    eras_Europe_Belgrade;
    eras_Europe_Saratov;
    eras_Europe_Simferopol;
    eras_Europe_Belgrade;
    eras_Europe_Sofia;
    eras_Europe_Stockholm;
    eras_Europe_Tallinn;
    eras_Europe_Tirane;
    eras_Europe_Chisinau;
    eras_Europe_Ulyanovsk;
    eras_Europe_Uzhgorod;
    eras_Europe_Zurich;
    eras_Europe_Rome;
    eras_Europe_Vienna;
    eras_Europe_Vilnius;
    eras_Europe_Volgograd;
    eras_Europe_Warsaw;
    eras_Europe_Belgrade;
    eras_Europe_Zaporozhye;
    eras_Europe_Zurich;
    eras_Europe_London;
    eras_Europe_London;
    eras_Etc_GMT;
    eras_Etc_GMT;
    eras_Etc_GMT;
    eras_Etc_GMT;
    eras_Etc_GMT;
    eras_HST;
    eras_Asia_Hong_Kong;
    eras_Atlantic_Reykjavik;
    eras_Africa_Nairobi;
    eras_Indian_Chagos;
    eras_Indian_Christmas;
    eras_Indian_Cocos;
    eras_Africa_Nairobi;
    eras_Indian_Kerguelen;
    eras_Indian_Mahe;
    eras_Indian_Maldives;
    eras_Indian_Mauritius;
    eras_Africa_Nairobi;
    eras_Indian_Reunion;
    eras_Asia_Tehran;
    eras_Asia_Jerusalem;
    eras_America_Jamaica;
    eras_Asia_Tokyo;
    eras_Pacific_Kwajalein;
    eras_Africa_Tripoli;
    eras_MET;
    eras_MST;
    eras_MST7MDT;
    eras_America_Tijuana;
    eras_America_Mazatlan;
    eras_America_Mexico_City;
    eras_Pacific_Auckland;
    eras_Pacific_Chatham;
    eras_America_Denver;
    eras_Asia_Shanghai;
    eras_PST8PDT;
    eras_Pacific_Apia;
    eras_Pacific_Auckland;
    eras_Pacific_Bougainville;
    eras_Pacific_Chatham;
    eras_Pacific_Chuuk;
    eras_Pacific_Easter;
    eras_Pacific_Efate;
    eras_Pacific_Enderbury;
    eras_Pacific_Fakaofo;
    eras_Pacific_Fiji;
    eras_Pacific_Funafuti;
    eras_Pacific_Galapagos;
    eras_Pacific_Gambier;
    eras_Pacific_Guadalcanal;
    eras_Pacific_Guam;
    eras_Pacific_Honolulu;
    eras_Pacific_Honolulu;
    eras_Pacific_Kiritimati;
    eras_Pacific_Kosrae;
    eras_Pacific_Kwajalein;
    eras_Pacific_Majuro;
    eras_Pacific_Marquesas;
    eras_Pacific_Pago_Pago;
    eras_Pacific_Nauru;
    eras_Pacific_Niue;
    eras_Pacific_Norfolk;
    eras_Pacific_Noumea;
    eras_Pacific_Pago_Pago;
    eras_Pacific_Palau;
    eras_Pacific_Pitcairn;
    eras_Pacific_Pohnpei;
    eras_Pacific_Pohnpei;
    eras_Pacific_Port_Moresby;
    eras_Pacific_Rarotonga;
    eras_Pacific_Guam;
    eras_Pacific_Pago_Pago;
    eras_Pacific_Tahiti;
    eras_Pacific_Tarawa;
    eras_Pacific_Tongatapu;
    eras_Pacific_Chuuk;
    eras_Pacific_Wake;
    eras_Pacific_Wallis;
    eras_Pacific_Chuuk;
    eras_Europe_Warsaw;
    eras_Europe_Lisbon;
    eras_Asia_Taipei;
    eras_Asia_Seoul;
    eras_Asia_Singapore;
    eras_Europe_Istanbul;
    eras_Etc_UCT;
    eras_America_Anchorage;
    eras_America_Adak;
    eras_America_Phoenix;
    eras_America_Chicago;
    eras_America_Indiana_Indianapolis;
    eras_America_New_York;
    eras_Pacific_Honolulu;
    eras_America_Indiana_Knox;
    eras_America_Detroit;
    eras_America_Denver;
    eras_America_Los_Angeles;
    eras_America_Los_Angeles;
    eras_Pacific_Pago_Pago;
    eras_Etc_UTC;
    eras_Etc_UTC;
    eras_Europe_Moscow;
    eras_WET;
    eras_Etc_UTC ].

(** ** The names of the times *)

(** The abbreviation of the era with the letters of the rule for "%s". *)
Fixpoint expand (era rule : string) : string :=
  match era with
  | String "%"%char (String "s"%char rest) => rule ++ rest
  | String a rest => String a (expand rest rule)
  | EmptyString => ""
  end.

Definition zone_name (e : lc_timezone_era) (r : lc_timezone_rule) : string :=
  if negb (bool_decide (abbreviation_dst e = "")) then (if (save r =? 0)%Z then abbreviation_std e else abbreviation_dst e)
  else if bool_decide (37 ∈ chars (abbreviation_std e)) then expand (abbreviation_std e) (abbreviation r)
  else if (3 <=? String.length (abbreviation r))%nat then abbreviation r else abbreviation_std e.

Definition name_okb (e : lc_timezone_era) (r : lc_timezone_rule) : bool :=
  bool_decide (fst <$> compute_zone_abbreviation true [] e r = Some (zone_name e r)).

Definition names_okb (tz : lc_timezone) : bool := forallb (fun e => forallb (name_okb e) (nomatch :: rules e)) tz.

(** The pool only saves memory. *)
Lemma pool_irrelevant e r n table : fst <$> compute_zone_abbreviation true [] e r = Some n ->
  exists table', compute_zone_abbreviation true table e r = Some (n, table').
Proof.
  unfold compute_zone_abbreviation, compute_combined_zone_abbreviation.
  destruct (negb _); [intros [= <-]; by eauto|]. destruct (bool_decide (37 ∈ _)); [|intros [= <-]; by eauto].
  destruct (Printf.vsnprintf_l _ _ _ _ _ _) as [[b k]|]; [|done]. cbn [mbind option_bind]. rewrite bool_decide_false by (by intros ?%elem_of_nil).
  cbn. intros [= <-]. case_bool_decide; by eauto.
Qed.

(** The zones without their repetitions, and which of them each zone is. *)
Definition zones : list lc_timezone :=
  [ eras_Africa_Abidjan;
    eras_Africa_Accra;
    eras_Africa_Nairobi;
    eras_Africa_Algiers;
    eras_Africa_Lagos;
    eras_Africa_Bissau;
    eras_Africa_Maputo;
    eras_Africa_Cairo;
    eras_Africa_Casablanca;
    eras_Africa_Ceuta;
    eras_Africa_El_Aaiun;
    eras_Africa_Johannesburg;
    eras_Africa_Khartoum;
    eras_Africa_Monrovia;
    eras_Africa_Ndjamena;
    eras_Africa_Tripoli;
    eras_Africa_Tunis;
    eras_Africa_Windhoek;
    eras_America_Adak;
    eras_America_Anchorage;
    eras_America_Port_of_Spain;
    eras_America_Araguaina;
    eras_America_Argentina_Buenos_Aires;
    eras_America_Argentina_Catamarca;
    eras_America_Argentina_Cordoba;
    eras_America_Argentina_Jujuy;
    eras_America_Argentina_La_Rioja;
    eras_America_Argentina_Mendoza;
    eras_America_Argentina_Rio_Gallegos;
    eras_America_Argentina_Salta;
    eras_America_Argentina_San_Juan;
    eras_America_Argentina_San_Luis;
    eras_America_Argentina_Tucuman;
    eras_America_Argentina_Ushuaia;
    eras_America_Curacao;
    eras_America_Asuncion;
    eras_America_Atikokan;
    eras_America_Bahia;
    eras_America_Bahia_Banderas;
    eras_America_Barbados;
    eras_America_Belem;
    eras_America_Belize;
    eras_America_Blanc_Sablon;
    eras_America_Boa_Vista;
    eras_America_Bogota;
    eras_America_Boise;
    eras_America_Cambridge_Bay;
    eras_America_Campo_Grande;
    eras_America_Cancun;
    eras_America_Caracas;
    eras_America_Cayenne;
    eras_America_Panama;
    eras_America_Chicago;
    eras_America_Chihuahua;
    eras_America_Costa_Rica;
    eras_America_Creston;
    eras_America_Cuiaba;
    eras_America_Danmarkshavn;
    eras_America_Dawson;
    eras_America_Dawson_Creek;
    eras_America_Denver;
    eras_America_Detroit;
    eras_America_Edmonton;
    eras_America_Eirunepe;
    eras_America_El_Salvador;
    eras_America_Tijuana;
    eras_America_Fort_Nelson;
    eras_America_Indiana_Indianapolis;
    eras_America_Fortaleza;
    eras_America_Glace_Bay;
    eras_America_Godthab;
    eras_America_Goose_Bay;
    eras_America_Grand_Turk;
    eras_America_Guatemala;
    eras_America_Guayaquil;
    eras_America_Guyana;
    eras_America_Halifax;
    eras_America_Havana;
    eras_America_Hermosillo;
    eras_America_Indiana_Knox;
    eras_America_Indiana_Marengo;
    eras_America_Indiana_Petersburg;
    eras_America_Indiana_Tell_City;
    eras_America_Indiana_Vevay;
    eras_America_Indiana_Vincennes;
    eras_America_Indiana_Winamac;
    eras_America_Inuvik;
    eras_America_Iqaluit;
    eras_America_Jamaica;
    eras_America_Juneau;
    eras_America_Kentucky_Louisville;
    eras_America_Kentucky_Monticello;
    eras_America_La_Paz;
    eras_America_Lima;
    eras_America_Los_Angeles;
    eras_America_Maceio;
    eras_America_Managua;
    eras_America_Manaus;
    eras_America_Martinique;
    eras_America_Matamoros;
    eras_America_Mazatlan;
    eras_America_Menominee;
    eras_America_Merida;
    eras_America_Metlakatla;
    eras_America_Mexico_City;
    eras_America_Miquelon;
    eras_America_Moncton;
    eras_America_Monterrey;
    eras_America_Montevideo;
    eras_America_Toronto;
    eras_America_Nassau;
    eras_America_New_York;
    eras_America_Nipigon;
    eras_America_Nome;
    eras_America_Noronha;
    eras_America_North_Dakota_Beulah;
    eras_America_North_Dakota_Center;
    eras_America_North_Dakota_New_Salem;
    eras_America_Ojinaga;
    eras_America_Pangnirtung;
    eras_America_Paramaribo;
    eras_America_Phoenix;
    eras_America_Port_au_Prince;
    eras_America_Rio_Branco;
    eras_America_Porto_Velho;
    eras_America_Puerto_Rico;
    eras_America_Punta_Arenas;
    eras_America_Rainy_River;
    eras_America_Rankin_Inlet;
    eras_America_Recife;
    eras_America_Regina;
    eras_America_Resolute;
    eras_America_Santarem;
    eras_America_Santiago;
    eras_America_Santo_Domingo;
    eras_America_Sao_Paulo;
    eras_America_Scoresbysund;
    eras_America_Sitka;
    eras_America_St_Johns;
    eras_America_Swift_Current;
    eras_America_Tegucigalpa;
    eras_America_Thule;
    eras_America_Thunder_Bay;
    eras_America_Vancouver;
    eras_America_Whitehorse;
    eras_America_Winnipeg;
    eras_America_Yakutat;
    eras_America_Yellowknife;
    eras_Antarctica_Casey;
    eras_Antarctica_Davis;
    eras_Antarctica_DumontDUrville;
    eras_Antarctica_Macquarie;
    eras_Antarctica_Mawson;
    eras_Pacific_Auckland;
    eras_Antarctica_Palmer;
    eras_Antarctica_Rothera;
    eras_Antarctica_Syowa;
    eras_Antarctica_Troll;
    eras_Antarctica_Vostok;
    eras_Europe_Oslo;
    eras_Asia_Riyadh;
    eras_Asia_Almaty;
    eras_Asia_Amman;
    eras_Asia_Anadyr;
    eras_Asia_Aqtau;
    eras_Asia_Aqtobe;
    eras_Asia_Ashgabat;
    eras_Asia_Atyrau;
    eras_Asia_Baghdad;
    eras_Asia_Qatar;
    eras_Asia_Baku;
    eras_Asia_Bangkok;
    eras_Asia_Barnaul;
    eras_Asia_Beirut;
    eras_Asia_Bishkek;
    eras_Asia_Brunei;
    eras_Asia_Kolkata;
    eras_Asia_Chita;
    eras_Asia_Choibalsan;
    eras_Asia_Shanghai;
    eras_Asia_Colombo;
    eras_Asia_Dhaka;
    eras_Asia_Damascus;
    eras_Asia_Dili;
    eras_Asia_Dubai;
    eras_Asia_Dushanbe;
    eras_Asia_Famagusta;
    eras_Asia_Gaza;
    eras_Asia_Hebron;
    eras_Asia_Ho_Chi_Minh;
    eras_Asia_Hong_Kong;
    eras_Asia_Hovd;
    eras_Asia_Irkutsk;
    eras_Europe_Istanbul;
    eras_Asia_Jakarta;
    eras_Asia_Jayapura;
    eras_Asia_Jerusalem;
    eras_Asia_Kabul;
    eras_Asia_Kamchatka;
    eras_Asia_Karachi;
    eras_Asia_Urumqi;
    eras_Asia_Kathmandu;
    eras_Asia_Khandyga;
    eras_Asia_Krasnoyarsk;
    eras_Asia_Kuala_Lumpur;
    eras_Asia_Kuching;
    eras_Asia_Macau;
    eras_Asia_Magadan;
    eras_Asia_Makassar;
    eras_Asia_Manila;
    eras_Asia_Nicosia;
    eras_Asia_Novokuznetsk;
    eras_Asia_Novosibirsk;
    eras_Asia_Omsk;
    eras_Asia_Oral;
    eras_Asia_Pontianak;
    eras_Asia_Pyongyang;
    eras_Asia_Qyzylorda;
    eras_Asia_Yangon;
    eras_Asia_Sakhalin;
    eras_Asia_Samarkand;
    eras_Asia_Seoul;
    eras_Asia_Singapore;
    eras_Asia_Srednekolymsk;
    eras_Asia_Taipei;
    eras_Asia_Tashkent;
    eras_Asia_Tbilisi;
    eras_Asia_Tehran;
    eras_Asia_Thimphu;
    eras_Asia_Tokyo;
    eras_Asia_Tomsk;
    eras_Asia_Ulaanbaatar;
    eras_Asia_Ust_Nera;
    eras_Asia_Vladivostok;
    eras_Asia_Yakutsk;
    eras_Asia_Yekaterinburg;
    eras_Asia_Yerevan;
    eras_Atlantic_Azores;
    eras_Atlantic_Bermuda;
    eras_Atlantic_Canary;
    eras_Atlantic_Cape_Verde;
    eras_Atlantic_Faroe;
    eras_Atlantic_Madeira;
    eras_Atlantic_Reykjavik;
    eras_Atlantic_South_Georgia;
    eras_Atlantic_Stanley;
    eras_Australia_Sydney;
    eras_Australia_Adelaide;
    eras_Australia_Brisbane;
    eras_Australia_Broken_Hill;
    eras_Australia_Currie;
    eras_Australia_Darwin;
    eras_Australia_Eucla;
    eras_Australia_Hobart;
    eras_Australia_Lord_Howe;
    eras_Australia_Lindeman;
    eras_Australia_Melbourne;
    eras_Australia_Perth;
    eras_CET;
    eras_CST6CDT;
    eras_Pacific_Easter;
    eras_EET;
    eras_EST;
    eras_EST5EDT;
    eras_Europe_Dublin;
    eras_Etc_GMT;
    eras_Etc_GMT1;
    eras_Etc_GMT10;
    eras_Etc_GMT11;
    eras_Etc_GMT12;
    eras_Etc_GMT2;
    eras_Etc_GMT3;
    eras_Etc_GMT4;
    eras_Etc_GMT5;
    eras_Etc_GMT6;
    eras_Etc_GMT7;
    eras_Etc_GMT8;
    eras_Etc_GMT9;
    eras_Etc_GMT_1;
    eras_Etc_GMT_10;
    eras_Etc_GMT_11;
    eras_Etc_GMT_12;
    eras_Etc_GMT_13;
    eras_Etc_GMT_14;
    eras_Etc_GMT_2;
    eras_Etc_GMT_3;
    eras_Etc_GMT_4;
    eras_Etc_GMT_5;
    eras_Etc_GMT_6;
    eras_Etc_GMT_7;
    eras_Etc_GMT_8;
    eras_Etc_GMT_9;
    eras_Etc_UCT;
    eras_Etc_UTC;
    eras_Europe_Amsterdam;
    eras_Europe_Andorra;
    eras_Europe_Astrakhan;
    eras_Europe_Athens;
    eras_Europe_London;
    eras_Europe_Belgrade;
    eras_Europe_Berlin;
    eras_Europe_Prague;
    eras_Europe_Brussels;
    eras_Europe_Bucharest;
    eras_Europe_Budapest;
    eras_Europe_Zurich;
    eras_Europe_Chisinau;
    eras_Europe_Copenhagen;
    eras_Europe_Gibraltar;
    eras_Europe_Helsinki;
    eras_Europe_Kaliningrad;
    eras_Europe_Kiev;
    eras_Europe_Kirov;
    eras_Europe_Lisbon;
    eras_Europe_Luxembourg;
    eras_Europe_Madrid;
    eras_Europe_Malta;
    eras_Europe_Minsk;
    eras_Europe_Monaco;
    eras_Europe_Moscow;
    eras_Europe_Paris;
    eras_Europe_Riga;
    eras_Europe_Rome;
    eras_Europe_Samara;
    eras_Europe_Saratov;
    eras_Europe_Simferopol;
    eras_Europe_Sofia;
    eras_Europe_Stockholm;
    eras_Europe_Tallinn;
    eras_Europe_Tirane;
    eras_Europe_Ulyanovsk;
    eras_Europe_Uzhgorod;
    eras_Europe_Vienna;
    eras_Europe_Vilnius;
    eras_Europe_Volgograd;
    eras_Europe_Warsaw;
    eras_Europe_Zaporozhye;
    eras_HST;
    eras_Indian_Chagos;
    eras_Indian_Christmas;
    eras_Indian_Cocos;
    eras_Indian_Kerguelen;
    eras_Indian_Mahe;
    eras_Indian_Maldives;
    eras_Indian_Mauritius;
    eras_Indian_Reunion;
    eras_Pacific_Kwajalein;
    eras_MET;
    eras_MST;
    eras_MST7MDT;
    eras_Pacific_Chatham;
    eras_PST8PDT;
    eras_Pacific_Apia;
    eras_Pacific_Bougainville;
    eras_Pacific_Chuuk;
    eras_Pacific_Efate;
    eras_Pacific_Enderbury;
    eras_Pacific_Fakaofo;
    eras_Pacific_Fiji;
    eras_Pacific_Funafuti;
    eras_Pacific_Galapagos;
    eras_Pacific_Gambier;
    eras_Pacific_Guadalcanal;
    eras_Pacific_Guam;
    eras_Pacific_Honolulu;
    eras_Pacific_Kiritimati;
    eras_Pacific_Kosrae;
    eras_Pacific_Majuro;
    eras_Pacific_Marquesas;
    eras_Pacific_Pago_Pago;
    eras_Pacific_Nauru;
    eras_Pacific_Niue;
    eras_Pacific_Norfolk;
    eras_Pacific_Noumea;
    eras_Pacific_Palau;
    eras_Pacific_Pitcairn;
    eras_Pacific_Pohnpei;
    eras_Pacific_Port_Moresby;
    eras_Pacific_Rarotonga;
    eras_Pacific_Tahiti;
    eras_Pacific_Tarawa;
    eras_Pacific_Tongatapu;
    eras_Pacific_Wake;
    eras_Pacific_Wallis;
    eras_WET ].

Definition zone_index : list nat := [0; 1; 2; 3; 2; 2; 0; 4; 0; 5; 6; 4; 6; 7; 8; 9; 0; 0; 2; 2; 4; 10; 0; 6; 6; 11; 12; 2; 12; 6; 4; 4; 4; 0; 4; 6; 6; 4; 6; 11; 11;
  2; 13; 2; 14; 4; 0; 0; 4; 0; 0; 15; 16; 17; 18; 19; 20; 20; 21; 22; 23; 23; 24; 25; 26; 27; 28; 29; 30; 31; 32; 33; 34; 35; 36;
  18; 37; 38; 39; 40; 41; 42; 43; 44; 45; 22; 46; 47; 48; 49; 23; 50; 51; 52; 53; 36; 24; 54; 55; 56; 34; 57; 58; 59; 60; 61; 20;
  62; 63; 64; 65; 66; 67; 68; 69; 70; 71; 72; 20; 20; 73; 74; 75; 76; 77; 78; 67; 79; 80; 81; 82; 83; 84; 85; 67; 86; 87; 88; 25;
  89; 90; 91; 79; 34; 92; 93; 94; 90; 34; 95; 96; 97; 20; 98; 99; 100; 27; 101; 102; 103; 104; 105; 106; 107; 108; 109; 20; 110;
  111; 112; 113; 114; 115; 116; 117; 118; 51; 119; 120; 121; 122; 20; 123; 124; 125; 126; 127; 128; 129; 130; 131; 123; 24; 65; 132;
  133; 134; 135; 136; 60; 137; 20; 138; 20; 20; 20; 20; 139; 140; 141; 142; 65; 109; 20; 143; 20; 144; 145; 146; 147; 148; 149; 150;
  151; 152; 153; 154; 155; 153; 156; 157; 158; 159; 160; 161; 162; 163; 164; 165; 166; 166; 167; 168; 169; 170; 171; 172; 173; 174;
  175; 176; 177; 178; 179; 179; 180; 181; 182; 181; 183; 184; 185; 186; 187; 179; 188; 189; 190; 191; 192; 193; 194; 195; 196; 197;
  198; 199; 200; 201; 201; 202; 176; 203; 204; 205; 160; 206; 206; 207; 208; 209; 184; 210; 211; 212; 213; 214; 171; 215; 216; 169;
  217; 218; 160; 189; 219; 220; 221; 179; 222; 223; 224; 225; 226; 227; 196; 228; 228; 229; 230; 208; 231; 231; 200; 232; 171; 233;
  234; 218; 235; 236; 237; 238; 239; 240; 241; 241; 159; 242; 243; 244; 0; 245; 246; 247; 248; 249; 246; 250; 251; 252; 253; 254;
  255; 254; 256; 246; 251; 257; 248; 247; 246; 253; 256; 257; 249; 123; 114; 135; 97; 258; 259; 76; 145; 130; 109; 62; 138; 143;
  130; 144; 133; 260; 77; 261; 262; 263; 7; 264; 265; 265; 266; 267; 268; 269; 270; 271; 272; 273; 274; 275; 276; 277; 265; 278;
  279; 280; 281; 282; 283; 284; 285; 286; 287; 288; 289; 290; 291; 265; 265; 292; 293; 293; 293; 294; 295; 296; 297; 298; 299; 300;
  301; 302; 303; 304; 305; 306; 307; 264; 308; 298; 309; 298; 193; 298; 310; 311; 312; 313; 299; 298; 314; 315; 316; 309; 317; 318;
  319; 210; 159; 320; 299; 301; 321; 322; 323; 322; 299; 324; 325; 299; 326; 327; 328; 329; 306; 330; 331; 305; 322; 332; 333; 334;
  335; 299; 336; 305; 298; 298; 265; 265; 265; 265; 265; 337; 190; 243; 2; 338; 339; 340; 2; 341; 342; 343; 344; 2; 345; 227; 196;
  88; 229; 346; 15; 347; 348; 349; 65; 100; 104; 153; 350; 60; 179; 351; 352; 153; 353; 350; 354; 260; 355; 356; 357; 358; 359; 360;
  361; 362; 363; 364; 364; 365; 366; 346; 367; 368; 369; 370; 371; 372; 373; 369; 374; 375; 376; 376; 377; 378; 363; 369; 379; 380;
  381; 354; 382; 383; 354; 335; 313; 224; 221; 222; 193; 292; 19; 18; 121; 52; 67; 111; 364; 79; 61; 60; 94; 94; 369; 293; 293; 319;
  384; 293]%nat.

Lemma timezones_index : timezones = (fun i => nth i zones []) <$> zone_index.
Proof. reflexivity. Qed.

Lemma zones_okb : forallb (fun tz => zone_okb tz && names_okb tz) zones = true.
Proof. vm_compute. reflexivity. Qed.

Lemma index_okb : forallb (fun i => (i <? length zones)%nat) zone_index = true.
Proof. vm_compute. reflexivity. Qed.

Lemma zone_checked tz : tz ∈ timezones -> zone_okb tz = true /\ names_okb tz = true.
Proof.
  rewrite timezones_index. intros (i & -> & Hi)%list_elem_of_fmap. pose proof index_okb as Hx. pose proof zones_okb as H.
  apply forallb_Forall_iff in Hx. rewrite list.Forall_forall in Hx. specialize (Hx i Hi). cbn beta in Hx. apply Nat.ltb_lt in Hx.
  rewrite forallb_forall in H. apply andb_true_iff. apply H. by apply nth_In.
Qed.

Lemma names_okb_ok tz e r : names_okb tz = true -> e ∈ tz -> r ∈ nomatch :: rules e ->
  fst <$> compute_zone_abbreviation true [] e r = Some (zone_name e r).
Proof.
  unfold names_okb. intros H He Hr. apply forallb_Forall_iff in H. rewrite list.Forall_forall in H. specialize (H e He). cbn beta in H.
  apply forallb_Forall_iff in H. rewrite list.Forall_forall in H. specialize (H r Hr). cbn beta in H. by apply bool_decide_eq_true in H.
Qed.

Lemma names_distinct : NoDup timezone_names.
Proof. apply (bool_decide_unpack _). vm_compute. exact I. Qed.

Lemma zone_wellformed tz : tz ∈ timezones -> zone_ok tz.
Proof.
  intros Htz. destruct (zone_checked tz Htz) as [H1 H2]. apply zone_okb_ok; [done|].
  apply list.Forall_forall. intros e He r Hr. pose proof (names_okb_ok tz e r H2 He Hr) as H.
  destruct (compute_zone_abbreviation true [] e r); [by eauto|done].
Qed.

(** C30: every zone of the database is well-formed: the rules of each era are sorted and in range, never more than
    eight are in force, their days exist in their months; there is one zone for each name and the names are
    distinct; and the name of a time is the abbreviation of the table with the letters of the rule inserted. *)
Theorem tzdata_wellformed :
  Forall zone_ok timezones /\ length timezone_names = length timezones /\ NoDup timezone_names /\
  forall tz e r table, tz ∈ timezones -> e ∈ tz -> r ∈ nomatch :: rules e ->
    exists table', compute_zone_abbreviation true table e r = Some (zone_name e r, table').
Proof.
  split; [|split; [done|split; [apply names_distinct|]]].
  - apply list.Forall_forall. apply zone_wellformed.
  - intros tz e r table Htz He Hr. destruct (zone_checked tz Htz) as [_ H]. apply pool_irrelevant. by apply (names_okb_ok tz).
Qed.

(** ** A summer day in Amsterdam *)

Lemma amsterdam_ok : zone_ok eras_Europe_Amsterdam.
Proof. apply zone_wellformed, (list_elem_of_lookup_2 timezones (Z.to_nat 424)). reflexivity. Qed.

Lemma summer_representable x : Z.abs (x - 1497000000) <= 150000 -> representable x.
Proof. intros. apply representable_small. lia. Qed.

Lemma eu_rules_ok : rules_ok rules_EU.
Proof. split; [repeat constructor; cbn; try lia; by vm_compute|apply sortedb_ok; reflexivity|reflexivity]. Qed.

Lemma ruleset_of_year_witness : exists l m d, ruleset_fill_with_year rules_EU 117 nomatch nomatch = Some (l, m, d) /\ StronglySorted before l /\
  latest_before 117 rules_EU m.
Proof.
  destruct (ruleset_of_year rules_EU 117 nomatch nomatch eu_rules_ok) as (l & m & d & E & _ & Hs & [[Hm _]|(Hf & _)]).
  - by eauto 10.
  - exfalso. inversion Hf as [|? ? H _]. cbn in H. lia.
Defined.

Definition summer_rule : lc_timezone_rule := Rule 81 255 2 0 25 60 TIMEBASE_UTC 6 "S".
Definition summer_start : tm := Tm 0 0 2 26 2 117 0 84 0 0 None 0.

Lemma rule_comparison_witness : rule_is_greater_than summer_rule summer_start (-3601) = Some true.
Proof.
  rewrite (rule_comparison summer_rule summer_start (-3601)); [vm_compute; reflexivity|..].
  - by apply rule_okb_ok.
  - vm_compute. congruence.
  - split; [cbn; lia..|]. exists 17251. split; [|reflexivity]. split; [vm_compute; intuition congruence..|]. exists 59, 31. vm_compute. intuition congruence.
  - vm_compute. congruence.
Defined.

Lemma localtime_l_correct_witness : exists b table', localtime_l true [] (Timespec 1497000000 5) eras_Europe_Amsterdam = Some (0, Some b, table') /\
  canonical b /\ clock b = 1497000000 + tm_gmtoff b.
Proof.
  destruct (localtime_l_correct true [] (Timespec 1497000000 5) eras_Europe_Amsterdam amsterdam_ok summer_representable)
    as (_ & _ & _ & b & _ & table' & _ & _ & E & Hb & Hc & _).
  exists b, table'. split; [exact E|]. split; [exact Hb|exact Hc].
Defined.

Lemma mktime_localtime_l_witness : exists b table', localtime_l true [] (Timespec 1497000000 5) eras_Europe_Amsterdam = Some (0, Some b, table') /\
  tm_isdst b = 1 /\ mktime_l b eras_Europe_Amsterdam = Some (Timespec 1497000000 5).
Proof.
  destruct (localtime_l true [] (Timespec 1497000000 5) eras_Europe_Amsterdam) as [[[e [b|]] table']|] eqn:E; [|by vm_compute in E..].
  assert (e = 0 /\ tm_isdst b = 1 /\ tm_gmtoff b = 7200 /\ tm_year b = 117) as (-> & Hi & Hg & Hy)
    by (revert E; vm_compute; intros [= <- <- _]; done).
  exists b, table'. split; [done|]. split; [done|].
  apply (mktime_localtime_l true [] table' (Timespec 1497000000 5) eras_Europe_Amsterdam b amsterdam_ok summer_representable); [|done|].
  - unfold settled. cbn [removelast eras_Europe_Amsterdam]. repeat constructor; vm_compute; congruence.
  - intros _. exists (default (Era [] 0 0 0 "" "") (last eras_Europe_Amsterdam)). split; [vm_compute; reflexivity|]. split.
    + intros r Hr. rewrite Hg. revert r Hr. apply list.Forall_forall. repeat constructor; vm_compute; congruence.
    + intros t Ht. rewrite Hy. revert Ht. vm_compute. intros [= <-]. reflexivity.
Defined.
