(* ===== verification/SingleByte.v ===== *)
(** * Single-byte character sets

    Sources: src/libc/locale/ctype/asciiplus.h, ibm037.h, iso_8859_1.h, iso_8859_15.h.

    The sixteen supersets of ASCII with one table for each direction, the encoder's found
    by binary search; IBM037; ISO-8859-1; and ISO-8859-15.  The theorem is that all but
    the last satisfy the laws of a character set ([CtypeLaws]), so that everything that
    is proved of the conversion functions for lawful character sets holds in locales with
    these.  The decoder of ISO-8859-15 reads outside its table for most bytes. *)

From S2P Require Import Prelude Charset StrToInt.
From stdpp Require Import list sorting.

#[local] Open Scope Z_scope.
#[local] Ltac Zify.zify_post_hook ::= Z.to_euclidean_division_equations.

(** ** Binary search

    The loop of the encoders: it looks for the last entry that is not larger. *)

Fixpoint search (fuel : nat) (tab : list Z) (c32 min max : Z) : option Z :=
  match fuel with
  | O => None
  | S fuel =>
      let mid := (min + max + 1) / 2 in
      x ← tab !! Z.to_nat mid;
      let '(min, max) := if c32 <? x then (min, mid - 1) else (mid, max) in
      if min <? max then search fuel tab c32 min max else Some min
  end.

(** ** Supersets of ASCII: asciiplus.h *)

Record asciiplus := Asciiplus { mbtoc16 : list Z; c16tomb_c16 : list Z; c16tomb_b : list Z }.

Definition asciiplus_mbtoc32 (ap : asciiplus) (s : list Z) (n : Z) (ps : mbstate) : option (mbresult * mbstate) :=
  if n <? 1 then Some (MbIncomplete, ps)
  else
    b ← head s;
    let ch := u8 b in
    if ch <? 128 then Some (MbChar 1 ch, mbstate_init)
    else
      c16 ← mbtoc16 ap !! Z.to_nat (ch - 128);
      Some (if c16 =? 0 then (MbError, ps) else (MbChar 1 c16, mbstate_init)).

(** The search takes seven steps in a table of 128 entries. *)
Definition asciiplus_encode (ap : asciiplus) (c32 : Z) : option (option (list Z)) :=
  if c32 <? 128 then Some (Some [c32])
  else
    i ← search 7 (c16tomb_c16 ap) c32 0 127;
    x ← c16tomb_c16 ap !! Z.to_nat i;
    if negb (c32 =? x) then Some None else b ← c16tomb_b ap !! Z.to_nat i; Some (Some [b]).

(** [asciiplus_encode] is defined for every table of the right size. *)
Definition asciiplus_c32tomb (ap : asciiplus) (c32 : Z) : option (list Z) := mjoin (asciiplus_encode ap c32).

Definition asciiplus_ctype (ap : asciiplus) : lc_ctype := LcCtype (asciiplus_mbtoc32 ap) 1 (asciiplus_c32tomb ap).

Definition asciiplus_iso_8859_2 : asciiplus := Asciiplus
    [0x80; 0x81; 0x82; 0x83; 0x84; 0x85; 0x86; 0x87; 0x88; 0x89; 0x8a; 0x8b; 0x8c; 0x8d; 0x8e; 0x8f; 0x90; 0x91; 0x92; 0x93;
     0x94; 0x95; 0x96; 0x97; 0x98; 0x99; 0x9a; 0x9b; 0x9c; 0x9d; 0x9e; 0x9f; 0xa0; 0x104; 0x2d8; 0x141; 0xa4; 0x13d; 0x15a;
     0xa7; 0xa8; 0x160; 0x15e; 0x164; 0x179; 0xad; 0x17d; 0x17b; 0xb0; 0x105; 0x2db; 0x142; 0xb4; 0x13e; 0x15b; 0x2c7; 0xb8;
     0x161; 0x15f; 0x165; 0x17a; 0x2dd; 0x17e; 0x17c; 0x154; 0xc1; 0xc2; 0x102; 0xc4; 0x139; 0x106; 0xc7; 0x10c; 0xc9; 0x118;
     0xcb; 0x11a; 0xcd; 0xce; 0x10e; 0x110; 0x143; 0x147; 0xd3; 0xd4; 0x150; 0xd6; 0xd7; 0x158; 0x16e; 0xda; 0x170; 0xdc;
     0xdd; 0x162; 0xdf; 0x155; 0xe1; 0xe2; 0x103; 0xe4; 0x13a; 0x107; 0xe7; 0x10d; 0xe9; 0x119; 0xeb; 0x11b; 0xed; 0xee;
     0x10f; 0x111; 0x144; 0x148; 0xf3; 0xf4; 0x151; 0xf6; 0xf7; 0x159; 0x16f; 0xfa; 0x171; 0xfc; 0xfd; 0x163; 0x2d9]
    [0x80; 0x81; 0x82; 0x83; 0x84; 0x85; 0x86; 0x87; 0x88; 0x89; 0x8a; 0x8b; 0x8c; 0x8d; 0x8e; 0x8f; 0x90; 0x91; 0x92; 0x93;
     0x94; 0x95; 0x96; 0x97; 0x98; 0x99; 0x9a; 0x9b; 0x9c; 0x9d; 0x9e; 0x9f; 0xa0; 0xa4; 0xa7; 0xa8; 0xad; 0xb0; 0xb4; 0xb8;
     0xc1; 0xc2; 0xc4; 0xc7; 0xc9; 0xcb; 0xcd; 0xce; 0xd3; 0xd4; 0xd6; 0xd7; 0xda; 0xdc; 0xdd; 0xdf; 0xe1; 0xe2; 0xe4; 0xe7;
     0xe9; 0xeb; 0xed; 0xee; 0xf3; 0xf4; 0xf6; 0xf7; 0xfa; 0xfc; 0xfd; 0x102; 0x103; 0x104; 0x105; 0x106; 0x107; 0x10c; 0x10d;
     0x10e; 0x10f; 0x110; 0x111; 0x118; 0x119; 0x11a; 0x11b; 0x139; 0x13a; 0x13d; 0x13e; 0x141; 0x142; 0x143; 0x144; 0x147;
     0x148; 0x150; 0x151; 0x154; 0x155; 0x158; 0x159; 0x15a; 0x15b; 0x15e; 0x15f; 0x160; 0x161; 0x162; 0x163; 0x164; 0x165;
     0x16e; 0x16f; 0x170; 0x171; 0x179; 0x17a; 0x17b; 0x17c; 0x17d; 0x17e; 0x2c7; 0x2d8; 0x2d9; 0x2db; 0x2dd]
    [0x80; 0x81; 0x82; 0x83; 0x84; 0x85; 0x86; 0x87; 0x88; 0x89; 0x8a; 0x8b; 0x8c; 0x8d; 0x8e; 0x8f; 0x90; 0x91; 0x92; 0x93;
     0x94; 0x95; 0x96; 0x97; 0x98; 0x99; 0x9a; 0x9b; 0x9c; 0x9d; 0x9e; 0x9f; 0xa0; 0xa4; 0xa7; 0xa8; 0xad; 0xb0; 0xb4; 0xb8;
     0xc1; 0xc2; 0xc4; 0xc7; 0xc9; 0xcb; 0xcd; 0xce; 0xd3; 0xd4; 0xd6; 0xd7; 0xda; 0xdc; 0xdd; 0xdf; 0xe1; 0xe2; 0xe4; 0xe7;
     0xe9; 0xeb; 0xed; 0xee; 0xf3; 0xf4; 0xf6; 0xf7; 0xfa; 0xfc; 0xfd; 0xc3; 0xe3; 0xa1; 0xb1; 0xc6; 0xe6; 0xc8; 0xe8; 0xcf;
     0xef; 0xd0; 0xf0; 0xca; 0xea; 0xcc; 0xec; 0xc5; 0xe5; 0xa5; 0xb5; 0xa3; 0xb3; 0xd1; 0xf1; 0xd2; 0xf2; 0xd5; 0xf5; 0xc0;
     0xe0; 0xd8; 0xf8; 0xa6; 0xb6; 0xaa; 0xba; 0xa9; 0xb9; 0xde; 0xfe; 0xab; 0xbb; 0xd9; 0xf9; 0xdb; 0xfb; 0xac; 0xbc; 0xaf;
     0xbf; 0xae; 0xbe; 0xb7; 0xa2; 0xff; 0xb2; 0xbd].

Definition asciiplus_iso_8859_5 : asciiplus := Asciiplus
    [0x80; 0x81; 0x82; 0x83; 0x84; 0x85; 0x86; 0x87; 0x88; 0x89; 0x8a; 0x8b; 0x8c; 0x8d; 0x8e; 0x8f; 0x90; 0x91; 0x92; 0x93;
     0x94; 0x95; 0x96; 0x97; 0x98; 0x99; 0x9a; 0x9b; 0x9c; 0x9d; 0x9e; 0x9f; 0xa0; 0x401; 0x402; 0x403; 0x404; 0x405; 0x406;
     0x407; 0x408; 0x409; 0x40a; 0x40b; 0x40c; 0xad; 0x40e; 0x40f; 0x410; 0x411; 0x412; 0x413; 0x414; 0x415; 0x416; 0x417;
     0x418; 0x419; 0x41a; 0x41b; 0x41c; 0x41d; 0x41e; 0x41f; 0x420; 0x421; 0x422; 0x423; 0x424; 0x425; 0x426; 0x427; 0x428;
     0x429; 0x42a; 0x42b; 0x42c; 0x42d; 0x42e; 0x42f; 0x430; 0x431; 0x432; 0x433; 0x434; 0x435; 0x436; 0x437; 0x438; 0x439;
     0x43a; 0x43b; 0x43c; 0x43d; 0x43e; 0x43f; 0x440; 0x441; 0x442; 0x443; 0x444; 0x445; 0x446; 0x447; 0x448; 0x449; 0x44a;
     0x44b; 0x44c; 0x44d; 0x44e; 0x44f; 0x2116; 0x451; 0x452; 0x453; 0x454; 0x455; 0x456; 0x457; 0x458; 0x459; 0x45a; 0x45b;
     0x45c; 0xa7; 0x45e; 0x45f]
    [0x80; 0x81; 0x82; 0x83; 0x84; 0x85; 0x86; 0x87; 0x88; 0x89; 0x8a; 0x8b; 0x8c; 0x8d; 0x8e; 0x8f; 0x90; 0x91; 0x92; 0x93;
     0x94; 0x95; 0x96; 0x97; 0x98; 0x99; 0x9a; 0x9b; 0x9c; 0x9d; 0x9e; 0x9f; 0xa0; 0xa7; 0xad; 0x401; 0x402; 0x403; 0x404;
     0x405; 0x406; 0x407; 0x408; 0x409; 0x40a; 0x40b; 0x40c; 0x40e; 0x40f; 0x410; 0x411; 0x412; 0x413; 0x414; 0x415; 0x416;
     0x417; 0x418; 0x419; 0x41a; 0x41b; 0x41c; 0x41d; 0x41e; 0x41f; 0x420; 0x421; 0x422; 0x423; 0x424; 0x425; 0x426; 0x427;
     0x428; 0x429; 0x42a; 0x42b; 0x42c; 0x42d; 0x42e; 0x42f; 0x430; 0x431; 0x432; 0x433; 0x434; 0x435; 0x436; 0x437; 0x438;
     0x439; 0x43a; 0x43b; 0x43c; 0x43d; 0x43e; 0x43f; 0x440; 0x441; 0x442; 0x443; 0x444; 0x445; 0x446; 0x447; 0x448; 0x449;
     0x44a; 0x44b; 0x44c; 0x44d; 0x44e; 0x44f; 0x451; 0x452; 0x453; 0x454; 0x455; 0x456; 0x457; 0x458; 0x459; 0x45a; 0x45b;
     0x45c; 0x45e; 0x45f; 0x2116]
    [0x80; 0x81; 0x82; 0x83; 0x84; 0x85; 0x86; 0x87; 0x88; 0x89; 0x8a; 0x8b; 0x8c; 0x8d; 0x8e; 0x8f; 0x90; 0x91; 0x92; 0x93;
     0x94; 0x95; 0x96; 0x97; 0x98; 0x99; 0x9a; 0x9b; 0x9c; 0x9d; 0x9e; 0x9f; 0xa0; 0xfd; 0xad; 0xa1; 0xa2; 0xa3; 0xa4; 0xa5;
     0xa6; 0xa7; 0xa8; 0xa9; 0xaa; 0xab; 0xac; 0xae; 0xaf; 0xb0; 0xb1; 0xb2; 0xb3; 0xb4; 0xb5; 0xb6; 0xb7; 0xb8; 0xb9; 0xba;
     0xbb; 0xbc; 0xbd; 0xbe; 0xbf; 0xc0; 0xc1; 0xc2; 0xc3; 0xc4; 0xc5; 0xc6; 0xc7; 0xc8; 0xc9; 0xca; 0xcb; 0xcc; 0xcd; 0xce;
     0xcf; 0xd0; 0xd1; 0xd2; 0xd3; 0xd4; 0xd5; 0xd6; 0xd7; 0xd8; 0xd9; 0xda; 0xdb; 0xdc; 0xdd; 0xde; 0xdf; 0xe0; 0xe1; 0xe2;
     0xe3; 0xe4; 0xe5; 0xe6; 0xe7; 0xe8; 0xe9; 0xea; 0xeb; 0xec; 0xed; 0xee; 0xef; 0xf1; 0xf2; 0xf3; 0xf4; 0xf5; 0xf6; 0xf7;
     0xf8; 0xf9; 0xfa; 0xfb; 0xfc; 0xfe; 0xff; 0xf0].

Definition asciiplus_iso_8859_9 : asciiplus := Asciiplus
    [0x80; 0x81; 0x82; 0x83; 0x84; 0x85; 0x86; 0x87; 0x88; 0x89; 0x8a; 0x8b; 0x8c; 0x8d; 0x8e; 0x8f; 0x90; 0x91; 0x92; 0x93;
     0x94; 0x95; 0x96; 0x97; 0x98; 0x99; 0x9a; 0x9b; 0x9c; 0x9d; 0x9e; 0x9f; 0xa0; 0xa1; 0xa2; 0xa3; 0xa4; 0xa5; 0xa6; 0xa7;
     0xa8; 0xa9; 0xaa; 0xab; 0xac; 0xad; 0xae; 0xaf; 0xb0; 0xb1; 0xb2; 0xb3; 0xb4; 0xb5; 0xb6; 0xb7; 0xb8; 0xb9; 0xba; 0xbb;
     0xbc; 0xbd; 0xbe; 0xbf; 0xc0; 0xc1; 0xc2; 0xc3; 0xc4; 0xc5; 0xc6; 0xc7; 0xc8; 0xc9; 0xca; 0xcb; 0xcc; 0xcd; 0xce; 0xcf;
     0x11e; 0xd1; 0xd2; 0xd3; 0xd4; 0xd5; 0xd6; 0xd7; 0xd8; 0xd9; 0xda; 0xdb; 0xdc; 0x130; 0x15e; 0xdf; 0xe0; 0xe1; 0xe2;
     0xe3; 0xe4; 0xe5; 0xe6; 0xe7; 0xe8; 0xe9; 0xea; 0xeb; 0xec; 0xed; 0xee; 0xef; 0x11f; 0xf1; 0xf2; 0xf3; 0xf4; 0xf5; 0xf6;
     0xf7; 0xf8; 0xf9; 0xfa; 0xfb; 0xfc; 0x131; 0x15f; 0xff]
    [0x80; 0x81; 0x82; 0x83; 0x84; 0x85; 0x86; 0x87; 0x88; 0x89; 0x8a; 0x8b; 0x8c; 0x8d; 0x8e; 0x8f; 0x90; 0x91; 0x92; 0x93;
     0x94; 0x95; 0x96; 0x97; 0x98; 0x99; 0x9a; 0x9b; 0x9c; 0x9d; 0x9e; 0x9f; 0xa0; 0xa1; 0xa2; 0xa3; 0xa4; 0xa5; 0xa6; 0xa7;
     0xa8; 0xa9; 0xaa; 0xab; 0xac; 0xad; 0xae; 0xaf; 0xb0; 0xb1; 0xb2; 0xb3; 0xb4; 0xb5; 0xb6; 0xb7; 0xb8; 0xb9; 0xba; 0xbb;
     0xbc; 0xbd; 0xbe; 0xbf; 0xc0; 0xc1; 0xc2; 0xc3; 0xc4; 0xc5; 0xc6; 0xc7; 0xc8; 0xc9; 0xca; 0xcb; 0xcc; 0xcd; 0xce; 0xcf;
     0xd1; 0xd2; 0xd3; 0xd4; 0xd5; 0xd6; 0xd7; 0xd8; 0xd9; 0xda; 0xdb; 0xdc; 0xdf; 0xe0; 0xe1; 0xe2; 0xe3; 0xe4; 0xe5; 0xe6;
     0xe7; 0xe8; 0xe9; 0xea; 0xeb; 0xec; 0xed; 0xee; 0xef; 0xf1; 0xf2; 0xf3; 0xf4; 0xf5; 0xf6; 0xf7; 0xf8; 0xf9; 0xfa; 0xfb;
     0xfc; 0xff; 0x11e; 0x11f; 0x130; 0x131; 0x15e; 0x15f]
    [0x80; 0x81; 0x82; 0x83; 0x84; 0x85; 0x86; 0x87; 0x88; 0x89; 0x8a; 0x8b; 0x8c; 0x8d; 0x8e; 0x8f; 0x90; 0x91; 0x92; 0x93;
     0x94; 0x95; 0x96; 0x97; 0x98; 0x99; 0x9a; 0x9b; 0x9c; 0x9d; 0x9e; 0x9f; 0xa0; 0xa1; 0xa2; 0xa3; 0xa4; 0xa5; 0xa6; 0xa7;
     0xa8; 0xa9; 0xaa; 0xab; 0xac; 0xad; 0xae; 0xaf; 0xb0; 0xb1; 0xb2; 0xb3; 0xb4; 0xb5; 0xb6; 0xb7; 0xb8; 0xb9; 0xba; 0xbb;
     0xbc; 0xbd; 0xbe; 0xbf; 0xc0; 0xc1; 0xc2; 0xc3; 0xc4; 0xc5; 0xc6; 0xc7; 0xc8; 0xc9; 0xca; 0xcb; 0xcc; 0xcd; 0xce; 0xcf;
     0xd1; 0xd2; 0xd3; 0xd4; 0xd5; 0xd6; 0xd7; 0xd8; 0xd9; 0xda; 0xdb; 0xdc; 0xdf; 0xe0; 0xe1; 0xe2; 0xe3; 0xe4; 0xe5; 0xe6;
     0xe7; 0xe8; 0xe9; 0xea; 0xeb; 0xec; 0xed; 0xee; 0xef; 0xf1; 0xf2; 0xf3; 0xf4; 0xf5; 0xf6; 0xf7; 0xf8; 0xf9; 0xfa; 0xfb;
     0xfc; 0xff; 0xd0; 0xf0; 0xdd; 0xfd; 0xde; 0xfe].

Definition asciiplus_iso_8859_13 : asciiplus := Asciiplus
    [0x80; 0x81; 0x82; 0x83; 0x84; 0x85; 0x86; 0x87; 0x88; 0x89; 0x8a; 0x8b; 0x8c; 0x8d; 0x8e; 0x8f; 0x90; 0x91; 0x92; 0x93;
     0x94; 0x95; 0x96; 0x97; 0x98; 0x99; 0x9a; 0x9b; 0x9c; 0x9d; 0x9e; 0x9f; 0xa0; 0x201d; 0xa2; 0xa3; 0xa4; 0x201e; 0xa6;
     0xa7; 0xd8; 0xa9; 0x156; 0xab; 0xac; 0xad; 0xae; 0xc6; 0xb0; 0xb1; 0xb2; 0xb3; 0x201c; 0xb5; 0xb6; 0xb7; 0xf8; 0xb9;
     0x157; 0xbb; 0xbc; 0xbd; 0xbe; 0xe6; 0x104; 0x12e; 0x100; 0x106; 0xc4; 0xc5; 0x118; 0x112; 0x10c; 0xc9; 0x179; 0x116;
     0x122; 0x136; 0x12a; 0x13b; 0x160; 0x143; 0x145; 0xd3; 0x14c; 0xd5; 0xd6; 0xd7; 0x172; 0x141; 0x15a; 0x16a; 0xdc; 0x17b;
     0x17d; 0xdf; 0x105; 0x12f; 0x101; 0x107; 0xe4; 0xe5; 0x119; 0x113; 0x10d; 0xe9; 0x17a; 0x117; 0x123; 0x137; 0x12b; 0x13c;
     0x161; 0x144; 0x146; 0xf3; 0x14d; 0xf5; 0xf6; 0xf7; 0x173; 0x142; 0x15b; 0x16b; 0xfc; 0x17c; 0x17e; 0x2019]
    [0x80; 0x81; 0x82; 0x83; 0x84; 0x85; 0x86; 0x87; 0x88; 0x89; 0x8a; 0x8b; 0x8c; 0x8d; 0x8e; 0x8f; 0x90; 0x91; 0x92; 0x93;
     0x94; 0x95; 0x96; 0x97; 0x98; 0x99; 0x9a; 0x9b; 0x9c; 0x9d; 0x9e; 0x9f; 0xa0; 0xa2; 0xa3; 0xa4; 0xa6; 0xa7; 0xa9; 0xab;
     0xac; 0xad; 0xae; 0xb0; 0xb1; 0xb2; 0xb3; 0xb5; 0xb6; 0xb7; 0xb9; 0xbb; 0xbc; 0xbd; 0xbe; 0xc4; 0xc5; 0xc6; 0xc9; 0xd3;
     0xd5; 0xd6; 0xd7; 0xd8; 0xdc; 0xdf; 0xe4; 0xe5; 0xe6; 0xe9; 0xf3; 0xf5; 0xf6; 0xf7; 0xf8; 0xfc; 0x100; 0x101; 0x104;
     0x105; 0x106; 0x107; 0x10c; 0x10d; 0x112; 0x113; 0x116; 0x117; 0x118; 0x119; 0x122; 0x123; 0x12a; 0x12b; 0x12e; 0x12f;
     0x136; 0x137; 0x13b; 0x13c; 0x141; 0x142; 0x143; 0x144; 0x145; 0x146; 0x14c; 0x14d; 0x156; 0x157; 0x15a; 0x15b; 0x160;
     0x161; 0x16a; 0x16b; 0x172; 0x173; 0x179; 0x17a; 0x17b; 0x17c; 0x17d; 0x17e; 0x2019; 0x201c; 0x201d; 0x201e]
    [0x80; 0x81; 0x82; 0x83; 0x84; 0x85; 0x86; 0x87; 0x88; 0x89; 0x8a; 0x8b; 0x8c; 0x8d; 0x8e; 0x8f; 0x90; 0x91; 0x92; 0x93;
     0x94; 0x95; 0x96; 0x97; 0x98; 0x99; 0x9a; 0x9b; 0x9c; 0x9d; 0x9e; 0x9f; 0xa0; 0xa2; 0xa3; 0xa4; 0xa6; 0xa7; 0xa9; 0xab;
     0xac; 0xad; 0xae; 0xb0; 0xb1; 0xb2; 0xb3; 0xb5; 0xb6; 0xb7; 0xb9; 0xbb; 0xbc; 0xbd; 0xbe; 0xc4; 0xc5; 0xaf; 0xc9; 0xd3;
     0xd5; 0xd6; 0xd7; 0xa8; 0xdc; 0xdf; 0xe4; 0xe5; 0xbf; 0xe9; 0xf3; 0xf5; 0xf6; 0xf7; 0xb8; 0xfc; 0xc2; 0xe2; 0xc0; 0xe0;
     0xc3; 0xe3; 0xc8; 0xe8; 0xc7; 0xe7; 0xcb; 0xeb; 0xc6; 0xe6; 0xcc; 0xec; 0xce; 0xee; 0xc1; 0xe1; 0xcd; 0xed; 0xcf; 0xef;
     0xd9; 0xf9; 0xd1; 0xf1; 0xd2; 0xf2; 0xd4; 0xf4; 0xaa; 0xba; 0xda; 0xfa; 0xd0; 0xf0; 0xdb; 0xfb; 0xd8; 0xf8; 0xca; 0xea;
     0xdd; 0xfd; 0xde; 0xfe; 0xff; 0xb4; 0xa1; 0xa5].

Definition asciiplus_koi8_r : asciiplus := Asciiplus
    [0x2500; 0x2502; 0x250c; 0x2510; 0x2514; 0x2518; 0x251c; 0x2524; 0x252c; 0x2534; 0x253c; 0x2580; 0x2584; 0x2588; 0x258c;
     0x2590; 0x2591; 0x2592; 0x2593; 0x2320; 0x25a0; 0x2219; 0x221a; 0x2248; 0x2264; 0x2265; 0xa0; 0x2321; 0xb0; 0xb2; 0xb7;
     0xf7; 0x2550; 0x2551; 0x2552; 0x451; 0x2553; 0x2554; 0x2555; 0x2556; 0x2557; 0x2558; 0x2559; 0x255a; 0x255b; 0x255c;
     0x255d; 0x255e; 0x255f; 0x2560; 0x2561; 0x401; 0x2562; 0x2563; 0x2564; 0x2565; 0x2566; 0x2567; 0x2568; 0x2569; 0x256a;
     0x256b; 0x256c; 0xa9; 0x44e; 0x430; 0x431; 0x446; 0x434; 0x435; 0x444; 0x433; 0x445; 0x438; 0x439; 0x43a; 0x43b; 0x43c;
     0x43d; 0x43e; 0x43f; 0x44f; 0x440; 0x441; 0x442; 0x443; 0x436; 0x432; 0x44c; 0x44b; 0x437; 0x448; 0x44d; 0x449; 0x447;
     0x44a; 0x42e; 0x410; 0x411; 0x426; 0x414; 0x415; 0x424; 0x413; 0x425; 0x418; 0x419; 0x41a; 0x41b; 0x41c; 0x41d; 0x41e;
     0x41f; 0x42f; 0x420; 0x421; 0x422; 0x423; 0x416; 0x412; 0x42c; 0x42b; 0x417; 0x428; 0x42d; 0x429; 0x427; 0x42a]
    [0xa0; 0xa9; 0xb0; 0xb2; 0xb7; 0xf7; 0x401; 0x410; 0x411; 0x412; 0x413; 0x414; 0x415; 0x416; 0x417; 0x418; 0x419; 0x41a;
     0x41b; 0x41c; 0x41d; 0x41e; 0x41f; 0x420; 0x421; 0x422; 0x423; 0x424; 0x425; 0x426; 0x427; 0x428; 0x429; 0x42a; 0x42b;
     0x42c; 0x42d; 0x42e; 0x42f; 0x430; 0x431; 0x432; 0x433; 0x434; 0x435; 0x436; 0x437; 0x438; 0x439; 0x43a; 0x43b; 0x43c;
     0x43d; 0x43e; 0x43f; 0x440; 0x441; 0x442; 0x443; 0x444; 0x445; 0x446; 0x447; 0x448; 0x449; 0x44a; 0x44b; 0x44c; 0x44d;
     0x44e; 0x44f; 0x451; 0x2219; 0x221a; 0x2248; 0x2264; 0x2265; 0x2320; 0x2321; 0x2500; 0x2502; 0x250c; 0x2510; 0x2514;
     0x2518; 0x251c; 0x2524; 0x252c; 0x2534; 0x253c; 0x2550; 0x2551; 0x2552; 0x2553; 0x2554; 0x2555; 0x2556; 0x2557; 0x2558;
     0x2559; 0x255a; 0x255b; 0x255c; 0x255d; 0x255e; 0x255f; 0x2560; 0x2561; 0x2562; 0x2563; 0x2564; 0x2565; 0x2566; 0x2567;
     0x2568; 0x2569; 0x256a; 0x256b; 0x256c; 0x2580; 0x2584; 0x2588; 0x258c; 0x2590; 0x2591; 0x2592; 0x2593; 0x25a0]
    [0x9a; 0xbf; 0x9c; 0x9d; 0x9e; 0x9f; 0xb3; 0xe1; 0xe2; 0xf7; 0xe7; 0xe4; 0xe5; 0xf6; 0xfa; 0xe9; 0xea; 0xeb; 0xec; 0xed;
     0xee; 0xef; 0xf0; 0xf2; 0xf3; 0xf4; 0xf5; 0xe6; 0xe8; 0xe3; 0xfe; 0xfb; 0xfd; 0xff; 0xf9; 0xf8; 0xfc; 0xe0; 0xf1; 0xc1;
     0xc2; 0xd7; 0xc7; 0xc4; 0xc5; 0xd6; 0xda; 0xc9; 0xca; 0xcb; 0xcc; 0xcd; 0xce; 0xcf; 0xd0; 0xd2; 0xd3; 0xd4; 0xd5; 0xc6;
     0xc8; 0xc3; 0xde; 0xdb; 0xdd; 0xdf; 0xd9; 0xd8; 0xdc; 0xc0; 0xd1; 0xa3; 0x95; 0x96; 0x97; 0x98; 0x99; 0x93; 0x9b; 0x80;
     0x81; 0x82; 0x83; 0x84; 0x85; 0x86; 0x87; 0x88; 0x89; 0x8a; 0xa0; 0xa1; 0xa2; 0xa4; 0xa5; 0xa6; 0xa7; 0xa8; 0xa9; 0xaa;
     0xab; 0xac; 0xad; 0xae; 0xaf; 0xb0; 0xb1; 0xb2; 0xb4; 0xb5; 0xb6; 0xb7; 0xb8; 0xb9; 0xba; 0xbb; 0xbc; 0xbd; 0xbe; 0x8b;
     0x8c; 0x8d; 0x8e; 0x8f; 0x90; 0x91; 0x92; 0x94].

Definition asciiplus_koi8_u : asciiplus := Asciiplus
    [0x2500; 0x2502; 0x250c; 0x2510; 0x2514; 0x2518; 0x251c; 0x2524; 0x252c; 0x2534; 0x253c; 0x2580; 0x2584; 0x2588; 0x258c;
     0x2590; 0x2591; 0x2592; 0x2593; 0x2320; 0x25a0; 0x2219; 0x221a; 0x2248; 0x2264; 0x2265; 0xa0; 0x2321; 0xb0; 0xb2; 0xb7;
     0xf7; 0x2550; 0x2551; 0x2552; 0x451; 0x454; 0x2554; 0x456; 0x457; 0x2557; 0x2558; 0x2559; 0x255a; 0x255b; 0x491; 0x255d;
     0x255e; 0x255f; 0x2560; 0x2561; 0x401; 0x404; 0x2563; 0x406; 0x407; 0x2566; 0x2567; 0x2568; 0x2569; 0x256a; 0x490;
     0x256c; 0xa9; 0x44e; 0x430; 0x431; 0x446; 0x434; 0x435; 0x444; 0x433; 0x445; 0x438; 0x439; 0x43a; 0x43b; 0x43c; 0x43d;
     0x43e; 0x43f; 0x44f; 0x440; 0x441; 0x442; 0x443; 0x436; 0x432; 0x44c; 0x44b; 0x437; 0x448; 0x44d; 0x449; 0x447; 0x44a;
     0x42e; 0x410; 0x411; 0x426; 0x414; 0x415; 0x424; 0x413; 0x425; 0x418; 0x419; 0x41a; 0x41b; 0x41c; 0x41d; 0x41e; 0x41f;
     0x42f; 0x420; 0x421; 0x422; 0x423; 0x416; 0x412; 0x42c; 0x42b; 0x417; 0x428; 0x42d; 0x429; 0x427; 0x42a]
    [0xa0; 0xa9; 0xb0; 0xb2; 0xb7; 0xf7; 0x401; 0x404; 0x406; 0x407; 0x410; 0x411; 0x412; 0x413; 0x414; 0x415; 0x416; 0x417;
     0x418; 0x419; 0x41a; 0x41b; 0x41c; 0x41d; 0x41e; 0x41f; 0x420; 0x421; 0x422; 0x423; 0x424; 0x425; 0x426; 0x427; 0x428;
     0x429; 0x42a; 0x42b; 0x42c; 0x42d; 0x42e; 0x42f; 0x430; 0x431; 0x432; 0x433; 0x434; 0x435; 0x436; 0x437; 0x438; 0x439;
     0x43a; 0x43b; 0x43c; 0x43d; 0x43e; 0x43f; 0x440; 0x441; 0x442; 0x443; 0x444; 0x445; 0x446; 0x447; 0x448; 0x449; 0x44a;
     0x44b; 0x44c; 0x44d; 0x44e; 0x44f; 0x451; 0x454; 0x456; 0x457; 0x490; 0x491; 0x2219; 0x221a; 0x2248; 0x2264; 0x2265;
     0x2320; 0x2321; 0x2500; 0x2502; 0x250c; 0x2510; 0x2514; 0x2518; 0x251c; 0x2524; 0x252c; 0x2534; 0x253c; 0x2550; 0x2551;
     0x2552; 0x2554; 0x2557; 0x2558; 0x2559; 0x255a; 0x255b; 0x255d; 0x255e; 0x255f; 0x2560; 0x2561; 0x2563; 0x2566; 0x2567;
     0x2568; 0x2569; 0x256a; 0x256c; 0x2580; 0x2584; 0x2588; 0x258c; 0x2590; 0x2591; 0x2592; 0x2593; 0x25a0]
    [0x9a; 0xbf; 0x9c; 0x9d; 0x9e; 0x9f; 0xb3; 0xb4; 0xb6; 0xb7; 0xe1; 0xe2; 0xf7; 0xe7; 0xe4; 0xe5; 0xf6; 0xfa; 0xe9; 0xea;
     0xeb; 0xec; 0xed; 0xee; 0xef; 0xf0; 0xf2; 0xf3; 0xf4; 0xf5; 0xe6; 0xe8; 0xe3; 0xfe; 0xfb; 0xfd; 0xff; 0xf9; 0xf8; 0xfc;
     0xe0; 0xf1; 0xc1; 0xc2; 0xd7; 0xc7; 0xc4; 0xc5; 0xd6; 0xda; 0xc9; 0xca; 0xcb; 0xcc; 0xcd; 0xce; 0xcf; 0xd0; 0xd2; 0xd3;
     0xd4; 0xd5; 0xc6; 0xc8; 0xc3; 0xde; 0xdb; 0xdd; 0xdf; 0xd9; 0xd8; 0xdc; 0xc0; 0xd1; 0xa3; 0xa4; 0xa6; 0xa7; 0xbd; 0xad;
     0x95; 0x96; 0x97; 0x98; 0x99; 0x93; 0x9b; 0x80; 0x81; 0x82; 0x83; 0x84; 0x85; 0x86; 0x87; 0x88; 0x89; 0x8a; 0xa0; 0xa1;
     0xa2; 0xa5; 0xa8; 0xa9; 0xaa; 0xab; 0xac; 0xae; 0xaf; 0xb0; 0xb1; 0xb2; 0xb5; 0xb8; 0xb9; 0xba; 0xbb; 0xbc; 0xbe; 0x8b;
     0x8c; 0x8d; 0x8e; 0x8f; 0x90; 0x91; 0x92; 0x94].

Definition asciiplus_windows_874 : asciiplus := Asciiplus
    [0x20ac; 0; 0; 0; 0; 0x2026; 0; 0; 0; 0; 0; 0; 0; 0; 0; 0; 0; 0x2018; 0x2019; 0x201c; 0x201d; 0x2022; 0x2013; 0x2014; 0;
     0; 0; 0; 0; 0; 0; 0; 0xa0; 0xe01; 0xe02; 0xe03; 0xe04; 0xe05; 0xe06; 0xe07; 0xe08; 0xe09; 0xe0a; 0xe0b; 0xe0c; 0xe0d;
     0xe0e; 0xe0f; 0xe10; 0xe11; 0xe12; 0xe13; 0xe14; 0xe15; 0xe16; 0xe17; 0xe18; 0xe19; 0xe1a; 0xe1b; 0xe1c; 0xe1d; 0xe1e;
     0xe1f; 0xe20; 0xe21; 0xe22; 0xe23; 0xe24; 0xe25; 0xe26; 0xe27; 0xe28; 0xe29; 0xe2a; 0xe2b; 0xe2c; 0xe2d; 0xe2e; 0xe2f;
     0xe30; 0xe31; 0xe32; 0xe33; 0xe34; 0xe35; 0xe36; 0xe37; 0xe38; 0xe39; 0xe3a; 0; 0; 0; 0; 0xe3f; 0xe40; 0xe41; 0xe42;
     0xe43; 0xe44; 0xe45; 0xe46; 0xe47; 0xe48; 0xe49; 0xe4a; 0xe4b; 0xe4c; 0xe4d; 0xe4e; 0xe4f; 0xe50; 0xe51; 0xe52; 0xe53;
     0xe54; 0xe55; 0xe56; 0xe57; 0xe58; 0xe59; 0xe5a; 0xe5b; 0; 0; 0; 0]
    [0; 0; 0; 0; 0; 0; 0; 0; 0; 0; 0; 0; 0; 0; 0; 0; 0; 0; 0; 0; 0; 0; 0; 0; 0; 0; 0; 0; 0; 0; 0; 0xa0; 0xe01; 0xe02; 0xe03;
     0xe04; 0xe05; 0xe06; 0xe07; 0xe08; 0xe09; 0xe0a; 0xe0b; 0xe0c; 0xe0d; 0xe0e; 0xe0f; 0xe10; 0xe11; 0xe12; 0xe13; 0xe14;
     0xe15; 0xe16; 0xe17; 0xe18; 0xe19; 0xe1a; 0xe1b; 0xe1c; 0xe1d; 0xe1e; 0xe1f; 0xe20; 0xe21; 0xe22; 0xe23; 0xe24; 0xe25;
     0xe26; 0xe27; 0xe28; 0xe29; 0xe2a; 0xe2b; 0xe2c; 0xe2d; 0xe2e; 0xe2f; 0xe30; 0xe31; 0xe32; 0xe33; 0xe34; 0xe35; 0xe36;
     0xe37; 0xe38; 0xe39; 0xe3a; 0xe3f; 0xe40; 0xe41; 0xe42; 0xe43; 0xe44; 0xe45; 0xe46; 0xe47; 0xe48; 0xe49; 0xe4a; 0xe4b;
     0xe4c; 0xe4d; 0xe4e; 0xe4f; 0xe50; 0xe51; 0xe52; 0xe53; 0xe54; 0xe55; 0xe56; 0xe57; 0xe58; 0xe59; 0xe5a; 0xe5b; 0x2013;
     0x2014; 0x2018; 0x2019; 0x201c; 0x201d; 0x2022; 0x2026; 0x20ac]
    [0x81; 0x82; 0x83; 0x84; 0x86; 0x87; 0x88; 0x89; 0x8a; 0x8b; 0x8c; 0x8d; 0x8e; 0x8f; 0x90; 0x98; 0x99; 0x9a; 0x9b; 0x9c;
     0x9d; 0x9e; 0x9f; 0xdb; 0xdc; 0xdd; 0xde; 0xfc; 0xfd; 0xfe; 0xff; 0xa0; 0xa1; 0xa2; 0xa3; 0xa4; 0xa5; 0xa6; 0xa7; 0xa8;
     0xa9; 0xaa; 0xab; 0xac; 0xad; 0xae; 0xaf; 0xb0; 0xb1; 0xb2; 0xb3; 0xb4; 0xb5; 0xb6; 0xb7; 0xb8; 0xb9; 0xba; 0xbb; 0xbc;
     0xbd; 0xbe; 0xbf; 0xc0; 0xc1; 0xc2; 0xc3; 0xc4; 0xc5; 0xc6; 0xc7; 0xc8; 0xc9; 0xca; 0xcb; 0xcc; 0xcd; 0xce; 0xcf; 0xd0;
     0xd1; 0xd2; 0xd3; 0xd4; 0xd5; 0xd6; 0xd7; 0xd8; 0xd9; 0xda; 0xdf; 0xe0; 0xe1; 0xe2; 0xe3; 0xe4; 0xe5; 0xe6; 0xe7; 0xe8;
     0xe9; 0xea; 0xeb; 0xec; 0xed; 0xee; 0xef; 0xf0; 0xf1; 0xf2; 0xf3; 0xf4; 0xf5; 0xf6; 0xf7; 0xf8; 0xf9; 0xfa; 0xfb; 0x96;
     0x97; 0x91; 0x92; 0x93; 0x94; 0x95; 0x85; 0x80].

Definition asciiplus_windows_1250 : asciiplus := Asciiplus
    [0x20ac; 0; 0x201a; 0; 0x201e; 0x2026; 0x2020; 0x2021; 0; 0x2030; 0x160; 0x2039; 0x15a; 0x164; 0x17d; 0x179; 0; 0x2018;
     0x2019; 0x201c; 0x201d; 0x2022; 0x2013; 0x2014; 0; 0x2122; 0x161; 0x203a; 0x15b; 0x165; 0x17e; 0x17a; 0xa0; 0x2c7; 0x2d8;
     0x141; 0xa4; 0x104; 0xa6; 0xa7; 0xa8; 0xa9; 0x15e; 0xab; 0xac; 0xad; 0xae; 0x17b; 0xb0; 0xb1; 0x2db; 0x142; 0xb4; 0xb5;
     0xb6; 0xb7; 0xb8; 0x105; 0x15f; 0xbb; 0x13d; 0x2dd; 0x13e; 0x17c; 0x154; 0xc1; 0xc2; 0x102; 0xc4; 0x139; 0x106; 0xc7;
     0x10c; 0xc9; 0x118; 0xcb; 0x11a; 0xcd; 0xce; 0x10e; 0x110; 0x143; 0x147; 0xd3; 0xd4; 0x150; 0xd6; 0xd7; 0x158; 0x16e;
     0xda; 0x170; 0xdc; 0xdd; 0x162; 0xdf; 0x155; 0xe1; 0xe2; 0x103; 0xe4; 0x13a; 0x107; 0xe7; 0x10d; 0xe9; 0x119; 0xeb;
     0x11b; 0xed; 0xee; 0x10f; 0x111; 0x144; 0x148; 0xf3; 0xf4; 0x151; 0xf6; 0xf7; 0x159; 0x16f; 0xfa; 0x171; 0xfc; 0xfd;
     0x163; 0x2d9]
    [0; 0; 0; 0; 0; 0xa0; 0xa4; 0xa6; 0xa7; 0xa8; 0xa9; 0xab; 0xac; 0xad; 0xae; 0xb0; 0xb1; 0xb4; 0xb5; 0xb6; 0xb7; 0xb8;
     0xbb; 0xc1; 0xc2; 0xc4; 0xc7; 0xc9; 0xcb; 0xcd; 0xce; 0xd3; 0xd4; 0xd6; 0xd7; 0xda; 0xdc; 0xdd; 0xdf; 0xe1; 0xe2; 0xe4;
     0xe7; 0xe9; 0xeb; 0xed; 0xee; 0xf3; 0xf4; 0xf6; 0xf7; 0xfa; 0xfc; 0xfd; 0x102; 0x103; 0x104; 0x105; 0x106; 0x107; 0x10c;
     0x10d; 0x10e; 0x10f; 0x110; 0x111; 0x118; 0x119; 0x11a; 0x11b; 0x139; 0x13a; 0x13d; 0x13e; 0x141; 0x142; 0x143; 0x144;
     0x147; 0x148; 0x150; 0x151; 0x154; 0x155; 0x158; 0x159; 0x15a; 0x15b; 0x15e; 0x15f; 0x160; 0x161; 0x162; 0x163; 0x164;
     0x165; 0x16e; 0x16f; 0x170; 0x171; 0x179; 0x17a; 0x17b; 0x17c; 0x17d; 0x17e; 0x2c7; 0x2d8; 0x2d9; 0x2db; 0x2dd; 0x2013;
     0x2014; 0x2018; 0x2019; 0x201a; 0x201c; 0x201d; 0x201e; 0x2020; 0x2021; 0x2022; 0x2026; 0x2030; 0x2039; 0x203a; 0x20ac;
     0x2122]
    [0x81; 0x83; 0x88; 0x90; 0x98; 0xa0; 0xa4; 0xa6; 0xa7; 0xa8; 0xa9; 0xab; 0xac; 0xad; 0xae; 0xb0; 0xb1; 0xb4; 0xb5; 0xb6;
     0xb7; 0xb8; 0xbb; 0xc1; 0xc2; 0xc4; 0xc7; 0xc9; 0xcb; 0xcd; 0xce; 0xd3; 0xd4; 0xd6; 0xd7; 0xda; 0xdc; 0xdd; 0xdf; 0xe1;
     0xe2; 0xe4; 0xe7; 0xe9; 0xeb; 0xed; 0xee; 0xf3; 0xf4; 0xf6; 0xf7; 0xfa; 0xfc; 0xfd; 0xc3; 0xe3; 0xa5; 0xb9; 0xc6; 0xe6;
     0xc8; 0xe8; 0xcf; 0xef; 0xd0; 0xf0; 0xca; 0xea; 0xcc; 0xec; 0xc5; 0xe5; 0xbc; 0xbe; 0xa3; 0xb3; 0xd1; 0xf1; 0xd2; 0xf2;
     0xd5; 0xf5; 0xc0; 0xe0; 0xd8; 0xf8; 0x8c; 0x9c; 0xaa; 0xba; 0x8a; 0x9a; 0xde; 0xfe; 0x8d; 0x9d; 0xd9; 0xf9; 0xdb; 0xfb;
     0x8f; 0x9f; 0xaf; 0xbf; 0x8e; 0x9e; 0xa1; 0xa2; 0xff; 0xb2; 0xbd; 0x96; 0x97; 0x91; 0x92; 0x82; 0x93; 0x94; 0x84; 0x86;
     0x87; 0x95; 0x85; 0x89; 0x8b; 0x9b; 0x80; 0x99].

Definition asciiplus_windows_1251 : asciiplus := Asciiplus
    [0x402; 0x403; 0x201a; 0x453; 0x201e; 0x2026; 0x2020; 0x2021; 0x20ac; 0x2030; 0x409; 0x2039; 0x40a; 0x40c; 0x40b; 0x40f;
     0x452; 0x2018; 0x2019; 0x201c; 0x201d; 0x2022; 0x2013; 0x2014; 0; 0x2122; 0x459; 0x203a; 0x45a; 0x45c; 0x45b; 0x45f;
     0xa0; 0x40e; 0x45e; 0x408; 0xa4; 0x490; 0xa6; 0xa7; 0x401; 0xa9; 0x404; 0xab; 0xac; 0xad; 0xae; 0x407; 0xb0; 0xb1; 0x406;
     0x456; 0x491; 0xb5; 0xb6; 0xb7; 0x451; 0x2116; 0x454; 0xbb; 0x458; 0x405; 0x455; 0x457; 0x410; 0x411; 0x412; 0x413;
     0x414; 0x415; 0x416; 0x417; 0x418; 0x419; 0x41a; 0x41b; 0x41c; 0x41d; 0x41e; 0x41f; 0x420; 0x421; 0x422; 0x423; 0x424;
     0x425; 0x426; 0x427; 0x428; 0x429; 0x42a; 0x42b; 0x42c; 0x42d; 0x42e; 0x42f; 0x430; 0x431; 0x432; 0x433; 0x434; 0x435;
     0x436; 0x437; 0x438; 0x439; 0x43a; 0x43b; 0x43c; 0x43d; 0x43e; 0x43f; 0x440; 0x441; 0x442; 0x443; 0x444; 0x445; 0x446;
     0x447; 0x448; 0x449; 0x44a; 0x44b; 0x44c; 0x44d; 0x44e; 0x44f]
    [0; 0xa0; 0xa4; 0xa6; 0xa7; 0xa9; 0xab; 0xac; 0xad; 0xae; 0xb0; 0xb1; 0xb5; 0xb6; 0xb7; 0xbb; 0x401; 0x402; 0x403; 0x404;
     0x405; 0x406; 0x407; 0x408; 0x409; 0x40a; 0x40b; 0x40c; 0x40e; 0x40f; 0x410; 0x411; 0x412; 0x413; 0x414; 0x415; 0x416;
     0x417; 0x418; 0x419; 0x41a; 0x41b; 0x41c; 0x41d; 0x41e; 0x41f; 0x420; 0x421; 0x422; 0x423; 0x424; 0x425; 0x426; 0x427;
     0x428; 0x429; 0x42a; 0x42b; 0x42c; 0x42d; 0x42e; 0x42f; 0x430; 0x431; 0x432; 0x433; 0x434; 0x435; 0x436; 0x437; 0x438;
     0x439; 0x43a; 0x43b; 0x43c; 0x43d; 0x43e; 0x43f; 0x440; 0x441; 0x442; 0x443; 0x444; 0x445; 0x446; 0x447; 0x448; 0x449;
     0x44a; 0x44b; 0x44c; 0x44d; 0x44e; 0x44f; 0x451; 0x452; 0x453; 0x454; 0x455; 0x456; 0x457; 0x458; 0x459; 0x45a; 0x45b;
     0x45c; 0x45e; 0x45f; 0x490; 0x491; 0x2013; 0x2014; 0x2018; 0x2019; 0x201a; 0x201c; 0x201d; 0x201e; 0x2020; 0x2021;
     0x2022; 0x2026; 0x2030; 0x2039; 0x203a; 0x20ac; 0x2116; 0x2122]
    [0x98; 0xa0; 0xa4; 0xa6; 0xa7; 0xa9; 0xab; 0xac; 0xad; 0xae; 0xb0; 0xb1; 0xb5; 0xb6; 0xb7; 0xbb; 0xa8; 0x80; 0x81; 0xaa;
     0xbd; 0xb2; 0xaf; 0xa3; 0x8a; 0x8c; 0x8e; 0x8d; 0xa1; 0x8f; 0xc0; 0xc1; 0xc2; 0xc3; 0xc4; 0xc5; 0xc6; 0xc7; 0xc8; 0xc9;
     0xca; 0xcb; 0xcc; 0xcd; 0xce; 0xcf; 0xd0; 0xd1; 0xd2; 0xd3; 0xd4; 0xd5; 0xd6; 0xd7; 0xd8; 0xd9; 0xda; 0xdb; 0xdc; 0xdd;
     0xde; 0xdf; 0xe0; 0xe1; 0xe2; 0xe3; 0xe4; 0xe5; 0xe6; 0xe7; 0xe8; 0xe9; 0xea; 0xeb; 0xec; 0xed; 0xee; 0xef; 0xf0; 0xf1;
     0xf2; 0xf3; 0xf4; 0xf5; 0xf6; 0xf7; 0xf8; 0xf9; 0xfa; 0xfb; 0xfc; 0xfd; 0xfe; 0xff; 0xb8; 0x90; 0x83; 0xba; 0xbe; 0xb3;
     0xbf; 0xbc; 0x9a; 0x9c; 0x9e; 0x9d; 0xa2; 0x9f; 0xa5; 0xb4; 0x96; 0x97; 0x91; 0x92; 0x82; 0x93; 0x94; 0x84; 0x86; 0x87;
     0x95; 0x85; 0x89; 0x8b; 0x9b; 0x88; 0xb9; 0x99].

Definition asciiplus_windows_1252 : asciiplus := Asciiplus
    [0x20ac; 0; 0x201a; 0x192; 0x201e; 0x2026; 0x2020; 0x2021; 0x2c6; 0x2030; 0x160; 0x2039; 0x152; 0; 0x17d; 0; 0; 0x2018;
     0x2019; 0x201c; 0x201d; 0x2022; 0x2013; 0x2014; 0x2dc; 0x2122; 0x161; 0x203a; 0x153; 0; 0x17e; 0x178; 0xa0; 0xa1; 0xa2;
     0xa3; 0xa4; 0xa5; 0xa6; 0xa7; 0xa8; 0xa9; 0xaa; 0xab; 0xac; 0xad; 0xae; 0xaf; 0xb0; 0xb1; 0xb2; 0xb3; 0xb4; 0xb5; 0xb6;
     0xb7; 0xb8; 0xb9; 0xba; 0xbb; 0xbc; 0xbd; 0xbe; 0xbf; 0xc0; 0xc1; 0xc2; 0xc3; 0xc4; 0xc5; 0xc6; 0xc7; 0xc8; 0xc9; 0xca;
     0xcb; 0xcc; 0xcd; 0xce; 0xcf; 0xd0; 0xd1; 0xd2; 0xd3; 0xd4; 0xd5; 0xd6; 0xd7; 0xd8; 0xd9; 0xda; 0xdb; 0xdc; 0xdd; 0xde;
     0xdf; 0xe0; 0xe1; 0xe2; 0xe3; 0xe4; 0xe5; 0xe6; 0xe7; 0xe8; 0xe9; 0xea; 0xeb; 0xec; 0xed; 0xee; 0xef; 0xf0; 0xf1; 0xf2;
     0xf3; 0xf4; 0xf5; 0xf6; 0xf7; 0xf8; 0xf9; 0xfa; 0xfb; 0xfc; 0xfd; 0xfe; 0xff]
    [0; 0; 0; 0; 0; 0xa0; 0xa1; 0xa2; 0xa3; 0xa4; 0xa5; 0xa6; 0xa7; 0xa8; 0xa9; 0xaa; 0xab; 0xac; 0xad; 0xae; 0xaf; 0xb0;
     0xb1; 0xb2; 0xb3; 0xb4; 0xb5; 0xb6; 0xb7; 0xb8; 0xb9; 0xba; 0xbb; 0xbc; 0xbd; 0xbe; 0xbf; 0xc0; 0xc1; 0xc2; 0xc3; 0xc4;
     0xc5; 0xc6; 0xc7; 0xc8; 0xc9; 0xca; 0xcb; 0xcc; 0xcd; 0xce; 0xcf; 0xd0; 0xd1; 0xd2; 0xd3; 0xd4; 0xd5; 0xd6; 0xd7; 0xd8;
     0xd9; 0xda; 0xdb; 0xdc; 0xdd; 0xde; 0xdf; 0xe0; 0xe1; 0xe2; 0xe3; 0xe4; 0xe5; 0xe6; 0xe7; 0xe8; 0xe9; 0xea; 0xeb; 0xec;
     0xed; 0xee; 0xef; 0xf0; 0xf1; 0xf2; 0xf3; 0xf4; 0xf5; 0xf6; 0xf7; 0xf8; 0xf9; 0xfa; 0xfb; 0xfc; 0xfd; 0xfe; 0xff; 0x152;
     0x153; 0x160; 0x161; 0x178; 0x17d; 0x17e; 0x192; 0x2c6; 0x2dc; 0x2013; 0x2014; 0x2018; 0x2019; 0x201a; 0x201c; 0x201d;
     0x201e; 0x2020; 0x2021; 0x2022; 0x2026; 0x2030; 0x2039; 0x203a; 0x20ac; 0x2122]
    [0x81; 0x8d; 0x8f; 0x90; 0x9d; 0xa0; 0xa1; 0xa2; 0xa3; 0xa4; 0xa5; 0xa6; 0xa7; 0xa8; 0xa9; 0xaa; 0xab; 0xac; 0xad; 0xae;
     0xaf; 0xb0; 0xb1; 0xb2; 0xb3; 0xb4; 0xb5; 0xb6; 0xb7; 0xb8; 0xb9; 0xba; 0xbb; 0xbc; 0xbd; 0xbe; 0xbf; 0xc0; 0xc1; 0xc2;
     0xc3; 0xc4; 0xc5; 0xc6; 0xc7; 0xc8; 0xc9; 0xca; 0xcb; 0xcc; 0xcd; 0xce; 0xcf; 0xd0; 0xd1; 0xd2; 0xd3; 0xd4; 0xd5; 0xd6;
     0xd7; 0xd8; 0xd9; 0xda; 0xdb; 0xdc; 0xdd; 0xde; 0xdf; 0xe0; 0xe1; 0xe2; 0xe3; 0xe4; 0xe5; 0xe6; 0xe7; 0xe8; 0xe9; 0xea;
     0xeb; 0xec; 0xed; 0xee; 0xef; 0xf0; 0xf1; 0xf2; 0xf3; 0xf4; 0xf5; 0xf6; 0xf7; 0xf8; 0xf9; 0xfa; 0xfb; 0xfc; 0xfd; 0xfe;
     0xff; 0x8c; 0x9c; 0x8a; 0x9a; 0x9f; 0x8e; 0x9e; 0x83; 0x88; 0x98; 0x96; 0x97; 0x91; 0x92; 0x82; 0x93; 0x94; 0x84; 0x86;
     0x87; 0x95; 0x85; 0x89; 0x8b; 0x9b; 0x80; 0x99].

Definition asciiplus_windows_1253 : asciiplus := Asciiplus
    [0x20ac; 0; 0x201a; 0x192; 0x201e; 0x2026; 0x2020; 0x2021; 0; 0x2030; 0; 0x2039; 0; 0; 0; 0; 0; 0x2018; 0x2019; 0x201c;
     0x201d; 0x2022; 0x2013; 0x2014; 0; 0x2122; 0; 0x203a; 0; 0; 0; 0; 0xa0; 0x385; 0x386; 0xa3; 0xa4; 0xa5; 0xa6; 0xa7; 0xa8;
     0xa9; 0; 0xab; 0xac; 0xad; 0xae; 0x2015; 0xb0; 0xb1; 0xb2; 0xb3; 0x384; 0xb5; 0xb6; 0xb7; 0x388; 0x389; 0x38a; 0xbb;
     0x38c; 0xbd; 0x38e; 0x38f; 0x390; 0x391; 0x392; 0x393; 0x394; 0x395; 0x396; 0x397; 0x398; 0x399; 0x39a; 0x39b; 0x39c;
     0x39d; 0x39e; 0x39f; 0x3a0; 0x3a1; 0; 0x3a3; 0x3a4; 0x3a5; 0x3a6; 0x3a7; 0x3a8; 0x3a9; 0x3aa; 0x3ab; 0x3ac; 0x3ad; 0x3ae;
     0x3af; 0x3b0; 0x3b1; 0x3b2; 0x3b3; 0x3b4; 0x3b5; 0x3b6; 0x3b7; 0x3b8; 0x3b9; 0x3ba; 0x3bb; 0x3bc; 0x3bd; 0x3be; 0x3bf;
     0x3c0; 0x3c1; 0x3c2; 0x3c3; 0x3c4; 0x3c5; 0x3c6; 0x3c7; 0x3c8; 0x3c9; 0x3ca; 0x3cb; 0x3cc; 0x3cd; 0x3ce; 0]
    [0; 0; 0; 0; 0; 0; 0; 0; 0; 0; 0; 0; 0; 0; 0; 0; 0; 0xa0; 0xa3; 0xa4; 0xa5; 0xa6; 0xa7; 0xa8; 0xa9; 0xab; 0xac; 0xad;
     0xae; 0xb0; 0xb1; 0xb2; 0xb3; 0xb5; 0xb6; 0xb7; 0xbb; 0xbd; 0x192; 0x384; 0x385; 0x386; 0x388; 0x389; 0x38a; 0x38c;
     0x38e; 0x38f; 0x390; 0x391; 0x392; 0x393; 0x394; 0x395; 0x396; 0x397; 0x398; 0x399; 0x39a; 0x39b; 0x39c; 0x39d; 0x39e;
     0x39f; 0x3a0; 0x3a1; 0x3a3; 0x3a4; 0x3a5; 0x3a6; 0x3a7; 0x3a8; 0x3a9; 0x3aa; 0x3ab; 0x3ac; 0x3ad; 0x3ae; 0x3af; 0x3b0;
     0x3b1; 0x3b2; 0x3b3; 0x3b4; 0x3b5; 0x3b6; 0x3b7; 0x3b8; 0x3b9; 0x3ba; 0x3bb; 0x3bc; 0x3bd; 0x3be; 0x3bf; 0x3c0; 0x3c1;
     0x3c2; 0x3c3; 0x3c4; 0x3c5; 0x3c6; 0x3c7; 0x3c8; 0x3c9; 0x3ca; 0x3cb; 0x3cc; 0x3cd; 0x3ce; 0x2013; 0x2014; 0x2015;
     0x2018; 0x2019; 0x201a; 0x201c; 0x201d; 0x201e; 0x2020; 0x2021; 0x2022; 0x2026; 0x2030; 0x2039; 0x203a; 0x20ac; 0x2122]
    [0x81; 0x88; 0x8a; 0x8c; 0x8d; 0x8e; 0x8f; 0x90; 0x98; 0x9a; 0x9c; 0x9d; 0x9e; 0x9f; 0xaa; 0xd2; 0xff; 0xa0; 0xa3; 0xa4;
     0xa5; 0xa6; 0xa7; 0xa8; 0xa9; 0xab; 0xac; 0xad; 0xae; 0xb0; 0xb1; 0xb2; 0xb3; 0xb5; 0xb6; 0xb7; 0xbb; 0xbd; 0x83; 0xb4;
     0xa1; 0xa2; 0xb8; 0xb9; 0xba; 0xbc; 0xbe; 0xbf; 0xc0; 0xc1; 0xc2; 0xc3; 0xc4; 0xc5; 0xc6; 0xc7; 0xc8; 0xc9; 0xca; 0xcb;
     0xcc; 0xcd; 0xce; 0xcf; 0xd0; 0xd1; 0xd3; 0xd4; 0xd5; 0xd6; 0xd7; 0xd8; 0xd9; 0xda; 0xdb; 0xdc; 0xdd; 0xde; 0xdf; 0xe0;
     0xe1; 0xe2; 0xe3; 0xe4; 0xe5; 0xe6; 0xe7; 0xe8; 0xe9; 0xea; 0xeb; 0xec; 0xed; 0xee; 0xef; 0xf0; 0xf1; 0xf2; 0xf3; 0xf4;
     0xf5; 0xf6; 0xf7; 0xf8; 0xf9; 0xfa; 0xfb; 0xfc; 0xfd; 0xfe; 0x96; 0x97; 0xaf; 0x91; 0x92; 0x82; 0x93; 0x94; 0x84; 0x86;
     0x87; 0x95; 0x85; 0x89; 0x8b; 0x9b; 0x80; 0x99].

Definition asciiplus_windows_1254 : asciiplus := Asciiplus
    [0x20ac; 0; 0x201a; 0x192; 0x201e; 0x2026; 0x2020; 0x2021; 0x2c6; 0x2030; 0x160; 0x2039; 0x152; 0; 0; 0; 0; 0x2018;
     0x2019; 0x201c; 0x201d; 0x2022; 0x2013; 0x2014; 0x2dc; 0x2122; 0x161; 0x203a; 0x153; 0; 0; 0x178; 0xa0; 0xa1; 0xa2; 0xa3;
     0xa4; 0xa5; 0xa6; 0xa7; 0xa8; 0xa9; 0xaa; 0xab; 0xac; 0xad; 0xae; 0xaf; 0xb0; 0xb1; 0xb2; 0xb3; 0xb4; 0xb5; 0xb6; 0xb7;
     0xb8; 0xb9; 0xba; 0xbb; 0xbc; 0xbd; 0xbe; 0xbf; 0xc0; 0xc1; 0xc2; 0xc3; 0xc4; 0xc5; 0xc6; 0xc7; 0xc8; 0xc9; 0xca; 0xcb;
     0xcc; 0xcd; 0xce; 0xcf; 0x11e; 0xd1; 0xd2; 0xd3; 0xd4; 0xd5; 0xd6; 0xd7; 0xd8; 0xd9; 0xda; 0xdb; 0xdc; 0x130; 0x15e;
     0xdf; 0xe0; 0xe1; 0xe2; 0xe3; 0xe4; 0xe5; 0xe6; 0xe7; 0xe8; 0xe9; 0xea; 0xeb; 0xec; 0xed; 0xee; 0xef; 0x11f; 0xf1; 0xf2;
     0xf3; 0xf4; 0xf5; 0xf6; 0xf7; 0xf8; 0xf9; 0xfa; 0xfb; 0xfc; 0x131; 0x15f; 0xff]
    [0; 0; 0; 0; 0; 0; 0; 0xa0; 0xa1; 0xa2; 0xa3; 0xa4; 0xa5; 0xa6; 0xa7; 0xa8; 0xa9; 0xaa; 0xab; 0xac; 0xad; 0xae; 0xaf;
     0xb0; 0xb1; 0xb2; 0xb3; 0xb4; 0xb5; 0xb6; 0xb7; 0xb8; 0xb9; 0xba; 0xbb; 0xbc; 0xbd; 0xbe; 0xbf; 0xc0; 0xc1; 0xc2; 0xc3;
     0xc4; 0xc5; 0xc6; 0xc7; 0xc8; 0xc9; 0xca; 0xcb; 0xcc; 0xcd; 0xce; 0xcf; 0xd1; 0xd2; 0xd3; 0xd4; 0xd5; 0xd6; 0xd7; 0xd8;
     0xd9; 0xda; 0xdb; 0xdc; 0xdf; 0xe0; 0xe1; 0xe2; 0xe3; 0xe4; 0xe5; 0xe6; 0xe7; 0xe8; 0xe9; 0xea; 0xeb; 0xec; 0xed; 0xee;
     0xef; 0xf1; 0xf2; 0xf3; 0xf4; 0xf5; 0xf6; 0xf7; 0xf8; 0xf9; 0xfa; 0xfb; 0xfc; 0xff; 0x11e; 0x11f; 0x130; 0x131; 0x152;
     0x153; 0x15e; 0x15f; 0x160; 0x161; 0x178; 0x192; 0x2c6; 0x2dc; 0x2013; 0x2014; 0x2018; 0x2019; 0x201a; 0x201c; 0x201d;
     0x201e; 0x2020; 0x2021; 0x2022; 0x2026; 0x2030; 0x2039; 0x203a; 0x20ac; 0x2122]
    [0x81; 0x8d; 0x8e; 0x8f; 0x90; 0x9d; 0x9e; 0xa0; 0xa1; 0xa2; 0xa3; 0xa4; 0xa5; 0xa6; 0xa7; 0xa8; 0xa9; 0xaa; 0xab; 0xac;
     0xad; 0xae; 0xaf; 0xb0; 0xb1; 0xb2; 0xb3; 0xb4; 0xb5; 0xb6; 0xb7; 0xb8; 0xb9; 0xba; 0xbb; 0xbc; 0xbd; 0xbe; 0xbf; 0xc0;
     0xc1; 0xc2; 0xc3; 0xc4; 0xc5; 0xc6; 0xc7; 0xc8; 0xc9; 0xca; 0xcb; 0xcc; 0xcd; 0xce; 0xcf; 0xd1; 0xd2; 0xd3; 0xd4; 0xd5;
     0xd6; 0xd7; 0xd8; 0xd9; 0xda; 0xdb; 0xdc; 0xdf; 0xe0; 0xe1; 0xe2; 0xe3; 0xe4; 0xe5; 0xe6; 0xe7; 0xe8; 0xe9; 0xea; 0xeb;
     0xec; 0xed; 0xee; 0xef; 0xf1; 0xf2; 0xf3; 0xf4; 0xf5; 0xf6; 0xf7; 0xf8; 0xf9; 0xfa; 0xfb; 0xfc; 0xff; 0xd0; 0xf0; 0xdd;
     0xfd; 0x8c; 0x9c; 0xde; 0xfe; 0x8a; 0x9a; 0x9f; 0x83; 0x88; 0x98; 0x96; 0x97; 0x91; 0x92; 0x82; 0x93; 0x94; 0x84; 0x86;
     0x87; 0x95; 0x85; 0x89; 0x8b; 0x9b; 0x80; 0x99].

Definition asciiplus_windows_1255 : asciiplus := Asciiplus
    [0x20ac; 0; 0x201a; 0x192; 0x201e; 0x2026; 0x2020; 0x2021; 0x2c6; 0x2030; 0; 0x2039; 0; 0; 0; 0; 0; 0x2018; 0x2019;
     0x201c; 0x201d; 0x2022; 0x2013; 0x2014; 0x2dc; 0x2122; 0; 0x203a; 0; 0; 0; 0; 0xa0; 0xa1; 0xa2; 0xa3; 0x20aa; 0xa5; 0xa6;
     0xa7; 0xa8; 0xa9; 0xd7; 0xab; 0xac; 0xad; 0xae; 0xaf; 0xb0; 0xb1; 0xb2; 0xb3; 0xb4; 0xb5; 0xb6; 0xb7; 0xb8; 0xb9; 0xf7;
     0xbb; 0xbc; 0xbd; 0xbe; 0xbf; 0x5b0; 0x5b1; 0x5b2; 0x5b3; 0x5b4; 0x5b5; 0x5b6; 0x5b7; 0x5b8; 0x5b9; 0; 0x5bb; 0x5bc;
     0x5bd; 0x5be; 0x5bf; 0x5c0; 0x5c1; 0x5c2; 0x5c3; 0x5f0; 0x5f1; 0x5f2; 0x5f3; 0x5f4; 0; 0; 0; 0; 0; 0; 0; 0x5d0; 0x5d1;
     0x5d2; 0x5d3; 0x5d4; 0x5d5; 0x5d6; 0x5d7; 0x5d8; 0x5d9; 0x5da; 0x5db; 0x5dc; 0x5dd; 0x5de; 0x5df; 0x5e0; 0x5e1; 0x5e2;
     0x5e3; 0x5e4; 0x5e5; 0x5e6; 0x5e7; 0x5e8; 0x5e9; 0x5ea; 0; 0; 0x200e; 0x200f; 0]
    [0; 0; 0; 0; 0; 0; 0; 0; 0; 0; 0; 0; 0; 0; 0; 0; 0; 0; 0; 0; 0; 0; 0; 0xa0; 0xa1; 0xa2; 0xa3; 0xa5; 0xa6; 0xa7; 0xa8;
     0xa9; 0xab; 0xac; 0xad; 0xae; 0xaf; 0xb0; 0xb1; 0xb2; 0xb3; 0xb4; 0xb5; 0xb6; 0xb7; 0xb8; 0xb9; 0xbb; 0xbc; 0xbd; 0xbe;
     0xbf; 0xd7; 0xf7; 0x192; 0x2c6; 0x2dc; 0x5b0; 0x5b1; 0x5b2; 0x5b3; 0x5b4; 0x5b5; 0x5b6; 0x5b7; 0x5b8; 0x5b9; 0x5bb;
     0x5bc; 0x5bd; 0x5be; 0x5bf; 0x5c0; 0x5c1; 0x5c2; 0x5c3; 0x5d0; 0x5d1; 0x5d2; 0x5d3; 0x5d4; 0x5d5; 0x5d6; 0x5d7; 0x5d8;
     0x5d9; 0x5da; 0x5db; 0x5dc; 0x5dd; 0x5de; 0x5df; 0x5e0; 0x5e1; 0x5e2; 0x5e3; 0x5e4; 0x5e5; 0x5e6; 0x5e7; 0x5e8; 0x5e9;
     0x5ea; 0x5f0; 0x5f1; 0x5f2; 0x5f3; 0x5f4; 0x200e; 0x200f; 0x2013; 0x2014; 0x2018; 0x2019; 0x201a; 0x201c; 0x201d; 0x201e;
     0x2020; 0x2021; 0x2022; 0x2026; 0x2030; 0x2039; 0x203a; 0x20aa; 0x20ac; 0x2122]
    [0x81; 0x8a; 0x8c; 0x8d; 0x8e; 0x8f; 0x90; 0x9a; 0x9c; 0x9d; 0x9e; 0x9f; 0xca; 0xd9; 0xda; 0xdb; 0xdc; 0xdd; 0xde; 0xdf;
     0xfb; 0xfc; 0xff; 0xa0; 0xa1; 0xa2; 0xa3; 0xa5; 0xa6; 0xa7; 0xa8; 0xa9; 0xab; 0xac; 0xad; 0xae; 0xaf; 0xb0; 0xb1; 0xb2;
     0xb3; 0xb4; 0xb5; 0xb6; 0xb7; 0xb8; 0xb9; 0xbb; 0xbc; 0xbd; 0xbe; 0xbf; 0xaa; 0xba; 0x83; 0x88; 0x98; 0xc0; 0xc1; 0xc2;
     0xc3; 0xc4; 0xc5; 0xc6; 0xc7; 0xc8; 0xc9; 0xcb; 0xcc; 0xcd; 0xce; 0xcf; 0xd0; 0xd1; 0xd2; 0xd3; 0xe0; 0xe1; 0xe2; 0xe3;
     0xe4; 0xe5; 0xe6; 0xe7; 0xe8; 0xe9; 0xea; 0xeb; 0xec; 0xed; 0xee; 0xef; 0xf0; 0xf1; 0xf2; 0xf3; 0xf4; 0xf5; 0xf6; 0xf7;
     0xf8; 0xf9; 0xfa; 0xd4; 0xd5; 0xd6; 0xd7; 0xd8; 0xfd; 0xfe; 0x96; 0x97; 0x91; 0x92; 0x82; 0x93; 0x94; 0x84; 0x86; 0x87;
     0x95; 0x85; 0x89; 0x8b; 0x9b; 0xa4; 0x80; 0x99].

Definition asciiplus_windows_1256 : asciiplus := Asciiplus
    [0x20ac; 0x67e; 0x201a; 0x192; 0x201e; 0x2026; 0x2020; 0x2021; 0x2c6; 0x2030; 0x679; 0x2039; 0x152; 0x686; 0x698; 0x688;
     0x6af; 0x2018; 0x2019; 0x201c; 0x201d; 0x2022; 0x2013; 0x2014; 0x6a9; 0x2122; 0x691; 0x203a; 0x153; 0x200c; 0x200d;
     0x6ba; 0xa0; 0x60c; 0xa2; 0xa3; 0xa4; 0xa5; 0xa6; 0xa7; 0xa8; 0xa9; 0x6be; 0xab; 0xac; 0xad; 0xae; 0xaf; 0xb0; 0xb1;
     0xb2; 0xb3; 0xb4; 0xb5; 0xb6; 0xb7; 0xb8; 0xb9; 0x61b; 0xbb; 0xbc; 0xbd; 0xbe; 0x61f; 0x6c1; 0x621; 0x622; 0x623; 0x624;
     0x625; 0x626; 0x627; 0x628; 0x629; 0x62a; 0x62b; 0x62c; 0x62d; 0x62e; 0x62f; 0x630; 0x631; 0x632; 0x633; 0x634; 0x635;
     0x636; 0xd7; 0x637; 0x638; 0x639; 0x63a; 0x640; 0x641; 0x642; 0x643; 0xe0; 0x644; 0xe2; 0x645; 0x646; 0x647; 0x648; 0xe7;
     0xe8; 0xe9; 0xea; 0xeb; 0x649; 0x64a; 0xee; 0xef; 0x64b; 0x64c; 0x64d; 0x64e; 0xf4; 0x64f; 0x650; 0xf7; 0x651; 0xf9;
     0x652; 0xfb; 0xfc; 0x200e; 0x200f; 0x6d2]
    [0xa0; 0xa2; 0xa3; 0xa4; 0xa5; 0xa6; 0xa7; 0xa8; 0xa9; 0xab; 0xac; 0xad; 0xae; 0xaf; 0xb0; 0xb1; 0xb2; 0xb3; 0xb4; 0xb5;
     0xb6; 0xb7; 0xb8; 0xb9; 0xbb; 0xbc; 0xbd; 0xbe; 0xd7; 0xe0; 0xe2; 0xe7; 0xe8; 0xe9; 0xea; 0xeb; 0xee; 0xef; 0xf4; 0xf7;
     0xf9; 0xfb; 0xfc; 0x152; 0x153; 0x192; 0x2c6; 0x60c; 0x61b; 0x61f; 0x621; 0x622; 0x623; 0x624; 0x625; 0x626; 0x627;
     0x628; 0x629; 0x62a; 0x62b; 0x62c; 0x62d; 0x62e; 0x62f; 0x630; 0x631; 0x632; 0x633; 0x634; 0x635; 0x636; 0x637; 0x638;
     0x639; 0x63a; 0x640; 0x641; 0x642; 0x643; 0x644; 0x645; 0x646; 0x647; 0x648; 0x649; 0x64a; 0x64b; 0x64c; 0x64d; 0x64e;
     0x64f; 0x650; 0x651; 0x652; 0x679; 0x67e; 0x686; 0x688; 0x691; 0x698; 0x6a9; 0x6af; 0x6ba; 0x6be; 0x6c1; 0x6d2; 0x200c;
     0x200d; 0x200e; 0x200f; 0x2013; 0x2014; 0x2018; 0x2019; 0x201a; 0x201c; 0x201d; 0x201e; 0x2020; 0x2021; 0x2022; 0x2026;
     0x2030; 0x2039; 0x203a; 0x20ac; 0x2122]
    [0xa0; 0xa2; 0xa3; 0xa4; 0xa5; 0xa6; 0xa7; 0xa8; 0xa9; 0xab; 0xac; 0xad; 0xae; 0xaf; 0xb0; 0xb1; 0xb2; 0xb3; 0xb4; 0xb5;
     0xb6; 0xb7; 0xb8; 0xb9; 0xbb; 0xbc; 0xbd; 0xbe; 0xd7; 0xe0; 0xe2; 0xe7; 0xe8; 0xe9; 0xea; 0xeb; 0xee; 0xef; 0xf4; 0xf7;
     0xf9; 0xfb; 0xfc; 0x8c; 0x9c; 0x83; 0x88; 0xa1; 0xba; 0xbf; 0xc1; 0xc2; 0xc3; 0xc4; 0xc5; 0xc6; 0xc7; 0xc8; 0xc9; 0xca;
     0xcb; 0xcc; 0xcd; 0xce; 0xcf; 0xd0; 0xd1; 0xd2; 0xd3; 0xd4; 0xd5; 0xd6; 0xd8; 0xd9; 0xda; 0xdb; 0xdc; 0xdd; 0xde; 0xdf;
     0xe1; 0xe3; 0xe4; 0xe5; 0xe6; 0xec; 0xed; 0xf0; 0xf1; 0xf2; 0xf3; 0xf5; 0xf6; 0xf8; 0xfa; 0x8a; 0x81; 0x8d; 0x8f; 0x9a;
     0x8e; 0x98; 0x90; 0x9f; 0xaa; 0xc0; 0xff; 0x9d; 0x9e; 0xfd; 0xfe; 0x96; 0x97; 0x91; 0x92; 0x82; 0x93; 0x94; 0x84; 0x86;
     0x87; 0x95; 0x85; 0x89; 0x8b; 0x9b; 0x80; 0x99].

Definition asciiplus_windows_1257 : asciiplus := Asciiplus
    [0x20ac; 0; 0x201a; 0; 0x201e; 0x2026; 0x2020; 0x2021; 0; 0x2030; 0; 0x2039; 0; 0xa8; 0x2c7; 0xb8; 0; 0x2018; 0x2019;
     0x201c; 0x201d; 0x2022; 0x2013; 0x2014; 0; 0x2122; 0; 0x203a; 0; 0xaf; 0x2db; 0; 0xa0; 0; 0xa2; 0xa3; 0xa4; 0; 0xa6;
     0xa7; 0xd8; 0xa9; 0x156; 0xab; 0xac; 0xad; 0xae; 0xc6; 0xb0; 0xb1; 0xb2; 0xb3; 0xb4; 0xb5; 0xb6; 0xb7; 0xf8; 0xb9; 0x157;
     0xbb; 0xbc; 0xbd; 0xbe; 0xe6; 0x104; 0x12e; 0x100; 0x106; 0xc4; 0xc5; 0x118; 0x112; 0x10c; 0xc9; 0x179; 0x116; 0x122;
     0x136; 0x12a; 0x13b; 0x160; 0x143; 0x145; 0xd3; 0x14c; 0xd5; 0xd6; 0xd7; 0x172; 0x141; 0x15a; 0x16a; 0xdc; 0x17b; 0x17d;
     0xdf; 0x105; 0x12f; 0x101; 0x107; 0xe4; 0xe5; 0x119; 0x113; 0x10d; 0xe9; 0x17a; 0x117; 0x123; 0x137; 0x12b; 0x13c; 0x161;
     0x144; 0x146; 0xf3; 0x14d; 0xf5; 0xf6; 0xf7; 0x173; 0x142; 0x15b; 0x16b; 0xfc; 0x17c; 0x17e; 0x2d9]
    [0; 0; 0; 0; 0; 0; 0; 0; 0; 0; 0; 0; 0xa0; 0xa2; 0xa3; 0xa4; 0xa6; 0xa7; 0xa8; 0xa9; 0xab; 0xac; 0xad; 0xae; 0xaf; 0xb0;
     0xb1; 0xb2; 0xb3; 0xb4; 0xb5; 0xb6; 0xb7; 0xb8; 0xb9; 0xbb; 0xbc; 0xbd; 0xbe; 0xc4; 0xc5; 0xc6; 0xc9; 0xd3; 0xd5; 0xd6;
     0xd7; 0xd8; 0xdc; 0xdf; 0xe4; 0xe5; 0xe6; 0xe9; 0xf3; 0xf5; 0xf6; 0xf7; 0xf8; 0xfc; 0x100; 0x101; 0x104; 0x105; 0x106;
     0x107; 0x10c; 0x10d; 0x112; 0x113; 0x116; 0x117; 0x118; 0x119; 0x122; 0x123; 0x12a; 0x12b; 0x12e; 0x12f; 0x136; 0x137;
     0x13b; 0x13c; 0x141; 0x142; 0x143; 0x144; 0x145; 0x146; 0x14c; 0x14d; 0x156; 0x157; 0x15a; 0x15b; 0x160; 0x161; 0x16a;
     0x16b; 0x172; 0x173; 0x179; 0x17a; 0x17b; 0x17c; 0x17d; 0x17e; 0x2c7; 0x2d9; 0x2db; 0x2013; 0x2014; 0x2018; 0x2019;
     0x201a; 0x201c; 0x201d; 0x201e; 0x2020; 0x2021; 0x2022; 0x2026; 0x2030; 0x2039; 0x203a; 0x20ac; 0x2122]
    [0x81; 0x83; 0x88; 0x8a; 0x8c; 0x90; 0x98; 0x9a; 0x9c; 0x9f; 0xa1; 0xa5; 0xa0; 0xa2; 0xa3; 0xa4; 0xa6; 0xa7; 0x8d; 0xa9;
     0xab; 0xac; 0xad; 0xae; 0x9d; 0xb0; 0xb1; 0xb2; 0xb3; 0xb4; 0xb5; 0xb6; 0xb7; 0x8f; 0xb9; 0xbb; 0xbc; 0xbd; 0xbe; 0xc4;
     0xc5; 0xaf; 0xc9; 0xd3; 0xd5; 0xd6; 0xd7; 0xa8; 0xdc; 0xdf; 0xe4; 0xe5; 0xbf; 0xe9; 0xf3; 0xf5; 0xf6; 0xf7; 0xb8; 0xfc;
     0xc2; 0xe2; 0xc0; 0xe0; 0xc3; 0xe3; 0xc8; 0xe8; 0xc7; 0xe7; 0xcb; 0xeb; 0xc6; 0xe6; 0xcc; 0xec; 0xce; 0xee; 0xc1; 0xe1;
     0xcd; 0xed; 0xcf; 0xef; 0xd9; 0xf9; 0xd1; 0xf1; 0xd2; 0xf2; 0xd4; 0xf4; 0xaa; 0xba; 0xda; 0xfa; 0xd0; 0xf0; 0xdb; 0xfb;
     0xd8; 0xf8; 0xca; 0xea; 0xdd; 0xfd; 0xde; 0xfe; 0x8e; 0xff; 0x9e; 0x96; 0x97; 0x91; 0x92; 0x82; 0x93; 0x94; 0x84; 0x86;
     0x87; 0x95; 0x85; 0x89; 0x8b; 0x9b; 0x80; 0x99].

Definition asciiplus_windows_1258 : asciiplus := Asciiplus
    [0x20ac; 0; 0x201a; 0x192; 0x201e; 0x2026; 0x2020; 0x2021; 0x2c6; 0x2030; 0; 0x2039; 0x152; 0; 0; 0; 0; 0x2018; 0x2019;
     0x201c; 0x201d; 0x2022; 0x2013; 0x2014; 0x2dc; 0x2122; 0; 0x203a; 0x153; 0; 0; 0x178; 0xa0; 0xa1; 0xa2; 0xa3; 0xa4; 0xa5;
     0xa6; 0xa7; 0xa8; 0xa9; 0xaa; 0xab; 0xac; 0xad; 0xae; 0xaf; 0xb0; 0xb1; 0xb2; 0xb3; 0xb4; 0xb5; 0xb6; 0xb7; 0xb8; 0xb9;
     0xba; 0xbb; 0xbc; 0xbd; 0xbe; 0xbf; 0xc0; 0xc1; 0xc2; 0x102; 0xc4; 0xc5; 0xc6; 0xc7; 0xc8; 0xc9; 0xca; 0xcb; 0x300; 0xcd;
     0xce; 0xcf; 0x110; 0xd1; 0x309; 0xd3; 0xd4; 0x1a0; 0xd6; 0xd7; 0xd8; 0xd9; 0xda; 0xdb; 0xdc; 0x1af; 0x303; 0xdf; 0xe0;
     0xe1; 0xe2; 0x103; 0xe4; 0xe5; 0xe6; 0xe7; 0xe8; 0xe9; 0xea; 0xeb; 0x301; 0xed; 0xee; 0xef; 0x111; 0xf1; 0x323; 0xf3;
     0xf4; 0x1a1; 0xf6; 0xf7; 0xf8; 0xf9; 0xfa; 0xfb; 0xfc; 0x1b0; 0x20ab; 0xff]
    [0; 0; 0; 0; 0; 0; 0; 0; 0; 0xa0; 0xa1; 0xa2; 0xa3; 0xa4; 0xa5; 0xa6; 0xa7; 0xa8; 0xa9; 0xaa; 0xab; 0xac; 0xad; 0xae;
     0xaf; 0xb0; 0xb1; 0xb2; 0xb3; 0xb4; 0xb5; 0xb6; 0xb7; 0xb8; 0xb9; 0xba; 0xbb; 0xbc; 0xbd; 0xbe; 0xbf; 0xc0; 0xc1; 0xc2;
     0xc4; 0xc5; 0xc6; 0xc7; 0xc8; 0xc9; 0xca; 0xcb; 0xcd; 0xce; 0xcf; 0xd1; 0xd3; 0xd4; 0xd6; 0xd7; 0xd8; 0xd9; 0xda; 0xdb;
     0xdc; 0xdf; 0xe0; 0xe1; 0xe2; 0xe4; 0xe5; 0xe6; 0xe7; 0xe8; 0xe9; 0xea; 0xeb; 0xed; 0xee; 0xef; 0xf1; 0xf3; 0xf4; 0xf6;
     0xf7; 0xf8; 0xf9; 0xfa; 0xfb; 0xfc; 0xff; 0x102; 0x103; 0x110; 0x111; 0x152; 0x153; 0x178; 0x192; 0x1a0; 0x1a1; 0x1af;
     0x1b0; 0x2c6; 0x2dc; 0x300; 0x301; 0x303; 0x309; 0x323; 0x2013; 0x2014; 0x2018; 0x2019; 0x201a; 0x201c; 0x201d; 0x201e;
     0x2020; 0x2021; 0x2022; 0x2026; 0x2030; 0x2039; 0x203a; 0x20ab; 0x20ac; 0x2122]
    [0x81; 0x8a; 0x8d; 0x8e; 0x8f; 0x90; 0x9a; 0x9d; 0x9e; 0xa0; 0xa1; 0xa2; 0xa3; 0xa4; 0xa5; 0xa6; 0xa7; 0xa8; 0xa9; 0xaa;
     0xab; 0xac; 0xad; 0xae; 0xaf; 0xb0; 0xb1; 0xb2; 0xb3; 0xb4; 0xb5; 0xb6; 0xb7; 0xb8; 0xb9; 0xba; 0xbb; 0xbc; 0xbd; 0xbe;
     0xbf; 0xc0; 0xc1; 0xc2; 0xc4; 0xc5; 0xc6; 0xc7; 0xc8; 0xc9; 0xca; 0xcb; 0xcd; 0xce; 0xcf; 0xd1; 0xd3; 0xd4; 0xd6; 0xd7;
     0xd8; 0xd9; 0xda; 0xdb; 0xdc; 0xdf; 0xe0; 0xe1; 0xe2; 0xe4; 0xe5; 0xe6; 0xe7; 0xe8; 0xe9; 0xea; 0xeb; 0xed; 0xee; 0xef;
     0xf1; 0xf3; 0xf4; 0xf6; 0xf7; 0xf8; 0xf9; 0xfa; 0xfb; 0xfc; 0xff; 0xc3; 0xe3; 0xd0; 0xf0; 0x8c; 0x9c; 0x9f; 0x83; 0xd5;
     0xf5; 0xdd; 0xfd; 0x88; 0x98; 0xcc; 0xec; 0xde; 0xd2; 0xf2; 0x96; 0x97; 0x91; 0x92; 0x82; 0x93; 0x94; 0x84; 0x86; 0x87;
     0x95; 0x85; 0x89; 0x8b; 0x9b; 0xfe; 0x80; 0x99].

(** ** IBM037 *)

Definition ibm037_decode : list Z :=
  [0; 1; 2; 3; 0x9c; 9; 0x86; 0x7f; 0x97; 0x8d; 0x8e; 0xb; 0xc; 0xd; 0xe; 0xf; 0x10; 0x11; 0x12; 0x13; 0x9d; 0x85; 8; 0x87;
   0x18; 0x19; 0x92; 0x8f; 0x1c; 0x1d; 0x1e; 0x1f; 0x80; 0x81; 0x82; 0x83; 0x84; 0xa; 0x17; 0x1b; 0x88; 0x89; 0x8a; 0x8b;
   0x8c; 5; 6; 7; 0x90; 0x91; 0x16; 0x93; 0x94; 0x95; 0x96; 4; 0x98; 0x99; 0x9a; 0x9b; 0x14; 0x15; 0x9e; 0x1a; 0x20; 0xa0;
   0xe2; 0xe4; 0xe0; 0xe1; 0xe3; 0xe5; 0xe7; 0xf1; 0xa2; 0x2e; 0x3c; 0x28; 0x2b; 0x7c; 0x26; 0xe9; 0xea; 0xeb; 0xe8; 0xed;
   0xee; 0xef; 0xec; 0xdf; 0x21; 0x24; 0x2a; 0x29; 0x3b; 0xac; 0x2d; 0x2f; 0xc2; 0xc4; 0xc0; 0xc1; 0xc3; 0xc5; 0xc7; 0xd1;
   0xa6; 0x2c; 0x25; 0x5f; 0x3e; 0x3f; 0xf8; 0xc9; 0xca; 0xcb; 0xc8; 0xcd; 0xce; 0xcf; 0xcc; 0x60; 0x3a; 0x23; 0x40; 0x27;
   0x3d; 0x22; 0xd8; 0x61; 0x62; 0x63; 0x64; 0x65; 0x66; 0x67; 0x68; 0x69; 0xab; 0xbb; 0xf0; 0xfd; 0xfe; 0xb1; 0xb0; 0x6a;
   0x6b; 0x6c; 0x6d; 0x6e; 0x6f; 0x70; 0x71; 0x72; 0xaa; 0xba; 0xe6; 0xb8; 0xc6; 0xa4; 0xb5; 0x7e; 0x73; 0x74; 0x75; 0x76;
   0x77; 0x78; 0x79; 0x7a; 0xa1; 0xbf; 0xd0; 0xdd; 0xde; 0xae; 0x5e; 0xa3; 0xa5; 0xb7; 0xa9; 0xa7; 0xb6; 0xbc; 0xbd; 0xbe;
   0x5b; 0x5d; 0xaf; 0xa8; 0xb4; 0xd7; 0x7b; 0x41; 0x42; 0x43; 0x44; 0x45; 0x46; 0x47; 0x48; 0x49; 0xad; 0xf4; 0xf6; 0xf2;
   0xf3; 0xf5; 0x7d; 0x4a; 0x4b; 0x4c; 0x4d; 0x4e; 0x4f; 0x50; 0x51; 0x52; 0xb9; 0xfb; 0xfc; 0xf9; 0xfa; 0xff; 0x5c; 0xf7;
   0x53; 0x54; 0x55; 0x56; 0x57; 0x58; 0x59; 0x5a; 0xb2; 0xd4; 0xd6; 0xd2; 0xd3; 0xd5; 0x30; 0x31; 0x32; 0x33; 0x34; 0x35;
   0x36; 0x37; 0x38; 0x39; 0xb3; 0xdb; 0xdc; 0xd9; 0xda; 0x9f].

Definition ibm037_encode : list Z :=
  [0; 1; 2; 3; 0x37; 0x2d; 0x2e; 0x2f; 0x16; 5; 0x25; 0xb; 0xc; 0xd; 0xe; 0xf; 0x10; 0x11; 0x12; 0x13; 0x3c; 0x3d; 0x32; 0x26;
   0x18; 0x19; 0x3f; 0x27; 0x1c; 0x1d; 0x1e; 0x1f; 0x40; 0x5a; 0x7f; 0x7b; 0x5b; 0x6c; 0x50; 0x7d; 0x4d; 0x5d; 0x5c; 0x4e;
   0x6b; 0x60; 0x4b; 0x61; 0xf0; 0xf1; 0xf2; 0xf3; 0xf4; 0xf5; 0xf6; 0xf7; 0xf8; 0xf9; 0x7a; 0x5e; 0x4c; 0x7e; 0x6e; 0x6f;
   0x7c; 0xc1; 0xc2; 0xc3; 0xc4; 0xc5; 0xc6; 0xc7; 0xc8; 0xc9; 0xd1; 0xd2; 0xd3; 0xd4; 0xd5; 0xd6; 0xd7; 0xd8; 0xd9; 0xe2;
   0xe3; 0xe4; 0xe5; 0xe6; 0xe7; 0xe8; 0xe9; 0xba; 0xe0; 0xbb; 0xb0; 0x6d; 0x79; 0x81; 0x82; 0x83; 0x84; 0x85; 0x86; 0x87;
   0x88; 0x89; 0x91; 0x92; 0x93; 0x94; 0x95; 0x96; 0x97; 0x98; 0x99; 0xa2; 0xa3; 0xa4; 0xa5; 0xa6; 0xa7; 0xa8; 0xa9; 0xc0;
   0x4f; 0xd0; 0xa1; 7; 0x20; 0x21; 0x22; 0x23; 0x24; 0x15; 6; 0x17; 0x28; 0x29; 0x2a; 0x2b; 0x2c; 9; 0xa; 0x1b; 0x30; 0x31;
   0x1a; 0x33; 0x34; 0x35; 0x36; 8; 0x38; 0x39; 0x3a; 0x3b; 4; 0x14; 0x3e; 0xff; 0x41; 0xaa; 0x4a; 0xb1; 0x9f; 0xb2; 0x6a;
   0xb5; 0xbd; 0xb4; 0x9a; 0x8a; 0x5f; 0xca; 0xaf; 0xbc; 0x90; 0x8f; 0xea; 0xfa; 0xbe; 0xa0; 0xb6; 0xb3; 0x9d; 0xda; 0x9b;
   0x8b; 0xb7; 0xb8; 0xb9; 0xab; 0x64; 0x65; 0x62; 0x66; 0x63; 0x67; 0x9e; 0x68; 0x74; 0x71; 0x72; 0x73; 0x78; 0x75; 0x76;
   0x77; 0xac; 0x69; 0xed; 0xee; 0xeb; 0xef; 0xec; 0xbf; 0x80; 0xfd; 0xfe; 0xfb; 0xfc; 0xad; 0xae; 0x59; 0x44; 0x45; 0x42;
   0x46; 0x43; 0x47; 0x9c; 0x48; 0x54; 0x51; 0x52; 0x53; 0x58; 0x55; 0x56; 0x57; 0x8c; 0x49; 0xcd; 0xce; 0xcb; 0xcf; 0xcc;
   0xe1; 0x70; 0xdd; 0xde; 0xdb; 0xdc; 0x8d; 0x8e; 0xdf].

Definition ibm037_mbtoc32 (s : list Z) (n : Z) (ps : mbstate) : option (mbresult * mbstate) :=
  if n <? 1 then Some (MbIncomplete, ps)
  else b ← head s; c ← ibm037_decode !! Z.to_nat (u8 b); Some (MbChar 1 c, mbstate_init).

Definition UCHAR_MAX : Z := 255.

Definition ibm037_c32tomb (c32 : Z) : option (list Z) :=
  if UCHAR_MAX <? c32 then None else b ← ibm037_encode !! Z.to_nat c32; Some [b].

Definition ctype_ibm037 : lc_ctype := LcCtype ibm037_mbtoc32 1 ibm037_c32tomb.

(** ** ISO-8859-1 *)

Definition iso_8859_1_mbtoc32 (s : list Z) (n : Z) (ps : mbstate) : option (mbresult * mbstate) :=
  if n <? 1 then Some (MbIncomplete, ps) else b ← head s; Some (MbChar 1 (u8 b), mbstate_init).

Definition iso_8859_1_c32tomb (c32 : Z) : option (list Z) := if UCHAR_MAX <? c32 then None else Some [u8 c32].

Definition ctype_iso_8859_1 : lc_ctype := LcCtype iso_8859_1_mbtoc32 1 iso_8859_1_c32tomb.

(** ** ISO-8859-15 *)

Definition iso_8859_15_replacements : list Z :=
  [0x20ac; 0xa5; 0x160; 0xa7; 0x161; 0xa9; 0xaa; 0xab; 0xac; 0xad; 0xae; 0xaf; 0xb0; 0xb1; 0xb2; 0xb3; 0x17d; 0xb5; 0xb6;
   0xb7; 0x17e; 0xb9; 0xba; 0xbb; 0x152; 0x153; 0x178].

Definition ISO_8859_15_REPLACEMENTS_BASE : Z := 0xa4.

(** Indices outside the table are [None]. *)
Definition replacement (i : Z) : option Z := if i <? 0 then None else iso_8859_15_replacements !! Z.to_nat i.

Definition iso_8859_15_mbtoc32 (s : list Z) (n : Z) (ps : mbstate) : option (mbresult * mbstate) :=
  if n <? 1 then Some (MbIncomplete, ps)
  else
    b ← head s;
    let ch := u8 b in
    c ← (if (ISO_8859_15_REPLACEMENTS_BASE <=? ch) ||
            (ch <? ISO_8859_15_REPLACEMENTS_BASE + Z.of_nat (length iso_8859_15_replacements))
         then replacement (ch - ISO_8859_15_REPLACEMENTS_BASE) else Some ch);
    Some (MbChar 1 c, mbstate_init).

(** The scan of the table, from index [i]. *)
Fixpoint iso_8859_15_scan (tab : list Z) (i c32 : Z) : option (list Z) :=
  match tab with
  | [] => None
  | x :: tab => if x =? c32 then Some [u8 (i + ISO_8859_15_REPLACEMENTS_BASE)] else iso_8859_15_scan tab (i + 1) c32
  end.

Definition iso_8859_15_c32tomb (c32 : Z) : option (list Z) :=
  if (c32 <? ISO_8859_15_REPLACEMENTS_BASE) ||
     ((c32 <=? UCHAR_MAX) &&
      ((ISO_8859_15_REPLACEMENTS_BASE + Z.of_nat (length iso_8859_15_replacements) <=? c32) ||
       bool_decide (replacement (c32 - ISO_8859_15_REPLACEMENTS_BASE) = Some c32)))
  then Some [u8 c32]
  else iso_8859_15_scan iso_8859_15_replacements 0 c32.

Definition ctype_iso_8859_15 : lc_ctype := LcCtype iso_8859_15_mbtoc32 1 iso_8859_15_c32tomb.

(** ** The search is correct *)

Definition ascending (tab : list Z) : Prop := forall (i j : nat) x y, (i <= j)%nat -> tab !! i = Some x -> tab !! j = Some y -> x <= y.

Lemma table_search_ok tab c32 : ascending tab -> forall fuel min max, 0 <= min < max -> max < Z.of_nat (length tab) -> max - min < 2 ^ Z.of_nat fuel ->
  (forall (j : nat) y, tab !! j = Some y -> max < Z.of_nat j -> c32 < y) ->
  exists i, search fuel tab c32 min max = Some i /\ min <= i <= max /\ (forall (j : nat) y, tab !! j = Some y -> i < Z.of_nat j -> c32 < y).
Proof.
  intros Ha. induction fuel as [|fuel IH]; intros min max Hm Hl Hf Hj; [cbn in Hf; lia|]. cbn [search].
  rewrite Nat2Z.inj_succ, Z.pow_succ_r in Hf by lia.
  set (mid := (min + max + 1) / 2). assert (min < mid <= max) by (unfold mid; lia).
  destruct (lookup_lt_is_Some_2 tab (Z.to_nat mid)) as [x Hx]; [lia|]. rewrite Hx. cbn [mbind option_bind].
  destruct (Z.ltb_spec c32 x) as [Hlt|Hge].
  - assert (Hj' : forall (j : nat) y, tab !! j = Some y -> mid - 1 < Z.of_nat j -> c32 < y).
    { intros j y Hy Hmj. pose proof (Ha (Z.to_nat mid) j x y ltac:(lia) Hx Hy). lia. }
    destruct (Z.ltb_spec min (mid - 1)); [|exists min; split; [done|]; split; [lia|]; intros j y Hy ?; apply (Hj' j y Hy); lia].
    destruct (IH min (mid - 1)) as (i & E & Hi & Hi'); [lia|lia|unfold mid; lia|done|]. exists i. split; [done|]. split; [lia|done].
  - destruct (Z.ltb_spec mid max); [|exists mid; split; [done|]; split; [lia|]; intros j y Hy ?; apply (Hj j y Hy); lia].
    destruct (IH mid max) as (i & E & Hi & Hi'); [lia|lia|unfold mid; lia|done|]. exists i. split; [done|]. split; [lia|done].
Qed.

Fixpoint ascendingb (tab : list Z) : bool :=
  match tab with [] => true | x :: tab => match tab with [] => true | y :: _ => x <=? y end && ascendingb tab end.

Lemma ascendingb_ok tab : ascendingb tab = true -> ascending tab.
Proof.
  intros H. assert (Hs : StronglySorted Z.le tab).
  { apply Sorted_StronglySorted; [intros x y z; lia|]. induction tab as [|x tab IH]; [constructor|]. cbn [ascendingb] in H.
    apply andb_true_iff in H as [H1 H2]. constructor; [by apply IH|]. destruct tab; [constructor|]. constructor. zprop. lia. }
  clear H. induction Hs as [|a tab _ IH Hx]; intros i j x y Hij Hi Hj; [done|]. destruct i as [|i], j as [|j]; cbn in Hi, Hj; try lia.
  - simplify_eq. lia.
  - simplify_eq. rewrite Forall_lookup in Hx. by apply (Hx j).
  - apply (IH i j); [lia|done..].
Qed.

Lemma u8_of_byte b : 0 <= b < 256 -> u8 b = b.
Proof. intros. apply uN_small. unfold in_unsigned. lia. Qed.

Lemma u8_range b : 0 <= u8 b < 256.
Proof. apply (uN_range 8). lia. Qed.

(** ** The tables are inverse to each other *)

Definition table_okb (ap : asciiplus) : bool :=
  (length (mbtoc16 ap) =? 128)%nat && (length (c16tomb_c16 ap) =? 128)%nat && (length (c16tomb_b ap) =? 128)%nat && ascendingb (c16tomb_c16 ap) &&
  forallb (fun i => match c16tomb_c16 ap !! i, c16tomb_b ap !! i with
    | Some x, Some b => (x <? 128) || ((128 <=? b) && (b <? 256) && bool_decide (mbtoc16 ap !! Z.to_nat (b - 128) = Some x))
    | _, _ => false
    end) (seq 0 128) &&
  forallb (fun i => match mbtoc16 ap !! i with
    | Some x => (x =? 0) || ((128 <=? x) && (x <? 2 ^ 16) && bool_decide (asciiplus_encode ap x = Some (Some [Z.of_nat i + 128])))
    | None => false
    end) (seq 0 128).

Record table_ok (ap : asciiplus) : Prop := {
  to_dec : length (mbtoc16 ap) = 128%nat;
  to_enc : length (c16tomb_c16 ap) = 128%nat;
  to_bytes : length (c16tomb_b ap) = 128%nat;
  to_ascending : ascending (c16tomb_c16 ap);
  to_back (i : nat) x b : c16tomb_c16 ap !! i = Some x -> c16tomb_b ap !! i = Some b -> 128 <= x ->
    128 <= b < 256 /\ mbtoc16 ap !! Z.to_nat (b - 128) = Some x;
  to_forth (i : nat) x : mbtoc16 ap !! i = Some x -> x <> 0 -> 128 <= x < 2 ^ 16 /\ asciiplus_encode ap x = Some (Some [Z.of_nat i + 128])
}.

Lemma table_okb_ok ap : table_okb ap = true -> table_ok ap.
Proof.
  unfold table_okb. rewrite !andb_true_iff, !Nat.eqb_eq, !forallb_forall. intros (((((H1 & H2) & H3) & H4) & H5) & H6).
  split; [done..|by apply ascendingb_ok| |].
  - intros i x b Hx Hb Hge. assert (Hi : In i (seq 0 128)) by (apply in_seq; apply lookup_lt_Some in Hx; lia).
    specialize (H5 i Hi). rewrite Hx, Hb in H5. apply orb_true_iff in H5 as [H5|H5]; [zprop; lia|].
    rewrite !andb_true_iff, bool_decide_eq_true in H5. destruct H5 as [[? ?] ?]. zprop. split; [lia|done].
  - intros i x Hx Hne. assert (Hi : In i (seq 0 128)) by (apply in_seq; apply lookup_lt_Some in Hx; lia).
    specialize (H6 i Hi). rewrite Hx in H6. apply orb_true_iff in H6 as [H6|H6]; [zprop; lia|].
    rewrite !andb_true_iff, bool_decide_eq_true in H6. destruct H6 as [[? ?] ?]. zprop. split; [lia|done].
Qed.

(** The encoder does not leave its tables, and what it finds is in them. *)
Lemma encode_ok ap c32 : table_ok ap -> 0 <= c32 ->
  (c32 < 128 /\ asciiplus_encode ap c32 = Some (Some [c32])) \/
  (128 <= c32 /\ asciiplus_encode ap c32 = Some None) \/
  (128 <= c32 /\ exists b, asciiplus_encode ap c32 = Some (Some [b]) /\ 128 <= b < 256 /\ mbtoc16 ap !! Z.to_nat (b - 128) = Some c32).
Proof.
  intros Ht H0. unfold asciiplus_encode. destruct (Z.ltb_spec c32 128) as [Hlt|Hge]; [by left|right].
  destruct (table_search_ok (c16tomb_c16 ap) c32 (to_ascending ap Ht) 7 0 127) as (i & -> & Hi & _); [lia|rewrite (to_enc ap Ht); lia|cbn; lia| |].
  { intros j y Hy Hj. apply lookup_lt_Some in Hy. rewrite (to_enc ap Ht) in Hy. lia. }
  cbn [mbind option_bind]. destruct (lookup_lt_is_Some_2 (c16tomb_c16 ap) (Z.to_nat i)) as [x Hx]; [rewrite (to_enc ap Ht); lia|].
  rewrite Hx. cbn [mbind option_bind]. destruct (Z.eqb_spec c32 x) as [->|Hne]; cbn [negb]; [right|by left].
  destruct (lookup_lt_is_Some_2 (c16tomb_b ap) (Z.to_nat i)) as [b Hb]; [rewrite (to_bytes ap Ht); lia|]. rewrite Hb. cbn [mbind option_bind].
  split; [done|]. exists b. split; [done|]. by apply (to_back ap Ht (Z.to_nat i)).
Qed.

Lemma asciiplus_laws ap : table_ok ap -> CtypeLaws (asciiplus_ctype ap).
Proof.
  intros Ht. split; cbn [mbtoc32 c32tomb c32tomb_max asciiplus_ctype]; unfold asciiplus_c32tomb, asciiplus_mbtoc32.
  - intros c bs H0. destruct (encode_ok ap c Ht H0) as [(Hc & ->)|[(Hc & ->)|(Hc & b & -> & Hb & _)]]; cbn; [|done|]; intros [= <-]; cbn;
      (split; [lia|]); constructor; (done || (unfold byte, in_unsigned; lia)).
  - intros c bs rest n H0. destruct (encode_ok ap c Ht H0) as [(Hc & ->)|[(Hc & ->)|(Hc & b & -> & Hb & Hd)]]; cbn; [|done|]; intros [= <-] Hn; cbn in Hn.
    + rewrite (proj2 (Z.ltb_ge n 1)) by lia. cbn [head app mbind option_bind]. rewrite u8_of_byte by lia. by rewrite (proj2 (Z.ltb_lt _ _)) by lia.
    + rewrite (proj2 (Z.ltb_ge n 1)) by lia. cbn [head app mbind option_bind]. rewrite u8_of_byte by lia.
      rewrite (proj2 (Z.ltb_ge _ _)) by lia. rewrite Hd. cbn [mbind option_bind]. by rewrite (proj2 (Z.eqb_neq _ _)) by lia.
  - intros s n l c st Hs. destruct (Z.ltb_spec n 1) as [|Hn]; [done|]. destruct s as [|ch s]; [done|]. cbn [head mbind option_bind].
    inversion Hs as [|? ? Hch _]; subst. unfold byte, in_unsigned in Hch. rewrite u8_of_byte by lia. destruct (Z.ltb_spec ch 128) as [Hlt|Hge].
    + intros [= <- <- <-]. split; [done|]. split; [lia|]. split; [lia|]. exists [ch], s.
      destruct (encode_ok ap ch Ht ltac:(lia)) as [(_ & ->)|[(? & _)|(? & _)]]; [done|lia..].
    + destruct (mbtoc16 ap !! Z.to_nat (ch - 128)) as [x|] eqn:Ex; [|done]. cbn [mbind option_bind].
      destruct (Z.eqb_spec x 0) as [|Hne]; [done|]. intros [= <- <- <-]. destruct (to_forth ap Ht _ _ Ex Hne) as [Hx E].
      split; [done|]. split; [lia|]. split; [lia|]. exists [ch], s. rewrite E. cbn. split; [do 2 f_equal; lia|done].
  - intros s n st Hn. destruct (Z.ltb_spec n 1); [done|]. destruct s as [|b s]; [cbn in Hn; lia|]. cbn [head mbind option_bind].
    pose proof (u8_range b) as Hb. destruct (Z.ltb_spec (u8 b) 128); [done|].
    destruct (lookup_lt_is_Some_2 (mbtoc16 ap) (Z.to_nat (u8 b - 128))) as [x ->]; [rewrite (to_dec ap Ht); lia|]. cbn. by destruct (x =? 0).
  - done.
  - destruct (encode_ok ap 0 Ht ltac:(lia)) as [(_ & ->)|[(? & _)|(? & _)]]; [done|lia..].
Qed.

Lemma asciiplus_ascii ap : table_ok ap -> AsciiCompatible (asciiplus_ctype ap).
Proof.
  intros Ht c Hc. cbn. unfold asciiplus_c32tomb. destruct (encode_ok ap c Ht ltac:(lia)) as [(_ & ->)|[(? & _)|(? & _)]]; [done|lia..].
Qed.

Definition asciiplus_tables : list asciiplus := [asciiplus_iso_8859_2; asciiplus_iso_8859_5; asciiplus_iso_8859_9; asciiplus_iso_8859_13; asciiplus_koi8_r; asciiplus_koi8_u; asciiplus_windows_874; asciiplus_windows_1250; asciiplus_windows_1251; asciiplus_windows_1252; asciiplus_windows_1253; asciiplus_windows_1254; asciiplus_windows_1255; asciiplus_windows_1256; asciiplus_windows_1257; asciiplus_windows_1258].

Lemma asciiplus_tables_ok : Forall table_ok asciiplus_tables.
Proof. apply list.Forall_forall. intros ap Hap. apply table_okb_ok. revert ap Hap. apply list.Forall_forall. repeat constructor; vm_compute; reflexivity. Qed.

(** *** IBM037 and ISO-8859-1 *)

Lemma ibm037_inverse i : 0 <= i < 256 -> exists b c, ibm037_encode !! Z.to_nat i = Some b /\ 0 <= b < 256 /\ ibm037_decode !! Z.to_nat b = Some i /\
  ibm037_decode !! Z.to_nat i = Some c /\ 0 <= c < 256 /\ ibm037_encode !! Z.to_nat c = Some i.
Proof.
  intros Hi. assert (H : forallb (fun i => match ibm037_encode !! i, ibm037_decode !! i with
    | Some b, Some c => (0 <=? b) && (b <? 256) && bool_decide (ibm037_decode !! Z.to_nat b = Some (Z.of_nat i)) &&
                        (0 <=? c) && (c <? 256) && bool_decide (ibm037_encode !! Z.to_nat c = Some (Z.of_nat i))
    | _, _ => false end) (seq 0 256) = true) by (vm_compute; reflexivity).
  rewrite forallb_forall in H. specialize (H (Z.to_nat i)). rewrite in_seq in H. specialize (H ltac:(lia)).
  destruct (ibm037_encode !! Z.to_nat i) as [b|]; [|done]. destruct (ibm037_decode !! Z.to_nat i) as [c|]; [|done].
  rewrite !andb_true_iff, !bool_decide_eq_true, Z2Nat.id in H by lia. destruct H as (((((? & ?) & ?) & ?) & ?) & ?). zprop.
  exists b, c. repeat (split; [done || lia|]). done.
Qed.

#[export] Instance ibm037_laws : CtypeLaws ctype_ibm037.
Proof.
  split; cbn [mbtoc32 c32tomb c32tomb_max ctype_ibm037]; unfold ibm037_c32tomb, ibm037_mbtoc32, UCHAR_MAX.
  - intros c bs H0. destruct (Z.ltb_spec 255 c); [done|]. destruct (ibm037_inverse c) as (b & x & -> & Hb & _); [lia|]. intros [= <-]. cbn.
    split; [lia|]. constructor; [|done]. unfold byte, in_unsigned. lia.
  - intros c bs rest n H0. destruct (Z.ltb_spec 255 c); [done|]. destruct (ibm037_inverse c) as (b & x & -> & Hb & Hd & _); [lia|].
    intros [= <-] Hn. cbn in Hn. rewrite (proj2 (Z.ltb_ge n 1)) by lia. cbn [head app mbind option_bind]. rewrite u8_of_byte by lia. by rewrite Hd.
  - intros s n l c st Hs. destruct (Z.ltb_spec n 1) as [|Hn]; [done|]. destruct s as [|ch s]; [done|]. cbn [head mbind option_bind].
    inversion Hs as [|? ? Hch _]; subst. unfold byte, in_unsigned in Hch. rewrite u8_of_byte by lia.
    destruct (ibm037_inverse ch) as (b & x & _ & _ & _ & -> & Hx & E); [lia|]. intros [= <- <- <-]. split; [done|]. split; [lia|]. split; [lia|].
    exists [ch], s. rewrite (proj2 (Z.ltb_ge 255 x)) by lia. by rewrite E.
  - intros s n st Hn. destruct (Z.ltb_spec n 1); [done|]. destruct s as [|b s]; [cbn in Hn; lia|]. cbn [head mbind option_bind].
    pose proof (u8_range b). destruct (ibm037_inverse (u8 b)) as (? & x & _ & _ & _ & -> & _); [lia|]. done.
  - done.
  - done.
Qed.

#[export] Instance iso_8859_1_laws : CtypeLaws ctype_iso_8859_1.
Proof.
  split; cbn [mbtoc32 c32tomb c32tomb_max ctype_iso_8859_1]; unfold iso_8859_1_c32tomb, iso_8859_1_mbtoc32, UCHAR_MAX.
  - intros c bs H0. destruct (Z.ltb_spec 255 c); [done|]. intros [= <-]. pose proof (u8_range c). cbn.
    split; [lia|]. constructor; [|done]. unfold byte, in_unsigned. lia.
  - intros c bs rest n H0. destruct (Z.ltb_spec 255 c); [done|]. intros [= <-] Hn. cbn in Hn. rewrite (proj2 (Z.ltb_ge n 1)) by lia.
    cbn [head app mbind option_bind]. rewrite (u8_of_byte c) by lia. by rewrite u8_of_byte by lia.
  - intros s n l c st Hs. destruct (Z.ltb_spec n 1) as [|Hn]; [done|]. destruct s as [|ch s]; [done|]. cbn [head mbind option_bind].
    inversion Hs as [|? ? Hch _]; subst. unfold byte, in_unsigned in Hch. rewrite u8_of_byte by lia. intros [= <- <- <-].
    split; [done|]. split; [lia|]. split; [lia|]. exists [ch], s. rewrite (proj2 (Z.ltb_ge 255 ch)), u8_of_byte by lia. done.
  - intros s n st Hn. destruct (Z.ltb_spec n 1); [done|]. by destruct s; [cbn in Hn; lia|].
  - done.
  - done.
Qed.

#[export] Instance iso_8859_1_ascii : AsciiCompatible ctype_iso_8859_1.
Proof. intros c Hc. cbn. unfold iso_8859_1_c32tomb, UCHAR_MAX. by rewrite (proj2 (Z.ltb_ge 255 c)), u8_of_byte by lia. Qed.

(** *** Decoding a byte at a time *)

Lemma asciiplus_bytewise ap : table_ok ap -> ByteWise (asciiplus_ctype ap).
Proof.
  intros Ht. pose proof (asciiplus_laws ap Ht). apply (single_byte_bytewise _); cbn [mbtoc32 asciiplus_ctype]; unfold asciiplus_mbtoc32.
  - intros b s n Hn. by rewrite (proj2 (Z.ltb_ge n 1)) by lia.
  - intros b st. simpl. destruct (_ <? _); [done|]. destruct (_ !! _); [simpl|done]. by destruct (_ =? _).
Qed.

#[export] Instance ibm037_bytewise : ByteWise ctype_ibm037.
Proof.
  apply (single_byte_bytewise _); cbn [mbtoc32 ctype_ibm037]; unfold ibm037_mbtoc32.
  - intros b s n Hn. by rewrite (proj2 (Z.ltb_ge n 1)) by lia.
  - intros b st. change (1 <? 1) with false. cbn [head mbind option_bind]. by destruct (_ !! _).
Qed.

#[export] Instance iso_8859_1_bytewise : ByteWise ctype_iso_8859_1.
Proof.
  apply (single_byte_bytewise _); cbn [mbtoc32 ctype_iso_8859_1]; unfold iso_8859_1_mbtoc32.
  - intros b s n Hn. by rewrite (proj2 (Z.ltb_ge n 1)) by lia.
  - intros b st. done.
Qed.

(** C31: the sixteen character sets of asciiplus.h, IBM037, ISO-8859-1, US-ASCII and UTF-8 satisfy the laws of a character
    set: encoding is total and within bounds, decoding inverts it and accepts nothing else, nothing outside the
    tables is read; they may be decoded a byte at a time; and all of them but IBM037 encode ASCII characters as
    themselves. *)
Theorem charsets_lawful :
  Forall (fun ap => CtypeLaws (asciiplus_ctype ap) /\ AsciiCompatible (asciiplus_ctype ap) /\ ByteWise (asciiplus_ctype ap) /\
    forall c, 0 <= c -> is_Some (asciiplus_encode ap c)) asciiplus_tables /\
  (CtypeLaws ctype_ibm037 /\ ByteWise ctype_ibm037) /\
  (CtypeLaws ctype_iso_8859_1 /\ AsciiCompatible ctype_iso_8859_1 /\ ByteWise ctype_iso_8859_1) /\
  (CtypeLaws ctype_us_ascii /\ AsciiCompatible ctype_us_ascii /\ ByteWise ctype_us_ascii) /\
  (CtypeLaws ctype_utf_8 /\ AsciiCompatible ctype_utf_8 /\ ByteWise ctype_utf_8).
Proof.
  split; [|split; [|split; [|split]]; repeat (apply conj); exact _]. eapply list.Forall_impl; [exact asciiplus_tables_ok|]. intros ap Ht.
  split; [by apply asciiplus_laws|]. split; [by apply asciiplus_ascii|].
  split; [by apply asciiplus_bytewise|]. intros c Hc.
  destruct (encode_ok ap c Ht Hc) as [(_ & ->)|[(_ & ->)|(_ & b & -> & _)]]; done.
Qed.

(** *** ISO-8859-15 *)

(** The decoder takes the replacement for every byte, since one of the two comparisons is always true: all bytes
    but the 27 from 0xa4 to 0xbe are looked up outside the table. *)
Lemma iso_8859_15_out_of_bounds b rest st : 0 <= b < 256 -> ~ (0xa4 <= b <= 0xbe) -> iso_8859_15_mbtoc32 (b :: rest) 1 st = None.
Proof.
  intros Hb Hr. unfold iso_8859_15_mbtoc32, replacement, ISO_8859_15_REPLACEMENTS_BASE. cbn [head mbind option_bind]. rewrite u8_of_byte by lia.
  change (Z.of_nat (length iso_8859_15_replacements)) with 27. change (1 <? 1) with false.
  assert ((164 <=? b) || (b <? 164 + 27) = true) as -> by (destruct (Z.leb_spec 164 b), (Z.ltb_spec b (164 + 27)); cbn; done || lia).
  destruct (Z.ltb_spec (b - 164) 0); [done|]. rewrite lookup_ge_None_2; [done|]. change (length iso_8859_15_replacements) with 27%nat. lia.
Qed.
