(* ===== verification/ThreadKeys.v ===== *)
(** * Thread-specific data

    Sources: src/libc/pthread/pthread_key_create.c, pthread_key_delete.c,
    pthread_getspecific.c, pthread_setspecific.c, the destructors of pthread_exit.c,
    and the data types of src/common/pthread.h with the lists of src/common/queue.h.

    A key is a pointer to an object that is never freed: a deleted key goes to a list,
    from which new keys are taken, and its generation is increased.  Every thread has a
    list of values; an entry whose generation is not that of its key belongs to a key
    that has been deleted, and is removed when a function comes across it.

    The calls of all threads interleave.  A call is one step: the list of free keys is
    accessed under a mutex, the list of values belongs to one thread, and a caller must
    not use a key while another deletes it.  Dereferencing a pointer that is not a key
    is undefined ([None]).

    The specification is a map from the keys in use to their destructors and one from
    threads and keys to values.  The theorems: every sequence of calls gives the results
    it gives on the maps, so that no value of a deleted key is ever seen again, not even
    when its memory is used for a new key; and an exiting thread calls the destructor
    of every value it has exactly once. *)

From S2P Require Import Prelude.

#[local] Open Scope Z_scope.

(** ** The program *)

(** struct __pthread_key; the link to the next free key is in the list. *)
Record keyobj := KeyObj { generation : Z; destructor : Z }.

(** struct pthread_specific. *)
Record specific := Specific { sp_key : Z; sp_value : Z; sp_generation : Z }.

Record kstate := KState {
  keys : gmap Z keyobj;
  freelist : list Z;
  specifics : gmap Z (list specific)
}.

Definition initial : kstate := KState ∅ [] ∅.

(** The list of a thread; it starts out empty. *)
Definition own (s : kstate) (t : Z) : list specific := default [] (specifics s !! t).

Definition with_own (s : kstate) (t : Z) (l : list specific) : kstate :=
  KState (keys s) (freelist s) (<[t := l]> (specifics s)).

(** The address of the static function do_nothing, any that is no destructor of a user. *)
Definition do_nothing : Z := -1.

(** What a call returns: an error number or 0, a key, or a value. *)
Inductive result := RInt (r : Z) | RKey (k : Z) | RValue (v : Z).

(** [m] is what malloc returns, if it is called. *)
Definition pthread_key_create (m : option Z) (d : Z) (s : kstate) : option (result * kstate) :=
  let d' := if d =? 0 then do_nothing else d in
  match freelist s with
  | [] =>
      match m with
      | None => Some (RInt ENOMEM, s)
      | Some p => Some (RKey p, KState (<[p := KeyObj 0 d']> (keys s)) [] (specifics s))
      end
  | p :: rest =>
      ko ← keys s !! p;
      Some (RKey p, KState (<[p := KeyObj (generation ko) d']> (keys s)) rest (specifics s))
  end.

Definition pthread_key_delete (key : Z) (s : kstate) : option (result * kstate) :=
  ko ← keys s !! key;
  Some (RInt 0, KState (<[key := KeyObj (u64 (generation ko + 1)) (destructor ko)]> (keys s)) (key :: freelist s) (specifics s)).

(** The entry that was found, and the list without it and without the entries of
    deleted keys before it. *)
Fixpoint getspecific_loop (K : gmap Z keyobj) (key : Z) (l : list specific) : option (option specific * list specific) :=
  match l with
  | [] => Some (None, [])
  | sp :: rest =>
      ko ← K !! sp_key sp;
      if negb (sp_generation sp =? generation ko) then getspecific_loop K key rest
      else if sp_key sp =? key then Some (Some sp, rest)
      else '(found, rest) ← getspecific_loop K key rest; Some (found, sp :: rest)
  end.

Definition pthread_getspecific (key t : Z) (s : kstate) : option (result * kstate) :=
  '(found, l) ← getspecific_loop (keys s) key (own s t);
  match found with
  | Some sp => Some (RValue (sp_value sp), with_own s t (sp :: l))
  | None => Some (RValue 0, with_own s t l)
  end.

(** The loops of pthread_setspecific look for the key first. *)
Fixpoint setspecific_loop (K : gmap Z keyobj) (key : Z) (l : list specific) : option (option specific * list specific) :=
  match l with
  | [] => Some (None, [])
  | sp :: rest =>
      if sp_key sp =? key then Some (Some sp, rest)
      else
        ko ← K !! sp_key sp;
        if negb (sp_generation sp =? generation ko) then setspecific_loop K key rest
        else '(found, rest) ← setspecific_loop K key rest; Some (found, sp :: rest)
  end.

(** An entry that is found is freed when the value is null, and updated otherwise. *)
Definition pthread_setspecific (m : option Z) (key value t : Z) (s : kstate) : option (result * kstate) :=
  '(found, l) ← setspecific_loop (keys s) key (own s t);
  if value =? 0 then Some (RInt 0, with_own s t l)
  else
    match found, m with
    | None, None => Some (RInt ENOMEM, with_own s t l)
    | _, _ =>
        ko ← keys s !! key;
        Some (RInt 0, with_own s t (Specific key value (generation ko) :: l))
    end.

Inductive call :=
  | Create (m : option Z) (d : Z)
  | Delete (k : Z)
  | Get (k : Z)
  | Set_ (m : option Z) (k v : Z).

Definition step (t : Z) (c : call) (s : kstate) : option (result * kstate) :=
  match c with
  | Create m d => pthread_key_create m d s
  | Delete k => pthread_key_delete k s
  | Get k => pthread_getspecific k t s
  | Set_ m k v => pthread_setspecific m k v t s
  end.

Definition PTHREAD_DESTRUCTOR_ITERATIONS : nat := 64.

Section Exit.
  (** What a destructor does to the state when it is called with a value, together with
      the other threads in the meantime. *)
  Context (call_destructor : Z -> Z -> kstate -> option kstate).

(** The inner loop of pthread_exit, over the list that was swapped out; the destructors
    it called, with their arguments. *)
Fixpoint destroy_specifics (l : list specific) (s : kstate) : option (list (Z * Z) * kstate) :=
  match l with
  | [] => Some ([], s)
  | sp :: rest =>
      ko ← keys s !! sp_key sp;
      if generation ko =? sp_generation sp then
        s ← call_destructor (destructor ko) (sp_value sp) s;
        '(log, s) ← destroy_specifics rest s;
        Some ((destructor ko, sp_value sp) :: log, s)
      else destroy_specifics rest s
  end.

Fixpoint exit_loop (iterations : nat) (t : Z) (s : kstate) : option (list (Z * Z) * kstate) :=
  match iterations with
  | O => Some ([], s)
  | S iterations =>
      match own s t with
      | [] => Some ([], s)
      | l =>
          '(log, s) ← destroy_specifics l (with_own s t []);
          '(log', s) ← exit_loop iterations t s;
          Some (log ++ log', s)
      end
  end.

(** The part of pthread_exit that is about thread-specific data; [None] when the
    assertion fails. *)
Definition pthread_exit_specifics (t : Z) (s : kstate) : option (list (Z * Z) * kstate) :=
  '(log, s) ← exit_loop PTHREAD_DESTRUCTOR_ITERATIONS t s;
  match own s t with
  | [] => Some (log, s)
  | _ => None
  end.

End Exit.

(** ** The specification *)

Record kspec := KSpec { live : gmap Z Z; values : gmap (Z * Z) Z }.

Definition spec_initial : kspec := KSpec ∅ ∅.

(** The results a call may have, and the state behind the call. *)
Definition allowed (t : Z) (c : call) (a : kspec) (r : result) : Prop :=
  match c with
  | Create m d => (exists k, r = RKey k /\ live a !! k = None) \/ (m = None /\ r = RInt ENOMEM)
  | Delete k => r = RInt 0
  | Get k => r = RValue (default 0 (values a !! (t, k)))
  | Set_ m k v => r = RInt 0 \/ (m = None /\ v <> 0 /\ values a !! (t, k) = None /\ r = RInt ENOMEM)
  end.

Definition after (t : Z) (c : call) (r : result) (a : kspec) : kspec :=
  match c, r with
  | Create _ d, RKey k => KSpec (<[k := if d =? 0 then do_nothing else d]> (live a)) (values a)
  | Delete k, _ => KSpec (delete k (live a)) (filter (fun p => p.1.2 <> k) (values a))
  | Set_ _ k v, RInt 0 =>
      KSpec (live a) (if v =? 0 then delete (t, k) (values a) else <[(t, k) := v]> (values a))
  | _, _ => a
  end.

Definition spec_step (t : Z) (c : call) (a : kspec) (r : result) (a' : kspec) : Prop :=
  allowed t c a r /\ a' = after t c r a.

(** What the callers owe: keys in use; and what malloc owes: memory that is not in
    use. *)
Definition legal (c : call) (s : kstate) (a : kspec) : Prop :=
  match c with
  | Create m _ => forall p, m = Some p -> keys s !! p = None
  | Delete k | Get k | Set_ _ k _ => is_Some (live a !! k)
  end.

(** ** The refinement *)

(** An entry that belongs to a key in use. *)
Definition current (K : gmap Z keyobj) (sp : specific) : Prop :=
  generation <$> K !! sp_key sp = Some (sp_generation sp).

#[global] Instance current_dec K sp : Decision (current K sp).
Proof. unfold current. apply _. Defined.

Record entry_ok (K : gmap Z keyobj) (L : gmap Z Z) (sp : specific) : Prop := {
  entry_key : exists ko, K !! sp_key sp = Some ko /\ 0 <= sp_generation sp <= generation ko;
  entry_value : sp_value sp <> 0;
  entry_live : current K sp -> is_Some (L !! sp_key sp)
}.

(** [n] is the number of deletions so far. *)
Record refines (n : Z) (s : kstate) (a : kspec) : Prop := {
  ref_free : NoDup (freelist s);
  ref_free_key k : k ∈ freelist s -> is_Some (keys s !! k) /\ live a !! k = None;
  ref_live k d : live a !! k = Some d -> exists g, keys s !! k = Some (KeyObj g d);
  ref_generation k ko : keys s !! k = Some ko -> 0 <= generation ko <= n;
  ref_entries t : Forall (entry_ok (keys s) (live a)) (own s t);
  ref_nodup t : NoDup (sp_key <$> own s t);
  ref_values t k v : values a !! (t, k) = Some v <->
    exists sp, sp ∈ own s t /\ current (keys s) sp /\ sp_key sp = k /\ sp_value sp = v
}.

(** What [refines] says of one thread. *)
Definition thread_ok (K : gmap Z keyobj) (L : gmap Z Z) (V : gmap (Z * Z) Z) (t : Z) (l : list specific) : Prop :=
  Forall (entry_ok K L) l /\ NoDup (sp_key <$> l) /\
  forall k v, V !! (t, k) = Some v <-> exists sp, sp ∈ l /\ current K sp /\ sp_key sp = k /\ sp_value sp = v.

Lemma refines_thread n s a t : refines n s a -> thread_ok (keys s) (live a) (values a) t (own s t).
Proof. intros H. split; [|split]; [apply H|apply H|intros; apply H]. Qed.

Lemma own_with_own s t l t' : own (with_own s t l) t' = if decide (t = t') then l else own s t'.
Proof. unfold own. cbn. case_decide; subst; [by rewrite lookup_insert_eq|by rewrite lookup_insert_ne]. Qed.

Lemma refines_with_own n s a t l V : refines n s a -> thread_ok (keys s) (live a) V t l ->
  (forall t' k, t' <> t -> V !! (t', k) = values a !! (t', k)) -> refines n (with_own s t l) (KSpec (live a) V).
Proof.
  intros H (He & Hd & Hv) HV. constructor; cbn; try apply H; intros t'; rewrite own_with_own; case_decide; subst; try done.
  - apply H.
  - apply H.
  - intros k v. rewrite HV by done. apply H.
Qed.

(** What the loops do: they drop entries of deleted keys and take out the one of the
    key. *)
Record scanned (K : gmap Z keyobj) (key : Z) (l : list specific) (found : option specific) (l' : list specific) : Prop := {
  scan_sub : option_list found ++ l' ⊆+ l;
  scan_keep x : x ∈ l -> current K x -> x ∈ option_list found ++ l';
  scan_found sp : found = Some sp -> sp_key sp = key;
  scan_none : found = None -> key ∉ sp_key <$> l'
}.

Lemma scanned_drop K key sp l found l' : ~ current K sp -> scanned K key l found l' -> scanned K key (sp :: l) found l'.
Proof.
  intros Hc [H1 H2 H3 H4]. constructor; [by constructor| |done|done].
  intros x [->|Hx]%elem_of_cons Hx'; [done|by apply H2].
Qed.

Lemma scanned_skip K key sp l found l' : sp_key sp <> key -> scanned K key l found l' -> scanned K key (sp :: l) found (sp :: l').
Proof.
  intros Hc [H1 H2 H3 H4]. constructor; [| |done|].
  - rewrite <- Permutation_middle. by constructor.
  - intros x Hx Hx'. rewrite <- Permutation_middle, elem_of_cons. apply elem_of_cons in Hx as [->|Hx]; [by left|right; by apply H2].
  - intros Hn. rewrite fmap_cons, not_elem_of_cons. split; [done|by apply H4].
Qed.

Lemma scanned_hit K key sp l : sp_key sp = key -> scanned K key (sp :: l) (Some sp) l.
Proof. intros Hk. constructor; [done|done|by intros ? [= <-]|done]. Qed.

Lemma stale_not_current K sp ko : K !! sp_key sp = Some ko -> (sp_generation sp =? generation ko) = false -> ~ current K sp.
Proof. intros Hk Hg. unfold current. rewrite Hk. cbn. intros [= Hc]. lia. Qed.

Lemma getspecific_loop_ok K L key l : Forall (entry_ok K L) l ->
  exists found l', getspecific_loop K key l = Some (found, l') /\ scanned K key l found l' /\
    forall sp, found = Some sp -> current K sp.
Proof.
  induction 1 as [|sp l He _ (found & l' & IH & Hs & Hc)]; cbn; [exists None, []; repeat split; try done; cbn; set_solver|].
  destruct (entry_key _ _ _ He) as (ko & Hk & Hg). rewrite Hk. cbn [mbind option_bind].
  destruct (sp_generation sp =? generation ko) eqn:Hgen; cbn [negb].
  - destruct (Z.eqb_spec (sp_key sp) key) as [Hkey|Hkey].
    + exists (Some sp), l. split; [done|]. split; [by apply scanned_hit|]. intros ? [= <-].
      unfold current. rewrite Hk. cbn. f_equal. lia.
    + rewrite IH. cbn [mbind option_bind]. exists found, (sp :: l'). split; [done|]. split; [by apply scanned_skip|done].
  - exists found, l'. split; [done|]. split; [|done]. eapply scanned_drop, Hs. by eapply stale_not_current.
Qed.

Lemma setspecific_loop_ok K L key l : Forall (entry_ok K L) l ->
  exists found l', setspecific_loop K key l = Some (found, l') /\ scanned K key l found l'.
Proof.
  induction 1 as [|sp l He _ (found & l' & IH & Hs)]; cbn; [exists None, []; repeat split; try done; cbn; set_solver|].
  destruct (Z.eqb_spec (sp_key sp) key) as [Hkey|Hkey]; [exists (Some sp), l; split; [done|by apply scanned_hit]|].
  destruct (entry_key _ _ _ He) as (ko & Hk & Hg). rewrite Hk. cbn [mbind option_bind].
  destruct (sp_generation sp =? generation ko) eqn:Hgen; cbn [negb].
  - rewrite IH. cbn [mbind option_bind]. exists found, (sp :: l'). split; [done|by apply scanned_skip].
  - exists found, l'. split; [done|]. eapply scanned_drop, Hs. by eapply stale_not_current.
Qed.

(** Garbage collection does not change what a list stands for. *)
Lemma thread_ok_shrink K L V t l l' : thread_ok K L V t l -> l' ⊆+ l -> (forall x, x ∈ l -> current K x -> x ∈ l') ->
  thread_ok K L V t l'.
Proof.
  intros (He & Hd & Hv) Hs Hk. split; [|split].
  - rewrite list.Forall_forall in He |- *. intros x Hx. apply He. by eapply elem_of_submseteq.
  - apply submseteq_Permutation in Hs as [m Hm]. rewrite Hm, fmap_app in Hd. by apply list.NoDup_app in Hd as [Hd _].
  - intros k v. rewrite Hv. split; intros (sp & Hin & Hc & Heq); exists sp; (split; [|done]).
    + by apply Hk.
    + by eapply elem_of_submseteq.
Qed.

(** The entry of the key is taken out, and with it the value. *)
Lemma thread_ok_remove K L V t l key found l' : thread_ok K L V t l -> scanned K key l found l' ->
  thread_ok K L (delete (t, key) V) t l' /\ key ∉ sp_key <$> l'.
Proof.
  intros Ht [H1 H2 H3 H4]. assert (Ht' : thread_ok K L V t (option_list found ++ l')) by by eapply thread_ok_shrink.
  destruct Ht' as (He & Hd & Hv).
  assert (Hn : key ∉ sp_key <$> l').
  { destruct found as [sp|]; [|by apply H4]. cbn in Hd. apply list.NoDup_cons in Hd as [Hd _]. by rewrite <- (H3 sp eq_refl). }
  split; [|done]. split; [|split].
  - by apply Forall_app in He as [_ He].
  - rewrite fmap_app in Hd. by apply list.NoDup_app in Hd as (_ & _ & Hd).
  - intros k v. destruct (decide (k = key)) as [->|Hk].
    + rewrite lookup_delete_eq. split; [done|]. intros (sp & Hin & _ & <- & _). destruct Hn. by apply list_elem_of_fmap_2.
    + rewrite lookup_delete_ne by congruence. rewrite Hv. split; intros (sp & Hin & Hc & Heq & Hval); exists sp; (split; [|done]).
      * apply elem_of_app in Hin as [Hin|Hin]; [|done]. destruct found as [sp'|]; [|set_solver].
        apply list_elem_of_singleton in Hin as ->. by rewrite (H3 sp' eq_refl) in Heq.
      * rewrite elem_of_app. by right.
Qed.

(** A new value for a key in use. *)
Lemma thread_ok_add K L V t l key ko value : thread_ok K L (delete (t, key) V) t l -> key ∉ sp_key <$> l ->
  K !! key = Some ko -> 0 <= generation ko -> is_Some (L !! key) -> value <> 0 ->
  thread_ok K L (<[(t, key) := value]> V) t (Specific key value (generation ko) :: l).
Proof.
  intros (He & Hd & Hv) Hn Hk Hg HL Hval.
  assert (Hc : current K (Specific key value (generation ko))) by (unfold current; cbn; by rewrite Hk).
  split; [|split].
  - constructor; [|done]. constructor; cbn; [exists ko; split; [done|lia]|done|done].
  - cbn. by constructor.
  - intros k v. destruct (decide (k = key)) as [->|Hne].
    + rewrite lookup_insert_eq. split; [intros [= <-]; eexists; split; [left|done]|].
      intros (sp & Hin & _ & Heq & <-). apply elem_of_cons in Hin as [->|Hin]; [done|].
      destruct Hn. rewrite <- Heq. by apply list_elem_of_fmap_2.
    + rewrite lookup_insert_ne by congruence. specialize (Hv k v). rewrite lookup_delete_ne in Hv by congruence. rewrite Hv.
      split; intros (sp & Hin & Hrest); exists sp; (split; [|done]); [by right|].
      apply elem_of_cons in Hin as [->|Hin]; [by destruct Hrest as (_ & ? & _)|done].
Qed.

(** [getspecific_loop] finds the value of the key. *)
Lemma thread_value K L V t l key found l' : thread_ok K L V t l -> scanned K key l found l' ->
  (forall sp, found = Some sp -> current K sp) -> default 0 (V !! (t, key)) = match found with Some sp => sp_value sp | None => 0 end.
Proof.
  intros (He & Hd & Hv) [H1 H2 H3 H4] Hc. destruct found as [sp|].
  - rewrite (proj2 (Hv key (sp_value sp))); [done|]. exists sp. split; [|split; [by apply Hc|split; [by apply H3|done]]].
    eapply elem_of_submseteq, H1. left.
  - destruct (V !! (t, key)) as [v|] eqn:HV; [|done]. apply Hv in HV as (sp & Hin & Hcur & Heq & _).
    destruct (H4 eq_refl). rewrite <- Heq. apply list_elem_of_fmap_2. by apply (H2 sp) in Hin.
Qed.

Lemma get_refines n s a t k : refines n s a ->
  exists r s', pthread_getspecific k t s = Some (r, s') /\ r = RValue (default 0 (values a !! (t, k))) /\ refines n s' a.
Proof.
  intros H. pose proof (refines_thread _ _ _ t H) as Ht. unfold pthread_getspecific.
  destruct (getspecific_loop_ok (keys s) (live a) k (own s t)) as (found & l' & -> & Hs & Hc); [apply H|]. cbn [mbind option_bind].
  rewrite (thread_value _ _ _ _ _ _ _ _ Ht Hs Hc).
  assert (Hr : refines n (with_own s t (option_list found ++ l')) (KSpec (live a) (values a))).
  { apply refines_with_own; [done| |done]. eapply thread_ok_shrink; [done|apply Hs|apply Hs]. }
  destruct a. destruct found; eexists _, _; (split; [done|]); split; done.
Qed.

Lemma set_refines n s a t m k v : refines n s a -> is_Some (live a !! k) ->
  exists r s' a', pthread_setspecific m k v t s = Some (r, s') /\ spec_step t (Set_ m k v) a r a' /\ refines n s' a'.
Proof.
  intros H [d Hl]. pose proof (refines_thread _ _ _ t H) as Ht. unfold pthread_setspecific.
  destruct (setspecific_loop_ok (keys s) (live a) k (own s t)) as (found & l' & -> & Hs); [apply H|]. cbn [mbind option_bind].
  destruct (thread_ok_remove _ _ _ _ _ _ _ _ Ht Hs) as [Hrem Hnot]. destruct (ref_live _ _ _ H _ _ Hl) as [g Hk].
  pose proof (ref_generation _ _ _ H _ _ Hk) as Hg. cbn in Hg. destruct (Z.eqb_spec v 0) as [->|Hv].
  { eexists _, _, _. split; [done|]. split; [split; [by left|reflexivity]|].
    apply (refines_with_own n s a t l' (delete (t, k) (values a)) H); [done|].
    intros t' k' Hne. by rewrite lookup_delete_ne by congruence. }
  assert (Hnew : forall r s', Some (RInt 0, with_own s t (Specific k v g :: l')) = Some (r, s') ->
    exists a', spec_step t (Set_ m k v) a r a' /\ refines n s' a').
  { intros r s' [= <- <-]. eexists. split; [split; [by left|]; cbn; rewrite (proj2 (Z.eqb_neq v 0) Hv); done|].
    apply refines_with_own; [done| |intros; by rewrite lookup_insert_ne by congruence].
    apply (thread_ok_add _ _ _ _ _ _ (KeyObj g d)); [done|done|done|cbn; lia|by exists d|done]. }
  rewrite Hk. cbn [mbind option_bind generation].
  assert (Hcase : (found = None /\ m = None) \/ found <> None \/ m <> None) by (destruct found, m; auto).
  destruct Hcase as [[-> ->]|Hcase].
  - eexists _, _, a. split; [done|]. destruct a as [L V]. split.
    + split; [|done]. right. repeat split; try done. destruct (V !! (t, k)) as [v'|] eqn:HV; [|done]. exfalso.
      apply Ht in HV as (sp & Hin & Hcur & Heq & _). destruct Hnot. rewrite <- Heq. apply list_elem_of_fmap_2.
      by apply (scan_keep _ _ _ _ _ Hs sp) in Hin.
    + apply (refines_with_own n s (KSpec L V) t l' V H); [|done]. eapply thread_ok_shrink; [done|apply (scan_sub _ _ _ _ _ Hs)|apply (scan_keep _ _ _ _ _ Hs)].
  - destruct (Hnew _ _ eq_refl) as (a' & H1 & H2). eexists _, _, a'. split; [|by split].
    destruct found, m; try done. by destruct Hcase.
Qed.

(** Objects of keys may change as long as no entry becomes one of another key. *)
Lemma thread_ok_keys K L V K' L' V' t l : thread_ok K L V t l ->
  (forall sp ko, sp ∈ l -> K !! sp_key sp = Some ko -> exists ko', K' !! sp_key sp = Some ko' /\ generation ko <= generation ko') ->
  (forall sp, sp ∈ l -> current K' sp -> current K sp /\ (is_Some (L !! sp_key sp) -> is_Some (L' !! sp_key sp))) ->
  (forall k v, V' !! (t, k) = Some v <-> V !! (t, k) = Some v /\ forall sp, sp ∈ l -> sp_key sp = k -> current K sp -> current K' sp) ->
  thread_ok K' L' V' t l.
Proof.
  intros (He & Hd & Hv) HK HL HV. split; [|split]; [|done|].
  - rewrite list.Forall_forall in He |- *. intros sp Hsp. destruct (He sp Hsp) as [(ko & Hk & Hg) Hval Hlive].
    destruct (HK sp ko Hsp Hk) as (ko' & Hk' & Hle). constructor; [exists ko'; split; [done|lia]|done|].
    intros Hc. destruct (HL sp Hsp Hc) as [Hc' Himp]. auto.
  - intros k v. rewrite HV, Hv. split.
    + intros [(sp & Hin & Hc & Heq) Hall]. exists sp. split; [done|]. split; [|done]. apply Hall; tauto.
    + intros (sp & Hin & Hc & <- & <-). destruct (HL sp Hin Hc) as [Hc' _]. split; [by exists sp|].
      intros sp' Hin' Heq _. unfold current in *. rewrite Heq.
      assert (sp' = sp) as ->; [|done]. apply list_elem_of_lookup in Hin as [i Hi]. apply list_elem_of_lookup in Hin' as [j Hj].
      enough (i = j) by congruence. eapply NoDup_lookup; [exact Hd|rewrite list_lookup_fmap, Hi; done|].
      rewrite list_lookup_fmap, Hj. cbn. by rewrite Heq.
Qed.

(** A free key is not current in any list. *)
Lemma free_not_current n s a k t sp : refines n s a -> live a !! k = None -> sp ∈ own s t -> sp_key sp = k -> ~ current (keys s) sp.
Proof.
  intros H Hl Hin <- Hc. pose proof (ref_entries _ _ _ H t) as He. rewrite list.Forall_forall in He.
  destruct (entry_live _ _ _ (He sp Hin) Hc) as [d Hd]. congruence.
Qed.

Lemma current_insert_ne K k ko sp : sp_key sp <> k -> current (<[k := ko]> K) sp <-> current K sp.
Proof. intros Hne. unfold current. by rewrite lookup_insert_ne. Qed.

(** A new key, from malloc or from the list of free keys. *)
Lemma create_key n s a k g d rest : refines n s a -> live a !! k = None -> 0 <= g <= n ->
  (forall ko, keys s !! k = Some ko -> generation ko = g) -> NoDup rest -> k ∉ rest -> (forall k', k' ∈ rest -> k' ∈ freelist s) ->
  refines n (KState (<[k := KeyObj g d]> (keys s)) rest (specifics s)) (KSpec (<[k := d]> (live a)) (values a)).
Proof.
  intros H Hl Hg Hold Hd Hk Hrest.
  assert (Ht : forall t, thread_ok (<[k := KeyObj g d]> (keys s)) (<[k := d]> (live a)) (values a) t (own s t)).
  { intros t. pose proof (refines_thread _ _ _ t H) as Ht.
    assert (Hcur : forall sp, sp ∈ own s t -> current (<[k := KeyObj g d]> (keys s)) sp <-> current (keys s) sp).
    { intros sp Hin. destruct (decide (sp_key sp = k)) as [Heq|Hne]; [|by apply current_insert_ne].
      destruct Ht as [He _]. rewrite list.Forall_forall in He. destruct (entry_key _ _ _ (He sp Hin)) as (ko & Hko & _).
      unfold current. rewrite Heq in *. by rewrite lookup_insert_eq, Hko; cbn; rewrite (Hold ko Hko). }
    eapply thread_ok_keys; [exact Ht| | |].
    - intros sp ko Hin Hko. destruct (decide (sp_key sp = k)) as [Heq|Hne].
      + rewrite Heq in *. exists (KeyObj g d). rewrite lookup_insert_eq. split; [done|]. cbn. by rewrite (Hold ko Hko).
      + exists ko. by rewrite lookup_insert_ne.
    - intros sp Hin Hc. split; [by apply Hcur|]. intros Hsome. destruct (decide (sp_key sp = k)) as [->|Hne];
        [rewrite lookup_insert_eq; done|by rewrite lookup_insert_ne].
    - intros k' v. split; [|tauto]. intros HV. split; [done|]. intros sp Hin _. apply Hcur, Hin. }
  constructor; cbn; [done| | | | | |].
  - intros k' Hk'. assert (k' <> k) by congruence. rewrite !lookup_insert_ne by done. by apply H, Hrest.
  - intros k' d'. destruct (decide (k = k')) as [->|Hne]; [rewrite !lookup_insert_eq; intros [= <-]; eauto|].
    rewrite !lookup_insert_ne by done. apply H.
  - intros k' ko. destruct (decide (k = k')) as [->|Hne]; [rewrite lookup_insert_eq; intros [= <-]; done|].
    rewrite lookup_insert_ne by done. apply H.
  - intros t. apply Ht.
  - intros t. apply Ht.
  - intros t. apply Ht.
Qed.

Lemma create_refines n s a t m d : 0 <= n -> refines n s a -> legal (Create m d) s a ->
  exists r s' a', pthread_key_create m d s = Some (r, s') /\ spec_step t (Create m d) a r a' /\ refines n s' a'.
Proof.
  intros Hn H Hm. unfold pthread_key_create. pose proof (ref_free _ _ _ H) as Hd. pose proof (ref_free_key _ _ _ H) as Hf.
  destruct (freelist s) as [|p rest] eqn:Hfree.
  - destruct m as [p|]; [|by exists (RInt ENOMEM), s, a; split; [done|]; split; [by split; [right|]|]].
    cbn in Hm. specialize (Hm p eq_refl).
    assert (Hl : live a !! p = None).
    { destruct (live a !! p) as [d'|] eqn:Hl; [|done]. destruct (ref_live _ _ _ H _ _ Hl) as [g Hg]. congruence. }
    eexists _, _, _. split; [done|]. split; [split; [left; exists p; done|done]|].
    apply create_key; [done|done|lia|congruence|constructor|by apply not_elem_of_nil|by rewrite Hfree].
  - destruct (Hf p ltac:(left)) as [[ko Hko] Hl]. rewrite Hko. cbn [mbind option_bind].
    eexists _, _, _. split; [done|]. split; [split; [left; exists p; done|done]|]. apply list.NoDup_cons in Hd as [Hp Hd].
    apply create_key; [done|done|by eapply (ref_generation _ _ _ H)|intros ko' Hko'; congruence|done|done|].
    intros k' Hk'. rewrite Hfree. by right.
Qed.

Lemma delete_refines n s a t k : n + 1 < 2 ^ 64 -> refines n s a -> is_Some (live a !! k) ->
  exists r s' a', pthread_key_delete k s = Some (r, s') /\ spec_step t (Delete k) a r a' /\ refines (n + 1) s' a'.
Proof.
  intros Hn H [d Hl]. destruct (ref_live _ _ _ H _ _ Hl) as [g Hk]. pose proof (ref_generation _ _ _ H _ _ Hk) as Hg. cbn in Hg.
  unfold pthread_key_delete. rewrite Hk. cbn [mbind option_bind generation destructor].
  assert (Hu : u64 (g + 1) = g + 1) by (apply Z.mod_small; lia). rewrite Hu.
  eexists _, _, _. split; [done|]. split; [split; reflexivity|].
  set (K' := <[k := KeyObj (g + 1) d]> (keys s)).
  assert (Hnk : forall t sp, sp ∈ own s t -> sp_key sp = k -> ~ current K' sp).
  { intros t' sp Hin Heq. pose proof (ref_entries _ _ _ H t') as He. rewrite list.Forall_forall in He.
    destruct (entry_key _ _ _ (He sp Hin)) as (ko & Hko & Hle). rewrite Heq, Hk in Hko. injection Hko as <-. cbn in Hle.
    unfold current, K'. rewrite Heq, lookup_insert_eq. cbn. intros [= Hc]. lia. }
  assert (Ht : forall t, thread_ok K' (delete k (live a)) (filter (fun p => p.1.2 <> k) (values a)) t (own s t)).
  { intros t'. pose proof (refines_thread _ _ _ t' H) as Ht. eapply thread_ok_keys; [exact Ht| | |]; unfold K'.
    - intros sp ko Hin Hko. destruct (decide (sp_key sp = k)) as [Heq|Hne].
      + rewrite Heq in *. exists (KeyObj (g + 1) d). rewrite lookup_insert_eq. split; [done|]. rewrite Hk in Hko. injection Hko as <-. cbn. lia.
      + exists ko. by rewrite lookup_insert_ne.
    - intros sp Hin Hc. destruct (decide (sp_key sp = k)) as [Heq|Hne]; [by destruct (Hnk t' sp Hin Heq)|].
      split; [by apply current_insert_ne in Hc|]. by rewrite lookup_delete_ne.
    - intros k' v. rewrite map_lookup_filter_Some. cbn. split.
      + intros [HV Hne]. split; [done|]. intros sp Hin Heq Hc. apply current_insert_ne; [by rewrite Heq|done].
      + intros [HV Hall]. split; [done|]. intros ->. apply Ht in HV as (sp & Hin & Hc & Heq & _). by apply (Hnk t' sp Hin Heq), Hall. }
  constructor; cbn; [| | | | | |]; try (intros t'; apply Ht).
  - constructor; [|apply H]. intros Hin. apply (ref_free_key _ _ _ H) in Hin as [_ Hin]. congruence.
  - intros k' [->|Hin]%elem_of_cons; [by unfold K'; rewrite lookup_insert_eq, lookup_delete_eq|].
    apply (ref_free_key _ _ _ H) in Hin as [Hs Hn']. assert (k' <> k) by congruence.
    unfold K'. by rewrite lookup_insert_ne, lookup_delete_ne.
  - intros k' d' [Hne Hk']%lookup_delete_Some. unfold K'. rewrite lookup_insert_ne by done. by apply H.
  - intros k' ko. unfold K'. destruct (decide (k = k')) as [->|Hne]; [rewrite lookup_insert_eq; intros [= <-]; cbn; lia|].
    rewrite lookup_insert_ne by done. intros Hk'. apply (ref_generation _ _ _ H) in Hk'. lia.
Qed.

Lemma step_refines n s a t c : 0 <= n -> n + 1 < 2 ^ 64 -> refines n s a -> legal c s a ->
  exists r s' a', step t c s = Some (r, s') /\ spec_step t c a r a' /\
    refines (match c with Delete _ => n + 1 | _ => n end) s' a'.
Proof.
  intros Hn Hlt H Hleg. destruct c as [m d|k|k|m k v]; cbn in Hleg |- *.
  - by apply (create_refines n s a t).
  - by apply (delete_refines n s a t).
  - destruct (get_refines n s a t k H) as (r & s' & H1 & H2 & H3). exists r, s', a. by split; [|split; [split|]].
  - by apply set_refines.
Qed.

(** The calls of all threads so far, the state they have led to and what the callers
    know from the results.  Only the callers' obligations refer to the latter. *)
Inductive execution : list (Z * call * result) -> kstate -> kspec -> Prop :=
  | execution_start : execution [] initial spec_initial
  | execution_call h s a t c r s' : execution h s a -> legal c s a -> step t c s = Some (r, s') ->
      execution (h ++ [(t, c, r)]) s' (after t c r a).

Lemma initial_refines : refines 0 initial spec_initial.
Proof.
  constructor; cbn; [constructor|set_solver|done|done|constructor|constructor|].
  intros t k v. split; [done|]. intros (sp & Hin & _). by apply not_elem_of_nil in Hin.
Qed.

Lemma execution_refines h s a : execution h s a -> Z.of_nat (length h) < 2 ^ 64 ->
  exists n, 0 <= n <= Z.of_nat (length h) /\ refines n s a.
Proof.
  induction 1 as [|h s a t c r s' _ IH Hleg Hstep]; intros Hlen; [exists 0; split; [cbn; lia|apply initial_refines]|].
  rewrite length_app in *. cbn in Hlen |- *. destruct IH as (n & Hn & Hr); [lia|].
  destruct (step_refines n s a t c) as (r' & s1 & a1 & Hs & [Ha ->] & Hr'); [lia|lia|done|done|].
  rewrite Hs in Hstep. injection Hstep as -> ->. eexists; split; [|exact Hr']. destruct c; lia.
Qed.

(** C33: thread-specific data is a map.  After any interleaving of fewer than 2^64 - 1
    calls of any threads, in which keys are only used between their creation and their
    deletion, the next call returns without undefined behaviour, and with a result that
    the maps allow: pthread_key_create returns a key that is not in use, or ENOMEM and
    then malloc has failed; pthread_getspecific returns the value the thread has set
    last under this key since its creation, or null, whatever values deleted keys had at
    the same address; pthread_setspecific fails only when it needs memory and there is
    none, and then the value is still null. *)
Theorem keys_refine_maps h s a t c :
  execution h s a -> Z.of_nat (length h) < 2 ^ 64 - 1 -> legal c s a ->
  exists r s', step t c s = Some (r, s') /\ allowed t c a r /\ execution (h ++ [(t, c, r)]) s' (after t c r a).
Proof.
  intros Hx Hlen Hleg. destruct (execution_refines h s a Hx) as (n & Hn & Hr); [lia|].
  destruct (step_refines n s a t c) as (r & s' & a' & Hs & [Ha _] & _); [lia|lia|done|done|].
  exists r, s'. split; [done|]. split; [done|]. by econstructor.
Qed.

(** Thread 1 sets a value, thread 2 deletes the key and gets a new one at the same
    address: thread 1 finds no value under it. *)
Definition reuse_history : list (Z * call * result) :=
  [(1, Create (Some 64) 0, RKey 64); (1, Set_ (Some 96) 64 7, RInt 0); (2, Delete 64, RInt 0); (2, Create None 5, RKey 64)].

Lemma keys_refine_maps_witness : exists s a, execution reuse_history s a /\
  exists r s', step 1 (Get 64) s = Some (r, s') /\ allowed 1 (Get 64) a r /\
    execution (reuse_history ++ [(1, Get 64, r)]) s' (after 1 (Get 64) r a).
Proof.
  pose proof (execution_call _ _ _ 1 (Create (Some 64) 0) (RKey 64) _ execution_start ltac:(done) eq_refl) as H1.
  pose proof (execution_call _ _ _ 1 (Set_ (Some 96) 64 7) (RInt 0) _ H1 ltac:(by eexists) eq_refl) as H2.
  pose proof (execution_call _ _ _ 2 (Delete 64) (RInt 0) _ H2 ltac:(by eexists) eq_refl) as H3.
  pose proof (execution_call _ _ _ 2 (Create None 5) (RKey 64) _ H3 ltac:(done) eq_refl) as H4.
  eexists _, _. split; [exact H4|]. apply (keys_refine_maps reuse_history _ _ 1 (Get 64) H4); [cbn; lia|by eexists].
Defined.

(** ** Thread exit *)

(** The keys of [L] are left alone, the others may be deleted and created. *)
Definition keys_kept (L : gmap Z Z) (K K' : gmap Z keyobj) : Prop :=
  forall k ko, K !! k = Some ko ->
    exists ko', K' !! k = Some ko' /\ generation ko <= generation ko' /\ (is_Some (L !! k) -> ko' = ko).

(** Destructors that leave no values behind and leave the keys alone. *)
Definition tame (call_destructor : Z -> Z -> kstate -> option kstate) (t : Z) (L : gmap Z Z) : Prop :=
  forall d v s, own s t = [] ->
    exists s', call_destructor d v s = Some s' /\ own s' t = [] /\ keys_kept L (keys s) (keys s').

#[global] Instance keys_kept_preorder L : PreOrder (keys_kept L).
Proof.
  split.
  - intros K k ko Hk. exists ko. split; [done|]. split; [lia|done].
  - intros K1 K2 K3 H1 H2 k ko Hk. destruct (H1 k ko Hk) as (ko' & Hk' & Hle & Heq). destruct (H2 k ko' Hk') as (ko2 & Hk2 & Hle2 & Heq2).
    exists ko2. split; [done|]. split; [lia|]. intros Hl. rewrite Heq2, Heq by done. done.
Qed.

(** The destructor calls for a list, when all keys are as they are in [K]. *)
Definition destructions (K : gmap Z keyobj) (l : list specific) : list (Z * Z) :=
  (fun sp => (from_option destructor 0 (K !! sp_key sp), sp_value sp)) <$> filter (current K) l.

Lemma destroy_specifics_ok call_destructor t L K l s : tame call_destructor t L -> keys_kept L K (keys s) ->
  Forall (entry_ok K L) l -> own s t = [] ->
  exists s', destroy_specifics call_destructor l s = Some (destructions K l, s') /\ own s' t = [] /\ keys_kept L K (keys s').
Proof.
  intros Htame HK Hl. revert s HK. induction Hl as [|sp l He _ IH]; intros s HK Hown; [by exists s|].
  destruct (entry_key _ _ _ He) as (ko & Hko & Hg). destruct (HK _ _ Hko) as (ko' & Hko' & Hle & Hsame).
  cbn [destroy_specifics]. rewrite Hko'. cbn [mbind option_bind]. unfold destructions. destruct (decide (current K sp)) as [Hc|Hc].
  - rewrite filter_cons_True by done. rewrite fmap_cons, Hko. cbn [from_option].
    rewrite (Hsame (entry_live _ _ _ He Hc)). unfold current in Hc. rewrite Hko in Hc. injection Hc as Hc.
    rewrite (proj2 (Z.eqb_eq _ _) Hc). destruct (Htame (destructor ko) (sp_value sp) s Hown) as (s1 & -> & Hown1 & HK1).
    cbn [mbind option_bind]. destruct (IH s1) as (s2 & -> & Hs2); [by etrans|done|]. cbn [mbind option_bind]. by exists s2.
  - rewrite filter_cons_False by done. unfold current in Hc. rewrite Hko in Hc. cbn in Hc.
    rewrite (proj2 (Z.eqb_neq _ _)); [by apply IH|]. intros Heq. apply Hc. f_equal. lia.
Qed.

(** The entries of keys in use are the values of the thread. *)
Lemma current_values n s a t : refines n s a ->
  (fun sp => ((t, sp_key sp), sp_value sp)) <$> filter (current (keys s)) (own s t)
    ≡ₚ map_to_list (filter (fun p => p.1.1 = t) (values a)).
Proof.
  intros H. destruct (refines_thread _ _ _ t H) as (_ & Hd & Hv). apply NoDup_Permutation.
  - apply (NoDup_fmap_1 (fun p : Z * Z * Z => p.1.2)). rewrite <- list_fmap_compose. cbn.
    eapply sublist_NoDup; [exact Hd|]. apply fmap_sublist, sublist_filter.
  - apply NoDup_map_to_list.
  - intros [[t' k] v]. rewrite elem_of_map_to_list, map_lookup_filter_Some, list_elem_of_fmap. cbn. split.
    + intros (sp & [= -> -> ->] & Hin). apply list_elem_of_filter in Hin as [Hc Hin]. split; [|done]. apply Hv. by exists sp.
    + intros [HV ->]. apply Hv in HV as (sp & Hin & Hc & <- & <-). exists sp. split; [done|]. by apply list_elem_of_filter.
Qed.

(** An exiting thread destroys its values.  When the destructors (and the other threads
    meanwhile) store no new values for the thread and leave the keys alone that were in
    use, pthread_exit calls exactly the destructors of the values the thread had, each
    once and with the value, none of a deleted key, and the assertion that no
    values are left holds. *)
Theorem exit_destroys_values n s a t call_destructor :
  refines n s a -> tame call_destructor t (live a) ->
  exists log s', pthread_exit_specifics call_destructor t s = Some (log, s') /\ own s' t = [] /\
    log ≡ₚ (fun p => (default 0 (live a !! p.1.2), p.2)) <$> map_to_list (filter (fun p => p.1.1 = t) (values a)).
Proof.
  intros H Htame. pose proof (ref_entries _ _ _ H t) as He.
  destruct (destroy_specifics_ok call_destructor t (live a) (keys s) (own s t) (with_own s t []) Htame) as (s' & Hs' & Hown & _);
    [done|done|by rewrite own_with_own, decide_True|].
  assert (Hlog : destructions (keys s) (own s t) ≡ₚ (fun p => (default 0 (live a !! p.1.2), p.2)) <$> map_to_list (filter (fun p => p.1.1 = t) (values a))).
  { rewrite <- (current_values n s a t H). rewrite <- list_fmap_compose. unfold destructions.
    erewrite list_fmap_ext; [reflexivity|]. intros i sp Hi. cbn. f_equal. apply list_elem_of_lookup_2, list_elem_of_filter in Hi as [Hc Hin].
    rewrite list.Forall_forall in He. destruct (entry_live _ _ _ (He sp Hin) Hc) as [d Hd].
    destruct (ref_live _ _ _ H _ _ Hd) as [g Hg]. by rewrite Hg, Hd. }
  unfold pthread_exit_specifics, PTHREAD_DESTRUCTOR_ITERATIONS. cbn [exit_loop]. destruct (own s t) as [|sp l] eqn:Hl.
  - cbn [mbind option_bind]. rewrite Hl. exists [], s. by repeat split.
  - rewrite Hs'. cbn [mbind option_bind]. rewrite Hown. cbn [mbind option_bind]. rewrite Hown, app_nil_r.
    eexists _, _. by repeat split.
Qed.

(** Two values, one of a key that another thread deletes: only the destructor 5 of the other
    is called, which reads its key. *)
Lemma exit_destroys_values_witness : exists n s a log s',
  refines n s a /\ pthread_exit_specifics (fun _ _ s => snd <$> step 1 (Get 64) s) 1 s = Some (log, s') /\ log ≡ₚ [(5, 7)].
Proof.
  pose proof (execution_call _ _ _ 1 (Create (Some 64) 5) (RKey 64) _ execution_start ltac:(done) eq_refl) as H1.
  pose proof (execution_call _ _ _ 1 (Set_ (Some 96) 64 7) (RInt 0) _ H1 ltac:(by eexists) eq_refl) as H2.
  pose proof (execution_call _ _ _ 1 (Create (Some 65) 6) (RKey 65) _ H2 ltac:(by intros ? [= <-]) eq_refl) as H3.
  pose proof (execution_call _ _ _ 1 (Set_ (Some 97) 65 8) (RInt 0) _ H3 ltac:(by eexists) eq_refl) as H4.
  pose proof (execution_call _ _ _ 2 (Delete 65) (RInt 0) _ H4 ltac:(by eexists) eq_refl) as H5.
  destruct (execution_refines _ _ _ H5) as (n & _ & Hr); [cbn; lia|].
  destruct (exit_destroys_values n _ _ 1 (fun _ _ s => snd <$> step 1 (Get 64) s) Hr) as (log & s' & Hx & _ & Hlog).
  - intros d v s Hown. cbn [step]. unfold pthread_getspecific. rewrite Hown. exists (with_own s 1 []). split; [reflexivity|].
    split; [by rewrite own_with_own, decide_True|]. cbn. reflexivity.
  - eexists n, _, _, log, s'. split; [exact Hr|]. split; [exact Hx|]. exact Hlog.
Defined.

(** A destructor that always stores a new value is called until the assertion fails. *)
Lemma exit_assertion_fails : exists s a, execution [(1, Create (Some 64) 5, RKey 64); (1, Set_ (Some 96) 64 7, RInt 0)] s a /\
  pthread_exit_specifics (fun _ _ s => snd <$> step 1 (Set_ (Some 97) 64 7) s) 1 s = None.
Proof.
  pose proof (execution_call _ _ _ 1 (Create (Some 64) 5) (RKey 64) _ execution_start ltac:(done) eq_refl) as H1.
  pose proof (execution_call _ _ _ 1 (Set_ (Some 96) 64 7) (RInt 0) _ H1 ltac:(by eexists) eq_refl) as H2.
  eexists _, _. split; [exact H2|]. vm_compute. reflexivity.
Qed.
