(* ===== verification/Barrier.v ===== *)
(** * Barriers

    Sources: src/libc/pthread/pthread_barrier_init.c, pthread_barrier_wait.c,
    pthread_barrier_destroy.c and pthread_cond_broadcast.c.

    A barrier is a monitor: a mutex, a condition variable, the number of threads that
    have yet to come and a generation, by which the threads that wait see that all
    have come.  The threads interleave at every lock, unlock, wait and broadcast, and
    the condition variable is the interface [Condvar] of [Semaphore].

    The rounds of the barrier are counted by [b_round], which the code does not have:
    its generation is that number modulo 2^32.  Together with [b_arrived], the number
    of calls that have entered, it only serves to state the theorems: nobody passes
    before as many threads have come as the barrier was made for, one thread of a round
    is told that it is the last, and no thread sleeps on when its round is over. *)

From S2P Require Import Prelude Semaphore.

#[local] Open Scope Z_scope.

(** ** The program *)

Definition PTHREAD_BARRIER_SERIAL_THREAD : Z := -1.

Record barrier := MkBarrier {
  b_owner : option Z;
  b_cond : condvar;
  b_init : Z;
  b_remaining : Z;
  b_generation : Z;
  b_round : Z;
  b_arrived : Z
}.

(** Where a thread is; [generation] is the local variable of the code and [round] the
    round it belongs to.  [BIdle] has the result of the last call. *)
Inductive bpc :=
  | BIdle (last : option (Z * Z))
  | BLock
  | BBody
  | BAsleep (generation round : Z)
  | BRelock (generation round : Z)
  | BCheck (generation round : Z)
  | BUnlock (r round : Z)
  | BBroadcast (round : Z).

Record bstate := BState { bs_barrier : barrier; bs_threads : gmap Z bpc }.

(** The code behind pthread_mutex_lock up to the unlock or the wait: the new values of
    __remaining and __generation, and the generation to wait for the end of. *)
Definition barrier_wait_body (init remaining generation : Z) : Z * Z * option Z :=
  if remaining =? 0 then (init, u32 (generation + 1), None)
  else (u32 (remaining - 1), generation, Some generation).

(** The assertion; the destruction of the mutex and of the condition variable does
    nothing to their state. *)
Definition pthread_barrier_destroy (b : barrier) : option Z :=
  if b_remaining b =? b_init b then Some 0 else None.

Definition set_owner (o : option Z) (b : barrier) : barrier :=
  MkBarrier o (b_cond b) (b_init b) (b_remaining b) (b_generation b) (b_round b) (b_arrived b).
Definition set_cond (c : condvar) (b : barrier) : barrier :=
  MkBarrier (b_owner b) c (b_init b) (b_remaining b) (b_generation b) (b_round b) (b_arrived b).
Definition set_counts (remaining generation round : Z) (b : barrier) : barrier :=
  MkBarrier (b_owner b) (b_cond b) (b_init b) remaining generation round (b_arrived b + 1).
Definition upd (s : bstate) (b : barrier) (t : Z) (p : bpc) : bstate := BState b (<[t := p]> (bs_threads s)).

Section Barrier.
  Context `{Condvar}.

Definition pthread_barrier_init (count : Z) : Z + barrier :=
  if count =? 0 then inl EINVAL
  else inr (MkBarrier None (CondVar HAS_NO_WAITERS []) (u32 (count - 1)) (u32 (count - 1)) 0 0 0).

(** The kernel is only called when somebody waits. *)
Definition pthread_cond_broadcast (c c' : condvar) : Prop :=
  if cv_waiters c =? HAS_NO_WAITERS then c' = c else cond CBroadcast c c'.

(** The steps of pthread_barrier_wait, of its callers and of the kernel. *)
Inductive bstep (s : bstate) : bstate -> Prop :=
  | bstep_call t last : bs_threads s !! t = Some (BIdle last) ->
      bstep s (upd s (bs_barrier s) t BLock)
  | bstep_lock t p p' : bs_threads s !! t = Some p -> b_owner (bs_barrier s) = None ->
      match p with
      | BLock => p' = BBody
      | BRelock generation round => p' = BCheck generation round
      | _ => False
      end ->
      bstep s (upd s (set_owner (Some t) (bs_barrier s)) t p')
  | bstep_last t remaining generation : bs_threads s !! t = Some BBody -> b_owner (bs_barrier s) = Some t ->
      barrier_wait_body (b_init (bs_barrier s)) (b_remaining (bs_barrier s)) (b_generation (bs_barrier s))
        = (remaining, generation, None) ->
      bstep s (upd s (set_counts remaining generation (b_round (bs_barrier s) + 1) (bs_barrier s)) t
        (BUnlock PTHREAD_BARRIER_SERIAL_THREAD (b_round (bs_barrier s))))
  | bstep_wait t remaining generation g c : bs_threads s !! t = Some BBody -> b_owner (bs_barrier s) = Some t ->
      barrier_wait_body (b_init (bs_barrier s)) (b_remaining (bs_barrier s)) (b_generation (bs_barrier s))
        = (remaining, generation, Some g) ->
      cond (CSleep t) (b_cond (bs_barrier s)) c ->
      bstep s (upd s (set_owner None (set_cond c (set_counts remaining generation (b_round (bs_barrier s)) (bs_barrier s)))) t
        (BAsleep g (b_round (bs_barrier s))))
  | bstep_again t g r c : bs_threads s !! t = Some (BCheck g r) -> b_owner (bs_barrier s) = Some t ->
      g = b_generation (bs_barrier s) -> cond (CSleep t) (b_cond (bs_barrier s)) c ->
      bstep s (upd s (set_owner None (set_cond c (bs_barrier s))) t (BAsleep g r))
  | bstep_passed t g r : bs_threads s !! t = Some (BCheck g r) -> b_owner (bs_barrier s) = Some t ->
      g <> b_generation (bs_barrier s) ->
      bstep s (upd s (bs_barrier s) t (BUnlock 0 r))
  | bstep_unlock t ret r : bs_threads s !! t = Some (BUnlock ret r) -> b_owner (bs_barrier s) = Some t ->
      bstep s (upd s (set_owner None (bs_barrier s)) t
        (if ret =? PTHREAD_BARRIER_SERIAL_THREAD then BBroadcast r else BIdle (Some (ret, r))))
  | bstep_broadcast t r c : bs_threads s !! t = Some (BBroadcast r) ->
      pthread_cond_broadcast (b_cond (bs_barrier s)) c ->
      bstep s (upd s (set_cond c (bs_barrier s)) t (BIdle (Some (PTHREAD_BARRIER_SERIAL_THREAD, r))))
  | bstep_wake t g r : bs_threads s !! t = Some (BAsleep g r) -> t ∉ cv_asleep (b_cond (bs_barrier s)) ->
      bstep s (upd s (bs_barrier s) t (BRelock g r))
  | bstep_leave t g r c : bs_threads s !! t = Some (BAsleep g r) -> t ∈ cv_asleep (b_cond (bs_barrier s)) ->
      cond (CLeave t) (b_cond (bs_barrier s)) c ->
      bstep s (upd s (set_cond c (bs_barrier s)) t (BRelock g r)).

Inductive breachable (count : Z) : bstate -> Prop :=
  | breachable_initial b ths : pthread_barrier_init count = inr b -> (forall t p, ths !! t = Some p -> p = BIdle None) ->
      breachable count (BState b ths)
  | breachable_step s s' : breachable count s -> bstep s s' -> breachable count s'.

(** ** The invariant *)

Definition in_monitor (p : bpc) : bool :=
  match p with BBody | BCheck _ _ | BUnlock _ _ => true | _ => false end.

(** A thread that has come and waits for the end of round [round]. *)
Definition waits (round : Z) (p : bpc) : nat :=
  match p with BAsleep _ r | BRelock _ r | BCheck _ r => if r =? round then 1 else 0 | _ => 0 end.

(** The round for which a thread was told that it is the last. *)
Definition serial (p : bpc) : option Z :=
  match p with
  | BUnlock ret r | BIdle (Some (ret, r)) => if ret =? PTHREAD_BARRIER_SERIAL_THREAD then Some r else None
  | BBroadcast r => Some r
  | _ => None
  end.

(** A thread that is going to wake everybody up. *)
Definition broadcasting (p : bpc) : bool :=
  match p with BUnlock ret _ => ret =? PTHREAD_BARRIER_SERIAL_THREAD | BBroadcast _ => true | _ => false end.

Definition pc_ok (round : Z) (p : bpc) : Prop :=
  match p with
  | BAsleep g r | BRelock g r | BCheck g r => 0 <= r <= round /\ g = u32 r
  | BUnlock _ r | BBroadcast r | BIdle (Some (_, r)) => 0 <= r < round
  | _ => True
  end.

Record barrier_inv (count : Z) (s : bstate) : Prop := {
  bi_init : b_init (bs_barrier s) = count - 1;
  bi_remaining : 0 <= b_remaining (bs_barrier s) <= count - 1;
  bi_generation : b_generation (bs_barrier s) = u32 (b_round (bs_barrier s)) /\ 0 <= b_round (bs_barrier s);
  bi_arrived : b_arrived (bs_barrier s) = b_round (bs_barrier s) * count + (count - 1 - b_remaining (bs_barrier s));
  bi_waits : Z.of_nat (total (waits (b_round (bs_barrier s))) (bs_threads s)) = count - 1 - b_remaining (bs_barrier s);
  bi_inside t p : bs_threads s !! t = Some p -> in_monitor p = true -> b_owner (bs_barrier s) = Some t;
  bi_pc t p : bs_threads s !! t = Some p -> pc_ok (b_round (bs_barrier s)) p;
  bi_serial t p u q r : bs_threads s !! t = Some p -> bs_threads s !! u = Some q ->
    serial p = Some r -> serial q = Some r -> t = u;
  bi_flag : cv_asleep (b_cond (bs_barrier s)) <> [] -> cv_waiters (b_cond (bs_barrier s)) <> HAS_NO_WAITERS;
  bi_asleep t : t ∈ cv_asleep (b_cond (bs_barrier s)) -> exists g r, bs_threads s !! t = Some (BAsleep g r);
  bi_nodup : NoDup (cv_asleep (b_cond (bs_barrier s)));
  bi_wakeup t g r : b_round (bs_barrier s) < 2 ^ 32 -> t ∈ cv_asleep (b_cond (bs_barrier s)) ->
    bs_threads s !! t = Some (BAsleep g r) -> r < b_round (bs_barrier s) ->
    exists u q, bs_threads s !! u = Some q /\ broadcasting q = true
}.

(** A step that does not end the round: thread [t] goes from [p] to [p']. *)
Lemma inv_frame count s t p p' o c remaining arrived : barrier_inv count s -> bs_threads s !! t = Some p ->
  let b := bs_barrier s in
  0 <= remaining <= count - 1 -> arrived - b_arrived b = b_remaining b - remaining ->
  Z.of_nat (waits (b_round b) p') - Z.of_nat (waits (b_round b) p) = b_remaining b - remaining ->
  pc_ok (b_round b) p' -> serial p' = serial p \/ serial p' = None ->
  (o = b_owner b /\ in_monitor p' = false) \/ ((b_owner b = None \/ b_owner b = Some t) /\ (in_monitor p' = true -> o = Some t)) ->
  (cv_asleep c <> [] -> cv_waiters c <> HAS_NO_WAITERS) -> NoDup (cv_asleep c) ->
  (forall u, u ∈ cv_asleep c -> (u ∈ cv_asleep (b_cond b) /\ u <> t) \/
     (u = t /\ exists g r, p' = BAsleep g r /\ (b_round b < 2 ^ 32 -> r = b_round b))) ->
  (broadcasting p = true -> broadcasting p' = true \/ cv_asleep c = []) ->
  barrier_inv count (upd s (MkBarrier o c (b_init b) remaining (b_generation b) (b_round b) arrived) t p').
Proof.
  intros I Ht b Hrem Harr Hw Hpc Hser Ho Hflag Hnd Hsl Hbr. pose proof (total_insert (waits (b_round b)) _ _ _ p' Ht) as HT.
  pose proof (bi_waits _ _ I) as HW. pose proof (bi_arrived _ _ I) as HA. fold b in HW, HA.
  constructor; cbn; [apply I|done|apply I|lia|lia| | | |done| |done|].
  - intros u q [[<- <-]|[Hne Hu]]%lookup_insert_Some Hq.
    + destruct Ho as [[_ Ho]|[_ Ho]]; [congruence|auto].
    + pose proof (bi_inside _ _ I u q Hu Hq) as Hown. fold b in Hown. destruct Ho as [[-> _]|[[Ho|Ho] _]]; [done|congruence|congruence].
  - intros u q [[<- <-]|[Hne Hu]]%lookup_insert_Some; [done|by apply (bi_pc _ _ I u)].
  - assert (Hs' : forall r, serial p' = Some r -> serial p = Some r) by (intros r Hr; destruct Hser; congruence).
    intros u q v w r [[<- <-]|[Hu Hq]]%lookup_insert_Some [[<- <-]|[Hv Hw']]%lookup_insert_Some H1 H2; [done| | |].
    + apply (bi_serial _ _ I t p v w r); auto.
    + apply (bi_serial _ _ I u q t p r); auto.
    + by apply (bi_serial _ _ I u q v w r).
  - intros u Hu. destruct (Hsl u Hu) as [[Hin Hne]|[-> (g & r & -> & _)]]; [|exists g, r; by rewrite lookup_insert_eq].
    rewrite lookup_insert_ne by done. by apply (bi_asleep _ _ I).
  - intros u g r Hb Hu [[<- Heq]|[Hne Hlu]]%lookup_insert_Some Hr.
    + destruct (Hsl t Hu) as [[_ ?]|[_ (g' & r' & -> & Hr')]]; [done|]. injection Heq as -> ->. specialize (Hr' Hb). lia.
    + destruct (Hsl u Hu) as [[Hin _]|[-> _]]; [|done].
      destruct (bi_wakeup _ _ I u g r Hb Hin Hlu Hr) as (v & q & Hv & Hq). destruct (decide (v = t)) as [->|Hvt].
      * rewrite Ht in Hv. injection Hv as <-. destruct (Hbr Hq) as [Hq'|Hnil]; [|by rewrite Hnil in Hu; apply not_elem_of_nil in Hu].
        exists t, p'. by rewrite lookup_insert_eq.
      * exists v, q. by rewrite lookup_insert_ne.
Qed.

(** The last thread of a round. *)
Lemma inv_last count s t : barrier_inv count s -> bs_threads s !! t = Some BBody -> b_owner (bs_barrier s) = Some t ->
  let b := bs_barrier s in b_remaining b = 0 ->
  barrier_inv count (upd s (set_counts (b_init b) (u32 (b_generation b + 1)) (b_round b + 1) b) t
    (BUnlock PTHREAD_BARRIER_SERIAL_THREAD (b_round b))).
Proof.
  intros I Ht Ho b Hrem. pose proof (bi_remaining _ _ I) as HR. pose proof (bi_init _ _ I) as HI.
  destruct (bi_generation _ _ I) as [HG HG0]. pose proof (bi_arrived _ _ I) as HA. fold b in HR, HI, HG, HG0, HA.
  assert (Hold : forall u q, bs_threads s !! u = Some q -> pc_ok (b_round b) q) by apply I.
  constructor; cbn; [apply I|lia| |lia| | | | |apply I| |apply I|].
  - split; [|lia]. rewrite HG. unfold u32, uN. by rewrite Zplus_mod_idemp_l.
  - rewrite total_zero; [cbn; lia|]. intros u q [[<- <-]|[Hne Hu]]%lookup_insert_Some; [done|].
    specialize (Hold u q Hu). destruct q; cbn in Hold |- *; try done; rewrite (proj2 (Z.eqb_neq _ _)) by lia; done.
  - intros u q [[<- <-]|[Hne Hu]]%lookup_insert_Some Hq; [done|by apply (bi_inside _ _ I u q)].
  - intros u q [[<- <-]|[Hne Hu]]%lookup_insert_Some; [cbn; lia|].
    specialize (Hold u q Hu). destruct q as [[[]|]| | | | | | |]; cbn in *; try done; lia.
  - assert (Hser : forall u q, bs_threads s !! u = Some q -> serial q <> Some (b_round b)).
    { intros u q Hu Hs. specialize (Hold u q Hu). destruct q as [[[ret r]|]| | | | | |ret r|]; cbn in *; try done;
        try (destruct (ret =? _); [|done]); injection Hs as ->; lia. }
    intros u q v w r [[<- <-]|[Hu Hq]]%lookup_insert_Some [[<- <-]|[Hv Hw]]%lookup_insert_Some; cbn; [done| | |].
    + intros [= <-] Hs. by destruct (Hser v w Hw).
    + intros Hs [= <-]. by destruct (Hser u q Hq).
    + by apply (bi_serial _ _ I).
  - intros u Hu. destruct (bi_asleep _ _ I u Hu) as (g & r & Hlu). rewrite lookup_insert_ne; [by exists g, r|].
    intros <-. congruence.
  - intros u g r _ _ _ _. eexists t, _. by rewrite lookup_insert_eq.
Qed.

Lemma inv_awake count s t p : barrier_inv count s -> bs_threads s !! t = Some p ->
  match p with BAsleep _ _ => False | _ => True end -> t ∉ cv_asleep (b_cond (bs_barrier s)).
Proof. intros I Ht Hp Hin. destruct (bi_asleep _ _ I t Hin) as (g & r & E). rewrite Ht in E. by injection E as ->. Qed.

(** A step that leaves the counts and the condition variable alone. *)
Lemma inv_move count s t p p' o : barrier_inv count s -> bs_threads s !! t = Some p ->
  let b := bs_barrier s in
  t ∉ cv_asleep (b_cond b) -> waits (b_round b) p' = waits (b_round b) p ->
  pc_ok (b_round b) p' -> serial p' = serial p \/ serial p' = None -> (broadcasting p = true -> broadcasting p' = true) ->
  (o = b_owner b /\ in_monitor p' = false) \/ ((b_owner b = None \/ b_owner b = Some t) /\ (in_monitor p' = true -> o = Some t)) ->
  barrier_inv count (upd s (set_owner o b) t p').
Proof.
  intros I Ht b Hn Hw Hpc Hser Hbr Ho. apply (inv_frame count s t p p' o (b_cond b) (b_remaining b) (b_arrived b) I Ht);
    fold b; try done; try lia; try apply I; [|by auto].
  intros u Hu. left. split; [done|]. by intros ->.
Qed.

(** A thread goes to sleep, when it enters or after it was woken up too early. *)
Lemma inv_sleep count s t p g r c remaining arrived : barrier_inv count s -> bs_threads s !! t = Some p ->
  let b := bs_barrier s in
  b_owner b = Some t -> cond (CSleep t) (b_cond b) c -> 0 <= remaining <= count - 1 ->
  arrived - b_arrived b = b_remaining b - remaining ->
  Z.of_nat (waits (b_round b) (BAsleep g r)) - Z.of_nat (waits (b_round b) p) = b_remaining b - remaining ->
  pc_ok (b_round b) (BAsleep g r) -> match p with BAsleep _ _ => False | _ => True end -> broadcasting p = false ->
  (b_round b < 2 ^ 32 -> r = b_round b) ->
  barrier_inv count (upd s (MkBarrier None c (b_init b) remaining (b_generation b) (b_round b) arrived) t (BAsleep g r)).
Proof.
  intros I Ht b Ho Hc Hrem Harr Hw Hpc Hp Hbr Hr. pose proof (cond_sleep _ _ _ Hc) as HP.
  pose proof (inv_awake _ _ _ _ I Ht Hp) as Hn. fold b in Hn.
  apply (inv_frame count s t p (BAsleep g r) None c remaining arrived I Ht); fold b; try done.
  - by right.
  - right. split; [by right|done].
  - apply (cond_word _ _ _ Hc).
  - rewrite HP. constructor; [done|apply I].
  - intros u Hu. rewrite HP in Hu. apply elem_of_cons in Hu as [->|Hu]; [right; split; [done|by exists g, r]|].
    left. split; [done|]. by intros ->.
  - by rewrite Hbr.
Qed.

Lemma waits_self round g : waits round (BAsleep g round) = 1%nat.
Proof. cbn. by rewrite Z.eqb_refl. Qed.

Lemma inv_enter count s t remaining generation g c : count <= UINT_MAX -> barrier_inv count s -> bs_threads s !! t = Some BBody ->
  let b := bs_barrier s in
  b_owner b = Some t -> barrier_wait_body (b_init b) (b_remaining b) (b_generation b) = (remaining, generation, Some g) ->
  cond (CSleep t) (b_cond b) c ->
  barrier_inv count (upd s (set_owner None (set_cond c (set_counts remaining generation (b_round b) b))) t (BAsleep g (b_round b))).
Proof.
  intros Hmax I Ht b Ho. pose proof (bi_remaining _ _ I) as HR. destruct (bi_generation _ _ I) as [HG HG0]. fold b in HR, HG, HG0.
  unfold barrier_wait_body. destruct (Z.eqb_spec (b_remaining b) 0) as [|Hne]; [done|]. intros [= <- <- <-] Hc.
  assert (Hu : u32 (b_remaining b - 1) = b_remaining b - 1) by (apply Z.mod_small; unfold UINT_MAX in *; lia). rewrite Hu.
  apply (inv_sleep count s t BBody (b_generation b) (b_round b) c (b_remaining b - 1) (b_arrived b + 1) I Ht); fold b; try done; try lia.
  rewrite waits_self. cbn. lia.
Qed.

Lemma inv_again count s t g r c : barrier_inv count s -> bs_threads s !! t = Some (BCheck g r) ->
  let b := bs_barrier s in
  b_owner b = Some t -> g = b_generation b -> cond (CSleep t) (b_cond b) c ->
  barrier_inv count (upd s (set_owner None (set_cond c b)) t (BAsleep g r)).
Proof.
  intros I Ht b Ho Hg Hc. pose proof (bi_pc _ _ I _ _ Ht) as Hpc. destruct (bi_generation _ _ I) as [HG HG0]. fold b in Hpc, HG, HG0.
  apply (inv_sleep count s t (BCheck g r) g r c (b_remaining b) (b_arrived b) I Ht); fold b; try done; try lia; [apply I|cbn; lia|].
  intros Hlt. destruct Hpc as [Hr Hg']. rewrite Hg, HG in Hg'. unfold u32, uN in Hg'. rewrite !Z.mod_small in Hg' by lia. done.
Qed.

(** A sleeper leaves early. *)
Lemma inv_leave count s t g r c : barrier_inv count s -> bs_threads s !! t = Some (BAsleep g r) ->
  let b := bs_barrier s in
  t ∈ cv_asleep (b_cond b) -> cond (CLeave t) (b_cond b) c -> barrier_inv count (upd s (set_cond c b) t (BRelock g r)).
Proof.
  intros I Ht b Hin Hc. pose proof (cond_leave _ _ _ Hc Hin) as HP. pose proof (bi_nodup _ _ I) as HN. fold b in HN.
  rewrite HP in HN. apply list.NoDup_cons in HN as [Hn HN]. pose proof (bi_pc _ _ I _ _ Ht) as Hpc. fold b in Hpc.
  apply (inv_frame count s t (BAsleep g r) (BRelock g r) (b_owner b) c (b_remaining b) (b_arrived b) I Ht); fold b; try done; try lia.
  - apply I.
  - cbn. lia.
  - by right.
  - by left.
  - apply (cond_word _ _ _ Hc).
  - intros u Hu. left. split; [rewrite HP; by right|]. by intros ->.
Qed.

Lemma inv_broadcast count s t r c : barrier_inv count s -> bs_threads s !! t = Some (BBroadcast r) ->
  let b := bs_barrier s in pthread_cond_broadcast (b_cond b) c ->
  barrier_inv count (upd s (set_cond c b) t (BIdle (Some (PTHREAD_BARRIER_SERIAL_THREAD, r)))).
Proof.
  intros I Ht b Hc. pose proof (bi_pc _ _ I _ _ Ht) as Hpc. fold b in Hpc.
  assert (Hnil : cv_asleep c = []).
  { unfold pthread_cond_broadcast in Hc. destruct (Z.eqb_spec (cv_waiters (b_cond b)) HAS_NO_WAITERS) as [E|_].
    - subst c. pose proof (bi_flag _ _ I) as Hf. fold b in Hf. destruct (cv_asleep (b_cond b)); [done|]. by destruct Hf.
    - apply (cond_broadcast _ _ Hc). }
  apply (inv_frame count s t (BBroadcast r) _ (b_owner b) c (b_remaining b) (b_arrived b) I Ht); fold b; rewrite ?Hnil; try done; try lia.
  - apply I.
  - cbn. lia.
  - by left.
  - by left.
  - constructor.
  - intros u Hu. by apply not_elem_of_nil in Hu.
  - by right.
Qed.

Lemma inv_step count s s' : count <= UINT_MAX -> barrier_inv count s -> bstep s s' -> barrier_inv count s'.
Proof.
  intros Hmax I Hst. destruct Hst as [t last Ht|t p p' Ht Ho Hp|t rem gen Ht Ho Hb|t rem gen g c Ht Ho Hb Hc|t g r c Ht Ho Hg Hc
    |t g r Ht Ho Hg|t ret r Ht Ho|t r c Ht Hc|t g r Ht Hn|t g r c Ht Hin Hc];
    try (pose proof (bi_pc _ _ I _ _ Ht) as Hpc).
  - assert (bs_barrier s = set_owner (b_owner (bs_barrier s)) (bs_barrier s)) as -> by by destruct (bs_barrier s).
    apply (inv_move count s t (BIdle last)); try done; [by eapply inv_awake|by right|by left].
  - assert (Hn : t ∉ cv_asleep (b_cond (bs_barrier s))) by (eapply inv_awake; [done..|]; by destruct p).
    apply (inv_move count s t p); try done; destruct p; try done; subst p'; try done; try (by right); right; (split; [by left|done]).
  - unfold barrier_wait_body in Hb. destruct (Z.eqb_spec (b_remaining (bs_barrier s)) 0) as [Hz|]; [|done].
    injection Hb as <- <-. by apply inv_last.
  - by apply (inv_enter count s t rem gen).
  - by apply inv_again.
  - assert (bs_barrier s = set_owner (b_owner (bs_barrier s)) (bs_barrier s)) as -> by by destruct (bs_barrier s).
    destruct (bi_generation _ _ I) as [HG HG0]. cbn in Hpc. assert (r <> b_round (bs_barrier s)) by (intros ->; by destruct Hpc; subst).
    apply (inv_move count s t (BCheck g r)); try done; [by eapply inv_awake|cbn; by rewrite (proj2 (Z.eqb_neq _ _))|cbn; lia|by right|].
    right. split; [by right|done].
  - apply (inv_move count s t (BUnlock ret r)); try done; [by eapply inv_awake|..]; cbn in Hpc |- *;
      destruct (Z.eqb_spec ret PTHREAD_BARRIER_SERIAL_THREAD) as [->|Hne]; try done; cbn;
      rewrite ?(proj2 (Z.eqb_neq _ _) Hne); try (by left); try (right; split; [by right|done]).
  - by apply inv_broadcast.
  - assert (bs_barrier s = set_owner (b_owner (bs_barrier s)) (bs_barrier s)) as -> by by destruct (bs_barrier s).
    apply (inv_move count s t (BAsleep g r)); try done; by left.
  - by apply inv_leave.
Qed.

Lemma breachable_inv count s : 0 <= count <= UINT_MAX -> breachable count s -> barrier_inv count s.
Proof.
  intros Hc Hr. induction Hr as [b ths Hb Hth|s s' _ IH Hst]; [|eapply inv_step; [lia|done..]].
  unfold pthread_barrier_init in Hb. destruct (Z.eqb_spec count 0); [done|]. injection Hb as <-.
  assert (Hu : u32 (count - 1) = count - 1) by (apply Z.mod_small; unfold UINT_MAX in *; lia).
  constructor; cbn; rewrite ?Hu; try done; try lia.
  - rewrite total_zero; [cbn; lia|]. intros t p Ht. by rewrite (Hth t p Ht).
  - intros t p Ht. by rewrite (Hth t p Ht).
  - intros t p Ht. by rewrite (Hth t p Ht).
  - intros t p u q r Ht. by rewrite (Hth t p Ht).
  - intros t Ht. by apply not_elem_of_nil in Ht.
  - constructor.
  - intros t g r _ Ht. by apply not_elem_of_nil in Ht.
Qed.

(** The sleepers, when nobody else is on the way, wait for the current round. *)
Lemma all_asleep count s : barrier_inv count s -> b_round (bs_barrier s) < 2 ^ 32 ->
  (forall t p, bs_threads s !! t = Some p -> (exists last, p = BIdle last) \/ t ∈ cv_asleep (b_cond (bs_barrier s))) ->
  forall t p, bs_threads s !! t = Some p -> (exists last, p = BIdle last) \/
    (t ∈ cv_asleep (b_cond (bs_barrier s)) /\ exists g, p = BAsleep g (b_round (bs_barrier s))).
Proof.
  intros I Hlt Hall t p Ht. destruct (Hall t p Ht) as [Hp|Hin]; [by left|right]. split; [done|].
  destruct (bi_asleep _ _ I t Hin) as (g & r & E). rewrite Ht in E. injection E as ->. exists g. f_equal.
  pose proof (bi_pc _ _ I _ _ Ht) as [Hr _]. destruct (decide (r = b_round (bs_barrier s))) as [|Hne]; [done|].
  destruct (bi_wakeup _ _ I t g r Hlt Hin Ht) as (u & q & Hu & Hq); [lia|].
  destruct (Hall u q Hu) as [[last ->]|Hin']; [done|]. destruct (bi_asleep _ _ I u Hin') as (g' & r' & E').
  rewrite Hu in E'. by injection E' as ->.
Qed.

(** C34: barriers hold threads back.  In every interleaving of pthread_barrier_wait by any
    number of threads: a call that has returned belongs to a round for which [count]
    threads came, of which at most one is told PTHREAD_BARRIER_SERIAL_THREAD; the
    counters are those of the current round, whatever the generation has wrapped around
    to; they are only changed by the owner of the mutex; and pthread_barrier_destroy does
    not fail when no call is in progress. *)
Theorem barrier_safe count s : 0 < count <= UINT_MAX -> breachable count s ->
  let b := bs_barrier s in
  b_arrived b = b_round b * count + (b_init b - b_remaining b) /\ 0 <= b_init b - b_remaining b < count /\
  (forall t ret r, bs_threads s !! t = Some (BIdle (Some (ret, r))) -> 0 <= r /\ (r + 1) * count <= b_arrived b) /\
  (forall t u r, bs_threads s !! t = Some (BIdle (Some (PTHREAD_BARRIER_SERIAL_THREAD, r))) ->
     bs_threads s !! u = Some (BIdle (Some (PTHREAD_BARRIER_SERIAL_THREAD, r))) -> t = u) /\
  (forall t p, bs_threads s !! t = Some p -> in_monitor p = true -> b_owner b = Some t) /\
  ((forall t p, bs_threads s !! t = Some p -> exists last, p = BIdle last) -> pthread_barrier_destroy b = Some 0).
Proof.
  intros Hc Hr b. assert (I : barrier_inv count s) by (apply breachable_inv; [lia|done]).
  pose proof (bi_init _ _ I) as HI. pose proof (bi_remaining _ _ I) as HR. pose proof (bi_arrived _ _ I) as HA.
  pose proof (bi_waits _ _ I) as HW. fold b in HI, HR, HA, HW. split; [lia|]. split; [lia|]. split; [|split; [|split]].
  - intros t ret r Ht. pose proof (bi_pc _ _ I _ _ Ht) as Hpc. cbn in Hpc. fold b in Hpc. split; [lia|]. nia.
  - intros t u r Ht Hu. by apply (bi_serial _ _ I t _ u _ r Ht Hu).
  - apply I.
  - intros Hidle. unfold pthread_barrier_destroy. rewrite (proj2 (Z.eqb_eq _ _)); [done|].
    rewrite total_zero in HW; [lia|]. intros t p Ht. by destruct (Hidle t p Ht) as [last ->].
Qed.

(** C35: no thread sleeps through the end of its round.  In the first 2^32 rounds, when a
    thread sleeps whose round is over, some thread is about to wake everybody up; so when
    all threads either sleep or do not use the barrier, the sleepers are exactly the
    threads that have come in the current round, and fewer than [count]. *)
Theorem barrier_no_lost_wakeup count s : 0 < count <= UINT_MAX -> breachable count s ->
  let b := bs_barrier s in
  b_round b < 2 ^ 32 ->
  (forall t g r, t ∈ cv_asleep (b_cond b) -> bs_threads s !! t = Some (BAsleep g r) -> r < b_round b ->
     exists u q, bs_threads s !! u = Some q /\ broadcasting q = true) /\
  ((forall t p, bs_threads s !! t = Some p -> (exists last, p = BIdle last) \/ t ∈ cv_asleep (b_cond b)) ->
     Z.of_nat (length (cv_asleep (b_cond b))) = b_arrived b - b_round b * count /\
     Z.of_nat (length (cv_asleep (b_cond b))) < count).
Proof.
  intros Hc Hr b Hlt. assert (I : barrier_inv count s) by (apply breachable_inv; [lia|done]).
  split; [intros t g r Hin Ht Hrd; by apply (bi_wakeup _ _ I t g r)|]. intros Hall.
  pose proof (all_asleep count s I Hlt Hall) as Hcur. pose proof (bi_arrived _ _ I) as HA. pose proof (bi_waits _ _ I) as HW.
  pose proof (bi_remaining _ _ I) as HR. fold b in HA, HW, HR, Hcur.
  enough (length (cv_asleep (b_cond b)) = total (waits (b_round b)) (bs_threads s)) by lia. apply Nat.le_antisymm.
  - apply total_ge_length; [apply I|]. intros t Hin. destruct (bi_asleep _ _ I t Hin) as (g & r & Ht).
    destruct (Hcur t _ Ht) as [[last ?]|[_ [g' [= -> ->]]]]; [done|]. exists (BAsleep g' (b_round b)). by rewrite waits_self.
  - apply total_le_length. intros t p Ht Hp. destruct (Hcur t p Ht) as [[last ->]|[Hin [g ->]]]; [done|].
    by rewrite waits_self.
Qed.
End Barrier.

(** ** A run: two threads pass a barrier *)

Module BarrierRun.

Definition start : bstate :=
  BState (match pthread_barrier_init 2 with inr b => b | inl _ => MkBarrier None (CondVar 0 []) 0 0 0 0 0 end)
    (<[1 := BIdle None]> (<[2 := BIdle None]> ∅)).

(** Thread 1 comes and sleeps, thread 2 comes and is the last. *)
Definition s1 := upd start (bs_barrier start) 1 BLock.
Definition s2 := upd s1 (set_owner (Some 1) (bs_barrier s1)) 1 BBody.
Definition s3 := upd s2 (set_owner None (set_cond (cserve (CSleep 1) (b_cond (bs_barrier s2))) (set_counts 0 0 0 (bs_barrier s2)))) 1 (BAsleep 0 0).
Definition s4 := upd s3 (bs_barrier s3) 2 BLock.
Definition s5 := upd s4 (set_owner (Some 2) (bs_barrier s4)) 2 BBody.
Definition s6 := upd s5 (set_counts 1 1 1 (bs_barrier s5)) 2 (BUnlock (-1) 0).
Definition s7 := upd s6 (set_owner None (bs_barrier s6)) 2 (BBroadcast 0).
Definition s8 := upd s7 (set_cond (cserve CBroadcast (b_cond (bs_barrier s7))) (bs_barrier s7)) 2 (BIdle (Some (-1, 0))).

Lemma barrier_asleep_reachable : breachable 2 s3.
Proof.
  eapply breachable_step; [|by apply (bstep_wait s2 1 0 0 0)].
  eapply breachable_step; [|by apply (bstep_lock s1 1 BLock)].
  eapply breachable_step; [|by apply (bstep_call start 1 None)].
  apply breachable_initial; [reflexivity|]. intros t p Ht.
  apply lookup_insert_Some in Ht as [[_ <-]|[_ Ht]]; [done|].
  apply lookup_insert_Some in Ht as [[_ <-]|[_ Ht]]; [done|]. by rewrite lookup_empty in Ht.
Qed.

Lemma barrier_demo_reachable : breachable 2 s8.
Proof.
  eapply breachable_step; [|by apply (bstep_broadcast s7 2 0)].
  eapply breachable_step; [|by apply (bstep_unlock s6 2 (-1) 0)].
  eapply breachable_step; [|by apply (bstep_last s5 2 1 1)].
  eapply breachable_step; [|by apply (bstep_lock s4 2 BLock)].
  eapply breachable_step; [|by apply (bstep_call s3 2 None)].
  apply barrier_asleep_reachable.
Qed.

(** Thread 2 has returned, so two threads have come. *)
Lemma barrier_safe_witness : (0 + 1) * 2 <= b_arrived (bs_barrier s8).
Proof.
  assert (Hc : 0 < 2 <= UINT_MAX) by (unfold UINT_MAX; lia).
  destruct (barrier_safe 2 s8 Hc barrier_demo_reachable) as (_ & _ & Hret & _).
  exact (proj2 (Hret 2 (-1) 0 eq_refl)).
Defined.

(** Before that, when only thread 1 had come, it slept alone. *)
Lemma barrier_no_lost_wakeup_witness : Z.of_nat (length (cv_asleep (b_cond (bs_barrier s3)))) < 2.
Proof.
  assert (Hc : 0 < 2 <= UINT_MAX) by (unfold UINT_MAX; lia).
  destruct (barrier_no_lost_wakeup 2 s3 Hc barrier_asleep_reachable eq_refl) as [_ Hall].
  apply Hall. intros t p Ht. unfold s3, upd in Ht. cbn [bs_threads] in Ht. apply lookup_insert_Some in Ht as [[<- _]|[Hne Ht]]; [right; left|left].
  unfold s2, s1, upd in Ht. cbn in Ht. rewrite !lookup_insert_ne in Ht by done.
  apply lookup_insert_Some in Ht as [[_ <-]|[_ Ht]]; [by eexists|]. by rewrite lookup_empty in Ht.
Defined.

End BarrierRun.
