(* ===== verification/VersionCompare.v ===== *)
(** * Comparing versions: strverscmp and wcsverscmp

    Sources: src/common/strverscmp.h, src/libc/string/strverscmp.c and
    src/libc/wchar/wcsverscmp.c.

    The characters are the integers they have as char or wchar_t, of either signedness;
    strings end with 0, and reading behind the terminator is undefined ([None]).  The
    tables of the automaton are arrays that are indexed as in the code.

    The theorem: the function always returns; it orders strings totally, which is not
    evident as the result at the first difference depends on the characters around it;
    and where two strings differ in a number, it compares the numbers by value. *)

From S2P Require Import Prelude.

#[local] Open Scope Z_scope.

(** ** The program *)

(** enum chartype *)
Definition T_ZERO : Z := 0.
Definition T_DIGIT : Z := 1.
Definition T_OTHER : Z := 2.

(** enum state *)
Definition S_TEXT : Z := 0.
Definition S_FRAC : Z := 1.
Definition S_FRAC0 : Z := 2.
Definition S_INT : Z := 3.

(** enum retmode; 0 is none of them. *)
Definition R_LT : Z := 1.
Definition R_GT : Z := 2.
Definition R_LENGTH : Z := 3.

Definition get_chartype (c : Z) : Z :=
  if c =? 48 then T_ZERO else if (49 <=? c) && (c <=? 57) then T_DIGIT else T_OTHER.

(** An array with designated initialisers; what is not mentioned is 0. *)
Definition designated (size : nat) (entries : list (Z * Z)) : list Z :=
  foldl (fun a e => <[Z.to_nat e.1 := e.2]> a) (replicate size 0) entries.

Definition I2 (s ct : Z) : Z := s + ct * 4.

Definition next : list Z := designated 12
  [(I2 S_TEXT T_ZERO, S_FRAC0); (I2 S_TEXT T_DIGIT, S_INT); (I2 S_TEXT T_OTHER, S_TEXT);
   (I2 S_FRAC T_ZERO, S_FRAC); (I2 S_FRAC T_DIGIT, S_FRAC); (I2 S_FRAC T_OTHER, S_TEXT);
   (I2 S_FRAC0 T_ZERO, S_FRAC0); (I2 S_FRAC0 T_DIGIT, S_FRAC); (I2 S_FRAC0 T_OTHER, S_TEXT);
   (I2 S_INT T_ZERO, S_INT); (I2 S_INT T_DIGIT, S_INT); (I2 S_INT T_OTHER, S_TEXT)].

Definition I3 (s ct1 ct2 : Z) : Z := s + ct1 * 4 + ct2 * 12.

Definition mode : list Z := designated 36
  [(I3 S_TEXT T_DIGIT T_DIGIT, R_LENGTH);
   (I3 S_FRAC T_ZERO T_OTHER, R_GT); (I3 S_FRAC T_DIGIT T_OTHER, R_GT);
   (I3 S_FRAC T_OTHER T_ZERO, R_LT); (I3 S_FRAC T_OTHER T_DIGIT, R_LT);
   (I3 S_FRAC0 T_ZERO T_OTHER, R_LT); (I3 S_FRAC0 T_DIGIT T_OTHER, R_LT);
   (I3 S_FRAC0 T_OTHER T_ZERO, R_GT); (I3 S_FRAC0 T_OTHER T_DIGIT, R_GT);
   (I3 S_INT T_ZERO T_DIGIT, R_LENGTH); (I3 S_INT T_ZERO T_OTHER, R_GT);
   (I3 S_INT T_DIGIT T_ZERO, R_LENGTH); (I3 S_INT T_DIGIT T_DIGIT, R_LENGTH); (I3 S_INT T_DIGIT T_OTHER, R_GT);
   (I3 S_INT T_OTHER T_ZERO, R_LT); (I3 S_INT T_OTHER T_DIGIT, R_LT)].

(** The loop of the case R_LENGTH. *)
Fixpoint length_loop (diff : Z) (s1 s2 : list Z) : option Z :=
  match s1, s2 with
  | c1 :: s1, c2 :: s2 =>
      let ct1 := get_chartype c1 in
      let ct2 := get_chartype c2 in
      if ct1 =? T_OTHER then Some (if ct2 =? T_OTHER then diff else -1)
      else if ct2 =? T_OTHER then Some 1
      else length_loop diff s1 s2
  | _, _ => None
  end.

(** From the first difference on: the characters that differ, and what follows them. *)
Definition differing (state c1 c2 : Z) (s1 s2 : list Z) : option Z :=
  let diff := if c1 <? c2 then -1 else 1 in
  m ← mode !! Z.to_nat (I3 state (get_chartype c1) (get_chartype c2));
  if m =? R_LT then Some (-1)
  else if m =? R_GT then Some 1
  else if m =? R_LENGTH then length_loop diff s1 s2
  else Some diff.

Fixpoint verscmp_loop (state : Z) (s1 s2 : list Z) : option Z :=
  match s1, s2 with
  | c1 :: s1, c2 :: s2 =>
      if c1 =? c2 then
        if c1 =? 0 then Some 0
        else state ← next !! Z.to_nat (I2 state (get_chartype c1)); verscmp_loop state s1 s2
      else differing state c1 c2 s1 s2
  | _, _ => None
  end.

Definition strverscmp (s1 s2 : list Z) : option Z := verscmp_loop S_TEXT s1 s2.

(** The order of the manual page, as src/libc/string/strverscmp_test.c has it. *)
Example strverscmp_manual :
  Forall (fun p => strverscmp p.1 p.2 = Some (-1))
    [([48; 48; 48; 0], [48; 48; 0]); ([48; 48; 0], [48; 49; 0]); ([48; 49; 0], [48; 49; 48; 0]);
     ([48; 49; 48; 0], [48; 57; 0]); ([48; 57; 0], [48; 0]); ([48; 0], [49; 0]); ([49; 0], [57; 0]); ([57; 0], [49; 48; 0])].
Proof. repeat constructor. Qed.

(** ** What the automaton decides *)

(** Strings end with the only 0 in them. *)
Inductive string : list Z -> Prop :=
  | string_end : string [0]
  | string_char c s : c <> 0 -> string s -> string (c :: s).

Inductive state_ok : Z -> Prop :=
  | state_text : state_ok S_TEXT
  | state_frac : state_ok S_FRAC
  | state_frac0 : state_ok S_FRAC0
  | state_int : state_ok S_INT.

Definition is_digit (c : Z) : bool := (48 <=? c) && (c <=? 57).

(** The number of digits a string starts with. *)
Fixpoint run (s : list Z) : Z :=
  match s with
  | c :: s => if is_digit c then 1 + run s else 0
  | [] => 0
  end.

(** What is compared at the first difference, lexicographically: a class, the length of a
    number and the character. *)
Definition rank (state : Z) (s : list Z) : Z * Z * Z :=
  let c := hd 0 s in
  if state =? S_INT then (0, run s, c)
  else if state =? S_FRAC then (if is_digit c then 1 else 0, 0, c)
  else if state =? S_FRAC0 then (if is_digit c then 0 else 1, 0, c)
  else if (49 <=? c) && (c <=? 57) then (49, run s, c) else (c, 0, c).

Definition rank_lt (x y : Z * Z * Z) : Prop :=
  x.1.1 < y.1.1 \/ (x.1.1 = y.1.1 /\ (x.1.2 < y.1.2 \/ (x.1.2 = y.1.2 /\ x.2 < y.2))).

Definition rank_le (x y : Z * Z * Z) : Prop := rank_lt x y \/ x = y.

Lemma chartype_cases c :
  (c = 48 /\ get_chartype c = T_ZERO /\ is_digit c = true) \/
  (49 <= c <= 57 /\ get_chartype c = T_DIGIT /\ is_digit c = true) \/
  ((c < 48 \/ 57 < c) /\ get_chartype c = T_OTHER /\ is_digit c = false).
Proof.
  unfold get_chartype, is_digit. destruct (Z.eqb_spec c 48) as [->|]; [by left|].
  destruct (Z.leb_spec 49 c), (Z.leb_spec c 57), (Z.leb_spec 48 c); cbn; lia.
Qed.

Lemma run_nonneg s : 0 <= run s.
Proof. induction s as [|c s IH]; cbn; [lia|]. destruct (is_digit c); lia. Qed.

Lemma length_loop_spec diff s1 s2 : string s1 -> string s2 ->
  length_loop diff s1 s2 = Some (if run s1 <? run s2 then -1 else if run s2 <? run s1 then 1 else diff).
Proof.
  assert (Hz : get_chartype 0 = T_OTHER /\ is_digit 0 = false) by done. destruct Hz as [Hz1 Hz2].
  intros H1. revert s2. induction H1 as [|c1 s1 Hc1 H1 IH]; intros s2 H2.
  - destruct H2 as [|c2 s2 Hc2 H2]; cbn; [done|]. pose proof (run_nonneg s2).
    destruct (chartype_cases c2) as [(_ & E & D)|[(_ & E & D)|(_ & E & D)]]; rewrite E, D; cbn -[Z.add Z.ltb]; repeat zcase1; try lia; done.
  - destruct H2 as [|c2 s2 Hc2 H2]; cbn [length_loop run]; rewrite ?Hz1, ?Hz2; pose proof (run_nonneg s1).
    + destruct (chartype_cases c1) as [(_ & E & D)|[(_ & E & D)|(_ & E & D)]]; rewrite E, D; cbn -[Z.add Z.ltb]; repeat zcase1; try lia; done.
    + pose proof (run_nonneg s2).
      destruct (chartype_cases c1) as [(_ & E1 & D1)|[(_ & E1 & D1)|(_ & E1 & D1)]];
      destruct (chartype_cases c2) as [(_ & E2 & D2)|[(_ & E2 & D2)|(_ & E2 & D2)]];
      rewrite E1, D1, E2, D2; cbn -[Z.add Z.ltb]; rewrite ?(IH s2 H2); repeat zcase1; try lia; done.
Qed.

(** At the first difference the ranks are compared. *)
Lemma differing_spec q c1 c2 s1 s2 : state_ok q -> c1 <> c2 -> string (c1 :: s1) -> string (c2 :: s2) ->
  (differing q c1 c2 s1 s2 = Some (-1) /\ rank_lt (rank q (c1 :: s1)) (rank q (c2 :: s2))) \/
  (differing q c1 c2 s1 s2 = Some 1 /\ rank_lt (rank q (c2 :: s2)) (rank q (c1 :: s1))).
Proof.
  intros Hq Hne H1 H2.
  assert (Htail : forall c s, string (c :: s) -> is_digit c = true -> string s).
  { intros c s Hs Hd. by inversion Hs; subst. }
  pose proof (run_nonneg s1). pose proof (run_nonneg s2). unfold differing, rank_lt, rank, hd.
  destruct (chartype_cases c1) as [(L1 & E1 & D1)|[(L1 & E1 & D1)|(L1 & E1 & D1)]];
  destruct (chartype_cases c2) as [(L2 & E2 & D2)|[(L2 & E2 & D2)|(L2 & E2 & D2)]];
  rewrite E1, E2; try (pose proof (Htail c1 s1 H1 D1)); try (pose proof (Htail c2 s2 H2 D2));
  destruct Hq; cbn -[Z.leb Z.ltb Z.add run]; rewrite ?length_loop_spec by done; cbn [run]; rewrite ?D1, ?D2;
  destruct (Z.leb_spec 49 c1), (Z.leb_spec c1 57), (Z.leb_spec 49 c2), (Z.leb_spec c2 57); cbn -[Z.ltb Z.add]; try lia;
  repeat zcase1; try lia; first [left; split; [done|lia]|right; split; [done|lia]].
Qed.

(** ** The order *)

#[global] Instance rank_lt_strict : StrictOrder rank_lt.
Proof.
  split.
  - intros x Hx. unfold rank_lt in Hx. lia.
  - intros x y z Hxy Hyz. unfold rank_lt in *. lia.
Qed.

Lemma rank_lt_asym x y : rank_lt x y -> ~ rank_lt y x.
Proof. intros Hxy Hyx. eapply (irreflexivity rank_lt x). by etrans. Qed.

(** The state behind a character that both strings have. *)
Definition next_state (q c : Z) : Z := default 0 (next !! Z.to_nat (I2 q (get_chartype c))).

Lemma next_spec q c : state_ok q -> next !! Z.to_nat (I2 q (get_chartype c)) = Some (next_state q c) /\ state_ok (next_state q c).
Proof.
  intros Hq. unfold next_state.
  destruct (chartype_cases c) as [(_ & E & _)|[(_ & E & _)|(_ & E & _)]]; rewrite E; destruct Hq; (split; [done|constructor]).
Qed.

Lemma loop_same q c s1 s2 : state_ok q -> c <> 0 -> verscmp_loop q (c :: s1) (c :: s2) = verscmp_loop (next_state q c) s1 s2.
Proof.
  intros Hq Hc. cbn [verscmp_loop]. rewrite Z.eqb_refl, (proj2 (Z.eqb_neq _ _) Hc). by destruct (next_spec q c Hq) as [-> _].
Qed.

Lemma loop_differ q c1 c2 s1 s2 : c1 <> c2 -> verscmp_loop q (c1 :: s1) (c2 :: s2) = differing q c1 c2 s1 s2.
Proof. intros Hc. cbn [verscmp_loop]. by rewrite (proj2 (Z.eqb_neq _ _) Hc). Qed.

Lemma string_inv c s : string (c :: s) -> (c = 0 /\ s = []) \/ (c <> 0 /\ string s).
Proof. inversion 1; subst; [by left|by right]. Qed.

(** Two strings: both at their end, with the same character in front, or different ones. *)
Lemma string_cases s1 s2 : string s1 -> string s2 ->
  (s1 = [0] /\ s2 = [0]) \/
  (exists c t1 t2, s1 = c :: t1 /\ s2 = c :: t2 /\ c <> 0 /\ string t1 /\ string t2) \/
  (exists c1 c2 t1 t2, s1 = c1 :: t1 /\ s2 = c2 :: t2 /\ c1 <> c2).
Proof.
  intros [|c1 t1 H1 Ht1] [|c2 t2 H2 Ht2]; [by left|right; right; by exists 0, c2, [], t2|right; right; by exists c1, 0, t1, []|].
  right. destruct (decide (c1 = c2)) as [->|Hne]; [left; by exists c2, t1, t2|right; by exists c1, c2, t1, t2].
Qed.

Lemma differ_total q c1 c2 s1 s2 : state_ok q -> c1 <> c2 -> string (c1 :: s1) -> string (c2 :: s2) ->
  exists r, verscmp_loop q (c1 :: s1) (c2 :: s2) = Some r /\ verscmp_loop q (c2 :: s2) (c1 :: s1) = Some (- r) /\
    -1 <= r <= 1 /\ r <> 0.
Proof.
  intros Hq Hne H1 H2. rewrite !loop_differ by done.
  destruct (differing_spec q c1 c2 s1 s2 Hq Hne H1 H2) as [[-> L]|[-> L]];
  destruct (differing_spec q c2 c1 s2 s1 Hq (not_eq_sym Hne) H2 H1) as [[-> L']|[-> L']];
  try (by destruct (rank_lt_asym _ _ L L')); [by exists (-1)|by exists 1].
Qed.

(** The result, and what it is with the arguments exchanged. *)
Lemma loop_total q s1 s2 : state_ok q -> string s1 -> string s2 ->
  exists r, verscmp_loop q s1 s2 = Some r /\ verscmp_loop q s2 s1 = Some (- r) /\ -1 <= r <= 1 /\ (r = 0 <-> s1 = s2).
Proof.
  revert q s2. induction s1 as [|c s1 IH]; intros q s2 Hq H1 H2; [inversion H1|].
  destruct (string_cases _ s2 H1 H2) as [[[= -> ->] ->]|[(c' & t1 & t2 & [= <- <-] & -> & Hc & Hs1 & Ht2)|(c' & c2 & t1 & t2 & [= <- <-] & -> & Hne)]].
  - by exists 0.
  - rewrite !loop_same by done. destruct (IH _ t2 (proj2 (next_spec q c Hq)) Hs1 Ht2) as (r & E1 & E2 & Hr & Hz).
    exists r. split; [done|]. split; [done|]. split; [done|]. rewrite Hz. split; congruence.
  - destruct (differ_total q c c2 s1 t2 Hq Hne H1 H2) as (r & E1 & E2 & Hr & Hz). exists r.
    split; [done|]. split; [done|]. split; [done|]. split; [done|congruence].
Qed.

(** A string that is not greater does not have the longer number. *)
Lemma run_mono s1 s2 r : string s1 -> string s2 -> verscmp_loop S_INT s1 s2 = Some r -> r <= 0 -> run s1 <= run s2.
Proof.
  intros H1. revert s2. induction H1 as [|c s1 Hc H1 IH]; intros s2 H2 E Hr; [cbn; apply run_nonneg|].
  destruct (string_cases (c :: s1) s2 (string_char _ _ Hc H1) H2) as [[[= -> ->] _]|[(c' & t1 & t2 & [= <- <-] & -> & _ & _ & Ht2)|(c1' & c2 & t1 & t2 & [= <- <-] & -> & Hne)]]; [done| |].
  - rewrite loop_same in E by (done || constructor). cbn [run]. destruct (is_digit c) eqn:D; [|lia].
    assert (next_state S_INT c = S_INT) as Hs.
    { unfold next_state. destruct (chartype_cases c) as [(_ & -> & _)|[(_ & -> & _)|(_ & _ & D')]]; [done|done|congruence]. }
    rewrite Hs in E. specialize (IH t2 Ht2 E Hr). lia.
  - rewrite loop_differ in E by done.
    destruct (differing_spec S_INT c c2 s1 t2 state_int Hne (string_char _ _ Hc H1) H2) as [[E' L]|[E' L]]; [|rewrite E' in E; injection E as <-; lia].
    unfold rank_lt, rank in L. change (S_INT =? S_INT) with true in L. cbv beta iota zeta in L. cbn [fst snd] in L. lia.
Qed.

(** So the ranks follow the order also where the characters are the same. *)
Lemma rank_mono q c s1 s2 r : state_ok q -> string (c :: s1) -> string (c :: s2) ->
  verscmp_loop q (c :: s1) (c :: s2) = Some r -> r <= 0 -> rank_le (rank q (c :: s1)) (rank q (c :: s2)).
Proof.
  intros Hq H1 H2 E Hr. destruct (string_inv _ _ H1) as [[-> ->]|[Hc Hs1]];
    [destruct (string_inv _ _ H2) as [[_ ->]|[? _]]; [by right|done]|].
  destruct (string_inv _ _ H2) as [[-> _]|[_ Hs2]]; [done|]. rewrite loop_same in E by done.
  assert (Hrun : is_digit c = true -> next_state q c = S_INT -> run s1 <= run s2).
  { intros _ Hn. rewrite Hn in E. by apply (run_mono s1 s2 r). }
  unfold rank_le, rank_lt, rank, hd. cbn [run].
  destruct (chartype_cases c) as [(L & Et & D)|[(L & Et & D)|(L & Et & D)]]; rewrite ?D; unfold next_state in Hrun; rewrite Et in Hrun;
    destruct Hq; cbn -[Z.add Z.leb run] in Hrun |- *; try (by right);
    destruct (Z.leb_spec 49 c), (Z.leb_spec c 57); cbn -[Z.add]; try lia; try (by right);
    specialize (Hrun D eq_refl); (destruct (decide (run s1 = run s2)) as [->|]; [by right|left; lia]).
Qed.

Lemma loop_ranks q c1 c2 s1 s2 : state_ok q -> c1 <> c2 -> string (c1 :: s1) -> string (c2 :: s2) ->
  verscmp_loop q (c1 :: s1) (c2 :: s2) = Some (-1) <-> rank_lt (rank q (c1 :: s1)) (rank q (c2 :: s2)).
Proof.
  intros Hq Hne H1 H2. rewrite loop_differ by done.
  destruct (differing_spec q c1 c2 s1 s2 Hq Hne H1 H2) as [[-> L]|[-> L]]; (split; [try done|intros L'; try done]).
  by destruct (rank_lt_asym _ _ L L').
Qed.

Lemma rank_lt_le x y z : rank_lt x y -> rank_le y z -> rank_lt x z.
Proof. intros Hxy [Hyz| <-]; [by etrans|done]. Qed.

Lemma rank_le_lt x y z : rank_le x y -> rank_lt y z -> rank_lt x z.
Proof. intros [Hxy| ->] Hyz; [by etrans|done]. Qed.

Lemma loop_trans q s1 s2 s3 : state_ok q -> string s1 -> string s2 -> string s3 ->
  verscmp_loop q s1 s2 = Some (-1) -> verscmp_loop q s2 s3 = Some (-1) -> verscmp_loop q s1 s3 = Some (-1).
Proof.
  revert q s2 s3. induction s1 as [|c1 s1 IH]; intros q s2 s3 Hq H1 H2 H3 E12 E23; [inversion H1|].
  destruct s2 as [|c2 s2]; [inversion H2|]. destruct s3 as [|c3 s3]; [inversion H3|].
  destruct (decide (c1 = c2)) as [<-|N12]; destruct (decide (c1 = c3)) as [<-|N13].
  - destruct (string_inv _ _ H1) as [[-> ->]|[Hc Hs1]]; [by destruct (string_inv _ _ H2) as [[_ ->]|[? _]]|].
    destruct (string_inv _ _ H2) as [[? _]|[_ Hs2]]; [done|]. destruct (string_inv _ _ H3) as [[? _]|[_ Hs3]]; [done|].
    rewrite loop_same in E12 by done. rewrite loop_same in E23 by done. rewrite loop_same by done. by apply (IH _ s2 s3 (proj2 (next_spec q c1 Hq))).
  - apply loop_ranks; [done..|]. apply loop_ranks in E23; [|done..]. eapply rank_le_lt, E23. by apply (rank_mono q c1 s1 s2 (-1)).
  - apply loop_ranks in E12; [|done..]. apply loop_ranks in E23; [|congruence|done..].
    destruct (loop_total q (c1 :: s1) (c1 :: s3) Hq H1 H3) as (r & E13 & E31 & Hr & _).
    destruct (decide (r = -1)) as [->|Hne]; [done|]. exfalso.
    assert (L : rank_le (rank q (c1 :: s3)) (rank q (c1 :: s1))) by (apply (rank_mono q c1 s3 s1 (- r)); [done..|lia]).
    eapply (irreflexivity rank_lt), (rank_lt_le _ _ _ (transitivity E12 E23) L).
  - apply loop_ranks in E12; [|done..]. apply loop_ranks; [done..|]. destruct (decide (c2 = c3)) as [<-|N23].
    + eapply rank_lt_le; [exact E12|]. by apply (rank_mono q c2 s2 s3 (-1)).
    + apply loop_ranks in E23; [|done..]. by etrans.
Qed.

(** ** Numbers *)

Definition digits (d : list Z) : Prop := Forall (fun c => 48 <= c <= 57) d.

Fixpoint value (d : list Z) : Z :=
  match d with
  | [] => 0
  | c :: d => (c - 48) * 10 ^ Z.of_nat (length d) + value d
  end.

(** A number without leading zeros. *)
Definition number (d : list Z) : Prop := digits d /\ 49 <= hd 0 d.

(** The rest of a string behind a number. *)
Definition rest (r : list Z) : Prop := string r /\ is_digit (hd 0 r) = false.

Lemma value_bounds d : digits d -> 0 <= value d < 10 ^ Z.of_nat (length d).
Proof.
  induction 1 as [|c d Hc _ IH]; cbn [value length]; [cbn; lia|]. rewrite Nat2Z.inj_succ, Z.pow_succ_r by lia. nia.
Qed.

Lemma digit_is c : 48 <= c <= 57 -> is_digit c = true.
Proof. intros Hc. unfold is_digit. by rewrite !(proj2 (Z.leb_le _ _)) by lia. Qed.

Lemma run_digits d r : digits d -> rest r -> run (d ++ r) = Z.of_nat (length d).
Proof.
  intros Hd [_ Hr]. induction Hd as [|c d Hc _ IH]; cbn [app run length].
  - destruct r as [|c r]; [done|]. cbn [hd] in Hr. cbn [run]. by rewrite Hr.
  - rewrite digit_is by done. rewrite IH. lia.
Qed.

Lemma string_digits d r : digits d -> rest r -> string (d ++ r).
Proof. intros Hd [Hr _]. induction Hd as [|c d Hc _ IH]; [done|]. constructor; [lia|done]. Qed.

Lemma next_digit q c : q = S_INT \/ (q = S_TEXT /\ 49 <= c) -> 48 <= c <= 57 -> next_state q c = S_INT.
Proof.
  intros Hq Hc. unfold next_state. destruct (chartype_cases c) as [(L & -> & _)|[(L & -> & _)|(L & _ & _)]]; [|destruct Hq as [->|[-> _]]; done|lia].
  destruct Hq as [->|[-> ?]]; [done|lia].
Qed.

(** Numbers of which the first is shorter, or as long and smaller. *)
Definition shorter (x y : list Z) : Prop :=
  (length x < length y)%nat \/ (length x = length y /\ value x < value y).

Lemma shorter_tail a x y : shorter (a :: x) (a :: y) -> shorter x y.
Proof. unfold shorter. cbn [length value]. intros [Hl|[Hl Hv]]; [left; lia|right]. injection Hl as Hl. rewrite Hl in Hv. lia. Qed.

Lemma shorter_head a b x y : digits x -> digits y -> a <> b -> shorter (a :: x) (b :: y) ->
  (length x < length y)%nat \/ (length x = length y /\ a < b).
Proof.
  intros Hx Hy Hne [Hl|[Hl Hv]]; cbn [length value] in *; [left; lia|right]. injection Hl as Hl. split; [done|].
  rewrite Hl in Hv. pose proof (value_bounds x Hx). pose proof (value_bounds y Hy). rewrite Hl in *. nia.
Qed.

Lemma int_order x y r1 r2 : digits x -> digits y -> rest r1 -> rest r2 -> shorter x y ->
  verscmp_loop S_INT (x ++ r1) (y ++ r2) = Some (-1).
Proof.
  intros Hx. revert y. induction Hx as [|a x Ha Hx IH]; intros y Hy Hr1 Hr2 Hs.
  - destruct y as [|b y]; [unfold shorter in Hs; cbn in Hs; lia|].
    pose proof (run_digits (b :: y) r2 Hy Hr2) as Hrun. pose proof (run_digits [] r1 ltac:(constructor) Hr1) as Hrun1.
    assert (Hsr : string ((b :: y) ++ r2)) by by apply string_digits. inversion Hy as [|? ? Hb Hy']; subst.
    destruct r1 as [|c r1]; [by destruct Hr1 as [Hr1 _]; inversion Hr1|]. cbn [app] in *.
    apply loop_ranks; [constructor| |apply Hr1|done|].
    + intros ->. destruct Hr1 as [_ Hd]. cbn in Hd. rewrite digit_is in Hd by done. done.
    + unfold rank_lt, rank. change (S_INT =? S_INT) with true. cbv beta iota zeta. rewrite Hrun, Hrun1. cbn [fst snd length]. lia.
  - inversion Hy as [|b y' Hb Hy']; subst; [unfold shorter in Hs; cbn in Hs; lia|].
    assert (Hd1 : digits (a :: x)) by by constructor. pose proof (run_digits (a :: x) r1 Hd1 Hr1) as E1.
    pose proof (run_digits (b :: y') r2 Hy Hr2) as E2. pose proof (string_digits (a :: x) r1 Hd1 Hr1) as S1.
    pose proof (string_digits (b :: y') r2 Hy Hr2) as S2. cbn [app] in *. destruct (decide (a = b)) as [<-|Hne].
    + rewrite loop_same by (constructor || lia). rewrite next_digit by (lia || by left). apply IH; try done. by apply shorter_tail in Hs.
    + apply loop_ranks; [constructor|done..|]. apply shorter_head in Hs; [|done..]. cbn [length] in *.
      unfold rank_lt, rank. change (S_INT =? S_INT) with true. cbv beta iota zeta. rewrite E1, E2. cbn [fst snd hd]. lia.
Qed.

(** The state behind a common prefix. *)
Lemma loop_prefix q p s1 s2 : state_ok q -> Forall (fun c => c <> 0) p ->
  verscmp_loop q (p ++ s1) (p ++ s2) = verscmp_loop (foldl next_state q p) s1 s2 /\ state_ok (foldl next_state q p).
Proof.
  intros Hq Hp. revert q Hq. induction Hp as [|c p Hc _ IH]; intros q Hq; [done|]. cbn [app foldl].
  rewrite loop_same by done. apply IH. by apply next_spec.
Qed.

(** A text does not end in a digit. *)
Definition text (p : list Z) : Prop := Forall (fun c => c <> 0) p /\ from_option is_digit false (list.last p) = false.

Lemma text_state p : text p -> foldl next_state S_TEXT p = S_TEXT.
Proof.
  intros [Hp Hl]. destruct p as [|c p] using rev_ind; [done|]. rewrite last_snoc in Hl. cbn in Hl. rewrite foldl_snoc.
  apply Forall_app in Hp as [Hp _]. destruct (loop_prefix S_TEXT p [] [] state_text Hp) as [_ Hq].
  unfold next_state at 1. destruct (chartype_cases c) as [(_ & _ & D)|[(_ & _ & D)|(_ & -> & _)]]; [congruence|congruence|].
  by destruct Hq.
Qed.

Lemma number_shorter x y : number x -> number y -> value x < value y -> shorter x y.
Proof.
  intros [Hx Hx0] [Hy Hy0] Hv. pose proof (value_bounds x Hx) as Bx. pose proof (value_bounds y Hy) as By. unfold shorter.
  destruct (decide (length y < length x)%nat) as [Hlt|]; [exfalso|lia]. destruct x as [|a x]; [cbn in Hlt; lia|].
  inversion Hx as [|? ? Ha Hx']; subst. cbn in Hx0. pose proof (value_bounds x Hx'). cbn [value length] in *.
  assert (10 ^ Z.of_nat (length y) <= 10 ^ Z.of_nat (length x)) by (apply Z.pow_le_mono_r; lia). nia.
Qed.

Lemma text_order x y r1 r2 : number x -> number y -> rest r1 -> rest r2 -> shorter x y ->
  verscmp_loop S_TEXT (x ++ r1) (y ++ r2) = Some (-1).
Proof.
  intros [Hx Hx0] [Hy Hy0] Hr1 Hr2 Hs. destruct x as [|a x]; [cbn in Hx0; lia|]. destruct y as [|b y]; [cbn in Hy0; lia|].
  cbn [hd] in *. pose proof (run_digits _ r1 Hx Hr1) as E1. pose proof (run_digits _ r2 Hy Hr2) as E2.
  pose proof (string_digits _ r1 Hx Hr1) as S1. pose proof (string_digits _ r2 Hy Hr2) as S2.
  inversion Hx as [|? ? Ha Hx']; inversion Hy as [|? ? Hb Hy']; subst. cbn [app] in *. destruct (decide (a = b)) as [<-|Hne].
  - rewrite loop_same by (constructor || lia). rewrite next_digit by (lia || (right; split; [done|lia])).
    apply int_order; try done. by apply shorter_tail in Hs.
  - apply loop_ranks; [constructor|done..|]. apply shorter_head in Hs; [|done..].
    unfold rank_lt, rank. change (S_TEXT =? S_INT) with false. change (S_TEXT =? S_FRAC) with false. change (S_TEXT =? S_FRAC0) with false.
    cbn [hd]. rewrite !(proj2 (Z.leb_le _ _)) by lia. cbn [andb]. rewrite E1, E2. cbn [fst snd length]. lia.
Qed.

(** C36: strverscmp orders strings.  For any strings it returns -1, 0 or 1, without reading
    behind a terminator; 0 only for equal strings; the negated result with the arguments
    exchanged; and what is less than something less is less.  When two strings agree up to a
    number (behind a text that does not end in a digit, the numbers without leading
    zeros), the one with the smaller number is less, however many digits they have and
    whatever follows. *)
Theorem strverscmp_order :
  (forall s1 s2, string s1 -> string s2 ->
     exists r, strverscmp s1 s2 = Some r /\ strverscmp s2 s1 = Some (- r) /\ -1 <= r <= 1 /\ (r = 0 <-> s1 = s2)) /\
  (forall s1 s2 s3, string s1 -> string s2 -> string s3 ->
     strverscmp s1 s2 = Some (-1) -> strverscmp s2 s3 = Some (-1) -> strverscmp s1 s3 = Some (-1)) /\
  (forall p x y r1 r2, text p -> number x -> number y -> rest r1 -> rest r2 -> value x < value y ->
     strverscmp (p ++ x ++ r1) (p ++ y ++ r2) = Some (-1)).
Proof.
  split; [|split].
  - intros s1 s2. apply loop_total, state_text.
  - intros s1 s2 s3. apply loop_trans, state_text.
  - intros p x y r1 r2 Hp Hx Hy Hr1 Hr2 Hv. unfold strverscmp.
    destruct (loop_prefix S_TEXT p (x ++ r1) (y ++ r2) state_text (proj1 Hp)) as [-> _]. rewrite text_state by done.
    apply text_order; try done. by apply number_shorter.
Qed.

(** 2.6.9 is before 2.6.20. *)
Lemma strverscmp_order_witness : strverscmp ([50; 46; 54; 46] ++ [57] ++ [0]) ([50; 46; 54; 46] ++ [50; 48] ++ [0]) = Some (-1).
Proof.
  apply (proj2 (proj2 strverscmp_order)).
  - split; [repeat constructor; lia|reflexivity].
  - split; [repeat constructor; lia|cbn; lia].
  - split; [repeat constructor; lia|cbn; lia].
  - split; [constructor|reflexivity].
  - split; [constructor|reflexivity].
  - reflexivity.
Defined.
