(* ===== verification/Services.v ===== *)
(** * Services and protocols

    Sources: src/libc/strings/strcasecmp_l.c; src/libc/netdb/netdb_impl.h,
    getservbyname.c (which has getservbyport too), getprotobyname.c and
    iana_protocol_numbers.h.

    The port numbers are one string in which every entry has two bytes for the port in
    network order, one for the protocols and a name with its terminator; a pointer into
    it is the list of the bytes from there on, and reading behind the end is undefined
    ([None]).  [ServiceTable] has the string itself.

    The structures that the functions return are kept in a list that threads extend
    without a lock; that part is a step relation.  A pointer to an element of the list is
    the list from there on, which does not change once it can be reached.

    The theorems: getservbyname and getservbyport find the service with its official
    name and aliases as one finds them by looking at all the entries; and all threads get
    the same object for the same service. *)

From S2P Require Import Prelude Charset WideClass.
From stdpp Require Import sorting.

#[local] Open Scope Z_scope.

(** ** strcasecmp *)

(** fetchchar: the character, or -1, and the rest of the string. *)
Definition fetchchar (C : lc_ctype) (s : list Z) (mb : mbstate) : option (Z * list Z * mbstate) :=
  '(r, mb) ← mbtoc32 C s (2 ^ 64 - 1) mb;
  match r with
  | MbChar l c32 => Some (s32 c32, drop (Z.to_nat l) s, mb)
  | _ => Some (-1, s, mb)
  end.

(** towlower on the signed wint_t. *)
Definition towlower_wint (c : Z) : option Z := l ← towlower (u32 c); Some (s32 l).

Fixpoint strcasecmp_loop (fuel : nat) (C : lc_ctype) (s1 : list Z) (mb1 : mbstate) (s2 : list Z) (mb2 : mbstate) : option Z :=
  match fuel with
  | O => None
  | S fuel =>
      '(w1, s1, mb1) ← fetchchar C s1 mb1;
      c1 ← towlower_wint w1;
      '(w2, s2, mb2) ← fetchchar C s2 mb2;
      c2 ← towlower_wint w2;
      if c1 <? c2 then Some (-1)
      else if c2 <? c1 then Some 1
      else if c1 <=? 0 then Some 0
      else strcasecmp_loop fuel C s1 mb1 s2 mb2
  end.

Definition strcasecmp_l (C : lc_ctype) (s1 s2 : list Z) : option Z :=
  strcasecmp_loop (S (length s1)) C s1 mbstate_init s2 mbstate_init.

(** ** Port number entries *)

Definition PORTSTR_TCP : Z := 0x1.
Definition PORTSTR_UDP : Z := 0x2.
Definition PORTSTR_SCTP : Z := 0x4.
Definition PORTSTR_DCCP : Z := 0x8.

(** The two bytes as a little endian number. *)
Definition portstr_get_port (entry : list Z) : option Z :=
  b0 ← entry !! 0%nat; b1 ← entry !! 1%nat; Some (u8 b0 + 256 * u8 b1).

Definition portstr_match_protoid (entry : list Z) (protoid : Z) : option bool :=
  b ← entry !! 2%nat; Some (negb (Z.land b protoid =? 0)).

Definition portstr_get_name (entry : list Z) : list Z := drop 3 entry.

Fixpoint strlen (s : list Z) : option nat :=
  match s with
  | [] => None
  | c :: s => if c =? 0 then Some O else l ← strlen s; Some (S l)
  end.

Definition portstr_get_next (entry : list Z) : option (list Z) :=
  let name := portstr_get_name entry in
  l ← strlen name; Some (drop (l + 1) name).

(** ** Services *)

(** The string literals "tcp" and so on. *)
Definition str_tcp : list Z := [116; 99; 112; 0].
Definition str_udp : list Z := [117; 100; 112; 0].
Definition str_sctp : list Z := [115; 99; 116; 112; 0].
Definition str_dccp : list Z := [100; 99; 99; 112; 0].

Definition proto_get_id (C : lc_ctype) (name : list Z) : option Z :=
  r ← strcasecmp_l C name str_tcp;
  if r =? 0 then Some PORTSTR_TCP else
  r ← strcasecmp_l C name str_udp;
  if r =? 0 then Some PORTSTR_UDP else
  r ← strcasecmp_l C name str_sctp;
  if r =? 0 then Some PORTSTR_SCTP else
  r ← strcasecmp_l C name str_dccp;
  if r =? 0 then Some PORTSTR_DCCP else Some 0.

(** [None] is the failing assertion. *)
Definition proto_get_name (protoid : Z) : option (list Z) :=
  if protoid =? PORTSTR_TCP then Some str_tcp
  else if protoid =? PORTSTR_UDP then Some str_udp
  else if protoid =? PORTSTR_SCTP then Some str_sctp
  else if protoid =? PORTSTR_DCCP then Some str_dccp
  else None.

Record servent := Servent { s_name : list Z; s_aliases : list (list Z); s_port : Z; s_proto : list Z }.

(** The loop over the entries of the same port behind [entry], which is there twice: to
    count the aliases and to store them. *)
Fixpoint aliases_loop (fuel : nat) (port protoid : Z) (alias : list Z) : option (list (list Z)) :=
  match fuel with
  | O => None
  | S fuel =>
      p ← portstr_get_port alias;
      if p =? port then
        b ← portstr_match_protoid alias protoid;
        next ← portstr_get_next alias;
        rest ← aliases_loop fuel port protoid next;
        Some (if (b : bool) then portstr_get_name alias :: rest else rest)
      else Some []
  end.

(** create_servent_entry, when malloc succeeds; the array has room for the aliases that
    were counted and the null pointer. *)
Definition create_servent (entry : list Z) (protoid : Z) : option servent :=
  next ← portstr_get_next entry;
  port ← portstr_get_port entry;
  aliases ← aliases_loop (length entry) port protoid next;
  name ← proto_get_name protoid;
  Some (Servent (portstr_get_name entry) aliases port name).

(** The loop of getservbyname: the entry that is passed to get_servent, or null. *)
Fixpoint getservbyname_loop (fuel : nat) (C : lc_ctype) (name : list Z) (protoid : Z) (first_entry entry : list Z)
    : option (option (list Z)) :=
  match fuel with
  | O => None
  | S fuel =>
      port ← portstr_get_port entry;
      if port =? 0 then Some None
      else
        let continue first_entry :=
          next ← portstr_get_next entry; getservbyname_loop fuel C name protoid first_entry next in
        b ← portstr_match_protoid entry protoid;
        if (b : bool) then
          first_port ← portstr_get_port first_entry;
          let first_entry := if first_port =? port then first_entry else entry in
          r ← strcasecmp_l C (portstr_get_name entry) name;
          if r =? 0 then Some (Some first_entry) else continue first_entry
        else continue first_entry
  end.

Fixpoint getservbyport_loop (fuel : nat) (port protoid : Z) (entry : list Z) : option (option (list Z)) :=
  match fuel with
  | O => None
  | S fuel =>
      p ← portstr_get_port entry;
      if p =? 0 then Some None
      else
        b ← portstr_match_protoid entry protoid;
        if (p =? port) && b then Some (Some entry)
        else next ← portstr_get_next entry; getservbyport_loop fuel port protoid next
  end.

(** The search of both functions, and the content of the object that get_servent returns
    for what was found; the object itself is below. *)
Definition getservbyname (C : lc_ctype) (iana_port_numbers name proto : list Z) : option (option servent) :=
  protoid ← proto_get_id C proto;
  found ← getservbyname_loop (length iana_port_numbers) C name protoid iana_port_numbers iana_port_numbers;
  match found with
  | None => Some None
  | Some entry => se ← create_servent entry protoid; Some (Some se)
  end.

Definition getservbyport (C : lc_ctype) (iana_port_numbers : list Z) (port : Z) (proto : list Z) : option (option servent) :=
  protoid ← proto_get_id C proto;
  found ← getservbyport_loop (length iana_port_numbers) port protoid iana_port_numbers;
  match found with
  | None => Some None
  | Some entry => se ← create_servent entry protoid; Some (Some se)
  end.

(** ** Protocols *)

Record protoent := Protoent { p_name : list Z; p_aliases : list (list Z); p_proto : Z }.

(** The loop over the names of an entry. *)
Fixpoint alias_matches (C : lc_ctype) (name : list Z) (aliases : list (list Z)) : option bool :=
  match aliases with
  | [] => Some false
  | alias :: aliases =>
      r ← strcasecmp_l C alias name;
      if r =? 0 then Some true else alias_matches C name aliases
  end.

Fixpoint getprotobyname (C : lc_ctype) (name : list Z) (entries : list protoent) : option (option protoent) :=
  match entries with
  | [] => Some None
  | pe :: entries =>
      r ← strcasecmp_l C (p_name pe) name;
      if r =? 0 then Some (Some pe)
      else
        b ← alias_matches C name (p_aliases pe);
        if (b : bool) then Some (Some pe) else getprotobyname C name entries
  end.

Fixpoint getprotobynumber (proto : Z) (entries : list protoent) : option protoent :=
  match entries with
  | [] => None
  | pe :: entries => if p_proto pe =? proto then Some pe else getprotobynumber proto entries
  end.

(** ** strcasecmp in the C locale *)

Definition lower_fact (c : Z) : bool :=
  match towlower_wint c with
  | Some l => if c <=? 0 then l =? c else (1 <=? l) && (l <=? 127)
  | None => false
  end.

Lemma lower_facts : forallb lower_fact (-1 :: (Z.of_nat <$> seq 0 128)) = true.
Proof. vm_compute. reflexivity. Qed.

(** Lower case in ASCII. *)
Definition ascii_lower (c : Z) : Z := default 0 (towlower_wint c).

Lemma ascii_lower_spec c : -1 <= c <= 127 ->
  towlower_wint c = Some (ascii_lower c) /\ (c <= 0 -> ascii_lower c = c) /\ (1 <= c -> 1 <= ascii_lower c <= 127).
Proof.
  intros Hc. pose proof lower_facts as Hf. rewrite forallb_forall in Hf.
  assert (Hin : In c (-1 :: (Z.of_nat <$> seq 0 128))).
  { destruct (decide (c = -1)) as [->|]; [by left|right]. apply in_map_iff. exists (Z.to_nat c). split; [lia|]. apply in_seq. lia. }
  specialize (Hf c Hin). unfold lower_fact in Hf. unfold ascii_lower. destruct (towlower_wint c) as [l|]; [|done].
  split; [done|]. cbn. destruct (Z.leb_spec c 0); split; intros; lia.
Qed.

(** A character of a string as the comparison sees it: bytes that are not ASCII are -1. *)
Definition seen (c : Z) : Z := if c <? 128 then ascii_lower c else -1.

Lemma fetch_ascii c s : 0 <= c < 256 ->
  exists w s', fetchchar ctype_us_ascii (c :: s) mbstate_init = Some (w, s', mbstate_init) /\
    towlower_wint w = Some (seen c) /\ (c < 128 -> s' = s).
Proof.
  intros Hc. unfold fetchchar. cbn [mbtoc32 ctype_us_ascii]. unfold us_ascii_mbtoc32, SCHAR_MAX, seen. cbn [head mbind option_bind].
  change (2 ^ 64 - 1 <? 1) with false. cbv iota. destruct (Z.ltb_spec 127 c) as [Hlt|Hge].
  - rewrite (proj2 (Z.ltb_ge c 128)) by lia. eexists _, _. split; [reflexivity|]. split; [|lia].
    destruct (ascii_lower_spec (-1)) as (-> & H & _); [lia|]. by rewrite H.
  - rewrite (proj2 (Z.ltb_lt c 128)) by lia. cbn [mbind option_bind].
    assert (Hs : s32 c = c) by (apply sN_small; unfold in_signed; lia). rewrite Hs.
    eexists _, _. split; [reflexivity|]. split; [apply ascii_lower_spec; lia|done].
Qed.

Lemma seen_ascii c : 1 <= c <= 127 -> 1 <= seen c <= 127.
Proof. intros Hc. unfold seen. rewrite (proj2 (Z.ltb_lt c 128)) by lia. apply ascii_lower_spec; lia. Qed.

Lemma seen_zero : seen 0 = 0.
Proof. unfold seen. cbn [Z.ltb Z.compare]. by apply ascii_lower_spec. Qed.

Lemma seen_nonzero c : 1 <= c <= 255 -> seen c <> 0 /\ (0 < seen c -> c < 128).
Proof.
  intros Hc. unfold seen. destruct (Z.ltb_spec c 128); [|done]. destruct (ascii_lower_spec c) as (_ & _ & ?); lia.
Qed.

(** The loop, where one of the strings is ASCII. *)
Lemma strcasecmp_ascii fuel n1 r1 n2 r2 : (length n1 < fuel)%nat ->
  Forall (fun c => 1 <= c <= 255) n1 -> Forall (fun c => 1 <= c <= 255) n2 ->
  Forall (fun c => c <= 127) n1 \/ Forall (fun c => c <= 127) n2 ->
  exists r, strcasecmp_loop fuel ctype_us_ascii (n1 ++ 0 :: r1) mbstate_init (n2 ++ 0 :: r2) mbstate_init = Some r /\
    (r = 0 <-> seen <$> n1 = seen <$> n2).
Proof.
  revert n1 n2. induction fuel as [|fuel IH]; intros n1 n2 Hf H1 H2 Hasc; [lia|].
  assert (H : exists c1 t1 c2 t2, n1 ++ 0 :: r1 = c1 :: t1 /\ n2 ++ 0 :: r2 = c2 :: t2 /\ 0 <= c1 < 256 /\ 0 <= c2 < 256).
  { destruct H1, H2; cbn; eexists _, _, _, _; (split; [done|]); (split; [done|]); lia. }
  destruct H as (c1 & t1 & c2 & t2 & E1 & E2 & B1 & B2). rewrite E1, E2. cbn [strcasecmp_loop].
  destruct (fetch_ascii c1 t1 B1) as (w1 & s1 & -> & L1 & T1). cbn [mbind option_bind]. rewrite L1. cbn [mbind option_bind].
  destruct (fetch_ascii c2 t2 B2) as (w2 & s2 & -> & L2 & T2). cbn [mbind option_bind]. rewrite L2. cbn [mbind option_bind].
  clear L1 L2. destruct H1 as [|a1 n1 Ha1 H1], H2 as [|a2 n2 Ha2 H2]; cbn in E1, E2; injection E1 as <- <-; injection E2 as <- <-;
    rewrite ?seen_zero; [by exists 0| | |].
  - destruct (seen_nonzero a2 Ha2) as [Hne _]. repeat zcase1; first [lia|by exists (-1)|by exists 1].
  - destruct (seen_nonzero a1 Ha1) as [Hne _]. repeat zcase1; first [lia|by exists (-1)|by exists 1].
  - destruct (Z.ltb_spec (seen a1) (seen a2)); [exists (-1); split; [done|]; split; [done|cbn; intros [=]; lia]|].
    destruct (Z.ltb_spec (seen a2) (seen a1)); [exists 1; split; [done|]; split; [done|cbn; intros [=]; lia]|].
    assert (Hpos : 0 < seen a1).
    { destruct Hasc as [Hasc|Hasc]; inversion Hasc; subst; [pose proof (seen_ascii a1)|pose proof (seen_ascii a2)]; lia. }
    destruct (seen_nonzero a1 Ha1) as [_ Hl1], (seen_nonzero a2 Ha2) as [_ Hl2].
    rewrite (proj2 (Z.leb_gt (seen a1) 0)) by lia. rewrite T1, T2 by lia.
    destruct (IH n1 n2) as (r & -> & Hr); [cbn in Hf; lia|done|done|by destruct Hasc as [Hasc|Hasc]; inversion Hasc; subst; [left|right]|].
    exists r. split; [done|]. rewrite Hr. split; cbn; [intros ->; f_equal; lia|by intros [=]].
Qed.

Definition is_string (name : list Z) : Prop := Forall (fun c => 1 <= c <= 255) name.

Definition same_name (n m : list Z) : bool := bool_decide (seen <$> n = seen <$> m).

Lemma strcasecmp_decides n r m r' : is_string n -> is_string m -> Forall (fun c => c <= 127) n \/ Forall (fun c => c <= 127) m ->
  exists x, strcasecmp_l ctype_us_ascii (n ++ 0 :: r) (m ++ 0 :: r') = Some x /\ (x =? 0) = same_name n m.
Proof.
  intros Hn Hm Hasc. destruct (strcasecmp_ascii (S (length (n ++ 0 :: r))) n r m r') as (x & E & Hx); [rewrite length_app; lia|done..|].
  exists x. split; [exact E|]. unfold same_name. destruct (Z.eqb_spec x 0); case_bool_decide; tauto.
Qed.

(** Bytes that are not ASCII all compare as equal. *)
Lemma strcasecmp_not_ascii : strcasecmp_l ctype_us_ascii [0xe9; 0] [0xe8; 0] = Some 0.
Proof. vm_compute. reflexivity. Qed.

(** ** The table as a list of entries *)

Record entry := Entry { e_hi : Z; e_lo : Z; e_protos : Z; e_name : list Z }.

Definition entry_bytes (e : entry) : list Z := e_hi e :: e_lo e :: e_protos e :: e_name e ++ [0].

(** The entries, the two bytes of the end and the terminator of the literal. *)
Definition table_bytes (es : list entry) : list Z := concat (entry_bytes <$> es) ++ [0; 0; 0].

Definition e_port (e : entry) : Z := e_hi e + 256 * e_lo e.
Definition e_number (e : entry) : Z := 256 * e_hi e + e_lo e.
Definition e_matches (protoid : Z) (e : entry) : bool := negb (Z.land (e_protos e) protoid =? 0).

Definition entry_okb (e : entry) : bool :=
  (0 <=? e_hi e) && (e_hi e <? 256) && (0 <=? e_lo e) && (e_lo e <? 256) && (1 <=? e_number e) &&
  forallb (fun c => (1 <=? c) && (c <=? 127)) (e_name e).

Fixpoint sortedb (es : list entry) : bool :=
  match es with
  | e :: ((e' :: _) as es) => if e_number e <=? e_number e' then sortedb es else false
  | _ => true
  end.

(** The first entry stands for all of its port. *)
Definition head_okb (es : list entry) : bool :=
  match es with
  | e1 :: _ =>
      forallb (fun e => negb (e_port e =? e_port e1) ||
        forallb (fun p => negb (e_matches p e) || e_matches p e1) [PORTSTR_TCP; PORTSTR_UDP; PORTSTR_SCTP; PORTSTR_DCCP]) es
  | [] => false
  end.

Definition table_okb (es : list entry) : bool := forallb entry_okb es && sortedb es && head_okb es.

(** A C string. *)
Fixpoint c_string (s : list Z) : list Z :=
  match s with
  | [] => []
  | c :: s => if c =? 0 then [] else c :: c_string s
  end.

Record entry_ok (e : entry) : Prop := {
  ok_hi : 0 <= e_hi e < 256;
  ok_lo : 0 <= e_lo e < 256;
  ok_number : 1 <= e_number e;
  ok_name : Forall (fun c => 1 <= c <= 127) (e_name e)
}.

Lemma entry_ok_correct e : entry_okb e = true -> entry_ok e.
Proof.
  unfold entry_okb. intros H. apply andb_prop in H as [H Hn]. constructor; try lia.
  apply list.Forall_forall. intros c Hc. rewrite forallb_forall in Hn. specialize (Hn c). rewrite list_elem_of_In in Hc.
  specialize (Hn Hc). lia.
Qed.

Lemma strlen_name n r : Forall (fun c => 1 <= c <= 127) n -> strlen (n ++ 0 :: r) = Some (length n).
Proof.
  induction 1 as [|c n Hc _ IH]; [done|]. cbn [app strlen length]. rewrite (proj2 (Z.eqb_neq c 0)) by lia. by rewrite IH.
Qed.

Lemma c_string_name n r : Forall (fun c => 1 <= c <= 127) n -> c_string (n ++ 0 :: r) = n.
Proof.
  induction 1 as [|c n Hc _ IH]; [done|]. cbn [app c_string]. rewrite (proj2 (Z.eqb_neq c 0)) by lia. by rewrite IH.
Qed.

Lemma table_cons e es : table_bytes (e :: es) = e_hi e :: e_lo e :: e_protos e :: e_name e ++ 0 :: table_bytes es.
Proof. unfold table_bytes. cbn. by rewrite <- !app_assoc. Qed.

Lemma get_port e es : entry_ok e -> portstr_get_port (table_bytes (e :: es)) = Some (e_port e).
Proof. intros [Hhi Hlo _ _]. rewrite table_cons. unfold portstr_get_port. cbn. unfold e_port. by rewrite !uN_small by done. Qed.

Lemma get_match e es protoid : portstr_match_protoid (table_bytes (e :: es)) protoid = Some (e_matches protoid e).
Proof. by rewrite table_cons. Qed.

Lemma get_name e es : portstr_get_name (table_bytes (e :: es)) = e_name e ++ 0 :: table_bytes es.
Proof. by rewrite table_cons. Qed.

Lemma get_next e es : entry_ok e -> portstr_get_next (table_bytes (e :: es)) = Some (table_bytes es).
Proof.
  intros [_ _ _ Hn]. unfold portstr_get_next. rewrite get_name, strlen_name by done. cbn [mbind option_bind].
  rewrite Nat.add_comm. cbn [Nat.add]. rewrite drop_app_ge by lia. by replace (S (length (e_name e)) - length (e_name e))%nat with 1%nat by lia.
Qed.

Lemma end_port : portstr_get_port (table_bytes []) = Some 0.
Proof. done. Qed.

Lemma e_port_pos e : entry_ok e -> e_port e <> 0.
Proof. intros [Hhi Hlo Hn _]. unfold e_port, e_number in *. lia. Qed.

Lemma e_port_number e e' : entry_ok e -> entry_ok e' -> e_port e = e_port e' <-> e_number e = e_number e'.
Proof. intros [? ? _ _] [? ? _ _]. unfold e_port, e_number. lia. Qed.

Lemma table_length es : (length es < length (table_bytes es))%nat.
Proof. induction es as [|e es IH]; [cbn; lia|]. rewrite table_cons. cbn. rewrite length_app. cbn. lia. Qed.

#[local] Opaque table_bytes.

(** ** What is to be found *)

(** The entries of a protocol that have the port of [e]. *)
Definition group (protoid : Z) (e : entry) (es : list entry) : list entry :=
  filter (fun e' => e_matches protoid e' = true /\ e_port e' = e_port e) es.

(** The first name is the official one, the others are aliases. *)
Definition describes (protoid : Z) (g : list entry) (se : servent) : Prop :=
  match g with
  | [] => False
  | e :: rest =>
      c_string (s_name se) = e_name e /\ c_string <$> s_aliases se = e_name <$> rest /\
      s_port se = e_port e /\ proto_get_name protoid = Some (s_proto se)
  end.

Lemma group_nil protoid e l : Forall (fun y => e_port y <> e_port e) l -> group protoid e l = [].
Proof. induction 1 as [|y l Hy _ IH]; [done|]. unfold group. rewrite filter_cons_False by tauto. exact IH. Qed.

Lemma aliases_loop_ok fuel protoid e l : Forall entry_ok l -> entry_ok e -> (length l < fuel)%nat ->
  Forall (fun e' => e_number e <= e_number e') l -> StronglySorted (fun a b => e_number a <= e_number b) l ->
  exists names, aliases_loop fuel (e_port e) protoid (table_bytes l) = Some names /\
    c_string <$> names = e_name <$> group protoid e l.
Proof.
  intros Hl He. revert fuel. induction Hl as [|x l Hx Hl IH]; intros fuel Hf Hle Hs; (destruct fuel as [|fuel]; [cbn in Hf; lia|]); cbn [aliases_loop].
  - rewrite end_port. cbn [mbind option_bind]. rewrite (proj2 (Z.eqb_neq 0 (e_port e))) by (apply not_eq_sym, e_port_pos, He). by exists [].
  - rewrite get_port by done. cbn [mbind option_bind]. inversion Hle as [|? ? Hex Hle']; subst. inversion Hs as [|? ? Hs' Hall]; subst.
    destruct (Z.eqb_spec (e_port x) (e_port e)) as [Heq|Hne].
    + unfold group. rewrite get_match, get_next by done. cbn [mbind option_bind]. destruct (IH fuel) as (names & -> & Hn); [cbn in Hf; lia|done|done|].
      cbn [mbind option_bind]. destruct (e_matches protoid x) eqn:Hm.
      * rewrite filter_cons_True by done. eexists. split; [done|]. rewrite !fmap_cons. rewrite get_name, c_string_name by apply Hx.
        f_equal. exact Hn.
      * rewrite filter_cons_False by (rewrite Hm; by intros [? _]). eexists. split; [done|]. exact Hn.
    + exists []. split; [done|].
      assert (Hgt : Forall (fun y => e_port y <> e_port e) (x :: l)).
      { constructor; [done|]. rewrite list.Forall_forall in Hall, Hl |- *. intros y Hy Hpe. apply Hne.
        rewrite e_port_number in Hpe |- * by eauto. specialize (Hall y Hy). lia. }
      by rewrite (group_nil protoid e (x :: l) Hgt).
Qed.

Definition sorted_table (es : list entry) : Prop := StronglySorted (fun a b => e_number a <= e_number b) es.

(** The object for the first entry of a group has all of it. *)
Lemma create_servent_ok protoid pre e l : Forall entry_ok (pre ++ e :: l) -> sorted_table (pre ++ e :: l) ->
  e_matches protoid e = true -> Forall (fun y => e_matches protoid y = true -> e_port y <> e_port e) pre ->
  protoid ∈ [PORTSTR_TCP; PORTSTR_UDP; PORTSTR_SCTP; PORTSTR_DCCP] ->
  exists se, create_servent (table_bytes (e :: l)) protoid = Some se /\ describes protoid (group protoid e (pre ++ e :: l)) se.
Proof.
  intros Hok Hs Hm Hpre Hp. apply Forall_app in Hok as [_ Hok]. inversion Hok as [|? ? He Hl]; subst.
  assert (Hs' : sorted_table (e :: l)) by (clear -Hs; induction pre as [|y pre IH]; [done|]; cbn in Hs; inversion Hs; auto).
  inversion Hs' as [|? ? Hsl Hle]; subst.
  assert (Hg : group protoid e (pre ++ e :: l) = e :: group protoid e l).
  { unfold group. rewrite list.filter_app, filter_cons_True by done.
    assert (Hnil : filter (fun e' => e_matches protoid e' = true /\ e_port e' = e_port e) pre = []); [|by rewrite Hnil].
    clear -Hpre. induction Hpre as [|y pre Hy _ IH]; [done|]. rewrite filter_cons_False; [exact IH|]. intros [H1 H2]. by apply Hy. }
  rewrite Hg. unfold create_servent. rewrite get_next, get_port by done. cbn [mbind option_bind].
  destruct (aliases_loop_ok (length (table_bytes (e :: l))) protoid e l) as (names & -> & Hn); try done.
  { pose proof (table_length (e :: l)). cbn in *. lia. }
  cbn [mbind option_bind].
  assert (Hname : exists nm, proto_get_name protoid = Some nm) by
    (clear -Hp; repeat (apply elem_of_cons in Hp as [->|Hp]; [by eexists|]); by apply not_elem_of_nil in Hp).
  destruct Hname as [nm Hnm]. rewrite Hnm. cbn [mbind option_bind]. eexists. split; [done|]. unfold describes.
  cbn [s_name s_aliases s_port s_proto]. rewrite get_name, c_string_name by apply He. split; [done|]. split; [exact Hn|]. by split.
Qed.

Lemma head_filter_Some `(P : entry -> Prop) `{!forall e, Decision (P e)} l e : head (filter P l) = Some e -> P e /\ e ∈ l.
Proof.
  intros E. assert (Hin : e ∈ filter P l) by (destruct (filter P l) as [|y ys]; [done|]; cbn in E; injection E as ->; left).
  by apply list_elem_of_filter in Hin.
Qed.

(** The first entry of the protocol with the name. *)
Definition find_service (protoid : Z) (name : list Z) (es : list entry) : option entry :=
  head (filter (fun e => e_matches protoid e = true /\ same_name (e_name e) name = true) es).

(** What the loop knows of the entries [pre] it has seen, with [f] in front of [fl] as
    first_entry, about the entries [l] that are left. *)
Record loop_inv (protoid : Z) (es pre l : list entry) (f : entry) (fl : list entry) : Prop := {
  li_split : es = pre ++ l;
  li_first : exists fpre, es = fpre ++ f :: fl /\
    ((exists e, e ∈ l /\ e_matches protoid e = true /\ e_port e = e_port f) ->
     e_matches protoid f = true /\ Forall (fun y => e_matches protoid y = true -> e_port y <> e_port f) fpre);
  li_fresh e d : e ∈ l -> e_matches protoid e = true -> e_port e <> e_port f ->
    d ∈ pre -> e_matches protoid d = true -> e_port d <> e_port e
}.

Lemma sorted_between es pre e l d e' : sorted_table es -> es = pre ++ e :: l -> d ∈ pre -> e' ∈ l ->
  e_number d <= e_number e <= e_number e'.
Proof.
  intros Hs -> Hd He'. unfold sorted_table in Hs. split.
  - eapply (StronglySorted_app_1_elem_of (fun a b => e_number a <= e_number b)); [exact Hs|exact Hd|left].
  - clear -Hs He'. induction pre as [|y pre IH]; cbn in Hs; inversion Hs as [|? ? Hs' Hall]; subst; [|auto].
    rewrite list.Forall_forall in Hall. by apply Hall.
Qed.

Lemma loop_inv_next protoid es pre e l f fl : Forall entry_ok es -> sorted_table es -> loop_inv protoid es pre (e :: l) f fl ->
  if e_matches protoid e && negb (e_port f =? e_port e) then loop_inv protoid es (pre ++ [e]) l e l
  else loop_inv protoid es (pre ++ [e]) l f fl.
Proof.
  intros Hok Hs [Hsp (fpre & Hf & Hfirst) Hfr]. rewrite list.Forall_forall in Hok.
  assert (Hsp' : es = (pre ++ [e]) ++ l) by by rewrite <- app_assoc.
  destruct (e_matches protoid e) eqn:Hm; [destruct (Z.eqb_spec (e_port f) (e_port e)) as [Heq|Hne]|]; cbn [andb negb].
  - constructor; [done| |].
    + exists fpre. split; [done|]. intros _. apply Hfirst. exists e. split; [left|]. by split.
    + intros e' d He' Hm' Hne' [Hd|Hd]%elem_of_app Hmd; [apply (Hfr e' d); [by right|done..]|].
      apply list_elem_of_singleton in Hd as ->. congruence.
  - constructor; [done| |].
    + exists pre. split; [done|]. intros _. split; [done|]. apply list.Forall_forall. intros d Hd Hmd.
      apply (Hfr e d); [left|done|congruence|done|done].
    + intros e' d He' Hm' Hne' [Hd|Hd]%elem_of_app Hmd Hpe; [|apply list_elem_of_singleton in Hd as ->; congruence].
      pose proof (sorted_between es pre e l d e' Hs Hsp Hd He') as Hb. apply Hne'.
      assert (entry_ok d) by (apply Hok; rewrite Hsp; set_solver). assert (entry_ok e') by (apply Hok; rewrite Hsp; set_solver).
      assert (entry_ok e) by (apply Hok; rewrite Hsp; set_solver). rewrite e_port_number in Hpe |- * by done. lia.
  - constructor; [done| |].
    + exists fpre. split; [done|]. intros (e' & He' & Hrest). apply Hfirst. exists e'. split; [by right|done].
    + intros e' d He' Hm' Hne' [Hd|Hd]%elem_of_app Hmd; [apply (Hfr e' d); [by right|done..]|].
      apply list_elem_of_singleton in Hd as ->. congruence.
Qed.

Lemma strcasecmp_same n r name : Forall (fun c => 1 <= c <= 127) n -> is_string name ->
  exists x, strcasecmp_l ctype_us_ascii (n ++ 0 :: r) (name ++ [0]) = Some x /\ (x =? 0) = same_name n name.
Proof.
  intros Hn Hs. apply strcasecmp_decides; [|done|left]; eapply list.Forall_impl; try exact Hn; cbn; lia.
Qed.

Lemma find_service_cons protoid name e l :
  find_service protoid name (e :: l) = if e_matches protoid e && same_name (e_name e) name then Some e else find_service protoid name l.
Proof.
  unfold find_service. destruct (e_matches protoid e) eqn:H1, (same_name (e_name e) name) eqn:H2; cbn [andb];
    [rewrite filter_cons_True by done; done|rewrite filter_cons_False by (rewrite ?H1, ?H2; intros []; done); done..].
Qed.

Lemma getservbyname_loop_ok fuel protoid name es pre l f fl : Forall entry_ok es -> sorted_table es -> is_string name ->
  loop_inv protoid es pre l f fl -> (length l < fuel)%nat ->
  match find_service protoid name l with
  | None => getservbyname_loop fuel ctype_us_ascii (name ++ [0]) protoid (table_bytes (f :: fl)) (table_bytes l) = Some None
  | Some e => exists fpre f' fl',
      getservbyname_loop fuel ctype_us_ascii (name ++ [0]) protoid (table_bytes (f :: fl)) (table_bytes l) = Some (Some (table_bytes (f' :: fl'))) /\
      es = fpre ++ f' :: fl' /\ e_port f' = e_port e /\ e_matches protoid f' = true /\
      Forall (fun y => e_matches protoid y = true -> e_port y <> e_port f') fpre
  end.
Proof.
  intros Hok Hs Hname. revert fuel pre f fl. induction l as [|e l IH]; intros fuel pre f fl Hinv Hf;
    (destruct fuel as [|fuel]; [cbn in Hf; lia|]); [done|]. rewrite find_service_cons. cbn [getservbyname_loop].
  pose proof (li_split _ _ _ _ _ _ Hinv) as Hsp. pose proof (loop_inv_next _ _ _ _ _ _ _ Hok Hs Hinv) as Hnext.
  destruct (li_first _ _ _ _ _ _ Hinv) as (fpre & Hfp & Hfirst).
  assert (He : entry_ok e) by (rewrite Hsp in Hok; apply Forall_app in Hok as [_ Hok]; by inversion Hok).
  assert (Hfo : entry_ok f) by (rewrite Hfp in Hok; apply Forall_app in Hok as [_ Hok]; by inversion Hok).
  rewrite (get_port e l He). cbn [mbind option_bind]. rewrite (proj2 (Z.eqb_neq _ _) (e_port_pos e He)).
  rewrite get_match. cbn [mbind option_bind]. rewrite get_next by done. cbn [mbind option_bind]. cbn in Hf.
  destruct (e_matches protoid e) eqn:Hm; cbn [andb] in Hnext |- *; [|by apply (IH fuel (pre ++ [e]) f fl); [|lia]].
  rewrite (get_port f fl Hfo). cbn [mbind option_bind]. rewrite get_name.
  destruct (strcasecmp_same (e_name e) (table_bytes l) name (ok_name _ He) Hname) as (x & E & Hx).
  rewrite E. cbn [mbind option_bind]. rewrite Hx.
  destruct (Z.eqb_spec (e_port f) (e_port e)) as [Heq|Hne]; cbn [negb] in Hnext; destruct (same_name (e_name e) name) eqn:Hsame.
  - exists fpre, f, fl. destruct Hfirst as [H1 H2]; [exists e; by split; [left|]|]. done.
  - by apply (IH fuel (pre ++ [e]) f fl); [|lia].
  - destruct (li_first _ _ _ _ _ _ Hnext) as (fpre' & _ & _). exists pre, e, l. split; [done|]. split; [done|]. split; [done|]. split; [done|].
    apply list.Forall_forall. intros d Hd Hmd. apply (li_fresh _ _ _ _ _ _ Hinv e d); [left|done|congruence|done|done].
  - by apply (IH fuel (pre ++ [e]) e l); [|lia].
Qed.

Lemma getservbyport_loop_ok fuel port protoid l : Forall entry_ok l -> (length l < fuel)%nat ->
  match head (filter (fun e => e_matches protoid e = true /\ e_port e = port) l) with
  | None => getservbyport_loop fuel port protoid (table_bytes l) = Some None
  | Some e => exists pre post, l = pre ++ e :: post /\
      Forall (fun y => e_matches protoid y = true -> e_port y <> e_port e) pre /\
      getservbyport_loop fuel port protoid (table_bytes l) = Some (Some (table_bytes (e :: post)))
  end.
Proof.
  intros Hl. revert fuel. induction Hl as [|e l He Hl IH]; intros fuel Hf; (destruct fuel as [|fuel]; [cbn in Hf; lia|]); [done|].
  cbn [getservbyport_loop]. rewrite (get_port e l He), get_match. cbn [mbind option_bind].
  rewrite (proj2 (Z.eqb_neq _ _) (e_port_pos e He)). rewrite get_next by done. cbn [mbind option_bind]. cbn in Hf.
  destruct (decide (e_matches protoid e = true /\ e_port e = port)) as [[Hm Heq]|Hn].
  - rewrite filter_cons_True by done. cbn [head]. rewrite Heq, Hm, Z.eqb_refl. cbn [andb]. exists [], l. split; [done|]. split; [constructor|done].
  - rewrite filter_cons_False by done.
    replace ((e_port e =? port) && e_matches protoid e) with false by (destruct (Z.eqb_spec (e_port e) port), (e_matches protoid e); tauto).
    specialize (IH fuel ltac:(lia)). destruct (head (filter _ l)) as [e'|] eqn:Hh; [|done].
    destruct IH as (pre & post & -> & Hpre & E). exists (e :: pre), post. split; [done|]. split; [|exact E].
    constructor; [|done]. intros Hm Hpe. apply Hn. split; [done|]. rewrite Hpe.
    by apply head_filter_Some in Hh as [[_ ?] _].
Qed.

(** ** The protocol of a name *)

Definition protocols : list (list Z * Z) :=
  [([116; 99; 112], PORTSTR_TCP); ([117; 100; 112], PORTSTR_UDP); ([115; 99; 116; 112], PORTSTR_SCTP); ([100; 99; 99; 112], PORTSTR_DCCP)].

Definition protocol_id (proto : list Z) : Z :=
  default 0 (snd <$> head (filter (fun p => same_name p.1 proto = true) protocols)).

Lemma same_name_sym n m : same_name n m = same_name m n.
Proof. unfold same_name. by do 2 case_bool_decide. Qed.

Lemma proto_get_id_ok proto : is_string proto -> proto_get_id ctype_us_ascii (proto ++ [0]) = Some (protocol_id proto).
Proof.
  intros Hp. unfold proto_get_id, str_tcp, str_udp, str_sctp, str_dccp, protocol_id, protocols.
  assert (H : forall n, Forall (fun c => 1 <= c <= 127) n -> exists x, strcasecmp_l ctype_us_ascii (proto ++ [0]) (n ++ [0]) = Some x /\ (x =? 0) = same_name n proto).
  { intros n Hn. rewrite same_name_sym. apply strcasecmp_decides; [done| |right]; eapply list.Forall_impl; try exact Hn; cbn; lia. }
  assert (Hstep : forall n, Forall (fun c => 1 <= c <= 127) n -> forall (a : Z) (k : option Z),
    (r ← strcasecmp_l ctype_us_ascii (proto ++ [0]) (n ++ [0]); if r =? 0 then Some a else k) = if same_name n proto then Some a else k).
  { intros n Hn a k. destruct (H n Hn) as (x & -> & Hx). cbn [mbind option_bind]. by rewrite Hx. }
  rewrite (Hstep [116; 99; 112]), (Hstep [117; 100; 112]), (Hstep [115; 99; 116; 112]), (Hstep [100; 99; 99; 112]) by (repeat constructor; lia).
  repeat (match goal with |- context [filter ?P (?x :: ?l)] =>
    rewrite (filter_cons P x l); cbn [fst]; destruct (same_name _ proto); [rewrite decide_True by done; reflexivity|rewrite decide_False by done] end).
  done.
Qed.

Lemma protocol_id_cases proto : protocol_id proto = 0 \/ protocol_id proto ∈ [PORTSTR_TCP; PORTSTR_UDP; PORTSTR_SCTP; PORTSTR_DCCP].
Proof.
  unfold protocol_id. destruct (head _) as [p|] eqn:E; [right|by left]. cbn.
  assert (Hin : p ∈ filter (fun p : list Z * Z => same_name p.1 proto = true) protocols).
  { destruct (filter _ _) as [|y ys]; [done|]. cbn in E. injection E as ->. left. }
  apply list_elem_of_filter in Hin as [_ Hin]. unfold protocols in Hin.
  repeat (apply elem_of_cons in Hin as [->|Hin]; [cbn; set_solver|]). by apply not_elem_of_nil in Hin.
Qed.

Lemma matches_zero e : e_matches 0 e = false.
Proof. unfold e_matches. by rewrite Z.land_0_r. Qed.

(** ** The functions *)

Lemma sortedb_correct es : sortedb es = true -> sorted_table es.
Proof.
  intros H. apply Sorted_StronglySorted; [intros a b c ? ?; cbn in *; lia|].
  induction es as [|e es IH]; [constructor|]. destruct es as [|e' es]; [by repeat constructor|].
  cbn [sortedb] in H. destruct (Z.leb_spec (e_number e) (e_number e')) as [Hle|]; [|done]. constructor; [by apply IH|by constructor].
Qed.

Lemma head_inv protoid e1 es : head_okb (e1 :: es) = true ->
  protoid = 0 \/ protoid ∈ [PORTSTR_TCP; PORTSTR_UDP; PORTSTR_SCTP; PORTSTR_DCCP] -> loop_inv protoid (e1 :: es) [] (e1 :: es) e1 es.
Proof.
  intros Hh Hp. constructor; [done| |intros ? ? ? ? ? Hd; by apply not_elem_of_nil in Hd].
  exists []. split; [done|]. intros (e & He & Hm & Hpe). split; [|constructor].
  destruct Hp as [->|Hp]; [by rewrite matches_zero in Hm|]. cbn [head_okb] in Hh. rewrite forallb_forall in Hh.
  apply list_elem_of_In in He. specialize (Hh e He). rewrite Hpe, Z.eqb_refl in Hh. cbn [negb orb] in Hh.
  rewrite forallb_forall in Hh. apply list_elem_of_In in Hp. specialize (Hh protoid Hp). by rewrite Hm in Hh.
Qed.

Record table_ok (es : list entry) : Prop := {
  to_entries : Forall entry_ok es;
  to_sorted : sorted_table es;
  to_head : head_okb es = true
}.

Lemma table_okb_correct es : table_okb es = true -> table_ok es.
Proof.
  unfold table_okb. intros H. apply andb_prop in H as [H Hh]. apply andb_prop in H as [Ho Hs].
  constructor; [|by apply sortedb_correct|done]. apply list.Forall_forall. intros e He. apply list_elem_of_In in He.
  rewrite forallb_forall in Ho. by apply entry_ok_correct, Ho.
Qed.

Lemma getservbyname_ok es name proto : table_ok es -> is_string name -> is_string proto ->
  match find_service (protocol_id proto) name es with
  | None => getservbyname ctype_us_ascii (table_bytes es) (name ++ [0]) (proto ++ [0]) = Some None
  | Some e => exists se, getservbyname ctype_us_ascii (table_bytes es) (name ++ [0]) (proto ++ [0]) = Some (Some se) /\
      describes (protocol_id proto) (group (protocol_id proto) e es) se
  end.
Proof.
  intros [Hok Hs Hh] Hname Hproto. unfold getservbyname. rewrite proto_get_id_ok by done. cbn [mbind option_bind].
  set (protoid := protocol_id proto). pose proof (protocol_id_cases proto) as Hp. fold protoid in Hp.
  destruct es as [|e1 es]; [done|]. pose proof (head_inv protoid e1 es Hh Hp) as Hinv.
  pose proof (getservbyname_loop_ok (length (table_bytes (e1 :: es))) protoid name _ _ _ _ _ Hok Hs Hname Hinv (table_length _)) as HL.
  destruct (find_service protoid name (e1 :: es)) as [e|]; [|by rewrite HL].
  destruct HL as (fpre & f & fl & -> & Hes & Hpe & Hm & Hpre). cbn [mbind option_bind].
  destruct Hp as [Hp|Hp]; [by rewrite Hp, matches_zero in Hm|].
  rewrite Hes in Hok, Hs |- *. destruct (create_servent_ok protoid fpre f fl Hok Hs Hm Hpre Hp) as (se & -> & Hd). cbn [mbind option_bind].
  exists se. split; [done|]. unfold group in Hd |- *. by rewrite <- Hpe.
Qed.

Lemma getservbyport_ok es port proto : table_ok es -> is_string proto ->
  match head (filter (fun e => e_matches (protocol_id proto) e = true /\ e_port e = port) es) with
  | None => getservbyport ctype_us_ascii (table_bytes es) port (proto ++ [0]) = Some None
  | Some e => exists se, getservbyport ctype_us_ascii (table_bytes es) port (proto ++ [0]) = Some (Some se) /\
      describes (protocol_id proto) (group (protocol_id proto) e es) se
  end.
Proof.
  intros [Hok Hs Hh] Hproto. unfold getservbyport. rewrite proto_get_id_ok by done. cbn [mbind option_bind].
  set (protoid := protocol_id proto). pose proof (protocol_id_cases proto) as Hp. fold protoid in Hp.
  pose proof (getservbyport_loop_ok (length (table_bytes es)) port protoid es Hok (table_length _)) as HL.
  destruct (head (filter (fun e => e_matches protoid e = true /\ e_port e = port) es)) as [e|] eqn:Hhd; [|by rewrite HL].
  destruct HL as (pre & post & Hes & Hpre & ->). cbn [mbind option_bind].
  apply head_filter_Some in Hhd as [[Hm _] _].
  destruct Hp as [Hp|Hp]; [by rewrite Hp, matches_zero in Hm|].
  rewrite Hes in Hok, Hs |- *. destruct (create_servent_ok protoid pre e post Hok Hs Hm Hpre Hp) as (se & -> & Hd). cbn [mbind option_bind].
  by exists se.
Qed.

(** ** The objects: get_servent *)

(** What an object was made for: the pointer to the entry, and the protocol. *)
Abbreviation skey := (list Z * Z)%type.

(** struct servent_entry, with its address; the links are the list. *)
Record snode := SNode { sn_address : Z; sn_key : skey }.

#[global] Instance snode_eq_dec : EqDecision snode.
Proof. solve_decision. Defined.

(** The loops over the list, from [l] to [stop], which is NULL, the empty list, for the first. *)
Fixpoint find_node (key : skey) (stop l : list snode) : option Z :=
  if decide (l = stop) then None
  else
    match l with
    | [] => None
    | n :: l => if decide (sn_key n = key) then Some (sn_address n) else find_node key stop l
    end.

(** A thread in get_servent: before the load of the head of the list, before malloc, and
    before the compare-and-exchange. *)
Inductive gpc :=
  | GIdle (result : option (skey * option Z))
  | GLoad (key : skey)
  | GCreate (key : skey) (first : list snode)
  | GExchange (key : skey) (se_new : Z) (first : list snode).

Record gstate := GState { g_table : list snode; g_threads : gmap Z gpc }.

Definition set_thread (s : gstate) (t : Z) (p : gpc) : gstate := GState (g_table s) (<[t := p]> (g_threads s)).

(** Memory in use for objects, also for those that are not in the list yet. *)
Definition in_use (s : gstate) (a : Z) : Prop :=
  a ∈ sn_address <$> g_table s \/ exists t key first, g_threads s !! t = Some (GExchange key a first).

(** One access to the head of the list per step; a weak compare-and-exchange may fail
    without reason. *)
Inductive gstep (s : gstate) : gstate -> Prop :=
  | gstep_call t r key : g_threads s !! t = Some (GIdle r) -> gstep s (set_thread s t (GLoad key))
  | gstep_load t key : g_threads s !! t = Some (GLoad key) ->
      gstep s (set_thread s t
        (match find_node key [] (g_table s) with
         | Some a => GIdle (Some (key, Some a))
         | None => GCreate key (g_table s)
         end))
  | gstep_no_memory t key first : g_threads s !! t = Some (GCreate key first) ->
      gstep s (set_thread s t (GIdle (Some (key, None))))
  | gstep_create t key first a : g_threads s !! t = Some (GCreate key first) -> ~ in_use s a ->
      gstep s (set_thread s t (GExchange key a first))
  | gstep_exchange t key a first : g_threads s !! t = Some (GExchange key a first) -> g_table s = first ->
      gstep s (GState (SNode a key :: first) (<[t := GIdle (Some (key, Some a))]> (g_threads s)))
  | gstep_retry t key a first : g_threads s !! t = Some (GExchange key a first) ->
      gstep s (set_thread s t
        (match find_node key first (g_table s) with
         | Some b => GIdle (Some (key, Some b))
         | None => GExchange key a (g_table s)
         end)).

Inductive greachable : gstate -> Prop :=
  | greachable_initial ths : (forall t p, ths !! t = Some p -> p = GIdle None) -> greachable (GState [] ths)
  | greachable_step s s' : greachable s -> gstep s s' -> greachable s'.

Definition gpc_ok (table : list snode) (p : gpc) : Prop :=
  match p with
  | GCreate key first | GExchange key _ first => first `suffix_of` table /\ key ∉ sn_key <$> first
  | GIdle (Some (key, Some a)) => SNode a key ∈ table
  | _ => True
  end.

Record memo_inv (s : gstate) : Prop := {
  mi_keys : NoDup (sn_key <$> g_table s);
  mi_threads t p : g_threads s !! t = Some p -> gpc_ok (g_table s) p
}.

Lemma find_node_spec key newer stop : 
  match find_node key stop (newer ++ stop) with
  | Some a => SNode a key ∈ newer
  | None => key ∉ sn_key <$> newer
  end.
Proof.
  induction newer as [|n newer IH]; cbn [app].
  - destruct stop; cbn; (case_decide; [by apply not_elem_of_nil|done]).
  - cbn [find_node]. rewrite decide_False.
    + case_decide as Hk; [destruct n; cbn in *; subst; left|]. destruct (find_node key stop (newer ++ stop)); [by right|].
      cbn. by rewrite not_elem_of_cons.
    + intros E. apply (f_equal length) in E. cbn in E. rewrite length_app in E. lia.
Qed.

Lemma gpc_ok_mono table n p : gpc_ok table p -> gpc_ok (n :: table) p.
Proof.
  destruct p as [[[key [a|]]|]| | |]; cbn; try done; [by right|intros [? ?]; split; [by apply suffix_cons_r|done]..].
Qed.

Lemma memo_step s s' : memo_inv s -> gstep s s' -> memo_inv s'.
Proof.
  intros [Hk Ht] Hst.
  assert (Hset : forall t p, gpc_ok (g_table s) p -> memo_inv (set_thread s t p)).
  { intros t p Hp. constructor; [done|]. cbn. intros u q [[<- <-]|[_ Hu]]%lookup_insert_Some; [done|by apply (Ht u)]. }
  destruct Hst as [t r key Hl|t key Hl|t key first Hl|t key first a Hl _|t key a first Hl <-|t key a first Hl].
  - by apply Hset.
  - apply Hset. pose proof (find_node_spec key (g_table s) []) as Hf. rewrite app_nil_r in Hf. by destruct (find_node key [] (g_table s)).
  - by apply Hset.
  - apply Hset. apply (Ht t _ Hl).
  - destruct (Ht t _ Hl) as [_ Hn]. constructor; cbn; [by constructor|].
    intros u q [[<- <-]|[_ Hu]]%lookup_insert_Some; [left|by apply gpc_ok_mono, (Ht u)].
  - apply Hset. destruct (Ht t _ Hl) as [[newer Hs] Hn]. pose proof (find_node_spec key newer first) as Hf. rewrite <- Hs in Hf.
    destruct (find_node key first (g_table s)); cbn; [rewrite Hs; set_solver|]. split; [done|]. rewrite Hs, fmap_app. set_solver.
Qed.

(** All threads share the objects.  In every interleaving of calls of get_servent by any
    number of threads, with compare-and-exchange failing spuriously and malloc failing,
    the list has at most one object for an entry and a protocol; an object that was
    returned is in the list, so that two calls for the same service return the same
    object, and it is never freed. *)
Theorem servent_memo s : greachable s ->
  NoDup (sn_key <$> g_table s) /\
  (forall t key a, g_threads s !! t = Some (GIdle (Some (key, Some a))) -> SNode a key ∈ g_table s) /\
  (forall t u key a b, g_threads s !! t = Some (GIdle (Some (key, Some a))) ->
     g_threads s !! u = Some (GIdle (Some (key, Some b))) -> a = b).
Proof.
  intros Hr. assert (I : memo_inv s).
  { induction Hr as [ths Hth|s s' _ IH Hst]; [|by eapply memo_step]. constructor; cbn; [constructor|].
    intros t p Hp. by rewrite (Hth t p Hp). }
  assert (Hret : forall t key a, g_threads s !! t = Some (GIdle (Some (key, Some a))) -> SNode a key ∈ g_table s)
    by (intros t key a Ht; apply (mi_threads _ I t _ Ht)).
  split; [apply I|]. split; [exact Hret|]. intros t u key a b Ht Hu. apply Hret in Ht, Hu.
  apply list_elem_of_lookup in Ht as [i Hi]. apply list_elem_of_lookup in Hu as [j Hj].
  assert (i = j) as ->; [|congruence].
  eapply NoDup_lookup; [apply (mi_keys _ I)|rewrite list_lookup_fmap, Hi; done|by rewrite list_lookup_fmap, Hj].
Qed.

(** A run: two threads look for the same service at once; one of them finds the object of
    the other when its exchange fails. *)
Module MemoRun.

Definition key : skey := ([0; 80; 3], PORTSTR_TCP).
Definition s0 : gstate := GState [] (<[1 := GIdle None]> (<[2 := GIdle None]> ∅)).
Definition s1 := set_thread s0 1 (GLoad key).
Definition s2 := set_thread s1 2 (GLoad key).
Definition s3 := set_thread s2 1 (GCreate key []).
Definition s4 := set_thread s3 2 (GCreate key []).
Definition s5 := set_thread s4 1 (GExchange key 100 []).
Definition s6 := set_thread s5 2 (GExchange key 200 []).
Definition s7 := GState [SNode 100 key] (<[1 := GIdle (Some (key, Some 100))]> (g_threads s6)).
Definition s8 := set_thread s7 2 (GIdle (Some (key, Some 100))).

Lemma memo_demo_reachable : greachable s8.
Proof.
  eapply greachable_step; [|by apply (gstep_retry s7 2 key 200 [])].
  eapply greachable_step; [|by apply (gstep_exchange s6 1 key 100 [])].
  eapply greachable_step; [|apply (gstep_create s5 2 key [] 200); [done|]].
  - eapply greachable_step; [|apply (gstep_create s4 1 key [] 100); [done|]].
    + eapply greachable_step; [|by apply (gstep_load s3 2 key)].
      eapply greachable_step; [|by apply (gstep_load s2 1 key)].
      eapply greachable_step; [|by apply (gstep_call s1 2 None key)].
      eapply greachable_step; [|by apply (gstep_call s0 1 None key)].
      apply greachable_initial. intros t p Ht. apply lookup_insert_Some in Ht as [[_ <-]|[_ Ht]]; [done|].
      apply lookup_insert_Some in Ht as [[_ <-]|[_ Ht]]; [done|]. by rewrite lookup_empty in Ht.
    + intros [H|(t & k & first & H)]; [by apply not_elem_of_nil in H|]. unfold s4, s3, s2, s1, s0, set_thread in H. cbn [g_threads] in H.
      repeat (apply lookup_insert_Some in H as [[_ H]|[_ H]]; [done|]). by rewrite lookup_empty in H.
  - intros [H|(t & k & first & H)]; [by apply not_elem_of_nil in H|]. unfold s5, s4, s3, s2, s1, s0, set_thread in H. cbn [g_threads] in H.
    repeat (apply lookup_insert_Some in H as [[_ H]|[_ H]]; [done|]). by rewrite lookup_empty in H.
Qed.

Lemma servent_memo_witness : SNode 100 key ∈ g_table s8.
Proof. exact (proj1 (proj2 (servent_memo s8 memo_demo_reachable)) 2 key 100 eq_refl). Defined.

End MemoRun.
