(* ===== verification/ServiceTable.v ===== *)
(** * The tables of services and protocols

    Sources: src/libc/netdb/iana_port_numbers.c and iana_protocol_numbers.h, entry by
    entry.  A line E hi lo protos "name" is the line of the source with these bytes.

    The theorem is that getservbyname and getservbyport are right for this table, whose
    entries are sorted by port, which they rely on. *)

From S2P Require Import Prelude Charset WideClass Services.
From Stdlib Require Import Strings.Byte.

#[local] Open Scope Z_scope.

(** String literals as lists of bytes. *)
Inductive literal := Literal (l : list Byte.byte).

Definition literal_of_bytes (l : list Byte.byte) : literal := Literal l.
Definition literal_to_bytes (s : literal) : list Byte.byte := let 'Literal l := s in l.

Declare Scope literal_scope.
String Notation literal literal_of_bytes literal_to_bytes : literal_scope.
Delimit Scope literal_scope with literal.

Definition chars (s : literal) : list Z := (fun b => Z.of_N (Byte.to_N b)) <$> literal_to_bytes s.

Definition E (hi lo protos : Z) (name : literal) : entry := Entry hi lo protos (chars name).

Definition P (name : literal) (aliases : list literal) (number : Z) : protoent :=
  Protoent (chars name ++ [0]) ((fun a => chars a ++ [0]) <$> aliases) number.

Arguments E (_ _ _)%_Z_scope _%_literal_scope.
Arguments P _%_literal_scope _ _%_Z_scope.

Definition ports_0 : list entry :=
  [E 0 1 3 "tcpmux";
   E 0 2 3 "compressnet";
   E 0 3 3 "compressnet";
   E 0 5 3 "rje";
   E 0 7 3 "echo";
   E 0 9 15 "discard";
   E 0 11 3 "systat";
   E 0 13 3 "daytime";
   E 0 17 3 "qotd";
   E 0 18 3 "msp";
   E 0 19 3 "chargen";
   E 0 20 7 "ftp-data";
   E 0 21 7 "ftp";
   E 0 22 7 "ssh";
   E 0 23 3 "telnet";
   E 0 25 3 "smtp";
   E 0 27 3 "nsw-fe";
   E 0 29 3 "msg-icp";
   E 0 31 3 "msg-auth";
   E 0 33 3 "dsp";
   E 0 37 3 "time";
   E 0 38 3 "rap";
   E 0 39 3 "rlp";
   E 0 41 3 "graphics";
   E 0 42 3 "name";
   E 0 42 3 "nameserver";
   E 0 43 3 "nicname";
   E 0 44 3 "mpm-flags";
   E 0 45 3 "mpm";
   E 0 46 3 "mpm-snd";
   E 0 47 3 "ni-ftp";
   E 0 48 3 "auditd";
   E 0 49 3 "tacacs";
   E 0 50 3 "re-mail-ck";
   E 0 52 3 "xns-time";
   E 0 53 3 "domain";
   E 0 54 3 "xns-ch";
   E 0 55 3 "isi-gl";
   E 0 56 3 "xns-auth";
   E 0 58 3 "xns-mail";
   E 0 61 3 "ni-mail";
   E 0 62 3 "acas";
   E 0 63 3 "whoispp";
   E 0 63 3 "whois++";
   E 0 64 3 "covia";
   E 0 65 3 "tacacs-ds";
   E 0 66 3 "sql-net";
   E 0 66 3 "sql*net";
   E 0 67 3 "bootps";
   E 0 68 3 "bootpc";
   E 0 69 3 "tftp";
   E 0 70 3 "gopher";
   E 0 71 3 "netrjs-1";
   E 0 72 3 "netrjs-2";
   E 0 73 3 "netrjs-3";
   E 0 74 3 "netrjs-4";
   E 0 76 3 "deos";
   E 0 78 3 "vettcp";
   E 0 79 3 "finger";
   E 0 80 7 "http";
   E 0 80 3 "www";
   E 0 80 3 "www-http";
   E 0 82 3 "xfer";
   E 0 83 3 "mit-ml-dev";
   E 0 84 3 "ctf";
   E 0 85 3 "mit-ml-dev";
   E 0 86 3 "mfcobol";
   E 0 88 3 "kerberos";
   E 0 89 3 "su-mit-tg";
   E 0 90 3 "dnsix";
   E 0 91 3 "mit-dov";
   E 0 92 3 "npp";
   E 0 93 3 "dcp";
   E 0 94 3 "objcall";
   E 0 95 3 "supdup";
   E 0 96 3 "dixie";
   E 0 97 3 "swift-rvf";
   E 0 98 3 "tacnews";
   E 0 99 3 "metagram";
   E 0 101 3 "hostname";
   E 0 102 3 "iso-tsap";
   E 0 103 3 "gppitnp";
   E 0 104 3 "acr-nema";
   E 0 105 3 "cso";
   E 0 105 3 "csnet-ns";
   E 0 106 3 "3com-tsmux";
   E 0 107 3 "rtelnet";
   E 0 108 3 "snagas";
   E 0 109 3 "pop2";
   E 0 110 3 "pop3";
   E 0 111 3 "sunrpc";
   E 0 112 3 "mcidas";
   E 0 113 1 "ident";
   E 0 113 3 "auth";
   E 0 115 3 "sftp";
   E 0 116 3 "ansanotify";
   E 0 117 3 "uucp-path";
   E 0 118 3 "sqlserv";
   E 0 119 3 "nntp";
   E 0 120 3 "cfdptkt";
   E 0 121 3 "erpc";
   E 0 122 3 "smakynet";
   E 0 123 3 "ntp";
   E 0 124 3 "ansatrader";
   E 0 125 3 "locus-map";
   E 0 126 3 "nxedit";
   E 0 127 3 "locus-con";
   E 0 128 3 "gss-xlicen";
   E 0 129 3 "pwdgen";
   E 0 130 3 "cisco-fna";
   E 0 131 3 "cisco-tna";
   E 0 132 3 "cisco-sys";
   E 0 133 3 "statsrv";
   E 0 134 3 "ingres-net";
   E 0 135 3 "epmap";
   E 0 136 3 "profile";
   E 0 137 3 "netbios-ns";
   E 0 138 3 "netbios-dgm";
   E 0 139 3 "netbios-ssn";
   E 0 140 3 "emfis-data";
   E 0 141 3 "emfis-cntl";
   E 0 142 3 "bl-idm";
   E 0 143 3 "imap";
   E 0 144 3 "uma";
   E 0 145 3 "uaac";
   E 0 146 3 "iso-tp0";
   E 0 147 3 "iso-ip";
   E 0 148 3 "jargon";
   E 0 149 3 "aed-512";
   E 0 150 3 "sql-net";
   E 0 151 3 "hems";
   E 0 152 3 "bftp";
   E 0 153 3 "sgmp";
   E 0 154 3 "netsc-prod";
   E 0 155 3 "netsc-dev";
   E 0 156 3 "sqlsrv";
   E 0 157 3 "knet-cmp";
   E 0 158 3 "pcmail-srv";
   E 0 159 3 "nss-routing";
   E 0 160 3 "sgmp-traps";
   E 0 161 3 "snmp";
   E 0 162 3 "snmptrap";
   E 0 163 3 "cmip-man";
   E 0 164 3 "cmip-agent";
   E 0 165 3 "xns-courier";
   E 0 166 3 "s-net";
   E 0 167 3 "namp";
   E 0 168 3 "rsvd";
   E 0 169 3 "send";
   E 0 170 3 "print-srv"].

Definition ports_1 : list entry :=
  [E 0 171 3 "multiplex";
   E 0 172 3 "cl-1";
   E 0 172 3 "cl/1";
   E 0 173 3 "xyplex-mux";
   E 0 174 3 "mailq";
   E 0 175 3 "vmnet";
   E 0 176 3 "genrad-mux";
   E 0 177 3 "xdmcp";
   E 0 178 3 "nextstep";
   E 0 179 7 "bgp";
   E 0 180 3 "ris";
   E 0 181 3 "unify";
   E 0 182 3 "audit";
   E 0 183 3 "ocbinder";
   E 0 184 3 "ocserver";
   E 0 185 3 "remote-kis";
   E 0 186 3 "kis";
   E 0 187 3 "aci";
   E 0 188 3 "mumps";
   E 0 189 3 "qft";
   E 0 190 3 "gacp";
   E 0 191 3 "prospero";
   E 0 192 3 "osu-nms";
   E 0 193 3 "srmp";
   E 0 194 3 "irc";
   E 0 195 3 "dn6-nlm-aud";
   E 0 196 3 "dn6-smm-red";
   E 0 197 3 "dls";
   E 0 198 3 "dls-mon";
   E 0 199 3 "smux";
   E 0 200 3 "src";
   E 0 201 3 "at-rtmp";
   E 0 202 3 "at-nbp";
   E 0 203 3 "at-3";
   E 0 204 3 "at-echo";
   E 0 205 3 "at-5";
   E 0 206 3 "at-zis";
   E 0 207 3 "at-7";
   E 0 208 3 "at-8";
   E 0 209 3 "qmtp";
   E 0 210 3 "z39-50";
   E 0 210 3 "z39.50";
   E 0 211 3 "914c-g";
   E 0 211 3 "914c/g";
   E 0 212 3 "anet";
   E 0 213 3 "ipx";
   E 0 214 3 "vmpwscs";
   E 0 215 3 "softpc";
   E 0 216 3 "CAIlic";
   E 0 217 3 "dbase";
   E 0 218 3 "mpp";
   E 0 219 3 "uarps";
   E 0 220 3 "imap3";
   E 0 221 3 "fln-spx";
   E 0 222 3 "rsh-spx";
   E 0 223 3 "cdc";
   E 0 224 3 "masqdialer";
   E 0 242 3 "direct";
   E 0 243 3 "sur-meas";
   E 0 244 3 "inbusiness";
   E 0 245 3 "link";
   E 0 246 3 "dsp3270";
   E 0 247 3 "subntbcst-tftp";
   E 0 247 3 "subntbcst_tftp";
   E 0 248 3 "bhfhs";
   E 1 0 3 "rap";
   E 1 1 3 "set";
   E 1 3 3 "esro-gen";
   E 1 4 3 "openport";
   E 1 5 3 "nsiiops";
   E 1 6 3 "arcisdms";
   E 1 7 3 "hdap";
   E 1 8 3 "bgmp";
   E 1 9 3 "x-bone-ctl";
   E 1 10 3 "sst";
   E 1 11 3 "td-service";
   E 1 12 3 "td-replica";
   E 1 13 3 "manet";
   E 1 14 2 "gist";
   E 1 15 1 "pt-tls";
   E 1 24 3 "http-mgmt";
   E 1 25 3 "personal-link";
   E 1 26 3 "cableport-ax";
   E 1 27 3 "rescap";
   E 1 28 3 "corerjd";
   E 1 30 3 "fxp";
   E 1 31 3 "k-block";
   E 1 52 3 "novastorbakcup";
   E 1 53 3 "entrusttime";
   E 1 54 3 "bhmds";
   E 1 55 3 "asip-webadmin";
   E 1 56 3 "vslmp";
   E 1 57 3 "magenta-logic";
   E 1 58 3 "opalis-robot";
   E 1 59 3 "dpsi";
   E 1 60 3 "decauth";
   E 1 61 3 "zannet";
   E 1 62 3 "pkix-timestamp";
   E 1 63 3 "ptp-event";
   E 1 64 3 "ptp-general";
   E 1 65 3 "pip";
   E 1 66 3 "rtsps";
   E 1 67 1 "rpki-rtr";
   E 1 68 1 "rpki-rtr-tls";
   E 1 77 3 "texar";
   E 1 88 3 "pdap";
   E 1 89 3 "pawserv";
   E 1 90 3 "zserv";
   E 1 91 3 "fatserv";
   E 1 92 3 "csi-sgwp";
   E 1 93 3 "mftp";
   E 1 94 3 "matip-type-a";
   E 1 95 3 "matip-type-b";
   E 1 95 3 "bhoetty";
   E 1 96 3 "dtag-ste-sb";
   E 1 96 3 "bhoedap4";
   E 1 97 3 "ndsauth";
   E 1 98 3 "bh611";
   E 1 99 3 "datex-asn";
   E 1 100 3 "cloanto-net-1";
   E 1 101 3 "bhevent";
   E 1 102 3 "shrinkwrap";
   E 1 103 3 "nsrmp";
   E 1 104 3 "scoi2odialog";
   E 1 105 3 "semantix";
   E 1 106 3 "srssend";
   E 1 107 3 "rsvp-tunnel";
   E 1 107 3 "rsvp_tunnel";
   E 1 108 3 "aurora-cmgr";
   E 1 109 3 "dtk";
   E 1 110 3 "odmr";
   E 1 111 3 "mortgageware";
   E 1 112 3 "qbikgdp";
   E 1 113 3 "rpc2portmap";
   E 1 114 3 "codaauth2";
   E 1 115 3 "clearcase";
   E 1 116 3 "ulistproc";
   E 1 117 3 "legent-1";
   E 1 118 3 "legent-2";
   E 1 119 3 "hassle";
   E 1 120 3 "nip";
   E 1 121 3 "tnETOS";
   E 1 122 3 "dsETOS";
   E 1 123 3 "is99c";
   E 1 124 3 "is99s";
   E 1 125 3 "hp-collector";
   E 1 126 3 "hp-managed-node";
   E 1 127 3 "hp-alarm-mgr";
   E 1 128 3 "arns";
   E 1 129 3 "ibm-app"].

Definition ports_2 : list entry :=
  [E 1 130 3 "asa";
   E 1 131 3 "aurp";
   E 1 132 3 "unidata-ldm";
   E 1 133 3 "ldap";
   E 1 134 3 "uis";
   E 1 135 3 "synotics-relay";
   E 1 136 3 "synotics-broker";
   E 1 137 3 "meta5";
   E 1 138 3 "embl-ndt";
   E 1 139 3 "netcp";
   E 1 140 3 "netware-ip";
   E 1 141 3 "mptn";
   E 1 142 3 "kryptolan";
   E 1 143 3 "iso-tsap-c2";
   E 1 144 3 "osb-sd";
   E 1 145 3 "ups";
   E 1 146 3 "genie";
   E 1 147 3 "decap";
   E 1 148 3 "nced";
   E 1 149 3 "ncld";
   E 1 150 3 "imsp";
   E 1 151 3 "timbuktu";
   E 1 152 3 "prm-sm";
   E 1 153 3 "prm-nm";
   E 1 154 3 "decladebug";
   E 1 155 3 "rmt";
   E 1 156 3 "synoptics-trap";
   E 1 157 3 "smsp";
   E 1 158 3 "infoseek";
   E 1 159 3 "bnet";
   E 1 160 3 "silverplatter";
   E 1 161 3 "onmux";
   E 1 162 3 "hyper-g";
   E 1 163 3 "ariel1";
   E 1 164 3 "smpte";
   E 1 165 3 "ariel2";
   E 1 166 3 "ariel3";
   E 1 167 3 "opc-job-start";
   E 1 168 3 "opc-job-track";
   E 1 169 3 "icad-el";
   E 1 170 3 "smartsdp";
   E 1 171 3 "svrloc";
   E 1 172 3 "ocs-cmu";
   E 1 172 3 "ocs_cmu";
   E 1 173 3 "ocs-amu";
   E 1 173 3 "ocs_amu";
   E 1 174 3 "utmpsd";
   E 1 175 3 "utmpcd";
   E 1 176 3 "iasd";
   E 1 177 3 "nnsp";
   E 1 178 3 "mobileip-agent";
   E 1 179 3 "mobilip-mn";
   E 1 180 3 "dna-cml";
   E 1 181 3 "comscm";
   E 1 182 3 "dsfgw";
   E 1 183 3 "dasp";
   E 1 184 3 "sgcp";
   E 1 185 3 "decvms-sysmgt";
   E 1 186 3 "cvc-hostd";
   E 1 186 3 "cvc_hostd";
   E 1 187 7 "https";
   E 1 188 3 "snpp";
   E 1 189 3 "microsoft-ds";
   E 1 190 3 "ddm-rdb";
   E 1 191 3 "ddm-dfm";
   E 1 192 3 "ddm-ssl";
   E 1 193 3 "as-servermap";
   E 1 194 3 "tserver";
   E 1 195 3 "sfs-smp-net";
   E 1 196 3 "sfs-config";
   E 1 197 3 "creativeserver";
   E 1 198 3 "contentserver";
   E 1 199 3 "creativepartnr";
   E 1 200 1 "macon-tcp";
   E 1 200 2 "macon-udp";
   E 1 201 3 "scohelp";
   E 1 202 3 "appleqtc";
   E 1 203 3 "ampr-rcmd";
   E 1 204 3 "skronk";
   E 1 205 3 "datasurfsrv";
   E 1 206 3 "datasurfsrvsec";
   E 1 207 3 "alpes";
   E 1 208 3 "kpasswd";
   E 1 209 1 "urd";
   E 1 209 2 "igmpv3lite";
   E 1 210 3 "digital-vrc";
   E 1 211 3 "mylex-mapd";
   E 1 212 3 "photuris";
   E 1 213 3 "rcp";
   E 1 214 3 "scx-proxy";
   E 1 215 3 "mondex";
   E 1 216 3 "ljk-login";
   E 1 217 3 "hybrid-pop";
   E 1 218 1 "tn-tl-w1";
   E 1 218 2 "tn-tl-w2";
   E 1 219 3 "tcpnethaspsrv";
   E 1 220 3 "tn-tl-fd1";
   E 1 221 3 "ss7ns";
   E 1 222 3 "spsc";
   E 1 223 3 "iafserver";
   E 1 224 3 "iafdbase";
   E 1 225 3 "ph";
   E 1 226 3 "bgs-nsi";
   E 1 227 3 "ulpnet";
   E 1 228 3 "integra-sme";
   E 1 229 3 "powerburst";
   E 1 230 3 "avian";
   E 1 231 3 "saft";
   E 1 232 3 "gss-http";
   E 1 233 3 "nest-protocol";
   E 1 234 3 "micom-pfs";
   E 1 235 3 "go-login";
   E 1 236 3 "ticf-1";
   E 1 237 3 "ticf-2";
   E 1 238 3 "pov-ray";
   E 1 239 3 "intecourier";
   E 1 240 3 "pim-rp-disc";
   E 1 241 3 "retrospect";
   E 1 242 3 "siam";
   E 1 243 3 "iso-ill";
   E 1 244 3 "isakmp";
   E 1 245 3 "stmf";
   E 1 246 3 "mbap";
   E 1 247 3 "intrinsa";
   E 1 248 3 "citadel";
   E 1 249 3 "mailbox-lm";
   E 1 250 3 "ohimsrv";
   E 1 251 3 "crs";
   E 1 252 3 "xvttp";
   E 1 253 3 "snare";
   E 1 254 3 "fcp";
   E 1 255 3 "passgo";
   E 2 0 1 "exec";
   E 2 0 2 "comsat";
   E 2 0 2 "biff";
   E 2 1 1 "login";
   E 2 1 2 "who";
   E 2 2 1 "shell";
   E 2 2 2 "syslog";
   E 2 3 3 "printer";
   E 2 4 3 "videotex";
   E 2 5 3 "talk";
   E 2 6 3 "ntalk";
   E 2 7 3 "utime";
   E 2 8 1 "efs";
   E 2 8 2 "router";
   E 2 9 3 "ripng";
   E 2 10 3 "ulp";
   E 2 11 3 "ibm-db2";
   E 2 12 3 "ncp"].

Definition ports_3 : list entry :=
  [E 2 13 3 "timed";
   E 2 14 3 "tempo";
   E 2 15 3 "stx";
   E 2 16 3 "custix";
   E 2 17 3 "irc-serv";
   E 2 18 3 "courier";
   E 2 19 3 "conference";
   E 2 20 3 "netnews";
   E 2 21 3 "netwall";
   E 2 22 3 "windream";
   E 2 23 3 "iiop";
   E 2 24 3 "opalis-rdv";
   E 2 25 3 "nmsp";
   E 2 26 3 "gdomap";
   E 2 27 3 "apertus-ldp";
   E 2 28 3 "uucp";
   E 2 29 3 "uucp-rlogin";
   E 2 30 3 "commerce";
   E 2 31 3 "klogin";
   E 2 32 3 "kshell";
   E 2 33 3 "appleqtcsrvr";
   E 2 34 3 "dhcpv6-client";
   E 2 35 3 "dhcpv6-server";
   E 2 36 3 "afpovertcp";
   E 2 37 3 "idfp";
   E 2 38 3 "new-rwho";
   E 2 39 3 "cybercash";
   E 2 40 3 "devshr-nts";
   E 2 41 3 "pirp";
   E 2 42 3 "rtsp";
   E 2 43 3 "dsf";
   E 2 44 3 "remotefs";
   E 2 45 3 "openvms-sysipc";
   E 2 46 3 "sdnskmp";
   E 2 47 3 "teedtap";
   E 2 48 3 "rmonitor";
   E 2 49 3 "monitor";
   E 2 50 3 "chshell";
   E 2 51 3 "nntps";
   E 2 52 3 "9pfs";
   E 2 53 3 "whoami";
   E 2 54 3 "streettalk";
   E 2 55 3 "banyan-rpc";
   E 2 56 3 "ms-shuttle";
   E 2 57 3 "ms-rome";
   E 2 58 3 "meter";
   E 2 59 3 "meter";
   E 2 60 3 "sonar";
   E 2 61 3 "banyan-vip";
   E 2 62 3 "ftp-agent";
   E 2 63 3 "vemmi";
   E 2 64 3 "ipcd";
   E 2 65 3 "vnas";
   E 2 66 3 "ipdd";
   E 2 67 3 "decbsrv";
   E 2 68 3 "sntp-heartbeat";
   E 2 69 3 "bdp";
   E 2 70 3 "scc-security";
   E 2 71 3 "philips-vc";
   E 2 72 3 "keyserver";
   E 2 74 3 "password-chg";
   E 2 75 3 "submission";
   E 2 76 3 "cal";
   E 2 77 3 "eyelink";
   E 2 78 3 "tns-cml";
   E 2 79 3 "http-alt";
   E 2 80 3 "eudora-set";
   E 2 81 3 "http-rpc-epmap";
   E 2 82 3 "tpip";
   E 2 83 3 "cab-protocol";
   E 2 84 3 "smsd";
   E 2 85 3 "ptcnameservice";
   E 2 86 3 "sco-websrvrmg3";
   E 2 87 3 "acp";
   E 2 88 3 "ipcserver";
   E 2 89 3 "syslog-conn";
   E 2 90 3 "xmlrpc-beep";
   E 2 91 3 "idxp";
   E 2 92 3 "tunnel";
   E 2 93 3 "soap-beep";
   E 2 94 3 "urm";
   E 2 95 3 "nqs";
   E 2 96 3 "sift-uft";
   E 2 97 3 "npmp-trap";
   E 2 98 3 "npmp-local";
   E 2 99 3 "npmp-gui";
   E 2 100 3 "hmmp-ind";
   E 2 101 3 "hmmp-op";
   E 2 102 3 "sshell";
   E 2 103 3 "sco-inetmgr";
   E 2 104 3 "sco-sysmgr";
   E 2 105 3 "sco-dtmgr";
   E 2 106 3 "dei-icda";
   E 2 107 3 "compaq-evm";
   E 2 108 3 "sco-websrvrmgr";
   E 2 109 3 "escp-ip";
   E 2 110 3 "collaborator";
   E 2 111 1 "oob-ws-http";
   E 2 111 2 "asf-rmcp";
   E 2 112 3 "cryptoadmin";
   E 2 113 3 "dec-dlm";
   E 2 113 3 "dec_dlm";
   E 2 114 3 "asia";
   E 2 115 3 "passgo-tivoli";
   E 2 116 3 "qmqp";
   E 2 117 3 "3com-amp3";
   E 2 118 3 "rda";
   E 2 119 3 "ipp";
   E 2 120 3 "bmpp";
   E 2 121 3 "servstat";
   E 2 122 3 "ginad";
   E 2 123 3 "rlzdbase";
   E 2 124 3 "ldaps";
   E 2 125 3 "lanserver";
   E 2 126 3 "mcns-sec";
   E 2 127 3 "msdp";
   E 2 128 3 "entrust-sps";
   E 2 129 3 "repcmd";
   E 2 130 3 "esro-emsdp";
   E 2 131 3 "sanity";
   E 2 132 3 "dwr";
   E 2 133 3 "pssc";
   E 2 134 3 "ldp";
   E 2 135 3 "dhcp-failover";
   E 2 136 3 "rrp";
   E 2 137 3 "cadview-3d";
   E 2 138 3 "obex";
   E 2 139 3 "ieee-mms";
   E 2 140 3 "hello-port";
   E 2 141 3 "repscmd";
   E 2 142 3 "aodv";
   E 2 143 3 "tinc";
   E 2 144 3 "spmp";
   E 2 145 3 "rmc";
   E 2 146 3 "tenfold";
   E 2 148 3 "mac-srvr-admin";
   E 2 149 3 "hap";
   E 2 150 3 "pftp";
   E 2 151 3 "purenoise";
   E 2 152 1 "oob-ws-https";
   E 2 152 2 "asf-secure-rmcp";
   E 2 153 3 "sun-dr";
   E 2 154 3 "mdqs";
   E 2 154 3 "doom";
   E 2 155 3 "disclose";
   E 2 156 3 "mecomm";
   E 2 157 3 "meregister";
   E 2 158 3 "vacdsm-sws";
   E 2 159 3 "vacdsm-app";
   E 2 160 3 "vpps-qua"].

Definition ports_4 : list entry :=
  [E 2 161 3 "cimplex";
   E 2 162 3 "acap";
   E 2 163 3 "dctp";
   E 2 164 3 "vpps-via";
   E 2 165 3 "vpp";
   E 2 166 3 "ggf-ncp";
   E 2 167 3 "mrm";
   E 2 168 3 "entrust-aaas";
   E 2 169 3 "entrust-aams";
   E 2 170 3 "xfr";
   E 2 171 3 "corba-iiop";
   E 2 172 3 "corba-iiop-ssl";
   E 2 173 3 "mdc-portmapper";
   E 2 174 3 "hcp-wismar";
   E 2 175 3 "asipregistry";
   E 2 176 3 "realm-rusd";
   E 2 177 3 "nmap";
   E 2 178 3 "vatp";
   E 2 179 3 "msexch-routing";
   E 2 180 3 "hyperwave-isp";
   E 2 181 3 "connendp";
   E 2 182 3 "ha-cluster";
   E 2 183 3 "ieee-mms-ssl";
   E 2 184 3 "rushd";
   E 2 185 3 "uuidgen";
   E 2 186 3 "olsr";
   E 2 187 3 "accessnetwork";
   E 2 188 3 "epp";
   E 2 189 3 "lmp";
   E 2 190 3 "iris-beep";
   E 2 192 3 "elcsd";
   E 2 193 3 "agentx";
   E 2 194 3 "silc";
   E 2 195 3 "borland-dsj";
   E 2 197 3 "entrust-kmsh";
   E 2 198 3 "entrust-ash";
   E 2 199 3 "cisco-tdp";
   E 2 200 3 "tbrpf";
   E 2 201 3 "iris-xpc";
   E 2 202 3 "iris-xpcs";
   E 2 203 3 "iris-lwz";
   E 2 204 2 "pana";
   E 2 217 3 "netviewdm1";
   E 2 218 3 "netviewdm2";
   E 2 219 3 "netviewdm3";
   E 2 229 3 "netgw";
   E 2 230 3 "netrcs";
   E 2 232 3 "flexlm";
   E 2 235 3 "fujitsu-dev";
   E 2 236 3 "ris-cm";
   E 2 237 3 "kerberos-adm";
   E 2 238 1 "rfile";
   E 2 238 2 "loadav";
   E 2 238 2 "kerberos-iv";
   E 2 239 3 "pump";
   E 2 240 3 "qrh";
   E 2 241 3 "rrh";
   E 2 242 3 "tell";
   E 2 246 3 "nlogin";
   E 2 247 3 "con";
   E 2 248 3 "ns";
   E 2 249 3 "rxe";
   E 2 250 3 "quotad";
   E 2 251 3 "cycleserv";
   E 2 252 3 "omserv";
   E 2 253 3 "webster";
   E 2 255 3 "phonebook";
   E 3 1 3 "vid";
   E 3 2 3 "cadlock";
   E 3 3 3 "rtip";
   E 3 4 3 "cycleserv2";
   E 3 5 1 "submit";
   E 3 5 2 "notify";
   E 3 6 1 "rpasswd";
   E 3 6 2 "acmaint-dbd";
   E 3 6 2 "acmaint_dbd";
   E 3 7 1 "entomb";
   E 3 7 2 "acmaint-transd";
   E 3 7 2 "acmaint_transd";
   E 3 8 3 "wpages";
   E 3 9 3 "multiling-http";
   E 3 12 3 "wpgs";
   E 3 32 3 "mdbs-daemon";
   E 3 32 3 "mdbs_daemon";
   E 3 33 3 "device";
   E 3 34 3 "mbap-s";
   E 3 42 3 "fcp-udp";
   E 3 60 3 "itm-mcell-s";
   E 3 61 3 "pkix-3-ca-ra";
   E 3 62 3 "netconf-ssh";
   E 3 63 3 "netconf-beep";
   E 3 64 3 "netconfsoaphttp";
   E 3 65 3 "netconfsoapbeep";
   E 3 79 3 "dhcp-failover2";
   E 3 80 3 "gdoi";
   E 3 85 3 "domain-s";
   E 3 92 3 "iscsi";
   E 3 93 3 "owamp-control";
   E 3 94 3 "twamp-control";
   E 3 105 3 "rsync";
   E 3 118 3 "iclcnet-locate";
   E 3 119 3 "iclcnet-svinfo";
   E 3 119 3 "iclcnet_svinfo";
   E 3 120 3 "accessbuilder";
   E 3 120 1 "cddbp";
   E 3 132 3 "omginitialrefs";
   E 3 133 3 "smpnameres";
   E 3 134 3 "ideafarm-door";
   E 3 135 3 "ideafarm-panic";
   E 3 142 3 "kink";
   E 3 143 3 "xact-backup";
   E 3 144 3 "apex-mesh";
   E 3 145 3 "apex-edge";
   E 3 221 3 "ftps-data";
   E 3 222 3 "ftps";
   E 3 223 3 "nas";
   E 3 224 3 "telnets";
   E 3 225 3 "imaps";
   E 3 227 3 "pop3s";
   E 3 228 3 "vsinet";
   E 3 229 3 "maitrd";
   E 3 230 1 "busboy";
   E 3 230 2 "puparp";
   E 3 231 1 "garcon";
   E 3 231 2 "applix";
   E 3 231 3 "puprouter";
   E 3 232 3 "cadlock2";
   E 3 242 3 "surf";
   E 3 253 15 "exp1";
   E 3 254 15 "exp2";
   E 4 1 3 "blackjack";
   E 4 2 3 "cap";
   E 4 3 2 "6a44";
   E 4 5 3 "solid-mux";
   E 4 9 3 "netinfo-local";
   E 4 10 3 "activesync";
   E 4 11 3 "mxxrlogin";
   E 4 12 3 "nsstp";
   E 4 13 3 "ams";
   E 4 14 3 "mtqp";
   E 4 15 3 "sbl";
   E 4 16 3 "netarx";
   E 4 17 3 "danf-ak2";
   E 4 18 3 "afrog";
   E 4 19 3 "boinc-client";
   E 4 20 3 "dcutility";
   E 4 21 3 "fpitp";
   E 4 22 3 "wfremotertm";
   E 4 23 3 "neod1";
   E 4 24 3 "neod2"].

Definition ports_5 : list entry :=
  [E 4 25 3 "td-postman";
   E 4 26 3 "cma";
   E 4 27 3 "optima-vnet";
   E 4 28 3 "ddt";
   E 4 29 3 "remote-as";
   E 4 30 3 "brvread";
   E 4 31 3 "ansyslmd";
   E 4 32 3 "vfo";
   E 4 33 3 "startron";
   E 4 34 3 "nim";
   E 4 35 3 "nimreg";
   E 4 36 3 "polestar";
   E 4 37 3 "kiosk";
   E 4 38 3 "veracity";
   E 4 39 3 "kyoceranetdev";
   E 4 40 3 "jstel";
   E 4 41 3 "syscomlan";
   E 4 42 3 "fpo-fns";
   E 4 43 3 "instl-boots";
   E 4 43 3 "instl_boots";
   E 4 44 3 "instl-bootc";
   E 4 44 3 "instl_bootc";
   E 4 45 3 "cognex-insight";
   E 4 46 3 "gmrupdateserv";
   E 4 47 3 "bsquare-voip";
   E 4 48 3 "cardax";
   E 4 49 3 "bridgecontrol";
   E 4 50 3 "warmspotMgmt";
   E 4 51 3 "rdrmshc";
   E 4 52 3 "dab-sti-c";
   E 4 53 3 "imgames";
   E 4 54 3 "avocent-proxy";
   E 4 55 3 "asprovatalk";
   E 4 56 3 "socks";
   E 4 57 3 "pvuniwien";
   E 4 58 3 "amt-esd-prot";
   E 4 59 3 "ansoft-lm-1";
   E 4 60 3 "ansoft-lm-2";
   E 4 61 3 "webobjects";
   E 4 62 3 "cplscrambler-lg";
   E 4 63 3 "cplscrambler-in";
   E 4 64 3 "cplscrambler-al";
   E 4 65 3 "ff-annunc";
   E 4 66 3 "ff-fms";
   E 4 67 3 "ff-sm";
   E 4 68 3 "obrpd";
   E 4 69 3 "proofd";
   E 4 70 3 "rootd";
   E 4 71 3 "nicelink";
   E 4 72 3 "cnrprotocol";
   E 4 73 3 "sunclustermgr";
   E 4 74 3 "rmiactivation";
   E 4 75 3 "rmiregistry";
   E 4 76 3 "mctp";
   E 4 77 3 "pt2-discover";
   E 4 78 3 "adobeserver-1";
   E 4 79 3 "adobeserver-2";
   E 4 80 3 "xrl";
   E 4 81 3 "ftranhc";
   E 4 82 3 "isoipsigport-1";
   E 4 83 3 "isoipsigport-2";
   E 4 84 3 "ratio-adp";
   E 4 86 1 "webadmstart";
   E 4 86 2 "nfsd-keepalive";
   E 4 87 3 "lmsocialserver";
   E 4 88 3 "icp";
   E 4 89 11 "ltp-deepspace";
   E 4 90 3 "mini-sql";
   E 4 91 3 "ardus-trns";
   E 4 92 3 "ardus-cntl";
   E 4 93 3 "ardus-mtrns";
   E 4 94 3 "sacred";
   E 4 95 3 "bnetgame";
   E 4 96 3 "bnetfile";
   E 4 97 3 "rmpp";
   E 4 98 3 "availant-mgr";
   E 4 99 3 "murray";
   E 4 100 3 "hpvmmcontrol";
   E 4 101 3 "hpvmmagent";
   E 4 102 3 "hpvmmdata";
   E 4 103 3 "kwdb-commn";
   E 4 104 3 "saphostctrl";
   E 4 105 3 "saphostctrls";
   E 4 106 3 "casp";
   E 4 107 3 "caspssl";
   E 4 108 3 "kvm-via-ip";
   E 4 109 3 "dfn";
   E 4 110 3 "aplx";
   E 4 111 3 "omnivision";
   E 4 112 3 "hhb-gateway";
   E 4 113 3 "trim";
   E 4 114 3 "encrypted-admin";
   E 4 114 3 "encrypted_admin";
   E 4 115 3 "evm";
   E 4 116 3 "autonoc";
   E 4 117 3 "mxomss";
   E 4 118 3 "edtools";
   E 4 119 3 "imyx";
   E 4 120 3 "fuscript";
   E 4 121 3 "x9-icue";
   E 4 122 3 "audit-transfer";
   E 4 123 3 "capioverlan";
   E 4 124 3 "elfiq-repl";
   E 4 125 3 "bvtsonar";
   E 4 126 3 "blaze";
   E 4 127 3 "unizensus";
   E 4 128 3 "winpoplanmess";
   E 4 129 3 "c1222-acse";
   E 4 130 3 "resacommunity";
   E 4 131 3 "nfa";
   E 4 132 3 "iascontrol-oms";
   E 4 133 3 "iascontrol";
   E 4 134 3 "dbcontrol-oms";
   E 4 135 3 "oracle-oms";
   E 4 136 3 "olsv";
   E 4 137 3 "health-polling";
   E 4 138 3 "health-trap";
   E 4 139 3 "sddp";
   E 4 140 3 "qsm-proxy";
   E 4 141 3 "qsm-gui";
   E 4 142 3 "qsm-remote";
   E 4 143 7 "cisco-ipsla";
   E 4 144 3 "vchat";
   E 4 145 3 "tripwire";
   E 4 146 3 "atc-lm";
   E 4 147 3 "atc-appserver";
   E 4 148 3 "dnap";
   E 4 149 3 "d-cinema-rrp";
   E 4 150 3 "fnet-remote-ui";
   E 4 151 3 "dossier";
   E 4 152 3 "indigo-server";
   E 4 153 3 "dkmessenger";
   E 4 154 3 "sgi-storman";
   E 4 155 3 "b2n";
   E 4 156 3 "mc-client";
   E 4 157 3 "3comnetman";
   E 4 158 1 "accelenet";
   E 4 158 2 "accelenet-data";
   E 4 159 3 "llsurfup-http";
   E 4 160 3 "llsurfup-https";
   E 4 161 3 "catchpole";
   E 4 162 3 "mysql-cluster";
   E 4 163 3 "alias";
   E 4 164 3 "hp-webadmin";
   E 4 165 3 "unet";
   E 4 166 3 "commlinx-avl";
   E 4 167 3 "gpfs";
   E 4 168 3 "caids-sensor";
   E 4 169 3 "fiveacross";
   E 4 170 3 "openvpn"].

Definition ports_6 : list entry :=
  [E 4 171 3 "rsf-1";
   E 4 172 3 "netmagic";
   E 4 173 3 "carrius-rshell";
   E 4 174 3 "cajo-discovery";
   E 4 175 3 "dmidi";
   E 4 176 3 "scol";
   E 4 177 3 "nucleus-sand";
   E 4 178 3 "caiccipc";
   E 4 179 3 "ssslic-mgr";
   E 4 180 3 "ssslog-mgr";
   E 4 181 3 "accord-mgc";
   E 4 182 3 "anthony-data";
   E 4 183 3 "metasage";
   E 4 184 3 "seagull-ais";
   E 4 185 3 "ipcd3";
   E 4 186 3 "eoss";
   E 4 187 3 "groove-dpp";
   E 4 188 3 "lupa";
   E 4 189 3 "mpc-lifenet";
   E 4 190 3 "kazaa";
   E 4 191 3 "scanstat-1";
   E 4 192 3 "etebac5";
   E 4 193 3 "hpss-ndapi";
   E 4 194 3 "aeroflight-ads";
   E 4 195 3 "aeroflight-ret";
   E 4 196 3 "qt-serveradmin";
   E 4 197 3 "sweetware-apps";
   E 4 198 3 "nerv";
   E 4 199 3 "tgp";
   E 4 200 3 "vpnz";
   E 4 201 3 "slinkysearch";
   E 4 202 3 "stgxfws";
   E 4 203 3 "dns2go";
   E 4 204 3 "florence";
   E 4 205 3 "zented";
   E 4 206 3 "periscope";
   E 4 207 3 "menandmice-lpm";
   E 4 208 3 "first-defense";
   E 4 209 3 "univ-appserver";
   E 4 210 3 "search-agent";
   E 4 211 3 "mosaicsyssvc1";
   E 4 212 3 "bvcontrol";
   E 4 213 3 "tsdos390";
   E 4 214 3 "hacl-qs";
   E 4 215 3 "nmsd";
   E 4 216 3 "instantia";
   E 4 217 3 "nessus";
   E 4 218 3 "nmasoverip";
   E 4 219 3 "serialgateway";
   E 4 220 3 "isbconference1";
   E 4 221 3 "isbconference2";
   E 4 222 3 "payrouter";
   E 4 223 3 "visionpyramid";
   E 4 224 3 "hermes";
   E 4 225 3 "mesavistaco";
   E 4 226 3 "swldy-sias";
   E 4 227 3 "servergraph";
   E 4 228 3 "bspne-pcc";
   E 4 229 3 "q55-pcc";
   E 4 230 3 "de-noc";
   E 4 231 3 "de-cache-query";
   E 4 232 3 "de-server";
   E 4 233 3 "shockwave2";
   E 4 234 3 "opennl";
   E 4 235 3 "opennl-voice";
   E 4 236 3 "ibm-ssd";
   E 4 237 3 "mpshrsv";
   E 4 238 3 "qnts-orb";
   E 4 239 3 "dka";
   E 4 240 3 "prat";
   E 4 241 3 "dssiapi";
   E 4 242 3 "dellpwrappks";
   E 4 243 3 "epc";
   E 4 244 3 "propel-msgsys";
   E 4 245 3 "watilapp";
   E 4 246 3 "opsmgr";
   E 4 247 3 "excw";
   E 4 248 3 "cspmlockmgr";
   E 4 249 3 "emc-gateway";
   E 4 250 3 "t1distproc";
   E 4 251 3 "ivcollector";
   E 4 253 3 "miva-mqs";
   E 4 254 3 "dellwebadmin-1";
   E 4 255 3 "dellwebadmin-2";
   E 5 0 3 "pictrography";
   E 5 1 3 "healthd";
   E 5 2 3 "emperion";
   E 5 3 3 "productinfo";
   E 5 4 3 "iee-qfx";
   E 5 5 3 "neoiface";
   E 5 6 3 "netuitive";
   E 5 7 3 "routematch";
   E 5 8 3 "navbuddy";
   E 5 9 3 "jwalkserver";
   E 5 10 3 "winjaserver";
   E 5 11 3 "seagulllms";
   E 5 12 3 "dsdn";
   E 5 13 3 "pkt-krb-ipsec";
   E 5 14 3 "cmmdriver";
   E 5 15 3 "ehtp";
   E 5 16 3 "dproxy";
   E 5 17 3 "sdproxy";
   E 5 18 3 "lpcp";
   E 5 19 3 "hp-sci";
   E 5 20 3 "h323hostcallsc";
   E 5 21 3 "ci3-software-1";
   E 5 22 3 "ci3-software-2";
   E 5 23 3 "sftsrv";
   E 5 24 3 "boomerang";
   E 5 25 3 "pe-mike";
   E 5 26 3 "re-conn-proto";
   E 5 27 3 "pacmand";
   E 5 28 3 "odsi";
   E 5 29 3 "jtag-server";
   E 5 30 3 "husky";
   E 5 31 3 "rxmon";
   E 5 32 3 "sti-envision";
   E 5 33 3 "bmc-patroldb";
   E 5 33 3 "bmc_patroldb";
   E 5 34 3 "pdps";
   E 5 35 3 "els";
   E 5 36 3 "exbit-escp";
   E 5 37 3 "vrts-ipcserver";
   E 5 38 3 "krb5gatekeeper";
   E 5 39 3 "amx-icsp";
   E 5 40 3 "amx-axbnet";
   E 5 41 3 "pip";
   E 5 42 3 "novation";
   E 5 43 3 "brcd";
   E 5 44 3 "delta-mcp";
   E 5 45 3 "dx-instrument";
   E 5 46 3 "wimsic";
   E 5 47 3 "ultrex";
   E 5 48 3 "ewall";
   E 5 49 3 "netdb-export";
   E 5 50 3 "streetperfect";
   E 5 51 3 "intersan";
   E 5 52 3 "pcia-rxp-b";
   E 5 53 3 "passwrd-policy";
   E 5 54 3 "writesrv";
   E 5 55 3 "digital-notary";
   E 5 56 3 "ischat";
   E 5 57 3 "menandmice-dns";
   E 5 58 3 "wmc-log-svc";
   E 5 59 3 "kjtsiteserver";
   E 5 60 3 "naap";
   E 5 61 3 "qubes";
   E 5 62 3 "esbroker";
   E 5 63 3 "re101";
   E 5 64 3 "icap"].

Definition ports_7 : list entry :=
  [E 5 65 3 "vpjp";
   E 5 66 3 "alta-ana-lm";
   E 5 67 3 "bbn-mmc";
   E 5 68 3 "bbn-mmx";
   E 5 69 3 "sbook";
   E 5 70 3 "editbench";
   E 5 71 3 "equationbuilder";
   E 5 72 3 "lotusnote";
   E 5 73 3 "relief";
   E 5 74 3 "XSIP-network";
   E 5 75 3 "intuitive-edge";
   E 5 76 3 "cuillamartin";
   E 5 77 3 "pegboard";
   E 5 78 3 "connlcli";
   E 5 79 3 "ftsrv";
   E 5 80 3 "mimer";
   E 5 81 3 "linx";
   E 5 82 3 "timeflies";
   E 5 83 3 "ndm-requester";
   E 5 84 3 "ndm-server";
   E 5 85 3 "adapt-sna";
   E 5 86 3 "netware-csp";
   E 5 87 3 "dcs";
   E 5 88 3 "screencast";
   E 5 89 3 "gv-us";
   E 5 90 3 "us-gv";
   E 5 91 3 "fc-cli";
   E 5 92 3 "fc-ser";
   E 5 93 3 "chromagrafx";
   E 5 94 3 "molly";
   E 5 95 3 "bytex";
   E 5 96 3 "ibm-pps";
   E 5 97 3 "cichlid";
   E 5 98 3 "elan";
   E 5 99 3 "dbreporter";
   E 5 100 3 "telesis-licman";
   E 5 101 3 "apple-licman";
   E 5 102 3 "udt-os";
   E 5 102 3 "udt_os";
   E 5 103 3 "gwha";
   E 5 104 3 "os-licman";
   E 5 105 3 "atex-elmd";
   E 5 105 3 "atex_elmd";
   E 5 106 3 "checksum";
   E 5 107 3 "cadsi-lm";
   E 5 108 3 "objective-dbc";
   E 5 109 3 "iclpv-dm";
   E 5 110 3 "iclpv-sc";
   E 5 111 3 "iclpv-sas";
   E 5 112 3 "iclpv-pm";
   E 5 113 3 "iclpv-nls";
   E 5 114 3 "iclpv-nlc";
   E 5 115 3 "iclpv-wsm";
   E 5 116 3 "dvl-activemail";
   E 5 117 3 "audio-activmail";
   E 5 118 3 "video-activmail";
   E 5 119 3 "cadkey-licman";
   E 5 120 3 "cadkey-tablet";
   E 5 121 3 "goldleaf-licman";
   E 5 122 3 "prm-sm-np";
   E 5 123 3 "prm-nm-np";
   E 5 124 3 "igi-lm";
   E 5 125 3 "ibm-res";
   E 5 126 3 "netlabs-lm";
   E 5 127 1 "tibet-server";
   E 5 128 3 "sophia-lm";
   E 5 129 3 "here-lm";
   E 5 130 3 "hiq";
   E 5 131 3 "af";
   E 5 132 3 "innosys";
   E 5 133 3 "innosys-acl";
   E 5 134 3 "ibm-mqseries";
   E 5 135 3 "dbstar";
   E 5 136 3 "novell-lu6-2";
   E 5 136 3 "novell-lu6.2";
   E 5 137 3 "timbuktu-srv1";
   E 5 138 3 "timbuktu-srv2";
   E 5 139 3 "timbuktu-srv3";
   E 5 140 3 "timbuktu-srv4";
   E 5 141 3 "gandalf-lm";
   E 5 142 3 "autodesk-lm";
   E 5 143 3 "essbase";
   E 5 144 3 "hybrid";
   E 5 145 3 "zion-lm";
   E 5 146 3 "sais";
   E 5 147 3 "mloadd";
   E 5 148 3 "informatik-lm";
   E 5 149 3 "nms";
   E 5 150 3 "tpdu";
   E 5 151 3 "rgtp";
   E 5 152 3 "blueberry-lm";
   E 5 153 3 "ms-sql-s";
   E 5 154 3 "ms-sql-m";
   E 5 155 3 "ibm-cics";
   E 5 156 3 "saism";
   E 5 157 3 "tabula";
   E 5 158 3 "eicon-server";
   E 5 159 3 "eicon-x25";
   E 5 160 3 "eicon-slp";
   E 5 161 3 "cadis-1";
   E 5 162 3 "cadis-2";
   E 5 163 3 "ies-lm";
   E 5 164 3 "marcam-lm";
   E 5 165 3 "proxima-lm";
   E 5 166 3 "ora-lm";
   E 5 167 3 "apri-lm";
   E 5 168 3 "oc-lm";
   E 5 169 3 "peport";
   E 5 170 3 "dwf";
   E 5 171 3 "infoman";
   E 5 172 3 "gtegsc-lm";
   E 5 173 3 "genie-lm";
   E 5 174 3 "interhdl-elmd";
   E 5 174 3 "interhdl_elmd";
   E 5 175 3 "esl-lm";
   E 5 176 3 "dca";
   E 5 177 3 "valisys-lm";
   E 5 178 3 "nrcabq-lm";
   E 5 179 3 "proshare1";
   E 5 180 3 "proshare2";
   E 5 181 3 "ibm-wrless-lan";
   E 5 181 3 "ibm_wrless_lan";
   E 5 182 3 "world-lm";
   E 5 183 3 "nucleus";
   E 5 184 3 "msl-lmd";
   E 5 184 3 "msl_lmd";
   E 5 185 3 "pipes";
   E 5 186 3 "oceansoft-lm";
   E 5 187 3 "csdmbase";
   E 5 188 3 "csdm";
   E 5 189 3 "aal-lm";
   E 5 190 3 "uaiact";
   E 5 191 3 "csdmbase";
   E 5 192 3 "csdm";
   E 5 193 3 "openmath";
   E 5 194 3 "telefinder";
   E 5 195 3 "taligent-lm";
   E 5 196 3 "clvm-cfg";
   E 5 197 3 "ms-sna-server";
   E 5 198 3 "ms-sna-base";
   E 5 199 3 "dberegister";
   E 5 200 3 "pacerforum";
   E 5 201 3 "airs";
   E 5 202 3 "miteksys-lm";
   E 5 203 3 "afs";
   E 5 204 3 "confluent";
   E 5 205 3 "lansource";
   E 5 206 3 "nms-topo-serv";
   E 5 206 3 "nms_topo_serv";
   E 5 207 3 "localinfosrvr"].

Definition ports_8 : list entry :=
  [E 5 208 3 "docstor";
   E 5 209 3 "dmdocbroker";
   E 5 210 3 "insitu-conf";
   E 5 212 3 "stone-design-1";
   E 5 213 3 "netmap-lm";
   E 5 213 3 "netmap_lm";
   E 5 214 3 "ica";
   E 5 215 3 "cvc";
   E 5 216 3 "liberty-lm";
   E 5 217 3 "rfx-lm";
   E 5 218 3 "sybase-sqlany";
   E 5 219 3 "fhc";
   E 5 220 3 "vlsi-lm";
   E 5 221 3 "saiscm";
   E 5 222 3 "shivadiscovery";
   E 5 223 3 "imtc-mcs";
   E 5 224 3 "evb-elm";
   E 5 225 3 "funkproxy";
   E 5 226 3 "utcd";
   E 5 227 3 "symplex";
   E 5 228 3 "diagmond";
   E 5 229 3 "robcad-lm";
   E 5 230 3 "mvx-lm";
   E 5 231 3 "3l-l1";
   E 5 232 3 "wins";
   E 5 233 3 "fujitsu-dtc";
   E 5 234 3 "fujitsu-dtcns";
   E 5 235 3 "ifor-protocol";
   E 5 236 3 "vpad";
   E 5 237 3 "vpac";
   E 5 238 3 "vpvd";
   E 5 239 3 "vpvc";
   E 5 240 3 "atm-zip-office";
   E 5 241 3 "ncube-lm";
   E 5 242 3 "ricardo-lm";
   E 5 243 3 "cichild-lm";
   E 5 244 3 "ingreslock";
   E 5 245 3 "orasrv";
   E 5 245 3 "prospero-np";
   E 5 246 3 "pdap-np";
   E 5 247 3 "tlisrv";
   E 5 248 2 "ngr-t";
   E 5 249 3 "coauthor";
   E 5 250 3 "rap-service";
   E 5 251 3 "rap-listen";
   E 5 252 3 "miroconnect";
   E 5 253 3 "virtual-places";
   E 5 254 3 "micromuse-lm";
   E 5 255 3 "ampr-info";
   E 6 0 3 "ampr-inter";
   E 6 1 3 "sdsc-lm";
   E 6 2 3 "3ds-lm";
   E 6 3 3 "intellistor-lm";
   E 6 4 3 "rds";
   E 6 5 3 "rds2";
   E 6 6 3 "gridgen-elmd";
   E 6 7 3 "simba-cs";
   E 6 8 3 "aspeclmd";
   E 6 9 3 "vistium-share";
   E 6 10 3 "abbaccuray";
   E 6 11 3 "laplink";
   E 6 12 3 "axon-lm";
   E 6 13 1 "shivahose";
   E 6 13 2 "shivasound";
   E 6 14 3 "3m-image-lm";
   E 6 15 3 "hecmtl-db";
   E 6 16 3 "pciarray";
   E 6 17 3 "sna-cs";
   E 6 18 3 "caci-lm";
   E 6 19 3 "livelan";
   E 6 20 3 "veritas-pbx";
   E 6 20 3 "veritas_pbx";
   E 6 21 3 "arbortext-lm";
   E 6 22 3 "xingmpeg";
   E 6 23 3 "web2host";
   E 6 24 3 "asci-val";
   E 6 25 3 "facilityview";
   E 6 26 3 "pconnectmgr";
   E 6 27 3 "cadabra-lm";
   E 6 28 3 "pay-per-view";
   E 6 29 3 "winddlb";
   E 6 30 3 "corelvideo";
   E 6 31 3 "jlicelmd";
   E 6 32 3 "tsspmap";
   E 6 33 3 "ets";
   E 6 34 3 "orbixd";
   E 6 35 3 "rdb-dbs-disp";
   E 6 36 3 "chip-lm";
   E 6 37 3 "itscomm-ns";
   E 6 38 3 "mvel-lm";
   E 6 39 3 "oraclenames";
   E 6 40 3 "moldflow-lm";
   E 6 41 3 "hypercube-lm";
   E 6 42 3 "jacobus-lm";
   E 6 43 3 "ioc-sea-lm";
   E 6 44 1 "tn-tl-r1";
   E 6 44 2 "tn-tl-r2";
   E 6 45 3 "mil-2045-47001";
   E 6 46 3 "msims";
   E 6 47 3 "simbaexpress";
   E 6 48 3 "tn-tl-fd2";
   E 6 49 3 "intv";
   E 6 50 3 "ibm-abtact";
   E 6 51 3 "pra-elmd";
   E 6 51 3 "pra_elmd";
   E 6 52 3 "triquest-lm";
   E 6 53 3 "vqp";
   E 6 54 3 "gemini-lm";
   E 6 55 3 "ncpm-pm";
   E 6 56 3 "commonspace";
   E 6 57 3 "mainsoft-lm";
   E 6 58 3 "sixtrak";
   E 6 59 3 "radio";
   E 6 60 1 "radio-sm";
   E 6 60 2 "radio-bc";
   E 6 61 3 "orbplus-iiop";
   E 6 62 3 "picknfs";
   E 6 63 3 "simbaservices";
   E 6 64 3 "issd";
   E 6 65 3 "aas";
   E 6 66 3 "inspect";
   E 6 67 3 "picodbc";
   E 6 68 3 "icabrowser";
   E 6 69 3 "slp";
   E 6 70 3 "slm-api";
   E 6 71 3 "stt";
   E 6 72 3 "smart-lm";
   E 6 73 3 "isysg-lm";
   E 6 74 3 "taurus-wh";
   E 6 75 3 "ill";
   E 6 76 3 "netbill-trans";
   E 6 77 3 "netbill-keyrep";
   E 6 78 3 "netbill-cred";
   E 6 79 3 "netbill-auth";
   E 6 80 3 "netbill-prod";
   E 6 81 3 "nimrod-agent";
   E 6 82 3 "skytelnet";
   E 6 83 3 "xs-openstorage";
   E 6 84 3 "faxportwinport";
   E 6 85 3 "softdataphone";
   E 6 86 3 "ontime";
   E 6 87 3 "jaleosnd";
   E 6 88 3 "udp-sr-port";
   E 6 89 3 "svs-omagent";
   E 6 90 3 "shockwave";
   E 6 91 3 "t128-gateway";
   E 6 92 3 "lontalk-norm";
   E 6 93 3 "lontalk-urgnt";
   E 6 94 3 "oraclenet8cman";
   E 6 95 3 "visitview"].

Definition ports_9 : list entry :=
  [E 6 96 3 "pammratc";
   E 6 97 3 "pammrpc";
   E 6 98 3 "loaprobe";
   E 6 99 3 "edb-server1";
   E 6 100 3 "isdc";
   E 6 101 3 "islc";
   E 6 102 3 "ismc";
   E 6 103 3 "cert-initiator";
   E 6 104 3 "cert-responder";
   E 6 105 3 "invision";
   E 6 106 3 "isis-am";
   E 6 107 3 "isis-ambc";
   E 6 108 3 "saiseh";
   E 6 109 3 "sightline";
   E 6 110 3 "sa-msg-port";
   E 6 111 3 "rsap";
   E 6 112 3 "concurrent-lm";
   E 6 113 3 "kermit";
   E 6 114 3 "nkd";
   E 6 115 3 "shiva-confsrvr";
   E 6 115 3 "shiva_confsrvr";
   E 6 116 3 "xnmp";
   E 6 117 3 "alphatech-lm";
   E 6 118 3 "stargatealerts";
   E 6 119 3 "dec-mbadmin";
   E 6 120 3 "dec-mbadmin-h";
   E 6 121 3 "fujitsu-mmpdc";
   E 6 122 3 "sixnetudr";
   E 6 123 3 "sg-lm";
   E 6 124 3 "skip-mc-gikreq";
   E 6 125 3 "netview-aix-1";
   E 6 126 3 "netview-aix-2";
   E 6 127 3 "netview-aix-3";
   E 6 128 3 "netview-aix-4";
   E 6 129 3 "netview-aix-5";
   E 6 130 3 "netview-aix-6";
   E 6 131 3 "netview-aix-7";
   E 6 132 3 "netview-aix-8";
   E 6 133 3 "netview-aix-9";
   E 6 134 3 "netview-aix-10";
   E 6 135 3 "netview-aix-11";
   E 6 136 3 "netview-aix-12";
   E 6 137 3 "proshare-mc-1";
   E 6 138 3 "proshare-mc-2";
   E 6 139 3 "pdp";
   E 6 140 1 "netcomm1";
   E 6 140 2 "netcomm2";
   E 6 141 3 "groupwise";
   E 6 142 3 "prolink";
   E 6 143 3 "darcorp-lm";
   E 6 144 3 "microcom-sbp";
   E 6 145 3 "sd-elmd";
   E 6 146 3 "lanyon-lantern";
   E 6 147 3 "ncpm-hip";
   E 6 148 3 "snaresecure";
   E 6 149 3 "n2nremote";
   E 6 150 3 "cvmon";
   E 6 151 3 "nsjtp-ctrl";
   E 6 152 3 "nsjtp-data";
   E 6 153 3 "firefox";
   E 6 154 3 "ng-umds";
   E 6 155 3 "empire-empuma";
   E 6 156 3 "sstsys-lm";
   E 6 157 3 "rrirtr";
   E 6 158 3 "rrimwm";
   E 6 159 3 "rrilwm";
   E 6 160 3 "rrifmm";
   E 6 161 3 "rrisat";
   E 6 162 3 "rsvp-encap-1";
   E 6 163 3 "rsvp-encap-2";
   E 6 164 3 "mps-raft";
   E 6 165 3 "l2f";
   E 6 165 3 "l2tp";
   E 6 166 3 "deskshare";
   E 6 167 3 "hb-engine";
   E 6 168 3 "bcs-broker";
   E 6 169 3 "slingshot";
   E 6 170 3 "jetform";
   E 6 171 3 "vdmplay";
   E 6 172 3 "gat-lmd";
   E 6 173 3 "centra";
   E 6 174 3 "impera";
   E 6 175 3 "pptconference";
   E 6 176 3 "registrar";
   E 6 177 3 "conferencetalk";
   E 6 178 3 "sesi-lm";
   E 6 179 3 "houdini-lm";
   E 6 180 3 "xmsg";
   E 6 181 3 "fj-hdnet";
   E 6 182 3 "h323gatedisc";
   E 6 183 3 "h323gatestat";
   E 6 184 7 "h323hostcall";
   E 6 185 3 "caicci";
   E 6 186 3 "hks-lm";
   E 6 187 3 "pptp";
   E 6 188 3 "csbphonemaster";
   E 6 189 3 "iden-ralp";
   E 6 190 3 "iberiagames";
   E 6 191 3 "winddx";
   E 6 192 3 "telindus";
   E 6 193 3 "citynl";
   E 6 194 3 "roketz";
   E 6 195 3 "msiccp";
   E 6 196 3 "proxim";
   E 6 197 3 "siipat";
   E 6 198 3 "cambertx-lm";
   E 6 199 3 "privatechat";
   E 6 200 3 "street-stream";
   E 6 201 3 "ultimad";
   E 6 202 3 "gamegen1";
   E 6 203 3 "webaccess";
   E 6 204 3 "encore";
   E 6 205 3 "cisco-net-mgmt";
   E 6 206 3 "3Com-nsd";
   E 6 207 3 "cinegrfx-lm";
   E 6 208 3 "ncpm-ft";
   E 6 209 3 "remote-winsock";
   E 6 210 3 "ftrapid-1";
   E 6 211 3 "ftrapid-2";
   E 6 212 3 "oracle-em1";
   E 6 213 3 "aspen-services";
   E 6 214 3 "sslp";
   E 6 215 3 "swiftnet";
   E 6 216 3 "lofr-lm";
   E 6 217 1 "predatar-comms";
   E 6 218 3 "oracle-em2";
   E 6 219 3 "ms-streaming";
   E 6 220 3 "capfast-lmd";
   E 6 221 3 "cnhrp";
   E 6 222 3 "tftp-mcast";
   E 6 223 3 "spss-lm";
   E 6 224 3 "www-ldap-gw";
   E 6 225 3 "cft-0";
   E 6 226 3 "cft-1";
   E 6 227 3 "cft-2";
   E 6 228 3 "cft-3";
   E 6 229 3 "cft-4";
   E 6 230 3 "cft-5";
   E 6 231 3 "cft-6";
   E 6 232 3 "cft-7";
   E 6 233 3 "bmc-net-adm";
   E 6 234 3 "bmc-net-svc";
   E 6 235 3 "vaultbase";
   E 6 236 3 "essweb-gw";
   E 6 237 3 "kmscontrol";
   E 6 238 3 "global-dtserv";
   E 6 239 1 "vdab";
   E 6 240 3 "femis";
   E 6 241 3 "powerguardian";
   E 6 242 3 "prodigy-intrnet"].

Definition ports_10 : list entry :=
  [E 6 243 3 "pharmasoft";
   E 6 244 3 "dpkeyserv";
   E 6 245 3 "answersoft-lm";
   E 6 246 3 "hp-hcip";
   E 6 248 3 "finle-lm";
   E 6 249 3 "windlm";
   E 6 250 3 "funk-logger";
   E 6 251 3 "funk-license";
   E 6 252 3 "psmond";
   E 6 253 3 "hello";
   E 6 254 3 "nmsp";
   E 6 255 3 "ea1";
   E 7 0 3 "ibm-dt-2";
   E 7 1 3 "rsc-robot";
   E 7 2 3 "cera-bcm";
   E 7 3 3 "dpi-proxy";
   E 7 4 3 "vocaltec-admin";
   E 7 5 3 "uma";
   E 7 6 3 "etp";
   E 7 7 3 "netrisk";
   E 7 8 3 "ansys-lm";
   E 7 9 3 "msmq";
   E 7 10 3 "concomp1";
   E 7 11 3 "hp-hcip-gwy";
   E 7 12 3 "enl";
   E 7 13 3 "enl-name";
   E 7 14 3 "musiconline";
   E 7 15 3 "fhsp";
   E 7 16 3 "oracle-vp2";
   E 7 17 3 "oracle-vp1";
   E 7 18 3 "jerand-lm";
   E 7 19 3 "scientia-sdb";
   E 7 20 3 "radius";
   E 7 21 3 "radius-acct";
   E 7 22 3 "tdp-suite";
   E 7 23 3 "mmpft";
   E 7 24 3 "harp";
   E 7 25 3 "rkb-oscs";
   E 7 26 3 "etftp";
   E 7 27 3 "plato-lm";
   E 7 28 3 "mcagent";
   E 7 29 3 "donnyworld";
   E 7 30 3 "es-elmd";
   E 7 31 3 "unisys-lm";
   E 7 32 3 "metrics-pas";
   E 7 33 3 "direcpc-video";
   E 7 34 3 "ardt";
   E 7 35 3 "asi";
   E 7 36 3 "itm-mcell-u";
   E 7 37 3 "optika-emedia";
   E 7 38 3 "net8-cman";
   E 7 39 3 "myrtle";
   E 7 40 3 "tht-treasure";
   E 7 41 3 "udpradio";
   E 7 42 3 "ardusuni";
   E 7 43 3 "ardusmul";
   E 7 44 3 "ste-smsc";
   E 7 45 3 "csoft1";
   E 7 46 3 "talnet";
   E 7 47 3 "netopia-vo1";
   E 7 48 3 "netopia-vo2";
   E 7 49 3 "netopia-vo3";
   E 7 50 3 "netopia-vo4";
   E 7 51 3 "netopia-vo5";
   E 7 52 3 "direcpc-dll";
   E 7 53 3 "altalink";
   E 7 54 3 "tunstall-pnc";
   E 7 55 3 "slp-notify";
   E 7 56 3 "fjdocdist";
   E 7 57 3 "alpha-sms";
   E 7 58 3 "gsi";
   E 7 59 3 "ctcd";
   E 7 60 3 "virtual-time";
   E 7 61 3 "vids-avtp";
   E 7 62 3 "buddy-draw";
   E 7 63 3 "fiorano-rtrsvc";
   E 7 64 3 "fiorano-msgsvc";
   E 7 65 3 "datacaptor";
   E 7 66 3 "privateark";
   E 7 67 3 "gammafetchsvr";
   E 7 68 3 "sunscalar-svc";
   E 7 69 3 "lecroy-vicp";
   E 7 70 3 "mysql-cm-agent";
   E 7 71 3 "msnp";
   E 7 72 3 "paradym-31port";
   E 7 73 3 "entp";
   E 7 74 3 "swrmi";
   E 7 75 3 "udrive";
   E 7 76 3 "viziblebrowser";
   E 7 77 3 "transact";
   E 7 78 3 "sunscalar-dns";
   E 7 79 3 "canocentral0";
   E 7 80 3 "canocentral1";
   E 7 81 3 "fjmpjps";
   E 7 82 3 "fjswapsnp";
   E 7 83 3 "westell-stats";
   E 7 84 3 "ewcappsrv";
   E 7 85 3 "hp-webqosdb";
   E 7 86 3 "drmsmc";
   E 7 87 3 "nettgain-nms";
   E 7 88 3 "vsat-control";
   E 7 89 3 "ibm-mqseries2";
   E 7 90 3 "ecsqdmn";
   E 7 91 3 "mqtt";
   E 7 92 3 "idmaps";
   E 7 93 3 "vrtstrapserver";
   E 7 94 3 "leoip";
   E 7 95 3 "filex-lport";
   E 7 96 3 "ncconfig";
   E 7 97 3 "unify-adapter";
   E 7 98 3 "wilkenlistener";
   E 7 99 3 "childkey-notif";
   E 7 100 3 "childkey-ctrl";
   E 7 101 3 "elad";
   E 7 102 3 "o2server-port";
   E 7 104 3 "b-novative-ls";
   E 7 105 3 "metaagent";
   E 7 106 3 "cymtec-port";
   E 7 107 3 "mc2studios";
   E 7 108 3 "ssdp";
   E 7 109 3 "fjicl-tep-a";
   E 7 110 3 "fjicl-tep-b";
   E 7 111 3 "linkname";
   E 7 112 3 "fjicl-tep-c";
   E 7 113 3 "sugp";
   E 7 114 3 "tpmd";
   E 7 115 3 "intrastar";
   E 7 116 3 "dawn";
   E 7 117 3 "global-wlink";
   E 7 118 3 "ultrabac";
   E 7 119 3 "mtp";
   E 7 120 3 "rhp-iibp";
   E 7 121 3 "armadp";
   E 7 122 3 "elm-momentum";
   E 7 123 3 "facelink";
   E 7 124 3 "persona";
   E 7 125 3 "noagent";
   E 7 126 3 "can-nds";
   E 7 127 3 "can-dch";
   E 7 128 3 "can-ferret";
   E 7 129 3 "noadmin";
   E 7 130 3 "tapestry";
   E 7 131 3 "spice";
   E 7 132 3 "xiip";
   E 7 133 3 "discovery-port";
   E 7 134 3 "egs";
   E 7 135 3 "videte-cipc";
   E 7 136 3 "emsd-port";
   E 7 137 3 "bandwiz-system";
   E 7 138 3 "driveappserver"].

Definition ports_11 : list entry :=
  [E 7 139 3 "amdsched";
   E 7 140 3 "ctt-broker";
   E 7 141 3 "xmapi";
   E 7 142 3 "xaapi";
   E 7 143 3 "macromedia-fcs";
   E 7 144 3 "jetcmeserver";
   E 7 145 3 "jwserver";
   E 7 146 3 "jwclient";
   E 7 147 3 "jvserver";
   E 7 148 3 "jvclient";
   E 7 149 3 "dic-aida";
   E 7 150 3 "res";
   E 7 151 3 "beeyond-media";
   E 7 152 3 "close-combat";
   E 7 153 3 "dialogic-elmd";
   E 7 154 3 "tekpls";
   E 7 155 3 "sentinelsrm";
   E 7 156 3 "eye2eye";
   E 7 157 3 "ismaeasdaqlive";
   E 7 158 3 "ismaeasdaqtest";
   E 7 159 3 "bcs-lmserver";
   E 7 160 3 "mpnjsc";
   E 7 161 3 "rapidbase";
   E 7 162 3 "abr-api";
   E 7 163 3 "abr-secure";
   E 7 164 3 "vrtl-vmf-ds";
   E 7 165 3 "unix-status";
   E 7 166 3 "dxadmind";
   E 7 167 3 "simp-all";
   E 7 168 3 "nasmanager";
   E 7 169 3 "bts-appserver";
   E 7 170 3 "biap-mp";
   E 7 171 3 "webmachine";
   E 7 172 3 "solid-e-engine";
   E 7 173 3 "tivoli-npm";
   E 7 174 3 "slush";
   E 7 175 3 "sns-quote";
   E 7 176 3 "lipsinc";
   E 7 177 3 "lipsinc1";
   E 7 178 3 "netop-rc";
   E 7 179 3 "netop-school";
   E 7 180 3 "intersys-cache";
   E 7 181 3 "dlsrap";
   E 7 182 3 "drp";
   E 7 183 3 "tcoflashagent";
   E 7 184 3 "tcoregagent";
   E 7 185 3 "tcoaddressbook";
   E 7 186 3 "unisql";
   E 7 187 3 "unisql-java";
   E 7 188 3 "pearldoc-xact";
   E 7 189 3 "p2pq";
   E 7 190 3 "estamp";
   E 7 191 3 "lhtp";
   E 7 192 3 "bb";
   E 7 193 3 "hsrp";
   E 7 194 3 "licensedaemon";
   E 7 195 3 "tr-rsrb-p1";
   E 7 196 3 "tr-rsrb-p2";
   E 7 197 3 "tr-rsrb-p3";
   E 7 197 3 "mshnet";
   E 7 198 3 "stun-p1";
   E 7 199 3 "stun-p2";
   E 7 200 3 "stun-p3";
   E 7 200 3 "ipsendmsg";
   E 7 201 3 "snmp-tcp-port";
   E 7 202 3 "stun-port";
   E 7 203 3 "perf-port";
   E 7 204 3 "tr-rsrb-port";
   E 7 205 3 "gdp-port";
   E 7 206 3 "x25-svc-port";
   E 7 207 3 "tcp-id-port";
   E 7 208 3 "cisco-sccp";
   E 7 209 1 "dc";
   E 7 209 2 "wizard";
   E 7 210 3 "globe";
   E 7 211 3 "brutus";
   E 7 212 1 "mailbox";
   E 7 212 2 "emce";
   E 7 213 1 "berknet";
   E 7 213 2 "oracle";
   E 7 214 1 "invokator";
   E 7 214 2 "raid-cd";
   E 7 215 1 "dectalk";
   E 7 215 2 "raid-am";
   E 7 216 1 "conf";
   E 7 216 2 "terminaldb";
   E 7 217 1 "news";
   E 7 217 2 "whosockami";
   E 7 218 1 "search";
   E 7 218 2 "pipe-server";
   E 7 218 2 "pipe_server";
   E 7 219 1 "raid-cc";
   E 7 219 2 "servserv";
   E 7 220 1 "ttyinfo";
   E 7 220 2 "raid-ac";
   E 7 221 1 "raid-am";
   E 7 221 2 "raid-cd";
   E 7 222 1 "troff";
   E 7 222 2 "raid-sf";
   E 7 223 1 "cypress";
   E 7 223 2 "raid-cs";
   E 7 224 3 "bootserver";
   E 7 225 1 "cypress-stat";
   E 7 225 2 "bootclient";
   E 7 226 1 "terminaldb";
   E 7 226 2 "rellpack";
   E 7 227 1 "whosockami";
   E 7 227 2 "about";
   E 7 228 3 "xinupageserver";
   E 7 229 1 "servexec";
   E 7 229 2 "xinuexpansion1";
   E 7 230 1 "down";
   E 7 230 2 "xinuexpansion2";
   E 7 231 3 "xinuexpansion3";
   E 7 232 3 "xinuexpansion4";
   E 7 233 1 "ellpack";
   E 7 233 2 "xribs";
   E 7 234 3 "scrabble";
   E 7 235 3 "shadowserver";
   E 7 236 3 "submitserver";
   E 7 237 3 "hsrpv6";
   E 7 238 3 "device2";
   E 7 239 3 "mobrien-chat";
   E 7 240 3 "blackboard";
   E 7 241 3 "glogger";
   E 7 242 3 "scoremgr";
   E 7 243 3 "imsldoc";
   E 7 244 3 "e-dpnet";
   E 7 245 3 "applus";
   E 7 246 3 "objectmanager";
   E 7 247 3 "prizma";
   E 7 248 3 "lam";
   E 7 249 3 "interbase";
   E 7 250 3 "isis";
   E 7 251 3 "isis-bcast";
   E 7 252 3 "rimsl";
   E 7 253 3 "cdfunc";
   E 7 254 3 "sdfunc";
   E 7 255 3 "dls";
   E 8 0 3 "dls-monitor";
   E 8 1 3 "shilp";
   E 8 1 7 "nfs";
   E 8 2 3 "av-emb-config";
   E 8 3 3 "epnsdp";
   E 8 4 3 "clearvisn";
   E 8 5 3 "lot105-ds-upd";
   E 8 6 3 "weblogin";
   E 8 7 3 "iop";
   E 8 8 3 "omnisky";
   E 8 9 3 "rich-cp"].

Definition ports_12 : list entry :=
  [E 8 10 3 "newwavesearch";
   E 8 11 3 "bmc-messaging";
   E 8 12 3 "teleniumdaemon";
   E 8 13 3 "netmount";
   E 8 14 3 "icg-swp";
   E 8 15 3 "icg-bridge";
   E 8 16 3 "icg-iprelay";
   E 8 17 3 "dlsrpn";
   E 8 18 3 "aura";
   E 8 19 3 "dlswpn";
   E 8 20 3 "avauthsrvprtcl";
   E 8 21 3 "event-port";
   E 8 22 3 "ah-esp-encap";
   E 8 23 3 "acp-port";
   E 8 24 3 "msync";
   E 8 25 3 "gxs-data-port";
   E 8 26 3 "vrtl-vmf-sa";
   E 8 27 3 "newlixengine";
   E 8 28 3 "newlixconfig";
   E 8 29 3 "tsrmagt";
   E 8 30 3 "tpcsrvr";
   E 8 31 3 "idware-router";
   E 8 32 3 "autodesk-nlm";
   E 8 33 3 "kme-trap-port";
   E 8 34 3 "infowave";
   E 8 35 3 "radsec";
   E 8 36 3 "sunclustergeo";
   E 8 37 3 "ada-cip";
   E 8 38 3 "gnunet";
   E 8 39 3 "eli";
   E 8 40 3 "ip-blf";
   E 8 41 3 "sep";
   E 8 42 3 "lrp";
   E 8 43 3 "prp";
   E 8 44 3 "descent3";
   E 8 45 3 "nbx-cc";
   E 8 46 3 "nbx-au";
   E 8 47 3 "nbx-ser";
   E 8 48 3 "nbx-dir";
   E 8 49 3 "jetformpreview";
   E 8 50 3 "dialog-port";
   E 8 51 3 "h2250-annex-g";
   E 8 52 3 "amiganetfs";
   E 8 53 3 "rtcm-sc104";
   E 8 54 3 "zephyr-srv";
   E 8 55 3 "zephyr-clt";
   E 8 56 3 "zephyr-hm";
   E 8 57 3 "minipay";
   E 8 58 3 "mzap";
   E 8 59 3 "bintec-admin";
   E 8 60 3 "comcam";
   E 8 61 3 "ergolight";
   E 8 62 3 "umsp";
   E 8 63 3 "dsatp";
   E 8 64 3 "idonix-metanet";
   E 8 65 3 "hsl-storm";
   E 8 66 3 "newheights";
   E 8 67 3 "kdm";
   E 8 68 3 "ccowcmr";
   E 8 69 3 "mentaclient";
   E 8 70 3 "mentaserver";
   E 8 71 3 "gsigatekeeper";
   E 8 72 3 "qencp";
   E 8 73 3 "scientia-ssdb";
   E 8 74 3 "caupc-remote";
   E 8 75 3 "gtp-control";
   E 8 76 3 "elatelink";
   E 8 77 3 "lockstep";
   E 8 78 3 "pktcable-cops";
   E 8 79 3 "index-pc-wb";
   E 8 80 3 "net-steward";
   E 8 81 3 "cs-live";
   E 8 82 3 "xds";
   E 8 83 3 "avantageb2b";
   E 8 84 3 "solera-epmap";
   E 8 85 3 "zymed-zpp";
   E 8 86 3 "avenue";
   E 8 87 3 "gris";
   E 8 88 3 "appworxsrv";
   E 8 89 3 "connect";
   E 8 90 3 "unbind-cluster";
   E 8 91 3 "ias-auth";
   E 8 92 3 "ias-reg";
   E 8 93 3 "ias-admind";
   E 8 94 3 "tdmoip";
   E 8 95 3 "lv-jc";
   E 8 96 3 "lv-ffx";
   E 8 97 3 "lv-pici";
   E 8 98 3 "lv-not";
   E 8 99 3 "lv-auth";
   E 8 100 3 "veritas-ucl";
   E 8 101 3 "acptsys";
   E 8 102 3 "dynamic3d";
   E 8 103 3 "docent";
   E 8 104 3 "gtp-user";
   E 8 105 3 "ctlptc";
   E 8 106 3 "stdptc";
   E 8 107 3 "brdptc";
   E 8 108 3 "trp";
   E 8 109 3 "xnds";
   E 8 110 3 "touchnetplus";
   E 8 111 3 "gdbremote";
   E 8 112 3 "apc-2160";
   E 8 113 3 "apc-2161";
   E 8 114 3 "navisphere";
   E 8 115 3 "navisphere-sec";
   E 8 116 3 "ddns-v3";
   E 8 117 3 "x-bone-api";
   E 8 118 3 "iwserver";
   E 8 119 3 "raw-serial";
   E 8 120 3 "easy-soft-mux";
   E 8 121 3 "brain";
   E 8 122 3 "eyetv";
   E 8 123 3 "msfw-storage";
   E 8 124 3 "msfw-s-storage";
   E 8 125 3 "msfw-replica";
   E 8 126 3 "msfw-array";
   E 8 127 3 "airsync";
   E 8 128 3 "rapi";
   E 8 129 3 "qwave";
   E 8 130 3 "bitspeer";
   E 8 131 3 "vmrdp";
   E 8 132 3 "mc-gt-srv";
   E 8 133 3 "eforward";
   E 8 134 3 "cgn-stat";
   E 8 135 3 "cgn-config";
   E 8 136 3 "nvd";
   E 8 137 3 "onbase-dds";
   E 8 138 3 "gtaua";
   E 8 139 1 "ssmc";
   E 8 139 2 "ssmd";
   E 8 140 1 "radware-rpm";
   E 8 141 1 "radware-rpm-s";
   E 8 142 3 "tivoconnect";
   E 8 143 3 "tvbus";
   E 8 144 3 "asdis";
   E 8 145 3 "drwcs";
   E 8 149 3 "mnp-exchange";
   E 8 150 3 "onehome-remote";
   E 8 151 3 "onehome-help";
   E 8 152 3 "ici";
   E 8 153 3 "ats";
   E 8 154 3 "imtc-map";
   E 8 155 3 "b2-runtime";
   E 8 156 3 "b2-license";
   E 8 157 3 "jps";
   E 8 158 3 "hpocbus";
   E 8 159 3 "hpssd";
   E 8 160 3 "hpiod";
   E 8 161 3 "rimf-ps"].

Definition ports_13 : list entry :=
  [E 8 162 3 "noaaport";
   E 8 163 3 "emwin";
   E 8 164 3 "leecoposserver";
   E 8 165 3 "kali";
   E 8 166 3 "rpi";
   E 8 167 3 "ipcore";
   E 8 168 3 "vtu-comms";
   E 8 169 3 "gotodevice";
   E 8 170 3 "bounzza";
   E 8 171 3 "netiq-ncap";
   E 8 172 3 "netiq";
   E 8 173 3 "ethernet-ip-s";
   E 8 174 3 "EtherNet-IP-1";
   E 8 174 3 "EtherNet/IP-1";
   E 8 175 3 "rockwell-csp2";
   E 8 176 3 "efi-mg";
   E 8 177 5 "rcip-itu";
   E 8 178 3 "di-drm";
   E 8 179 3 "di-msg";
   E 8 180 3 "ehome-ms";
   E 8 181 3 "datalens";
   E 8 182 3 "queueadm";
   E 8 183 3 "wimaxasncp";
   E 8 184 3 "ivs-video";
   E 8 185 3 "infocrypt";
   E 8 186 3 "directplay";
   E 8 187 3 "sercomm-wlink";
   E 8 188 3 "nani";
   E 8 189 3 "optech-port1-lm";
   E 8 190 3 "aviva-sna";
   E 8 191 3 "imagequery";
   E 8 192 3 "recipe";
   E 8 193 3 "ivsd";
   E 8 194 3 "foliocorp";
   E 8 195 3 "magicom";
   E 8 196 3 "nmsserver";
   E 8 197 3 "hao";
   E 8 198 3 "pc-mta-addrmap";
   E 8 199 3 "antidotemgrsvr";
   E 8 200 3 "ums";
   E 8 201 3 "rfmp";
   E 8 202 3 "remote-collab";
   E 8 203 3 "dif-port";
   E 8 204 3 "njenet-ssl";
   E 8 205 3 "dtv-chan-req";
   E 8 206 3 "seispoc";
   E 8 207 3 "vrtp";
   E 8 208 3 "pcc-mfp";
   E 8 209 3 "simple-tx-rx";
   E 8 210 3 "rcts";
   E 8 212 3 "apc-2260";
   E 8 213 3 "comotionmaster";
   E 8 214 3 "comotionback";
   E 8 215 3 "ecwcfg";
   E 8 216 3 "apx500api-1";
   E 8 217 3 "apx500api-2";
   E 8 218 3 "mfserver";
   E 8 219 3 "ontobroker";
   E 8 220 3 "amt";
   E 8 221 3 "mikey";
   E 8 222 3 "starschool";
   E 8 223 3 "mmcals";
   E 8 224 3 "mmcal";
   E 8 225 3 "mysql-im";
   E 8 226 3 "pcttunnell";
   E 8 227 3 "ibridge-data";
   E 8 228 3 "ibridge-mgmt";
   E 8 229 3 "bluectrlproxy";
   E 8 230 3 "s3db";
   E 8 231 3 "xmquery";
   E 8 232 3 "lnvpoller";
   E 8 233 3 "lnvconsole";
   E 8 234 3 "lnvalarm";
   E 8 235 3 "lnvstatus";
   E 8 236 3 "lnvmaps";
   E 8 237 3 "lnvmailmon";
   E 8 238 3 "nas-metering";
   E 8 239 3 "dna";
   E 8 240 3 "netml";
   E 8 241 3 "dict-lookup";
   E 8 242 3 "sonus-logging";
   E 8 243 3 "eapsp";
   E 8 244 3 "mib-streaming";
   E 8 245 3 "npdbgmngr";
   E 8 246 3 "konshus-lm";
   E 8 247 3 "advant-lm";
   E 8 248 3 "theta-lm";
   E 8 249 3 "d2k-datamover1";
   E 8 250 3 "d2k-datamover2";
   E 8 251 3 "pc-telecommute";
   E 8 252 3 "cvmmon";
   E 8 253 3 "cpq-wbem";
   E 8 254 3 "binderysupport";
   E 8 255 3 "proxy-gateway";
   E 9 0 3 "attachmate-uts";
   E 9 1 3 "mt-scaleserver";
   E 9 2 3 "tappi-boxnet";
   E 9 3 3 "pehelp";
   E 9 4 3 "sdhelp";
   E 9 5 3 "sdserver";
   E 9 6 3 "sdclient";
   E 9 7 3 "messageservice";
   E 9 8 3 "wanscaler";
   E 9 9 3 "iapp";
   E 9 10 3 "cr-websystems";
   E 9 11 3 "precise-sft";
   E 9 12 3 "sent-lm";
   E 9 13 3 "attachmate-g32";
   E 9 14 3 "cadencecontrol";
   E 9 15 3 "infolibria";
   E 9 16 3 "siebel-ns";
   E 9 17 3 "rdlap";
   E 9 18 3 "ofsd";
   E 9 19 3 "3d-nfsd";
   E 9 20 3 "cosmocall";
   E 9 21 3 "ansysli";
   E 9 22 3 "idcp";
   E 9 23 3 "xingcsm";
   E 9 24 3 "netrix-sftm";
   E 9 25 3 "nvd";
   E 9 26 3 "tscchat";
   E 9 27 3 "agentview";
   E 9 28 3 "rcc-host";
   E 9 29 3 "snapp";
   E 9 30 3 "ace-client";
   E 9 31 3 "ace-proxy";
   E 9 32 3 "appleugcontrol";
   E 9 33 3 "ideesrv";
   E 9 34 3 "norton-lambert";
   E 9 35 3 "3com-webview";
   E 9 36 3 "wrs-registry";
   E 9 36 3 "wrs_registry";
   E 9 37 3 "xiostatus";
   E 9 38 3 "manage-exec";
   E 9 39 3 "nati-logos";
   E 9 40 3 "fcmsys";
   E 9 41 3 "dbm";
   E 9 42 3 "redstorm-join";
   E 9 42 3 "redstorm_join";
   E 9 43 3 "redstorm-find";
   E 9 43 3 "redstorm_find";
   E 9 44 3 "redstorm-info";
   E 9 44 3 "redstorm_info";
   E 9 45 3 "redstorm-diag";
   E 9 45 3 "redstorm_diag";
   E 9 46 3 "psbserver";
   E 9 47 3 "psrserver";
   E 9 48 3 "pslserver";
   E 9 49 3 "pspserver";
   E 9 50 3 "psprserver"].

Definition ports_14 : list entry :=
  [E 9 51 3 "psdbserver";
   E 9 52 3 "gxtelmd";
   E 9 53 3 "unihub-server";
   E 9 54 3 "futrix";
   E 9 55 3 "flukeserver";
   E 9 56 3 "nexstorindltd";
   E 9 57 3 "tl1";
   E 9 58 3 "digiman";
   E 9 59 3 "mediacntrlnfsd";
   E 9 60 3 "oi-2000";
   E 9 61 3 "dbref";
   E 9 62 3 "qip-login";
   E 9 63 3 "service-ctrl";
   E 9 64 3 "opentable";
   E 9 66 3 "l3-hbmon";
   E 9 67 1 "hp-rda";
   E 9 68 3 "lanmessenger";
   E 9 69 1 "remographlm";
   E 9 70 1 "hydra";
   E 9 71 1 "docker";
   E 9 72 1 "docker-s";
   E 9 75 1 "etcd-client";
   E 9 76 1 "etcd-server";
   E 9 77 3 "compaq-https";
   E 9 78 3 "ms-olap3";
   E 9 79 3 "ms-olap4";
   E 9 80 1 "sd-request";
   E 9 80 2 "sd-capacity";
   E 9 81 3 "sd-data";
   E 9 82 3 "virtualtape";
   E 9 83 3 "vsamredirector";
   E 9 84 3 "mynahautostart";
   E 9 85 3 "ovsessionmgr";
   E 9 86 3 "rsmtp";
   E 9 87 3 "3com-net-mgmt";
   E 9 88 3 "tacticalauth";
   E 9 89 3 "ms-olap1";
   E 9 90 3 "ms-olap2";
   E 9 91 3 "lan900-remote";
   E 9 91 3 "lan900_remote";
   E 9 92 3 "wusage";
   E 9 93 3 "ncl";
   E 9 94 3 "orbiter";
   E 9 95 3 "fmpro-fdal";
   E 9 96 3 "opequus-server";
   E 9 97 3 "cvspserver";
   E 9 98 3 "taskmaster2000";
   E 9 99 3 "taskmaster2000";
   E 9 100 3 "iec-104";
   E 9 101 3 "trc-netpoll";
   E 9 102 3 "jediserver";
   E 9 103 3 "orion";
   E 9 104 1 "railgun-webaccl";
   E 9 105 3 "sns-protocol";
   E 9 106 3 "vrts-registry";
   E 9 107 3 "netwave-ap-mgmt";
   E 9 108 3 "cdn";
   E 9 109 3 "orion-rmi-reg";
   E 9 110 3 "beeyond";
   E 9 111 3 "codima-rtp";
   E 9 112 3 "rmtserver";
   E 9 113 3 "composit-server";
   E 9 114 3 "cas";
   E 9 115 3 "attachmate-s2s";
   E 9 116 3 "dslremote-mgmt";
   E 9 117 3 "g-talk";
   E 9 118 3 "crmsbits";
   E 9 119 3 "rnrp";
   E 9 120 3 "kofax-svr";
   E 9 121 3 "fjitsuappmgr";
   E 9 122 3 "vcmp";
   E 9 123 3 "mgcp-gateway";
   E 9 124 3 "ott";
   E 9 125 3 "ft-role";
   E 9 126 3 "venus";
   E 9 127 3 "venus-se";
   E 9 128 3 "codasrv";
   E 9 129 3 "codasrv-se";
   E 9 130 3 "pxc-epmap";
   E 9 131 3 "optilogic";
   E 9 132 3 "topx";
   E 9 133 3 "unicontrol";
   E 9 134 3 "msp";
   E 9 135 3 "sybasedbsynch";
   E 9 136 3 "spearway";
   E 9 137 3 "pvsw-inet";
   E 9 138 3 "netangel";
   E 9 139 3 "powerclientcsf";
   E 9 140 3 "btpp2sectrans";
   E 9 141 3 "dtn1";
   E 9 142 3 "bues-service";
   E 9 142 3 "bues_service";
   E 9 143 3 "ovwdb";
   E 9 144 3 "hpppssvr";
   E 9 145 3 "ratl";
   E 9 146 3 "netadmin";
   E 9 147 3 "netchat";
   E 9 148 3 "snifferclient";
   E 9 149 3 "madge-ltd";
   E 9 150 3 "indx-dds";
   E 9 151 3 "wago-io-system";
   E 9 152 3 "altav-remmgt";
   E 9 153 3 "rapido-ip";
   E 9 154 3 "griffin";
   E 9 155 3 "community";
   E 9 156 3 "ms-theater";
   E 9 157 3 "qadmifoper";
   E 9 158 3 "qadmifevent";
   E 9 159 3 "lsi-raid-mgmt";
   E 9 160 3 "direcpc-si";
   E 9 161 3 "lbm";
   E 9 162 3 "lbf";
   E 9 163 3 "high-criteria";
   E 9 164 3 "qip-msgd";
   E 9 165 3 "mti-tcs-comm";
   E 9 166 3 "taskman-port";
   E 9 167 3 "seaodbc";
   E 9 168 3 "c3";
   E 9 169 3 "aker-cdp";
   E 9 170 3 "vitalanalysis";
   E 9 171 3 "ace-server";
   E 9 172 3 "ace-svr-prop";
   E 9 173 3 "ssm-cvs";
   E 9 174 3 "ssm-cssps";
   E 9 175 3 "ssm-els";
   E 9 176 3 "powerexchange";
   E 9 177 3 "giop";
   E 9 178 3 "giop-ssl";
   E 9 179 3 "ttc";
   E 9 180 3 "ttc-ssl";
   E 9 181 3 "netobjects1";
   E 9 182 3 "netobjects2";
   E 9 183 3 "pns";
   E 9 184 3 "moy-corp";
   E 9 185 3 "tsilb";
   E 9 186 3 "qip-qdhcp";
   E 9 187 3 "conclave-cpp";
   E 9 188 3 "groove";
   E 9 189 3 "talarian-mqs";
   E 9 190 3 "bmc-ar";
   E 9 191 3 "fast-rem-serv";
   E 9 192 3 "dirgis";
   E 9 193 3 "quaddb";
   E 9 194 3 "odn-castraq";
   E 9 195 3 "unicontrol";
   E 9 196 3 "rtsserv";
   E 9 197 3 "rtsclient";
   E 9 198 3 "kentrox-prot";
   E 9 199 3 "nms-dpnss";
   E 9 200 3 "wlbs"].

Definition ports_15 : list entry :=
  [E 9 201 3 "ppcontrol";
   E 9 202 3 "jbroker";
   E 9 203 3 "spock";
   E 9 204 3 "jdatastore";
   E 9 205 3 "fjmpss";
   E 9 206 3 "fjappmgrbulk";
   E 9 207 3 "metastorm";
   E 9 208 3 "citrixima";
   E 9 209 3 "citrixadmin";
   E 9 210 3 "facsys-ntp";
   E 9 211 3 "facsys-router";
   E 9 212 3 "maincontrol";
   E 9 213 3 "call-sig-trans";
   E 9 214 3 "willy";
   E 9 215 3 "globmsgsvc";
   E 9 216 3 "pvsw";
   E 9 217 3 "adaptecmgr";
   E 9 218 3 "windb";
   E 9 219 3 "qke-llc-v3";
   E 9 220 3 "optiwave-lm";
   E 9 221 3 "ms-v-worlds";
   E 9 222 3 "ema-sent-lm";
   E 9 223 3 "iqserver";
   E 9 224 3 "ncr-ccl";
   E 9 224 3 "ncr_ccl";
   E 9 225 3 "utsftp";
   E 9 226 3 "vrcommerce";
   E 9 227 3 "ito-e-gui";
   E 9 228 3 "ovtopmd";
   E 9 229 3 "snifferserver";
   E 9 230 3 "combox-web-acc";
   E 9 231 3 "madcap";
   E 9 232 3 "btpp2audctr1";
   E 9 233 3 "upgrade";
   E 9 234 3 "vnwk-prapi";
   E 9 235 3 "vsiadmin";
   E 9 236 3 "lonworks";
   E 9 237 3 "lonworks2";
   E 9 238 3 "udrawgraph";
   E 9 239 3 "reftek";
   E 9 240 3 "novell-zen";
   E 9 241 3 "sis-emt";
   E 9 242 3 "vytalvaultbrtp";
   E 9 243 3 "vytalvaultvsmp";
   E 9 244 3 "vytalvaultpipe";
   E 9 245 3 "ipass";
   E 9 246 3 "ads";
   E 9 247 3 "isg-uda-server";
   E 9 248 3 "call-logging";
   E 9 249 3 "efidiningport";
   E 9 250 3 "vcnet-link-v10";
   E 9 251 3 "compaq-wcp";
   E 9 252 3 "nicetec-nmsvc";
   E 9 253 3 "nicetec-mgmt";
   E 9 254 3 "pclemultimedia";
   E 9 255 3 "lstp";
   E 10 0 3 "labrat";
   E 10 1 3 "mosaixcc";
   E 10 2 3 "delibo";
   E 10 3 3 "cti-redwood";
   E 10 4 3 "hp-3000-telnet";
   E 10 5 3 "coord-svr";
   E 10 6 3 "pcs-pcw";
   E 10 7 3 "clp";
   E 10 8 3 "spamtrap";
   E 10 9 3 "sonuscallsig";
   E 10 10 3 "hs-port";
   E 10 11 3 "cecsvc";
   E 10 12 3 "ibp";
   E 10 13 3 "trustestablish";
   E 10 14 3 "blockade-bpsp";
   E 10 15 3 "hl7";
   E 10 16 3 "tclprodebugger";
   E 10 17 3 "scipticslsrvr";
   E 10 18 3 "rvs-isdn-dcp";
   E 10 19 3 "mpfoncl";
   E 10 20 3 "tributary";
   E 10 21 3 "argis-te";
   E 10 22 3 "argis-ds";
   E 10 23 3 "mon";
   E 10 24 3 "cyaserv";
   E 10 25 3 "netx-server";
   E 10 26 3 "netx-agent";
   E 10 27 3 "masc";
   E 10 28 3 "privilege";
   E 10 29 3 "quartus-tcl";
   E 10 30 3 "idotdist";
   E 10 31 3 "maytagshuffle";
   E 10 32 3 "netrek";
   E 10 33 3 "mns-mail";
   E 10 34 3 "dts";
   E 10 35 3 "worldfusion1";
   E 10 36 3 "worldfusion2";
   E 10 37 3 "homesteadglory";
   E 10 38 3 "citriximaclient";
   E 10 39 3 "snapd";
   E 10 40 3 "hpstgmgr";
   E 10 41 3 "discp-client";
   E 10 42 3 "discp-server";
   E 10 43 3 "servicemeter";
   E 10 44 3 "nsc-ccs";
   E 10 45 3 "nsc-posa";
   E 10 46 3 "netmon";
   E 10 47 3 "connection";
   E 10 48 3 "wag-service";
   E 10 49 3 "system-monitor";
   E 10 50 3 "versa-tek";
   E 10 51 3 "lionhead";
   E 10 52 3 "qpasa-agent";
   E 10 53 3 "smntubootstrap";
   E 10 54 3 "neveroffline";
   E 10 55 3 "firepower";
   E 10 56 3 "appswitch-emp";
   E 10 57 3 "cmadmin";
   E 10 58 3 "priority-e-com";
   E 10 59 3 "bruce";
   E 10 60 3 "lpsrecommender";
   E 10 61 3 "miles-apart";
   E 10 62 3 "metricadbc";
   E 10 63 3 "lmdp";
   E 10 64 3 "aria";
   E 10 65 3 "blwnkl-port";
   E 10 66 3 "gbjd816";
   E 10 67 3 "moshebeeri";
   E 10 68 3 "dict";
   E 10 69 3 "sitaraserver";
   E 10 70 3 "sitaramgmt";
   E 10 71 3 "sitaradir";
   E 10 72 3 "irdg-post";
   E 10 73 3 "interintelli";
   E 10 74 3 "pk-electronics";
   E 10 75 3 "backburner";
   E 10 76 3 "solve";
   E 10 77 3 "imdocsvc";
   E 10 78 3 "sybaseanywhere";
   E 10 79 3 "aminet";
   E 10 80 3 "ami-control";
   E 10 81 3 "hdl-srv";
   E 10 82 3 "tragic";
   E 10 83 3 "gte-samp";
   E 10 84 3 "travsoft-ipx-t";
   E 10 85 3 "novell-ipx-cmd";
   E 10 86 3 "and-lm";
   E 10 87 3 "syncserver";
   E 10 88 3 "upsnotifyprot";
   E 10 89 3 "vpsipport";
   E 10 90 3 "eristwoguns";
   E 10 91 3 "ebinsite";
   E 10 92 3 "interpathpanel";
   E 10 93 3 "sonus"].

Definition ports_16 : list entry :=
  [E 10 94 3 "corel-vncadmin";
   E 10 94 3 "corel_vncadmin";
   E 10 95 3 "unglue";
   E 10 96 3 "kana";
   E 10 97 3 "sns-dispatcher";
   E 10 98 3 "sns-admin";
   E 10 99 3 "sns-query";
   E 10 100 3 "gcmonitor";
   E 10 101 3 "olhost";
   E 10 102 3 "bintec-capi";
   E 10 103 3 "bintec-tapi";
   E 10 104 3 "patrol-mq-gm";
   E 10 105 3 "patrol-mq-nm";
   E 10 106 3 "extensis";
   E 10 107 3 "alarm-clock-s";
   E 10 108 3 "alarm-clock-c";
   E 10 109 3 "toad";
   E 10 110 3 "tve-announce";
   E 10 111 3 "newlixreg";
   E 10 112 3 "nhserver";
   E 10 113 3 "firstcall42";
   E 10 114 3 "ewnn";
   E 10 115 3 "ttc-etap";
   E 10 116 3 "simslink";
   E 10 117 3 "gadgetgate1way";
   E 10 118 3 "gadgetgate2way";
   E 10 119 3 "syncserverssl";
   E 10 120 3 "pxc-sapxom";
   E 10 121 3 "mpnjsomb";
   E 10 123 3 "ncdloadbalance";
   E 10 124 3 "mpnjsosv";
   E 10 125 3 "mpnjsocl";
   E 10 126 3 "mpnjsomg";
   E 10 127 3 "pq-lic-mgmt";
   E 10 128 3 "md-cg-http";
   E 10 129 3 "fastlynx";
   E 10 130 3 "hp-nnm-data";
   E 10 131 3 "itinternet";
   E 10 132 3 "admins-lms";
   E 10 134 3 "pwrsevent";
   E 10 135 3 "vspread";
   E 10 136 3 "unifyadmin";
   E 10 137 3 "oce-snmp-trap";
   E 10 138 3 "mck-ivpip";
   E 10 139 3 "csoft-plusclnt";
   E 10 140 3 "tqdata";
   E 10 141 3 "sms-rcinfo";
   E 10 142 3 "sms-xfer";
   E 10 143 3 "sms-chat";
   E 10 144 3 "sms-remctrl";
   E 10 145 3 "sds-admin";
   E 10 146 3 "ncdmirroring";
   E 10 147 3 "emcsymapiport";
   E 10 148 3 "banyan-net";
   E 10 149 3 "supermon";
   E 10 150 3 "sso-service";
   E 10 151 3 "sso-control";
   E 10 152 3 "aocp";
   E 10 153 3 "raventbs";
   E 10 154 3 "raventdm";
   E 10 155 3 "hpstgmgr2";
   E 10 156 3 "inova-ip-disco";
   E 10 157 3 "pn-requester";
   E 10 158 3 "pn-requester2";
   E 10 159 3 "scan-change";
   E 10 160 3 "wkars";
   E 10 161 3 "smart-diagnose";
   E 10 162 3 "proactivesrvr";
   E 10 163 3 "watchdog-nt";
   E 10 164 3 "qotps";
   E 10 165 3 "msolap-ptp2";
   E 10 166 3 "tams";
   E 10 167 3 "mgcp-callagent";
   E 10 168 3 "sqdr";
   E 10 169 3 "tcim-control";
   E 10 170 3 "nec-raidplus";
   E 10 171 3 "fyre-messanger";
   E 10 172 3 "g5m";
   E 10 173 3 "signet-ctf";
   E 10 174 3 "ccs-software";
   E 10 175 3 "netiq-mc";
   E 10 176 3 "radwiz-nms-srv";
   E 10 177 3 "srp-feedback";
   E 10 178 3 "ndl-tcp-ois-gw";
   E 10 179 3 "tn-timing";
   E 10 180 3 "alarm";
   E 10 181 3 "tsb";
   E 10 182 3 "tsb2";
   E 10 183 3 "murx";
   E 10 184 3 "honyaku";
   E 10 185 3 "urbisnet";
   E 10 186 3 "cpudpencap";
   E 10 187 3 "fjippol-swrly";
   E 10 188 3 "fjippol-polsvr";
   E 10 189 3 "fjippol-cnsl";
   E 10 190 3 "fjippol-port1";
   E 10 191 3 "fjippol-port2";
   E 10 192 3 "rsisysaccess";
   E 10 193 3 "de-spot";
   E 10 194 3 "apollo-cc";
   E 10 195 3 "expresspay";
   E 10 196 3 "simplement-tie";
   E 10 197 3 "cnrp";
   E 10 198 3 "apollo-status";
   E 10 199 3 "apollo-gms";
   E 10 200 3 "sabams";
   E 10 201 3 "dicom-iscl";
   E 10 202 3 "dicom-tls";
   E 10 203 3 "desktop-dna";
   E 10 204 3 "data-insurance";
   E 10 205 3 "qip-audup";
   E 10 206 3 "compaq-scp";
   E 10 207 3 "uadtc";
   E 10 208 3 "uacs";
   E 10 209 3 "exce";
   E 10 210 3 "veronica";
   E 10 211 3 "vergencecm";
   E 10 212 3 "auris";
   E 10 213 3 "rbakcup1";
   E 10 214 3 "rbakcup2";
   E 10 215 3 "smpp";
   E 10 216 3 "ridgeway1";
   E 10 217 3 "ridgeway2";
   E 10 218 3 "gwen-sonya";
   E 10 219 3 "lbc-sync";
   E 10 220 3 "lbc-control";
   E 10 221 3 "whosells";
   E 10 222 3 "everydayrc";
   E 10 223 3 "aises";
   E 10 224 3 "www-dev";
   E 10 225 3 "aic-np";
   E 10 226 3 "aic-oncrpc";
   E 10 227 3 "piccolo";
   E 10 228 3 "fryeserv";
   E 10 229 3 "media-agent";
   E 10 230 3 "plgproxy";
   E 10 231 3 "mtport-regist";
   E 10 232 3 "f5-globalsite";
   E 10 233 3 "initlsmsad";
   E 10 235 3 "livestats";
   E 10 236 3 "ac-tech";
   E 10 237 3 "esp-encap";
   E 10 238 3 "tmesis-upshot";
   E 10 239 3 "icon-discover";
   E 10 240 3 "acc-raid";
   E 10 241 3 "igcp";
   E 10 242 1 "veritas-tcp1";
   E 10 242 2 "veritas-udp1";
   E 10 243 3 "btprjctrl";
   E 10 244 3 "dvr-esm"].

Definition ports_17 : list entry :=
  [E 10 245 3 "wta-wsp-s";
   E 10 246 3 "cspuni";
   E 10 247 3 "cspmulti";
   E 10 248 3 "j-lan-p";
   E 10 249 3 "corbaloc";
   E 10 250 3 "netsteward";
   E 10 251 3 "gsiftp";
   E 10 252 3 "atmtcp";
   E 10 253 3 "llm-pass";
   E 10 254 3 "llm-csv";
   E 10 255 3 "lbc-measure";
   E 11 0 3 "lbc-watchdog";
   E 11 1 3 "nmsigport";
   E 11 2 3 "rmlnk";
   E 11 3 3 "fc-faultnotify";
   E 11 4 3 "univision";
   E 11 5 3 "vrts-at-port";
   E 11 6 3 "ka0wuc";
   E 11 7 3 "cqg-netlan";
   E 11 8 3 "cqg-netlan-1";
   E 11 10 3 "slc-systemlog";
   E 11 11 3 "slc-ctrlrloops";
   E 11 12 3 "itm-lm";
   E 11 13 3 "silkp1";
   E 11 14 3 "silkp2";
   E 11 15 3 "silkp3";
   E 11 16 3 "silkp4";
   E 11 17 3 "glishd";
   E 11 18 3 "evtp";
   E 11 19 3 "evtp-data";
   E 11 20 3 "catalyst";
   E 11 21 3 "repliweb";
   E 11 22 3 "starbot";
   E 11 23 3 "nmsigport";
   E 11 24 3 "l3-exprt";
   E 11 25 3 "l3-ranger";
   E 11 26 3 "l3-hawk";
   E 11 27 3 "pdnet";
   E 11 28 3 "bpcp-poll";
   E 11 29 3 "bpcp-trap";
   E 11 30 3 "aimpp-hello";
   E 11 31 3 "aimpp-port-req";
   E 11 32 3 "amt-blc-port";
   E 11 33 3 "fxp";
   E 11 34 3 "metaconsole";
   E 11 35 3 "webemshttp";
   E 11 36 3 "bears-01";
   E 11 37 3 "ispipes";
   E 11 38 3 "infomover";
   E 11 39 1 "msrp";
   E 11 40 3 "cesdinv";
   E 11 41 3 "simctlp";
   E 11 42 3 "ecnp";
   E 11 43 3 "activememory";
   E 11 44 3 "dialpad-voice1";
   E 11 45 3 "dialpad-voice2";
   E 11 46 3 "ttg-protocol";
   E 11 47 3 "sonardata";
   E 11 48 3 "astromed-main";
   E 11 49 3 "pit-vpn";
   E 11 50 3 "iwlistener";
   E 11 51 3 "esps-portal";
   E 11 52 3 "npep-messaging";
   E 11 53 3 "icslap";
   E 11 54 3 "daishi";
   E 11 55 3 "msi-selectplay";
   E 11 56 3 "radix";
   E 11 58 3 "dxmessagebase1";
   E 11 59 3 "dxmessagebase2";
   E 11 60 3 "sps-tunnel";
   E 11 61 3 "bluelance";
   E 11 62 3 "aap";
   E 11 63 3 "ucentric-ds";
   E 11 64 3 "synapse";
   E 11 65 3 "ndsp";
   E 11 66 3 "ndtp";
   E 11 67 3 "ndnp";
   E 11 68 3 "flashmsg";
   E 11 69 3 "topflow";
   E 11 70 3 "responselogic";
   E 11 71 3 "aironetddp";
   E 11 72 3 "spcsdlobby";
   E 11 73 3 "rsom";
   E 11 74 3 "cspclmulti";
   E 11 75 3 "cinegrfx-elmd";
   E 11 76 3 "snifferdata";
   E 11 77 3 "vseconnector";
   E 11 78 3 "abacus-remote";
   E 11 79 3 "natuslink";
   E 11 80 3 "ecovisiong6-1";
   E 11 81 3 "citrix-rtmp";
   E 11 82 3 "appliance-cfg";
   E 11 83 3 "powergemplus";
   E 11 84 3 "quicksuite";
   E 11 85 3 "allstorcns";
   E 11 86 3 "netaspi";
   E 11 87 3 "suitcase";
   E 11 88 7 "m2ua";
   E 11 89 5 "m3ua";
   E 11 90 3 "caller9";
   E 11 91 3 "webmethods-b2b";
   E 11 92 3 "mao";
   E 11 93 3 "funk-dialout";
   E 11 94 3 "tdaccess";
   E 11 95 3 "blockade";
   E 11 96 3 "epicon";
   E 11 97 3 "boosterware";
   E 11 98 3 "gamelobby";
   E 11 99 3 "tksocket";
   E 11 100 3 "elvin-server";
   E 11 100 3 "elvin_server";
   E 11 101 3 "elvin-client";
   E 11 101 3 "elvin_client";
   E 11 102 3 "kastenchasepad";
   E 11 103 3 "roboer";
   E 11 104 3 "roboeda";
   E 11 105 3 "cesdcdman";
   E 11 106 3 "cesdcdtrn";
   E 11 107 3 "wta-wsp-wtp-s";
   E 11 108 3 "precise-vip";
   E 11 110 3 "mobile-file-dl";
   E 11 111 3 "unimobilectrl";
   E 11 112 3 "redstone-cpss";
   E 11 113 3 "amx-webadmin";
   E 11 114 3 "amx-weblinx";
   E 11 115 3 "circle-x";
   E 11 116 3 "incp";
   E 11 117 3 "4-tieropmgw";
   E 11 118 3 "4-tieropmcli";
   E 11 119 3 "qtp";
   E 11 120 3 "otpatch";
   E 11 121 3 "pnaconsult-lm";
   E 11 122 3 "sm-pas-1";
   E 11 123 3 "sm-pas-2";
   E 11 124 3 "sm-pas-3";
   E 11 125 3 "sm-pas-4";
   E 11 126 3 "sm-pas-5";
   E 11 127 3 "ttnrepository";
   E 11 128 7 "megaco-h248";
   E 11 129 7 "h248-binary";
   E 11 130 3 "fjsvmpor";
   E 11 131 3 "gpsd";
   E 11 132 3 "wap-push";
   E 11 133 3 "wap-pushsecure";
   E 11 134 3 "esip";
   E 11 135 3 "ottp";
   E 11 136 3 "mpfwsas";
   E 11 137 3 "ovalarmsrv";
   E 11 138 3 "ovalarmsrv-cmd";
   E 11 139 3 "csnotify"].

Definition ports_18 : list entry :=
  [E 11 140 3 "ovrimosdbman";
   E 11 141 3 "jmact5";
   E 11 142 3 "jmact6";
   E 11 143 3 "rmopagt";
   E 11 144 3 "dfoxserver";
   E 11 145 3 "boldsoft-lm";
   E 11 146 3 "iph-policy-cli";
   E 11 147 3 "iph-policy-adm";
   E 11 148 3 "bullant-srap";
   E 11 149 3 "bullant-rap";
   E 11 150 3 "idp-infotrieve";
   E 11 151 3 "ssc-agent";
   E 11 152 3 "enpp";
   E 11 153 3 "essp";
   E 11 154 3 "index-net";
   E 11 155 3 "netclip";
   E 11 156 3 "pmsm-webrctl";
   E 11 157 3 "svnetworks";
   E 11 158 3 "signal";
   E 11 159 3 "fjmpcm";
   E 11 160 3 "cns-srv-port";
   E 11 161 3 "ttc-etap-ns";
   E 11 162 3 "ttc-etap-ds";
   E 11 163 3 "h263-video";
   E 11 164 3 "wimd";
   E 11 165 3 "mylxamport";
   E 11 166 3 "iwb-whiteboard";
   E 11 167 3 "netplan";
   E 11 168 3 "hpidsadmin";
   E 11 169 3 "hpidsagent";
   E 11 170 3 "stonefalls";
   E 11 171 3 "identify";
   E 11 172 3 "hippad";
   E 11 173 3 "zarkov";
   E 11 174 3 "boscap";
   E 11 175 3 "wkstn-mon";
   E 11 176 3 "avenyo";
   E 11 177 3 "veritas-vis1";
   E 11 178 3 "veritas-vis2";
   E 11 179 3 "idrs";
   E 11 180 3 "vsixml";
   E 11 181 3 "rebol";
   E 11 182 3 "realsecure";
   E 11 183 3 "remoteware-un";
   E 11 184 3 "hbci";
   E 11 184 3 "remoteware-cl";
   E 11 185 1 "origo-native";
   E 11 186 3 "exlm-agent";
   E 11 186 3 "remoteware-srv";
   E 11 187 3 "cgms";
   E 11 188 3 "csoftragent";
   E 11 189 3 "geniuslm";
   E 11 190 3 "ii-admin";
   E 11 191 3 "lotusmtap";
   E 11 192 3 "midnight-tech";
   E 11 193 3 "pxc-ntfy";
   E 11 194 1 "gw";
   E 11 194 2 "ping-pong";
   E 11 195 3 "trusted-web";
   E 11 196 3 "twsdss";
   E 11 197 3 "gilatskysurfer";
   E 11 198 3 "broker-service";
   E 11 198 3 "broker_service";
   E 11 199 3 "nati-dstp";
   E 11 200 3 "notify-srvr";
   E 11 200 3 "notify_srvr";
   E 11 201 3 "event-listener";
   E 11 201 3 "event_listener";
   E 11 202 3 "srvc-registry";
   E 11 202 3 "srvc_registry";
   E 11 203 3 "resource-mgr";
   E 11 203 3 "resource_mgr";
   E 11 204 3 "cifs";
   E 11 205 3 "agriserver";
   E 11 206 3 "csregagent";
   E 11 207 3 "magicnotes";
   E 11 208 3 "nds-sso";
   E 11 208 3 "nds_sso";
   E 11 209 3 "arepa-raft";
   E 11 210 3 "agri-gateway";
   E 11 211 3 "LiebDevMgmt-C";
   E 11 211 3 "LiebDevMgmt_C";
   E 11 212 3 "LiebDevMgmt-DM";
   E 11 212 3 "LiebDevMgmt_DM";
   E 11 213 3 "LiebDevMgmt-A";
   E 11 213 3 "LiebDevMgmt_A";
   E 11 214 3 "arepa-cas";
   E 11 215 3 "eppc";
   E 11 216 3 "redwood-chat";
   E 11 217 3 "pdb";
   E 11 218 3 "osmosis-aeea";
   E 11 219 3 "fjsv-gssagt";
   E 11 220 3 "hagel-dump";
   E 11 221 3 "hp-san-mgmt";
   E 11 222 3 "santak-ups";
   E 11 223 3 "cogitate";
   E 11 224 3 "tomato-springs";
   E 11 225 3 "di-traceware";
   E 11 226 3 "journee";
   E 11 227 3 "brp";
   E 11 228 3 "epp";
   E 11 229 3 "responsenet";
   E 11 230 3 "di-ase";
   E 11 231 3 "hlserver";
   E 11 232 3 "pctrader";
   E 11 233 3 "nsws";
   E 11 234 3 "gds-db";
   E 11 234 3 "gds_db";
   E 11 235 3 "galaxy-server";
   E 11 236 3 "apc-3052";
   E 11 237 3 "dsom-server";
   E 11 238 3 "amt-cnf-prot";
   E 11 239 3 "policyserver";
   E 11 240 3 "cdl-server";
   E 11 241 3 "goahead-fldup";
   E 11 242 3 "videobeans";
   E 11 243 3 "qsoft";
   E 11 244 3 "interserver";
   E 11 245 3 "cautcpd";
   E 11 246 3 "ncacn-ip-tcp";
   E 11 247 3 "ncadg-ip-udp";
   E 11 248 3 "rprt";
   E 11 249 3 "slinterbase";
   E 11 250 3 "netattachsdmp";
   E 11 251 3 "fjhpjp";
   E 11 252 3 "ls3bcast";
   E 11 253 3 "ls3";
   E 11 254 3 "mgxswitch";
   E 11 255 3 "csd-mgmt-port";
   E 12 0 3 "csd-monitor";
   E 12 1 3 "vcrp";
   E 12 2 3 "xbox";
   E 12 3 3 "orbix-locator";
   E 12 4 3 "orbix-config";
   E 12 5 3 "orbix-loc-ssl";
   E 12 6 3 "orbix-cfg-ssl";
   E 12 7 3 "lv-frontpanel";
   E 12 8 3 "stm-pproc";
   E 12 8 3 "stm_pproc";
   E 12 9 3 "tl1-lv";
   E 12 10 3 "tl1-raw";
   E 12 11 3 "tl1-telnet";
   E 12 12 3 "itm-mccs";
   E 12 13 3 "pcihreq";
   E 12 14 3 "jdl-dbkitchen";
   E 12 15 3 "asoki-sma";
   E 12 16 3 "xdtp";
   E 12 17 3 "ptk-alink";
   E 12 18 3 "stss";
   E 12 19 3 "1ci-smcs"].

Definition ports_19 : list entry :=
  [E 12 21 3 "rapidmq-center";
   E 12 22 3 "rapidmq-reg";
   E 12 23 3 "panasas";
   E 12 24 3 "ndl-aps";
   E 12 25 4 "itu-bicc-stc";
   E 12 26 3 "umm-port";
   E 12 27 3 "chmd";
   E 12 28 3 "opcon-xps";
   E 12 29 3 "hp-pxpib";
   E 12 30 3 "slslavemon";
   E 12 31 3 "autocuesmi";
   E 12 32 1 "autocuelog";
   E 12 32 2 "autocuetime";
   E 12 33 3 "cardbox";
   E 12 34 3 "cardbox-http";
   E 12 35 3 "business";
   E 12 36 3 "geolocate";
   E 12 37 3 "personnel";
   E 12 38 3 "sim-control";
   E 12 39 3 "wsynch";
   E 12 40 3 "ksysguard";
   E 12 41 3 "cs-auth-svr";
   E 12 42 3 "ccmad";
   E 12 43 3 "mctet-master";
   E 12 44 3 "mctet-gateway";
   E 12 45 3 "mctet-jserv";
   E 12 46 3 "pkagent";
   E 12 47 3 "d2000kernel";
   E 12 48 3 "d2000webserver";
   E 12 49 1 "pcmk-remote";
   E 12 50 3 "vtr-emulator";
   E 12 51 3 "edix";
   E 12 52 3 "beacon-port";
   E 12 53 3 "a13-an";
   E 12 55 3 "ctx-bridge";
   E 12 56 3 "ndl-aas";
   E 12 57 3 "netport-id";
   E 12 58 3 "icpv2";
   E 12 59 3 "netbookmark";
   E 12 60 3 "ms-rule-engine";
   E 12 61 3 "prism-deploy";
   E 12 62 3 "ecp";
   E 12 63 3 "peerbook-port";
   E 12 64 3 "grubd";
   E 12 65 3 "rtnt-1";
   E 12 66 3 "rtnt-2";
   E 12 67 3 "incognitorv";
   E 12 68 3 "ariliamulti";
   E 12 69 3 "vmodem";
   E 12 70 3 "rdc-wh-eos";
   E 12 71 3 "seaview";
   E 12 72 3 "tarantella";
   E 12 73 3 "csi-lfap";
   E 12 74 3 "bears-02";
   E 12 75 3 "rfio";
   E 12 76 3 "nm-game-admin";
   E 12 77 3 "nm-game-server";
   E 12 78 3 "nm-asses-admin";
   E 12 79 3 "nm-assessor";
   E 12 80 3 "feitianrockey";
   E 12 81 3 "s8-client-port";
   E 12 82 3 "ccmrmi";
   E 12 83 3 "jpegmpeg";
   E 12 84 3 "indura";
   E 12 85 3 "e3consultants";
   E 12 86 3 "stvp";
   E 12 87 3 "navegaweb-port";
   E 12 88 3 "tip-app-server";
   E 12 89 3 "doc1lm";
   E 12 90 3 "sflm";
   E 12 91 3 "res-sap";
   E 12 92 3 "imprs";
   E 12 93 3 "newgenpay";
   E 12 94 3 "sossecollector";
   E 12 95 3 "nowcontact";
   E 12 96 3 "poweronnud";
   E 12 97 3 "serverview-as";
   E 12 98 3 "serverview-asn";
   E 12 99 3 "serverview-gf";
   E 12 100 3 "serverview-rm";
   E 12 101 3 "serverview-icc";
   E 12 102 3 "armi-server";
   E 12 103 3 "t1-e1-over-ip";
   E 12 104 3 "ars-master";
   E 12 105 3 "phonex-port";
   E 12 106 3 "radclientport";
   E 12 107 3 "h2gf-w-2m";
   E 12 108 3 "mc-brk-srv";
   E 12 109 3 "bmcpatrolagent";
   E 12 110 3 "bmcpatrolrnvu";
   E 12 111 3 "cops-tls";
   E 12 112 3 "apogeex-port";
   E 12 113 3 "smpppd";
   E 12 114 3 "iiw-port";
   E 12 115 3 "odi-port";
   E 12 116 3 "brcm-comm-port";
   E 12 117 3 "pcle-infex";
   E 12 118 3 "csvr-proxy";
   E 12 119 3 "csvr-sslproxy";
   E 12 120 3 "firemonrcc";
   E 12 121 3 "spandataport";
   E 12 122 3 "magbind";
   E 12 123 3 "ncu-1";
   E 12 124 3 "ncu-2";
   E 12 125 3 "embrace-dp-s";
   E 12 126 3 "embrace-dp-c";
   E 12 127 3 "dmod-workspace";
   E 12 128 3 "tick-port";
   E 12 129 3 "cpq-tasksmart";
   E 12 130 3 "intraintra";
   E 12 131 3 "netwatcher-mon";
   E 12 132 3 "netwatcher-db";
   E 12 133 3 "isns";
   E 12 134 3 "ironmail";
   E 12 135 3 "vx-auth-port";
   E 12 136 3 "pfu-prcallback";
   E 12 137 3 "netwkpathengine";
   E 12 138 3 "flamenco-proxy";
   E 12 139 3 "avsecuremgmt";
   E 12 140 3 "surveyinst";
   E 12 141 3 "neon24x7";
   E 12 142 3 "jmq-daemon-1";
   E 12 143 3 "jmq-daemon-2";
   E 12 144 3 "ferrari-foam";
   E 12 145 3 "unite";
   E 12 146 3 "smartpackets";
   E 12 147 3 "wms-messenger";
   E 12 148 3 "xnm-ssl";
   E 12 149 3 "xnm-clear-text";
   E 12 150 3 "glbp";
   E 12 151 3 "digivote";
   E 12 152 3 "aes-discovery";
   E 12 153 3 "fcip-port";
   E 12 154 3 "isi-irp";
   E 12 155 3 "dwnmshttp";
   E 12 156 3 "dwmsgserver";
   E 12 157 3 "global-cd-port";
   E 12 158 3 "sftdst-port";
   E 12 159 3 "vidigo";
   E 12 160 3 "mdtp";
   E 12 161 3 "whisker";
   E 12 162 3 "alchemy";
   E 12 163 3 "mdap-port";
   E 12 164 3 "apparenet-ts";
   E 12 165 3 "apparenet-tps";
   E 12 166 3 "apparenet-as";
   E 12 167 3 "apparenet-ui";
   E 12 168 3 "triomotion";
   E 12 169 3 "sysorb";
   E 12 170 3 "sdp-id-port"].

Definition ports_20 : list entry :=
  [E 12 171 3 "timelot";
   E 12 172 3 "onesaf";
   E 12 173 3 "vieo-fe";
   E 12 174 3 "dvt-system";
   E 12 175 3 "dvt-data";
   E 12 176 3 "procos-lm";
   E 12 177 3 "ssp";
   E 12 178 3 "hicp";
   E 12 179 3 "sysscanner";
   E 12 180 3 "dhe";
   E 12 181 3 "pda-data";
   E 12 182 3 "pda-sys";
   E 12 183 3 "semaphore";
   E 12 184 3 "cpqrpm-agent";
   E 12 185 3 "cpqrpm-server";
   E 12 186 3 "ivecon-port";
   E 12 187 3 "epncdp2";
   E 12 188 3 "iscsi-target";
   E 12 189 3 "winshadow";
   E 12 190 3 "necp";
   E 12 191 3 "ecolor-imager";
   E 12 192 3 "ccmail";
   E 12 193 3 "altav-tunnel";
   E 12 194 3 "ns-cfg-server";
   E 12 195 3 "ibm-dial-out";
   E 12 196 3 "msft-gc";
   E 12 197 3 "msft-gc-ssl";
   E 12 198 3 "verismart";
   E 12 199 3 "csoft-prev";
   E 12 200 3 "user-manager";
   E 12 201 3 "sxmp";
   E 12 202 3 "ordinox-server";
   E 12 203 3 "samd";
   E 12 204 3 "maxim-asics";
   E 12 205 3 "awg-proxy";
   E 12 206 3 "lkcmserver";
   E 12 207 3 "admind";
   E 12 208 3 "vs-server";
   E 12 209 3 "sysopt";
   E 12 210 3 "datusorb";
   E 12 211 3 "Apple Remote Desktop (Net Assistant)";
   E 12 212 3 "4talk";
   E 12 213 3 "plato";
   E 12 214 3 "e-net";
   E 12 215 3 "directvdata";
   E 12 216 3 "cops";
   E 12 217 3 "enpc";
   E 12 218 3 "caps-lm";
   E 12 219 3 "sah-lm";
   E 12 220 3 "cart-o-rama";
   E 12 221 3 "fg-fps";
   E 12 222 3 "fg-gip";
   E 12 223 3 "dyniplookup";
   E 12 224 3 "rib-slm";
   E 12 225 3 "cytel-lm";
   E 12 226 3 "deskview";
   E 12 227 3 "pdrncs";
   E 12 228 1 "ceph";
   E 12 230 3 "mcs-fastmail";
   E 12 231 3 "opsession-clnt";
   E 12 232 3 "opsession-srvr";
   E 12 233 3 "odette-ftp";
   E 12 234 3 "mysql";
   E 12 235 3 "opsession-prxy";
   E 12 236 3 "tns-server";
   E 12 237 3 "tns-adv";
   E 12 238 3 "dyna-access";
   E 12 239 3 "mcns-tel-ret";
   E 12 240 3 "appman-server";
   E 12 241 3 "uorb";
   E 12 242 3 "uohost";
   E 12 243 3 "cdid";
   E 12 244 3 "aicc-cmi";
   E 12 245 3 "vsaiport";
   E 12 246 3 "ssrip";
   E 12 247 3 "sdt-lmd";
   E 12 248 3 "officelink2000";
   E 12 249 3 "vnsstr";
   E 12 254 3 "sftu";
   E 12 255 3 "bbars";
   E 13 0 3 "egptlm";
   E 13 1 3 "hp-device-disc";
   E 13 2 3 "mcs-calypsoicf";
   E 13 3 3 "mcs-messaging";
   E 13 4 3 "mcs-mailsvr";
   E 13 5 3 "dec-notes";
   E 13 6 3 "directv-web";
   E 13 7 3 "directv-soft";
   E 13 8 3 "directv-tick";
   E 13 9 3 "directv-catlg";
   E 13 10 3 "anet-b";
   E 13 11 3 "anet-l";
   E 13 12 3 "anet-m";
   E 13 13 3 "anet-h";
   E 13 14 3 "webtie";
   E 13 15 3 "ms-cluster-net";
   E 13 16 3 "bnt-manager";
   E 13 17 3 "influence";
   E 13 18 3 "trnsprntproxy";
   E 13 19 3 "phoenix-rpc";
   E 13 20 3 "pangolin-laser";
   E 13 21 3 "chevinservices";
   E 13 22 3 "findviatv";
   E 13 23 3 "btrieve";
   E 13 24 3 "ssql";
   E 13 25 3 "fatpipe";
   E 13 26 3 "suitjd";
   E 13 27 3 "ordinox-dbase";
   E 13 28 3 "upnotifyps";
   E 13 29 3 "adtech-test";
   E 13 30 3 "mpsysrmsvr";
   E 13 31 3 "wg-netforce";
   E 13 32 3 "kv-server";
   E 13 33 3 "kv-agent";
   E 13 34 3 "dj-ilm";
   E 13 35 3 "nati-vi-server";
   E 13 36 3 "creativeserver";
   E 13 37 3 "contentserver";
   E 13 38 3 "creativepartnr";
   E 13 44 3 "tip2";
   E 13 45 3 "lavenir-lm";
   E 13 46 3 "cluster-disc";
   E 13 47 3 "vsnm-agent";
   E 13 48 3 "cdbroker";
   E 13 49 3 "cogsys-lm";
   E 13 50 3 "wsicopy";
   E 13 51 3 "socorfs";
   E 13 52 3 "sns-channels";
   E 13 53 3 "geneous";
   E 13 54 3 "fujitsu-neat";
   E 13 55 3 "esp-lm";
   E 13 56 3 "hp-clic";
   E 13 57 3 "qnxnetman";
   E 13 58 1 "gprs-data";
   E 13 58 2 "gprs-sig";
   E 13 59 3 "backroomnet";
   E 13 60 3 "cbserver";
   E 13 61 3 "ms-wbt-server";
   E 13 62 3 "dsc";
   E 13 63 3 "savant";
   E 13 64 3 "efi-lm";
   E 13 65 3 "d2k-tapestry1";
   E 13 66 3 "d2k-tapestry2";
   E 13 67 3 "dyna-lm";
   E 13 68 3 "printer-agent";
   E 13 68 3 "printer_agent";
   E 13 69 3 "cloanto-lm";
   E 13 70 3 "mercantile";
   E 13 71 3 "csms";
   E 13 72 3 "csms2"].

Definition ports_21 : list entry :=
  [E 13 73 3 "filecast";
   E 13 74 3 "fxaengine-net";
   E 13 77 3 "nokia-ann-ch1";
   E 13 78 3 "nokia-ann-ch2";
   E 13 79 3 "ldap-admin";
   E 13 80 3 "BESApi";
   E 13 81 3 "networklens";
   E 13 82 3 "networklenss";
   E 13 83 3 "biolink-auth";
   E 13 84 3 "xmlblaster";
   E 13 85 3 "svnet";
   E 13 86 3 "wip-port";
   E 13 87 3 "bcinameservice";
   E 13 88 3 "commandport";
   E 13 89 3 "csvr";
   E 13 90 3 "rnmap";
   E 13 91 3 "softaudit";
   E 13 92 3 "ifcp-port";
   E 13 93 3 "bmap";
   E 13 94 3 "rusb-sys-port";
   E 13 95 3 "xtrm";
   E 13 96 3 "xtrms";
   E 13 97 3 "agps-port";
   E 13 98 3 "arkivio";
   E 13 99 3 "websphere-snmp";
   E 13 100 3 "twcss";
   E 13 101 3 "gcsp";
   E 13 102 3 "ssdispatch";
   E 13 103 3 "ndl-als";
   E 13 104 3 "osdcp";
   E 13 105 3 "opnet-smp";
   E 13 106 3 "opencm";
   E 13 107 3 "pacom";
   E 13 108 3 "gc-config";
   E 13 109 3 "autocueds";
   E 13 110 3 "spiral-admin";
   E 13 111 3 "hri-port";
   E 13 112 3 "ans-console";
   E 13 113 3 "connect-client";
   E 13 114 3 "connect-server";
   E 13 115 3 "ov-nnm-websrv";
   E 13 116 3 "denali-server";
   E 13 117 3 "monp";
   E 13 118 3 "3comfaxrpc";
   E 13 119 3 "directnet";
   E 13 120 3 "dnc-port";
   E 13 121 3 "hotu-chat";
   E 13 122 3 "castorproxy";
   E 13 123 3 "asam";
   E 13 124 3 "sabp-signal";
   E 13 125 3 "pscupd";
   E 13 126 3 "mira";
   E 13 127 3 "prsvp";
   E 13 128 3 "vat";
   E 13 129 3 "vat-control";
   E 13 130 3 "d3winosfi";
   E 13 131 3 "integral";
   E 13 132 3 "edm-manager";
   E 13 133 3 "edm-stager";
   E 13 134 3 "edm-std-notify";
   E 13 135 3 "edm-adm-notify";
   E 13 136 3 "edm-mgr-sync";
   E 13 137 3 "edm-mgr-cntrl";
   E 13 138 3 "workflow";
   E 13 139 3 "rcst";
   E 13 140 3 "ttcmremotectrl";
   E 13 141 3 "pluribus";
   E 13 142 3 "jt400";
   E 13 143 3 "jt400-ssl";
   E 13 144 3 "jaugsremotec-1";
   E 13 145 3 "jaugsremotec-2";
   E 13 146 3 "ttntspauto";
   E 13 147 3 "genisar-port";
   E 13 148 3 "nppmp";
   E 13 149 3 "ecomm";
   E 13 150 3 "stun";
   E 13 150 3 "turn";
   E 13 150 3 "stun-behavior";
   E 13 151 3 "twrpc";
   E 13 152 3 "plethora";
   E 13 153 3 "cleanerliverc";
   E 13 154 3 "vulture";
   E 13 155 3 "slim-devices";
   E 13 156 3 "gbs-stp";
   E 13 157 3 "celatalk";
   E 13 158 3 "ifsf-hb-port";
   E 13 159 1 "ltctcp";
   E 13 159 2 "ltcudp";
   E 13 160 3 "fs-rh-srv";
   E 13 161 3 "dtp-dia";
   E 13 162 3 "colubris";
   E 13 163 3 "swr-port";
   E 13 164 3 "tvdumtray-port";
   E 13 165 3 "nut";
   E 13 166 3 "ibm3494";
   E 13 167 3 "seclayer-tcp";
   E 13 168 3 "seclayer-tls";
   E 13 169 3 "ipether232port";
   E 13 170 3 "dashpas-port";
   E 13 171 3 "sccip-media";
   E 13 172 3 "rtmp-port";
   E 13 173 3 "isoft-p2p";
   E 13 174 3 "avinstalldisc";
   E 13 175 3 "lsp-ping";
   E 13 176 3 "ironstorm";
   E 13 177 3 "ccmcomm";
   E 13 178 3 "apc-3506";
   E 13 179 3 "nesh-broker";
   E 13 180 3 "interactionweb";
   E 13 181 3 "vt-ssl";
   E 13 182 3 "xss-port";
   E 13 183 3 "webmail-2";
   E 13 184 3 "aztec";
   E 13 185 3 "arcpd";
   E 13 186 3 "must-p2p";
   E 13 187 3 "must-backplane";
   E 13 188 3 "smartcard-port";
   E 13 189 3 "802-11-iapp";
   E 13 190 3 "artifact-msg";
   E 13 191 1 "nvmsgd";
   E 13 191 2 "galileo";
   E 13 192 3 "galileolog";
   E 13 193 3 "mc3ss";
   E 13 194 3 "nssocketport";
   E 13 195 3 "odeumservlink";
   E 13 196 3 "ecmport";
   E 13 197 3 "eisport";
   E 13 198 3 "starquiz-port";
   E 13 199 3 "beserver-msg-q";
   E 13 200 3 "jboss-iiop";
   E 13 201 3 "jboss-iiop-ssl";
   E 13 202 3 "gf";
   E 13 203 3 "joltid";
   E 13 204 3 "raven-rmp";
   E 13 205 3 "raven-rdp";
   E 13 206 3 "urld-port";
   E 13 207 3 "ms-la";
   E 13 208 3 "snac";
   E 13 209 3 "ni-visa-remote";
   E 13 210 3 "ibm-diradm";
   E 13 211 3 "ibm-diradm-ssl";
   E 13 212 3 "pnrp-port";
   E 13 213 3 "voispeed-port";
   E 13 214 3 "hacl-monitor";
   E 13 215 3 "qftest-lookup";
   E 13 216 3 "teredo";
   E 13 217 3 "camac";
   E 13 219 3 "symantec-sim";
   E 13 220 3 "interworld";
   E 13 221 3 "tellumat-nms"].

Definition ports_22 : list entry :=
  [E 13 222 3 "ssmpp";
   E 13 223 3 "apcupsd";
   E 13 224 3 "taserver";
   E 13 225 3 "rbr-discovery";
   E 13 226 3 "questnotify";
   E 13 227 3 "razor";
   E 13 228 3 "sky-transport";
   E 13 229 3 "personalos-001";
   E 13 230 3 "mcp-port";
   E 13 231 3 "cctv-port";
   E 13 232 3 "iniserve-port";
   E 13 233 3 "bmc-onekey";
   E 13 234 3 "sdbproxy";
   E 13 235 3 "watcomdebug";
   E 13 236 3 "esimport";
   E 13 237 5 "m2pa";
   E 13 238 1 "quest-data-hub";
   E 13 239 3 "dof-eps";
   E 13 240 3 "dof-tunnel-sec";
   E 13 241 3 "mbg-ctrl";
   E 13 242 3 "mccwebsvr-port";
   E 13 243 3 "megardsvr-port";
   E 13 244 3 "megaregsvrport";
   E 13 245 3 "tag-ups-1";
   E 13 246 1 "dmaf-server";
   E 13 246 2 "dmaf-caster";
   E 13 247 3 "ccm-port";
   E 13 248 3 "cmc-port";
   E 13 249 3 "config-port";
   E 13 250 3 "data-port";
   E 13 251 3 "ttat3lb";
   E 13 252 3 "nati-svrloc";
   E 13 253 3 "kfxaclicensing";
   E 13 254 3 "press";
   E 13 255 3 "canex-watch";
   E 14 0 3 "u-dbap";
   E 14 1 3 "emprise-lls";
   E 14 2 3 "emprise-lsc";
   E 14 3 3 "p2pgroup";
   E 14 4 3 "sentinel";
   E 14 5 3 "isomair";
   E 14 6 3 "wv-csp-sms";
   E 14 7 3 "gtrack-server";
   E 14 8 3 "gtrack-ne";
   E 14 9 3 "bpmd";
   E 14 10 3 "mediaspace";
   E 14 11 3 "shareapp";
   E 14 12 3 "iw-mmogame";
   E 14 13 3 "a14";
   E 14 14 3 "a15";
   E 14 15 3 "quasar-server";
   E 14 16 3 "trap-daemon";
   E 14 17 3 "visinet-gui";
   E 14 18 3 "infiniswitchcl";
   E 14 19 3 "int-rcv-cntrl";
   E 14 20 3 "bmc-jmx-port";
   E 14 21 3 "comcam-io";
   E 14 22 3 "splitlock";
   E 14 23 3 "precise-i3";
   E 14 24 3 "trendchip-dcp";
   E 14 25 3 "cpdi-pidas-cm";
   E 14 26 3 "echonet";
   E 14 27 3 "six-degrees";
   E 14 28 3 "hp-dataprotect";
   E 14 29 3 "alaris-disc";
   E 14 30 3 "sigma-port";
   E 14 31 3 "start-network";
   E 14 32 3 "cd3o-protocol";
   E 14 33 3 "sharp-server";
   E 14 34 3 "aairnet-1";
   E 14 35 3 "aairnet-2";
   E 14 36 3 "ep-pcp";
   E 14 37 3 "ep-nsp";
   E 14 38 3 "ff-lr-port";
   E 14 39 3 "haipe-discover";
   E 14 40 3 "dist-upgrade";
   E 14 41 3 "volley";
   E 14 42 3 "bvcdaemon-port";
   E 14 43 3 "jamserverport";
   E 14 44 3 "ept-machine";
   E 14 45 3 "escvpnet";
   E 14 46 3 "cs-remote-db";
   E 14 47 3 "cs-services";
   E 14 48 3 "distcc";
   E 14 49 3 "wacp";
   E 14 50 3 "hlibmgr";
   E 14 51 3 "sdo";
   E 14 52 3 "servistaitsm";
   E 14 53 3 "scservp";
   E 14 54 3 "ehp-backup";
   E 14 55 3 "xap-ha";
   E 14 56 3 "netplay-port1";
   E 14 57 3 "netplay-port2";
   E 14 58 3 "juxml-port";
   E 14 59 3 "audiojuggler";
   E 14 60 3 "ssowatch";
   E 14 61 3 "cyc";
   E 14 62 3 "xss-srv-port";
   E 14 63 3 "splitlock-gw";
   E 14 64 3 "fjcp";
   E 14 65 3 "nmmp";
   E 14 66 3 "prismiq-plugin";
   E 14 67 3 "xrpc-registry";
   E 14 68 3 "vxcrnbuport";
   E 14 69 3 "tsp";
   E 14 70 3 "vaprtm";
   E 14 71 3 "abatemgr";
   E 14 72 3 "abatjss";
   E 14 73 3 "immedianet-bcn";
   E 14 74 3 "ps-ams";
   E 14 75 3 "apple-sasl";
   E 14 76 3 "can-nds-ssl";
   E 14 77 3 "can-ferret-ssl";
   E 14 78 3 "pserver";
   E 14 79 3 "dtp";
   E 14 80 3 "ups-engine";
   E 14 81 3 "ent-engine";
   E 14 82 3 "eserver-pap";
   E 14 83 3 "infoexch";
   E 14 84 3 "dell-rm-port";
   E 14 85 3 "casanswmgmt";
   E 14 86 3 "smile";
   E 14 87 3 "efcp";
   E 14 88 3 "lispworks-orb";
   E 14 89 3 "mediavault-gui";
   E 14 90 3 "wininstall-ipc";
   E 14 91 3 "calltrax";
   E 14 92 3 "va-pacbase";
   E 14 93 3 "roverlog";
   E 14 94 3 "ipr-dglt";
   E 14 95 3 "Escale (Newton Dock)";
   E 14 96 3 "npds-tracker";
   E 14 97 3 "bts-x73";
   E 14 98 3 "cas-mapi";
   E 14 99 3 "bmc-ea";
   E 14 100 3 "faxstfx-port";
   E 14 101 3 "dsx-agent";
   E 14 102 3 "tnmpv2";
   E 14 103 3 "simple-push";
   E 14 104 3 "simple-push-s";
   E 14 105 3 "daap";
   E 14 106 3 "svn";
   E 14 107 3 "magaya-network";
   E 14 108 3 "intelsync";
   E 14 109 1 "easl";
   E 14 111 3 "bmc-data-coll";
   E 14 112 3 "telnetcpcd";
   E 14 113 3 "nw-license";
   E 14 114 3 "sagectlpanel";
   E 14 115 3 "kpn-icw"].

Definition ports_23 : list entry :=
  [E 14 116 3 "lrs-paging";
   E 14 117 3 "netcelera";
   E 14 118 3 "ws-discovery";
   E 14 119 3 "adobeserver-3";
   E 14 120 3 "adobeserver-4";
   E 14 121 3 "adobeserver-5";
   E 14 122 3 "rt-event";
   E 14 123 3 "rt-event-s";
   E 14 124 3 "sun-as-iiops";
   E 14 125 3 "ca-idms";
   E 14 126 3 "portgate-auth";
   E 14 127 3 "edb-server2";
   E 14 128 3 "sentinel-ent";
   E 14 129 3 "tftps";
   E 14 130 3 "delos-dms";
   E 14 131 3 "anoto-rendezv";
   E 14 132 3 "wv-csp-sms-cir";
   E 14 133 3 "wv-csp-udp-cir";
   E 14 134 3 "opus-services";
   E 14 135 3 "itelserverport";
   E 14 136 3 "ufastro-instr";
   E 14 137 3 "xsync";
   E 14 138 3 "xserveraid";
   E 14 139 3 "sychrond";
   E 14 140 3 "blizwow";
   E 14 141 3 "na-er-tip";
   E 14 142 3 "array-manager";
   E 14 143 3 "e-mdu";
   E 14 144 3 "e-woa";
   E 14 145 3 "fksp-audit";
   E 14 146 3 "client-ctrl";
   E 14 147 3 "smap";
   E 14 148 3 "m-wnn";
   E 14 149 3 "multip-msg";
   E 14 150 3 "synel-data";
   E 14 151 3 "pwdis";
   E 14 152 3 "rs-rmi";
   E 14 153 1 "xpanel";
   E 14 154 3 "versatalk";
   E 14 155 3 "launchbird-lm";
   E 14 156 3 "heartbeat";
   E 14 157 3 "wysdma";
   E 14 158 3 "cst-port";
   E 14 159 3 "ipcs-command";
   E 14 160 3 "sasg";
   E 14 161 3 "gw-call-port";
   E 14 162 3 "linktest";
   E 14 163 3 "linktest-s";
   E 14 164 3 "webdata";
   E 14 165 3 "cimtrak";
   E 14 166 3 "cbos-ip-port";
   E 14 167 3 "gprs-cube";
   E 14 168 3 "vipremoteagent";
   E 14 169 3 "nattyserver";
   E 14 170 3 "timestenbroker";
   E 14 171 3 "sas-remote-hlp";
   E 14 172 3 "canon-capt";
   E 14 173 3 "grf-port";
   E 14 174 3 "apw-registry";
   E 14 175 3 "exapt-lmgr";
   E 14 176 3 "adtempusclient";
   E 14 177 3 "gsakmp";
   E 14 178 3 "gbs-smp";
   E 14 179 3 "xo-wave";
   E 14 180 3 "mni-prot-rout";
   E 14 181 3 "rtraceroute";
   E 14 182 1 "sitewatch-s";
   E 14 183 3 "listmgr-port";
   E 14 184 3 "rblcheckd";
   E 14 185 3 "haipe-otnk";
   E 14 186 3 "cindycollab";
   E 14 187 3 "paging-port";
   E 14 188 3 "ctp";
   E 14 189 3 "ctdhercules";
   E 14 190 3 "zicom";
   E 14 191 3 "ispmmgr";
   E 14 192 3 "dvcprov-port";
   E 14 193 3 "jibe-eb";
   E 14 194 3 "c-h-it-port";
   E 14 195 3 "cognima";
   E 14 196 3 "nnp";
   E 14 197 3 "abcvoice-port";
   E 14 198 3 "iso-tp0s";
   E 14 199 3 "bim-pem";
   E 14 200 3 "bfd-control";
   E 14 201 3 "bfd-echo";
   E 14 202 3 "upstriggervsw";
   E 14 203 3 "fintrx";
   E 14 204 3 "isrp-port";
   E 14 205 3 "remotedeploy";
   E 14 206 3 "quickbooksrds";
   E 14 207 3 "tvnetworkvideo";
   E 14 208 3 "sitewatch";
   E 14 209 3 "dcsoftware";
   E 14 210 3 "jaus";
   E 14 211 3 "myblast";
   E 14 212 3 "spw-dialer";
   E 14 213 3 "idps";
   E 14 214 3 "minilock";
   E 14 215 3 "radius-dynauth";
   E 14 216 3 "pwgpsi";
   E 14 217 3 "ibm-mgr";
   E 14 218 3 "vhd";
   E 14 219 3 "soniqsync";
   E 14 220 3 "iqnet-port";
   E 14 221 3 "tcpdataserver";
   E 14 222 3 "wsmlb";
   E 14 223 3 "spugna";
   E 14 224 3 "sun-as-iiops-ca";
   E 14 225 3 "apocd";
   E 14 226 3 "wlanauth";
   E 14 227 3 "amp";
   E 14 228 3 "neto-wol-server";
   E 14 229 3 "rap-ip";
   E 14 230 3 "neto-dcs";
   E 14 231 3 "lansurveyorxml";
   E 14 232 3 "sunlps-http";
   E 14 233 3 "tapeware";
   E 14 234 3 "crinis-hb";
   E 14 235 3 "epl-slp";
   E 14 236 3 "scp";
   E 14 237 3 "pmcp";
   E 14 238 3 "acp-discovery";
   E 14 239 3 "acp-conduit";
   E 14 240 3 "acp-policy";
   E 14 241 3 "ffserver";
   E 14 242 3 "warmux";
   E 14 243 3 "netmpi";
   E 14 244 3 "neteh";
   E 14 245 3 "neteh-ext";
   E 14 246 3 "cernsysmgmtagt";
   E 14 247 3 "dvapps";
   E 14 248 3 "xxnetserver";
   E 14 249 3 "aipn-auth";
   E 14 250 3 "spectardata";
   E 14 251 3 "spectardb";
   E 14 252 3 "markem-dcp";
   E 14 253 3 "mkm-discovery";
   E 14 254 3 "sos";
   E 14 255 3 "amx-rms";
   E 15 0 3 "flirtmitmir";
   E 15 1 1 "shiprush-db-svr";
   E 15 2 3 "nhci";
   E 15 3 3 "quest-agent";
   E 15 4 3 "rnm";
   E 15 5 3 "v-one-spp";
   E 15 6 3 "an-pcp";
   E 15 7 3 "msfw-control";
   E 15 8 3 "item";
   E 15 9 3 "spw-dnspreload"].

Definition ports_24 : list entry :=
  [E 15 10 3 "qtms-bootstrap";
   E 15 11 3 "spectraport";
   E 15 12 3 "sse-app-config";
   E 15 13 3 "sscan";
   E 15 14 3 "stryker-com";
   E 15 15 3 "opentrac";
   E 15 16 3 "informer";
   E 15 17 3 "trap-port";
   E 15 18 3 "trap-port-mom";
   E 15 19 3 "nav-port";
   E 15 20 3 "sasp";
   E 15 21 3 "winshadow-hd";
   E 15 22 3 "giga-pocket";
   E 15 23 1 "asap-tcp";
   E 15 23 2 "asap-udp";
   E 15 23 4 "asap-sctp";
   E 15 24 1 "asap-tcp-tls";
   E 15 24 4 "asap-sctp-tls";
   E 15 25 3 "xpl";
   E 15 26 3 "dzdaemon";
   E 15 27 3 "dzoglserver";
   E 15 28 5 "diameter";
   E 15 29 3 "ovsam-mgmt";
   E 15 30 3 "ovsam-d-agent";
   E 15 31 3 "avocent-adsap";
   E 15 32 3 "oem-agent";
   E 15 33 3 "fagordnc";
   E 15 34 3 "sixxsconfig";
   E 15 35 3 "pnbscada";
   E 15 36 3 "dl-agent";
   E 15 36 3 "dl_agent";
   E 15 37 3 "xmpcr-interface";
   E 15 38 3 "fotogcad";
   E 15 39 3 "appss-lm";
   E 15 40 3 "igrs";
   E 15 41 3 "idac";
   E 15 42 3 "msdts1";
   E 15 43 3 "vrpn";
   E 15 44 3 "softrack-meter";
   E 15 45 3 "topflow-ssl";
   E 15 46 3 "nei-management";
   E 15 47 3 "ciphire-data";
   E 15 48 3 "ciphire-serv";
   E 15 49 3 "dandv-tester";
   E 15 50 3 "ndsconnect";
   E 15 51 3 "rtc-pm-port";
   E 15 52 3 "pcc-image-port";
   E 15 53 3 "cgi-starapi";
   E 15 54 3 "syam-agent";
   E 15 55 3 "syam-smc";
   E 15 56 3 "sdo-tls";
   E 15 57 3 "sdo-ssh";
   E 15 58 3 "senip";
   E 15 59 3 "itv-control";
   E 15 60 3 "udt-os";
   E 15 60 3 "udt_os";
   E 15 61 3 "nimsh";
   E 15 62 3 "nimaux";
   E 15 63 3 "charsetmgr";
   E 15 64 3 "omnilink-port";
   E 15 65 3 "mupdate";
   E 15 66 3 "topovista-data";
   E 15 67 3 "imoguia-port";
   E 15 68 3 "hppronetman";
   E 15 69 3 "surfcontrolcpa";
   E 15 70 3 "prnrequest";
   E 15 71 3 "prnstatus";
   E 15 72 3 "gbmt-stars";
   E 15 73 3 "listcrt-port";
   E 15 74 3 "listcrt-port-2";
   E 15 75 3 "agcat";
   E 15 76 3 "wysdmc";
   E 15 77 3 "aftmux";
   E 15 78 3 "pktcablemmcops";
   E 15 79 3 "hyperip";
   E 15 80 3 "exasoftport1";
   E 15 81 3 "herodotus-net";
   E 15 82 3 "sor-update";
   E 15 83 3 "symb-sb-port";
   E 15 84 3 "mpl-gprs-port";
   E 15 85 3 "zmp";
   E 15 86 3 "winport";
   E 15 87 3 "natdataservice";
   E 15 88 3 "netboot-pxe";
   E 15 89 3 "smauth-port";
   E 15 90 3 "syam-webserver";
   E 15 91 3 "msr-plugin-port";
   E 15 92 3 "dyn-site";
   E 15 93 3 "plbserve-port";
   E 15 94 3 "sunfm-port";
   E 15 95 3 "sdp-portmapper";
   E 15 96 3 "mailprox";
   E 15 97 3 "dvbservdsc";
   E 15 98 3 "dbcontrol-agent";
   E 15 98 3 "dbcontrol_agent";
   E 15 99 3 "aamp";
   E 15 100 3 "xecp-node";
   E 15 101 3 "homeportal-web";
   E 15 102 3 "srdp";
   E 15 103 3 "tig";
   E 15 104 3 "sops";
   E 15 105 3 "emcads";
   E 15 106 3 "backupedge";
   E 15 107 3 "ccp";
   E 15 108 3 "apdap";
   E 15 109 3 "drip";
   E 15 110 3 "namemunge";
   E 15 111 3 "pwgippfax";
   E 15 112 3 "i3-sessionmgr";
   E 15 113 3 "xmlink-connect";
   E 15 114 3 "adrep";
   E 15 115 3 "p2pcommunity";
   E 15 116 3 "gvcp";
   E 15 117 3 "mqe-broker";
   E 15 118 3 "mqe-agent";
   E 15 119 3 "treehopper";
   E 15 120 3 "bess";
   E 15 121 3 "proaxess";
   E 15 122 3 "sbi-agent";
   E 15 123 3 "thrp";
   E 15 124 3 "sasggprs";
   E 15 125 3 "ati-ip-to-ncpe";
   E 15 126 3 "bflckmgr";
   E 15 127 3 "ppsms";
   E 15 128 3 "ianywhere-dbns";
   E 15 129 3 "landmarks";
   E 15 130 3 "lanrevagent";
   E 15 131 3 "lanrevserver";
   E 15 132 3 "iconp";
   E 15 133 3 "progistics";
   E 15 134 3 "citysearch";
   E 15 135 3 "airshot";
   E 15 136 3 "opswagent";
   E 15 137 3 "opswmanager";
   E 15 138 3 "secure-cfg-svr";
   E 15 139 3 "smwan";
   E 15 140 3 "acms";
   E 15 141 3 "starfish";
   E 15 142 3 "eis";
   E 15 143 3 "eisp";
   E 15 144 3 "mapper-nodemgr";
   E 15 145 3 "mapper-mapethd";
   E 15 146 3 "mapper-ws-ethd";
   E 15 146 3 "mapper-ws_ethd";
   E 15 147 3 "centerline";
   E 15 148 3 "dcs-config";
   E 15 149 3 "bv-queryengine";
   E 15 150 3 "bv-is";
   E 15 151 3 "bv-smcsrv";
   E 15 152 3 "bv-ds"].

Definition ports_25 : list entry :=
  [E 15 153 3 "bv-agent";
   E 15 155 3 "iss-mgmt-ssl";
   E 15 156 3 "abcsoftware";
   E 15 157 3 "agentsease-db";
   E 15 158 3 "dnx";
   E 15 159 3 "nvcnet";
   E 15 160 3 "terabase";
   E 15 161 3 "newoak";
   E 15 162 3 "pxc-spvr-ft";
   E 15 163 3 "pxc-splr-ft";
   E 15 164 3 "pxc-roid";
   E 15 165 3 "pxc-pin";
   E 15 166 3 "pxc-spvr";
   E 15 167 3 "pxc-splr";
   E 15 168 3 "netcheque";
   E 15 169 3 "chimera-hwm";
   E 15 170 3 "samsung-unidex";
   E 15 171 3 "altserviceboot";
   E 15 172 3 "pda-gate";
   E 15 173 3 "acl-manager";
   E 15 174 3 "taiclock";
   E 15 175 3 "talarian-mcast1";
   E 15 176 3 "talarian-mcast2";
   E 15 177 3 "talarian-mcast3";
   E 15 178 3 "talarian-mcast4";
   E 15 179 3 "talarian-mcast5";
   E 15 180 3 "trap";
   E 15 181 3 "nexus-portal";
   E 15 182 3 "dnox";
   E 15 183 3 "esnm-zoning";
   E 15 184 3 "tnp1-port";
   E 15 185 3 "partimage";
   E 15 186 3 "as-debug";
   E 15 187 3 "bxp";
   E 15 188 3 "dtserver-port";
   E 15 189 3 "ip-qsig";
   E 15 190 3 "jdmn-port";
   E 15 191 3 "suucp";
   E 15 192 3 "vrts-auth-port";
   E 15 193 3 "sanavigator";
   E 15 194 3 "ubxd";
   E 15 195 3 "wap-push-http";
   E 15 196 3 "wap-push-https";
   E 15 197 3 "ravehd";
   E 15 198 3 "fazzt-ptp";
   E 15 199 3 "fazzt-admin";
   E 15 200 3 "yo-main";
   E 15 201 3 "houston";
   E 15 202 3 "ldxp";
   E 15 203 3 "nirp";
   E 15 204 3 "ltp";
   E 15 205 3 "npp";
   E 15 206 3 "acp-proto";
   E 15 207 3 "ctp-state";
   E 15 209 3 "wafs";
   E 15 210 3 "cisco-wafs";
   E 15 211 3 "cppdp";
   E 15 212 3 "interact";
   E 15 213 3 "ccu-comm-1";
   E 15 214 3 "ccu-comm-2";
   E 15 215 3 "ccu-comm-3";
   E 15 216 3 "lms";
   E 15 217 3 "wfm";
   E 15 218 3 "kingfisher";
   E 15 219 3 "dlms-cosem";
   E 15 220 3 "dsmeter-iatc";
   E 15 220 3 "dsmeter_iatc";
   E 15 221 3 "ice-location";
   E 15 222 3 "ice-slocation";
   E 15 223 3 "ice-router";
   E 15 224 3 "ice-srouter";
   E 15 225 3 "avanti-cdp";
   E 15 225 3 "avanti_cdp";
   E 15 226 3 "pmas";
   E 15 227 3 "idp";
   E 15 228 3 "ipfltbcst";
   E 15 229 3 "minger";
   E 15 230 3 "tripe";
   E 15 231 3 "aibkup";
   E 15 232 3 "zieto-sock";
   E 15 233 3 "iRAPP";
   E 15 234 3 "cequint-cityid";
   E 15 235 3 "perimlan";
   E 15 236 3 "seraph";
   E 15 237 2 "ascomalarm";
   E 15 238 1 "cssp";
   E 15 239 3 "santools";
   E 15 240 3 "lorica-in";
   E 15 241 3 "lorica-in-sec";
   E 15 242 3 "lorica-out";
   E 15 243 3 "lorica-out-sec";
   E 15 244 2 "fortisphere-vm";
   E 15 245 1 "ezmessagesrv";
   E 15 246 2 "ftsync";
   E 15 247 1 "applusservice";
   E 15 248 1 "npsp";
   E 15 249 3 "opencore";
   E 15 250 3 "omasgport";
   E 15 251 3 "ewinstaller";
   E 15 252 3 "ewdgs";
   E 15 253 3 "pvxpluscs";
   E 15 254 3 "sysrqd";
   E 15 255 3 "xtgui";
   E 16 0 3 "bre";
   E 16 1 3 "patrolview";
   E 16 2 3 "drmsfsd";
   E 16 3 3 "dpcp";
   E 16 4 3 "igo-incognito";
   E 16 5 3 "brlp-0";
   E 16 6 3 "brlp-1";
   E 16 7 3 "brlp-2";
   E 16 8 3 "brlp-3";
   E 16 9 3 "shofar";
   E 16 10 3 "synchronite";
   E 16 11 3 "j-ac";
   E 16 12 3 "accel";
   E 16 13 3 "izm";
   E 16 14 3 "g2tag";
   E 16 15 3 "xgrid";
   E 16 16 3 "apple-vpns-rp";
   E 16 17 3 "aipn-reg";
   E 16 18 3 "jomamqmonitor";
   E 16 19 3 "cds";
   E 16 20 3 "smartcard-tls";
   E 16 21 3 "hillrserv";
   E 16 22 3 "netscript";
   E 16 23 3 "assuria-slm";
   E 16 25 3 "e-builder";
   E 16 26 3 "fprams";
   E 16 27 3 "z-wave";
   E 16 28 3 "tigv2";
   E 16 29 3 "opsview-envoy";
   E 16 30 3 "ddrepl";
   E 16 31 3 "unikeypro";
   E 16 32 3 "nufw";
   E 16 33 3 "nuauth";
   E 16 34 3 "fronet";
   E 16 35 3 "stars";
   E 16 36 3 "nuts-dem";
   E 16 36 3 "nuts_dem";
   E 16 37 3 "nuts-bootp";
   E 16 37 3 "nuts_bootp";
   E 16 38 3 "nifty-hmi";
   E 16 39 3 "cl-db-attach";
   E 16 40 3 "cl-db-request";
   E 16 41 3 "cl-db-remote";
   E 16 42 3 "nettest";
   E 16 43 3 "thrtx";
   E 16 44 3 "cedros-fds";
   E 16 44 3 "cedros_fds"].

Definition ports_26 : list entry :=
  [E 16 45 3 "oirtgsvc";
   E 16 46 3 "oidocsvc";
   E 16 47 3 "oidsr";
   E 16 49 3 "vvr-control";
   E 16 50 3 "tgcconnect";
   E 16 51 3 "vrxpservman";
   E 16 52 3 "hhb-handheld";
   E 16 53 3 "agslb";
   E 16 54 3 "PowerAlert-nsa";
   E 16 55 3 "menandmice-noh";
   E 16 55 3 "menandmice_noh";
   E 16 56 3 "idig-mux";
   E 16 56 3 "idig_mux";
   E 16 57 3 "mbl-battd";
   E 16 58 3 "atlinks";
   E 16 59 3 "bzr";
   E 16 60 3 "stat-results";
   E 16 61 3 "stat-scanner";
   E 16 62 3 "stat-cc";
   E 16 63 3 "nss";
   E 16 64 3 "jini-discovery";
   E 16 65 3 "omscontact";
   E 16 66 3 "omstopology";
   E 16 67 3 "silverpeakpeer";
   E 16 68 3 "silverpeakcomm";
   E 16 69 3 "altcp";
   E 16 70 3 "joost";
   E 16 71 3 "ddgn";
   E 16 72 3 "pslicser";
   E 16 73 1 "iadt";
   E 16 73 2 "iadt-disc";
   E 16 74 1 "d-cinema-csp";
   E 16 75 1 "ml-svnet";
   E 16 76 3 "pcoip";
   E 16 77 2 "mma-discovery";
   E 16 78 1 "smcluster";
   E 16 78 2 "sm-disc";
   E 16 79 1 "bccp";
   E 16 80 1 "tl-ipcproxy";
   E 16 81 3 "wello";
   E 16 82 3 "storman";
   E 16 83 3 "MaxumSP";
   E 16 84 3 "httpx";
   E 16 85 3 "macbak";
   E 16 86 3 "pcptcpservice";
   E 16 87 3 "cyborgnet";
   E 16 88 3 "universe-suite";
   E 16 88 3 "universe_suite";
   E 16 89 3 "wcpp";
   E 16 90 1 "boxbackupstore";
   E 16 91 1 "csc-proxy";
   E 16 91 1 "csc_proxy";
   E 16 92 3 "vatata";
   E 16 93 1 "pcep";
   E 16 94 1 "sieve";
   E 16 95 2 "dsmipv6";
   E 16 96 1 "azeti";
   E 16 96 2 "azeti-bd";
   E 16 97 1 "pvxplusio";
   E 16 103 3 "eims-admin";
   E 16 204 3 "corelccam";
   E 16 205 3 "d-data";
   E 16 206 3 "d-data-control";
   E 16 207 3 "srcp";
   E 16 208 3 "owserver";
   E 16 209 3 "batman";
   E 16 210 3 "pinghgl";
   E 16 211 3 "visicron-vs";
   E 16 212 3 "compx-lockview";
   E 16 213 3 "dserver";
   E 16 214 3 "mirrtex";
   E 16 215 1 "p6ssmc";
   E 16 216 1 "pscl-mgt";
   E 16 217 1 "perrla";
   E 16 218 1 "choiceview-agt";
   E 16 220 1 "choiceview-clt";
   E 16 224 3 "fdt-rcatp";
   E 16 225 3 "rwhois";
   E 16 226 3 "trim-event";
   E 16 227 3 "trim-ice";
   E 16 229 3 "geognosisman";
   E 16 230 3 "geognosis";
   E 16 231 3 "jaxer-web";
   E 16 232 3 "jaxer-manager";
   E 16 233 1 "publiqare-sync";
   E 16 234 1 "dey-sapi";
   E 16 235 1 "ktickets-rest";
   E 16 237 7 "ahsp";
   E 16 238 1 "netconf-ch-ssh";
   E 16 239 1 "netconf-ch-tls";
   E 16 240 1 "restconf-ch-tls";
   E 16 244 3 "gaia";
   E 16 245 3 "lisp-data";
   E 16 246 1 "lisp-cons";
   E 16 246 2 "lisp-control";
   E 16 247 3 "unicall";
   E 16 248 3 "vinainstall";
   E 16 249 3 "m4-network-as";
   E 16 250 3 "elanlm";
   E 16 251 3 "lansurveyor";
   E 16 252 3 "itose";
   E 16 253 3 "fsportmap";
   E 16 254 3 "net-device";
   E 16 255 3 "plcy-net-svcs";
   E 17 0 3 "pjlink";
   E 17 1 3 "f5-iquery";
   E 17 2 3 "qsnet-trans";
   E 17 3 3 "qsnet-workst";
   E 17 4 3 "qsnet-assist";
   E 17 5 3 "qsnet-cond";
   E 17 6 3 "qsnet-nucl";
   E 17 7 3 "omabcastltkm";
   E 17 8 1 "matrix-vnet";
   E 17 8 1 "matrix_vnet";
   E 17 9 2 "nacnl";
   E 17 10 2 "afore-vdp-disc";
   E 17 14 2 "shadowstream";
   E 17 16 3 "wxbrief";
   E 17 17 3 "epmd";
   E 17 18 3 "elpro-tunnel";
   E 17 18 3 "elpro_tunnel";
   E 17 19 1 "l2c-control";
   E 17 19 2 "l2c-disc";
   E 17 20 3 "l2c-data";
   E 17 21 3 "remctl";
   E 17 22 1 "psi-ptt";
   E 17 23 3 "tolteces";
   E 17 24 3 "bip";
   E 17 25 3 "cp-spxsvr";
   E 17 26 3 "cp-spxdpy";
   E 17 27 3 "ctdb";
   E 17 37 3 "xandros-cms";
   E 17 38 3 "wiegand";
   E 17 39 1 "apwi-imserver";
   E 17 40 1 "apwi-rxserver";
   E 17 41 1 "apwi-rxspooler";
   E 17 42 2 "apwi-disc";
   E 17 43 3 "omnivisionesx";
   E 17 44 1 "fly";
   E 17 48 3 "ds-srv";
   E 17 49 3 "ds-srvr";
   E 17 50 3 "ds-clnt";
   E 17 51 3 "ds-user";
   E 17 52 3 "ds-admin";
   E 17 53 3 "ds-mail";
   E 17 54 3 "ds-slp";
   E 17 55 1 "nacagent";
   E 17 56 1 "slscc";
   E 17 57 1 "netcabinet-com";
   E 17 58 1 "itwo-server"].

Definition ports_27 : list entry :=
  [E 17 59 1 "found";
   E 17 60 2 "smallchat";
   E 17 61 1 "avi-nms";
   E 17 61 2 "avi-nms-disc";
   E 17 62 1 "updog";
   E 17 63 1 "brcd-vr-req";
   E 17 64 1 "pjj-player";
   E 17 64 2 "pjj-player-disc";
   E 17 65 1 "workflowdir";
   E 17 66 2 "axysbridge";
   E 17 67 1 "cbp";
   E 17 68 3 "nvm-express";
   E 17 69 1 "scaleft";
   E 17 70 1 "tsepisp";
   E 17 71 1 "thingkit";
   E 17 73 3 "netrockey6";
   E 17 74 3 "beacon-port-2";
   E 17 75 1 "drizzle";
   E 17 76 1 "omviserver";
   E 17 77 1 "omviagent";
   E 17 78 3 "rsqlserver";
   E 17 79 1 "wspipe";
   E 17 80 3 "l-acoustics";
   E 17 81 1 "vop";
   E 17 89 2 "netblox";
   E 17 90 3 "saris";
   E 17 91 3 "pharos";
   E 17 92 3 "krb524";
   E 17 92 3 "nv-video";
   E 17 93 3 "upnotifyp";
   E 17 94 3 "n1-fwp";
   E 17 95 3 "n1-rmgmt";
   E 17 96 3 "asc-slmd";
   E 17 97 3 "privatewire";
   E 17 98 3 "camp";
   E 17 99 3 "ctisystemmsg";
   E 17 100 3 "ctiprogramload";
   E 17 101 3 "nssalertmgr";
   E 17 102 3 "nssagentmgr";
   E 17 103 3 "prchat-user";
   E 17 104 3 "prchat-server";
   E 17 105 3 "prRegister";
   E 17 106 3 "mcp";
   E 17 132 3 "hpssmgmt";
   E 17 133 1 "assyst-dr";
   E 17 134 3 "icms";
   E 17 135 1 "prex-tcp";
   E 17 136 3 "awacs-ice";
   E 17 148 3 "ipsec-nat-t";
   E 17 150 4 "a25-fap-fgw";
   E 17 182 2 "armagetronad";
   E 17 183 3 "ehs";
   E 17 184 3 "ehs-ssl";
   E 17 185 3 "wssauthsvc";
   E 17 186 3 "swx-gate";
   E 17 193 3 "worldscores";
   E 17 194 3 "sf-lm";
   E 17 195 3 "lanner-lm";
   E 17 196 3 "synchromesh";
   E 17 197 3 "aegate";
   E 17 198 3 "gds-adppiw-db";
   E 17 199 3 "ieee-mih";
   E 17 200 3 "menandmice-mon";
   E 17 201 1 "icshostsvc";
   E 17 202 3 "msfrs";
   E 17 203 3 "rsip";
   E 17 204 11 "dtn-bundle";
   E 17 205 2 "mtcevrunqss";
   E 17 206 2 "mtcevrunqman";
   E 17 207 3 "hylafax";
   E 17 211 1 "amahi-anywhere";
   E 17 214 3 "kwtc";
   E 17 215 3 "tram";
   E 17 216 3 "bmc-reporting";
   E 17 217 3 "iax";
   E 17 218 1 "deploymentmap";
   E 17 221 1 "cardifftec-back";
   E 17 238 1 "rid";
   E 17 239 3 "l3t-at-an";
   E 17 240 2 "hrpd-ith-at-an";
   E 17 241 3 "ipt-anri-anri";
   E 17 242 3 "ias-session";
   E 17 243 3 "ias-paging";
   E 17 244 3 "ias-neighbor";
   E 17 245 3 "a21-an-1xbs";
   E 17 246 3 "a16-an-an";
   E 17 247 3 "a17-an-an";
   E 17 248 3 "piranha1";
   E 17 249 3 "piranha2";
   E 17 250 1 "mtsserver";
   E 17 251 1 "menandmice-upg";
   E 17 252 1 "irp";
   E 17 253 1 "sixchat";
   E 18 13 2 "ventoso";
   E 18 50 3 "playsta2-app";
   E 18 51 3 "playsta2-lob";
   E 18 52 3 "smaclmgr";
   E 18 53 3 "kar2ouche";
   E 18 54 3 "oms";
   E 18 55 3 "noteit";
   E 18 56 3 "ems";
   E 18 57 3 "contclientms";
   E 18 58 3 "eportcomm";
   E 18 59 3 "mmacomm";
   E 18 60 3 "mmaeds";
   E 18 61 3 "eportcommdata";
   E 18 62 3 "light";
   E 18 63 3 "acter";
   E 18 64 3 "rfa";
   E 18 65 3 "cxws";
   E 18 66 3 "appiq-mgmt";
   E 18 67 3 "dhct-status";
   E 18 68 3 "dhct-alerts";
   E 18 69 3 "bcs";
   E 18 70 3 "traversal";
   E 18 71 3 "mgesupervision";
   E 18 72 3 "mgemanagement";
   E 18 73 3 "parliant";
   E 18 74 3 "finisar";
   E 18 75 3 "spike";
   E 18 76 3 "rfid-rp1";
   E 18 77 3 "autopac";
   E 18 78 3 "msp-os";
   E 18 79 3 "nst";
   E 18 80 3 "mobile-p2p";
   E 18 81 3 "altovacentral";
   E 18 82 3 "prelude";
   E 18 83 3 "mtn";
   E 18 84 3 "conspiracy";
   E 18 92 3 "netxms-agent";
   E 18 93 3 "netxms-mgmt";
   E 18 94 3 "netxms-sync";
   E 18 95 1 "npqes-test";
   E 18 96 1 "assuria-ins";
   E 18 117 3 "truckstar";
   E 18 118 2 "a26-fap-fgw";
   E 18 119 1 "fcis";
   E 18 119 2 "fcis-disc";
   E 18 120 3 "capmux";
   E 18 121 2 "gsmtap";
   E 18 122 3 "gearman";
   E 18 123 1 "remcap";
   E 18 124 2 "ohmtrigger";
   E 18 125 1 "resorcs";
   E 18 129 3 "ipdr-sp";
   E 18 130 3 "solera-lpn";
   E 18 131 7 "ipfix";
   E 18 132 7 "ipfixs";
   E 18 133 3 "lumimgrd";
   E 18 134 1 "sicct"].

Definition ports_28 : list entry :=
  [E 18 134 2 "sicct-sdp";
   E 18 135 3 "openhpid";
   E 18 136 3 "ifsp";
   E 18 137 3 "fmp";
   E 18 139 2 "buschtrommel";
   E 18 141 3 "profilemac";
   E 18 142 3 "ssad";
   E 18 143 3 "spocp";
   E 18 144 3 "snap";
   E 18 145 1 "simon";
   E 18 145 2 "simon-disc";
   E 18 176 3 "bfd-multi-ctl";
   E 18 177 2 "cncp";
   E 18 178 1 "smart-install";
   E 18 179 1 "sia-ctrl-plane";
   E 18 180 1 "xmcp";
   E 18 181 2 "vxlan";
   E 18 182 2 "vxlan-gpe";
   E 18 183 2 "roce";
   E 18 192 3 "iims";
   E 18 193 3 "iwec";
   E 18 194 3 "ilss";
   E 18 195 1 "notateit";
   E 18 195 2 "notateit-disc";
   E 18 196 2 "aja-ntv4-disc";
   E 18 219 3 "htcp";
   E 18 229 3 "varadero-0";
   E 18 230 3 "varadero-1";
   E 18 231 3 "varadero-2";
   E 18 232 1 "opcua-tcp";
   E 18 232 2 "opcua-udp";
   E 18 233 3 "quosa";
   E 18 234 3 "gw-asv";
   E 18 235 3 "opcua-tls";
   E 18 236 3 "gw-log";
   E 18 237 3 "wcr-remlib";
   E 18 238 3 "contamac-icm";
   E 18 238 3 "contamac_icm";
   E 18 239 3 "wfc";
   E 18 240 3 "appserv-http";
   E 18 241 3 "appserv-https";
   E 18 242 3 "sun-as-nodeagt";
   E 18 243 3 "derby-repli";
   E 19 3 3 "unify-debug";
   E 19 4 3 "phrelay";
   E 19 5 3 "phrelaydbg";
   E 19 6 3 "cc-tracking";
   E 19 7 3 "wired";
   E 19 12 3 "tritium-can";
   E 19 13 3 "lmcs";
   E 19 14 2 "inst-discovery";
   E 19 15 1 "wsdl-event";
   E 19 16 1 "hislip";
   E 19 17 2 "socp-t";
   E 19 18 2 "socp-c";
   E 19 19 1 "wmlserver";
   E 19 20 3 "hivestor";
   E 19 21 3 "abbs";
   E 19 30 3 "lyskom";
   E 19 35 3 "radmin-port";
   E 19 36 3 "hfcs";
   E 19 37 1 "flr-agent";
   E 19 37 1 "flr_agent";
   E 19 38 1 "magiccontrol";
   E 19 48 1 "lutap";
   E 19 49 1 "lutcp";
   E 19 50 3 "bones";
   E 19 51 1 "frcs";
   E 19 72 2 "an-signaling";
   E 19 73 2 "atsc-mh-ssc";
   E 19 76 3 "eq-office-4940";
   E 19 77 3 "eq-office-4941";
   E 19 78 3 "eq-office-4942";
   E 19 85 3 "munin";
   E 19 86 3 "sybasesrvmon";
   E 19 87 3 "pwgwims";
   E 19 88 3 "sagxtsds";
   E 19 89 1 "dbsyncarbiter";
   E 19 105 3 "ccss-qmm";
   E 19 106 3 "ccss-qsm";
   E 19 116 2 "ctxs-vpp";
   E 19 120 1 "webyast";
   E 19 121 1 "gerhcs";
   E 19 122 3 "mrip";
   E 19 123 3 "smar-se-port1";
   E 19 124 3 "smar-se-port2";
   E 19 125 3 "parallel";
   E 19 126 3 "busycal";
   E 19 127 3 "vrt";
   E 19 135 3 "hfcs-manager";
   E 19 136 3 "commplex-main";
   E 19 137 3 "commplex-link";
   E 19 138 3 "rfe";
   E 19 139 3 "fmpro-internal";
   E 19 140 11 "avt-profile-1";
   E 19 141 11 "avt-profile-2";
   E 19 142 3 "wsm-server";
   E 19 143 3 "wsm-server-ssl";
   E 19 144 3 "synapsis-edge";
   E 19 145 3 "winfs";
   E 19 146 3 "telelpathstart";
   E 19 147 3 "telelpathattack";
   E 19 148 3 "nsp";
   E 19 149 3 "fmpro-v6";
   E 19 150 2 "onpsocket";
   E 19 151 1 "fmwp";
   E 19 156 3 "zenginkyo-1";
   E 19 157 3 "zenginkyo-2";
   E 19 158 3 "mice";
   E 19 159 3 "htuilsrv";
   E 19 160 3 "scpi-telnet";
   E 19 161 3 "scpi-raw";
   E 19 162 3 "strexec-d";
   E 19 163 3 "strexec-s";
   E 19 164 1 "qvr";
   E 19 165 3 "infobright";
   E 19 166 3 "surfpass";
   E 19 167 2 "dmp";
   E 19 168 1 "signacert-agent";
   E 19 169 1 "jtnetd-server";
   E 19 170 1 "jtnetd-status";
   E 19 178 3 "asnaacceler8db";
   E 19 179 3 "swxadmin";
   E 19 180 3 "lxi-evntsvc";
   E 19 181 1 "osp";
   E 19 182 2 "vpm-udp";
   E 19 183 2 "iscape";
   E 19 184 1 "texai";
   E 19 185 3 "ivocalize";
   E 19 186 3 "mmcc";
   E 19 187 3 "ita-agent";
   E 19 188 3 "ita-manager";
   E 19 189 1 "rlm";
   E 19 189 2 "rlm-disc";
   E 19 190 1 "rlm-admin";
   E 19 191 3 "unot";
   E 19 192 3 "intecom-ps1";
   E 19 193 3 "intecom-ps2";
   E 19 194 2 "locus-disc";
   E 19 195 3 "sds";
   E 19 196 7 "sip";
   E 19 197 7 "sips";
   E 19 198 3 "na-localise";
   E 19 199 1 "csrpc";
   E 19 200 3 "ca-1";
   E 19 201 3 "ca-2";
   E 19 202 3 "stanag-5066";
   E 19 203 3 "authentx";
   E 19 204 1 "bitforestsrv";
   E 19 205 3 "i-net-2000-npr"].

Definition ports_29 : list entry :=
  [E 19 206 3 "vtsas";
   E 19 207 3 "powerschool";
   E 19 208 3 "ayiya";
   E 19 209 3 "tag-pm";
   E 19 210 3 "alesquery";
   E 19 211 1 "pvaccess";
   E 19 214 2 "pixelpusher";
   E 19 215 2 "cp-spxrpts";
   E 19 216 3 "onscreen";
   E 19 217 3 "sdl-ets";
   E 19 218 3 "qcp";
   E 19 219 3 "qfp";
   E 19 220 3 "llrp";
   E 19 221 3 "encrypted-llrp";
   E 19 222 1 "aprigo-cs";
   E 19 223 1 "biotic";
   E 19 226 4 "car";
   E 19 227 4 "cxtp";
   E 19 228 2 "magpie";
   E 19 229 3 "sentinel-lm";
   E 19 230 3 "hart-ip";
   E 19 235 3 "sentlm-srv2srv";
   E 19 236 3 "socalia";
   E 19 237 1 "talarian-tcp";
   E 19 237 2 "talarian-udp";
   E 19 238 3 "oms-nonsecure";
   E 19 239 1 "actifio-c2c";
   E 19 240 2 "tinymessage";
   E 19 241 2 "hughes-ap";
   E 19 242 1 "actifioudsagent";
   E 19 243 1 "actifioreplic";
   E 19 247 3 "taep-as-svc";
   E 19 248 3 "pm-cmdsvr";
   E 19 250 1 "ev-services";
   E 19 251 1 "autobuild";
   E 19 252 2 "emb-proj-cmd";
   E 19 253 1 "gradecam";
   E 20 0 3 "barracuda-bbs";
   E 20 13 3 "nbt-pc";
   E 20 14 1 "ppactivation";
   E 20 15 1 "erp-scale";
   E 20 16 2 "minotaur-sa";
   E 20 17 3 "ctsd";
   E 20 25 3 "rmonitor-secure";
   E 20 25 3 "rmonitor_secure";
   E 20 26 1 "social-alarm";
   E 20 30 3 "atmp";
   E 20 31 3 "esri-sde";
   E 20 31 3 "esri_sde";
   E 20 32 3 "sde-discovery";
   E 20 33 1 "toruxserver";
   E 20 34 3 "bzflag";
   E 20 35 3 "asctrl-agent";
   E 20 36 1 "rugameonline";
   E 20 37 1 "mediat";
   E 20 41 1 "snmpssh";
   E 20 42 1 "snmpssh-trap";
   E 20 43 1 "sbackup";
   E 20 44 1 "vpa";
   E 20 44 2 "vpa-disc";
   E 20 45 3 "ife-icorp";
   E 20 45 3 "ife_icorp";
   E 20 46 3 "winpcs";
   E 20 47 3 "scte104";
   E 20 48 3 "scte30";
   E 20 52 1 "pcoip-mgmt";
   E 20 70 3 "aol";
   E 20 71 3 "aol-1";
   E 20 72 3 "aol-2";
   E 20 73 3 "aol-3";
   E 20 74 1 "cpscomm";
   E 20 75 1 "ampl-lic";
   E 20 76 1 "ampl-tableproxy";
   E 20 77 1 "tunstall-lwp";
   E 20 80 3 "targus-getdata";
   E 20 81 3 "targus-getdata1";
   E 20 82 3 "targus-getdata2";
   E 20 83 3 "targus-getdata3";
   E 20 89 1 "nomad";
   E 20 95 5 "noteza";
   E 20 101 1 "3exmp";
   E 20 102 1 "xmpp-client";
   E 20 103 3 "hpvirtgrp";
   E 20 104 3 "hpvirtctrl";
   E 20 105 3 "hp-server";
   E 20 106 3 "hp-status";
   E 20 107 3 "perfd";
   E 20 108 1 "hpvroom";
   E 20 109 1 "jaxflow";
   E 20 110 1 "jaxflow-data";
   E 20 111 1 "crusecontrol";
   E 20 112 1 "csedaemon";
   E 20 113 1 "enfs";
   E 20 114 3 "eenet";
   E 20 115 3 "galaxy-network";
   E 20 116 3 "padl2sim";
   E 20 117 3 "mnet-discovery";
   E 20 125 1 "downtools";
   E 20 125 2 "downtools-disc";
   E 20 126 2 "capwap-control";
   E 20 127 2 "capwap-data";
   E 20 128 3 "caacws";
   E 20 129 3 "caaclang2";
   E 20 130 3 "soagateway";
   E 20 131 3 "caevms";
   E 20 132 3 "movaz-ssc";
   E 20 133 1 "kpdp";
   E 20 134 1 "logcabin";
   E 20 144 3 "3com-njack-1";
   E 20 145 3 "3com-njack-2";
   E 20 149 1 "xmpp-server";
   E 20 150 3 "cartographerxmp";
   E 20 151 1 "cuelink";
   E 20 151 2 "cuelink-disc";
   E 20 152 3 "pk";
   E 20 160 1 "xmpp-bosh";
   E 20 161 1 "undo-lm";
   E 20 162 3 "transmit-port";
   E 20 178 3 "presence";
   E 20 179 3 "nlg-data";
   E 20 180 3 "hacl-hb";
   E 20 181 3 "hacl-gs";
   E 20 182 3 "hacl-cfg";
   E 20 183 3 "hacl-probe";
   E 20 184 3 "hacl-local";
   E 20 185 3 "hacl-test";
   E 20 186 3 "sun-mc-grp";
   E 20 187 3 "sco-aip";
   E 20 188 3 "cfengine";
   E 20 189 3 "jprinter";
   E 20 190 3 "outlaws";
   E 20 192 3 "permabit-cs";
   E 20 193 3 "rrdp";
   E 20 194 3 "opalis-rbt-ipc";
   E 20 195 3 "hacl-poll";
   E 20 196 1 "hpbladems";
   E 20 197 1 "hpdevms";
   E 20 198 1 "pkix-cmc";
   E 20 200 1 "bsfserver-zn";
   E 20 201 1 "bsfsvr-zn-ssl";
   E 20 223 3 "kfserver";
   E 20 224 3 "xkotodrcp";
   E 20 229 3 "stuns";
   E 20 229 3 "turns";
   E 20 229 3 "stun-behaviors";
   E 20 230 2 "pcp-multicast";
   E 20 231 2 "pcp";
   E 20 232 3 "dns-llq";
   E 20 233 3 "mdns";
   E 20 234 3 "mdnsresponder"].

Definition ports_30 : list entry :=
  [E 20 235 3 "llmnr";
   E 20 236 3 "ms-smlbiz";
   E 20 237 3 "wsdapi";
   E 20 238 3 "wsdapi-s";
   E 20 239 3 "ms-alerter";
   E 20 240 3 "ms-sideshow";
   E 20 241 3 "ms-s-sideshow";
   E 20 242 3 "serverwsd2";
   E 20 243 3 "net-projection";
   E 20 244 2 "kdnet";
   E 21 21 3 "stresstester";
   E 21 22 3 "elektron-admin";
   E 21 23 3 "securitychase";
   E 21 24 3 "excerpt";
   E 21 25 3 "excerpts";
   E 21 26 3 "mftp";
   E 21 27 3 "hpoms-ci-lstn";
   E 21 28 3 "hpoms-dps-lstn";
   E 21 29 3 "netsupport";
   E 21 30 3 "systemics-sox";
   E 21 31 3 "foresyte-clear";
   E 21 32 3 "foresyte-sec";
   E 21 33 3 "salient-dtasrv";
   E 21 34 3 "salient-usrmgr";
   E 21 35 3 "actnet";
   E 21 36 3 "continuus";
   E 21 37 3 "wwiotalk";
   E 21 38 3 "statusd";
   E 21 39 3 "ns-server";
   E 21 40 3 "sns-gateway";
   E 21 41 3 "sns-agent";
   E 21 42 3 "mcntp";
   E 21 43 3 "dj-ice";
   E 21 44 3 "cylink-c";
   E 21 45 3 "netsupport2";
   E 21 46 3 "salient-mux";
   E 21 47 3 "virtualuser";
   E 21 48 3 "beyond-remote";
   E 21 49 3 "br-channel";
   E 21 50 3 "devbasic";
   E 21 51 3 "sco-peer-tta";
   E 21 52 3 "telaconsole";
   E 21 53 3 "base";
   E 21 54 3 "radec-corp";
   E 21 55 3 "park-agent";
   E 21 56 3 "postgresql";
   E 21 57 3 "pyrrho";
   E 21 58 3 "sgi-arrayd";
   E 21 59 3 "sceanics";
   E 21 60 2 "pmip6-cntl";
   E 21 61 2 "pmip6-data";
   E 21 67 3 "spss";
   E 21 69 5 "smbdirect";
   E 21 74 1 "tiepie";
   E 21 74 2 "tiepie-disc";
   E 21 77 3 "surebox";
   E 21 78 3 "apc-5454";
   E 21 79 3 "apc-5455";
   E 21 80 3 "apc-5456";
   E 21 85 3 "silkmeter";
   E 21 86 3 "ttl-publisher";
   E 21 87 3 "ttlpriceproxy";
   E 21 88 3 "quailnet";
   E 21 89 3 "netops-broker";
   E 21 94 1 "apsolab-col";
   E 21 95 1 "apsolab-cols";
   E 21 96 1 "apsolab-tag";
   E 21 97 1 "apsolab-tags";
   E 21 98 2 "apsolab-rpc";
   E 21 99 1 "apsolab-data";
   E 21 124 3 "fcp-addr-srvr1";
   E 21 125 3 "fcp-addr-srvr2";
   E 21 126 3 "fcp-srvr-inst1";
   E 21 127 3 "fcp-srvr-inst2";
   E 21 128 3 "fcp-cics-gw1";
   E 21 129 3 "checkoutdb";
   E 21 130 3 "amc";
   E 21 131 1 "psl-management";
   E 21 177 3 "sgi-eventmond";
   E 21 178 3 "sgi-esphttp";
   E 21 179 3 "personal-agent";
   E 21 180 3 "freeciv";
   E 21 181 1 "farenet";
   E 21 189 1 "hpe-dp-bura";
   E 21 190 1 "westec-connect";
   E 21 191 3 "dof-dps-mc-sec";
   E 21 192 3 "sdt";
   E 21 193 1 "rdmnet-ctrl";
   E 21 193 2 "rdmnet-device";
   E 21 197 3 "sdmmp";
   E 21 198 1 "lsi-bobcat";
   E 21 199 1 "ora-oap";
   E 21 203 1 "fdtracks";
   E 21 204 3 "tmosms0";
   E 21 205 3 "tmosms1";
   E 21 206 3 "fac-restore";
   E 21 207 3 "tmo-icon-sync";
   E 21 208 3 "bis-web";
   E 21 209 3 "bis-sync";
   E 21 210 1 "att-mt-sms";
   E 21 221 3 "ininmessaging";
   E 21 222 3 "mctfeed";
   E 21 223 3 "esinstall";
   E 21 224 3 "esmmanager";
   E 21 225 3 "esmagent";
   E 21 226 3 "a1-msc";
   E 21 227 3 "a1-bs";
   E 21 228 3 "a3-sdunode";
   E 21 229 3 "a4-sdunode";
   E 21 242 1 "efr";
   E 21 251 3 "ninaf";
   E 21 252 3 "htrust";
   E 21 253 3 "symantec-sfdb";
   E 21 254 3 "precise-comm";
   E 21 255 3 "pcanywheredata";
   E 22 0 3 "pcanywherestat";
   E 22 1 3 "beorl";
   E 22 2 3 "xprtld";
   E 22 3 1 "sfmsso";
   E 22 4 1 "sfm-db-server";
   E 22 5 1 "cssc";
   E 22 6 1 "flcrs";
   E 22 7 1 "ics";
   E 22 14 1 "vfmobile";
   E 22 38 1 "filemq";
   E 22 38 2 "zre-disc";
   E 22 39 3 "amqps";
   E 22 40 7 "amqp";
   E 22 41 3 "jms";
   E 22 42 3 "hyperscsi-port";
   E 22 43 7 "v5ua";
   E 22 44 3 "raadmin";
   E 22 45 3 "questdb2-lnchr";
   E 22 46 3 "rrac";
   E 22 47 3 "dccm";
   E 22 48 3 "auriga-router";
   E 22 49 3 "ncxcp";
   E 22 50 2 "brightcore";
   E 22 51 2 "coap";
   E 22 52 2 "coaps";
   E 22 55 2 "gog-multiplayer";
   E 22 56 3 "ggz";
   E 22 57 3 "qmvideo";
   E 22 61 1 "rbsystem";
   E 22 64 1 "kmip";
   E 22 68 1 "supportassist";
   E 22 81 3 "proshareaudio";
   E 22 82 3 "prosharevideo";
   E 22 83 3 "prosharedata";
   E 22 84 3 "prosharerequest"].

Definition ports_31 : list entry :=
  [E 22 85 3 "prosharenotify";
   E 22 86 3 "dpm";
   E 22 87 3 "dpm-agent";
   E 22 88 3 "ms-licensing";
   E 22 89 3 "dtpt";
   E 22 90 3 "msdfsr";
   E 22 91 3 "omhs";
   E 22 92 3 "omsdk";
   E 22 93 1 "ms-ilm";
   E 22 94 1 "ms-ilm-sts";
   E 22 95 1 "asgenf";
   E 22 96 1 "io-dist-data";
   E 22 96 2 "io-dist-group";
   E 22 97 3 "openmail";
   E 22 98 3 "unieng";
   E 22 109 3 "ida-discover1";
   E 22 110 3 "ida-discover2";
   E 22 111 3 "watchdoc-pod";
   E 22 112 3 "watchdoc";
   E 22 113 3 "fcopy-server";
   E 22 114 3 "fcopys-server";
   E 22 115 3 "tunatic";
   E 22 116 3 "tunalyzer";
   E 22 118 3 "rscd";
   E 22 123 3 "openmailg";
   E 22 125 3 "x500ms";
   E 22 134 3 "openmailns";
   E 22 135 3 "s-openmail";
   E 22 136 3 "openmailpxy";
   E 22 137 3 "spramsca";
   E 22 138 3 "spramsd";
   E 22 139 3 "netagent";
   E 22 145 3 "dali-port";
   E 22 148 1 "vts-rpc";
   E 22 149 3 "3par-evts";
   E 22 150 3 "3par-mgmt";
   E 22 151 3 "3par-mgmt-ssl";
   E 22 152 2 "ibar";
   E 22 153 3 "3par-rcopy";
   E 22 154 2 "cisco-redu";
   E 22 155 2 "waascluster";
   E 22 161 3 "xtreamx";
   E 22 162 2 "spdp";
   E 22 181 3 "icmpd";
   E 22 182 3 "spt-automation";
   E 22 209 1 "shiprush-d-ch";
   E 22 210 1 "reversion";
   E 22 227 3 "wherehoo";
   E 22 231 3 "ppsuitemsg";
   E 22 236 5 "diameters";
   E 22 251 1 "jute";
   E 23 12 3 "rfb";
   E 23 22 7 "cm";
   E 23 23 7 "cpdlc";
   E 23 24 7 "fis";
   E 23 25 7 "ads-c";
   E 23 75 3 "indy";
   E 23 80 3 "mppolicy-v5";
   E 23 81 3 "mppolicy-mgr";
   E 23 96 3 "couchdb";
   E 23 97 3 "wsman";
   E 23 98 3 "wsmans";
   E 23 99 3 "wbem-rmi";
   E 23 100 3 "wbem-http";
   E 23 101 3 "wbem-https";
   E 23 102 3 "wbem-exp-https";
   E 23 103 3 "nuxsl";
   E 23 104 3 "consul-insight";
   E 23 105 1 "cim-rs";
   E 23 111 3 "cvsup";
   E 23 176 3 "ndl-ahp-svc";
   E 23 177 3 "winpharaoh";
   E 23 178 3 "ewctsp";
   E 23 180 1 "gsmp-ancp";
   E 23 181 3 "trip";
   E 23 182 3 "messageasap";
   E 23 183 3 "ssdtp";
   E 23 184 3 "diagnose-proc";
   E 23 185 3 "directplay8";
   E 23 186 3 "max";
   E 23 187 1 "dpm-acm";
   E 23 188 1 "msft-dpm-cert";
   E 23 189 1 "iconstructsrv";
   E 23 192 2 "gue";
   E 23 193 2 "geneve";
   E 23 194 2 "p25cai";
   E 23 195 2 "miami-bcast";
   E 23 196 1 "reload-config";
   E 23 197 3 "konspire2b";
   E 23 198 3 "pdtp";
   E 23 199 3 "ldss";
   E 23 200 1 "doglms";
   E 23 200 2 "doglms-notify";
   E 23 211 1 "raxa-mgmt";
   E 23 212 3 "synchronet-db";
   E 23 213 3 "synchronet-rtc";
   E 23 214 3 "synchronet-upd";
   E 23 215 3 "rets";
   E 23 216 3 "dbdb";
   E 23 217 3 "primaserver";
   E 23 218 3 "mpsserver";
   E 23 219 3 "etc-control";
   E 23 220 3 "sercomm-scadmin";
   E 23 221 3 "globecast-id";
   E 23 222 3 "softcm";
   E 23 223 3 "spc";
   E 23 224 3 "dtspcd";
   E 23 225 1 "dayliteserver";
   E 23 226 1 "wrspice";
   E 23 227 1 "xic";
   E 23 228 1 "xtlserv";
   E 23 229 1 "daylitetouch";
   E 23 230 2 "tipc";
   E 23 233 1 "spdy";
   E 23 234 3 "bex-webadmin";
   E 23 235 3 "backup-express";
   E 23 236 3 "pnbs";
   E 23 242 1 "damewaremobgtwy";
   E 23 245 3 "nbt-wol";
   E 23 252 3 "pulsonixnls";
   E 23 253 3 "meta-corp";
   E 23 254 3 "aspentec-lm";
   E 23 255 3 "watershed-lm";
   E 24 0 3 "statsci1-lm";
   E 24 1 3 "statsci2-lm";
   E 24 2 3 "lonewolf-lm";
   E 24 3 3 "montage-lm";
   E 24 4 3 "ricardo-lm";
   E 24 5 3 "tal-pod";
   E 24 15 1 "efb-aci";
   E 24 16 1 "ecmp";
   E 24 16 2 "ecmp-data";
   E 24 17 3 "patrol-ism";
   E 24 18 3 "patrol-coll";
   E 24 19 3 "pscribe";
   E 24 56 3 "lm-x";
   E 24 57 2 "thermo-calc";
   E 24 65 3 "qmtps";
   E 24 78 3 "radmind";
   E 24 97 1 "jeol-nsdtp-1";
   E 24 97 2 "jeol-nsddp-1";
   E 24 98 1 "jeol-nsdtp-2";
   E 24 98 2 "jeol-nsddp-2";
   E 24 99 1 "jeol-nsdtp-3";
   E 24 99 2 "jeol-nsddp-3";
   E 24 100 1 "jeol-nsdtp-4";
   E 24 100 2 "jeol-nsddp-4";
   E 24 107 3 "tl1-raw-ssl";
   E 24 108 3 "tl1-ssh";
   E 24 109 3 "crip"].

Definition ports_32 : list entry :=
  [E 24 123 1 "gld";
   E 24 124 3 "grid";
   E 24 125 3 "grid-alt";
   E 24 156 3 "bmc-grx";
   E 24 157 3 "bmc-ctd-ldap";
   E 24 157 3 "bmc_ctd_ldap";
   E 24 162 3 "ufmp";
   E 24 171 1 "scup";
   E 24 171 2 "scup-disc";
   E 24 172 3 "abb-escp";
   E 24 173 1 "nav-data-cmd";
   E 24 173 2 "nav-data";
   E 24 176 3 "repsvc";
   E 24 177 3 "emp-server1";
   E 24 178 3 "emp-server2";
   E 24 180 1 "hrd-ncs";
   E 24 180 2 "hrd-ns-disc";
   E 24 181 1 "dt-mgmtsvc";
   E 24 182 1 "dt-vra";
   E 24 199 3 "sflow";
   E 24 200 1 "streletz";
   E 24 202 3 "gnutella-svc";
   E 24 203 3 "gnutella-rtr";
   E 24 206 3 "adap";
   E 24 211 3 "pmcs";
   E 24 216 3 "metaedit-mu";
   E 24 219 2 "ndn";
   E 24 226 3 "metaedit-se";
   E 24 235 1 "redis";
   E 24 238 3 "metatude-mds";
   E 24 245 3 "clariion-evr01";
   E 24 246 3 "metaedit-ws";
   E 25 17 3 "faxcomservice";
   E 25 18 1 "syserverremote";
   E 25 19 1 "svdrp";
   E 25 19 2 "svdrp-disc";
   E 25 20 3 "nim-vdrshell";
   E 25 21 3 "nim-wan";
   E 25 32 1 "pgbouncer";
   E 25 42 1 "tarp";
   E 25 43 3 "sun-sr-https";
   E 25 44 3 "sge-qmaster";
   E 25 44 3 "sge_qmaster";
   E 25 45 3 "sge-execd";
   E 25 45 3 "sge_execd";
   E 25 46 3 "mysql-proxy";
   E 25 55 3 "skip-cert-recv";
   E 25 56 3 "skip-cert-send";
   E 25 71 3 "lvision-lm";
   E 25 80 3 "sun-sr-http";
   E 25 81 3 "servicetags";
   E 25 82 3 "ldoms-mgmt";
   E 25 83 3 "SunVTS-RMI";
   E 25 84 3 "sun-sr-jms";
   E 25 85 3 "sun-sr-iiop";
   E 25 86 3 "sun-sr-iiops";
   E 25 87 3 "sun-sr-iiop-aut";
   E 25 88 3 "sun-sr-jmx";
   E 25 89 3 "sun-sr-admin";
   E 25 100 3 "boks";
   E 25 101 3 "boks-servc";
   E 25 101 3 "boks_servc";
   E 25 102 3 "boks-servm";
   E 25 102 3 "boks_servm";
   E 25 103 3 "boks-clntd";
   E 25 103 3 "boks_clntd";
   E 25 105 3 "badm-priv";
   E 25 105 3 "badm_priv";
   E 25 106 3 "badm-pub";
   E 25 106 3 "badm_pub";
   E 25 107 3 "bdir-priv";
   E 25 107 3 "bdir_priv";
   E 25 108 3 "bdir-pub";
   E 25 108 3 "bdir_pub";
   E 25 109 3 "mgcs-mfp-port";
   E 25 110 3 "mcer-port";
   E 25 111 2 "dccp-udp";
   E 25 113 1 "netconf-tls";
   E 25 114 11 "syslog-tls";
   E 25 115 3 "elipse-rec";
   E 25 143 3 "lds-distrib";
   E 25 144 3 "lds-dump";
   E 25 147 3 "apc-6547";
   E 25 148 3 "apc-6548";
   E 25 149 3 "apc-6549";
   E 25 150 3 "fg-sysupdate";
   E 25 151 3 "sum";
   E 25 158 3 "xdsxdm";
   E 25 166 3 "sane-port";
   E 25 168 1 "canit-store";
   E 25 168 1 "canit_store";
   E 25 168 2 "rp-reputation";
   E 25 179 3 "affiliate";
   E 25 180 3 "parsec-master";
   E 25 181 3 "parsec-peer";
   E 25 182 3 "parsec-game";
   E 25 183 3 "joaJewelSuite";
   E 25 200 1 "mshvlm";
   E 25 201 1 "mstmg-sstp";
   E 25 202 1 "wsscomfrmwk";
   E 25 219 3 "odette-ftps";
   E 25 220 3 "kftp-data";
   E 25 221 3 "kftp";
   E 25 222 3 "mcftp";
   E 25 223 3 "ktelnet";
   E 25 224 1 "datascaler-db";
   E 25 225 1 "datascaler-ctl";
   E 25 226 3 "wago-service";
   E 25 227 3 "nexgen";
   E 25 228 3 "afesc-mc";
   E 25 232 1 "mxodbc-connect";
   E 25 233 2 "cisco-vpath-tun";
   E 25 234 2 "mpls-pm";
   E 25 235 2 "mpls-udp";
   E 25 236 2 "mpls-udp-dtls";
   E 25 240 1 "ovsdb";
   E 25 253 3 "openflow";
   E 25 255 1 "pcs-sf-ui-man";
   E 26 0 1 "emgmsg";
   E 26 1 2 "palcom-disc";
   E 26 14 3 "vocaltec-gold";
   E 26 15 3 "p4p-portal";
   E 26 16 3 "vision-server";
   E 26 16 3 "vision_server";
   E 26 17 3 "vision-elmd";
   E 26 17 3 "vision_elmd";
   E 26 22 1 "vfbp";
   E 26 22 2 "vfbp-disc";
   E 26 23 3 "osaut";
   E 26 31 1 "clever-ctrace";
   E 26 32 1 "clever-tcpip";
   E 26 33 3 "tsa";
   E 26 34 1 "cleverdetect";
   E 26 40 2 "babel";
   E 26 41 1 "ircs-u";
   E 26 45 3 "kti-icad-srvr";
   E 26 46 3 "e-design-net";
   E 26 47 3 "e-design-web";
   E 26 48 4 "frc-hp";
   E 26 49 4 "frc-mp";
   E 26 50 4 "frc-lp";
   E 26 58 3 "ibprotocol";
   E 26 59 3 "fibotrader-com";
   E 26 60 1 "princity-agent";
   E 26 111 3 "bmc-perf-agent";
   E 26 112 3 "bmc-perf-mgrd";
   E 26 113 3 "adi-gxp-srvprt";
   E 26 114 3 "plysrv-http";
   E 26 115 3 "plysrv-https";
   E 26 121 1 "ntz-tracker"].

Definition ports_33 : list entry :=
  [E 26 122 1 "ntz-p2p-storage";
   E 26 128 2 "bfd-lag";
   E 26 129 3 "dgpf-exchg";
   E 26 130 3 "smc-jmx";
   E 26 131 3 "smc-admin";
   E 26 132 3 "smc-http";
   E 26 133 3 "smc-https";
   E 26 134 3 "hnmp";
   E 26 135 3 "hnm";
   E 26 145 3 "acnet";
   E 26 161 1 "pentbox-sim";
   E 26 175 3 "ambit-lm";
   E 26 185 3 "netmo-default";
   E 26 186 3 "netmo-http";
   E 26 194 3 "iccrushmore";
   E 26 212 1 "acctopus-cc";
   E 26 212 2 "acctopus-st";
   E 26 232 3 "muse";
   E 26 245 1 "jetstream";
   E 27 23 3 "ethoscan";
   E 27 24 3 "xsmsvc";
   E 27 34 3 "bioserver";
   E 27 39 3 "otlp";
   E 27 49 3 "jmact3";
   E 27 50 3 "jmevt2";
   E 27 51 3 "swismgr1";
   E 27 52 3 "swismgr2";
   E 27 53 3 "swistrap";
   E 27 54 3 "swispol";
   E 27 57 3 "acmsoda";
   E 27 58 1 "conductor";
   E 27 58 4 "conductor-mpx";
   E 27 85 3 "MobilitySrv";
   E 27 86 3 "iatp-highpri";
   E 27 87 3 "iatp-normalpri";
   E 27 88 3 "afs3-fileserver";
   E 27 89 3 "afs3-callback";
   E 27 90 3 "afs3-prserver";
   E 27 91 3 "afs3-vlserver";
   E 27 92 3 "afs3-kaserver";
   E 27 93 3 "afs3-volser";
   E 27 94 3 "afs3-errors";
   E 27 95 3 "afs3-bos";
   E 27 96 3 "afs3-update";
   E 27 97 3 "afs3-rmtsys";
   E 27 98 3 "ups-onlinet";
   E 27 99 3 "talon-disc";
   E 27 100 3 "talon-engine";
   E 27 101 3 "microtalon-dis";
   E 27 102 3 "microtalon-com";
   E 27 103 3 "talon-webserver";
   E 27 106 1 "fisa-svc";
   E 27 107 1 "doceri-ctl";
   E 27 107 2 "doceri-view";
   E 27 108 3 "dpserve";
   E 27 109 3 "dpserveadmin";
   E 27 110 3 "ctdp";
   E 27 111 3 "ct2nmcs";
   E 27 112 3 "vmsvc";
   E 27 113 3 "vmsvc-2";
   E 27 118 3 "op-probe";
   E 27 119 1 "iposplanet";
   E 27 128 2 "quest-disc";
   E 27 158 3 "arcp";
   E 27 159 3 "iwg1";
   E 27 161 1 "martalk";
   E 27 168 3 "empowerid";
   E 27 176 2 "zixi-transport";
   E 27 183 2 "jdp-disc";
   E 27 187 3 "lazy-ptop";
   E 27 188 3 "font-service";
   E 27 189 3 "elcn";
   E 27 195 2 "aes-x170";
   E 27 205 1 "rothaga";
   E 27 209 3 "virprot-lm";
   E 27 216 3 "scenidm";
   E 27 217 3 "scenccs";
   E 27 249 3 "cabsm-comm";
   E 27 250 3 "caistoragemgr";
   E 27 251 3 "cacsambroker";
   E 27 252 3 "fsr";
   E 27 253 3 "doc-server";
   E 27 254 3 "aruba-server";
   E 27 255 1 "casrmagent";
   E 28 0 1 "cnckadserver";
   E 28 1 3 "ccag-pib";
   E 28 2 3 "nsrp";
   E 28 3 3 "drm-production";
   E 28 4 1 "metalbend";
   E 28 5 1 "zsecure";
   E 28 6 3 "clutild";
   E 28 13 2 "janus-disc";
   E 28 32 3 "fodms";
   E 28 33 3 "dlip";
   E 28 47 1 "PS-Server";
   E 28 48 1 "PS-Capture-Pro";
   E 28 59 3 "ramp";
   E 28 60 1 "citrixupp";
   E 28 61 1 "citrixuppg";
   E 28 67 2 "aspcoordination";
   E 28 68 1 "display";
   E 28 69 1 "pads";
   E 28 76 1 "frc-hicp";
   E 28 76 2 "frc-hicp-disc";
   E 28 94 3 "cnap";
   E 28 104 3 "watchme-7272";
   E 28 105 3 "oma-rlp";
   E 28 106 3 "oma-rlp-s";
   E 28 107 3 "oma-ulp";
   E 28 108 3 "oma-ilp";
   E 28 109 3 "oma-ilp-s";
   E 28 110 3 "oma-dcdocbs";
   E 28 111 3 "ctxlic";
   E 28 112 3 "itactionserver1";
   E 28 113 3 "itactionserver2";
   E 28 114 1 "mzca-action";
   E 28 114 2 "mzca-alert";
   E 28 115 1 "genstat";
   E 28 197 3 "lcm-server";
   E 28 223 3 "mindfilesys";
   E 28 224 3 "mrssrendezvous";
   E 28 225 3 "nfoldman";
   E 28 226 3 "fse";
   E 28 227 3 "winqedit";
   E 28 229 3 "hexarc";
   E 28 232 3 "rtps-discovery";
   E 28 233 3 "rtps-dd-ut";
   E 28 234 3 "rtps-dd-mt";
   E 28 242 3 "ionixnetmon";
   E 28 243 3 "daqstream";
   E 28 253 3 "mtportmon";
   E 29 2 3 "pmdmgr";
   E 29 3 3 "oveadmgr";
   E 29 4 3 "ovladmgr";
   E 29 5 3 "opi-sock";
   E 29 6 3 "xmpv7";
   E 29 7 3 "pmd";
   E 29 13 3 "faximum";
   E 29 19 3 "oracleas-https";
   E 29 47 1 "sttunnel";
   E 29 49 3 "rise";
   E 29 50 1 "neo4j";
   E 29 67 3 "telops-lmd";
   E 29 76 3 "silhouette";
   E 29 77 3 "ovbus";
   E 29 84 1 "adcp";
   E 29 85 1 "acplt";
   E 29 86 3 "ovhpas";
   E 29 87 3 "pafec-lm";
   E 29 118 3 "saratoga"].

Definition ports_34 : list entry :=
  [E 29 119 3 "atul";
   E 29 120 3 "nta-ds";
   E 29 121 3 "nta-us";
   E 29 122 3 "cfs";
   E 29 123 3 "cwmp";
   E 29 124 3 "tidp";
   E 29 125 3 "nls-tl";
   E 29 126 2 "cloudsignaling";
   E 29 127 1 "controlone-con";
   E 29 136 3 "sncp";
   E 29 139 1 "cfw";
   E 29 142 3 "vsi-omega";
   E 29 145 1 "dell-eql-asm";
   E 29 146 3 "aries-kfinder";
   E 29 150 1 "coherence";
   E 29 150 2 "coherence-disc";
   E 29 164 3 "sun-lm";
   E 29 182 3 "mipi-debug";
   E 29 200 3 "indi";
   E 29 202 5 "simco";
   E 29 203 3 "soap-http";
   E 29 204 3 "zen-pawn";
   E 29 205 3 "xdas";
   E 29 206 1 "hawk";
   E 29 207 1 "tesla-sys-msg";
   E 29 209 3 "pmdfmgt";
   E 29 224 3 "cuseeme";
   E 29 248 1 "imqstomp";
   E 29 249 1 "imqstomps";
   E 29 250 3 "imqtunnels";
   E 29 251 3 "imqtunnel";
   E 29 252 3 "imqbrokerd";
   E 29 253 3 "sun-user-https";
   E 30 0 3 "pando-pub";
   E 30 3 1 "dmt";
   E 30 9 3 "collaber";
   E 30 17 3 "klio";
   E 30 20 1 "em7-secom";
   E 30 27 3 "sync-em7";
   E 30 28 3 "scinet";
   E 30 40 3 "medimageportal";
   E 30 44 3 "nsdeepfreezectl";
   E 30 45 3 "nitrogen";
   E 30 46 3 "freezexservice";
   E 30 47 3 "trident-data";
   E 30 48 7 "osvr";
   E 30 54 3 "smip";
   E 30 58 3 "aiagent";
   E 30 61 3 "scriptview";
   E 30 62 1 "msss";
   E 30 63 3 "sstp-1";
   E 30 64 3 "raqmon-pdu";
   E 30 67 3 "prgp";
   E 30 95 1 "inetfs";
   E 30 97 3 "cbt";
   E 30 98 3 "interwise";
   E 30 99 3 "vstat";
   E 30 101 3 "accu-lmgr";
   E 30 104 2 "s-bfd";
   E 30 106 3 "minivend";
   E 30 107 3 "popup-reminders";
   E 30 109 3 "office-tools";
   E 30 114 3 "q3ade";
   E 30 117 3 "pnet-conn";
   E 30 118 3 "pnet-enc";
   E 30 119 3 "altbsdp";
   E 30 120 3 "asr";
   E 30 121 3 "ssp-client";
   E 30 122 2 "vns-tp";
   E 30 130 3 "rbt-wanopt";
   E 30 165 3 "apc-7845";
   E 30 166 3 "apc-7846";
   E 30 167 1 "csoauth";
   E 30 189 1 "mobileanalyzer";
   E 30 190 1 "rbt-smc";
   E 30 191 1 "mdm";
   E 30 192 2 "mipv6tls";
   E 30 198 1 "owms";
   E 30 200 3 "pss";
   E 30 207 3 "ubroker";
   E 30 220 3 "mevent";
   E 30 221 3 "tnos-sp";
   E 30 222 3 "tnos-dp";
   E 30 223 3 "tnos-dps";
   E 30 233 3 "qo-secure";
   E 30 252 3 "t2-drm";
   E 30 253 3 "t2-brm";
   E 31 26 3 "generalsync";
   E 31 31 3 "supercell";
   E 31 43 3 "micromuse-ncps";
   E 31 44 3 "quest-vista";
   E 31 45 1 "sossd-collect";
   E 31 46 1 "sossd-agent";
   E 31 46 2 "sossd-disc";
   E 31 61 1 "pushns";
   E 31 62 2 "usicontentpush";
   E 31 63 3 "irdmi2";
   E 31 64 3 "irdmi";
   E 31 65 3 "vcom-tunnel";
   E 31 66 3 "teradataordbms";
   E 31 67 3 "mcreport";
   E 31 69 3 "mxi";
   E 31 72 3 "http-alt";
   E 31 83 3 "qbdb";
   E 31 84 3 "intu-ec-svcdisc";
   E 31 85 3 "intu-ec-client";
   E 31 86 3 "oa-system";
   E 31 89 3 "ca-audit-da";
   E 31 90 3 "ca-audit-ds";
   E 31 96 3 "pro-ed";
   E 31 97 3 "mindprint";
   E 31 98 3 "vantronix-mgmt";
   E 31 104 3 "ampify";
   E 31 106 1 "fs-agent";
   E 31 107 1 "fs-server";
   E 31 108 1 "fs-mgmt";
   E 31 115 1 "rocrail";
   E 31 116 3 "senomix01";
   E 31 117 3 "senomix02";
   E 31 118 3 "senomix03";
   E 31 119 3 "senomix04";
   E 31 120 3 "senomix05";
   E 31 121 3 "senomix06";
   E 31 122 3 "senomix07";
   E 31 123 3 "senomix08";
   E 31 124 2 "aero";
   E 31 130 1 "toad-bi-appsrvr";
   E 31 131 1 "infi-async";
   E 31 138 3 "gadugadu";
   E 31 144 3 "http-alt";
   E 31 145 3 "sunproxyadmin";
   E 31 146 3 "us-cli";
   E 31 147 3 "us-srv";
   E 31 150 3 "d-s-n";
   E 31 151 3 "simplifymedia";
   E 31 152 3 "radan-http";
   E 31 155 1 "jamlink";
   E 31 161 3 "sac";
   E 31 164 3 "xprint-server";
   E 31 165 1 "ldoms-migr";
   E 31 166 1 "kz-migr";
   E 31 179 3 "mtl8000-matrix";
   E 31 180 3 "cp-cluster";
   E 31 181 1 "purityrpc";
   E 31 182 3 "privoxy";
   E 31 185 3 "apollo-data";
   E 31 186 3 "apollo-admin";
   E 31 192 3 "paycash-online";
   E 31 193 3 "paycash-wbp";
   E 31 194 3 "indigo-vrmi"].

Definition ports_35 : list entry :=
  [E 31 195 3 "indigo-vbcp";
   E 31 196 3 "dbabble";
   E 31 204 1 "puppet";
   E 31 212 3 "isdd";
   E 31 213 2 "eor-game";
   E 31 217 1 "quantastor";
   E 31 224 3 "patrol";
   E 31 225 3 "patrol-snmp";
   E 31 226 1 "lpar2rrd";
   E 31 245 1 "intermapper";
   E 31 246 3 "vmware-fdm";
   E 31 247 1 "proremote";
   E 31 248 3 "itach";
   E 31 254 1 "gcp-rphy";
   E 31 255 1 "limnerpressure";
   E 32 0 3 "spytechphone";
   E 32 2 3 "blp1";
   E 32 3 3 "blp2";
   E 32 7 3 "vvr-data";
   E 32 8 3 "trivnet1";
   E 32 9 3 "trivnet2";
   E 32 10 2 "aesop";
   E 32 12 3 "lm-perfworks";
   E 32 13 3 "lm-instmgr";
   E 32 14 3 "lm-dta";
   E 32 15 3 "lm-sserver";
   E 32 16 3 "lm-webwatcher";
   E 32 38 3 "rexecj";
   E 32 39 2 "hncp-udp-port";
   E 32 40 2 "hncp-dtls-port";
   E 32 51 3 "synapse-nhttps";
   E 32 84 3 "pando-sec";
   E 32 88 3 "synapse-nhttp";
   E 32 90 1 "libelle";
   E 32 90 2 "libelle-disc";
   E 32 100 3 "blp3";
   E 32 101 1 "hiperscan-id";
   E 32 102 3 "blp4";
   E 32 108 3 "tmi";
   E 32 109 3 "amberon";
   E 32 121 1 "hub-open-net";
   E 32 128 3 "tnp-discover";
   E 32 129 3 "tnp";
   E 32 130 3 "garmin-marine";
   E 32 159 3 "server-find";
   E 32 184 3 "cruise-enum";
   E 32 185 3 "cruise-swroute";
   E 32 186 3 "cruise-config";
   E 32 187 3 "cruise-diags";
   E 32 188 3 "cruise-update";
   E 32 191 3 "m2mservices";
   E 32 192 2 "marathontp";
   E 32 208 3 "cvd";
   E 32 209 3 "sabarsd";
   E 32 210 3 "abarsd";
   E 32 211 3 "admind";
   E 32 212 1 "svcloud";
   E 32 213 1 "svbackup";
   E 32 223 1 "dlpx-sp";
   E 32 224 3 "espeech";
   E 32 225 3 "espeech-rtp";
   E 32 250 3 "cybro-a-bus";
   E 32 251 3 "pcsync-https";
   E 32 252 3 "pcsync-http";
   E 32 253 1 "copy";
   E 32 253 2 "copy-disc";
   E 33 2 3 "npmp";
   E 33 9 1 "nexentamv";
   E 33 22 1 "cisco-avp";
   E 33 23 5 "pim-port";
   E 33 24 3 "otv";
   E 33 25 3 "vp2p";
   E 33 26 3 "noteshare";
   E 33 52 3 "fmtp";
   E 33 53 1 "cmtp-mgt";
   E 33 53 2 "cmtp-av";
   E 33 54 1 "ftnmtp";
   E 33 55 2 "lsp-self-ping";
   E 33 106 3 "rtsp-alt";
   E 33 107 3 "d-fence";
   E 33 119 3 "dof-tunnel";
   E 33 152 3 "asterix";
   E 33 161 2 "canon-cpp-disc";
   E 33 162 3 "canon-mfnp";
   E 33 163 3 "canon-bjnp1";
   E 33 164 3 "canon-bjnp2";
   E 33 165 3 "canon-bjnp3";
   E 33 166 3 "canon-bjnp4";
   E 33 167 1 "imink";
   E 33 217 1 "monetra";
   E 33 218 1 "monetra-admin";
   E 33 227 1 "msi-cps-rm";
   E 33 227 2 "msi-cps-rm-disc";
   E 33 238 3 "sun-as-jmxrmi";
   E 33 240 1 "openremote-ctrl";
   E 33 251 1 "vnyx";
   E 34 7 1 "nvc";
   E 34 28 2 "dtp-net";
   E 34 29 3 "ibus";
   E 34 46 1 "dey-keyneg";
   E 34 59 3 "mc-appserver";
   E 34 60 3 "openqueue";
   E 34 61 3 "ultraseek-http";
   E 34 62 3 "amcs";
   E 34 66 3 "dpap";
   E 34 74 1 "uec";
   E 34 82 3 "msgclnt";
   E 34 83 3 "msgsrvr";
   E 34 89 3 "acd-pm";
   E 34 96 3 "sunwebadmin";
   E 34 100 3 "truecm";
   E 34 169 3 "dxspider";
   E 34 176 3 "cddbp-alt";
   E 34 177 1 "galaxy4d";
   E 34 179 3 "secure-mqtt";
   E 34 184 1 "ddi-tcp-1";
   E 34 184 2 "ddi-udp-1";
   E 34 185 1 "ddi-tcp-2";
   E 34 185 2 "ddi-udp-2";
   E 34 186 1 "ddi-tcp-3";
   E 34 186 2 "ddi-udp-3";
   E 34 187 1 "ddi-tcp-4";
   E 34 187 2 "ddi-udp-4";
   E 34 188 1 "ddi-tcp-5";
   E 34 188 2 "ddi-udp-5";
   E 34 189 1 "ddi-tcp-6";
   E 34 189 2 "ddi-udp-6";
   E 34 190 1 "ddi-tcp-7";
   E 34 190 2 "ddi-udp-7";
   E 34 195 3 "ospf-lite";
   E 34 196 3 "jmb-cds1";
   E 34 197 3 "jmb-cds2";
   E 34 206 3 "manyone-http";
   E 34 207 3 "manyone-xml";
   E 34 208 3 "wcbackup";
   E 34 209 3 "dragonfly";
   E 34 233 1 "twds";
   E 34 249 1 "ub-dns-control";
   E 34 250 3 "cumulus-admin";
   E 35 20 3 "nod-provider";
   E 35 21 2 "nod-client";
   E 35 29 3 "sunwebadmins";
   E 35 30 3 "http-wmap";
   E 35 31 3 "https-wmap";
   E 35 37 1 "oracle-ms-ens";
   E 35 38 1 "canto-roboflow";
   E 35 39 3 "bctp";
   E 35 40 3 "cslistener";
   E 35 41 3 "etlservicemgr";
   E 35 42 3 "dynamid"].

Definition ports_36 : list entry :=
  [E 35 45 1 "golem";
   E 35 47 2 "ogs-client";
   E 35 48 1 "ogs-server";
   E 35 49 3 "pichat";
   E 35 50 1 "sdr";
   E 35 60 3 "tambora";
   E 35 61 3 "panagolin-ident";
   E 35 62 3 "paragent";
   E 35 63 3 "swa-1";
   E 35 64 3 "swa-2";
   E 35 65 3 "swa-3";
   E 35 66 3 "swa-4";
   E 35 90 1 "versiera";
   E 35 91 1 "fio-cmgmt";
   E 35 120 3 "glrpc";
   E 35 122 4 "lcs-ap";
   E 35 123 1 "emc-pp-mgmtsvc";
   E 35 124 7 "aurora";
   E 35 125 3 "ibm-rsyscon";
   E 35 126 3 "net2display";
   E 35 127 3 "classic";
   E 35 128 3 "sqlexec";
   E 35 129 3 "sqlexec-ssl";
   E 35 130 3 "websm";
   E 35 131 3 "xmltec-xmlmail";
   E 35 132 3 "XmlIpcRegSvc";
   E 35 133 1 "copycat";
   E 35 140 3 "hp-pdl-datastr";
   E 35 140 3 "pdl-datastream";
   E 35 141 3 "bacula-dir";
   E 35 142 3 "bacula-fd";
   E 35 143 3 "bacula-sd";
   E 35 144 3 "peerwire";
   E 35 145 3 "xadmin";
   E 35 146 1 "astergate";
   E 35 146 2 "astergate-disc";
   E 35 147 1 "astergatefax";
   E 35 159 3 "mxit";
   E 35 162 1 "grcmp";
   E 35 163 1 "grcp";
   E 35 171 3 "dddp";
   E 35 200 3 "apani1";
   E 35 201 3 "apani2";
   E 35 202 3 "apani3";
   E 35 203 3 "apani4";
   E 35 204 3 "apani5";
   E 35 231 3 "sun-as-jpda";
   E 35 240 3 "wap-wsp";
   E 35 241 3 "wap-wsp-wtp";
   E 35 242 3 "wap-wsp-s";
   E 35 243 3 "wap-wsp-wtp-s";
   E 35 244 3 "wap-vcard";
   E 35 245 3 "wap-vcal";
   E 35 246 3 "wap-vcard-s";
   E 35 247 3 "wap-vcal-s";
   E 35 248 3 "rjcdb-vcards";
   E 35 249 3 "almobile-system";
   E 35 250 3 "oma-mlp";
   E 35 251 3 "oma-mlp-s";
   E 35 252 3 "serverviewdbms";
   E 35 253 3 "serverstart";
   E 35 254 3 "ipdcesgbs";
   E 35 255 3 "insis";
   E 36 0 3 "acme";
   E 36 1 3 "fsc-port";
   E 36 6 3 "teamcoherence";
   E 36 39 3 "mon";
   E 36 61 2 "traingpsdata";
   E 36 62 3 "pegasus";
   E 36 63 3 "pegasus-ctl";
   E 36 64 3 "pgps";
   E 36 65 3 "swtp-port1";
   E 36 66 3 "swtp-port2";
   E 36 67 3 "callwaveiam";
   E 36 68 3 "visd";
   E 36 69 3 "n2h2server";
   E 36 70 2 "n2receive";
   E 36 71 3 "cumulus";
   E 36 76 3 "armtechdaemon";
   E 36 77 3 "storview";
   E 36 78 3 "armcenterhttp";
   E 36 79 3 "armcenterhttps";
   E 36 84 3 "vrace";
   E 36 90 1 "sphinxql";
   E 36 96 1 "sphinxapi";
   E 36 102 3 "secure-ts";
   E 36 105 3 "guibase";
   E 36 127 3 "mpidcmgr";
   E 36 128 3 "mphlpdmc";
   E 36 129 1 "rancher";
   E 36 130 3 "ctechlicensing";
   E 36 158 3 "fjdmimgr";
   E 36 164 3 "boxp";
   E 36 171 1 "d2dconfig";
   E 36 172 1 "d2ddatatrans";
   E 36 173 1 "adws";
   E 36 174 1 "otp";
   E 36 180 3 "fjinvmgr";
   E 36 181 3 "mpidcagt";
   E 36 184 3 "sec-t4net-srv";
   E 36 185 3 "sec-t4net-clt";
   E 36 186 3 "sec-pc2fax-srv";
   E 36 202 3 "git";
   E 36 227 3 "tungsten-https";
   E 36 228 3 "wso2esb-console";
   E 36 229 1 "mindarray-ca";
   E 36 234 3 "sntlkeyssrvr";
   E 37 28 3 "ismserver";
   E 37 50 2 "sma-spw";
   E 37 63 3 "mngsuite";
   E 37 64 3 "laes-bf";
   E 37 83 3 "trispen-sra";
   E 37 120 3 "ldgateway";
   E 37 121 3 "cba8";
   E 37 122 3 "msgsys";
   E 37 123 3 "pds";
   E 37 124 3 "mercury-disc";
   E 37 125 3 "pd-admin";
   E 37 126 3 "vscp";
   E 37 127 3 "robix";
   E 37 128 3 "micromuse-ncpw";
   E 37 140 3 "streamcomm-ds";
   E 37 142 1 "iadt-tls";
   E 37 144 1 "erunbook-agent";
   E 37 144 1 "erunbook_agent";
   E 37 145 1 "erunbook-server";
   E 37 145 1 "erunbook_server";
   E 37 146 3 "condor";
   E 37 156 3 "odbcpathway";
   E 37 157 3 "uniport";
   E 37 158 1 "peoctlr";
   E 37 159 1 "peocoll";
   E 37 160 2 "mc-comm";
   E 37 168 1 "pqsflows";
   E 37 194 1 "zoomcp";
   E 37 195 3 "xmms2";
   E 37 196 3 "tec5-sdctp";
   E 37 222 3 "client-wakeup";
   E 37 223 3 "ccnx";
   E 37 228 3 "board-roar";
   E 38 19 3 "l5nas-parchan";
   E 38 22 3 "board-voip";
   E 38 25 3 "rasadv";
   E 38 34 3 "tungsten-http";
   E 38 72 3 "davsrc";
   E 38 73 3 "sstp-2";
   E 38 74 3 "davsrcs";
   E 38 147 3 "sapv1";
   E 38 148 1 "sd";
   E 38 150 2 "kca-service"].

Definition ports_37 : list entry :=
  [E 38 160 3 "cyborg-systems";
   E 38 161 3 "gt-proxy";
   E 38 170 3 "monkeycom";
   E 38 171 2 "sctp-tunneling";
   E 38 172 7 "iua";
   E 38 173 2 "enrp";
   E 38 173 4 "enrp-sctp";
   E 38 174 4 "enrp-sctp-tls";
   E 38 175 2 "multicast-ping";
   E 38 181 3 "domaintime";
   E 38 183 3 "sype-transport";
   E 38 197 1 "xybrid-cloud";
   E 38 222 3 "apc-9950";
   E 38 223 3 "apc-9951";
   E 38 224 3 "apc-9952";
   E 38 225 3 "acis";
   E 38 226 1 "hinp";
   E 38 227 1 "alljoyn-stm";
   E 38 227 2 "alljoyn-mcm";
   E 38 228 2 "alljoyn";
   E 38 238 3 "odnsp";
   E 38 250 1 "xybrid-rt";
   E 39 3 3 "dsm-scm-target";
   E 39 4 1 "nsesrvr";
   E 39 6 3 "osm-appsrvr";
   E 39 7 3 "osm-oev";
   E 39 8 3 "palace-1";
   E 39 9 3 "palace-2";
   E 39 10 3 "palace-3";
   E 39 11 3 "palace-4";
   E 39 12 3 "palace-5";
   E 39 13 3 "palace-6";
   E 39 14 3 "distinct32";
   E 39 15 3 "distinct";
   E 39 16 3 "ndmp";
   E 39 17 3 "scp-config";
   E 39 18 3 "documentum";
   E 39 19 3 "documentum-s";
   E 39 19 3 "documentum_s";
   E 39 20 1 "emcrmirccd";
   E 39 21 1 "emcrmird";
   E 39 22 1 "netapp-sync";
   E 39 23 3 "mvs-capacity";
   E 39 24 3 "octopus";
   E 39 25 3 "swdtp-sv";
   E 39 26 1 "rxapi";
   E 39 39 2 "cefd-vmp";
   E 39 66 3 "zabbix-agent";
   E 39 67 3 "zabbix-trapper";
   E 39 71 1 "qptlmd";
   E 39 96 3 "amanda";
   E 39 97 3 "famdc";
   E 39 116 3 "itap-ddtp";
   E 39 117 3 "ezmeeting-2";
   E 39 118 3 "ezproxy-2";
   E 39 119 3 "ezrelay";
   E 39 120 3 "swdtp";
   E 39 123 3 "bctp-server";
   E 39 126 3 "nmea-0183";
   E 39 127 2 "nmea-onenet";
   E 39 129 3 "netiq-endpoint";
   E 39 130 3 "netiq-qcheck";
   E 39 131 3 "netiq-endpt";
   E 39 132 3 "netiq-voipa";
   E 39 133 3 "iqrm";
   E 39 141 1 "cimple";
   E 39 144 3 "bmc-perf-sd";
   E 39 145 1 "bmc-gms";
   E 39 176 3 "qb-db-server";
   E 39 177 1 "snmptls";
   E 39 177 2 "snmpdtls";
   E 39 178 1 "snmptls-trap";
   E 39 178 2 "snmpdtls-trap";
   E 39 216 3 "trisoap";
   E 39 217 1 "rsms";
   E 39 217 2 "rscs";
   E 40 12 3 "apollo-relay";
   E 40 13 2 "eapol-relay";
   E 40 20 3 "axis-wimp-port";
   E 40 48 3 "blocks";
   E 40 81 1 "cosir";
   E 40 199 2 "bngsync";
   E 41 4 2 "hip-nat-t";
   E 41 44 3 "MOS-lower";
   E 41 45 3 "MOS-upper";
   E 41 46 3 "MOS-aux";
   E 41 47 3 "MOS-soap";
   E 41 48 3 "MOS-soap-opt";
   E 41 52 1 "serverdocs";
   E 41 135 1 "printopia";
   E 42 48 3 "gap";
   E 42 53 3 "lpdg";
   E 42 57 1 "nbd";
   E 42 58 2 "nmc-disc";
   E 42 108 3 "helix";
   E 42 128 3 "bveapi";
   E 42 181 1 "octopustentacle";
   E 42 238 3 "rmiaux";
   E 42 248 3 "irisa";
   E 42 249 3 "metasys";
   E 43 87 3 "weave";
   E 43 95 1 "origo-sync";
   E 43 96 1 "netapp-icmgmt";
   E 43 97 1 "netapp-icdata";
   E 43 98 3 "sgi-lk";
   E 43 100 2 "myq-termlink";
   E 43 101 1 "sgi-dmfmgr";
   E 43 102 1 "sgi-soap";
   E 43 103 3 "vce";
   E 43 104 3 "dicom";
   E 43 153 3 "suncacao-snmp";
   E 43 154 3 "suncacao-jmxmp";
   E 43 155 3 "suncacao-rmi";
   E 43 156 3 "suncacao-csa";
   E 43 157 3 "suncacao-websvc";
   E 43 163 2 "snss";
   E 43 164 1 "oemcacao-jmxmp";
   E 43 165 1 "t5-straton";
   E 43 166 1 "oemcacao-rmi";
   E 43 167 1 "oemcacao-websvc";
   E 43 193 3 "smsqp";
   E 43 194 1 "dcsl-backup";
   E 43 200 3 "wifree";
   E 43 203 3 "memcache";
   E 44 55 3 "imip";
   E 44 56 3 "imip-channels";
   E 44 57 3 "arena-server";
   E 44 103 3 "atm-uhas";
   E 44 107 3 "hkp";
   E 44 166 2 "lsdp";
   E 44 225 1 "asgcypresstcps";
   E 45 80 3 "tempest-port";
   E 45 103 1 "emc-xsw-dconfig";
   E 45 200 3 "h323callsigalt";
   E 45 203 3 "emc-xsw-dcache";
   E 45 231 3 "intrepid-ssl";
   E 46 20 1 "lanschool";
   E 46 20 2 "lanschool-mpt";
   E 46 100 3 "xoraya";
   E 46 101 2 "x2e-disc";
   E 46 191 3 "sysinfo-sp";
   E 46 221 4 "wmereceiving";
   E 46 222 4 "wmedistribution";
   E 46 223 4 "wmereporting";
   E 46 224 3 "entextxid";
   E 46 225 3 "entextnetwk";
   E 46 226 3 "entexthigh";
   E 46 227 3 "entextmed";
   E 46 228 3 "entextlow";
   E 46 229 3 "dbisamserver1"].

Definition ports_38 : list entry :=
  [E 46 230 3 "dbisamserver2";
   E 46 231 3 "accuracer";
   E 46 232 3 "accuracer-dbms";
   E 46 233 2 "ghvpn";
   E 46 234 1 "edbsrvr";
   E 46 236 3 "vipera";
   E 46 237 3 "vipera-ssl";
   E 47 77 3 "rets-ssl";
   E 47 89 3 "nupaper-ss";
   E 47 136 3 "cawas";
   E 47 140 3 "hivep";
   E 48 12 3 "linogridengine";
   E 48 14 1 "rads";
   E 48 33 3 "warehouse-sss";
   E 48 34 3 "warehouse";
   E 48 57 3 "italk";
   E 49 209 3 "tsaf";
   E 50 65 1 "netperf";
   E 51 104 3 "i-zipqd";
   E 51 160 3 "bcslogc";
   E 51 161 3 "rs-pias";
   E 51 162 1 "emc-vcas-tcp";
   E 51 162 2 "emc-vcas-udp";
   E 51 167 3 "powwow-client";
   E 51 168 3 "powwow-server";
   E 52 88 1 "doip-data";
   E 52 88 2 "doip-disc";
   E 53 152 3 "bprd";
   E 53 153 3 "bpdbm";
   E 53 154 3 "bpjava-msvc";
   E 53 156 3 "vnetd";
   E 53 214 3 "bpcd";
   E 53 215 3 "vopied";
   E 53 217 3 "nbdb";
   E 53 218 3 "nomdb";
   E 53 250 3 "dsmcc-config";
   E 53 251 3 "dsmcc-session";
   E 53 252 3 "dsmcc-passthru";
   E 53 253 3 "dsmcc-download";
   E 53 254 3 "dsmcc-ccp";
   E 53 255 1 "bmdss";
   E 54 70 3 "ucontrol";
   E 54 105 3 "dta-systems";
   E 54 106 1 "medevolve";
   E 54 176 3 "scotty-ft";
   E 54 177 7 "sua";
   E 54 178 2 "scotty-disc";
   E 54 209 3 "sage-best-com1";
   E 54 210 3 "sage-best-com2";
   E 55 61 3 "vcs-app";
   E 55 62 3 "icpp";
   E 55 63 1 "icpps";
   E 55 65 3 "gcm-app";
   E 55 69 3 "vrts-tdd";
   E 55 70 1 "vcscmd";
   E 55 74 3 "vad";
   E 55 170 3 "cps";
   E 56 78 3 "ca-web-update";
   E 58 88 3 "hde-lcesrvr-1";
   E 58 89 3 "hde-lcesrvr-2";
   E 58 152 3 "hydap";
   E 58 154 1 "onep-tls";
   E 59 14 2 "v2g-secc";
   E 59 241 3 "xpilot";
   E 60 3 3 "3link";
   E 60 195 3 "cisco-snat";
   E 61 44 3 "bex-xr";
   E 61 124 3 "ptp";
   E 62 126 2 "2ping";
   E 62 127 1 "programmar";
   E 62 128 1 "fmsas";
   E 62 129 1 "fmsascon";
   E 62 130 1 "gsms";
   E 62 131 2 "alfin";
   E 62 148 1 "jwpc";
   E 62 149 1 "jwpc-bin";
   E 63 33 3 "sun-sea-port";
   E 63 34 1 "solaris-audit";
   E 63 181 3 "etb4j";
   E 63 182 3 "pduncs";
   E 63 183 3 "pdefmns";
   E 63 232 3 "netserialext1";
   E 63 233 3 "netserialext2";
   E 63 239 3 "netserialext3";
   E 63 240 3 "netserialext4";
   E 64 0 3 "connected";
   E 64 1 1 "rdgs";
   E 64 235 1 "xoms";
   E 65 25 1 "axon-tunnel";
   E 65 26 2 "vtp";
   E 65 149 1 "cadsisvr";
   E 66 4 3 "newbay-snc-mc";
   E 66 54 3 "sgcip";
   E 66 95 3 "intel-rci-mp";
   E 66 96 3 "amt-soap-http";
   E 66 97 3 "amt-soap-https";
   E 66 98 3 "amt-redir-tcp";
   E 66 99 3 "amt-redir-tls";
   E 66 111 3 "isode-dua";
   E 67 32 1 "vestasdlp";
   E 67 33 3 "soundsvirtual";
   E 67 67 3 "chipper";
   E 67 68 3 "avtp";
   E 67 69 3 "avdecc";
   E 67 70 2 "cpsp";
   E 67 71 1 "isa100-gci";
   E 67 72 2 "trdp-pd";
   E 67 73 3 "trdp-md";
   E 67 82 3 "integrius-stp";
   E 67 83 3 "ssh-mgmt";
   E 68 92 1 "db-lsp";
   E 68 92 2 "db-lsp-disc";
   E 68 147 1 "ailith";
   E 69 65 3 "ea";
   E 69 90 3 "zep";
   E 69 91 3 "zigbee-ip";
   E 69 92 3 "zigbee-ips";
   E 69 113 1 "sw-orion";
   E 70 80 3 "biimenu";
   E 70 184 1 "radpdf";
   E 70 216 1 "racf";
   E 71 5 3 "opsec-cvp";
   E 71 6 3 "opsec-ufp";
   E 71 7 3 "opsec-sam";
   E 71 8 3 "opsec-lea";
   E 71 9 3 "opsec-omi";
   E 71 10 3 "ohsc";
   E 71 11 3 "opsec-ela";
   E 71 65 3 "checkpoint-rtm";
   E 71 66 1 "iclid";
   E 71 67 1 "clusterxl";
   E 71 86 3 "gv-pf";
   E 72 31 3 "ac-cluster";
   E 72 202 3 "rds-ib";
   E 72 203 3 "rds-ip";
   E 73 81 3 "ique";
   E 73 193 3 "infotos";
   E 73 200 3 "apc-necmp";
   E 74 56 3 "igrid";
   E 74 63 3 "scintilla";
   E 74 76 1 "j-link";
   E 74 247 3 "opsec-uaa";
   E 74 250 3 "ua-secureagent";
   E 75 83 3 "keysrvr";
   E 75 115 3 "keyshadow";
   E 75 198 3 "mtrgtrans";
   E 75 210 3 "hp-sco";
   E 75 211 3 "hp-sca";
   E 75 212 3 "hp-sessmon";
   E 76 83 3 "fxuptp"].

Definition ports_39 : list entry :=
  [E 76 84 3 "sxuptp";
   E 76 85 3 "jcp";
   E 77 76 2 "mle";
   E 78 30 1 "iec-104-sec";
   E 78 31 3 "dnp-sec";
   E 78 32 3 "dnp";
   E 78 33 3 "microsan";
   E 78 34 3 "commtact-http";
   E 78 35 3 "commtact-https";
   E 78 37 3 "openwebnet";
   E 78 44 2 "ss-idi-disc";
   E 78 45 1 "ss-idi";
   E 78 46 3 "opendeploy";
   E 78 66 3 "nburn-id";
   E 78 66 3 "nburn_id";
   E 78 78 3 "tmophl7mts";
   E 78 80 3 "mountd";
   E 78 81 7 "nfsrdma";
   E 78 89 1 "avesterra";
   E 78 199 3 "tolfab";
   E 78 234 3 "ipdtp-port";
   E 78 254 3 "ipulse-ics";
   E 80 0 3 "emwavemsg";
   E 80 190 3 "track";
   E 82 7 3 "athand-mmp";
   E 82 8 3 "irtrans";
   E 82 18 1 "notezilla-lan";
   E 84 49 1 "rdm-tfs";
   E 84 50 3 "dfserver";
   E 84 86 3 "vofr-gateway";
   E 85 40 3 "tvpm";
   E 85 85 3 "webphone";
   E 85 86 3 "netspeak-is";
   E 85 87 3 "netspeak-cs";
   E 85 88 3 "netspeak-acd";
   E 85 89 3 "netspeak-cps";
   E 85 240 3 "snapenetio";
   E 85 241 3 "optocontrol";
   E 85 242 3 "optohost002";
   E 85 243 3 "optohost003";
   E 85 244 3 "optohost004";
   E 85 245 3 "optohost004";
   E 86 109 1 "dcap";
   E 86 112 1 "gsidcap";
   E 86 206 1 "easyengine";
   E 87 1 3 "wnn6";
   E 87 33 3 "cis";
   E 87 63 1 "shrewd-control";
   E 87 63 2 "shrewd-stream";
   E 87 71 3 "cis-secure";
   E 87 75 3 "wibukey";
   E 87 78 3 "codemeter";
   E 87 79 1 "codemeter-cmwan";
   E 88 9 1 "caldsoft-backup";
   E 88 27 1 "vocaltec-wconf";
   E 88 27 2 "vocaltec-phone";
   E 88 235 3 "talikaserver";
   E 89 16 3 "aws-brf";
   E 89 167 3 "brf-gw";
   E 89 216 3 "inovaport1";
   E 89 217 3 "inovaport2";
   E 89 218 3 "inovaport3";
   E 89 219 3 "inovaport4";
   E 89 220 3 "inovaport5";
   E 89 221 3 "inovaport6";
   E 90 13 1 "gntp";
   E 90 232 2 "s102";
   E 90 254 1 "5afe-dir";
   E 90 254 2 "5afe-disc";
   E 91 37 3 "elxmgmt";
   E 91 104 3 "novar-dbase";
   E 91 105 3 "novar-alarm";
   E 91 106 3 "novar-global";
   E 91 160 1 "aequus";
   E 91 161 1 "aequus-alt";
   E 91 250 1 "areaguard-neo";
   E 93 192 3 "med-ltp";
   E 93 193 3 "med-fsp-rx";
   E 93 194 3 "med-fsp-tx";
   E 93 195 3 "med-supp";
   E 93 196 3 "med-ovw";
   E 93 197 3 "med-ci";
   E 93 198 3 "med-net-svc";
   E 94 178 3 "filesphere";
   E 94 185 3 "vista-4gl";
   E 95 1 3 "ild";
   E 95 2 2 "hid";
   E 95 66 3 "intel-rci";
   E 95 66 3 "intel_rci";
   E 95 145 3 "tonidods";
   E 95 234 3 "binkp";
   E 96 1 1 "bilobit";
   E 96 1 2 "bilobit-update";
   E 96 90 1 "sdtvwcam";
   E 96 100 3 "canditv";
   E 96 101 3 "flashfiler";
   E 96 102 3 "proactivate";
   E 96 104 3 "tcc-http";
   E 96 178 1 "cslg";
   E 97 18 2 "assoc-disc";
   E 97 90 3 "find";
   E 97 168 3 "icl-twobase1";
   E 97 169 3 "icl-twobase2";
   E 97 170 3 "icl-twobase3";
   E 97 171 3 "icl-twobase4";
   E 97 172 3 "icl-twobase5";
   E 97 173 3 "icl-twobase6";
   E 97 174 3 "icl-twobase7";
   E 97 175 3 "icl-twobase8";
   E 97 176 3 "icl-twobase9";
   E 97 177 3 "icl-twobase10";
   E 99 127 4 "rna";
   E 99 232 1 "sauterdongle";
   E 100 4 1 "idtp";
   E 100 193 3 "vocaltec-hos";
   E 101 44 3 "tasp-net";
   E 101 45 3 "niobserver";
   E 101 46 3 "nilinkanalyst";
   E 101 47 3 "niprobe";
   E 101 98 2 "bf-game";
   E 101 99 2 "bf-master";
   E 101 144 3 "quake";
   E 102 21 3 "scscp";
   E 102 96 3 "wnn6-ds";
   E 102 145 1 "cockroach";
   E 102 148 3 "ezproxy";
   E 102 149 3 "ezmeeting";
   E 102 150 3 "k3software-svr";
   E 102 151 3 "k3software-cli";
   E 103 118 1 "exoline-tcp";
   E 103 118 2 "exoline-udp";
   E 103 119 3 "exoconfig";
   E 103 121 3 "exonet";
   E 106 209 3 "imagepump";
   E 107 50 3 "jesmsjc";
   E 107 112 3 "kopek-httphead";
   E 108 134 3 "ars-vista";
   E 108 228 1 "astrolink";
   E 109 95 3 "tw-auth-key";
   E 109 96 3 "nxlmd";
   E 109 97 1 "pqsp";
   E 109 215 2 "a27-ran-ran";
   E 110 40 3 "voxelstorm";
   E 110 80 3 "siemensgsm";
   E 111 173 1 "bosswave";
   E 113 190 4 "sgsap";
   E 113 239 3 "otmp";
   E 113 240 4 "sbcap";
   E 113 241 4 "iuhsctpassoc";
   E 117 47 1 "bingbang"].

Definition ports_40 : list entry :=
  [E 117 48 1 "ndmps";
   E 117 49 3 "pago-services1";
   E 117 50 3 "pago-services2";
   E 117 51 3 "amicon-fpsu-ra";
   E 117 52 2 "amicon-fpsu-s";
   E 117 148 5 "rwp";
   E 118 52 3 "kingdomsonline";
   E 120 112 2 "samsung-disc";
   E 121 23 3 "ovobs";
   E 121 44 1 "autotrac-acp";
   E 121 53 2 "yawn";
   E 122 168 1 "pace-licensed";
   E 122 184 3 "xqosd";
   E 122 225 3 "tetrinet";
   E 123 132 3 "lm-mon";
   E 123 197 1 "dsx-monitor";
   E 123 197 1 "dsx_monitor";
   E 124 21 3 "gamesmith-port";
   E 124 204 3 "iceedcp-tx";
   E 124 204 3 "iceedcp_tx";
   E 124 205 3 "iceedcp-rx";
   E 124 205 3 "iceedcp_rx";
   E 125 34 3 "iracinghelper";
   E 125 249 3 "t1distproc60";
   E 126 144 1 "plex";
   E 126 227 3 "apm-link";
   E 127 123 3 "sec-ntb-clnt";
   E 127 124 3 "DMExpress";
   E 127 255 3 "filenet-powsrm";
   E 128 0 3 "filenet-tms";
   E 128 1 3 "filenet-rpc";
   E 128 2 3 "filenet-nch";
   E 128 3 3 "filenet-rmi";
   E 128 4 3 "filenet-pa";
   E 128 5 3 "filenet-cm";
   E 128 6 3 "filenet-re";
   E 128 7 3 "filenet-pch";
   E 128 8 3 "filenet-peior";
   E 128 9 3 "filenet-obrok";
   E 128 33 3 "mlsn";
   E 128 43 1 "retp";
   E 128 128 3 "idmgratm";
   E 129 36 1 "mysqlx";
   E 129 99 3 "aurora-balaena";
   E 130 51 3 "diamondport";
   E 130 53 1 "dgi-serv";
   E 130 54 1 "speedtrace";
   E 130 54 2 "speedtrace-disc";
   E 130 154 3 "traceroute";
   E 131 120 3 "snip-slave";
   E 133 201 3 "turbonote-2";
   E 134 74 3 "p-net-local";
   E 134 75 3 "p-net-remote";
   E 135 7 1 "dhanalakshmi";
   E 136 146 3 "profinet-rt";
   E 136 147 3 "profinet-rtm";
   E 136 148 3 "profinet-cm";
   E 136 164 3 "ethercat";
   E 136 184 1 "heathview";
   E 136 185 3 "rt-viewer";
   E 136 186 1 "rt-sound";
   E 136 187 1 "rt-devicemapper";
   E 136 188 3 "rt-classmanager";
   E 136 189 1 "rt-labtracker";
   E 136 190 1 "rt-helper";
   E 138 26 1 "kitim";
   E 138 27 1 "altova-lm";
   E 138 27 2 "altova-lm-disc";
   E 138 28 1 "guttersnex";
   E 138 29 1 "openstack-id";
   E 140 161 3 "allpeers";
   E 142 59 2 "wlcp";
   E 142 60 4 "s1-control";
   E 142 70 4 "x2-control";
   E 142 71 4 "slmap";
   E 142 72 4 "nq-ap";
   E 142 91 4 "m2ap";
   E 142 92 4 "m3ap";
   E 142 110 4 "xw-control";
   E 142 172 1 "febooti-aw";
   E 142 250 1 "observium-agent";
   E 143 92 1 "mapx";
   E 144 1 3 "kastenxpipe";
   E 146 99 3 "neckar";
   E 146 107 1 "gdrive-sync";
   E 146 225 1 "eftp";
   E 147 22 3 "unisys-eportal";
   E 148 112 1 "ivs-database";
   E 148 113 1 "ivs-insertion";
   E 148 114 1 "cresco-control";
   E 148 114 2 "crescoctrl-disc";
   E 149 57 3 "galaxy7-data";
   E 149 58 3 "fairview";
   E 149 59 3 "agpolicy";
   E 151 144 1 "sruth";
   E 151 209 1 "secrmmsafecopya";
   E 155 1 3 "turbonote-1";
   E 156 64 3 "safetynetp";
   E 156 87 2 "k-patentssensor";
   E 157 212 1 "sptx";
   E 159 137 3 "cscp";
   E 159 138 3 "csccredir";
   E 159 139 3 "csccfirewall";
   E 159 149 2 "ortec-disc";
   E 160 151 3 "fs-qos";
   E 160 161 1 "tentacle";
   E 161 14 3 "z-wave-s";
   E 163 66 3 "crestron-cip";
   E 163 67 3 "crestron-ctp";
   E 163 68 1 "crestron-cips";
   E 163 69 1 "crestron-ctps";
   E 166 12 3 "candp";
   E 166 13 3 "candrp";
   E 166 14 3 "caerpc";
   E 167 248 1 "recvr-rc";
   E 167 248 2 "recvr-rc-disc";
   E 168 180 3 "reachout";
   E 168 181 3 "ndm-agent-port";
   E 168 182 3 "ip-provision";
   E 168 183 1 "noit-transport";
   E 168 202 1 "shaperai";
   E 168 202 2 "shaperai-disc";
   E 169 175 1 "eq3-update";
   E 169 175 2 "eq3-config";
   E 169 176 1 "ew-mgmt";
   E 169 176 2 "ew-disc-cmd";
   E 169 177 3 "ciscocsdb";
   E 172 91 1 "z-wave-tunnel";
   E 173 33 3 "pmcd";
   E 173 34 3 "pmcdproxy";
   E 173 35 1 "pmwebapi";
   E 173 156 1 "cognex-dataman";
   E 174 0 2 "domiq";
   E 174 9 3 "rbr-debug";
   E 174 56 2 "asihpi";
   E 175 18 3 "EtherNet-IP-2";
   E 175 18 3 "EtherNet/IP-2";
   E 175 100 1 "m3da";
   E 175 100 2 "m3da-disc";
   E 175 200 1 "asmp";
   E 175 200 2 "asmp-mon";
   E 175 201 1 "asmps";
   E 175 202 1 "rs-status";
   E 175 245 1 "synctest";
   E 175 254 3 "invision-ag";
   E 177 202 1 "cloudcheck";
   E 177 202 2 "cloudcheck-ping";
   E 178 110 3 "eba";
   E 179 0 1 "dai-shell";
   E 179 1 3 "qdb2service"].

Definition ports_41 : list entry :=
  [E 179 142 3 "ssr-servermgr";
   E 181 0 1 "inedo";
   E 183 150 1 "spremotetablet";
   E 183 151 3 "mediabox";
   E 183 152 3 "mbus";
   E 183 153 1 "winrm";
   E 183 252 2 "jvl-mactalk";
   E 185 197 3 "dbbrowse";
   E 186 8 3 "directplaysrvr";
   E 186 190 3 "ap";
   E 186 192 3 "bacnet";
   E 186 193 2 "presonus-ucnet";
   E 187 128 3 "nimcontroller";
   E 187 129 3 "nimspooler";
   E 187 130 3 "nimhub";
   E 187 131 3 "nimgtw";
   E 187 132 1 "nimbusdb";
   E 187 133 1 "nimbusdbctrl";
   E 187 177 1 "3gpp-cbsp";
   E 187 178 1 "weandsf";
   E 188 0 3 "isnetserv";
   E 188 1 3 "blp5";
   E 189 172 3 "com-bardac-dw";
   E 189 235 3 "iqobject";
   E 190 13 3 "robotraconteur";
   E 191 104 1 "matahari"].

Definition protocols_0 : list protoent :=
  [P "hopopt" ["ip"%literal] 0;
   P "icmp" [] 1;
   P "igmp" [] 2;
   P "ggp" [] 3;
   P "ipv4" [] 4;
   P "st" [] 5;
   P "tcp" [] 6;
   P "cbt" [] 7;
   P "egp" [] 8;
   P "igp" [] 9;
   P "bbn-rcc-mon" [] 10;
   P "nvp-ii" [] 11;
   P "pup" [] 12;
   P "argus" [] 13;
   P "emcon" [] 14;
   P "xnet" [] 15;
   P "chaos" [] 16;
   P "udp" [] 17;
   P "mux" [] 18;
   P "dcn-meas" [] 19;
   P "hmp" [] 20;
   P "prm" [] 21;
   P "xns-idp" [] 22;
   P "trunk-1" [] 23;
   P "trunk-2" [] 24;
   P "leaf-1" [] 25;
   P "leaf-2" [] 26;
   P "rdp" [] 27;
   P "irtp" [] 28].

Definition protocols_1 : list protoent :=
  [P "iso-tp4" [] 29;
   P "netblt" [] 30;
   P "mfe-nsp" [] 31;
   P "merit-inp" [] 32;
   P "dccp" [] 33;
   P "3pc" [] 34;
   P "idpr" [] 35;
   P "xtp" [] 36;
   P "ddp" [] 37;
   P "idpr-cmtp" [] 38;
   P "tp++" [] 39;
   P "il" [] 40;
   P "ipv6" [] 41;
   P "sdrp" [] 42;
   P "ipv6-route" [] 43;
   P "ipv6-frag" [] 44;
   P "idrp" [] 45;
   P "rsvp" [] 46;
   P "gre" [] 47;
   P "dsr" [] 48;
   P "bna" [] 49;
   P "esp" [] 50;
   P "ah" [] 51;
   P "i-nlsp" [] 52;
   P "swipe" [] 53;
   P "narp" [] 54;
   P "mobile" [] 55;
   P "tlsp" [] 56;
   P "skip" [] 57].

Definition protocols_2 : list protoent :=
  [P "ipv6-icmp" [] 58;
   P "ipv6-nonxt" [] 59;
   P "ipv6-opts" [] 60;
   P "cftp" [] 62;
   P "sat-expak" [] 64;
   P "kryptolan" [] 65;
   P "rvd" [] 66;
   P "ippc" [] 67;
   P "sat-mon" [] 69;
   P "visa" [] 70;
   P "ipcv" [] 71;
   P "cpnx" [] 72;
   P "cphb" [] 73;
   P "wsn" [] 74;
   P "pvp" [] 75;
   P "br-sat-mon" [] 76;
   P "sun-nd" [] 77;
   P "wb-mon" [] 78;
   P "wb-expak" [] 79;
   P "iso-ip" [] 80;
   P "vmtp" [] 81;
   P "secure-vmtp" [] 82;
   P "vines" [] 83;
   P "ttp" ["iptm"%literal] 84;
   P "nsfnet-igp" [] 85;
   P "dgp" [] 86;
   P "tcf" [] 87;
   P "eigrp" [] 88;
   P "ospfigp" [] 89].

Definition protocols_3 : list protoent :=
  [P "sprite-rpc" [] 90;
   P "larp" [] 91;
   P "mtp" [] 92;
   P "ax.25" [] 93;
   P "ipip" [] 94;
   P "micp" [] 95;
   P "scc-sp" [] 96;
   P "etherip" [] 97;
   P "encap" [] 98;
   P "gmtp" [] 100;
   P "ifmp" [] 101;
   P "pnni" [] 102;
   P "pim" [] 103;
   P "aris" [] 104;
   P "scps" [] 105;
   P "qnx" [] 106;
   P "a/n" [] 107;
   P "ipcomp" [] 108;
   P "snp" [] 109;
   P "compaq-peer" [] 110;
   P "ipx-in-ip" [] 111;
   P "vrrp" [] 112;
   P "pgm" [] 113;
   P "l2tp" [] 115;
   P "ddx" [] 116;
   P "iatp" [] 117;
   P "stp" [] 118;
   P "srp" [] 119;
   P "uti" [] 120].

Definition protocols_4 : list protoent :=
  [P "smp" [] 121;
   P "sm" [] 122;
   P "ptp" [] 123;
   P "isis-over-ipv4" [] 124;
   P "fire" [] 125;
   P "crtp" [] 126;
   P "crudp" [] 127;
   P "sscopmce" [] 128;
   P "iplt" [] 129;
   P "sps" [] 130;
   P "pipe" [] 131;
   P "sctp" [] 132;
   P "fc" [] 133;
   P "rsvp-e2e-ignore" [] 134;
   P "mobility-header" [] 135;
   P "udplite" [] 136;
   P "mpls-in-ip" [] 137;
   P "manet" [] 138;
   P "hip" [] 139;
   P "shim6" [] 140;
   P "wesp" [] 141;
   P "rohc" [] 142;
   P "reserved" ["raw"%literal] 255].

Definition iana_ports : list entry := ports_0 ++ ports_1 ++ ports_2 ++ ports_3 ++ ports_4 ++ ports_5 ++ ports_6 ++ ports_7 ++ ports_8 ++ ports_9 ++ ports_10 ++ ports_11 ++ ports_12 ++ ports_13 ++ ports_14 ++ ports_15 ++ ports_16 ++ ports_17 ++ ports_18 ++ ports_19 ++ ports_20 ++ ports_21 ++ ports_22 ++ ports_23 ++ ports_24 ++ ports_25 ++ ports_26 ++ ports_27 ++ ports_28 ++ ports_29 ++ ports_30 ++ ports_31 ++ ports_32 ++ ports_33 ++ ports_34 ++ ports_35 ++ ports_36 ++ ports_37 ++ ports_38 ++ ports_39 ++ ports_40 ++ ports_41.

(** __iana_port_numbers *)
Definition iana_port_numbers : list Z := table_bytes iana_ports.

(** entries *)
Definition protocol_entries : list protoent := protocols_0 ++ protocols_1 ++ protocols_2 ++ protocols_3 ++ protocols_4.

(** ** The table is as the functions need it *)

Lemma iana_ports_ok : table_okb iana_ports = true.
Proof. vm_cast_no_check (eq_refl true). Qed.

(** C38: services are found.  In the C locale, for any service and protocol name, getservbyname
    returns null if no entry of the table has this name (up to case) and protocol; else,
    with [e] the first one, the service of the port of [e]: its official name is
    that of the first entry of this port and protocol, its aliases are the names of
    all the others, in the order of the table.  getservbyport does the same for the first
    entry with this port and protocol. *)
Theorem services_found name proto port : is_string name -> is_string proto ->
  let protoid := protocol_id proto in
  match find_service protoid name iana_ports with
  | None => getservbyname ctype_us_ascii iana_port_numbers (name ++ [0]) (proto ++ [0]) = Some None
  | Some e => exists se, getservbyname ctype_us_ascii iana_port_numbers (name ++ [0]) (proto ++ [0]) = Some (Some se) /\
      describes protoid (group protoid e iana_ports) se
  end /\
  match head (filter (fun e => e_matches protoid e = true /\ e_port e = port) iana_ports) with
  | None => getservbyport ctype_us_ascii iana_port_numbers port (proto ++ [0]) = Some None
  | Some e => exists se, getservbyport ctype_us_ascii iana_port_numbers port (proto ++ [0]) = Some (Some se) /\
      describes protoid (group protoid e iana_ports) se
  end.
Proof.
  intros Hn Hp. pose proof (table_okb_correct _ iana_ports_ok) as Hok.
  split; [by apply getservbyname_ok|by apply getservbyport_ok].
Qed.

(** Port 80, in network order, is that of http. *)
Lemma services_found_witness : exists se,
  getservbyport ctype_us_ascii iana_port_numbers 0x5000 (chars "tcp"%literal ++ [0]) = Some (Some se) /\
  describes PORTSTR_TCP [E 0 80 7 "http"; E 0 80 3 "www"; E 0 80 3 "www-http"] se.
Proof.
  destruct (services_found (chars "www"%literal) (chars "tcp"%literal) 0x5000) as [_ H]; [repeat constructor; cbn; lia..|].
  assert (Hid : protocol_id (chars "tcp"%literal) = PORTSTR_TCP) by (vm_compute; reflexivity).
  assert (Hf : head (filter (fun e => e_matches PORTSTR_TCP e = true /\ e_port e = 0x5000) iana_ports) = Some (E 0 80 7 "http"))
    by (vm_compute; reflexivity).
  assert (Hg : group PORTSTR_TCP (E 0 80 7 "http") iana_ports = [E 0 80 7 "http"; E 0 80 3 "www"; E 0 80 3 "www-http"])
    by (vm_compute; reflexivity).
  cbv zeta in H. rewrite Hid, Hf, Hg in H. exact H.
Defined.

(** ** Protocols *)

#[global] Instance protoent_eq_dec : EqDecision protoent.
Proof. solve_decision. Defined.

(** Every protocol is found under its name, its aliases and its number. *)
Lemma protocols_found : Forall (fun pe =>
    getprotobynumber (p_proto pe) protocol_entries = Some pe /\
    Forall (fun name => getprotobyname ctype_us_ascii name protocol_entries = Some (Some pe)) (p_name pe :: p_aliases pe))
  protocol_entries.
Proof.
  apply (bool_decide_unpack _). vm_cast_no_check I.
Qed.
