(* ===== verification/AddrInfo.v ===== *)
(** * Addresses and services by name: getaddrinfo and getnameinfo

    Sources: src/libc/netdb/getaddrinfo.c and getnameinfo.c, with the constants of
    src/include/netdb.h, sys/socket.h and netinet/in.h.

    The functions put together the parsers and printers of [Inet] and the table of
    [Services].  Names are lists of characters without the terminator, as in [Inet].  The
    local array of aliases has 16 elements; writing behind it is undefined ([None]), and
    whether calloc succeeds is an argument.

    The theorems: getaddrinfo never runs out of the array, for any service name, as the
    table has no name more than six times; and it reads back the numeric names that
    getnameinfo prints. *)

From S2P Require Import Prelude CalendarTime Charset WideClass StrToInt Printf Inet Services ServiceTable.

#[local] Open Scope Z_scope.
#[local] Ltac Zify.zify_post_hook ::= Z.to_euclidean_division_equations.

(** ** Constants and data *)

Definition AI_PASSIVE : Z := 0x1.
Definition AI_NUMERICSERV : Z := 0x2.

Definition EAI_BADFLAGS : Z := 2.
Definition EAI_FAMILY : Z := 4.
Definition EAI_MEMORY : Z := 5.
Definition EAI_NONAME : Z := 6.
Definition EAI_SOCKTYPE : Z := 8.

Definition SOCK_DGRAM : Z := 0x80.
Definition SOCK_STREAM : Z := 0x82.
Definition IPPROTO_TCP : Z := 6.
Definition IPPROTO_UDP : Z := 17.

Definition AF_UNSPEC_ : Z := 0.
Definition AF_INET_ : Z := 1.
Definition AF_INET6_ : Z := 2.

Definition INADDR_ANY : Z := 0.
Definition INADDR_LOOPBACK : Z := 0x7f000001.
Definition IN6ADDR_ANY_INIT : list Z := replicate 16 0.
Definition IN6ADDR_LOOPBACK_INIT : list Z := replicate 15 0 ++ [1].
Definition INET6_ADDRSTRLEN : Z := 46.

Record hints := Hints { ai_flags : Z; ai_family : Z; ai_socktype : Z; ai_protocol : Z }.

Definition default_hints : hints := Hints 0 AF_UNSPEC_ 0 0.

(** struct alias; the port is in network order. *)
Record alias := Alias { socktype : Z; protocol : Z; port : Z }.

Definition NALIASES_MAX : nat := 16.

(** An element of the result: the fields of struct addrinfo and those of the address. *)
Record addrinfo := AddrInfo {
  r_family : Z;
  r_socktype : Z;
  r_protocol : Z;
  r_port : Z;
  r_addr : list Z;
  r_scope : Z
}.

(** ** getaddrinfo *)

(** The loops that read decimal numbers into an unsigned type with maximum [max]: [None]
    when a character is not a digit or the number overflows. *)
Fixpoint decimal_loop (max number : Z) (s : list Z) : option Z :=
  match s with
  | [] => None
  | c :: s =>
      if (c <? 48) || (57 <? c) then None
      else if max <? number * 10 then None
      else if max <? number * 10 + (c - 48) then None
      else match s with [] => Some (number * 10 + (c - 48)) | _ => decimal_loop max (number * 10 + (c - 48)) s end
  end.

(** strchr *)
Fixpoint find_char (c : Z) (s : list Z) : option nat :=
  match s with
  | [] => None
  | c' :: s => if c' =? c then Some O else i ← find_char c s; Some (S i)
  end.

(** The address and the scope, or 0. *)
Definition inet6_pton (nodename : list Z) : option (option (list Z * Z)) :=
  r ← inet_pton6 nodename;
  match r with
  | Some addr => Some (Some (addr, 0))
  | None =>
      match find_char 37 nodename with
      | None => Some None
      | Some i =>
          let addrlen := Z.of_nat i + 1 in
          if INET6_ADDRSTRLEN <? addrlen then Some None
          else
            r ← inet_pton6 (take i nodename);
            match r with
            | None => Some None
            | Some addr =>
                Some (scope ← decimal_loop UINT_MAX 0 (drop (S i) nodename); Some (addr, scope))
            end
      end
  end.

(** ADD_ALIAS *)
Definition add_alias (aliases : list alias) (a : alias) : option (list alias) :=
  if (length aliases <? NALIASES_MAX)%nat then Some (aliases ++ [a]) else None.

Definition htons (p : Z) : Z := u16 (Z.lor (Z.shiftl p 8) (Z.shiftr p 8)).

(** The loop over the port numbers. *)
Fixpoint alias_loop (fuel : nat) (C : lc_ctype) (servname : list Z) (want_tcp want_udp : bool) (entry : list Z) (aliases : list alias)
    : option (list alias) :=
  match fuel with
  | O => None
  | S fuel =>
      p ← portstr_get_port entry;
      if p =? 0 then Some aliases
      else
        r ← strcasecmp_l C (portstr_get_name entry) (servname ++ [0]);
        aliases ← (if r =? 0 then
          tcp ← portstr_match_protoid entry PORTSTR_TCP;
          aliases ← (if want_tcp && tcp then add_alias aliases (Alias SOCK_STREAM IPPROTO_TCP p) else Some aliases);
          udp ← portstr_match_protoid entry PORTSTR_UDP;
          if want_udp && udp then add_alias aliases (Alias SOCK_DGRAM IPPROTO_UDP p) else Some aliases
          else Some aliases);
        next ← portstr_get_next entry;
        alias_loop fuel C servname want_tcp want_udp next aliases
  end.

(** Which protocols a service name is looked up for, or EAI_SOCKTYPE. *)
Definition wanted (h : hints) : option (bool * bool) :=
  if ai_socktype h =? 0 then Some (true, true)
  else if ai_socktype h =? SOCK_STREAM then
    if negb (ai_protocol h =? 0) && negb (ai_protocol h =? IPPROTO_TCP) then None else Some (true, false)
  else if ai_socktype h =? SOCK_DGRAM then
    if negb (ai_protocol h =? 0) && negb (ai_protocol h =? IPPROTO_UDP) then None else Some (false, true)
  else None.

(** The aliases of the service, or an error. *)
Definition get_aliases (C : lc_ctype) (iana_port_numbers : list Z) (servname : option (list Z)) (h : hints) : option (Z + list alias) :=
  match servname with
  | None => a ← add_alias [] (Alias SOCK_STREAM IPPROTO_TCP 0); Some (inr a)
  | Some s =>
      match decimal_loop 65535 0 s with
      | Some port =>
          if ai_socktype h =? 0 then
            a ← add_alias [] (Alias SOCK_STREAM IPPROTO_TCP (htons port));
            a ← add_alias a (Alias SOCK_DGRAM IPPROTO_UDP (htons port));
            Some (inr a)
          else a ← add_alias [] (Alias (ai_socktype h) (ai_protocol h) (htons port)); Some (inr a)
      | None =>
          if Z.land (ai_flags h) AI_NUMERICSERV =? 0 then
            match wanted h with
            | None => Some (inl EAI_SOCKTYPE)
            | Some (want_tcp, want_udp) =>
                a ← alias_loop (length iana_port_numbers) C s want_tcp want_udp iana_port_numbers [];
                Some (inr a)
            end
          else Some (inr [])
      end
  end.

(** have_inet with addr_inet, and have_inet6 with addr_inet6 and scope_inet6. *)
Definition get_inet (nodename : option (list Z)) (h : hints) (have : bool) : option (option (list Z)) :=
  if have then
    match nodename with
    | None => Some (Some (htonl (if negb (Z.land (ai_flags h) AI_PASSIVE =? 0) then INADDR_ANY else INADDR_LOOPBACK)))
    | Some n => inet_aton n
    end
  else Some None.

Definition get_inet6 (nodename : option (list Z)) (h : hints) (have : bool) : option (option (list Z * Z)) :=
  if have then
    match nodename with
    | None => Some (Some (if negb (Z.land (ai_flags h) AI_PASSIVE =? 0) then IN6ADDR_ANY_INIT else IN6ADDR_LOOPBACK_INIT, 0))
    | Some n => inet6_pton n
    end
  else Some None.

(** The loops that fill in the entries. *)
Definition inet6_entries (addr : option (list Z * Z)) (aliases : list alias) : list addrinfo :=
  match addr with
  | None => []
  | Some (addr, scope) => (fun a => AddrInfo AF_INET6_ (socktype a) (protocol a) (port a) addr scope) <$> aliases
  end.

Definition inet_entries (addr : option (list Z)) (aliases : list alias) : list addrinfo :=
  match addr with
  | None => []
  | Some addr => (fun a => AddrInfo AF_INET_ (socktype a) (protocol a) (port a) addr 0) <$> aliases
  end.

(** [memory]: calloc succeeds.  ai_canonname is the node name that was passed. *)
Definition getaddrinfo (C : lc_ctype) (iana_port_numbers : list Z) (memory : bool)
    (nodename servname : option (list Z)) (hints_ptr : option hints) : option (Z + list addrinfo) :=
  let h := default default_hints hints_ptr in
  if negb (Z.land (ai_flags h) (Z.lnot (Z.lor AI_PASSIVE AI_NUMERICSERV)) =? 0) then Some (inl EAI_BADFLAGS)
  else
    match nodename, servname with
    | None, None => Some (inl EAI_NONAME)
    | _, _ =>
        let families :=
          if ai_family h =? AF_UNSPEC_ then Some (true, true)
          else if ai_family h =? AF_INET_ then Some (true, false)
          else if ai_family h =? AF_INET6_ then Some (false, true)
          else None in
        match families with
        | None => Some (inl EAI_FAMILY)
        | Some (have_inet, have_inet6) =>
            inet ← get_inet nodename h have_inet;
            inet6 ← get_inet6 nodename h have_inet6;
            r ← get_aliases C iana_port_numbers servname h;
            match r with
            | inl error => Some (inl error)
            | inr aliases =>
                let result := inet6_entries inet6 aliases ++ inet_entries inet aliases in
                match result with
                | [] => Some (inl EAI_NONAME)
                | _ => Some (if memory then inr result else inl EAI_MEMORY)
                end
            end
        end
    end.

(** ** getnameinfo *)




Section GetNameInfo.
  (** The locale of snprintf and what the buffer of inet_ntop holds at first. *)
  Context (C : lc_ctype) (numeric : lc_numeric) (buf : list Z).



End GetNameInfo.

(** ** The aliases of a service *)

(** What an entry with the name contributes. *)
Definition entry_aliases (want_tcp want_udp : bool) (e : entry) : list alias :=
  (if want_tcp && e_matches PORTSTR_TCP e then [Alias SOCK_STREAM IPPROTO_TCP (e_port e)] else []) ++
  (if want_udp && e_matches PORTSTR_UDP e then [Alias SOCK_DGRAM IPPROTO_UDP (e_port e)] else []).

Definition service_aliases (want_tcp want_udp : bool) (servname : list Z) (es : list entry) : list alias :=
  concat ((fun e => if same_name (e_name e) servname then entry_aliases want_tcp want_udp e else []) <$> es).

Lemma add_alias_ok al a : (length al < 16)%nat -> add_alias al a = Some (al ++ [a]).
Proof. intros H. unfold add_alias, NALIASES_MAX. by rewrite (proj2 (Nat.ltb_lt _ _) H). Qed.

Lemma alias_loop_ok fuel servname want_tcp want_udp l al : Forall entry_ok l -> is_string servname -> (length l < fuel)%nat ->
  (length al + length (service_aliases want_tcp want_udp servname l) <= 16)%nat ->
  alias_loop fuel ctype_us_ascii servname want_tcp want_udp (table_bytes l) al
    = Some (al ++ service_aliases want_tcp want_udp servname l).
Proof.
  intros Hl Hs. revert fuel al. induction Hl as [|e l He Hl IH]; intros fuel al Hf Hlen;
    (destruct fuel as [|fuel]; [cbn in Hf; lia|]); cbn [alias_loop].
  - rewrite end_port. cbn [mbind option_bind]. unfold service_aliases. cbn. by rewrite app_nil_r.
  - rewrite (get_port e l He). cbn [mbind option_bind]. rewrite (proj2 (Z.eqb_neq _ _) (e_port_pos e He)), get_name.
    destruct (strcasecmp_same (e_name e) (table_bytes l) servname (ok_name _ He) Hs) as (x & -> & Hx). cbn [mbind option_bind]. rewrite Hx.
    unfold service_aliases in Hlen |- *. rewrite fmap_cons in Hlen |- *. cbn [concat] in Hlen |- *. rewrite length_app in Hlen.
    fold (service_aliases want_tcp want_udp servname l) in Hlen |- *. cbn in Hf. rewrite !get_match, get_next by done.
    destruct (same_name (e_name e) servname); [|cbn [mbind option_bind app length] in *; rewrite IH by lia; done].
    rewrite app_assoc. unfold entry_aliases in Hlen |- *. rewrite length_app in Hlen. cbn [mbind option_bind].
    destruct (want_tcp && e_matches PORTSTR_TCP e), (want_udp && e_matches PORTSTR_UDP e); cbn [length] in Hlen; cbn [mbind option_bind];
      rewrite ?add_alias_ok by (rewrite ?length_app; cbn; lia); cbn [mbind option_bind];
      rewrite ?add_alias_ok by (rewrite ?length_app; cbn; lia); cbn [mbind option_bind];
      rewrite IH by (rewrite ?length_app; cbn; lia); cbn [app]; by rewrite <- ?app_assoc, ?app_nil_r.
Qed.

(** *** How often a name is in the table *)

Definition weight (e : entry) : nat := length (entry_aliases true true e).

Lemma service_aliases_weight wt wu s es :
  (length (service_aliases wt wu s es) <= sum_list ((fun e => if same_name (e_name e) s then weight e else 0%nat) <$> es))%nat.
Proof.
  unfold service_aliases. induction es as [|e es IH]; [done|]. rewrite !fmap_cons. cbn [concat]. rewrite length_app. cbn [sum_list_with id].
  enough (length (if same_name (e_name e) s then entry_aliases wt wu e else []) <= (if same_name (e_name e) s then weight e else 0))%nat by lia.
  destruct (same_name (e_name e) s); [|done]. unfold weight, entry_aliases. rewrite !length_app.
  destruct wt, wu, (e_matches PORTSTR_TCP e), (e_matches PORTSTR_UDP e); cbn; lia.
Qed.

(** The weights by name, for a way [key] to tell names apart. *)
Definition weights (key : entry -> list Z) (es : list entry) : gmap (list Z) nat :=
  foldr (fun e m => <[key e := (weight e + default 0%nat (m !! key e))%nat]> m) ∅ es.

Lemma weights_ok key es k :
  default 0%nat (weights key es !! k) = sum_list ((fun e => if decide (key e = k) then weight e else 0%nat) <$> es).
Proof.
  induction es as [|e es IH]; [by cbn; rewrite lookup_empty|]. cbn [weights foldr]. rewrite fmap_cons. cbn [sum_list_with id].
  fold (weights key es). case_decide as Hk.
  - subst. rewrite lookup_insert_eq. cbn. by rewrite IH.
  - rewrite lookup_insert_ne by done. exact IH.
Qed.

(** [seen] from a table. *)
Definition lowers : list Z := (fun c => seen (Z.of_nat c)) <$> seq 0 128.
Definition table_key (lowers : list Z) (e : entry) : list Z := (fun c => default 0 (lowers !! Z.to_nat c)) <$> e_name e.

Lemma table_key_ok e : entry_ok e -> table_key lowers e = seen <$> e_name e.
Proof.
  intros [_ _ _ Hn]. unfold table_key. induction Hn as [|c n Hc _ IH]; [done|]. rewrite !fmap_cons. f_equal; [|exact IH].
  unfold lowers. rewrite list_lookup_fmap, lookup_seq_lt by lia. cbn. f_equal. lia.
Qed.

Definition weights_bounded (bound : nat) (es : list entry) : bool :=
  let l := lowers in
  let m := weights (table_key l) es in
  forallb (fun e => (default 0 (m !! table_key l e) <=? bound)%nat) es.

Lemma iana_weights : weights_bounded 6 iana_ports = true.
Proof. vm_cast_no_check (eq_refl true). Qed.

Lemma weights_bounded_ok bound es s : Forall entry_ok es -> weights_bounded bound es = true ->
  (sum_list ((fun e => if same_name (e_name e) s then weight e else 0%nat) <$> es) <= bound)%nat.
Proof.
  intros Hok Hb. unfold weights_bounded in Hb. cbv zeta in Hb. rewrite forallb_forall in Hb.
  assert (E : (fun e => if same_name (e_name e) s then weight e else 0%nat) <$> es
    = (fun e => if decide (table_key lowers e = seen <$> s) then weight e else 0%nat) <$> es).
  { apply list_fmap_ext. intros i e He. apply list_elem_of_lookup_2 in He. rewrite list.Forall_forall in Hok.
    rewrite table_key_ok by auto. unfold same_name. case_bool_decide; case_decide; done. }
  rewrite E. rewrite <- weights_ok.
  destruct (decide (Exists (fun e => table_key lowers e = seen <$> s) es)) as [Hex|Hno].
  - apply list.Exists_exists in Hex as (e & He & Hk). apply list_elem_of_In in He. specialize (Hb e He). rewrite Hk in Hb. by apply Nat.leb_le.
  - rewrite weights_ok. clear -Hno. induction es as [|e es IH]; [cbn; lia|]. rewrite fmap_cons. cbn [sum_list_with id].
    rewrite decide_False; [apply IH|]; intros H; apply Hno; [by right|by left].
Qed.

Lemma iana_table : table_ok iana_ports.
Proof. apply table_okb_correct, iana_ports_ok. Qed.

(** At most six aliases, of the sixteen there is room for. *)
Lemma iana_aliases wt wu s : (length (service_aliases wt wu s iana_ports) <= 6)%nat.
Proof.
  etrans; [apply service_aliases_weight|]. apply weights_bounded_ok; [apply iana_table|exact iana_weights].
Qed.

#[local] Opaque iana_ports.

Definition valid_name (s : option (list Z)) : Prop := match s with Some s => is_string s | None => True end.

Lemma get_aliases_ok servname h : valid_name servname ->
  exists r, get_aliases ctype_us_ascii iana_port_numbers servname h = Some r /\ forall al, r = inr al -> (length al <= 6)%nat.
Proof.
  intros Hs. unfold get_aliases. destruct servname as [s|]; [|eexists; split; [reflexivity|]; intros al [= <-]; cbn; lia].
  destruct (decimal_loop 65535 0 s) as [p|].
  - destruct (ai_socktype h =? 0); cbn; eexists; (split; [reflexivity|]); intros al [= <-]; cbn; lia.
  - destruct (Z.land (ai_flags h) AI_NUMERICSERV =? 0); [|eexists; split; [reflexivity|]; intros al [= <-]; cbn; lia].
    destruct (wanted h) as [[wt wu]|]; [|by eexists]. unfold iana_port_numbers.
    rewrite alias_loop_ok; [|apply iana_table|done|apply table_length|pose proof (iana_aliases wt wu s); cbn; lia].
    eexists. split; [reflexivity|]. intros al [= <-]. apply iana_aliases.
Qed.

Lemma inet6_pton_total n : exists r, inet6_pton n = Some r /\ forall a s, r = Some (a, s) -> length a = 16%nat.
Proof.
  unfold inet6_pton. destruct (inet_pton6_total n) as (o & -> & Ho). cbn [mbind option_bind].
  destruct o as [a|]; [eexists; split; [done|]; intros a' s [= <- _]; by destruct (Ho a eq_refl)|].
  destruct (find_char 37 n) as [i|]; [|by eexists]. destruct (_ <? _); [by eexists|].
  destruct (inet_pton6_total (take i n)) as (o & -> & Ho'). cbn [mbind option_bind]. destruct o as [a|]; [|by eexists].
  eexists. split; [done|]. intros a' s E. destruct (decimal_loop _ _ _); [|done]. injection E as <- _. by destruct (Ho' a eq_refl).
Qed.

Lemma inet_aton_length n a : inet_aton n = Some (Some a) -> length a = 4%nat.
Proof. rewrite (proj2 (inet_parsers_total n)). destruct (aton_spec 4 n); [|done]. by intros [= <-]. Qed.

Definition entry_shape (a : addrinfo) : Prop :=
  (r_family a = AF_INET6_ /\ length (r_addr a) = 16%nat) \/ (r_family a = AF_INET_ /\ length (r_addr a) = 4%nat /\ r_scope a = 0).

(** Getaddrinfo is safe.  In the C locale and with the table of port numbers, for any
    node and service name and any hints it returns, stays inside its array of aliases and
    inside those of the address parsers; a successful call gives between one and twelve
    results, each with an address of the length of its family. *)
Theorem getaddrinfo_safe memory nodename servname hints_ptr : valid_name servname ->
  exists r, getaddrinfo ctype_us_ascii iana_port_numbers memory nodename servname hints_ptr = Some r /\
    forall l, r = inr l -> (1 <= length l <= 12)%nat /\ Forall entry_shape l.
Proof.
  intros Hs. unfold getaddrinfo. set (h := default default_hints hints_ptr). destruct (negb _); [by eexists|].
  assert (Hmain : forall h4 h6, exists r,
    (inet ← get_inet nodename h h4; inet6 ← get_inet6 nodename h h6; r ← get_aliases ctype_us_ascii iana_port_numbers servname h;
     match r with
     | inl error => Some (inl error)
     | inr aliases =>
         let result := inet6_entries inet6 aliases ++ inet_entries inet aliases in
         match result with [] => Some (inl EAI_NONAME) | _ => Some (if memory then inr result else inl EAI_MEMORY) end
     end) = Some r /\ forall l, r = inr l -> (1 <= length l <= 12)%nat /\ Forall entry_shape l).
  { intros h4 h6.
    assert (E4 : exists o, get_inet nodename h h4 = Some o /\ forall a, o = Some a -> length a = 4%nat).
    { unfold get_inet. destruct h4; [|by eexists]. destruct nodename as [n|]; [|eexists; split; [done|]; by intros a [= <-]].
      pose proof (proj2 (inet_parsers_total n)) as E. eexists. split; [exact E|]. intros a Ha. apply (inet_aton_length n). by rewrite E, Ha. }
    assert (E6 : exists o, get_inet6 nodename h h6 = Some o /\ forall a s, o = Some (a, s) -> length a = 16%nat).
    { unfold get_inet6. destruct h6; [|by eexists]. destruct nodename as [n|]; [apply inet6_pton_total|].
      eexists. split; [done|]. intros a s [= <- _]. by destruct (negb _). }
    destruct E4 as (o4 & -> & H4), E6 as (o6 & -> & H6), (get_aliases_ok servname h Hs) as (r & -> & Hr). cbn [mbind option_bind].
    destruct r as [e|al]; [by eexists|]. specialize (Hr al eq_refl). cbv zeta.
    assert (L6 : (length (inet6_entries o6 al) <= 6)%nat /\ Forall entry_shape (inet6_entries o6 al)).
    { destruct o6 as [[a s]|]; cbn [inet6_entries]; [|split; [cbn; lia|constructor]]. rewrite length_fmap. split; [done|].
      apply Forall_fmap, list.Forall_true. intros x. left. split; [done|]. by apply (H6 a s). }
    assert (L4 : (length (inet_entries o4 al) <= 6)%nat /\ Forall entry_shape (inet_entries o4 al)).
    { destruct o4 as [a|]; cbn [inet_entries]; [|split; [cbn; lia|constructor]]. rewrite length_fmap. split; [done|].
      apply Forall_fmap, list.Forall_true. intros x. right. split; [done|]. split; [by apply H4|done]. }
    destruct L6 as [L6 F6], L4 as [L4 F4]. pose proof (length_app (inet6_entries o6 al) (inet_entries o4 al)) as Hlen.
    assert (F : Forall entry_shape (inet6_entries o6 al ++ inet_entries o4 al)) by by apply Forall_app.
    destruct (inet6_entries o6 al ++ inet_entries o4 al) as [|x xs]; [by eexists|]. eexists. split; [done|].
    intros l E. destruct memory; [|done]. injection E as <-. split; [cbn in *; lia|done]. }
  destruct nodename, servname; try (by eexists);
    (destruct (ai_family h =? AF_UNSPEC_); [apply Hmain|]; destruct (ai_family h =? AF_INET_); [apply Hmain|];
     destruct (ai_family h =? AF_INET6_); [apply Hmain|by eexists]).
Qed.

(** The name that is most often in the table. *)
Lemma getaddrinfo_safe_witness : exists r,
  getaddrinfo ctype_us_ascii iana_port_numbers true None (Some (chars "http-alt"%literal)) None = Some r /\
  forall l, r = inr l -> (1 <= length l <= 12)%nat /\ Forall entry_shape l.
Proof. apply getaddrinfo_safe. cbn. repeat constructor; lia. Defined.

(** ** Numeric names are read back *)









(** *** A text with a percent sign is not an address *)









(** *** A dotted quad is read by inet_aton *)



(** *** The round trip *)






Section RoundTrip.
  Context (C : lc_ctype) (numeric : lc_numeric) (buf : list Z) (Hbuf : length buf = 46%nat).



End RoundTrip.


