(* ===== verification/CtypeNames.v ===== *)
(** * Names of character sets

    Sources: src/libc/strings/strncasecmp_l.c and strncasecmp.c, the table and the search
    of src/libc/locale/lookup_ctype.c, src/libc/iconv/iconv_open.c.

    A character set is found by one of its names, ignoring the case of letters; the
    length of the name is an argument, since the name is part of a longer string.  Each
    entry has an array of 19 bytes, and reading behind it is undefined ([None]).

    The theorem: the search returns for every string of bytes, stays in the arrays and
    finds the entry with that name; so iconv_open makes a handle for exactly those pairs
    of names, in the initial state and, but for the two character sets whose decoders
    are broken, with lawful character sets, as the theorem on iconv asks for. *)

From S2P Require Import Prelude Charset WideClass SingleByte Gb2312 Iconv TimeZone Services.
From stdpp Require Import strings.

#[local] Open Scope Z_scope.

(** ** strncasecmp *)

(** fetchchar with its limit on the number of bytes. *)
Definition fetchchar_n (C : lc_ctype) (s : list Z) (n : Z) (mb : mbstate) : option (Z * list Z * Z * mbstate) :=
  '(r, mb) ← mbtoc32 C s n mb;
  match r with
  | MbChar l c32 => Some (s32 c32, drop (Z.to_nat l) s, n - l, mb)
  | _ => Some (-1, s, n, mb)
  end.

Fixpoint strncasecmp_loop (fuel : nat) (C : lc_ctype) (s1 : list Z) (n1 : Z) (mb1 : mbstate) (s2 : list Z) (n2 : Z) (mb2 : mbstate)
    : option Z :=
  match fuel with
  | O => None
  | S fuel =>
      '(w1, s1, n1, mb1) ← fetchchar_n C s1 n1 mb1;
      c1 ← towlower_wint w1;
      '(w2, s2, n2, mb2) ← fetchchar_n C s2 n2 mb2;
      c2 ← towlower_wint w2;
      if c1 <? c2 then Some (-1)
      else if c2 <? c1 then Some 1
      else if c1 <=? 0 then Some 0
      else strncasecmp_loop fuel C s1 n1 mb1 s2 n2 mb2
  end.

Definition strncasecmp_l (C : lc_ctype) (s1 s2 : list Z) (n : Z) : option Z :=
  strncasecmp_loop (S (length s1)) C s1 n mbstate_init s2 n mbstate_init.

(** In the locale of the functions without a locale argument. *)
Definition strncasecmp (s1 s2 : list Z) (n : Z) : option Z := strncasecmp_l ctype_us_ascii s1 s2 n.

(** ** The character sets and their names *)

(** A pointer to the constant data of a character set. *)
Inductive ctype_ref :=
  | Ctype_gb2312 | Ctype_ibm037 | Ctype_iso_8859_1 | Ctype_iso_8859_2 | Ctype_iso_8859_5
  | Ctype_iso_8859_9 | Ctype_iso_8859_13 | Ctype_iso_8859_15 | Ctype_koi8_r | Ctype_koi8_u
  | Ctype_us_ascii | Ctype_utf_8 | Ctype_windows_874 | Ctype_windows_1250 | Ctype_windows_1251
  | Ctype_windows_1252 | Ctype_windows_1253 | Ctype_windows_1254 | Ctype_windows_1255 | Ctype_windows_1256
  | Ctype_windows_1257 | Ctype_windows_1258.

#[export] Instance ctype_ref_eq_dec : EqDecision ctype_ref.
Proof. solve_decision. Defined.

Definition ctype_data (r : ctype_ref) : lc_ctype :=
  match r with
  | Ctype_gb2312 => ctype_gb2312
  | Ctype_ibm037 => ctype_ibm037
  | Ctype_iso_8859_1 => ctype_iso_8859_1
  | Ctype_iso_8859_2 => asciiplus_ctype asciiplus_iso_8859_2
  | Ctype_iso_8859_5 => asciiplus_ctype asciiplus_iso_8859_5
  | Ctype_iso_8859_9 => asciiplus_ctype asciiplus_iso_8859_9
  | Ctype_iso_8859_13 => asciiplus_ctype asciiplus_iso_8859_13
  | Ctype_iso_8859_15 => ctype_iso_8859_15
  | Ctype_koi8_r => asciiplus_ctype asciiplus_koi8_r
  | Ctype_koi8_u => asciiplus_ctype asciiplus_koi8_u
  | Ctype_us_ascii => ctype_us_ascii
  | Ctype_utf_8 => ctype_utf_8
  | Ctype_windows_874 => asciiplus_ctype asciiplus_windows_874
  | Ctype_windows_1250 => asciiplus_ctype asciiplus_windows_1250
  | Ctype_windows_1251 => asciiplus_ctype asciiplus_windows_1251
  | Ctype_windows_1252 => asciiplus_ctype asciiplus_windows_1252
  | Ctype_windows_1253 => asciiplus_ctype asciiplus_windows_1253
  | Ctype_windows_1254 => asciiplus_ctype asciiplus_windows_1254
  | Ctype_windows_1255 => asciiplus_ctype asciiplus_windows_1255
  | Ctype_windows_1256 => asciiplus_ctype asciiplus_windows_1256
  | Ctype_windows_1257 => asciiplus_ctype asciiplus_windows_1257
  | Ctype_windows_1258 => asciiplus_ctype asciiplus_windows_1258
  end.

(** A name in its array of 19 bytes. *)
Definition char19 (s : string) : list Z := chars s ++ replicate (19 - String.length s) 0.

Definition ctypes : list (list Z * ctype_ref) :=
  [ (char19 "GB2312", Ctype_gb2312);
    (char19 "csGB2312", Ctype_gb2312);
    (char19 "IBM037", Ctype_ibm037);
    (char19 "cp037", Ctype_ibm037);
    (char19 "ebcdic-cp-us", Ctype_ibm037);
    (char19 "ebcdic-cp-ca", Ctype_ibm037);
    (char19 "ebcdic-cp-wt", Ctype_ibm037);
    (char19 "ebcdic-cp-nl", Ctype_ibm037);
    (char19 "csIBM037", Ctype_ibm037);
    (char19 "ISO-8859-1", Ctype_iso_8859_1);
    (char19 "ISO_8859-1:1987", Ctype_iso_8859_1);
    (char19 "iso-ir-100", Ctype_iso_8859_1);
    (char19 "ISO_8859-1", Ctype_iso_8859_1);
    (char19 "latin1", Ctype_iso_8859_1);
    (char19 "l1", Ctype_iso_8859_1);
    (char19 "IBM819", Ctype_iso_8859_1);
    (char19 "CP819", Ctype_iso_8859_1);
    (char19 "csISOLatin1", Ctype_iso_8859_1);
    (char19 "ISO-8859-2", Ctype_iso_8859_2);
    (char19 "ISO_8859-2:1987", Ctype_iso_8859_2);
    (char19 "iso-ir-101", Ctype_iso_8859_2);
    (char19 "ISO_8859-2", Ctype_iso_8859_2);
    (char19 "latin2", Ctype_iso_8859_2);
    (char19 "l2", Ctype_iso_8859_2);
    (char19 "csISOLatin2", Ctype_iso_8859_2);
    (char19 "ISO-8859-5", Ctype_iso_8859_5);
    (char19 "ISO_8859-5:1988", Ctype_iso_8859_5);
    (char19 "iso-ir-144", Ctype_iso_8859_5);
    (char19 "ISO_8859-5", Ctype_iso_8859_5);
    (char19 "cyrillic", Ctype_iso_8859_5);
    (char19 "csISOLatinCyrillic", Ctype_iso_8859_5);
    (char19 "ISO-8859-9", Ctype_iso_8859_9);
    (char19 "iso-ir-148", Ctype_iso_8859_9);
    (char19 "ISO_8859-9", Ctype_iso_8859_9);
    (char19 "latin5", Ctype_iso_8859_9);
    (char19 "l5", Ctype_iso_8859_9);
    (char19 "csISOLatin5", Ctype_iso_8859_9);
    (char19 "ISO-8859-13", Ctype_iso_8859_13);
    (char19 "csISO885913", Ctype_iso_8859_13);
    (char19 "ISO-8859-15", Ctype_iso_8859_15);
    (char19 "ISO_8859-15", Ctype_iso_8859_15);
    (char19 "Latin-9", Ctype_iso_8859_15);
    (char19 "csISO885915", Ctype_iso_8859_15);
    (char19 "KOI8-R", Ctype_koi8_r);
    (char19 "csKOI8R", Ctype_koi8_r);
    (char19 "KOI8-U", Ctype_koi8_u);
    (char19 "csKOI8U", Ctype_koi8_u);
    (char19 "US-ASCII", Ctype_us_ascii);
    (char19 "iso-ir-6", Ctype_us_ascii);
    (char19 "ANSI_X3.4-1968", Ctype_us_ascii);
    (char19 "ANSI_X3.4-1986", Ctype_us_ascii);
    (char19 "ISO_646.irv:1991", Ctype_us_ascii);
    (char19 "ISO646-US", Ctype_us_ascii);
    (char19 "us", Ctype_us_ascii);
    (char19 "IBM367", Ctype_us_ascii);
    (char19 "cp367", Ctype_us_ascii);
    (char19 "csASCII", Ctype_us_ascii);
    (char19 "UTF-8", Ctype_utf_8);
    (char19 "csUTF8", Ctype_utf_8);
    (char19 "Windows-874", Ctype_windows_874);
    (char19 "cswindows874", Ctype_windows_874);
    (char19 "Windows-1250", Ctype_windows_1250);
    (char19 "cswindows1250", Ctype_windows_1250);
    (char19 "Windows-1251", Ctype_windows_1251);
    (char19 "cswindows1251", Ctype_windows_1251);
    (char19 "Windows-1252", Ctype_windows_1252);
    (char19 "cswindows1252", Ctype_windows_1252);
    (char19 "Windows-1253", Ctype_windows_1253);
    (char19 "cswindows1253", Ctype_windows_1253);
    (char19 "Windows-1254", Ctype_windows_1254);
    (char19 "cswindows1254", Ctype_windows_1254);
    (char19 "Windows-1255", Ctype_windows_1255);
    (char19 "cswindows1255", Ctype_windows_1255);
    (char19 "Windows-1256", Ctype_windows_1256);
    (char19 "cswindows1256", Ctype_windows_1256);
    (char19 "Windows-1257", Ctype_windows_1257);
    (char19 "cswindows1257", Ctype_windows_1257);
    (char19 "Windows-1258", Ctype_windows_1258);
    (char19 "cswindows1258", Ctype_windows_1258);
    (char19 "EUC-CN", Ctype_gb2312);
    (char19 "ISO8859-1", Ctype_iso_8859_1);
    (char19 "ISO8859-2", Ctype_iso_8859_2);
    (char19 "ISO8859-5", Ctype_iso_8859_5);
    (char19 "ISO8859-9", Ctype_iso_8859_9);
    (char19 "ISO8859-13", Ctype_iso_8859_13);
    (char19 "ISO8859-15", Ctype_iso_8859_15) ].

(** The search for the first entry with a matching name. *)
Fixpoint lookup_loop (entries : list (list Z * ctype_ref)) (name : list Z) (len : Z) : option (option ctype_ref) :=
  match entries with
  | [] => Some None
  | (entry, ctype) :: entries =>
      r ← strncasecmp name entry len;
      found ← (if r =? 0 then b ← entry !! Z.to_nat len; Some (b =? 0) else Some false);
      if found : bool then Some (Some ctype) else lookup_loop entries name len
  end.

Definition lookup_ctype (name : list Z) (len : Z) : option (option ctype_ref) := lookup_loop ctypes name len.

(** ** Opening a conversion *)

Definition suffix : list Z := chars "//IGNORE".

(** The handle that iconv_open allocates, or errno; [alloc] says whether calloc finds memory. *)
Definition iconv_open (tocode fromcode : list Z) (alloc : bool) : option (Z + iconv_cd) :=
  from ← lookup_ctype (fromcode ++ [0]) (Z.of_nat (length fromcode));
  match from with
  | None => Some (inl EINVAL)
  | Some from =>
      let tolen := Z.of_nat (length tocode) in
      let suffixlen := Z.of_nat (length suffix) in
      let ignore := (suffixlen <=? tolen) && bool_decide (drop (Z.to_nat (tolen - suffixlen)) tocode = suffix) in
      let tolen := if ignore then tolen - suffixlen else tolen in
      to ← lookup_ctype (tocode ++ [0]) tolen;
      match to with
      | None => Some (inl EINVAL)
      | Some to =>
          if alloc then Some (inr (IconvCd (ctype_data from) (ctype_data to) mbstate_init ignore)) else Some (inl ENOMEM)
      end
  end.

(** ** The comparison *)

Lemma fetch_n_ascii c s n : 0 <= c < 256 -> 1 <= n ->
  exists w s' n', fetchchar_n ctype_us_ascii (c :: s) n mbstate_init = Some (w, s', n', mbstate_init) /\
    towlower_wint w = Some (seen c) /\ (c < 128 -> s' = s /\ n' = n - 1).
Proof.
  intros Hc Hn. unfold fetchchar_n. cbn [mbtoc32 ctype_us_ascii]. unfold us_ascii_mbtoc32, SCHAR_MAX, seen. cbn [head mbind option_bind].
  rewrite (proj2 (Z.ltb_ge n 1)) by lia. destruct (Z.ltb_spec 127 c) as [Hlt|Hge].
  - rewrite (proj2 (Z.ltb_ge c 128)) by lia. eexists _, _, _. split; [reflexivity|]. split; [|lia].
    destruct (ascii_lower_spec (-1)) as (-> & H & _); [lia|]. by rewrite H.
  - rewrite (proj2 (Z.ltb_lt c 128)) by lia. cbn [mbind option_bind].
    assert (Hs : s32 c = c) by (apply sN_small; unfold in_signed; lia). rewrite Hs.
    eexists _, _, _. split; [reflexivity|]. split; [apply ascii_lower_spec; lia|done].
Qed.

Lemma fetch_n_end s : fetchchar_n ctype_us_ascii s 0 mbstate_init = Some (-1, s, 0, mbstate_init) /\ towlower_wint (-1) = Some (-1).
Proof. split; [done|]. destruct (ascii_lower_spec (-1)) as (-> & H & _); [lia|]. by rewrite H. Qed.

(** Comparing as many bytes as a name has with an ASCII name decides whether it is a prefix. *)
Lemma strncasecmp_prefix fuel n1 r1 n2 r2 : (length n1 < fuel)%nat -> is_string n1 -> Forall (fun c => 1 <= c <= 127) n2 ->
  exists r, strncasecmp_loop fuel ctype_us_ascii (n1 ++ r1) (Z.of_nat (length n1)) mbstate_init
      (n2 ++ 0 :: r2) (Z.of_nat (length n1)) mbstate_init = Some r /\
    (r = 0 <-> (seen <$> n1) `prefix_of` (seen <$> n2)).
Proof.
  revert n1 n2. induction fuel as [|fuel IH]; intros n1 n2 Hf H1 H2; [lia|]. cbn [strncasecmp_loop].
  destruct H1 as [|a1 n1 Ha1 H1].
  - cbn [length]. change (Z.of_nat 0) with 0. destruct (fetch_n_end ([] ++ r1)) as [-> L], (fetch_n_end (n2 ++ 0 :: r2)) as [-> _].
    cbn [mbind option_bind]. rewrite L. cbn [mbind option_bind]. exists 0. split; [done|]. split; [intros _; apply prefix_nil|done].
  - cbn [length app] in *. destruct (fetch_n_ascii a1 (n1 ++ r1) (Z.of_nat (S (length n1)))) as (w1 & s1 & m1 & -> & L1 & T1); [lia..|].
    cbn [mbind option_bind]. rewrite L1. cbn [mbind option_bind]. clear L1. destruct (seen_nonzero a1 Ha1) as [Hne Hl1].
    destruct H2 as [|a2 n2 Ha2 H2]; cbn [app].
    + destruct (fetch_n_ascii 0 r2 (Z.of_nat (S (length n1)))) as (w2 & s2 & m2 & -> & L2 & _); [lia..|].
      cbn [mbind option_bind]. rewrite L2, seen_zero. cbn [mbind option_bind].
      assert (~ (seen a1 :: (seen <$> n1)) `prefix_of` []) by apply prefix_nil_not.
      destruct (Z.ltb_spec (seen a1) 0), (Z.ltb_spec 0 (seen a1)); first [lia|by exists (-1)|by exists 1].
    + destruct (fetch_n_ascii a2 (n2 ++ 0 :: r2) (Z.of_nat (S (length n1)))) as (w2 & s2 & m2 & -> & L2 & T2); [lia..|].
      cbn [mbind option_bind]. rewrite L2. cbn [mbind option_bind]. pose proof (seen_ascii a2 Ha2) as Hs2.
      cbn [fmap list_fmap].
      destruct (Z.ltb_spec (seen a1) (seen a2)); [exists (-1); split; [done|]; split; [done|intros ?%prefix_cons_inv_1; lia]|].
      destruct (Z.ltb_spec (seen a2) (seen a1)); [exists 1; split; [done|]; split; [done|intros ?%prefix_cons_inv_1; lia]|].
      rewrite (proj2 (Z.leb_gt (seen a1) 0)) by lia. destruct (T1 ltac:(lia)) as [-> ->], (T2 ltac:(lia)) as [-> ->].
      replace (Z.of_nat (S (length n1)) - 1) with (Z.of_nat (length n1)) by lia.
      destruct (IH n1 n2 ltac:(lia) H1 H2) as (r & -> & Hr). exists r. split; [done|]. rewrite Hr.
      assert (seen a1 = seen a2) as -> by lia. split; [apply prefix_cons|apply prefix_cons_inv_2].
Qed.

(** ** The search *)

(** The first entry with the name, ignoring case. *)
Definition find_ctype (name : list Z) : option ctype_ref :=
  snd <$> head (filter (fun e => same_name name (c_string e.1) = true) ctypes).

Definition entry_okb (e : list Z * ctype_ref) : bool :=
  forallb (fun c => (1 <=? c) && (c <=? 127)) (c_string e.1) && (length (c_string e.1) <? length e.1)%nat.

Lemma ctypes_ok : forallb entry_okb ctypes = true.
Proof. vm_compute. reflexivity. Qed.

Lemma c_string_split s : (length (c_string s) < length s)%nat -> exists r, s = c_string s ++ 0 :: r.
Proof.
  induction s as [|c s IH]; cbn; [lia|]. destruct (Z.eqb_spec c 0) as [->|Hc]; cbn; intros H; [by exists s|].
  destruct IH as [r Hr]; [lia|]. exists r. by rewrite <- Hr.
Qed.

Lemma entry_okb_ok e : entry_okb e = true -> exists m r, e.1 = m ++ 0 :: r /\ m = c_string e.1 /\ Forall (fun c => 1 <= c <= 127) m.
Proof.
  unfold entry_okb. rewrite andb_true_iff, forallb_Forall_iff, Nat.ltb_lt. intros [Hm Hl].
  destruct (c_string_split e.1 Hl) as [r Hr]. exists (c_string e.1), r. split; [done|]. split; [done|].
  eapply list.Forall_impl; [exact Hm|]. cbn. intros c. rewrite andb_true_iff, !Z.leb_le. done.
Qed.

Lemma lookup_entry name rest m r : is_string name -> Forall (fun c => 1 <= c <= 127) m ->
  exists x, strncasecmp (name ++ rest) (m ++ 0 :: r) (Z.of_nat (length name)) = Some x /\
    (if x =? 0 then b ← (m ++ 0 :: r) !! Z.to_nat (Z.of_nat (length name)); Some (b =? 0) else Some false) = Some (same_name name m).
Proof.
  intros Hn Hm. unfold strncasecmp, strncasecmp_l.
  destruct (strncasecmp_prefix (S (length (name ++ rest))) name rest m r) as (x & Hx & Hr); [rewrite length_app; lia|done..|].
  exists x. split; [exact Hx|]. unfold same_name. rewrite Nat2Z.id. destruct (Z.eqb_spec x 0) as [E|E].
  - apply Hr in E as E'. pose proof (prefix_length _ _ E') as Hl. rewrite !length_fmap in Hl. destruct (decide (length name = length m)) as [El|El].
    + rewrite El, list_lookup_middle by done. cbn. f_equal. symmetry. apply bool_decide_eq_true. apply prefix_length_eq; [done|]. rewrite !length_fmap. lia.
    + destruct (lookup_lt_is_Some_2 m (length name)) as [c Hc]; [lia|]. rewrite lookup_app_l, Hc by lia. cbn. f_equal.
      assert (1 <= c <= 127) by (rewrite list.Forall_forall in Hm; apply Hm; by eapply list_elem_of_lookup_2). rewrite (proj2 (Z.eqb_neq c 0)) by lia.
      symmetry. apply bool_decide_eq_false. intros Heq%(f_equal length). rewrite !length_fmap in Heq. done.
  - f_equal. symmetry. apply bool_decide_eq_false. intros Heq. apply E, Hr. by rewrite Heq.
Qed.

(** The search returns for all strings and never reads behind the names. *)
Lemma lookup_loop_ok entries name rest : forallb entry_okb entries = true -> is_string name ->
  lookup_loop entries (name ++ rest) (Z.of_nat (length name)) =
    Some (snd <$> head (filter (fun e => same_name name (c_string e.1) = true) entries)).
Proof.
  intros He Hn. induction entries as [|[en ct] entries IH]; [done|]. cbn in He. apply andb_true_iff in He as [H1 He].
  destruct (entry_okb_ok (en, ct) H1) as (m & r & Hen & Hm & Hasc). cbn in Hen, Hm. cbn [lookup_loop]. rewrite filter_cons. cbn [fst]. rewrite <- Hm, Hen.
  destruct (lookup_entry name rest m r Hn Hasc) as (x & -> & E). cbn [mbind option_bind] in E |- *. rewrite E. cbn [mbind option_bind].
  destruct (same_name name m) eqn:Es; [done|]. rewrite decide_False by congruence. by apply IH.
Qed.

Lemma lookup_ctype_ok name rest : is_string name ->
  lookup_ctype (name ++ rest) (Z.of_nat (length name)) = Some (find_ctype name).
Proof. intros Hn. apply lookup_loop_ok; [exact ctypes_ok|done]. Qed.

(** The same search in a table of names in lower case. *)
Definition lowered : list (list Z * ctype_ref) := (fun e => (seen <$> c_string e.1, e.2)) <$> ctypes.

Definition find_lowered (low : list (list Z * ctype_ref)) (key : list Z) : option ctype_ref :=
  snd <$> head (filter (fun p => key = p.1) low).

Lemma find_ctype_lowered name : find_ctype name = find_lowered lowered (seen <$> name).
Proof.
  unfold find_ctype, find_lowered, lowered. induction ctypes as [|[en ct] es IH]; [done|]. cbn [fmap list_fmap]. rewrite !filter_cons. cbn [fst].
  pose proof (bool_decide_eq_true (seen <$> name = seen <$> c_string en)) as H. unfold same_name at 1.
  repeat case_decide; (tauto || exact IH || done).
Qed.

(** No name is hidden by an earlier entry. *)
Lemma lowered_found : (let low := lowered in forallb (fun p => bool_decide (find_lowered low p.1 = Some p.2)) low) = true.
Proof. vm_compute. reflexivity. Qed.

Lemma ctypes_found : Forall (fun e => find_ctype (c_string e.1) = Some e.2) ctypes.
Proof.
  pose proof lowered_found as H. cbv zeta in H. apply forallb_Forall_iff in H. rewrite list.Forall_forall in H. apply list.Forall_forall.
  intros e He. rewrite find_ctype_lowered. assert (Hin : (seen <$> c_string e.1, e.2) ∈ lowered) by (apply list_elem_of_fmap; by exists e).
  specialize (H _ Hin). by apply bool_decide_eq_true in H.
Qed.

Lemma table_lawful (i : nat) ap : asciiplus_tables !! i = Some ap -> CtypeLaws (asciiplus_ctype ap).
Proof.
  intros Hi. pose proof asciiplus_tables_ok as Ht. rewrite list.Forall_forall in Ht. apply asciiplus_laws, Ht. by eapply list_elem_of_lookup_2.
Qed.

Lemma ctype_lawful r : r <> Ctype_gb2312 -> r <> Ctype_iso_8859_15 -> CtypeLaws (ctype_data r).
Proof.
  intros H1 H2. destruct r; cbn [ctype_data];
    [done|exact _|exact _|by apply (table_lawful 0)
    |by apply (table_lawful 1)|by apply (table_lawful 2)|by apply (table_lawful 3)|done
    |by apply (table_lawful 4)|by apply (table_lawful 5)|exact _|exact _
    |by apply (table_lawful 6)|by apply (table_lawful 7)|by apply (table_lawful 8)|by apply (table_lawful 9)
    |by apply (table_lawful 10)|by apply (table_lawful 11)|by apply (table_lawful 12)|by apply (table_lawful 13)
    |by apply (table_lawful 14)|by apply (table_lawful 15)].
Qed.

(** What iconv_open takes for the name of the target. *)
Definition target (tocode name : list Z) (ignore : bool) : Prop :=
  if ignore then tocode = name ++ suffix else tocode = name /\ ~ exists p, tocode = p ++ suffix.

(** Iconv_open returns for all names.  The handle converts between the character sets that the two names, ignoring
    case, are listed for, and ignores what it cannot convert exactly when the target ends in //IGNORE; every listed name
    is found, other names give EINVAL, and lack of memory ENOMEM.  The handle is in its initial state, and all character
    sets but GB2312 and ISO-8859-15 are lawful. *)
Theorem iconv_open_correct (tocode fromcode : list Z) (alloc : bool) (Hto : is_string tocode) (Hfrom : is_string fromcode) :
  (exists name ignore, target tocode name ignore /\
    iconv_open tocode fromcode alloc = Some (match find_ctype fromcode, find_ctype name with
      | Some from, Some to => if alloc then inr (IconvCd (ctype_data from) (ctype_data to) mbstate_init ignore) else inl ENOMEM
      | _, _ => inl EINVAL
      end)) /\
  Forall (fun e => find_ctype (c_string e.1) = Some e.2) ctypes /\
  (forall r, r <> Ctype_gb2312 -> r <> Ctype_iso_8859_15 -> CtypeLaws (ctype_data r)).
Proof.
  split; [|split; [apply ctypes_found|apply ctype_lawful]].
  unfold iconv_open. rewrite (lookup_ctype_ok fromcode) by done. cbn [mbind option_bind].
  set (ign := (_ <=? _) && _). assert (Hign : exists name, target tocode name ign /\
    (if ign then Z.of_nat (length tocode) - Z.of_nat (length suffix) else Z.of_nat (length tocode)) = Z.of_nat (length name) /\
    exists rest, tocode = name ++ rest).
  { unfold target. destruct ign eqn:E; unfold ign in E.
    - apply andb_true_iff in E as [E1%Z.leb_le E2%bool_decide_eq_true]. change (Z.of_nat (length suffix)) with 8 in *.
      exists (take (Z.to_nat (Z.of_nat (length tocode) - 8)) tocode). split; [rewrite <- E2; by rewrite take_drop|].
      split; [rewrite length_take; lia|]. eexists. symmetry. apply take_drop.
    - exists tocode. split; [split; [done|]|split; [done|exists []; by rewrite app_nil_r]]. intros [p ->]. revert E.
      rewrite length_app, Nat2Z.inj_add. rewrite (proj2 (Z.leb_le _ _)) by lia.
      replace (Z.to_nat _) with (length p) by lia. rewrite drop_app_length. by rewrite bool_decide_true. }
  destruct Hign as (name & Ht & Hlen & rest & Hrest). exists name, ign. split; [done|]. rewrite Hlen.
  destruct (find_ctype fromcode); [|done]. rewrite Hrest, <- app_assoc, lookup_ctype_ok; [by destruct (find_ctype name), alloc|].
  unfold is_string in *. rewrite Hrest in Hto. by apply Forall_app in Hto as [? _].
Qed.

Lemma iconv_open_correct_witness : exists cd, iconv_open (chars "utf-8//IGNORE") (chars "Latin1") true = Some (inr cd) /\ cd_ignore cd = true /\
  cd_from cd = ctype_iso_8859_1.
Proof.
  assert (H1 : is_string (chars "utf-8//IGNORE")) by (apply (bool_decide_unpack _); vm_compute; exact I).
  assert (H2 : is_string (chars "Latin1")) by (apply (bool_decide_unpack _); vm_compute; exact I).
  destruct (iconv_open_correct _ _ true H1 H2) as [(name & ignore & Ht & E) _]. rewrite E.
  destruct ignore; unfold target in Ht.
  - change (chars "utf-8//IGNORE") with (chars "utf-8" ++ suffix) in Ht. apply app_inj_2 in Ht as [<- _]; [|done].
    replace (find_ctype (chars "Latin1")) with (Some Ctype_iso_8859_1) by (vm_compute; reflexivity).
    replace (find_ctype (chars "utf-8")) with (Some Ctype_utf_8) by (vm_compute; reflexivity). eexists. split; [reflexivity|]. split; reflexivity.
  - exfalso. destruct Ht as [_ Ht]. apply Ht. exists (chars "utf-8"). reflexivity.
Defined.
