(* ===== verification/Locale.v ===== *)
(** * Locale objects

    Sources: src/libc/locale/newlocale.c, setlocale.c, locale_c.c, locale_c_unicode.c;
    struct __locale of src/common/locale.h; the functions of src/common/refcount.h; the
    masks of src/include/locale.h.

    A locale is an object with a reference count and one pointer to constant data for
    each of seven categories.  newlocale takes the name apart, looks up the parts, takes
    the categories that are not in the mask from the base locale, and returns either the
    base locale or a new object.  The objects are a map from addresses; a pointer to
    constant data is an element of an enumeration, [None] a null pointer; an access to an
    object that is not there and a failing assertion are undefined ([None]).

    The search for a language ends with a read of the byte behind the array of five
    letters, which is not part of it.  [pad] is what that read gives: [None] when it is
    undefined, as C has it, and the value of the byte on an implementation that lets the
    read reach the padding of the structure.  The theorem says what happens in C, where
    newlocale is undefined for every language that is listed, and what happens where the
    padding is null.

    The theorem: a name gives the categories that its parts are listed for, and the
    result has those of the mask, and the others from the base; the call fails exactly
    when a category of the mask is not available, and nothing else changes. *)

From S2P Require Import Prelude Charset Multibyte StringTok TimeZone TzData Services CtypeNames.
From stdpp Require Import strings.

#[local] Open Scope Z_scope.

(** ** Data *)

Inductive collate_ref := Collate_posix.
Inductive messages_ref := Messages_en_us | Messages_nl_nl | Messages_ru_ru.
Inductive monetary_ref := Monetary_posix | Monetary_en_us | Monetary_nl_nl | Monetary_ru_ru.
Inductive numeric_ref := Numeric_posix | Numeric_en_us | Numeric_nl_nl | Numeric_ru_ru.
Inductive time_ref := Time_posix | Time_en_us | Time_fr_fr | Time_nl_nl | Time_ru_ru | Time_zh_cn.
Inductive timezone_ref := Timezone_utc | Timezone (i : nat).

#[export] Instance collate_ref_eq_dec : EqDecision collate_ref.
Proof. solve_decision. Defined.
#[export] Instance messages_ref_eq_dec : EqDecision messages_ref.
Proof. solve_decision. Defined.
#[export] Instance monetary_ref_eq_dec : EqDecision monetary_ref.
Proof. solve_decision. Defined.
#[export] Instance numeric_ref_eq_dec : EqDecision numeric_ref.
Proof. solve_decision. Defined.
#[export] Instance time_ref_eq_dec : EqDecision time_ref.
Proof. solve_decision. Defined.
#[export] Instance timezone_ref_eq_dec : EqDecision timezone_ref.
Proof. solve_decision. Defined.

(** The pointers of struct __locale. *)
Record categories := Categories {
  collate : option collate_ref; ctype : option ctype_ref; messages : option messages_ref; monetary : option monetary_ref;
  numeric : option numeric_ref; time : option time_ref; timezone : option timezone_ref }.

#[export] Instance categories_eq_dec : EqDecision categories.
Proof. solve_decision. Defined.

(** struct __locale; [compiled] is an address, or 0. *)
Record locale := Locale { refcount : Z; compiled : Z; cats : categories }.

(** Addresses of the two static objects. *)
Definition LC_C_LOCALE : Z := 1.
Definition LC_C_UNICODE_LOCALE : Z := 2.

Definition c_categories : categories :=
  Categories (Some Collate_posix) (Some Ctype_us_ascii) (Some Messages_en_us) (Some Monetary_posix)
    (Some Numeric_posix) (Some Time_posix) (Some Timezone_utc).

Definition locale_c : locale := Locale 1 0 c_categories.

Definition locale_c_unicode : locale :=
  Locale 1 0 (Categories (Some Collate_posix) (Some Ctype_utf_8) (Some Messages_en_us) (Some Monetary_posix)
    (Some Numeric_posix) (Some Time_posix) (Some Timezone_utc)).

Definition LC_COLLATE_MASK : Z := Z.shiftl 1 0.
Definition LC_CTYPE_MASK : Z := Z.shiftl 1 1.
Definition LC_MESSAGES_MASK : Z := Z.shiftl 1 2.
Definition LC_MONETARY_MASK : Z := Z.shiftl 1 3.
Definition LC_NUMERIC_MASK : Z := Z.shiftl 1 4.
Definition LC_TIME_MASK : Z := Z.shiftl 1 5.
Definition LC_TIMEZONE_MASK : Z := Z.shiftl 1 6.

Definition LC_ALL_MASK : Z :=
  Z.lor (Z.lor (Z.lor (Z.lor (Z.lor (Z.lor LC_COLLATE_MASK LC_CTYPE_MASK) LC_MESSAGES_MASK) LC_MONETARY_MASK)
    LC_NUMERIC_MASK) LC_TIME_MASK) LC_TIMEZONE_MASK.

Definition ENOENT : Z := 44.

(** An entry of the table of languages. *)
Record language := Language {
  l_name : list Z; l_collate : collate_ref; l_messages : messages_ref; l_monetary : monetary_ref;
  l_numeric : numeric_ref; l_time : time_ref }.

Definition languages : list language :=
  [ Language (chars "cs_CZ") Collate_posix Messages_en_us Monetary_posix Numeric_posix Time_en_us;
    Language (chars "en_US") Collate_posix Messages_en_us Monetary_en_us Numeric_en_us Time_en_us;
    Language (chars "fr_CA") Collate_posix Messages_en_us Monetary_posix Numeric_posix Time_fr_fr;
    Language (chars "fr_FR") Collate_posix Messages_en_us Monetary_posix Numeric_posix Time_fr_fr;
    Language (chars "nl_NL") Collate_posix Messages_nl_nl Monetary_nl_nl Numeric_nl_nl Time_nl_nl;
    Language (chars "ru_RU") Collate_posix Messages_ru_ru Monetary_ru_ru Numeric_ru_ru Time_ru_ru;
    Language (chars "zh_CN") Collate_posix Messages_en_us Monetary_posix Numeric_posix Time_zh_cn ].

(** ** Reference counts *)

(** The count after refcount_acquire, whose assertion wants it to be positive. *)
Definition refcount_acquire (count : Z) : option Z := if 0 <? count then Some (u32 (count + 1)) else None.

(** The count after refcount_release, and whether it was the last reference. *)
Definition refcount_release (count : Z) : Z * bool := (u32 (count - 1), count =? 1).

(** ** newlocale *)

Section newlocale.
Context (pad : option Z).

(** [languages[i].name[len]]: the letters; behind them the read is out of bounds. *)
Definition name_byte (l : language) (len : nat) : option Z :=
  match l_name l !! len with Some c => Some c | None => pad end.

(** The search for the language; [len] is at most the length of the names.  The byte is read only if the letters
    are the same. *)
Fixpoint language_loop (entries : list language) (language : list Z) (len : nat) : option (option Locale.language) :=
  match entries with
  | [] => Some None
  | l :: entries =>
      if bool_decide (take len language = take len (l_name l)) then
        c ← name_byte l len;
        if c =? 0 then Some (Some l) else language_loop entries language len
      else language_loop entries language len
  end.

(** The search in the list of time zone names. *)
Fixpoint timezone_loop (names : list string) (timezone : list Z) (i : nat) : option nat :=
  match names with
  | [] => None
  | timezone_name :: names =>
      if bool_decide (timezone = chars timezone_name) then Some i else timezone_loop names timezone (S i)
  end.

Definition strcspn_of (set s : list Z) : nat := length (span (is_sep set) false s).1.

Definition is_c_name (locale : list Z) : bool :=
  bool_decide (locale = []) || bool_decide (locale = chars "C") || bool_decide (locale = chars "POSIX").

(** The categories that a name asks for. *)
Definition requested (locale : list Z) : option categories :=
  if is_c_name locale then Some c_categories
  else
    let len := strcspn_of (chars ".@") locale in
    let at_ctype := drop len locale in
    let ctype_len := strcspn_of (chars "@") at_ctype in
    let at_timezone := drop ctype_len at_ctype in
    l ← (if (1 <=? len)%nat && (len <=? 5)%nat then language_loop languages locale len else Some None);
    c ← (match at_ctype with
         | 46 :: name => lookup_ctype (name ++ [0]) (Z.of_nat ctype_len - 1)
         | _ => Some None
         end);
    let z := match at_timezone with
             | 64 :: name => timezone_loop timezone_names name 0
             | _ => None
             end in
    Some (Categories (l_collate <$> l) c (l_messages <$> l) (l_monetary <$> l) (l_numeric <$> l) (l_time <$> l) (Timezone <$> z)).

(** PATCH_CATEGORY: the value of the category and whether one is different from the base; [None] when the
    value is not available. *)
Definition patch_category `{EqDecision A} (category_mask bit : Z) (new base : option A) (different : bool) : option (option A * bool) :=
  if Z.land category_mask bit =? 0 then Some (base, different)
  else if bool_decide (new = base) then Some (new, different)
  else match new with None => None | Some _ => Some (new, true) end.

Definition patch (category_mask : Z) (new base : categories) : option (categories * bool) :=
  '(co, d) ← patch_category category_mask LC_COLLATE_MASK (collate new) (collate base) false;
  '(ct, d) ← patch_category category_mask LC_CTYPE_MASK (ctype new) (ctype base) d;
  '(me, d) ← patch_category category_mask LC_MESSAGES_MASK (messages new) (messages base) d;
  '(mo, d) ← patch_category category_mask LC_MONETARY_MASK (monetary new) (monetary base) d;
  '(nu, d) ← patch_category category_mask LC_NUMERIC_MASK (numeric new) (numeric base) d;
  '(ti, d) ← patch_category category_mask LC_TIME_MASK (time new) (time base) d;
  '(tz, d) ← patch_category category_mask LC_TIMEZONE_MASK (timezone new) (timezone base) d;
  Some (Categories co ct me mo nu ti tz, d).

(** The objects afterwards and the result with errno, where it is null.  [alloc] is the address that malloc
    returns, or nothing. *)
Definition newlocale (objects : gmap Z locale) (category_mask : Z) (locale : list Z) (base : Z) (alloc : option Z)
    : option (gmap Z Locale.locale * (Z + Z)) :=
  new_locale ← requested locale;
  let base := if base =? 0 then LC_C_LOCALE else base in
  b ← objects !! base;
  match patch category_mask new_locale (cats b) with
  | None => Some (objects, inr ENOENT)
  | Some (_, false) =>
      count ← refcount_acquire (refcount b);
      Some (<[base := Locale count (compiled b) (cats b)]> objects, inl base)
  | Some (new, true) =>
      match alloc with
      | None => Some (objects, inr ENOMEM)
      | Some copy => Some (<[copy := Locale 1 0 new]> objects, inl copy)
      end
  end.

End newlocale.

(** setlocale: whether it returns the name of the C locale. *)
Definition setlocale (locale : option (list Z)) : bool :=
  match locale with None => true | Some locale => is_c_name locale end.

(** ** Combining two locales *)

Definition pick {A} (category_mask bit : Z) (new base : option A) : option A := if Z.land category_mask bit =? 0 then base else new.

(** The categories of the mask from one locale, the others from another. *)
Definition merged (category_mask : Z) (new base : categories) : categories :=
  Categories (pick category_mask LC_COLLATE_MASK (collate new) (collate base)) (pick category_mask LC_CTYPE_MASK (ctype new) (ctype base))
    (pick category_mask LC_MESSAGES_MASK (messages new) (messages base)) (pick category_mask LC_MONETARY_MASK (monetary new) (monetary base))
    (pick category_mask LC_NUMERIC_MASK (numeric new) (numeric base)) (pick category_mask LC_TIME_MASK (time new) (time base))
    (pick category_mask LC_TIMEZONE_MASK (timezone new) (timezone base)).

Definition available {A} (o : option A) : bool := match o with Some _ => true | None => false end.

(** No pointer is null. *)
Definition complete (c : categories) : bool :=
  available (collate c) && (available (ctype c) && (available (messages c) && (available (monetary c) &&
    (available (numeric c) && (available (time c) && available (timezone c)))))).

Lemma patch_category_ok `{EqDecision A} mask bit (new base : option A) d : available base = true ->
  patch_category mask bit new base d =
    let v := pick mask bit new base in if available v then Some (v, d || negb (bool_decide (v = base))) else None.
Proof.
  destruct base as [b|]; [intros _|done]. unfold patch_category, pick. cbv zeta. destruct (Z.eqb_spec (Z.land mask bit) 0).
  - cbn [available]. rewrite bool_decide_true by done. by rewrite orb_false_r.
  - destruct new as [v|]; cbn [available]; [|by rewrite bool_decide_false]. case_bool_decide; by rewrite ?orb_false_r, ?orb_true_r.
Qed.

Lemma same_categories a1 a2 a3 a4 a5 a6 a7 base :
  negb (bool_decide (a1 = collate base)) || negb (bool_decide (a2 = ctype base)) || negb (bool_decide (a3 = messages base)) ||
  negb (bool_decide (a4 = monetary base)) || negb (bool_decide (a5 = numeric base)) || negb (bool_decide (a6 = time base)) ||
  negb (bool_decide (a7 = timezone base)) = negb (bool_decide (Categories a1 a2 a3 a4 a5 a6 a7 = base)).
Proof.
  destruct base as [b1 b2 b3 b4 b5 b6 b7]; cbn [collate ctype messages monetary numeric time timezone].
  destruct (bool_decide (Categories a1 a2 a3 a4 a5 a6 a7 = _)) eqn:E.
  - apply bool_decide_eq_true in E. injection E as -> -> -> -> -> -> ->. by rewrite !bool_decide_true by done.
  - apply bool_decide_eq_false in E. cbn [negb]. rewrite !orb_true_iff, !negb_true_iff, !bool_decide_eq_false.
    destruct (decide (a1 = b1)), (decide (a2 = b2)), (decide (a3 = b3)), (decide (a4 = b4)), (decide (a5 = b5)), (decide (a6 = b6)); subst; try tauto.
    right. intros ->. by apply E.
Qed.

Lemma patch_ok mask new base : complete base = true ->
  patch mask new base = if complete (merged mask new base) then Some (merged mask new base, negb (bool_decide (merged mask new base = base)))
                        else None.
Proof.
  unfold complete at 1. rewrite !andb_true_iff. intros (H1 & H2 & H3 & H4 & H5 & H6 & H7). unfold patch.
  unfold merged. rewrite <- same_categories. unfold complete. cbn [collate ctype messages monetary numeric time timezone].
  rewrite patch_category_ok by done. cbv zeta. destruct (available (pick mask LC_COLLATE_MASK _ _)); [|done]. cbn [mbind option_bind andb].
  rewrite patch_category_ok by done. cbv zeta. destruct (available (pick mask LC_CTYPE_MASK _ _)); [|done]. cbn [mbind option_bind andb].
  rewrite patch_category_ok by done. cbv zeta. destruct (available (pick mask LC_MESSAGES_MASK _ _)); [|done]. cbn [mbind option_bind andb].
  rewrite patch_category_ok by done. cbv zeta. destruct (available (pick mask LC_MONETARY_MASK _ _)); [|done]. cbn [mbind option_bind andb].
  rewrite patch_category_ok by done. cbv zeta. destruct (available (pick mask LC_NUMERIC_MASK _ _)); [|done]. cbn [mbind option_bind andb].
  rewrite patch_category_ok by done. cbv zeta. destruct (available (pick mask LC_TIME_MASK _ _)); [|done]. cbn [mbind option_bind andb].
  rewrite patch_category_ok by done. cbv zeta. cbn [orb]. by destruct (available (pick mask LC_TIMEZONE_MASK _ _)).
Qed.

(** ** Names of locales *)

(** [language][.ctype][@timezone]. *)
Definition locale_name (lang : list Z) (charset zone : option (list Z)) : list Z :=
  lang ++ from_option (cons 46) [] charset ++ from_option (cons 64) [] zone.

(** The parts do not have the characters that separate them. *)
Definition parts_ok (lang : list Z) (charset : option (list Z)) : Prop :=
  Forall (fun c => c <> 46 /\ c <> 64) lang /\ from_option (Forall (fun c => c <> 64)) True charset.

Definition find_language (lang : list Z) : option language := head (filter (fun l => l_name l = lang) languages).

Definition find_zone (zone : list Z) : option nat := timezone_loop timezone_names zone 0.

(** The categories for a language, and for the names of a character set and a time zone. *)
Definition categories_with (l : option language) (charset zone : option (list Z)) : categories :=
  Categories (l_collate <$> l) (charset ≫= find_ctype) (l_messages <$> l) (l_monetary <$> l) (l_numeric <$> l) (l_time <$> l)
    (Timezone <$> (zone ≫= find_zone)).

(** The categories that the parts of a name are listed for. *)
Definition categories_of (lang : list Z) (charset zone : option (list Z)) : categories := categories_with (find_language lang) charset zone.

Lemma span_split P l rest : Forall (fun x => P x = false) l -> (forall x, head rest = Some x -> P x = true) ->
  span P false (l ++ rest) = (l, rest).
Proof.
  induction 1 as [|x l Hx _ IH]; intros Hr; cbn [app span].
  - destruct rest as [|y rest]; [done|]. cbn [span]. by rewrite (Hr y).
  - rewrite Hx. cbn [eqb]. by rewrite IH.
Qed.

Lemma strcspn_split set l rest : Forall (fun x => x ∉ set) l -> (forall x, head rest = Some x -> x ∈ set) ->
  strcspn_of set (l ++ rest) = length l.
Proof.
  intros Hl Hr. unfold strcspn_of. rewrite span_split; [done| |].
  - eapply list.Forall_impl; [exact Hl|]. intros x Hx. by apply bool_decide_eq_false.
  - intros x Hx. by apply bool_decide_eq_true, Hr.
Qed.

Lemma languages_ok : Forall (fun l => length (l_name l) = 5%nat /\ Forall (fun c => c <> 0) (l_name l)) languages.
Proof. apply (bool_decide_unpack _). vm_compute. exact I. Qed.

(** What the search makes of the entry with the name: it depends on the byte behind it whether it is found. *)
Definition found (pad : option Z) (entry : option language) : option (option language) :=
  match entry with
  | None => Some None
  | Some l => c ← pad; Some (if c =? 0 then Some l else None)
  end.

Lemma language_loop_ok pad entries lang rest : Forall (fun l => length (l_name l) = 5%nat /\ Forall (fun c => c <> 0) (l_name l)) entries ->
  (length lang <= 5)%nat ->
  language_loop pad entries (lang ++ rest) (length lang) = found pad (head (filter (fun l => l_name l = lang) entries)).
Proof.
  intros He Hlen. induction He as [|l entries [Hl Hz] _ IH]; [done|].
  cbn [language_loop]. rewrite filter_cons, take_app_length. unfold name_byte.
  destruct (decide (length lang = 5%nat)) as [E|E].
  - rewrite (take_ge (l_name l)), (lookup_ge_None_2 (l_name l)) by lia.
    case_bool_decide as Hn; [|by rewrite decide_False by congruence]. rewrite decide_True by done. cbn [head found].
    destruct pad as [c|]; [|done]. cbn [mbind option_bind]. destruct (c =? 0) eqn:Ec; [done|]. rewrite IH.
    destruct (head (filter (fun l => l_name l = lang) entries)); [|done]. cbn. by rewrite Ec.
  - destruct (lookup_lt_is_Some_2 (l_name l) (length lang)) as [c Hc]; [lia|]. rewrite Hc. cbn [mbind option_bind].
    rewrite list.Forall_forall in Hz. assert (c <> 0) by (eapply Hz, list_elem_of_lookup_2, Hc).
    rewrite (proj2 (Z.eqb_neq c 0)) by done. rewrite decide_False by (intros <-; lia). rewrite IH. by case_bool_decide.
Qed.

Lemma find_language_length lang : length lang <> 5%nat -> find_language lang = None.
Proof.
  intros Hl. unfold find_language. pose proof languages_ok as H. induction H as [|l ls [E _] _ IH]; [done|]. rewrite filter_cons.
  rewrite decide_False by (intros <-; done). exact IH.
Qed.

(** What newlocale looks up for a name. *)
Lemma requested_parts pad lang charset zone : is_string (locale_name lang charset zone) -> parts_ok lang charset ->
  is_c_name (locale_name lang charset zone) = false ->
  requested pad (locale_name lang charset zone) =
    (l ← (if (1 <=? length lang)%nat && (length lang <=? 5)%nat
          then language_loop pad languages (locale_name lang charset zone) (length lang) else Some None);
     Some (categories_with l charset zone)).
Proof.
  intros Hs [Hlang Hset] Hc. unfold requested. rewrite Hc.
  set (tail := from_option (cons 64) [] zone). set (mid := from_option (cons 46) [] charset ++ tail).
  assert (H1 : strcspn_of (chars ".@") (locale_name lang charset zone) = length lang).
  { unfold locale_name. fold tail mid. apply strcspn_split.
    - eapply list.Forall_impl; [exact Hlang|]. cbn. set_solver.
    - intros x. subst mid tail. destruct charset, zone; cbn; intros [= <-]; set_solver. }
  assert (H2 : strcspn_of (chars "@") mid = length (from_option (cons 46) [] charset)).
  { apply strcspn_split; [|intros x; subst tail; destruct zone; cbn; intros [= <-]; set_solver].
    destruct charset as [c|]; cbn in Hset |- *; [|done]. constructor; [set_solver|]. eapply list.Forall_impl; [exact Hset|]. cbn. set_solver. }
  assert (Hn : locale_name lang charset zone = lang ++ mid) by done. rewrite Hn in *. cbv zeta. rewrite H1, drop_app_length, H2.
  assert (Hd : drop (length (from_option (cons 46) [] charset)) mid = tail) by apply drop_app_length. rewrite Hd.
  clear H1 H2 Hc Hd. unfold categories_with.
  assert (Hz : match tail with 64 :: name => timezone_loop timezone_names name 0 | _ => None end = zone ≫= find_zone) by (subst tail; by destruct zone).
  rewrite Hz. subst mid. set (ll := if _ && _ then language_loop _ _ _ _ else Some None). destruct ll as [l|]; [|done]. cbn [mbind option_bind].
  clear Hz. destruct charset as [c|]; cbn [from_option app mbind option_bind length].
  - rewrite <- app_assoc. replace (Z.of_nat (S (length c)) - 1) with (Z.of_nat (length c)) by lia. rewrite lookup_ctype_ok; [done|].
    unfold is_string in Hs |- *. cbn in Hs. rewrite !Forall_app, Forall_cons, Forall_app in Hs. tauto.
  - subst tail. by destruct zone.
Qed.

Lemma requested_ok pad lang charset zone : is_string (locale_name lang charset zone) -> parts_ok lang charset ->
  is_c_name (locale_name lang charset zone) = false ->
  requested pad (locale_name lang charset zone) = (l ← found pad (find_language lang); Some (categories_with l charset zone)).
Proof.
  intros Hs Hp Hc. rewrite requested_parts by done.
  destruct ((1 <=? length lang)%nat && (length lang <=? 5)%nat) eqn:E.
  - apply andb_true_iff in E as [_ E%Nat.leb_le]. unfold locale_name. by rewrite language_loop_ok by (done || apply languages_ok).
  - rewrite find_language_length; [done|]. intros E'. by rewrite E' in E.
Qed.

(** The language that a name asks for, if it is listed. *)
Definition language_of (name : list Z) : option language :=
  if is_c_name name then None else find_language (take (strcspn_of (chars ".@") name) name).

Lemma language_of_parts lang charset zone : parts_ok lang charset -> is_c_name (locale_name lang charset zone) = false ->
  language_of (locale_name lang charset zone) = find_language lang.
Proof.
  intros [Hlang _] Hc. unfold language_of. rewrite Hc. unfold locale_name.
  rewrite strcspn_split, take_app_length; [done| |].
  - eapply list.Forall_impl; [exact Hlang|]. cbn. set_solver.
  - intros x. destruct charset, zone; cbn; intros [= <-]; set_solver.
Qed.

(** Every name has such parts. *)
Lemma locale_name_parts name : exists lang charset zone, name = locale_name lang charset zone /\ parts_ok lang charset.
Proof.
  induction name as [|c name (lang & charset & zone & -> & Hl & Hs)].
  - exists [], None, None. repeat split; constructor.
  - destruct (decide (c = 46)) as [->|H1]; [|destruct (decide (c = 64)) as [->|H2]].
    + destruct (decide (64 ∈ lang ++ from_option (cons 46) [] charset)) as [Hin|Hin].
      * exfalso. apply elem_of_app in Hin as [Hin|Hin].
        -- rewrite list.Forall_forall in Hl. by apply (Hl 64).
        -- destruct charset as [s|]; cbn in Hin, Hs; [|by apply not_elem_of_nil in Hin]. apply elem_of_cons in Hin as [?|Hin]; [done|].
           rewrite list.Forall_forall in Hs. by apply (Hs 64).
      * exists [], (Some (lang ++ from_option (cons 46) [] charset)), zone. unfold locale_name. cbn. rewrite <- app_assoc. split; [done|].
        split; [constructor|]. cbn. apply list.Forall_forall. by intros x Hx ->.
    + exists [], None, (Some (locale_name lang charset zone)). repeat split; constructor.
    + exists (c :: lang), charset, zone. split; [done|]. split; [|done]. by constructor.
Qed.

Lemma requested_total pad name : is_string name -> pad <> None \/ language_of name = None -> is_Some (requested pad name).
Proof.
  intros Hs Hpad. destruct (is_c_name name) eqn:E; [unfold requested; rewrite E; by eauto|].
  destruct (locale_name_parts name) as (lang & charset & zone & -> & Hp). rewrite language_of_parts in Hpad by done.
  rewrite requested_ok by done. destruct (find_language lang) as [l|]; [|by eauto]. destruct pad as [c|]; [by eauto|]. by destruct Hpad.
Qed.

(** ** Every name that is listed is found *)

Lemma chars_inj s1 s2 : chars s1 = chars s2 -> s1 = s2.
Proof.
  revert s2. induction s1 as [|a s1 IH]; intros [|b s2]; cbn; [done..|]. intros [= H1 H2]. f_equal; [|by apply IH].
  apply Nat2Z.inj in H1. rewrite <- (Ascii.ascii_nat_embedding a), <- (Ascii.ascii_nat_embedding b). by rewrite H1.
Qed.

Lemma timezone_loop_ok names zone k i : NoDup names ->
  timezone_loop names zone k = Some i <-> exists j name, i = (k + j)%nat /\ names !! j = Some name /\ zone = chars name.
Proof.
  intros Hn. revert k. induction Hn as [|n names Hni Hn IH]; intros k; cbn [timezone_loop]; [split; [done|by intros (? & ? & _ & ? & _)]|].
  case_bool_decide as E.
  - split.
    + intros [= <-]. exists 0%nat, n. split; [lia|done].
    + intros ([|j] & name & -> & Hj & Ez); [f_equal; lia|]. exfalso. apply Hni. cbn in Hj. rewrite E in Ez. apply chars_inj in Ez as ->.
      by eapply list_elem_of_lookup_2.
  - rewrite IH. split.
    + intros (j & name & -> & Hj & Ez). exists (S j), name. split; [lia|done].
    + intros ([|j] & name & -> & Hj & Ez); [cbn in Hj; injection Hj as ->; done|]. exists j, name. split; [lia|done].
Qed.

(** A time zone is found at the index of its name, and there is data for it. *)
Lemma find_zone_ok zone i : find_zone zone = Some i <->
  exists name, timezone_names !! i = Some name /\ zone = chars name /\ is_Some (timezones !! i).
Proof.
  unfold find_zone. rewrite (timezone_loop_ok _ _ _ _ names_distinct). assert (Hl : length timezone_names = length timezones) by reflexivity. split.
  - intros (j & name & -> & Hj & ->). exists name. split; [done|]. split; [done|]. apply lookup_lt_is_Some. rewrite <- Hl. by eapply lookup_lt_Some.
  - intros (name & Hi & -> & _). by exists i, name.
Qed.

Lemma languages_found : Forall (fun l => find_language (l_name l) = Some l) languages.
Proof. repeat constructor. Qed.

(** What newlocale is asked for by a name. *)
Definition asks (name : list Z) (want : categories) : Prop :=
  if is_c_name name then want = c_categories
  else exists lang charset zone, name = locale_name lang charset zone /\ parts_ok lang charset /\ want = categories_of lang charset zone.

Lemma requested_asks pad name : is_string name ->
  exists want, asks name want /\
    (language_of name = None \/ pad = Some 0 -> requested pad name = Some want) /\
    (is_Some (language_of name) -> pad = None -> requested pad name = None).
Proof.
  intros Hs. unfold asks. destruct (is_c_name name) eqn:E.
  - exists c_categories. unfold language_of, requested. rewrite E. split; [done|]. split; [done|]. by intros [? ?].
  - destruct (locale_name_parts name) as (lang & charset & zone & -> & Hp). exists (categories_of lang charset zone).
    rewrite language_of_parts, requested_ok by done. split; [by exists lang, charset, zone|]. unfold categories_of. split.
    + intros [H| ->]; [by rewrite H|]. by destruct (find_language lang).
    + intros [l ->] ->. done.
Qed.

(** C39: A name is the empty string, C, POSIX, or a language, a character set and a time zone, each of which is looked up;
    every language, every name of a character set and every time zone listed is found, and no other.  The result has the
    categories of the mask as the name says and the others of the base locale: it is the base with one more reference when
    that has the same categories, and otherwise a new object; the call fails with ENOENT exactly when a category of the
    mask is not available, and then changes nothing.  This holds of a name with a listed language only where the byte behind
    the five letters of its entry, which the search reads, can be read and is null ([pad = Some 0]); in C that read is
    undefined ([pad = None]), and so is newlocale for exactly those names. *)
Theorem newlocale_correct (pad : option Z) (objects : gmap Z locale) (mask : Z) (name : list Z) (base : Z) (alloc : option Z) (b : locale)
    (Hname : is_string name)
    (Hb : objects !! (if base =? 0 then LC_C_LOCALE else base) = Some b) (Hc : complete (cats b) = true) (Hr : 0 < refcount b < 2 ^ 32 - 1) :
  (exists want, asks name want /\
    (language_of name = None \/ pad = Some 0 ->
     newlocale pad objects mask name base alloc = Some (
      let base := if base =? 0 then LC_C_LOCALE else base in
      let new := merged mask want (cats b) in
      if complete new then
        if bool_decide (new = cats b) then (<[base := Locale (refcount b + 1) (compiled b) (cats b)]> objects, inl base)
        else match alloc with
             | Some copy => (<[copy := Locale 1 0 new]> objects, inl copy)
             | None => (objects, inr ENOMEM)
             end
      else (objects, inr ENOENT)))) /\
  (pad = None -> newlocale pad objects mask name base alloc = None <-> is_Some (language_of name)) /\
  Forall (fun l => find_language (l_name l) = Some l) languages /\
  Forall (fun e => find_ctype (c_string e.1) = Some e.2) ctypes /\
  (forall zone i, find_zone zone = Some i <-> exists name, timezone_names !! i = Some name /\ zone = chars name /\ is_Some (timezones !! i)).
Proof.
  destruct (requested_asks pad name Hname) as (want & Ha & Hdef & Hundef).
  assert (Hnew : requested pad name = Some want -> newlocale pad objects mask name base alloc = Some (
      let base := if base =? 0 then LC_C_LOCALE else base in
      let new := merged mask want (cats b) in
      if complete new then
        if bool_decide (new = cats b) then (<[base := Locale (refcount b + 1) (compiled b) (cats b)]> objects, inl base)
        else match alloc with
             | Some copy => (<[copy := Locale 1 0 new]> objects, inl copy)
             | None => (objects, inr ENOMEM)
             end
      else (objects, inr ENOENT))).
  { intros Hq. unfold newlocale. rewrite Hq. cbn [mbind option_bind]. rewrite Hb. cbn [mbind option_bind].
    rewrite patch_ok by done. cbv zeta. destruct (complete (merged mask want (cats b))); [|done]. case_bool_decide; cbn [negb]; [|by destruct alloc].
    unfold refcount_acquire. rewrite (proj2 (Z.ltb_lt _ _)) by lia. cbn [mbind option_bind]. by rewrite uN_small by (unfold in_unsigned; lia). }
  split; [|split; [|split; [apply languages_found|split; [apply ctypes_found|apply find_zone_ok]]]].
  - exists want. split; [done|]. intros H. by apply Hnew, Hdef.
  - intros Hpad. split; [|intros Hl; unfold newlocale; by rewrite (Hundef Hl Hpad)].
    intros E. destruct (language_of name) as [l|]; [by eauto|]. rewrite Hnew in E by auto. done.
Qed.

(** "nl_NL.UTF-8@Europe/Amsterdam", and the same in C. *)
Lemma newlocale_correct_witness :
  (exists objects', newlocale (Some 0) {[LC_C_LOCALE := locale_c]} LC_ALL_MASK (chars "nl_NL.UTF-8@Europe/Amsterdam") 0 (Some 100)
     = Some (objects', inl 100)) /\
  newlocale None {[LC_C_LOCALE := locale_c]} LC_ALL_MASK (chars "nl_NL.UTF-8@Europe/Amsterdam") 0 (Some 100) = None.
Proof.
  assert (Hs : is_string (chars "nl_NL.UTF-8@Europe/Amsterdam")) by (apply (bool_decide_unpack _); vm_compute; exact I).
  split.
  - destruct (newlocale_correct (Some 0) {[LC_C_LOCALE := locale_c]} LC_ALL_MASK _ 0 (Some 100) locale_c Hs) as [(want & _ & E) _];
      [reflexivity|reflexivity|cbn; lia|].
    specialize (E (or_intror eq_refl)). vm_compute in E |- *. eexists. reflexivity.
  - destruct (newlocale_correct None {[LC_C_LOCALE := locale_c]} LC_ALL_MASK _ 0 (Some 100) locale_c Hs) as (_ & H & _);
      [reflexivity|reflexivity|cbn; lia|].
    apply (H eq_refl). vm_compute. eexists. reflexivity.
Defined.
