(* ===== verification/LocaleLife.v ===== *)
(** * Lifetime of locale objects

    Sources: src/libc/locale/duplocale.c, freelocale.c, locale_get_compiled.c,
    locale_compile_wstring.c; struct lc_compiled of src/common/locale.h.

    Locale objects are counted references.  Strings of a locale that depend on its
    character set are converted when they are first asked for, and kept in a structure
    that is itself allocated then; threads install both by compare-and-exchange, and the
    one that comes too late frees its own copy.  freelocale frees them with the object.

    newlocale, duplocale and freelocale are one step each: what they read of an object
    does not change, and the count is accessed by one atomic operation; the thread that
    releases the last reference is the only one that can access the object.  A call of
    __locale_compile_wstring takes a step for every atomic access and every allocation,
    and the steps of the threads interleave.  An access to memory that has been freed or
    behind an array, and freeing what is not allocated, is undefined ([None]).

    The program owns references, which newlocale and duplocale give and freelocale takes;
    it uses only locales that it owns a reference to or that are static, and does not give
    up the last one while calls use the locale.

    Only the wide strings of a locale are converted here; __locale_compile_string, for
    the narrow ones, and the read behind a language name in newlocale ([Locale]) are not
    part of this.

    The theorem: under all interleavings no access is undefined, the counts are the
    numbers of references, all calls for a wide string that get one get the same, right
    text, which stays until the object is freed; the others get the empty string for want
    of a string, of memory or of an encoding and for no other reason; and no memory is
    lost. *)

From S2P Require Import Prelude Charset Multibyte Services CtypeNames Locale.

#[local] Open Scope Z_scope.

(** ** The program *)

(** The number of pointers in struct lc_compiled: messages with the arrays of gai_strerror, strerror and strsignal,
    monetary, numeric and time with the arrays of names, CRNCYSTR and localeconv. *)
Definition lc_compiled_slots : nat := (2 + 11 + 77 + 27 + 1) + 5 + 2 + (6 + 7 + 7 + 12 + 12 + 5) + 1 + 1.

(** An allocated block: struct lc_compiled with its pointers, or a string. *)
Inductive block := BCompiled (slots : list Z) | BString (text : list Z).

Definition is_static (a : Z) : bool := (a =? LC_C_LOCALE) || (a =? LC_C_UNICODE_LOCALE).

Definition duplocale (objects : gmap Z locale) (locobj : Z) : option (gmap Z locale) :=
  o ← objects !! locobj;
  count ← refcount_acquire (refcount o);
  Some (<[locobj := Locale count (compiled o) (cats o)]> objects).

(** free: nothing to do for a null pointer. *)
Definition free (blocks : gmap Z block) (p : Z) : option (gmap Z block) :=
  if p =? 0 then Some blocks else _ ← blocks !! p; Some (delete p blocks).

Fixpoint free_all (blocks : gmap Z block) (ps : list Z) : option (gmap Z block) :=
  match ps with
  | [] => Some blocks
  | p :: ps => blocks ← free blocks p; free_all blocks ps
  end.

(** Freeing the structure and its strings. *)
Definition free_compiled (blocks : gmap Z block) (compiled : Z) : option (gmap Z block) :=
  if compiled =? 0 then Some blocks
  else
    b ← blocks !! compiled;
    match b with
    | BCompiled slots => blocks ← free_all blocks slots; free blocks compiled
    | BString _ => None
    end.

(** Freeing a static object is undefined. *)
Definition freelocale (objects : gmap Z locale) (blocks : gmap Z block) (locobj : Z) : option (gmap Z locale * gmap Z block) :=
  o ← objects !! locobj;
  let '(count, last) := refcount_release (refcount o) in
  if negb last then Some (<[locobj := Locale count (compiled o) (cats o)]> objects, blocks)
  else
    blocks ← free_compiled blocks (compiled o);
    if is_static locobj then None else Some (delete locobj objects, blocks).

(** convert_wstring: the text of the new block, or a null pointer; [junk] is what the block holds before. *)
Definition convert_wstring (C : lc_ctype) (wcs : list Z) (alloc : bool) (junk : Z) : option (option (list Z)) :=
  len ← c32stombs_count C wcs (2 ^ 64 - 1) 0;
  if len <? 0 then Some None
  else if negb alloc then Some None
  else
    '(_, _, out) ← c32stombs_store C wcs (2 ^ 64 - 1) len [];
    Some (Some (<[Z.to_nat len := 0]> (out ++ replicate (S (Z.to_nat len) - length out) junk))).

(** A call of __locale_compile_wstring for slot [k] of the locale at [a], by its next step. *)
Inductive lpc :=
  | LLoad (a : Z) (k : nat)
  | LAlloc (a : Z) (k : nat)
  | LExchange (a : Z) (k : nat) (new_compiled : Z)
  | LSlot (a : Z) (k : nat) (compiled : Z)
  | LConvert (a : Z) (k : nat) (compiled : Z)
  | LPublish (a : Z) (k : nat) (compiled new_string : Z)
  (** The result: a string, or the empty one for want of a string, of memory or of an encoding. *)
  | LDone (a : Z) (k : nat) (result : option Z).

Definition pc_locale (p : lpc) : Z :=
  match p with
  | LLoad a _ | LAlloc a _ | LExchange a _ _ | LSlot a _ _ | LConvert a _ _ | LPublish a _ _ _ | LDone a _ _ => a
  end.

Record lstate := LState {
  objects : gmap Z locale; blocks : gmap Z block;
  (** The references that the program owns. *)
  owned : list Z;
  calls : gmap Z lpc }.

Section program.
(** The wide strings of the locale data that the slots are for, which may be null pointers. *)
Context (wide : categories -> nat -> option (list Z)).

(** The character set of a locale, which is never null. *)
Definition ctype_of (c : categories) : option lc_ctype := ctype_data <$> ctype c.

(** The next step of a call; [alloc] is what malloc or calloc returns and [junk] what is in it. *)
Definition call_step (s : lstate) (t : Z) (p : lpc) (alloc : option Z) (junk : Z) : option lstate :=
  let goto q := Some (LState (objects s) (blocks s) (owned s) (<[t := q]> (calls s))) in
  match p with
  | LLoad a k =>
      o ← objects s !! a;
      match wide (cats o) k with
      | None => goto (LDone a k None)
      | Some _ => goto (if compiled o =? 0 then LAlloc a k else LSlot a k (compiled o))
      end
  | LAlloc a k =>
      match alloc with
      | None => goto (LDone a k None)
      | Some new => Some (LState (objects s) (<[new := BCompiled (replicate lc_compiled_slots 0)]> (blocks s)) (owned s)
                            (<[t := LExchange a k new]> (calls s)))
      end
  | LExchange a k new =>
      o ← objects s !! a;
      if compiled o =? 0 then
        Some (LState (<[a := Locale (refcount o) new (cats o)]> (objects s)) (blocks s) (owned s) (<[t := LSlot a k new]> (calls s)))
      else
        bl ← free (blocks s) new;
        Some (LState (objects s) bl (owned s) (<[t := LSlot a k (compiled o)]> (calls s)))
  | LSlot a k c =>
      b ← blocks s !! c;
      match b with
      | BCompiled slots => p ← slots !! k; goto (if p =? 0 then LConvert a k c else LDone a k (Some p))
      | BString _ => None
      end
  | LConvert a k c =>
      o ← objects s !! a;
      C ← ctype_of (cats o);
      w ← wide (cats o) k;
      r ← convert_wstring C (w ++ [0]) (bool_decide (is_Some alloc)) junk;
      match r, alloc with
      | Some text, Some new =>
          Some (LState (objects s) (<[new := BString text]> (blocks s)) (owned s) (<[t := LPublish a k c new]> (calls s)))
      | _, _ => goto (LDone a k None)
      end
  | LPublish a k c new =>
      b ← blocks s !! c;
      match b with
      | BCompiled slots =>
          p ← slots !! k;
          if p =? 0 then
            Some (LState (objects s) (<[c := BCompiled (<[k := new]> slots)]> (blocks s)) (owned s) (<[t := LDone a k (Some new)]> (calls s)))
          else
            bl ← free (blocks s) new;
            Some (LState (objects s) bl (owned s) (<[t := LDone a k (Some p)]> (calls s)))
      | BString _ => None
      end
  | LDone _ _ _ => None
  end.

(** A locale that the program may use. *)
Definition usable (owned : list Z) (a : Z) : Prop := is_static a = true \/ a ∈ owned.

(** Memory that malloc may return. *)
Definition fresh (s : lstate) (a : Z) : Prop := a <> 0 /\ is_static a = false /\ objects s !! a = None /\ blocks s !! a = None.

Definition alloc_ok (s : lstate) (alloc : option Z) : Prop := from_option (fresh s) True alloc.

(** The number of references stays below the range of the count. *)
Definition room (s : lstate) : Prop := Z.of_nat (length (owned s)) < 2 ^ 32 - 2.

Inductive lstep (pad : option Z) (s : lstate) : lstate -> Prop :=
  | step_newlocale mask name base alloc objs r : base = 0 \/ usable (owned s) base -> alloc_ok s alloc -> room s ->
      newlocale pad (objects s) mask name base alloc = Some (objs, r) ->
      lstep pad s (LState objs (blocks s) (match r with inl a => a :: owned s | inr _ => owned s end) (calls s))
  | step_duplocale a objs : usable (owned s) a -> room s -> duplocale (objects s) a = Some objs ->
      lstep pad s (LState objs (blocks s) (a :: owned s) (calls s))
  | step_freelocale a own objs bl : owned s ≡ₚ a :: own -> (forall t p, calls s !! t = Some p -> usable own (pc_locale p)) ->
      freelocale (objects s) (blocks s) a = Some (objs, bl) ->
      lstep pad s (LState objs bl own (calls s))
  | step_call t a k : calls s !! t = None -> usable (owned s) a -> (k < lc_compiled_slots)%nat ->
      lstep pad s (LState (objects s) (blocks s) (owned s) (<[t := LLoad a k]> (calls s)))
  | step_run t p alloc junk s' : calls s !! t = Some p -> alloc_ok s alloc -> call_step s t p alloc junk = Some s' -> lstep pad s s'
  | step_return t a k r : calls s !! t = Some (LDone a k r) -> lstep pad s (LState (objects s) (blocks s) (owned s) (delete t (calls s))).

Definition linitial : lstate := LState {[LC_C_LOCALE := locale_c; LC_C_UNICODE_LOCALE := locale_c_unicode]} ∅ [] ∅.

Definition lreachable (pad : option Z) : lstate -> Prop := rtc (lstep pad) linitial.

End program.

#[local] Opaque lc_compiled_slots.

(** ** The conversion *)

Lemma count_total C w n ret : is_Some (c32stombs_count C (w ++ [0]) n ret).
Proof.
  revert n ret. induction w as [|c w IH]; intros n ret; cbn; destruct (n <=? 0); try done.
  - by destruct (c32tomb C 0).
  - destruct (c32tomb C c); [|done]. destruct (c =? 0); [done|apply IH].
Qed.

Lemma store_total C w n len out : is_Some (c32stombs_store C (w ++ [0]) n len out).
Proof.
  revert n len out. induction w as [|c w IH]; intros n len out; cbn; destruct ((n <=? 0) || (len <=? 0)); try done.
  - destruct (c32tomb C 0); [|done]. by destruct (_ <? _).
  - destruct (c32tomb C c); [|done]. destruct (_ <? _); [done|]. destruct (c =? 0); [done|apply IH].
Qed.

Lemma convert_total C w alloc junk : is_Some (convert_wstring C (w ++ [0]) alloc junk).
Proof.
  unfold convert_wstring. destruct (count_total C w (2 ^ 64 - 1) 0) as [len ->]. cbn [mbind option_bind]. destruct (len <? 0); [done|].
  destruct alloc; cbn [negb]; [|done]. destruct (store_total C w (2 ^ 64 - 1) len []) as [[[r src] out] ->]. done.
Qed.

(** A string is stored without its terminator when there is room for just the rest. *)
Lemma store_exact C `{!CtypeLaws C} cs bss n out : encodes C cs bss -> Z.of_nat (length cs) < n ->
  exists r src, c32stombs_store C (cs ++ [0]) n (Z.of_nat (length (concat bss))) out = Some (r, src, out ++ concat bss).
Proof.
  intros H. revert n out. induction H as [|c bs cs bss [Hc H] _ IH]; intros n out Hn; cbn [length concat app c32stombs_store] in *.
  - rewrite orb_true_r, app_nil_r. eexists _, _. reflexivity.
  - destruct (law_length c bs ltac:(lia) H) as [Hl _]. rewrite length_app. rewrite (proj2 (Z.leb_gt n 0)), (proj2 (Z.leb_gt _ 0)) by lia.
    cbn [orb]. rewrite H, (proj2 (Z.ltb_ge _ _)), (proj2 (Z.eqb_neq c 0)) by lia.
    replace (Z.of_nat (length bs + length (concat bss)) - Z.of_nat (length bs)) with (Z.of_nat (length (concat bss))) by lia.
    destruct (IH (n - 1) (out ++ bs) ltac:(lia)) as (r & src & ->). exists r, src. by rewrite <- app_assoc.
Qed.

Lemma count_fails C w n ret : Forall (fun c => 0 < c) w -> Z.of_nat (length w) < n -> mapM (c32tomb C) w = None ->
  c32stombs_count C (w ++ [0]) n ret = Some (-1).
Proof.
  intros Hw. revert n ret. induction Hw as [|c w Hc Hw IH]; intros n ret Hn; cbn in *; [done|]. rewrite (proj2 (Z.leb_gt n 0)) by lia.
  destruct (c32tomb C c) as [bs|]; [|done]. cbn. rewrite (proj2 (Z.eqb_neq c 0)) by lia. destruct (mapM (c32tomb C) w); [done|]. intros _. apply IH; [lia|done].
Qed.

(** The text of a string is the encoding of its characters with a terminator, and there is none when one of
    them has no encoding. *)
Lemma convert_ok C `{!CtypeLaws C} w alloc junk : Forall (fun c => 0 < c) w -> Z.of_nat (length w) < 2 ^ 64 - 1 ->
  convert_wstring C (w ++ [0]) alloc junk =
    Some (bss ← mapM (c32tomb C) w; if alloc then Some (concat bss ++ [0]) else None).
Proof.
  intros Hw Hl. unfold convert_wstring. destruct (mapM (c32tomb C) w) as [bss|] eqn:E; [|by rewrite count_fails by done].
  assert (He : encodes C w bss).
  { apply mapM_Some in E. clear Hl. induction E; [constructor|]. inversion Hw; subst. constructor; [split; done|by apply IHE]. }
  rewrite (c32stombs_count_spec C w bss []) by done. cbn [mbind option_bind]. rewrite (proj2 (Z.ltb_ge _ _)) by lia. destruct alloc; cbn [negb]; [|done].
  rewrite Z.add_0_l. destruct (store_exact C w bss (2 ^ 64 - 1) [] He Hl) as (r & src & ->). cbn [mbind option_bind app]. do 2 f_equal.
  rewrite Nat2Z.id. replace (S (length (concat bss)) - length (concat bss))%nat with 1%nat by lia. cbn [replicate].
  by rewrite insert_app_r_alt, Nat.sub_diag by lia.
Qed.

(** ** Who holds the memory *)

(** Each block is held by a locale object, by a slot of its structure, or by a call that has allocated it. *)
Inductive owner := OCompiled (a : Z) | OSlot (a : Z) (k : nat) | OCall (t : Z).

Definition owner_locale (w : owner) : option Z := match w with OCompiled a | OSlot a _ => Some a | OCall _ => None end.

(** The block that a call holds. *)
Definition pc_block (p : lpc) : option Z := match p with LExchange _ _ n | LPublish _ _ _ n => Some n | _ => None end.

(** What memory depends on of the objects. *)
Definition view_of (objects : gmap Z locale) : gmap Z (Z * categories) := (fun o => (compiled o, cats o)) <$> objects.

Section memory.
Context (wide : categories -> nat -> option (list Z)).

(** The text is a conversion of the string that the slot is for. *)
Definition right_text (c : categories) (k : nat) (text : list Z) : Prop :=
  exists C w junk, ctype_of c = Some C /\ wide c k = Some w /\ convert_wstring C (w ++ [0]) true junk = Some (Some text).

(** Slot [k] of the locale at [a] has pointer [p]. *)
Definition slot_at (V : gmap Z (Z * categories)) (B : gmap Z block) (a : Z) (k : nat) (p : Z) : Prop :=
  exists c ct slots, V !! a = Some (c, ct) /\ c <> 0 /\ B !! c = Some (BCompiled slots) /\ slots !! k = Some p.

Definition pc_ok (own : gmap Z owner) (V : gmap Z (Z * categories)) (B : gmap Z block) (t : Z) (p : lpc) : Prop :=
  match p with
  | LLoad a k => (k < lc_compiled_slots)%nat /\ is_Some (V !! a)
  | LAlloc a k => (k < lc_compiled_slots)%nat /\ exists c ct, V !! a = Some (c, ct) /\ is_Some (wide ct k)
  | LExchange a k n => (k < lc_compiled_slots)%nat /\ (exists c ct, V !! a = Some (c, ct) /\ is_Some (wide ct k)) /\
      own !! n = Some (OCall t) /\ B !! n = Some (BCompiled (replicate lc_compiled_slots 0))
  | LSlot a k c | LConvert a k c => (k < lc_compiled_slots)%nat /\ c <> 0 /\ exists ct, V !! a = Some (c, ct) /\ is_Some (wide ct k)
  | LPublish a k c n => (k < lc_compiled_slots)%nat /\ c <> 0 /\ own !! n = Some (OCall t) /\
      exists ct text, V !! a = Some (c, ct) /\ B !! n = Some (BString text) /\ right_text ct k text
  | LDone a k None => is_Some (V !! a)
  | LDone a k (Some p) => p <> 0 /\ slot_at V B a k p
  end.

Definition owner_ok (V : gmap Z (Z * categories)) (B : gmap Z block) (calls : gmap Z lpc) (b : Z) (w : owner) : Prop :=
  match w with
  | OCompiled a => exists ct, V !! a = Some (b, ct)
  | OSlot a k => slot_at V B a k b
  | OCall t => exists p, calls !! t = Some p /\ pc_block p = Some b
  end.

Record minv (own : gmap Z owner) (V : gmap Z (Z * categories)) (B : gmap Z block) (calls : gmap Z lpc) : Prop := {
  m_dom b : is_Some (B !! b) <-> is_Some (own !! b);
  m_zero : B !! 0 = None;
  m_compiled a c ct : V !! a = Some (c, ct) -> c <> 0 ->
    own !! c = Some (OCompiled a) /\ exists slots, B !! c = Some (BCompiled slots) /\ length slots = lc_compiled_slots;
  m_slot a k p : slot_at V B a k p -> p <> 0 ->
    own !! p = Some (OSlot a k) /\ exists c ct text, V !! a = Some (c, ct) /\ B !! p = Some (BString text) /\ right_text ct k text;
  m_owner b w : own !! b = Some w -> owner_ok V B calls b w;
  m_calls t p : calls !! t = Some p -> pc_ok own V B t p
}.

Lemma m_nonzero own V B calls b w : minv own V B calls -> own !! b = Some w -> b <> 0.
Proof. intros H Hb ->. assert (is_Some (B !! 0)) as [? E] by (apply (m_dom _ _ _ _ H); eauto). by rewrite (m_zero _ _ _ _ H) in E. Qed.

Lemma m_fresh own V B calls n : minv own V B calls -> B !! n = None -> own !! n = None.
Proof. intros H Hn. destruct (own !! n) eqn:E; [|done]. assert (is_Some (B !! n)) as [? E'] by (apply (m_dom _ _ _ _ H); eauto). congruence. Qed.

(** A call that holds no block goes on without touching memory. *)
Lemma minv_goto own V B calls t q : minv own V B calls -> (forall p, calls !! t = Some p -> pc_block p = None) -> pc_ok own V B t q ->
  minv own V B (<[t := q]> calls).
Proof.
  intros H Hp Hq. destruct H. split; [done..| |].
  - intros b w Hb. specialize (m_owner0 b w Hb). destruct w as [a|a k|t']; [done..|]. destruct m_owner0 as (p & Ht & Hb').
    exists p. split; [|done]. rewrite lookup_insert_ne; [done|]. intros <-. rewrite (Hp p Ht) in Hb'. done.
  - intros t' p. rewrite lookup_insert_Some. intros [[<- <-]|[_ Ht]]; [done|]. by apply m_calls0.
Qed.

(** A call returns. *)
Lemma minv_return own V B calls t : minv own V B calls -> (forall p, calls !! t = Some p -> pc_block p = None) -> minv own V B (delete t calls).
Proof.
  intros H Hp. destruct H. split; [done..| |].
  - intros b w Hb. specialize (m_owner0 b w Hb). destruct w as [a|a k|t']; [done..|]. destruct m_owner0 as (p & Ht & Hb').
    exists p. split; [|done]. rewrite lookup_delete_ne; [done|]. intros <-. rewrite (Hp p Ht) in Hb'. done.
  - intros t' p. rewrite lookup_delete_Some. intros [_ Ht]. by apply m_calls0.
Qed.

(** An object stays, and its structure once installed stays. *)
Definition vext (V V' : gmap Z (Z * categories)) (x : Z) : Prop :=
  forall c ct, V !! x = Some (c, ct) -> exists c', V' !! x = Some (c', ct) /\ (c <> 0 -> c' = c).

Lemma vext_refl V x : vext V V x.
Proof. intros c ct H. eauto. Qed.

Lemma vext_fresh V a y x : V !! a = None -> vext V (<[a := y]> V) x.
Proof. intros Ha c ct H. exists c. rewrite lookup_insert_ne by congruence. done. Qed.

Lemma vext_exchange V a n ct x : V !! a = Some (0, ct) -> vext V (<[a := (n, ct)]> V) x.
Proof.
  intros Ha c ct' H. destruct (decide (a = x)) as [<-|]; [|exists c; by rewrite lookup_insert_ne]. rewrite Ha in H. injection H as <- <-.
  exists n. by rewrite lookup_insert_eq.
Qed.

(** The pointers that have been installed stay. *)
Definition slots_stay (V V' : gmap Z (Z * categories)) (B B' : gmap Z block) (x : Z) : Prop :=
  forall k p, p <> 0 -> slot_at V B x k p -> slot_at V' B' x k p.

(** What is known of a call stays when others install what they have allocated, or free it. *)
Lemma pc_mono own own' V V' B B' t p : pc_ok own V B t p -> vext V V' (pc_locale p) -> slots_stay V V' B B' (pc_locale p) ->
  (forall x, own !! x = Some (OCall t) -> own' !! x = Some (OCall t) /\ B' !! x = B !! x) -> pc_ok own' V' B' t p.
Proof.
  intros H HV HS Ho. destruct p as [a k|a k|a k n|a k c|a k c|a k c n|a k [p|]]; cbn in *.
  - destruct H as [? [[c ct] Hy]]. split; [done|]. destruct (HV _ _ Hy) as (c' & ? & _). eauto.
  - destruct H as (? & c & ct & Hy & ?). split; [done|]. destruct (HV _ _ Hy) as (c' & ? & _). eauto.
  - destruct H as (? & (c & ct & Hy & ?) & Hn & ?). split; [done|]. destruct (HV _ _ Hy) as (c' & ? & _), (Ho n Hn) as [? ->]. eauto 6.
  - destruct H as (? & ? & ct & Hy & ?). split; [done|]. split; [done|]. destruct (HV _ _ Hy) as (c' & Hv & E). rewrite E in Hv by done. eauto.
  - destruct H as (? & ? & ct & Hy & ?). split; [done|]. split; [done|]. destruct (HV _ _ Hy) as (c' & Hv & E). rewrite E in Hv by done. eauto.
  - destruct H as (? & ? & Hn & ct & text & Hy & ? & ?). split; [done|]. split; [done|]. destruct (Ho n Hn) as [? ->]. split; [done|].
    destruct (HV _ _ Hy) as (c' & Hv & E). rewrite E in Hv by done. eauto.
  - destruct H as [? H]. split; [done|]. by apply HS.
  - destruct H as [[c ct] Hy]. destruct (HV _ _ Hy) as (c' & ? & _). eauto.
Qed.

(** A new object. *)
Lemma minv_object own V B calls a ct : minv own V B calls -> V !! a = None -> minv own (<[a := (0, ct)]> V) B calls.
Proof.
  intros H Ha.
  assert (Hslot : forall x k p, slot_at (<[a := (0, ct)]> V) B x k p <-> slot_at V B x k p).
  { intros x k p. split; intros (c & ct' & slots & H1 & H2 & H3); exists c, ct', slots.
    - apply lookup_insert_Some in H1 as [[_ [= <- _]]|[_ H1]]; done.
    - by rewrite lookup_insert_ne by congruence. }
  destruct H. split; [done|done| | | |].
  - intros x c ct'. rewrite lookup_insert_Some. intros [[_ [= <- _]]|[_ Hx]]; [done|]. by eapply m_compiled0.
  - intros x k p Hs Hp. apply Hslot in Hs. destruct (m_slot0 x k p Hs Hp) as (? & c & ct' & text & ? & ?). split; [done|]. exists c, ct', text.
    by rewrite lookup_insert_ne by congruence.
  - intros b w Hb. specialize (m_owner0 b w Hb). destruct w as [x|x k|t]; cbn in *; [|by apply Hslot|done].
    destruct m_owner0 as [ct' ?]. exists ct'. by rewrite lookup_insert_ne by congruence.
  - intros t p Ht. eapply pc_mono; [by apply m_calls0|by apply vext_fresh| |done]. intros k y _. apply Hslot.
Qed.

(** A call allocates a block. *)
Lemma minv_alloc own V B calls t q n blk : minv own V B calls -> (forall p, calls !! t = Some p -> pc_block p = None) ->
  n <> 0 -> B !! n = None -> pc_block q = Some n -> pc_ok (<[n := OCall t]> own) V (<[n := blk]> B) t q ->
  minv (<[n := OCall t]> own) V (<[n := blk]> B) (<[t := q]> calls).
Proof.
  intros H Hp H0 Hn Hq Hok. pose proof (m_fresh _ _ _ _ _ H Hn) as Hon.
  assert (Hslot : forall x k p, slot_at V (<[n := blk]> B) x k p <-> slot_at V B x k p).
  { intros x k p. split; intros (c & ct & slots & H1 & H2 & H3 & H4); exists c, ct, slots; (split; [done|]); (split; [done|]); (split; [|done]);
      destruct (m_compiled _ _ _ _ H _ _ _ H1 H2) as [_ (? & E & _)]; [rewrite lookup_insert_ne in H3|rewrite lookup_insert_ne]; congruence. }
  destruct H. split.
  - intros b. destruct (decide (n = b)) as [<-|]; [rewrite !lookup_insert_eq; split; eauto|]. rewrite !lookup_insert_ne by done. apply m_dom0.
  - by rewrite lookup_insert_ne.
  - intros a c ct Ha Hc. destruct (m_compiled0 a c ct Ha Hc) as (? & slots & ? & ?). rewrite !lookup_insert_ne by congruence. eauto.
  - intros a k p Hs Hp'. apply Hslot in Hs. destruct (m_slot0 a k p Hs Hp') as (? & c & ct & text & ? & ? & ?).
    rewrite !lookup_insert_ne by congruence. eauto 8.
  - intros b w. rewrite lookup_insert_Some. intros [[<- <-]|[Hne Hb]]; [exists q; by rewrite lookup_insert_eq|]. specialize (m_owner0 b w Hb).
    destruct w as [a|a k|t']; cbn in *; [done|by apply Hslot|]. destruct m_owner0 as (p & Ht & Hb'). exists p. split; [|done].
    rewrite lookup_insert_ne; [done|]. intros <-. rewrite (Hp p Ht) in Hb'. done.
  - intros t' p. rewrite lookup_insert_Some. intros [[<- <-]|[_ Ht]]; [done|]. eapply pc_mono; [by apply m_calls0|apply vext_refl| |].
    + intros k y _. apply Hslot.
    + intros x Hx. assert (is_Some (B !! x)) as [? ?] by (apply m_dom0; eauto). by rewrite !lookup_insert_ne by congruence.
Qed.

(** A call frees the block it holds. *)
Lemma minv_free own V B calls t p q n : minv own V B calls -> calls !! t = Some p -> pc_block p = Some n -> own !! n = Some (OCall t) ->
  pc_ok (delete n own) V (delete n B) t q -> minv (delete n own) V (delete n B) (<[t := q]> calls).
Proof.
  intros H Ht Hn Hon Hok.
  assert (Hslot : forall x k y, slot_at V (delete n B) x k y <-> slot_at V B x k y).
  { intros x k y. split; intros (c & ct & slots & H1 & H2 & H3 & H4); exists c, ct, slots; (split; [done|]); (split; [done|]); (split; [|done]);
      destruct (m_compiled _ _ _ _ H _ _ _ H1 H2) as [E _]; [apply lookup_delete_Some in H3 as [_ H3]; done|]. rewrite lookup_delete_ne; congruence. }
  destruct H. split.
  - intros b. destruct (decide (n = b)) as [<-|]; [by rewrite !lookup_delete_eq|]. rewrite !lookup_delete_ne by done. apply m_dom0.
  - rewrite lookup_delete_None. by right.
  - intros a c ct Ha Hc. destruct (m_compiled0 a c ct Ha Hc) as (? & slots & ? & ?). rewrite !lookup_delete_ne by congruence. eauto.
  - intros a k y Hs Hy. apply Hslot in Hs. destruct (m_slot0 a k y Hs Hy) as (? & c & ct & text & ? & ? & ?).
    rewrite !lookup_delete_ne by congruence. eauto 8.
  - intros b w. rewrite lookup_delete_Some. intros [Hne Hb]. specialize (m_owner0 b w Hb). destruct w as [a|a k|t']; cbn in *; [done|by apply Hslot|].
    destruct m_owner0 as (p' & Ht' & Hb'). exists p'. split; [|done]. rewrite lookup_insert_ne; [done|]. intros <-. congruence.
  - intros t' p'. rewrite lookup_insert_Some. intros [[<- <-]|[Hne Ht']]; [done|]. eapply pc_mono; [by apply m_calls0|apply vext_refl| |].
    + intros k y _. apply Hslot.
    + intros x Hx. by rewrite !lookup_delete_ne by congruence.
Qed.

(** A call installs the structure it has allocated. *)
Lemma minv_exchange own V B calls t a k n ct : minv own V B calls -> calls !! t = Some (LExchange a k n) -> V !! a = Some (0, ct) ->
  minv (<[n := OCompiled a]> own) (<[a := (n, ct)]> V) B (<[t := LSlot a k n]> calls).
Proof.
  intros H Ht Ha. destruct (m_calls _ _ _ _ H t _ Ht) as (Hk & (c0 & ct0 & Ha' & Hw) & Hon & HBn). rewrite Ha in Ha'. injection Ha' as <- <-.
  pose proof (m_nonzero _ _ _ _ _ _ H Hon) as Hn0.
  assert (Hslot : forall x j y, slot_at V B x j y -> slot_at (<[a := (n, ct)]> V) B x j y).
  { intros x j y (c & ct' & slots & H1 & H2 & H3). exists c, ct', slots. split; [|done]. rewrite lookup_insert_ne; [done|]. intros <-. congruence. }
  assert (Hback : forall x j y, slot_at (<[a := (n, ct)]> V) B x j y -> y <> 0 -> slot_at V B x j y).
  { intros x j y (c & ct' & slots & H1 & H2 & H3 & H4) Hy. apply lookup_insert_Some in H1 as [[<- [= <- <-]]|[_ H1]]; [|by exists c, ct', slots].
    rewrite HBn in H3. injection H3 as <-. apply lookup_replicate in H4 as [-> _]. done. }
  assert (Hz : forall w, own !! 0 <> Some w) by (intros w E; by apply (m_nonzero _ _ _ _ _ _ H) in E).
  destruct H. split; [|done| | | |].
  - intros b. destruct (decide (n = b)) as [<-|]; [rewrite lookup_insert_eq, HBn; split; eauto|]. rewrite lookup_insert_ne by done. apply m_dom0.
  - intros x c ct'. rewrite lookup_insert_Some. intros [[<- [= <- <-]]|[Hne Hx]] Hc.
    + rewrite lookup_insert_eq. split; [done|]. eexists. split; [exact HBn|]. by rewrite length_replicate.
    + destruct (m_compiled0 x c ct' Hx Hc) as [? ?]. rewrite lookup_insert_ne by congruence. done.
  - intros x j y Hs Hy. destruct (m_slot0 x j y (Hback _ _ _ Hs Hy) Hy) as (? & c & ct' & text & Hx & ? & ?). rewrite lookup_insert_ne by congruence.
    split; [done|]. destruct (vext_exchange V a n ct x Ha c ct' Hx) as (c' & ? & _). eauto 8.
  - intros b w. rewrite lookup_insert_Some. intros [[<- <-]|[Hne Hb]]; [exists ct; by rewrite lookup_insert_eq|]. specialize (m_owner0 b w Hb).
    destruct w as [x|x j|t']; cbn in *; [|by apply Hslot|].
    + destruct m_owner0 as [ct' Hx]. exists ct'. rewrite lookup_insert_ne; [done|]. intros <-. rewrite Ha in Hx. injection Hx as <- _. by apply Hz in Hb.
    + destruct m_owner0 as (p & Ht' & Hp). exists p. split; [|done]. rewrite lookup_insert_ne; [done|]. intros <-. rewrite Ht in Ht'.
      injection Ht' as <-. cbn in Hp. congruence.
  - intros t' p. rewrite lookup_insert_Some. intros [[<- <-]|[Hne Ht']].
    + cbn. split; [done|]. split; [done|]. exists ct. by rewrite lookup_insert_eq.
    + eapply pc_mono; [by apply m_calls0|by apply vext_exchange| |].
      * intros j y _. apply Hslot.
      * intros x Hx. by rewrite lookup_insert_ne by congruence.
Qed.

(** A call installs the string it has converted. *)
Lemma minv_publish own V B calls t a k c n slots : minv own V B calls -> calls !! t = Some (LPublish a k c n) ->
  B !! c = Some (BCompiled slots) -> slots !! k = Some 0 ->
  minv (<[n := OSlot a k]> own) V (<[c := BCompiled (<[k := n]> slots)]> B) (<[t := LDone a k (Some n)]> calls).
Proof.
  intros H Ht HBc Hsk. destruct (m_calls _ _ _ _ H t _ Ht) as (Hk & Hc0 & Hon & ct & text & Ha & HBn & Htext).
  pose proof (m_nonzero _ _ _ _ _ _ H Hon) as Hn0. destruct (m_compiled _ _ _ _ H _ _ _ Ha Hc0) as (Hoc & slots' & HBc' & Hlen).
  rewrite HBc in HBc'. injection HBc' as <-. assert (Hcn : c <> n) by congruence.
  assert (Huniq : forall x ct', V !! x = Some (c, ct') -> x = a).
  { intros x ct' Hx. destruct (m_compiled _ _ _ _ H _ _ _ Hx Hc0) as [E _]. congruence. }
  assert (Hnew : slot_at V (<[c := BCompiled (<[k := n]> slots)]> B) a k n).
  { exists c, ct, (<[k := n]> slots). rewrite lookup_insert_eq. repeat (split; [done|]). apply list_lookup_insert_eq. lia. }
  assert (Hslot : forall x j y, y <> 0 -> slot_at V B x j y -> slot_at V (<[c := BCompiled (<[k := n]> slots)]> B) x j y).
  { intros x j y Hy (c' & ct' & sl & H1 & H2 & H3 & H4). destruct (decide (c = c')) as [<-|]; [|exists c', ct', sl; by rewrite lookup_insert_ne].
    rewrite HBc in H3. injection H3 as <-. exists c, ct', (<[k := n]> slots). rewrite lookup_insert_eq. repeat (split; [done|]).
    rewrite list_lookup_insert_ne; [done|]. intros <-. congruence. }
  assert (Hback : forall x j y, slot_at V (<[c := BCompiled (<[k := n]> slots)]> B) x j y -> slot_at V B x j y \/ (x = a /\ j = k /\ y = n)).
  { intros x j y (c' & ct' & sl & H1 & H2 & H3 & H4). apply lookup_insert_Some in H3 as [[<- [= <-]]|[_ H3]]; [|left; by exists c', ct', sl].
    destruct (decide (j = k)) as [->|]; [right; rewrite list_lookup_insert_eq in H4 by lia; split; [by eapply Huniq|]; split; congruence|].
    left. exists c, ct', slots. rewrite list_lookup_insert_ne in H4 by done. done. }
  assert (Hz : forall w, own !! 0 <> Some w) by (intros w E; by apply (m_nonzero _ _ _ _ _ _ H) in E).
  destruct H. split.
  - intros b. destruct (decide (c = b)) as [<-|]; [rewrite lookup_insert_eq, lookup_insert_ne, Hoc by done; split; eauto|].
    rewrite (lookup_insert_ne B) by done. destruct (decide (n = b)) as [<-|]; [rewrite lookup_insert_eq, HBn; split; eauto|].
    rewrite lookup_insert_ne by done. apply m_dom0.
  - by rewrite lookup_insert_ne.
  - intros x c' ct' Hx Hc'. destruct (m_compiled0 x c' ct' Hx Hc') as (? & sl & ? & ?). rewrite (lookup_insert_ne own) by congruence. split; [done|].
    destruct (decide (c = c')) as [<-|]; [|rewrite lookup_insert_ne by done; eauto]. rewrite lookup_insert_eq. eexists. split; [done|]. by rewrite length_insert.
  - intros x j y Hs Hy. destruct (Hback x j y Hs) as [Hs'|(-> & -> & ->)].
    + destruct (m_slot0 x j y Hs' Hy) as (? & c' & ct' & text' & ? & ? & ?). rewrite !lookup_insert_ne by congruence. eauto 8.
    + rewrite lookup_insert_eq. split; [done|]. rewrite lookup_insert_ne by done. eauto 8.
  - intros b w. rewrite lookup_insert_Some. intros [[<- <-]|[Hne Hb]]; [done|]. specialize (m_owner0 b w Hb).
    destruct w as [x|x j|t']; cbn in *; [done|apply Hslot; [|done]; intros ->; by apply Hz in Hb|].
    destruct m_owner0 as (p & Ht' & Hp). exists p. split; [|done]. rewrite lookup_insert_ne; [done|]. intros <-. rewrite Ht in Ht'.
    injection Ht' as <-. cbn in Hp. congruence.
  - intros t' p. rewrite lookup_insert_Some. intros [[<- <-]|[Hne Ht']]; [done|]. eapply pc_mono; [by apply m_calls0|apply vext_refl|intros ? ?; apply Hslot|].
    intros x Hx. by rewrite !lookup_insert_ne by congruence.
Qed.

(** Freeing an array of distinct blocks frees just those. *)
Lemma free_all_ok B ps : (forall i j p, ps !! i = Some p -> ps !! j = Some p -> p <> 0 -> i = j) -> (forall p, p ∈ ps -> p <> 0 -> is_Some (B !! p)) ->
  exists B', free_all B ps = Some B' /\ forall b, (b ∈ ps /\ b <> 0 -> B' !! b = None) /\ (~ (b ∈ ps /\ b <> 0) -> B' !! b = B !! b).
Proof.
  revert B. induction ps as [|p ps IH]; intros B Hd HB; cbn [free_all].
  { exists B. split; [done|]. intros b. split; [|done]. by intros [?%not_elem_of_nil _]. }
  assert (Hd' : forall i j y, ps !! i = Some y -> ps !! j = Some y -> y <> 0 -> i = j) by (intros i j y Hi Hj Hy; by injection (Hd (S i) (S j) y Hi Hj Hy)).
  unfold free. destruct (Z.eqb_spec p 0) as [->|Hp]; cbn [mbind option_bind].
  - destruct (IH B) as (B' & -> & HB'); [done|intros y Hy; apply HB; by apply list_elem_of_further|]. exists B'. split; [done|].
    intros b. rewrite elem_of_cons. split; [intros [[->|Hb] H0]; [done|by apply HB']|]. intros Hb. apply HB'. tauto.
  - destruct (HB p) as [blk E]; [apply list_elem_of_here|done|]. rewrite E. cbn [mbind option_bind].
    assert (Hnp : p ∉ ps). { intros [j Hj]%list_elem_of_lookup_1. by discriminate (Hd 0%nat (S j) p eq_refl Hj Hp). }
    destruct (IH (delete p B)) as (B' & -> & HB'); [done| |].
    { intros y Hy Hy0. rewrite lookup_delete_ne by congruence. apply HB; [by apply list_elem_of_further|done]. }
    exists B'. split; [done|]. intros b. rewrite elem_of_cons. split.
    + intros [[->|Hb] H0]; [|by apply HB']. destruct (HB' p) as [_ ->]; [apply lookup_delete_eq|tauto].
    + intros Hb. destruct (HB' b) as [_ ->]; [apply lookup_delete_ne|]; [intros <-; tauto|tauto].
Qed.

(** What freelocale frees besides the object is what the object holds. *)
Lemma free_compiled_ok own V B calls a c ct : minv own V B calls -> V !! a = Some (c, ct) ->
  exists B', free_compiled B c = Some B' /\ forall b, B' !! b = match own !! b with
    | Some w => if bool_decide (owner_locale w = Some a) then None else B !! b
    | None => None
    end.
Proof.
  intros H Ha. assert (Hdom : forall b, own !! b = None -> B !! b = None).
  { intros b Hb. destruct (B !! b) eqn:E; [|done]. assert (is_Some (own !! b)) as [? ?] by (apply (m_dom _ _ _ _ H); eauto). congruence. }
  assert (Hown : forall b w, own !! b = Some w -> owner_locale w = Some a -> c <> 0 /\ (b = c \/ exists k, slot_at V B a k b)).
  { intros b w Hb Hw. pose proof (m_owner _ _ _ _ H b w Hb) as Ho. destruct w as [x|x k|t]; cbn in Hw, Ho; [| |done]; injection Hw as ->.
    - destruct Ho as [ct' Ho]. rewrite Ha in Ho. injection Ho as <- _. split; [|by left]. by eapply m_nonzero in Hb.
    - split; [|right; by exists k]. destruct Ho as (c' & ct' & _ & Ho & H0 & _). congruence. }
  unfold free_compiled. destruct (Z.eqb_spec c 0) as [->|Hc].
  { exists B. split; [done|]. intros b. destruct (own !! b) as [w|] eqn:E; [|by apply Hdom]. case_bool_decide as Hw; [|done].
    by destruct (Hown b w E Hw). }
  destruct (m_compiled _ _ _ _ H _ _ _ Ha Hc) as (Hoc & slots & HBc & Hlen). rewrite HBc. cbn [mbind option_bind].
  assert (Hs : forall i p, slots !! i = Some p -> p <> 0 -> own !! p = Some (OSlot a i)).
  { intros i p Hi Hp. apply (m_slot _ _ _ _ H a i p); [by exists c, ct, slots|done]. }
  destruct (free_all_ok B slots) as (B1 & -> & HB1).
  { intros i j p Hi Hj Hp. pose proof (Hs i p Hi Hp). pose proof (Hs j p Hj Hp). congruence. }
  { intros p [i Hi]%list_elem_of_lookup_1 Hp. apply (m_dom _ _ _ _ H). eauto. }
  cbn [mbind option_bind]. assert (Hcs : c ∉ slots) by (intros [i Hi]%list_elem_of_lookup_1; pose proof (Hs i c Hi Hc); congruence).
  unfold free. rewrite (proj2 (Z.eqb_neq c 0)) by done. destruct (HB1 c) as [_ ->]; [|tauto]. rewrite HBc. cbn [mbind option_bind].
  eexists. split; [done|]. intros b. destruct (decide (c = b)) as [<-|Hcb].
  { rewrite lookup_delete_eq, Hoc. cbn [owner_locale]. by rewrite bool_decide_true. }
  rewrite lookup_delete_ne by done. destruct (decide (b ∈ slots /\ b <> 0)) as [Hb|Hb].
  - destruct (HB1 b) as [-> _]; [|done]. destruct Hb as [[i Hi]%list_elem_of_lookup_1 Hb0]. rewrite (Hs i b Hi Hb0). cbn [owner_locale]. by rewrite bool_decide_true.
  - destruct (HB1 b) as [_ ->]; [|done]. destruct (own !! b) as [w|] eqn:E; [|by apply Hdom]. case_bool_decide as Hw; [|done]. exfalso.
    destruct (Hown b w E Hw) as [_ [?|(k & c' & ct' & sl & H1 & _ & H3 & H4)]]; [done|]. apply Hb. rewrite Ha in H1. injection H1 as <- <-.
    rewrite HBc in H3. injection H3 as <-. split; [by eapply list_elem_of_lookup_2|]. by eapply m_nonzero in E.
Qed.

(** The last reference to an object goes. *)
Lemma minv_last own V B calls a c ct : minv own V B calls -> V !! a = Some (c, ct) -> (forall t p, calls !! t = Some p -> pc_locale p <> a) ->
  exists own' B', free_compiled B c = Some B' /\ minv own' (delete a V) B' calls.
Proof.
  intros H Ha Hcalls. destruct (free_compiled_ok own V B calls a c ct H Ha) as (B' & E & HB').
  exists (filter (fun x => owner_locale x.2 <> Some a) own), B'. split; [done|].
  assert (Hkeep : forall b w, own !! b = Some w -> owner_locale w <> Some a -> B' !! b = B !! b).
  { intros b w Hb Hw. rewrite HB', Hb. by rewrite bool_decide_false. }
  assert (Hsub : forall b blk, B' !! b = Some blk -> B !! b = Some blk).
  { intros b blk. rewrite HB'. destruct (own !! b); [|done]. by case_bool_decide. }
  assert (Hslot : forall x k y, x <> a -> slot_at V B x k y -> slot_at (delete a V) B' x k y).
  { intros x k y Hx (c' & ct' & sl & H1 & H2 & H3 & H4). exists c', ct', sl. rewrite lookup_delete_ne by done. repeat (split; [done|]). split; [|done].
    destruct (m_compiled _ _ _ _ H _ _ _ H1 H2) as [Hc' _]. rewrite (Hkeep c' _ Hc'); [done|]. cbn. congruence. }
  assert (Hback : forall x k y, slot_at (delete a V) B' x k y -> x <> a /\ slot_at V B x k y).
  { intros x k y (c' & ct' & sl & H1 & H2 & H3 & H4). apply lookup_delete_Some in H1 as [Hx H1]. split; [done|]. exists c', ct', sl. auto. }
  destruct H. split.
  - intros b. rewrite HB'. destruct (own !! b) as [w|] eqn:Eb.
    + case_bool_decide as Hw.
      * rewrite (proj2 (map_lookup_filter_None _ _ _)); [done|]. right. intros w' ?. cbn. congruence.
      * rewrite (proj2 (map_lookup_filter_Some _ _ _ w)); [|done]. split; [by eauto|]. intros _. apply m_dom0. eauto.
    + rewrite (proj2 (map_lookup_filter_None _ _ _)); [done|]. by left.
  - destruct (B' !! 0) eqn:E0; [|done]. apply Hsub in E0. congruence.
  - intros x c' ct'. rewrite lookup_delete_Some. intros [Hx H1] Hc'. destruct (m_compiled0 x c' ct' H1 Hc') as (Ho & sl & ? & ?).
    rewrite map_lookup_filter_Some. cbn. split; [split; [done|congruence]|]. exists sl. split; [|done]. rewrite (Hkeep c' _ Ho); [done|cbn; congruence].
  - intros x k y Hs Hy. destruct (Hback x k y Hs) as [Hx Hs']. destruct (m_slot0 x k y Hs' Hy) as (Ho & c' & ct' & text & ? & ? & ?).
    rewrite map_lookup_filter_Some. cbn. split; [split; [done|congruence]|]. exists c', ct', text. rewrite lookup_delete_ne by done.
    split; [done|]. split; [|done]. rewrite (Hkeep y _ Ho); [done|cbn; congruence].
  - intros b w. rewrite map_lookup_filter_Some. cbn. intros [Hb Hw]. specialize (m_owner0 b w Hb). destruct w as [x|x k|t]; cbn in *; [|apply Hslot; congruence|done].
    destruct m_owner0 as [ct' ?]. exists ct'. rewrite lookup_delete_ne; congruence.
  - intros t p Ht. pose proof (Hcalls t p Ht) as Hne. eapply pc_mono; [by apply m_calls0| | |].
    + intros c' ct' Hv. exists c'. by rewrite lookup_delete_ne.
    + intros k y _. by apply Hslot.
    + intros x Hx. rewrite map_lookup_filter_Some. cbn. split; [done|]. by rewrite (Hkeep x _ Hx).
Qed.

End memory.

(** ** References *)

(** The references to a locale: those of the program, and one for ever to the static objects. *)
Definition references (owned : list Z) (a : Z) : Z := (if is_static a then 1 else 0) + Z.of_nat (count_occ Z.eq_dec owned a).

Definition object_ok (owned : list Z) (a : Z) (o : locale) : Prop :=
  a <> 0 /\ complete (cats o) = true /\ refcount o = references owned a /\ 0 < refcount o.

Record rinv (s : lstate) : Prop := {
  r_usable a : usable (owned s) a -> is_Some (objects s !! a);
  r_object a o : objects s !! a = Some o -> object_ok (owned s) a o;
  r_room : Z.of_nat (length (owned s)) <= 2 ^ 32 - 2;
  r_calls t p : calls s !! t = Some p -> usable (owned s) (pc_locale p)
}.

Lemma references_cons own a x : references (a :: own) x = references own x + (if decide (a = x) then 1 else 0).
Proof. unfold references. cbn [count_occ]. destruct (Z.eq_dec a x), (decide (a = x)); congruence || lia. Qed.

Lemma references_perm own own' x : own ≡ₚ own' -> references own x = references own' x.
Proof. intros H. unfold references. by rewrite (proj1 (Permutation_count_occ Z.eq_dec own own') H x). Qed.

Lemma references_bound own a : Z.of_nat (length own) <= 2 ^ 32 - 2 -> references own a < 2 ^ 32.
Proof. intros H. unfold references. pose proof (count_occ_bound Z.eq_dec a own). destruct (is_static a); lia. Qed.

Lemma usable_references own a : usable own a <-> 0 < references own a.
Proof.
  unfold usable, references. rewrite list_elem_of_In, (count_occ_In Z.eq_dec). destruct (is_static a).
  - split; [lia|by left].
  - split; [intros [?|?]; [done|lia]|right; lia].
Qed.

Lemma usable_cons own a x : usable own x -> usable (a :: own) x.
Proof. rewrite !usable_references, references_cons. destruct (decide (a = x)); lia. Qed.

(** A reference more to an object that is there, or the first to a new one. *)
Lemma rinv_acquire s a o c ct objs : rinv s -> room s ->
  (objects s !! a = Some o /\ c = refcount o + 1 /\ ct = cats o \/ objects s !! a = None /\ is_static a = false /\ a <> 0 /\ c = 1 /\ complete ct = true) ->
  forall cp, objs = <[a := Locale c cp ct]> (objects s) -> rinv (LState objs (blocks s) (a :: owned s) (calls s)).
Proof.
  intros H Hroom Hcase cp ->. unfold room in Hroom. split; cbn [objects owned calls].
  - intros x Hx. destruct (decide (a = x)) as [<-|Hne]; [rewrite lookup_insert_eq; by eauto|]. rewrite lookup_insert_ne by done. apply (r_usable s H).
    apply usable_references. apply usable_references in Hx. rewrite references_cons, decide_False in Hx by done. lia.
  - intros x o'. rewrite lookup_insert_Some. unfold object_ok. rewrite references_cons. intros [[<- <-]|[Hne Hx]].
    + rewrite decide_True by done. cbn. destruct Hcase as [(Ho & -> & ->)|(Hn & Hs & H0 & -> & Hc)].
      * destruct (r_object s H a o Ho) as (? & ? & ? & ?). repeat (split; [done || lia|]). lia.
      * split; [done|]. split; [done|]. split; [|lia]. cut (~ 0 < references (owned s) a); [unfold references; destruct (is_static a); lia|].
        intros Hu%usable_references. destruct (r_usable s H a Hu). congruence.
    + rewrite decide_False, Z.add_0_r by done. by apply (r_object s H).
  - cbn [length]. lia.
  - intros t p Ht. by apply usable_cons, (r_calls s H t).
Qed.

(** The results of newlocale. *)
Lemma newlocale_cases pad objs mask name base alloc b objs' r :
  objs !! (if base =? 0 then LC_C_LOCALE else base) = Some b -> complete (cats b) = true -> 0 < refcount b < 2 ^ 32 - 1 ->
  newlocale pad objs mask name base alloc = Some (objs', r) ->
  (exists e, objs' = objs /\ r = inr e) \/
  (r = inl (if base =? 0 then LC_C_LOCALE else base) /\
    objs' = <[(if base =? 0 then LC_C_LOCALE else base) := Locale (refcount b + 1) (compiled b) (cats b)]> objs) \/
  (exists copy new, alloc = Some copy /\ r = inl copy /\ complete new = true /\ objs' = <[copy := Locale 1 0 new]> objs).
Proof.
  intros Hb Hc Hr. unfold newlocale. destruct (requested pad name) as [want|]; [|done]. cbn [mbind option_bind]. rewrite Hb. cbn [mbind option_bind].
  rewrite patch_ok by done. destruct (complete (merged mask want (cats b))) eqn:E; [|intros [= <- <-]; left; by eauto].
  destruct (negb _).
  - destruct alloc as [copy|]; intros [= <- <-]; [|left; by eauto]. right. right. by exists copy, (merged mask want (cats b)).
  - unfold refcount_acquire. rewrite (proj2 (Z.ltb_lt _ _)) by lia. cbn [mbind option_bind]. rewrite uN_small by (unfold in_unsigned; lia).
    intros [= <- <-]. right. by left.
Qed.

Lemma newlocale_total pad objs mask name base alloc b : is_string name -> pad <> None \/ language_of name = None ->
  objs !! (if base =? 0 then LC_C_LOCALE else base) = Some b -> complete (cats b) = true -> 0 < refcount b ->
  is_Some (newlocale pad objs mask name base alloc).
Proof.
  intros Hn Hpad Hb Hc Hr. unfold newlocale. destruct (requested_total pad name Hn Hpad) as [want ->]. cbn [mbind option_bind]. rewrite Hb. cbn [mbind option_bind].
  rewrite patch_ok by done. destruct (complete (merged mask want (cats b))); [|by eauto]. destruct (negb _); [destruct alloc; by eauto|].
  unfold refcount_acquire. rewrite (proj2 (Z.ltb_lt _ _)) by lia. by eauto.
Qed.

(** ** The invariant *)

Section lifetime.
Context (wide : categories -> nat -> option (list Z)).

Definition linv (s : lstate) : Prop := rinv s /\ exists own, minv wide own (view_of (objects s)) (blocks s) (calls s).

Lemma view_lookup objs a c ct : view_of objs !! a = Some (c, ct) <-> exists o, objs !! a = Some o /\ compiled o = c /\ cats o = ct.
Proof.
  unfold view_of. rewrite lookup_fmap_Some. split.
  - intros (o & [= <- <-] & Ho). eauto.
  - intros (o & Ho & <- & <-). eauto.
Qed.

Lemma view_insert objs a o : view_of (<[a := o]> objs) = <[a := (compiled o, cats o)]> (view_of objs).
Proof. unfold view_of. by rewrite fmap_insert. Qed.

(** A change of the count alone does not matter to memory. *)
Lemma view_count objs a o c : objs !! a = Some o -> view_of (<[a := Locale c (compiled o) (cats o)]> objs) = view_of objs.
Proof. intros Ho. rewrite view_insert. cbn. apply insert_id. apply view_lookup. eauto. Qed.

Lemma linv_initial : linv linitial.
Proof.
  split.
  - split; cbn [objects owned calls linitial].
    + intros a [Ha|Ha%not_elem_of_nil]; [|done]. unfold is_static in Ha. apply orb_true_iff in Ha as [Ha%Z.eqb_eq|Ha%Z.eqb_eq]; subst a; by eauto.
    + intros a o. rewrite lookup_insert_Some. intros [[<- <-]|[_ Ho]]; [by repeat split|]. apply lookup_singleton_Some in Ho as [<- <-]. by repeat split.
    + done.
    + intros t p. by rewrite lookup_empty.
  - exists ∅. split; cbn [blocks calls linitial].
    + intros b. by rewrite !lookup_empty.
    + done.
    + intros a c ct Ha Hc. exfalso. apply Hc. apply view_lookup in Ha as (o & Ho & <- & _). cbn in Ho.
      apply lookup_insert_Some in Ho as [[_ <-]|[_ Ho]]; [done|]. by apply lookup_singleton_Some in Ho as [_ <-].
    + intros a k p (c & ct & slots & _ & _ & HB & _). by rewrite lookup_empty in HB.
    + intros b w. by rewrite lookup_empty.
    + intros t p. by rewrite lookup_empty.
Qed.

Lemma linv_newlocale pad s mask name base alloc objs r : linv s -> base = 0 \/ usable (owned s) base -> alloc_ok s alloc -> room s ->
  newlocale pad (objects s) mask name base alloc = Some (objs, r) ->
  linv (LState objs (blocks s) (match r with inl a => a :: owned s | inr _ => owned s end) (calls s)).
Proof.
  intros [Hr [own Hm]] Hbase Ha Hroom E. set (base' := if base =? 0 then LC_C_LOCALE else base).
  assert (Hu : usable (owned s) base').
  { subst base'. destruct (Z.eqb_spec base 0); [by left|]. by destruct Hbase. }
  destruct (r_usable s Hr base' Hu) as [b Hb]. destruct (r_object s Hr base' b Hb) as (H0 & Hc & Href & Hpos).
  assert (refcount b < 2 ^ 32 - 1).
  { rewrite Href. unfold references. pose proof (count_occ_bound Z.eq_dec base' (owned s)). unfold room in Hroom. destruct (is_static base'); lia. }
  destruct (newlocale_cases pad (objects s) mask name base alloc b objs r Hb Hc ltac:(lia) E) as [(e & -> & ->)|[(-> & ->)|(copy & new & -> & -> & Hn & ->)]].
  - destruct s. split; [exact Hr|by exists own].
  - fold base'. split; [by eapply (rinv_acquire s base' b); [done|done|left|]|]. exists own. cbn [objects blocks calls]. by rewrite view_count.
  - cbn in Ha. destruct Ha as (Hc0 & Hst & Hobj & Hblk). split; [by eapply (rinv_acquire s copy b); [done|done|right|]|].
    exists own. cbn [objects blocks calls]. rewrite view_insert. apply minv_object; [done|]. unfold view_of. by rewrite lookup_fmap, Hobj.
Qed.

Lemma linv_duplocale s a objs : linv s -> usable (owned s) a -> room s -> duplocale (objects s) a = Some objs ->
  linv (LState objs (blocks s) (a :: owned s) (calls s)).
Proof.
  intros [Hr [own Hm]] Hu Hroom E. destruct (r_usable s Hr a Hu) as [o Ho]. destruct (r_object s Hr a o Ho) as (H0 & Hc & Href & Hpos).
  assert (Hb : refcount o < 2 ^ 32 - 1).
  { rewrite Href. unfold references. pose proof (count_occ_bound Z.eq_dec a (owned s)). unfold room in Hroom. destruct (is_static a); lia. }
  unfold duplocale, refcount_acquire in E. rewrite Ho in E. cbn [mbind option_bind] in E. rewrite (proj2 (Z.ltb_lt _ _)) in E by lia.
  cbn [mbind option_bind] in E. rewrite uN_small in E by (unfold in_unsigned; lia). injection E as <-.
  split; [by eapply (rinv_acquire s a o); [done|done|left|]|]. exists own. cbn [objects blocks calls]. by rewrite view_count.
Qed.

(** freelocale is defined, and takes the object with the last reference. *)
Lemma linv_freelocale s a own : linv s -> owned s ≡ₚ a :: own -> (forall t p, calls s !! t = Some p -> usable own (pc_locale p)) ->
  exists objs bl, freelocale (objects s) (blocks s) a = Some (objs, bl) /\ linv (LState objs bl own (calls s)).
Proof.
  intros [Hr [ow Hm]] Hown Hcalls.
  assert (Hrefs : forall x, references (owned s) x = references own x + (if decide (a = x) then 1 else 0)).
  { intros x. by rewrite (references_perm _ _ x Hown), references_cons. }
  assert (Hmono : forall x, usable own x -> usable (owned s) x) by (intros x; rewrite !usable_references, Hrefs; destruct (decide (a = x)); lia).
  assert (Hu : usable (owned s) a) by (right; rewrite Hown; apply list_elem_of_here).
  destruct (r_usable s Hr a Hu) as [o Ho]. destruct (r_object s Hr a o Ho) as (H0 & Hc & Href & Hpos).
  pose proof (references_bound _ a (r_room s Hr)) as Hb. pose proof (r_room s Hr) as Hroom. rewrite Hown in Hroom. cbn [length] in Hroom.
  assert (Hself : references (owned s) a = references own a + 1) by (by rewrite Hrefs, decide_True). assert (0 <= references own a) by (unfold references; destruct (is_static a); lia).
  unfold freelocale. rewrite Ho. cbn [mbind option_bind]. unfold refcount_release. rewrite Href, Hself.
  destruct (Z.eqb_spec (references own a + 1) 1) as [E|E]; cbn [negb].
  - assert (Hna : ~ usable own a) by (rewrite usable_references; lia). assert (is_static a = false) as -> by (destruct (is_static a) eqn:Es; [by destruct Hna; left|done]).
    destruct (minv_last wide ow (view_of (objects s)) (blocks s) (calls s) a (compiled o) (cats o)) as (own' & B' & -> & Hm'); [done|apply view_lookup; by eauto|by intros t p Ht <-; eapply Hna, Hcalls|].
    cbn [mbind option_bind]. eexists _, _. split; [reflexivity|]. split; [|exists own'; cbn [objects blocks calls]; unfold view_of in *; by rewrite fmap_delete].
    split; cbn [objects owned calls]; [| |lia|done].
    + intros x Hx. rewrite lookup_delete_ne by (by intros <-). apply (r_usable s Hr). by apply Hmono.
    + intros x o'. rewrite lookup_delete_Some. intros [Hne Hx]. destruct (r_object s Hr x o' Hx) as (? & ? & Hx' & ?). rewrite Hrefs, decide_False in Hx' by done.
      split; [done|]. split; [done|]. split; [lia|done].
  - replace (references own a + 1 - 1) with (references own a) by lia. rewrite uN_small by (unfold in_unsigned; lia).
    eexists _, _. split; [reflexivity|]. split; [|exists ow; cbn [objects blocks calls]; by rewrite view_count].
    split; cbn [objects owned calls]; [| |lia|done].
    + intros x Hx. destruct (decide (a = x)) as [<-|]; [rewrite lookup_insert_eq; by eauto|]. rewrite lookup_insert_ne by done. apply (r_usable s Hr). by apply Hmono.
    + intros x o'. rewrite lookup_insert_Some. intros [[<- <-]|[Hne Hx]]; [repeat (split; [done|]); cbn; lia|].
      destruct (r_object s Hr x o' Hx) as (? & ? & Hx' & ?). rewrite Hrefs, decide_False in Hx' by done. split; [done|]. split; [done|]. split; [lia|done].
Qed.

(** Steps of calls leave the counts and the categories. *)
Lemma rinv_calls s objs B t q : rinv s -> (forall a o, objs !! a = Some o -> exists o', objects s !! a = Some o' /\ refcount o = refcount o' /\ cats o = cats o') ->
  (forall a, is_Some (objects s !! a) -> is_Some (objs !! a)) -> usable (owned s) (pc_locale q) ->
  rinv (LState objs B (owned s) (<[t := q]> (calls s))).
Proof.
  intros Hr H1 H2 H3. split; cbn [objects owned calls].
  - intros a Ha. by apply H2, (r_usable s Hr).
  - intros a o Ho. destruct (H1 a o Ho) as (o' & Ho' & E1 & E2). unfold object_ok. rewrite E1, E2. by apply (r_object s Hr).
  - apply (r_room s Hr).
  - intros t' p'. rewrite lookup_insert_Some. intros [[<- <-]|[_ Ht]]; [done|]. by apply (r_calls s Hr t').
Qed.

Lemma linv_call s B own' t q : rinv s -> usable (owned s) (pc_locale q) -> minv wide own' (view_of (objects s)) B (<[t := q]> (calls s)) ->
  linv (LState (objects s) B (owned s) (<[t := q]> (calls s))).
Proof. intros Hr Hu Hm. split; [|by exists own']. apply rinv_calls; [done|by eauto|done|done]. Qed.

Lemma linv_goto s own t p q : rinv s -> minv wide own (view_of (objects s)) (blocks s) (calls s) -> calls s !! t = Some p ->
  pc_block p = None -> pc_locale q = pc_locale p -> pc_ok wide own (view_of (objects s)) (blocks s) t q ->
  linv (LState (objects s) (blocks s) (owned s) (<[t := q]> (calls s))).
Proof.
  intros Hr Hm Ht Hpb Hl Hq. eapply (linv_call s _ own); [done|rewrite Hl; by apply (r_calls s Hr t)|]. apply minv_goto; [done| |done].
  intros p'. rewrite Ht. by intros [= <-].
Qed.

Lemma linv_alloc s own t p q n blk : rinv s -> minv wide own (view_of (objects s)) (blocks s) (calls s) -> calls s !! t = Some p ->
  pc_block p = None -> pc_locale q = pc_locale p -> fresh s n -> pc_block q = Some n ->
  pc_ok wide (<[n := OCall t]> own) (view_of (objects s)) (<[n := blk]> (blocks s)) t q ->
  linv (LState (objects s) (<[n := blk]> (blocks s)) (owned s) (<[t := q]> (calls s))).
Proof.
  intros Hr Hm Ht Hpb Hl (H0 & _ & _ & Hn) Hq Hok. eapply linv_call; [done|rewrite Hl; by apply (r_calls s Hr t)|]. apply minv_alloc; [done| |done..].
  intros p'. rewrite Ht. by intros [= <-].
Qed.

(** A thread that comes too late frees its copy. *)
Lemma linv_free s own t p q n blk : rinv s -> minv wide own (view_of (objects s)) (blocks s) (calls s) -> calls s !! t = Some p ->
  pc_block p = Some n -> own !! n = Some (OCall t) -> blocks s !! n = Some blk -> pc_locale q = pc_locale p ->
  pc_ok wide (delete n own) (view_of (objects s)) (delete n (blocks s)) t q ->
  exists B, free (blocks s) n = Some B /\ linv (LState (objects s) B (owned s) (<[t := q]> (calls s))).
Proof.
  intros Hr Hm Ht Hpb Hon HBn Hl Hok. pose proof (m_nonzero _ _ _ _ _ _ _ Hm Hon) as Hn0. unfold free. rewrite (proj2 (Z.eqb_neq n 0)), HBn by done.
  eexists. split; [reflexivity|]. eapply linv_call; [done|rewrite Hl; by apply (r_calls s Hr t)|]. by eapply minv_free.
Qed.

(** __locale_get_compiled installs a structure, or takes the one that is there. *)
Lemma exchange_ok s own t a k n alloc junk : rinv s -> minv wide own (view_of (objects s)) (blocks s) (calls s) -> calls s !! t = Some (LExchange a k n) ->
  exists s', call_step wide s t (LExchange a k n) alloc junk = Some s' /\ linv s'.
Proof.
  intros Hr Hm Ht. destruct (m_calls _ _ _ _ _ Hm t _ Ht) as (Hk & (c & ct & Hv & Hw) & Hon & HBn). pose proof (r_calls s Hr t _ Ht) as Hu.
  pose proof Hv as Hv'. apply view_lookup in Hv' as (o & Ho & <- & <-). cbn [call_step]. rewrite Ho. cbn [mbind option_bind]. destruct (Z.eqb_spec (compiled o) 0) as [E|E].
  - eexists. split; [reflexivity|]. split.
    + apply rinv_calls; [done| | |done].
      * intros x o'. rewrite lookup_insert_Some. intros [[<- <-]|[_ Hx]]; by eauto.
      * intros x Hx. rewrite lookup_insert_is_Some. destruct (decide (a = x)); by auto.
    + eexists. cbn [objects blocks calls]. rewrite view_insert. cbn. apply minv_exchange; [done|done|]. by rewrite <- E.
  - destruct (linv_free s own t (LExchange a k n) (LSlot a k (compiled o)) n (BCompiled (replicate lc_compiled_slots 0)) Hr Hm Ht) as (B & -> & Hl);
      [done|done|done|done|cbn; by eauto 6|]. by eexists.
Qed.

(** convert_wstring in a locale with all categories. *)
Lemma convert_step_ok s own t a k c alloc junk : rinv s -> minv wide own (view_of (objects s)) (blocks s) (calls s) -> calls s !! t = Some (LConvert a k c) ->
  alloc_ok s alloc -> exists s', call_step wide s t (LConvert a k c) alloc junk = Some s' /\ linv s'.
Proof.
  intros Hr Hm Ht Ha. destruct (m_calls _ _ _ _ _ Hm t _ Ht) as (Hk & Hc & ct & Hv & [w Hw]). pose proof Hv as Hv'. apply view_lookup in Hv' as (o & Ho & <- & <-).
  destruct (r_object s Hr a o Ho) as (_ & Hcomp & _). unfold complete in Hcomp. rewrite !andb_true_iff in Hcomp. destruct Hcomp as (_ & Hct & _).
  cbn [call_step]. rewrite Ho. cbn [mbind option_bind]. unfold ctype_of. destruct (ctype (cats o)) as [r|] eqn:Er; [|done].
  cbn [fmap option_fmap option_map mbind option_bind]. rewrite Hw. cbn [mbind option_bind].
  destruct (convert_total (ctype_data r) w (bool_decide (is_Some alloc)) junk) as [x Hx]. rewrite Hx. cbn [mbind option_bind].
  assert (Hdone : linv (LState (objects s) (blocks s) (owned s) (<[t := LDone a k None]> (calls s)))).
  { eapply linv_goto; [done|done|exact Ht|done|done|]. cbn. by eauto. }
  destruct x as [text|]; [|by eexists]. destruct alloc as [new|]; [|by eexists]. eexists. split; [reflexivity|].
  eapply linv_alloc; [done|done|exact Ht|done|done|done|done|]. cbn. rewrite !lookup_insert_eq. repeat (split; [done|]). exists (cats o), text.
  split; [done|]. split; [done|]. exists (ctype_data r), w, junk. unfold ctype_of. rewrite Er. rewrite bool_decide_true in Hx by eauto. done.
Qed.

(** A string is installed, or the one that is there taken. *)
Lemma publish_ok s own t a k c n alloc junk : rinv s -> minv wide own (view_of (objects s)) (blocks s) (calls s) -> calls s !! t = Some (LPublish a k c n) ->
  exists s', call_step wide s t (LPublish a k c n) alloc junk = Some s' /\ linv s'.
Proof.
  intros Hr Hm Ht. destruct (m_calls _ _ _ _ _ Hm t _ Ht) as (Hk & Hc & Hon & ct & text & Hv & HBn & Htext). pose proof (r_calls s Hr t _ Ht) as Hu.
  destruct (m_compiled _ _ _ _ _ Hm _ _ _ Hv Hc) as (Hoc & slots & HB & Hl). cbn [call_step]. rewrite HB. cbn [mbind option_bind].
  destruct (lookup_lt_is_Some_2 slots k) as [y Hy]; [lia|]. rewrite Hy. cbn [mbind option_bind]. destruct (Z.eqb_spec y 0) as [->|Hy0].
  - eexists. split; [reflexivity|]. eapply linv_call; [done|done|]. by apply minv_publish.
  - destruct (linv_free s own t (LPublish a k c n) (LDone a k (Some y)) n (BString text) Hr Hm Ht) as (B & -> & Hinv); [done|done|done|done| |by eexists].
    cbn. split; [done|]. exists c, ct, slots. rewrite lookup_delete_ne by congruence. done.
Qed.

(** Every step of a call is defined. *)
Lemma call_step_ok s t p alloc junk : linv s -> calls s !! t = Some p -> alloc_ok s alloc -> (forall a k r, p <> LDone a k r) ->
  exists s', call_step wide s t p alloc junk = Some s' /\ linv s'.
Proof.
  intros [Hr [own Hm]] Ht Ha Hnd. pose proof (m_calls _ _ _ _ _ Hm t p Ht) as Hp. pose proof (linv_goto s own t p) as Hgoto.
  destruct p as [a k|a k|a k n|a k c|a k c|a k c n|a k r];
    [| |by eapply exchange_ok| |by eapply convert_step_ok|by eapply publish_ok|by destruct (Hnd a k r)]; cbn in Hp, Hgoto |- *.
  - destruct Hp as [Hk [[c ct] Hv]]. pose proof Hv as Hv'. apply view_lookup in Hv' as (o & Ho & <- & <-). rewrite Ho. cbn [mbind option_bind].
    destruct (wide (cats o) k) as [w|] eqn:Ew; (eexists; split; [reflexivity|]); [|apply Hgoto; try done; cbn; by eauto].
    destruct (Z.eqb_spec (compiled o) 0); apply Hgoto; try done; cbn; by eauto 6.
  - destruct Hp as (Hk & c & ct & Hv & Hw). destruct alloc as [new|]; (eexists; split; [reflexivity|]); [|apply Hgoto; try done; cbn; by eauto].
    eapply linv_alloc; [done|done|exact Ht|done|done|done|done|]. cbn. rewrite !lookup_insert_eq. split; [done|]. split; [by exists c, ct|done].
  - destruct Hp as (Hk & Hc & ct & Hv & Hw). destruct (m_compiled _ _ _ _ _ Hm _ _ _ Hv Hc) as (_ & slots & HB & Hl). rewrite HB. cbn [mbind option_bind].
    destruct (lookup_lt_is_Some_2 slots k) as [y Hy]; [lia|]. rewrite Hy. cbn [mbind option_bind]. eexists. split; [reflexivity|].
    destruct (Z.eqb_spec y 0); apply Hgoto; try done; cbn; [by eauto 6|]. split; [done|]. by exists c, ct, slots.
Qed.

(** A call that ends with the empty string had no string, got no memory, or met a character without encoding: not
    because another call was faster. *)
Lemma empty_result s t p alloc junk s' a k : linv s -> calls s !! t = Some p -> call_step wide s t p alloc junk = Some s' ->
  calls s' !! t = Some (LDone a k None) ->
  exists o, objects s !! a = Some o /\
    (wide (cats o) k = None \/ (alloc = None /\ (p = LAlloc a k \/ exists c, p = LConvert a k c)) \/
     exists C w, ctype_of (cats o) = Some C /\ wide (cats o) k = Some w /\
       (CtypeLaws C -> Forall (fun c => 0 < c) w -> Z.of_nat (length w) < 2 ^ 64 - 1 -> mapM (c32tomb C) w = None)).
Proof.
  intros [Hr [own Hm]] Ht. pose proof (m_calls _ _ _ _ _ Hm t p Ht) as Hp.
  destruct p as [a' k'|a' k'|a' k' n|a' k' c|a' k' c|a' k' c n|a' k' r]; cbn [call_step] in *; [| | | | | |done].
  - destruct (objects s !! a') as [o|] eqn:Ho; [|done]. cbn [mbind option_bind]. destruct (wide (cats o) k') as [w|] eqn:Ew;
      intros [= <-]; cbn [calls]; rewrite lookup_insert_eq; [by destruct (_ =? _)|]. intros [= <- <-]. exists o. auto.
  - destruct Hp as (Hk & c & ct & Hv & Hw). apply view_lookup in Hv as (o & Ho & <- & <-).
    destruct alloc as [new|]; intros [= <-]; cbn [calls]; rewrite lookup_insert_eq; [done|]. intros [= <- <-]. exists o. auto 6.
  - destruct (objects s !! a') as [o|]; [|done]. cbn [mbind option_bind]. destruct (_ =? 0); [|destruct (free _ _); [|done]];
      intros [= <-]; cbn [calls]; by rewrite lookup_insert_eq.
  - destruct (blocks s !! c) as [[slots|]|]; [|done..]. cbn [mbind option_bind]. destruct (slots !! k') as [y|]; [|done]. cbn [mbind option_bind].
    intros [= <-]. cbn [calls]. rewrite lookup_insert_eq. by destruct (y =? 0).
  - destruct (objects s !! a') as [o|] eqn:Ho; [|done]. cbn [mbind option_bind]. destruct (ctype_of (cats o)) as [C|] eqn:EC; [|done]. cbn [mbind option_bind].
    destruct (wide (cats o) k') as [w|] eqn:Ew; [|done]. cbn [mbind option_bind].
    destruct (convert_wstring C (w ++ [0]) _ junk) as [r|] eqn:Ec; [|done]. cbn [mbind option_bind]. destruct alloc as [new|].
    + destruct r as [text|]; intros [= <-]; cbn [calls]; rewrite lookup_insert_eq; [done|]. intros [= <- <-]. exists o. split; [done|]. right. right.
      exists C, w. repeat (split; [done|]). intros HL Hpos Hlen. rewrite bool_decide_true in Ec by eauto. rewrite convert_ok in Ec by done.
      destruct (mapM (c32tomb C) w); done.
    + destruct r as [text|]; intros [= <-]; cbn [calls]; rewrite lookup_insert_eq; intros [= <- <-]; exists o; eauto 10.
  - destruct (blocks s !! c) as [[slots|]|]; [|done..]. cbn [mbind option_bind]. destruct (slots !! k') as [y|]; [|done]. cbn [mbind option_bind].
    destruct (y =? 0); [|destruct (free _ _); [|done]]; intros [= <-]; cbn [calls]; by rewrite lookup_insert_eq.
Qed.

Lemma linv_step pad s s' : linv s -> lstep wide pad s s' -> linv s'.
Proof.
  intros H Hstep. destruct Hstep as [mask name base alloc objs r Hb Ha Hroom E|a objs Hu Hroom E|a own objs bl Hown Hc E|t a k Ht Hu Hk|t p alloc junk s' Ht Ha E|t a k r Ht].
  - by eapply linv_newlocale.
  - by eapply linv_duplocale.
  - destruct (linv_freelocale s a own H Hown Hc) as (? & ? & E' & ?). rewrite E in E'. by injection E' as <- <-.
  - destruct H as [Hr [own Hm]]. eapply (linv_call s _ own); [done|done|]. apply minv_goto; [done|by rewrite Ht|]. cbn. split; [done|].
    destruct (r_usable s Hr a Hu) as [o Ho]. unfold view_of. rewrite lookup_fmap, Ho. by eauto.
  - destruct (call_step_ok s t p alloc junk H Ht Ha) as (? & E' & ?); [by intros a k r ->|]. rewrite E in E'. by injection E' as ->.
  - destruct H as [Hr [own Hm]]. split.
    + split; [apply (r_usable s Hr)|apply (r_object s Hr)|apply (r_room s Hr)|]. cbn. intros t' p'. rewrite lookup_delete_Some. intros [_ Ht']. by apply (r_calls s Hr t').
    + exists own. apply minv_return; [done|]. intros p. rewrite Ht. by intros [= <-].
Qed.

Lemma linv_reachable pad s : lreachable wide pad s -> linv s.
Proof.
  unfold lreachable. intros H. pose proof linv_initial as Hi. induction H as [|x y z Hs _ IH]; [done|]. by apply IH; eapply linv_step.
Qed.

End lifetime.

(** ** Lifetime *)

(** A block that a static locale holds. *)
Definition static_block (s : lstate) (b : Z) : Prop :=
  exists a o, is_static a = true /\ objects s !! a = Some o /\
    (compiled o = b \/ exists slots k, blocks s !! compiled o = Some (BCompiled slots) /\ slots !! k = Some b).

(** C40: In every interleaving of newlocale, duplocale, freelocale and the calls that convert wide strings of locales
    (__locale_compile_wstring), with allocations that fail at any time: a locale that the program may use is an object with
    all categories whose count is the number of references, plus one for a static object; all functions are defined, so
    that no freed memory is accessed and nothing is freed twice (newlocale with the exception of C39: where the byte behind
    a language name cannot be read, only for names without a listed language); calls for the same wide string of a locale
    that return a string return the same pointer, to the encoding of the string in a lawful character set, while the locale
    lives; a call returns the empty string only if there is no wide string, if its own allocation failed, or if the string
    has no encoding, so not because another call was faster; and when all references are given back nothing is left but
    what the static locales hold. *)
Theorem locale_lifetime (wide : categories -> nat -> option (list Z)) (pad : option Z) (s : lstate) (Hs : lreachable wide pad s) :
  (forall a, usable (owned s) a -> exists o, objects s !! a = Some o /\ complete (cats o) = true /\ refcount o = references (owned s) a) /\
  (forall mask name base alloc, base = 0 \/ usable (owned s) base -> is_string name -> pad <> None \/ language_of name = None ->
    is_Some (newlocale pad (objects s) mask name base alloc)) /\
  (forall a, usable (owned s) a -> is_Some (duplocale (objects s) a)) /\
  (forall a own, owned s ≡ₚ a :: own -> (forall t p, calls s !! t = Some p -> usable own (pc_locale p)) ->
    is_Some (freelocale (objects s) (blocks s) a)) /\
  (forall t p alloc junk, calls s !! t = Some p -> alloc_ok s alloc -> (forall a k r, p <> LDone a k r) -> is_Some (call_step wide s t p alloc junk)) /\
  (forall t a k p, calls s !! t = Some (LDone a k (Some p)) ->
    (forall t' p', calls s !! t' = Some (LDone a k (Some p')) -> p' = p) /\
    exists o C w text, objects s !! a = Some o /\ ctype_of (cats o) = Some C /\ wide (cats o) k = Some w /\ blocks s !! p = Some (BString text) /\
      (CtypeLaws C -> Forall (fun c => 0 < c) w -> Z.of_nat (length w) < 2 ^ 64 - 1 ->
        exists bss, mapM (c32tomb C) w = Some bss /\ text = concat bss ++ [0])) /\
  (forall t p alloc junk s' a k, calls s !! t = Some p -> call_step wide s t p alloc junk = Some s' ->
    calls s' !! t = Some (LDone a k None) ->
    exists o, objects s !! a = Some o /\
      (wide (cats o) k = None \/ (alloc = None /\ (p = LAlloc a k \/ exists c, p = LConvert a k c)) \/
       exists C w, ctype_of (cats o) = Some C /\ wide (cats o) k = Some w /\
         (CtypeLaws C -> Forall (fun c => 0 < c) w -> Z.of_nat (length w) < 2 ^ 64 - 1 -> mapM (c32tomb C) w = None))) /\
  (owned s = [] -> calls s = ∅ -> (forall a, is_Some (objects s !! a) <-> is_static a = true) /\ forall b, is_Some (blocks s !! b) -> static_block s b).
Proof.
  pose proof (linv_reachable wide pad s Hs) as H. destruct (H) as [Hr [own Hm]].
  assert (Hobj : forall a, usable (owned s) a -> exists o, objects s !! a = Some o /\ complete (cats o) = true /\ refcount o = references (owned s) a /\ 0 < refcount o).
  { intros a Ha. destruct (r_usable s Hr a Ha) as [o Ho]. destruct (r_object s Hr a o Ho) as (? & ? & ? & ?). by exists o. }
  split; [|split; [|split; [|split; [|split; [|split; [|split]]]]]].
  - intros a Ha. destruct (Hobj a Ha) as (o & ? & ? & ? & _). by exists o.
  - intros mask name base alloc Hb Hn Hpad. assert (Hu : usable (owned s) (if base =? 0 then LC_C_LOCALE else base)).
    { destruct (Z.eqb_spec base 0); [by left|by destruct Hb]. }
    destruct (Hobj _ Hu) as (b & Hb' & Hc & _ & Hpos). by eapply newlocale_total.
  - intros a Ha. destruct (Hobj a Ha) as (o & Ho & _ & _ & Hpos). unfold duplocale, refcount_acquire. rewrite Ho. cbn [mbind option_bind].
    rewrite (proj2 (Z.ltb_lt _ _)) by lia. by eauto.
  - intros a own' Ho Hc. destruct (linv_freelocale wide s a own' H Ho Hc) as (? & ? & -> & _). by eauto.
  - intros t p alloc junk Ht Ha Hd. destruct (call_step_ok wide s t p alloc junk H Ht Ha Hd) as (? & -> & _). by eauto.
  - intros t a k p Ht. destruct (m_calls _ _ _ _ _ Hm t _ Ht) as [Hp Hslot]. split.
    + intros t' p' Ht'. destruct (m_calls _ _ _ _ _ Hm t' _ Ht') as [_ Hslot']. destruct Hslot as (c & ct & sl & H1 & _ & H2 & H3), Hslot' as (c' & ct' & sl' & H1' & _ & H2' & H3').
      congruence.
    + destruct (m_slot _ _ _ _ _ Hm a k p Hslot Hp) as (_ & c & ct & text & Hv & HB & C & w & junk & HC & Hw & Hconv).
      apply view_lookup in Hv as (o & Ho & _ & <-). exists o, C, w, text. repeat (split; [done|]). intros HL Hpos Hlen.
      rewrite convert_ok in Hconv by done. destruct (mapM (c32tomb C) w) as [bss|]; [|done]. cbn in Hconv. injection Hconv as <-. by exists bss.
  - intros t p alloc junk s' a k Ht E Hd. by apply (empty_result wide s t p alloc junk s').
  - intros Ho Hc. assert (Hst : forall a, is_Some (objects s !! a) -> is_static a = true).
    { intros a [o Ha]. destruct (r_object s Hr a o Ha) as (_ & _ & E & Hpos). rewrite E, Ho in Hpos. unfold references in Hpos. cbn in Hpos. by destruct (is_static a). }
    split; [intros a; split; [apply Hst|intros Ha; apply (r_usable s Hr); by left]|].
    intros b Hb. apply (m_dom _ _ _ _ _ Hm) in Hb as [w Hw]. pose proof (m_owner _ _ _ _ _ Hm b w Hw) as Hok. destruct w as [a|a k|t]; cbn in Hok.
    + destruct Hok as [ct Hv]. apply view_lookup in Hv as (o & Ha & <- & _). exists a, o. split; [apply Hst; by eauto|]. split; [done|]. by left.
    + destruct Hok as (c & ct & slots & Hv & _ & HB & Hk). apply view_lookup in Hv as (o & Ha & <- & _). exists a, o. split; [apply Hst; by eauto|]. split; [done|].
      right. by exists slots, k.
    + destruct Hok as (p & Hp & _). by rewrite Hc, lookup_empty in Hp.
Qed.

(** A string of a locale in UTF-8, converted for the first time. *)
Module LifeRun.

Definition euro (c : categories) (k : nat) : option (list Z) := Some [0x20ac].
Definition s1 : lstate :=
  LState (<[100 := Locale 1 0 (Categories (Some Collate_posix) (Some Ctype_utf_8) (Some Messages_en_us) (Some Monetary_posix)
                                 (Some Numeric_posix) (Some Time_posix) (Some Timezone_utc))]> (objects linitial)) ∅ [100] ∅.
Definition run (s : lstate) (p : lpc) (alloc : option Z) : lstate := default s (call_step euro s 1 p alloc 7).
Definition s2 : lstate := LState (objects s1) (blocks s1) (owned s1) (<[1 := LLoad 100 3]> (calls s1)).
Definition s3 : lstate := run s2 (LLoad 100 3) None.
Definition s4 : lstate := run s3 (LAlloc 100 3) (Some 200).
Definition s5 : lstate := run s4 (LExchange 100 3 200) None.
Definition s6 : lstate := run s5 (LSlot 100 3 200) None.
Definition s7 : lstate := run s6 (LConvert 100 3 200) (Some 300).
Definition s8 : lstate := run s7 (LPublish 100 3 200 300) None.

Lemma run_step s p alloc : calls s !! 1 = Some p -> alloc_ok s alloc -> is_Some (call_step euro s 1 p alloc 7) -> lstep euro None s (run s p alloc).
Proof. intros H1 H2 [s' E]. unfold run. rewrite E. by eapply step_run. Qed.

Lemma life_demo_reachable : lreachable euro None s8.
Proof.
  unfold lreachable. eapply rtc_l; [|eapply rtc_l; [|eapply rtc_l; [|eapply rtc_l; [|eapply rtc_l; [|eapply rtc_l; [|eapply rtc_l; [|eapply rtc_l; [|apply rtc_refl]]]]]]]].
  - apply (step_newlocale euro None linitial LC_CTYPE_MASK [46; 117; 116; 102; 45; 56] 0 (Some 100) (objects s1) (inl 100)); [by left|by repeat split|done|].
    vm_compute. reflexivity.
  - apply (step_call euro None s1 1 100 3); [done|right; apply list_elem_of_here|]. apply Nat.ltb_lt. reflexivity.
  - apply (run_step s2 (LLoad 100 3) None); [reflexivity|done|]. vm_compute. by eexists.
  - apply (run_step s3 (LAlloc 100 3) (Some 200)); [reflexivity|by repeat split|]. vm_compute. by eexists.
  - apply (run_step s4 (LExchange 100 3 200) None); [reflexivity|done|]. vm_compute. by eexists.
  - apply (run_step s5 (LSlot 100 3 200) None); [reflexivity|done|]. vm_compute. by eexists.
  - apply (run_step s6 (LConvert 100 3 200) (Some 300)); [reflexivity|by repeat split|]. vm_compute. by eexists.
  - apply (run_step s7 (LPublish 100 3 200 300) None); [reflexivity|done|]. vm_compute. by eexists.
Qed.

Lemma locale_lifetime_witness : calls s8 !! 1 = Some (LDone 100 3 (Some 300)) /\ is_Some (blocks s8 !! 300) /\ is_Some (duplocale (objects s8) 100).
Proof.
  assert (Hd : calls s8 !! 1 = Some (LDone 100 3 (Some 300))) by reflexivity.
  destruct (locale_lifetime euro None s8 life_demo_reachable) as (_ & _ & Hdup & _ & _ & Htext & _).
  split; [exact Hd|]. destruct (Htext 1 100 3%nat 300 Hd) as [_ (o & C & w & text & _ & _ & _ & HB & _)].
  split; [rewrite HB; eexists; reflexivity|]. apply Hdup. right. apply list_elem_of_here.
Defined.

End LifeRun.
